(* ===== verification/_CoqProject ===== *)
-Q . S2P
Prelude.v
Effects.v
Float64.v
PyVal.v
Access.v
Redact.v
Json.v
JsonText.v
AgentDto.v
SourceMetadata.v
Rrf.v
Hybrid.v
Rerank.v
RetrievalCache.v
CachedRetriever.v
RetrievalService.v
QueryRouter.v
QueryRewriter.v
RetrievalPipeline.v
SqlAcl.v
Sparse.v
VectorStore.v
Dense.v
ContextPacker.v
Decimal28.v
Billing.v
Chunker.v
Registry.v
FinalAnswer.v
DurableStore.v
AgentRuntime.v
DurableDto.v
DurableMachine.v
DurableLaw.v
DurableService.v
DurableRefinement.v
DurablePhases.v
DurableGuarantee.v
Resilience.v
RagDto.v
CitationExtractor.v
Hydration.v
PromptBuilder.v
Generation.v
RagStreaming.v
RagQuery.v
DocumentStore.v
DocumentGuarantee.v
RetrieveApp.v
RagGuarantee.v
RagStreamGuarantee.v
SourceResolver.v
ChatMemory.v
Chat.v
ChatGuarantee.v
ChatStreamGuarantee.v
