(* ===== verification/Prelude.v ===== *)
(** * AegisRAG: a verification library

    AegisRAG answers questions over a company's documents with retrieval-augmented
    generation and tool-using agents.  A request carries an identity; retrieval
    branches return chunks; the merger fuses them; the packer puts what fits into
    the model's context; the model call is charged to a monthly budget; an agent
    run that must survive restarts keeps its state in a leased store and is driven
    by any number of workers.  Every stage
    re-checks tenant and access control for itself, and the theorems below say what
    each stage guarantees whatever the stage before it did.

    ** Conventions

    Definitions keep the names of the source.  A Python call that may raise is a
    value of [result E A] (this file) with one constructor of [E] per error the
    code raises; state is passed explicitly, and a method that is one database
    transaction maps tables to tables, an error leaving them as they were.
    - [Prelude]: results, Python's stable sort with the order it needs of its
      keys, tuple comparison, sums.
    - [Float64]: Python floats as IEEE binary64 (the Standard Library's
      [SpecFloat]), with the order facts used here.  No real arithmetic is
      assumed; NaN and infinities are values.
    - [PyVal]: Python values that JSON columns hold ([None], bool, int, float, str,
      list, dict with insertion order), [==], truth, [str.strip], [str.lower] and
      friends.  What depends on the Unicode tables is a class ([UnicodeDB] in
      [Redact], [UnicodeDigits] in [ContextPacker]); what depends on [repr] is the
      class [PyRepr].
    - [Effects]: [try]/[except] and [try]/[finally] over the state and error monad,
      with rules for postconditions ([ends]) and for relations every step keeps
      ([keeps]).
    - [Decimal28]: the decimal arithmetic of [decimal.Decimal] at its default
      28 digits, as far as prices use it.

    ** Components

    - [Access] (packages/auth/context.py, auth/policies.py, agent/policies.py,
      vectorstores/acl.py, vectorstores/dto.py, rag/access.py, retrieval/filters.py
      and the requests of retrieval/dto.py): identity validation, permissions,
      the ACL evaluator [acl_allows] and the filter set.  [acl_allows_spec] states
      the policy; [filter_set_scope] that a request can narrow but not widen the
      caller's scope.
    - [Redact] (packages/common/logging.py): redaction of log fields;
      [redact_complete] says nothing sensitive survives at any depth and redacting
      twice changes nothing.
    - [Rrf] (packages/retrieval/rrf.py, [RRFMerger]): reciprocal rank fusion.
      Authorization of the result, ranking, the counts of the trace, clean
      metadata and totality.
    - [Hybrid] (packages/retrieval/rrf.py, [HybridRetriever]): the two branches, run
      sequentially or concurrently, and when a failed branch is tolerated.
    - [Rerank] (packages/retrieval/rerank/__init__.py): the reranking stage with its
      guard, fallback and traces; [rerank_answer_exact]: a bad answer of the
      reranker never leaks.
    - [RetrievalCache] (packages/retrieval/rerank/cache.py): the in-memory cache and
      its keys; [lru_refines]: it is a bounded list in order of use.  The keys are
      canonical JSON, printed injectively by [JsonText], and hashed.
    - [CachedRetriever] (the same file): concurrent identical requests share one
      task.  Callers, tasks, cancellations and the done callback are events of a
      state machine; the theorems are over all its runs: a caller gets an answer
      computed for its own question and access scope, no running task is shared
      across identities, and no caller is stuck.
    - [RetrievalService] (packages/retrieval/service.py): what is released of a
      retriever's answer; the class [CandidateScope] states what every stage
      promises to it.
    - [QueryRouter], [QueryRewriter] (packages/retrieval/query_router.py,
      query_rewriter.py): classification by patterns and by a model, routing,
      keywords and hypothetical answers.
    - [RetrievalPipeline] (apps/api/factories/retrieval.py): the stages put together;
      each is an instance of [CandidateScope], from which [pipeline_authorized]
      follows.
    - [VectorStore] (packages/vectorstores/dto.py, adapters/fake.py) and [Dense]
      (packages/retrieval/dense.py, embeddings/dto.py): the in-memory vector store,
      and dense retrieval against the class [SearchContract] the store satisfies.
    - [DocumentStore] (packages/data/storage/repositories.py, storage/models.py,
      data/lifecycle.py): documents, versions, chunks and jobs, with the working copy
      and the published tables of a transaction.  [DocumentGuarantee] proves their
      invariant, that deletion is final, that a job has one worker and a superseded
      worker cannot fail it, that only what is fully indexed becomes retrievable, and
      that the status listed by SQL is the one reviewed.
    - [RetrieveApp] (packages/retrieval/application.py): the request around a
      retrieval: hydration, log record, audit event and commit of every outcome,
      and the response; [retrieve_recorded].
    - [SqlAcl] (packages/vectorstores/adapters/pgvector.py, retrieval/sparse.py,
      data/service.py): the access predicates pushed into SQL as three-valued
      conditions over JSON, the class [Postgres] being what the database decides;
      two equivalence theorems with [acl_allows] and the three cases where they
      part.
    - [Sparse] (packages/retrieval/sparse.py): query terms, the sparse retriever and
      its search in Python; [fallback_scan_exact]: two statements find what one scan
      finds.
    - [ContextPacker] (packages/rag/context_packer.py, rag/dto.py): the whole
      [pack] pipeline: validation, order, duplicates, oversized candidates,
      related chunks, merging of adjacent chunks, citations, trace.  Only
      authorized chunks, within the token budget, failing closed, every input
      accounted for.
    - [Billing] (packages/billing/*, the requests of llm/dto.py): price catalogue,
      costs, reservation and settlement as transactions over accounts and charges,
      the service and the provider wrapper for plain and streamed calls.  The
      invariants are over all interleavings of transactions: accounts equal the
      sums of their charges, limits hold, a call is settled exactly once however
      it ends.
    - [DurableStore] (packages/agent/storage/durable.py, storage/models.py,
      durable/dto.py): leased compare-and-swap storage of agent runs.  The calls of
      any number of workers are a list of operations ([exec_all]); the theorems are
      invariants of reachable states, exclusion by leases, immutability of
      finished runs and of completed tool calls, single use of run ids, isolation
      between owners, and that a save is what a load returns.
    - [Chunker] (packages/ingestion/chunkers/fixed_size.py, ingestion/domain.py, the
      canonical text of ingestion/cleaner.py): from sections to tokens to
      overlapping windows to chunks.  [split_windows] says the loop terminates and
      the windows cover the document with the promised sizes and overlap;
      [split_respects_acl] that a chunk never mixes access levels.
    - [Resilience] (packages/common/circuit_breaker.py): the circuit breaker as a
      state machine whose events are the halves of interleaved calls.
    - [Json]: [json.dumps] with sorted keys as the digests use it, and SHA-256, both
      executable.
    - [AgentDto] (packages/agent/dto.py, common/context.py, common/audit.py): the
      agent's data with its validators, tool definitions and their schemas.
    - [SourceMetadata] (packages/common/source_metadata.py): what of a document's
      source may be shown; [displayed_text_is_safe].
    - [Registry] (packages/agent/registry.py, agent/approval.py, agent/rate_limit.py):
      the tool registry.  [execute] is staged as the code is: look up, authorize,
      validate, approve, rate-limit, run, validate the output, record.  The log of
      events carries the theorems: a handler runs only when every check of its call
      passed, every call is recorded, a grant is used once.
    - [FinalAnswer] (packages/agent/final_answer.py): grounding of the final answer in
      the observations of the run.
    - [AgentRuntime] (packages/agent/runtime.py): the decide/act/observe loop against
      the interface [AgentPorts] and an optional tool journal.  The loop terminates
      within its step budget, the tool budget bounds the handlers the registry runs,
      a completed run cites what it found.
    - [DurableDto] (packages/agent/durable/dto.py and the run command of
      agent/dto.py): the payload of a durable snapshot, commands with their
      validators, run ids of idempotent starts, digests, the refusal of
      credential-shaped arguments, responses.
    - [DurableService] (packages/agent/durable/service.py, the nodes of
      agent/adapters/durable_langgraph.py): the service over [DurableStore] and
      [AgentRuntime], as a coroutine among others against the interface
      [DurablePorts].  Timeouts, cancellations, lost answers of the store and the
      transactions of other workers arrive at its awaits; [sw_log] records its
      commits and dispatches.
    - [DurableMachine]: what a durable run promises, as an abstract machine with
      budgets, approvals and a ledger; [DurableLaw] reads its state off the tables
      and says what workers owe one another ([lawful]) and that each transaction of
      the store pays it; [DurableRefinement], [DurablePhases] and [DurableGuarantee]
      are the proof that every entry point of the service does, from single
      accesses to phases to requests.  The theorems ([DurableGuarantee]): the
      service refines the machine, every dispatch is behind its ledger entry, the
      promises hold over the life of a run, stored runs are well-typed, a drive
      ends, stale approvals are refused.
    - [RagDto] (packages/rag/dto.py, rag/exceptions.py, rag/citation_identity.py,
      rag/capture.py, common/errors.py): the data of a question and its answer.
    - [Hydration] (packages/rag/hydration.py, the records of data/dto.py): retrieved
      candidates are read back from the store and checked; [hydrate_verified].
    - [PromptBuilder] (packages/rag/prompt_builder.py, the enhancer of
      rag/cot_prompt.py): the messages sent to the model.  [build_checks_context]
      and [prompt_isolates_untrusted]: untrusted text cannot add markup.
    - [Generation] (packages/rag/generation.py, llm/dto.py): the request to the
      model and the checks that its answer, whole or streamed, belongs to it.
    - [CitationExtractor] (packages/rag/citation_extractor.py): which sources an
      answer cites; [extract_sound].  Its regular expression runs in the matcher
      [re_findall].
    - [RagStreaming] (packages/rag/streaming.py): the events of a stream.
    - [RagQuery] (packages/rag/query.py): plain, captured and streamed queries over
      ports for retrieval, store, model, audit and clock, with a consumer that may
      close the stream at any event.  [RagGuarantee]: answers cite only chunks read
      for the caller in the same request, failures are audited.
      [RagStreamGuarantee]: the shape of every stream with its counts and audit
      records, refused callers, and that the model's stream is closed.
    - [SourceResolver] (packages/rag/source_resolver.py): the source behind a
      citation, read again for the caller; [resolve_releases_only_readable], and
      [resolve_refusals_uniform]: every refusal looks the same.
    - [ChatMemory] (packages/memory): the tables of sessions and messages with one
      transaction per request, redacted summaries, and how much history goes into
      a prompt.  Sequence numbers, reading back, budgets and isolation between
      callers.
    - [Chat] (packages/rag/chat.py, the chat data of rag/dto.py): a turn of a
      conversation around one query, plain or streamed.  [ChatGuarantee]: an answer
      is shown once it is stored, a failed turn stores nothing, other callers'
      sessions are untouched.  [ChatStreamGuarantee]: the same of streams, against
      the class [QueryStreams], whose instance is [RagQuery].

    ** Fuel and bounds

    Recursion is structural except in these places: [Rrf.safe_value_fuel] recurses
    on nested metadata and is run with the depth of the value, the decimal digit
    functions run with the number of binary digits, which bounds the decimal ones,
    and [Chunker.split_loop] runs with the number of tokens, each turn moving
    forward by at least one; [AgentRuntime.run_loop] runs with one more than the
    step budget, since every turn that continues uses a step ([run_terminates]);
    [DurableService.advance_loop] runs with three turns per step of the budget and
    three more, which [claimed_run_ends] shows to be enough; the retry loops of the
    fences run for [port_patience] turns, the number that fit into their one-second
    timeout, and are cut off after that as the timeout does;
    [ChatMemory.sub_from] scans a text with its length as fuel, each turn
    consuming at least one character.
    They are proved sufficient where a theorem depends on them.  Integers of
    database columns are 64-bit with the overflow written out in [Billing].

    ** Not modelled

    The network (model providers, embeddings, vector databases), the web
    framework, parsers that call third-party libraries, and token verification by
    third-party cryptography.  Clocks, random identifiers, database scan order and
    provider replies are arguments.  Also left out: the Redis back end of the cache,
    the ranking of PostgreSQL's full-text search and graph RAG; the agent service
    with its event streams, whose runs are those of [AgentRuntime]; the semantic
    chunker, the cleaner's header detection and the ingestion jobs; login and
    group administration; object storage and task queues; the document, review,
    evaluation and diagnostics services, which report on the tables of the core. *)

From Stdlib Require Import ZArith Permutation.
From stdpp Require Import base list gmap numbers sorting.

(** * Results: the value of a call that may raise *)

Inductive result (E A : Type) : Type :=
| Ok (a : A)
| Err (e : E).
Arguments Ok {E A} a.
Arguments Err {E A} e.

#[export] Instance result_ret {E} : MRet (result E) := fun A a => Ok a.
#[export] Instance result_bind {E} : MBind (result E) :=
  fun A B f m => match m with Ok a => f a | Err e => Err e end.

#[export] Instance result_fmap {E} : FMap (result E) :=
  fun A B f m => match m with Ok a => Ok (f a) | Err e => Err e end.

(** [if cond: raise err], as a statement of the error monad. *)
Definition raise_if {E} (cond : bool) (err : E) : result E unit :=
  if cond then Err err else Ok tt.

Definition is_ok {E A} (r : result E A) : bool :=
  match r with Ok _ => true | Err _ => false end.

(** * Effects: computations that may raise and always leave a world

    A Python coroutine changes shared objects as it goes and keeps those changes
    when it raises.  [eff E W A] takes a world to a result and the world it
    leaves. *)

Definition eff (E W A : Type) : Type := W -> result E A * W.

Definition mreturn {E W A} (a : A) : eff E W A := fun w => (Ok a, w).
Definition mraise {E W A} (e : E) : eff E W A := fun w => (Err e, w).
Definition mthen {E W A B} (m : eff E W A) (f : A -> eff E W B) : eff E W B :=
  fun w => match m w with
           | (Ok a, w') => f a w'
           | (Err e, w') => (Err e, w')
           end.
Definition modify {E W} (f : W -> W) : eff E W unit := fun w => (Ok tt, f w).

Declare Scope eff_scope.
Notation "x <- m ;; k" := (mthen m (fun x => k))
  (at level 100, m at next level, right associativity) : eff_scope.

Lemma mthen_inv {E W A B} (m : eff E W A) (f : A -> eff E W B) w r w' :
  mthen m f w = (r, w') ->
  (exists e, m w = (Err e, w') /\ r = Err e) \/
  (exists a w1, m w = (Ok a, w1) /\ f a w1 = (r, w')).
Proof. unfold mthen. destruct (m w) as [[a|e] w1]; intros E1; injection E1 as <- <- || idtac; eauto. Qed.

(** ** Tactics of the development *)

(** Destruct every guard and match in the hypotheses that equate a monadic
    computation with a constructor, and discharge the impossible branches. *)
Ltac res_step :=
  match goal with
  | H : Ok _ = Ok _ |- _ => injection H as H; subst
  | H : Err _ = Err _ |- _ => injection H as H; subst
  | H : Ok _ = Err _ |- _ => discriminate H
  | H : Err _ = Ok _ |- _ => discriminate H
  | H : mbind _ _ = _ |- _ => unfold mbind, result_bind in H
  | H : mret _ = _ |- _ => unfold mret, result_ret in H
  | H : raise_if _ _ = _ |- _ => unfold raise_if in H
  | H : context [match ?x with _ => _ end] |- _ =>
      match type of H with _ = Ok _ => destruct x eqn:? | _ = Err _ => destruct x eqn:? end
  end.
Ltac res_inv := repeat (res_step; simplify_eq/=).

(** Split the boolean guards of the context and of the goal. *)
Ltac bool_inv :=
  repeat match goal with
  | H : _ && _ = true |- _ => apply andb_true_iff in H; destruct H
  | H : _ || _ = false |- _ => apply orb_false_iff in H; destruct H
  | H : negb _ = true |- _ => apply negb_true_iff in H
  | H : negb _ = false |- _ => apply negb_false_iff in H
  | H : bool_decide _ = true |- _ => apply bool_decide_eq_true in H
  | H : bool_decide _ = false |- _ => apply bool_decide_eq_false in H
  | H : (_ <=? _)%Z = true |- _ => apply Z.leb_le in H
  | H : (_ <=? _)%Z = false |- _ => apply Z.leb_gt in H
  | H : (_ <? _)%Z = true |- _ => apply Z.ltb_lt in H
  | H : (_ <? _)%Z = false |- _ => apply Z.ltb_ge in H
  | H : (_ =? _)%Z = true |- _ => apply Z.eqb_eq in H
  | H : (_ =? _)%Z = false |- _ => apply Z.eqb_neq in H
  end.

Create HintDb aegis.
#[export] Hint Constructors Forall Permutation NoDup : aegis.

(** * Python's stable sort

    [list.sort] and [sorted] only ask [<] of the keys and keep the order of
    elements whose keys compare equal.  [py_sort] is the insertion sort that
    does the same: an element goes in front of the first one its key is not
    greater than. *)
Section Sort.
Context {A : Type} (lt : A -> A -> bool).

Fixpoint sort_insert (x : A) (l : list A) : list A :=
  match l with
  | [] => [x]
  | y :: l' => if lt y x then y :: sort_insert x l' else x :: l
  end.

Fixpoint py_sort (l : list A) : list A :=
  match l with
  | [] => []
  | x :: l' => sort_insert x (py_sort l')
  end.

Lemma sort_insert_perm x l : Permutation (x :: l) (sort_insert x l).
Proof.
  induction l as [|y l IH]; simpl; [done|].
  destruct (lt y x); [|done].
  etransitivity; [apply perm_swap|]. by constructor.
Qed.

Lemma py_sort_perm l : Permutation l (py_sort l).
Proof.
  induction l as [|x l IH]; simpl; [done|].
  etransitivity; [|apply sort_insert_perm]. by constructor.
Qed.

Lemma py_sort_elem_of x l : x ∈ py_sort l <-> x ∈ l.
Proof. by rewrite <- py_sort_perm. Qed.

Lemma py_sort_Forall P l : Forall P l -> Forall P (py_sort l).
Proof. by rewrite <- py_sort_perm. Qed.

Lemma py_sort_length l : length (py_sort l) = length l.
Proof. by rewrite <- py_sort_perm. Qed.

(** [le x y]: [y]'s key is not below [x]'s. *)
Definition sort_le (x y : A) : Prop := lt y x = false.

(** [lt] is a strict weak order on the elements that satisfy [P]: this is
    what Python's sort needs of the keys it meets. *)
Record weak_order (P : A -> Prop) : Prop := {
  wo_asym : forall x y, P x -> P y -> lt x y = true -> lt y x = false;
  wo_trans : forall x y z, P x -> P y -> P z ->
    sort_le x y -> sort_le y z -> sort_le x z
}.

Context (P : A -> Prop) (HO : weak_order P).

Lemma sort_insert_sorted x l :
  P x -> Forall P l -> StronglySorted sort_le l -> StronglySorted sort_le (sort_insert x l).
Proof.
  intros Hx HP Hs. induction l as [|y l IH]; simpl; [by repeat constructor|].
  apply Forall_cons in HP as [Hy HP]. apply StronglySorted_inv in Hs as [Hs Hall].
  destruct (lt y x) eqn:E.
  - constructor; [by apply IH|].
    rewrite <- sort_insert_perm. constructor; [by apply (wo_asym _ HO)|done].
  - constructor; [by constructor|]. constructor; [done|].
    rewrite Forall_forall in Hall, HP |- *. intros z Hz.
    apply (wo_trans _ HO x y z); auto.
Qed.

Lemma py_sort_sorted l : Forall P l -> StronglySorted sort_le (py_sort l).
Proof.
  induction l as [|x l IH]; simpl; intros HP; [constructor|].
  apply Forall_cons in HP as [Hx HP].
  apply sort_insert_sorted; auto using py_sort_Forall.
Qed.
End Sort.

(** Orders are pulled back along a key function and combined lexicographically,
    as Python compares tuples: the first components that differ decide. *)
Lemma weak_order_key {A B} (f : A -> B) (lt : B -> B -> bool) (P : A -> Prop) (Q : B -> Prop) :
  (forall x, P x -> Q (f x)) -> weak_order lt Q -> weak_order (fun x y => lt (f x) (f y)) P.
Proof.
  intros HPQ [Ha Ht]. split; [eauto|]. intros x y z Hx Hy Hz.
  unfold sort_le. apply (Ht (f x) (f y) (f z)); auto.
Qed.

Definition lex {A} (eqb ltb rest : A -> A -> bool) (x y : A) : bool :=
  if negb (eqb x y) then ltb x y else rest x y.

Lemma weak_order_lex {A} (eqb ltb rest : A -> A -> bool) (P : A -> Prop) :
  (forall x y, P x -> P y -> eqb x y = negb (ltb x y) && negb (ltb y x)) ->
  weak_order ltb P -> weak_order rest P -> weak_order (lex eqb ltb rest) P.
Proof.
  intros He [La Lt] [Ra Rt]. unfold sort_le in *. split; unfold sort_le, lex.
  - intros x y Hx Hy. rewrite !He by done.
    destruct (ltb x y) eqn:E, (ltb y x) eqn:F; simpl; auto.
    by rewrite (La x y) in F.
  - intros x y z Hx Hy Hz. rewrite !He by done.
    pose proof (La x y Hx Hy). pose proof (La y z Hy Hz). pose proof (La x z Hx Hz).
    pose proof (Lt x y z Hx Hy Hz). pose proof (Lt z x y Hz Hx Hy). pose proof (Lt y z x Hy Hz Hx).
    pose proof (Rt x y z Hx Hy Hz).
    destruct (ltb x y), (ltb y x), (ltb y z), (ltb z y), (ltb x z), (ltb z x);
      simpl in *; intros; auto; intuition congruence.
Qed.

Lemma weak_order_Z : weak_order Z.ltb (fun _ => True).
Proof.
  split; unfold sort_le.
  - intros x y _ _ H. apply Z.ltb_lt in H. apply Z.ltb_ge. lia.
  - intros x y z _ _ _ H1 H2. apply Z.ltb_ge in H1, H2. apply Z.ltb_ge. lia.
Qed.

Lemma Z_eqb_ltb x y : (x =? y)%Z = negb (x <? y)%Z && negb (y <? x)%Z.
Proof. destruct (Z.eqb_spec x y), (Z.ltb_spec x y), (Z.ltb_spec y x); simpl; lia. Qed.

(** * Generic lemmas on lists *)

Section Lists.
Context {A B : Type}.

Lemma StronglySorted_take (R : A -> A -> Prop) n l :
  StronglySorted R l -> StronglySorted R (take n l).
Proof.
  intros Hs. revert n. induction Hs as [|x l Hs IH Hall]; intros [|n]; simpl; try constructor.
  - apply IH.
  - apply Forall_take, Hall.
Qed.

Lemma elem_of_take_weak (x : A) n l : x ∈ take n l -> x ∈ l.
Proof. intros H. apply list_elem_of_In. apply list_elem_of_In in H.
  rewrite <- (take_drop n l). apply in_or_app. by left. Qed.

Lemma NoDup_take n (l : list A) : NoDup l -> NoDup (take n l).
Proof. intros H. rewrite <- (take_drop n l) in H. apply NoDup_app in H as [H _]. exact H. Qed.

(** Elements are told apart by a key without duplicates. *)
Lemma NoDup_fmap_elem (f : A -> B) l x y :
  NoDup (f <$> l) -> x ∈ l -> y ∈ l -> f x = f y -> x = y.
Proof.
  induction l as [|z l IH]; intros Hn Hx Hy E; [by apply list.not_elem_of_nil in Hx|].
  rewrite fmap_cons in Hn. apply list.NoDup_cons in Hn as [Hz Hn].
  apply elem_of_cons in Hx as [->|Hx]; apply elem_of_cons in Hy as [->|Hy]; auto.
  - destruct Hz. rewrite E. by apply list_elem_of_fmap_2.
  - destruct Hz. rewrite <- E. by apply list_elem_of_fmap_2.
Qed.

Fixpoint zsum (f : A -> Z) (l : list A) : Z :=
  match l with [] => 0 | x :: l' => f x + zsum f l' end%Z.

Lemma zsum_app f l k : zsum f (l ++ k) = (zsum f l + zsum f k)%Z.
Proof. induction l; simpl; lia. Qed.

Lemma zsum_perm f l k : Permutation l k -> zsum f l = zsum f k.
Proof. induction 1; simpl; lia. Qed.

Lemma zsum_nonneg f l : Forall (fun x => 0 <= f x)%Z l -> (0 <= zsum f l)%Z.
Proof. induction 1; simpl; lia. Qed.
End Lists.

#[export] Hint Resolve py_sort_perm py_sort_Forall StronglySorted_take NoDup_take : aegis.
