(* ===== verification/Effects.v ===== *)
(** Exceptions in effectful computations.

    [try]/[except] and [try]/[finally] of a coroutine as combinators of the monad
    [eff], and the rules that carry a postcondition, on the result returned or the
    exception raised together with the world that is left, through them. *)

From S2P Require Import Prelude.
From stdpp Require Import base list.

Open Scope eff_scope.

Section Combinators.
Context {E W : Type}.

(** [try: m except e: h e]: what the handler raises leaves the statement. *)
Definition mcatch {A} (m : eff E W A) (h : E -> eff E W A) : eff E W A := fun w =>
  match m w with
  | (Err e, w') => h e w'
  | r => r
  end.

(** [try: m finally: f]: an exception of [f] replaces the outcome of [m]. *)
Definition try_finally {A} (m : eff E W A) (f : eff E W unit) : eff E W A := fun w =>
  let '(r, w1) := m w in
  match f w1 with
  | (Ok _, w2) => (r, w2)
  | (Err e, w2) => (Err e, w2)
  end.

Definition mlift {A} (r : result E A) : eff E W A := fun w => (r, w).
Definition reads {A} (f : W -> A) : eff E W A := fun w => (Ok (f w), w).

(** ** Postconditions *)

Definition ends {A} (m : eff E W A) (Q : result E A -> W -> Prop) (w : W) : Prop :=
  Q (m w).1 (m w).2.

Lemma ends_ret {A} (a : A) (Q : result E A -> W -> Prop) w : Q (Ok a) w -> ends (mreturn a) Q w.
Proof. done. Qed.

Lemma ends_raise {A} e (Q : result E A -> W -> Prop) w : Q (Err e) w -> ends (mraise e) Q w.
Proof. done. Qed.

Lemma ends_lift {A} r (Q : result E A -> W -> Prop) w : Q r w -> ends (mlift r) Q w.
Proof. done. Qed.

Lemma ends_reads {A} (f : W -> A) (Q : result E A -> W -> Prop) w :
  Q (Ok (f w)) w -> ends (reads f) Q w.
Proof. done. Qed.

Lemma ends_modify (f : W -> W) (Q : result E unit -> W -> Prop) w :
  Q (Ok tt) (f w) -> ends (modify f) Q w.
Proof. done. Qed.

Lemma ends_mono {A} (m : eff E W A) (P Q : result E A -> W -> Prop) w :
  ends m P w -> (forall r w', P r w' -> Q r w') -> ends m Q w.
Proof. unfold ends. eauto. Qed.

Lemma ends_bind {A B} (m : eff E W A) (f : A -> eff E W B) (Q : result E B -> W -> Prop) w :
  ends m (fun r w' => match r with Ok a => ends (f a) Q w' | Err e => Q (Err e) w' end) w ->
  ends (mthen m f) Q w.
Proof. unfold ends, mthen. by destruct (m w) as [[a|e] w1]. Qed.

Lemma ends_assoc {A B C} (m : eff E W A) (f : A -> eff E W B) (g : B -> eff E W C)
    (Q : result E C -> W -> Prop) w :
  ends (mthen (mthen m f) g) Q w -> ends (mthen m (fun a => mthen (f a) g)) Q w.
Proof. unfold ends, mthen. by destruct (m w) as [[a|e] w1]. Qed.

Lemma ends_try {A} (m : eff E W A) h (Q : result E A -> W -> Prop) w :
  ends m (fun r w' => match r with Ok _ => Q r w' | Err e => ends (h e) Q w' end) w ->
  ends (mcatch m h) Q w.
Proof. unfold ends, mcatch. by destruct (m w) as [[a|e] w1]. Qed.

Lemma ends_finally {A} (m : eff E W A) f (Q : result E A -> W -> Prop) w :
  ends m (fun r w' => ends f (fun s w'' => match s with
                                           | Ok _ => Q r w'' | Err e => Q (Err e) w'' end) w') w ->
  ends (try_finally m f) Q w.
Proof.
  unfold ends, try_finally. destruct (m w) as [r w1]. cbn. by destruct (f w1) as [[[]|e] w2].
Qed.

Lemma ends_run {A} (m : eff E W A) (Q : result E A -> W -> Prop) w r w' :
  ends m Q w -> m w = (r, w') -> Q r w'.
Proof. unfold ends. intros Hq Hr. by rewrite Hr in Hq. Qed.

(** ** What a computation may raise *)

Definition raises_only {A} (Q : E -> Prop) (m : eff E W A) : Prop :=
  forall w x, (m w).1 = Err x -> Q x.

Lemma raises_ret {A} Q (a : A) : raises_only Q (mreturn a).
Proof. intros w x Hx. discriminate Hx. Qed.
Lemma raises_raise {A} (Q : E -> Prop) e : Q e -> raises_only Q (mraise (A := A) e).
Proof. intros Hq w x Hx. by injection Hx as <-. Qed.
Lemma raises_lift {A} (Q : E -> Prop) (r : result E A) :
  (forall x, r = Err x -> Q x) -> raises_only Q (mlift r).
Proof. intros Hr w x. apply Hr. Qed.
Lemma raises_reads {A} Q (f : W -> A) : raises_only Q (reads f).
Proof. intros w x Hx. discriminate Hx. Qed.
Lemma raises_modify Q (f : W -> W) : raises_only Q (modify f).
Proof. intros w x Hx. discriminate Hx. Qed.
Lemma raises_bind {A B} Q (m : eff E W A) (f : A -> eff E W B) :
  raises_only Q m -> (forall a, raises_only Q (f a)) -> raises_only Q (mthen m f).
Proof.
  intros Hm Hf w x. unfold mthen. specialize (Hm w). destruct (m w) as [[a|e] w1]; [apply Hf|].
  intros [= <-]. by apply Hm.
Qed.

(** ** Relations kept by a computation, whatever its outcome *)

Definition keeps {A} (R : W -> W -> Prop) (m : eff E W A) : Prop := forall w, R w (m w).2.

(** A postcondition together with a relation kept. *)
Lemma ends_keeps {A} (R : W -> W -> Prop) (m : eff E W A) (Q : result E A -> W -> Prop) w :
  keeps R m -> ends m Q w -> ends m (fun r w' => Q r w' /\ R w w') w.
Proof. intros Hk Hq. split; [exact Hq|apply Hk]. Qed.

Context (R : W -> W -> Prop) `{!PreOrder R}.

Lemma keeps_ret {A} (a : A) : keeps R (mreturn a).
Proof. by intros w. Qed.
Lemma keeps_raise {A} e : keeps R (mraise (A := A) e).
Proof. by intros w. Qed.
Lemma keeps_lift {A} r : keeps R (mlift (A := A) r).
Proof. by intros w. Qed.
Lemma keeps_reads {A} (f : W -> A) : keeps R (reads f).
Proof. by intros w. Qed.

Lemma keeps_bind {A B} (m : eff E W A) (f : A -> eff E W B) :
  keeps R m -> (forall a, keeps R (f a)) -> keeps R (mthen m f).
Proof.
  intros Hm Hf w. unfold mthen. specialize (Hm w). destruct (m w) as [[a|e] w1]; cbn in *; [|done].
  etrans; [exact Hm|apply Hf].
Qed.

Lemma keeps_try {A} (m : eff E W A) h :
  keeps R m -> (forall e, keeps R (h e)) -> keeps R (mcatch m h).
Proof.
  intros Hm Hh w. unfold mcatch. specialize (Hm w). destruct (m w) as [[a|e] w1]; cbn in *; [done|].
  etrans; [exact Hm|apply Hh].
Qed.

Lemma keeps_finally {A} (m : eff E W A) f : keeps R m -> keeps R f -> keeps R (try_finally m f).
Proof.
  intros Hm Hf w. unfold try_finally. specialize (Hm w). destruct (m w) as [r w1].
  specialize (Hf w1). destruct (f w1) as [[[]|e] w2]; cbn in *; by etrans.
Qed.
End Combinators.

(** * Logged calls *)

(** A world of ports with a log of the calls made on them. *)
Record logged (S C : Type) : Type := { lg_state : S; lg_log : list C }.
Arguments lg_state {S C}.
Arguments lg_log {S C}.

Section Logged.
Context {E S C : Type}.

Definition with_log (w : logged S C) (s : S) (calls : list C) : logged S C :=
  {| lg_state := s; lg_log := lg_log w ++ calls |}.

(** A call on a port, with its entry in the log. *)
Definition lcall {A} (m : eff E S A) (entry : result E A -> list C) : eff E (logged S C) A := fun w =>
  let '(r, s) := m (lg_state w) in (r, with_log w s (entry r)).

(** Read a clock. *)
Definition lread {A} (m : S -> A * S) : eff E (logged S C) A := fun w =>
  let '(a, s) := m (lg_state w) in (Ok a, with_log w s []).

Lemma raises_lcall {A} (Q : E -> Prop) (m : eff E S A) entry :
  (forall s x, (m s).1 = Err x -> Q x) -> raises_only Q (lcall m entry).
Proof.
  intros Hm w x. unfold lcall. specialize (Hm (lg_state w)). destruct (m (lg_state w)) as [r s].
  cbn. apply Hm.
Qed.
Lemma raises_lread {A} Q (m : S -> A * S) : raises_only Q (lread m).
Proof. intros w x. unfold lread. by destruct (m (lg_state w)). Qed.

Definition log_extends (w w' : logged S C) : Prop := lg_log w `prefix_of` lg_log w'.

#[export] Instance log_extends_preorder : PreOrder log_extends.
Proof.
  split; [intros w; unfold log_extends; reflexivity|].
  intros w1 w2 w3 Ha Hb. unfold log_extends in *. by etrans.
Qed.

Lemma lcall_extends {A} (m : eff E S A) entry : keeps log_extends (lcall m entry).
Proof.
  intros w. unfold lcall. destruct (m (lg_state w)) as [r s]. unfold log_extends. cbn.
  by exists (entry r).
Qed.
End Logged.
