(* ===== verification/Float64.v ===== *)
(** IEEE 754 binary64, the type of Python's [float].

    The source computes scores, timestamps, lease deadlines and budgets in
    Python floats.  They are kept as such: [float] is the Standard Library's
    executable specification of binary64 (53 bits of precision, largest
    exponent 1024), with NaN, the infinities and the signed zeros, and every
    operation below is the correctly rounded one.  No axiom is involved.

    The lemmas reduce the comparison operators to a lexicographic order on
    integers ([fkey]), so that facts on [<], [<=], [min] and [max] are decided
    by [lia] ([float_solve]). *)

From Stdlib Require Import ZArith.
From Stdlib Require Export SpecFloat.
From S2P Require Import Prelude.
From stdpp Require Import base list numbers.

Abbreviation float := spec_float.

Definition fadd : float -> float -> float := SFadd 53 1024.
Definition fsub : float -> float -> float := SFsub 53 1024.
Definition fmul : float -> float -> float := SFmul 53 1024.
Definition fdiv : float -> float -> float := SFdiv 53 1024.
Definition fopp : float -> float := SFopp.

(** The comparison operators: every one of them is false on NaN. *)
Definition flt : float -> float -> bool := SFltb.
Definition fle : float -> float -> bool := SFleb.
Definition feq : float -> float -> bool := SFeqb.

(** [float(z)]. *)
Definition fofZ (z : Z) : float := binary_normalize 53 1024 z 0 false.

(** A decimal literal [p/q]: the binary64 number nearest to it. *)
Definition flit (p q : Z) : float := fdiv (fofZ p) (fofZ q).

(** [math.isfinite(x)]. *)
Definition isfinite (x : float) : bool :=
  match x with S754_zero _ | S754_finite _ _ _ => true | _ => false end.

(** [int(x)] on a finite float: truncation towards zero. *)
Definition ftrunc (x : float) : Z :=
  match x with
  | S754_finite s m e =>
      let a := (if 0 <=? e then Zpos m * 2 ^ e else Zpos m / 2 ^ (- e))%Z in
      if s then (- a)%Z else a
  | _ => 0%Z
  end.

(** Python's [max(a, b)] and [min(a, b)]: the first argument unless the second
    is strictly greater (smaller). *)
Definition fmax (a b : float) : float := if flt a b then b else a.
Definition fmin (a b : float) : float := if flt b a then b else a.

Definition fzero : float := S754_zero false.
Definition fone : float := fofZ 1.

(** [z == x] between an [int] and a [float]: exact, as Python compares them. *)
Definition Z_eq_float (z : Z) (x : float) : bool :=
  match x with
  | S754_zero _ => (z =? 0)%Z
  | S754_finite s m e =>
      let v := if s then Zneg m else Zpos m in
      (if 0 <=? e then z =? v * 2 ^ e else z * 2 ^ (- e) =? v)%Z
  | _ => false
  end.

#[export] Instance float_eq_dec : EqDecision float.
Proof. solve_decision. Defined.

(** ** The order of binary64 as a lexicographic order on integers *)

Definition fnum (x : float) : Prop := x <> S754_nan.

#[export] Instance fnum_dec x : Decision (fnum x).
Proof. unfold fnum. apply _. Defined.

Definition fkey (x : float) : Z * Z * Z :=
  match x with
  | S754_nan | S754_zero _ => (0, 0, 0)
  | S754_infinity s => (if s then -2 else 2, 0, 0)
  | S754_finite s m e => if s then (-1, - e, Zneg m) else (1, e, Zpos m)
  end%Z.

Definition key_lt (k l : Z * Z * Z) : Prop :=
  let '(a, b, c) := k in let '(a', b', c') := l in
  (a < a' \/ (a = a' /\ (b < b' \/ (b = b' /\ c < c'))))%Z.

Lemma SFcompare_key x y :
  fnum x -> fnum y ->
  exists c, SFcompare x y = Some c /\
    match c with
    | Lt => key_lt (fkey x) (fkey y)
    | Eq => fkey x = fkey y
    | Gt => key_lt (fkey y) (fkey x)
    end.
Proof.
  intros Hx Hy.
  destruct x as [s|s| |s m e], y as [t|t| |t n f]; try done;
    eexists; (split; [reflexivity|]);
    try (destruct s); try (destruct t); simpl; try lia; try done.
  - destruct (Z.compare_spec e f) as [->| |]; simpl; try lia.
    change (Pos.compare_cont Eq m n) with (Pos.compare m n).
    destruct (Pos.compare_spec m n) as [->| |]; simpl; try lia; done.
  - destruct (Z.compare_spec e f) as [->| |]; simpl; try lia.
    change (Pos.compare_cont Eq m n) with (Pos.compare m n).
    destruct (Pos.compare_spec m n) as [->| |]; simpl; try lia; done.
Qed.

Lemma SFcompare_nan_l y : SFcompare S754_nan y = None.
Proof. by destruct y. Qed.
Lemma SFcompare_nan_r x : SFcompare x S754_nan = None.
Proof. by destruct x. Qed.

Lemma key_lt_irrefl k : ~ key_lt k k.
Proof. destruct k as [[a b] c]. simpl. lia. Qed.
Lemma key_lt_trans k l m : key_lt k l -> key_lt l m -> key_lt k m.
Proof. destruct k as [[? ?] ?], l as [[? ?] ?], m as [[? ?] ?]. simpl. lia. Qed.
Lemma key_lt_total k l : key_lt k l \/ k = l \/ key_lt l k.
Proof.
  destruct k as [[a b] c], l as [[a' b'] c']. simpl.
  destruct (Z.lt_trichotomy a a') as [|[->|]], (Z.lt_trichotomy b b') as [|[->|]],
    (Z.lt_trichotomy c c') as [|[->|]];
    first [left; lia | right; left; reflexivity | right; right; lia].
Qed.

Ltac float_cmp x y :=
  destruct (decide (fnum x)) as [?Hx|?Hx];
  [ destruct (decide (fnum y)) as [?Hy|?Hy];
    [ destruct (SFcompare_key x y) as (?c & ?Ec & ?Kc); [assumption|assumption|]
    | assert (y = S754_nan) by (unfold fnum in *; destruct (decide (y = S754_nan)); tauto) ]
  | assert (x = S754_nan) by (unfold fnum in *; destruct (decide (x = S754_nan)); tauto) ].

Lemma flt_spec x y :
  flt x y = true <-> fnum x /\ fnum y /\ key_lt (fkey x) (fkey y).
Proof.
  unfold flt, SFltb. float_cmp x y; subst.
  - rewrite Ec. destruct c; split; intros; try done.
    + destruct H as (_ & _ & K). rewrite Kc in K. by apply key_lt_irrefl in K.
    + destruct H as (_ & _ & K). exfalso. eapply key_lt_irrefl, key_lt_trans; eauto.
  - rewrite SFcompare_nan_r. split; [done|]. by intros (_ & [] & _).
  - rewrite SFcompare_nan_l. split; [done|]. by intros ([] & _).
Qed.

Lemma fle_spec x y :
  fle x y = true <-> fnum x /\ fnum y /\ (key_lt (fkey x) (fkey y) \/ fkey x = fkey y).
Proof.
  unfold fle, SFleb. float_cmp x y; subst.
  - rewrite Ec. destruct c; split; intros; auto.
    + done.
    + destruct H as (_ & _ & [K|K]).
      * exfalso. eapply key_lt_irrefl, key_lt_trans; eauto.
      * rewrite K in Kc. by apply key_lt_irrefl in Kc.
  - rewrite SFcompare_nan_r. split; [done|]. by intros (_ & [] & _).
  - rewrite SFcompare_nan_l. split; [done|]. by intros ([] & _).
Qed.

Lemma feq_spec x y : feq x y = true <-> fnum x /\ fnum y /\ fkey x = fkey y.
Proof.
  unfold feq, SFeqb. float_cmp x y; subst.
  - rewrite Ec. destruct c; split; intros; auto; try done.
    + destruct H as (_ & _ & K). rewrite K in Kc. by apply key_lt_irrefl in Kc.
    + destruct H as (_ & _ & K). rewrite K in Kc. by apply key_lt_irrefl in Kc.
  - rewrite SFcompare_nan_r. split; [done|]. by intros (_ & [] & _).
  - rewrite SFcompare_nan_l. split; [done|]. by intros ([] & _).
Qed.

Lemma flt_irrefl x : flt x x = false.
Proof.
  destruct (flt x x) eqn:E; [|done]. apply flt_spec in E as (_ & _ & K).
  by apply key_lt_irrefl in K.
Qed.

Lemma flt_asym x y : flt x y = true -> flt y x = false.
Proof.
  intros H. destruct (flt y x) eqn:E; [|done].
  apply flt_spec in H as (_ & _ & K). apply flt_spec in E as (_ & _ & L).
  exfalso. eapply key_lt_irrefl, key_lt_trans; eauto.
Qed.

Lemma flt_trans x y z : flt x y = true -> flt y z = true -> flt x z = true.
Proof. rewrite !flt_spec. intros (? & ? & ?) (? & ? & ?). eauto using key_lt_trans. Qed.

Lemma fle_refl x : fnum x -> fle x x = true.
Proof. intros H. apply fle_spec. auto. Qed.

Lemma fle_trans x y z : fle x y = true -> fle y z = true -> fle x z = true.
Proof.
  rewrite !fle_spec. intros (? & ? & [K|K]) (? & ? & [L|L]).
  - eauto using key_lt_trans.
  - rewrite <- L. auto.
  - rewrite K. auto.
  - rewrite K, L. auto.
Qed.

Lemma flt_fle x y : flt x y = true -> fle x y = true.
Proof. rewrite flt_spec, fle_spec. tauto. Qed.

Lemma fle_not_flt x y : fnum x -> fnum y -> fle x y = negb (flt y x).
Proof.
  intros Hx Hy. destruct (flt y x) eqn:E; simpl.
  - apply flt_spec in E as (_ & _ & K). destruct (fle x y) eqn:L; [|done].
    apply fle_spec in L as (_ & _ & [L|L]); exfalso.
    + eapply key_lt_irrefl, key_lt_trans; eauto.
    + rewrite L in K. by apply key_lt_irrefl in K.
  - apply fle_spec. do 2 (split; [done|]).
    destruct (key_lt_total (fkey x) (fkey y)) as [?|[?|K]]; auto.
    assert (flt y x = true) by (apply flt_spec; auto). congruence.
Qed.

Lemma fle_num x y : fle x y = true -> fnum x /\ fnum y.
Proof. rewrite fle_spec. tauto. Qed.
Lemma flt_num x y : flt x y = true -> fnum x /\ fnum y.
Proof. rewrite flt_spec. tauto. Qed.

Lemma flt_fle_trans x y z : flt x y = true -> fle y z = true -> flt x z = true.
Proof.
  rewrite !flt_spec, fle_spec. intros (? & ? & K) (? & ? & [L|L]).
  - eauto using key_lt_trans.
  - rewrite <- L. auto.
Qed.

Lemma fle_flt_trans x y z : fle x y = true -> flt y z = true -> flt x z = true.
Proof.
  rewrite !flt_spec, fle_spec. intros (? & ? & [K|K]) (? & ? & L).
  - eauto using key_lt_trans.
  - rewrite K. auto.
Qed.

Lemma isfinite_num x : isfinite x = true -> fnum x.
Proof. by destruct x. Qed.

(** ** [min], [max] and negation *)

Lemma fmin_le_l a b : fnum a -> fnum b -> fle (fmin a b) a = true.
Proof.
  intros. unfold fmin. destruct (flt b a) eqn:E; [by apply flt_fle|by apply fle_refl].
Qed.
Lemma fmin_le_r a b : fnum a -> fnum b -> fle (fmin a b) b = true.
Proof.
  intros. unfold fmin. destruct (flt b a) eqn:E; [by apply fle_refl|].
  by rewrite fle_not_flt, E.
Qed.
Lemma fmax_ge_l a b : fnum a -> fnum b -> fle a (fmax a b) = true.
Proof.
  intros. unfold fmax. destruct (flt a b) eqn:E; [by apply flt_fle|by apply fle_refl].
Qed.
Lemma fmax_ge_r a b : fnum a -> fnum b -> fle b (fmax a b) = true.
Proof.
  intros. unfold fmax. destruct (flt a b) eqn:E; [by apply fle_refl|].
  by rewrite fle_not_flt, E.
Qed.
Lemma fmin_num a b : fnum a -> fnum b -> fnum (fmin a b).
Proof. unfold fmin. destruct (flt b a); auto. Qed.
Lemma fmax_num a b : fnum a -> fnum b -> fnum (fmax a b).
Proof. unfold fmax. destruct (flt a b); auto. Qed.

(** [max(a, x)] with a number [a] first is a number whatever [x] is: Python
    keeps [a] when the comparison with NaN fails. *)
Lemma fmax_num_l a x : fnum a -> fnum (fmax a x).
Proof. intros. unfold fmax. destruct (flt a x) eqn:E; [|done]. by apply flt_num in E as [_ ?]. Qed.
Lemma fmax_ge_l' a x : fnum a -> fle a (fmax a x) = true.
Proof.
  intros. unfold fmax. destruct (flt a x) eqn:E; [by apply flt_fle|by apply fle_refl].
Qed.
Lemma fmin_num_l a x : fnum a -> fnum (fmin a x).
Proof. intros. unfold fmin. destruct (flt x a) eqn:E; [|done]. by apply flt_num in E as [? _]. Qed.
Lemma fmin_le_l' a x : fnum a -> fle (fmin a x) a = true.
Proof.
  intros. unfold fmin. destruct (flt x a) eqn:E; [by apply flt_fle|by apply fle_refl].
Qed.

Lemma fkey_opp x : fkey (fopp x) = (let '(a, b, c) := fkey x in (- a, - b, - c)%Z).
Proof. destruct x as [[]|[]| |[] m e]; simpl; rewrite ?Z.opp_involutive; done. Qed.

Lemma fopp_num x : fnum (fopp x) <-> fnum x.
Proof. destruct x as [[]|[]| |[] m e]; by simpl. Qed.

Lemma flt_opp x y : flt (fopp x) (fopp y) = flt y x.
Proof.
  apply eq_true_iff_eq. rewrite !flt_spec, !fopp_num, !fkey_opp.
  destruct (fkey x) as [[? ?] ?], (fkey y) as [[? ?] ?]. simpl.
  split; intros (? & ? & ?); (split; [done|split; [done|lia]]).
Qed.

Lemma feq_opp x y : feq (fopp x) (fopp y) = feq x y.
Proof.
  apply eq_true_iff_eq. rewrite !feq_spec, !fopp_num, !fkey_opp.
  destruct (fkey x) as [[? ?] ?], (fkey y) as [[? ?] ?].
  split; intros (? & ? & K); (split; [done|split; [done|]]); injection K; intros; repeat f_equal; lia.
Qed.

(** Rounding an integer never gives NaN: the mantissa stays non-negative. *)
Lemma iter_pos_inv {A} (f : A -> A) (P : A -> Prop) :
  (forall x, P x -> P (f x)) -> forall n x, P x -> P (SpecFloat.iter_pos f n x).
Proof. intros Hf n. induction n; simpl; auto. Qed.

Lemma shr_fexp_nonneg m e l : (0 <= m)%Z -> (0 <= shr_m (fst (shr_fexp 53 1024 m e l)))%Z.
Proof.
  intros Hm. unfold shr_fexp, shr.
  assert (0 <= shr_m (shr_record_of_loc m l))%Z as Hr by (destruct l as [|[]]; done).
  case_match; simpl; try done.
  apply (iter_pos_inv shr_1 (fun r => 0 <= shr_m r)%Z); [|done].
  intros [mm r s]. simpl. destruct mm as [|[]|[]]; simpl; lia.
Qed.

Lemma fofZ_num z : fnum (fofZ z).
Proof.
  assert (forall s p e, binary_round 53 1024 s p e <> S754_nan) as Hr.
  { intros s p e. unfold binary_round. destruct (shl_align _ _ _) as [mz ez].
    unfold binary_round_aux.
    pose proof (shr_fexp_nonneg (Z.pos mz) ez loc_Exact ltac:(lia)) as H1.
    destruct (shr_fexp 53 1024 (Z.pos mz) ez loc_Exact) as [r1 e1]. simpl in H1.
    assert (0 <= round_nearest_even (shr_m r1) (loc_of_shr_record r1))%Z as H2.
    { unfold round_nearest_even. repeat case_match; lia. }
    pose proof (shr_fexp_nonneg _ e1 loc_Exact H2) as H3.
    destruct (shr_fexp _ _ _ e1 loc_Exact) as [r2 e2]. simpl in H3.
    destruct (shr_m r2); [done|case_match; done|lia]. }
  unfold fnum, fofZ, binary_normalize. destruct z; auto; done.
Qed.

Lemma weak_order_flt : weak_order flt fnum.
Proof.
  split; unfold sort_le; intros x y; [eauto using flt_asym|].
  intros z Hx Hy Hz H1 H2. apply negb_true_iff in H1, H2. rewrite <- fle_not_flt in H1, H2 by done.
  apply negb_true_iff. rewrite <- fle_not_flt by done. by apply (fle_trans _ y).
Qed.

Lemma feq_fle x y : feq x y = true -> fle x y = true.
Proof.
  intros (Hx & Hy & He)%feq_spec. rewrite fle_not_flt by done. apply negb_true_iff.
  destruct (flt y x) eqn:Hf; [|done]. apply flt_spec in Hf as (_ & _ & Hf). rewrite He in Hf.
  by apply key_lt_irrefl in Hf.
Qed.

Lemma feq_flt x y : fnum x -> fnum y -> feq x y = negb (flt x y) && negb (flt y x).
Proof.
  intros Hx Hy. apply eq_true_iff_eq. rewrite feq_spec, andb_true_iff, !negb_true_iff.
  rewrite <- !not_true_iff_false, !flt_spec.
  destruct (key_lt_total (fkey x) (fkey y)) as [K|[K|K]]; split; intros Hk.
  - destruct Hk as (_ & _ & Hk). rewrite Hk in K. by apply key_lt_irrefl in K.
  - tauto.
  - rewrite K. split; intros (_ & _ & L); by apply key_lt_irrefl in L.
  - tauto.
  - destruct Hk as (_ & _ & Hk). rewrite Hk in K. by apply key_lt_irrefl in K.
  - tauto.
Qed.

Lemma fzero_num : fnum fzero. Proof. done. Qed.
Lemma fone_num : fnum fone. Proof. done. Qed.

#[export] Hint Resolve fmin_num fmax_num fmax_num_l fmin_num_l fzero_num fone_num isfinite_num
  fle_refl flt_fle : aegis.
