(* ===== verification/PyVal.v ===== *)
(** The Python values the source handles: strings, dynamically typed objects
    and insertion-ordered dicts.

    A [str] is its sequence of Unicode code points, so that equality, length,
    slicing and the ordering used by [sorted] are Python's.  [pyval] is the
    [object] of the annotations [Mapping[str, object]] (metadata, ACLs, tool
    arguments). *)

From Stdlib Require Import ZArith Ascii String DecimalString.
From S2P Require Import Prelude Float64.
From stdpp Require Import base list gmap numbers.

(** * Strings *)

Abbreviation pystr := (list N).

(** An ASCII literal. *)
Definition u (s : string) : pystr := N_of_ascii <$> list_ascii_of_string s.

(** The code points [str.strip] and [str.isspace] treat as white space. *)
Definition is_space (c : N) : bool :=
  ((9 <=? c) && (c <=? 13) || (28 <=? c) && (c <=? 32) || (c =? 133) || (c =? 160)
   || (c =? 5760) || (8192 <=? c) && (c <=? 8202) || (c =? 8232) || (c =? 8233)
   || (c =? 8239) || (c =? 8287) || (c =? 12288))%N.

Fixpoint lstrip (s : pystr) : pystr :=
  match s with
  | c :: s' => if is_space c then lstrip s' else s
  | [] => []
  end.
Definition rstrip (s : pystr) : pystr := reverse (lstrip (reverse s)).
Definition strip (s : pystr) : pystr := rstrip (lstrip s).

Definition no_lead (s : pystr) : Prop :=
  match s with c :: _ => is_space c = false | [] => True end.

Lemma lstrip_no_lead s : no_lead (lstrip s).
Proof. induction s as [|c s IH]; simpl; [done|]. by destruct (is_space c) eqn:E. Qed.

Lemma lstrip_fix s : no_lead s -> lstrip s = s.
Proof. destruct s as [|c s]; simpl; [done|]. by intros ->. Qed.

Lemma lstrip_suffix s : exists k, s = k ++ lstrip s.
Proof.
  induction s as [|c s [k IH]]; simpl; [by exists []|].
  destruct (is_space c); [|by exists []]. exists (c :: k). simpl. by f_equal.
Qed.

Lemma rstrip_no_lead s : no_lead s -> no_lead (rstrip s).
Proof.
  unfold rstrip. intros H. destruct (lstrip_suffix (reverse s)) as [k Hk].
  apply (f_equal reverse) in Hk. rewrite reverse_involutive, reverse_app in Hk.
  destruct (reverse (lstrip (reverse s))) as [|c t]; [done|]. rewrite Hk in H. exact H.
Qed.

Lemma strip_idem s : strip (strip s) = strip s.
Proof.
  unfold strip. rewrite (lstrip_fix (rstrip _)) by apply rstrip_no_lead, lstrip_no_lead.
  unfold rstrip at 1. unfold rstrip at 1. rewrite reverse_involutive.
  by rewrite (lstrip_fix (lstrip _)) by apply lstrip_no_lead.
Qed.

(** [str.lower] as far as the source can observe it: its results are only
    compared with, or searched for, lower-case ASCII words.  U+0130 and U+212A
    are the only code points outside ASCII whose lower case contains an ASCII
    letter. *)
Definition lower_cp (c : N) : pystr :=
  if ((65 <=? c) && (c <=? 90))%N then [c + 32]%N
  else if (c =? 304)%N then [105; 775]%N
  else if (c =? 8490)%N then [107]%N
  else [c].
Definition lower (s : pystr) : pystr := s ≫= lower_cp.

Definition is_digit (c : N) : bool := ((48 <=? c) && (c <=? 57))%N.
Definition is_alpha (c : N) : bool :=
  ((65 <=? c) && (c <=? 90) || (97 <=? c) && (c <=? 122))%N.

Fixpoint startswith (p s : pystr) : bool :=
  match p, s with
  | [], _ => true
  | a :: p', b :: s' => (a =? b)%N && startswith p' s'
  | _, [] => false
  end.

(** [needle in s]. *)
Fixpoint contains (needle s : pystr) : bool :=
  startswith needle s ||
  match s with [] => false | _ :: s' => contains needle s' end.

(** [t] is a passage of [s]. *)
Definition infix (t s : pystr) : Prop := exists a b, s = a ++ t ++ b.

Lemma infix_trans r s t : infix r s -> infix s t -> infix r t.
Proof.
  intros (a & b & ->) (c & d & ->). exists (c ++ a), (b ++ d). by rewrite !app_assoc.
Qed.

(** [s.replace(a, b)] for one-character [a], [b]. *)
Definition replace_char (a b : N) (s : pystr) : pystr :=
  (fun c => if (c =? a)%N then b else c) <$> s.

Fixpoint join (sep : pystr) (l : list pystr) : pystr :=
  match l with
  | [] => []
  | [x] => x
  | x :: l' => x ++ sep ++ join sep l'
  end.

(** [s.split(c)]. *)
Fixpoint split_on (c : N) (s : pystr) : list pystr :=
  match s with
  | [] => [[]]
  | d :: s' =>
      if (d =? c)%N then [] :: split_on c s'
      else match split_on c s' with
           | w :: ws => (d :: w) :: ws
           | [] => [[d]]
           end
  end.

(** The order of [str]: code point by code point. *)
Fixpoint str_cmp (s t : pystr) : comparison :=
  match s, t with
  | [], [] => Eq
  | [], _ => Lt
  | _, [] => Gt
  | a :: s', b :: t' => match (a ?= b)%N with Eq => str_cmp s' t' | c => c end
  end.
Definition str_lt (s t : pystr) : bool := match str_cmp s t with Lt => true | _ => false end.

Lemma str_cmp_eq s t : str_cmp s t = Eq <-> s = t.
Proof.
  revert t. induction s as [|a s IH]; intros [|b t]; simpl; try done.
  destruct (N.compare_spec a b) as [->|H|H].
  - rewrite IH. split; [by intros ->|by intros [= ->]].
  - split; [done|]. intros [= -> ->]. lia.
  - split; [done|]. intros [= -> ->]. lia.
Qed.

Lemma str_cmp_antisym s t : str_cmp t s = CompOpp (str_cmp s t).
Proof.
  revert t. induction s as [|a s IH]; intros [|b t]; simpl; try done.
  rewrite N.compare_antisym. destruct (a ?= b)%N; simpl; auto.
Qed.

Lemma str_cmp_lt_trans s t v : str_cmp s t = Lt -> str_cmp t v = Lt -> str_cmp s v = Lt.
Proof.
  revert t v. induction s as [|a s IH]; intros [|b t] [|c v]; simpl; try done.
  destruct (N.compare_spec a b) as [->|H|H]; try done.
  - destruct (N.compare_spec b c); try done. apply IH.
  - intros _ Hbc. rewrite (proj2 (N.compare_lt_iff a c)); [done|].
    destruct (N.compare_spec b c); try done; lia.
Qed.

Lemma weak_order_str : weak_order str_lt (fun _ => True).
Proof.
  split; unfold sort_le, str_lt; intros x y.
  - intros _ _. rewrite (str_cmp_antisym x y). by destruct (str_cmp x y).
  - intros z _ _ _ H1 H2. destruct (str_cmp z x) eqn:E; try done.
    destruct (str_cmp y x) eqn:F; try done.
    + apply str_cmp_eq in F as ->. by rewrite E in H2.
    + assert (str_cmp x y = Lt) as F' by (rewrite (str_cmp_antisym y x), F; done).
      by rewrite (str_cmp_lt_trans z x y E F') in H2.
Qed.

Lemma str_eq_lt s t : bool_decide (s = t) = negb (str_lt s t) && negb (str_lt t s).
Proof.
  unfold str_lt. rewrite (str_cmp_antisym s t).
  case_bool_decide as E.
  - apply str_cmp_eq in E. by rewrite E.
  - destruct (str_cmp s t) eqn:F; simpl; try done. by apply str_cmp_eq in F.
Qed.

(** [l[:n]] and [s[:n]]: a negative bound counts from the end. *)
Definition py_take {A} (n : Z) (l : list A) : list A :=
  if (n <? 0)%Z then take (length l - Z.to_nat (- n)) l else take (Z.to_nat n) l.

Lemma py_take_length {A} n (l : list A) : (0 <= n)%Z -> (Z.of_nat (length (py_take n l)) <= n)%Z.
Proof.
  intros. unfold py_take. destruct (n <? 0)%Z eqn:E; [apply Z.ltb_lt in E; lia|].
  rewrite length_take. lia.
Qed.

Lemma py_take_elem {A} (x : A) n l : x ∈ py_take n l -> x ∈ l.
Proof. unfold py_take. destruct (n <? 0)%Z; apply elem_of_take_weak. Qed.

(** * Objects *)

Set Warnings "-register-all".

Inductive pyval : Type :=
| VNone
| VBool (b : bool)
| VInt (z : Z)
| VFloat (x : float)
| VStr (s : pystr)
| VList (l : list pyval)
| VTuple (l : list pyval)
| VSet (l : list pyval)
| VDict (d : list (pystr * pyval)).

#[export] Instance vstr_inj : Inj (=) (=) VStr.
Proof. by intros ? ? [=]. Qed.

Abbreviation pydict := (list (pystr * pyval)).

(** [d.get(k)], [d[k] = v] and [d.pop(k, None)] on an insertion-ordered dict. *)
Section Dict.
Context {K V : Type} `{EqDecision K}.

Fixpoint dict_get (k : K) (d : list (K * V)) : option V :=
  match d with
  | [] => None
  | (k', v) :: d' => if decide (k = k') then Some v else dict_get k d'
  end.

Fixpoint dict_set (k : K) (v : V) (d : list (K * V)) : list (K * V) :=
  match d with
  | [] => [(k, v)]
  | (k', v') :: d' => if decide (k = k') then (k, v) :: d' else (k', v') :: dict_set k v d'
  end.

Fixpoint dict_pop (k : K) (d : list (K * V)) : list (K * V) :=
  match d with
  | [] => []
  | (k', v') :: d' => if decide (k = k') then d' else (k', v') :: dict_pop k d'
  end.

Lemma dict_get_set k v d : dict_get k (dict_set k v d) = Some v.
Proof.
  induction d as [|[k' v'] d IH]; simpl; [by rewrite decide_True|].
  destruct (decide (k = k')) as [->|]; simpl; [by rewrite decide_True|by rewrite decide_False].
Qed.

Lemma dict_get_set_ne k k' v d : k <> k' -> dict_get k (dict_set k' v d) = dict_get k d.
Proof.
  intros Hne. induction d as [|[k1 v1] d IH]; simpl; [by rewrite decide_False|].
  destruct (decide (k' = k1)) as [->|]; simpl; [by rewrite !decide_False|].
  by destruct (decide (k = k1)).
Qed.

Lemma dict_get_pop_ne k k' d : k <> k' -> dict_get k (dict_pop k' d) = dict_get k d.
Proof.
  intros Hne. induction d as [|[k1 v1] d IH]; simpl; [done|].
  destruct (decide (k' = k1)) as [->|]; simpl; [by rewrite decide_False|].
  by destruct (decide (k = k1)).
Qed.

Lemma dict_set_elem k k' v d : k' ∈ (dict_set k v d).*1 -> k' = k \/ k' ∈ d.*1.
Proof.
  induction d as [|[k1 v1] d IH]; simpl; [set_solver|].
  destruct (decide (k = k1)) as [->|]; simpl; set_solver.
Qed.

Lemma dict_set_keys_iff k k' v d : k' ∈ (dict_set k v d).*1 <-> k' = k \/ k' ∈ d.*1.
Proof.
  induction d as [|[k1 v1] d IH]; simpl; [set_solver|].
  destruct (decide (k = k1)); set_solver.
Qed.

Lemma dict_set_length k v d : length (dict_set k v d) <= S (length d).
Proof.
  induction d as [|[k1 v1] d IH]; simpl; [lia|]. destruct (decide (k = k1)); simpl; lia.
Qed.

Lemma dict_set_keys k v d : NoDup d.*1 -> NoDup (dict_set k v d).*1.
Proof.
  induction d as [|[k1 v1] d IH]; simpl; intros Hnd; [repeat constructor; set_solver|].
  apply list.NoDup_cons in Hnd as [Hn Hnd].
  destruct (decide (k = k1)) as [->|Hne]; simpl; apply list.NoDup_cons; [done|].
  split; [|by apply IH]. intros [?|?]%dict_set_elem; [by subst|done].
Qed.

Lemma dict_pop_gone k d : NoDup d.*1 -> dict_get k (dict_pop k d) = None.
Proof.
  induction d as [|[k1 v1] d IH]; simpl; intros Hnd; [done|].
  apply list.NoDup_cons in Hnd as [Hn Hnd].
  destruct (decide (k = k1)) as [->|]; simpl; [|by rewrite decide_False, IH].
  clear -Hn. induction d as [|[k2 v2] d IH]; simpl in *; [done|].
  rewrite decide_False by set_solver. apply IH. set_solver.
Qed.

Lemma dict_get_elem k v d : dict_get k d = Some v -> (k, v) ∈ d.
Proof.
  induction d as [|[k1 v1] d IH]; simpl; [done|].
  destruct (decide (k = k1)) as [->|]; [intros [= ->]; left|]. intros; right; auto.
Qed.

Lemma dict_get_None k d : dict_get k d = None -> k ∉ d.*1.
Proof.
  induction d as [|[k1 v1] d IH]; simpl; [set_solver|].
  destruct (decide (k = k1)); [done|set_solver].
Qed.

Lemma dict_set_fresh k v d : k ∉ d.*1 -> dict_set k v d = d ++ [(k, v)].
Proof.
  induction d as [|[k1 v1] d IH]; simpl; intros Hk; [done|].
  rewrite decide_False by set_solver. f_equal. apply IH. set_solver.
Qed.

Lemma dict_get_NoDup k v d : NoDup d.*1 -> (k, v) ∈ d -> dict_get k d = Some v.
Proof.
  induction d as [|[k1 v1] d IH]; simpl; intros Hnd Hin; [by apply elem_of_nil in Hin|].
  apply list.NoDup_cons in Hnd as [Hn Hnd]. apply elem_of_cons in Hin as [[= -> ->]|Hin].
  - by rewrite decide_True.
  - rewrite decide_False; [by apply IH|]. intros ->. apply Hn, list_elem_of_fmap. by exists (k1, v).
Qed.

(** A property of all values is kept by storing a value that has it. *)
Lemma dict_set_Forall (P : K * V -> Prop) k v d :
  P (k, v) -> Forall P d -> Forall P (dict_set k v d).
Proof.
  intros Hk. induction 1 as [|[k1 v1] d H1 Hd IH]; simpl; [by repeat constructor|].
  destruct (decide (k = k1)); by constructor.
Qed.

Lemma dict_pop_Forall (P : K * V -> Prop) k d : Forall P d -> Forall P (dict_pop k d).
Proof.
  induction 1 as [|[k1 v1] d H1 Hd IH]; simpl; [done|].
  destruct (decide (k = k1)); [done|]. by constructor.
Qed.
End Dict.

(** [str(obj)].  The text of a float or of a container is Python's [repr]
    algorithm, which the code never inspects beyond equality: it is the
    parameter [py_repr] of the development. *)
Class PyRepr := py_repr : pyval -> pystr.

Definition str_of_Z (z : Z) : pystr := u (NilZero.string_of_int (Z.to_int z)).

Definition py_str `{PyRepr} (v : pyval) : pystr :=
  match v with
  | VStr s => s
  | VNone => u "None"
  | VBool true => u "True"
  | VBool false => u "False"
  | VInt z => str_of_Z z
  | _ => py_repr v
  end.

(** A number of Python's numeric tower: [bool] is a subtype of [int]. *)
Definition as_int (v : pyval) : option Z :=
  match v with
  | VInt z => Some z
  | VBool b => Some (if b then 1 else 0)%Z
  | _ => None
  end.

(** [a == b] on scalars; values of different kinds differ, NaN differs from
    everything, [1 == 1.0 == True]. *)
Definition scalar_eq (a b : pyval) : bool :=
  match a, b with
  | VNone, VNone => true
  | VStr s, VStr t => bool_decide (s = t)
  | VFloat x, VFloat y => feq x y
  | VFloat x, _ => match as_int b with Some z => Z_eq_float z x | None => false end
  | _, VFloat y => match as_int a with Some z => Z_eq_float z y | None => false end
  | _, _ =>
      match as_int a, as_int b with
      | Some m, Some n => (m =? n)%Z
      | _, _ => false
      end
  end.

Definition is_scalar (v : pyval) : bool :=
  match v with VNone | VBool _ | VInt _ | VFloat _ | VStr _ => true | _ => false end.

(** [a == b]: containers are compared elementwise, dicts regardless of order,
    sets by inclusion; a list never equals a tuple. *)
Fixpoint py_eq (a b : pyval) : bool :=
  let list_eq := fix list_eq (l m : list pyval) : bool :=
    match l, m with
    | [], [] => true
    | x :: l', y :: m' => py_eq x y && list_eq l' m'
    | _, _ => false
    end in
  match a, b with
  | VList l, VList m | VTuple l, VTuple m => list_eq l m
  | VSet l, VSet m => (length l =? length m) && forallb (fun x => existsb (py_eq x) m) l
  | VDict d, VDict e =>
      (length d =? length e) &&
      forallb (fun kv => match dict_get kv.1 e with Some w => py_eq kv.2 w | None => false end) d
  | _, _ => scalar_eq a b
  end.

(** [bool(v)]. *)
Definition truthy (v : pyval) : bool :=
  match v with
  | VNone => false
  | VBool b => b
  | VInt z => negb (z =? 0)%Z
  | VFloat x => negb (feq x fzero)
  | VStr s => match s with [] => false | _ => true end
  | VList l | VTuple l | VSet l => match l with [] => false | _ => true end
  | VDict d => match d with [] => false | _ => true end
  end.

(** Nesting depth of a value. *)
Fixpoint depth (v : pyval) : nat :=
  match v with
  | VList l | VTuple l | VSet l => S (max_list (depth <$> l))
  | VDict d => S (max_list ((fun kv => depth kv.2) <$> d))
  | _ => 0
  end.

(** Induction on values that reaches the elements of the containers. *)
Section PyvalInd.
Context (P : pyval -> Prop).
Hypothesis (HNone : P VNone) (HBool : forall b, P (VBool b)) (HInt : forall z, P (VInt z))
  (HFloat : forall x, P (VFloat x)) (HStr : forall s, P (VStr s))
  (HList : forall l, Forall P l -> P (VList l))
  (HTuple : forall l, Forall P l -> P (VTuple l))
  (HSet : forall l, Forall P l -> P (VSet l))
  (HDict : forall d, Forall (fun kv : pystr * pyval => P kv.2) d -> P (VDict d)).

Fixpoint pyval_nested_ind (v : pyval) : P v :=
  let fix go (l : list pyval) : Forall P l :=
    match l with
    | [] => @Forall_nil _ P
    | x :: l' => @Forall_cons_2 _ P x l' (pyval_nested_ind x) (go l')
    end in
  match v with
  | VNone => HNone
  | VBool b => HBool b
  | VInt z => HInt z
  | VFloat x => HFloat x
  | VStr s => HStr s
  | VList l => HList l (go l)
  | VTuple l => HTuple l (go l)
  | VSet l => HSet l (go l)
  | VDict d =>
      HDict d ((fix god (d : pydict) : Forall (fun kv : pystr * pyval => P kv.2) d :=
        match d with
        | [] => @Forall_nil _ _
        | kv :: d' => @Forall_cons_2 _ (fun kv : pystr * pyval => P kv.2) kv d'
                        (pyval_nested_ind kv.2) (god d')
        end) d)
  end.
End PyvalInd.
