(* ===== verification/Access.v ===== *)
(** Identity, permissions and access-control lists.

    Models [packages/auth/context.py] (the validated [AuthContext]),
    [packages/auth/policies.py] (permission predicates and the access filter),
    [packages/vectorstores/acl.py] (the ACL decision), the ACL part of
    [packages/vectorstores/dto.py], [packages/rag/access.py], and
    [packages/retrieval/filters.py] (the filter set every retriever receives),
    with the [RetrievalFilterSet] and [RetrievalRequest] records of
    [packages/retrieval/dto.py] they use. *)

From Stdlib Require Import ZArith String.
From S2P Require Import Prelude Float64 PyVal.
From stdpp Require Import base list gmap numbers.

(** A pydantic validator either normalises its field or raises [ValueError]. *)
Inductive validation_error : Type :=
| BlankIdentifier
| NotStringOrIterable
| AuthVersionTooSmall
| BlankMetadataKey
| UnstructuredMetadataKey
| MetadataValueNotScalar
| MetadataFilterNotMapping
| TopKNotPositive
| TopKTooLarge
| ScoreThresholdOutOfRange.

(** The validator shared by every required identifier of the DTOs. *)
Definition required_text (s : pystr) : result validation_error pystr :=
  let normalized := strip s in
  match normalized with [] => Err BlankIdentifier | _ => Ok normalized end.

Definition optional_text (o : option pystr) : option pystr :=
  match o with
  | None => None
  | Some v => match strip v with [] => None | n => Some n end
  end.

(** * [AuthContext] *)

Record AuthContext : Type := {
  auth_user_id : pystr;
  auth_tenant_id : pystr;
  auth_roles : list pystr;
  auth_department : option pystr;
  auth_permissions : list pystr;
  auth_identity_provider : option pystr;
  auth_version : option Z;
  auth_jti : option pystr;
  auth_session_id : option pystr;
  auth_session_expires_at : option Z;
  auth_token_expires_at : option Z
}.

(** The untyped keyword arguments of the constructor. *)
Record AuthInput : Type := {
  in_user_id : pystr;
  in_tenant_id : pystr;
  in_roles : pyval;
  in_department : option pystr;
  in_permissions : pyval;
  in_identity_provider : option pystr;
  in_auth_version : option Z;
  in_jti : option pystr;
  in_session_id : option pystr;
  in_session_expires_at : option Z;
  in_token_expires_at : option Z
}.

Section Auth.
Context `{PyRepr}.

(** [tuple(str(item).strip() for item in candidates if str(item).strip())]. *)
Definition strip_nonblank (l : list pystr) : list pystr :=
  filter (fun s => s <> []) (strip <$> l).

Definition _normalize_tuple_values (v : pyval) : result validation_error (list pystr) :=
  match v with
  | VNone => Ok []
  | VStr s => Ok (strip_nonblank (split_on 44 s))
  | VList l | VTuple l | VSet l => Ok (strip_nonblank (py_str <$> l))
  | VDict _ | VBool _ | VInt _ | VFloat _ => Err NotStringOrIterable
  end.

Definition make_auth_context (i : AuthInput) : result validation_error AuthContext :=
  user ← required_text (in_user_id i);
  tenant ← required_text (in_tenant_id i);
  roles ← _normalize_tuple_values (in_roles i);
  permissions ← _normalize_tuple_values (in_permissions i);
  _ ← raise_if (match in_auth_version i with Some n => (n <? 1)%Z | None => false end)
        AuthVersionTooSmall;
  mret {| auth_user_id := user;
          auth_tenant_id := tenant;
          auth_roles := roles;
          auth_department := optional_text (in_department i);
          auth_permissions := permissions;
          auth_identity_provider := optional_text (in_identity_provider i);
          auth_version := in_auth_version i;
          auth_jti := optional_text (in_jti i);
          auth_session_id := optional_text (in_session_id i);
          auth_session_expires_at := in_session_expires_at i;
          auth_token_expires_at := in_token_expires_at i |}.
End Auth.

(** * Permission policies *)

Definition DOCUMENT_UPLOAD_PERMISSIONS := [u "document:upload"; u "document:manage"].
Definition DOCUMENT_MANAGE_PERMISSIONS := [u "document:manage"].
Definition RAG_QUERY_PERMISSIONS := [u "document:read"; u "retrieval:query"].
Definition AGENT_RUN_PERMISSIONS := [u "agent:run"].
Definition DIAGNOSTICS_READ_PERMISSIONS := [u "audit:read"; u "diagnostics:read"].
Definition EVAL_EVIDENCE_READ_PERMISSIONS := [u "audit:read"; u "eval:read"].
Definition AUDIT_EXPLORER_READ_PERMISSIONS := [u "audit:read"].
Definition REVIEW_QUEUE_READ_PERMISSIONS := [u "review:read"].
Definition REVIEW_QUEUE_WRITE_PERMISSIONS := [u "review:write"].
Definition EVAL_CANDIDATE_WRITE_PERMISSIONS := [u "eval:write"].

(** [bool(S.intersection(l))] and [S.issubset(set(l))]. *)
Definition intersects (s l : list pystr) : bool := existsb (fun x => bool_decide (x ∈ l)) s.
Definition issubset (s l : list pystr) : bool := forallb (fun x => bool_decide (x ∈ l)) s.

Definition has_document_upload_permission a :=
  intersects DOCUMENT_UPLOAD_PERMISSIONS (auth_permissions a).
Definition has_document_manage_permission a :=
  intersects DOCUMENT_MANAGE_PERMISSIONS (auth_permissions a).
Definition has_rag_query_permission a := issubset RAG_QUERY_PERMISSIONS (auth_permissions a).
Definition has_agent_run_permission a := issubset AGENT_RUN_PERMISSIONS (auth_permissions a).
Definition has_diagnostics_read_permission a :=
  intersects DIAGNOSTICS_READ_PERMISSIONS (auth_permissions a).
Definition has_eval_evidence_read_permission a :=
  intersects EVAL_EVIDENCE_READ_PERMISSIONS (auth_permissions a).
Definition has_audit_explorer_read_permission a :=
  intersects AUDIT_EXPLORER_READ_PERMISSIONS (auth_permissions a).
Definition has_review_queue_read_permission a :=
  intersects REVIEW_QUEUE_READ_PERMISSIONS (auth_permissions a).
Definition has_review_queue_write_permission a :=
  intersects REVIEW_QUEUE_WRITE_PERMISSIONS (auth_permissions a).
Definition has_eval_candidate_write_permission a :=
  intersects EVAL_CANDIDATE_WRITE_PERMISSIONS (auth_permissions a).

(** [packages/agent/policies.py]. *)
Definition has_tool_permission (a : AuthContext) (permission : pystr) : bool :=
  let required := strip permission in
  match required with [] => false | _ => bool_decide (required ∈ auth_permissions a) end.

(** * The access filter *)

Record AccessFilter : Type := {
  af_tenant_id : pystr;
  af_user_id : pystr;
  af_roles : list pystr;
  af_department : option pystr;
  af_permissions : list pystr;
  af_metadata_filter : pydict;
  af_acl_filter : pydict
}.

Definition opt_str (o : option pystr) : pyval :=
  match o with None => VNone | Some s => VStr s end.

Definition build_access_filter (a : AuthContext) : AccessFilter :=
  {| af_tenant_id := auth_tenant_id a;
     af_user_id := auth_user_id a;
     af_roles := auth_roles a;
     af_department := auth_department a;
     af_permissions := auth_permissions a;
     af_metadata_filter := [(u "tenant_id", VStr (auth_tenant_id a))];
     af_acl_filter :=
       [(u "tenant_id", VStr (auth_tenant_id a));
        (u "user_id", VStr (auth_user_id a));
        (u "roles", VTuple (VStr <$> auth_roles a));
        (u "department", opt_str (auth_department a));
        (u "permissions", VTuple (VStr <$> auth_permissions a))] |}.

(** * [AclFilter] and [acl_allows] *)

Record AclFilter : Type := {
  acl_user_id : pystr;
  acl_roles : list pystr;
  acl_department : option pystr;
  acl_permissions : list pystr
}.

(** [sorted({item.strip() for item in value if item.strip()})]. *)
Definition _normalize_text_list (l : list pystr) : list pystr :=
  py_sort str_lt (remove_dups (strip_nonblank l)).

Definition make_acl_filter (user : pystr) (roles : list pystr) (department : option pystr)
    (permissions : list pystr) : result validation_error AclFilter :=
  uid ← required_text user;
  mret {| acl_user_id := uid;
          acl_roles := _normalize_text_list roles;
          acl_department := optional_text department;
          acl_permissions := _normalize_text_list permissions |}.

Section Acl.
Context `{PyRepr}.

Definition _text_set (value : option pyval) : list pystr :=
  match value with
  | Some (VStr s) => match strip s with [] => [] | n => [n] end
  | Some (VList l) | Some (VTuple l) | Some (VSet l) => strip_nonblank (py_str <$> l)
  | _ => []
  end.

Definition acl_visibility (acl : pydict) : pystr :=
  lower (strip (match dict_get (u "visibility") acl with
                | Some v => py_str v | None => u "tenant" end)).

Definition acl_allows (acl : pydict) (f : AclFilter) : bool :=
  let denied_users := _text_set (dict_get (u "denied_users") acl) in
  if bool_decide (acl_user_id f ∈ denied_users) then false else
  let visibility := acl_visibility acl in
  if bool_decide (visibility ∈ [u "public"; u "tenant"]) then true else
  let allowed_users := _text_set (dict_get (u "allowed_users") acl) in
  if bool_decide (acl_user_id f ∈ allowed_users) then true else
  let allowed_roles := _text_set (dict_get (u "allowed_roles") acl) in
  if intersects allowed_roles (acl_roles f) then true else
  let allowed_departments := _text_set (dict_get (u "allowed_departments") acl) in
  if (match acl_department f with
      | Some d => bool_decide (d ∈ allowed_departments) | None => false end) then true else
  let allowed_permissions := _text_set (dict_get (u "allowed_permissions") acl) in
  if intersects allowed_permissions (acl_permissions f) then true
  else false.

(** [packages/rag/access.py]. *)
Definition acl_filter_from_auth (a : AuthContext) : result validation_error AclFilter :=
  let f := build_access_filter a in
  make_acl_filter (af_user_id f) (af_roles f) (af_department f) (af_permissions f).

Definition acl_allows_auth (acl : pydict) (a : AuthContext) : result validation_error bool :=
  f ← acl_filter_from_auth a; mret (acl_allows acl f).
End Acl.

(** * Retrieval requests and filter sets *)

Definition MAX_RETRIEVAL_TOP_K : Z := 100.

Record RetrievalRequest : Type := {
  rq_query : pystr;
  rq_top_k : Z;
  rq_metadata_filter : pydict;
  rq_score_threshold : option float;
  rq_request_id : pystr;
  rq_trace_id : pystr
}.

Definition _is_scalar_metadata_value (v : pyval) : bool :=
  match v with
  | VNone | VStr _ | VInt _ | VBool _ => true
  | VFloat x => isfinite x
  | _ => false
  end.

Fixpoint normalize_metadata_filter (d acc : pydict) : result validation_error pydict :=
  match d with
  | [] => Ok acc
  | (key, item) :: d' =>
      let normalized_key := strip key in
      match normalized_key with
      | [] => Err BlankMetadataKey
      | c :: _ =>
          if (c =? 36)%N || existsb is_space normalized_key then Err UnstructuredMetadataKey
          else if _is_scalar_metadata_value item
          then normalize_metadata_filter d' (dict_set normalized_key item acc)
          else Err MetadataValueNotScalar
      end
  end.

Definition score_in_range (x : float) : bool :=
  isfinite x && negb (flt x fzero) && negb (flt fone x).

(** The [metadata_filter] argument: absent, a [FrozenDict] (kept as it is), some
    other mapping with string keys, or an object that is no mapping. *)
Inductive metadata_input : Type :=
| MdNone
| MdFrozen (d : pydict)
| MdMapping (d : pydict)
| MdOther.

Definition _metadata_filter_must_be_structured (v : metadata_input)
    : result validation_error pydict :=
  match v with
  | MdNone => Ok []
  | MdFrozen d => Ok d
  | MdMapping d => normalize_metadata_filter d []
  | MdOther => Err MetadataFilterNotMapping
  end.

Definition metadata_input_wf (v : metadata_input) : Prop :=
  match v with MdFrozen d | MdMapping d => NoDup d.*1 | _ => True end.

(** [RetrievalRequest(query=..., top_k=..., metadata_filter=..., ...)]. *)
Definition make_retrieval_request (query : pystr) (top_k : Z) (metadata : metadata_input)
    (threshold : option float) (request_id trace_id : pystr)
    : result validation_error RetrievalRequest :=
  q ← required_text query;
  r ← required_text request_id;
  t ← required_text trace_id;
  _ ← raise_if (top_k <=? 0)%Z TopKNotPositive;
  _ ← raise_if (MAX_RETRIEVAL_TOP_K <? top_k)%Z TopKTooLarge;
  _ ← raise_if (match threshold with Some x => negb (score_in_range x) | None => false end)
        ScoreThresholdOutOfRange;
  md ← _metadata_filter_must_be_structured metadata;
  mret {| rq_query := q; rq_top_k := top_k; rq_metadata_filter := md;
          rq_score_threshold := threshold; rq_request_id := r; rq_trace_id := t |}.

(** What [RetrievalRequest.__init__] reports of a refused request: the number of
    fields that fail validation, and the identifiers. *)
Definition RETRIEVAL_INVALID_REQUEST : pystr := u "RETRIEVAL_INVALID_REQUEST".

Definition request_error_count (query : pystr) (top_k : Z) (metadata : metadata_input)
    (threshold : option float) (request_id trace_id : pystr) : Z :=
  let bad (b : bool) : Z := if b then 1%Z else 0%Z in
  let blank (s : pystr) : bool := negb (is_ok (required_text s)) in
  (bad (blank query) + bad ((top_k <=? 0) || (MAX_RETRIEVAL_TOP_K <? top_k))
   + bad (negb (is_ok (_metadata_filter_must_be_structured metadata)))
   + bad (match threshold with Some x => negb (score_in_range x) | None => false end)
   + bad (blank request_id) + bad (blank trace_id))%Z.

Definition _safe_validation_details (top_k error_count : Z) (request_id trace_id : pystr) : pydict :=
  let opt (k : string) (s : pystr) := match strip s with [] => [] | n => [(u k, VStr n)] end in
  [(u "error_code", VStr RETRIEVAL_INVALID_REQUEST); (u "error_count", VInt error_count)]
  ++ opt "request_id"%string request_id ++ opt "trace_id"%string trace_id
  ++ [(u "top_k", VInt top_k)].

Record RetrievalFilterSet : Type := {
  fs_tenant_id : pystr;
  fs_user_id : pystr;
  fs_roles : list pystr;
  fs_department : option pystr;
  fs_permissions : list pystr;
  fs_metadata_filter : pydict;
  fs_acl_filter : pydict;
  fs_include_deleted : bool
}.

Inductive retrieval_error : Type :=
| RETRIEVAL_FORBIDDEN_FILTER
| RETRIEVAL_FILTER_INVALID (e : validation_error)
| RETRIEVAL_HYBRID_BRANCH_FAILED
| RETRIEVAL_HYBRID_MERGE_FAILED.

(** [requested_tenant is not None and requested_tenant != auth.tenant_id]. *)
Definition widens_tenant (requested : option pyval) (tenant : pystr) : bool :=
  match requested with
  | None | Some VNone => false
  | Some v => negb (scalar_eq v (VStr tenant))
  end.

Definition build_retrieval_filter_set (a : AuthContext) (r : RetrievalRequest)
    : result retrieval_error RetrievalFilterSet :=
  let f := build_access_filter a in
  let requested_tenant := dict_get (u "tenant_id") (rq_metadata_filter r) in
  let request_metadata := dict_pop (u "tenant_id") (rq_metadata_filter r) in
  if widens_tenant requested_tenant (auth_tenant_id a) then Err RETRIEVAL_FORBIDDEN_FILTER else
  match required_text (af_tenant_id f), required_text (af_user_id f) with
  | Ok tenant, Ok user =>
      Ok {| fs_tenant_id := tenant;
            fs_user_id := user;
            fs_roles := af_roles f;
            fs_department := af_department f;
            fs_permissions := af_permissions f;
            fs_metadata_filter := request_metadata;
            fs_acl_filter := af_acl_filter f;
            fs_include_deleted := false |}
  | Err e, _ | _, Err e => Err (RETRIEVAL_FILTER_INVALID e)
  end.

Definition to_vector_acl_filter (f : RetrievalFilterSet) : result validation_error AclFilter :=
  make_acl_filter (fs_user_id f) (fs_roles f) (fs_department f) (fs_permissions f).

Record MetadataFilter : Type := { mf_key : pystr; mf_value : pyval }.

(** [sorted(filters.metadata_filter.items())]: dict keys are distinct, so the
    pairs are compared by key. *)
Definition to_vector_metadata_filters (f : RetrievalFilterSet)
    : result validation_error (list MetadataFilter) :=
  foldr (fun kv acc =>
           k ← required_text kv.1; rest ← acc;
           mret ({| mf_key := k; mf_value := kv.2 |} :: rest))
        (Ok []) (py_sort (fun x y => str_lt x.1 y.1) (fs_metadata_filter f)).

(** * Properties *)

Lemma required_text_ok s t : required_text s = Ok t -> t = strip s /\ t <> [].
Proof. unfold required_text. by destruct (strip s) eqn:E; intros [= <-]. Qed.

Lemma required_text_fix s : strip s = s -> s <> [] -> required_text s = Ok s.
Proof. unfold required_text. intros ->. by destruct s. Qed.

Lemma optional_text_fix o : optional_text (optional_text o) = optional_text o.
Proof.
  destruct o as [v|]; simpl; [|done]. destruct (strip v) as [|c t] eqn:E; simpl; [done|].
  rewrite <- E, strip_idem, E. done.
Qed.

(** What the validators of [AuthContext] establish. *)
Record auth_wf (a : AuthContext) : Prop := {
  wf_user : strip (auth_user_id a) = auth_user_id a /\ auth_user_id a <> [];
  wf_tenant : strip (auth_tenant_id a) = auth_tenant_id a /\ auth_tenant_id a <> [];
  wf_roles : Forall (fun r => strip r = r /\ r <> []) (auth_roles a);
  wf_permissions : Forall (fun r => strip r = r /\ r <> []) (auth_permissions a);
  wf_department : optional_text (auth_department a) = auth_department a;
  wf_version : forall n, auth_version a = Some n -> (1 <= n)%Z
}.

Lemma strip_nonblank_wf l : Forall (fun r => strip r = r /\ r <> []) (strip_nonblank l).
Proof.
  unfold strip_nonblank. apply list.Forall_forall. intros r Hr.
  apply list_elem_of_filter in Hr as [Hne Hr]. apply list_elem_of_fmap in Hr as (s & -> & _).
  split; [apply strip_idem|done].
Qed.

Lemma strip_nonblank_fix l :
  Forall (fun r => strip r = r /\ r <> []) l -> strip_nonblank l = l.
Proof.
  unfold strip_nonblank. induction 1 as [|r l [Hs Hne] _ IH]; simpl; [done|].
  rewrite Hs, filter_cons, decide_True by done. f_equal. exact IH.
Qed.

Section Properties.
Context `{PyRepr}.

Lemma normalize_tuple_wf v l :
  _normalize_tuple_values v = Ok l -> Forall (fun r => strip r = r /\ r <> []) l.
Proof. destruct v; simpl; intros [= <-]; auto using strip_nonblank_wf. Qed.

(** Every constructed [AuthContext] is well formed. *)
Lemma make_auth_context_wf i a : make_auth_context i = Ok a -> auth_wf a.
Proof.
  unfold make_auth_context. intros Hm. res_inv.
  repeat match goal with
  | H : required_text _ = Ok _ |- _ => apply required_text_ok in H as [-> ?]
  | H : _normalize_tuple_values _ = Ok _ |- _ => apply normalize_tuple_wf in H
  end.
  constructor; simpl; auto using strip_idem, optional_text_fix.
  intros n Hn. rewrite Hn in *. by bool_inv.
Qed.

Lemma acl_filter_from_auth_wf a :
  auth_wf a ->
  exists f, acl_filter_from_auth a = Ok f /\ acl_user_id f = auth_user_id a /\
    (forall r, r ∈ acl_roles f <-> r ∈ auth_roles a) /\
    (forall r, r ∈ acl_permissions f <-> r ∈ auth_permissions a) /\
    acl_department f = auth_department a.
Proof.
  intros [[Hu Hu'] _ Hr Hp Hd _]. unfold acl_filter_from_auth, make_acl_filter. simpl.
  rewrite (required_text_fix _ Hu Hu'). simpl. eexists. split; [reflexivity|]. simpl.
  unfold _normalize_text_list.
  repeat split; auto; intros; rewrite py_sort_elem_of, elem_of_remove_dups,
    strip_nonblank_fix in *; auto.
Qed.
End Properties.

(** The decision of [acl_allows], declaratively. *)
Inductive acl_grants `{PyRepr} (acl : pydict) (f : AclFilter) : Prop :=
| grant_visibility :
    acl_visibility acl = u "public" \/ acl_visibility acl = u "tenant" -> acl_grants acl f
| grant_user :
    acl_user_id f ∈ _text_set (dict_get (u "allowed_users") acl) -> acl_grants acl f
| grant_role r :
    r ∈ acl_roles f -> r ∈ _text_set (dict_get (u "allowed_roles") acl) -> acl_grants acl f
| grant_department d :
    acl_department f = Some d -> d ∈ _text_set (dict_get (u "allowed_departments") acl) ->
    acl_grants acl f
| grant_permission p :
    p ∈ acl_permissions f -> p ∈ _text_set (dict_get (u "allowed_permissions") acl) ->
    acl_grants acl f.

Lemma intersects_spec s l : intersects s l = true <-> exists x, x ∈ s /\ x ∈ l.
Proof.
  unfold intersects. rewrite existsb_exists.
  split; intros (x & Hx & Hl); exists x.
  - split; [by apply list_elem_of_In|by apply bool_decide_eq_true in Hl].
  - split; [by apply list_elem_of_In|by apply bool_decide_eq_true].
Qed.

Lemma issubset_spec s l : issubset s l = true <-> s ⊆ l.
Proof.
  unfold issubset. rewrite forallb_forall. split; intros Hs x Hx.
  - apply list_elem_of_In in Hx. by apply Hs, bool_decide_eq_true in Hx.
  - apply bool_decide_eq_true, Hs. by apply list_elem_of_In.
Qed.

(** [acl_allows] grants access exactly when the user is not in
    [denied_users] and the visibility, the user, a role, the department or a
    permission grants it: a denial takes precedence over every grant, and a
    private ACL with no matching entry grants nothing. *)
Theorem acl_allows_spec `{PyRepr} acl f :
  acl_allows acl f = true <->
  ~ acl_user_id f ∈ _text_set (dict_get (u "denied_users") acl) /\ acl_grants acl f.
Proof.
  unfold acl_allows. split.
  - repeat case_bool_decide; try done; intros Hg; (split; [done|]).
    + apply grant_visibility. set_solver.
    + by apply grant_user.
    + destruct (intersects _ (acl_roles f)) eqn:Er.
      { apply intersects_spec in Er as (r & ? & ?). by apply (grant_role _ _ r). }
      destruct (acl_department f) as [d|] eqn:Ed.
      * case_bool_decide; [by apply (grant_department _ _ d)|].
        destruct (intersects _ (acl_permissions f)) eqn:Ep; [|done].
        apply intersects_spec in Ep as (r & ? & ?). by apply (grant_permission _ _ r).
      * destruct (intersects _ (acl_permissions f)) eqn:Ep; [|done].
        apply intersects_spec in Ep as (r & ? & ?). by apply (grant_permission _ _ r).
  - intros [Hd Hg]. rewrite bool_decide_eq_false_2 by done.
    case_bool_decide as Hv; [done|]. case_bool_decide as Hu; [done|].
    destruct (intersects _ (acl_roles f)) eqn:Er; [done|].
    destruct Hg as [Hg|Hg|r Hr Hg|d Hdep Hg|p Hp Hg].
    + exfalso. apply Hv. destruct Hg as [->| ->]; set_solver.
    + done.
    + assert (intersects (_text_set (dict_get (u "allowed_roles") acl)) (acl_roles f) = true)
        by (apply intersects_spec; eauto). congruence.
    + rewrite Hdep. by rewrite bool_decide_eq_true_2.
    + destruct (match acl_department f with Some _ => _ | None => _ end); [done|].
      assert (intersects (_text_set (dict_get (u "allowed_permissions") acl)) (acl_permissions f)
        = true) as -> by (apply intersects_spec; eauto). done.
Qed.

Lemma normalize_metadata_keys d acc md :
  normalize_metadata_filter d acc = Ok md -> NoDup acc.*1 -> NoDup md.*1.
Proof.
  revert acc. induction d as [|[k v] d IH]; intros acc; simpl; [by intros [= <-]|].
  destruct (strip k) as [|c s] eqn:E; [done|].
  destruct (_ || _); [done|]. destruct (_is_scalar_metadata_value v); [|done].
  intros Hn Hnd. eapply IH; [exact Hn|]. by apply dict_set_keys.
Qed.

Lemma make_retrieval_request_keys q k md t r tr rq :
  metadata_input_wf md ->
  make_retrieval_request q k md t r tr = Ok rq ->
  NoDup (rq_metadata_filter rq).*1 /\ (1 <= rq_top_k rq <= MAX_RETRIEVAL_TOP_K)%Z.
Proof.
  unfold make_retrieval_request. intros Hwf Hm. res_inv; bool_inv.
  all: split; [|lia]; destruct md; simpl in *; simplify_eq; try done; try by constructor.
  all: eapply normalize_metadata_keys; [eassumption|constructor].
Qed.

(** For a validated identity and a validated request the filter set is
    always built unless the request's metadata filter names another tenant,
    which is refused; when it is built it is pinned to the caller's tenant and
    user, carries the caller's roles and permissions, no longer contains a
    [tenant_id] metadata key and never includes deleted chunks. *)
Theorem filter_set_scope `{PyRepr} i a q k md t r tr rq :
  make_auth_context i = Ok a ->
  metadata_input_wf md ->
  make_retrieval_request q k md t r tr = Ok rq ->
  match build_retrieval_filter_set a rq with
  | Err e =>
      e = RETRIEVAL_FORBIDDEN_FILTER /\
      exists v, dict_get (u "tenant_id") (rq_metadata_filter rq) = Some v /\
        v <> VNone /\ v <> VStr (auth_tenant_id a)
  | Ok f =>
      fs_tenant_id f = auth_tenant_id a /\ fs_user_id f = auth_user_id a /\
      fs_roles f = auth_roles a /\ fs_permissions f = auth_permissions a /\
      fs_department f = auth_department a /\
      dict_get (u "tenant_id") (fs_metadata_filter f) = None /\
      fs_include_deleted f = false /\
      to_vector_acl_filter f = acl_filter_from_auth a
  end.
Proof.
  intros Ha Hmd Hr. apply make_auth_context_wf in Ha as [[Hu Hu'] [Ht Ht'] _ _ _ _].
  apply make_retrieval_request_keys in Hr as [Hnd _]; [|done].
  unfold build_retrieval_filter_set. simpl.
  rewrite (required_text_fix _ Ht Ht'), (required_text_fix _ Hu Hu').
  destruct (widens_tenant _ _) eqn:Ew.
  - split; [done|].
    destruct (dict_get (u "tenant_id") (rq_metadata_filter rq)) as [v|]; [|done].
    exists v. split; [done|]. split; intros ->; [done|].
    simpl in Ew. rewrite bool_decide_eq_true_2 in Ew by done. done.
  - simpl. repeat split. by apply dict_pop_gone.
Qed.

Module Examples.
#[export] Instance repr0 : PyRepr := fun _ => u "<object>".

Definition alice_input : AuthInput :=
  {| in_user_id := u " alice "; in_tenant_id := u "t1";
     in_roles := VStr (u "analyst, viewer"); in_department := Some (u "ops");
     in_permissions := VList [VStr (u "document:read"); VStr (u "retrieval:query")];
     in_identity_provider := None; in_auth_version := Some 1%Z; in_jti := None;
     in_session_id := None; in_session_expires_at := None; in_token_expires_at := None |}.

Definition alice : AuthContext :=
  {| auth_user_id := u "alice"; auth_tenant_id := u "t1";
     auth_roles := [u "analyst"; u "viewer"]; auth_department := Some (u "ops");
     auth_permissions := [u "document:read"; u "retrieval:query"];
     auth_identity_provider := None; auth_version := Some 1%Z; auth_jti := None;
     auth_session_id := None; auth_session_expires_at := None;
     auth_token_expires_at := None |}.

Example alice_ok : make_auth_context alice_input = Ok alice.
Proof. reflexivity. Qed.

Definition request_md : metadata_input := MdMapping [(u "tenant_id", VStr (u "t1")); (u " lang", VStr (u "en"))].
End Examples.

Lemma filter_set_scope_witness :
  exists f,
    (rq ← make_retrieval_request (u "q") 5 Examples.request_md None (u "r1") (u "tr1");
     match build_retrieval_filter_set Examples.alice rq with
     | Ok f => Ok f | Err _ => Err BlankIdentifier end) = Ok f /\
    fs_tenant_id f = u "t1" /\ dict_get (u "tenant_id") (fs_metadata_filter f) = None.
Proof.
  assert (metadata_input_wf Examples.request_md) as Hmd
    by (apply (bool_decide_unpack _); vm_compute; exact I).
  pose proof (filter_set_scope (H := Examples.repr0) Examples.alice_input Examples.alice
    (u "q") 5 Examples.request_md None (u "r1") (u "tr1") _ eq_refl Hmd eq_refl) as Hs.
  eexists. split; [reflexivity|]. split; [exact (proj1 Hs)|].
  exact (proj1 (proj2 (proj2 (proj2 (proj2 (proj2 Hs)))))).
Defined.
