(* ===== verification/Redact.v ===== *)
(** Redaction of sensitive data.

    Models the redaction half of [packages/common/logging.py]: the keyword
    tables, the value patterns, [_is_sensitive_key], [_contains_sensitive_value],
    [redact_sensitive_data] and [redact_mapping].  Every error detail, audit
    record and citation the program exposes passes through these functions. *)

From Stdlib Require Import ZArith String.
From S2P Require Import Prelude Float64 PyVal.
From stdpp Require Import base list numbers sets.

Definition REDACTED_VALUE : pystr := u "[REDACTED]".

Definition SENSITIVE_KEYWORDS : list pystr := u <$>
  ["authorization"; "access_token"; "accesstoken"; "api_key"; "apikey"; "token"; "secret";
   "password"; "credential"; "cookie"; "private_key"; "privatekey"]%string.

Definition SENSITIVE_CONTENT_KEYS : list pystr := u <$>
  ["body"; "request_body"; "response_body"; "query"; "full_query"; "user_message";
   "assistant_message"; "message_content"; "answer"; "assistant_answer"; "prompt"; "content";
   "document_content"; "document_chunk"; "chunk_content"; "chunk_text"; "sql"; "sql_query";
   "tsquery"; "tsvector"; "vector"; "query_vector"; "embedding"; "embedding_vector";
   "raw_response"; "provider_raw_response"; "provider_raw_payload"; "tool_args"; "tool_params";
   "path"; "file_path"; "absolute_path"; "local_path"; "bucket"; "bucket_path"; "object_key";
   "source_uri"; "storage_key"; "storage_locator"; "uri"; "url"]%string.

Definition SAFE_OBSERVABILITY_KEYS : list pystr := u <$>
  ["token_usage"; "input_tokens"; "output_tokens"; "total_tokens"]%string.

(** * Regular expressions

    The fragment of [re] the patterns use, with its zero-width assertions.
    [re_ends r s i] lists the positions at which a match of [r] starting at
    position [i] of [s] can end; [re_search] is [pattern.search(s) is not None],
    for which the order in which alternatives are tried does not matter. *)
Inductive re : Type :=
| REps
| RChr (p : N -> bool)
| RCat (a b : re)
| RAlt (a b : re)
| RStar (a : re)
| RBound
| RNotAfter (p : N -> bool).

(** The letters and digits outside ASCII, from the Unicode database. *)
Class UnicodeDB := unicode_alnum : N -> bool.

Section Regex.
Context `{UnicodeDB}.

Definition is_word (c : N) : bool :=
  is_alpha c || is_digit c || (c =? 95)%N || ((128 <=? c)%N && unicode_alnum c).

Definition word_at (s : pystr) (i : nat) : bool :=
  match s !! i with Some c => is_word c | None => false end.
Definition word_before (s : pystr) (i : nat) : bool :=
  match i with O => false | S j => word_at s j end.

Fixpoint star_ends (f : nat -> list nat) (n : nat) (front : list nat) : list nat :=
  match n with
  | O => front
  | S n' => remove_dups (front ++ star_ends f n' (remove_dups (front ≫= f)))
  end.

Fixpoint re_ends (r : re) (s : pystr) (i : nat) : list nat :=
  match r with
  | REps => [i]
  | RChr p => match s !! i with Some c => if p c then [S i] else [] | None => [] end
  | RCat a b => re_ends a s i ≫= re_ends b s
  | RAlt a b => re_ends a s i ++ re_ends b s i
  | RStar a => star_ends (re_ends a s) (S (length s)) [i]
  | RBound => if xorb (word_before s i) (word_at s i) then [i] else []
  | RNotAfter p =>
      match i with
      | O => [i]
      | S j => match s !! j with Some c => if p c then [] else [i] | None => [i] end
      end
  end.

Definition re_search (r : re) (s : pystr) : bool :=
  existsb (fun i => match re_ends r s i with [] => false | _ => true end)
          (seq 0 (S (length s))).
End Regex.

Definition RPlus (r : re) : re := RCat r (RStar r).
Definition ROpt (r : re) : re := RAlt r REps.
Definition RStr (s : pystr) : re := foldr (fun c r => RCat (RChr (fun d => (d =? c)%N)) r) REps s.

(** A letter under [re.IGNORECASE]: U+017F folds to [s], U+212A to [k], U+0130
    and U+0131 to [i] (the four non-ASCII letters Python's [re] documents). *)
Definition fold_char (c : N) : N :=
  (if (65 <=? c) && (c <=? 90) then c + 32
   else if c =? 383 then 115 else if c =? 8490 then 107
   else if (c =? 304) || (c =? 305) then 105 else c)%N.
Definition RStrI (s : pystr) : re :=
  foldr (fun c r => RCat (RChr (fun d => (fold_char d =? fold_char c)%N)) r) REps s.
Definition ROneOf (s : pystr) : N -> bool := fun c => bool_decide (c ∈ s).
Definition RAnyOf (l : list re) : re :=
  match l with [] => RChr (fun _ => false) | r :: l' => foldl RAlt r l' end.
Definition non_space (c : N) : bool := negb (is_space c).
Definition is_alnum (c : N) : bool := is_alpha c || is_digit c.
Definition is_alnum_i (c : N) : bool := is_alnum (fold_char c).

Definition SENSITIVE_VALUE_PATTERNS : list re :=
  [ (* bearer token *)
    RCat RBound (RCat (RStrI (u "bearer")) (RCat (RPlus (RChr is_space))
      (RPlus (RChr (fun c => is_alnum_i c || ROneOf (u "._~+/=-") c)))));
    (* JSON web token *)
    let seg := RPlus (RChr (fun c => is_alnum c || ROneOf (u "_-") c)) in
    RCat RBound (RCat (RStr (u "eyJ")) (RCat seg (RCat (RStr (u ".")) (RCat seg
      (RCat (RStr (u ".")) (RCat seg RBound))))));
    (* sk- provider key *)
    let c1 := RChr (fun c => is_alnum c || ROneOf (u "_-") c) in
    RCat RBound (RCat (RStr (u "sk-"))
      (Nat.iter 8 (RCat c1) (RCat (RStar c1) RBound)));
    (* assignment of a secret *)
    let sep := ROpt (RChr (fun c => ROneOf (u "_-") c || is_space c)) in
    RCat RBound (RCat
      (RAnyOf [RCat (RStrI (u "api")) (RCat sep (RStrI (u "key")));
               RCat (RStrI (u "access")) (RCat sep (RStrI (u "token")));
               RStrI (u "secret"); RStrI (u "password")])
      (RCat (RStar (RChr is_space)) (RCat (RChr (ROneOf (u ":=")))
        (RCat (RStar (RChr is_space)) (RPlus (RChr non_space))))));
    (* drive-letter path *)
    RCat (RNotAfter is_alnum) (RCat (RChr is_alpha) (RCat (RStr (u ":"))
      (RCat (RChr (ROneOf (u "\/"))) (RPlus (RChr non_space)))));
    (* UNC path *)
    RCat (RStr (u "\\")) (RPlus (RChr non_space));
    (* Unix path *)
    RCat (RStr (u "/")) (RCat
      (RAnyOf [RStr (u "home"); RStr (u "Users"); RStr (u "etc"); RStr (u "var"); RStr (u "opt")])
      (RCat (RStr (u "/")) (RPlus (RChr non_space))));
    (* object-store URI *)
    RCat RBound (RCat (RAnyOf [RStrI (u "file"); RStrI (u "s3"); RStrI (u "minio")])
      (RCat (RStr (u "://")) (RPlus (RChr non_space))));
    (* URL carrying a secret in its query *)
    RCat RBound (RCat (RStrI (u "http")) (RCat (ROpt (RStrI (u "s"))) (RCat (RStr (u "://"))
      (RCat (RPlus (RChr (fun c => non_space c && negb (c =? 63)%N))) (RCat (RStr (u "/"))
        (RCat (RStar (RChr non_space)) (RCat (RStr (u "?")) (RCat (RStar (RChr non_space))
          (RCat (RAnyOf [RStrI (u "token"); RStrI (u "secret");
                         RCat (RStrI (u "api")) (RCat (ROpt (RChr (ROneOf (u "_-"))))
                           (RStrI (u "key")))])
                (RStar (RChr non_space))))))))))) ].

(** * Redaction *)

(** [re.sub(r"[^a-z0-9]", "", s)]. *)
Definition compact_key (s : pystr) : pystr :=
  filter (fun c => ((97 <=? c) && (c <=? 122) || is_digit c)%N = true) s.

Definition _is_sensitive_key (key : pystr) : bool :=
  let normalized := replace_char 45 95 (lower (strip key)) in
  if bool_decide (normalized ∈ SAFE_OBSERVABILITY_KEYS) then false else
  let compact := compact_key normalized in
  let compact_content_keys := compact_key <$> SENSITIVE_CONTENT_KEYS in
  existsb (fun k => contains k normalized || contains k compact) SENSITIVE_KEYWORDS
  || bool_decide (normalized ∈ SENSITIVE_CONTENT_KEYS)
  || bool_decide (compact ∈ compact_content_keys).

Section Redact.
Context `{UnicodeDB}.

Definition _contains_sensitive_value (value : pystr) : bool :=
  existsb (fun r => re_search r value) SENSITIVE_VALUE_PATTERNS.

Fixpoint redact_sensitive_data (value : pyval) : pyval :=
  match value with
  | VDict d =>
      VDict ((fix go (d redacted : pydict) : pydict :=
        match d with
        | [] => redacted
        | (key, item) :: d' =>
            go d' (dict_set key
                     (if _is_sensitive_key key then VStr REDACTED_VALUE
                      else redact_sensitive_data item) redacted)
        end) d [])
  | VList l | VTuple l => VList (map redact_sensitive_data l)
  | VStr s => if _contains_sensitive_value s then VStr REDACTED_VALUE else VStr s
  | v => v
  end.

Definition redact_mapping (data : pydict) : pydict :=
  match redact_sensitive_data (VDict data) with VDict d => d | _ => [] end.

(** What a redacted value looks like: no list, tuple or dict below it holds a
    string that matches a pattern, and the value of a sensitive key is the
    redaction mark. *)
Definition is_redacted (v : pyval) : bool :=
  match v with VStr s => bool_decide (s = REDACTED_VALUE) | _ => false end.

Fixpoint clean (v : pyval) : bool :=
  match v with
  | VDict d =>
      bool_decide (NoDup d.*1)
      && forallb (fun kv => if _is_sensitive_key kv.1 then is_redacted kv.2 else clean kv.2) d
  | VList l => forallb clean l
  | VTuple _ => false
  | VStr s => negb (_contains_sensitive_value s)
  | _ => true
  end.

Definition redact_entry (kv : pystr * pyval) : pystr * pyval :=
  (kv.1, if _is_sensitive_key kv.1 then VStr REDACTED_VALUE else redact_sensitive_data kv.2).

Lemma redact_dict_eq d :
  redact_sensitive_data (VDict d)
  = VDict (foldl (fun acc kv => dict_set kv.1 kv.2 acc) [] (redact_entry <$> d)).
Proof.
  simpl. f_equal. generalize (@nil (pystr * pyval)) as acc.
  induction d as [|[k v] d IH]; intros acc; simpl; [done|apply IH].
Qed.

#[local] Arguments _contains_sensitive_value : simpl never.

Lemma mark_clean : _contains_sensitive_value REDACTED_VALUE = false.
Proof. vm_compute. reflexivity. Qed.

Lemma clean_entry_mark k :
  (if _is_sensitive_key k then is_redacted (VStr REDACTED_VALUE) else clean (VStr REDACTED_VALUE))
  = true.
Proof. destruct (_is_sensitive_key k); [done|]. cbn [clean]. by rewrite mark_clean. Qed.

Lemma dict_build_clean d acc :
  Forall (fun kv => (if _is_sensitive_key kv.1 then is_redacted kv.2 else clean kv.2) = true) d ->
  clean (VDict acc) = true ->
  clean (VDict (foldl (fun acc kv => dict_set kv.1 kv.2 acc) acc d)) = true.
Proof.
  intros Hd. revert acc. induction Hd as [|[k v] d Hk Hd IH]; intros acc Hacc; [done|].
  cbn [foldl fst snd]. apply IH. cbn [clean] in Hacc |- *. apply andb_prop in Hacc as [Hnd Hall].
  apply andb_true_intro; split.
  - apply bool_decide_eq_true. apply dict_set_keys. by apply bool_decide_eq_true in Hnd.
  - apply forallb_forall. apply List.Forall_forall, dict_set_Forall; [done|].
    apply List.Forall_forall. by apply forallb_forall.
Qed.

Lemma dict_build_id (d acc : pydict) :
  NoDup (acc ++ d).*1 -> foldl (fun acc kv => dict_set kv.1 kv.2 acc) acc d = acc ++ d.
Proof.
  revert acc. induction d as [|[k v] d IH]; intros acc Hnd; simpl; [by rewrite app_nil_r|].
  assert (dict_set k v acc = acc ++ [(k, v)]) as ->.
  { rewrite fmap_app in Hnd. apply list.NoDup_app in Hnd as (_ & Hdis & _).
    assert (k ∉ acc.*1) as Hk by (intros Hk; apply (Hdis _ Hk); set_solver).
    clear -Hk. induction acc as [|[k1 v1] acc IH]; simpl; [done|].
    destruct (decide (k = k1)); [set_solver|]. rewrite IH; set_solver. }
  rewrite IH; rewrite <- app_assoc; done.
Qed.

Lemma redact_of_clean v : clean v = true -> redact_sensitive_data v = v.
Proof.
  induction v as [| | | |s|l IH|l IH|l IH|d IH] using pyval_nested_ind; intros Hc; try done.
  - simpl in *. by destruct (_contains_sensitive_value s).
  - simpl in *. f_equal. rewrite forallb_forall in Hc.
    induction IH as [|x l Hx Hl IHl]; simpl; [done|].
    f_equal; [apply Hx, Hc; by left|apply IHl; intros y Hy; apply Hc; by right].
  - rewrite redact_dict_eq. cbn [clean] in Hc. apply andb_prop in Hc as [Hnd Hall].
    apply bool_decide_eq_true in Hnd.
    assert (redact_entry <$> d = d) as ->; [|by rewrite dict_build_id].
    clear Hnd. rewrite forallb_forall in Hall.
    induction IH as [|[k x] d Hx Hd IHd]; cbn; [done|]. f_equal.
    + specialize (Hall (k, x) (or_introl eq_refl)). cbn in *. unfold redact_entry; cbn.
      destruct (_is_sensitive_key k); [|by rewrite Hx].
      destruct x; try done. apply bool_decide_eq_true in Hall. by subst.
    + apply IHd. intros y Hy. apply Hall. by right.
Qed.

Lemma redact_is_clean v : clean (redact_sensitive_data v) = true.
Proof.
  assert (forall l, Forall (fun v => clean (redact_sensitive_data v) = true) l ->
            forallb clean (map redact_sensitive_data l) = true) as Hl.
  { induction 1 as [|x l Hx Hl IH]; simpl; [done|by rewrite Hx]. }
  induction v as [| | | |s|l IH|l IH|l IH|d IH] using pyval_nested_ind; try done.
  - simpl. destruct (_contains_sensitive_value s) eqn:E; cbn [clean]; [by rewrite mark_clean|by rewrite E].
  - simpl. by apply Hl.
  - simpl. by apply Hl.
  - rewrite redact_dict_eq. apply dict_build_clean; [|done].
    apply Forall_fmap. eapply Forall_impl; [exact IH|]. intros [k x] Hx. cbn in *.
    by destruct (_is_sensitive_key k).
Qed.

(** Redaction is complete and stable: whatever is redacted, no list, tuple
    or dict of the result holds, at any depth, a string that matches one of the
    sensitive-value patterns, every sensitive key's value is the redaction mark,
    and redacting the result again changes nothing. *)
Theorem redact_complete v :
  clean (redact_sensitive_data v) = true
  /\ redact_sensitive_data (redact_sensitive_data v) = redact_sensitive_data v.
Proof. split; [apply redact_is_clean|apply redact_of_clean, redact_is_clean]. Qed.
End Redact.

(** Redaction on concrete values, with no letters outside ASCII. *)
Module RedactExamples.
#[export] Instance ascii_only : UnicodeDB := fun _ => false.

Example redacts :
redact_sensitive_data
  (VDict [(u "note", VStr (u "Bearer abc.def")); (u "API-Key", VStr (u "x"));
          (u "total_tokens", VInt 3);
          (u "paths", VTuple [VStr (u "C:\tmp\a"); VStr (u "see /etc/passwd"); VStr (u "plain")])])
= VDict [(u "note", VStr REDACTED_VALUE); (u "API-Key", VStr REDACTED_VALUE);
         (u "total_tokens", VInt 3);
         (u "paths", VList [VStr REDACTED_VALUE; VStr REDACTED_VALUE; VStr (u "plain")])].
Proof. vm_compute. reflexivity. Qed.

Example url_secret :
map (fun s => _contains_sensitive_value (u s))
  ["https://h/p?api_key=1"; "https://h/p?q=1"; "sk-12345678"; "sk-1234567"; "s3://bucket/x";
   "eyJa.b.c"; "password = hunter2"; "ab:/x"]%string
= [true; false; true; false; true; true; true; false].
Proof. vm_compute. reflexivity. Qed.
End RedactExamples.
