(* ===== verification/Json.v ===== *)
(** Canonical JSON and its digest.

    [packages/agent/approval.py] and [packages/agent/durable/dto.py] identify tool
    arguments and decisions by [hashlib.sha256(json.dumps(x, sort_keys=True,
    separators=(",", ":"), allow_nan=False).encode()).hexdigest()].  Both halves
    belong to Python's standard library: [json_dumps] is the encoder with these
    options, [sha256_hex] the hash of FIPS 180-4.  A value the encoder refuses (a
    set, NaN, an infinity) is [None]: the call raises. *)

From Stdlib Require Import ZArith NArith String.
From S2P Require Import Prelude Float64 PyVal.
From stdpp Require Import base list numbers.

(** * SHA-256 *)
Module Sha.
#[local] Open Scope N_scope.

Definition K : list N :=
  [1116352408; 1899447441; 3049323471; 3921009573; 961987163; 1508970993; 2453635748;
   2870763221; 3624381080; 310598401; 607225278; 1426881987; 1925078388; 2162078206;
   2614888103; 3248222580; 3835390401; 4022224774; 264347078; 604807628; 770255983;
   1249150122; 1555081692; 1996064986; 2554220882; 2821834349; 2952996808; 3210313671;
   3336571891; 3584528711; 113926993; 338241895; 666307205; 773529912; 1294757372;
   1396182291; 1695183700; 1986661051; 2177026350; 2456956037; 2730485921; 2820302411;
   3259730800; 3345764771; 3516065817; 3600352804; 4094571909; 275423344; 430227734;
   506948616; 659060556; 883997877; 958139571; 1322822218; 1537002063; 1747873779;
   1955562222; 2024104815; 2227730452; 2361852424; 2428436474; 2756734187; 3204031479;
   3329325298].
Definition H0 : list N :=
  [1779033703; 3144134277; 1013904242; 2773480762; 1359893119; 2600822924; 528734635; 1541459225].

Definition w32 (x : N) : N := N.land x 4294967295.
Definition rotr (n x : N) : N := w32 (N.lor (N.shiftr x n) (N.shiftl x (32 - n))).
Definition not32 (x : N) : N := N.lxor x 4294967295.

Definition bsig0 x := N.lxor (rotr 2 x) (N.lxor (rotr 13 x) (rotr 22 x)).
Definition bsig1 x := N.lxor (rotr 6 x) (N.lxor (rotr 11 x) (rotr 25 x)).
Definition ssig0 x := N.lxor (rotr 7 x) (N.lxor (rotr 18 x) (N.shiftr x 3)).
Definition ssig1 x := N.lxor (rotr 17 x) (N.lxor (rotr 19 x) (N.shiftr x 10)).

Definition nth0 (l : list N) (i : nat) : N := default 0 (l !! i).

(** The message schedule, newest word first. *)
Definition schedule_step (w : list N) : list N :=
  w32 (ssig1 (nth0 w 1) + nth0 w 6 + ssig0 (nth0 w 14) + nth0 w 15) :: w.
Definition schedule (block : list N) : list N :=
  reverse (Nat.iter 48 schedule_step (reverse block)).

Definition round (st : list N) (kw : N * N) : list N :=
  match st with
  | [a; b; c; d; e; f; g; h] =>
      let t1 := h + bsig1 e + N.lxor (N.land e f) (N.land (not32 e) g) + kw.1 + kw.2 in
      let t2 := bsig0 a + N.lxor (N.land a b) (N.lxor (N.land a c) (N.land b c)) in
      [w32 (t1 + t2); a; b; c; w32 (d + t1); e; f; g]
  | _ => st
  end.

Definition compress (st block : list N) : list N :=
  zip_with (fun a b => w32 (a + b)) st (foldl round st (zip K (schedule block))).

(** Padding to whole blocks of 64 bytes, and big-endian words. *)
Definition be_bytes (n : nat) (x : N) : list N :=
  (fun i => N.land (N.shiftr x (8 * N.of_nat (n - 1 - i))) 255) <$> seq 0 n.
Definition pad (m : list N) : list N :=
  let zeros := ((119 - (length m mod 64)) mod 64)%nat in
  m ++ 128 :: replicate zeros 0 ++ be_bytes 8 (8 * N.of_nat (length m)).

Fixpoint words (m : list N) : list N :=
  match m with
  | a :: b :: c :: d :: m' =>
      (N.shiftl a 24 + N.shiftl b 16 + N.shiftl c 8 + d) :: words m'
  | _ => []
  end.
Fixpoint blocks (n : nat) (w : list N) : list (list N) :=
  match n with
  | O => []
  | S n' => take 16 w :: blocks n' (drop 16 w)
  end.

Definition hex_digit (d : N) : N := if d <? 10 then 48 + d else 87 + d.
Definition hex_byte (b : N) : list N := [hex_digit (N.shiftr b 4); hex_digit (N.land b 15)].

Definition digest (m : list N) : list N :=
  let w := words (pad m) in
  foldl compress H0 (blocks (length w / 16)%nat w) ≫= be_bytes 4.
End Sha.

(** * SHA-1, for name-based UUIDs *)
Module Sha1.
#[local] Open Scope N_scope.
Import Sha.
Definition rotl (n x : N) : N := rotr (32 - n) x.
Definition H0 : list N := [1732584193; 4023233417; 2562383102; 271733878; 3285377520].

Definition schedule_step (w : list N) : list N :=
  rotl 1 (N.lxor (N.lxor (nth0 w 2) (nth0 w 7)) (N.lxor (nth0 w 13) (nth0 w 15))) :: w.
Definition schedule (block : list N) : list N :=
  reverse (Nat.iter 64 schedule_step (reverse block)).

Definition round (st : list N) (tw : nat * N) : list N :=
  match st with
  | [a; b; c; d; e] =>
      let '(f, k) :=
        (if (tw.1 <? 20)%nat then (N.lor (N.land b c) (N.land (not32 b) d), 1518500249)
         else if (tw.1 <? 40)%nat then (N.lxor b (N.lxor c d), 1859775393)
         else if (tw.1 <? 60)%nat
              then (N.lor (N.land b c) (N.lor (N.land b d) (N.land c d)), 2400959708)
         else (N.lxor b (N.lxor c d), 3395469782)) in
      [w32 (rotl 5 a + f + e + k + tw.2); a; rotl 30 b; c; d]
  | _ => st
  end.

Definition compress (st block : list N) : list N :=
  zip_with (fun a b => w32 (a + b)) st
    (foldl round st (zip (seq 0 80) (schedule block))).

Definition digest (m : list N) : list N :=
  let w := words (pad m) in
  foldl compress H0 (blocks (length w / 16)%nat w) ≫= be_bytes 4.
End Sha1.

Example sha1_abc : Sha1.digest (u "abc") ≫= Sha.hex_byte =
  u "a9993e364706816aba3e25717850c26c9cd0d89d".
Proof. vm_compute. reflexivity. Qed.

(** [hashlib.sha256(m).hexdigest()]. *)
Definition sha256_hex (m : list N) : pystr := Sha.digest m ≫= Sha.hex_byte.

(** The test vectors of the standard. *)
Example sha256_abc : sha256_hex (u "abc") =
  u "ba7816bf8f01cfea414140de5dae2223b00361a396177a9cb410ff61f20015ad".
Proof. vm_compute. reflexivity. Qed.

Example sha256_two_blocks :
  sha256_hex (u "abcdbcdecdefdefgefghfghighijhijkijkljklmklmnlmnomnopnopq") =
  u "248d6a61d20638b8e5c026930c3e6039a33ce45964ff2167f6ecedd419db06c1".
Proof. vm_compute. reflexivity. Qed.

(** * The JSON encoder *)

Section Json.
Context `{PyRepr}.

(** [\uXXXX], a pair of surrogates beyond the basic plane. *)
Definition hex4 (c : N) : pystr :=
  (92 :: 117 :: Sha.hex_byte (N.shiftr c 8) ++ Sha.hex_byte (N.land c 255))%N.

Definition json_escape (c : N) : pystr :=
  (if c =? 34 then [92; 34] else if c =? 92 then [92; 92]
   else if c =? 10 then [92; 110] else if c =? 13 then [92; 114] else if c =? 9 then [92; 116]
   else if c =? 12 then [92; 102] else if c =? 8 then [92; 98]
   else if (32 <=? c) && (c <=? 126) then [c]
   else if c <? 65536 then hex4 c
   else let v := c - 65536 in
        hex4 (55296 + N.land (N.shiftr v 10) 1023) ++ hex4 (56320 + N.land v 1023))%N.

Definition json_string (s : pystr) : pystr := (34 :: (s ≫= json_escape) ++ [34])%N.

Definition item_lt (a b : pystr * pystr) : bool := str_lt a.1 b.1.

(** [allow_nan]: NaN and the infinities have a text of their own. *)
Definition json_float (allow_nan : bool) (x : float) : option pystr :=
  match x with
  | S754_nan => if allow_nan then Some (u "NaN") else None
  | S754_infinity false => if allow_nan then Some (u "Infinity") else None
  | S754_infinity true => if allow_nan then Some (u "-Infinity") else None
  | _ => Some (py_repr (VFloat x))
  end.

Fixpoint json_dumps (allow_nan : bool) (v : pyval) : option pystr :=
  match v with
  | VNone => Some (u "null")
  | VBool true => Some (u "true")
  | VBool false => Some (u "false")
  | VInt z => Some (str_of_Z z)
  | VFloat x => json_float allow_nan x
  | VStr s => Some (json_string s)
  | VList l | VTuple l =>
      parts ← mapM (json_dumps allow_nan) l;
      Some ([91%N] ++ PyVal.join [44%N] parts ++ [93%N])
  | VSet _ => None
  | VDict d =>
      items ← mapM (fun kv => w ← json_dumps allow_nan kv.2; Some (kv.1, w)) d;
      Some ([123%N] ++ PyVal.join [44%N] ((fun kw => json_string kw.1 ++ 58%N :: kw.2)
                                 <$> py_sort item_lt items) ++ [125%N])
  end.

(** [json.dumps(v, allow_nan=False)] with the default separators and key order. *)
Fixpoint json_dumps_default (v : pyval) : option pystr :=
  match v with
  | VList l | VTuple l =>
      parts ← mapM json_dumps_default l;
      Some ([91%N] ++ PyVal.join (u ", ") parts ++ [93%N])
  | VDict d =>
      items ← mapM (fun kv => w ← json_dumps_default kv.2; Some (kv.1, w)) d;
      Some ([123%N] ++ PyVal.join (u ", ") ((fun kw => json_string kw.1 ++ u ": " ++ kw.2) <$> items)
              ++ [125%N])
  | v => json_dumps false v
  end.

(** [hashlib.sha256(json.dumps(dict(d), ...).encode()).hexdigest()]. *)
Definition json_digest (d : pydict) : option pystr := sha256_hex <$> json_dumps false (VDict d).
End Json.

(** * Texts outside ASCII *)

(** [s.encode("utf-8")]: a lone surrogate cannot be encoded, and beyond U+10FFFF
    there is no code point. *)
Definition utf8_char (c : N) : option (list N) :=
  (if c <? 128 then Some [c]
   else if c <? 2048 then Some [N.lor 192 (N.shiftr c 6); N.lor 128 (N.land c 63)]
   else if (55296 <=? c) && (c <=? 57343) then None
   else if c <? 65536
   then Some [N.lor 224 (N.shiftr c 12); N.lor 128 (N.land (N.shiftr c 6) 63);
              N.lor 128 (N.land c 63)]
   else if c <? 1114112
   then Some [N.lor 240 (N.shiftr c 18); N.lor 128 (N.land (N.shiftr c 12) 63);
              N.lor 128 (N.land (N.shiftr c 6) 63); N.lor 128 (N.land c 63)]
   else None)%N.

Definition utf8_encode (s : pystr) : option (list N) := mjoin <$> mapM utf8_char s.

(** A JSON string with [ensure_ascii=False]. *)
Definition json_escape_raw (c : N) : pystr :=
  (if c =? 34 then [92; 34] else if c =? 92 then [92; 92]
   else if c =? 10 then [92; 110] else if c =? 13 then [92; 114] else if c =? 9 then [92; 116]
   else if c =? 12 then [92; 102] else if c =? 8 then [92; 98]
   else if c <? 32 then hex4 c else [c])%N.
Definition json_string_raw (s : pystr) : pystr := (34 :: (s ≫= json_escape_raw) ++ [34])%N.
