(* ===== verification/JsonText.v ===== *)
(** JSON texts determine what they encode.

    [json.dumps(v, sort_keys=True, ensure_ascii=False, allow_nan=False)] as
    [packages/retrieval/rerank/cache.py] uses it: a value becomes a tree whose
    objects are sorted by key ([json_tree]), and the tree is written with Python's
    default separators ([json_text]).  [json_text_inj] shows that two trees with
    the same text are the same tree and [utf8_encode_inj] that the bytes determine
    the text.  The text of a float is Python's [repr]; the class [FloatRepr] says
    what the encoder relies on. *)

From Stdlib Require Import ZArith NArith Ascii String DecimalString DecimalZ Bool.
From S2P Require Import Prelude Float64 PyVal Json.
From stdpp Require Import base list numbers.

(** * Trees *)
Set Warnings "-register-all".

Inductive jtree : Type :=
| JNull
| JBool (b : bool)
| JInt (z : Z)
| JFloat (x : float)
| JStr (s : pystr)
| JArr (l : list jtree)
| JObj (d : list (pystr * jtree)).

Section JtreeInd.
Context (P : jtree -> Prop).
Hypothesis (HNull : P JNull) (HBool : forall b, P (JBool b)) (HInt : forall z, P (JInt z))
  (HFloat : forall x, P (JFloat x)) (HStr : forall s, P (JStr s))
  (HArr : forall l, Forall P l -> P (JArr l))
  (HObj : forall d, Forall (fun kv : pystr * jtree => P kv.2) d -> P (JObj d)).

Fixpoint jtree_nested_ind (t : jtree) : P t :=
  match t with
  | JNull => HNull
  | JBool b => HBool b
  | JInt z => HInt z
  | JFloat x => HFloat x
  | JStr s => HStr s
  | JArr l =>
      HArr l ((fix go (l : list jtree) : Forall P l :=
        match l with
        | [] => @Forall_nil _ P
        | x :: l' => @Forall_cons_2 _ P x l' (jtree_nested_ind x) (go l')
        end) l)
  | JObj d =>
      HObj d ((fix go (d : list (pystr * jtree)) : Forall (fun kv : pystr * jtree => P kv.2) d :=
        match d with
        | [] => @Forall_nil _ _
        | kv :: d' => @Forall_cons_2 _ (fun kv : pystr * jtree => P kv.2) kv d'
                        (jtree_nested_ind kv.2) (go d')
        end) d)
  end.
End JtreeInd.

Definition key_lt {A} (a b : pystr * A) : bool := str_lt a.1 b.1.

(** The tree of a value; [None] where the encoder raises ([allow_nan=False], a
    set). *)
Fixpoint json_tree (v : pyval) : option jtree :=
  match v with
  | VNone => Some JNull
  | VBool b => Some (JBool b)
  | VInt z => Some (JInt z)
  | VFloat x => if isfinite x then Some (JFloat x) else None
  | VStr s => Some (JStr s)
  | VList l | VTuple l => JArr <$> mapM json_tree l
  | VSet _ => None
  | VDict d => (JObj ∘ py_sort key_lt) <$> mapM (fun kv => (fun t => (kv.1, t)) <$> json_tree kv.2) d
  end.

Section Text.
Context `{PyRepr}.

Fixpoint json_text (t : jtree) : pystr :=
  match t with
  | JNull => u "null"
  | JBool true => u "true"
  | JBool false => u "false"
  | JInt z => str_of_Z z
  | JFloat x => py_repr (VFloat x)
  | JStr s => json_string_raw s
  | JArr l => [91%N] ++ PyVal.join (u ", ") (json_text <$> l) ++ [93%N]
  | JObj d =>
      [123%N] ++ PyVal.join (u ", ") ((fun kv => json_string_raw kv.1 ++ u ": " ++ json_text kv.2) <$> d)
        ++ [125%N]
  end.
End Text.

(** The characters of a number, and those that end one. *)
Definition number_char (c : N) : bool :=
  is_digit c || (c =? 45)%N || (c =? 43)%N || (c =? 46)%N || (c =? 101)%N.
Definition float_mark (c : N) : bool := (c =? 46)%N || (c =? 101)%N.

(** [repr] of a finite float: digits, signs, point and exponent, never the text
    of an integer, and different floats have different texts. *)
Class FloatRepr `{PyRepr} : Prop := {
  float_chars : forall x, isfinite x = true ->
    forallb number_char (py_repr (VFloat x)) = true;
  float_marked : forall x, isfinite x = true ->
    existsb float_mark (py_repr (VFloat x)) = true;
  float_head : forall x, isfinite x = true ->
    match py_repr (VFloat x) with c :: _ => is_digit c || (c =? 45)%N = true | [] => False end;
  float_inj : forall x y, isfinite x = true -> isfinite y = true ->
    py_repr (VFloat x) = py_repr (VFloat y) -> x = y
}.

(** * UTF-8 *)

Lemma lor_add (k x : N) (n : N) : (x < 2 ^ n -> N.lor (k * 2 ^ n) x = k * 2 ^ n + x)%N.
Proof.
  intros Hx. assert (N.land (k * 2 ^ n) x = 0)%N as Hl.
  { apply N.bits_inj_0. intros i. rewrite N.land_spec. destruct (N.lt_ge_cases i n) as [Hi|Hi].
    - by rewrite N.mul_pow2_bits_low.
    - rewrite <- (N.mod_small x (2 ^ n)) by done.
      rewrite (N.mod_pow2_bits_high x n i) by done. apply andb_false_r. }
  rewrite N.add_nocarry_lxor by done. symmetry. by apply N.lxor_lor.
Qed.

Definition utf8_head (bytes : list N) : option (N * list N) :=
  (match bytes with
   | [] => None
   | b0 :: r =>
       if b0 <? 128 then Some (b0, r)
       else if b0 <? 224 then
         match r with b1 :: r => Some ((b0 - 192) * 64 + (b1 - 128), r) | _ => None end
       else if b0 <? 240 then
         match r with
         | b1 :: b2 :: r => Some ((b0 - 224) * 4096 + (b1 - 128) * 64 + (b2 - 128), r)
         | _ => None end
       else
         match r with
         | b1 :: b2 :: b3 :: r =>
             Some ((b0 - 240) * 262144 + (b1 - 128) * 4096 + (b2 - 128) * 64 + (b3 - 128), r)
         | _ => None end
   end)%N.

Lemma land63 c : (N.land c 63 = c mod 64)%N.
Proof. exact (N.land_ones c 6). Qed.

Lemma lead_byte k n b x : b = (k * 2 ^ n)%N -> (x < 2 ^ n)%N -> N.lor b x = (b + x)%N.
Proof. intros ->. apply lor_add. Qed.

Lemma tail_byte x : (N.lor 128 (N.land x 63) = 128 + x mod 64)%N.
Proof. rewrite land63. apply (lor_add 2 (x mod 64) 6). apply N.mod_lt. done. Qed.

Lemma utf8_head_char c e r :
  utf8_char c = Some e -> utf8_head (e ++ r) = Some (c, r).
Proof.
  unfold utf8_char. rewrite !tail_byte, !N.shiftr_div_pow2.
  change (2 ^ 6)%N with 64%N. change (2 ^ 12)%N with 4096%N. change (2 ^ 18)%N with 262144%N.
  pose proof (N.Div0.div_mod c 64) as E1. pose proof (N.Div0.div_mod (c / 64) 64) as E2.
  pose proof (N.Div0.div_mod (c / 4096) 64) as E3. rewrite !N.Div0.div_div in *.
  change (64 * 64)%N with 4096%N in *. change (4096 * 64)%N with 262144%N in *.
  pose proof (N.mod_lt c 64 ltac:(done)) as L1. pose proof (N.mod_lt (c / 64) 64 ltac:(done)) as L2.
  pose proof (N.mod_lt (c / 4096) 64 ltac:(done)) as L3. revert E1 E2 E3 L1 L2 L3.
  generalize (c / 64)%N (c mod 64)%N (c / 4096)%N ((c / 64) mod 64)%N (c / 262144)%N
    ((c / 4096) mod 64)%N. intros q1 m1 q2 m2 q3 m3 E1 E2 E3 L1 L2 L3.
  destruct (c <? 128)%N eqn:H1; [intros [= <-]; simpl; by rewrite H1|]. apply N.ltb_ge in H1.
  destruct (c <? 2048)%N eqn:H2; [apply N.ltb_lt in H2|apply N.ltb_ge in H2].
  { rewrite (lead_byte 6 5 192) by (done || (change (2 ^ 5)%N with 32%N; lia)).
    intros [= <-]. unfold utf8_head; cbn [app].
    rewrite (proj2 (N.ltb_ge _ 128)), (proj2 (N.ltb_lt _ 224)) by lia. do 2 f_equal. lia. }
  destruct ((55296 <=? c) && (c <=? 57343))%N; [done|].
  destruct (c <? 65536)%N eqn:H3; [apply N.ltb_lt in H3|apply N.ltb_ge in H3].
  { rewrite (lead_byte 14 4 224) by (done || (change (2 ^ 4)%N with 16%N; lia)).
    intros [= <-]. unfold utf8_head; cbn [app].
    rewrite (proj2 (N.ltb_ge _ 128)), (proj2 (N.ltb_ge _ 224)), (proj2 (N.ltb_lt _ 240)) by lia.
    do 2 f_equal. lia. }
  destruct (c <? 1114112)%N eqn:H4; [apply N.ltb_lt in H4|done].
  rewrite (lead_byte 30 3 240) by (done || (change (2 ^ 3)%N with 8%N; lia)).
  intros [= <-]. unfold utf8_head; cbn [app].
  rewrite (proj2 (N.ltb_ge _ 128)), (proj2 (N.ltb_ge _ 224)), (proj2 (N.ltb_ge _ 240)) by lia.
  do 2 f_equal. lia.
Qed.

Lemma utf8_encode_cons c s e :
  utf8_encode (c :: s) = Some e <->
  exists a b, utf8_char c = Some a /\ utf8_encode s = Some b /\ e = a ++ b.
Proof.
  unfold utf8_encode. simpl. destruct (utf8_char c) as [a|]; simpl; [|naive_solver].
  destruct (mapM utf8_char s) as [b|]; simpl; [|naive_solver].
  split; [intros [= <-]; eauto 10|]. by intros (? & ? & [= <-] & [= <-] & ->).
Qed.

Lemma utf8_char_nonempty c e : utf8_char c = Some e -> e <> [].
Proof. unfold utf8_char. repeat case_match; by intros [= <-]. Qed.

(** The bytes determine the text. *)
Lemma utf8_encode_inj s t e :
  utf8_encode s = Some e -> utf8_encode t = Some e -> s = t.
Proof.
  revert t e. induction s as [|c s IH]; intros [|d t] e He Ht'.
  - done.
  - injection He as <-. apply utf8_encode_cons in Ht' as (a & b & Ha & _ & Hn).
    apply utf8_char_nonempty in Ha. by destruct a.
  - injection Ht' as <-. apply utf8_encode_cons in He as (a & b & Ha & _ & Hn).
    apply utf8_char_nonempty in Ha. by destruct a.
  - apply utf8_encode_cons in He as (a & b & Ha & Hb & ->).
    apply utf8_encode_cons in Ht' as (a' & b' & Ha' & Hb' & Heq).
    pose proof (utf8_head_char c a b Ha) as H1. rewrite Heq in H1.
    rewrite (utf8_head_char d a' b' Ha') in H1. injection H1 as -> ->.
    f_equal. by apply (IH t b).
Qed.

(** * Strings *)

Definition hex_value (h : N) : N := (if h <? 58 then h - 48 else h - 87)%N.

(** Read one character of a JSON string; [None] at its closing quote. *)
Definition raw_head (text : pystr) : option (N * pystr) :=
  (match text with
   | [] => None
   | 92 :: 117 :: _ :: _ :: h :: l :: r => Some (16 * hex_value h + hex_value l, r)
   | 92 :: d :: r =>
       Some (if d =? 110 then 10 else if d =? 114 then 13 else if d =? 116 then 9
             else if d =? 102 then 12 else if d =? 98 then 8 else d, r)
   | c :: r => if c =? 34 then None else Some (c, r)
   end)%N.

Lemma raw_head_escape c r : raw_head (json_escape_raw c ++ r) = Some (c, r).
Proof.
  destruct (c <? 128)%N eqn:Hc.
  - assert (forall n, (n < 128)%nat -> raw_head (json_escape_raw (N.of_nat n) ++ r) = Some (N.of_nat n, r))
      as Hsmall.
    { intros n Hn. do 128 (destruct n as [|n]; [reflexivity|]). lia. }
    apply N.ltb_lt in Hc. rewrite <- (N2Nat.id c). apply Hsmall. lia.
  - apply N.ltb_ge in Hc. unfold json_escape_raw.
    repeat match goal with
           | |- context [(c =? ?k)%N] => rewrite (proj2 (N.eqb_neq c k)) by lia
           | |- context [(c <? ?k)%N] => rewrite (proj2 (N.ltb_ge c k)) by lia
           end.
    unfold raw_head. cbn [app].
    assert (c <> 92%N) as H92 by lia. assert ((c =? 34)%N = false) as -> by (apply N.eqb_neq; lia).
    destruct c as [|p]; [lia|]. do 7 (destruct p as [p|p|]; try reflexivity; try lia).
Qed.

Lemma escaped_split s t ra rb :
  (s ≫= json_escape_raw) ++ 34%N :: ra = (t ≫= json_escape_raw) ++ 34%N :: rb -> s = t /\ ra = rb.
Proof.
  revert t. induction s as [|c s IH]; intros [|d t] Heq; cbn [mbind list_bind] in Heq.
  - by injection Heq as ->.
  - apply (f_equal raw_head) in Heq. rewrite <- app_assoc, raw_head_escape in Heq. discriminate Heq.
  - apply (f_equal raw_head) in Heq. rewrite <- app_assoc, raw_head_escape in Heq. discriminate Heq.
  - apply (f_equal raw_head) in Heq. rewrite <- !app_assoc, !raw_head_escape in Heq.
    injection Heq as -> Heq. by destruct (IH t Heq) as [-> ->].
Qed.

Lemma string_split s t ra rb :
  json_string_raw s ++ ra = json_string_raw t ++ rb -> s = t /\ ra = rb.
Proof.
  unfold json_string_raw. intros Heq. injection Heq as Heq. rewrite <- !app_assoc in Heq.
  by apply escaped_split.
Qed.

(** * Numbers *)

Lemma span_split (s t ra rb : pystr) :
  forallb number_char s = true -> forallb number_char t = true ->
  match ra with c :: _ => number_char c = false | [] => True end ->
  match rb with c :: _ => number_char c = false | [] => True end ->
  s ++ ra = t ++ rb -> s = t /\ ra = rb.
Proof.
  revert t. induction s as [|c s IH]; intros [|d t] Hs Ht Hra Hrb Heq; simpl in *.
  - done.
  - subst ra. apply andb_prop in Ht as [Hd _]. congruence.
  - subst rb. apply andb_prop in Hs as [Hd _]. congruence.
  - injection Heq as -> Heq. apply andb_prop in Hs as [_ Hs]. apply andb_prop in Ht as [_ Ht].
    by destruct (IH t Hs Ht Hra Hrb Heq) as [-> ->].
Qed.

Lemma str_of_Z_inj z z' : str_of_Z z = str_of_Z z' -> z = z'.
Proof.
  unfold str_of_Z, u. intros Heq.
  assert (forall a b, N_of_ascii <$> list_ascii_of_string a = N_of_ascii <$> list_ascii_of_string b ->
            a = b) as Hu.
  { intros a b Hab. apply list_fmap_eq_inj in Hab.
    - by rewrite <- (string_of_list_ascii_of_string a), Hab, string_of_list_ascii_of_string.
    - intros x y Hxy. by rewrite <- (ascii_N_embedding x), Hxy, ascii_N_embedding. }
  apply Hu in Heq. apply DecimalZ.to_int_inj.
  apply (f_equal NilZero.int_of_string) in Heq.
  assert (forall z, NilZero.int_of_string (NilZero.string_of_int (Z.to_int z)) = Some (Z.to_int z))
    as Hz.
  { clear. intros z. apply NilZero.isi; intros Hz; pose proof (f_equal Z.of_int Hz) as H0;
      rewrite DecimalZ.of_to in H0; cbn in H0; subst z; discriminate Hz. }
  rewrite !Hz in Heq. by injection Heq.
Qed.

Lemma str_of_Z_shape z :
  forallb (fun c => is_digit c || (c =? 45)%N) (str_of_Z z) = true /\
  match str_of_Z z with [] => False | _ => True end.
Proof.
  assert (forall d, forallb (fun c => is_digit c || (c =? 45)%N) (u (NilZero.string_of_uint d)) = true /\
            match u (NilZero.string_of_uint d) with [] => False | _ => True end) as Hd.
  { intros d. assert (forallb (fun c => is_digit c || (c =? 45)%N) (u (NilEmpty.string_of_uint d)) = true)
      as He.
    { induction d; cbn; try done. }
    unfold NilZero.string_of_uint. destruct d; cbn in *; done. }
  unfold str_of_Z, NilZero.string_of_int. destruct (Z.to_int z) as [d|d]; [apply Hd|].
  destruct (Hd d) as [Ha _]. cbn. split; [exact Ha|done].
Qed.

(** * Trees *)

(** What may follow the text of a value. *)
Definition ends_value (r : pystr) : Prop :=
  match r with [] => True | c :: _ => c = 44%N \/ c = 93%N \/ c = 125%N end.

Lemma ends_not_number r :
  ends_value r -> match r with c :: _ => number_char c = false | [] => True end.
Proof. destruct r as [|c r]; [done|]. by intros [->|[->| ->]]. Qed.

(** The elements of an array or of an object after the first. *)
Definition rest_text {A} (f : A -> pystr) (l : list A) : pystr := l ≫= fun x => u ", " ++ f x.

Lemma join_rest {A} (f : A -> pystr) x l :
  PyVal.join (u ", ") (f <$> x :: l) = f x ++ rest_text f l.
Proof.
  revert x. induction l as [|y l IH]; intros x; [by cbn; rewrite app_nil_r|].
  change (PyVal.join (u ", ") (f <$> x :: y :: l))
    with (f x ++ u ", " ++ PyVal.join (u ", ") (f <$> y :: l)).
  rewrite IH. cbn. by rewrite <- ?app_assoc.
Qed.

Section Items.
Context {A : Type} (f : A -> pystr) (good : A -> Prop) (close : N).
Hypothesis closing : close = 93%N \/ close = 125%N.

(** An element whose text cannot be confused with another's, or with the end. *)
Definition opens (x : A) : Prop := match f x with [] => False | c :: _ => c <> close end.
Definition separable (x : A) : Prop :=
  opens x /\
  forall y ra rb, good y -> f x ++ ra = f y ++ rb -> ends_value ra -> ends_value rb ->
    x = y /\ ra = rb.

Lemma ends_rest l ra : ends_value (rest_text f l ++ close :: ra).
Proof. destruct l; cbn; [|by left]. destruct closing as [->| ->]; auto. Qed.

Lemma rest_split l m ra rb :
  Forall separable l -> Forall good m ->
  rest_text f l ++ close :: ra = rest_text f m ++ close :: rb -> l = m /\ ra = rb.
Proof.
  intros Hl. revert m. induction Hl as [|x l [_ Hx] Hl IH]; intros [|y m] Hg Heq.
  - by injection Heq as ->.
  - exfalso. cbn in Heq. injection Heq as Hc _. destruct closing as [->| ->]; discriminate Hc.
  - exfalso. cbn in Heq. injection Heq as Hc _. destruct closing as [->| ->]; discriminate Hc.
  - unfold rest_text in Heq. cbn [mbind list_bind] in Heq. rewrite <- !app_assoc in Heq.
    apply app_inv_head in Heq. fold (rest_text f l) (rest_text f m) in Heq.
    apply list.Forall_cons in Hg as [Hy Hg].
    apply Hx in Heq as [-> Heq]; [|done|apply ends_rest..].
    by destruct (IH m Hg Heq) as [-> ->].
Qed.

Lemma items_split l m ra rb :
  Forall separable l -> Forall opens m -> Forall good m ->
  PyVal.join (u ", ") (f <$> l) ++ close :: ra = PyVal.join (u ", ") (f <$> m) ++ close :: rb ->
  l = m /\ ra = rb.
Proof.
  intros Hl Hm Hg. destruct l as [|x l], m as [|y m].
  - cbn. by intros [= ->].
  - rewrite join_rest. apply list.Forall_cons in Hm as [Hy _]. unfold opens in Hy. destruct (f y) as [|c t]; [done|].
    cbn. intros [= Hc _]. congruence.
  - rewrite join_rest. apply list.Forall_cons in Hl as [[Hx _] _]. unfold opens in Hx. destruct (f x) as [|c t]; [done|].
    cbn. intros [= Hc _]. congruence.
  - rewrite !join_rest, <- !app_assoc. apply list.Forall_cons in Hl as [[_ Hx] Hl].
    apply list.Forall_cons in Hg as [Hy Hg].
    intros Heq. apply Hx in Heq as [-> Heq]; [|done|apply ends_rest..].
    by destruct (rest_split l m ra rb Hl Hg Heq) as [-> ->].
Qed.
End Items.

Section Inj.
Context `{FloatRepr}.

Fixpoint finite_tree (t : jtree) : bool :=
  match t with
  | JFloat x => isfinite x
  | JArr l => forallb finite_tree l
  | JObj d => forallb (fun kv => finite_tree kv.2) d
  | _ => true
  end.

(** The kind of a value shows in its first character. *)
Definition text_kind (c : N) : N :=
  if is_digit c || (c =? 45)%N then 48%N else c.
Definition tree_kind (t : jtree) : N :=
  match t with
  | JNull => 110 | JBool true => 116 | JBool false => 102 | JInt _ | JFloat _ => 48
  | JStr _ => 34 | JArr _ => 91 | JObj _ => 123
  end%N.

Lemma text_head t :
  finite_tree t = true -> exists c r, json_text t = c :: r /\ text_kind c = tree_kind t.
Proof.
  destruct t as [|[]|z|x|s|l|d]; intros Hf; try (eexists _, _; split; reflexivity).
  - destruct (str_of_Z_shape z) as [Ha Hn]. cbn [json_text]. destruct (str_of_Z z) as [|c r]; [done|].
    exists c, r. split; [done|]. unfold text_kind. cbn in Ha. apply andb_prop in Ha as [-> _]. done.
  - cbn in Hf. pose proof (float_head x Hf) as Hh. cbn [json_text].
    destruct (py_repr (VFloat x)) as [|c r]; [done|]. exists c, r. split; [done|].
    unfold text_kind. by rewrite Hh.
Qed.

Lemma int_text z :
  forallb number_char (str_of_Z z) = true /\ existsb float_mark (str_of_Z z) = false.
Proof.
  destruct (str_of_Z_shape z) as [Ha _]. split.
  - apply forallb_forall. intros c Hc. rewrite forallb_forall in Ha. specialize (Ha c Hc).
    unfold number_char. by rewrite Ha.
  - apply not_true_iff_false. intros (c & Hc & Hm)%existsb_exists. rewrite forallb_forall in Ha.
    specialize (Ha c Hc). revert Ha. unfold float_mark in Hm. apply orb_prop in Hm as [Hm|Hm];
      apply N.eqb_eq in Hm as ->; done.
Qed.

Lemma number_text t :
  finite_tree t = true -> tree_kind t = 48%N -> forallb number_char (json_text t) = true.
Proof.
  destruct t as [|[]|z|x|s|l|d]; try done; intros Hf _; [apply int_text|by apply float_chars].
Qed.

Lemma number_inj a b :
  finite_tree a = true -> finite_tree b = true -> tree_kind a = 48%N -> tree_kind b = 48%N ->
  json_text a = json_text b -> a = b.
Proof.
  assert (forall z x, isfinite x = true -> str_of_Z z = py_repr (VFloat x) -> False) as Hne.
  { intros z x Hx Heq. pose proof (float_marked x Hx) as Hm. rewrite <- Heq in Hm.
    destruct (int_text z) as [_ Hn]. congruence. }
  destruct a as [|[]|z|x|s|l|d]; try done; destruct b as [|[]|z'|x'|s'|l'|d']; try done;
    cbn; intros Ha Hb _ _ Heq.
  - f_equal. by apply str_of_Z_inj.
  - by destruct (Hne z x').
  - by destruct (Hne z' x).
  - f_equal. by apply float_inj.
Qed.

Definition item_text (kv : pystr * jtree) : pystr :=
  json_string_raw kv.1 ++ u ": " ++ json_text kv.2.

(** The text of [a] is no proper prefix of another value's before a separator. *)
Definition text_separable (a : jtree) : Prop :=
  finite_tree a = true ->
  forall b ra rb, finite_tree b = true -> json_text a ++ ra = json_text b ++ rb ->
  ends_value ra -> ends_value rb -> a = b /\ ra = rb.

Lemma tree_opens close a :
  close = 93%N \/ close = 125%N -> finite_tree a = true -> opens json_text close a.
Proof.
  intros Hc Ha. unfold opens. destruct (text_head a Ha) as (c & r & -> & Hk). intros ->.
  destruct Hc as [->| ->]; destruct a as [|[]| | | | | ]; discriminate Hk.
Qed.

Lemma item_separable kv :
  text_separable kv.2 -> finite_tree kv.2 = true ->
  separable item_text (fun kv => finite_tree kv.2 = true) 125 kv.
Proof.
  intros Hs Ha. split; [done|].
  destruct kv as [k v]. intros [k' v'] ra rb Hf Heq Hra Hrb. unfold item_text in Heq. cbn [fst snd] in *.
  rewrite <- !app_assoc in Heq. apply string_split in Heq as [-> Heq].
  apply app_inv_head in Heq. by destruct (Hs Ha v' ra rb Hf Heq Hra Hrb) as [-> ->].
Qed.

Lemma forallb_Forall {A} (f : A -> bool) l : forallb f l = true -> Forall (fun x => f x = true) l.
Proof. intros Hl. apply List.Forall_forall. by apply forallb_forall. Qed.

Lemma text_split a : text_separable a.
Proof.
  induction a as [|x|z|x|s|l IH|d IH] using jtree_nested_ind; intros Hfa b ra rb Hfb Heq Hra Hrb;
    (match type of Heq with json_text ?a ++ _ = _ => assert (tree_kind b = tree_kind a) as Hk end;
     [destruct (text_head _ Hfa) as (c & r & Hc & Hkc), (text_head _ Hfb) as (c' & r' & Hc' & Hkc');
      rewrite Hc, Hc' in Heq; injection Heq as -> _; congruence|]).
  all: try (destruct (span_split _ _ _ _ (number_text _ Hfa eq_refl) (number_text _ Hfb Hk)
              (ends_not_number _ Hra) (ends_not_number _ Hrb) Heq) as [Ht ->];
            split; [by apply number_inj|done]).
  - destruct b as [|[]|?|?|?|?|?]; try done. cbn in Heq. by injection Heq as ->.
  - destruct x, b as [|[]|?|?|?|?|?]; try done; cbn in Heq; by injection Heq as ->.
  - destruct b as [|[]|?|?|t|?|?]; try done. apply string_split in Heq as [-> ->]. done.
  - destruct b as [|[]|?|?|?|m|?]; try done. cbn [json_text] in Heq.
    rewrite <- !app_assoc in Heq. apply app_inv_head in Heq. cbn in Hfa, Hfb.
    apply forallb_Forall in Hfa, Hfb.
    apply (items_split json_text (fun t => finite_tree t = true) 93) in Heq as [-> ->];
      [done|by left| | |done].
    + apply list.Forall_forall. intros t Ht. rewrite list.Forall_forall in IH, Hfa.
      split; [by apply tree_opens; [left|apply Hfa]|]. intros; by apply IH; [|apply Hfa|..].
    + eapply list.Forall_impl; [exact Hfb|]. intros t. by apply tree_opens; left.
  - destruct b as [|[]|?|?|?|?|m]; try done. cbn [json_text] in Heq.
    rewrite <- !app_assoc in Heq. apply app_inv_head in Heq. cbn in Hfa, Hfb.
    apply forallb_Forall in Hfa, Hfb.
    apply (items_split item_text (fun kv => finite_tree kv.2 = true) 125) in Heq as [-> ->];
      [done|by right| | |done].
    + apply list.Forall_forall. intros t Ht. rewrite list.Forall_forall in IH, Hfa.
      apply item_separable; [by apply IH|by apply Hfa].
    + apply list.Forall_forall. done.
Qed.

(** The text determines the tree. *)
Lemma json_text_inj a b :
  finite_tree a = true -> finite_tree b = true -> json_text a = json_text b -> a = b.
Proof.
  intros Ha Hb Heq. apply (text_split a Ha b [] [] Hb); [by rewrite Heq|done|done].
Qed.
End Inj.

Lemma json_tree_finite v t : json_tree v = Some t -> finite_tree t = true.
Proof.
  revert t. induction v as [| | |x| |l IH|l IH| |d IH] using pyval_nested_ind; intros t; cbn;
    try (by intros [= <-]).
  - destruct (isfinite x) eqn:Hx; [by intros [= <-]|done].
  - intros (ts & Hts & ->)%fmap_Some. cbn. apply mapM_Some in Hts.
    induction Hts as [|v t l ts Hv Hts IHl]; [done|]. apply list.Forall_cons in IH as [Hi IH].
    cbn. by rewrite (Hi t Hv), IHl.
  - intros (ts & Hts & ->)%fmap_Some. cbn. apply mapM_Some in Hts.
    induction Hts as [|v t l ts Hv Hts IHl]; [done|]. apply list.Forall_cons in IH as [Hi IH].
    cbn. by rewrite (Hi t Hv), IHl.
  - intros (ts & Hts & ->)%fmap_Some. cbn. apply mapM_Some in Hts.
    assert (Forall (fun kt : pystr * jtree => finite_tree kt.2 = true) ts) as Hall.
    { induction Hts as [|[k v] t d ts Hv Hts IHl]; [constructor|].
      apply list.Forall_cons in IH as [Hi IH]. constructor; [|by apply IHl].
      cbn in Hv, Hi. destruct (json_tree v) as [tv|]; [|done]. injection Hv as <-. by apply Hi. }
    apply forallb_forall. intros kt Hk%list_elem_of_In%py_sort_elem_of.
    rewrite list.Forall_forall in Hall. by apply Hall.
Qed.

(** A float printed as mantissa and exponent: one [repr] with the properties of
    the class. *)
Module JsonExamples.

#[export] Instance exact_repr : PyRepr := fun v =>
  match v with
  | VFloat (S754_finite s m e) =>
      (if s then [45%N] else []) ++ str_of_Z (Zpos m) ++ 101%N :: str_of_Z e
  | VFloat (S754_zero s) => (if s then [45%N] else []) ++ u "0.0"
  | _ => u "?"
  end.

Lemma digits_pos m : forallb is_digit (str_of_Z (Zpos m)) = true.
Proof.
  unfold str_of_Z. cbn [Z.to_int]. unfold NilZero.string_of_int, NilZero.string_of_uint.
  assert (forall d, forallb is_digit (u (NilEmpty.string_of_uint d)) = true) as Hd
    by (induction d; cbn; done).
  destruct (Pos.to_uint m); try apply Hd. done.
Qed.

(** Digits up to the first character that is none. *)
Lemma digits_split (s t ra rb : pystr) a b :
  forallb is_digit s = true -> forallb is_digit t = true ->
  is_digit a = false -> is_digit b = false ->
  s ++ a :: ra = t ++ b :: rb -> s = t /\ a = b /\ ra = rb.
Proof.
  revert t. induction s as [|c s IH]; intros [|d t] Hs Ht Ha Hb Heq; cbn in *.
  - by injection Heq as -> ->.
  - injection Heq as -> _. apply andb_prop in Ht as [? _]. congruence.
  - injection Heq as -> _. apply andb_prop in Hs as [? _]. congruence.
  - injection Heq as -> Heq. apply andb_prop in Hs as [_ Hs], Ht as [_ Ht].
    by destruct (IH t Hs Ht Ha Hb Heq) as (-> & -> & ->).
Qed.

Lemma number_chars_pos m r :
  forallb number_char r = true -> forallb number_char (str_of_Z (Zpos m) ++ r) = true.
Proof. intros Hr. rewrite forallb_app, Hr, (proj1 (int_text _)). done. Qed.

Lemma sign_split (s s' : bool) (a b : pystr) :
  match a with c :: _ => is_digit c = true | [] => False end ->
  match b with c :: _ => is_digit c = true | [] => False end ->
  (if s then [45%N] else []) ++ a = (if s' then [45%N] else []) ++ b -> s = s' /\ a = b.
Proof.
  intros Ha Hb. destruct s, s'; cbn; intros Heq.
  - by injection Heq.
  - subst b. done.
  - subst a. done.
  - done.
Qed.

#[export] Instance exact_float_repr : FloatRepr.
Proof.
  assert (forall m r, match str_of_Z (Zpos m) ++ r with c :: _ => is_digit c = true | [] => False end)
    as Hh.
  { intros m r. pose proof (digits_pos m) as Hd. destruct (str_of_Z_shape (Zpos m)) as [_ Hn].
    destruct (str_of_Z (Zpos m)) as [|c t]; [done|]. cbn in *. by apply andb_prop in Hd as [? _]. }
  split.
  - intros [s|s| |s m e] Hx; try discriminate Hx; unfold py_repr, exact_repr;
      [by destruct s|].
    rewrite forallb_app, number_chars_pos; [by destruct s|]. apply int_text.
  - intros [s|s| |s m e] Hx; try discriminate Hx; unfold py_repr, exact_repr;
      [by destruct s|].
    rewrite !existsb_app. cbn [existsb]. by rewrite !orb_true_r.
  - intros [s|s| |s m e] Hx; try discriminate Hx; unfold py_repr, exact_repr;
      [by destruct s|].
    destruct s; [done|]. specialize (Hh m (101%N :: str_of_Z e)). cbn [app].
    destruct (str_of_Z (Zpos m) ++ _) as [|c t]; [done|]. by rewrite Hh.
  - intros [s|s| |s m e] [s'|s'| |s' m' e'] Hx Hy Heq; try discriminate Hx; try discriminate Hy;
      unfold py_repr, exact_repr in Heq; apply sign_split in Heq as [-> Heq]; try done; try apply Hh.
    + exfalso. destruct (digits_split [48%N] (str_of_Z (Zpos m')) [48%N] (str_of_Z e') 46 101
        eq_refl (digits_pos m') eq_refl eq_refl Heq) as (_ & Hc & _). discriminate Hc.
    + exfalso. destruct (digits_split (str_of_Z (Zpos m)) [48%N] (str_of_Z e) [48%N] 101 46
        (digits_pos m) eq_refl eq_refl eq_refl Heq) as (_ & Hc & _). discriminate Hc.
    + destruct (digits_split _ _ _ _ 101 101 (digits_pos m) (digits_pos m') eq_refl eq_refl Heq)
        as (Hm & _ & He).
      apply str_of_Z_inj in Hm, He. by injection Hm as ->; subst.
Qed.

End JsonExamples.
