(* ===== verification/AgentDto.v ===== *)
(** Data transfer objects of the agent: request context, audit events, tool
    definitions, citations, final answers and recorded tool calls.

    Models [packages/common/context.py], [packages/common/audit.py] and the
    validators of [packages/agent/dto.py].  A pydantic model is a record; its
    constructor is a [make_] function that normalises the fields or names the
    validator that refused. *)

From Stdlib Require Import ZArith String.
From S2P Require Import Prelude Float64 PyVal Access Redact.
From stdpp Require Import base list numbers.

Inductive agent_dto_error : Type :=
| BlankText
| TextTooLong
| UnsafeIdentifier
| UnsafeSource
| InvalidToolName
| PageNotPositive
| PageWindowReversed
| TooManyCitations
| NumberOutOfRange
| NotFinite
| UnsafeSummaryKey
| UnsafeSummaryString
| UnsupportedSummaryValue
| AnswerStatusMismatch
| MetadataNotMapping
| InputMissing
| InputAmbiguous.

(** The text validator of the agent's models: strip, then refuse a blank. *)
Definition nonblank_text (s : pystr) : result agent_dto_error pystr :=
  match strip s with [] => Err BlankText | n => Ok n end.

Definition nonblank_option (o : option pystr) : result agent_dto_error (option pystr) :=
  match o with
  | None => Ok None
  | Some s => n ← nonblank_text s; mret (Some n)
  end.

(** * Request context *)

Inductive AuthMethod : Type := jwt_bearer | service_token | dev_headers.

Record RequestContext : Type := {
  rc_request_id : pystr;
  rc_trace_id : pystr;
  rc_session_id : option pystr;
  rc_auth_method : option AuthMethod;
  rc_auth : AuthContext
}.

Definition make_request_context (request_id trace_id : pystr) (session_id : option pystr)
    (auth_method : option AuthMethod) (auth : AuthContext) : result agent_dto_error RequestContext :=
  r ← nonblank_text request_id;
  t ← nonblank_text trace_id;
  mret {| rc_request_id := r; rc_trace_id := t; rc_session_id := optional_text session_id;
          rc_auth_method := auth_method; rc_auth := auth |}.

(** * Audit events *)

Inductive AuditStatus : Type := AuditSUCCESS | AuditFAILURE | AuditDENIED.

Record AuditResource : Type := { res_type : pystr; res_id : pystr; res_metadata : pydict }.

(** [created_at] is the clock's and is left out. *)
Record AuditEvent : Type := {
  ev_request_id : pystr;
  ev_trace_id : pystr;
  ev_tenant_id : pystr;
  ev_user_id : pystr;
  ev_action : pystr;
  ev_resource : AuditResource;
  ev_status : AuditStatus;
  ev_latency_ms : float;
  ev_error_code : option pystr;
  ev_metadata : pydict
}.

Section Audit.
Context `{UnicodeDB}.

Definition make_audit_resource (type id : pystr) (metadata : pydict)
  : result agent_dto_error AuditResource :=
  t ← nonblank_text type;
  i ← nonblank_text id;
  mret {| res_type := t; res_id := i; res_metadata := redact_mapping metadata |}.

Definition make_audit_event (request_id trace_id tenant_id user_id action : pystr)
    (resource : AuditResource) (status : AuditStatus) (latency_ms : float)
    (error_code : option pystr) (metadata : pydict) : result agent_dto_error AuditEvent :=
  r ← nonblank_text request_id;
  t ← nonblank_text trace_id;
  n ← nonblank_text tenant_id;
  us ← nonblank_text user_id;
  a ← nonblank_text action;
  _ ← raise_if (flt latency_ms fzero) NumberOutOfRange;
  mret {| ev_request_id := r; ev_trace_id := t; ev_tenant_id := n; ev_user_id := us;
          ev_action := a; ev_resource := resource; ev_status := status;
          ev_latency_ms := latency_ms; ev_error_code := error_code;
          ev_metadata := redact_mapping metadata |}.
End Audit.

(** * Identifiers *)

(** [re.fullmatch] of a pattern "one character of [first], then at most [more] of
    [rest]" ([None]: any number). *)
Definition ident_match (first rest : N -> bool) (more : option nat) (s : pystr) : bool :=
  match s with
  | [] => false
  | c :: t =>
      first c && forallb rest t
      && match more with Some n => (length t <=? n)%nat | None => true end
  end.

Definition is_lower (c : N) : bool := ((97 <=? c) && (c <=? 122))%N.
Definition is_ident (c : N) : bool := is_alpha c || is_digit c || (c =? 95)%N.
Definition is_dotted (c : N) : bool := is_ident c || ROneOf (u ".:-") c.

Definition _TOOL_NAME_PATTERN : pystr -> bool :=
  ident_match is_lower (fun c => is_lower c || is_digit c || (c =? 95)%N) None.
Definition _SAFE_CITATION_IDENTIFIER_PATTERN : pystr -> bool :=
  ident_match (fun c => is_alpha c || is_digit c) is_dotted (Some 127).
Definition _SAFE_SUMMARY_IDENTIFIER_PATTERN : pystr -> bool :=
  ident_match is_ident is_dotted (Some 127).

Definition _FORBIDDEN_SUMMARY_KEY_PARTS : list pystr := u <$>
  ["absolute_path"; "access_token"; "api_key"; "apikey"; "authorization"; "chunk_text";
   "content"; "cookie"; "credential"; "embedding"; "file_path"; "hidden_reasoning";
   "local_path"; "password"; "private_key"; "prompt"; "provider_payload"; "query"; "raw";
   "secret"; "sql"; "text"; "token"; "vector"]%string.
Definition _SUMMARY_VALUE_SECRET_MARKERS : list pystr := u <$>
  ["api_key"; "authorization:"; "bearer "; "password="; "secret="; "token="]%string.
Definition _FORBIDDEN_METADATA_KEYS : list pystr := u <$>
  ["absolute_path"; "access_token"; "answer"; "api_key"; "authorization"; "content";
   "file_content"; "file_path"; "hidden_reasoning"; "local_path"; "messages"; "password";
   "prompt"; "query"; "raw_output"; "raw_tool_arguments"; "raw_tool_output"; "secret";
   "thought"; "token"; "tool_results"]%string.

(** [s.replace("_", "")]. *)
Definition drop_underscores (s : pystr) : pystr := filter (fun c => c <> 95%N) s.

Definition _looks_like_absolute_path (value : pystr) : bool :=
  let normalized := strip value in
  startswith (u "/") normalized
  || startswith (u "\\") normalized
  || match normalized with
     | a :: b :: c :: _ => is_alpha a && (b =? 58)%N && ((c =? 92) || (c =? 47))%N
     | _ => false
     end.

Definition _looks_like_sensitive_value (value : pystr) : bool :=
  existsb (fun m => contains m (lower value)) _SUMMARY_VALUE_SECRET_MARKERS.

Definition _is_safe_citation_identifier (value : pystr) : bool :=
  _SAFE_CITATION_IDENTIFIER_PATTERN value
  && negb (_looks_like_absolute_path value || _looks_like_sensitive_value value).

(** ** Summaries of recorded calls *)

Section Summary.
Context `{UnicodeDB}.

Definition char_isalnum (c : N) : bool :=
  is_alpha c || is_digit c || ((128 <=? c)%N && unicode_alnum c).

Definition normalized_key (key : pystr) : pystr :=
  replace_char 32 95 (replace_char 45 95 (lower (strip key))).

Definition _is_forbidden_summary_key (value : pystr) : bool :=
  let normalized := normalized_key value in
  let compact := filter (fun c => char_isalnum c = true) normalized in
  existsb (fun part => contains part normalized || contains (drop_underscores part) compact)
    _FORBIDDEN_SUMMARY_KEY_PARTS.

Definition _is_safe_summary_string (value : pystr) : bool :=
  let normalized := strip value in
  match normalized with
  | [] => false
  | _ =>
      negb (200 <? length normalized)%nat
      && negb (_looks_like_absolute_path normalized)
      && negb (_looks_like_sensitive_value normalized)
      && _SAFE_SUMMARY_IDENTIFIER_PATTERN normalized
  end.

(** [_validate_safe_summary_mapping] and [_validate_safe_summary_value] raise at
    the first entry they refuse. *)
Fixpoint _validate_safe_summary_value (value : pyval) : result agent_dto_error unit :=
  match value with
  | VNone | VBool _ | VInt _ => Ok tt
  | VFloat x => if isfinite x then Ok tt else Err NotFinite
  | VStr s => if _is_safe_summary_string s then Ok tt else Err UnsafeSummaryString
  | VDict d =>
      (fix go (d : pydict) : result agent_dto_error unit :=
         match d with
         | [] => Ok tt
         | (key, item) :: d' =>
             if _is_forbidden_summary_key key then Err UnsafeSummaryKey else
             match _validate_safe_summary_value item with Ok _ => go d' | Err e => Err e end
         end) d
  | VList l | VTuple l =>
      (fix go (l : list pyval) : result agent_dto_error unit :=
         match l with
         | [] => Ok tt
         | item :: l' =>
             match _validate_safe_summary_value item with Ok _ => go l' | Err e => Err e end
         end) l
  | VSet _ => Err UnsupportedSummaryValue
  end.
Definition _validate_safe_summary_mapping (value : pydict) : result agent_dto_error unit :=
  _validate_safe_summary_value (VDict value).
End Summary.

(** * Tools *)

Inductive ToolInvocationStatus : Type := ToolSUCCESS | ToolDENIED | ToolFAILURE.

#[export] Instance ToolInvocationStatus_eq_dec : EqDecision ToolInvocationStatus.
Proof. solve_decision. Defined.

Definition invocation_value (s : ToolInvocationStatus) : pystr :=
  match s with
  | ToolSUCCESS => u "success" | ToolDENIED => u "denied" | ToolFAILURE => u "failure"
  end.

Record ToolRateLimit : Type := { max_calls : Z; window_seconds : float }.

Definition make_rate_limit (calls : Z) (window : float) : result agent_dto_error ToolRateLimit :=
  _ ← raise_if (calls <=? 0)%Z NumberOutOfRange;
  _ ← raise_if (negb (flt fzero window)) NumberOutOfRange;
  _ ← raise_if (negb (isfinite window)) NotFinite;
  mret {| max_calls := calls; window_seconds := window |}.

(** Tenant, user and tool name. *)
Abbreviation ToolRateLimitKey := (pystr * pystr * pystr)%type.

Definition make_rate_limit_key (tenant_id user_id tool_name : pystr)
  : result agent_dto_error ToolRateLimitKey :=
  t ← nonblank_text tenant_id;
  us ← nonblank_text user_id;
  n ← nonblank_text tool_name;
  mret (t, us, n).

Record ToolRateLimitDecision : Type := {
  allowed : bool;
  remaining : Z;
  reset_after_seconds : float
}.

(** A pydantic model class: its field names, [model_validate] on a value (the
    locations of the errors, or the fields of the model), [model_dump] in JSON
    mode and the generated JSON schema. *)
Record schema : Type := {
  model_fields : list pystr;
  model_validate : pyval -> result (list (list pystr)) pydict;
  model_dump : pydict -> pydict;
  model_json_schema : pydict
}.

Inductive DurableReplayPolicy : Type := replay_unsupported | replay_read_only | replay_never.

#[export] Instance DurableReplayPolicy_eq_dec : EqDecision DurableReplayPolicy.
Proof. solve_decision. Defined.

(** The handler is the tool's own code: what it does is part of a call's
    environment.  A projection that raises is [None]. *)
Record ToolDefinition : Type := {
  td_name : pystr;
  td_description : pystr;
  td_input_schema : schema;
  td_output_schema : schema;
  td_permission : pystr;
  td_timeout_seconds : float;
  td_rate_limit : ToolRateLimit;
  td_prompt_projection : option (pydict -> option pyval);
  td_durable_replay_policy : DurableReplayPolicy;
  td_requires_approval : bool;
  td_implementation_version : pystr
}.

Definition make_tool_definition (d : ToolDefinition) : result agent_dto_error ToolDefinition :=
  let name := strip (td_name d) in
  _ ← raise_if (negb (_TOOL_NAME_PATTERN name)) InvalidToolName;
  description ← nonblank_text (td_description d);
  permission ← nonblank_text (td_permission d);
  _ ← raise_if (negb (flt fzero (td_timeout_seconds d))) NumberOutOfRange;
  _ ← raise_if (negb (isfinite (td_timeout_seconds d))) NotFinite;
  let n := length (td_implementation_version d) in
  _ ← raise_if ((n <? 1) || (64 <? n))%nat TextTooLong;
  mret {| td_name := name; td_description := description;
          td_input_schema := td_input_schema d; td_output_schema := td_output_schema d;
          td_permission := permission; td_timeout_seconds := td_timeout_seconds d;
          td_rate_limit := td_rate_limit d; td_prompt_projection := td_prompt_projection d;
          td_durable_replay_policy := td_durable_replay_policy d;
          td_requires_approval := td_requires_approval d;
          td_implementation_version := td_implementation_version d |}.

Record ToolExecutionResult : Type := {
  tr_tool_name : pystr;
  tr_status : ToolInvocationStatus;
  tr_output : option pydict;
  tr_latency_ms : float;
  tr_metadata : pydict;
  tr_prompt_context : pydict
}.

Record ToolCallCreate : Type := {
  tc_agent_run_id : pystr;
  tc_request_id : pystr;
  tc_trace_id : pystr;
  tc_tenant_id : pystr;
  tc_user_id : pystr;
  tc_tool_name : pystr;
  tc_permission : option pystr;
  tc_status : ToolInvocationStatus;
  tc_latency_ms : float;
  tc_error_code : option pystr;
  tc_arguments_summary : pydict;
  tc_result_summary : pydict
}.

Definition make_tool_call `{UnicodeDB} (r : ToolCallCreate) : result agent_dto_error ToolCallCreate :=
  run ← nonblank_text (tc_agent_run_id r);
  req ← nonblank_text (tc_request_id r);
  trace ← nonblank_text (tc_trace_id r);
  tenant ← nonblank_text (tc_tenant_id r);
  user ← nonblank_text (tc_user_id r);
  tool ← nonblank_text (tc_tool_name r);
  permission ← nonblank_option (tc_permission r);
  _ ← raise_if (negb (fle fzero (tc_latency_ms r))) NumberOutOfRange;
  code ← nonblank_option (tc_error_code r);
  _ ← _validate_safe_summary_mapping (tc_arguments_summary r);
  _ ← _validate_safe_summary_mapping (tc_result_summary r);
  mret {| tc_agent_run_id := run; tc_request_id := req; tc_trace_id := trace;
          tc_tenant_id := tenant; tc_user_id := user; tc_tool_name := tool;
          tc_permission := permission; tc_status := tc_status r;
          tc_latency_ms := tc_latency_ms r; tc_error_code := code;
          tc_arguments_summary := tc_arguments_summary r;
          tc_result_summary := tc_result_summary r |}.

(** * Citations and final answers *)

Definition MAX_FINAL_ANSWER_LENGTH : Z := 12000.
Definition MAX_FINAL_CITATIONS : nat := 50.

Record AgentCitationRef : Type := {
  cr_document_id : pystr;
  cr_version_id : pystr;
  cr_chunk_id : pystr;
  cr_source : option pystr;
  cr_page_start : option Z;
  cr_page_end : option Z;
  cr_tool_name : option pystr;
  cr_observation_index : option Z
}.

#[export] Instance AgentCitationRef_eq_dec : EqDecision AgentCitationRef.
Proof. solve_decision. Defined.

Definition _identifier_must_be_safe (value : pystr) : result agent_dto_error pystr :=
  _ ← raise_if ((length value <? 1) || (128 <? length value))%nat TextTooLong;
  n ← nonblank_text value;
  _ ← raise_if (negb (_is_safe_citation_identifier n)) UnsafeIdentifier;
  mret n.

Definition _optional_source_must_be_safe (value : option pystr)
  : result agent_dto_error (option pystr) :=
  match optional_text value with
  | None => Ok None
  | Some n =>
      if (200 <? length n)%nat || _looks_like_absolute_path n || _looks_like_sensitive_value n
      then Err UnsafeSource else Ok (Some n)
  end.

Definition _optional_tool_name_must_be_safe (value : option pystr)
  : result agent_dto_error (option pystr) :=
  match optional_text value with
  | None => Ok None
  | Some n => if _TOOL_NAME_PATTERN n then Ok (Some n) else Err InvalidToolName
  end.

Definition below_min (low : Z) (o : option Z) : bool :=
  match o with Some z => (z <? low)%Z | None => false end.

Definition make_citation_ref (c : AgentCitationRef) : result agent_dto_error AgentCitationRef :=
  document ← _identifier_must_be_safe (cr_document_id c);
  version ← _identifier_must_be_safe (cr_version_id c);
  chunk ← _identifier_must_be_safe (cr_chunk_id c);
  source ← _optional_source_must_be_safe (cr_source c);
  _ ← raise_if (below_min 1 (cr_page_start c) || below_min 1 (cr_page_end c)) PageNotPositive;
  tool ← _optional_tool_name_must_be_safe (cr_tool_name c);
  _ ← raise_if (below_min 0 (cr_observation_index c)) NumberOutOfRange;
  _ ← raise_if (match cr_page_start c, cr_page_end c with
                | Some a, Some b => (b <? a)%Z
                | _, _ => false
                end) PageWindowReversed;
  mret {| cr_document_id := document; cr_version_id := version; cr_chunk_id := chunk;
          cr_source := source; cr_page_start := cr_page_start c; cr_page_end := cr_page_end c;
          cr_tool_name := tool; cr_observation_index := cr_observation_index c |}.

Abbreviation evidence := (pystr * pystr * pystr * option pystr * option Z * option Z)%type.

Definition evidence_key (c : AgentCitationRef) : evidence :=
  (cr_document_id c, cr_version_id c, cr_chunk_id c, cr_source c, cr_page_start c, cr_page_end c).

Definition answer_too_long (answer : pystr) : bool :=
  (MAX_FINAL_ANSWER_LENGTH <? Z.of_nat (length answer))%Z.
Definition too_many_citations (citations : list AgentCitationRef) : bool :=
  (MAX_FINAL_CITATIONS <? length citations)%nat.

Record AgentFinalAnswer : Type := {
  fa_answer : pystr;
  fa_citations : list AgentCitationRef
}.

Definition make_final_answer (answer : pystr) (citations : list AgentCitationRef)
  : result agent_dto_error AgentFinalAnswer :=
  _ ← raise_if (answer_too_long answer) TextTooLong;
  n ← nonblank_text answer;
  _ ← raise_if (too_many_citations citations) TooManyCitations;
  mret {| fa_answer := n; fa_citations := citations |}.

Record FinalAnswerValidationRequest : Type := {
  vq_agent_run_id : option pystr;
  vq_answer : pystr;
  vq_citations : list AgentCitationRef
}.

Definition make_validation_request (agent_run_id : option pystr) (answer : pystr)
    (citations : list AgentCitationRef) : result agent_dto_error FinalAnswerValidationRequest :=
  run ← nonblank_option agent_run_id;
  _ ← raise_if (answer_too_long answer) TextTooLong;
  _ ← raise_if (too_many_citations citations) TooManyCitations;
  mret {| vq_agent_run_id := run; vq_answer := strip answer; vq_citations := citations |}.

Inductive FinalAnswerValidationStatus : Type := FvValid | FvDegraded | FvInvalid.

#[export] Instance FinalAnswerValidationStatus_eq_dec : EqDecision FinalAnswerValidationStatus.
Proof. solve_decision. Defined.

Record FinalAnswerValidationResult : Type := {
  vr_status : FinalAnswerValidationStatus;
  vr_answer : option pystr;
  vr_citations : list AgentCitationRef;
  vr_latency_ms : float;
  vr_error_code : option pystr;
  vr_validated_citation_count : Z;
  vr_unsupported_citation_count : Z;
  vr_failed_tool_reference_count : Z;
  vr_metadata : pydict
}.

Definition _status_and_answer_must_be_consistent (r : FinalAnswerValidationResult) : bool :=
  match vr_status r, vr_answer r with
  | FvInvalid, None => true
  | FvInvalid, Some _ => false
  | _, Some a => match strip a with [] => false | _ => true end
  | _, None => false
  end.

Definition make_validation_result `{UnicodeDB} (r : FinalAnswerValidationResult)
  : result agent_dto_error FinalAnswerValidationResult :=
  _ ← raise_if (match vr_answer r with Some a => answer_too_long a | None => false end)
        TextTooLong;
  _ ← raise_if (too_many_citations (vr_citations r)) TooManyCitations;
  _ ← raise_if (negb (fle fzero (vr_latency_ms r))) NumberOutOfRange;
  _ ← raise_if (negb (isfinite (vr_latency_ms r))) NotFinite;
  _ ← raise_if ((vr_validated_citation_count r <? 0)%Z || (vr_unsupported_citation_count r <? 0)%Z
                || (vr_failed_tool_reference_count r <? 0)%Z) NumberOutOfRange;
  _ ← _validate_safe_summary_mapping (vr_metadata r);
  _ ← raise_if (negb (_status_and_answer_must_be_consistent r)) AnswerStatusMismatch;
  mret r.
