(* ===== verification/SourceMetadata.v ===== *)
(** Safe display metadata of a source.

    Models [packages/common/source_metadata.py]: what a citation, a prompt or a tool
    result may show of a document's source.  [urlparse] and [Path.name] belong to
    Python's standard library and are written out as far as they are used; the
    check of an unusual network location (brackets, non-ASCII) is the class
    [NetlocCheck]. *)

From Stdlib Require Import ZArith String.
From S2P Require Import Prelude Float64 PyVal Access Redact.
From stdpp Require Import base list numbers sets.

Definition UNTITLED_SOURCE : pystr := u "Untitled source".
Definition SOURCE_UNAVAILABLE : pystr := u "Source unavailable".
Definition UNKNOWN_SOURCE_TYPE : pystr := u "unknown".
Definition _MAX_DISPLAY_CHARS : nat := 160.
Definition _MAX_TITLE_PART_CHARS : nat := 160.
Definition _URL_SCHEMES : list pystr := [u "http"; u "https"].
Definition _INTERNAL_SCHEMES : list pystr := [u "file"; u "s3"; u "minio"].
Definition _PROMPT_MARKERS : list pystr := u <$>
  ["assistant:"; "developer:"; "ignore previous"; "ignore system"; "ignore the previous";
   "ignore the system"; "prompt:"; "system:"; "tool:"; "user:"]%string.
Definition _SECRET_MARKERS : list pystr := u <$>
  ["access_token"; "api_key"; "apikey"; "authorization"; "bearer "; "password"; "secret";
   "token"]%string.

(** * Text *)

(** [s.split()]: maximal runs of characters that are not white space. *)
Fixpoint split_words (s word : pystr) : list pystr :=
  match s with
  | [] => match word with [] => [] | _ => [reverse word] end
  | c :: s' =>
      if is_space c then
        match word with [] => split_words s' [] | _ => reverse word :: split_words s' [] end
      else split_words s' (c :: word)
  end.

Definition collapse (s : pystr) : pystr := PyVal.join (u " ") (split_words (strip s) []).

Definition _truncate (value : pystr) (max_chars : nat) : pystr :=
  if (length value <=? max_chars)%nat then value
  else rstrip (take (max_chars - 1) value) ++ u "...".

Definition has_char (c : N) (s : pystr) : bool := bool_decide (c ∈ s).

Definition _looks_like_local_absolute_path (value : pystr) : bool :=
  startswith (u "/") value
  || startswith (u "\\") value
  || match value with
     | a :: b :: c :: _ => is_alpha a && (b =? 58)%N && ((c =? 92) || (c =? 47))%N
     | _ => false
     end.

Definition _looks_like_object_key (value : pystr) : bool :=
  if contains (u "://") value then false
  else if has_char 92 value then true
  else
    let parts := filter (fun p => p <> []) (split_on 47 value) in
    if (length parts <? 2)%nat then false
    else existsb (has_char 46) (drop 1 parts)
         || existsb (fun p => bool_decide (p ∈ [u "raw"; u "objects"])) parts.

Definition _looks_like_split_object_key (parts : list pystr) : bool :=
  if (length parts <? 2)%nat then false
  else if _looks_like_object_key (PyVal.join (u "/") parts) then true
  else match list.last parts with
       | Some l => has_char 46 l
       | None => false
       end
       && existsb (fun p => has_char 45 p || has_char 95 p) (take (length parts - 1) parts).

Definition _looks_like_internal_host (value : pystr) : bool :=
  let lowered := lower value in
  contains (u ".s3") lowered || contains (u "minio") lowered
  || startswith (u "s3.") lowered || startswith (u "storage.") lowered.

(** * URLs *)

(** [urllib.parse] refuses some network locations with [ValueError]: unbalanced
    brackets, a bracketed host that is no address, characters that normalise to a
    separator. *)
Class NetlocCheck := netloc_valid : pystr -> bool.

Record ParseResult : Type := { scheme : pystr; netloc : pystr; url_path : pystr }.

Definition scheme_char (c : N) : bool := is_alpha c || is_digit c || ROneOf (u "+-.") c.

(** The position of the first character of [s] that satisfies [p]. *)
Fixpoint index_of (p : N -> bool) (s : pystr) : nat :=
  match s with [] => 0 | c :: s' => if p c then 0 else S (index_of p s') end.
Definition before (p : N -> bool) (s : pystr) : pystr := take (index_of p s) s.

Fixpoint drop_control (s : pystr) : pystr :=
  match s with c :: s' => if (c <=? 32)%N then drop_control s' else s | [] => [] end.

Section Uri.
Context `{NetlocCheck}.

Definition urlparse (value : pystr) : option ParseResult :=
  let url := filter (fun c => c <> 9%N /\ c <> 10%N /\ c <> 13%N) (drop_control value) in
  let i := index_of (fun c => (c =? 58)%N) url in
  let '(sch, rest) :=
    match url with
    | c :: _ =>
        if (i <? length url)%nat && is_alpha c && forallb scheme_char (take i url)
        then (lower (take i url), drop (S i) url) else ([], url)
    | [] => ([], url)
    end in
  let '(loc, rest) :=
    if startswith (u "//") rest
    then let r := drop 2 rest in
         let n := index_of (ROneOf (u "/?#")) r in (take n r, drop n r)
    else ([], rest) in
  if negb (netloc_valid loc) then None
  else Some {| scheme := sch; netloc := loc;
               url_path := before (fun c => (c =? 63)%N) (before (fun c => (c =? 35)%N) rest) |}.

(** [ParseResult.hostname]. *)
Definition hostname (p : ParseResult) : option pystr :=
  let hostinfo := List.last (split_on 64 (netloc p)) [] in
  let host :=
    match split_on 91 hostinfo with
    | _ :: _ :: _ =>
        before (fun c => (c =? 93)%N) (PyVal.join (u "[") (drop 1 (split_on 91 hostinfo)))
    | _ => before (fun c => (c =? 58)%N) hostinfo
    end in
  let name := before (fun c => (c =? 37)%N) host in    (* a zone is not lower-cased *)
  match host with [] => None | _ => Some (lower name ++ drop (length name) host) end.

(** [Path(p).name] on a POSIX system. *)
Definition path_name (p : pystr) : pystr :=
  List.last (filter (fun s => s <> [] /\ s <> u ".") (split_on 47 p)) [].

Definition _parse_uri (value : option pystr) : option ParseResult :=
  v ← value;
  match strip v with [] => None | n => urlparse n end.

Definition _looks_like_internal_uri (value : pystr) : bool :=
  match _parse_uri (Some value) with
  | Some p => bool_decide (lower (scheme p) ∈ _INTERNAL_SCHEMES)
  | None => false
  end.

(** * What may be displayed *)

Definition _is_unsafe_display_text (value : pystr) : bool :=
  let normalized := strip value in
  let lowered := lower normalized in
  existsb (fun m => contains m lowered) _PROMPT_MARKERS
  || existsb (fun m => contains m lowered) _SECRET_MARKERS
  || contains (u "://") normalized
  || _looks_like_local_absolute_path normalized
  || _looks_like_internal_uri normalized
  || _looks_like_object_key normalized
  || existsb (fun c => has_char c normalized) [0; 13; 10; 9]%N.

Definition _safe_display_text (value : option pystr) (max_chars : nat) : option pystr :=
  v ← value;
  match collapse v with
  | [] => None
  | normalized =>
      if _is_unsafe_display_text normalized then None else Some (_truncate normalized max_chars)
  end.

Definition safe_source_display_name (value : option pystr) : pystr :=
  match _safe_display_text value _MAX_DISPLAY_CHARS with
  | Some safe => safe
  | None => SOURCE_UNAVAILABLE
  end.

Definition _safe_uri_display (value : option pystr) : option pystr :=
  parsed ← _parse_uri value;
  match (if bool_decide (scheme parsed ∈ _URL_SCHEMES) then hostname parsed else None) with
  | Some h =>
      let host := lower (strip h) in
      if bool_decide (host = []) || _is_unsafe_display_text host || _looks_like_internal_host host
      then None else Some (_truncate host _MAX_DISPLAY_CHARS)
  | None =>
      if bool_decide (scheme parsed = u "kb") then
        let filename := path_name (match url_path parsed with [] => netloc parsed | p => p end) in
        match _safe_display_text (Some filename) _MAX_DISPLAY_CHARS with
        | Some f => if has_char 46 f then Some f else None
        | None => None
        end
      else None
  end.

Definition _source_display_name (source source_uri : option pystr) : pystr :=
  match _safe_display_text source _MAX_DISPLAY_CHARS with
  | Some s => s
  | None =>
      match _safe_uri_display source_uri with
      | Some d => d
      | None =>
          match source with
          | Some s => match strip s with [] => UNTITLED_SOURCE | _ => SOURCE_UNAVAILABLE end
          | None => UNTITLED_SOURCE
          end
      end
  end.

Definition _safe_title_path (title_path : list pystr) : list pystr :=
  let title_parts := omap (fun p => _safe_display_text (Some p) _MAX_TITLE_PART_CHARS) title_path in
  match title_parts with
  | [] => [u "Untitled"]
  | _ => if _looks_like_split_object_key title_parts then [u "Untitled"] else title_parts
  end.

Definition _safe_page_range (page_start page_end : option Z) : option Z * option Z :=
  match page_start, page_end with
  | Some a, Some b => if ((a <? 1) || (b <? a))%Z then (None, None) else (page_start, page_end)
  | _, _ => (None, None)
  end.

Definition public_source_type (value : option pystr) : option pystr :=
  safe ← _safe_display_text value 64;
  Some (replace_char 32 95 (lower safe)).

Definition _safe_source_type (source_type source_uri : option pystr) : pystr :=
  match public_source_type source_type with
  | Some s => s
  | None =>
      match _parse_uri source_uri with
      | Some p => if bool_decide (scheme p ∈ _URL_SCHEMES) then u "web" else UNKNOWN_SOURCE_TYPE
      | None => UNKNOWN_SOURCE_TYPE
      end
  end.

(** * The record *)

Record SafeSourceMetadata : Type := {
  sm_source_display_name : pystr;
  sm_source_type : pystr;
  sm_document_id : pystr;
  sm_version_id : pystr;
  sm_chunk_id : pystr;
  sm_page_start : option Z;
  sm_page_end : option Z;
  sm_title_path : list pystr;
  sm_source_ref : option pystr
}.

Inductive source_error : Type := BlankSourceId | BadPageNumber | BadPageRange.

Definition required_id (s : pystr) : result source_error pystr :=
  match strip s with [] => Err BlankSourceId | n => Ok n end.

Definition _optional_source_ref (value : option pystr) : option pystr :=
  v ← value;
  match strip v with
  | [] => None
  | n => if _is_unsafe_display_text n then None else Some (_truncate n _MAX_DISPLAY_CHARS)
  end.

Definition page_positive (o : option Z) : bool :=
  match o with Some p => (1 <=? p)%Z | None => true end.

Definition page_range_valid (page_start page_end : option Z) : bool :=
  match page_start, page_end with
  | None, None => true
  | Some a, Some b => (a <=? b)%Z
  | _, _ => false
  end.

Definition make_safe_source (m : SafeSourceMetadata) : result source_error SafeSourceMetadata :=
  document ← required_id (sm_document_id m);
  version ← required_id (sm_version_id m);
  chunk ← required_id (sm_chunk_id m);
  _ ← raise_if (negb (page_positive (sm_page_start m) && page_positive (sm_page_end m))) BadPageNumber;
  _ ← raise_if (negb (page_range_valid (sm_page_start m) (sm_page_end m))) BadPageRange;
  mret {| sm_source_display_name := safe_source_display_name (Some (sm_source_display_name m));
          sm_source_type := default UNKNOWN_SOURCE_TYPE (public_source_type (Some (sm_source_type m)));
          sm_document_id := document; sm_version_id := version; sm_chunk_id := chunk;
          sm_page_start := sm_page_start m; sm_page_end := sm_page_end m;
          sm_title_path := _safe_title_path (sm_title_path m);
          sm_source_ref := _optional_source_ref (sm_source_ref m) |}.

Definition build_safe_source_metadata (source source_uri source_type : option pystr)
    (document_id version_id chunk_id : pystr) (page_start page_end : option Z)
    (title_path : list pystr) (source_ref : option pystr)
  : result source_error SafeSourceMetadata :=
  let '(page_start, page_end) := _safe_page_range page_start page_end in
  make_safe_source
    {| sm_source_display_name :=
         safe_source_display_name (Some (_source_display_name source source_uri));
       sm_source_type := _safe_source_type source_type source_uri;
       sm_document_id := document_id; sm_version_id := version_id; sm_chunk_id := chunk_id;
       sm_page_start := page_start; sm_page_end := page_end;
       sm_title_path := _safe_title_path title_path; sm_source_ref := source_ref |}.
End Uri.

(** * Facts on substrings *)

Lemma startswith_spec p s : startswith p s = true <-> exists t, s = p ++ t.
Proof.
  revert s. induction p as [|a p IH]; intros s; simpl; [split; [by exists s|done]|].
  destruct s as [|b s]; [split; [done|by intros [? ?]]|].
  rewrite andb_true_iff, N.eqb_eq, IH. split.
  - intros [-> [t ->]]. by exists t.
  - intros [t [= -> ->]]. eauto.
Qed.

Lemma contains_spec m s : contains m s = true <-> exists a b, s = a ++ m ++ b.
Proof.
  induction s as [|c s IH]; cbn [contains]; rewrite orb_true_iff, startswith_spec.
  - split; [intros [[t ->]|?]; [by exists [], t|done]|].
    intros (a & b & E). left. exists b. by destruct a.
  - rewrite IH. split.
    + intros [[t ->]|(a & b & ->)]; [by exists [], t|by exists (c :: a), b].
    + intros ([|x a] & b & E); simplify_eq/=; [left; by exists b|right; by exists a, b].
Qed.

Lemma contains_infix m a s b : contains m s = true -> contains m (a ++ s ++ b) = true.
Proof.
  rewrite !contains_spec. intros (x & y & ->). exists (a ++ x), (y ++ b). by rewrite <- !app_assoc.
Qed.

(** A word without [c] does not reach into a tail of [c]s. *)
Lemma contains_snoc m s c : m <> [] -> c ∉ m -> contains m (s ++ [c]) = true -> contains m s = true.
Proof.
  rewrite !contains_spec. intros Hm Hc (a & b & E).
  destruct b as [|x b _] using rev_ind.
  - rewrite app_nil_r in E. destruct m as [|y m _] using rev_ind; [done|].
    rewrite app_assoc in E. apply app_inj_tail in E as [_ ->]. set_solver.
  - rewrite !app_assoc in E. apply app_inj_tail in E as [-> _]. exists a, b. by rewrite <- app_assoc.
Qed.

Lemma contains_dots m s : m <> [] -> 46%N ∉ m -> contains m (s ++ u "...") = true -> contains m s = true.
Proof.
  intros Hm Hc Hd. change (u "...") with ([46%N] ++ [46%N] ++ [46%N]) in Hd.
  rewrite !app_assoc in Hd. do 3 (apply contains_snoc in Hd; [|done..]). exact Hd.
Qed.

Lemma lower_app s t : lower (s ++ t) = lower s ++ lower t.
Proof. apply bind_app. Qed.

Lemma rstrip_prefix s : exists k, s = rstrip s ++ k.
Proof.
  destruct (lstrip_suffix (reverse s)) as [k Hk]. exists (reverse k). unfold rstrip.
  rewrite <- reverse_app, <- Hk. by rewrite reverse_involutive.
Qed.

(** A truncated text is the text, or a prefix of it followed by dots. *)
Lemma truncate_shape v n :
  _truncate v n = v \/ exists p k, v = p ++ k /\ _truncate v n = p ++ u "...".
Proof.
  unfold _truncate. destruct (length v <=? n); [by left|right].
  destruct (rstrip_prefix (take (n - 1) v)) as [k Hk].
  exists (rstrip (take (n - 1) v)), (k ++ drop (n - 1) v). split; [|done].
  rewrite app_assoc, <- Hk. by rewrite take_drop.
Qed.

Lemma truncate_length v n : length (_truncate v n) <= Nat.max n 1 + 2.
Proof.
  unfold _truncate. destruct (length v <=? n) eqn:E; [apply Nat.leb_le in E; lia|].
  rewrite length_app. destruct (rstrip_prefix (take (n - 1) v)) as [k Hk].
  apply (f_equal length) in Hk. rewrite length_app, length_take in Hk. simpl. 
  apply Nat.leb_gt in E. lia.
Qed.

(** A word that is absent from a text is absent from what is shown of it. *)
Lemma truncate_absent m v n :
  m <> [] -> 46%N ∉ m -> contains m v = false -> contains m (_truncate v n) = false.
Proof.
  intros Hm Hd Hv. destruct (contains m (_truncate v n)) eqn:E; [|done]. exfalso.
  destruct (truncate_shape v n) as [Ht|(p & k & -> & Ht)]; rewrite Ht in E; [congruence|].
  apply contains_dots in E; [|done..].
  by rewrite (contains_infix m [] p k E : contains m (p ++ k) = true) in Hv.
Qed.

Lemma truncate_absent_lower m v n :
  m <> [] -> 46%N ∉ m -> contains m (lower v) = false -> contains m (lower (_truncate v n)) = false.
Proof.
  intros Hm Hd Hv. destruct (contains m (lower (_truncate v n))) eqn:E; [|done]. exfalso.
  destruct (truncate_shape v n) as [Ht|(p & k & -> & Ht)]; rewrite Ht in E; [congruence|].
  rewrite lower_app in E. apply (contains_dots m (lower p)) in E; [|done..].
  rewrite lower_app in Hv.
  by rewrite (contains_infix m [] (lower p) (lower k) E : contains m (lower p ++ lower k) = true) in Hv.
Qed.

Lemma truncate_char c v n : c <> 46%N -> c ∉ v -> c ∉ _truncate v n.
Proof.
  intros Hc Hv. destruct (truncate_shape v n) as [->|(p & k & -> & ->)]; [done|].
  change (u "...") with [46%N; 46%N; 46%N]. set_solver.
Qed.

Lemma truncate_not_path v n :
  _looks_like_local_absolute_path v = false -> _looks_like_local_absolute_path (_truncate v n) = false.
Proof.
  intros Hv. destruct (truncate_shape v n) as [->|(p & k & -> & ->)]; [done|].
  unfold _looks_like_local_absolute_path in *.
  change (u "...") with [46%N; 46%N; 46%N]. change (u "/") with [47%N] in *.
  change (u "\\") with [92%N; 92%N] in *.
  destruct p as [|a [|b [|c p]]]; cbn [app startswith] in *; bool_inv;
    rewrite ?andb_true_r in *; try done;
    repeat match goal with E : ?x = false |- context [?x] => rewrite E end;
    simpl; by rewrite ?andb_false_r.
Qed.

(** ** Collapsed text has no white space at its ends *)

(** Text with something to read in it. *)
Definition has_ink (s : pystr) : Prop := exists c, c ∈ s /\ is_space c = false.

Lemma lstrip_nil s : lstrip s = [] <-> Forall (fun c => is_space c = true) s.
Proof.
  induction s as [|c s IH]; cbn [lstrip]; [by split|]. rewrite list.Forall_cons.
  destruct (is_space c); [rewrite IH|]; naive_solver.
Qed.

Lemma strip_nil s : strip s = [] <-> Forall (fun c => is_space c = true) s.
Proof.
  unfold strip, rstrip. split.
  - intros Hr. apply (f_equal reverse) in Hr. rewrite reverse_involutive in Hr. cbn in Hr.
    apply lstrip_nil in Hr. rewrite list.Forall_forall in Hr.
    destruct (lstrip s) as [|c t] eqn:Hl; [by apply lstrip_nil|].
    exfalso. pose proof (lstrip_no_lead s) as Hn. rewrite Hl in Hn. cbn in Hn.
    rewrite (Hr c) in Hn; [done|]. apply elem_of_reverse. by left.
  - intros Hs. apply lstrip_nil in Hs. by rewrite Hs.
Qed.

Lemma has_ink_strip s : has_ink s <-> strip s <> [].
Proof.
  rewrite strip_nil, list.Forall_forall. unfold has_ink. split.
  - intros (c & Hc & Hs) Hall. by rewrite (Hall c Hc) in Hs.
  - intros Hn. destruct (decide (Exists (fun c => is_space c = false) s)) as [He|Hne].
    + apply list.Exists_exists in He as (c & Hc & Hs). by exists c.
    + exfalso. apply Hn. intros c Hc. destruct (is_space c) eqn:E; [done|].
      exfalso. apply Hne, list.Exists_exists. by exists c.
Qed.

Lemma has_ink_app s t : has_ink s \/ has_ink t -> has_ink (s ++ t).
Proof. intros [(c & Hc & Hs)|(c & Hc & Hs)]; exists c; rewrite elem_of_app; auto. Qed.

(** The words of a text are what is left of it without white space. *)
Lemma split_words_ink s w : has_ink s \/ w <> [] -> split_words s w <> [].
Proof.
  revert w. induction s as [|c s IH]; intros w Hw; cbn [split_words].
  - destruct Hw as [(c & Hc & _)|Hw]; [by apply elem_of_nil in Hc|]. by destruct w.
  - destruct (is_space c) eqn:Hc; [|apply IH; by right].
    destruct w; [|done]. apply IH. destruct Hw as [(x & Hx & Hs)|]; [|done]. left.
    apply elem_of_cons in Hx as [->|Hx]; [congruence|]. by exists x.
Qed.

Definition is_word_text (w : pystr) : Prop := w <> [] /\ Forall (fun c => is_space c = false) w.

Lemma split_words_ok s w :
  Forall (fun c => is_space c = false) w -> Forall is_word_text (split_words s w).
Proof.
  assert (forall w, Forall (fun c => is_space c = false) w -> w <> [] -> is_word_text (reverse w)) as Hr.
  { intros v Hv Hn. split; [|by apply Forall_reverse]. intros E. apply Hn.
    rewrite <- (reverse_involutive v), E. done. }
  revert w. induction s as [|c s IH]; intros w Hw; simpl.
  - destruct w; [constructor|]. repeat constructor; by apply Hr.
  - destruct (is_space c) eqn:E; [|apply IH; by constructor].
    destruct w as [|x w]; [by apply IH|]. constructor; [by apply Hr|by apply IH].
Qed.

Lemma no_lead_join sep ws : Forall is_word_text ws -> no_lead (PyVal.join sep ws).
Proof.
  intros Hw. destruct Hw as [|w ws [Hn Hw] _]; [done|].
  assert (forall t, no_lead (w ++ t)) as Hl by (intros t; by destruct Hw).
  destruct ws; simpl; [rewrite <- (app_nil_r w); apply Hl|apply Hl].
Qed.

Lemma no_lead_reverse_join sep ws : Forall is_word_text ws -> no_lead (reverse (PyVal.join sep ws)).
Proof.
  induction 1 as [|w ws [Hn Hw] Hws IH]; [done|].
  assert (no_lead (reverse w)) as Hr.
  { destruct (reverse w) as [|c t] eqn:E; [done|]. apply Forall_reverse in Hw. rewrite E in Hw.
    by apply list.Forall_cons in Hw as [? _]. }
  destruct ws as [|w' ws]; [done|].
  change (PyVal.join sep (w :: w' :: ws)) with (w ++ sep ++ PyVal.join sep (w' :: ws)).
  rewrite !reverse_app.
  assert (PyVal.join sep (w' :: ws) <> []) as Hne.
  { apply list.Forall_cons in Hws as [[? _] _]. destruct ws; simpl; [done|]. by destruct w'. }
  destruct (reverse (PyVal.join sep (w' :: ws))) as [|c t] eqn:E; [|exact IH].
  apply (f_equal reverse) in E. rewrite reverse_involutive in E. done.
Qed.

Lemma strip_collapse v : strip (collapse v) = collapse v.
Proof.
  unfold collapse. set (ws := split_words _ _).
  assert (Forall is_word_text ws) as Hw by (by apply split_words_ok).
  unfold strip. rewrite (lstrip_fix (PyVal.join _ _)) by (by apply no_lead_join).
  unfold rstrip. rewrite lstrip_fix by (by apply no_lead_reverse_join).
  apply reverse_involutive.
Qed.

Section Display.
Context `{NetlocCheck}.

Lemma safe_display_inv value n t :
  _safe_display_text value n = Some t ->
  exists v, t = _truncate v n /\ strip v = v /\ _is_unsafe_display_text v = false.
Proof.
  unfold _safe_display_text. destruct value as [v|]; cbn [mbind option_bind]; [|done].
  destruct (collapse v) as [|c s] eqn:E; [done|].
  destruct (_is_unsafe_display_text (c :: s)) eqn:Hu; [done|].
  intros [= <-]. exists (c :: s). split_and!; [done| |done]. rewrite <- E. apply strip_collapse.
Qed.

(** What is displayed of a source carries no instruction marker and no secret
    marker in any case, no URL, no absolute path and no control character, and is
    at most two characters longer than the limit. *)
Theorem displayed_text_is_safe value n t :
  _safe_display_text value n = Some t ->
  (forall m, m ∈ _PROMPT_MARKERS ++ _SECRET_MARKERS -> contains m (lower t) = false) /\
  contains (u "://") t = false /\
  _looks_like_local_absolute_path t = false /\
  (forall c, c ∈ [0; 9; 10; 13]%N -> c ∉ t) /\
  length t <= Nat.max n 1 + 2.
Proof.
  intros E. apply safe_display_inv in E as (v & -> & Hs & Hu).
  unfold _is_unsafe_display_text in Hu. rewrite Hs in Hu. bool_inv.
  assert (Forall (fun m => m <> [] /\ 46%N ∉ m) (_PROMPT_MARKERS ++ _SECRET_MARKERS)) as Hm
    by (apply (bool_decide_unpack _); by vm_compute).
  rewrite list.Forall_forall in Hm.
  split_and!.
  - intros m Hin. destruct (Hm m Hin) as [Hn Hd]. apply truncate_absent_lower; [done..|].
    apply elem_of_app in Hin.
    destruct (contains m (lower v)) eqn:Hc; [|done]. exfalso.
    destruct Hin as [Hin|Hin]; apply list_elem_of_In in Hin.
    + assert (existsb (fun m => contains m (lower v)) _PROMPT_MARKERS = true)
        by (apply existsb_exists; eauto). congruence.
    + assert (existsb (fun m => contains m (lower v)) _SECRET_MARKERS = true)
        by (apply existsb_exists; eauto). congruence.
  - apply truncate_absent; [done| |done]. vm_compute. set_solver.
  - by apply truncate_not_path.
  - intros c Hc. apply truncate_char; [by set_solver|].
    intros Hv. assert (existsb (fun c => has_char c v) [0; 13; 10; 9]%N = true); [|congruence].
    apply existsb_exists. exists c. split; [apply list_elem_of_In; set_solver|].
    by apply bool_decide_true.
  - apply truncate_length.
Qed.
End Display.

Module SourceExamples.
#[export] Instance any_netloc : NetlocCheck := fun _ => true.

(** A title of 170 characters with a slash in it. *)
Definition long_title : pystr := u "Guide / " ++ replicate 162 97%N.

Example title_shown :
  build_safe_source_metadata (Some (u " Annual   report ")) None None (u "d") (u "v") (u "c")
    (Some 1%Z) (Some 2%Z) [u "Intro"] None
  = Ok {| sm_source_display_name := u "Annual report"; sm_source_type := u "unknown";
          sm_document_id := u "d"; sm_version_id := u "v"; sm_chunk_id := u "c";
          sm_page_start := Some 1%Z; sm_page_end := Some 2%Z; sm_title_path := [u "Intro"];
          sm_source_ref := None |}.
Proof. vm_compute. reflexivity. Qed.
End SourceExamples.

(** Sanitising twice is not sanitising once: the dots of a truncated title make a
    text with a slash look like an object key, so the record, whose builder and
    whose validator both sanitise, loses the name of a source that is fit to show. *)
Lemma long_title_lost :
  _is_unsafe_display_text (H := SourceExamples.any_netloc) SourceExamples.long_title = false /\
  safe_source_display_name (H := SourceExamples.any_netloc) (Some SourceExamples.long_title)
    <> SOURCE_UNAVAILABLE /\
  match build_safe_source_metadata (H := SourceExamples.any_netloc) (Some SourceExamples.long_title)
          None None (u "d") (u "v") (u "c") None None [] None with
  | Ok m => sm_source_display_name m = SOURCE_UNAVAILABLE
  | Err _ => False
  end.
Proof. vm_compute. split_and!; done. Qed.

Lemma displayed_text_is_safe_witness :
  exists t, _safe_display_text (H := SourceExamples.any_netloc) (Some SourceExamples.long_title) 160
            = Some t /\ contains (u "://") t = false /\ length t <= 162.
Proof.
  destruct (_safe_display_text (H := SourceExamples.any_netloc) (Some SourceExamples.long_title) 160)
    as [t|] eqn:E; [|vm_compute in E; discriminate E].
  exists t. split; [done|].
  destruct (displayed_text_is_safe (H := SourceExamples.any_netloc) _ _ _ E) as (_ & Hu & _ & _ & Hl).
  split; [exact Hu|exact Hl].
Defined.
