(* ===== verification/Rrf.v ===== *)
(** Reciprocal-rank fusion and hybrid retrieval.

    Models [packages/retrieval/rrf.py] ([HybridMergeConfig], [RRFMerger.merge],
    [HybridRetriever.retrieve] and their helpers) and the validators of
    [RetrievalCandidate] in [packages/retrieval/dto.py].  The two branch
    retrievers are the port [CandidateRetriever]: functions from a request and a
    filter set to candidates or an exception. *)

From Stdlib Require Import ZArith String Sorting.Sorted.
From S2P Require Import Prelude Float64 PyVal Access Redact.
From stdpp Require Import base list numbers sorting sets.

(** * Candidates *)

Record RetrievalCandidate : Type := {
  rc_document_id : pystr;
  rc_version_id : pystr;
  rc_chunk_id : pystr;
  rc_source : option pystr;
  rc_source_type : pystr;
  rc_source_uri : option pystr;
  rc_page_start : option Z;
  rc_page_end : option Z;
  rc_title_path : list pystr;
  rc_score : float;
  rc_retrieval_method : pystr;
  rc_tenant_id : pystr;
  rc_acl : pydict;
  rc_metadata : pydict;
  rc_content : pystr
}.

(** What the retrieval service answers. *)
Record RetrievalResult : Type := {
  rt_request_id : pystr;
  rt_trace_id : pystr;
  rt_tenant_id : pystr;
  rt_user_id : pystr;
  rt_top_k : Z;
  rt_query_summary : list (pystr * Z);
  rt_candidates : list RetrievalCandidate;
  rt_latency_ms : option float;
  rt_error_code : option pystr
}.

Inductive candidate_error : Type :=
| CandidateBlankText
| CandidateBlankTitlePath
| CandidateScoreNotFinite
| CandidateContentTooLong
| CandidatePageRange.

Definition nonblank (s : pystr) : bool := match strip s with [] => false | _ => true end.

(** The model validator [_validate_page_range]. *)
Definition page_range_ok (ps pe : option Z) : bool :=
  match ps, pe with
  | None, None => true
  | Some a, Some b => negb ((a <? 1) || (b <? 1))%Z && negb (b <? a)%Z
  | _, _ => false
  end.

(** [RetrievalCandidate(...)]: the field and model validators. *)
Definition make_candidate (c : RetrievalCandidate) : result candidate_error RetrievalCandidate :=
  let title := strip_nonblank (rc_title_path c) in
  _ ← raise_if (negb (forallb nonblank
         [rc_document_id c; rc_version_id c; rc_chunk_id c; rc_source_type c;
          rc_retrieval_method c; rc_tenant_id c])) CandidateBlankText;
  _ ← raise_if (match title with [] => true | _ => false end) CandidateBlankTitlePath;
  _ ← raise_if (negb (isfinite (rc_score c))) CandidateScoreNotFinite;
  _ ← raise_if (4000 <? length (rc_content c)) CandidateContentTooLong;
  _ ← raise_if (negb (page_range_ok (rc_page_start c) (rc_page_end c))) CandidatePageRange;
  mret {| rc_document_id := strip (rc_document_id c); rc_version_id := strip (rc_version_id c);
          rc_chunk_id := strip (rc_chunk_id c); rc_source := rc_source c;
          rc_source_type := strip (rc_source_type c); rc_source_uri := rc_source_uri c;
          rc_page_start := rc_page_start c; rc_page_end := rc_page_end c;
          rc_title_path := title; rc_score := rc_score c;
          rc_retrieval_method := strip (rc_retrieval_method c);
          rc_tenant_id := strip (rc_tenant_id c); rc_acl := rc_acl c;
          rc_metadata := rc_metadata c; rc_content := rc_content c |}.

(** [candidate.model_copy(update={"content": ...})]. *)
Definition with_content (c : RetrievalCandidate) (content : pystr) : RetrievalCandidate :=
  {| rc_document_id := rc_document_id c; rc_version_id := rc_version_id c;
     rc_chunk_id := rc_chunk_id c; rc_source := rc_source c; rc_source_type := rc_source_type c;
     rc_source_uri := rc_source_uri c; rc_page_start := rc_page_start c;
     rc_page_end := rc_page_end c; rc_title_path := rc_title_path c; rc_score := rc_score c;
     rc_retrieval_method := rc_retrieval_method c; rc_tenant_id := rc_tenant_id c;
     rc_acl := rc_acl c; rc_metadata := rc_metadata c; rc_content := content |}.

(** [candidate.model_copy(update={"score", "retrieval_method", "metadata"})]. *)
Definition with_fusion (c : RetrievalCandidate) (score : float) (method : pystr)
    (metadata : pydict) : RetrievalCandidate :=
  {| rc_document_id := rc_document_id c; rc_version_id := rc_version_id c;
     rc_chunk_id := rc_chunk_id c; rc_source := rc_source c; rc_source_type := rc_source_type c;
     rc_source_uri := rc_source_uri c; rc_page_start := rc_page_start c;
     rc_page_end := rc_page_end c; rc_title_path := rc_title_path c; rc_score := score;
     rc_retrieval_method := method; rc_tenant_id := rc_tenant_id c; rc_acl := rc_acl c;
     rc_metadata := metadata; rc_content := rc_content c |}.

(** The identity of a chunk: tenant, document, version and chunk id. *)
Definition identity : Type := pystr * pystr * pystr * pystr.
Definition candidate_key (c : RetrievalCandidate) : identity :=
  (rc_tenant_id c, rc_document_id c, rc_version_id c, rc_chunk_id c).

(** * Configuration *)

Record HybridMergeConfig : Type := {
  rank_constant : float;
  dense_weight : float;
  sparse_weight : float;
  min_fusion_score : option float;
  max_candidates_per_branch : option Z
}.

Definition finite_positive (x : float) : bool := isfinite x && negb (fle x fzero).

(** The validators of [HybridMergeConfig]. *)
Definition valid_config (c : HybridMergeConfig) : bool :=
  finite_positive (rank_constant c) && finite_positive (dense_weight c)
  && finite_positive (sparse_weight c)
  && (match min_fusion_score c with Some x => score_in_range x | None => true end)
  && (match max_candidates_per_branch c with
      | Some n => negb ((n <=? 0) || (MAX_RETRIEVAL_TOP_K <? n))%Z
      | None => true
      end).

(** * Safe metadata *)

Definition PROVENANCE_METADATA_KEY : pystr := u "retrieval_provenance".

Definition _SENSITIVE_METADATA_KEYS : list pystr := u <$>
  ["access_token"; "api_key"; "body"; "chunk_content"; "chunk_text"; "content";
   "document_content"; "embedding"; "embedding_vector"; "full_query"; "password"; "prompt";
   "provider_raw_response"; "query"; "query_vector"; "raw_response"; "secret"; "sql"; "text";
   "token"; "tsquery"; "tsvector"; "vector"]%string.

Section Safe.
Context `{UnicodeDB}.

(** [char.isalnum()]. *)
Definition py_isalnum (c : N) : bool :=
  is_alpha c || is_digit c || ((128 <=? c)%N && unicode_alnum c).

Definition compact_alnum (s : pystr) : pystr := List.filter py_isalnum s.

Definition _SENSITIVE_METADATA_COMPACT_KEYS : list pystr :=
  (compact_alnum <$> _SENSITIVE_METADATA_KEYS) ++ (u <$>
    ["chunkcontent"; "chunktext"; "documentcontent"; "documentchunk"; "fullquery"; "querytext";
     "rawresponse"; "providerrawresponse"; "sqlquery"]%string).

Definition _is_sensitive_metadata_key (key : pystr) : bool :=
  let normalized := replace_char 32 95 (replace_char 45 95 (lower (strip key))) in
  let compact := compact_alnum normalized in
  bool_decide (normalized = PROVENANCE_METADATA_KEY)
  || bool_decide (normalized ∈ _SENSITIVE_METADATA_KEYS)
  || bool_decide (compact ∈ _SENSITIVE_METADATA_COMPACT_KEYS).

Definition _looks_like_local_absolute_path (value : pystr) : bool :=
  let normalized := strip value in
  startswith (u "/") normalized || startswith (u "\\") normalized
  || match normalized with
     | _ :: b :: c :: _ => (b =? 58)%N && bool_decide (c ∈ u ":\/")
     | _ => false
     end.

(** The loop body of [_safe_metadata] and the loop, given the recursive call on
    the values. *)
Definition safe_metadata_body (safe_value : pyval -> pyval) (safe : pydict)
    (item : pystr * pyval) : pydict :=
  let key_text := item.1 in
  if _is_sensitive_metadata_key key_text then safe else
  match redact_sensitive_data (VDict [(key_text, item.2)]) with
  | VDict redacted =>
      let redacted_value := default (VStr REDACTED_VALUE) (dict_get key_text redacted) in
      if py_eq redacted_value (VStr REDACTED_VALUE) then safe
      else dict_set key_text (safe_value redacted_value) safe
  | _ => safe
  end.

Definition safe_metadata_with (safe_value : pyval -> pyval) (metadata : pydict) : pydict :=
  foldl (safe_metadata_body safe_value) [] metadata.

(** [_safe_value] and [_safe_metadata] call each other on the redacted value,
    whose depth is that of the original: the fuel is that depth. *)
Fixpoint safe_value_fuel (n : nat) (value : pyval) : pyval :=
  match n with
  | O => redact_sensitive_data value
  | S n' =>
      match value with
      | VDict d => VDict (safe_metadata_with (safe_value_fuel n') d)
      | VList l | VTuple l => VTuple (safe_value_fuel n' <$> l)
      | VStr s =>
          if _looks_like_local_absolute_path s then VStr REDACTED_VALUE
          else redact_sensitive_data value
      | _ => redact_sensitive_data value
      end
  end.

Definition _safe_value (value : pyval) : pyval := safe_value_fuel (S (depth value)) value.
Definition _safe_metadata (metadata : pydict) : pydict :=
  safe_metadata_with (safe_value_fuel (S (depth (VDict metadata)))) metadata.
End Safe.

(** * Merge *)

Definition _DENSE : pystr := u "dense".
Definition _SPARSE : pystr := u "sparse".

Record FusionSource : Type := {
  fsrc_method : pystr;
  fsrc_rank : Z;
  fsrc_score : float;
  fsrc_weight : float;
  fsrc_contribution : float
}.

Record FusionTrace : Type := {
  ft_input_counts : Z * Z;
  ft_deduped_count : Z;
  ft_filtered_count : Z;
  ft_threshold : option float;
  ft_rank_constant : float;
  ft_weights : float * float
}.

Record FusionBucket : Type := {
  fb_candidate : RetrievalCandidate;
  fb_sources : list FusionSource
}.

Inductive merge_error : Type :=
| MergeZeroDivision
| MergeValidation (e : validation_error).

(** [x / y] on floats raises on a zero divisor. *)
Definition py_fdiv (x y : float) : result merge_error float :=
  if feq y fzero then Err MergeZeroDivision else Ok (fdiv x y).

Section Merge.
Context `{PyRepr, UnicodeDB}.

Definition _metadata_matches (candidate_metadata required_metadata : pydict) : bool :=
  forallb (fun kv => py_eq (default VNone (dict_get kv.1 candidate_metadata)) kv.2)
          required_metadata.

Definition _candidate_in_scope (c : RetrievalCandidate) (filters : RetrievalFilterSet)
    : result merge_error bool :=
  if negb (bool_decide (rc_tenant_id c = fs_tenant_id filters)) then Ok false else
  if negb (_metadata_matches (rc_metadata c) (fs_metadata_filter filters)) then Ok false else
  match to_vector_acl_filter filters with
  | Ok f => Ok (acl_allows (rc_acl c) f)
  | Err e => Err (MergeValidation e)
  end.

Definition _effective_threshold (request : RetrievalRequest) (config : HybridMergeConfig)
    : option float :=
  match rq_score_threshold request, min_fusion_score config with
  | None, None => None
  | Some a, None => Some a
  | None, Some b => Some b
  | Some a, Some b => Some (fmax a b)
  end.

Definition _weight_for_method (config : HybridMergeConfig) (method : pystr) : float :=
  if bool_decide (method = _DENSE) then dense_weight config else sparse_weight config.

Definition branch_slice (config : HybridMergeConfig) (l : list RetrievalCandidate)
    : list RetrievalCandidate :=
  match max_candidates_per_branch config with None => l | Some n => py_take n l end.

Abbreviation bucket_dict := (list (identity * FusionBucket)).

(** The body of the inner loop of [merge] after the scope check. *)
Definition add_source (method : pystr) (c : RetrievalCandidate) (source : FusionSource)
    (buckets : bucket_dict) : bucket_dict :=
  let key := candidate_key c in
  match dict_get key buckets with
  | None => dict_set key {| fb_candidate := c; fb_sources := [source] |} buckets
  | Some existing =>
      if existsb (fun item => bool_decide (fsrc_method item = method)) (fb_sources existing)
      then buckets
      else
        let merged :=
          match rc_content (fb_candidate existing), rc_content c with
          | [], _ :: _ => with_content (fb_candidate existing) (rc_content c)
          | _, _ => fb_candidate existing
          end in
        dict_set key {| fb_candidate := merged; fb_sources := fb_sources existing ++ [source] |}
          buckets
  end.

Fixpoint merge_branch (config : HybridMergeConfig) (filters : RetrievalFilterSet)
    (method : pystr) (rank : Z) (candidates : list RetrievalCandidate)
    (st : bucket_dict * Z) : result merge_error (bucket_dict * Z) :=
  match candidates with
  | [] => Ok st
  | c :: rest =>
      in_scope ← _candidate_in_scope c filters;
      if negb in_scope
      then merge_branch config filters method (rank + 1) rest (st.1, st.2 + 1)%Z
      else
        let weight := _weight_for_method config method in
        contribution ← py_fdiv weight (fadd (rank_constant config) (fofZ rank));
        merge_branch config filters method (rank + 1) rest
          (add_source method c
             {| fsrc_method := method; fsrc_rank := rank; fsrc_score := rc_score c;
                fsrc_weight := weight; fsrc_contribution := contribution |} st.1, st.2)
  end.

Definition source_dump (s : FusionSource) : pyval :=
  VDict [(u "retrieval_method", VStr (fsrc_method s)); (u "rank", VInt (fsrc_rank s));
         (u "score", VFloat (fsrc_score s)); (u "weight", VFloat (fsrc_weight s));
         (u "contribution", VFloat (fsrc_contribution s))].

Definition _fusion_reason (methods : list pystr) : pystr :=
  let has m := bool_decide (m ∈ methods) in
  let only l := forallb (fun m => bool_decide (m ∈ l)) methods in
  if has _DENSE && has _SPARSE && only [_DENSE; _SPARSE] then u "dense_sparse_overlap"
  else if has _DENSE && only [_DENSE] then u "dense_only"
  else u "sparse_only".

(** [sum(source.contribution for source in sources)]; with at most two terms the
    compensated summation of recent Pythons gives the same float. *)
Definition raw_score (sources : list FusionSource) : float :=
  foldl (fun acc s => fadd acc (fsrc_contribution s)) fzero sources.

Definition max_possible (config : HybridMergeConfig) : result merge_error float :=
  py_fdiv (fadd (dense_weight config) (sparse_weight config)) (fadd (rank_constant config) fone).

Definition clamp_unit (x : float) : float := fmin fone (fmax fzero x).

Definition provenance (sources : list FusionSource) (raw normalized : float) : pyval :=
  VDict [(u "retrieval_methods", VTuple (VStr ∘ fsrc_method <$> sources));
         (u "sources", VTuple (source_dump <$> sources));
         (u "raw_rrf_score", VFloat raw);
         (u "normalized_fusion_score", VFloat normalized);
         (u "fusion_reason", VStr (_fusion_reason (fsrc_method <$> sources)))].

Definition _fused_candidate (config : HybridMergeConfig) (b : FusionBucket)
    : result merge_error RetrievalCandidate :=
  let raw := raw_score (fb_sources b) in
  m ← max_possible config;
  q ← py_fdiv raw m;
  let normalized := clamp_unit q in
  let metadata := dict_set PROVENANCE_METADATA_KEY (provenance (fb_sources b) raw normalized)
                    (_safe_metadata (rc_metadata (fb_candidate b))) in
  mret (with_fusion (fb_candidate b) normalized (u "hybrid") metadata).

Definition below (threshold : option float) (score : float) : bool :=
  match threshold with Some t => flt score t | None => false end.

Fixpoint fuse_buckets (config : HybridMergeConfig) (threshold : option float)
    (buckets : list FusionBucket) : result merge_error (list RetrievalCandidate * Z) :=
  match buckets with
  | [] => Ok ([], 0)%Z
  | b :: rest =>
      fused ← _fused_candidate config b;
      r ← fuse_buckets config threshold rest;
      mret (if below threshold (rc_score fused) then (r.1, r.2 + 1)%Z else (fused :: r.1, r.2))
  end.

(** ** The sort key *)

Record SortKey : Type := {
  sk_score : float; sk_raw : float; sk_count : Z; sk_rank : Z; sk_identity : identity
}.

Definition _float_value (v : pyval) : float :=
  match v with
  | VFloat x => if isfinite x then x else fzero
  | _ => match as_int v with Some z => fofZ z | None => fzero end
  end.

Definition min_rank (ranks : list Z) : Z :=
  match ranks with [] => 0 | r :: rs => foldl Z.min r rs end%Z.

Definition source_ranks (sources : list pyval) : list Z :=
  omap (fun s => match s with
                 | VDict d => dict_get (u "rank") d ≫= as_int
                 | _ => None end) sources.

Definition _best_rank (sources : pyval) : Z :=
  match sources with
  | VTuple l | VList l => min_rank (source_ranks l)
  | _ => 0%Z
  end.

Definition _sort_key (c : RetrievalCandidate) : SortKey :=
  match dict_get PROVENANCE_METADATA_KEY (rc_metadata c) with
  | Some (VDict p) =>
      let sources := default VNone (dict_get (u "sources") p) in
      {| sk_score := fopp (rc_score c);
         sk_raw := fopp (_float_value (default VNone (dict_get (u "raw_rrf_score") p)));
         sk_count := (- match sources with
                        | VTuple l | VList l => Z.of_nat (length l) | _ => 0 end)%Z;
         sk_rank := _best_rank sources;
         sk_identity := candidate_key c |}
  | _ =>
      {| sk_score := fopp (rc_score c); sk_raw := fopp (rc_score c); sk_count := 0; sk_rank := 0;
         sk_identity := candidate_key c |}
  end.

(** Lexicographic [<] of the key tuples. *)
Definition identity_lt (a b : identity) : bool :=
  if negb (bool_decide (a.1.1.1 = b.1.1.1)) then str_lt a.1.1.1 b.1.1.1
  else if negb (bool_decide (a.1.1.2 = b.1.1.2)) then str_lt a.1.1.2 b.1.1.2
  else if negb (bool_decide (a.1.2 = b.1.2)) then str_lt a.1.2 b.1.2
  else str_lt a.2 b.2.

Definition sort_key_lt (a b : SortKey) : bool :=
  if negb (feq (sk_score a) (sk_score b)) then flt (sk_score a) (sk_score b)
  else if negb (feq (sk_raw a) (sk_raw b)) then flt (sk_raw a) (sk_raw b)
  else if negb (sk_count a =? sk_count b)%Z then (sk_count a <? sk_count b)%Z
  else if negb (sk_rank a =? sk_rank b)%Z then (sk_rank a <? sk_rank b)%Z
  else identity_lt (sk_identity a) (sk_identity b).

Definition fused_lt (a b : RetrievalCandidate) : bool := sort_key_lt (_sort_key a) (_sort_key b).

(** [RRFMerger.merge]: the limited candidates and the trace it records. *)
Definition merge (config : HybridMergeConfig) (request : RetrievalRequest)
    (filters : RetrievalFilterSet) (dense sparse : list RetrievalCandidate)
    : result merge_error (list RetrievalCandidate * FusionTrace) :=
  st1 ← merge_branch config filters _DENSE 1 (branch_slice config dense) ([], 0%Z);
  st2 ← merge_branch config filters _SPARSE 1 (branch_slice config sparse) st1;
  let threshold := _effective_threshold request config in
  fused ← fuse_buckets config threshold (snd <$> st2.1);
  let limited := py_take (rq_top_k request) (py_sort fused_lt fused.1) in
  mret (limited,
        {| ft_input_counts := (Z.of_nat (length dense), Z.of_nat (length sparse));
           ft_deduped_count := Z.of_nat (length st2.1);
           ft_filtered_count := (st2.2 + fused.2)%Z;
           ft_threshold := threshold;
           ft_rank_constant := rank_constant config;
           ft_weights := (dense_weight config, sparse_weight config) |}).
End Merge.

(** ** The order of the results *)

Lemma weak_order_identity {A} (f : A -> identity) (P : A -> Prop) :
  weak_order (fun x y => identity_lt (f x) (f y)) P.
Proof.
  apply (weak_order_lex (fun x y => bool_decide ((f x).1.1.1 = (f y).1.1.1))
           (fun x y => str_lt (f x).1.1.1 (f y).1.1.1)); [intros; apply str_eq_lt| |].
  { by apply (weak_order_key (fun x => (f x).1.1.1) _ _ _ (fun _ _ => I) weak_order_str). }
  apply (weak_order_lex (fun x y => bool_decide ((f x).1.1.2 = (f y).1.1.2))
           (fun x y => str_lt (f x).1.1.2 (f y).1.1.2)); [intros; apply str_eq_lt| |].
  { by apply (weak_order_key (fun x => (f x).1.1.2) _ _ _ (fun _ _ => I) weak_order_str). }
  apply (weak_order_lex (fun x y => bool_decide ((f x).1.2 = (f y).1.2))
           (fun x y => str_lt (f x).1.2 (f y).1.2)); [intros; apply str_eq_lt| |].
  { by apply (weak_order_key (fun x => (f x).1.2) _ _ _ (fun _ _ => I) weak_order_str). }
  by apply (weak_order_key (fun x => (f x).2) _ _ _ (fun _ _ => I) weak_order_str).
Qed.

Definition key_num (k : SortKey) : Prop := fnum (sk_score k) /\ fnum (sk_raw k).

Lemma sort_key_num c : fnum (rc_score c) -> key_num (_sort_key c).
Proof.
  intros Hc. unfold key_num, _sort_key.
  repeat case_match; simpl; rewrite ?fopp_num; split; try done.
  all: unfold _float_value; repeat case_match; auto using fzero_num, fofZ_num;
    by apply isfinite_num.
Qed.

Lemma weak_order_sort_key : weak_order sort_key_lt key_num.
Proof.
  apply (weak_order_lex (fun x y => feq (sk_score x) (sk_score y))
           (fun x y => flt (sk_score x) (sk_score y)));
    [intros x y [? _] [? _]; by apply feq_flt| |].
  { apply (weak_order_key sk_score flt key_num fnum); [by intros ? []|apply weak_order_flt]. }
  apply (weak_order_lex (fun x y => feq (sk_raw x) (sk_raw y))
           (fun x y => flt (sk_raw x) (sk_raw y)));
    [intros x y [_ ?] [_ ?]; by apply feq_flt| |].
  { apply (weak_order_key sk_raw flt key_num fnum); [by intros ? []|apply weak_order_flt]. }
  apply (weak_order_lex (fun x y => (sk_count x =? sk_count y)%Z)
           (fun x y => (sk_count x <? sk_count y)%Z)); [intros; apply Z_eqb_ltb| |].
  { by apply (weak_order_key sk_count _ _ _ (fun _ _ => I) weak_order_Z). }
  apply (weak_order_lex (fun x y => (sk_rank x =? sk_rank y)%Z)
           (fun x y => (sk_rank x <? sk_rank y)%Z)); [intros; apply Z_eqb_ltb| |].
  { by apply (weak_order_key sk_rank _ _ _ (fun _ _ => I) weak_order_Z). }
  apply weak_order_identity.
Qed.

Lemma weak_order_fused : weak_order fused_lt (fun c => fnum (rc_score c)).
Proof. apply (weak_order_key _sort_key _ _ _ sort_key_num weak_order_sort_key). Qed.

Lemma clamp_unit_range x : fle fzero (clamp_unit x) = true /\ fle (clamp_unit x) fone = true.
Proof.
  unfold clamp_unit. split; [|apply fmin_le_l'; done].
  unfold fmin. destruct (flt (fmax fzero x) fone); [by apply fmax_ge_l'|done].
Qed.

(** ** Invariants of the merge *)

Section MergeProps.
Context `{PyRepr, UnicodeDB}.
Context (config : HybridMergeConfig) (filters : RetrievalFilterSet).

Definition scoped (c : RetrievalCandidate) : Prop := _candidate_in_scope c filters = Ok true.

#[export] Instance scoped_dec c : Decision (scoped c).
Proof.
  unfold scoped. destruct (_candidate_in_scope c filters) as [[]|]; [by left|by right|by right].
Defined.

(** What is known of a bucket built from the candidates [l]: its chunk and its
    content come from candidates in scope that carry its key, and each branch
    contributes at most one source. *)
Record bucket_ok (l : list RetrievalCandidate) (kb : identity * FusionBucket) : Prop := {
  bo_from : exists c0 c1, c0 ∈ l /\ c1 ∈ l /\ scoped c0 /\ scoped c1 /\
    candidate_key c0 = kb.1 /\ candidate_key c1 = kb.1 /\
    fb_candidate kb.2 = with_content c0 (rc_content c1);
  bo_methods : NoDup (fsrc_method <$> fb_sources kb.2);
  bo_nonempty : fb_sources kb.2 <> []
}.

Lemma bucket_ok_key l kb : bucket_ok l kb -> candidate_key (fb_candidate kb.2) = kb.1.
Proof. intros [(c0 & c1 & _ & _ & _ & _ & <- & _ & ->) _ _]. done. Qed.

Lemma add_source_ok l method c source buckets :
  c ∈ l -> scoped c -> fsrc_method source = method ->
  NoDup buckets.*1 -> Forall (bucket_ok l) buckets ->
  NoDup (add_source method c source buckets).*1 /\
  Forall (bucket_ok l) (add_source method c source buckets) /\
  (forall k, k ∈ (add_source method c source buckets).*1 <-> k = candidate_key c \/ k ∈ buckets.*1).
Proof.
  intros Hl Hc Hm Hnd Hall. unfold add_source.
  destruct (dict_get (candidate_key c) buckets) as [b|] eqn:Hget.
  - apply dict_get_elem in Hget.
    assert (candidate_key c ∈ buckets.*1) as Hin by (apply list_elem_of_fmap; exists (candidate_key c, b); by split).
    destruct (existsb _ _) eqn:He.
    { split; [done|]. split; [done|]. intros k. split; [auto|]. by intros [->|]. }
    split; [by apply dict_set_keys|]. split.
    + apply dict_set_Forall; [|done].
      rewrite list.Forall_forall in Hall. specialize (Hall _ Hget).
      destruct Hall as [(c0 & c1 & ? & ? & ? & ? & Hk0 & Hk1 & Hb) Hms Hne]. simpl in *.
      split; simpl; [|rewrite fmap_app; apply list.NoDup_app|by destruct (fb_sources b)].
      * rewrite Hb. simpl.
        destruct (rc_content c1) as [|x1 s1] eqn:E1, (rc_content c) as [|x s] eqn:E2;
          first [ by exists c0, c1; rewrite E1 | by exists c0, c; rewrite E2 ].
      * split; [done|]. split; [|simpl; apply NoDup_singleton].
        intros m Hms' Hmm. simpl in Hmm. rewrite Hm in Hmm. apply list_elem_of_singleton in Hmm as ->.
        apply list_elem_of_fmap in Hms' as (s & Hs & Hin').
        rewrite <- not_true_iff_false in He. apply He, existsb_exists.
        exists s. split; [by apply list_elem_of_In|by apply bool_decide_eq_true].
    + intros k. rewrite dict_set_keys_iff. tauto.
  - split; [by apply dict_set_keys|]. split; [|intros k; apply dict_set_keys_iff].
    apply dict_set_Forall; [|done]. split; simpl; [|apply NoDup_singleton|done].
    exists c, c. repeat split; try done. by destruct c.
Qed.

Definition out_of_scope (l : list RetrievalCandidate) : Z :=
  zsum (fun c => if decide (scoped c) then 0 else 1)%Z l.

Lemma merge_branch_inv l method rank cands st st' :
  merge_branch config filters method rank cands st = Ok st' ->
  cands ⊆ l -> NoDup st.1.*1 -> Forall (bucket_ok l) st.1 ->
  NoDup st'.1.*1 /\ Forall (bucket_ok l) st'.1 /\
  (forall k, k ∈ st'.1.*1 <->
     k ∈ st.1.*1 \/ exists c, c ∈ cands /\ scoped c /\ candidate_key c = k) /\
  st'.2 = (st.2 + out_of_scope cands)%Z.
Proof.
  revert rank st. induction cands as [|c cands IH]; intros rank st; simpl.
  { intros [= <-] _ ? ?. split_and!; try done; [|unfold out_of_scope; simpl; lia]. intros k. split; [auto|].
    intros [?|(c & Hc & _)]; [done|]. by apply list.not_elem_of_nil in Hc. }
  intros Hm Hsub Hnd Hall. unfold out_of_scope. simpl.
  assert (c ∈ l /\ cands ⊆ l) as [Hcl Hsub'] by set_solver.
  unfold mbind, result_bind in Hm.
  destruct (_candidate_in_scope c filters) as [[]|] eqn:Hs; [| |done]; simpl in Hm.
  - destruct (py_fdiv _ _) as [contr|] eqn:Hd; [|done]; simpl in Hm.
    rewrite decide_True by done.
    set (src := {| fsrc_method := method |}) in Hm.
    destruct (add_source_ok l method c src st.1 Hcl Hs eq_refl Hnd Hall) as (A1 & A2 & A3).
    apply IH in Hm as (B1 & B2 & B3 & B4); simpl in *; try done.
    split_and!; try done. intros k. rewrite B3, A3. set_solver.
  - rewrite decide_False by (unfold scoped; congruence).
    apply IH in Hm as (B1 & B2 & B3 & B4); simpl in *; try done.
    split_and!; try done; [|unfold out_of_scope in B4; lia]. intros k. rewrite B3.
    split; [set_solver|]. intros [?|(c' & [->|Hc']%elem_of_cons & Hsc & Hk)]; [auto| |eauto].
    unfold scoped in Hsc. congruence.
Qed.

Lemma fuse_buckets_spec threshold buckets out n :
  fuse_buckets config threshold buckets = Ok (out, n) ->
  (forall c, c ∈ out -> exists b, b ∈ buckets /\ _fused_candidate config b = Ok c /\
     below threshold (rc_score c) = false) /\
  (NoDup (candidate_key ∘ fb_candidate <$> buckets) -> NoDup (candidate_key <$> out)) /\
  (forall b, b ∈ buckets -> exists c, _fused_candidate config b = Ok c) /\
  (Z.of_nat (length out) + n = Z.of_nat (length buckets) /\ 0 <= n)%Z.
Proof.
  revert out n. induction buckets as [|b buckets IH]; intros out n; simpl.
  { intros [= <- <-]. split_and!; [set_solver|by constructor|set_solver|done|done]. }
  unfold mbind, result_bind, mret, result_ret.
  destruct (_fused_candidate config b) as [c|] eqn:Hb; [|done].
  destruct (fuse_buckets config threshold buckets) as [[out' n']|] eqn:Hr; [|done].
  destruct (IH out' n' eq_refl) as (H1 & H2 & H3 & H4 & H5). clear IH.
  assert (candidate_key c = candidate_key (fb_candidate b)) as Hk.
  { unfold _fused_candidate in Hb. res_inv; done. }
  assert (forall k, k ∈ candidate_key <$> out' -> k ∈ candidate_key ∘ fb_candidate <$> buckets) as Hin.
  { intros k (x & -> & Hx)%list_elem_of_fmap. destruct (H1 x Hx) as (b' & Hb' & Hf & _).
    apply list_elem_of_fmap. exists b'. split; [|done].
    unfold _fused_candidate in Hf. res_inv; done. }
  destruct (below threshold (rc_score c)) eqn:Hbl; intros [= <- <-].
  all: split_and!; simpl; try lia.
  - intros x Hx. destruct (H1 x Hx) as (b' & ? & ? & ?). exists b'. set_solver.
  - intros [_ Hnd]%list.NoDup_cons. auto.
  - intros b' [->|?]%elem_of_cons; eauto.
  - intros x [->|Hx]%elem_of_cons; [exists b; set_solver|].
    destruct (H1 x Hx) as (b' & ? & ? & ?). exists b'. set_solver.
  - intros [Hni Hnd]%list.NoDup_cons. apply list.NoDup_cons. split; [|auto].
    rewrite Hk. intros Hc. by apply Hni, Hin.
  - intros b' [->|?]%elem_of_cons; eauto.
Qed.

(** The candidates the two branches contribute. *)
Definition considered (dense sparse : list RetrievalCandidate) : list RetrievalCandidate :=
  branch_slice config dense ++ branch_slice config sparse.

Lemma merge_inv request dense sparse out tr :
  merge config request filters dense sparse = Ok (out, tr) ->
  exists buckets fused n,
    let l := considered dense sparse in
    NoDup buckets.*1 /\ Forall (bucket_ok l) buckets /\
    (forall k, k ∈ buckets.*1 <-> exists c, c ∈ l /\ scoped c /\ candidate_key c = k) /\
    fuse_buckets config (_effective_threshold request config) (snd <$> buckets) = Ok (fused, n) /\
    out = py_take (rq_top_k request) (py_sort fused_lt fused) /\
    ft_deduped_count tr = Z.of_nat (length buckets) /\
    ft_filtered_count tr = (out_of_scope l + n)%Z.
Proof.
  unfold merge, mbind, result_bind, mret, result_ret.
  destruct (merge_branch _ _ _DENSE _ _ _) as [st1|] eqn:H1; [|done].
  destruct (merge_branch _ _ _SPARSE _ _ _) as [st2|] eqn:H2; [|done].
  destruct (fuse_buckets _ _ _) as [[fused n]|] eqn:H3; [|done]. intros [= <- <-]. simpl.
  apply (merge_branch_inv (considered dense sparse)) in H1 as (A1 & A2 & A3 & A4);
    [|unfold considered; set_solver|constructor|constructor].
  apply (merge_branch_inv (considered dense sparse)) in H2 as (B1 & B2 & B3 & B4);
    [|unfold considered; set_solver|done|done].
  exists st2.1, fused, n. simpl in *. split_and!; try done.
  - intros k. rewrite B3, A3. unfold considered. setoid_rewrite elem_of_app. set_solver.
  - unfold out_of_scope, considered in *. rewrite zsum_app. lia.
Qed.

Lemma bucket_key_map l buckets :
  Forall (bucket_ok l) buckets -> candidate_key ∘ fb_candidate <$> (snd <$> buckets) = buckets.*1.
Proof.
  induction 1 as [|kb b Hkb _ IH]; simpl; [done|]. f_equal; [by apply (bucket_ok_key l)|exact IH].
Qed.

Lemma fused_fields b c :
  _fused_candidate config b = Ok c ->
  exists x md, c = with_fusion (fb_candidate b) (clamp_unit x) (u "hybrid") md.
Proof.
  unfold _fused_candidate, mbind, result_bind, mret, result_ret.
  destruct (max_possible config); [|done]. destruct (py_fdiv _ _); [|done]. intros [= <-]. eauto.
Qed.

Lemma fused_score_num b c : _fused_candidate config b = Ok c -> fnum (rc_score c).
Proof.
  intros (x & md & ->)%fused_fields. simpl. destruct (clamp_unit_range x) as [H1 _].
  by apply fle_num in H1 as [_ ?].
Qed.
End MergeProps.

(** The merger never lets an unauthorised chunk through: every candidate it
    returns has the tenant of the filter set, and both its identity with its ACL
    and its content come from candidates the branches returned that are in scope
    (same tenant, metadata filter satisfied, ACL allowing the caller) under the
    same identity. *)
Theorem merge_authorized `{PyRepr, UnicodeDB} config request filters dense sparse out tr :
  merge config request filters dense sparse = Ok (out, tr) ->
  forall c, c ∈ out ->
    rc_tenant_id c = fs_tenant_id filters /\
    (exists f, to_vector_acl_filter filters = Ok f /\ acl_allows (rc_acl c) f = true) /\
    exists c0 c1, c0 ∈ dense ++ sparse /\ c1 ∈ dense ++ sparse /\
      scoped filters c0 /\ scoped filters c1 /\
      candidate_key c0 = candidate_key c /\ candidate_key c1 = candidate_key c /\
      rc_acl c = rc_acl c0 /\ rc_title_path c = rc_title_path c0 /\
      rc_source_uri c = rc_source_uri c0 /\ rc_content c = rc_content c1.
Proof.
  intros Hm c Hc. apply merge_inv in Hm as (buckets & fused & n & _ & Hok & _ & Hf & -> & _).
  apply py_take_elem in Hc. apply py_sort_elem_of in Hc.
  apply fuse_buckets_spec in Hf as (Hfrom & _).
  destruct (Hfrom c Hc) as (b & (kb & -> & Hkb)%list_elem_of_fmap & Hfc & _).
  apply fused_fields in Hfc as (x & md & ->).
  rewrite list.Forall_forall in Hok. destruct (Hok kb Hkb) as [(c0 & c1 & Hc0 & Hc1 & S0 & S1 & K0 & K1 & ->) _ _].
  pose proof S0 as Hs. unfold scoped, _candidate_in_scope in Hs.
  destruct (bool_decide _) eqn:Ht; [|done]. apply bool_decide_eq_true in Ht. simpl in Hs.
  destruct (_metadata_matches _ _); [|done]. simpl in Hs.
  destruct (to_vector_acl_filter filters) as [f|]; [|done]. injection Hs as Hs.
  split; [done|]. split; [by exists f|].
  exists c0, c1. simpl. rewrite K1, <- K0.
  assert (forall c', c' ∈ considered config dense sparse -> c' ∈ dense ++ sparse) as Hin.
  { unfold considered, branch_slice. intros c'. rewrite !elem_of_app.
    case_match; [|tauto]. intros [?%py_take_elem|?%py_take_elem]; auto. }
  split_and!; auto.
Qed.

(** What the merger returns is a ranking: distinct chunks, at most [top_k] of
    them, in the order of the sort key, every score a float between 0 and 1 and
    not below the effective threshold. *)
Theorem merge_ranked `{PyRepr, UnicodeDB} config request filters dense sparse out tr :
  merge config request filters dense sparse = Ok (out, tr) ->
  (0 <= rq_top_k request)%Z ->
  NoDup (candidate_key <$> out) /\
  (Z.of_nat (length out) <= rq_top_k request)%Z /\
  StronglySorted (sort_le fused_lt) out /\
  Forall (fun c => fle fzero (rc_score c) = true /\ fle (rc_score c) fone = true /\
            below (_effective_threshold request config) (rc_score c) = false) out.
Proof.
  intros Hm Hk. apply merge_inv in Hm as (buckets & fused & n & Hnd & Hok & _ & Hf & -> & _).
  apply fuse_buckets_spec in Hf as (Hfrom & Hd & _).
  rewrite (bucket_key_map filters (considered config dense sparse)) in Hd by done.
  specialize (Hd Hnd).
  assert (py_take (rq_top_k request) (py_sort fused_lt fused)
          = take (Z.to_nat (rq_top_k request)) (py_sort fused_lt fused)) as ->.
  { unfold py_take. destruct (Z.ltb_spec (rq_top_k request) 0); [lia|done]. }
  split_and!.
  - rewrite fmap_take. apply NoDup_take. by rewrite <- py_sort_perm.
  - rewrite length_take. lia.
  - apply StronglySorted_take, (py_sort_sorted _ _ weak_order_fused).
    apply list.Forall_forall. intros c Hc. destruct (Hfrom c Hc) as (b & _ & Hb & _).
    by apply fused_score_num in Hb.
  - apply list.Forall_forall. intros c Hc%elem_of_take_weak%py_sort_elem_of.
    destruct (Hfrom c Hc) as (b & _ & Hb & Hbl). split_and!; [| |done].
    all: apply fused_fields in Hb as (x & md & ->); apply clamp_unit_range.
Qed.

(** The fusion trace accounts for every candidate: [deduped_count] is the
    number of distinct identities among the candidates in scope, and
    [filtered_count] adds the candidates out of scope to the fused candidates the
    threshold removed, so that with a [top_k] large enough every bucket is either
    returned or counted. *)
Theorem merge_accounting `{PyRepr, UnicodeDB} config request filters dense sparse out tr :
  merge config request filters dense sparse = Ok (out, tr) ->
  let l := considered config dense sparse in
  ft_deduped_count tr
  = Z.of_nat (length (remove_dups (candidate_key <$> filter (scoped filters) l))) /\
  ((ft_deduped_count tr <= rq_top_k request)%Z ->
   (Z.of_nat (length out) + (ft_filtered_count tr - out_of_scope filters l)
    = ft_deduped_count tr)%Z).
Proof.
  intros Hm l. apply merge_inv in Hm as (buckets & fused & n & Hnd & Hok & Hk & Hf & -> & -> & ->).
  apply fuse_buckets_spec in Hf as (_ & _ & _ & Hlen & Hn). rewrite length_fmap in Hlen. split.
  - rewrite <- (length_fmap fst buckets). f_equal. apply Permutation_length.
    apply NoDup_Permutation; [done|apply NoDup_remove_dups|].
    intros k. rewrite elem_of_remove_dups, Hk, list_elem_of_fmap.
    setoid_rewrite list_elem_of_filter. unfold l. naive_solver.
  - intros Hle. unfold py_take. destruct (Z.ltb_spec (rq_top_k request) 0); [lia|].
    rewrite length_take, py_sort_length. subst l. lia.
Qed.

(** ** Safe metadata *)

Lemma max_list_le l m : max_list l <= m <-> Forall (fun x => x <= m) l.
Proof.
  induction l as [|x l IH]; simpl; [split; [constructor|lia]|].
  rewrite Forall_cons, <- IH. lia.
Qed.

Section SafeProps.
Context `{UnicodeDB}.

Lemma depth_dict_build d acc m :
  Forall (fun kv : pystr * pyval => depth kv.2 <= m) d ->
  Forall (fun kv : pystr * pyval => depth kv.2 <= m) acc ->
  Forall (fun kv : pystr * pyval => depth kv.2 <= m)
    (foldl (fun acc kv => dict_set kv.1 kv.2 acc) acc d).
Proof.
  intros Hd. revert acc. induction Hd as [|[k v] d Hv Hd IH]; intros acc Hacc; simpl; [done|].
  apply IH, dict_set_Forall; done.
Qed.

Lemma depth_redact v : depth (redact_sensitive_data v) <= depth v.
Proof.
  assert (forall l, Forall (fun v => depth (redact_sensitive_data v) <= depth v) l ->
    max_list (depth <$> map redact_sensitive_data l) <= max_list (depth <$> l)) as Hl.
  { induction 1 as [|x l Hx Hl IH]; cbn; [lia|]; cbn in IH; lia. }
  induction v as [| | | |s|l IH|l IH|l IH|d IH] using pyval_nested_ind; try done.
  - simpl. by destruct (_contains_sensitive_value s).
  - simpl. apply Hl in IH. lia.
  - simpl. apply Hl in IH. lia.
  - rewrite redact_dict_eq. simpl. apply le_n_S, max_list_le, Forall_fmap, depth_dict_build; [|done].
    apply Forall_fmap. rewrite list.Forall_forall in IH |- *. intros [k x] Hx. simpl.
    assert (depth x <= max_list ((fun kv => depth kv.2) <$> d)) as Hle.
    { apply max_list_elem_of_le, list_elem_of_fmap. by exists (k, x). }
    destruct (_is_sensitive_key k); simpl; [lia|]. specialize (IH _ Hx). simpl in IH. lia.
Qed.

(** The value [_safe_metadata] looks at for a key. *)
Lemma redact_single k v :
  redact_sensitive_data (VDict [(k, v)])
  = VDict [(k, if _is_sensitive_key k then VStr REDACTED_VALUE else redact_sensitive_data v)].
Proof. done. Qed.

Definition kept_value (k : pystr) (v : pyval) : option pyval :=
  if _is_sensitive_metadata_key k || _is_sensitive_key k then None
  else let r := redact_sensitive_data v in
       if py_eq r (VStr REDACTED_VALUE) then None else Some r.

Lemma safe_metadata_step (sv : pyval -> pyval) k v (safe : pydict) :
  safe_metadata_body sv safe (k, v)
  = match kept_value k v with None => safe | Some r => dict_set k (sv r) safe end.
Proof.
  unfold kept_value, safe_metadata_body. cbn [fst snd].
  destruct (_is_sensitive_metadata_key k); [done|].
  rewrite redact_single. cbn [dict_get]. rewrite decide_True by done. cbn [default].
  destruct (_is_sensitive_key k); cbn [orb]; [done|].
  by destruct (py_eq _ _).
Qed.

Lemma kept_depth k v r : kept_value k v = Some r -> depth r <= depth v.
Proof.
  unfold kept_value. destruct (_ || _); [done|]. destruct (py_eq _ _); [done|].
  intros [= <-]. apply depth_redact.
Qed.

Lemma safe_metadata_ext sv sv' d :
  Forall (fun kv => forall r, kept_value kv.1 kv.2 = Some r -> sv r = sv' r) d ->
  safe_metadata_with sv d = safe_metadata_with sv' d.
Proof.
  intros Hd. unfold safe_metadata_with. generalize (@nil (pystr * pyval)) as acc.
  induction Hd as [|[k v] d Hv Hd IH]; intros acc; [done|].
  cbn [foldl]. rewrite !safe_metadata_step. simpl in Hv.
  destruct (kept_value k v) as [r|]; [rewrite (Hv r eq_refl)|]; apply IH.
Qed.

Lemma depth_entry d k v : (k, v) ∈ d -> S (depth v) <= depth (VDict d).
Proof.
  intros Hin. simpl. apply le_n_S, max_list_elem_of_le, list_elem_of_fmap. by exists (k, v).
Qed.

Lemma depth_item l v : v ∈ l -> S (depth v) <= depth (VTuple l).
Proof. intros Hin. simpl. apply le_n_S, max_list_elem_of_le, list_elem_of_fmap. by exists v. Qed.

(** Any fuel above the depth gives the same value. *)
Lemma safe_value_enough n m v :
  depth v < n -> depth v < m -> safe_value_fuel n v = safe_value_fuel m v.
Proof.
  revert m v. induction n as [|n IH]; intros [|m] v Hn Hm; [lia|lia|lia|].
  destruct v as [| | | | |l|l|l|d]; try done; cbn [safe_value_fuel].
  1, 2: f_equal; apply list_fmap_ext; intros i x Hx%list_elem_of_lookup_2;
    apply depth_item in Hx; simpl in Hx, Hn, Hm; apply IH; lia.
  f_equal. apply safe_metadata_ext, list.Forall_forall. intros [k x] Hx r Hr.
  apply depth_entry in Hx. apply kept_depth in Hr. simpl in Hr. apply IH; lia.
Qed.

(** The recursion equations of [_safe_value] as the source writes them. *)
Lemma safe_value_eq v :
  _safe_value v =
  match v with
  | VDict d => VDict (_safe_metadata d)
  | VList l | VTuple l => VTuple (_safe_value <$> l)
  | VStr s => if _looks_like_local_absolute_path s then VStr REDACTED_VALUE
              else redact_sensitive_data v
  | _ => redact_sensitive_data v
  end.
Proof.
  unfold _safe_value. destruct v as [| | | | |l|l|l|d]; try done; cbn [safe_value_fuel].
  1, 2: f_equal; apply list_fmap_ext; intros i x Hx%list_elem_of_lookup_2;
    apply depth_item in Hx; refine (safe_value_enough _ (S (depth x)) x _ _);
    simpl in Hx |- *; lia.
  f_equal. apply safe_metadata_ext, list.Forall_forall. intros [k x] Hx r Hr.
  apply depth_entry in Hx. apply kept_depth in Hr. simpl in Hr.
  refine (safe_value_enough _ _ r _ _); lia.
Qed.

Lemma safe_metadata_eq d : _safe_metadata d = safe_metadata_with _safe_value d.
Proof.
  unfold _safe_metadata. apply safe_metadata_ext, list.Forall_forall. intros [k x] Hx r Hr.
  apply depth_entry in Hx. apply kept_depth in Hr. simpl in Hr.
  apply safe_value_enough; lia.
Qed.

(** Nothing sensitive is left in a value: no string matches a sensitive pattern
    or looks like a local path, no key of a dict is sensitive. *)
Fixpoint tidy (v : pyval) : bool :=
  match v with
  | VDict d =>
      forallb (fun kv => negb (_is_sensitive_metadata_key kv.1) && negb (_is_sensitive_key kv.1)
                         && tidy kv.2) d
  | VList l | VTuple l => forallb tidy l
  | VStr s => negb (_contains_sensitive_value s) && negb (_looks_like_local_absolute_path s)
  | _ => true
  end.

Lemma tidy_mark : tidy (VStr REDACTED_VALUE) = true.
Proof. cbn [tidy]. by rewrite mark_clean. Qed.

Lemma safe_value_tidy n v : depth v < n -> tidy (safe_value_fuel n v) = true.
Proof.
  revert v. induction n as [|n IH]; intros v Hn; [lia|].
  destruct v as [| | | |s|l|l|l|d]; try done; cbn [safe_value_fuel].
  - destruct (_looks_like_local_absolute_path s) eqn:E; [apply tidy_mark|].
    cbn [redact_sensitive_data]. destruct (_contains_sensitive_value s) eqn:F; [apply tidy_mark|].
    cbn [tidy]. by rewrite E, F.
  - cbn [tidy]. apply forallb_forall. intros y (x & <- & Hx)%in_map_iff.
    apply list_elem_of_In, depth_item in Hx. apply IH. simpl in Hx, Hn. lia.
  - cbn [tidy]. apply forallb_forall. intros y (x & <- & Hx)%in_map_iff.
    apply list_elem_of_In, depth_item in Hx. apply IH. simpl in Hx, Hn. lia.
  - cbn [tidy]. apply forallb_forall. apply List.Forall_forall.
    assert (Forall (fun kv : pystr * pyval => depth kv.2 < n) d) as Hd.
    { apply list.Forall_forall. intros [k x] Hx%depth_entry. cbn [snd]. lia. }
    unfold safe_metadata_with. clear Hn.
    assert (Forall (fun kv => (negb (_is_sensitive_metadata_key kv.1) && negb (_is_sensitive_key kv.1)
               && tidy kv.2) = true) (@nil (pystr * pyval))) as Hacc by constructor.
    revert Hacc. generalize (@nil (pystr * pyval)) as acc.
    induction Hd as [|[k x] d Hx Hd IHd]; intros acc Hacc; [done|].
    cbn [foldl]. rewrite safe_metadata_step. apply IHd.
    destruct (kept_value k x) as [r|] eqn:Hr; [|done]. apply dict_set_Forall; [|done].
    pose proof (kept_depth _ _ _ Hr) as Hdr. cbn [fst snd] in *. rewrite IH by lia.
    unfold kept_value in Hr. destruct (_is_sensitive_metadata_key k), (_is_sensitive_key k); done.
Qed.

(** The metadata exposed on a fused candidate holds nothing sensitive: below
    every dict, list and tuple, no key is a sensitive key (raw content, vectors,
    credentials, a forged provenance record) and no string matches a secret
    pattern or looks like a local absolute path. *)
Theorem safe_metadata_tidy d : tidy (VDict (_safe_metadata d)) = true.
Proof.
  change (VDict (_safe_metadata d)) with (safe_value_fuel (S (S (depth (VDict d)))) (VDict d)).
  apply safe_value_tidy. lia.
Qed.
End SafeProps.

(** ** Totality *)

(** No rank up to [n] makes the reciprocal-rank denominator zero. *)
Definition denominators_ok (config : HybridMergeConfig) (n : nat) : bool :=
  forallb (fun r => negb (feq (fadd (rank_constant config) (fofZ (Z.of_nat r))) fzero)) (seq 1 n).

Definition normalizer_ok (config : HybridMergeConfig) : bool :=
  match max_possible config with Ok m => negb (feq m fzero) | Err _ => false end.

Section Total.
Context `{PyRepr, UnicodeDB}.

Lemma merge_branch_total config filters f method cands k n st :
  to_vector_acl_filter filters = Ok f ->
  denominators_ok config n = true -> 1 <= k -> k + length cands <= S n ->
  exists st', merge_branch config filters method (Z.of_nat k) cands st = Ok st' /\
    (Z.of_nat (length st'.1) <= Z.of_nat (length st.1) + Z.of_nat (length cands))%Z.
Proof.
  intros Hf Hd. revert k st. induction cands as [|c cands IH]; intros k st Hk Hn; simpl.
  { exists st. split; [done|lia]. }
  simpl in Hn. replace (Z.of_nat k + 1)%Z with (Z.of_nat (S k)) by lia.
  assert (exists b, _candidate_in_scope c filters = Ok b) as [b Hb].
  { unfold _candidate_in_scope. rewrite Hf. repeat case_match; eauto. }
  unfold mbind, result_bind. rewrite Hb. destruct b; simpl.
  - unfold py_fdiv.
    assert (feq (fadd (rank_constant config) (fofZ (Z.of_nat k))) fzero = false) as ->.
    { unfold denominators_ok in Hd. rewrite forallb_forall in Hd.
      apply negb_true_iff, (Hd k). apply in_seq. lia. }
    match goal with |- exists st', merge_branch _ _ _ _ _ ?s = _ /\ _ =>
      destruct (IH (S k) s ltac:(lia) ltac:(lia)) as (st' & -> & Hlen) end.
    exists st'. split; [done|]. simpl in Hlen.
    assert (forall src, length (add_source method c src st.1) <= S (length st.1)) as Ha.
    { intros src. unfold add_source. repeat case_match; try lia.
      all: etransitivity; [apply dict_set_length|lia]. }
    match type of Hlen with context [add_source _ _ ?src _] => specialize (Ha src) end. lia.
  - destruct (IH (S k) (st.1, st.2 + 1)%Z ltac:(lia) ltac:(lia)) as (st' & -> & Hlen).
    exists st'. split; [done|]. simpl in Hlen. lia.
Qed.

Lemma fuse_buckets_total config threshold buckets :
  normalizer_ok config = true -> exists r, fuse_buckets config threshold buckets = Ok r.
Proof.
  intros Hn. unfold normalizer_ok in Hn. destruct (max_possible config) as [m|] eqn:Hm; [|done].
  apply negb_true_iff in Hn.
  induction buckets as [|b buckets [r IH]]; simpl; [eauto|].
  unfold _fused_candidate, mbind, result_bind, mret, result_ret, py_fdiv in *.
  rewrite Hm, Hn, IH. eauto.
Qed.

(** The merger always returns: with a caller the filter set can express and
    a configuration whose normaliser and rank denominators are not zero, every
    pair of branch results merges without an error. *)
Theorem merge_total config request filters f dense sparse n :
  to_vector_acl_filter filters = Ok f ->
  normalizer_ok config = true -> denominators_ok config n = true ->
  length dense <= n -> length sparse <= n ->
  exists out tr, merge config request filters dense sparse = Ok (out, tr).
Proof.
  intros Hf Hno Hd Hdl Hsl. unfold merge, mbind, result_bind, mret, result_ret.
  assert (forall l, length (branch_slice config l) <= length l) as Hb.
  { intros l. unfold branch_slice, py_take. repeat case_match; rewrite ?length_take; lia. }
  pose proof (Hb dense). pose proof (Hb sparse).
  destruct (merge_branch_total config filters f _DENSE (branch_slice config dense) 1 n ([], 0%Z)
    Hf Hd ltac:(lia) ltac:(lia)) as (st1 & E1 & _).
  change (Z.of_nat 1) with 1%Z in E1. rewrite E1.
  destruct (merge_branch_total config filters f _SPARSE (branch_slice config sparse) 1 n st1
    Hf Hd ltac:(lia) ltac:(lia)) as (st2 & E2 & _).
  change (Z.of_nat 1) with 1%Z in E2. rewrite E2.
  destruct (fuse_buckets_total config (_effective_threshold request config) (snd <$> st2.1) Hno)
    as [[fused k] ->]. eauto.
Qed.
End Total.

(** * Concrete instances *)
Module RrfExamples.
Export Examples RedactExamples.

Definition default_config : HybridMergeConfig :=
  {| rank_constant := fofZ 60; dense_weight := fone; sparse_weight := fone;
     min_fusion_score := None; max_candidates_per_branch := None |}.

Definition request1 : RetrievalRequest :=
  {| rq_query := u "q"; rq_top_k := 2; rq_metadata_filter := [];
     rq_score_threshold := None; rq_request_id := u "r1"; rq_trace_id := u "tr1" |}.

Definition filters1 : RetrievalFilterSet :=
  {| fs_tenant_id := u "t1"; fs_user_id := u "alice"; fs_roles := [u "analyst"];
     fs_department := None; fs_permissions := []; fs_metadata_filter := [];
     fs_acl_filter := []; fs_include_deleted := false |}.

Definition cand (tenant chunk : pystr) (acl : pydict) : RetrievalCandidate :=
  {| rc_document_id := u "d1"; rc_version_id := u "v1"; rc_chunk_id := chunk; rc_source := None;
     rc_source_type := u "md"; rc_source_uri := None; rc_page_start := None;
     rc_page_end := None; rc_title_path := [u "T"]; rc_score := fone;
     rc_retrieval_method := u "dense"; rc_tenant_id := tenant; rc_acl := acl;
     rc_metadata := [(u "lang", VStr (u "en")); (u "content", VStr (u "raw"))];
     rc_content := u "text" |}.

Definition private (roles : list pystr) : pydict :=
  [(u "visibility", VStr (u "private")); (u "allowed_roles", VList (VStr <$> roles))].

Definition dense1 : list RetrievalCandidate :=
  [cand (u "t2") (u "c0") []; cand (u "t1") (u "c1") [];
   cand (u "t1") (u "c2") (private [u "analyst"])].
Definition sparse1 : list RetrievalCandidate :=
  [cand (u "t1") (u "c2") (private [u "analyst"]); cand (u "t1") (u "c3") (private [u "other"])].

Definition merged1 := merge default_config request1 filters1 dense1 sparse1.

Example merged1_chunks :
  match merged1 with
  | Ok (out, tr) => Some (rc_chunk_id <$> out, ft_deduped_count tr, ft_filtered_count tr)
  | Err _ => None
  end = Some ([u "c2"; u "c1"], 2%Z, 2%Z).
Proof. vm_compute. reflexivity. Qed.

Definition out1 : list RetrievalCandidate :=
  match merged1 with Ok (out, _) => out | Err _ => [] end.
Definition trace1 : FusionTrace :=
  match merged1 with
  | Ok (_, tr) => tr
  | Err _ => {| ft_input_counts := (0, 0)%Z; ft_deduped_count := 0; ft_filtered_count := 0;
                ft_threshold := None; ft_rank_constant := fzero; ft_weights := (fzero, fzero) |}
  end.
End RrfExamples.

Lemma merge_authorized_witness :
  RrfExamples.merged1 = Ok (RrfExamples.out1, RrfExamples.trace1) /\
  forall c, c ∈ RrfExamples.out1 -> rc_tenant_id c = u "t1".
Proof.
  assert (RrfExamples.merged1 = Ok (RrfExamples.out1, RrfExamples.trace1)) as H
    by (vm_compute; reflexivity).
  split; [exact H|]. intros c Hc.
  exact (proj1 (merge_authorized _ _ _ _ _ _ _ H c Hc)).
Defined.

Lemma merge_ranked_witness :
  RrfExamples.merged1 = Ok (RrfExamples.out1, RrfExamples.trace1) /\
  StronglySorted (sort_le fused_lt) RrfExamples.out1.
Proof.
  assert (RrfExamples.merged1 = Ok (RrfExamples.out1, RrfExamples.trace1)) as H
    by (vm_compute; reflexivity).
  split; [exact H|].
  exact (proj1 (proj2 (proj2 (merge_ranked _ _ _ _ _ _ _ H ltac:(vm_compute; discriminate))))).
Defined.

Lemma merge_accounting_witness :
  RrfExamples.merged1 = Ok (RrfExamples.out1, RrfExamples.trace1) /\
  ft_deduped_count RrfExamples.trace1 = 2%Z.
Proof.
  assert (RrfExamples.merged1 = Ok (RrfExamples.out1, RrfExamples.trace1)) as H
    by (vm_compute; reflexivity).
  split; [exact H|].
  rewrite (proj1 (merge_accounting _ _ _ _ _ _ _ H)). vm_compute. reflexivity.
Defined.

Lemma merge_total_witness : exists out tr, RrfExamples.merged1 = Ok (out, tr).
Proof.
  eapply (merge_total _ _ _ _ _ _ 3); [reflexivity|vm_compute; reflexivity|
    vm_compute; reflexivity|vm_compute; lia|vm_compute; lia].
Defined.
