(* ===== verification/Hybrid.v ===== *)
(** Hybrid retrieval: running the two branches and degrading.

    Models [HybridRetriever] and [_is_degradable_error] of
    [packages/retrieval/rrf.py].  Exceptions carry what the code inspects: the
    class, the [retryable] attribute and the [__cause__] chain.  A retriever is
    the port [CandidateRetriever], a function that returns candidates or raises. *)

From Stdlib Require Import ZArith String.
From S2P Require Import Prelude Float64 PyVal Access Redact Rrf.
From stdpp Require Import base list numbers sets.

(** * Exceptions *)

Inductive exc_kind : Type :=
| XRetrieval (code message : pystr) (details : pydict) (status_code : Z)   (* RetrievalError *)
| XOs (name : pystr)   (* TimeoutError, ConnectionError, OSError *)
| XCancelled           (* asyncio.CancelledError *)
| XOther (name : pystr).

Inductive pyexc : Type :=
| PyExc (kind : exc_kind) (retryable : option bool) (cause : option pyexc).

Definition exc_kind_of (e : pyexc) : exc_kind := let '(PyExc k _ _) := e in k.
Definition is_cancelled (e : pyexc) : bool :=
  match exc_kind_of e with XCancelled => true | _ => false end.
Definition type_name (e : pyexc) : pystr :=
  match exc_kind_of e with
  | XRetrieval _ _ _ _ => u "RetrievalError"
  | XOs n | XOther n => n
  | XCancelled => u "CancelledError"
  end.

(** The walk along [__cause__]; a chain is finite, so the [seen] set of the
    source never stops it early. *)
Fixpoint _is_degradable_error (e : pyexc) : bool :=
  let '(PyExc kind retryable cause) := e in
  match kind with
  | XOs _ => true
  | _ =>
      match retryable with
      | Some b => b
      | None => match cause with None => false | Some c => _is_degradable_error c end
      end
  end.

(** * Branches *)

Definition BRANCH_FAILED : pystr := u "RETRIEVAL_HYBRID_BRANCH_FAILED".
Definition MERGE_FAILED : pystr := u "RETRIEVAL_HYBRID_MERGE_FAILED".

Definition _safe_error_details (request : RetrievalRequest) (filters : RetrievalFilterSet)
    (error_code stage : pystr) (branch : option pystr) (safe_counts : pydict) : pydict :=
  [(u "request_id", VStr (rq_request_id request)); (u "trace_id", VStr (rq_trace_id request));
   (u "tenant_id", VStr (fs_tenant_id filters)); (u "user_id", VStr (fs_user_id filters));
   (u "top_k", VInt (rq_top_k request)); (u "retrieval_method", VStr (u "hybrid"));
   (u "hybrid_stage", VStr stage); (u "safe_counts", VDict safe_counts)]
  ++ (match branch with Some b => [(u "branch", VStr b)] | None => [] end)
  ++ [(u "error_code", VStr error_code)].

Definition retriever : Type :=
  RetrievalRequest -> RetrievalFilterSet -> result pyexc (list RetrievalCandidate).

Section Hybrid.
Context `{PyRepr, UnicodeDB}.

(** [RetrievalError(code, message, details, status_code=502) from cause]:
    [DomainError] redacts the details. *)
Definition retrieval_error (code message : pystr) (details : pydict) (cause : option pyexc)
    : pyexc :=
  PyExc (XRetrieval code message (redact_mapping details) 502) None cause.

Definition branch_details (request : RetrievalRequest) (filters : RetrievalFilterSet)
    (branch : pystr) (exc : pyexc) : pydict :=
  let '(PyExc kind retryable _) := exc in
  let details := _safe_error_details request filters BRANCH_FAILED (u "branch") (Some branch)
                   [(u "returned_candidates", VInt 0)] in
  match kind with
  | XRetrieval code _ _ _ =>
      let details := dict_set (u "upstream_error_code") (VStr code) details in
      match retryable with
      | Some true => dict_set (u "upstream_retryable") (VBool true) details
      | _ => details
      end
  | XOs name => dict_set (u "upstream_error_type") (VStr name) details
  | _ => details
  end.

(** [except Exception] does not catch a cancellation. *)
Definition _retrieve_branch (branch : pystr) (r : retriever) (request : RetrievalRequest)
    (filters : RetrievalFilterSet) : result pyexc (list RetrievalCandidate) :=
  match r request filters with
  | Ok l => Ok l
  | Err exc =>
      if is_cancelled exc then Err exc
      else Err (retrieval_error BRANCH_FAILED (u "Hybrid retrieval branch failed.")
                  (branch_details request filters branch exc) (Some exc))
  end.

Definition branch_outcome : Type := result pyexc (list RetrievalCandidate).

(** [asyncio.gather(..., return_exceptions=True)] collects both outcomes;
    [_retrieve_sequentially] lets a cancellation escape at once. *)
Definition run_branches (parallel : bool) (dense sparse : retriever) (request : RetrievalRequest)
    (filters : RetrievalFilterSet) : result pyexc (branch_outcome * branch_outcome) :=
  let d := _retrieve_branch _DENSE dense request filters in
  let s := _retrieve_branch _SPARSE sparse request filters in
  if parallel then Ok (d, s)
  else match d, s with
       | Err e, _ => if is_cancelled e then Err e
                     else match s with
                          | Err e' => if is_cancelled e' then Err e' else Ok (d, s)
                          | Ok _ => Ok (d, s)
                          end
       | Ok _, Err e' => if is_cancelled e' then Err e' else Ok (d, s)
       | Ok _, Ok _ => Ok (d, s)
       end.

Definition outcome_error (branch : pystr) (o : branch_outcome) : list (pystr * pyexc) :=
  match o with Err e => [(branch, e)] | Ok _ => [] end.
Definition outcome_candidates (o : branch_outcome) : list RetrievalCandidate :=
  match o with Ok l => l | Err _ => [] end.

(** The context variables of the retriever and of its merger. *)
Record HybridState : Type := {
  hs_branch_status : list (pystr * pystr);
  hs_branch_trace : list (pystr * pydict);
  hs_last_trace : option FusionTrace
}.

Definition trace_error_code (e : pyexc) : pyval :=
  match exc_kind_of e with
  | XRetrieval _ _ details _ =>
      match default VNone (dict_get (u "upstream_error_code") details) with
      | VNone => default VNone (dict_get (u "upstream_error_type") details)
      | v => v
      end
  | _ => VStr (type_name e)
  end.

Definition branch_trace (errors : list (pystr * pyexc)) : list (pystr * pydict) :=
  let failed :=
    (fun be => (be.1, [(u "status", VStr (if _is_degradable_error be.2 then u "degraded"
                                         else u "failed"));
                       (u "error_code", trace_error_code be.2)])) <$> errors in
  foldl (fun tr b => match dict_get b tr with
                     | Some _ => tr
                     | None => tr ++ [(b, [(u "status", VStr (u "ok")); (u "error_code", VNone)])]
                     end) failed [_DENSE; _SPARSE].

Definition status_of (b : pystr) (errors : list (pystr * pyexc)) : pystr * pystr :=
  (b, match dict_get b errors with Some _ => u "degraded" | None => u "ok" end).

(** The request the branches see: no threshold, the branch limit as [top_k]. *)
Definition branch_request (config : HybridMergeConfig) (request : RetrievalRequest)
    : RetrievalRequest :=
  {| rq_query := rq_query request;
     rq_top_k := match max_candidates_per_branch config with
                 | Some n => if (n =? 0)%Z then rq_top_k request else n
                 | None => rq_top_k request end;
     rq_metadata_filter := rq_metadata_filter request;
     rq_score_threshold := None;
     rq_request_id := rq_request_id request;
     rq_trace_id := rq_trace_id request |}.

Definition merge_exc (e : merge_error) : pyexc :=
  PyExc (XOther (match e with
                 | MergeZeroDivision => u "ZeroDivisionError"
                 | MergeValidation _ => u "ValidationError" end)) None None.

Definition cancelled : pyexc := PyExc XCancelled None None.

(** The last step of [retrieve]: merging, with other failures wrapped. *)
Definition merge_outcome (st : HybridState) (config : HybridMergeConfig)
    (request : RetrievalRequest) (filters : RetrievalFilterSet) (d s : branch_outcome)
    : HybridState * result pyexc (list RetrievalCandidate) :=
  let dense_candidates := outcome_candidates d in
  let sparse_candidates := outcome_candidates s in
  match Rrf.merge config request filters dense_candidates sparse_candidates with
  | Ok (out, tr) =>
      ({| hs_branch_status := hs_branch_status st; hs_branch_trace := hs_branch_trace st;
          hs_last_trace := Some tr |}, Ok out)
  | Err e =>
      let details :=
        _safe_error_details request filters MERGE_FAILED (u "merge") None
          [(u "dense_candidates", VInt (Z.of_nat (length dense_candidates)));
           (u "sparse_candidates", VInt (Z.of_nat (length sparse_candidates)))] in
      (st, Err (retrieval_error MERGE_FAILED (u "Hybrid retrieval merge failed.") details
                  (Some (merge_exc e))))
  end.

(** [HybridRetriever.retrieve]: the state of the context variables and the
    outcome. *)
Definition retrieve (config : HybridMergeConfig) (allow_degraded parallel : bool)
    (dense sparse : retriever) (request : RetrievalRequest) (filters : RetrievalFilterSet)
    : HybridState * result pyexc (list RetrievalCandidate) :=
  let fresh := {| hs_branch_status := []; hs_branch_trace := []; hs_last_trace := None |} in
  match run_branches parallel dense sparse (branch_request config request) filters with
  | Err e => (fresh, Err e)
  | Ok (dense_result, sparse_result) =>
      let errors := outcome_error _DENSE dense_result ++ outcome_error _SPARSE sparse_result in
      if existsb (fun be => is_cancelled be.2) errors then (fresh, Err cancelled) else
      let st := {| hs_branch_status := [status_of _DENSE errors; status_of _SPARSE errors];
                   hs_branch_trace := branch_trace errors; hs_last_trace := None |} in
      match errors with
      | (_, first_error) :: rest =>
          if negb allow_degraded then (st, Err first_error) else
          match List.find (fun be => negb (_is_degradable_error be.2)) errors with
          | Some (_, e) => (st, Err e)
          | None =>
              match rest with
              | _ :: _ => (st, Err first_error)
              | [] => merge_outcome st config request filters dense_result sparse_result
              end
          end
      | [] => merge_outcome st config request filters dense_result sparse_result
      end
  end.

(** ** Properties *)

Lemma run_branches_spec parallel dense sparse request filters d s :
  run_branches parallel dense sparse request filters = Ok (d, s) ->
  d = _retrieve_branch _DENSE dense request filters /\
  s = _retrieve_branch _SPARSE sparse request filters.
Proof.
  unfold run_branches. intros H1. destruct parallel; [by injection H1 as <- <-|].
  repeat case_match; try done; by injection H1 as <- <-.
Qed.

Lemma branch_error_degradable branch r request filters e :
  _retrieve_branch branch r request filters = Err e -> is_cancelled e = false ->
  exists exc, r request filters = Err exc /\ is_cancelled exc = false /\
    _is_degradable_error e = _is_degradable_error exc.
Proof.
  unfold _retrieve_branch. destruct (r request filters) as [|exc] eqn:Hr; [done|].
  destruct (is_cancelled exc) eqn:Hc; intros [= <-] He; [congruence|].
  by exists exc.
Qed.

Lemma branch_ok branch r request filters l :
  _retrieve_branch branch r request filters = Ok l <-> r request filters = Ok l.
Proof.
  unfold _retrieve_branch. destruct (r request filters) as [|exc]; [done|].
  destruct (is_cancelled exc); done.
Qed.

(** How a branch may take part in a successful answer. *)
Definition tolerated (allow_degraded : bool) (o : result pyexc (list RetrievalCandidate)) : Prop :=
  match o with
  | Ok _ => True
  | Err e => allow_degraded = true /\ is_cancelled e = false /\ _is_degradable_error e = true
  end.
End Hybrid.

(** Hybrid retrieval answers only from what it may: when [retrieve] returns
    candidates, at least one branch succeeded, a branch that failed was neither
    cancelled nor failed with an error that is not degradable, degraded answers
    were allowed, and the answer is exactly the merge of the successful branches'
    candidates, an absent branch contributing none. *)
Theorem retrieve_sound `{PyRepr, UnicodeDB} config allow_degraded parallel dense sparse request
    filters st out :
  retrieve config allow_degraded parallel dense sparse request filters = (st, Ok out) ->
  let d := dense (branch_request config request) filters in
  let s := sparse (branch_request config request) filters in
  tolerated allow_degraded d /\ tolerated allow_degraded s /\
  (is_ok d = true \/ is_ok s = true) /\
  exists tr, hs_last_trace st = Some tr /\
    Rrf.merge config request filters (outcome_candidates d) (outcome_candidates s) = Ok (out, tr).
Proof.
  unfold retrieve. set (rq := branch_request config request).
  destruct (run_branches _ _ _ _ _) as [[d s]|] eqn:Hb; [|done].
  apply run_branches_spec in Hb as [Hd Hs]. cbv zeta.
  destruct (existsb _ _) eqn:Hc; [done|].
  destruct d as [ld|ed], s as [ls|es]; simpl in *.
  - symmetry in Hd, Hs. apply branch_ok in Hd, Hs. rewrite Hd, Hs. unfold merge_outcome. simpl.
    destruct (Rrf.merge _ _ _ _ _) as [[o tr]|]; [|done]. intros [= <- <-]. simpl. eauto 10.
  - symmetry in Hd, Hs. apply branch_ok in Hd. rewrite orb_false_r in Hc.
    apply branch_error_degradable in Hs as (exc & Hs & Hx & Hdeg); [|done].
    destruct allow_degraded; [|done]. simpl. rewrite Hd, Hs.
    destruct (_is_degradable_error es) eqn:Hdg; [|done]. simpl. unfold merge_outcome. simpl.
    destruct (Rrf.merge _ _ _ _ _) as [[o tr]|]; [|done]. intros [= <- <-]. simpl. eauto 10.
  - symmetry in Hd, Hs. apply branch_ok in Hs. rewrite orb_false_r in Hc.
    apply branch_error_degradable in Hd as (exc & Hd & Hx & Hdeg); [|done].
    destruct allow_degraded; [|done]. simpl. rewrite Hd, Hs.
    destruct (_is_degradable_error ed) eqn:Hdg; [|done]. simpl. unfold merge_outcome. simpl.
    destruct (Rrf.merge _ _ _ _ _) as [[o tr]|]; [|done]. intros [= <- <-]. simpl. eauto 10.
  - destruct allow_degraded; [|done]. simpl. repeat case_match; done.
Qed.

(** Degradation works: when degraded answers are allowed, one branch fails
    with a degradable error and the other returns candidates, [retrieve] answers
    with the merge of the surviving branch, reports the failed branch as degraded
    and the other as ok; sequential and concurrent execution agree. *)
Theorem retrieve_degrades `{PyRepr, UnicodeDB} config parallel dense sparse request filters e l
    out tr :
  dense (branch_request config request) filters = Err e ->
  is_cancelled e = false -> _is_degradable_error e = true ->
  sparse (branch_request config request) filters = Ok l ->
  Rrf.merge config request filters [] l = Ok (out, tr) ->
  exists st,
    retrieve config true parallel dense sparse request filters = (st, Ok out) /\
    hs_branch_status st = [(_DENSE, u "degraded"); (_SPARSE, u "ok")] /\
    hs_last_trace st = Some tr.
Proof.
  intros Hd Hc Hdeg Hs Hm. unfold retrieve.
  assert (run_branches parallel dense sparse (branch_request config request) filters
    = Ok (_retrieve_branch _DENSE dense (branch_request config request) filters, Ok l)) as ->.
  { unfold run_branches, _retrieve_branch. rewrite Hd, Hs, Hc. by destruct parallel. }
  unfold _retrieve_branch. rewrite Hd, Hc. simpl. rewrite Hdeg. simpl.
  unfold merge_outcome. simpl. rewrite Hm. eexists. done.
Qed.

Module HybridExamples.
Import Examples RedactExamples RrfExamples.

Definition failing : retriever := fun _ _ => Err (PyExc (XOs (u "TimeoutError")) None None).
Definition answering : retriever := fun _ _ => Ok sparse1.

Definition degraded1 :=
  retrieve default_config true false failing answering request1 filters1.
Definition degraded_out : list RetrievalCandidate :=
  match degraded1.2 with Ok l => l | Err _ => [] end.
Definition degraded_trace : FusionTrace :=
  match hs_last_trace degraded1.1 with Some t => t | None => trace1 end.

Example degraded_chunks : rc_chunk_id <$> degraded_out = [u "c2"].
Proof. vm_compute. reflexivity. Qed.
End HybridExamples.

Lemma retrieve_sound_witness :
  HybridExamples.degraded1 = (HybridExamples.degraded1.1, Ok HybridExamples.degraded_out) /\
  exists tr, hs_last_trace HybridExamples.degraded1.1 = Some tr.
Proof.
  assert (HybridExamples.degraded1
          = (HybridExamples.degraded1.1, Ok HybridExamples.degraded_out)) as H
    by (vm_compute; reflexivity).
  split; [exact H|].
  destruct (proj2 (proj2 (proj2 (retrieve_sound _ _ _ _ _ _ _ _ _ H)))) as (tr & Htr & _).
  by exists tr.
Defined.

Lemma retrieve_degrades_witness :
  exists st, HybridExamples.degraded1 = (st, Ok HybridExamples.degraded_out) /\
    hs_branch_status st = [(_DENSE, u "degraded"); (_SPARSE, u "ok")].
Proof.
  destruct (retrieve_degrades (H := Examples.repr0) (H0 := RedactExamples.ascii_only) RrfExamples.default_config false HybridExamples.failing
    HybridExamples.answering RrfExamples.request1 RrfExamples.filters1 _ _
    HybridExamples.degraded_out HybridExamples.degraded_trace eq_refl eq_refl eq_refl eq_refl
    ltac:(vm_compute; reflexivity)) as (st & H1 & H2 & _).
  exists st. split; [exact H1|exact H2].
Defined.
