(* ===== verification/Rerank.v ===== *)
(** Reranking of retrieved candidates.

    Models [packages/retrieval/rerank/__init__.py]: [RerankConfig],
    [FakeReranker] and [RerankingRetriever.retrieve] with its guard, the
    validation of the reranker's answer, the fallback, the traces and the
    sanitised metadata.  The upstream retriever, the reranker and the clock are
    ports over a state; a call of the reranker that runs into
    [asyncio.wait_for]'s limit is one that raises [TimeoutError].  The world keeps
    the context variable [last_trace] and a log of the calls. *)

From Stdlib Require Import ZArith String.
From S2P Require Import Prelude Effects Float64 PyVal Access Redact Rrf Hybrid.
From stdpp Require Import base list numbers sets.

(** * Data *)

Definition RERANK_PROVENANCE_METADATA_KEY : pystr := u "rerank_provenance".
Definition RETRIEVAL_PROVENANCE_METADATA_KEY : pystr := u "retrieval_provenance".
Definition RERANK_FAILED : pystr := u "RETRIEVAL_RERANK_FAILED".
Definition RERANK_DEGRADED : pystr := u "RETRIEVAL_RERANK_DEGRADED".
Definition RERANK_INVALID_SCORE : pystr := u "RETRIEVAL_RERANK_INVALID_SCORE".
Definition RERANK_INVALID_CANDIDATE : pystr := u "RETRIEVAL_RERANK_INVALID_CANDIDATE".

Inductive FailurePolicy : Type := PolicyFallback | PolicyFailClosed.

Record RerankConfig : Type := {
  rk_enabled : bool;
  rk_failure_policy : FailurePolicy;
  rk_timeout_seconds : float;
  rk_provider : pystr;
  rk_model : pystr;
  rk_max_candidates : Z
}.

Inductive rerank_config_error : Type :=
| RerankTimeoutNotPositive
| RerankBlankText
| RerankMaxCandidatesOutOfRange.

(** [RerankConfig(...)]: the validators. *)
Definition make_rerank_config (c : RerankConfig) : result rerank_config_error RerankConfig :=
  _ ← raise_if (negb (isfinite (rk_timeout_seconds c)) || fle (rk_timeout_seconds c) fzero)
        RerankTimeoutNotPositive;
  _ ← raise_if (negb (nonblank (rk_provider c) && nonblank (rk_model c))) RerankBlankText;
  _ ← raise_if ((rk_max_candidates c <=? 0) || (MAX_RETRIEVAL_TOP_K <? rk_max_candidates c))%Z
        RerankMaxCandidatesOutOfRange;
  mret {| rk_enabled := rk_enabled c; rk_failure_policy := rk_failure_policy c;
          rk_timeout_seconds := rk_timeout_seconds c; rk_provider := strip (rk_provider c);
          rk_model := strip (rk_model c); rk_max_candidates := rk_max_candidates c |}.

Record RerankCandidateTrace : Type := {
  ct_document_id : pystr;
  ct_version_id : pystr;
  ct_chunk_id : pystr;
  ct_input_rank : Z;
  ct_output_rank : Z;
  ct_pre_score : float;
  ct_rerank_score : float
}.

Record RerankTrace : Type := {
  kt_request_id : pystr;
  kt_trace_id : pystr;
  kt_tenant_id : pystr;
  kt_user_id : pystr;
  kt_provider : pystr;
  kt_model : pystr;
  kt_latency_ms : float;
  kt_input_count : Z;
  kt_output_count : Z;
  kt_safe_counts : list (pystr * Z);
  kt_candidate_traces : list RerankCandidateTrace;
  kt_degraded : bool;
  kt_error_code : option pystr
}.

Record RerankResult : Type := {
  kr_candidates : list RetrievalCandidate;
  kr_trace : RerankTrace
}.

Definition count {A} (l : list A) : Z := Z.of_nat (length l).

(** [candidate.model_copy(update={"score": ..., "metadata": ...})]. *)
Definition with_score (c : RetrievalCandidate) (score : float) (metadata : pydict)
    : RetrievalCandidate :=
  with_fusion c score (rc_retrieval_method c) metadata.
(** [candidate.model_copy(update={"metadata": ...})]. *)
Definition with_metadata (c : RetrievalCandidate) (metadata : pydict) : RetrievalCandidate :=
  with_score c (rc_score c) metadata.

Definition _score_in_range (value : float) : bool :=
  isfinite value && fle fzero value && fle value fone.

(** * Sanitised metadata *)

Section Safe.
Context `{UnicodeDB}.

Definition _is_sensitive_metadata_key (key : pystr) : bool :=
  let normalized := replace_char 32 95 (replace_char 45 95 (lower (strip key))) in
  let compact := compact_alnum normalized in
  bool_decide (normalized = RERANK_PROVENANCE_METADATA_KEY)
  || bool_decide (normalized ∈ _SENSITIVE_METADATA_KEYS)
  || bool_decide (compact ∈ _SENSITIVE_METADATA_COMPACT_KEYS).

(** The keys of a dict comprehension whose source has distinct keys: an entry
    with a refused key is left out. *)
Definition drop_sensitive (d : pydict) : pydict :=
  List.filter (fun kv => negb (_is_sensitive_metadata_key kv.1)) d.

Fixpoint _safe_value (value : pyval) : pyval :=
  match value with
  | VDict d => VDict (drop_sensitive ((fun kv => (kv.1, _safe_value kv.2)) <$> d))
  | VList l | VTuple l => VTuple (_safe_value <$> l)
  | VStr s =>
      if _looks_like_local_absolute_path s then VStr REDACTED_VALUE
      else redact_sensitive_data value
  | _ => redact_sensitive_data value
  end.

Definition provenance_keys : list pystr := u <$>
  ["retrieval_methods"; "sources"; "raw_rrf_score"; "normalized_fusion_score";
   "fusion_reason"]%string.

Definition _safe_retrieval_provenance (provenance : pydict) : pydict :=
  (fun kv => (kv.1, _safe_value kv.2)) <$>
    List.filter (fun kv => bool_decide (kv.1 ∈ provenance_keys)
                           && negb (_is_sensitive_metadata_key kv.1)) provenance.

(** The body of the loop of [_safe_metadata]. *)
Definition safe_metadata_entry (safe : pydict) (item : pystr * pyval) : pydict :=
  let key_text := item.1 in
  match bool_decide (key_text = RETRIEVAL_PROVENANCE_METADATA_KEY), item.2 with
  | true, VDict p => dict_set key_text (VDict (_safe_retrieval_provenance p)) safe
  | _, value =>
      if _is_sensitive_metadata_key key_text then safe else
      match redact_sensitive_data (VDict [(key_text, value)]) with
      | VDict redacted =>
          let redacted_value := default (VStr REDACTED_VALUE) (dict_get key_text redacted) in
          if py_eq redacted_value (VStr REDACTED_VALUE) then safe
          else dict_set key_text (_safe_value redacted_value) safe
      | _ => safe
      end
  end.

Definition _safe_metadata (metadata : pydict) : pydict := foldl safe_metadata_entry [] metadata.
End Safe.

(** * Provenance *)

Inductive rerank_status : Type := StSuccess | StDegraded | StDisabled.

Definition status_text (s : rerank_status) : pystr :=
  match s with
  | StSuccess => u "success" | StDegraded => u "degraded" | StDisabled => u "disabled"
  end.

Definition _score_source (s : rerank_status) : pystr :=
  match s with
  | StDegraded => u "fallback_upstream" | StDisabled => u "disabled_upstream"
  | StSuccess => u "rerank"
  end.

(** [(perf_counter() - started) * 1000]. *)
Definition latency_of (started now : float) : float := fmul (fsub now started) (fofZ 1000).

Section Candidates.
Context `{PyRepr, UnicodeDB}.

Definition rerank_provenance (provider model : pystr) (status : rerank_status)
    (input_rank output_rank : Z) (pre_score score latency_ms : float) (error_code : option pystr)
    : pydict :=
  [(u "provider", VStr provider); (u "model", VStr model); (u "status", VStr (status_text status));
   (u "input_rank", VInt input_rank); (u "output_rank", VInt output_rank);
   (u "pre_score", VFloat pre_score); (u "rerank_score", VFloat score);
   (u "score_source", VStr (_score_source status)); (u "latency_ms", VFloat latency_ms)]
  ++ match error_code with Some c => [(u "error_code", VStr c)] | None => [] end.

Definition _candidate_with_rerank (original : RetrievalCandidate) (score : float)
    (provider model : pystr) (status : rerank_status) (input_rank output_rank : Z)
    (pre_score latency_ms : float) (error_code : option pystr) : RetrievalCandidate :=
  with_score original score
    (dict_set RERANK_PROVENANCE_METADATA_KEY
       (VDict (rerank_provenance provider model status input_rank output_rank pre_score score
                 latency_ms error_code))
       (_safe_metadata (rc_metadata original))).

(** The loop of [_fallback_candidates] and of [_disabled_candidates]. *)
Fixpoint kept_candidates (config : RerankConfig) (status : rerank_status) (latency_ms : float)
    (error_code : option pystr) (rank : Z) (candidates : list RetrievalCandidate)
    : list RetrievalCandidate :=
  match candidates with
  | [] => []
  | c :: rest =>
      _candidate_with_rerank c (rc_score c) (rk_provider config) (rk_model config) status rank rank
        (rc_score c) latency_ms error_code
      :: kept_candidates config status latency_ms error_code (rank + 1) rest
  end.

Definition _fallback_candidates (request : RetrievalRequest) (config : RerankConfig)
    (candidates : list RetrievalCandidate) (latency_ms : float) : list RetrievalCandidate :=
  py_take (rq_top_k request)
    (kept_candidates config StDegraded latency_ms (Some RERANK_DEGRADED) 1 candidates).

Definition _disabled_candidates (request : RetrievalRequest) (config : RerankConfig)
    (candidates : list RetrievalCandidate) : list RetrievalCandidate :=
  py_take (rq_top_k request) (kept_candidates config StDisabled fzero None 1 candidates).

(** * Errors *)

Definition rerank_error_details (request : RetrievalRequest) (filters : RetrievalFilterSet)
    (provider model error_code : pystr) (input_count output_count : Z) : pydict :=
  [(u "request_id", VStr (rq_request_id request)); (u "trace_id", VStr (rq_trace_id request));
   (u "tenant_id", VStr (fs_tenant_id filters)); (u "user_id", VStr (fs_user_id filters));
   (u "top_k", VInt (rq_top_k request)); (u "retrieval_method", VStr (u "hybrid"));
   (u "rerank_stage", VStr (u "rerank")); (u "provider", VStr provider); (u "model", VStr model);
   (u "safe_counts", VDict [(u "input_candidates", VInt input_count);
                            (u "output_candidates", VInt output_count)]);
   (u "error_code", VStr error_code)].

Section Errors.
Context (request : RetrievalRequest) (filters : RetrievalFilterSet) (config : RerankConfig).

Definition stage_error (code message : pystr) (input_count output_count : Z)
    (cause : option pyexc) : pyexc :=
  retrieval_error code message
    (rerank_error_details request filters (rk_provider config) (rk_model config) code input_count
       output_count) cause.

Definition _invalid_score_error (input_count output_count : Z) : pyexc :=
  stage_error RERANK_INVALID_SCORE (u "Reranker returned an invalid score.") input_count
    output_count None.

Definition _invalid_candidate_error (input_count output_count : Z) : pyexc :=
  stage_error RERANK_INVALID_CANDIDATE (u "Reranker returned an invalid candidate set.")
    input_count output_count None.

Definition passes_through (exc : pyexc) : bool :=
  match exc_kind_of exc with
  | XRetrieval code _ _ _ =>
      bool_decide (code ∈ [RERANK_INVALID_CANDIDATE; RERANK_INVALID_SCORE])
  | _ => false
  end.

(** [raise _rerank_error(exc) from exc]: an exception raised from itself keeps
    what the code reads of it. *)
Definition _rerank_error (exc : pyexc) (input_count : Z) : pyexc :=
  if passes_through exc then exc
  else stage_error RERANK_FAILED (u "Reranker failed.") input_count 0 (Some exc).
End Errors.

Definition error_code_of (e : pyexc) : pystr :=
  match exc_kind_of e with XRetrieval code _ _ _ => code | _ => [] end.

Definition is_retrieval_error (e : pyexc) : bool :=
  match exc_kind_of e with XRetrieval _ _ _ _ => true | _ => false end.

Definition python_error (name : string) : pyexc := PyExc (XOther (u name)) None None.

(** * The guard on upstream candidates *)

Section Guard.
Context (request : RetrievalRequest) (filters : RetrievalFilterSet) (config : RerankConfig).

(** One turn of the loop: [seen] and [safe] are its variables, [n] the number of
    candidates. *)
Definition guard_candidate (acl_filter : AclFilter) (n : Z) (seen : list identity)
    (safe : list RetrievalCandidate) (c : RetrievalCandidate) : result pyexc RetrievalCandidate :=
  let invalid := _invalid_candidate_error request filters config n (count safe) in
  _ ← raise_if (bool_decide (candidate_key c ∈ seen)) invalid;
  _ ← raise_if (negb (bool_decide (rc_tenant_id c = fs_tenant_id filters))) invalid;
  _ ← raise_if (negb (_metadata_matches (rc_metadata c) (fs_metadata_filter filters))) invalid;
  _ ← raise_if (negb (acl_allows (rc_acl c) acl_filter)) invalid;
  _ ← raise_if (negb (_score_in_range (rc_score c)))
        (_invalid_score_error request filters config n (count safe));
  mret (with_metadata c (_safe_metadata (rc_metadata c))).

Fixpoint guard_loop (acl_filter : AclFilter) (n : Z) (seen : list identity)
    (safe candidates : list RetrievalCandidate) : result pyexc (list RetrievalCandidate) :=
  match candidates with
  | [] => Ok safe
  | c :: rest =>
      s ← guard_candidate acl_filter n seen safe c;
      guard_loop acl_filter n (candidate_key c :: seen) (safe ++ [s]) rest
  end.

Definition _guard_and_sanitize_upstream_candidates (candidates : list RetrievalCandidate)
    : result pyexc (list RetrievalCandidate) :=
  match to_vector_acl_filter filters with
  | Err _ => Err (python_error "ValidationError")
  | Ok acl_filter => guard_loop acl_filter (count candidates) [] [] candidates
  end.

(** * The validation of the reranker's answer *)

(** [{_identity(c): f(c) for c in candidates}]: a later duplicate overwrites. *)
Definition originals_by_key (candidates : list RetrievalCandidate)
    : list (identity * RetrievalCandidate) :=
  foldl (fun d c => dict_set (candidate_key c) c d) [] candidates.

Fixpoint rank_entries (rank : Z) (candidates : list RetrievalCandidate)
    (d : list (identity * Z)) : list (identity * Z) :=
  match candidates with
  | [] => d
  | c :: rest => rank_entries (rank + 1) rest (dict_set (candidate_key c) rank d)
  end.

Fixpoint validate_loop (originals : list (identity * RetrievalCandidate))
    (input_ranks : list (identity * Z)) (n : Z) (latency_ms : float) (output_index : Z)
    (seen : list identity) (output reranked : list RetrievalCandidate)
    : result pyexc (list RetrievalCandidate) :=
  match reranked with
  | [] => Ok output
  | c :: rest =>
      let invalid := _invalid_candidate_error request filters config n (count output) in
      match dict_get (candidate_key c) originals with
      | None => Err invalid
      | Some original =>
          let key := candidate_key original in
          if bool_decide (key ∈ seen) then Err invalid else
          if negb (_score_in_range (rc_score c))
          then Err (_invalid_score_error request filters config n (count output)) else
          match dict_get key input_ranks with
          | None => Err (python_error "KeyError")
          | Some input_rank =>
              validate_loop originals input_ranks n latency_ms (output_index + 1) (key :: seen)
                (output ++ [_candidate_with_rerank original (rc_score c) (rk_provider config)
                              (rk_model config) StSuccess input_rank output_index
                              (rc_score original) latency_ms None]) rest
          end
      end
  end.

Definition _validated_candidates (original_candidates reranked_candidates : list RetrievalCandidate)
    (latency_ms : float) : result pyexc (list RetrievalCandidate) :=
  let originals := originals_by_key original_candidates in
  let n := count original_candidates in
  if negb (count originals =? n)%Z
  then Err (_invalid_candidate_error request filters config n 0) else
  let input_ranks := rank_entries 1 original_candidates [] in
  if negb (count reranked_candidates =? n)%Z
  then Err (_invalid_candidate_error request filters config n (count reranked_candidates)) else
  validate_loop originals input_ranks n latency_ms 1 [] [] reranked_candidates.

(** * Traces *)

Definition trace_with (latency_ms : float) (input_count output_count : Z)
    (candidate_traces : list RerankCandidateTrace) (degraded : bool) (error_code : option pystr)
    : RerankTrace :=
  {| kt_request_id := rq_request_id request; kt_trace_id := rq_trace_id request;
     kt_tenant_id := fs_tenant_id filters; kt_user_id := fs_user_id filters;
     kt_provider := rk_provider config; kt_model := rk_model config;
     kt_latency_ms := latency_ms; kt_input_count := input_count; kt_output_count := output_count;
     kt_safe_counts := [(u "input_candidates", input_count); (u "output_candidates", output_count)];
     kt_candidate_traces := candidate_traces; kt_degraded := degraded;
     kt_error_code := error_code |}.

Definition _empty_trace : RerankTrace := trace_with fzero 0 0 [] false None.
Definition _disabled_trace (input_count output_count : Z) : RerankTrace :=
  trace_with fzero input_count output_count [] false None.
Definition _degraded_trace (input_count output_count : Z) (latency_ms : float) : RerankTrace :=
  trace_with latency_ms input_count output_count [] true (Some RERANK_DEGRADED).
Definition _failed_trace (input_count : Z) (latency_ms : float) (error_code : pystr)
    : RerankTrace :=
  trace_with latency_ms input_count 0 [] false (Some error_code).

(** [int(v)] and [float(v)] of the numbers a provenance holds; a text is never
    stored there. *)
Definition py_int (v : pyval) : result pyexc Z :=
  match v with
  | VInt z => Ok z
  | VBool b => Ok (if b then 1 else 0)%Z
  | VFloat x => if isfinite x then Ok (ftrunc x) else Err (python_error "OverflowError")
  | VStr _ => Err (python_error "ValueError")
  | _ => Err (python_error "TypeError")
  end.
Definition py_float (v : pyval) : result pyexc float :=
  match v with
  | VFloat x => Ok x
  | VInt _ | VBool _ =>
      let x := fofZ (default 0%Z (as_int v)) in
      if isfinite x then Ok x else Err (python_error "OverflowError")
  | VStr _ => Err (python_error "ValueError")
  | _ => Err (python_error "TypeError")
  end.

(** The entries of the loop of [_success_trace]; a candidate whose provenance is
    no mapping has none. *)
Definition candidate_trace (originals : list (identity * RetrievalCandidate))
    (c : RetrievalCandidate) : result pyexc (option RerankCandidateTrace) :=
  match dict_get RERANK_PROVENANCE_METADATA_KEY (rc_metadata c) with
  | Some (VDict p) =>
      let original := default c (dict_get (candidate_key c) originals) in
      let entry key absent := default absent (dict_get (u key) p) in
      input_rank ← py_int (entry "input_rank"%string (VInt 0));
      output_rank ← py_int (entry "output_rank"%string (VInt 0));
      pre_score ← py_float (entry "pre_score"%string (VFloat (rc_score original)));
      rerank_score ← py_float (entry "rerank_score"%string (VFloat (rc_score c)));
      mret (Some {| ct_document_id := rc_document_id c; ct_version_id := rc_version_id c;
                    ct_chunk_id := rc_chunk_id c; ct_input_rank := input_rank;
                    ct_output_rank := output_rank; ct_pre_score := pre_score;
                    ct_rerank_score := rerank_score |})
  | _ => Ok None
  end.

Fixpoint candidate_traces (originals : list (identity * RetrievalCandidate))
    (candidates : list RetrievalCandidate) : result pyexc (list RerankCandidateTrace) :=
  match candidates with
  | [] => Ok []
  | c :: rest =>
      t ← candidate_trace originals c;
      ts ← candidate_traces originals rest;
      mret (match t with Some x => x :: ts | None => ts end)
  end.

Definition _success_trace (candidates original_candidates : list RetrievalCandidate)
    (latency_ms : float) : result pyexc RerankTrace :=
  traces ← candidate_traces (originals_by_key original_candidates) candidates;
  mret (trace_with latency_ms (count original_candidates) (count candidates) traces false None).
End Guard.
End Candidates.

(** * The retriever *)

Inductive rerank_call : Type :=
| CallUpstream (answer : result pyexc (list RetrievalCandidate))
| CallRerank (sent : list RetrievalCandidate) (answer : result pyexc RerankResult).

Record rerank_ports (S : Type) : Type := {
  upstream_retrieve : RetrievalRequest -> RetrievalFilterSet -> eff pyexc S (list RetrievalCandidate);
  rerank : RetrievalRequest -> RetrievalFilterSet -> list RetrievalCandidate -> eff pyexc S RerankResult;
  rerank_clock : S -> float * S
}.
Arguments upstream_retrieve {S}.
Arguments rerank {S}.
Arguments rerank_clock {S}.

Record rerank_world (S : Type) : Type := {
  kw_state : S;
  kw_last_trace : option RerankTrace;
  kw_log : list rerank_call
}.
Arguments kw_state {S}.
Arguments kw_last_trace {S}.
Arguments kw_log {S}.

Definition is_py_exception (e : pyexc) : bool := negb (is_cancelled e).

Section Retriever.
Context `{PyRepr, UnicodeDB}.
Context {S : Type} (P : rerank_ports S) (config : RerankConfig).
Open Scope eff_scope.

Abbreviation M := (eff pyexc (rerank_world S)).

Definition kcall {A} (m : eff pyexc S A) (entry : result pyexc A -> list rerank_call) : M A :=
  fun w => let '(r, s) := m (kw_state w) in
           (r, {| kw_state := s; kw_last_trace := kw_last_trace w;
                  kw_log := kw_log w ++ entry r |}).

Definition perf_counter : M float := fun w =>
  let '(t, s) := rerank_clock P (kw_state w) in
  (Ok t, {| kw_state := s; kw_last_trace := kw_last_trace w; kw_log := kw_log w |}).

Definition latency (started : float) : M float :=
  t <- perf_counter;; mreturn (latency_of started t).

Definition set_trace (t : RerankTrace) : M unit :=
  modify (fun w => {| kw_state := kw_state w; kw_last_trace := Some t; kw_log := kw_log w |}).

Section Request.
Context (request : RetrievalRequest) (filters : RetrievalFilterSet).

(** The [try] of the guard: only a [RetrievalError] leaves a trace. *)
Definition guarded (candidates : list RetrievalCandidate) : M (list RetrievalCandidate) :=
  mcatch (mlift (_guard_and_sanitize_upstream_candidates request filters config candidates))
    (fun exc =>
       if is_retrieval_error exc
       then _ <- set_trace (_failed_trace request filters config (count candidates) fzero
                              (error_code_of exc));;
            mraise exc
       else mraise exc).

(** The body of the second [try]: ask the reranker and validate its answer. *)
Definition reranked (started : float) (candidates provider_candidates : list RetrievalCandidate)
    : M (list RetrievalCandidate) :=
  answer <- kcall (rerank P request filters provider_candidates)
              (fun r => [CallRerank provider_candidates r]);;
  latency_ms <- latency started;;
  mlift (_validated_candidates request filters config candidates (kr_candidates answer) latency_ms).

(** Its handler, by the failure policy. *)
Definition rerank_failed (started : float) (candidates : list RetrievalCandidate) (exc : pyexc)
    : M (list RetrievalCandidate) :=
  match rk_failure_policy config with
  | PolicyFallback =>
      latency_ms <- latency started;;
      let output := _fallback_candidates request config candidates latency_ms in
      latency_ms <- latency started;;
      _ <- set_trace (_degraded_trace request filters config (count candidates) (count output)
                        latency_ms);;
      mreturn (py_take (rq_top_k request) output)
  | PolicyFailClosed =>
      let error := _rerank_error request filters config exc (count candidates) in
      latency_ms <- latency started;;
      _ <- set_trace (_failed_trace request filters config (count candidates) latency_ms
                        (error_code_of error));;
      mraise error
  end.

(** What follows the [try] when nothing was raised. *)
Definition rerank_succeeded (started : float) (candidates output : list RetrievalCandidate)
    : M (list RetrievalCandidate) :=
  latency_ms <- latency started;;
  trace <- mlift (_success_trace request filters config output candidates latency_ms);;
  _ <- set_trace trace;;
  mreturn (py_take (rq_top_k request) output).

(** [try: ... except Exception: ... return]: the outcome of the [try] is the output
    that the rest of the function uses, or what the handler does. *)
Definition rerank_enabled (candidates provider_candidates : list RetrievalCandidate)
    : M (list RetrievalCandidate) :=
  started <- perf_counter;;
  fun w =>
    match reranked started candidates provider_candidates w with
    | (Ok output, w') => rerank_succeeded started candidates output w'
    | (Err exc, w') =>
        if is_py_exception exc then rerank_failed started candidates exc w' else (Err exc, w')
    end.

(** [RerankingRetriever.retrieve]. *)
Definition retrieve : M (list RetrievalCandidate) :=
  candidates <- kcall (upstream_retrieve P request filters) (fun r => [CallUpstream r]);;
  match candidates with
  | [] =>
      _ <- set_trace (_empty_trace request filters config);;
      mreturn []
  | _ =>
      let candidates_for_rerank := py_take (rk_max_candidates config) candidates in
      provider_candidates <- guarded candidates_for_rerank;;
      if negb (rk_enabled config) then
        let output := _disabled_candidates request config candidates_for_rerank in
        _ <- set_trace (_disabled_trace request filters config (count candidates_for_rerank)
                          (count output));;
        mreturn output
      else rerank_enabled candidates_for_rerank provider_candidates
  end.
End Request.
End Retriever.

(** * The deterministic reranker *)

Inductive failure_mode : Type :=
| FailNone | FailDomain | FailUnexpected | FailInvalidScore | FailTimeout.

Record FakeReranker : Type := {
  fk_score_by_chunk_id : list (pystr * float);
  fk_score_by_identity : list (pystr * pystr * pystr * float);
  fk_provider : pystr;
  fk_model : pystr;
  fk_failure_mode : failure_mode
}.

Section Fake.
Context `{PyRepr, UnicodeDB}.
Context {S : Type} (clock : S -> float * S) (fake : FakeReranker).
Open Scope eff_scope.

Definition _score_for_candidate (c : RetrievalCandidate) : float :=
  match dict_get (rc_document_id c, rc_version_id c, rc_chunk_id c) (fk_score_by_identity fake) with
  | Some score => score
  | None =>
      match dict_get (rc_chunk_id c) (fk_score_by_chunk_id fake) with
      | Some score => score
      | None => if fle fzero (rc_score c) && fle (rc_score c) fone then rc_score c else fzero
      end
  end.

Definition scored : Type := RetrievalCandidate * float * Z.

Fixpoint score_all (rank : Z) (candidates : list RetrievalCandidate) : list scored :=
  match candidates with
  | [] => []
  | c :: rest =>
      let rerank_score := _score_for_candidate c in
      let rerank_score := match fk_failure_mode fake with
                          | FailInvalidScore => fdiv (fofZ 3) (fofZ 2) | _ => rerank_score end in
      (c, rerank_score, rank) :: score_all (rank + 1) rest
  end.

(** [key=lambda item: (-item[1], _identity(item[0]))]. *)
Definition scored_lt (a b : scored) : bool :=
  let ka := fopp a.1.2 in
  let kb := fopp b.1.2 in
  if negb (feq ka kb) then flt ka kb else identity_lt (candidate_key a.1.1) (candidate_key b.1.1).

Definition read_clock : eff pyexc S float := fun s => let '(t, s') := clock s in (Ok t, s').

Fixpoint fake_output (started : float) (rank : Z) (l : list scored)
    : eff pyexc S (list RetrievalCandidate * list RerankCandidateTrace) :=
  match l with
  | [] => mreturn ([], [])
  | (c, rerank_score, input_rank) :: rest =>
      t <- read_clock;;
      out <- fake_output started (rank + 1) rest;;
      mreturn
        (_candidate_with_rerank c rerank_score (fk_provider fake) (fk_model fake) StSuccess
           input_rank rank (rc_score c) (latency_of started t) None :: out.1,
         {| ct_document_id := rc_document_id c; ct_version_id := rc_version_id c;
            ct_chunk_id := rc_chunk_id c; ct_input_rank := input_rank; ct_output_rank := rank;
            ct_pre_score := rc_score c; ct_rerank_score := rerank_score |} :: out.2)
  end.

(** [FakeReranker.rerank]. *)
Definition fake_rerank (request : RetrievalRequest) (filters : RetrievalFilterSet)
    (candidates : list RetrievalCandidate) : eff pyexc S RerankResult :=
  started <- read_clock;;
  match fk_failure_mode fake with
  | FailDomain =>
      mraise (retrieval_error RERANK_FAILED (u "Fake reranker failed.")
                (rerank_error_details request filters (fk_provider fake) (fk_model fake)
                   RERANK_FAILED (count candidates) 0) None)
  | FailUnexpected => mraise (python_error "RuntimeError")
  | FailTimeout => mraise (PyExc (XOs (u "TimeoutError")) None None)
  | _ =>
      let scored := py_sort scored_lt (score_all 1 candidates) in
      out <- fake_output started 1 scored;;
      t <- read_clock;;
      mreturn
        {| kr_candidates := out.1;
           kr_trace :=
             {| kt_request_id := rq_request_id request; kt_trace_id := rq_trace_id request;
                kt_tenant_id := fs_tenant_id filters; kt_user_id := fs_user_id filters;
                kt_provider := fk_provider fake; kt_model := fk_model fake;
                kt_latency_ms := latency_of started t; kt_input_count := count candidates;
                kt_output_count := count out.1;
                kt_safe_counts := [(u "input_candidates", count candidates);
                                   (u "output_candidates", count out.1)];
                kt_candidate_traces := out.2; kt_degraded := false; kt_error_code := None |} |}
  end.
End Fake.

(** * Properties *)

(** The sanitised copy the reranker is shown. *)
Definition sanitised `{UnicodeDB} (c : RetrievalCandidate) : RetrievalCandidate :=
  with_metadata c (_safe_metadata (rc_metadata c)).

Definition acceptable `{PyRepr, UnicodeDB} (filters : RetrievalFilterSet)
    (c : RetrievalCandidate) : Prop :=
  scoped filters c /\ _score_in_range (rc_score c) = true.

Section Props.
Context `{PyRepr, UnicodeDB}.
Context (request : RetrievalRequest) (filters : RetrievalFilterSet) (config : RerankConfig).

Lemma scoped_iff f c :
  to_vector_acl_filter filters = Ok f ->
  scoped filters c <->
  rc_tenant_id c = fs_tenant_id filters /\
  _metadata_matches (rc_metadata c) (fs_metadata_filter filters) = true /\
  acl_allows (rc_acl c) f = true.
Proof.
  intros Hf. unfold scoped, _candidate_in_scope. rewrite Hf.
  case_bool_decide; simpl; [|split; [done|by intros []]].
  destruct (_metadata_matches _ _); simpl; [|split; [done|by intros (_ & ? & _)]].
  destruct (acl_allows _ _); split; try done. by intros (_ & _ & ?).
Qed.

Lemma scoped_filter c : scoped filters c -> exists f, to_vector_acl_filter filters = Ok f.
Proof.
  unfold scoped, _candidate_in_scope. destruct (negb _); [done|]. destruct (negb _); [done|].
  destruct (to_vector_acl_filter filters); [eauto|done].
Qed.

(** The codes the stage raises of its own. *)
Definition stage_code (e : pyexc) (codes : list pystr) : Prop :=
  exists code message n m cause, code ∈ codes /\
    e = stage_error request filters config code message n m cause.

Definition invalid_codes : list pystr := [RERANK_INVALID_CANDIDATE; RERANK_INVALID_SCORE].

Lemma invalid_candidate_code n m :
  stage_code (_invalid_candidate_error request filters config n m) invalid_codes.
Proof. unfold stage_code, _invalid_candidate_error. repeat eexists. left. Qed.
Lemma invalid_score_code n m :
  stage_code (_invalid_score_error request filters config n m) invalid_codes.
Proof. unfold stage_code, _invalid_score_error. repeat eexists. right; left. Qed.

Lemma guard_candidate_exact f n seen safe c :
  to_vector_acl_filter filters = Ok f ->
  match guard_candidate request filters config f n seen safe c with
  | Ok s => s = sanitised c /\ candidate_key c ∉ seen /\ acceptable filters c
  | Err e => stage_code e invalid_codes /\ (candidate_key c ∉ seen -> ~ acceptable filters c)
  end.
Proof.
  intros Hf. unfold guard_candidate. pose proof (scoped_iff f c Hf) as Hsc.
  unfold mbind, result_bind, raise_if, mret, result_ret.
  case_bool_decide as Hs; [split; [apply invalid_candidate_code|done]|].
  case_bool_decide as Ht; simpl;
    [|split; [apply invalid_candidate_code|by intros _ [[]%Hsc _]]].
  destruct (_metadata_matches _ _); simpl;
    [|split; [apply invalid_candidate_code|by intros _ [(_ & ? & _)%Hsc _]]].
  destruct (acl_allows _ _); simpl;
    [|split; [apply invalid_candidate_code|by intros _ [(_ & _ & ?)%Hsc _]]].
  destruct (_score_in_range _) eqn:Hr; simpl;
    [|split; [apply invalid_score_code|intros _ [_ Hx]; congruence]].
  split; [done|split; [done|split; [by apply Hsc|done]]].
Qed.

Lemma guard_loop_exact f n seen safe l :
  to_vector_acl_filter filters = Ok f ->
  match guard_loop request filters config f n seen safe l with
  | Ok out => out = safe ++ (sanitised <$> l) /\ NoDup (candidate_key <$> l) /\
              Forall (fun c => candidate_key c ∉ seen) l /\ Forall (acceptable filters) l
  | Err e => stage_code e invalid_codes /\
             ~ (NoDup (candidate_key <$> l) /\ Forall (fun c => candidate_key c ∉ seen) l /\
                Forall (acceptable filters) l)
  end.
Proof.
  intros Hf. revert seen safe. induction l as [|c l IH]; intros seen safe; simpl.
  { rewrite app_nil_r. by repeat constructor. }
  unfold mbind, result_bind. pose proof (guard_candidate_exact f n seen safe c Hf) as Hc.
  destruct (guard_candidate _ _ _ _ _ _ _ _) as [s|e].
  - destruct Hc as (-> & Hseen & Hok).
    specialize (IH (candidate_key c :: seen) (safe ++ [sanitised c])).
    destruct (guard_loop _ _ _ _ _ _ _ _) as [out|e].
    + destruct IH as (-> & Hnd & Hs & Ha). rewrite <- app_assoc. split; [done|].
      split; [|split; constructor; try done].
      2: { eapply Forall_impl; [exact Hs|]. intros c' Hx ?. apply Hx. by right. }
      apply list.NoDup_cons. split; [|done]. intros (c' & Hk & Hc')%list_elem_of_fmap.
      rewrite list.Forall_forall in Hs. specialize (Hs c' Hc'). rewrite <- Hk in Hs. apply Hs. left.
    + destruct IH as [Hcode Hno]. split; [done|]. intros (Hnd & Hs & Ha). apply Hno.
      apply list.NoDup_cons in Hnd as [Hn Hnd]. apply Forall_cons in Hs as [_ Hs].
      apply Forall_cons in Ha as [_ Ha]. split; [done|split; [|done]].
      apply list.Forall_forall. intros c' Hc'. rewrite list.Forall_forall in Hs.
      specialize (Hs c' Hc'). intros [Heq|?]%elem_of_cons; [|done].
      apply Hn, list_elem_of_fmap. by exists c'.
  - destruct Hc as [Hcode Hno]. split; [done|]. intros (_ & Hs & Ha).
    apply Forall_cons in Hs as [Hs _]. apply Forall_cons in Ha as [Ha _]. by apply Hno.
Qed.

(** The guard passes exactly the lists of distinct, authorized candidates with
    scores between zero and one, and shows the reranker sanitised copies. *)
Lemma guard_exact f l :
  to_vector_acl_filter filters = Ok f ->
  match _guard_and_sanitize_upstream_candidates request filters config l with
  | Ok out => out = sanitised <$> l /\ NoDup (candidate_key <$> l) /\ Forall (acceptable filters) l
  | Err e => stage_code e invalid_codes /\
             ~ (NoDup (candidate_key <$> l) /\ Forall (acceptable filters) l)
  end.
Proof.
  intros Hf. unfold _guard_and_sanitize_upstream_candidates. rewrite Hf.
  pose proof (guard_loop_exact f (count l) [] [] l Hf) as Hg.
  destruct (guard_loop _ _ _ _ _ _ _ _); [by destruct Hg as (-> & ? & _ & ?)|].
  destruct Hg as [? Hno]. split; [done|]. intros [? ?]. apply Hno. split; [done|split; [|done]].
  apply list.Forall_forall. intros c _. apply not_elem_of_nil.
Qed.
End Props.

(** ** The validation of an answer *)

Lemma originals_fresh l d :
  NoDup (candidate_key <$> l) -> Forall (fun c => candidate_key c ∉ d.*1) l ->
  foldl (fun d c => dict_set (candidate_key c) c d) d l
  = d ++ ((fun c => (candidate_key c, c)) <$> l).
Proof.
  revert d. induction l as [|c l IH]; intros d Hnd Hd; simpl; [by rewrite app_nil_r|].
  apply list.NoDup_cons in Hnd as [Hn Hnd]. apply Forall_cons in Hd as [Hc Hd].
  rewrite dict_set_fresh by done. rewrite IH; [by rewrite <- app_assoc|done|].
  apply list.Forall_forall. intros c' Hc'. rewrite fmap_app. simpl.
  rewrite list.Forall_forall in Hd. specialize (Hd c' Hc').
  intros [?|Hk%list_elem_of_singleton]%elem_of_app; [done|].
  apply Hn, list_elem_of_fmap. by exists c'.
Qed.

Lemma originals_nodup l :
  NoDup (candidate_key <$> l) ->
  originals_by_key l = (fun c => (candidate_key c, c)) <$> l.
Proof.
  intros Hnd. unfold originals_by_key. rewrite originals_fresh; [done|done|].
  apply list.Forall_forall. intros. apply not_elem_of_nil.
Qed.

Lemma originals_get l k :
  NoDup (candidate_key <$> l) ->
  match dict_get k (originals_by_key l) with
  | Some o => o ∈ l /\ candidate_key o = k
  | None => k ∉ candidate_key <$> l
  end.
Proof.
  intros Hnd. rewrite (originals_nodup l Hnd). destruct (dict_get _ _) as [o|] eqn:Ho.
  - apply dict_get_elem, list_elem_of_fmap in Ho as (c & [= -> ->] & Hc). done.
  - apply dict_get_None in Ho. by rewrite <- list_fmap_compose in Ho.
Qed.

Lemma rank_entries_other k l n d :
  k ∉ candidate_key <$> l -> dict_get k (rank_entries n l d) = dict_get k d.
Proof.
  revert n d. induction l as [|c l IH]; intros n d Hk; simpl in *; [done|].
  rewrite IH by set_solver. apply dict_get_set_ne. set_solver.
Qed.

Lemma rank_entries_get l n d j o :
  NoDup (candidate_key <$> l) -> l !! j = Some o ->
  dict_get (candidate_key o) (rank_entries n l d) = Some (n + Z.of_nat j)%Z.
Proof.
  revert n d j. induction l as [|c l IH]; intros n d j Hnd Hj; [done|].
  apply list.NoDup_cons in Hnd as [Hn Hnd]. destruct j as [|j]; simpl in *.
  - injection Hj as <-. rewrite rank_entries_other, dict_get_set by done. f_equal. lia.
  - rewrite (IH _ _ j) by done. f_equal. lia.
Qed.

(** A complete answer: the identities of the originals in some order, with scores
    in range. *)
Definition valid_answer (l r : list RetrievalCandidate) : Prop :=
  (candidate_key <$> r) ≡ₚ (candidate_key <$> l) /\
  Forall (fun s => _score_in_range (rc_score s) = true) r.

Section Validate.
Context `{PyRepr, UnicodeDB}.
Context (request : RetrievalRequest) (filters : RetrievalFilterSet) (config : RerankConfig).
Context (l : list RetrievalCandidate) (latency_ms : float).
Hypothesis distinct : NoDup (candidate_key <$> l).

(** The [i]-th candidate of an answer and what becomes of it: the original of the
    same identity with the answer's score, and its place before and after. *)
Definition reranked_as (i : nat) (s c : RetrievalCandidate) : Prop :=
  exists j o, l !! j = Some o /\ candidate_key o = candidate_key s /\
    c = _candidate_with_rerank o (rc_score s) (rk_provider config) (rk_model config) StSuccess
          (Z.of_nat (S j)) (Z.of_nat (S i)) (rc_score o) latency_ms None.

Definition answered (seen : list identity) (s : RetrievalCandidate) : Prop :=
  candidate_key s ∈ candidate_key <$> l /\ candidate_key s ∉ seen /\
  _score_in_range (rc_score s) = true.

Lemma validate_loop_exact n k seen output r :
  match validate_loop request filters config (originals_by_key l) (rank_entries 1 l []) n
          latency_ms (Z.of_nat (S k)) seen output r with
  | Ok out => NoDup (candidate_key <$> r) /\ Forall (answered seen) r /\
      exists new, out = output ++ new /\ length new = length r /\
        forall i s, r !! i = Some s -> exists c, new !! i = Some c /\ reranked_as (k + i) s c
  | Err e => stage_code request filters config e invalid_codes /\
      ~ (NoDup (candidate_key <$> r) /\ Forall (answered seen) r)
  end.
Proof.
  revert k seen output. induction r as [|s r IH]; intros k seen output; cbn -[Z.of_nat].
  { split; [constructor|split; [constructor|]]. exists []. by rewrite app_nil_r. }
  pose proof (originals_get l (candidate_key s) distinct) as Hget.
  destruct (dict_get (candidate_key s) (originals_by_key l)) as [o|].
  2: { split; [apply invalid_candidate_code|]. by intros [_ [[? _] _]%Forall_cons]. }
  destruct Hget as [Ho Hk]. rewrite Hk. case_bool_decide as Hseen.
  { split; [apply invalid_candidate_code|]. by intros [_ [(_ & ? & _) _]%Forall_cons]. }
  destruct (_score_in_range (rc_score s)) eqn:Hr; cbn -[Z.of_nat].
  2: { split; [apply invalid_score_code|]. intros [_ [(_ & _ & ?) _]%Forall_cons]. congruence. }
  apply list_elem_of_lookup in Ho as [j Hj].
  rewrite <- Hk, (rank_entries_get l 1 [] j o distinct Hj).
  replace (Z.of_nat (S k) + 1)%Z with (Z.of_nat (S (S k))) by lia.
  match goal with |- context [validate_loop _ _ _ _ _ _ _ _ ?sn ?ou _] =>
    specialize (IH (S k) sn ou) end.
  destruct (validate_loop _ _ _ _ _ _ _ _ _ _ _) as [out|e].
  - destruct IH as (Hnd & Hall & new & -> & Hlen & Hnew). rewrite <- app_assoc.
    split; [|split].
    + apply list.NoDup_cons. split; [|done]. intros (s' & Hs' & Hin)%list_elem_of_fmap.
      rewrite list.Forall_forall in Hall. destruct (Hall s' Hin) as (_ & Hn & _).
      rewrite <- Hs', Hk in Hn. apply Hn. left.
    + constructor; [by split; [rewrite <- Hk; apply list_elem_of_fmap; exists o; split; [done|];
        apply list_elem_of_lookup; exists j|rewrite <- Hk; rewrite <- Hk in Hseen]|].
      eapply Forall_impl; [exact Hall|]. intros s' (? & Hn & ?). split; [done|split; [|done]].
      intros ?. apply Hn. by right.
    + eexists (_ :: new). split; [done|]. split; [simpl; lia|].
      intros [|i] s' Hs'; simpl in Hs'.
      * injection Hs' as <-. eexists. split; [done|]. exists j, o.
        split; [done|split; [done|]]. f_equal; lia.
      * destruct (Hnew i s' Hs') as (c & Hc & Has). exists c. split; [done|].
        by replace (k + S i)%nat with (S k + i)%nat by lia.
  - destruct IH as [Hcode Hno]. split; [done|]. intros [Hnd Hall]. apply Hno.
    apply list.NoDup_cons in Hnd as [Hn Hnd]. apply Forall_cons in Hall as [_ Hall].
    split; [done|]. apply list.Forall_forall. intros s' Hs'. rewrite list.Forall_forall in Hall.
    destruct (Hall s' Hs') as (? & ? & ?). split; [done|split; [|done]].
    intros [Heq|?]%elem_of_cons; [|done]. apply Hn, list_elem_of_fmap. exists s'. split; [|done].
    by rewrite Heq.
Qed.

(** The reranker's answer is taken exactly when it is complete; each of its
    entries then stands for the original of the same identity. *)
Lemma validated_exact r :
  match _validated_candidates request filters config l r latency_ms with
  | Ok out => valid_answer l r /\ length out = length r /\
      forall i s, r !! i = Some s -> exists c, out !! i = Some c /\ reranked_as i s c
  | Err e => stage_code request filters config e invalid_codes /\ ~ valid_answer l r
  end.
Proof.
  unfold _validated_candidates. rewrite (originals_nodup l distinct). unfold count at 1 2.
  rewrite length_fmap, Z.eqb_refl. cbn [negb].
  destruct (count r =? count l)%Z eqn:Hc; unfold count in Hc; bool_inv; cbn [negb].
  2: { split; [apply invalid_candidate_code|]. intros [Hp _]. apply Permutation_length in Hp.
       rewrite !length_fmap in Hp. lia. }
  rewrite <- (originals_nodup l distinct).
  pose proof (validate_loop_exact (count l) 0 [] [] r) as Hl. change (Z.of_nat 1) with 1%Z in Hl.
  destruct (validate_loop _ _ _ _ _ _ _ _ _ _ _) as [out|e].
  - destruct Hl as (Hnd & Hall & new & -> & Hlen & Hnew). split; [|by split].
    split; [|eapply Forall_impl; [exact Hall|by intros s (_ & _ & ?)]].
    apply submseteq_length_Permutation; [|rewrite !length_fmap; lia].
    apply NoDup_submseteq; [done|]. intros k (s & -> & Hs)%list_elem_of_fmap.
    rewrite list.Forall_forall in Hall. by destruct (Hall s Hs).
  - destruct Hl as [Hcode Hno]. split; [done|]. intros [Hp Hr]. apply Hno.
    split; [by rewrite Hp|]. apply list.Forall_forall. intros s Hs.
    rewrite list.Forall_forall in Hr. split; [|split; [apply not_elem_of_nil|by apply Hr]].
    rewrite <- Hp. apply list_elem_of_fmap. by exists s.
Qed.
End Validate.

(** ** The retriever *)

Lemma py_take_fmap {A B} (f : A -> B) n l : f <$> py_take n l = py_take n (f <$> l).
Proof. unfold py_take. rewrite length_fmap. by destruct (n <? 0)%Z; rewrite fmap_take. Qed.

Lemma py_take_idem {A} n (l : list A) : (0 <= n)%Z -> py_take n (py_take n l) = py_take n l.
Proof.
  intros. unfold py_take. destruct (n <? 0)%Z eqn:E; [bool_inv; lia|].
  rewrite take_take. f_equal. lia.
Qed.

Lemma py_take_NoDup {A} n (l : list A) : NoDup l -> NoDup (py_take n l).
Proof. unfold py_take. intros. destruct (n <? 0)%Z; by apply NoDup_take. Qed.

(** What an answer says of a chunk. *)
Definition keyed (c : RetrievalCandidate) : identity * float := (candidate_key c, rc_score c).

Section Outcome.
Context `{PyRepr, UnicodeDB}.
Context {S : Type} (P : rerank_ports S) (config : RerankConfig).
Context (request : RetrievalRequest) (filters : RetrievalFilterSet).

Lemma candidate_trace_some originals o score provider model status i j pre lat code :
  exists t, candidate_trace originals
    (_candidate_with_rerank o score provider model status i j pre lat code) = Ok (Some t).
Proof.
  unfold candidate_trace, _candidate_with_rerank.
  cbn [rc_metadata with_score with_fusion]. rewrite dict_get_set. eexists. reflexivity.
Qed.

Lemma success_trace_total l lat r out :
  (forall i s, r !! i = Some s -> exists c, out !! i = Some c /\ reranked_as config l lat i s c) ->
  length out = length r ->
  forall lat', exists t, _success_trace request filters config out l lat' = Ok t /\
    kt_degraded t = false /\ kt_error_code t = None /\ kt_output_count t = count out.
Proof.
  intros Hout Hlen lat'.
  assert (Forall (fun c => exists t, candidate_trace (originals_by_key l) c = Ok (Some t)) out) as Ha.
  { apply list.Forall_lookup. intros i c Hc.
    destruct (lookup_lt_is_Some_2 r i) as [s Hs]; [rewrite <- Hlen; by eapply lookup_lt_Some|].
    destruct (Hout i s Hs) as (c' & Hc' & j & o & _ & _ & ->). simplify_eq.
    apply candidate_trace_some. }
  assert (exists ts, candidate_traces (originals_by_key l) out = Ok ts) as [ts Hts].
  { clear -Ha. induction Ha as [|c out [t Ht] _ [ts IH]]; simpl; [eauto|].
    rewrite Ht. cbn. rewrite IH. cbn. eauto. }
  unfold _success_trace. rewrite Hts. cbn. eauto 10.
Qed.

Lemma kept_keyed status lat code rank l :
  keyed <$> kept_candidates config status lat code rank l = keyed <$> l.
Proof. revert rank. induction l as [|c l IH]; intros rank; simpl; [done|]. by rewrite IH. Qed.

Lemma reranked_keyed l lat r out :
  length out = length r ->
  (forall i s, r !! i = Some s -> exists c, out !! i = Some c /\ reranked_as config l lat i s c) ->
  keyed <$> out = keyed <$> r.
Proof.
  intros Hlen Hout. apply list_eq_same_length with (n := length r);
    [by rewrite length_fmap|by rewrite length_fmap, Hlen|].
  intros i x y Hi Hx Hy. rewrite list_lookup_fmap_Some in Hx, Hy.
  destruct Hx as (c & -> & Hc), Hy as (s & -> & Hs).
  destruct (Hout i s Hs) as (c' & Hc' & j & o & _ & Hk & ->). rewrite Hc in Hc'.
  injection Hc' as ->. unfold keyed. by rewrite <- Hk.
Qed.

(** How the stage ends once the reranker has answered, with its trace. *)
Definition failed_outcome (l : list RetrievalCandidate) (e : pyexc)
    (r : result pyexc (list RetrievalCandidate)) (t : option RerankTrace) : Prop :=
  match rk_failure_policy config with
  | PolicyFallback => exists lat tr,
      r = Ok (py_take (rq_top_k request) (_fallback_candidates request config l lat)) /\
      t = Some tr /\ kt_degraded tr = true /\ kt_error_code tr = Some RERANK_DEGRADED
  | PolicyFailClosed => exists tr,
      r = Err (_rerank_error request filters config e (count l)) /\ t = Some tr /\
      kt_error_code tr = Some (error_code_of (_rerank_error request filters config e (count l)))
  end.

Definition rerank_outcome (l : list RetrievalCandidate) (answer : result pyexc RerankResult)
    (r : result pyexc (list RetrievalCandidate)) (t : option RerankTrace) : Prop :=
  match answer with
  | Err e => if is_cancelled e then r = Err e else failed_outcome l e r t
  | Ok a => exists lat,
      match _validated_candidates request filters config l (kr_candidates a) lat with
      | Ok out => exists tr, r = Ok (py_take (rq_top_k request) out) /\ t = Some tr /\
          kt_degraded tr = false /\ kt_error_code tr = None
      | Err e => failed_outcome l e r t
      end
  end.

Lemma rerank_failed_run started l e w r w' :
  rerank_failed P config request filters started l e w = (r, w') ->
  failed_outcome l e r (kw_last_trace w') /\ kw_log w' = kw_log w.
Proof.
  unfold rerank_failed, failed_outcome, latency, perf_counter, set_trace, modify, mthen, mreturn,
    mraise.
  destruct (rk_failure_policy config); cbn;
    repeat (destruct (rerank_clock P _) as [? ?]; cbn); intros [= <- <-]; cbn; split; eauto 10.
Qed.

Lemma rerank_enabled_run l sent w r w' :
  NoDup (candidate_key <$> l) ->
  rerank_enabled P config request filters l sent w = (r, w') ->
  exists answer, kw_log w' = kw_log w ++ [CallRerank sent answer] /\
    rerank_outcome l answer r (kw_last_trace w').
Proof.
  intros Hnd. unfold rerank_enabled, mthen at 1, perf_counter at 1.
  destruct (rerank_clock P _) as [t0 s0]; cbn.
  unfold reranked, mthen at 1, kcall. cbn. destruct (rerank P _ _ _ _) as [[a|e] s1] eqn:Ha.
  - unfold latency, mthen, perf_counter, mreturn. cbn.
    destruct (rerank_clock P s1) as [t1 s2]; cbn. unfold mlift.
    pose proof (validated_exact request filters config l (latency_of t0 t1) Hnd (kr_candidates a))
      as Hv.
    destruct (_validated_candidates _ _ _ _ _ _) as [out|e] eqn:Hval.
    + destruct Hv as (_ & Hlen & Hout). unfold rerank_succeeded, latency, mthen, perf_counter. cbn.
      destruct (rerank_clock P s2) as [t2 s3]; cbn. unfold mlift.
      destruct (success_trace_total _ _ _ _ Hout Hlen (latency_of t0 t2)) as (tr & Htr & ? & ? & _).
      rewrite Htr. cbn. intros [= <- <-]. exists (Ok a). split; [done|]. cbn.
      exists (latency_of t0 t1). rewrite Hval. eauto 10.
    + destruct Hv as [(code & msg & n & m & cause & _ & ->) _]. cbn.
      intros [Ho Hlog]%rerank_failed_run. exists (Ok a). split; [exact Hlog|].
      exists (latency_of t0 t1). by rewrite Hval.
  - unfold is_py_exception. destruct (is_cancelled e) eqn:Hc; cbn.
    + intros [= <- <-]. exists (Err e). split; [done|]. cbn. by rewrite Hc.
    + intros [Ho Hlog]%rerank_failed_run. exists (Err e). split; [exact Hlog|]. cbn. by rewrite Hc.
Qed.

(** The whole call, by what the upstream retriever answered. *)
Lemma retrieve_run w r w' :
  Rerank.retrieve P config request filters w = (r, w') ->
  exists up calls, (upstream_retrieve P request filters (kw_state w)).1 = up /\
    kw_log w' = kw_log w ++ CallUpstream up :: calls /\
    match up with
    | Err e => r = Err e /\ calls = []
    | Ok [] => r = Ok [] /\ calls = []
    | Ok candidates =>
        let l := py_take (rk_max_candidates config) candidates in
        match _guard_and_sanitize_upstream_candidates request filters config l with
        | Err e => r = Err e /\ calls = []
        | Ok sent =>
            if rk_enabled config
            then exists answer, calls = [CallRerank sent answer] /\
                   rerank_outcome l answer r (kw_last_trace w')
            else r = Ok (_disabled_candidates request config l) /\ calls = []
        end
    end.
Proof.
  unfold Rerank.retrieve, mthen at 1, kcall.
  destruct (upstream_retrieve P request filters (kw_state w)) as [[[|c l0]|e] s1]; cbn [fst].
  - cbn. intros [= <- <-]. cbn. eauto 10.
  - set (candidates := c :: l0). set (l := py_take (rk_max_candidates config) candidates).
    unfold mthen, guarded, mcatch, mlift.
    destruct (_guard_and_sanitize_upstream_candidates _ _ _ l) as [sent|e] eqn:Hg; cbn [fst].
    + destruct (rk_enabled config) eqn:He; cbn [negb].
      * intros Hrun. apply rerank_enabled_run in Hrun as (answer & Hlog & Ho).
        -- cbn in Hlog. rewrite <- app_assoc in Hlog. eexists _, _. split; [done|]. split; [exact Hlog|].
           cbn. fold candidates l. rewrite Hg. eauto.
        -- destruct (to_vector_acl_filter filters) as [f|] eqn:Hf.
           ++ pose proof (guard_exact request filters config f l Hf) as Hx. rewrite Hg in Hx. tauto.
           ++ unfold _guard_and_sanitize_upstream_candidates in Hg. by rewrite Hf in Hg.
      * cbn. intros [= <- <-]. eexists _, _. split; [done|]. split; [done|]. cbn. fold candidates l.
        by rewrite Hg.
    + intros Hrun. eexists _, []. split; [done|]. cbn. fold candidates l. rewrite Hg.
      destruct (is_retrieval_error e); injection Hrun as <- <-; by cbn.
  - intros [= <- <-]. cbn. eauto 10.
Qed.
End Outcome.

Section Results.
Context `{PyRepr, UnicodeDB}.
Context {S : Type} (P : rerank_ports S) (config : RerankConfig).
Context (request : RetrievalRequest) (filters : RetrievalFilterSet).

(** A candidate that leaves the stage: an original with a score in range and
    sanitised metadata that names the reranker, all else unchanged. *)
Definition kept_from (l : list RetrievalCandidate) (c : RetrievalCandidate) : Prop :=
  exists o provenance, o ∈ l /\ acceptable filters o /\ _score_in_range (rc_score c) = true /\
    c = with_score o (rc_score c)
          (dict_set RERANK_PROVENANCE_METADATA_KEY (VDict provenance) (_safe_metadata (rc_metadata o))).

Lemma kept_kept_from status lat code rank l l' :
  Forall (acceptable filters) l -> (forall o, o ∈ l -> o ∈ l') ->
  Forall (kept_from l') (kept_candidates config status lat code rank l).
Proof.
  intros Ha. revert rank. induction Ha as [|c l Hc Ha IH]; intros rank Hin; [constructor|].
  constructor; [|apply IH; intros; apply Hin; by right].
  eexists c, _. split; [apply Hin; left|]. split; [done|]. split; [apply Hc|done].
Qed.

Lemma reranked_kept_from l lat r out :
  Forall (acceptable filters) l -> valid_answer l r -> length out = length r ->
  (forall i s, r !! i = Some s -> exists c, out !! i = Some c /\ reranked_as config l lat i s c) ->
  Forall (kept_from l) out.
Proof.
  intros Ha [_ Hr] Hlen Hout. apply list.Forall_lookup. intros i c Hc.
  destruct (lookup_lt_is_Some_2 r i) as [s Hs]; [rewrite <- Hlen; by eapply lookup_lt_Some|].
  destruct (Hout i s Hs) as (c' & Hc' & j & o & Ho & _ & ->). rewrite Hc in Hc'. injection Hc' as ->.
  eexists o, _. split; [by eapply list_elem_of_lookup_2|].
  split; [by eapply (list.Forall_lookup_1 _ _ _ _ Ha Ho)|].
  split; [|done]. by eapply (list.Forall_lookup_1 _ _ _ _ Hr Hs).
Qed.

Lemma keyed_keys (l : list RetrievalCandidate) : fst <$> (keyed <$> l) = candidate_key <$> l.
Proof. by rewrite <- list_fmap_compose. Qed.

(** A list of candidates that may leave the stage. *)
Definition released (l out : list RetrievalCandidate) : Prop :=
  NoDup (candidate_key <$> out) /\ Forall (kept_from l) out.

Lemma released_take l n out : released l out -> released l (py_take n out).
Proof.
  intros [Hnd Hf]. split; [rewrite py_take_fmap; by apply py_take_NoDup|].
  apply list.Forall_forall. intros c Hc%py_take_elem. rewrite list.Forall_forall in Hf. by apply Hf.
Qed.

Lemma released_kept l status lat code :
  NoDup (candidate_key <$> l) -> Forall (acceptable filters) l ->
  released l (kept_candidates config status lat code 1 l).
Proof.
  intros Hnd Ha. split; [by rewrite <- keyed_keys, kept_keyed, keyed_keys|].
  by apply kept_kept_from.
Qed.

Lemma outcome_released l answer out t :
  NoDup (candidate_key <$> l) -> Forall (acceptable filters) l ->
  rerank_outcome config request filters l answer (Ok out) t ->
  exists out', out = py_take (rq_top_k request) out' /\ released l out'.
Proof.
  intros Hnd Ha.
  assert (forall e, failed_outcome config request filters l e (Ok out) t ->
            exists out', out = py_take (rq_top_k request) out' /\ released l out') as Hfail.
  { unfold failed_outcome. intros e Ho. destruct (rk_failure_policy config).
    - destruct Ho as (lat & tr & [= ->] & _). eexists. split; [done|].
      by apply released_take, released_kept.
    - by destruct Ho as (tr & ? & _). }
  destruct answer as [a|e]; simpl.
  - intros (lat & Ho). pose proof (validated_exact request filters config l lat Hnd (kr_candidates a)) as Hv.
    destruct (_validated_candidates _ _ _ _ _ _) as [out'|e]; [|by apply (Hfail e)].
    destruct Ho as (tr & [= ->] & _). destruct Hv as (Hval & Hlen & Hout). exists out'. split; [done|].
    split; [|by eapply reranked_kept_from].
    rewrite <- keyed_keys, (reranked_keyed config l lat (kr_candidates a)), keyed_keys by done.
    destruct Hval as [-> _]. done.
  - destruct (is_cancelled e); [done|apply Hfail].
Qed.

Lemma guard_ok l sent :
  _guard_and_sanitize_upstream_candidates request filters config l = Ok sent ->
  sent = sanitised <$> l /\ NoDup (candidate_key <$> l) /\ Forall (acceptable filters) l.
Proof.
  intros Hg. destruct (to_vector_acl_filter filters) as [f|] eqn:Hf.
  - pose proof (guard_exact request filters config f l Hf) as Hx. by rewrite Hg in Hx.
  - unfold _guard_and_sanitize_upstream_candidates in Hg. by rewrite Hf in Hg.
Qed.

Lemma rerank_error_code e n :
  is_retrieval_error (_rerank_error request filters config e n) = true /\
  error_code_of (_rerank_error request filters config e n) ∈ RERANK_FAILED :: invalid_codes.
Proof.
  unfold _rerank_error, passes_through, is_retrieval_error, error_code_of.
  destruct (exc_kind_of e) as [code msg d st|n'| |n'] eqn:Hk; cbn; try (split; [done|left]).
  case_bool_decide as Hc; cbn; [|split; [done|left]]. rewrite Hk. split; [done|]. by right.
Qed.
End Results.

(** Whatever the upstream retriever and the reranker return, every candidate
    that leaves the reranking stage is one the upstream retriever returned within
    the first [max_candidates], of the caller's tenant, matching the metadata
    filter and readable under its ACL, with only its score (between zero and one)
    and its metadata changed and the latter sanitised; no chunk appears twice,
    there are at most [top_k]; and the reranker was shown sanitised copies of
    exactly those candidates, or nothing. *)
Theorem reranked_authorized `{PyRepr, UnicodeDB} {S} (P : rerank_ports S) config request filters
    w out w' :
  Rerank.retrieve P config request filters w = (Ok out, w') ->
  (0 <= rq_top_k request)%Z ->
  exists up calls,
    kw_log w' = kw_log w ++ CallUpstream (Ok up) :: calls /\
    let l := py_take (rk_max_candidates config) up in
    NoDup (candidate_key <$> out) /\ (count out <= rq_top_k request)%Z /\
    Forall (kept_from filters l) out /\
    Forall (fun call => match call with
                        | CallRerank sent _ => sent = sanitised <$> l
                        | CallUpstream _ => False
                        end) calls.
Proof.
  intros Hr Hk. apply retrieve_run in Hr as (up & calls & _ & Hlog & Hup).
  destruct up as [up|e]; [|by destruct Hup]. exists up, calls. split; [done|].
  destruct up as [|c0 up].
  { destruct Hup as [[= ->] ->]. repeat split; try constructor. unfold count. simpl. lia. }
  set (l := py_take _ _) in *. cbv zeta in Hup.
  destruct (_guard_and_sanitize_upstream_candidates _ _ _ l) as [sent|e] eqn:Hg; [|by destruct Hup].
  apply guard_ok in Hg as (-> & Hnd & Ha). cbv zeta.
  assert (exists out', out = py_take (rq_top_k request) out' /\ released filters l out' /\
            Forall (fun call => match call with CallRerank sent _ => sent = sanitised <$> l
                                | CallUpstream _ => False end) calls) as (out' & -> & Hrel & Hc).
  { destruct (rk_enabled config).
    - destruct Hup as (answer & -> & Ho). apply outcome_released in Ho as (out' & -> & Hrel); [|done..].
      exists out'. repeat split; try apply Hrel. by repeat constructor.
    - destruct Hup as [[= ->] ->]. eexists. split; [done|].
      split; [by apply released_kept|constructor]. }
  apply (released_take _ _ (rq_top_k request)) in Hrel as [Hnd' Hf].
  split; [done|]. split; [by apply py_take_length|done].
Qed.

(** An answer that can be used. *)
Definition usable (l : list RetrievalCandidate) (answer : result pyexc RerankResult) : Prop :=
  exists a, answer = Ok a /\ valid_answer l (kr_candidates a).

Definition cancellation {A} (answer : result pyexc A) : Prop :=
  exists e, answer = Err e /\ is_cancelled e = true.

(** What the stage owes its caller, given the candidates [l] it asked about and
    the reranker's answer: the outcome and the trace it leaves. *)
Inductive follows (config : RerankConfig) (request : RetrievalRequest)
    (l : list RetrievalCandidate) :
    result pyexc RerankResult -> result pyexc (list RetrievalCandidate) -> option RerankTrace -> Prop :=
| FollowAnswer a out t :
    valid_answer l (kr_candidates a) ->
    keyed <$> out = py_take (rq_top_k request) (keyed <$> kr_candidates a) ->
    kt_degraded t = false -> kt_error_code t = None ->
    follows config request l (Ok a) (Ok out) (Some t)
| FollowFallback answer out t :
    ~ usable l answer -> ~ cancellation answer -> rk_failure_policy config = PolicyFallback ->
    keyed <$> out = py_take (rq_top_k request) (keyed <$> l) ->
    kt_degraded t = true -> kt_error_code t = Some RERANK_DEGRADED ->
    follows config request l answer (Ok out) (Some t)
| FollowFailure answer e t :
    ~ usable l answer -> ~ cancellation answer -> rk_failure_policy config = PolicyFailClosed ->
    is_retrieval_error e = true -> error_code_of e ∈ RERANK_FAILED :: invalid_codes ->
    kt_error_code t = Some (error_code_of e) ->
    follows config request l answer (Err e) (Some t)
| FollowCancellation e t :
    is_cancelled e = true -> follows config request l (Err e) (Err e) t.

Lemma failed_follows `{PyRepr, UnicodeDB} config request filters l answer e r t :
  (0 <= rq_top_k request)%Z -> ~ usable l answer -> ~ cancellation answer ->
  failed_outcome config request filters l e r t -> follows config request l answer r t.
Proof.
  intros Hk Hu Hc Ho. unfold failed_outcome in Ho. destruct (rk_failure_policy config) eqn:Hp.
  - destruct Ho as (lat & tr & -> & -> & Hd & He). apply FollowFallback; try done.
    unfold _fallback_candidates. by rewrite py_take_idem, py_take_fmap, kept_keyed.
  - destruct Ho as (tr & -> & -> & He).
    destruct (rerank_error_code config request filters e (count l)). by apply FollowFailure.
Qed.

(** What the stage does with the reranker's answer is determined by it.  An
    answer that names each candidate once with scores in range is followed: its
    order and its scores, cut to [top_k], are returned and the trace reports
    success.  Anything else, an error, a timeout, a missing, foreign or repeated
    candidate or a score out of range, never leaks into the output: under the
    fallback policy the upstream order and scores are returned and the trace is
    marked degraded, otherwise the call fails with one of the three codes of the
    stage, which the trace repeats.  A cancellation is passed on. *)
Theorem rerank_answer_exact `{PyRepr, UnicodeDB} {S} (P : rerank_ports S) config request filters
    w r w' up sent answer :
  Rerank.retrieve P config request filters w = (r, w') ->
  (0 <= rq_top_k request)%Z ->
  kw_log w' = kw_log w ++ [CallUpstream (Ok up); CallRerank sent answer] ->
  follows config request (py_take (rk_max_candidates config) up) answer r (kw_last_trace w').
Proof.
  intros Hr Hk Hlog. apply retrieve_run in Hr as (up' & calls & _ & Hlog' & Hup).
  rewrite Hlog' in Hlog. apply app_inv_head in Hlog. injection Hlog as -> ->.
  destruct up as [|c0 up]; [by destruct Hup|]. cbv zeta in Hup. set (l := py_take _ _) in *.
  destruct (_guard_and_sanitize_upstream_candidates _ _ _ l) as [sent'|e] eqn:Hg; [|by destruct Hup].
  apply guard_ok in Hg as (_ & Hnd & _).
  destruct (rk_enabled config); [|by destruct Hup].
  destruct Hup as (answer' & [= <- <-] & Ho). destruct answer as [a|e]; simpl in Ho.
  - destruct Ho as [lat Ho].
    pose proof (validated_exact request filters config l lat Hnd (kr_candidates a)) as Hv.
    destruct (_validated_candidates _ _ _ _ _ _) as [out|e].
    + destruct Ho as (tr & -> & -> & Hd & He), Hv as (Hval & Hlen & Hout).
      apply FollowAnswer; try done. rewrite py_take_fmap. f_equal.
      by apply (reranked_keyed config l lat).
    + destruct Hv as [_ Hno]. apply (failed_follows _ _ filters _ _ e); try done.
      * intros (a' & [= <-] & Hval). by apply Hno.
      * by intros (e' & ? & _).
  - destruct (is_cancelled e) eqn:Hc; [subst; by apply FollowCancellation|].
    apply (failed_follows _ _ filters _ _ e); try done; intros (e' & [= <-] & ?); congruence.
Qed.

Module RerankExamples.
Export RrfExamples.

Definition config1 (policy : FailurePolicy) : RerankConfig :=
  {| rk_enabled := true; rk_failure_policy := policy; rk_timeout_seconds := fofZ 2;
     rk_provider := u "fake"; rk_model := u "fake-reranker-v1"; rk_max_candidates := 100 |}.

Definition half : float := fdiv fone (fofZ 2).
Definition fake1 (mode : failure_mode) : FakeReranker :=
  {| fk_score_by_chunk_id := [(u "c1", half); (u "c2", fone)]; fk_score_by_identity := [];
     fk_provider := u "fake"; fk_model := u "fake-reranker-v1"; fk_failure_mode := mode |}.

Definition clock1 (s : Z) : float * Z := (fofZ s, (s + 1)%Z).
Definition upstream1 : list RetrievalCandidate :=
  [cand (u "t1") (u "c1") []; cand (u "t1") (u "c2") (private [u "analyst"])].
Definition ports1 (up : list RetrievalCandidate) (mode : failure_mode) : rerank_ports Z :=
  {| upstream_retrieve := fun _ _ => mreturn up;
     rerank := fake_rerank clock1 (fake1 mode);
     rerank_clock := clock1 |}.
Definition start1 : rerank_world Z := {| kw_state := 0%Z; kw_last_trace := None; kw_log := [] |}.

Definition run1 (up : list RetrievalCandidate) (mode : failure_mode) (policy : FailurePolicy) :=
  Rerank.retrieve (ports1 up mode) (config1 policy) request1 filters1 start1.

Definition chunks {A} (r : result pyexc (list RetrievalCandidate) * A) : result pystr (list pystr) :=
  match r.1 with Ok l => Ok (rc_chunk_id <$> l) | Err e => Err (error_code_of e) end.

Example reordered : chunks (run1 upstream1 FailNone PolicyFallback) = Ok [u "c2"; u "c1"].
Proof. vm_compute. reflexivity. Qed.
Example fallback_keeps_order :
  chunks (run1 upstream1 FailInvalidScore PolicyFallback) = Ok [u "c1"; u "c2"].
Proof. vm_compute. reflexivity. Qed.
Example failing_closed :
  chunks (run1 upstream1 FailTimeout PolicyFailClosed) = Err RERANK_FAILED.
Proof. vm_compute. reflexivity. Qed.
Example foreign_refused :
  chunks (run1 dense1 FailNone PolicyFallback) = Err RERANK_INVALID_CANDIDATE.
Proof. vm_compute. reflexivity. Qed.

Definition out1 : list RetrievalCandidate :=
  match (run1 upstream1 FailNone PolicyFallback).1 with Ok l => l | Err _ => [] end.
Definition answer1 : result pyexc RerankResult :=
  (fake_rerank clock1 (fake1 FailInvalidScore) request1 filters1 (sanitised <$> upstream1) 1%Z).1.

Lemma reranked_authorized_witness :
  Rerank.retrieve (ports1 upstream1 FailNone)
    (config1 PolicyFallback) request1 filters1
    start1
  = (Ok out1,
     (run1 upstream1 FailNone PolicyFallback).2) /\
  NoDup (candidate_key <$> out1).
Proof.
  match goal with |- ?A = ?B /\ _ => assert (A = B) as H by (vm_compute; reflexivity) end.
  split; [exact H|].
  destruct (reranked_authorized _ _ _ _ _ _ _ H ltac:(vm_compute; discriminate))
    as (up & calls & _ & Hnd & _).
  exact Hnd.
Defined.

Lemma rerank_answer_exact_witness :
  follows (config1 PolicyFallback) request1 upstream1
    answer1
    (run1 upstream1 FailInvalidScore PolicyFallback).1
    (kw_last_trace (run1 upstream1 FailInvalidScore PolicyFallback).2).
Proof.
  exact (rerank_answer_exact (ports1 upstream1 FailInvalidScore)
    (config1 PolicyFallback) request1 filters1
    start1 _ _ upstream1 (sanitised <$> upstream1)
    answer1
    (surjective_pairing _) ltac:(vm_compute; discriminate) ltac:(vm_compute; reflexivity)).
Defined.
End RerankExamples.
