(* ===== verification/RetrievalCache.v ===== *)
(** The retrieval cache.

    Models [RetrievalCache] of [packages/retrieval/rerank/cache.py] with its
    in-memory backend: the key of a request, [get], [set], the least recently used
    eviction, expiry and [aclose].  The clock is an argument; the Redis backend is
    not modelled.

    - [cache_key_identifies]: requests that share a key are the same question of
      the same caller, or exhibit a collision of SHA-256;
    - [lru_refines]: the dictionary and the access list implement a bounded list
      in order of use. *)

From Stdlib Require Import ZArith String.
From S2P Require Import Prelude Float64 PyVal Access Redact Json JsonText Rrf Hybrid.
From stdpp Require Import base list gmap numbers sets.

(** * The key of a request *)

Section Key.
Context `{PyRepr}.

(** [_cache_payload]: [None] is a [TypeError]. *)
Fixpoint _cache_payload (value : pyval) : option pyval :=
  match value with
  | VDict d => VDict <$> mapM (fun kv => (fun v => (kv.1, v)) <$> _cache_payload kv.2) d
  | VList l | VTuple l => VList <$> mapM _cache_payload l
  | VSet _ => None
  | v => Some v
  end.

Definition request_payload (r : RetrievalRequest) : pyval :=
  VDict [(u "query", VStr (rq_query r)); (u "top_k", VInt (rq_top_k r));
         (u "metadata_filter", VDict (rq_metadata_filter r));
         (u "score_threshold", match rq_score_threshold r with
                               | Some x => VFloat x | None => VNone end)].

Definition filters_payload (f : RetrievalFilterSet) : pyval :=
  VDict [(u "tenant_id", VStr (fs_tenant_id f)); (u "user_id", VStr (fs_user_id f));
         (u "roles", VTuple (VStr <$> fs_roles f)); (u "department", opt_str (fs_department f));
         (u "permissions", VTuple (VStr <$> fs_permissions f));
         (u "metadata_filter", VDict (fs_metadata_filter f));
         (u "acl_filter", VDict (fs_acl_filter f));
         (u "include_deleted", VBool (fs_include_deleted f))].

(** The bytes that are hashed; [None] when a [TypeError] or a [ValueError] (NaN,
    a lone surrogate) stops the computation. *)
Definition key_bytes (r : RetrievalRequest) (f : RetrievalFilterSet) : option (list N) :=
  payload ← _cache_payload (VList [request_payload r; filters_payload f]);
  tree ← json_tree payload;
  utf8_encode (json_text tree).

Definition cache_key (r : RetrievalRequest) (f : RetrievalFilterSet) : option pystr :=
  (fun b => u "retrieval:v2:" ++ sha256_hex b) <$> key_bytes r f.
End Key.

(** * The cache *)

Record CacheEntry : Type := {
  ce_candidates : list RetrievalCandidate;
  ce_timestamp : float
}.

Record RetrievalCache : Type := {
  ca_max_size : Z;
  ca_ttl_seconds : float;
  ca_cache : list (pystr * CacheEntry);
  ca_access_order : list pystr;
  ca_hits : Z;
  ca_misses : Z;
  ca_closed : bool
}.

Definition new_cache (max_size : Z) (ttl_seconds : float) : RetrievalCache :=
  {| ca_max_size := max_size; ca_ttl_seconds := ttl_seconds; ca_cache := []; ca_access_order := [];
     ca_hits := 0; ca_misses := 0; ca_closed := false |}.

(** [l.remove(x)] when [x in l], and nothing otherwise. *)
Fixpoint remove_first (x : pystr) (l : list pystr) : list pystr :=
  match l with
  | [] => []
  | y :: l' => if decide (x = y) then l' else y :: remove_first x l'
  end.

Definition with_entries (c : RetrievalCache) (d : list (pystr * CacheEntry)) (order : list pystr)
    (hits misses : Z) : RetrievalCache :=
  {| ca_max_size := ca_max_size c; ca_ttl_seconds := ca_ttl_seconds c; ca_cache := d;
     ca_access_order := order; ca_hits := hits; ca_misses := misses; ca_closed := ca_closed c |}.

Definition _touch_lru (key : pystr) (order : list pystr) : list pystr :=
  remove_first key order ++ [key].

(** The loop of [_evict_lru]. *)
Fixpoint _evict_lru (max_size : Z) (d : list (pystr * CacheEntry)) (order : list pystr)
    : list (pystr * CacheEntry) * list pystr :=
  match order with
  | [] => (d, [])
  | oldest :: rest =>
      if (max_size <=? Z.of_nat (length d))%Z then _evict_lru max_size (dict_pop oldest d) rest
      else (d, order)
  end.

Definition expired (c : RetrievalCache) (now : float) (e : CacheEntry) : bool :=
  flt (ca_ttl_seconds c) (fsub now (ce_timestamp e)).

Definition cache_get (key : pystr) (now : float) (c : RetrievalCache)
    : option (list RetrievalCandidate) * RetrievalCache :=
  if ca_closed c then (None, c) else
  match dict_get key (ca_cache c) with
  | None =>
      (None, with_entries c (ca_cache c) (ca_access_order c) (ca_hits c) (ca_misses c + 1))
  | Some entry =>
      if expired c now entry
      then (None, with_entries c (dict_pop key (ca_cache c)) (remove_first key (ca_access_order c))
                    (ca_hits c) (ca_misses c + 1))
      else (Some (ce_candidates entry),
            with_entries c (ca_cache c) (_touch_lru key (ca_access_order c)) (ca_hits c + 1)
              (ca_misses c))
  end.

Definition cache_set (key : pystr) (candidates : list RetrievalCandidate) (now : float)
    (c : RetrievalCache) : RetrievalCache :=
  if ca_closed c then c else
  let '(d, order) :=
    match dict_get key (ca_cache c) with
    | None => if (ca_max_size c <=? Z.of_nat (length (ca_cache c)))%Z
              then _evict_lru (ca_max_size c) (ca_cache c) (ca_access_order c)
              else (ca_cache c, ca_access_order c)
    | Some _ => (ca_cache c, ca_access_order c)
    end in
  with_entries c (dict_set key {| ce_candidates := candidates; ce_timestamp := now |} d)
    (_touch_lru key order) (ca_hits c) (ca_misses c).

Definition cache_aclose (c : RetrievalCache) : RetrievalCache :=
  {| ca_max_size := ca_max_size c; ca_ttl_seconds := ca_ttl_seconds c; ca_cache := [];
     ca_access_order := []; ca_hits := ca_hits c; ca_misses := ca_misses c; ca_closed := true |}.

Definition hit_rate (c : RetrievalCache) : float :=
  let total := (ca_hits c + ca_misses c)%Z in
  if (0 <? total)%Z then fdiv (fofZ (ca_hits c)) (fofZ total) else fzero.

Inductive cache_op : Type :=
| OpGet (key : pystr) (now : float)
| OpSet (key : pystr) (candidates : list RetrievalCandidate) (now : float)
| OpClose.

Definition cache_step (c : RetrievalCache) (op : cache_op)
    : option (list RetrievalCandidate) * RetrievalCache :=
  match op with
  | OpGet key now => cache_get key now c
  | OpSet key candidates now => (None, cache_set key candidates now c)
  | OpClose => (None, cache_aclose c)
  end.

Fixpoint cache_run (c : RetrievalCache) (ops : list cache_op)
    : list (option (list RetrievalCandidate)) * RetrievalCache :=
  match ops with
  | [] => ([], c)
  | op :: ops' =>
      let '(r, c') := cache_step c op in
      let '(rs, c'') := cache_run c' ops' in (r :: rs, c'')
  end.

(** * A bounded list in order of use *)

(** What the cache is meant to be: entries from the least to the most recently
    used, at most [max_size] of them (one, if that is not positive). *)
Record lru : Type := {
  lru_max_size : Z;
  lru_ttl_seconds : float;
  lru_entries : list (pystr * CacheEntry);
  lru_closed : bool
}.

Definition lru_with (a : lru) (l : list (pystr * CacheEntry)) : lru :=
  {| lru_max_size := lru_max_size a; lru_ttl_seconds := lru_ttl_seconds a; lru_entries := l;
     lru_closed := lru_closed a |}.

Definition lru_step (a : lru) (op : cache_op) : option (list RetrievalCandidate) * lru :=
  match op with
  | OpClose => (None, {| lru_max_size := lru_max_size a; lru_ttl_seconds := lru_ttl_seconds a;
                         lru_entries := []; lru_closed := true |})
  | OpGet key now =>
      if lru_closed a then (None, a) else
      match dict_get key (lru_entries a) with
      | None => (None, a)
      | Some e =>
          if flt (lru_ttl_seconds a) (fsub now (ce_timestamp e))
          then (None, lru_with a (dict_pop key (lru_entries a)))
          else (Some (ce_candidates e), lru_with a (dict_pop key (lru_entries a) ++ [(key, e)]))
      end
  | OpSet key candidates now =>
      if lru_closed a then (None, a) else
      let l := lru_entries a in
      let surplus := Z.to_nat (Z.of_nat (length l) + 1 - lru_max_size a) in
      let l := match dict_get key l with Some _ => dict_pop key l | None => drop surplus l end in
      (None, lru_with a (l ++ [(key, {| ce_candidates := candidates; ce_timestamp := now |})]))
  end.

Fixpoint lru_run (a : lru) (ops : list cache_op) : list (option (list RetrievalCandidate)) * lru :=
  match ops with
  | [] => ([], a)
  | op :: ops' =>
      let '(r, a') := lru_step a op in
      let '(rs, a'') := lru_run a' ops' in (r :: rs, a'')
  end.

(** ** Lemmas on the dictionary and the access list *)

Lemma remove_first_fresh x l : x ∉ l -> remove_first x l = l.
Proof.
  induction l as [|y l IH]; intros Hx; simpl; [done|].
  rewrite decide_False by set_solver. f_equal. apply IH. set_solver.
Qed.

Lemma remove_first_elem x y l : NoDup l -> y ∈ remove_first x l <-> y ∈ l /\ y <> x.
Proof.
  intros Hnd. induction Hnd as [|z l Hz Hnd IH]; simpl; [set_solver|].
  destruct (decide (x = z)) as [->|Hne]; [|set_solver].
  split; [|set_solver]. intros Hy. split; [set_solver|]. by intros ->.
Qed.

Lemma remove_first_NoDup x l : NoDup l -> NoDup (remove_first x l).
Proof.
  intros Hnd. induction Hnd as [|z l Hz Hnd IH]; simpl; [constructor|].
  destruct (decide (x = z)); [done|]. constructor; [|done].
  rewrite remove_first_elem by done. by intros [? _].
Qed.

Lemma dict_pop_keys_iff {V} k k' (d : list (pystr * V)) :
  NoDup d.*1 -> k' ∈ (dict_pop k d).*1 <-> k' ∈ d.*1 /\ k' <> k.
Proof.
  induction d as [|[k1 v1] d IH]; simpl; intros Hnd; [set_solver|].
  apply list.NoDup_cons in Hnd as [Hn Hnd]. destruct (decide (k = k1)) as [->|]; simpl.
  - split; [|set_solver]. intros Hk. split; [set_solver|]. by intros ->.
  - rewrite !elem_of_cons, IH by done. set_solver.
Qed.

Lemma dict_pop_NoDup {V} k (d : list (pystr * V)) : NoDup d.*1 -> NoDup (dict_pop k d).*1.
Proof.
  induction d as [|[k1 v1] d IH]; simpl; intros Hnd; [constructor|].
  apply list.NoDup_cons in Hnd as [Hn Hnd]. destruct (decide (k = k1)); simpl; [done|].
  apply list.NoDup_cons. split; [|by apply IH]. rewrite dict_pop_keys_iff by done. by intros [? _].
Qed.

Lemma dict_pop_length {V} k (d : list (pystr * V)) :
  k ∈ d.*1 -> S (length (dict_pop k d)) = length d.
Proof.
  induction d as [|[k1 v1] d IH]; simpl; [set_solver|].
  destruct (decide (k = k1)); simpl; [done|]. intros Hk. rewrite IH; [done|set_solver].
Qed.

Lemma dict_get_Some_key {V} k (d : list (pystr * V)) : is_Some (dict_get k d) <-> k ∈ d.*1.
Proof.
  induction d as [|[k1 v1] d IH]; simpl; [split; [by intros []|set_solver]|].
  destruct (decide (k = k1)) as [->|Hne]; [split; [set_solver|eauto]|]. rewrite IH. set_solver.
Qed.

(** The entries in the order of the access list. *)
Fixpoint in_order (order : list pystr) (d : list (pystr * CacheEntry))
    : list (pystr * CacheEntry) :=
  match order with
  | [] => []
  | k :: rest =>
      match dict_get k d with Some e => (k, e) :: in_order rest d | None => in_order rest d end
  end.

Lemma in_order_ext order d d' :
  (forall k, k ∈ order -> dict_get k d = dict_get k d') -> in_order order d = in_order order d'.
Proof.
  induction order as [|k order IH]; intros Hd; simpl; [done|].
  rewrite (Hd k) by left. rewrite IH; [done|]. intros; apply Hd; by right.
Qed.

Lemma in_order_app o1 o2 d : in_order (o1 ++ o2) d = in_order o1 d ++ in_order o2 d.
Proof.
  induction o1 as [|k o1 IH]; simpl; [done|]. rewrite IH. by destruct (dict_get k d).
Qed.

Lemma in_order_keys order d :
  (forall k, k ∈ order -> k ∈ d.*1) -> (in_order order d).*1 = order.
Proof.
  induction order as [|k order IH]; intros Hd; simpl; [done|].
  destruct (proj2 (dict_get_Some_key k d)) as [e He]; [apply Hd; left|].
  rewrite He. simpl. f_equal. apply IH. intros; apply Hd; by right.
Qed.

Lemma in_order_get order d k :
  (forall k, k ∈ order -> k ∈ d.*1) -> k ∈ order -> dict_get k (in_order order d) = dict_get k d.
Proof.
  induction order as [|k' order IH]; intros Hd Hk; simpl; [set_solver|].
  destruct (proj2 (dict_get_Some_key k' d)) as [e He]; [apply Hd; left|].
  rewrite He. simpl. destruct (decide (k = k')) as [->|Hne]; [done|].
  apply IH; [intros; apply Hd; by right|set_solver].
Qed.

Lemma in_order_pop order d k :
  NoDup order -> NoDup d.*1 -> (forall k, k ∈ order -> k ∈ d.*1) ->
  in_order (remove_first k order) d = dict_pop k (in_order order d).
Proof.
  intros Hnd Hd Hin. induction Hnd as [|k' order Hk' Hnd IH]; simpl; [done|].
  destruct (proj2 (dict_get_Some_key k' d)) as [e He]; [apply Hin; left|].
  rewrite He. simpl. destruct (decide (k = k')) as [->|Hne]; [done|]. simpl. rewrite He. simpl.
  f_equal. apply IH. intros; apply Hin; by right.
Qed.

Record cache_wf (c : RetrievalCache) : Prop := {
  cw_keys : NoDup (ca_cache c).*1;
  cw_order : NoDup (ca_access_order c);
  cw_same : forall k, k ∈ ca_access_order c <-> k ∈ (ca_cache c).*1;
  cw_size : (Z.of_nat (length (ca_cache c)) <= Z.max 1 (ca_max_size c))%Z
}.

Definition abstraction (c : RetrievalCache) : lru :=
  {| lru_max_size := ca_max_size c; lru_ttl_seconds := ca_ttl_seconds c;
     lru_entries := in_order (ca_access_order c) (ca_cache c); lru_closed := ca_closed c |}.

Lemma same_length (order : list pystr) (d : list (pystr * CacheEntry)) :
  NoDup order -> NoDup d.*1 -> (forall k, k ∈ order <-> k ∈ d.*1) -> length order = length d.
Proof.
  intros Ho Hd Hs. rewrite <- (length_fmap fst d). apply Permutation_length, NoDup_Permutation; done.
Qed.

Lemma evict_spec max order : forall d,
  NoDup order -> NoDup d.*1 -> (forall k, k ∈ order <-> k ∈ d.*1) ->
  let '(d', order') := _evict_lru max d order in
  NoDup order' /\ NoDup d'.*1 /\ (forall k, k ∈ order' <-> k ∈ d'.*1) /\
  (forall k, k ∈ d'.*1 -> k ∈ d.*1) /\
  in_order order' d' = drop (Z.to_nat (Z.of_nat (length d) + 1 - max)) (in_order order d) /\
  (Z.of_nat (length d') < Z.max 1 max)%Z.
Proof.
  induction order as [|k order IH]; intros d Ho Hd Hs; simpl.
  { assert (d = []) as -> by (destruct d as [|kv d]; [done|]; exfalso; eapply not_elem_of_nil, Hs; left).
    rewrite drop_nil. split_and!; try done. simpl. lia. }
  destruct (max <=? Z.of_nat (length d))%Z eqn:Hm; bool_inv.
  - apply list.NoDup_cons in Ho as [Hk Ho].
    assert (k ∈ d.*1) as Hkd by (apply Hs; left).
    destruct (proj2 (dict_get_Some_key k d) Hkd) as [e He].
    pose proof (dict_pop_length k d Hkd) as Hlen.
    specialize (IH (dict_pop k d) Ho (dict_pop_NoDup k d Hd)).
    destruct (_evict_lru max (dict_pop k d) order) as [d' order'].
    destruct IH as (H1 & H2 & H3 & H4 & H5 & H6).
    { intros k'. rewrite dict_pop_keys_iff, <- Hs, elem_of_cons by done.
      split; [|tauto]. intros Hk'. split; [by right|]. by intros ->. }
    split_and!; try done.
    + intros k' Hk'%H4. by apply dict_pop_keys_iff in Hk' as [? _].
    + rewrite H5, He, (in_order_ext order (dict_pop k d) d).
      * replace (Z.to_nat (Z.of_nat (length d) + 1 - max))
          with (S (Z.to_nat (Z.of_nat (length (dict_pop k d)) + 1 - max))) by lia. done.
      * intros k' Hk'. apply dict_get_pop_ne. by intros ->.
  - replace (Z.to_nat (Z.of_nat (length d) + 1 - max)) with 0 by lia. rewrite drop_0.
    split_and!; try done. lia.
Qed.

Lemma dict_set_length_in {V} k v (d : list (pystr * V)) :
  k ∈ d.*1 -> length (dict_set k v d) = length d.
Proof.
  induction d as [|[k1 v1] d IH]; simpl; [set_solver|].
  destruct (decide (k = k1)); simpl; [done|]. intros Hk. f_equal. apply IH. set_solver.
Qed.

(** Putting an entry at the end of the order. *)
Lemma in_order_touch order d key e :
  NoDup order -> NoDup d.*1 -> (forall k, k ∈ order <-> k ∈ d.*1) ->
  in_order (_touch_lru key order) (dict_set key e d) = dict_pop key (in_order order d) ++ [(key, e)].
Proof.
  intros Ho Hd Hs. unfold _touch_lru. rewrite in_order_app. cbn [in_order]. rewrite dict_get_set.
  f_equal. rewrite <- in_order_pop by (done || naive_solver).
  apply in_order_ext. intros k [_ Hk]%remove_first_elem; [|done]. by apply dict_get_set_ne.
Qed.

Lemma touch_spec order key :
  NoDup order ->
  NoDup (_touch_lru key order) /\ forall k, k ∈ _touch_lru key order <-> k = key \/ k ∈ order.
Proof.
  intros Ho. unfold _touch_lru. split.
  - apply NoDup_app. split; [by apply remove_first_NoDup|]. split; [|apply NoDup_singleton].
    intros k [_ Hk]%remove_first_elem; [|done]. by rewrite list_elem_of_singleton.
  - intros k. rewrite elem_of_app, remove_first_elem, list_elem_of_singleton by done.
    destruct (decide (k = key)); naive_solver.
Qed.

Lemma dict_pop_fresh {V} k (d : list (pystr * V)) : k ∉ d.*1 -> dict_pop k d = d.
Proof.
  induction d as [|[k1 v1] d IH]; simpl; [done|]. intros Hk.
  rewrite decide_False by set_solver. f_equal. apply IH. set_solver.
Qed.

Lemma cache_set_refines key candidates now c :
  cache_wf c ->
  cache_wf (cache_set key candidates now c) /\
  abstraction (cache_set key candidates now c)
  = (lru_step (abstraction c) (OpSet key candidates now)).2.
Proof.
  intros [Hk Ho Hs Hz]. unfold cache_set, lru_step. cbn [abstraction lru_closed].
  destruct (ca_closed c) eqn:Hcl; [by split|]. cbn [lru_entries abstraction lru_max_size].
  assert (forall k, k ∈ ca_access_order c -> k ∈ (ca_cache c).*1) as Hin by naive_solver.
  assert (length (in_order (ca_access_order c) (ca_cache c)) = length (ca_cache c)) as Hlen.
  { rewrite <- (length_fmap fst), in_order_keys by done. by apply same_length. }
  destruct (dict_get key (ca_cache c)) as [e|] eqn:Hget.
  - assert (key ∈ (ca_cache c).*1) as Hkey by (apply dict_get_Some_key; eauto).
    rewrite (in_order_get _ _ key Hin), Hget by (by apply Hs).
    destruct (touch_spec (ca_access_order c) key Ho) as [Hnd Hel]. split.
    + constructor; cbn; [by apply dict_set_keys|done| |by rewrite dict_set_length_in].
      intros k. rewrite Hel, dict_set_keys_iff. naive_solver.
    + unfold abstraction, lru_with; cbn. f_equal. by apply in_order_touch.
  - assert (key ∉ (ca_cache c).*1) as Hkey by (by apply dict_get_None).
    assert (dict_get key (in_order (ca_access_order c) (ca_cache c)) = None) as ->.
    { destruct (dict_get key (in_order _ _)) eqn:Hx; [|done]. exfalso. apply Hkey, Hin.
      rewrite <- (in_order_keys (ca_access_order c) (ca_cache c)) by done.
      apply dict_get_Some_key. eauto. }
    assert (exists d order, (if (ca_max_size c <=? Z.of_nat (length (ca_cache c)))%Z
              then _evict_lru (ca_max_size c) (ca_cache c) (ca_access_order c)
              else (ca_cache c, ca_access_order c)) = (d, order) /\
            NoDup order /\ NoDup d.*1 /\ (forall k, k ∈ order <-> k ∈ d.*1) /\ key ∉ d.*1 /\
            in_order order d = drop (Z.to_nat (Z.of_nat (length (ca_cache c)) + 1 - ca_max_size c))
                                 (in_order (ca_access_order c) (ca_cache c)) /\
            (Z.of_nat (length d) < Z.max 1 (ca_max_size c))%Z)
      as (d & order & -> & H1 & H2 & H3 & H4 & H5 & H6).
    { destruct (_ <=? _)%Z eqn:Hm; bool_inv.
      - pose proof (evict_spec (ca_max_size c) (ca_access_order c) (ca_cache c) Ho Hk Hs) as He.
        destruct (_evict_lru _ _ _) as [d order]. exists d, order. naive_solver.
      - eexists _, _. split; [done|]. split_and!; try done; [|lia].
        replace (Z.to_nat _) with 0 by lia. by rewrite drop_0. }
    destruct (touch_spec order key H1) as [Hnd Hel]. split.
    + constructor; cbn; [by apply dict_set_keys|done| |].
      * intros k. rewrite Hel, dict_set_keys_iff. naive_solver.
      * rewrite dict_set_fresh, length_app by done. cbn. lia.
    + unfold abstraction, lru_with; cbn. rewrite Hlen. f_equal.
      rewrite in_order_touch, H5 by done. f_equal. apply dict_pop_fresh.
      rewrite <- H5, in_order_keys by naive_solver. by rewrite H3.
Qed.

Lemma cache_get_refines key now c :
  cache_wf c ->
  cache_wf (cache_get key now c).2 /\
  (cache_get key now c).1 = (lru_step (abstraction c) (OpGet key now)).1 /\
  abstraction (cache_get key now c).2 = (lru_step (abstraction c) (OpGet key now)).2.
Proof.
  intros Hwf. pose proof Hwf as [Hk Ho Hs Hz]. unfold cache_get, lru_step. cbn [abstraction lru_closed].
  destruct (ca_closed c) eqn:Hcl; [done|]. cbn [lru_entries abstraction lru_ttl_seconds].
  assert (forall k, k ∈ ca_access_order c -> k ∈ (ca_cache c).*1) as Hin by naive_solver.
  destruct (dict_get key (ca_cache c)) as [e|] eqn:Hget.
  - assert (key ∈ (ca_cache c).*1) as Hkey by (apply dict_get_Some_key; eauto).
    rewrite (in_order_get _ _ key Hin), Hget by (by apply Hs). unfold expired.
    destruct (flt _ _); cbn.
    + split_and!; [|done|].
      * constructor; cbn; [by apply dict_pop_NoDup|by apply remove_first_NoDup| |].
        -- intros k. rewrite remove_first_elem, dict_pop_keys_iff, Hs by done. done.
        -- pose proof (dict_pop_length key _ Hkey). lia.
      * unfold abstraction, lru_with; cbn. f_equal.
        rewrite <- in_order_pop by done. apply in_order_ext.
        intros k [_ Hne]%remove_first_elem; [|done]. by apply dict_get_pop_ne.
    + destruct (touch_spec (ca_access_order c) key Ho) as [Hnd Hel]. split_and!; [|done|].
      * constructor; cbn; [done|done| |done]. intros k. rewrite Hel. naive_solver.
      * unfold abstraction, lru_with; cbn. f_equal.
        unfold _touch_lru. rewrite in_order_app. cbn [in_order]. rewrite Hget.
        f_equal. by apply in_order_pop.
  - assert (dict_get key (in_order (ca_access_order c) (ca_cache c)) = None) as ->.
    { destruct (dict_get key (in_order _ _)) eqn:Hx; [|done]. exfalso.
      apply (dict_get_None key (ca_cache c) Hget), Hin.
      rewrite <- (in_order_keys (ca_access_order c) (ca_cache c)) by done.
      apply dict_get_Some_key. eauto. }
    cbn. split_and!; [by constructor|done|done].
Qed.

Lemma cache_step_refines c op :
  cache_wf c ->
  cache_wf (cache_step c op).2 /\
  (cache_step c op).1 = (lru_step (abstraction c) op).1 /\
  abstraction (cache_step c op).2 = (lru_step (abstraction c) op).2.
Proof.
  intros Hwf. destruct op as [key now|key cs now|]; [by apply cache_get_refines| |].
  - destruct (cache_set_refines key cs now c Hwf) as [Hw Ha]. split_and!; [exact Hw| |exact Ha].
    cbn. by destruct (ca_closed c).
  - split_and!; [|done|done]. constructor; cbn; [apply NoDup_nil_2|apply NoDup_nil_2|done|lia].
Qed.

Lemma cache_run_refines ops c :
  cache_wf c ->
  cache_wf (cache_run c ops).2 /\
  (cache_run c ops).1 = (lru_run (abstraction c) ops).1 /\
  abstraction (cache_run c ops).2 = (lru_run (abstraction c) ops).2.
Proof.
  revert c. induction ops as [|op ops IH]; intros c Hwf; [done|]. simpl.
  destruct (cache_step_refines c op Hwf) as (Hwf' & Hr & Ha).
  destruct (cache_step c op) as [r c']. destruct (lru_step (abstraction c) op) as [r' a'].
  cbn in *. subst. destruct (IH c' Hwf') as (Hw & Hrs & Hab).
  destruct (cache_run c' ops), (lru_run (abstraction c') ops). cbn in *. by subst.
Qed.

(** A property of all entries, through lookups and stores. *)
Lemma evict_Forall (P : pystr * CacheEntry -> Prop) max order : forall d,
  Forall P d -> Forall P (_evict_lru max d order).1.
Proof.
  induction order as [|k order IH]; intros d Hd; simpl; [done|].
  destruct (_ <=? _)%Z; [|done]. by apply IH, dict_pop_Forall.
Qed.

Lemma cache_get_Forall (P : pystr * CacheEntry -> Prop) key now c :
  Forall P (ca_cache c) ->
  Forall P (ca_cache (cache_get key now c).2) /\
  forall l, (cache_get key now c).1 = Some l -> exists e, P (key, e) /\ ce_candidates e = l.
Proof.
  intros Hc. unfold cache_get. destruct (ca_closed c); [done|].
  destruct (dict_get key (ca_cache c)) as [e|] eqn:He; [|done].
  destruct (expired c now e); cbn; [split; [by apply dict_pop_Forall|done]|].
  split; [done|]. intros l [= <-]. exists e. split; [|done].
  apply dict_get_elem in He. rewrite list.Forall_forall in Hc. by apply Hc.
Qed.

Lemma cache_set_Forall (P : pystr * CacheEntry -> Prop) key l now c :
  P (key, {| ce_candidates := l; ce_timestamp := now |}) -> Forall P (ca_cache c) ->
  Forall P (ca_cache (cache_set key l now c)).
Proof.
  intros Hk Hc. unfold cache_set. destruct (ca_closed c); [done|].
  destruct (dict_get key (ca_cache c)); cbn; [by apply dict_set_Forall|].
  destruct (_ <=? _)%Z; [|by apply dict_set_Forall].
  pose proof (evict_Forall P (ca_max_size c) (ca_access_order c) (ca_cache c) Hc) as He.
  destruct (_evict_lru _ _ _) as [d order]. by apply dict_set_Forall.
Qed.

Lemma new_cache_wf max ttl : cache_wf (new_cache max ttl).
Proof. constructor; cbn; [apply NoDup_nil_2|apply NoDup_nil_2|done|lia]. Qed.

(** C26: the cache is a bounded list in order of use.  Whatever is looked up,
    stored and closed, the answers of the dictionary with its access list are
    those of the list that moves an entry to the end when it is used, drops an
    expired entry when it is asked for, and drops the least recently used entries
    before it would outgrow [max_size]; the dictionary and the access list always
    name the same keys, each once, and there are never more than [max_size]
    entries (one, where [max_size] is not positive). *)
Theorem lru_refines max ttl ops :
  let c := (cache_run (new_cache max ttl) ops).2 in
  let spec := lru_run {| lru_max_size := max; lru_ttl_seconds := ttl; lru_entries := [];
                         lru_closed := false |} ops in
  (cache_run (new_cache max ttl) ops).1 = spec.1 /\
  in_order (ca_access_order c) (ca_cache c) = lru_entries spec.2 /\
  ca_access_order c ≡ₚ (ca_cache c).*1 /\ NoDup (ca_cache c).*1 /\
  (Z.of_nat (length (ca_cache c)) <= Z.max 1 (ca_max_size c))%Z.
Proof.
  destruct (cache_run_refines ops _ (new_cache_wf max ttl)) as ([Hk Ho Hs Hz] & Hr & Ha).
  cbv zeta. split_and!; try done.
  - by apply (f_equal lru_entries) in Ha.
  - by apply NoDup_Permutation.
Qed.

(** * What a key identifies *)

Lemma payload_tree v p : _cache_payload v = Some p -> json_tree p = json_tree v.
Proof.
  assert (forall l ps, Forall (fun v => forall p, _cache_payload v = Some p -> json_tree p = json_tree v) l ->
            mapM _cache_payload l = Some ps -> mapM json_tree ps = mapM json_tree l) as Hl.
  { intros l ps IH Hm. apply mapM_Some in Hm.
    induction Hm as [|x y l ps Hv Hm IHm]; [done|]. apply list.Forall_cons in IH as [Hi IH].
    cbn. by rewrite (Hi y Hv), (IHm IH). }
  revert p. induction v as [| | |x| |l IH|l IH| |d IH] using pyval_nested_ind; intros p; cbn;
    try (by intros [= <-]); try done.
  - intros (ps & Hm & ->)%fmap_Some. cbn. by rewrite (Hl l ps IH Hm).
  - intros (ps & Hm & ->)%fmap_Some. cbn. by rewrite (Hl l ps IH Hm).
  - intros (ps & Hm & ->)%fmap_Some. cbn. apply (f_equal (fmap _)). apply mapM_Some in Hm.
    induction Hm as [|[k v] q d ps Hv Hm IHm]; [done|]. apply list.Forall_cons in IH as [Hi IH].
    cbn in Hv, Hi. destruct (_cache_payload v) as [pv|] eqn:Hp; [|done]. injection Hv as <-.
    cbn. by rewrite (Hi pv eq_refl), (IHm IH).
Qed.

Lemma dict_get_perm {V} (d e : list (pystr * V)) k :
  NoDup d.*1 -> d ≡ₚ e -> dict_get k d = dict_get k e.
Proof.
  intros Hd Hp. assert (NoDup e.*1) as He by (by rewrite <- Hp).
  destruct (dict_get k d) as [v|] eqn:Hv.
  - symmetry. apply dict_get_NoDup; [done|]. rewrite <- Hp. by apply dict_get_elem.
  - destruct (dict_get k e) as [w|] eqn:Hw; [|done]. apply dict_get_elem in Hw. rewrite <- Hp in Hw.
    by rewrite (dict_get_NoDup k w d Hd Hw) in Hv.
Qed.

(** Two values a tree cannot tell apart. *)
Definition same_tree (v w : option pyval) : Prop :=
  match v, w with
  | None, None => True
  | Some v, Some w => exists t, json_tree v = Some t /\ json_tree w = Some t
  | _, _ => False
  end.

Lemma tree_entries (d : pydict) ts :
  mapM (fun kv => (fun t => (kv.1, t)) <$> json_tree kv.2) d = Some ts ->
  ts.*1 = d.*1 /\
  forall k, match dict_get k d with
            | Some v => exists t, json_tree v = Some t /\ dict_get k ts = Some t
            | None => dict_get k ts = None
            end.
Proof.
  intros Hm. apply mapM_Some in Hm. induction Hm as [|[k v] t d ts Hv Hm [IHk IHg]]; [done|].
  cbn in Hv. destruct (json_tree v) as [tv|] eqn:Ht; [|done]. injection Hv as <-. cbn. split.
  - f_equal. exact IHk.
  - intros k'. destruct (decide (k' = k)) as [->|Hne]; [eauto|apply IHg].
Qed.

Lemma dict_tree_get (d e : pydict) t :
  NoDup d.*1 -> NoDup e.*1 -> json_tree (VDict d) = Some t -> json_tree (VDict e) = Some t ->
  forall k, same_tree (dict_get k d) (dict_get k e).
Proof.
  cbn. intros Hd He (ts & Hts & ->)%fmap_Some (us & Hus & Heq)%fmap_Some k.
  injection Heq as Heq. apply tree_entries in Hts as [Htk Htg], Hus as [Huk Hug].
  assert (ts ≡ₚ us) as Hp by (by rewrite (py_sort_perm key_lt ts), Heq, <- py_sort_perm).
  specialize (Htg k). specialize (Hug k).
  rewrite (dict_get_perm ts us k) in Htg by (by rewrite ?Htk). unfold same_tree.
  destruct (dict_get k d), (dict_get k e); naive_solver.
Qed.

(** The values a metadata filter holds: distinct keys, scalars. *)
Definition plain_filter (d : pydict) : Prop :=
  NoDup d.*1 /\ Forall (fun kv => is_scalar kv.2 = true) d.
Definition same_entries (d e : pydict) : Prop := forall k, dict_get k d = dict_get k e.

Lemma same_tree_scalar v w :
  is_scalar v = true -> is_scalar w = true -> same_tree (Some v) (Some w) -> v = w.
Proof.
  intros Hv Hw (t & H1 & H2).
  destruct v as [|[]|z|x|s| | | |]; try done; destruct w as [|[]|z'|x'|s'| | | |]; try done;
    cbn in H1, H2; repeat case_match; simplify_eq; done.
Qed.

Lemma plain_entries d e t :
  plain_filter d -> plain_filter e ->
  json_tree (VDict d) = Some t -> json_tree (VDict e) = Some t -> same_entries d e.
Proof.
  intros [Hd Sd] [He Se] H1 H2 k. pose proof (dict_tree_get d e t Hd He H1 H2 k) as Hk.
  destruct (dict_get k d) as [v|] eqn:Hv, (dict_get k e) as [w|] eqn:Hw; try done. f_equal.
  apply dict_get_elem in Hv, Hw. rewrite list.Forall_forall in Sd, Se.
  by apply same_tree_scalar; [apply (Sd _ Hv)|apply (Se _ Hw)|].
Qed.

Lemma texts_tree l t : json_tree (VTuple (VStr <$> l)) = Some t <-> t = JArr (JStr <$> l).
Proof.
  cbn. assert (mapM json_tree (VStr <$> l) = Some (JStr <$> l)) as ->.
  { induction l as [|s l IH]; [done|]. cbn. by rewrite IH. }
  split; [by intros [= <-]|by intros ->].
Qed.

Lemma same_texts l m : same_tree (Some (VTuple (VStr <$> l))) (Some (VTuple (VStr <$> m))) -> l = m.
Proof.
  intros (t & H1%texts_tree & H2%texts_tree). subst t. injection H2 as H2.
  revert m H2. induction l as [|s l IH]; intros [|s' m] H2; try done. cbn in H2.
  injection H2 as -> H2. f_equal. by apply IH.
Qed.

(** The same question asked by the same caller. *)
Record same_question (r1 : RetrievalRequest) (f1 : RetrievalFilterSet) (r2 : RetrievalRequest)
    (f2 : RetrievalFilterSet) : Prop := {
  sq_query : rq_query r1 = rq_query r2;
  sq_top_k : rq_top_k r1 = rq_top_k r2;
  sq_threshold : rq_score_threshold r1 = rq_score_threshold r2;
  sq_metadata : same_entries (rq_metadata_filter r1) (rq_metadata_filter r2);
  sq_tenant : fs_tenant_id f1 = fs_tenant_id f2;
  sq_user : fs_user_id f1 = fs_user_id f2;
  sq_roles : fs_roles f1 = fs_roles f2;
  sq_department : fs_department f1 = fs_department f2;
  sq_permissions : fs_permissions f1 = fs_permissions f2;
  sq_filter : same_entries (fs_metadata_filter f1) (fs_metadata_filter f2);
  sq_deleted : fs_include_deleted f1 = fs_include_deleted f2
}.

Definition plain_question (r : RetrievalRequest) (f : RetrievalFilterSet) : Prop :=
  plain_filter (rq_metadata_filter r) /\ plain_filter (fs_metadata_filter f).

Ltac distinct_keys := apply (bool_decide_unpack _); vm_compute; exact I.

Lemma request_fields r1 r2 t :
  plain_filter (rq_metadata_filter r1) -> plain_filter (rq_metadata_filter r2) ->
  json_tree (request_payload r1) = Some t -> json_tree (request_payload r2) = Some t ->
  rq_query r1 = rq_query r2 /\ rq_top_k r1 = rq_top_k r2 /\
  rq_score_threshold r1 = rq_score_threshold r2 /\
  same_entries (rq_metadata_filter r1) (rq_metadata_filter r2).
Proof.
  intros P1 P2 H1 H2. unfold request_payload in H1, H2.
  pose proof (fun N1 N2 => dict_tree_get _ _ t N1 N2 H1 H2) as Hk.
  specialize (Hk ltac:(distinct_keys) ltac:(distinct_keys)).
  pose proof (Hk (u "query")) as Hq. pose proof (Hk (u "top_k")) as Hn.
  pose proof (Hk (u "score_threshold")) as Ht. pose proof (Hk (u "metadata_filter")) as Hm.
  split_and!.
  - apply same_tree_scalar in Hq; [by injection Hq|done|done].
  - apply same_tree_scalar in Hn; [by injection Hn|done|done].
  - change (same_tree (Some (match rq_score_threshold r1 with Some x => VFloat x | None => VNone end))
      (Some (match rq_score_threshold r2 with Some x => VFloat x | None => VNone end))) in Ht.
    destruct (rq_score_threshold r1), (rq_score_threshold r2);
      (apply same_tree_scalar in Ht; [|done|done]); by simplify_eq.
  - destruct Hm as (tm & Hm1 & Hm2). by apply (plain_entries _ _ tm).
Qed.

Lemma filters_fields f1 f2 t :
  plain_filter (fs_metadata_filter f1) -> plain_filter (fs_metadata_filter f2) ->
  json_tree (filters_payload f1) = Some t -> json_tree (filters_payload f2) = Some t ->
  fs_tenant_id f1 = fs_tenant_id f2 /\ fs_user_id f1 = fs_user_id f2 /\
  fs_roles f1 = fs_roles f2 /\ fs_department f1 = fs_department f2 /\
  fs_permissions f1 = fs_permissions f2 /\
  same_entries (fs_metadata_filter f1) (fs_metadata_filter f2) /\
  fs_include_deleted f1 = fs_include_deleted f2.
Proof.
  intros P1 P2 H1 H2. unfold filters_payload in H1, H2.
  pose proof (fun N1 N2 => dict_tree_get _ _ t N1 N2 H1 H2) as Hk.
  specialize (Hk ltac:(distinct_keys) ltac:(distinct_keys)).
  pose proof (Hk (u "tenant_id")) as Ht. pose proof (Hk (u "user_id")) as Hu.
  pose proof (Hk (u "roles")) as Hr. pose proof (Hk (u "department")) as Hd.
  pose proof (Hk (u "permissions")) as Hp. pose proof (Hk (u "metadata_filter")) as Hm.
  pose proof (Hk (u "include_deleted")) as Hi. clear Hk H1 H2.
  split_and!.
  - apply same_tree_scalar in Ht; [by injection Ht|done|done].
  - apply same_tree_scalar in Hu; [by injection Hu|done|done].
  - by apply same_texts.
  - change (same_tree (Some (opt_str (fs_department f1))) (Some (opt_str (fs_department f2)))) in Hd.
    destruct (fs_department f1), (fs_department f2);
      (apply same_tree_scalar in Hd; [|done|done]); by simplify_eq/=.
  - by apply same_texts.
  - destruct Hm as (tm & Hm1 & Hm2). by apply (plain_entries _ _ tm).
  - apply same_tree_scalar in Hi; [by injection Hi|done|done].
Qed.

Lemma matches_entries md d e :
  NoDup d.*1 -> NoDup e.*1 -> same_entries d e -> _metadata_matches md d = _metadata_matches md e.
Proof.
  assert (forall d e, NoDup d.*1 -> NoDup e.*1 -> same_entries d e ->
            _metadata_matches md d = true -> _metadata_matches md e = true) as Hone.
  { intros d' e' Hd He Hs Ht. unfold _metadata_matches in *. apply forallb_forall. intros [k v] Hkv.
    rewrite forallb_forall in Ht. apply Ht. apply list_elem_of_In in Hkv. apply list_elem_of_In.
    apply dict_get_elem. rewrite Hs. by apply dict_get_NoDup. }
  intros Hd He Hs. apply Bool.eq_true_iff_eq. split; apply Hone; try done. intros k. by rewrite Hs.
Qed.

Lemma same_scope `{PyRepr} r1 f1 r2 f2 :
  plain_question r1 f1 -> plain_question r2 f2 -> same_question r1 f1 r2 f2 ->
  forall c, _candidate_in_scope c f1 = _candidate_in_scope c f2.
Proof.
  intros [_ [H1 _]] [_ [H2 _]] Hq c. unfold _candidate_in_scope, to_vector_acl_filter.
  rewrite (sq_tenant _ _ _ _ Hq), (sq_user _ _ _ _ Hq), (sq_roles _ _ _ _ Hq),
    (sq_department _ _ _ _ Hq), (sq_permissions _ _ _ _ Hq).
  by rewrite (matches_entries _ _ _ H1 H2 (sq_filter _ _ _ _ Hq)).
Qed.

(** The digests of two requests are equal though their bytes differ. *)
Definition collision `{PyRepr} (r1 : RetrievalRequest) (f1 : RetrievalFilterSet)
    (r2 : RetrievalRequest) (f2 : RetrievalFilterSet) : Prop :=
  exists b1 b2, key_bytes r1 f1 = Some b1 /\ key_bytes r2 f2 = Some b2 /\ b1 <> b2 /\
    sha256_hex b1 = sha256_hex b2.

Lemma key_bytes_inv `{PyRepr} r f b :
  key_bytes r f = Some b ->
  exists t1 t2, json_tree (request_payload r) = Some t1 /\ json_tree (filters_payload f) = Some t2 /\
    utf8_encode (json_text (JArr [t1; t2])) = Some b /\ finite_tree (JArr [t1; t2]) = true.
Proof.
  unfold key_bytes. destruct (_cache_payload _) as [p|] eqn:Hp; [|done]. cbn [mbind option_bind].
  apply payload_tree in Hp. rewrite Hp. intros (t & Ht & Hb)%bind_Some.
  pose proof (json_tree_finite _ _ Ht) as Hf. cbn [json_tree mapM] in Ht.
  destruct (json_tree (request_payload r)) as [t1|]; [|discriminate Ht].
  destruct (json_tree (filters_payload f)) as [t2|]; [|discriminate Ht]. injection Ht as <-.
  by exists t1, t2.
Qed.

(** The cache key identifies the question and the caller.  When two requests
    have the same key, they ask the same query with the same [top_k], threshold
    and metadata filter for the same tenant, user, roles, department and
    permissions, so that exactly the same candidates are in their scope, unless
    the two encodings are a collision of SHA-256.  Tenants, users or filters
    never share an entry by the way the payload is written down. *)
Lemma cache_key_identifies `{FloatRepr} r1 f1 r2 f2 key :
  cache_key r1 f1 = Some key -> cache_key r2 f2 = Some key ->
  plain_question r1 f1 -> plain_question r2 f2 ->
  (same_question r1 f1 r2 f2 /\ forall c, _candidate_in_scope c f1 = _candidate_in_scope c f2) \/
  collision r1 f1 r2 f2.
Proof.
  unfold cache_key. intros (b1 & Hb1 & ->)%fmap_Some (b2 & Hb2 & Heq)%fmap_Some P1 P2.
  apply app_inv_head in Heq. destruct (decide (b1 = b2)) as [<-|Hne].
  2: { right. by exists b1, b2. }
  left. apply key_bytes_inv in Hb1 as (t1 & t2 & Hr1 & Hf1 & He1 & Hfin1).
  apply key_bytes_inv in Hb2 as (t1' & t2' & Hr2 & Hf2 & He2 & Hfin2).
  pose proof (utf8_encode_inj _ _ _ He1 He2) as Ht.
  apply (json_text_inj _ _ Hfin1 Hfin2) in Ht. injection Ht as <- <-.
  destruct (request_fields r1 r2 t1 (proj1 P1) (proj1 P2) Hr1 Hr2) as (? & ? & ? & ?).
  destruct (filters_fields f1 f2 t2 (proj2 P1) (proj2 P2) Hf1 Hf2) as (? & ? & ? & ? & ? & ? & ?).
  assert (same_question r1 f1 r2 f2) as Hq by (constructor; assumption).
  split; [done|]. by apply (same_scope r1 f1 r2 f2).
Qed.
