(* ===== verification/CachedRetriever.v ===== *)
(** Shared flights of the cached retriever.

    Models [CachedRetriever] of [packages/retrieval/rerank/cache.py] over
    [RetrievalCache].  One wrapper serves many concurrent callers: callers with the
    same identity (key, request id and trace id) share one task, which outlives
    the cancellation of some of its waiters and is cancelled with the last of
    them.  What happens between two awaits is one event; [step] is the effect of
    an event, [None] where it cannot happen.  The answers of the upstream
    retriever, the clock and the order of events are arbitrary, and so is what the
    other wrappers of the shared cache do with it.

    - [flights_share_safely]: no two running tasks serve one identity, and nobody
      waits for a task that is being cancelled;
    - [cached_answers_own_question]: what a caller gets was returned by an upstream
      retriever for the caller's own question and access scope;
    - [flights_progress]: nobody waits for an event that cannot come. *)

From Stdlib Require Import ZArith String.
From S2P Require Import Prelude Float64 PyVal Access Json JsonText Rrf Hybrid RetrievalCache.
From stdpp Require Import base list gmap numbers sets.

(** * State *)

Definition flight_identity : Type := pystr * pystr * pystr.

(** How a task ended: with the outcome of its body, or cancelled on behalf of its
    last waiter. *)
Inductive task_outcome : Type :=
| TaskResult (r : result pyexc (list RetrievalCandidate))
| TaskCancelled.

(** Where [_retrieve_cached] stands. *)
Inductive task_phase : Type :=
| TaskGet
| TaskUpstream
| TaskSet (result : list RetrievalCandidate)
| TaskDone (outcome : task_outcome).

Record RetrievalFlight : Type := {
  fl_key : pystr;
  fl_request : RetrievalRequest;
  fl_filters : RetrievalFilterSet;
  fl_phase : task_phase;
  fl_waiters : nat;
  fl_abandoned : bool
}.

Inductive caller_outcome : Type :=
| CallerResult (r : result pyexc (list RetrievalCandidate))
| CallerCancelled.

(** Where a call of [retrieve] stands: at the upstream retriever without a key, at
    the shielded task, behind an abandoned flight, cleaning up as the last waiter,
    or over. *)
Inductive caller_state : Type :=
| CallerDirect
| CallerWaiting (fid : nat)
| CallerBlocked (fid : nat)
| CallerCleaning (fid : nat)
| CallerDone (outcome : caller_outcome).

Record caller : Type := {
  cl_request : RetrievalRequest;
  cl_filters : RetrievalFilterSet;
  cl_state : caller_state
}.

(** The wrapper with its cache; [wr_upstream] remembers what the upstream
    retrievers of this cache returned. *)
Record wrapper : Type := {
  wr_cache : RetrievalCache;
  wr_flights : gmap nat RetrievalFlight;
  wr_inflight : gmap flight_identity nat;
  wr_callers : gmap nat caller;
  wr_upstream : list (RetrievalRequest * RetrievalFilterSet * list RetrievalCandidate)
}.

Definition new_wrapper (c : RetrievalCache) : wrapper :=
  {| wr_cache := c; wr_flights := ∅; wr_inflight := ∅; wr_callers := ∅; wr_upstream := [] |}.

Definition identity_of (key : pystr) (r : RetrievalRequest) : flight_identity :=
  (key, rq_request_id r, rq_trace_id r).
Definition identity_of_flight (fl : RetrievalFlight) : flight_identity :=
  identity_of (fl_key fl) (fl_request fl).

Definition task_done (fl : RetrievalFlight) : bool :=
  match fl_phase fl with TaskDone _ => true | _ => false end.

Definition with_phase (fl : RetrievalFlight) (ph : task_phase) : RetrievalFlight :=
  {| fl_key := fl_key fl; fl_request := fl_request fl; fl_filters := fl_filters fl; fl_phase := ph;
     fl_waiters := fl_waiters fl; fl_abandoned := fl_abandoned fl |}.
Definition with_waiters (fl : RetrievalFlight) (n : nat) (abandoned : bool) : RetrievalFlight :=
  {| fl_key := fl_key fl; fl_request := fl_request fl; fl_filters := fl_filters fl;
     fl_phase := fl_phase fl; fl_waiters := n; fl_abandoned := abandoned |}.

Definition set_flight (w : wrapper) (fid : nat) (fl : RetrievalFlight) : wrapper :=
  {| wr_cache := wr_cache w; wr_flights := <[fid := fl]> (wr_flights w);
     wr_inflight := wr_inflight w; wr_callers := wr_callers w; wr_upstream := wr_upstream w |}.
Definition set_caller (w : wrapper) (id : nat) (c : caller) : wrapper :=
  {| wr_cache := wr_cache w; wr_flights := wr_flights w; wr_inflight := wr_inflight w;
     wr_callers := <[id := c]> (wr_callers w); wr_upstream := wr_upstream w |}.
Definition set_cache (w : wrapper) (c : RetrievalCache) : wrapper :=
  {| wr_cache := c; wr_flights := wr_flights w; wr_inflight := wr_inflight w;
     wr_callers := wr_callers w; wr_upstream := wr_upstream w |}.
Definition set_inflight (w : wrapper) (m : gmap flight_identity nat) : wrapper :=
  {| wr_cache := wr_cache w; wr_flights := wr_flights w; wr_inflight := m;
     wr_callers := wr_callers w; wr_upstream := wr_upstream w |}.
Definition log_upstream (w : wrapper) (r : RetrievalRequest) (f : RetrievalFilterSet)
    (answer : result pyexc (list RetrievalCandidate)) : wrapper :=
  match answer with
  | Ok l => {| wr_cache := wr_cache w; wr_flights := wr_flights w; wr_inflight := wr_inflight w;
               wr_callers := wr_callers w; wr_upstream := wr_upstream w ++ [(r, f, l)] |}
  | Err _ => w
  end.

Definition in_state (r : RetrievalRequest) (f : RetrievalFilterSet) (s : caller_state) : caller :=
  {| cl_request := r; cl_filters := f; cl_state := s |}.

(** * Steps *)

(** One turn of the loop of [retrieve], up to its next await: start a task where
    there is none, join a flight that is not abandoned, or wait for the end of one
    that is. *)
Definition attach (id : nat) (r : RetrievalRequest) (f : RetrievalFilterSet) (key : pystr)
    (w : wrapper) : wrapper :=
  match wr_inflight w !! identity_of key r with
  | None =>
      let fid := fresh (dom (wr_flights w)) in
      let w := set_flight w fid
        {| fl_key := key; fl_request := r; fl_filters := f; fl_phase := TaskGet; fl_waiters := 1;
           fl_abandoned := false |} in
      let w := set_inflight w (<[identity_of key r := fid]> (wr_inflight w)) in
      set_caller w id (in_state r f (CallerWaiting fid))
  | Some fid =>
      match wr_flights w !! fid with
      | None => w
      | Some fl =>
          if fl_abandoned fl then set_caller w id (in_state r f (CallerBlocked fid))
          else set_caller (set_flight w fid (with_waiters fl (S (fl_waiters fl)) false)) id
                 (in_state r f (CallerWaiting fid))
      end
  end.

(** The [finally] of a waiter that leaves: the last one of a running task abandons
    it and stays until the task is over. *)
Definition leave (w : wrapper) (id : nat) (c : caller) (fid : nat) (fl : RetrievalFlight)
    (outcome : caller_outcome) : wrapper :=
  let waiters := pred (fl_waiters fl) in
  if (waiters =? 0) && negb (task_done fl)
  then set_caller (set_flight w fid (with_waiters fl waiters true)) id
         (in_state (cl_request c) (cl_filters c) (CallerCleaning fid))
  else set_caller (set_flight w fid (with_waiters fl waiters (fl_abandoned fl))) id
         (in_state (cl_request c) (cl_filters c) (CallerDone outcome)).

Inductive event : Type :=
| EvCall (id : nat) (r : RetrievalRequest) (f : RetrievalFilterSet)   (* a caller arrives *)
| EvDirect (id : nat) (answer : result pyexc (list RetrievalCandidate))   (* upstream, no key *)
| EvUnblock (id : nat)     (* the awaited abandoned task is over *)
| EvGet (fid : nat) (now : float)
| EvUpstream (fid : nat) (answer : result pyexc (list RetrievalCandidate))
| EvSet (fid : nat) (now : float)
| EvTaskCancel (fid : nat)   (* the cancellation of an abandoned task arrives *)
| EvFinished (fid : nat)     (* the done callback *)
| EvDeliver (id : nat)       (* a waiter resumes with the task's outcome *)
| EvCancel (id : nat)        (* a caller is cancelled *)
| EvCleaned (id : nat)       (* the last waiter sees its task end *)
(* other wrappers of the same cache, and its shutdown *)
| EvOtherGet (key : pystr) (now : float)
| EvOtherSet (r : RetrievalRequest) (f : RetrievalFilterSet) (l : list RetrievalCandidate)
    (now : float)
| EvClose.

Section Step.
Context `{PyRepr}.

Definition step (w : wrapper) (ev : event) : option wrapper :=
  match ev with
  | EvCall id r f =>
      match wr_callers w !! id with
      | Some _ => None
      | None =>
          Some (match cache_key r f with
                | None => set_caller w id (in_state r f CallerDirect)
                | Some key => attach id r f key w
                end)
      end
  | EvDirect id answer =>
      c ← wr_callers w !! id;
      match cl_state c with
      | CallerDirect =>
          Some (set_caller (log_upstream w (cl_request c) (cl_filters c) answer) id
                  (in_state (cl_request c) (cl_filters c) (CallerDone (CallerResult answer))))
      | _ => None
      end
  | EvUnblock id =>
      c ← wr_callers w !! id;
      match cl_state c with
      | CallerBlocked fid =>
          fl ← wr_flights w !! fid;
          key ← cache_key (cl_request c) (cl_filters c);
          if task_done fl then Some (attach id (cl_request c) (cl_filters c) key w) else None
      | _ => None
      end
  | EvGet fid now =>
      fl ← wr_flights w !! fid;
      match fl_phase fl with
      | TaskGet =>
          let '(cached, cache) := cache_get (fl_key fl) now (wr_cache w) in
          Some (set_flight (set_cache w cache) fid
                  (with_phase fl (match cached with
                                  | Some l => TaskDone (TaskResult (Ok l))
                                  | None => TaskUpstream end)))
      | _ => None
      end
  | EvUpstream fid answer =>
      fl ← wr_flights w !! fid;
      match fl_phase fl with
      | TaskUpstream =>
          Some (set_flight (log_upstream w (fl_request fl) (fl_filters fl) answer) fid
                  (with_phase fl (match answer with
                                  | Ok l => TaskSet l
                                  | Err e => TaskDone (TaskResult (Err e)) end)))
      | _ => None
      end
  | EvSet fid now =>
      fl ← wr_flights w !! fid;
      match fl_phase fl with
      | TaskSet l =>
          Some (set_flight (set_cache w (cache_set (fl_key fl) l now (wr_cache w))) fid
                  (with_phase fl (TaskDone (TaskResult (Ok l)))))
      | _ => None
      end
  | EvTaskCancel fid =>
      fl ← wr_flights w !! fid;
      if fl_abandoned fl && negb (task_done fl)
      then Some (set_flight w fid (with_phase fl (TaskDone TaskCancelled))) else None
  | EvFinished fid =>
      fl ← wr_flights w !! fid;
      if task_done fl then
        Some (if decide (wr_inflight w !! identity_of_flight fl = Some fid)
              then set_inflight w (delete (identity_of_flight fl) (wr_inflight w)) else w)
      else None
  | EvDeliver id =>
      c ← wr_callers w !! id;
      match cl_state c with
      | CallerWaiting fid =>
          fl ← wr_flights w !! fid;
          match fl_phase fl with
          | TaskDone outcome =>
              Some (leave w id c fid fl (match outcome with
                                         | TaskResult r => CallerResult r
                                         | TaskCancelled => CallerCancelled end))
          | _ => None
          end
      | _ => None
      end
  | EvCancel id =>
      c ← wr_callers w !! id;
      let gone := set_caller w id (in_state (cl_request c) (cl_filters c) (CallerDone CallerCancelled)) in
      match cl_state c with
      | CallerDirect | CallerBlocked _ => Some gone
      | CallerWaiting fid => fl ← wr_flights w !! fid; Some (leave w id c fid fl CallerCancelled)
      | CallerCleaning _ => Some w
      | CallerDone _ => None
      end
  | EvCleaned id =>
      c ← wr_callers w !! id;
      match cl_state c with
      | CallerCleaning fid =>
          fl ← wr_flights w !! fid;
          if task_done fl
          then Some (set_caller w id
                       (in_state (cl_request c) (cl_filters c) (CallerDone CallerCancelled)))
          else None
      | _ => None
      end
  | EvOtherGet key now => Some (set_cache w (cache_get key now (wr_cache w)).2)
  | EvOtherSet r f l now =>
      key ← cache_key r f;
      Some (set_cache (log_upstream w r f (Ok l)) (cache_set key l now (wr_cache w)))
  | EvClose => Some (set_cache w (cache_aclose (wr_cache w)))
  end.

Fixpoint steps (w : wrapper) (evs : list event) : option wrapper :=
  match evs with
  | [] => Some w
  | ev :: evs' => w' ← step w ev; steps w' evs'
  end.
End Step.

(** * Counting waiters *)

Definition waits_on (fid : nat) (c : caller) : bool :=
  match cl_state c with CallerWaiting n => bool_decide (n = fid) | _ => false end.

Definition waiting (fid : nat) (m : gmap nat caller) : nat :=
  size (filter (fun ic : nat * caller => waits_on fid ic.2 = true) m).

Definition one (fid : nat) (o : option caller) : nat :=
  match o with Some c => if waits_on fid c then 1 else 0 | None => 0 end.

Lemma waiting_fresh fid m id c :
  m !! id = None -> waiting fid (<[id := c]> m) = waiting fid m + one fid (Some c).
Proof.
  intros Hm. unfold waiting, one. destruct (waits_on fid c) eqn:Hc.
  - rewrite map_filter_insert_True by done. rewrite map_size_insert_None; [lia|].
    apply map_lookup_filter_None. by left.
  - rewrite map_filter_insert_not' ; [lia| |].
    + cbn. by rewrite Hc.
    + intros y Hy. by rewrite Hm in Hy.
Qed.

Lemma waiting_insert fid m id c :
  waiting fid (<[id := c]> m) + one fid (m !! id) = waiting fid m + one fid (Some c).
Proof.
  destruct (m !! id) as [c0|] eqn:Hm; [|rewrite waiting_fresh by done; cbn; lia].
  rewrite <- (insert_delete_id m id c0 Hm) at 2. rewrite <- (insert_delete_eq m id c).
  rewrite !waiting_fresh by apply lookup_delete_eq. lia.
Qed.

Lemma waiting_pos fid m id c : m !! id = Some c -> waits_on fid c = true -> 0 < waiting fid m.
Proof.
  intros Hm Hc. pose proof (waiting_insert fid m id (in_state (cl_request c) (cl_filters c) CallerDirect))
    as Hw. rewrite Hm in Hw. cbn in Hw. rewrite Hc in Hw. lia.
Qed.

(** * The invariant *)

Section Invariant.
Context `{PyRepr}.

(** What the upstream retriever returned to a request with this key. *)
Definition upstream_for (w : wrapper) (key : pystr) (l : list RetrievalCandidate) : Prop :=
  exists r f, (r, f, l) ∈ wr_upstream w /\ cache_key r f = Some key.

Definition flight_ok (w : wrapper) (fid : nat) (fl : RetrievalFlight) : Prop :=
  cache_key (fl_request fl) (fl_filters fl) = Some (fl_key fl) /\
  (task_done fl = false -> wr_inflight w !! identity_of_flight fl = Some fid) /\
  fl_waiters fl = waiting fid (wr_callers w) /\
  (fl_abandoned fl = true -> fl_waiters fl = 0) /\
  match fl_phase fl with
  | TaskSet l => (fl_request fl, fl_filters fl, l) ∈ wr_upstream w
  | TaskDone (TaskResult (Ok l)) => upstream_for w (fl_key fl) l
  | TaskDone TaskCancelled => fl_abandoned fl = true
  | _ => True
  end.

(** A caller at a flight has the identity of the flight. *)
Definition at_flight (w : wrapper) (c : caller) (fid : nat) : Prop :=
  exists fl key, wr_flights w !! fid = Some fl /\ cache_key (cl_request c) (cl_filters c) = Some key /\
    identity_of_flight fl = identity_of key (cl_request c).

Definition caller_ok (w : wrapper) (c : caller) : Prop :=
  match cl_state c with
  | CallerDirect => cache_key (cl_request c) (cl_filters c) = None
  | CallerWaiting fid => at_flight w c fid
  | CallerBlocked fid | CallerCleaning fid =>
      at_flight w c fid /\ exists fl, wr_flights w !! fid = Some fl /\ fl_abandoned fl = true
  | CallerDone (CallerResult (Ok l)) =>
      (exists key, cache_key (cl_request c) (cl_filters c) = Some key /\ upstream_for w key l) \/
      (cl_request c, cl_filters c, l) ∈ wr_upstream w
  | CallerDone _ => True
  end.

Record flights_inv (w : wrapper) : Prop := {
  fi_flight : forall fid fl, wr_flights w !! fid = Some fl -> flight_ok w fid fl;
  fi_inflight : forall i fid, wr_inflight w !! i = Some fid ->
    exists fl, wr_flights w !! fid = Some fl /\ identity_of_flight fl = i;
  fi_caller : forall id c, wr_callers w !! id = Some c -> caller_ok w c;
  fi_cache : Forall (fun ke => upstream_for w ke.1 (ce_candidates ke.2)) (ca_cache (wr_cache w))
}.

Lemma inv_new max ttl : flights_inv (new_wrapper (new_cache max ttl)).
Proof. constructor; cbn; try done; constructor. Qed.

(** What changes of a flight without its identity. *)
Definition same_flight (fl fl' : RetrievalFlight) : Prop :=
  fl_key fl' = fl_key fl /\ fl_request fl' = fl_request fl /\ fl_filters fl' = fl_filters fl /\
  (fl_abandoned fl = true -> fl_abandoned fl' = true).

Lemma same_identity fl fl' : same_flight fl fl' -> identity_of_flight fl' = identity_of_flight fl.
Proof. intros (H1 & H2 & _). unfold identity_of_flight. by rewrite H1, H2. Qed.

(** Updating one flight and one caller keeps the invariant of everything else:
    what is left to show concerns the flight and the caller. *)
Lemma inv_update w w' fid fl fl' :
  flights_inv w ->
  wr_flights w !! fid = Some fl -> same_flight fl fl' ->
  wr_flights w' = <[fid := fl']> (wr_flights w) ->
  wr_inflight w' = wr_inflight w ->
  (forall l, l ∈ wr_upstream w -> l ∈ wr_upstream w') ->
  (forall n, n <> fid -> waiting n (wr_callers w') = waiting n (wr_callers w)) ->
  (forall id c, wr_callers w' !! id = Some c -> wr_callers w !! id = Some c \/ caller_ok w' c) ->
  flight_ok w' fid fl' ->
  Forall (fun ke => upstream_for w' ke.1 (ce_candidates ke.2)) (ca_cache (wr_cache w')) ->
  flights_inv w'.
Proof.
  intros Hinv Hfl Hsame Hfs Hin Hup Hwait Hcallers Hok Hcache.
  assert (forall key l, upstream_for w key l -> upstream_for w' key l) as Hfor.
  { intros key l (r & f & Hl & Hk). exists r, f. auto. }
  assert (forall n f0, wr_flights w !! n = Some f0 ->
            exists f1, wr_flights w' !! n = Some f1 /\ same_flight f0 f1) as Hmap.
  { intros n f0 Hn. rewrite Hfs. destruct (decide (n = fid)) as [->|Hne].
    - rewrite lookup_insert_eq. exists fl'. split; [done|]. congruence.
    - rewrite lookup_insert_ne by done. exists f0. split; [done|]. by repeat split. }
  constructor.
  - intros n f0 Hn. rewrite Hfs in Hn. destruct (decide (n = fid)) as [->|Hne].
    { rewrite lookup_insert_eq in Hn. by injection Hn as <-. }
    rewrite lookup_insert_ne in Hn by done.
    destruct (fi_flight w Hinv n f0 Hn) as (H1 & H2 & H3 & H4 & H5). unfold flight_ok.
    rewrite Hin, Hwait by done. split_and!; try done.
    destruct (fl_phase f0) as [| |l|[[l|e]|]]; auto.
  - intros i n Hi. rewrite Hin in Hi. destruct (fi_inflight w Hinv i n Hi) as (f0 & Hf0 & <-).
    destruct (Hmap n f0 Hf0) as (f1 & Hf1 & Hs). exists f1. split; [done|]. by apply same_identity.
  - intros id c Hc. destruct (Hcallers id c Hc) as [Hold|]; [|done].
    pose proof (fi_caller w Hinv id c Hold) as Hco. unfold caller_ok in *.
    assert (forall n, at_flight w c n -> at_flight w' c n) as Hat.
    { intros n (f0 & key & Hf0 & Hk & Hi). destruct (Hmap n f0 Hf0) as (f1 & Hf1 & Hs).
      exists f1, key. split_and!; try done. by rewrite (same_identity f0). }
    destruct (cl_state c) as [|n|n|n|[[l|e]|]]; auto.
    + destruct Hco as [Ha (f0 & Hf0 & Hab)]. split; [auto|].
      destruct (Hmap n f0 Hf0) as (f1 & Hf1 & Hs). exists f1. split; [done|]. by apply Hs.
    + destruct Hco as [Ha (f0 & Hf0 & Hab)]. split; [auto|].
      destruct (Hmap n f0 Hf0) as (f1 & Hf1 & Hs). exists f1. split; [done|]. by apply Hs.
    + destruct Hco as [(key & Hk & Hl)|Hl]; [left; eauto|right; auto].
  - done.
Qed.
End Invariant.

(** * Every event keeps it *)

Section Preservation.
Context `{PyRepr}.

Lemma one_state n r f s : one n (Some (in_state r f s)) = 0 \/ exists m, s = CallerWaiting m.
Proof. destruct s; eauto. Qed.

Lemma inv_set_caller w id c :
  flights_inv w -> caller_ok w c -> (forall n, one n (wr_callers w !! id) = one n (Some c)) ->
  flights_inv (set_caller w id c).
Proof.
  intros Hinv Hc Hone.
  assert (forall n, waiting n (<[id := c]> (wr_callers w)) = waiting n (wr_callers w)) as Hw.
  { intros n. pose proof (waiting_insert n (wr_callers w) id c). rewrite Hone in *. lia. }
  destruct Hinv as [H1 H2 H3 H4]. constructor; [|done| |done].
  - intros fid fl Hfl. destruct (H1 fid fl Hfl) as (? & ? & ? & ? & ?). unfold flight_ok. cbn.
    by rewrite Hw.
  - intros i ci Hi. cbn in Hi. destruct (decide (i = id)) as [->|Hne].
    + rewrite lookup_insert_eq in Hi. by injection Hi as <-.
    + rewrite lookup_insert_ne in Hi by done. by apply (H3 i).
Qed.

Lemma upstream_for_mono w w' key l :
  (forall x, x ∈ wr_upstream w -> x ∈ wr_upstream w') -> upstream_for w key l -> upstream_for w' key l.
Proof. intros Hup (r & f & Hl & Hk). exists r, f. auto. Qed.

Lemma log_upstream_mono w r f answer x : x ∈ wr_upstream w -> x ∈ wr_upstream (log_upstream w r f answer).
Proof. destruct answer; cbn; [|done]. intros. apply elem_of_app. by left. Qed.

Lemma inv_log w r f answer : flights_inv w -> flights_inv (log_upstream w r f answer).
Proof.
  intros [H1 H2 H3 H4]. pose proof (log_upstream_mono w r f answer) as Hup.
  assert (wr_flights (log_upstream w r f answer) = wr_flights w /\
          wr_inflight (log_upstream w r f answer) = wr_inflight w /\
          wr_callers (log_upstream w r f answer) = wr_callers w /\
          wr_cache (log_upstream w r f answer) = wr_cache w) as (E1 & E2 & E3 & E4)
    by (by destruct answer).
  constructor; rewrite ?E1, ?E2, ?E3, ?E4.
  - intros fid fl Hfl. destruct (H1 fid fl Hfl) as (? & ? & ? & ? & Hp).
    unfold flight_ok. rewrite E2, E3. split_and!; try done.
    destruct (fl_phase fl) as [| |l|[[l|e]|]]; auto. by eapply upstream_for_mono.
  - done.
  - intros id c Hc. specialize (H3 id c Hc). unfold caller_ok, at_flight in *. rewrite E1.
    destruct (cl_state c) as [|n|n|n|[[l|e]|]]; try done.
    destruct H3 as [(key & Hk & Hl)|Hl]; [left; exists key; split; [done|by eapply upstream_for_mono]|].
    right. auto.
  - eapply Forall_impl; [exact H4|]. intros ke. apply upstream_for_mono, Hup.
Qed.

(** A new flight with its first waiter. *)
Definition started (id : nat) (r : RetrievalRequest) (f : RetrievalFilterSet) (key : pystr)
    (w : wrapper) : wrapper :=
  let fid := fresh (dom (wr_flights w)) in
  let w := set_flight w fid
    {| fl_key := key; fl_request := r; fl_filters := f; fl_phase := TaskGet; fl_waiters := 1;
       fl_abandoned := false |} in
  let w := set_inflight w (<[identity_of key r := fid]> (wr_inflight w)) in
  set_caller w id (in_state r f (CallerWaiting fid)).

Lemma unknown_flight_unwaited w fid :
  flights_inv w -> wr_flights w !! fid = None -> waiting fid (wr_callers w) = 0.
Proof.
  intros Hinv Hnone. destruct (waiting fid (wr_callers w)) as [|k0] eqn:Hw; [done|]. exfalso.
  unfold waiting in Hw.
  destruct (decide (filter (fun ic : nat * caller => waits_on fid ic.2 = true) (wr_callers w) = ∅))
    as [He|He]; [by rewrite He, map_size_empty in Hw|].
  apply map_choose in He as (i & c & [Hc Hwc]%map_lookup_filter_Some).
  pose proof (fi_caller w Hinv i c Hc) as Hco. unfold waits_on in Hwc. unfold caller_ok in Hco.
  cbn in Hwc. destruct (cl_state c) as [|n| | |]; try done. apply bool_decide_eq_true in Hwc as ->.
  destruct Hco as (fl & k & Hfl & _). congruence.
Qed.

(** A caller that was not waiting becomes a waiter of [fid]. *)
Lemma waiting_join w id r f fid :
  (forall n, one n (wr_callers w !! id) = 0) ->
  let m := <[id := in_state r f (CallerWaiting fid)]> (wr_callers w) in
  waiting fid m = S (waiting fid (wr_callers w)) /\
  forall n, n <> fid -> waiting n m = waiting n (wr_callers w).
Proof.
  intros Hone m. subst m. split; [|intros n Hn].
  - pose proof (waiting_insert fid (wr_callers w) id (in_state r f (CallerWaiting fid))) as Hw.
    rewrite Hone in Hw. cbn in Hw. rewrite bool_decide_eq_true_2 in Hw by done. lia.
  - pose proof (waiting_insert n (wr_callers w) id (in_state r f (CallerWaiting fid))) as Hw.
    rewrite Hone in Hw. cbn in Hw. rewrite bool_decide_eq_false_2 in Hw by done. lia.
Qed.

Lemma started_inv w id r f key :
  flights_inv w -> cache_key r f = Some key -> wr_inflight w !! identity_of key r = None ->
  (forall n, one n (wr_callers w !! id) = 0) -> flights_inv (started id r f key w).
Proof.
  intros Hinv Hk Hi Hone. unfold started.
  set (fid := fresh (dom (wr_flights w))).
  assert (wr_flights w !! fid = None) as Hnone by (apply not_elem_of_dom, is_fresh).
  pose proof (unknown_flight_unwaited w fid Hinv Hnone) as Hzero.
  destruct (waiting_join w id r f fid Hone) as [Hjoin Hother].
  assert (forall n m, wr_flights w !! n = Some m -> n <> fid) as Hne by (intros n m Hn ->; congruence).
  set (fl := {| fl_key := key; fl_request := r; fl_filters := f; fl_phase := TaskGet;
                fl_waiters := 1; fl_abandoned := false |}).
  constructor; cbn.
  + intros n g Hg. destruct (decide (n = fid)) as [->|Hn].
    * rewrite lookup_insert_eq in Hg. injection Hg as <-. unfold flight_ok. cbn.
      split_and!; try done; [intros _; apply lookup_insert_eq|].
      pose proof (waiting_insert fid (wr_callers w) id (in_state r f (CallerWaiting fid))) as Hw.
      rewrite Hone in Hw. cbn in Hw. rewrite bool_decide_eq_true_2 in Hw by done. lia.
    * rewrite lookup_insert_ne in Hg by done.
      destruct (fi_flight w Hinv n g Hg) as (H1 & H2 & H3 & H4 & H5). unfold flight_ok. cbn.
      rewrite Hother by done. split_and!; try done. intros Hd. specialize (H2 Hd).
      rewrite lookup_insert_ne; [done|]. intros Heq. rewrite <- Heq in H2. congruence.
  + intros i n Hin. destruct (decide (i = identity_of key r)) as [->|Hd].
    * rewrite lookup_insert_eq in Hin. injection Hin as <-. exists fl.
      split; [apply lookup_insert_eq|done].
    * rewrite lookup_insert_ne in Hin by done. destruct (fi_inflight w Hinv i n Hin) as (g & Hg & <-).
      exists g. split; [|done]. rewrite lookup_insert_ne; [done|]. by apply not_eq_sym, (Hne n g).
  + assert (forall c n, at_flight w c n -> at_flight (set_flight w fid fl) c n) as Hat.
    { intros c n (g & k & Hg & Hr). exists g, k. split; [|done]. cbn.
      rewrite lookup_insert_ne; [done|]. by apply not_eq_sym, (Hne n g). }
    intros i c Hc. destruct (decide (i = id)) as [->|Hi'].
    * rewrite lookup_insert_eq in Hc. injection Hc as <-. cbn. exists fl, key. cbn.
      split; [apply lookup_insert_eq|]. by split.
    * rewrite lookup_insert_ne in Hc by done. pose proof (fi_caller w Hinv i c Hc) as Hco.
      unfold caller_ok in *. destruct (cl_state c) as [|n|n|n|o]; [done|by apply Hat| | |done].
      -- destruct Hco as [Ha (g & Hg & Hab)]. split; [by apply Hat|]. exists g. split; [|done]. cbn.
         rewrite lookup_insert_ne; [done|]. by apply not_eq_sym, (Hne n g).
      -- destruct Hco as [Ha (g & Hg & Hab)]. split; [by apply Hat|]. exists g. split; [|done]. cbn.
         rewrite lookup_insert_ne; [done|]. by apply not_eq_sym, (Hne n g).
  + apply (fi_cache w Hinv).
Qed.
Lemma attach_inv w id r f key :
  flights_inv w -> cache_key r f = Some key -> (forall n, one n (wr_callers w !! id) = 0) ->
  flights_inv (attach id r f key w).
Proof.
  intros Hinv Hk Hone. unfold attach.
  destruct (wr_inflight w !! identity_of key r) as [fid|] eqn:Hi; [|by apply started_inv].
  destruct (fi_inflight w Hinv _ _ Hi) as (fl & Hfl & Hid). rewrite Hfl.
  destruct (fl_abandoned fl) eqn:Hab.
  { apply inv_set_caller; [done| |intros n; by rewrite Hone].
    cbn. split; [by exists fl, key|]. by exists fl. }
  destruct (fi_flight w Hinv fid fl Hfl) as (H1 & H2 & H3 & H4 & H5).
  destruct (waiting_join w id r f fid Hone) as [Hjoin Hother].
  apply (inv_update w _ fid fl (with_waiters fl (S (fl_waiters fl)) false));
    [done|done| |done|done|done|done| | |apply (fi_cache w Hinv)].
  - repeat split. by rewrite Hab.
  - intros i c Hc. cbn in Hc. destruct (decide (i = id)) as [->|Hne].
    + rewrite lookup_insert_eq in Hc. injection Hc as <-. right. cbn.
      eexists _, key. split; [apply lookup_insert_eq|]. by split.
    + rewrite lookup_insert_ne in Hc by done. by left.
  - unfold flight_ok. cbn. split_and!; try done; [by rewrite Hjoin, H3|].
    destruct (fl_phase fl) as [| |l|[[l|e]|]]; try done. congruence.
Qed.

(** The task of a flight moves on. *)
Lemma task_inv w w' fid fl ph :
  flights_inv w -> wr_flights w !! fid = Some fl -> task_done fl = false ->
  wr_flights w' = <[fid := with_phase fl ph]> (wr_flights w) ->
  wr_inflight w' = wr_inflight w -> wr_callers w' = wr_callers w ->
  (forall x, x ∈ wr_upstream w -> x ∈ wr_upstream w') ->
  Forall (fun ke => upstream_for w' ke.1 (ce_candidates ke.2)) (ca_cache (wr_cache w')) ->
  match ph with
  | TaskSet l => (fl_request fl, fl_filters fl, l) ∈ wr_upstream w'
  | TaskDone (TaskResult (Ok l)) => upstream_for w' (fl_key fl) l
  | TaskDone TaskCancelled => fl_abandoned fl = true
  | _ => True
  end ->
  flights_inv w'.
Proof.
  intros Hinv Hfl Hd Hfs Hin Hcs Hup Hcache Hph.
  destruct (fi_flight w Hinv fid fl Hfl) as (H1 & H2 & H3 & H4 & _).
  apply (inv_update w w' fid fl (with_phase fl ph)); try done.
  - intros n _. by rewrite Hcs.
  - intros id c Hc. rewrite Hcs in Hc. by left.
  - unfold flight_ok. cbn. rewrite Hin, Hcs. split_and!; try done. intros _. by apply H2.
Qed.

(** A waiter leaves. *)
Lemma leave_inv w id c fid fl outcome :
  flights_inv w -> wr_callers w !! id = Some c -> cl_state c = CallerWaiting fid ->
  wr_flights w !! fid = Some fl ->
  (forall w', wr_upstream w' = wr_upstream w ->
     caller_ok w' (in_state (cl_request c) (cl_filters c) (CallerDone outcome))) ->
  flights_inv (leave w id c fid fl outcome).
Proof.
  intros Hinv Hc Hs Hfl Hout. destruct (fi_flight w Hinv fid fl Hfl) as (H1 & H2 & H3 & H4 & H5).
  pose proof (waiting_pos fid (wr_callers w) id c Hc) as Hpos.
  assert (waits_on fid c = true) as Hon by (unfold waits_on; rewrite Hs; by apply bool_decide_eq_true_2).
  specialize (Hpos Hon).
  assert (forall s, (forall n, s <> CallerWaiting n) ->
            let m := <[id := in_state (cl_request c) (cl_filters c) s]> (wr_callers w) in
            waiting fid m = pred (fl_waiters fl) /\
            forall n, n <> fid -> waiting n m = waiting n (wr_callers w)) as Hw.
  { intros s Hne m. subst m. split; [|intros n Hn].
    - pose proof (waiting_insert fid (wr_callers w) id (in_state (cl_request c) (cl_filters c) s)) as Hx.
      rewrite Hc in Hx. cbn in Hx. rewrite Hon in Hx.
      destruct s as [|m| | |]; cbn in Hx; try lia. by destruct (Hne m).
    - pose proof (waiting_insert n (wr_callers w) id (in_state (cl_request c) (cl_filters c) s)) as Hx.
      rewrite Hc in Hx. cbn in Hx. unfold waits_on at 1 in Hx. rewrite Hs in Hx.
      rewrite bool_decide_eq_false_2 in Hx by done.
      destruct s as [|m| | |]; cbn in Hx; try lia. by destruct (Hne m). }
  assert (fl_abandoned fl = false) as Hab.
  { destruct (fl_abandoned fl); [|done]. specialize (H4 eq_refl). lia. }
  pose proof (fi_caller w Hinv id c Hc) as Hco. unfold caller_ok in Hco. rewrite Hs in Hco.
  destruct Hco as (fl0 & key & Hfl0 & Hk & Hid). rewrite Hfl in Hfl0. injection Hfl0 as <-.
  unfold leave. destruct (_ && _) eqn:Hlast.
  - apply andb_prop in Hlast as [Hz Hnd]. apply Nat.eqb_eq in Hz. apply negb_true_iff in Hnd.
    destruct (Hw (CallerCleaning fid) ltac:(done)) as [Hwf Hwo].
    apply (inv_update w _ fid fl (with_waiters fl (pred (fl_waiters fl)) true));
      [done|done|done|done|done|done|done| | |apply (fi_cache w Hinv)].
    + intros i c' Hc'. cbn in Hc'. destruct (decide (i = id)) as [->|Hne].
      * rewrite lookup_insert_eq in Hc'. injection Hc' as <-. right. cbn. split.
        -- eexists _, key. split; [apply lookup_insert_eq|]. by split.
        -- eexists. split; [apply lookup_insert_eq|done].
      * rewrite lookup_insert_ne in Hc' by done. by left.
    + unfold flight_ok. cbn. split_and!; try done.
      unfold task_done in Hnd. by destruct (fl_phase fl).
  - destruct (Hw (CallerDone outcome) ltac:(done)) as [Hwf Hwo].
    apply (inv_update w _ fid fl (with_waiters fl (pred (fl_waiters fl)) (fl_abandoned fl)));
      [done|done|done|done|done|done|done| | |apply (fi_cache w Hinv)].
    + intros i c' Hc'. cbn in Hc'. destruct (decide (i = id)) as [->|Hne].
      * rewrite lookup_insert_eq in Hc'. injection Hc' as <-. right. by apply Hout.
      * rewrite lookup_insert_ne in Hc' by done. by left.
    + unfold flight_ok. cbn. split_and!; try done. by rewrite Hab.
Qed.

(** The callback of a finished task. *)
Lemma finished_inv w fid fl :
  flights_inv w -> wr_flights w !! fid = Some fl -> task_done fl = true ->
  wr_inflight w !! identity_of_flight fl = Some fid ->
  flights_inv (set_inflight w (delete (identity_of_flight fl) (wr_inflight w))).
Proof.
  intros Hinv Hfl Hd Hin. destruct Hinv as [H1 H2 H3 H4]. constructor; cbn; [| |exact H3|exact H4].
  - intros n g Hg. destruct (H1 n g Hg) as (A1 & A2 & A3 & A4 & A5). unfold flight_ok. cbn.
    split_and!; try done. intros Hng. specialize (A2 Hng). rewrite lookup_delete_ne; [done|].
    intros Heq. rewrite <- Heq, Hin in A2. injection A2 as ->. rewrite Hfl in Hg. congruence.
  - intros i n Hi. apply lookup_delete_Some in Hi as [_ Hi]. by apply H2.
Qed.

Lemma inv_set_cache w c :
  flights_inv w -> Forall (fun ke => upstream_for w ke.1 (ce_candidates ke.2)) (ca_cache c) ->
  flights_inv (set_cache w c).
Proof. by intros [H1 H2 H3 _]. Qed.

#[local] Arguments cache_key : simpl never.
#[local] Arguments cache_get : simpl never.
#[local] Arguments cache_set : simpl never.
#[local] Arguments attach : simpl never.

Lemma step_inv w ev w' : flights_inv w -> step w ev = Some w' -> flights_inv w'.
Proof.
  intros Hinv Hstep. destruct ev as
    [id r f|id answer|id|fid now|fid answer|fid now|fid|fid|id|id|id|key now|r f l now|];
    cbn in Hstep.
  - destruct (wr_callers w !! id) as [c|] eqn:Hc; [done|]. injection Hstep as <-.
    destruct (cache_key r f) as [key|] eqn:Hk.
    + apply attach_inv; [done|done|]. intros n. by rewrite Hc.
    + apply inv_set_caller; [done|done|]. intros n. by rewrite Hc.
  - destruct (wr_callers w !! id) as [c|] eqn:Hc; [|done]. cbn in Hstep.
    destruct (cl_state c) as [| | | |] eqn:Hs; try done. injection Hstep as <-.
    apply inv_set_caller; [by apply inv_log| |].
    + unfold caller_ok. cbn. destruct answer as [l|e]; [|done]. right. cbn.
      apply elem_of_app. right. left.
    + intros n. destruct answer; cbn; rewrite Hc; cbn; unfold waits_on; by rewrite Hs.
  - destruct (wr_callers w !! id) as [c|] eqn:Hc; [|done]. cbn in Hstep.
    destruct (cl_state c) as [| |fid| |] eqn:Hs; try done.
    destruct (wr_flights w !! fid) as [fl|]; [|done]. cbn in Hstep.
    destruct (cache_key (cl_request c) (cl_filters c)) as [key|] eqn:Hk; [|done]. cbn in Hstep.
    destruct (task_done fl); [|done]. injection Hstep as <-. apply attach_inv; [done|done|].
    intros n. rewrite Hc. cbn. unfold waits_on. by rewrite Hs.
  - destruct (wr_flights w !! fid) as [fl|] eqn:Hfl; [|done]. cbn in Hstep.
    destruct (fl_phase fl) eqn:Hp; try done.
    destruct (cache_get (fl_key fl) now (wr_cache w)) as [cached cache] eqn:Hg. injection Hstep as <-.
    destruct (cache_get_Forall _ (fl_key fl) now _ (fi_cache w Hinv)) as [Hca Hhit].
    rewrite Hg in Hca, Hhit. cbn in Hca, Hhit.
    eapply (task_inv w _ fid fl); [done|done|unfold task_done; by rewrite Hp|done|done|done|done|done|].
    destruct cached as [l|]; [|done]. by destruct (Hhit l eq_refl) as (e & He & <-).
  - destruct (wr_flights w !! fid) as [fl|] eqn:Hfl; [|done]. cbn in Hstep.
    destruct (fl_phase fl) eqn:Hp; try done. injection Hstep as <-.
    pose proof (log_upstream_mono w (fl_request fl) (fl_filters fl) answer) as Hup.
    apply (task_inv w _ fid fl (match answer with
                                | Ok l => TaskSet l
                                | Err e => TaskDone (TaskResult (Err e)) end));
      [done|done|unfold task_done; by rewrite Hp|by destruct answer..|exact Hup| |].
    + assert (wr_cache (log_upstream w (fl_request fl) (fl_filters fl) answer) = wr_cache w) as Hca
        by (by destruct answer).
      cbn. rewrite Hca. eapply Forall_impl; [apply (fi_cache w Hinv)|].
      intros ke. by apply upstream_for_mono.
    + destruct answer as [l|e]; [|done]. cbn. apply elem_of_app. right. left.
  - destruct (wr_flights w !! fid) as [fl|] eqn:Hfl; [|done]. cbn in Hstep.
    destruct (fl_phase fl) as [| |l|] eqn:Hp; try done. injection Hstep as <-.
    destruct (fi_flight w Hinv fid fl Hfl) as (Hk & _ & _ & _ & Hl). rewrite Hp in Hl.
    assert (upstream_for w (fl_key fl) l) as Hfor by (by exists (fl_request fl), (fl_filters fl)).
    eapply (task_inv w _ fid fl); [done|done|unfold task_done; by rewrite Hp|done|done|done|done| |done].
    apply cache_set_Forall; [done|apply (fi_cache w Hinv)].
  - destruct (wr_flights w !! fid) as [fl|] eqn:Hfl; [|done]. cbn in Hstep.
    destruct (fl_abandoned fl && negb (task_done fl)) eqn:Ha; [|done]. injection Hstep as <-.
    apply andb_prop in Ha as [Ha Hd]. apply negb_true_iff in Hd.
    eapply (task_inv w _ fid fl); try done. apply (fi_cache w Hinv).
  - destruct (wr_flights w !! fid) as [fl|] eqn:Hfl; [|done]. cbn in Hstep.
    destruct (task_done fl) eqn:Hd; [|done]. injection Hstep as <-.
    destruct (decide _); [by apply (finished_inv w fid)|done].
  - destruct (wr_callers w !! id) as [c|] eqn:Hc; [|done]. cbn in Hstep.
    destruct (cl_state c) as [|fid| | |] eqn:Hs; try done.
    destruct (wr_flights w !! fid) as [fl|] eqn:Hfl; [|done]. cbn in Hstep.
    destruct (fl_phase fl) as [| | |outcome] eqn:Hp; try done. injection Hstep as <-.
    apply leave_inv; try done. intros w' Hup. unfold caller_ok. cbn.
    destruct outcome as [[l|e]|]; try done. left.
    destruct (fi_flight w Hinv fid fl Hfl) as (_ & _ & _ & _ & Hl). rewrite Hp in Hl.
    pose proof (fi_caller w Hinv id c Hc) as Hco. unfold caller_ok in Hco. rewrite Hs in Hco.
    destruct Hco as (fl0 & key & Hfl0 & Hk & Hid). rewrite Hfl in Hfl0. injection Hfl0 as <-.
    exists key. split; [done|]. unfold identity_of_flight, identity_of in Hid.
    injection Hid as Hkey _ _. rewrite Hkey in Hl.
    destruct Hl as (r & f & Hl & Hkr). exists r, f. by rewrite Hup.
  - destruct (wr_callers w !! id) as [c|] eqn:Hc; [|done]. cbn in Hstep.
    destruct (cl_state c) as [|fid|fid|fid|o] eqn:Hs; try done.
    + injection Hstep as <-. apply inv_set_caller; [done|done|].
      intros n. rewrite Hc. cbn. unfold waits_on. by rewrite Hs.
    + destruct (wr_flights w !! fid) as [fl|] eqn:Hfl; [|done]. injection Hstep as <-.
      by apply leave_inv.
    + injection Hstep as <-. apply inv_set_caller; [done|done|].
      intros n. rewrite Hc. cbn. unfold waits_on. by rewrite Hs.
    + by injection Hstep as <-.
  - destruct (wr_callers w !! id) as [c|] eqn:Hc; [|done]. cbn in Hstep.
    destruct (cl_state c) as [| | |fid|] eqn:Hs; try done.
    destruct (wr_flights w !! fid) as [fl|]; [|done]. cbn in Hstep.
    destruct (task_done fl); [|done]. injection Hstep as <-.
    apply inv_set_caller; [done|done|]. intros n. rewrite Hc. cbn. unfold waits_on. by rewrite Hs.
  - injection Hstep as <-. apply inv_set_cache; [done|].
    apply (cache_get_Forall _ key now _ (fi_cache w Hinv)).
  - destruct (cache_key r f) as [key|] eqn:Hk; [|done]. injection Hstep as <-.
    pose proof (inv_log w r f (Ok l) Hinv) as Hlog. apply inv_set_cache; [done|].
    apply cache_set_Forall; [|apply (fi_cache _ Hlog)]. exists r, f. split; [|done].
    apply elem_of_app. right. left.
  - injection Hstep as <-. by apply inv_set_cache.
Qed.

Lemma steps_inv w evs w' : flights_inv w -> steps w evs = Some w' -> flights_inv w'.
Proof.
  revert w. induction evs as [|ev evs IH]; intros w Hinv; cbn; [by intros [= <-]|].
  destruct (step w ev) as [w1|] eqn:Hs; [|done]. apply IH. by eapply step_inv.
Qed.
End Preservation.

(** * What the callers get *)

Lemma new_wrapper_inv `{PyRepr} max ttl : flights_inv (new_wrapper (new_cache max ttl)).
Proof. constructor; cbn; intros; done. Qed.

(** C24: flights are shared safely.  In every reachable state of a wrapper, two tasks
    that are still running never serve the same identity, so the upstream retriever
    is asked once for it at a time.  A caller that waits for a flight has the
    flight's key, request id and trace id, the flight's counter is the number of
    callers that wait for it, and the flight is not abandoned: a cancellation of
    one caller never reaches another through the task they share. *)
Theorem flights_share_safely `{PyRepr} max ttl evs w :
  steps (new_wrapper (new_cache max ttl)) evs = Some w ->
  (forall m n f g, wr_flights w !! m = Some f -> wr_flights w !! n = Some g ->
     task_done f = false -> task_done g = false -> identity_of_flight f = identity_of_flight g ->
     m = n) /\
  (forall id c fid, wr_callers w !! id = Some c -> cl_state c = CallerWaiting fid ->
     exists fl key, wr_flights w !! fid = Some fl /\
       cache_key (cl_request c) (cl_filters c) = Some key /\
       identity_of_flight fl = identity_of key (cl_request c) /\
       fl_waiters fl = waiting fid (wr_callers w) /\
       fl_abandoned fl = false /\ fl_phase fl <> TaskDone TaskCancelled).
Proof.
  intros Hrun. pose proof (steps_inv _ _ _ (new_wrapper_inv max ttl) Hrun) as Hinv. split.
  - intros m n f g Hf Hg Df Dg Hid.
    destruct (fi_flight w Hinv m f Hf) as (_ & Hm & _). specialize (Hm Df).
    destruct (fi_flight w Hinv n g Hg) as (_ & Hn & _). specialize (Hn Dg).
    rewrite Hid, Hn in Hm. by injection Hm as <-.
  - intros id c fid Hc Hs. pose proof (fi_caller w Hinv id c Hc) as Hco. unfold caller_ok in Hco.
    rewrite Hs in Hco. destruct Hco as (fl & key & Hfl & Hk & Hid). exists fl, key.
    destruct (fi_flight w Hinv fid fl Hfl) as (_ & _ & Hw & Hab & Hp).
    assert (fl_abandoned fl = false) as Hno.
    { destruct (fl_abandoned fl) eqn:Ha; [|done]. specialize (Hab eq_refl).
      pose proof (waiting_pos fid _ id c Hc) as Hpos. unfold waits_on in Hpos. rewrite Hs in Hpos.
      rewrite bool_decide_eq_true_2 in Hpos by done. specialize (Hpos eq_refl). lia. }
    split_and!; try done. intros Hd. rewrite Hd in Hp. congruence.
Qed.

(** The questions that callers of the cache asked. *)
Definition asked (ev : event) : option (RetrievalRequest * RetrievalFilterSet) :=
  match ev with
  | EvCall _ r f | EvOtherSet r f _ _ => Some (r, f)
  | _ => None
  end.

Definition asks (P : RetrievalRequest -> RetrievalFilterSet -> Prop) (ev : event) : Prop :=
  match asked ev with Some (r, f) => P r f | None => True end.

Section Asked.
Context `{PyRepr} (P : RetrievalRequest -> RetrievalFilterSet -> Prop).

Record questions_from (w : wrapper) : Prop := {
  qf_flight : forall fid fl, wr_flights w !! fid = Some fl -> P (fl_request fl) (fl_filters fl);
  qf_caller : forall id c, wr_callers w !! id = Some c -> P (cl_request c) (cl_filters c);
  qf_upstream : forall r f l, (r, f, l) ∈ wr_upstream w -> P r f
}.

#[local] Arguments cache_key : simpl never.
#[local] Arguments cache_get : simpl never.
#[local] Arguments cache_set : simpl never.
#[local] Arguments log_upstream : simpl never.

Lemma from_flight w fid fl :
  questions_from w -> P (fl_request fl) (fl_filters fl) -> questions_from (set_flight w fid fl).
Proof.
  intros [H1 H2 H3] Hp. constructor; [|done|done]. intros n g. cbn.
  intros [[<- <-]|[_ Hg]]%lookup_insert_Some; [done|by apply (H1 n)].
Qed.

Lemma from_caller w id c :
  questions_from w -> P (cl_request c) (cl_filters c) -> questions_from (set_caller w id c).
Proof.
  intros [H1 H2 H3] Hp. constructor; [done| |done]. intros n g. cbn.
  intros [[<- <-]|[_ Hg]]%lookup_insert_Some; [done|by apply (H2 n)].
Qed.

Lemma from_log w r f answer :
  questions_from w -> P r f -> questions_from (log_upstream w r f answer).
Proof.
  intros [H1 H2 H3] Hp. destruct answer as [l|e]; [|done]. constructor; [done|done|].
  intros r' f' l'. cbn. intros [Hl|Hl%list_elem_of_singleton]%elem_of_app; [by eapply H3|].
  by injection Hl as -> -> _.
Qed.

Lemma from_attach w id r f key : questions_from w -> P r f -> questions_from (attach id r f key w).
Proof.
  intros Hq Hp. unfold attach. destruct (wr_inflight w !! identity_of key r) as [fid|].
  - destruct (wr_flights w !! fid) as [fl|] eqn:Hfl; [|done].
    destruct (fl_abandoned fl); apply from_caller; try done.
    apply from_flight; [done|]. cbn. by apply (qf_flight w Hq fid).
  - apply from_caller; [|done].
    pose proof (from_flight w (fresh (dom (wr_flights w)))
      {| fl_key := key; fl_request := r; fl_filters := f; fl_phase := TaskGet; fl_waiters := 1;
         fl_abandoned := false |} Hq Hp) as [H1 H2 H3].
    by constructor.
Qed.

Lemma from_cache w c : questions_from w -> questions_from (set_cache w c).
Proof. by intros [H1 H2 H3]. Qed.

Lemma from_inflight w m : questions_from w -> questions_from (set_inflight w m).
Proof. by intros [H1 H2 H3]. Qed.

Lemma from_leave w id c fid fl outcome :
  questions_from w -> P (cl_request c) (cl_filters c) -> P (fl_request fl) (fl_filters fl) ->
  questions_from (leave w id c fid fl outcome).
Proof.
  intros Hq Hc Hf. unfold leave. case_match; apply from_caller; try done; by apply from_flight.
Qed.

Ltac from_parts :=
  repeat first [assumption | apply from_flight | apply from_caller | apply from_log
               | apply from_attach | apply from_cache | apply from_inflight | apply from_leave].

Lemma from_step w ev w' :
  questions_from w -> asks P ev -> step w ev = Some w' -> questions_from w'.
Proof.
  intros Hq Hp Hstep. pose proof (qf_flight w Hq) as Hf. pose proof (qf_caller w Hq) as Hcl.
  destruct ev as
    [id r f|id answer|id|fid now|fid answer|fid now|fid|fid|id|id|id|key now|r f l now|];
    cbn in Hstep; simplify_option_eq; repeat case_match; simplify_option_eq; repeat case_match;
    simplify_eq; from_parts; cbn; eauto.
Qed.

Lemma from_steps w evs w' :
  questions_from w -> Forall (asks P) evs -> steps w evs = Some w' -> questions_from w'.
Proof.
  revert w. induction evs as [|ev evs IH]; intros w Hq Ha; cbn; [by intros [= <-]|].
  apply list.Forall_cons in Ha as [He Ha]. destruct (step w ev) as [w1|] eqn:Hs; [|done].
  apply IH; [|done]. by eapply from_step.
Qed.
End Asked.

(** C23: a caller gets the answer to its own question.  Whatever tasks are shared and
    whatever the cache holds, also from other wrappers of it: a result that a call
    of [retrieve] returns was returned by an upstream retriever for a request with
    the same query, limits and filter of the same tenant, user, roles, department
    and permissions, so for exactly the same access scope, unless the digest of
    that request collides with the caller's. *)
Theorem cached_answers_own_question `{FloatRepr} max ttl evs w id c l :
  steps (new_wrapper (new_cache max ttl)) evs = Some w ->
  Forall (asks plain_question) evs ->
  wr_callers w !! id = Some c -> cl_state c = CallerDone (CallerResult (Ok l)) ->
  exists (r : RetrievalRequest) (f : RetrievalFilterSet), (r, f, l) ∈ wr_upstream w /\
    ((same_question r f (cl_request c) (cl_filters c) /\
      forall d, _candidate_in_scope d f = _candidate_in_scope d (cl_filters c)) \/
     collision r f (cl_request c) (cl_filters c)).
Proof.
  intros Hrun Hasked Hc Hs. pose proof (steps_inv _ _ _ (new_wrapper_inv max ttl) Hrun) as Hinv.
  assert (questions_from plain_question w) as Hq.
  { eapply from_steps; [|exact Hasked|exact Hrun]. constructor; cbn; [done..|].
    intros r f d Hd. by apply not_elem_of_nil in Hd. }
  pose proof (fi_caller w Hinv id c Hc) as Hco. unfold caller_ok in Hco. rewrite Hs in Hco.
  pose proof (qf_caller _ _ Hq id c Hc) as Pc.
  destruct Hco as [(key & Hk & r & f & Hl & Hkr)|Hl].
  - exists r, f. split; [done|]. apply (cache_key_identifies _ _ _ _ key); try done.
    by apply (qf_upstream _ _ Hq r f l).
  - exists (cl_request c), (cl_filters c). split; [done|]. left. by split.
Qed.

(** * Progress *)

(** The events that need no new caller and no new cancellation, where the upstream
    retriever answers [answer] and the clock shows [now]. *)
Definition internal (answer : result pyexc (list RetrievalCandidate)) (now : float) (ev : event) : Prop :=
  match ev with
  | EvDirect _ a | EvUpstream _ a => a = answer
  | EvGet _ t | EvSet _ t => t = now
  | EvUnblock _ | EvTaskCancel _ | EvFinished _ | EvDeliver _ | EvCleaned _ => True
  | _ => False
  end.

Definition caller_done (c : caller) : bool :=
  match cl_state c with CallerDone _ => true | _ => false end.

Section Progress.
Context `{PyRepr} (answer : result pyexc (list RetrievalCandidate)) (now : float).

Definition drains (w w' : wrapper) : Prop :=
  exists evs, Forall (internal answer now) evs /\ steps w evs = Some w'.

Lemma steps_app w evs evs' : steps w (evs ++ evs') = (w' ← steps w evs; steps w' evs').
Proof.
  revert w. induction evs as [|ev evs IH]; intros w; cbn; [done|].
  destruct (step w ev) as [w1|]; cbn; [apply IH|done].
Qed.

Lemma drains_refl w : drains w w.
Proof. exists []. by split; [constructor|]. Qed.

Lemma drains_trans w1 w2 w3 : drains w1 w2 -> drains w2 w3 -> drains w1 w3.
Proof.
  intros (e1 & F1 & S1) (e2 & F2 & S2). exists (e1 ++ e2). split; [by apply Forall_app|].
  rewrite steps_app, S1. done.
Qed.

Lemma drains_step w ev w' : internal answer now ev -> step w ev = Some w' -> drains w w'.
Proof.
  intros Hi Hs. exists [ev]. split; [by repeat constructor|]. cbn [steps]. by rewrite Hs.
Qed.

Lemma drains_inv w w' : drains w w' -> flights_inv w -> flights_inv w'.
Proof. intros (evs & _ & Hs) Hinv. by eapply steps_inv. Qed.

#[local] Arguments cache_key : simpl never.
#[local] Arguments cache_get : simpl never.
#[local] Arguments cache_set : simpl never.
#[local] Arguments attach : simpl never.

(** [w'] differs from [w] in the task of one flight, which is over in [w'], and in
    the cache and the log of the upstream retriever. *)
Definition task_over (w w' : wrapper) (fid : nat) : Prop :=
  drains w w' /\ wr_callers w' = wr_callers w /\ wr_inflight w' = wr_inflight w /\
  (exists fl ph, wr_flights w !! fid = Some fl /\ wr_flights w' !! fid = Some (with_phase fl ph) /\
     task_done (with_phase fl ph) = true) /\
  forall n, n <> fid -> wr_flights w' !! n = wr_flights w !! n.

Lemma task_over_step w w1 w' fid fl ph ev :
  wr_flights w !! fid = Some fl -> internal answer now ev -> step w ev = Some w1 ->
  wr_callers w1 = wr_callers w -> wr_inflight w1 = wr_inflight w ->
  wr_flights w1 = <[fid := with_phase fl ph]> (wr_flights w) ->
  task_over w1 w' fid -> task_over w w' fid.
Proof.
  intros Hfl Hi Hs Hc Hin Hf (Hd & Hc' & Hin' & (g & ph' & Hg & Hg' & Hdone) & Ho).
  rewrite Hf, lookup_insert_eq in Hg. injection Hg as <-.
  split_and!; [by eapply drains_trans, Hd; eapply drains_step|congruence|congruence| |].
  - by exists fl, ph'.
  - intros n Hn. by rewrite Ho, Hf, lookup_insert_ne by done.
Qed.

Lemma task_over_now w fid fl :
  wr_flights w !! fid = Some fl -> task_done fl = true -> task_over w w fid.
Proof.
  intros Hfl Hd. split_and!; try done; [apply drains_refl|]. exists fl, (fl_phase fl).
  by destruct fl.
Qed.

Lemma set_drains w fid fl l :
  wr_flights w !! fid = Some fl -> fl_phase fl = TaskSet l -> exists w', task_over w w' fid.
Proof.
  intros Hfl Hp. eexists. eapply (task_over_step w _ _ fid fl _ (EvSet fid now)); [done|done| | | | |].
  - cbn. rewrite Hfl. cbn. by rewrite Hp.
  - done.
  - done.
  - done.
  - eapply task_over_now; [apply lookup_insert_eq|done].
Qed.

Lemma upstream_drains w fid fl :
  wr_flights w !! fid = Some fl -> fl_phase fl = TaskUpstream -> exists w', task_over w w' fid.
Proof.
  intros Hfl Hp. assert ((exists l, answer = Ok l) \/ exists e, answer = Err e) as [[l Ha]|[e Ha]]
    by (destruct answer; eauto).
  - destruct (set_drains (set_flight (log_upstream w (fl_request fl) (fl_filters fl) (Ok l)) fid
      (with_phase fl (TaskSet l))) fid (with_phase fl (TaskSet l)) l) as [w' Hw'];
      [apply lookup_insert_eq|done|].
    exists w'. eapply (task_over_step w _ w' fid fl _ (EvUpstream fid answer));
      [done|done| | | | |exact Hw'].
    + cbn. rewrite Hfl. cbn. by rewrite Hp, Ha.
    + done.
    + done.
    + done.
  - eexists. eapply (task_over_step w _ _ fid fl _ (EvUpstream fid answer));
      [done|done| | | | |].
    + cbn. rewrite Hfl. cbn. rewrite Hp, Ha. done.
    + by rewrite Ha.
    + by rewrite Ha.
    + by rewrite Ha.
    + eapply task_over_now; [apply lookup_insert_eq|done].
Qed.

Lemma task_drains w fid fl : wr_flights w !! fid = Some fl -> exists w', task_over w w' fid.
Proof.
  intros Hfl. destruct (fl_phase fl) as [| |l|o] eqn:Hp.
  - destruct (cache_get (fl_key fl) now (wr_cache w)) as [[l|] cache] eqn:Hg.
    + eexists. eapply (task_over_step w _ _ fid fl _ (EvGet fid now)); [done|done| | | | |].
      * cbn. rewrite Hfl. cbn. rewrite Hp, Hg. done.
      * done.
      * done.
      * done.
      * eapply task_over_now; [apply lookup_insert_eq|done].
    + destruct (upstream_drains (set_flight (set_cache w cache) fid (with_phase fl TaskUpstream)) fid
        (with_phase fl TaskUpstream)) as [w' Hw']; [apply lookup_insert_eq|done|].
      exists w'. eapply (task_over_step w _ w' fid fl _ (EvGet fid now)); [done|done| | | | |exact Hw'].
      * cbn. rewrite Hfl. cbn. by rewrite Hp, Hg.
      * done.
      * done.
      * done.
  - by apply (upstream_drains w fid fl).
  - by apply (set_drains w fid fl l).
  - exists w. apply (task_over_now w fid fl); [done|]. unfold task_done. by rewrite Hp.
Qed.

(** The call [id] of [w] is over in [w'], and no other call changed. *)
Definition call_over (w w' : wrapper) (id : nat) : Prop :=
  drains w w' /\ exists c, caller_done c = true /\ wr_callers w' = <[id := c]> (wr_callers w).

Lemma call_over_step w w1 w' id ev c :
  drains w w1 -> wr_callers w1 = wr_callers w -> internal answer now ev -> step w1 ev = Some w' ->
  wr_callers w' = <[id := c]> (wr_callers w1) -> caller_done c = true -> call_over w w' id.
Proof.
  intros Hd Hc Hi Hs Hc' Hdone. split; [eapply drains_trans; [exact Hd|by eapply drains_step]|].
  exists c. by rewrite Hc', Hc.
Qed.

Lemma waiting_drains w id c fid :
  flights_inv w -> wr_callers w !! id = Some c -> cl_state c = CallerWaiting fid ->
  exists w', call_over w w' id.
Proof.
  intros Hinv Hc Hs. pose proof (fi_caller w Hinv id c Hc) as Hco. unfold caller_ok in Hco.
  rewrite Hs in Hco. destruct Hco as (fl & key & Hfl & _).
  destruct (task_drains w fid fl Hfl) as (w1 & Hd & Hcs & _ & (g & ph & _ & Hg & Hdone) & _).
  destruct ph as [| | |o]; try done. eexists.
  eapply (call_over_step w w1 _ id (EvDeliver id)); [done|done|done| | |].
  - cbn. rewrite Hcs, Hc. cbn. rewrite Hs, Hg. cbn. unfold leave.
    change (task_done (with_phase g (TaskDone o))) with true. by rewrite andb_false_r.
  - done.
  - done.
Qed.

Lemma cleaning_drains w id c fid :
  flights_inv w -> wr_callers w !! id = Some c -> cl_state c = CallerCleaning fid ->
  exists w', call_over w w' id.
Proof.
  intros Hinv Hc Hs. pose proof (fi_caller w Hinv id c Hc) as Hco. unfold caller_ok in Hco.
  rewrite Hs in Hco. destruct Hco as [(fl & key & Hfl & _) _].
  destruct (task_drains w fid fl Hfl) as (w1 & Hd & Hcs & _ & (g & ph & _ & Hg & Hdone) & _).
  eexists. eapply (call_over_step w w1 _ id (EvCleaned id)); [done|done|done| | |].
  - cbn. rewrite Hcs, Hc. cbn. rewrite Hs, Hg. cbn. by rewrite Hdone.
  - done.
  - done.
Qed.

(** The flight registered under an identity ends and is removed. *)
Lemma identity_drains w i :
  flights_inv w ->
  exists w', drains w w' /\ wr_callers w' = wr_callers w /\ wr_inflight w' !! i = None /\
    forall n fl, wr_flights w !! n = Some fl -> task_done fl = true ->
      exists fl', wr_flights w' !! n = Some fl' /\ task_done fl' = true.
Proof.
  intros Hinv. destruct (wr_inflight w !! i) as [n|] eqn:Hi.
  2: { exists w. split_and!; [apply drains_refl|done|done|]. eauto. }
  destruct (fi_inflight w Hinv i n Hi) as (fl & Hfl & <-).
  destruct (task_drains w n fl Hfl) as (w1 & Hd & Hcs & Hin & (g & ph & Hg0 & Hg & Hdone) & Ho).
  rewrite Hfl in Hg0. injection Hg0 as <-.
  exists (set_inflight w1 (delete (identity_of_flight fl) (wr_inflight w1))). split_and!.
  - eapply drains_trans; [exact Hd|]. apply (drains_step _ (EvFinished n)); [done|].
    cbn. rewrite Hg. cbn. rewrite Hdone. change (identity_of_flight (with_phase fl ph)) with
      (identity_of_flight fl). rewrite decide_True; [done|]. by rewrite Hin.
  - done.
  - apply lookup_delete_eq.
  - intros m f Hm Hmd. cbn. destruct (decide (m = n)) as [->|Hne]; [by eauto|].
    rewrite Ho by done. eauto.
Qed.

Lemma blocked_drains w id c fid :
  flights_inv w -> wr_callers w !! id = Some c -> cl_state c = CallerBlocked fid ->
  exists w', call_over w w' id.
Proof.
  intros Hinv Hc Hs. pose proof (fi_caller w Hinv id c Hc) as Hco. unfold caller_ok in Hco.
  rewrite Hs in Hco. destruct Hco as [(fl & key & Hfl & Hk & _) _].
  destruct (task_drains w fid fl Hfl) as (w1 & Hd1 & Hc1 & _ & (g & ph & _ & Hg & Hgd) & _).
  destruct (identity_drains w1 (identity_of key (cl_request c)) (drains_inv _ _ Hd1 Hinv))
    as (w2 & Hd2 & Hc2 & Hi2 & Hdone).
  destruct (Hdone fid _ Hg Hgd) as (f2 & Hf2 & Hf2d).
  set (w3 := started id (cl_request c) (cl_filters c) key w2).
  assert (drains w w3) as Hd3.
  { eapply drains_trans; [exact Hd1|]. eapply drains_trans; [exact Hd2|].
    apply (drains_step _ (EvUnblock id)); [done|]. cbn. rewrite Hc2, Hc1, Hc. cbn.
    rewrite Hs, Hf2. cbn. rewrite Hk. cbn. rewrite Hf2d. unfold attach. by rewrite Hi2. }
  pose proof (drains_inv _ _ Hd3 Hinv) as Hinv3.
  destruct (waiting_drains w3 id (in_state (cl_request c) (cl_filters c)
      (CallerWaiting (fresh (dom (wr_flights w2))))) (fresh (dom (wr_flights w2))) Hinv3)
    as (w' & Hd' & c' & Hc' & Hcs'); [apply lookup_insert_eq|done|].
  exists w'. split; [by eapply drains_trans|]. exists c'. split; [done|].
  rewrite Hcs'. cbn. by rewrite insert_insert_eq, Hc2, Hc1.
Qed.

Lemma call_drains w id c :
  flights_inv w -> wr_callers w !! id = Some c -> caller_done c = false ->
  exists w', call_over w w' id.
Proof.
  intros Hinv Hc Hd. unfold caller_done in Hd. destruct (cl_state c) as [|fid|fid|fid|o] eqn:Hs.
  - eexists. eapply (call_over_step w w _ id (EvDirect id answer)); [apply drains_refl|done|done| | |].
    + cbn. rewrite Hc. cbn. by rewrite Hs.
    + by destruct answer.
    + done.
  - by eapply waiting_drains.
  - by eapply blocked_drains.
  - by eapply cleaning_drains.
  - done.
Qed.

Definition unfinished (m : gmap nat caller) : nat :=
  size (filter (fun ic : nat * caller => caller_done ic.2 = false) m).

Lemma unfinished_done m id c c' :
  m !! id = Some c -> caller_done c = false -> caller_done c' = true ->
  unfinished (<[id := c']> m) < unfinished m.
Proof.
  intros Hm Hc Hc'. unfold unfinished.
  rewrite map_filter_insert_False by (cbn; by rewrite Hc').
  assert (is_Some (filter (fun ic : nat * caller => caller_done ic.2 = false) m !! id)) as Hin
    by (exists c; by apply map_lookup_filter_Some_2).
  rewrite map_filter_delete, map_size_delete_Some by done.
  apply map_size_ne_0_lookup_2 in Hin. lia.
Qed.

Lemma all_drain w :
  flights_inv w ->
  exists w', drains w w' /\ forall id c, wr_callers w' !! id = Some c -> caller_done c = true.
Proof.
  remember (unfinished (wr_callers w)) as n eqn:Hn. revert w Hn.
  induction (lt_wf n) as [n _ IH]. intros w -> Hinv.
  destruct (decide (map_Forall (fun _ c => caller_done c = true) (wr_callers w))) as [Hall|Hnot].
  { exists w. split; [apply drains_refl|]. intros id c Hc. by apply (Hall id c). }
  apply map_not_Forall in Hnot as (id & c & Hc & Hd); [|by intros; apply _].
  apply not_true_is_false in Hd. destruct (call_drains w id c Hinv Hc Hd) as (w1 & Hd1 & c1 & Hc1 & Hcs).
  destruct (IH (unfinished (wr_callers w1))) with (w := w1) as (w' & Hd' & Hall).
  - rewrite Hcs. by apply (unfinished_done _ _ c).
  - done.
  - by eapply drains_inv.
  - exists w'. split; [by eapply drains_trans|done].
Qed.
End Progress.

(** C25: no caller is stuck.  From every state that a wrapper can reach, with callers
    behind abandoned flights, waiters that clean up after a cancellation and
    finished tasks whose callback is still to come, the tasks that are there can
    run to their end, whatever the upstream retriever answers, so that every call
    of [retrieve] returns, without a new caller or another cancellation. *)
Theorem flights_progress `{PyRepr} max ttl evs w answer now :
  steps (new_wrapper (new_cache max ttl)) evs = Some w ->
  exists evs' w', Forall (internal answer now) evs' /\ steps w evs' = Some w' /\
    forall id c, wr_callers w' !! id = Some c -> caller_done c = true.
Proof.
  intros Hrun. pose proof (steps_inv _ _ _ (new_wrapper_inv max ttl) Hrun) as Hinv.
  destruct (all_drain answer now w Hinv) as (w' & (evs' & Hi & Hs) & Hall). by exists evs', w'.
Qed.

(** * Examples *)

Module CachedExamples.
Import JsonExamples.

(** The same question with ids of its own. *)
Definition asked_as (rid : pystr) : RetrievalRequest :=
  {| rq_query := rq_query RrfExamples.request1; rq_top_k := rq_top_k RrfExamples.request1;
     rq_metadata_filter := [(u "lang", VStr (u "en"))];
     rq_score_threshold := Some fone; rq_request_id := rid; rq_trace_id := u "tr" |}.

Definition question (id : nat) (rid : pystr) : event :=
  EvCall id (asked_as rid) RrfExamples.filters1.

Definition small_cache : RetrievalCache := new_cache 2 fone.

(** Callers 0 and 1 share a flight, which outlives the cancellation of 0; caller 2
    has ids of its own and finds the answer in the cache. *)
Definition shared_run : list event :=
  [question 0 (u "a"); question 1 (u "a"); EvGet 0 fzero; EvCancel 0;
   EvUpstream 0 (Ok RrfExamples.dense1); EvSet 0 fzero; EvFinished 0; EvDeliver 1;
   question 2 (u "b"); EvGet 1 fzero; EvFinished 1; EvDeliver 2].

(** The last waiter of a running task is cancelled; a caller that comes meanwhile is
    not attached to the cancelled task. *)
Definition abandoned_run : list event :=
  [question 0 (u "a"); EvGet 0 fzero; EvCancel 0; question 1 (u "a"); EvTaskCancel 0; EvCleaned 0].

Definition after (evs : list event) : wrapper :=
  default (new_wrapper small_cache) (steps (new_wrapper small_cache) evs).

Definition caller_states (w : wrapper) : list (option caller_state) :=
  (fun i => cl_state <$> wr_callers w !! i) <$> [0; 1; 2].

Example shared_states :
  caller_states (after shared_run) =
  [Some (CallerDone CallerCancelled);
   Some (CallerDone (CallerResult (Ok RrfExamples.dense1)));
   Some (CallerDone (CallerResult (Ok RrfExamples.dense1)))] /\
  length (wr_upstream (after shared_run)) = 1.
Proof. split; vm_compute; reflexivity. Qed.

Example abandoned_states :
  caller_states (after abandoned_run) =
  [Some (CallerDone CallerCancelled); Some (CallerBlocked 0); None].
Proof. vm_compute. reflexivity. Qed.

Lemma after_reached evs :
  match steps (new_wrapper small_cache) evs with Some _ => true | None => false end = true ->
  steps (new_wrapper (new_cache 2 fone)) evs = Some (after evs).
Proof. unfold after, small_cache. by destruct (steps _ evs). Qed.

Lemma shared_reached :
  steps (new_wrapper (new_cache 2 fone)) shared_run = Some (after shared_run).
Proof. apply after_reached. vm_compute. reflexivity. Qed.

Lemma abandoned_reached :
  steps (new_wrapper (new_cache 2 fone)) abandoned_run = Some (after abandoned_run).
Proof. apply after_reached. vm_compute. reflexivity. Qed.

Lemma flights_share_safely_witness :
  steps (new_wrapper (new_cache 2 fone)) abandoned_run = Some (after abandoned_run) /\
  ((forall m n f g, wr_flights (after abandoned_run) !! m = Some f ->
      wr_flights (after abandoned_run) !! n = Some g -> task_done f = false -> task_done g = false ->
      identity_of_flight f = identity_of_flight g -> m = n) /\
   (forall id c fid, wr_callers (after abandoned_run) !! id = Some c -> cl_state c = CallerWaiting fid ->
     exists fl key, wr_flights (after abandoned_run) !! fid = Some fl /\
       cache_key (cl_request c) (cl_filters c) = Some key /\
       identity_of_flight fl = identity_of key (cl_request c) /\
       fl_waiters fl = waiting fid (wr_callers (after abandoned_run)) /\
       fl_abandoned fl = false /\ fl_phase fl <> TaskDone TaskCancelled)).
Proof.
  exact (conj abandoned_reached (flights_share_safely 2 fone abandoned_run (after abandoned_run) abandoned_reached)).
Defined.

Lemma shared_plain : Forall (asks plain_question) shared_run.
Proof.
  assert (forall rid, plain_question (asked_as rid) RrfExamples.filters1) as Hp.
  { intros rid. split; split; try (by constructor). repeat constructor; by apply not_elem_of_nil. }
  repeat (apply list.Forall_cons; split; [first [exact I|apply Hp]|]). by apply list.Forall_nil.
Qed.

(** Caller 2 gets from the cache what the upstream returned for caller 0. *)
Lemma cached_answers_own_question_witness :
  steps (new_wrapper (new_cache 2 fone)) shared_run = Some (after shared_run) /\
  exists (r : RetrievalRequest) (f : RetrievalFilterSet),
    (r, f, RrfExamples.dense1) ∈ wr_upstream (after shared_run) /\
    ((same_question r f (asked_as (u "b")) RrfExamples.filters1 /\
      forall d, _candidate_in_scope d f = _candidate_in_scope d RrfExamples.filters1) \/
     collision r f (asked_as (u "b")) RrfExamples.filters1).
Proof.
  split; [exact shared_reached|].
  exact (cached_answers_own_question 2 fone shared_run (after shared_run) 2
    (in_state (asked_as (u "b")) RrfExamples.filters1
       (CallerDone (CallerResult (Ok RrfExamples.dense1)))) RrfExamples.dense1
    shared_reached shared_plain ltac:(vm_compute; reflexivity) eq_refl).
Defined.

Lemma flights_progress_witness :
  steps (new_wrapper (new_cache 2 fone)) abandoned_run = Some (after abandoned_run) /\
  exists evs' w', Forall (internal (Ok []) fzero) evs' /\ steps (after abandoned_run) evs' = Some w' /\
    forall id c, wr_callers w' !! id = Some c -> caller_done c = true.
Proof.
  exact (conj abandoned_reached (flights_progress 2 fone abandoned_run (after abandoned_run) (Ok []) fzero abandoned_reached)).
Defined.

End CachedExamples.
