(* ===== verification/RetrievalService.v ===== *)
(** The retrieval service.

    Models [RetrievalService] of [packages/retrieval/service.py] over any
    candidate retriever, with the errors of [build_retrieval_filter_set]
    ([packages/retrieval/filters.py]).  The service is the last line of defence: it
    checks tenant, threshold, metadata and ACL of every candidate again.

    - [CandidateScope] is what the service may expect of a retriever: the
      candidates it returns are the tenant's and readable, and no chunk appears
      twice;
    - [service_exact]: what the service answers, and when it refuses, for any
      retriever;
    - the retrievers of this library are instances in [RetrievalPipeline]. *)

From Stdlib Require Import ZArith String.
From S2P Require Import Prelude Float64 PyVal Access Redact Effects Rrf Hybrid Rerank.
From stdpp Require Import base list numbers sets.

Open Scope eff_scope.

Definition RETRIEVAL_AUTH_REQUIRED : pystr := u "RETRIEVAL_AUTH_REQUIRED".
Definition RETRIEVAL_BACKEND_FAILED : pystr := u "RETRIEVAL_BACKEND_FAILED".
Definition FORBIDDEN_FILTER : pystr := u "RETRIEVAL_FORBIDDEN_FILTER".

(** The port [CandidateRetriever]. *)
Definition candidate_retriever (S : Type) : Type :=
  RetrievalRequest -> RetrievalFilterSet -> eff pyexc S (list RetrievalCandidate).

(** * Errors *)

Definition _safe_details (request : RetrievalRequest) (auth : option AuthContext)
    (error_code : pystr) : pydict :=
  [(u "request_id", VStr (rq_request_id request)); (u "trace_id", VStr (rq_trace_id request));
   (u "top_k", VInt (rq_top_k request)); (u "error_code", VStr error_code)]
  ++ match auth with
     | Some a => [(u "tenant_id", VStr (auth_tenant_id a)); (u "user_id", VStr (auth_user_id a))]
     | None => []
     end.

Definition _query_summary (query : pystr) : list (pystr * Z) :=
  [(u "length", Z.of_nat (length query))].

Section Errors.
Context `{PyRepr, UnicodeDB}.

Definition service_error (code : pystr) (message : string) (request : RetrievalRequest)
    (auth : option AuthContext) (status_code : Z) (cause : option pyexc) : pyexc :=
  PyExc (XRetrieval code (u message) (redact_mapping (_safe_details request auth code)) status_code)
    None cause.

Definition auth_required (request : RetrievalRequest) : pyexc :=
  service_error RETRIEVAL_AUTH_REQUIRED "Authentication context is required for retrieval." request
    None 401 None.

Definition backend_failed (request : RetrievalRequest) (auth : AuthContext) (cause : pyexc) : pyexc :=
  service_error RETRIEVAL_BACKEND_FAILED "Retrieval backend failed." request (Some auth) 502
    (Some cause).

Definition out_of_scope_error (request : RetrievalRequest) (auth : AuthContext) : pyexc :=
  service_error RETRIEVAL_BACKEND_FAILED "Retrieval backend returned an out-of-scope candidate."
    request (Some auth) 502 None.

Definition forbidden_filter (request : RetrievalRequest) (auth : AuthContext) : pyexc :=
  service_error FORBIDDEN_FILTER "Retrieval metadata filter cannot widen tenant scope." request
    (Some auth) 403 None.

(** [build_retrieval_filter_set] with the exceptions it raises. *)
Definition filter_set (request : RetrievalRequest) (auth : AuthContext)
    : result pyexc RetrievalFilterSet :=
  match build_retrieval_filter_set auth request with
  | Ok f => Ok f
  | Err RETRIEVAL_FORBIDDEN_FILTER => Err (forbidden_filter request auth)
  | Err _ => Err (python_error "ValidationError")
  end.

(** * The checks on the candidates *)

Section Checks.
Context (request : RetrievalRequest) (auth : AuthContext) (filters : RetrievalFilterSet).

(** The candidates the loop appends. *)
Definition keeps (acl_filter : AclFilter) (c : RetrievalCandidate) : bool :=
  negb (below (rq_score_threshold request) (rc_score c)) &&
  _metadata_matches (rc_metadata c) (fs_metadata_filter filters) && acl_allows (rc_acl c) acl_filter.

Fixpoint safe_loop (acl_filter : AclFilter) (safe candidates : list RetrievalCandidate)
    : result pyexc (list RetrievalCandidate) :=
  match candidates with
  | [] => Ok safe
  | c :: rest =>
      if negb (bool_decide (rc_tenant_id c = auth_tenant_id auth))
      then Err (out_of_scope_error request auth) else
      if below (rq_score_threshold request) (rc_score c) then safe_loop acl_filter safe rest else
      if negb (_metadata_matches (rc_metadata c) (fs_metadata_filter filters))
      then safe_loop acl_filter safe rest else
      if negb (acl_allows (rc_acl c) acl_filter) then safe_loop acl_filter safe rest else
      let safe := safe ++ [c] in
      if (rq_top_k request <=? count safe)%Z then Ok safe else safe_loop acl_filter safe rest
  end.

Definition _safe_candidates (candidates : list RetrievalCandidate)
    : result pyexc (list RetrievalCandidate) :=
  match to_vector_acl_filter filters with
  | Err _ => Err (python_error "ValidationError")
  | Ok acl_filter => safe_loop acl_filter [] candidates
  end.
End Checks.

(** * The service *)

Section Service.
Context {S : Type} (retriever : candidate_retriever S) (clock : S -> float * S).

Definition now : eff pyexc S float := fun s => let '(t, s') := clock s in (Ok t, s').

(** [except RetrievalError: raise; except Exception]: a cancellation is neither. *)
Definition asked_retriever (request : RetrievalRequest) (auth : AuthContext)
    (filters : RetrievalFilterSet) : eff pyexc S (list RetrievalCandidate) :=
  mcatch (retriever request filters)
    (fun exc => if is_retrieval_error exc || is_cancelled exc then mraise exc
                else mraise (backend_failed request auth exc)).

Definition retrieve (request : RetrievalRequest) (auth : option AuthContext)
    : eff pyexc S RetrievalResult :=
  started <- now;;
  match auth with
  | None => mraise (auth_required request)
  | Some auth =>
      filters <- mlift (filter_set request auth);;
      candidates <- asked_retriever request auth filters;;
      safe_candidates <- mlift (_safe_candidates request auth filters candidates);;
      finished <- now;;
      mreturn {| rt_request_id := rq_request_id request; rt_trace_id := rq_trace_id request;
                 rt_tenant_id := auth_tenant_id auth; rt_user_id := auth_user_id auth;
                 rt_top_k := rq_top_k request; rt_query_summary := _query_summary (rq_query request);
                 rt_candidates := safe_candidates;
                 rt_latency_ms := Some (fmul (fsub finished started) (fofZ 1000));
                 rt_error_code := None |}
  end.
End Service.
End Errors.

(** * Properties *)

Section Props.
Context `{PyRepr, UnicodeDB}.

(** What a candidate needs to be shown to the caller of [filters]. *)
Definition readable (filters : RetrievalFilterSet) (c : RetrievalCandidate) : Prop :=
  rc_tenant_id c = fs_tenant_id filters /\
  exists f, to_vector_acl_filter filters = Ok f /\ acl_allows (rc_acl c) f = true.

(** What a retriever promises to the service. *)
Class CandidateScope {S} (r : candidate_retriever S) : Prop :=
  scope_promise request filters s l s' :
    (0 <= rq_top_k request)%Z -> r request filters s = (Ok l, s') ->
    Forall (readable filters) l /\ NoDup (candidate_key <$> l).

(** A filter set that was built can be turned into an ACL filter, and its tenant is
    the one of a validated identity. *)
Lemma filter_set_acl request auth filters :
  filter_set request auth = Ok filters -> exists f, to_vector_acl_filter filters = Ok f.
Proof.
  unfold filter_set, build_retrieval_filter_set.
  destruct (widens_tenant _ _); [done|].
  destruct (required_text _) as [t|]; [|done].
  destruct (required_text (af_user_id _)) as [n|] eqn:Hn; [|done]. intros [= <-].
  unfold to_vector_acl_filter, make_acl_filter. cbn [fs_user_id].
  destruct (required_text_ok _ _ Hn) as [-> Hne].
  rewrite (required_text_fix _ (strip_idem _) Hne). eexists. reflexivity.
Qed.

Section Loop.
Context (request : RetrievalRequest) (auth : AuthContext) (filters : RetrievalFilterSet).

Definition own_tenant (c : RetrievalCandidate) : Prop := rc_tenant_id c = auth_tenant_id auth.

(** The loop met a candidate of another tenant before the answer was complete. *)
Definition foreign_met (f : AclFilter) (safe candidates : list RetrievalCandidate) : Prop :=
  exists pre c post, candidates = pre ++ c :: post /\ rc_tenant_id c <> auth_tenant_id auth /\
    (count (safe ++ List.filter (keeps request filters f) pre) < rq_top_k request)%Z.

Lemma foreign_met_cons f safe c cands :
  (if keeps request filters f c then foreign_met f (safe ++ [c]) cands else foreign_met f safe cands) ->
  foreign_met f safe (c :: cands).
Proof.
  destruct (keeps request filters f c) eqn:Hk; intros (pre & d & post & -> & Hd & Hc);
    exists (c :: pre), d, post; (split; [done|split; [done|]]); cbn; rewrite Hk; [|done].
  by rewrite <- app_assoc in Hc.
Qed.

Lemma safe_loop_spec f cands : forall safe,
  (count safe < rq_top_k request)%Z ->
  match safe_loop request auth filters f safe cands with
  | Ok out => exists kept, out = safe ++ kept /\ Forall own_tenant kept /\
      out = take (Z.to_nat (rq_top_k request)) (safe ++ List.filter (keeps request filters f) cands)
  | Err e => e = out_of_scope_error request auth /\ foreign_met f safe cands
  end.
Proof.
  unfold count in *. induction cands as [|c cands IH]; intros safe Hlen; cbn [safe_loop].
  { exists []. cbn [List.filter]. rewrite !app_nil_r. split_and!; [done|done|].
    rewrite take_ge; [done|]. lia. }
  case_bool_decide as Ht; cbn [negb].
  2: { split; [done|]. exists [], c, cands. cbn. rewrite app_nil_r. done. }
  assert (keeps request filters f c = false ->
    match safe_loop request auth filters f safe cands with
    | Ok out => exists kept, out = safe ++ kept /\ Forall own_tenant kept /\
        out = take (Z.to_nat (rq_top_k request))
                (safe ++ List.filter (keeps request filters f) (c :: cands))
    | Err e => e = out_of_scope_error request auth /\ foreign_met f safe (c :: cands)
    end) as Hskip.
  { intros Hk. specialize (IH safe Hlen). cbn. rewrite Hk.
    destruct (safe_loop _ _ _ _ _ _); [done|]. destruct IH as [-> Hm]. split; [done|].
    apply foreign_met_cons. by rewrite Hk. }
  destruct (below _ _) eqn:Hb; [apply Hskip; unfold keeps; by rewrite Hb|].
  destruct (_metadata_matches _ _) eqn:Hmd; cbn [negb];
    [|apply Hskip; unfold keeps; rewrite Hmd; by rewrite andb_false_r].
  destruct (acl_allows _ _) eqn:Ha; cbn [negb];
    [|apply Hskip; unfold keeps; rewrite Ha; by rewrite andb_false_r].
  assert (keeps request filters f c = true) as Hk by (unfold keeps; by rewrite Hb, Hmd, Ha).
  clear Hskip. cbn [List.filter]. rewrite Hk. unfold count. rewrite length_app. cbn [length].
  destruct (Z.leb_spec (rq_top_k request) (Z.of_nat (length safe + 1))) as [Hfull|Hmore].
  - exists [c]. split; [done|]. split; [by repeat constructor|].
    change (c :: List.filter (keeps request filters f) cands)
      with ([c] ++ List.filter (keeps request filters f) cands).
    rewrite app_assoc, take_app_le, take_ge; [done| |]; rewrite length_app; cbn; lia.
  - specialize (IH (safe ++ [c])). rewrite length_app in IH. specialize (IH Hmore).
    destruct (safe_loop _ _ _ _ _ _) as [out|e].
    + destruct IH as (kept & -> & Hown & Hout). exists (c :: kept).
      rewrite <- app_assoc. split; [done|]. split; [by constructor|].
      rewrite <- app_assoc in Hout. rewrite <- app_assoc in Hout. exact Hout.
    + destruct IH as [-> Hm]. split; [done|]. apply foreign_met_cons. by rewrite Hk.
Qed.
End Loop.

Lemma filter_set_tenant request auth filters :
  auth_wf auth -> filter_set request auth = Ok filters -> fs_tenant_id filters = auth_tenant_id auth.
Proof.
  intros [_ [Ht Ht'] _ _ _ _]. unfold filter_set, build_retrieval_filter_set. cbn.
  rewrite (required_text_fix _ Ht Ht'). destruct (widens_tenant _ _); [done|].
  destruct (required_text _); [|done]. by intros [= <-].
Qed.

Lemma keeps_readable request filters f c :
  to_vector_acl_filter filters = Ok f -> readable filters c ->
  keeps request filters f c
  = negb (below (rq_score_threshold request) (rc_score c)) &&
    _metadata_matches (rc_metadata c) (fs_metadata_filter filters).
Proof.
  intros Hf (_ & g & Hg & Ha). rewrite Hf in Hg. injection Hg as <-. unfold keeps.
  by rewrite Ha, andb_true_r.
Qed.

Lemma keeps_all request filters f l :
  to_vector_acl_filter filters = Ok f -> Forall (readable filters) l ->
  List.filter (keeps request filters f) l
  = List.filter (fun c => negb (below (rq_score_threshold request) (rc_score c)) &&
                          _metadata_matches (rc_metadata c) (fs_metadata_filter filters)) l.
Proof.
  intros Hf Hl. induction Hl as [|c l Hc Hl IH]; [done|]. cbn [List.filter].
  by rewrite (keeps_readable request filters f c Hf Hc), IH.
Qed.

(** Over a retriever that keeps its promise the service refuses nothing, and the
    ACL filters nothing. *)
Lemma service_over_scope {S} (retriever : candidate_retriever S) `{!CandidateScope retriever} clock
    request auth filters s l s1 :
  auth_wf auth -> (0 < rq_top_k request)%Z -> filter_set request auth = Ok filters ->
  retriever request filters (clock s).2 = (Ok l, s1) ->
  exists res s', retrieve retriever clock request (Some auth) s = (Ok res, s') /\
    rt_candidates res
    = take (Z.to_nat (rq_top_k request))
        (List.filter (fun c => negb (below (rq_score_threshold request) (rc_score c)) &&
                               _metadata_matches (rc_metadata c) (fs_metadata_filter filters)) l).
Proof.
  intros Hwf Hk Hfs Hr.
  destruct (scope_promise request filters _ l s1 ltac:(lia) Hr) as [Hread Hnd].
  destruct (filter_set_acl request auth filters Hfs) as [f Hf].
  pose proof (safe_loop_spec request auth filters f l [] Hk) as Hloop.
  unfold retrieve, mthen at 1, now at 1. destruct (clock s) as [t0 s0]. cbn [snd] in Hr.
  rewrite Hfs. unfold mthen, mlift, asked_retriever, mcatch. rewrite Hr.
  unfold _safe_candidates. rewrite Hf.
  destruct (safe_loop _ _ _ _ _ _) as [out|e].
  - destruct Hloop as (kept & -> & _ & Hout). unfold now. destruct (clock s1) as [t1 s2].
    eexists _, _. split; [reflexivity|]. cbn in *. by rewrite <- keeps_all with (f := f).
  - exfalso. destruct Hloop as [_ (pre & c & post & -> & Hc & _)]. apply Hc.
    rewrite list.Forall_forall in Hread. destruct (Hread c) as [-> _]; [set_solver|].
    by apply filter_set_tenant with request.
Qed.
End Props.

(** C27: the retrieval service is exact about what it releases, whatever the
    retriever does.  Without an identity, or when the metadata filter names another
    tenant, it fails and the retriever is not asked.  An error of the retriever is
    passed on when it is a [RetrievalError] or a cancellation and wrapped otherwise.
    Otherwise the answer is the first [top_k] of the retriever's candidates, in its
    order, that reach the threshold, match the metadata filter and are readable
    under their ACL, all of them of the caller's tenant; the call fails exactly
    when a candidate of another tenant comes before the answer is complete. *)
Theorem service_exact `{PyRepr, UnicodeDB} {S} (retriever : candidate_retriever S) clock request
    auth s :
  (0 < rq_top_k request)%Z ->
  let '(r, s') := retrieve retriever clock request auth s in
  let s0 := (clock s).2 in
  match auth with
  | None => r = Err (auth_required request) /\ s' = s0
  | Some auth =>
      match filter_set request auth with
      | Err e => r = Err e /\ s' = s0
      | Ok filters =>
          exists f, to_vector_acl_filter filters = Ok f /\
          let '(answer, s1) := retriever request filters s0 in
          match answer, r with
          | Err e, _ =>
              s' = s1 /\
              r = Err (if is_retrieval_error e || is_cancelled e then e
                       else backend_failed request auth e)
          | Ok l, Ok res =>
              rt_candidates res
              = take (Z.to_nat (rq_top_k request)) (List.filter (keeps request filters f) l) /\
              Forall (own_tenant auth) (rt_candidates res) /\
              rt_tenant_id res = auth_tenant_id auth /\ rt_user_id res = auth_user_id auth
          | Ok l, Err e => e = out_of_scope_error request auth /\ foreign_met request auth filters f [] l
          end
      end
  end.
Proof.
  intros Hk. unfold retrieve, mthen at 1, now at 1. destruct (clock s) as [t0 s0]. cbn [snd].
  destruct auth as [auth|]; [|done]. unfold mthen at 1, mlift at 1.
  destruct (filter_set request auth) as [filters|e] eqn:Hfs; [|done].
  destruct (filter_set_acl request auth filters Hfs) as [f Hf].
  unfold mthen, asked_retriever, mcatch. destruct (retriever request filters s0) as [[l|e] s1].
  2: { destruct (_ || _); exists f; done. }
  pose proof (safe_loop_spec request auth filters f l [] Hk) as Hloop.
  unfold mlift, _safe_candidates. rewrite Hf.
  destruct (safe_loop _ _ _ _ _ _) as [out|e]; [|by exists f].
  destruct Hloop as (kept & -> & Hown & Hout). unfold now. destruct (clock s1) as [t1 s2].
  exists f. by split.
Qed.

(** * Examples *)

Module ServiceExamples.
Import Examples RedactExamples RrfExamples.

Definition clock1 (s : Z) : float * Z := (fofZ s, (s + 1)%Z).
Definition returning (l : list RetrievalCandidate) : candidate_retriever Z := fun _ _ s => (Ok l, s).

Definition served1 := retrieve (returning (tl dense1 ++ sparse1)) clock1 request1 (Some alice) 0%Z.

(** A readable chunk from each list; the candidate of [t2] is refused. *)
Example served1_chunks :
  match served1.1 with Ok res => rc_chunk_id <$> rt_candidates res | Err _ => [] end
  = [u "c1"; u "c2"].
Proof. vm_compute. reflexivity. Qed.

Example foreign_candidate_refused :
  (retrieve (returning dense1) clock1 request1 (Some alice) 0%Z).1
  = Err (out_of_scope_error request1 alice).
Proof. vm_compute. reflexivity. Qed.

Lemma service_exact_witness :
  (0 < rq_top_k request1)%Z /\
  (let '(r, s') := retrieve (returning dense1) clock1 request1 None 0%Z in
   r = Err (auth_required request1) /\ s' = 1%Z).
Proof.
  assert (0 < rq_top_k request1)%Z as Hk by (vm_compute; reflexivity).
  split; [exact Hk|].
  exact (service_exact (returning dense1) clock1 request1 None 0%Z Hk).
Defined.
End ServiceExamples.
