(* ===== verification/QueryRouter.v ===== *)
(** Adaptive routing of queries.

    Models [packages/retrieval/query_router.py]: the route configurations, the
    keyword classifier with its regular expressions, the fallback to a language
    model (a parameter) and [RoutingRetriever].

    - [classification_sound]: the confidence is between 0 and 1, the model is asked
      only when the keywords are not conclusive, and its failure changes nothing;
    - [routing_exact]: the retriever of the class is asked once, with the route's
      limit and a threshold no laxer than the caller's or the route's. *)

From Stdlib Require Import ZArith String.
From S2P Require Import Prelude Effects Float64 PyVal Access Redact SourceMetadata Rrf Hybrid RetrievalService.
From stdpp Require Import base list numbers sets.

Open Scope eff_scope.

(** * Query types and routes *)

Inductive QueryType : Type := Factual | Complex | Comparison.

#[export] Instance QueryType_eq_dec : EqDecision QueryType.
Proof. solve_decision. Defined.

Definition query_type_text (q : QueryType) : pystr :=
  match q with
  | Factual => u "factual" | Complex => u "complex" | Comparison => u "comparison"
  end.

(** [llm_type in ALL_QUERY_TYPES]. *)
Definition parse_query_type (s : pystr) : option QueryType :=
  List.find (fun q => bool_decide (query_type_text q = s)) [Factual; Complex; Comparison].

Record QueryRouteConfig : Type := {
  ro_top_k : Z;
  ro_score_threshold : option float;
  ro_skip_rerank : bool
}.

Inductive route_error : Type := RouteTopK | RouteThreshold.

Definition make_route (c : QueryRouteConfig) : result route_error QueryRouteConfig :=
  _ ← raise_if ((ro_top_k c <=? 0) || (MAX_RETRIEVAL_TOP_K <? ro_top_k c))%Z RouteTopK;
  _ ← raise_if (match ro_score_threshold c with
                | Some x => flt x fzero || flt fone x
                | None => false end) RouteThreshold;
  mret c.

Record QueryRouterConfig : Type := {
  qr_factual : QueryRouteConfig;
  qr_complex : QueryRouteConfig;
  qr_comparison : QueryRouteConfig;
  qr_llm_fallback_enabled : bool;
  qr_confidence_threshold : float
}.

Definition default_router : QueryRouterConfig :=
  {| qr_factual := {| ro_top_k := 5; ro_score_threshold := Some (flit 3 10); ro_skip_rerank := true |};
     qr_complex := {| ro_top_k := 10; ro_score_threshold := Some (flit 3 10); ro_skip_rerank := false |};
     qr_comparison := {| ro_top_k := 20; ro_score_threshold := None; ro_skip_rerank := false |};
     qr_llm_fallback_enabled := false; qr_confidence_threshold := flit 6 10 |}.

Definition get_route (c : QueryRouterConfig) (q : QueryType) : QueryRouteConfig :=
  match q with
  | Factual => qr_factual c | Complex => qr_complex c | Comparison => qr_comparison c
  end.

(** * Patterns *)

Definition RSeq (l : list re) : re := foldr RCat REps l.
Definition one_of (l : list string) : re := RAnyOf ((fun s => RStrI (u s)) <$> l).
Definition lit (s : string) : re := RStrI (u s).
Definition plural (s : string) : re := RCat (lit s) (ROpt (lit "s")).
Definition spaces : re := RPlus (RChr is_space).
Definition whole (l : list re) : re := RCat RBound (RCat (RSeq l) RBound).

(** [.{1,n}]: a dot does not match a line feed. *)
Fixpoint up_to (n : nat) (r : re) : re :=
  match n with O => REps | S m => ROpt (RCat r (up_to m r)) end.
Definition dot : re := RChr (fun c => negb (c =? 10)%N).
Definition gap (n : nat) : re := RCat dot (up_to (pred n) dot).

Definition _COMPARISON_PATTERNS : list re :=
  [whole [lit "compare"]; whole [lit "versus"];
   RSeq [RBound; lit "vs"; ROpt (lit "."); RBound];
   whole [plural "difference"; spaces; lit "between"];
   whole [plural "pro"; spaces; lit "and"; spaces; plural "con"];
   whole [plural "advantage"; spaces; one_of ["and"; "&"; "vs"]; spaces; plural "disadvantage"];
   whole [plural "strength"; spaces; one_of ["and"; "&"; "vs"]; spaces; lit "weaknesse"; ROpt (lit "s")];
   whole [lit "which"; spaces; one_of ["is"; "one"]; spaces;
          one_of ["better"; "best"; "worse"; "worst"]];
   whole [lit "contrast"]; whole [lit "analyze"]; whole [lit "analysis"];
   whole [lit "trade"; ROpt (RChr (fun c => is_space c || (c =? 45)%N)); plural "off"];
   whole [lit "evaluate"]]%string.

Definition _COMPLEX_PATTERNS : list re :=
  [whole [lit "first"; gap 80; lit "then"];
   RSeq [whole [one_of ["first"; "initially"]]; gap 100;
         whole [one_of ["after"; "subsequently"; "next"; "finally"]]];
   RSeq [whole [RAlt (RSeq [lit "how"; spaces; one_of ["does"; "do"; "can"; "did"; "is"; "are"]])
                     (RSeq [lit "what"; spaces; one_of ["is"; "are"]])];
         gap 120;
         whole [RAnyOf [lit "affect"; lit "impact"; lit "influence";
                        RSeq [lit "lead"; spaces; lit "to"]; RSeq [lit "result"; spaces; lit "in"];
                        lit "cause"; lit "because"; lit "since"; RSeq [lit "due"; spaces; lit "to"]]]];
   whole [one_of ["explain"; "describe"; "elaborate"]; spaces; one_of ["how"; "why"]];
   whole [lit "what"; spaces; one_of ["is"; "are"]; spaces; lit "the"; spaces;
          RAnyOf [plural "reason"; plural "cause"; plural "implication"; plural "consequence";
                  plural "effect"]];
   whole [one_of ["relationship"; "connection"; "link"]; spaces; lit "between"];
   whole [one_of ["underlying"; "root"]; spaces; one_of ["cause"; "reason"; "mechanism"]];
   RSeq [RStr (u "?"); gap 100; RStr (u "?")];
   whole [lit "multi"; ROpt (RChr (fun c => is_space c || (c =? 45)%N));
          one_of ["hop"; "step"; "part"; "stage"]];
   whole [lit "chain"; spaces; lit "of"; spaces; one_of ["thought"; "reasoning"; "events"]]]%string.

Definition _FACTUAL_PATTERNS : list re :=
  [whole [one_of ["what"; "when"; "where"]; spaces; one_of ["is"; "are"; "was"; "were"]];
   whole [lit "who"; spaces;
          one_of ["is"; "are"; "was"; "were"; "invented"; "discovered"; "created"; "founded"; "built";
                  "made"; "wrote"; "painted"; "composed"; "developed"; "designed"]];
   whole [lit "how"; spaces;
          one_of ["many"; "much"; "old"; "long"; "far"; "often"; "tall"; "big"; "large"; "small";
                  "fast"; "heavy"; "deep"; "wide"]];
   whole [lit "define"]; whole [lit "definition"; spaces; lit "of"]]%string.

(** * The classifier *)

Section Classify.
Context `{UnicodeDB}.

Definition factual_matches (s : pystr) : Z :=
  Z.of_nat (length (List.filter (fun r => re_search r s) _FACTUAL_PATTERNS)).

Definition classify (query : pystr) : QueryType * float :=
  let stripped := strip query in
  match stripped with
  | [] => (Factual, fone)
  | _ =>
      if existsb (fun r => re_search r stripped) _COMPARISON_PATTERNS
      then (Comparison, flit 9 10) else
      if existsb (fun r => re_search r stripped) _COMPLEX_PATTERNS then (Complex, flit 85 100) else
      let n := factual_matches stripped in
      if (0 <? n)%Z
      then (Factual, fmin (fadd (flit 7 10) (fmul (fofZ n) (flit 1 10))) fone) else
      let word_count := length (split_words stripped []) in
      if (word_count <=? 3) && (length stripped <=? 50) then (Factual, flit 65 100) else
      if 20 <? word_count then (Complex, flit 6 10) else (Complex, flit 4 10)
  end.

(** The classifier of the language model. *)
Definition llm_port (S : Type) : Type := RetrievalRequest -> RetrievalFilterSet -> eff pyexc S pystr.

Section Router.
Context {S : Type} (config : QueryRouterConfig) (llm_classifier : option (llm_port S)).

Definition classify_with_llm (request : RetrievalRequest) (filters : RetrievalFilterSet)
    : eff pyexc S (QueryType * float) :=
  let '(qtype, confidence) := classify (rq_query request) in
  if fle (qr_confidence_threshold config) confidence then mreturn (qtype, confidence) else
  match llm_classifier with
  | Some llm =>
      if qr_llm_fallback_enabled config then
        mcatch (llm_type <- llm request filters;;
                mreturn (match parse_query_type llm_type with
                         | Some q => (q, flit 85 100)
                         | None => (qtype, confidence) end))
          (fun exc => if is_cancelled exc then mraise exc else mreturn (qtype, confidence))
      else mreturn (qtype, confidence)
  | None => mreturn (qtype, confidence)
  end.
End Router.
End Classify.

(** * The routing retriever *)

(** The context variables of the retriever. *)
Record routing_world (S : Type) : Type := {
  ro_state : S;
  ro_query_type : option QueryType;
  ro_confidence : float
}.
Arguments ro_state {S}.
Arguments ro_query_type {S}.
Arguments ro_confidence {S}.

Definition effective_threshold (route requested : option float) : option float :=
  match requested with
  | Some r => Some (match route with Some t => fmax r t | None => r end)
  | None => route
  end.

Section Routing.
Context `{PyRepr, UnicodeDB} {S : Type}.
Context (config : QueryRouterConfig) (llm_classifier : option (llm_port S)).
Context (factual complex comparison : candidate_retriever S).

(** [RetrievalRequest(...)] of a request that was valid before. *)
Definition adjusted_request (route : QueryRouteConfig) (request : RetrievalRequest)
    : result pyexc RetrievalRequest :=
  let threshold := effective_threshold (ro_score_threshold route) (rq_score_threshold request) in
  let metadata := MdFrozen (rq_metadata_filter request) in
  match make_retrieval_request (rq_query request) (ro_top_k route) metadata threshold
          (rq_request_id request) (rq_trace_id request) with
  | Ok r => Ok r
  | Err _ =>
      Err (PyExc (XRetrieval RETRIEVAL_INVALID_REQUEST (u "Retrieval request is invalid.")
             (redact_mapping (_safe_validation_details (ro_top_k route)
                (request_error_count (rq_query request) (ro_top_k route) metadata threshold
                   (rq_request_id request) (rq_trace_id request))
                (rq_request_id request) (rq_trace_id request))) 400) None None)
  end.

Definition retriever_for (q : QueryType) : candidate_retriever S :=
  match q with
  | Factual => factual | Comparison => comparison | Complex => complex
  end.

Definition at_state {A} (m : eff pyexc S A) : eff pyexc (routing_world S) A := fun w =>
  let '(r, s) := m (ro_state w) in
  (r, {| ro_state := s; ro_query_type := ro_query_type w; ro_confidence := ro_confidence w |}).

Definition retrieve (request : RetrievalRequest) (filters : RetrievalFilterSet)
    : eff pyexc (routing_world S) (list RetrievalCandidate) :=
  classified <- at_state (classify_with_llm config llm_classifier request filters);;
  let '(qtype, confidence) := classified in
  _ <- modify (fun w => {| ro_state := ro_state w; ro_query_type := Some qtype;
                           ro_confidence := confidence |});;
  adjusted <- mlift (adjusted_request (get_route config qtype) request);;
  at_state (retriever_for qtype adjusted filters).
End Routing.

(** * Properties *)

Definition in_unit (x : float) : Prop := fle fzero x = true /\ fle x fone = true.

Lemma classify_confidence `{UnicodeDB} query : in_unit (classify query).2.
Proof.
  unfold classify. destruct (strip query) as [|c s]; [by vm_compute|].
  destruct (existsb _ _); [by vm_compute|]. destruct (existsb _ _); [by vm_compute|].
  assert (0 <= factual_matches (c :: s) <= 5)%Z as Hn.
  { unfold factual_matches. pose proof (List.filter_length_le (fun r => re_search r (c :: s))
      _FACTUAL_PATTERNS) as Hl. change (length _FACTUAL_PATTERNS) with 5 in Hl. lia. }
  destruct (Z.ltb_spec 0 (factual_matches (c :: s))) as [Hpos|].
  - cbn [snd]. assert (factual_matches (c :: s) = 1 \/ factual_matches (c :: s) = 2 \/
      factual_matches (c :: s) = 3 \/ factual_matches (c :: s) = 4 \/
      factual_matches (c :: s) = 5)%Z as [->|[->|[->|[->| ->]]]] by lia; by vm_compute.
  - destruct (_ && _); [by vm_compute|]. destruct (20 <? _); by vm_compute.
Qed.

(** The model is asked: the keywords leave the class open and there is a model. *)
Definition consulted {S} (config : QueryRouterConfig) (llm : option (llm_port S)) (confidence : float)
    (port : llm_port S) : Prop :=
  llm = Some port /\ qr_llm_fallback_enabled config = true /\
  fle (qr_confidence_threshold config) confidence = false.

(** Classification is total and its confidence lies between 0 and 1.  The
    language model is asked only when it is enabled and the keywords are not
    conclusive; an answer that names a class decides, any other answer and any
    failure of the model leaves the class of the keywords, and only a cancellation
    is passed on. *)
Theorem classification_sound `{UnicodeDB} {S} config (llm : option (llm_port S)) request filters s :
  let '(r, s') := classify_with_llm config llm request filters s in
  let keywords := classify (rq_query request) in
  in_unit keywords.2 /\
  ((r = Ok keywords /\ s' = s) \/
   exists port, consulted config llm keywords.2 port /\
     let '(answer, s1) := port request filters s in
     s' = s1 /\
     match answer with
     | Ok text =>
         r = Ok (match parse_query_type text with
                 | Some q => (q, flit 85 100) | None => keywords end)
     | Err e => r = if is_cancelled e then Err e else Ok keywords
     end).
Proof.
  unfold classify_with_llm. pose proof (classify_confidence (rq_query request)) as Hc.
  destruct (classify (rq_query request)) as [q c]. cbn [snd] in *.
  destruct (fle _ _) eqn:Hf; [by split; [|left]|].
  destruct llm as [port|]; [|by split; [|left]].
  destruct (qr_llm_fallback_enabled config) eqn:He; [|by split; [|left]].
  unfold mcatch, mthen, mreturn. destruct (port request filters s) as [[text|e] s1] eqn:Hp.
  - split; [done|]. right. exists port. split; [done|]. by rewrite Hp.
  - destruct (is_cancelled e) eqn:Hx; (split; [done|]); right; exists port; (split; [done|]);
      rewrite Hp, Hx; by split.
Qed.

(** A request as its constructor leaves it. *)
Record request_valid (r : RetrievalRequest) : Prop := {
  rv_texts : Forall (fun s => strip s = s /\ s <> []) [rq_query r; rq_request_id r; rq_trace_id r];
  rv_top_k : (0 < rq_top_k r <= MAX_RETRIEVAL_TOP_K)%Z;
  rv_threshold : forall x, rq_score_threshold r = Some x -> score_in_range x = true
}.

Lemma made_request_valid q k md t r tr rq :
  make_retrieval_request q k md t r tr = Ok rq -> request_valid rq.
Proof.
  assert (forall s n, required_text s = Ok n -> strip n = n /\ n <> []) as Hr.
  { intros s n Hn. apply required_text_ok in Hn as [-> Hne]. by rewrite strip_idem. }
  unfold make_retrieval_request. intros Hm. res_inv; bool_inv. constructor; cbn.
  all: try (repeat constructor; eapply Hr; eassumption).
  all: try lia.
  all: intros x Hx; simplify_eq; by apply negb_false_iff.
Qed.

Definition route_valid (c : QueryRouteConfig) : Prop :=
  (0 < ro_top_k c <= MAX_RETRIEVAL_TOP_K)%Z /\
  forall x, ro_score_threshold c = Some x -> score_in_range x = true.

Lemma effective_in_range route requested x :
  (forall y, route = Some y -> score_in_range y = true) ->
  (forall y, requested = Some y -> score_in_range y = true) ->
  effective_threshold route requested = Some x -> score_in_range x = true.
Proof.
  intros Hr Hq. destruct requested as [r|], route as [t|]; cbn; intros [= <-]; auto.
  unfold fmax. destruct (flt r t); auto.
Qed.

(** The request that a route sends. *)
Definition routed (route : QueryRouteConfig) (r : RetrievalRequest) : RetrievalRequest :=
  {| rq_query := rq_query r; rq_top_k := ro_top_k route;
     rq_metadata_filter := rq_metadata_filter r;
     rq_score_threshold := effective_threshold (ro_score_threshold route) (rq_score_threshold r);
     rq_request_id := rq_request_id r; rq_trace_id := rq_trace_id r |}.

Lemma adjusted_routed `{PyRepr, UnicodeDB} route r :
  request_valid r -> route_valid route -> adjusted_request route r = Ok (routed route r).
Proof.
  intros [Ht Hk Hs] [Hrk Hrt]. unfold adjusted_request.
  assert (make_retrieval_request (rq_query r) (ro_top_k route) (MdFrozen (rq_metadata_filter r))
    (effective_threshold (ro_score_threshold route) (rq_score_threshold r)) (rq_request_id r)
    (rq_trace_id r) = Ok (routed route r)) as ->; [|done].
  apply list.Forall_cons in Ht as [[Q1 Q2] Ht]. apply list.Forall_cons in Ht as [[I1 I2] Ht].
  apply list.Forall_cons in Ht as [[T1 T2] _].
  unfold make_retrieval_request.
  rewrite (required_text_fix _ Q1 Q2), (required_text_fix _ I1 I2), (required_text_fix _ T1 T2).
  unfold mbind, result_bind, raise_if.
  destruct (Z.leb_spec (ro_top_k route) 0); [lia|].
  destruct (Z.ltb_spec MAX_RETRIEVAL_TOP_K (ro_top_k route)); [lia|].
  destruct (effective_threshold _ _) as [x|] eqn:Hx; [|unfold routed; by rewrite Hx].
  rewrite (effective_in_range _ _ x Hrt Hs Hx). unfold routed. cbn. by rewrite Hx.
Qed.

Definition no_laxer (x : float) (t : option float) : Prop :=
  match t with Some y => fle y x = true | None => True end.

Lemma effective_stricter route requested x :
  (forall y, route = Some y -> score_in_range y = true) ->
  (forall y, requested = Some y -> score_in_range y = true) ->
  effective_threshold route requested = Some x -> no_laxer x route /\ no_laxer x requested.
Proof.
  assert (forall y, score_in_range y = true -> fnum y) as Hnum.
  { unfold score_in_range. intros y Hy. apply andb_prop in Hy as [Hy _].
    apply andb_prop in Hy as [Hy _]. by apply isfinite_num. }
  intros Hr Hq. destruct requested as [r|], route as [t|]; cbn; intros [= <-]; split; try done;
    try (apply fmax_ge_l || apply fmax_ge_r || apply fle_refl); auto.
Qed.

(** Routing changes only what it says.  A valid request is handed once to the
    retriever of its class, with the same query, metadata filter, identifiers and
    access scope; its limit is the route's, and when a threshold applies it is no
    lower than the caller's and no lower than the route's.  What that retriever
    returns or raises is the outcome, and the class is recorded. *)
Theorem routing_exact `{PyRepr, UnicodeDB} {S} config (llm : option (llm_port S)) factual complex
    comparison request filters w q c s1 :
  request_valid request -> route_valid (get_route config q) ->
  classify_with_llm config llm request filters (ro_state w) = (Ok (q, c), s1) ->
  let sent := routed (get_route config q) request in
  let '(r, s2) := retriever_for factual complex comparison q sent filters s1 in
  retrieve config llm factual complex comparison request filters w
  = (r, {| ro_state := s2; ro_query_type := Some q; ro_confidence := c |}) /\
  forall x, rq_score_threshold sent = Some x ->
    no_laxer x (rq_score_threshold request) /\ no_laxer x (ro_score_threshold (get_route config q)).
Proof.
  intros Hv Hroute Hc sent. destruct (retriever_for _ _ _ _ _ _ _) as [r s2] eqn:Hr. split.
  - unfold retrieve, mthen, at_state, modify, mlift. rewrite Hc. cbn.
    rewrite (adjusted_routed _ _ Hv Hroute). subst sent. by rewrite Hr.
  - intros x Hx. destruct Hv as [_ _ Hs], Hroute as [_ Hrt].
    destruct (effective_stricter _ _ x Hrt Hs Hx). by split.
Qed.

(** * Examples *)

Module RouterExamples.
Import Examples RedactExamples RrfExamples.

Example compares : classify (u "Compare HNSW versus IVF indexes") = (Comparison, flit 9 10).
Proof. vm_compute. reflexivity. Qed.
Example explains : (classify (u "explain how the merger works")).1 = Complex.
Proof. vm_compute. reflexivity. Qed.
Example asks_when : (classify (u "When was the contract with the supplier signed")).1 = Factual.
Proof. vm_compute. reflexivity. Qed.
Example asks_short : classify (u "refund policy") = (Factual, flit 65 100).
Proof. vm_compute. reflexivity. Qed.

(** [weaknesses?] makes the last letter optional, not the ending: the singular is
    not recognised. *)
Example weakness_missed :
  (classify (u "list the strengths and weaknesses of the plan")).1 = Comparison /\
  (classify (u "list the strength and weakness of the plan")).1 = Complex.
Proof. split; vm_compute; reflexivity. Qed.

Definition answering (l : list RetrievalCandidate) : candidate_retriever nat :=
  fun _ _ n => (Ok l, S n).
Definition world0 : routing_world nat :=
  {| ro_state := 0; ro_query_type := None; ro_confidence := fzero |}.

Lemma request1_valid : request_valid request1.
Proof.
  constructor; [repeat constructor; vm_compute; done|by vm_compute|discriminate].
Qed.

Lemma routing_exact_witness :
  retrieve default_router None (answering dense1) (answering sparse1) (answering []) request1 filters1
    world0
  = (Ok dense1, {| ro_state := 1; ro_query_type := Some Factual; ro_confidence := flit 65 100 |}).
Proof.
  assert (route_valid (get_route default_router Factual)) as Hroute.
  { split; [by vm_compute|]. intros x [= <-]. vm_compute. reflexivity. }
  exact (proj1 (routing_exact default_router None (answering dense1) (answering sparse1) (answering [])
    request1 filters1 world0 Factual (flit 65 100) 0 request1_valid Hroute
    ltac:(vm_compute; reflexivity))).
Defined.
End RouterExamples.
