(* ===== verification/QueryRewriter.v ===== *)
(** Query rewriting.

    Models [packages/retrieval/query_rewriter.py]: keyword extraction for Chinese
    and English text, the extraction of terms from a hypothetical answer, the HyDE
    rewriter with its fallback, the keyword rewriter and [QueryRewritingRetriever].
    The answer of the language model to the prompt is a parameter.

    - [keywords_from_query]: what keyword extraction returns comes from the query;
    - [hyde_rewrite_exact]: what a rewriting returns in each case, and that a query
      is lost only when the model answers nothing. *)

From Stdlib Require Import ZArith String.
From S2P Require Import Prelude Effects Float64 PyVal Access Redact SourceMetadata Rrf Hybrid RetrievalService.
From stdpp Require Import base list numbers sets.

Open Scope eff_scope.

(** Code points of the Chinese stop words. *)
Definition _CN_STOP_WORDS : list pystr :=
  [[30340]; [20102]; [22312]; [26159]; [25105]; [26377]; [21644]; [23601]; [19981]; [20154];
   [37117]; [19968]; [19968; 20010]; [19978]; [20063]; [24456]; [21040]; [35828]; [35201];
   [21435]; [20320]; [20250]; [30528]; [27809; 26377]; [30475]; [22909]; [33258; 24049]; [36825];
   [20182]; [22905]; [23427]; [20204]; [37027]; [20123]; [20160; 20040]; [24590; 20040];
   [22914; 20309]; [20026; 20160; 20040]; [21738; 20010]; [21738; 37324]; [21487; 20197];
   [24212; 35813]; [21487; 33021]; [24050; 32463]; [36824]; [21448]; [25165]; [21018]; [23558];
   [27491; 22312]; [19968; 30452]; [24635; 26159]; [20174; 26469]; [23601; 26159];
   [20294; 26159]; [22914; 26524]; [22240; 20026]; [25152; 20197]; [34429; 28982];
   [28982; 32780]; [32780; 19988]; [25110; 32773]; [20197; 21450]; [19982]; [24182]; [20294];
   [32780]; [21364]; [21017]; [20043]; [20854]; [20197]; [21450]; [33021]; [33021; 22815];
   [38656; 35201]; [24517; 39035]]%N.

Definition _EN_STOP_WORDS : list pystr := u <$>
  ["a"; "an"; "the"; "and"; "or"; "but"; "in"; "on"; "at"; "to"; "for"; "of"; "with"; "by";
   "from"; "as"; "is"; "was"; "are"; "were"; "been"; "be"; "have"; "has"; "had"; "do"; "does";
   "did"; "will"; "would"; "could"; "should"; "may"; "might"; "can"; "shall"; "you"; "your";
   "we"; "our"; "they"; "their"; "it"; "its"; "this"; "that"; "these"; "those"; "what"; "which";
   "who"; "whom"; "how"; "when"; "where"; "why"; "if"; "then"; "than"; "so"; "no"; "not"; "very";
   "just"; "about"; "into"; "over"; "after"; "before"; "between"; "under"; "again"; "further";
   "here"; "there"; "each"; "both"; "few"; "more"; "most"; "other"; "some"; "such"; "only";
   "own"; "same"; "too"]%string.

Record QueryRewriteConfig : Type := {
  qw_enabled : bool;
  qw_hyde_prompt_template : pystr;
  qw_hyde_model : pystr;
  qw_hyde_temperature : float;
  qw_hyde_max_output_tokens : Z;
  qw_hyde_timeout_seconds : float;
  qw_extraction_top_k : Z
}.

Inductive rewrite_config_error : Type :=
| RewriteTemplate | RewriteTemperature | RewriteMaxTokens | RewriteTimeout | RewriteTopK.

Definition make_rewrite_config (c : QueryRewriteConfig)
    : result rewrite_config_error QueryRewriteConfig :=
  _ ← raise_if (negb (contains (u "{query}") (qw_hyde_prompt_template c))) RewriteTemplate;
  _ ← raise_if (negb (fle fzero (qw_hyde_temperature c) && fle (qw_hyde_temperature c) (fofZ 2)))
        RewriteTemperature;
  _ ← raise_if (qw_hyde_max_output_tokens c <=? 0)%Z RewriteMaxTokens;
  _ ← raise_if (negb (flt fzero (qw_hyde_timeout_seconds c))) RewriteTimeout;
  _ ← raise_if (qw_extraction_top_k c <=? 0)%Z RewriteTopK;
  mret c.

Definition rewrite_config_dump (c : QueryRewriteConfig) : pydict :=
  [(u "enabled", VBool (qw_enabled c));
   (u "hyde_prompt_template", VStr (qw_hyde_prompt_template c));
   (u "hyde_model", VStr (qw_hyde_model c));
   (u "hyde_temperature", VFloat (qw_hyde_temperature c));
   (u "hyde_max_output_tokens", VInt (qw_hyde_max_output_tokens c));
   (u "hyde_timeout_seconds", VFloat (qw_hyde_timeout_seconds c));
   (u "extraction_top_k", VInt (qw_extraction_top_k c))].

(** * Keywords *)

(** [re.findall(r"[...]+", s)]: the maximal runs of characters of a class. *)
Fixpoint runs (p : N -> bool) (s word : pystr) : list pystr :=
  match s with
  | [] => match word with [] => [] | _ => [reverse word] end
  | c :: s' =>
      if p c then runs p s' (c :: word)
      else match word with [] => runs p s' [] | _ => reverse word :: runs p s' [] end
  end.

Definition cjk (c : N) : bool :=
  ((19968 <=? c) && (c <=? 40959) || (13312 <=? c) && (c <=? 19903))%N.
Definition en_char (c : N) : bool := is_alpha c || is_digit c || (c =? 95)%N.

Definition windows (n : nat) (chunk : pystr) : list pystr :=
  (fun i => take n (drop i chunk)) <$> seq 0 (length chunk - (n - 1)).

Definition cn_tokens (chunk : pystr) : list pystr :=
  if length chunk <=? 3 then [chunk] else windows 2 chunk ++ windows 3 chunk.

Definition en_kept (word : pystr) : bool :=
  negb (bool_decide (lower word ∈ _EN_STOP_WORDS)) && (1 <? length word).

Definition tokens (normalized : pystr) : list pystr :=
  (runs cjk normalized [] ≫= cn_tokens) ++ List.filter en_kept (runs en_char normalized []).

Definition kept_token (token : pystr) : bool :=
  negb (bool_decide (token ∈ _CN_STOP_WORDS)) && (1 <? length token).

(** The first occurrence of each token, in order. *)
Fixpoint unique (seen l : list pystr) : list pystr :=
  match l with
  | [] => []
  | t :: l' => if bool_decide (t ∈ seen) then unique seen l' else t :: unique (t :: seen) l'
  end.

Definition keywords (query : pystr) (top_k : option Z) : list pystr :=
  let found := unique [] (List.filter kept_token (tokens (strip query))) in
  match top_k with
  | Some k => if (0 <? k)%Z then take (Z.to_nat k) found else found
  | None => found
  end.

Definition _keyword_extraction (query : pystr) (top_k : option Z) : pystr :=
  match strip query with
  | [] => []
  | normalized =>
      match keywords query top_k with
      | [] => normalized
      | found => PyVal.join (u " ") found
      end
  end.

(** * Terms of a hypothetical answer *)

Definition sentence_end (c : N) : bool :=
  bool_decide (c ∈ [10; 12290; 65281; 65311; 46; 33; 63]%N).

(** [Counter(terms)] in order of first occurrence. *)
Fixpoint add_count (t : pystr) (counter : list (pystr * Z)) : list (pystr * Z) :=
  match counter with
  | [] => [(t, 1%Z)]
  | (t', n) :: rest => if bool_decide (t = t') then (t', (n + 1)%Z) :: rest
                       else (t', n) :: add_count t rest
  end.
Definition count_terms (terms : list pystr) : list (pystr * Z) :=
  foldl (fun c t => add_count t c) [] terms.

(** [counter.most_common(k)]: stable, the largest counts first. *)
Definition most_common (k : Z) (counter : list (pystr * Z)) : list (pystr * Z) :=
  take (Z.to_nat k) (py_sort (fun x y => (y.2 <? x.2)%Z) counter).

(** The pieces of [re.split], the blank ones of which the loop skips. *)
Definition sentence_terms (sentence : pystr) : list pystr :=
  match strip sentence with
  | [] => []
  | sentence => split_words (_keyword_extraction sentence None) []
  end.

Definition _extract_key_terms (text : pystr) (top_k : Z) : pystr :=
  match strip text with
  | [] => []
  | _ =>
      let all_terms := runs (fun c => negb (sentence_end c)) text [] ≫= sentence_terms in
      match (most_common top_k (count_terms all_terms)).*1 with
      | [] => _keyword_extraction text (Some top_k)
      | top_terms => PyVal.join (u " ") top_terms
      end
  end.

(** * The rewriters *)

Record rewriter_world (S : Type) : Type := { hw_state : S; hw_last_trace : pydict }.
Arguments hw_state {S}.
Arguments hw_last_trace {S}.

Section Rewriters.
Context {S : Type} (generate : pystr -> eff pyexc S pystr) (config : QueryRewriteConfig).

Definition set_last_trace (t : pydict) : eff pyexc (rewriter_world S) unit :=
  modify (fun w => {| hw_state := hw_state w; hw_last_trace := t |}).

Definition rewriter_call {A} (m : eff pyexc S A) : eff pyexc (rewriter_world S) A := fun w =>
  let '(r, s) := m (hw_state w) in (r, {| hw_state := s; hw_last_trace := hw_last_trace w |}).

Definition hyde_trace (query : pystr) : pydict :=
  [(u "method", VStr (u "hyde")); (u "query_length", VInt (Z.of_nat (length query)));
   (u "config", VDict (rewrite_config_dump config))].

Definition rewritten_via (trace : pydict) (via : string) (rewritten : pystr) : pydict :=
  dict_set (u "rewritten_query") (VStr rewritten) (dict_set (u "rewritten_via") (VStr (u via)) trace).

(** [HyDEQueryRewriter.rewrite]. *)
Definition hyde_rewrite (query : pystr) : eff pyexc (rewriter_world S) pystr :=
  _ <- set_last_trace (hyde_trace query);;
  if length (split_words query []) <=? 2 then
    let rewritten := _keyword_extraction query None in
    _ <- set_last_trace (rewritten_via (hyde_trace query) "keyword_short" rewritten);;
    mreturn rewritten
  else
    outcome <- mcatch
      (answer <- rewriter_call (generate query);;
       mreturn (_extract_key_terms answer (qw_extraction_top_k config), "hyde_llm"%string))
      (fun exc => if is_cancelled exc then mraise exc
                  else mreturn (_keyword_extraction query None, "keyword_fallback"%string));;
    let '(rewritten, via) := outcome in
    _ <- set_last_trace (rewritten_via (hyde_trace query) via rewritten);;
    mreturn rewritten.

(** [KeywordExtractionRewriter.rewrite] with the limit it was given. *)
Definition keyword_rewrite (top_k : Z) (query : pystr) : eff pyexc (rewriter_world S) pystr :=
  let result := _keyword_extraction query None in
  _ <- set_last_trace
    [(u "method", VStr (u "keyword_extraction")); (u "query_length", VInt (Z.of_nat (length query)));
     (u "top_k", VInt top_k); (u "rewritten_query", VStr result)];;
  mreturn result.
End Rewriters.

(** [request.model_copy(update={"query": ...})]: no validator runs. *)
Definition with_query (r : RetrievalRequest) (query : pystr) : RetrievalRequest :=
  {| rq_query := query; rq_top_k := rq_top_k r; rq_metadata_filter := rq_metadata_filter r;
     rq_score_threshold := rq_score_threshold r; rq_request_id := rq_request_id r;
     rq_trace_id := rq_trace_id r |}.

(** [QueryRewritingRetriever.retrieve]. *)
Definition rewriting_retrieve {S} (rewrite : pystr -> eff pyexc S pystr)
    (upstream : candidate_retriever S) : candidate_retriever S := fun request filters =>
  rewritten_query <- rewrite (rq_query request);;
  upstream (with_query request rewritten_query) filters.

(** * Properties *)

Definition inked (t : pystr) : Prop := Forall (fun c => is_space c = false) t.

Lemma runs_spec p s : forall word r,
  Forall (fun c => p c = true) word -> r ∈ runs p s word ->
  Forall (fun c => p c = true) r /\ r <> [] /\ infix r (reverse word ++ s).
Proof.
  assert (forall word, Forall (fun c => p c = true) word -> word <> [] ->
    Forall (fun c => p c = true) (reverse word) /\ reverse word <> []) as Hrev.
  { intros word Hw Hne. split; [by apply Forall_reverse|]. intros Hr.
    apply (f_equal reverse) in Hr. by rewrite reverse_involutive in Hr. }
  induction s as [|c s IH]; intros word r Hw Hr; cbn [runs] in Hr.
  - destruct word as [|x word]; [by apply elem_of_nil in Hr|].
    apply list_elem_of_singleton in Hr as ->. destruct (Hrev _ Hw ltac:(done)) as [H1 H2].
    split_and!; [done|done|]. exists [], []. by rewrite app_nil_r.
  - destruct (p c) eqn:Hp.
    + destruct (IH (c :: word) r) as (H1 & H2 & H3); [by constructor|done|].
      split_and!; [done|done|]. by rewrite reverse_cons, <- app_assoc in H3.
    + destruct word as [|x word].
      * destruct (IH [] r) as (H1 & H2 & a & b & H3); [done|done|]. split_and!; [done|done|].
        exists (c :: a), b. cbn in *. by rewrite H3.
      * apply elem_of_cons in Hr as [->|Hr].
        { destruct (Hrev _ Hw ltac:(done)) as [H1 H2]. split_and!; [done|done|].
          by exists [], (c :: s). }
        destruct (IH [] r) as (H1 & H2 & a & b & H3); [done|done|]. split_and!; [done|done|].
        exists (reverse (x :: word) ++ c :: a), b. rewrite <- app_assoc. cbn in *. by rewrite H3.
Qed.

Lemma cn_tokens_spec chunk t : t ∈ cn_tokens chunk -> infix t chunk.
Proof.
  assert (forall n, t ∈ windows n chunk -> infix t chunk) as Hw.
  { intros n (i & -> & _)%list_elem_of_fmap. exists (take i chunk), (drop n (drop i chunk)).
    by rewrite take_drop, take_drop. }
  unfold cn_tokens. destruct (_ <=? _); [|intros [?|?]%elem_of_app; eauto].
  intros ->%list_elem_of_singleton. exists [], []. by rewrite app_nil_r.
Qed.

Lemma cjk_ink c : cjk c = true -> is_space c = false.
Proof.
  unfold cjk, is_space. intros Hc. rewrite orb_true_iff, !andb_true_iff, !N.leb_le in Hc.
  repeat rewrite orb_false_iff. rewrite !andb_false_iff, !N.leb_gt, !N.eqb_neq. lia.
Qed.
Lemma en_ink c : en_char c = true -> is_space c = false.
Proof.
  unfold en_char, is_alpha, is_digit, is_space. intros Hc.
  rewrite !orb_true_iff, !andb_true_iff, !N.leb_le, N.eqb_eq in Hc.
  repeat rewrite orb_false_iff. rewrite !andb_false_iff, !N.leb_gt, !N.eqb_neq. lia.
Qed.

Lemma infix_Forall (P : N -> Prop) t s : infix t s -> Forall P s -> Forall P t.
Proof. intros (a & b & ->) [_ [? _]%Forall_app]%Forall_app. done. Qed.

Lemma cjk_no_stop t : Forall (fun c => cjk c = true) t -> lower t ∉ _EN_STOP_WORDS.
Proof.
  assert (forallb (fun w => match w with c :: _ => (c <? 128)%N | [] => false end)
            _EN_STOP_WORDS = true) as Hw by (vm_compute; reflexivity).
  rewrite forallb_forall in Hw. intros Ht Hin%list_elem_of_In. specialize (Hw _ Hin). clear Hin.
  destruct t as [|c t]; [done|]. apply list.Forall_cons in Ht as [Hc _].
  assert (lower_cp c = [c]) as Hl.
  { unfold cjk in Hc. rewrite orb_true_iff, !andb_true_iff, !N.leb_le in Hc. unfold lower_cp.
    repeat case_match; try done; exfalso; rewrite ?andb_true_iff, ?N.leb_le, ?N.eqb_eq in *; lia. }
  change (lower (c :: t)) with (lower_cp c ++ lower t) in Hw. rewrite Hl in Hw. cbn in Hw.
  unfold cjk in Hc. rewrite orb_true_iff, !andb_true_iff, !N.leb_le in Hc. apply N.ltb_lt in Hw. lia.
Qed.

Lemma tokens_spec s t : t ∈ tokens s -> infix t s /\ inked t /\ lower t ∉ _EN_STOP_WORDS.
Proof.
  unfold tokens. intros [(chunk & Ht & Hc)%list_elem_of_bind|Ht]%elem_of_app.
  - apply (runs_spec cjk s []) in Hc as (Hp & _ & Hi); [|done].
    apply cn_tokens_spec in Ht. pose proof (infix_Forall _ _ _ Ht Hp) as Hpt.
    split_and!; [by eapply infix_trans| |by apply cjk_no_stop].
    eapply Forall_impl; [exact Hpt|]. apply cjk_ink.
  - apply list_elem_of_In, List.filter_In in Ht as [Ht Hk]. apply list_elem_of_In in Ht.
    apply (runs_spec en_char s []) in Ht as (Hp & _ & Hi); [|done]. split_and!; [done| |].
    + eapply Forall_impl; [exact Hp|]. apply en_ink.
    + apply andb_prop in Hk as [Hk _]. by apply negb_true_iff, bool_decide_eq_false in Hk.
Qed.

Lemma unique_spec l : forall seen,
  NoDup (unique seen l) /\ (forall t, t ∈ unique seen l -> t ∈ l /\ t ∉ seen).
Proof.
  induction l as [|x l IH]; intros seen; cbn [unique].
  { split; [constructor|]. intros t Ht. by apply elem_of_nil in Ht. }
  case_bool_decide as Hx.
  - destruct (IH seen) as [Hn Hin]. split; [done|]. intros t Ht. destruct (Hin t Ht). set_solver.
  - destruct (IH (x :: seen)) as [Hn Hin]. split.
    + constructor; [|done]. intros Hc. destruct (Hin x Hc). set_solver.
    + intros t [->|Ht]%elem_of_cons; [set_solver|]. destruct (Hin t Ht). set_solver.
Qed.

(** A keyword of a text: at least two characters of it, in one piece, without white
    space and not a stop word. *)
Record keyword_of (s t : pystr) : Prop := {
  kw_infix : infix t s;
  kw_inked : inked t;
  kw_length : 1 < length t;
  kw_cn : t ∉ _CN_STOP_WORDS;
  kw_en : lower t ∉ _EN_STOP_WORDS
}.

Lemma keywords_spec query top_k :
  NoDup (keywords query top_k) /\ Forall (keyword_of (strip query)) (keywords query top_k) /\
  (forall k, top_k = Some k -> (0 < k)%Z -> (Z.of_nat (length (keywords query top_k)) <= k)%Z).
Proof.
  unfold keywords. set (found := unique [] _).
  assert (NoDup found /\ Forall (keyword_of (strip query)) found) as [Hn Hf].
  { destruct (unique_spec (List.filter kept_token (tokens (strip query))) []) as [Hn Hin].
    split; [done|]. apply list.Forall_forall. intros t Ht. destruct (Hin t Ht) as [Hk _].
    apply list_elem_of_In, List.filter_In in Hk as [Hk Hkeep]. apply list_elem_of_In in Hk.
    destruct (tokens_spec _ _ Hk) as (? & ? & ?). unfold kept_token in Hkeep. apply andb_prop in Hkeep as [Hs Hl].
    apply negb_true_iff, bool_decide_eq_false in Hs. apply Nat.ltb_lt in Hl. by constructor. }
  destruct top_k as [k|]; [|done]. destruct (Z.ltb_spec 0 k) as [Hk|Hk].
  - split_and!; [by apply NoDup_take|by apply Forall_take|]. intros k' [= <-] _.
    rewrite length_take. lia.
  - split_and!; [done|done|]. intros k' [= <-]. lia.
Qed.

Lemma join_ink ws w : w ∈ ws -> has_ink w -> has_ink (PyVal.join (u " ") ws).
Proof.
  induction ws as [|x ws IH]; intros Hw Hi; [by apply elem_of_nil in Hw|].
  apply elem_of_cons in Hw as [->|Hw].
  - destruct ws; cbn [PyVal.join]; [done|]. apply has_ink_app. by left.
  - destruct ws as [|y ws]; [by apply elem_of_nil in Hw|]. cbn [PyVal.join].
    apply has_ink_app. right. apply has_ink_app. right. by apply IH.
Qed.

Lemma keyword_ink s t : keyword_of s t -> has_ink t.
Proof.
  intros [_ Hi Hl _ _]. destruct t as [|c t]; [cbn in Hl; lia|]. exists c.
  apply list.Forall_cons in Hi as [Hc _]. split; [by left|done].
Qed.

Lemma extraction_ink query top_k :
  has_ink query -> has_ink (_keyword_extraction query top_k).
Proof.
  intros Hq%has_ink_strip. unfold _keyword_extraction. destruct (strip query) as [|c s] eqn:Hs; [done|].
  destruct (keywords_spec query top_k) as (_ & Hf & _).
  destruct (keywords query top_k) as [|w ws].
  - apply has_ink_strip. by rewrite <- Hs, strip_idem, Hs.
  - apply list.Forall_cons in Hf as [Hw _]. apply (join_ink _ w); [by left|by eapply keyword_ink].
Qed.

(** Keyword extraction keeps to the query.  A query that is not blank gives a
    result that is not blank: the query itself without the white space around it
    when it has no keywords, and otherwise its keywords in the order in which they
    are found, no two alike, each of at least two characters that stand in the
    query as they are, none a stop word, and no more of them than asked for. *)
Theorem keywords_from_query query top_k :
  has_ink query ->
  has_ink (_keyword_extraction query top_k) /\
  (_keyword_extraction query top_k = strip query \/
   exists found, _keyword_extraction query top_k = PyVal.join (u " ") found /\ found <> [] /\
     NoDup found /\ Forall (keyword_of (strip query)) found /\
     forall k, top_k = Some k -> (0 < k)%Z -> (Z.of_nat (length found) <= k)%Z).
Proof.
  intros Hq. split; [by apply extraction_ink|]. unfold _keyword_extraction.
  destruct (strip query) as [|c s] eqn:Hs; [by left|].
  destruct (keywords_spec query top_k) as (Hn & Hf & Hk). rewrite Hs in Hf.
  destruct (keywords query top_k) as [|w ws] eqn:Hw; [by left|]. right.
  exists (w :: ws). by split_and!.
Qed.

Lemma add_count_keys t c : forall x, x ∈ (add_count t c).*1 <-> x = t \/ x ∈ c.*1.
Proof.
  induction c as [|[y n] c IH]; intros x; cbn [add_count fmap list_fmap fst]; [set_solver|].
  case_bool_decide as Hy; cbn [fmap list_fmap fst]; [subst; set_solver|].
  rewrite !elem_of_cons, IH. tauto.
Qed.

Lemma count_terms_keys l x : x ∈ (count_terms l).*1 <-> x ∈ l.
Proof.
  unfold count_terms. assert (forall c, x ∈ (foldl (fun c t => add_count t c) c l).*1 <-> x ∈ c.*1 \/ x ∈ l)
    as Hg; [|rewrite Hg; set_solver].
  induction l as [|t l IH]; intros c; cbn [foldl]; [set_solver|].
  rewrite IH, add_count_keys. set_solver.
Qed.

Lemma common_terms k l :
  let top := (most_common k (count_terms l)).*1 in
  (forall t, t ∈ top -> t ∈ l) /\ ((0 < k)%Z -> l <> [] -> top <> []).
Proof.
  cbn zeta. unfold most_common. split.
  - intros t (tn & -> & Ht)%list_elem_of_fmap. apply elem_of_take_weak, py_sort_elem_of in Ht.
    apply count_terms_keys, list_elem_of_fmap. by exists tn.
  - intros Hk Hl Hnil. apply fmap_nil_inv in Hnil.
    assert (count_terms l <> []) as Hc.
    { intros Hc. destruct l as [|t l]; [done|]. assert (t ∈ (count_terms (t :: l)).*1) as Ht
        by (apply count_terms_keys; by left). rewrite Hc in Ht. by apply elem_of_nil in Ht. }
    assert (length (py_sort (fun x y : pystr * Z => (y.2 <? x.2)%Z) (count_terms l)) <> 0) as Hlen
      by (rewrite py_sort_length; by destruct (count_terms l)).
    destruct (py_sort _ _) as [|x p]; [done|]. destruct (Z.to_nat k) eqn:E; [lia|done].
Qed.

Lemma key_terms_ink text k : has_ink text -> has_ink (_extract_key_terms text k).
Proof.
  intros Ht. pose proof Ht as Hs. apply has_ink_strip in Hs. unfold _extract_key_terms.
  destruct (strip text); [done|]. cbn zeta.
  set (terms := runs _ text [] ≫= sentence_terms).
  destruct (common_terms k terms) as [Hin _].
  destruct ((most_common k (count_terms terms)).*1) as [|w ws]; [by apply extraction_ink|].
  assert (is_word_text w) as [Hne Hw].
  { assert (w ∈ terms) as (sentence & Hw & _)%list_elem_of_bind by (apply Hin; by left).
    unfold sentence_terms in Hw. destruct (strip sentence) as [|x xs]; [by apply elem_of_nil in Hw|].
    pose proof (split_words_ok (_keyword_extraction (x :: xs) None) [] (Forall_nil_2 _)) as Hok.
    rewrite list.Forall_forall in Hok. by apply Hok. }
  apply (join_ink _ w); [by left|]. destruct w as [|c w]; [done|]. exists c.
  apply list.Forall_cons in Hw as [Hc _]. split; [by left|done].
Qed.

(** What HyDE rewriting returns, and that it does not lose the query.  A short
    query is reduced to its keywords without asking the model; otherwise the terms
    of the model's answer are used, and when the model fails the keywords of the
    query; only a cancellation is passed on.  For a query that is not blank the
    result is not blank either, except when the model answers with blank text. *)
Theorem hyde_rewrite_exact {S} (generate : pystr -> eff pyexc S pystr) config query w :
  has_ink query ->
  let '(r, w') := hyde_rewrite generate config query w in
  if length (split_words query []) <=? 2
  then r = Ok (_keyword_extraction query None) /\ hw_state w' = hw_state w /\
       has_ink (_keyword_extraction query None)
  else
    let '(answer, s1) := generate query (hw_state w) in
    hw_state w' = s1 /\
    match answer with
    | Ok text => exists rewritten, r = Ok rewritten /\
        rewritten = _extract_key_terms text (qw_extraction_top_k config) /\
        (has_ink rewritten \/ strip text = [] /\ rewritten = [])
    | Err e =>
        if is_cancelled e then r = Err e
        else r = Ok (_keyword_extraction query None) /\ has_ink (_keyword_extraction query None)
    end.
Proof.
  intros Hq. pose proof (extraction_ink query None Hq) as Hk.
  unfold hyde_rewrite, mthen at 1, set_last_trace at 1, modify at 1.
  destruct (length (split_words query []) <=? 2); [done|].
  unfold mthen, mcatch, rewriter_call. cbn [hw_state].
  destruct (generate query (hw_state w)) as [[text|e] s1].
  - split; [done|]. eexists. split; [reflexivity|]. split; [done|].
    destruct (decide (strip text = [])) as [He|He].
    + right. split; [done|]. unfold _extract_key_terms. by rewrite He.
    + left. by apply key_terms_ink, has_ink_strip.
  - destruct (is_cancelled e); by split.
Qed.

(** * Examples *)

Module RewriterExamples.

Definition rewrite_config : QueryRewriteConfig :=
  {| qw_enabled := true; qw_hyde_prompt_template := u "Answer: {query}"; qw_hyde_model := u "m";
     qw_hyde_temperature := flit 7 10; qw_hyde_max_output_tokens := 512;
     qw_hyde_timeout_seconds := fofZ 30; qw_extraction_top_k := 3 |}.

Definition long_query : pystr := u "how is the audit log of the retrieval stage kept".
Definition replying (text : pystr) : pystr -> eff pyexc nat pystr := fun _ n => (Ok text, S n).
Definition rewriter0 : rewriter_world nat := {| hw_state := 0; hw_last_trace := [] |}.

Example keywords_of_long :
  _keyword_extraction long_query None = u "audit log retrieval stage kept".
Proof. vm_compute. reflexivity. Qed.

Example terms_of_answer :
  (hyde_rewrite (replying (u "The audit log is a table. The audit writer appends."))
     rewrite_config long_query rewriter0).1 = Ok (u "audit log table").
Proof. vm_compute. reflexivity. Qed.

(** A blank answer of the model leaves a request with an empty query, which the
    validators of [RetrievalRequest] would refuse. *)
Example blank_answer_blank_query :
  rewriting_retrieve
    (hyde_rewrite (replying (u " ")) rewrite_config)
    (fun request _ w => (Ok [], {| hw_state := length (rq_query request); hw_last_trace := [] |}))
    (with_query RrfExamples.request1 long_query) RrfExamples.filters1 rewriter0
  = (Ok [], {| hw_state := 0; hw_last_trace := [] |}).
Proof. vm_compute. reflexivity. Qed.

(** The limit of the keyword rewriter is recorded in its trace only. *)
Example keyword_limit_ignored :
  (keyword_rewrite 1 long_query rewriter0).1 = Ok (u "audit log retrieval stage kept").
Proof. vm_compute. reflexivity. Qed.

Lemma long_query_ink : has_ink long_query.
Proof. apply has_ink_strip. vm_compute. discriminate. Qed.

Lemma keywords_from_query_witness : has_ink (_keyword_extraction long_query (Some 2%Z)).
Proof. exact (proj1 (keywords_from_query long_query (Some 2%Z) long_query_ink)). Defined.

Lemma hyde_rewrite_exact_witness :
  exists rewritten,
    (hyde_rewrite (replying (u "audit")) rewrite_config long_query rewriter0).1 = Ok rewritten /\
    (has_ink rewritten \/ strip (u "audit") = [] /\ rewritten = []).
Proof.
  destruct (proj2 (hyde_rewrite_exact (replying (u "audit")) rewrite_config long_query rewriter0
    long_query_ink)) as (rewritten & Hr & _ & Hi).
  exists rewritten. split; [exact Hr|exact Hi].
Defined.
End RewriterExamples.
