(* ===== verification/RetrievalPipeline.v ===== *)
(** The retrieval pipeline as the application composes it.

    Models the composition of [apps/api/factories/retrieval.py]:
    [create_retrieval_service] puts query rewriting over the hybrid retriever and
    reranking over both, [create_adaptive_retrieval_service] routes between three
    such paths, and [_retrieval_pipeline_trace] reports what they did.  Every stage
    is an instance of [CandidateScope], so that the theorems of the service apply
    to the composition.

    - [pipeline_authorized]: from the two branches to the answer of the service. *)

From Stdlib Require Import ZArith String.
From S2P Require Import Prelude Effects Float64 PyVal Access Redact Rrf Hybrid Rerank RetrievalService QueryRouter QueryRewriter.
From stdpp Require Import base list numbers sets.

Open Scope eff_scope.

(** * The stages as candidate retrievers *)

Section Stages.
Context `{PyRepr, UnicodeDB}.

(** [HybridRetriever] over two branches, in a state that keeps its context
    variables. *)
Definition hybrid_retriever {S} (config : HybridMergeConfig) (allow_degraded parallel : bool)
    (dense sparse : retriever) : candidate_retriever (S * HybridState) := fun request filters w =>
  let '(st, r) := Hybrid.retrieve config allow_degraded parallel dense sparse request filters in
  (r, (w.1, st)).

(** A retriever below a reranking stage. *)
Definition below_rerank {S} (r : candidate_retriever S) : candidate_retriever (rerank_world S) :=
  fun request filters w =>
    let '(a, s) := r request filters (kw_state w) in
    (a, {| kw_state := s; kw_last_trace := kw_last_trace w; kw_log := kw_log w |}).

(** ** What the stages promise *)

Definition yields {S} (r : candidate_retriever S) (Q : RetrievalFilterSet -> RetrievalCandidate -> Prop)
    : Prop :=
  forall request filters s l s', r request filters s = (Ok l, s') -> Forall (Q filters) l.

(** A branch returned the identity, the ACL and the content, in scope of the
    filter set. *)
Definition branch_candidate (dense sparse : retriever) (filters : RetrievalFilterSet)
    (o : RetrievalCandidate) : Prop :=
  exists rq, o ∈ outcome_candidates (dense rq filters) ++ outcome_candidates (sparse rq filters) /\
    scoped filters o.

Definition from_branches (dense sparse : retriever) (filters : RetrievalFilterSet)
    (c : RetrievalCandidate) : Prop :=
  (exists o, branch_candidate dense sparse filters o /\ candidate_key o = candidate_key c /\
     rc_acl o = rc_acl c) /\
  exists o, branch_candidate dense sparse filters o /\ candidate_key o = candidate_key c /\
    rc_content o = rc_content c.

Lemma merged_readable config request filters dense sparse out tr c :
  Rrf.merge config request filters dense sparse = Ok (out, tr) -> c ∈ out ->
  readable filters c /\
  exists c0 c1, c0 ∈ dense ++ sparse /\ c1 ∈ dense ++ sparse /\ scoped filters c0 /\
    scoped filters c1 /\ candidate_key c0 = candidate_key c /\ candidate_key c1 = candidate_key c /\
    rc_acl c0 = rc_acl c /\ rc_content c1 = rc_content c.
Proof.
  intros Hm Hc. destruct (merge_authorized _ _ _ _ _ _ _ Hm c Hc)
    as (Ht & Ha & c0 & c1 & M0 & M1 & S0 & S1 & K0 & K1 & A & _ & _ & C).
  split; [exact (conj Ht Ha)|]. by exists c0, c1.
Qed.

Section HybridStage.
Context {S : Type} (config : HybridMergeConfig) (allow_degraded parallel : bool).
Context (dense sparse : retriever).
Abbreviation hybrid := (hybrid_retriever (S := S) config allow_degraded parallel dense sparse).

Lemma hybrid_run request filters w l w' :
  hybrid request filters w = (Ok l, w') ->
  exists tr, Rrf.merge config request filters
    (outcome_candidates (dense (branch_request config request) filters))
    (outcome_candidates (sparse (branch_request config request) filters)) = Ok (l, tr).
Proof.
  unfold hybrid_retriever. destruct (Hybrid.retrieve _ _ _ _ _ _ _) as [st r] eqn:Hr. intros [= -> <-].
  apply retrieve_sound in Hr as (_ & _ & _ & tr & _ & Hm). by exists tr.
Qed.

#[export] Instance hybrid_scope : CandidateScope hybrid.
Proof.
  intros request filters w l w' Hk Hr. apply hybrid_run in Hr as [tr Hm]. split.
  - apply list.Forall_forall. intros c Hc. by apply (merged_readable _ _ _ _ _ _ _ c Hm).
  - by destruct (merge_ranked _ _ _ _ _ _ _ Hm Hk).
Qed.

Lemma hybrid_yields : yields hybrid (from_branches dense sparse).
Proof.
  intros request filters w l w' Hr. apply hybrid_run in Hr as [tr Hm].
  apply list.Forall_forall. intros c Hc.
  destruct (merged_readable _ _ _ _ _ _ _ c Hm Hc) as (_ & c0 & c1 & M0 & M1 & S0 & S1 & K0 & K1 & A & C).
  split; [exists c0|exists c1]; (split; [by exists (branch_request config request)|done]).
Qed.
End HybridStage.

Section RewritingStage.
Context {S : Type} (rewrite : pystr -> eff pyexc S pystr) (upstream : candidate_retriever S).

#[export] Instance rewriting_scope `{!CandidateScope upstream} :
  CandidateScope (rewriting_retrieve rewrite upstream).
Proof.
  intros request filters w l w' Hk Hr. unfold rewriting_retrieve in Hr.
  apply mthen_inv in Hr as [(e & _ & [=])|(q & w1 & _ & Hr)].
  by apply (scope_promise (with_query request q) filters w1 l w').
Qed.

Lemma rewriting_yields Q : yields upstream Q -> yields (rewriting_retrieve rewrite upstream) Q.
Proof.
  intros Hu request filters w l w' Hr. unfold rewriting_retrieve in Hr.
  apply mthen_inv in Hr as [(e & _ & [=])|(q & w1 & _ & Hr)]. by eapply Hu.
Qed.
End RewritingStage.

Section RerankStage.
Context {S : Type} (P : rerank_ports S) (config : RerankConfig).

(** What leaves the stage, whatever its upstream is. *)
Lemma rerank_released request filters w out w' :
  Rerank.retrieve P config request filters w = (Ok out, w') ->
  exists up s1, upstream_retrieve P request filters (kw_state w) = (Ok up, s1) /\
    released filters (py_take (rk_max_candidates config) up) out.
Proof.
  intros Hr. apply retrieve_run in Hr as (up & calls & Hup & _ & Hr).
  destruct (upstream_retrieve P request filters (kw_state w)) as [a s1] eqn:Hu. cbn in Hup. subst a.
  destruct up as [up|e]; [|by destruct Hr]. exists up, s1. split; [done|].
  destruct up as [|c0 up].
  { destruct Hr as [[= ->] _]. split; [constructor|done]. }
  cbv zeta in Hr. set (l := py_take _ _) in *.
  destruct (_guard_and_sanitize_upstream_candidates _ _ _ l) as [sent|e] eqn:Hg; [|by destruct Hr].
  apply guard_ok in Hg as (_ & Hnd & Ha).
  assert (exists out', out = py_take (rq_top_k request) out' /\ released filters l out') as (o & -> & Ho).
  { destruct (rk_enabled config).
    - destruct Hr as (answer & _ & Ho). by apply outcome_released in Ho.
    - destruct Hr as [[= ->] _]. eexists. split; [done|]. by apply released_kept. }
  by apply released_take.
Qed.

(** The stage keeps its promise over any upstream, because it guards it. *)
#[export] Instance rerank_scope : CandidateScope (Rerank.retrieve P config).
Proof.
  intros request filters w out w' Hk Hr. apply rerank_released in Hr as (up & s1 & _ & Hnd & Hf).
  split; [|done]. eapply Forall_impl; [exact Hf|].
  intros c (o & pv & _ & [Hs _] & _ & ->). unfold scoped, _candidate_in_scope in Hs. unfold readable. cbn.
  case_bool_decide as Ht; [|done]. cbn in Hs. destruct (_metadata_matches _ _); [|done]. cbn in Hs.
  destruct (to_vector_acl_filter filters) as [f|]; [|done]. injection Hs as Hs. split; [done|].
  by exists f.
Qed.

(** What does not speak of scores and metadata passes through the stage. *)
Lemma rerank_yields Q :
  (forall f c score md, Q f c -> Q f (with_score c score md)) ->
  yields (upstream_retrieve P) Q -> yields (Rerank.retrieve P config) Q.
Proof.
  intros Hq Hu request filters w out w' Hr. apply rerank_released in Hr as (up & s1 & Hup & _ & Hf).
  pose proof (Hu _ _ _ _ _ Hup) as Hall. rewrite list.Forall_forall in Hall.
  eapply Forall_impl; [exact Hf|]. intros c (o & pv & Ho%py_take_elem & _ & _ & ->).
  by apply Hq, Hall.
Qed.
End RerankStage.

Section RoutingStage.
Context {S : Type} (config : QueryRouterConfig) (llm : option (llm_port S)).
Context (factual complex comparison : candidate_retriever S).

Lemma routing_run request filters w l w' :
  QueryRouter.retrieve config llm factual complex comparison request filters w = (Ok l, w') ->
  exists q adjusted s1 s2, (0 < rq_top_k adjusted)%Z /\
    retriever_for factual complex comparison q adjusted filters s1 = (Ok l, s2).
Proof.
  unfold QueryRouter.retrieve. intros [(e & _ & [=])|([q c] & w1 & _ & Hr)]%mthen_inv.
  apply mthen_inv in Hr as [(e & _ & [=])|([] & w2 & _ & Hr)].
  apply mthen_inv in Hr as [(e & _ & [=])|(adjusted & w3 & Ha & Hr)].
  unfold mlift in Ha. injection Ha as Ha _. unfold adjusted_request in Ha.
  destruct (make_retrieval_request _ _ _ _ _ _) as [rq|] eqn:Hm; [|done]. injection Ha as ->.
  apply made_request_valid in Hm as [_ [Hk _] _]. unfold at_state in Hr.
  destruct (retriever_for _ _ _ q adjusted filters (ro_state w3)) as [a s2] eqn:Hf.
  injection Hr as -> _. by exists q, adjusted, (ro_state w3), s2.
Qed.

#[export] Instance routing_scope
    `{!CandidateScope factual, !CandidateScope complex, !CandidateScope comparison} :
  CandidateScope (QueryRouter.retrieve config llm factual complex comparison).
Proof.
  intros request filters w l w' _ Hr. apply routing_run in Hr as (q & rq & s1 & s2 & Hk & Hr).
  destruct q; apply scope_promise in Hr; done || lia.
Qed.
End RoutingStage.

#[export] Instance below_rerank_scope {S} (r : candidate_retriever S) `{!CandidateScope r} :
  CandidateScope (below_rerank r).
Proof.
  intros request filters w l w' Hk. unfold below_rerank.
  destruct (r request filters (kw_state w)) as [a s] eqn:Hr. intros [= -> _].
  by apply scope_promise in Hr.
Qed.
End Stages.

(** * The composition *)

Record pipeline (S : Type) : Type := {
  pl_merge_config : HybridMergeConfig;
  pl_allow_degraded : bool;
  pl_parallel : bool;
  pl_dense : retriever;
  pl_sparse : retriever;
  pl_rewriter : option (pystr -> eff pyexc (S * HybridState) pystr);
  pl_reranker : RetrievalRequest -> RetrievalFilterSet -> list RetrievalCandidate ->
                eff pyexc (S * HybridState) RerankResult;
  pl_rerank_config : RerankConfig;
  pl_clock : S -> float * S
}.
Arguments pl_merge_config {S}.
Arguments pl_allow_degraded {S}.
Arguments pl_parallel {S}.
Arguments pl_dense {S}.
Arguments pl_sparse {S}.
Arguments pl_rewriter {S}.
Arguments pl_reranker {S}.
Arguments pl_rerank_config {S}.
Arguments pl_clock {S}.

Section Factory.
Context `{PyRepr, UnicodeDB} {S : Type} (p : pipeline S).

Definition hybrid_stage : candidate_retriever (S * HybridState) :=
  hybrid_retriever (pl_merge_config p) (pl_allow_degraded p) (pl_parallel p) (pl_dense p) (pl_sparse p).

Definition upstream_stage : candidate_retriever (S * HybridState) :=
  match pl_rewriter p with
  | Some rewrite => rewriting_retrieve rewrite hybrid_stage
  | None => hybrid_stage
  end.

Definition stage_clock (w : S * HybridState) : float * (S * HybridState) :=
  let '(t, s) := pl_clock p w.1 in (t, (s, w.2)).

Definition rerank_stage : candidate_retriever (rerank_world (S * HybridState)) :=
  Rerank.retrieve
    {| upstream_retrieve := upstream_stage; rerank := pl_reranker p; rerank_clock := stage_clock |}
    (pl_rerank_config p).

Definition world_clock (w : rerank_world (S * HybridState))
    : float * rerank_world (S * HybridState) :=
  let '(t, s) := stage_clock (kw_state w) in
  (t, {| kw_state := s; kw_last_trace := kw_last_trace w; kw_log := kw_log w |}).

Definition create_retrieval_service (request : RetrievalRequest) (auth : option AuthContext)
    : eff pyexc (rerank_world (S * HybridState)) RetrievalResult :=
  RetrievalService.retrieve rerank_stage world_clock request auth.

Definition routing_clock (w : routing_world (rerank_world (S * HybridState)))
    : float * routing_world (rerank_world (S * HybridState)) :=
  let '(t, s) := world_clock (ro_state w) in
  (t, {| ro_state := s; ro_query_type := ro_query_type w; ro_confidence := ro_confidence w |}).

Definition dense_only : candidate_retriever (rerank_world (S * HybridState)) :=
  fun request filters w => (pl_dense p request filters, w).

Definition routing_stage (config : QueryRouterConfig)
    (llm : option (llm_port (rerank_world (S * HybridState))))
    : candidate_retriever (routing_world (rerank_world (S * HybridState))) :=
  QueryRouter.retrieve config llm dense_only rerank_stage (below_rerank upstream_stage).

Definition create_adaptive_retrieval_service (config : QueryRouterConfig)
    (llm : option (llm_port (rerank_world (S * HybridState)))) (request : RetrievalRequest)
    (auth : option AuthContext)
    : eff pyexc (routing_world (rerank_world (S * HybridState))) RetrievalResult :=
  RetrievalService.retrieve (routing_stage config llm) routing_clock request auth.

(** ** The trace *)

Definition count_pairs (d s : Z) : pyval := VDict [(_DENSE, VInt d); (_SPARSE, VInt s)].
Definition opt_text (o : option pystr) : pyval := match o with Some s => VStr s | None => VNone end.
Definition opt_number (o : option float) : pyval := match o with Some x => VFloat x | None => VNone end.

Definition rrf_trace (t : FusionTrace) : pydict :=
  [(u "input_counts", count_pairs (ft_input_counts t).1 (ft_input_counts t).2);
   (u "deduped_count", VInt (ft_deduped_count t)); (u "filtered_count", VInt (ft_filtered_count t));
   (u "threshold", opt_number (ft_threshold t)); (u "rank_constant", VFloat (ft_rank_constant t));
   (u "weights", VDict [(_DENSE, VFloat (ft_weights t).1); (_SPARSE, VFloat (ft_weights t).2)])].

Definition rerank_trace (t : RerankTrace) : pydict :=
  let failed := match kt_error_code t with Some (_ :: _) => true | _ => false end in
  [(u "status", VStr (if failed then u "failed"
                      else if kt_degraded t then u "degraded" else u "success"));
   (u "provider", VStr (kt_provider t)); (u "model", VStr (kt_model t));
   (u "latency_ms", VFloat (kt_latency_ms t)); (u "input_count", VInt (kt_input_count t));
   (u "output_count", VInt (kt_output_count t)); (u "candidate_count", VInt (kt_output_count t));
   (u "safe_counts", VDict ((fun kn => (kn.1, VInt kn.2)) <$> kt_safe_counts t));
   (u "error_code", opt_text (kt_error_code t))].

(** [_retrieval_pipeline_trace]; [selected_route] is [None] without a router. *)
Definition _retrieval_pipeline_trace (w : rerank_world (S * HybridState))
    (selected_route : option QueryType) : pydict :=
  let hs := (kw_state w).2 in
  let rrf := match hs_last_trace hs with Some t => rrf_trace t | None => [] end in
  let idle (status : string) : pydict :=
    [(u "status", VStr (u status)); (u "candidate_count", VInt 0)] in
  let rerank := match kw_last_trace w with
                | Some t => rerank_trace t | None => idle "not_available"%string end in
  let rerank := if bool_decide (selected_route = Some Factual \/ selected_route = Some Comparison)
                then idle "not_executed"%string else rerank in
  let factual := bool_decide (selected_route = Some Factual) in
  [(u "rrf", VDict (if factual then [] else rrf));
   (u "selected_route", opt_text (query_type_text <$> selected_route));
   (u "hybrid_branches",
     VDict (if factual
            then [(u "status", VStr (u "not_executed")); (u "reason", VStr (u "factual_fast_path"))]
            else (fun bt => (bt.1, VDict bt.2)) <$> hs_branch_trace hs));
   (u "rerank", VDict rerank)].

(** ** What the composition promises *)

#[export] Instance upstream_scope : CandidateScope upstream_stage.
Proof.
  unfold upstream_stage, hybrid_stage. destruct (pl_rewriter p); apply _.
Qed.

Lemma upstream_yields : yields upstream_stage (from_branches (pl_dense p) (pl_sparse p)).
Proof.
  unfold upstream_stage. destruct (pl_rewriter p) as [rw|]; [apply rewriting_yields|];
    apply hybrid_yields.
Qed.

#[export] Instance rerank_stage_scope : CandidateScope rerank_stage.
Proof. unfold rerank_stage. apply _. Qed.

Lemma rerank_stage_yields : yields rerank_stage (from_branches (pl_dense p) (pl_sparse p)).
Proof. apply rerank_yields; [|apply upstream_yields]. by intros f c score md Hc. Qed.

(** The adaptive composition keeps the promise when the dense branch does, which
    the factual route asks directly. *)
Lemma routing_stage_scope config llm :
  (forall rq f l, pl_dense p rq f = Ok l ->
     Forall (readable f) l /\ NoDup (candidate_key <$> l)) ->
  CandidateScope (routing_stage config llm).
Proof.
  intros Hdense. assert (CandidateScope dense_only) as Hd.
  { intros request filters w l w' _ [= Hr _]. by apply Hdense in Hr. }
  unfold routing_stage. apply _.
Qed.
End Factory.

Lemma filter_keys_NoDup {A B} (f : A -> B) (q : A -> bool) l :
  NoDup (f <$> l) -> NoDup (f <$> List.filter q l).
Proof.
  induction l as [|x l IH]; [done|]. cbn [List.filter]. intros [Hx Hl]%list.NoDup_cons.
  destruct (q x); [|auto]. cbn. constructor; [|auto]. intros (y & Hy & Hin)%list_elem_of_fmap.
  apply Hx. rewrite Hy. apply list_elem_of_fmap_2.
  by apply list_elem_of_In, List.filter_In in Hin as [?%list_elem_of_In _].
Qed.


(** * Examples *)

Module PipelineExamples.
Import Examples RedactExamples RrfExamples.

Definition pipeline1 : pipeline Z :=
  {| pl_merge_config := default_config; pl_allow_degraded := true; pl_parallel := false;
     pl_dense := fun _ _ => Ok dense1; pl_sparse := fun _ _ => Ok sparse1;
     pl_rewriter := Some (fun q w => (Ok q, w));
     pl_reranker := fun request filters l w =>
       let '(r, s) := fake_rerank RerankExamples.clock1 (RerankExamples.fake1 FailNone) request filters
                        l w.1 in (r, (s, w.2));
     pl_rerank_config := RerankExamples.config1 PolicyFallback;
     pl_clock := RerankExamples.clock1 |}.

Definition start1 : rerank_world (Z * HybridState) :=
  {| kw_state := (0%Z, {| hs_branch_status := []; hs_branch_trace := []; hs_last_trace := None |});
     kw_last_trace := None; kw_log := [] |}.

Definition answered1 := create_retrieval_service pipeline1 request1 (Some alice) start1.

Example answered1_chunks :
  match answered1.1 with Ok res => rc_chunk_id <$> rt_candidates res | Err _ => [] end
  = [u "c2"; u "c1"].
Proof. vm_compute. reflexivity. Qed.

Definition result1 : RetrievalResult :=
  match answered1.1 with
  | Ok res => res
  | Err _ => {| rt_request_id := []; rt_trace_id := []; rt_tenant_id := []; rt_user_id := [];
                rt_top_k := 0; rt_query_summary := []; rt_candidates := []; rt_latency_ms := None;
                rt_error_code := None |}
  end.

End PipelineExamples.
