(* ===== verification/SqlAcl.v ===== *)
(** The access predicates pushed down to PostgreSQL.

    Models the WHERE clauses that [_postgres_search_query] of
    [packages/vectorstores/adapters/pgvector.py] (dense search) and
    [_postgres_search_statement] of [packages/retrieval/sparse.py] (sparse
    search) build, in SQL's three-valued logic, and the upload-time check
    [_validate_acl] of [packages/data/service.py].  PostgreSQL's [jsonb]
    operators, text search and vector distance are the class [Postgres]: the
    operators with the laws the PostgreSQL manual documents. *)

From Stdlib Require Import ZArith String.
From S2P Require Import Prelude Float64 PyVal Access.
From stdpp Require Import base list numbers sets.

(** * Three-valued logic: [None] is NULL *)

Definition tri : Type := option bool.

Definition tnot (a : tri) : tri := negb <$> a.
Definition tand (a b : tri) : tri :=
  match a, b with
  | Some false, _ | _, Some false => Some false
  | Some true, Some true => Some true
  | _, _ => None
  end.
Definition tor (a b : tri) : tri :=
  match a, b with
  | Some true, _ | _, Some true => Some true
  | Some false, Some false => Some false
  | _, _ => None
  end.
Definition tand_all (l : list tri) : tri := foldr tand (Some true) l.
Definition tor_all (l : list tri) : tri := foldr tor (Some false) l.
(** [a = b] on text. *)
Definition teq (a : option pystr) (b : pystr) : tri := (fun s => bool_decide (s = b)) <$> a.
(** A row is selected when the condition is true, not when it is NULL. *)
Definition holds (a : tri) : bool := match a with Some true => true | _ => false end.

Lemma holds_tand a b : holds (tand a b) = holds a && holds b.
Proof. by destruct a as [[]|], b as [[]|]. Qed.
Lemma holds_tor a b : holds (tor a b) = holds a || holds b.
Proof. by destruct a as [[]|], b as [[]|]. Qed.
Lemma holds_tand_all l : holds (tand_all l) = forallb holds l.
Proof. induction l as [|a l IH]; simpl; [done|]. by rewrite holds_tand, IH. Qed.
Lemma holds_tor_all l : holds (tor_all l) = existsb holds l.
Proof. induction l as [|a l IH]; simpl; [done|]. by rewrite holds_tor, IH. Qed.

(** * PostgreSQL *)

Inductive distance_metric : Type := Cosine | L2.

Class Postgres := {
  jget : pyval -> pystr -> option pyval;            (* acl -> 'k' *)
  jtext : pyval -> pystr -> option pystr;           (* acl ->> 'k' *)
  jtypeof : pyval -> pystr;                         (* jsonb_typeof *)
  jhas : pyval -> pystr -> bool;                    (* a ? 's' *)
  jcontains : pyval -> pyval -> bool;               (* a @> b *)
  sql_lower : pystr -> pystr;                       (* LOWER *)
  vector_distance : distance_metric -> list float -> list float -> float;
  text_match : pystr -> pystr -> pystr -> bool;     (* to_tsvector @@ websearch_to_tsquery *)
  text_rank : pystr -> pystr -> pystr -> float;     (* ts_rank_cd *)

  (** A field of an object, or NULL; as text, a string is itself and a JSON null
      is NULL; an array prints with a leading bracket. *)
  jget_object : forall d k, jget (VDict d) k = dict_get k d;
  jtext_missing : forall d k, dict_get k d = None -> jtext (VDict d) k = None;
  jtext_null : forall d k, dict_get k d = Some VNone -> jtext (VDict d) k = None;
  jtext_string : forall d k s, dict_get k d = Some (VStr s) -> jtext (VDict d) k = Some s;
  jtext_array : forall d k l, dict_get k d = Some (VList l) ->
    exists t, jtext (VDict d) k = Some (91%N :: t);
  jtypeof_array : forall v, jtypeof v = u "array" <-> exists l, v = VList l;
  (** [?] on an array tests for a string element; [@>] of a one-field object with a
      one-string array asks for an array under that key with that element. *)
  jhas_array : forall l s, jhas (VList l) s = true <-> VStr s ∈ l;
  jcontains_field : forall d k s,
    jcontains (VDict d) (VDict [(k, VList [VStr s])]) = true <->
    exists l, dict_get k d = Some (VList l) /\ VStr s ∈ l;
  sql_lower_ascii : forall s, Forall (fun c => c < 128)%N s -> sql_lower s = lower s
}.

(** * Dense search: [_postgres_search_query] *)

Record VectorSearchRequest : Type := {
  vq_tenant_id : pystr;
  vq_query_vector : list float;
  vq_embedding_dim : Z;
  vq_top_k : Z;
  vq_score_threshold : option float;
  vq_metadata_filters : list MetadataFilter;
  vq_acl_filter : AclFilter;
  vq_include_deleted : bool;
  vq_distance_metric : distance_metric;
  vq_embedding_provider : option pystr;
  vq_embedding_model : option pystr;
  vq_embedding_version : option pystr
}.

(** A row of [vector_records]. *)
Record VectorRow : Type := {
  vr_tenant_id : pystr;
  vr_status : pystr;
  vr_deleted_at : option Z;
  vr_embedding : list float;
  vr_embedding_dim : Z;
  vr_embedding_provider : pystr;
  vr_embedding_model : pystr;
  vr_embedding_version : option pystr;
  vr_acl : pyval;
  vr_metadata : pyval
}.

Section Dense.
Context `{Postgres}.

(** [LOWER(COALESCE(acl ->> 'visibility', 'tenant')) IN ('public', 'tenant')]. *)
Definition visibility_clause (acl : pyval) : tri :=
  let v := sql_lower (default (u "tenant") (jtext acl (u "visibility"))) in
  Some (bool_decide (v ∈ [u "public"; u "tenant"])).

(** [_append_acl_json_contains] of the dense store. *)
Definition dense_contains (acl : pyval) (key : pystr) (values : list pystr) : list tri :=
  (fun v => Some (jcontains acl (VDict [(key, VList [VStr v])]))) <$> values.

Definition opt_list (o : option pystr) : list pystr :=
  match o with Some (c :: s) => [c :: s] | _ => [] end.

Definition dense_acl_allow (acl : pyval) (f : AclFilter) : tri :=
  tor_all (visibility_clause acl
           :: dense_contains acl (u "allowed_users") [acl_user_id f]
           ++ dense_contains acl (u "allowed_roles") (acl_roles f)
           ++ dense_contains acl (u "allowed_departments") (opt_list (acl_department f))
           ++ dense_contains acl (u "allowed_permissions") (acl_permissions f)).

Definition dense_acl_denied (acl : pyval) (f : AclFilter) : tri :=
  Some (jcontains acl (VDict [(u "denied_users", VList [VStr (acl_user_id f)])])).

(** [score_sql]: NULL when the dimensions do not match. *)
Definition dense_score (q : VectorSearchRequest) (r : VectorRow) : option float :=
  if (vr_embedding_dim r =? vq_embedding_dim q)%Z
     && (Z.of_nat (length (vr_embedding r)) =? vq_embedding_dim q)%Z
  then let d := vector_distance (vq_distance_metric q) (vr_embedding r) (vq_query_vector q) in
       Some (match vq_distance_metric q with
             | L2 => fdiv fone (fadd fone d)
             | Cosine => fsub fone d
             end)
  else None.

Definition opt_clause {A} (o : option A) (f : A -> tri) : list tri :=
  match o with Some a => [f a] | None => [] end.

Definition _postgres_search_query (q : VectorSearchRequest) (r : VectorRow) : tri :=
  tand_all
    ([Some (bool_decide (vr_tenant_id r = vq_tenant_id q));
      Some (vr_embedding_dim r =? vq_embedding_dim q)%Z]
     ++ (if vq_include_deleted q then []
         else [Some (bool_decide (vr_status r = u "active"));
               Some (bool_decide (vr_deleted_at r = None))])
     ++ opt_clause (vq_embedding_provider q)
          (fun p => Some (bool_decide (vr_embedding_provider r = p)))
     ++ opt_clause (vq_embedding_model q) (fun p => Some (bool_decide (vr_embedding_model r = p)))
     ++ opt_clause (vq_embedding_version q) (teq (vr_embedding_version r))
     ++ ((fun m => Some (jcontains (vr_metadata r) (VDict [(mf_key m, mf_value m)])))
           <$> vq_metadata_filters q)
     ++ [tnot (dense_acl_denied (vr_acl r) (vq_acl_filter q));
         dense_acl_allow (vr_acl r) (vq_acl_filter q)]
     ++ opt_clause (vq_score_threshold q) (fun t => fle t <$> dense_score q r)).
End Dense.

(** * Sparse search: [_postgres_search_statement] *)

(** A row of [chunks]. *)
Record ChunkRow : Type := {
  cr_tenant_id : pystr;
  cr_status : pystr;
  cr_deleted_at : option Z;
  cr_content : option pystr;
  cr_acl : pyval;
  cr_metadata : pyval
}.

Section Sparse.
Context `{Postgres}.

(** [((jsonb_typeof(acl -> key) = 'array' AND (acl -> key) ? v) OR acl ->> key = v)]. *)
Definition sparse_entry (acl : pyval) (key value : pystr) : tri :=
  tor (tand (teq (jtypeof <$> jget acl key) (u "array")) ((fun a => jhas a value) <$> jget acl key))
      (teq (jtext acl key) value).

Definition sparse_contains (acl : pyval) (key : pystr) (values : list pystr) : list tri :=
  sparse_entry acl key <$> values.

Definition sparse_acl_allow (acl : pyval) (f : RetrievalFilterSet) : tri :=
  tor_all (visibility_clause acl
           :: sparse_contains acl (u "allowed_users") [fs_user_id f]
           ++ sparse_contains acl (u "allowed_roles") (fs_roles f)
           ++ sparse_contains acl (u "allowed_departments") (opt_list (fs_department f))
           ++ sparse_contains acl (u "allowed_permissions") (fs_permissions f)).

Definition sparse_acl_denied (acl : pyval) (f : RetrievalFilterSet) : tri :=
  sparse_entry acl (u "denied_users") (fs_user_id f).

(** [max(config.min_score, request.score_threshold or 0.0)]. *)
Definition sparse_threshold (min_score : float) (request : RetrievalRequest) : float :=
  fmax min_score (match rq_score_threshold request with
                  | Some t => if feq t fzero then fzero else t
                  | None => fzero end).

Definition _postgres_search_statement (language : pystr) (min_score : float)
    (query_terms : list pystr) (request : RetrievalRequest) (f : RetrievalFilterSet)
    (r : ChunkRow) : tri :=
  let query := PyVal.join (u " ") query_terms in
  let content := default [] (cr_content r) in
  let threshold := sparse_threshold min_score request in
  tand_all
    ([Some (bool_decide (cr_tenant_id r = fs_tenant_id f));
      Some (bool_decide (cr_status r = u "active"));
      Some (bool_decide (cr_deleted_at r = None));
      Some (text_match language content query)]
     ++ ((fun kv => Some (jcontains (cr_metadata r) (VDict [(kv.1, kv.2)])))
           <$> py_sort (fun x y => str_lt x.1 y.1) (fs_metadata_filter f))
     ++ [tnot (sparse_acl_denied (cr_acl r) f); sparse_acl_allow (cr_acl r) f]
     ++ (if flt fzero threshold then [Some (fle threshold (text_rank language content query))]
         else [])).
End Sparse.

(** * Uploads: [_validate_acl] *)

Definition _ALLOWED_ACL_KEYS : list pystr :=
  u <$> ["visibility"; "roles"; "users"; "departments"]%string.
Definition _ALLOWED_ACL_VISIBILITY : list pystr := u <$> ["tenant"; "private"; "restricted"]%string.

Inductive acl_error : Type :=
| AclInvalidKeys (keys : list pystr)
| AclInvalidVisibility
| AclUnhashableVisibility
| AclInvalidField (field : pystr).

Definition acl_list_ok (v : pyval) : bool :=
  match v with
  | VList l => forallb (fun x => match x with
                                 | VStr s => match strip s with [] => false | _ => true end
                                 | _ => false end) l
  | _ => false
  end.

Definition _validate_acl (acl : pydict) : result acl_error unit :=
  let extra_keys := filter (fun k => k ∉ _ALLOWED_ACL_KEYS) acl.*1 in
  _ ← raise_if (match extra_keys with [] => false | _ => true end)
        (AclInvalidKeys (py_sort str_lt extra_keys));
  let visibility := default (VStr (u "tenant")) (dict_get (u "visibility") acl) in
  _ ← match visibility with
      | VStr s => raise_if (negb (bool_decide (s ∈ _ALLOWED_ACL_VISIBILITY))) AclInvalidVisibility
      | VList _ | VSet _ | VDict _ => Err AclUnhashableVisibility
      | _ => Err AclInvalidVisibility
      end;
  foldl (fun acc field =>
           _ ← acc;
           match dict_get field acl with
           | None => mret tt
           | Some v => raise_if (negb (acl_list_ok v)) (AclInvalidField field)
           end)
        (mret tt) [u "roles"; u "users"; u "departments"].

(** * Agreement with [acl_allows] *)

(** ACLs in the stored form the pushed-down predicates are written for: the
    visibility is absent or a trimmed ASCII string, every list key is absent or
    an array of trimmed non-blank strings. *)
Definition text_ok (s : pystr) : Prop := strip s = s /\ s <> [].
Definition list_key_ok (acl : pydict) (k : pystr) : Prop :=
  match dict_get k acl with
  | None => True
  | Some v => exists l, v = VList (VStr <$> l) /\ Forall text_ok l
  end.
Record canonical_acl (acl : pydict) : Prop := {
  ca_visibility : match dict_get (u "visibility") acl with
                  | None => True
                  | Some v => exists s, v = VStr s /\ strip s = s /\ Forall (fun c => c < 128)%N s
                  end;
  ca_lists : Forall (list_key_ok acl)
    [u "denied_users"; u "allowed_users"; u "allowed_roles"; u "allowed_departments";
     u "allowed_permissions"]
}.

Section Agreement.
Context `{Postgres, PyRepr}.

Lemma text_set_canonical acl k :
  list_key_ok acl k ->
  forall s, s ∈ _text_set (dict_get k acl) <->
    exists l, dict_get k acl = Some (VList (VStr <$> l)) /\ s ∈ l.
Proof.
  unfold list_key_ok. destruct (dict_get k acl) as [v|]; simpl.
  - intros (l & -> & Hl) s. rewrite <- list_fmap_compose.
    assert (strip_nonblank (py_str ∘ VStr <$> l) = l) as ->.
    { rewrite list_fmap_id. apply strip_nonblank_fix. eapply Forall_impl; [exact Hl|].
      intros x [? ?]. done. }
    split; [eauto|]. intros (l' & [= Heq] & Hin).
    by apply (inj (fmap VStr)) in Heq as ->.
  - intros _ s. split; [set_solver|]. by intros (l & ? & _).
Qed.

Lemma vstr_elem s (l : list pystr) : VStr s ∈ VStr <$> l <-> s ∈ l.
Proof. rewrite list_elem_of_fmap. split; [intros (? & [= <-] & ?); done|eauto]. Qed.

Lemma dense_entry_spec acl k s :
  list_key_ok acl k ->
  jcontains (VDict acl) (VDict [(k, VList [VStr s])]) = true <-> s ∈ _text_set (dict_get k acl).
Proof.
  intros Hk. rewrite jcontains_field, (text_set_canonical _ _ Hk).
  unfold list_key_ok in Hk. split.
  - intros (l & Hl & Hin). rewrite Hl in Hk |- *. destruct Hk as (l' & [= ->] & _).
    exists l'. split; [done|]. by apply vstr_elem.
  - intros (l & -> & Hin). exists (VStr <$> l). split; [done|]. by apply vstr_elem.
Qed.

Lemma visibility_spec acl :
  match dict_get (u "visibility") acl with
  | None => True
  | Some v => exists s, v = VStr s /\ strip s = s /\ Forall (fun c => c < 128)%N s
  end ->
  visibility_clause (VDict acl) = Some (bool_decide (acl_visibility acl ∈ [u "public"; u "tenant"])).
Proof.
  unfold visibility_clause, acl_visibility.
  destruct (dict_get (u "visibility") acl) as [v|] eqn:Hv.
  - intros (s & -> & Hs & Ha). rewrite (jtext_string _ _ _ Hv). simpl.
    rewrite sql_lower_ascii by done. by rewrite Hs.
  - intros _. rewrite (jtext_missing _ _ Hv). simpl. rewrite sql_lower_ascii; [done|].
    vm_compute. repeat constructor.
Qed.

Lemma contains_any_spec acl k values :
  list_key_ok acl k ->
  existsb holds (dense_contains (VDict acl) k values) = intersects (_text_set (dict_get k acl)) values.
Proof.
  intros Hk. apply eq_true_iff_eq. rewrite intersects_spec, existsb_exists. split.
  - intros (t & (v & <- & Hv)%in_map_iff & Hh). simpl in Hh.
    destruct (jcontains _ _) eqn:Hc; [|done]. apply dense_entry_spec in Hc; [|done].
    exists v. split; [done|]. by apply list_elem_of_In.
  - intros (v & Hin & Hv). eexists. split; [apply in_map, list_elem_of_In, Hv|].
    apply (dense_entry_spec acl k v Hk) in Hin. by rewrite Hin.
Qed.

(** [acl_allows] as one boolean expression. *)
Lemma acl_allows_bool acl f :
  acl_allows acl f
  = negb (bool_decide (acl_user_id f ∈ _text_set (dict_get (u "denied_users") acl)))
    && (bool_decide (acl_visibility acl ∈ [u "public"; u "tenant"])
        || intersects (_text_set (dict_get (u "allowed_users") acl)) [acl_user_id f]
        || intersects (_text_set (dict_get (u "allowed_roles") acl)) (acl_roles f)
        || match acl_department f with
           | Some d => bool_decide (d ∈ _text_set (dict_get (u "allowed_departments") acl))
           | None => false end
        || intersects (_text_set (dict_get (u "allowed_permissions") acl)) (acl_permissions f)).
Proof.
  unfold acl_allows.
  assert (intersects (_text_set (dict_get (u "allowed_users") acl)) [acl_user_id f]
          = bool_decide (acl_user_id f ∈ _text_set (dict_get (u "allowed_users") acl))) as ->.
  { apply eq_true_iff_eq. rewrite intersects_spec, bool_decide_eq_true. set_solver. }
  destruct (bool_decide (acl_user_id f ∈ _text_set (dict_get (u "denied_users") acl))); [done|].
  destruct (bool_decide (_ ∈ [u "public"; u "tenant"])); [done|].
  destruct (bool_decide (acl_user_id f ∈ _)); [done|].
  destruct (intersects _ (acl_roles f)); [done|].
  destruct (match acl_department f with Some _ => _ | None => _ end); [done|].
  by destruct (intersects _ (acl_permissions f)).
Qed.

Definition department_ok (d : option pystr) : Prop := match d with Some s => s <> [] | None => True end.

Lemma opt_list_intersects l d :
  department_ok d ->
  intersects l (opt_list d) = match d with Some s => bool_decide (s ∈ l) | None => false end.
Proof.
  intros Hd. apply eq_true_iff_eq. rewrite intersects_spec.
  destruct d as [[|c s]|]; simpl in *; [done| |set_solver].
  rewrite bool_decide_eq_true. set_solver.
Qed.

Lemma canonical_keys acl k :
  canonical_acl acl ->
  k ∈ [u "denied_users"; u "allowed_users"; u "allowed_roles"; u "allowed_departments";
       u "allowed_permissions"] -> list_key_ok acl k.
Proof. intros [_ Hl]. rewrite list.Forall_forall in Hl. apply Hl. Qed.

(** One entry of the sparse predicate; [acl ->> key] of an array never equals a
    value that does not start with a bracket. *)
Lemma sparse_entry_spec acl k v :
  list_key_ok acl k -> head v <> Some 91%N ->
  holds (sparse_entry (VDict acl) k v) = bool_decide (v ∈ _text_set (dict_get k acl)) /\
  (sparse_entry (VDict acl) k v = None <-> dict_get k acl = None).
Proof.
  intros Hk Hv. pose proof (text_set_canonical acl k Hk v) as Ht.
  unfold sparse_entry. rewrite jget_object. unfold list_key_ok in Hk.
  destruct (dict_get k acl) as [w|] eqn:Hg; simpl.
  - destruct Hk as (l & -> & _). destruct (jtext_array _ _ _ Hg) as [t ->]. simpl.
    rewrite (bool_decide_eq_true_2 (jtypeof _ = _)) by (apply jtypeof_array; eauto).
    rewrite (bool_decide_eq_false_2 (91%N :: t = v)) by (by intros <-).
    destruct (jhas (VList (VStr <$> l)) v) eqn:Hh; simpl; (split; [|done]).
    + symmetry. apply bool_decide_eq_true, Ht. exists l. split; [done|].
      by apply jhas_array, vstr_elem in Hh.
    + symmetry. apply bool_decide_eq_false. intros (l' & [= Hl] & Hin)%Ht.
      apply (inj (fmap VStr)) in Hl as <-. apply vstr_elem, jhas_array in Hin. congruence.
  - rewrite (jtext_missing _ _ Hg). done.
Qed.

Lemma sparse_any_spec acl k values :
  list_key_ok acl k -> Forall (fun v => head v <> Some 91%N) values ->
  existsb holds (sparse_contains (VDict acl) k values)
  = intersects (_text_set (dict_get k acl)) values.
Proof.
  intros Hk Hv. unfold sparse_contains. apply eq_true_iff_eq. rewrite existsb_exists. rewrite list.Forall_forall in Hv. split.
  - intros (t & (v & <- & Hin%list_elem_of_In)%in_map_iff & Hh).
    destruct (sparse_entry_spec acl k v Hk (Hv v Hin)) as [He _]. rewrite He in Hh.
    apply bool_decide_eq_true in Hh. apply intersects_spec. eauto.
  - intros (v & Hs & Hin)%intersects_spec. eexists.
    split; [apply in_map, list_elem_of_In, Hin|].
    destruct (sparse_entry_spec acl k v Hk (Hv v Hin)) as [-> _]. by apply bool_decide_eq_true.
Qed.
End Agreement.

(** C40: the access predicate the dense store pushes down to PostgreSQL is
    [acl_allows]: on ACLs in canonical form (trimmed arrays of strings, trimmed
    ASCII visibility) the WHERE clause is never NULL and selects a row exactly
    when the in-process check would admit it. *)
Theorem dense_sql_acl_agrees `{Postgres, PyRepr} acl f :
  canonical_acl acl -> department_ok (acl_department f) ->
  holds (tand (tnot (dense_acl_denied (VDict acl) f)) (dense_acl_allow (VDict acl) f))
  = acl_allows acl f.
Proof.
  intros Hc Hdep. rewrite acl_allows_bool, holds_tand.
  unfold dense_acl_allow, dense_acl_denied. rewrite holds_tor_all. cbn [existsb].
  rewrite !existsb_app, !contains_any_spec by (apply canonical_keys; [done|set_solver]).
  rewrite opt_list_intersects, visibility_spec by (done || apply Hc).
  rewrite !orb_assoc. f_equal.
  - cbn. destruct (jcontains _ _) eqn:Hj; simpl; symmetry.
    + apply negb_false_iff, bool_decide_eq_true. apply dense_entry_spec; [|done].
      apply canonical_keys; [done|set_solver].
    + apply negb_true_iff, bool_decide_eq_false. rewrite <- dense_entry_spec, Hj; [done|].
      apply canonical_keys; [done|set_solver].
  - do 4 f_equal. by destruct (bool_decide _).
Qed.

(** When the ACL carries a [denied_users] array, the sparse predicate selects
    a row exactly when [acl_allows] admits the caller (identifiers that do not
    start with a bracket). *)
Theorem sparse_sql_acl_agrees `{Postgres, PyRepr} acl fs f :
  canonical_acl acl -> is_Some (dict_get (u "denied_users") acl) ->
  acl_user_id f = fs_user_id fs -> acl_roles f = fs_roles fs ->
  acl_department f = fs_department fs -> acl_permissions f = fs_permissions fs ->
  department_ok (fs_department fs) ->
  Forall (fun v => head v <> Some 91%N)
    (fs_user_id fs :: fs_roles fs ++ opt_list (fs_department fs) ++ fs_permissions fs) ->
  holds (tand (tnot (sparse_acl_denied (VDict acl) fs)) (sparse_acl_allow (VDict acl) fs))
  = acl_allows acl f.
Proof.
  intros Hc [dv Hden] Hu Hr Hd Hp Hdep Hhead. rewrite acl_allows_bool, Hu, Hr, Hd, Hp, holds_tand.
  apply Forall_cons in Hhead as [Hh Hhead]. rewrite !Forall_app in Hhead.
  destruct Hhead as (Hhr & Hhd & Hhp).
  unfold sparse_acl_allow, sparse_acl_denied. rewrite holds_tor_all. cbn [existsb].
  rewrite !existsb_app, !sparse_any_spec
    by (first [apply canonical_keys; [done|set_solver] | by auto]).
  rewrite opt_list_intersects, visibility_spec by (done || apply Hc).
  rewrite !orb_assoc. f_equal.
  - destruct (sparse_entry_spec acl (u "denied_users") (fs_user_id fs)) as [Hs Hn];
      [apply canonical_keys; [done|set_solver]|done|].
    destruct (sparse_entry _ _ _) as [[]|]; simpl in *.
    + by rewrite <- Hs.
    + by rewrite <- Hs.
    + destruct Hn as [Hn _]. rewrite Hn in Hden by done. done.
  - do 4 f_equal. by destruct (bool_decide _).
Qed.

(** An ACL without a [denied_users] key is never selected by the sparse
    predicate: the denial test is NULL, its negation is NULL too, and the row is
    dropped whatever the caller is granted, so no chunk with the default ACL
    [{"visibility": "tenant"}] is found by sparse search. *)
Theorem sparse_sql_drops_missing_denied `{Postgres} acl language min_score terms request fs r :
  cr_acl r = VDict acl -> dict_get (u "denied_users") acl = None ->
  holds (_postgres_search_statement language min_score terms request fs r) = false.
Proof.
  intros Hr Hn. unfold _postgres_search_statement.
  rewrite holds_tand_all, !forallb_app. cbn [forallb]. rewrite Hr.
  assert (sparse_acl_denied (VDict acl) fs = None) as ->.
  { unfold sparse_acl_denied, sparse_entry. by rewrite jget_object, Hn, (jtext_missing _ _ Hn). }
  simpl. by rewrite !andb_false_r.
Qed.

(** The dense predicate misses a denial written as a plain string, which
    [acl_allows] honours: PostgreSQL selects the row for the very user the ACL
    denies. *)
Theorem dense_sql_ignores_scalar_denial `{Postgres, PyRepr} acl f :
  dict_get (u "denied_users") acl = Some (VStr (acl_user_id f)) ->
  text_ok (acl_user_id f) -> dict_get (u "visibility") acl = None ->
  holds (tand (tnot (dense_acl_denied (VDict acl) f)) (dense_acl_allow (VDict acl) f)) = true /\
  acl_allows acl f = false.
Proof.
  intros Hd [Hs Hne] Hv. split.
  - rewrite holds_tand. unfold dense_acl_denied, dense_acl_allow. rewrite holds_tor_all.
    cbn [existsb]. rewrite visibility_spec by (by rewrite Hv).
    assert (jcontains (VDict acl) (VDict [(u "denied_users", VList [VStr (acl_user_id f)])]) = false)
      as ->.
    { apply not_true_iff_false. rewrite jcontains_field. intros (l & Hl & _). congruence. }
    unfold acl_visibility. by rewrite Hv.
  - rewrite acl_allows_bool, Hd. simpl. rewrite Hs.
    destruct (acl_user_id f) as [|c s]; [done|]. by rewrite bool_decide_eq_true_2 by set_solver.
Qed.

(** An ACL that passes the upload check and is not visible to the tenant
    admits nobody: the check accepts only the keys [visibility], [roles], [users]
    and [departments], none of which [acl_allows] reads as a grant, so uploading
    a restricted document for some roles or users makes it unreachable for all. *)
Theorem uploaded_restricted_acl_admits_nobody `{PyRepr} acl f :
  _validate_acl acl = Ok tt ->
  acl_allows acl f = bool_decide (acl_visibility acl = u "tenant").
Proof.
  intros Hv. unfold _validate_acl in Hv.
  destruct (filter _ acl.*1) as [|k ks] eqn:Hf; [|done].
  assert (forall k, k ∉ _ALLOWED_ACL_KEYS -> dict_get k acl = None) as Hno.
  { intros k Hk. destruct (dict_get k acl) as [v|] eqn:Hg; [|done]. exfalso.
    apply dict_get_elem in Hg.
    assert (k ∈ filter (fun k => k ∉ _ALLOWED_ACL_KEYS) acl.*1) as Hin.
    { apply list_elem_of_filter. split; [done|]. apply list_elem_of_fmap. by exists (k, v). }
    rewrite Hf in Hin. by apply list.not_elem_of_nil in Hin. }
  rewrite acl_allows_bool.
  rewrite !Hno by (apply (bool_decide_eq_false_1 (_ ∈ _)); vm_compute; reflexivity). simpl.
  rewrite orb_false_r. destruct (acl_department f); rewrite ?orb_false_r.
  all: unfold acl_visibility; simpl in Hv.
  all: destruct (dict_get (u "visibility") acl) as [[| | | |s| | | |]|]; simpl in Hv; try done.
  all: unfold mbind, result_bind, raise_if in Hv.
  all: destruct (bool_decide (s ∈ _ALLOWED_ACL_VISIBILITY)) eqn:Hs; [|done];
    apply bool_decide_eq_true in Hs; unfold _ALLOWED_ACL_VISIBILITY in Hs; simpl in Hs.
  all: rewrite !elem_of_cons in Hs; destruct Hs as [->|[->|[->|Hs%list.not_elem_of_nil]]]; done.
Qed.

(** * A concrete PostgreSQL

    The operators on decoded JSON values, with an exact-match text search and a
    constant distance, which satisfies the laws. *)
Module PgExamples.
Definition pg_json_text (v : pyval) : option pystr :=
  match v with
  | VStr s => Some s
  | VNone => None
  | VList _ => Some (u "[...]")
  | _ => Some (u "<json>")
  end.
Definition pg_get (v : pyval) (k : pystr) : option pyval :=
  match v with VDict d => dict_get k d | _ => None end.
Definition pg_has (v : pyval) (s : pystr) : bool :=
  match v with
  | VList l => existsb (fun x => match x with VStr t => bool_decide (t = s) | _ => false end) l
  | _ => false
  end.
Definition pg_typeof (v : pyval) : pystr :=
  match v with
  | VList _ => u "array" | VDict _ => u "object" | VStr _ => u "string" | VNone => u "null"
  | VBool _ => u "boolean" | _ => u "number"
  end.
Definition pg_contains (a b : pyval) : bool :=
  match a, b with
  | VDict d, VDict [(k, VList [VStr s])] =>
      match dict_get k d with Some w => pg_has w s | None => false end
  | VDict d, VDict [(k, v)] => match dict_get k d with Some w => py_eq w v | None => false end
  | _, _ => false
  end.

Lemma pg_has_spec l s : pg_has (VList l) s = true <-> VStr s ∈ l.
Proof.
  simpl. rewrite existsb_exists. split.
  - intros ([| | | |t| | | |] & Hin%list_elem_of_In & Hb); try done.
    apply bool_decide_eq_true in Hb as ->. done.
  - intros Hin. exists (VStr s). split; [by apply list_elem_of_In|by apply bool_decide_eq_true].
Qed.

#[export] Program Instance pg : Postgres := {|
  jget := pg_get;
  jtext := fun v k => pg_get v k ≫= pg_json_text;
  jtypeof := pg_typeof;
  jhas := pg_has;
  jcontains := pg_contains;
  sql_lower := lower;
  vector_distance := fun _ _ _ => fzero;
  text_match := fun _ c q => bool_decide (c = q);
  text_rank := fun _ _ _ => fone
|}.
Next Obligation. done. Qed.
Next Obligation. intros d k Hd. simpl. by rewrite Hd. Qed.
Next Obligation. intros d k Hd. simpl. by rewrite Hd. Qed.
Next Obligation. intros d k s Hd. simpl. by rewrite Hd. Qed.
Next Obligation. intros d k l Hd. simpl. rewrite Hd. simpl. eauto. Qed.
Next Obligation. intros []; split; try done; try (by intros [? ?]); eauto. Qed.
Next Obligation. intros. apply pg_has_spec. Qed.
Next Obligation.
  intros d k s. simpl. destruct (dict_get k d) as [w|] eqn:Hd.
  - destruct w; simpl; split; try done; try (by intros (l' & [=] & _)).
    + intros Hh. exists l. split; [done|]. by apply pg_has_spec.
    + intros (l' & [= <-] & Hin). by apply (pg_has_spec l s).
  - split; [done|]. by intros (l & ? & _).
Qed.
Next Obligation. done. Qed.

Definition acl1 : pydict :=
  [(u "visibility", VStr (u "restricted")); (u "allowed_roles", VList [VStr (u "analyst")]);
   (u "denied_users", VList [VStr (u "bob")])].
Definition alice_filter : AclFilter :=
  {| acl_user_id := u "alice"; acl_roles := [u "analyst"]; acl_department := None;
     acl_permissions := [] |}.
Definition alice_filters : RetrievalFilterSet :=
  {| fs_tenant_id := u "t1"; fs_user_id := u "alice"; fs_roles := [u "analyst"];
     fs_department := None; fs_permissions := []; fs_metadata_filter := [];
     fs_acl_filter := []; fs_include_deleted := false |}.

Lemma acl1_canonical : canonical_acl acl1.
Proof.
  split; cbn.
  - eexists. split; [reflexivity|]. split; [reflexivity|]. repeat constructor.
  - repeat (apply Forall_cons_2); try apply Forall_nil_2; unfold list_key_ok; cbn; try done.
    + exists [u "bob"]. split; [reflexivity|]. by repeat constructor.
    + exists [u "analyst"]. split; [reflexivity|]. by repeat constructor.
Qed.
End PgExamples.

Lemma dense_sql_acl_agrees_witness :
  holds (tand (tnot (dense_acl_denied (H := PgExamples.pg) (VDict PgExamples.acl1)
                       PgExamples.alice_filter))
              (dense_acl_allow (H := PgExamples.pg) (VDict PgExamples.acl1)
                 PgExamples.alice_filter)) = true.
Proof.
  rewrite (dense_sql_acl_agrees (H := PgExamples.pg) (H0 := Examples.repr0) PgExamples.acl1
    PgExamples.alice_filter PgExamples.acl1_canonical I). vm_compute. reflexivity.
Defined.

Lemma sparse_sql_acl_agrees_witness :
  holds (tand (tnot (sparse_acl_denied (H := PgExamples.pg) (VDict PgExamples.acl1)
                       PgExamples.alice_filters))
              (sparse_acl_allow (H := PgExamples.pg) (VDict PgExamples.acl1)
                 PgExamples.alice_filters)) = true.
Proof.
  rewrite (sparse_sql_acl_agrees (H := PgExamples.pg) (H0 := Examples.repr0) PgExamples.acl1
    PgExamples.alice_filters PgExamples.alice_filter PgExamples.acl1_canonical);
    [vm_compute; reflexivity|by eexists|done|done|done|done|done|by repeat constructor].
Defined.

(** A chunk with the default ACL, which everybody in the tenant may read. *)
Lemma sparse_sql_drops_missing_denied_witness :
  let row := {| cr_tenant_id := u "t1"; cr_status := u "active"; cr_deleted_at := None;
                cr_content := Some (u "q"); cr_acl := VDict [(u "visibility", VStr (u "tenant"))];
                cr_metadata := VDict [] |} in
  acl_allows (H := Examples.repr0) [(u "visibility", VStr (u "tenant"))] PgExamples.alice_filter
  = true /\
  holds (_postgres_search_statement (H := PgExamples.pg) (u "simple") fzero [u "q"]
    {| rq_query := u "q"; rq_top_k := 5; rq_metadata_filter := []; rq_score_threshold := None;
       rq_request_id := u "r"; rq_trace_id := u "t" |} PgExamples.alice_filters row) = false.
Proof.
  split; [vm_compute; reflexivity|].
  apply (sparse_sql_drops_missing_denied (H := PgExamples.pg)
    [(u "visibility", VStr (u "tenant"))]); reflexivity.
Defined.

Lemma dense_sql_ignores_scalar_denial_witness :
  let acl := [(u "denied_users", VStr (u "alice"))] in
  holds (tand (tnot (dense_acl_denied (H := PgExamples.pg) (VDict acl) PgExamples.alice_filter))
              (dense_acl_allow (H := PgExamples.pg) (VDict acl) PgExamples.alice_filter)) = true.
Proof.
  apply (dense_sql_ignores_scalar_denial (H := PgExamples.pg) (H0 := Examples.repr0)
    [(u "denied_users", VStr (u "alice"))] PgExamples.alice_filter); done.
Defined.

Lemma uploaded_restricted_acl_admits_nobody_witness :
  let acl := [(u "visibility", VStr (u "restricted")); (u "roles", VList [VStr (u "analyst")])] in
  _validate_acl acl = Ok tt /\
  acl_allows (H := Examples.repr0) acl PgExamples.alice_filter = false.
Proof.
  split; [reflexivity|].
  rewrite (uploaded_restricted_acl_admits_nobody (H := Examples.repr0)
    [(u "visibility", VStr (u "restricted")); (u "roles", VList [VStr (u "analyst")])]);
    vm_compute; reflexivity.
Defined.
