(* ===== verification/Sparse.v ===== *)
(** Sparse retrieval.

    Models [packages/retrieval/sparse.py]: the terms of a query, the retriever with
    its checks on what the backend returned and its errors, and the backend that
    searches the chunks table in Python.  The PostgreSQL statement of the same file
    is in [SqlAcl].  A backend is a port; one that runs into the limit of
    [asyncio.wait_for] raises.

    - [sparse_answers_exact]: what the retriever makes of a backend's answer;
    - [fallback_scan_exact]: reading first the access data and then the chunks it
      admits finds what one scan of the table finds;
    - [query_terms_bounded]: the terms a backend is asked for. *)

From Stdlib Require Import ZArith String Sorted.
From S2P Require Import Prelude Effects Float64 PyVal Access Redact Rrf Hybrid Rerank SqlAcl RetrievalService.
From S2P Require SourceMetadata.
From stdpp Require Import base list numbers sorting.

Open Scope eff_scope.

(** * Configuration and records *)

Record SparseRetrieverConfig : Type := {
  sp_language_config : pystr;
  sp_timeout_seconds : float;
  sp_min_score : float;
  sp_max_query_terms : Z;
  sp_max_query_term_length : Z
}.

Inductive sparse_config_error : Type := SparseBlankText | SparseTimeout | SparseMinScore | SparseTerms.

Definition make_sparse_config (c : SparseRetrieverConfig)
    : result sparse_config_error SparseRetrieverConfig :=
  _ ← raise_if (negb (nonblank (sp_language_config c))) SparseBlankText;
  _ ← raise_if (negb (isfinite (sp_timeout_seconds c)) || fle (sp_timeout_seconds c) fzero) SparseTimeout;
  _ ← raise_if (negb (isfinite (sp_min_score c)) || flt (sp_min_score c) fzero
                || flt fone (sp_min_score c)) SparseMinScore;
  _ ← raise_if ((sp_max_query_terms c <=? 0) || (sp_max_query_term_length c <=? 0))%Z SparseTerms;
  mret {| sp_language_config := strip (sp_language_config c);
          sp_timeout_seconds := sp_timeout_seconds c; sp_min_score := sp_min_score c;
          sp_max_query_terms := sp_max_query_terms c;
          sp_max_query_term_length := sp_max_query_term_length c |}.

(** The defaults. *)
Definition default_sparse_config : SparseRetrieverConfig :=
  {| sp_language_config := u "simple"; sp_timeout_seconds := fofZ 2; sp_min_score := fzero;
     sp_max_query_terms := 32; sp_max_query_term_length := 128 |}.

Record SparseChunkRecord : Type := {
  sr_tenant_id : pystr;
  sr_document_id : pystr;
  sr_version_id : pystr;
  sr_chunk_id : pystr;
  sr_status : pystr;
  sr_content : pystr;
  sr_source_type : pystr;
  sr_source_uri : option pystr;
  sr_title_path : list pystr;
  sr_page_start : option Z;
  sr_page_end : option Z;
  sr_acl : pydict;
  sr_metadata : pydict;
  sr_deleted_at : option Z;
  sr_rank : float
}.

(** * The terms of a query *)

Definition word_start (c : N) : bool := is_alpha c || is_digit c || (c =? 95)%N.
Definition word_char (c : N) : bool := word_start c || bool_decide (c ∈ u ".:-").
Definition cjk (c : N) : bool := ((19968 <=? c) && (c <=? 40959))%N.

Inductive token_kind : Type := TkWord | TkCjk.
Definition extends (k : token_kind) : N -> bool := match k with TkWord => word_char | TkCjk => cjk end.
Definition opens (c : N) : option (token_kind * pystr) :=
  if word_start c then Some (TkWord, [c]) else if cjk c then Some (TkCjk, [c]) else None.

(** [_QUERY_TOKEN_RE.finditer]: [open] is the token being read, backwards. *)
Fixpoint query_tokens (s : pystr) (open : option (token_kind * pystr)) : list pystr :=
  match s with
  | [] => match open with Some (_, w) => [reverse w] | None => [] end
  | c :: s' =>
      match open with
      | Some (k, w) =>
          if extends k c then query_tokens s' (Some (k, c :: w))
          else reverse w :: query_tokens s' (opens c)
      | None => query_tokens s' (opens c)
      end
  end.

(** [s.strip(" .:-")]. *)
Definition punctuation (c : N) : bool := bool_decide (c ∈ u " .:-").
Fixpoint drop_leading (p : N -> bool) (s : pystr) : pystr :=
  match s with [] => [] | c :: s' => if p c then drop_leading p s' else s end.
Definition strip_punctuation (s : pystr) : pystr :=
  reverse (drop_leading punctuation (reverse (drop_leading punctuation s))).

Definition token_term (max_term_length : Z) (token : pystr) : pystr :=
  strip_punctuation (py_take max_term_length (strip_punctuation token)).

(** The loop, with [n] terms still to be taken. *)
Fixpoint collect_terms (n : nat) (max_term_length : Z) (seen tokens : list pystr) : list pystr :=
  match n, tokens with
  | O, _ | _, [] => []
  | S m, token :: rest =>
      let term := token_term max_term_length token in
      if bool_decide (term = []) || bool_decide (term ∈ seen)
      then collect_terms n max_term_length seen rest
      else term :: collect_terms m max_term_length (term :: seen) rest
  end.

(** [None]: a [ValueError]. *)
Definition parse_sparse_query_terms (query : pystr) (max_terms max_term_length : Z)
    : option (list pystr) :=
  if ((max_terms <=? 0) || (max_term_length <=? 0))%Z then None
  else Some (collect_terms (Z.to_nat max_terms) max_term_length [] (query_tokens (lower query) None)).

Definition _parse_query_terms (request : RetrievalRequest) (config : SparseRetrieverConfig)
    : option (list pystr) :=
  parse_sparse_query_terms (rq_query request) (sp_max_query_terms config)
    (sp_max_query_term_length config).

(** * Filter payload *)

Section Payload.
Context `{PyRepr}.

(** [to_sparse_filter_payload]. *)
Definition to_sparse_filter_payload (f : RetrievalFilterSet) : pydict :=
  [(u "tenant_id", VStr (fs_tenant_id f)); (u "user_id", VStr (fs_user_id f));
   (u "roles", VTuple (VStr <$> fs_roles f));
   (u "department", match fs_department f with Some d => VStr d | None => VNone end);
   (u "permissions", VTuple (VStr <$> fs_permissions f));
   (u "metadata_filter", VDict (fs_metadata_filter f)); (u "acl_filter", VDict (fs_acl_filter f));
   (u "include_deleted", VBool (fs_include_deleted f))].

Definition _text_tuple (v : pyval) : list pystr :=
  match v with
  | VStr [] => []
  | VStr s => [s]
  | VList l | VTuple l => py_str <$> l
  | _ => []
  end.

Definition dict_or_empty (v : option pyval) : pydict :=
  match v with Some (VDict d) => d | _ => [] end.

(** [None] is a [KeyError], [Some (Err _)] a [ValidationError]. *)
Definition _filters_from_payload (payload : pydict) : option (result validation_error RetrievalFilterSet) :=
  tenant ← dict_get (u "tenant_id") payload;
  user ← dict_get (u "user_id") payload;
  let texts (k : string) := default [] (_text_tuple <$> dict_get (u k) payload) in
  Some (match required_text (py_str tenant), required_text (py_str user) with
        | Ok tenant, Ok user =>
            Ok {| fs_tenant_id := tenant; fs_user_id := user; fs_roles := texts "roles"%string;
                  fs_department := match dict_get (u "department") payload with
                                   | None | Some VNone => None
                                   | Some d => Some (py_str d) end;
                  fs_permissions := texts "permissions"%string;
                  fs_metadata_filter := dict_or_empty (dict_get (u "metadata_filter") payload);
                  fs_acl_filter := dict_or_empty (dict_get (u "acl_filter") payload);
                  fs_include_deleted := false |}
        | Err e, _ | _, Err e => Err e
        end).
End Payload.

(** * Checks on the records *)

Section Sparse.
Context `{PyRepr, UnicodeDB}.

Definition _content_matches_terms (content : pystr) (query_terms : list pystr) : bool :=
  match content with
  | [] => true
  | _ => existsb (fun term => contains term (lower content)) query_terms
  end.

(** The guards of the loop of [_filter_records]. *)
Definition record_kept (acl_filter : AclFilter) (threshold : float) (filters : RetrievalFilterSet)
    (query_terms : list pystr) (r : SparseChunkRecord) : bool :=
  if negb (bool_decide (sr_tenant_id r = fs_tenant_id filters)) then false else
  if negb (bool_decide (sr_status r = u "active")) || negb (bool_decide (sr_deleted_at r = None))
  then false else
  if negb (isfinite (sr_rank r)) || flt (sr_rank r) threshold then false else
  if negb (_metadata_matches (sr_metadata r) (fs_metadata_filter filters)) then false else
  if negb (acl_allows (sr_acl r) acl_filter) then false else
  _content_matches_terms (sr_content r) query_terms.

Definition _filter_records (records : list SparseChunkRecord) (request : RetrievalRequest)
    (filters : RetrievalFilterSet) (query_terms : list pystr) (min_score : float)
    : result pyexc (list SparseChunkRecord) :=
  match to_vector_acl_filter filters with
  | Err _ => Err (python_error "ValidationError")
  | Ok acl_filter =>
      Ok (List.filter (record_kept acl_filter (sparse_threshold min_score request) filters query_terms)
            records)
  end.

(** [key=lambda record: (-record.rank, record.chunk_id)]. *)
Definition ranked_lt : SparseChunkRecord -> SparseChunkRecord -> bool :=
  lex (fun a b => feq (fopp (sr_rank a)) (fopp (sr_rank b)))
    (fun a b => flt (fopp (sr_rank a)) (fopp (sr_rank b)))
    (fun a b => str_lt (sr_chunk_id a) (sr_chunk_id b)).

(** * Candidates *)

Definition _SENSITIVE_METADATA_KEYS : list pystr := u <$>
  ["chunk_content"; "chunk_text"; "content"; "document_content"; "query"; "raw_response"; "sql";
   "text"; "tsquery"; "tsvector"]%string.

Definition _looks_like_local_absolute_path (value : pystr) : bool :=
  SourceMetadata._looks_like_local_absolute_path (strip value).

Definition _safe_optional_text (value : option pystr) : option pystr :=
  match value with
  | None => None
  | Some s =>
      if _looks_like_local_absolute_path s then Some REDACTED_VALUE
      else Some (match redact_sensitive_data (VStr s) with VStr t => t | _ => REDACTED_VALUE end)
  end.

Definition redacted_item (key : pystr) (value : pyval) : pyval :=
  match redact_sensitive_data (VDict [(key, value)]) with
  | VDict d => default (VStr REDACTED_VALUE) (dict_get key d)
  | _ => VStr REDACTED_VALUE
  end.

Fixpoint _safe_metadata_value (key : pystr) (value : pyval) : pyval :=
  let normalized_key := lower (strip key) in
  if bool_decide (normalized_key ∈ _SENSITIVE_METADATA_KEYS) then VStr REDACTED_VALUE else
  match value with
  | VDict d => VDict ((fun kv => (kv.1, _safe_metadata_value kv.1 kv.2)) <$> d)
  | VList l | VTuple l => VList (_safe_metadata_value normalized_key <$> l)
  | VStr s => if _looks_like_local_absolute_path s then VStr REDACTED_VALUE
              else redacted_item key value
  | _ => redacted_item key value
  end.

Definition _safe_mapping (value : pydict) : pydict :=
  (fun kv => (kv.1, _safe_metadata_value kv.1 kv.2)) <$> value.

Definition _candidate_from_record (r : SparseChunkRecord) : result candidate_error RetrievalCandidate :=
  make_candidate
    {| rc_document_id := sr_document_id r; rc_version_id := sr_version_id r;
       rc_chunk_id := sr_chunk_id r; rc_source := _safe_optional_text (sr_source_uri r);
       rc_source_type := sr_source_type r; rc_source_uri := _safe_optional_text (sr_source_uri r);
       rc_page_start := sr_page_start r; rc_page_end := sr_page_end r;
       rc_title_path := sr_title_path r; rc_score := sr_rank r;
       rc_retrieval_method := u "sparse"; rc_tenant_id := sr_tenant_id r;
       rc_acl := _safe_mapping (sr_acl r); rc_metadata := _safe_mapping (sr_metadata r);
       rc_content := take 4000 (sr_content r) |}.

(** * The retriever *)

Definition SPARSE_QUERY_INVALID : pystr := u "RETRIEVAL_SPARSE_QUERY_INVALID".
Definition SPARSE_SEARCH_FAILED : pystr := u "RETRIEVAL_SPARSE_SEARCH_FAILED".

Definition _safe_details (request : RetrievalRequest) (filters : RetrievalFilterSet)
    (config : SparseRetrieverConfig) (backend_kind error_code : pystr) : pydict :=
  [(u "request_id", VStr (rq_request_id request)); (u "trace_id", VStr (rq_trace_id request));
   (u "tenant_id", VStr (fs_tenant_id filters)); (u "user_id", VStr (fs_user_id filters));
   (u "top_k", VInt (rq_top_k request)); (u "retrieval_method", VStr (u "sparse"));
   (u "backend_kind", VStr backend_kind); (u "language_config", VStr (sp_language_config config));
   (u "error_code", VStr error_code)].

(** The port [SparseSearchBackend]. *)
Definition sparse_backend (S : Type) : Type :=
  RetrievalRequest -> pydict -> list pystr -> SparseRetrieverConfig -> eff pyexc S (list SparseChunkRecord).

Section Retriever.
Context {S : Type} (search : sparse_backend S) (backend_kind : pystr) (config : SparseRetrieverConfig).

Section Request.
Context (request : RetrievalRequest) (filters : RetrievalFilterSet).

Definition query_invalid : pyexc :=
  PyExc (XRetrieval SPARSE_QUERY_INVALID (u "Sparse retrieval query is invalid.")
           (redact_mapping (_safe_details request filters config backend_kind SPARSE_QUERY_INVALID)) 400)
    None (Some (python_error "ValueError")).

Definition search_failed (cause : pyexc) : pyexc :=
  Hybrid.retrieval_error SPARSE_SEARCH_FAILED (u "Sparse retrieval backend failed.")
    (_safe_details request filters config backend_kind SPARSE_SEARCH_FAILED) (Some cause).

Definition asked_backend (query_terms : list pystr) : eff pyexc S (list SparseChunkRecord) :=
  mcatch (search request (to_sparse_filter_payload filters) query_terms config)
    (fun exc => if is_retrieval_error exc || is_cancelled exc then mraise exc
                else mraise (search_failed exc)).

Definition candidates_of (records : list SparseChunkRecord) : result pyexc (list RetrievalCandidate) :=
  match mapM _candidate_from_record records with
  | Ok l => Ok l
  | Err _ => Err (search_failed (python_error "ValidationError"))
  end.

Definition retrieve : eff pyexc S (list RetrievalCandidate) :=
  match _parse_query_terms request config with
  | None => mraise query_invalid
  | Some [] => mreturn []
  | Some query_terms =>
      records <- asked_backend query_terms;;
      filtered <- mlift (_filter_records records request filters query_terms (sp_min_score config));;
      mlift (candidates_of (py_take (rq_top_k request) (py_sort ranked_lt filtered)))
  end.
End Request.
End Retriever.

(** * The backend in Python *)

(** A row of the chunks table, as far as the search reads it. *)
Record ChunkModel : Type := {
  cm_id : pystr;
  cm_tenant_id : pystr;
  cm_document_id : pystr;
  cm_version_id : pystr;
  cm_chunk_id : pystr;
  cm_status : pystr;
  cm_content : pystr;
  cm_source_type : pystr;
  cm_source_uri : option pystr;
  cm_title_path : list pystr;
  cm_page_start : option Z;
  cm_page_end : option Z;
  cm_acl : pydict;
  cm_metadata : pydict;
  cm_deleted_at : option Z
}.

Definition _record_from_model (query_terms : list pystr) (m : ChunkModel) : SparseChunkRecord :=
  let normalized := lower (cm_content m) in
  let matched_count := count (List.filter (fun term => contains term normalized) query_terms) in
  {| sr_tenant_id := cm_tenant_id m; sr_document_id := cm_document_id m;
     sr_version_id := cm_version_id m; sr_chunk_id := cm_chunk_id m; sr_status := cm_status m;
     sr_content := cm_content m; sr_source_type := cm_source_type m;
     sr_source_uri := cm_source_uri m; sr_title_path := cm_title_path m;
     sr_page_start := cm_page_start m; sr_page_end := cm_page_end m; sr_acl := cm_acl m;
     sr_metadata := cm_metadata m; sr_deleted_at := cm_deleted_at m;
     sr_rank := match query_terms with
                | [] => fzero
                | _ => fdiv (fofZ matched_count) (fofZ (count query_terms)) end |}.

(** What [session.execute] raises: a [SQLAlchemyError], or something else. *)
Inductive sql_exc : Type := SQLAlchemyError (cause : pyexc) | SqlOther (exc : pyexc).

Section Backend.
Context {S : Type} (execute : S -> result sql_exc (list ChunkModel) * S).

(** A statement reads the table and keeps the rows of its WHERE clause. *)
Definition statement (tenant : pystr) (filter : ChunkModel -> bool) (filters_payload : pydict)
    : eff pyexc S (list ChunkModel) := fun s =>
  let where_clause (m : ChunkModel) : bool :=
    bool_decide (cm_tenant_id m = tenant) && bool_decide (cm_status m = u "active")
    && bool_decide (cm_deleted_at m = None) && filter m in
  match execute s with
  | (Ok rows, s') => (Ok (List.filter where_clause rows), s')
  | (Err (SqlOther e), s') => (Err e, s')
  | (Err (SQLAlchemyError e), s') =>
      (Err (Hybrid.retrieval_error SPARSE_SEARCH_FAILED (u "Sparse retrieval backend failed.")
              [(u "tenant_id", default VNone (dict_get (u "tenant_id") filters_payload));
               (u "retrieval_method", VStr (u "sparse")); (u "backend_kind", VStr (u "postgres"));
               (u "error_code", VStr SPARSE_SEARCH_FAILED)] (Some e)), s')
  end.

Definition admitted (filters : RetrievalFilterSet) (acl_filter : AclFilter) (m : ChunkModel) : bool :=
  _metadata_matches (cm_metadata m) (fs_metadata_filter filters) && acl_allows (cm_acl m) acl_filter.

(** [_search_python_fallback]. *)
Definition search_python_fallback : sparse_backend S :=
  fun request filters_payload query_terms config =>
    filters <- mlift (match _filters_from_payload filters_payload with
                      | Some (Ok f) => Ok f
                      | Some (Err _) => Err (python_error "ValidationError")
                      | None => Err (python_error "KeyError") end);;
    let tenant := py_str (default VNone (dict_get (u "tenant_id") filters_payload)) in
    scope_rows <- statement tenant (fun _ => true) filters_payload;;
    acl_filter <- mlift (match to_vector_acl_filter filters with
                         | Ok f => Ok f | Err _ => Err (python_error "ValidationError") end);;
    let allowed_ids := cm_id <$> List.filter (admitted filters acl_filter) scope_rows in
    match allowed_ids with
    | [] => mreturn []
    | _ =>
        models <- statement tenant (fun m => bool_decide (cm_id m ∈ allowed_ids)) filters_payload;;
        filtered <- mlift (_filter_records (_record_from_model query_terms <$> models) request filters
                             query_terms (sp_min_score config));;
        mreturn (py_take (rq_top_k request) (py_sort ranked_lt filtered))
    end.
End Backend.
End Sparse.

(** * Properties *)

(** ** The terms of a query *)

Lemma drop_leading_suffix p s : exists a, s = a ++ drop_leading p s.
Proof.
  induction s as [|c s [a IH]]; cbn; [by exists []|]. destruct (p c); [|by exists []].
  exists (c :: a). cbn. by rewrite <- IH.
Qed.

Lemma strip_punctuation_infix s : infix (strip_punctuation s) s.
Proof.
  unfold strip_punctuation. destruct (drop_leading_suffix punctuation s) as [a Ha].
  set (t := drop_leading punctuation s) in *.
  destruct (drop_leading_suffix punctuation (reverse t)) as [b Hb].
  apply (f_equal reverse) in Hb. rewrite reverse_involutive, reverse_app in Hb.
  exists a, (reverse b). by rewrite <- Hb.
Qed.

Lemma token_term_spec max token :
  (0 < max)%Z -> infix (token_term max token) token /\ (count (token_term max token) <= max)%Z.
Proof.
  intros Hm. unfold token_term. split.
  - apply infix_trans with (py_take max (strip_punctuation token)); [apply strip_punctuation_infix|].
    apply infix_trans with (strip_punctuation token); [|apply strip_punctuation_infix].
    unfold py_take. destruct (Z.ltb_spec max 0); [lia|].
    exists [], (drop (Z.to_nat max) (strip_punctuation token)). cbn. by rewrite take_drop.
  - destruct (strip_punctuation_infix (py_take max (strip_punctuation token))) as (a & b & Heq).
    pose proof (py_take_length max (strip_punctuation token) ltac:(lia)) as Hl.
    rewrite Heq in Hl. rewrite !length_app in Hl. unfold count. lia.
Qed.

Lemma query_tokens_infix s : forall open t,
  t ∈ query_tokens s open ->
  infix t (match open with Some (_, w) => reverse w | None => [] end ++ s).
Proof.
  assert (forall c s, match opens c with Some (_, w) => reverse w | None => [c] end ++ s = c :: s) as Ho.
  { intros c s'. unfold opens. by destruct (word_start c), (cjk c). }
  induction s as [|c s IH]; intros open t; cbn [query_tokens].
  - destruct open as [[k w]|]; [|by intros ?%elem_of_nil].
    intros ->%list_elem_of_singleton. exists [], []. by rewrite app_nil_r.
  - assert (t ∈ query_tokens s (opens c) -> infix t (c :: s)) as Hfresh.
    { intros Ht%IH. rewrite <- (Ho c s). destruct (opens c) as [[k w]|]; [done|].
      apply infix_trans with s; [done|]. exists [c], []. by rewrite app_nil_r. }
    destruct open as [[k w]|]; [|done].
    destruct (extends k c).
    + intros Ht%IH. by rewrite reverse_cons, <- app_assoc in Ht.
    + intros [->|Ht]%elem_of_cons; [by exists [], (c :: s)|].
      apply infix_trans with (c :: s); [by apply Hfresh|].
      exists (reverse w), []. by rewrite app_nil_r.
Qed.

Lemma collect_terms_spec n max : forall tokens seen,
  let terms := collect_terms n max seen tokens in
  length terms <= n /\ NoDup terms /\
  Forall (fun t => t <> [] /\ (t ∉ seen) /\ (exists token, token ∈ tokens /\ t = token_term max token)) terms.
Proof.
  induction n as [|n IHn]; intros tokens.
  { intros seen. destruct tokens; cbn; (split_and!; [lia|constructor|constructor]). }
  induction tokens as [|token tokens IHt]; intros seen;
    [cbn; split_and!; [lia|constructor|constructor]|].
  cbn [collect_terms]. destruct (_ || _) eqn:Hskip.
  - destruct (IHt seen) as (H1 & H2 & H3). cbv zeta in *. split_and!; [done|done|].
    eapply Forall_impl; [exact H3|]. intros t (Hne & Hs & tk & Htk & ->). split_and!; [done|done|].
    exists tk. split; [by right|done].
  - apply orb_false_iff in Hskip as [Hne%bool_decide_eq_false Hs%bool_decide_eq_false].
    destruct (IHn tokens (token_term max token :: seen)) as (H1 & H2 & H3). cbv zeta in *.
    split_and!.
    + cbn. lia.
    + constructor; [|done]. intros Hin. rewrite list.Forall_forall in H3.
      destruct (H3 _ Hin) as (_ & Hns & _). apply Hns. left.
    + constructor; [split_and!; [done|done|]; exists token; split; [left|done]|].
      eapply Forall_impl; [exact H3|]. intros t (Ht & Hns & tk & Htk & ->).
      split_and!; [done| |exists tk; split; [by right|done]]. intros Hin. apply Hns. by right.
Qed.

(** The terms a backend is asked for are bounded whatever the query is: at most
    [max_terms] of them, no two the same, none empty or longer than
    [max_term_length], and each a passage of the query in lower case; the limits
    are refused only when they are not positive. *)
Theorem query_terms_bounded query max_terms max_term_length :
  match parse_sparse_query_terms query max_terms max_term_length with
  | None => (max_terms <= 0 \/ max_term_length <= 0)%Z
  | Some terms =>
      (count terms <= max_terms)%Z /\ NoDup terms /\
      Forall (fun t => t <> [] /\ (count t <= max_term_length)%Z /\ infix t (lower query)) terms
  end.
Proof.
  unfold parse_sparse_query_terms. destruct (_ || _) eqn:Hb.
  { rewrite orb_true_iff, !Z.leb_le in Hb. lia. }
  rewrite orb_false_iff, !Z.leb_gt in Hb. destruct Hb as [Hn Hl].
  destruct (collect_terms_spec (Z.to_nat max_terms) max_term_length
    (query_tokens (lower query) None) []) as (H1 & H2 & H3). cbv zeta in *.
  split_and!; [unfold count; lia|done|]. eapply Forall_impl; [exact H3|].
  intros t (Hne & _ & token & Htoken & ->). destruct (token_term_spec max_term_length token Hl) as [Hi Hc].
  split_and!; [done|done|]. apply infix_trans with token; [done|]. by apply query_tokens_infix in Htoken.
Qed.

(** ** What the retriever makes of an answer *)

Section Props.
Context `{PyRepr, UnicodeDB}.

(** What it takes for a record to be returned. *)
Record record_admitted (request : RetrievalRequest) (filters : RetrievalFilterSet) (min_score : float)
    (query_terms : list pystr) (r : SparseChunkRecord) : Prop := {
  ra_tenant : sr_tenant_id r = fs_tenant_id filters;
  ra_live : sr_status r = u "active" /\ sr_deleted_at r = None;
  ra_rank : isfinite (sr_rank r) = true /\
            flt (sr_rank r) (sparse_threshold min_score request) = false;
  ra_metadata : _metadata_matches (sr_metadata r) (fs_metadata_filter filters) = true;
  ra_acl : exists f, to_vector_acl_filter filters = Ok f /\ acl_allows (sr_acl r) f = true;
  ra_terms : sr_content r = [] \/ exists term, term ∈ query_terms /\ contains term (lower (sr_content r)) = true
}.

Lemma content_matches_spec content terms :
  _content_matches_terms content terms = true <->
  content = [] \/ exists term, term ∈ terms /\ contains term (lower content) = true.
Proof.
  unfold _content_matches_terms. destruct content as [|c s]; [naive_solver|].
  rewrite existsb_exists. setoid_rewrite list_elem_of_In. naive_solver.
Qed.

Lemma kept_admitted request filters min_score terms f r :
  to_vector_acl_filter filters = Ok f ->
  record_kept f (sparse_threshold min_score request) filters terms r = true <->
  record_admitted request filters min_score terms r.
Proof.
  intros Hf. unfold record_kept. split.
  - repeat match goal with |- (if ?c then _ else _) = true -> _ => destruct c eqn:?; [done|] end.
    intros Hc%content_matches_spec. rewrite ?orb_false_iff, ?negb_false_iff, ?bool_decide_eq_true in *.
    constructor; try tauto; eauto.
  - intros [Ht [Hs Hd] [Hi Hr] Hm (f' & Hf' & Ha) Hc%content_matches_spec].
    rewrite Hf in Hf'. injection Hf' as <-.
    by rewrite Ht, Hs, Hd, Hi, Hr, Hm, Ha, Hc, !bool_decide_eq_true_2 by done.
Qed.

Lemma ranked_weak : weak_order ranked_lt (fun r => fnum (sr_rank r)).
Proof.
  apply weak_order_lex.
  - intros x y Hx Hy. apply feq_flt; by apply fopp_num.
  - apply (weak_order_key (fun r : SparseChunkRecord => fopp (sr_rank r)) flt _ fnum);
      [|apply weak_order_flt]. intros x Hx. by apply fopp_num.
  - by apply (weak_order_key sr_chunk_id _ _ _ (fun _ _ => I) weak_order_str).
Qed.

Lemma ranked_falls a b :
  fnum (sr_rank a) -> fnum (sr_rank b) -> sort_le ranked_lt a b -> fle (sr_rank b) (sr_rank a) = true.
Proof.
  intros Ha Hb. unfold sort_le, ranked_lt, lex. rewrite feq_opp, flt_opp.
  destruct (feq (sr_rank b) (sr_rank a)) eqn:He; cbn [negb].
  - intros _. by apply feq_fle.
  - intros Hf. by rewrite fle_not_flt, Hf.
Qed.

Lemma candidates_of_spec request filters config kind records l :
  candidates_of kind config request filters records = Ok l ->
  Forall2 (fun r c => _candidate_from_record r = Ok c) records l.
Proof.
  unfold candidates_of. destruct (mapM _ records) as [l'|] eqn:Hm; [|done]. intros [= <-].
  revert l' Hm. induction records as [|r records IH]; intros l'; cbn; [intros [= <-]; constructor|].
  destruct (_candidate_from_record r) as [c|] eqn:Hc; [|done]. cbn.
  destruct (mapM _ records) as [rest|]; [|done]. intros [= <-]. constructor; [done|by apply IH].
Qed.
End Props.

Section Answers.
Context `{PyRepr, UnicodeDB} {S : Type}.

Lemma falls_sorted m :
  Forall (fun r => fnum (sr_rank r)) m -> StronglySorted (sort_le ranked_lt) m ->
  StronglySorted (fun a b => fle (sr_rank b) (sr_rank a) = true) m.
Proof.
  intros Hm Hss. induction Hss as [|x m Hss IH Hall]; [constructor|].
  apply list.Forall_cons in Hm as [Hx Hm]. constructor; [by apply IH|].
  rewrite list.Forall_forall in Hall, Hm |- *. intros y Hy. apply ranked_falls; auto.
Qed.

Lemma filter_records_spec records request filters terms min_score filtered :
  _filter_records records request filters terms min_score = Ok filtered ->
  forall r, r ∈ filtered <-> r ∈ records /\ record_admitted request filters min_score terms r.
Proof.
  unfold _filter_records. destruct (to_vector_acl_filter filters) as [f|] eqn:Hf; [|done].
  intros [= <-] r. rewrite !list_elem_of_In, List.filter_In.
  by rewrite (kept_admitted request filters min_score terms f r Hf).
Qed.

Lemma mapM_err {E A B} (g : A -> result E B) l e :
  mapM g l = Err e -> exists x, x ∈ l /\ g x = Err e.
Proof.
  induction l as [|x l IH]; cbn; [done|]. destruct (g x) as [y|e'] eqn:Hx; cbn.
  - destruct (mapM g l) as [ys|e'']; [done|]. intros [= ->].
    destruct (IH eq_refl) as (z & Hz & Hg). exists z. split; [by right|done].
  - intros [= ->]. exists x. split; [left|done].
Qed.

(** The sparse retriever answers with what the caller may see of the backend's
    records and with all of it, best first.  A query without terms is answered
    without the backend; otherwise the backend is asked once, with the filter
    payload of the caller.  An answer holds the [top_k] best ranked of the records
    that are live, of the caller's tenant, readable under their ACL, match the
    metadata filter, reach the threshold and mention a term.  A retrieval error or
    a cancellation of the backend is passed on, any other exception is wrapped, and
    so is the refusal of a record that makes no valid candidate. *)
Theorem sparse_answers_exact (search : sparse_backend S) kind config request filters s :
  (0 <= rq_top_k request)%Z ->
  let '(r, s') := retrieve search kind config request filters s in
  match _parse_query_terms request config with
  | None => r = Err (query_invalid kind config request filters) /\ s' = s
  | Some [] => r = Ok [] /\ s' = s
  | Some terms =>
      let '(answer, s1) := search request (to_sparse_filter_payload filters) terms config s in
      s' = s1 /\
      match answer, r with
      | Err e, _ =>
          r = Err (if is_retrieval_error e || is_cancelled e then e
                   else search_failed kind config request filters e)
      | Ok records, Ok l => exists best rest,
          Forall2 (fun r c => _candidate_from_record r = Ok c) best l /\
          Z.of_nat (length best) = Z.min (rq_top_k request) (Z.of_nat (length (best ++ rest))) /\
          StronglySorted (fun a b => fle (sr_rank b) (sr_rank a) = true) (best ++ rest) /\
          forall x, x ∈ best ++ rest <->
            x ∈ records /\ record_admitted request filters (sp_min_score config) terms x
      | Ok records, Err e =>
          (e = python_error "ValidationError" /\ exists v, to_vector_acl_filter filters = Err v) \/
          (e = search_failed kind config request filters (python_error "ValidationError") /\
           exists x v, x ∈ records /\ _candidate_from_record x = Err v)
      end
  end.
Proof.
  intros Hk. unfold retrieve. destruct (_parse_query_terms request config) as [[|t0 ts]|]; [done| |done].
  set (terms := t0 :: ts). unfold asked_backend, mthen, mcatch.
  destruct (search request _ terms config s) as [[records|e] s1].
  2: { by destruct (is_retrieval_error e || is_cancelled e). }
  unfold mlift at 1.
  destruct (_filter_records records request filters terms (sp_min_score config)) as [filtered|e] eqn:Hf.
  2: { split; [done|]. left. unfold _filter_records in Hf.
       destruct (to_vector_acl_filter filters); [done|]. injection Hf as <-. eauto. }
  pose proof (filter_records_spec _ _ _ _ _ _ Hf) as Hin. unfold mlift.
  set (sorted := py_sort ranked_lt filtered).
  destruct (candidates_of kind config request filters _) as [l|e] eqn:Hc; (split; [done|]).
  - apply candidates_of_spec in Hc. unfold py_take in Hc. destruct (Z.ltb_spec (rq_top_k request) 0); [lia|].
    exists (take (Z.to_nat (rq_top_k request)) sorted), (drop (Z.to_nat (rq_top_k request)) sorted).
    rewrite take_drop. split_and!; [done| | |].
    + rewrite length_take. lia.
    + assert (Forall (fun r => fnum (sr_rank r)) filtered) as Hn.
      { apply list.Forall_forall. intros x Hx%Hin. destruct Hx as [_ [_ _ [Hfin _] _ _ _]].
        by apply isfinite_num. }
      apply falls_sorted; [by apply py_sort_Forall|]. by apply (py_sort_sorted _ _ ranked_weak).
    + intros x. unfold sorted. rewrite py_sort_elem_of. apply Hin.
  - right. unfold candidates_of in Hc. destruct (mapM _ _) as [l|v] eqn:Hm; [done|].
    injection Hc as <-. split; [done|]. apply mapM_err in Hm as (x & Hx & Hv).
    exists x, v. split; [|done]. by apply Hin, (py_sort_elem_of ranked_lt), (py_take_elem _ (rq_top_k request)).
Qed.

(** ** The search in Python *)

Lemma texts_back (l : list pystr) : py_str <$> (VStr <$> l) = l.
Proof. rewrite <- list_fmap_compose. apply list_fmap_id. Qed.

(** The payload carries the whole filter set. *)
Lemma payload_back filters :
  required_text (fs_tenant_id filters) = Ok (fs_tenant_id filters) ->
  required_text (fs_user_id filters) = Ok (fs_user_id filters) ->
  fs_include_deleted filters = false ->
  _filters_from_payload (to_sparse_filter_payload filters) = Some (Ok filters).
Proof.
  intros Ht Hu Hd. unfold _filters_from_payload. set (p := to_sparse_filter_payload filters).
  assert (dict_get (u "tenant_id") p = Some (VStr (fs_tenant_id filters))) as -> by reflexivity.
  assert (dict_get (u "user_id") p = Some (VStr (fs_user_id filters))) as -> by reflexivity.
  assert (dict_get (u "roles") p = Some (VTuple (VStr <$> fs_roles filters))) as -> by reflexivity.
  assert (dict_get (u "permissions") p = Some (VTuple (VStr <$> fs_permissions filters))) as ->
    by reflexivity.
  assert (dict_get (u "department") p
          = Some (match fs_department filters with Some d => VStr d | None => VNone end)) as ->
    by reflexivity.
  assert (dict_get (u "metadata_filter") p = Some (VDict (fs_metadata_filter filters))) as ->
    by reflexivity.
  assert (dict_get (u "acl_filter") p = Some (VDict (fs_acl_filter filters))) as -> by reflexivity.
  cbv [mbind option_bind]. cbn [py_str]. rewrite Ht, Hu. cbn [_text_tuple dict_or_empty fmap option_fmap option_map default from_option id].
  rewrite !texts_back. destruct filters as [? ? ? [] ? ? ? ?]; cbn in *; by subst.
Qed.

Lemma filter_fmap_narrow {A B} (p : B -> bool) (g : A -> B) (q : A -> bool) l :
  (forall a, a ∈ l -> p (g a) = true -> q a = true) ->
  List.filter p (g <$> List.filter q l) = List.filter p (g <$> l).
Proof.
  induction l as [|a l IH]; intros Hq; [done|]. cbn.
  rewrite <- IH by (intros b Hb; apply Hq; by right).
  destruct (q a) eqn:Ha; [done|]. destruct (p (g a)) eqn:Hp; [|done].
  rewrite (Hq a) in Ha; [done|left|done].
Qed.

Lemma filter_set_ids request auth filters :
  filter_set request auth = Ok filters ->
  required_text (fs_tenant_id filters) = Ok (fs_tenant_id filters) /\
  required_text (fs_user_id filters) = Ok (fs_user_id filters) /\ fs_include_deleted filters = false.
Proof.
  unfold filter_set, build_retrieval_filter_set. destruct (widens_tenant _ _); [done|].
  destruct (required_text (af_tenant_id _)) as [t|] eqn:Ht; [|done].
  destruct (required_text (af_user_id _)) as [n|] eqn:Hn; [|done]. intros [= <-].
  apply required_text_ok in Ht as [-> Ht], Hn as [-> Hn]. cbn.
  split_and!; [by apply required_text_fix; [apply strip_idem|]..|done].
Qed.

Definition scope_row (tenant : pystr) (m : ChunkModel) : bool :=
  bool_decide (cm_tenant_id m = tenant) && bool_decide (cm_status m = u "active")
  && bool_decide (cm_deleted_at m = None).

Lemma kept_scope f threshold filters terms m :
  record_kept f threshold filters terms (_record_from_model terms m) = true ->
  scope_row (fs_tenant_id filters) m = true /\ admitted filters f m = true.
Proof.
  unfold record_kept, scope_row, admitted. cbn.
  repeat match goal with |- (if ?c then _ else _) = true -> _ => destruct c eqn:?; [done|] end.
  intros _. rewrite ?orb_false_iff, ?negb_false_iff in *.
  repeat match goal with Hx : _ /\ _ |- _ => destruct Hx end.
  repeat match goal with Hx : _ = true |- _ => rewrite Hx end. done.
Qed.

Lemma filter_andb {A} (p q : A -> bool) l :
  List.filter q (List.filter p l) = List.filter (fun a => p a && q a) l.
Proof. induction l as [|a l IH]; cbn; [done|]. destruct (p a); cbn; [destruct (q a)|]; by rewrite ?IH. Qed.

(** The two statements of the search in Python find what one scan finds.  Reading
    the access data of the tenant's live chunks first and then only the chunks that
    the caller may read loses nothing and adds nothing: for a filter set built from
    an identity the search returns the first [top_k], by rank and chunk, of all
    rows of the whole table that pass every check on them. *)
Theorem fallback_scan_exact (execute : S -> result sql_exc (list ChunkModel) * S) table request auth
    filters f terms config s :
  (forall s, execute s = (Ok table, s)) ->
  filter_set request auth = Ok filters -> to_vector_acl_filter filters = Ok f ->
  search_python_fallback execute request (to_sparse_filter_payload filters) terms config s
  = (Ok (py_take (rq_top_k request) (py_sort ranked_lt
           (List.filter (record_kept f (sparse_threshold (sp_min_score config) request) filters terms)
              (_record_from_model terms <$> table)))), s).
Proof.
  intros Hx Hfs Hf. unfold search_python_fallback.
  destruct (filter_set_ids _ _ _ Hfs) as (Ht & Hu & Hd). rewrite payload_back by done.
  unfold mthen, mlift, statement. rewrite !Hx, Hf.
  change (py_str _) with (fs_tenant_id filters).
  set (kept := record_kept f _ filters terms). set (rec := _record_from_model terms).
  set (rows := List.filter _ table).
  assert (rows = List.filter (scope_row (fs_tenant_id filters)) table) as Hrows.
  { apply List.filter_ext. intros m. by rewrite andb_true_r. }
  assert (forall m, m ∈ table -> kept (rec m) = true ->
    cm_id m ∈ cm_id <$> List.filter (admitted filters f) rows) as Hin.
  { intros m Hm Hk. apply kept_scope in Hk as [Hs Ha]. apply list_elem_of_fmap_2.
    rewrite Hrows. by rewrite list_elem_of_In, !List.filter_In, <- list_elem_of_In. }
  destruct (cm_id <$> List.filter (admitted filters f) rows) as [|i ids] eqn:Hids.
  - assert (List.filter kept (rec <$> table) = []) as ->;
      [|unfold py_take; cbn; destruct (_ <? _)%Z; by rewrite ?take_nil].
    rewrite <- (filter_fmap_narrow kept rec (fun _ => false) table).
    + by rewrite List.filter_false.
    + intros m Hm Hk. exfalso. by apply (Hin m Hm), elem_of_nil in Hk.
  - rewrite Hx. cbn [fst snd]. unfold _filter_records. rewrite Hf. fold kept rec.
    rewrite (filter_fmap_narrow kept rec); [done|].
    intros m Hm Hk. pose proof (Hin m Hm Hk) as Hid. apply kept_scope in Hk as [Hs _].
    unfold scope_row in Hs. by rewrite Hs, bool_decide_eq_true_2.
Qed.
End Answers.

(** * Examples *)

Module SparseExamples.
Import Examples RedactExamples RrfExamples.

Definition chunk (id tenant visibility : string) : ChunkModel :=
  {| cm_id := u id; cm_tenant_id := u tenant; cm_document_id := u "d1"; cm_version_id := u "v1";
     cm_chunk_id := u id; cm_status := u "active"; cm_content := u "The hybrid query plan.";
     cm_source_type := u "md"; cm_source_uri := None; cm_title_path := [u "T"];
     cm_page_start := None; cm_page_end := None;
     cm_acl := [(u "visibility", VStr (u visibility))]; cm_metadata := []; cm_deleted_at := None |}.

Definition table1 : list ChunkModel :=
  [chunk "c2" "t1" "tenant"; chunk "c1" "t1" "tenant"; chunk "c3" "t1" "private"; chunk "c4" "t2" "public"].

Definition execute1 (s : unit) : result sql_exc (list ChunkModel) * unit := (Ok table1, s).

Definition request2 : RetrievalRequest :=
  {| rq_query := u "Query plan: query-plan?"; rq_top_k := 5; rq_metadata_filter := [];
     rq_score_threshold := None; rq_request_id := u "r1"; rq_trace_id := u "tr1" |}.

Example terms2 : _parse_query_terms request2 default_sparse_config
  = Some [u "query"; u "plan"; u "query-plan"].
Proof. vm_compute. reflexivity. Qed.

Definition filters2 : RetrievalFilterSet :=
  match filter_set request2 alice with Ok f => f | Err _ => filters1 end.

Definition found2 :=
  retrieve (search_python_fallback execute1) (u "postgres") default_sparse_config request2 filters2 tt.

(** Only the chunks of the tenant that the caller may read. *)
Example found2_chunks :
  match found2.1 with Ok l => rc_chunk_id <$> l | Err _ => [] end = [u "c1"; u "c2"].
Proof. vm_compute. reflexivity. Qed.

Lemma sparse_answers_exact_witness :
  (0 <= rq_top_k request2)%Z /\
  (let '(r, s') := retrieve (S := unit) (fun _ _ _ _ s => (Err (python_error "OSError"), s)) (u "postgres")
                     default_sparse_config request2 filters2 tt in
   r = Err (search_failed (u "postgres") default_sparse_config request2 filters2
              (python_error "OSError"))).
Proof.
  assert (0 <= rq_top_k request2)%Z as Hk by (vm_compute; discriminate).
  split; [exact Hk|].
  pose proof (sparse_answers_exact (S := unit) (fun _ _ _ _ s => (Err (python_error "OSError"), s))
    (u "postgres") default_sparse_config request2 filters2 tt Hk) as He.
  destruct (retrieve _ _ _ _ _ _) as [r s'].
  rewrite terms2 in He. exact (proj2 He).
Defined.

Lemma fallback_scan_exact_witness :
  exists f, to_vector_acl_filter filters2 = Ok f /\
    search_python_fallback execute1 request2 (to_sparse_filter_payload filters2) [u "plan"]
      default_sparse_config tt
    = (Ok (py_take 5 (py_sort ranked_lt
             (List.filter
                (record_kept f (sparse_threshold (sp_min_score default_sparse_config) request2) filters2
                   [u "plan"])
                (_record_from_model [u "plan"] <$> table1)))), tt).
Proof.
  assert (filter_set request2 alice = Ok filters2) as Hfs by (vm_compute; reflexivity).
  destruct (to_vector_acl_filter filters2) as [f|e] eqn:Hf; [|vm_compute in Hf; discriminate Hf].
  exists f. split; [reflexivity|].
  exact (fallback_scan_exact execute1 table1 request2 alice filters2 f [u "plan"] default_sparse_config tt
    (fun s => match s with tt => eq_refl end) Hfs Hf).
Defined.
End SparseExamples.
