(* ===== verification/VectorStore.v ===== *)
(** The vector store.

    Models [packages/vectorstores/dto.py] and the in-memory store
    [packages/vectorstores/adapters/fake.py].  The similarity of two vectors is a
    parameter: Python's float summation depends on the interpreter.

    - [SearchContract] is what dense retrieval expects of a store;
    - [vector_search_exact]: the in-memory store is an instance, and ranks;
    - [store_invariant]: its records stay well formed;
    - [deleted_never_found]: a deleted document is not returned any more. *)

From Stdlib Require Import ZArith String Sorted.
From S2P Require Import Prelude Effects Float64 PyVal Access Rrf Hybrid SqlAcl.
From stdpp Require Import base list numbers sorting.

(** * Data *)

Record VectorRecord : Type := {
  ve_tenant_id : pystr;
  ve_document_id : pystr;
  ve_version_id : pystr;
  ve_chunk_id : pystr;
  ve_created_by : pystr;
  ve_status : pystr;
  ve_vector : list float;
  ve_embedding_provider : pystr;
  ve_embedding_model : pystr;
  ve_embedding_version : option pystr;
  ve_embedding_dim : Z;
  ve_source_type : pystr;
  ve_source_uri : option pystr;
  ve_title_path : list pystr;
  ve_page_start : option Z;
  ve_page_end : option Z;
  ve_token_count : Z;
  ve_acl : pydict;
  ve_checksum : pystr;
  ve_metadata : pydict;
  ve_deleted_at : option float
}.

Inductive vector_error : Type :=
| VectorBlankText | VectorNotPositive | VectorEmpty | VectorBlankTitle | VectorDimension | VectorPages.

(** [VectorRecord(...)]: the field validators and the model validator. *)
Definition make_vector_record (r : VectorRecord) : result vector_error VectorRecord :=
  let title := strip_nonblank (ve_title_path r) in
  _ ← raise_if (negb (forallb nonblank
         [ve_tenant_id r; ve_document_id r; ve_version_id r; ve_chunk_id r; ve_created_by r;
          ve_status r; ve_embedding_provider r; ve_embedding_model r; ve_source_type r;
          ve_checksum r])) VectorBlankText;
  _ ← raise_if ((ve_embedding_dim r <=? 0) || (ve_token_count r <=? 0))%Z VectorNotPositive;
  _ ← raise_if (match ve_vector r with [] => true | _ => false end) VectorEmpty;
  _ ← raise_if (match title with [] => true | _ => false end) VectorBlankTitle;
  _ ← raise_if (negb (Z.of_nat (length (ve_vector r)) =? ve_embedding_dim r)%Z) VectorDimension;
  _ ← raise_if (negb (page_range_ok (ve_page_start r) (ve_page_end r))) VectorPages;
  mret {| ve_tenant_id := strip (ve_tenant_id r); ve_document_id := strip (ve_document_id r);
          ve_version_id := strip (ve_version_id r); ve_chunk_id := strip (ve_chunk_id r);
          ve_created_by := strip (ve_created_by r); ve_status := strip (ve_status r);
          ve_vector := ve_vector r; ve_embedding_provider := strip (ve_embedding_provider r);
          ve_embedding_model := strip (ve_embedding_model r);
          ve_embedding_version := optional_text (ve_embedding_version r);
          ve_embedding_dim := ve_embedding_dim r; ve_source_type := strip (ve_source_type r);
          ve_source_uri := optional_text (ve_source_uri r); ve_title_path := title;
          ve_page_start := ve_page_start r; ve_page_end := ve_page_end r;
          ve_token_count := ve_token_count r; ve_acl := ve_acl r; ve_checksum := strip (ve_checksum r);
          ve_metadata := ve_metadata r; ve_deleted_at := ve_deleted_at r |}.

(** [VectorSearchRequest(...)]. *)
Definition make_search_request (q : VectorSearchRequest) : result vector_error VectorSearchRequest :=
  _ ← raise_if (negb (nonblank (vq_tenant_id q))) VectorBlankText;
  _ ← raise_if ((vq_embedding_dim q <=? 0) || (vq_top_k q <=? 0))%Z VectorNotPositive;
  _ ← raise_if (match vq_query_vector q with [] => true | _ => false end) VectorEmpty;
  _ ← raise_if (negb (Z.of_nat (length (vq_query_vector q)) =? vq_embedding_dim q)%Z) VectorDimension;
  mret {| vq_tenant_id := strip (vq_tenant_id q); vq_query_vector := vq_query_vector q;
          vq_embedding_dim := vq_embedding_dim q; vq_top_k := vq_top_k q;
          vq_score_threshold := vq_score_threshold q; vq_metadata_filters := vq_metadata_filters q;
          vq_acl_filter := vq_acl_filter q; vq_include_deleted := vq_include_deleted q;
          vq_distance_metric := vq_distance_metric q;
          vq_embedding_provider := vq_embedding_provider q;
          vq_embedding_model := vq_embedding_model q;
          vq_embedding_version := vq_embedding_version q |}.

Record VectorSearchResult : Type := {
  vs_document_id : pystr;
  vs_version_id : pystr;
  vs_chunk_id : pystr;
  vs_source : option pystr;
  vs_source_type : pystr;
  vs_source_uri : option pystr;
  vs_page_start : option Z;
  vs_page_end : option Z;
  vs_title_path : list pystr;
  vs_score : float;
  vs_retrieval_method : pystr;
  vs_tenant_id : pystr;
  vs_acl : pydict;
  vs_metadata : pydict
}.

Record VectorUpsertResult : Type := {
  vu_upserted_count : Z;
  vu_tenant_id : pystr;
  vu_document_id : pystr;
  vu_version_id : pystr;
  vu_embedding_provider : pystr;
  vu_embedding_model : pystr;
  vu_embedding_version : option pystr;
  vu_embedding_dim : Z
}.

Record VectorDeleteResult : Type := {
  vd_deleted_count : Z;
  vd_tenant_id : pystr;
  vd_document_id : pystr;
  vd_version_id : option pystr
}.

(** [VectorStoreError]: its code and details; none of those below is retryable. *)
Record VectorStoreError : Type := { se_code : pystr; se_details : pydict }.

Definition INDEX_DIMENSION_MISMATCH : pystr := u "INDEX_DIMENSION_MISMATCH".
Definition VECTOR_STORE_WRITE_FAILED : pystr := u "VECTOR_STORE_WRITE_FAILED".
Definition VECTOR_RECORD_SCOPE_MISMATCH : pystr := u "VECTOR_RECORD_SCOPE_MISMATCH".

Definition store_exception (e : VectorStoreError) : pyexc :=
  PyExc (XOther (u "VectorStoreError")) (Some false) None.

(** The port [VectorSearch]. *)
Definition vector_search (S : Type) : Type :=
  VectorSearchRequest -> eff pyexc S (list VectorSearchResult).

(** * The in-memory store *)

Definition record_id : Type := pystr * pystr * pystr * pystr * pystr * option pystr.

Definition _record_key (r : VectorRecord) : record_id :=
  (ve_tenant_id r, ve_document_id r, ve_version_id r, ve_chunk_id r, ve_embedding_model r,
   ve_embedding_version r).

Record FakeVectorStore : Type := {
  fv_index_dim : Z;
  fv_records : list (record_id * VectorRecord)
}.

Definition with_records (s : FakeVectorStore) (l : list (record_id * VectorRecord))
    : FakeVectorStore := {| fv_index_dim := fv_index_dim s; fv_records := l |}.

Definition new_store (index_dim : Z) : result vector_error FakeVectorStore :=
  if (index_dim <=? 0)%Z then Err VectorNotPositive
  else Ok {| fv_index_dim := index_dim; fv_records := [] |}.

Definition scope_of (r : VectorRecord) : pystr * pystr * pystr :=
  (ve_tenant_id r, ve_document_id r, ve_version_id r).
Definition embedding_of (r : VectorRecord) : pystr * pystr * option pystr * Z :=
  (ve_embedding_provider r, ve_embedding_model r, ve_embedding_version r, ve_embedding_dim r).

Definition check_record (index_dim : Z) (first r : VectorRecord) : result VectorStoreError unit :=
  if negb (ve_embedding_dim r =? index_dim)%Z
     || negb (Z.of_nat (length (ve_vector r)) =? index_dim)%Z
  then Err {| se_code := INDEX_DIMENSION_MISMATCH;
              se_details :=
                [(u "tenant_id", VStr (ve_tenant_id r)); (u "document_id", VStr (ve_document_id r));
                 (u "version_id", VStr (ve_version_id r)); (u "chunk_id", VStr (ve_chunk_id r));
                 (u "expected_dim", VInt index_dim);
                 (u "actual_dim", VInt (Z.of_nat (length (ve_vector r))))] |}
  else if negb (bool_decide (scope_of r = scope_of first))
  then Err {| se_code := VECTOR_RECORD_SCOPE_MISMATCH;
              se_details :=
                [(u "tenant_id", VStr (ve_tenant_id first));
                 (u "document_id", VStr (ve_document_id first));
                 (u "version_id", VStr (ve_version_id first)); (u "chunk_id", VStr (ve_chunk_id r))] |}
  else if negb (bool_decide (embedding_of r = embedding_of first))
  then Err {| se_code := VECTOR_RECORD_SCOPE_MISMATCH;
              se_details := [(u "chunk_id", VStr (ve_chunk_id r))] |}
  else Ok tt.

Fixpoint _validate_record_batch (index_dim : Z) (first : VectorRecord) (vectors : list VectorRecord)
    : result VectorStoreError unit :=
  match vectors with
  | [] => Ok tt
  | r :: rest => _ ← check_record index_dim first r; _validate_record_batch index_dim first rest
  end.

Definition put_records (vectors : list VectorRecord) (l : list (record_id * VectorRecord))
    : list (record_id * VectorRecord) :=
  foldl (fun l r => dict_set (_record_key r) r l) l vectors.

Definition upsert (vectors : list VectorRecord) (s : FakeVectorStore)
    : result VectorStoreError VectorUpsertResult * FakeVectorStore :=
  match vectors with
  | [] => (Err {| se_code := VECTOR_STORE_WRITE_FAILED; se_details := [] |}, s)
  | first :: _ =>
      match _validate_record_batch (fv_index_dim s) first vectors with
      | Err e => (Err e, s)
      | Ok _ =>
          (Ok {| vu_upserted_count := Z.of_nat (length vectors); vu_tenant_id := ve_tenant_id first;
                 vu_document_id := ve_document_id first; vu_version_id := ve_version_id first;
                 vu_embedding_provider := ve_embedding_provider first;
                 vu_embedding_model := ve_embedding_model first;
                 vu_embedding_version := ve_embedding_version first;
                 vu_embedding_dim := ve_embedding_dim first |},
           with_records s (put_records vectors (fv_records s)))
      end
  end.

(** ** Search *)

Section Search.
Context `{PyRepr}.
Context (_score : list float -> list float -> distance_metric -> float).

Definition _metadata_allowed (metadata : pydict) (filters : list MetadataFilter) : bool :=
  forallb (fun f => py_eq (default VNone (dict_get (mf_key f) metadata)) (mf_value f)) filters.

Definition asked {A} `{EqDecision A} (wanted : option A) (actual : A) : bool :=
  match wanted with Some w => bool_decide (actual = w) | None => true end.

Definition asked_version (wanted actual : option pystr) : bool :=
  match wanted with Some w => bool_decide (actual = Some w) | None => true end.

Definition live (r : VectorRecord) : bool :=
  bool_decide (ve_deleted_at r = None) && bool_decide (ve_status r = u "active").

Definition _record_matches_request (r : VectorRecord) (q : VectorSearchRequest) : bool :=
  if negb (bool_decide (ve_tenant_id r = vq_tenant_id q)) then false else
  if negb (vq_include_deleted q) && negb (live r) then false else
  if negb (ve_embedding_dim r =? vq_embedding_dim q)%Z then false else
  if negb (asked (vq_embedding_provider q) (ve_embedding_provider r)) then false else
  if negb (asked (vq_embedding_model q) (ve_embedding_model r)) then false else
  if negb (asked_version (vq_embedding_version q) (ve_embedding_version r)) then false else
  if negb (_metadata_allowed (ve_metadata r) (vq_metadata_filters q)) then false else
  acl_allows (ve_acl r) (vq_acl_filter q).

Definition _search_result (sr : float * VectorRecord) : VectorSearchResult :=
  let '(score, r) := sr in
  {| vs_document_id := ve_document_id r; vs_version_id := ve_version_id r;
     vs_chunk_id := ve_chunk_id r; vs_source := ve_source_uri r; vs_source_type := ve_source_type r;
     vs_source_uri := ve_source_uri r; vs_page_start := ve_page_start r;
     vs_page_end := ve_page_end r; vs_title_path := ve_title_path r; vs_score := score;
     vs_retrieval_method := u "dense"; vs_tenant_id := ve_tenant_id r; vs_acl := ve_acl r;
     vs_metadata := ve_metadata r |}.

Definition score_record (q : VectorSearchRequest) (r : VectorRecord) : float :=
  _score (vq_query_vector q) (ve_vector r) (vq_distance_metric q).

(** The loop of [search]. *)
Definition scored (q : VectorSearchRequest) (records : list VectorRecord)
    : list (float * VectorRecord) :=
  List.filter (fun sr => negb (below (vq_score_threshold q) sr.1))
    ((fun r => (score_record q r, r)) <$> List.filter (fun r => _record_matches_request r q) records).

(** [key=lambda item: (-item[0], item[1].chunk_id)]. *)
Definition ranked_lt : float * VectorRecord -> float * VectorRecord -> bool :=
  lex (fun a b => feq (fopp a.1) (fopp b.1)) (fun a b => flt (fopp a.1) (fopp b.1))
    (fun a b => str_lt (ve_chunk_id a.2) (ve_chunk_id b.2)).

Definition search (q : VectorSearchRequest) (s : FakeVectorStore)
    : result VectorStoreError (list VectorSearchResult) :=
  if negb (vq_embedding_dim q =? fv_index_dim s)%Z
  then Err {| se_code := INDEX_DIMENSION_MISMATCH;
              se_details := [(u "expected_dim", VInt (fv_index_dim s));
                             (u "actual_dim", VInt (vq_embedding_dim q))] |}
  else Ok (_search_result <$> py_take (vq_top_k q)
                                (py_sort ranked_lt (scored q (fv_records s).*2))).

Definition fake_search : vector_search FakeVectorStore := fun q s =>
  (match search q s with Ok l => Ok l | Err e => Err (store_exception e) end, s).
End Search.

(** ** Deletion *)

Definition deletes (document_id : pystr) (version_id : option pystr) (tenant_id : pystr)
    (r : VectorRecord) : bool :=
  bool_decide (ve_tenant_id r = tenant_id) && bool_decide (ve_document_id r = document_id) &&
  match version_id with Some v => bool_decide (ve_version_id r = v) | None => true end &&
  bool_decide (ve_deleted_at r = None) && negb (bool_decide (ve_status r = u "deleted")).

Definition mark_deleted (now : float) (r : VectorRecord) : VectorRecord :=
  {| ve_tenant_id := ve_tenant_id r; ve_document_id := ve_document_id r;
     ve_version_id := ve_version_id r; ve_chunk_id := ve_chunk_id r;
     ve_created_by := ve_created_by r; ve_status := u "deleted"; ve_vector := ve_vector r;
     ve_embedding_provider := ve_embedding_provider r; ve_embedding_model := ve_embedding_model r;
     ve_embedding_version := ve_embedding_version r; ve_embedding_dim := ve_embedding_dim r;
     ve_source_type := ve_source_type r; ve_source_uri := ve_source_uri r;
     ve_title_path := ve_title_path r; ve_page_start := ve_page_start r;
     ve_page_end := ve_page_end r; ve_token_count := ve_token_count r; ve_acl := ve_acl r;
     ve_checksum := ve_checksum r; ve_metadata := ve_metadata r; ve_deleted_at := Some now |}.

(** The loop goes over a copy of the items and writes to the key it is at. *)
Definition delete_by_document (document_id : pystr) (version_id : option pystr) (tenant_id : pystr)
    (now : float) (s : FakeVectorStore) : VectorDeleteResult * FakeVectorStore :=
  let hit (r : VectorRecord) := deletes document_id version_id tenant_id r in
  ({| vd_deleted_count := Z.of_nat (length (List.filter hit (fv_records s).*2));
      vd_tenant_id := tenant_id; vd_document_id := document_id; vd_version_id := version_id |},
   with_records s ((fun kr => (kr.1, if hit kr.2 then mark_deleted now kr.2 else kr.2))
                     <$> fv_records s)).

(** * Properties *)

(** What dense retrieval expects of a vector store: at most [top_k] chunks, of the
    tenant asked for and readable under the ACL filter. *)
Class SearchContract `{PyRepr} {S} (search : vector_search S) : Prop :=
  search_promise q s l s' :
    (0 <= vq_top_k q)%Z -> search q s = (Ok l, s') ->
    (Z.of_nat (length l) <= vq_top_k q)%Z /\
    Forall (fun r => vs_tenant_id r = vq_tenant_id q /\
                     acl_allows (vs_acl r) (vq_acl_filter q) = true) l.

Section SearchProps.
Context `{PyRepr}.
Context (_score : list float -> list float -> distance_metric -> float).

(** What it takes for a record to be found. *)
Record record_found (q : VectorSearchRequest) (r : VectorRecord) : Prop := {
  rf_tenant : ve_tenant_id r = vq_tenant_id q;
  rf_live : vq_include_deleted q = false -> ve_deleted_at r = None /\ ve_status r = u "active";
  rf_dim : ve_embedding_dim r = vq_embedding_dim q;
  rf_provider : forall w, vq_embedding_provider q = Some w -> ve_embedding_provider r = w;
  rf_model : forall w, vq_embedding_model q = Some w -> ve_embedding_model r = w;
  rf_version : forall w, vq_embedding_version q = Some w -> ve_embedding_version r = Some w;
  rf_metadata : _metadata_allowed (ve_metadata r) (vq_metadata_filters q) = true;
  rf_acl : acl_allows (ve_acl r) (vq_acl_filter q) = true
}.

Lemma asked_spec {A} `{EqDecision A} (wanted : option A) actual :
  asked wanted actual = true <-> forall w, wanted = Some w -> actual = w.
Proof. destruct wanted; cbn; rewrite ?bool_decide_eq_true; naive_solver. Qed.

Lemma asked_version_spec wanted actual :
  asked_version wanted actual = true <-> forall w, wanted = Some w -> actual = Some w.
Proof. destruct wanted; cbn; rewrite ?bool_decide_eq_true; naive_solver. Qed.

Lemma live_spec r : live r = true <-> ve_deleted_at r = None /\ ve_status r = u "active".
Proof. unfold live. by rewrite andb_true_iff, !bool_decide_eq_true. Qed.

Lemma if_negb (b c : bool) : (if negb b then false else c) = b && c.
Proof. by destruct b. Qed.

Lemma matches_found q r : _record_matches_request r q = true <-> record_found q r.
Proof.
  unfold _record_matches_request. rewrite !if_negb.
  assert ((if negb (vq_include_deleted q) && negb (live r) then false else true) = true <->
          (vq_include_deleted q = false -> ve_deleted_at r = None /\ ve_status r = u "active")) as Hl.
  { rewrite <- live_spec. destruct (vq_include_deleted q), (live r); cbn; naive_solver. }
  transitivity (bool_decide (ve_tenant_id r = vq_tenant_id q) &&
    ((if negb (vq_include_deleted q) && negb (live r) then false else true) &&
     ((ve_embedding_dim r =? vq_embedding_dim q)%Z &&
      (asked (vq_embedding_provider q) (ve_embedding_provider r) &&
       (asked (vq_embedding_model q) (ve_embedding_model r) &&
        (asked_version (vq_embedding_version q) (ve_embedding_version r) &&
         (_metadata_allowed (ve_metadata r) (vq_metadata_filters q) &&
          acl_allows (ve_acl r) (vq_acl_filter q))))))) = true).
  { by destruct (negb (vq_include_deleted q) && negb (live r)). }
  rewrite !andb_true_iff, Hl, Z.eqb_eq, !asked_spec, asked_version_spec, bool_decide_eq_true.
  split; [intros (? & ? & ? & ? & ? & ? & ? & ?); by constructor|by intros []].
Qed.

Lemma scored_spec q records sr :
  sr ∈ scored _score q records <->
  sr.2 ∈ records /\ record_found q sr.2 /\ sr.1 = score_record _score q sr.2 /\
  below (vq_score_threshold q) sr.1 = false.
Proof.
  unfold scored. rewrite list_elem_of_In, List.filter_In, <- list_elem_of_In, list_elem_of_fmap.
  rewrite negb_true_iff. split.
  - intros [(r & -> & Hr%list_elem_of_In%List.filter_In) Hb]. rewrite matches_found in Hr.
    destruct Hr as [Hr%list_elem_of_In Hm]. by split_and!.
  - intros (Hr & Hm & Hs & Hb). split; [|done]. exists sr.2. split; [by destruct sr; cbn in *; subst|].
    apply list_elem_of_In, List.filter_In. rewrite matches_found. by rewrite <- list_elem_of_In.
Qed.

Lemma ranked_weak_order : weak_order ranked_lt (fun sr => fnum sr.1).
Proof.
  apply weak_order_lex.
  - intros x y Hx Hy. apply feq_flt; by apply fopp_num.
  - apply (weak_order_key (fun sr : float * VectorRecord => fopp sr.1) flt _ fnum);
      [|apply weak_order_flt]. intros x Hx. by apply fopp_num.
  - by apply (weak_order_key (fun sr : float * VectorRecord => ve_chunk_id sr.2) _ _ _
      (fun _ _ => I) weak_order_str).
Qed.

Lemma ranked_descends a b :
  fnum a.1 -> fnum b.1 -> sort_le ranked_lt a b -> fle b.1 a.1 = true.
Proof.
  intros Ha Hb. unfold sort_le, ranked_lt, lex. rewrite feq_opp, flt_opp.
  destruct (feq b.1 a.1) eqn:He; cbn [negb].
  - intros _. by apply feq_fle.
  - intros Hf. by rewrite fle_not_flt, Hf.
Qed.

#[export] Instance fake_search_contract : SearchContract (fake_search _score).
Proof.
  intros q s l s' Hk Hs. unfold fake_search, search in Hs.
  destruct (negb _); [done|]. injection Hs as <- _. split.
  - rewrite length_fmap. by apply py_take_length.
  - apply Forall_fmap, list.Forall_forall. intros sr Hsr%py_take_elem%py_sort_elem_of.
    apply scored_spec in Hsr as (_ & Hf & _). destruct sr as [sc r]. cbn in *. split; apply Hf.
Qed.
End SearchProps.

(** The in-memory store finds exactly what it should, best first.  A search
    returns, in order of falling score, the [top_k] best of the records that are of
    the tenant asked for, live, of the dimension, provider, model and version asked
    for, match the metadata filters, are readable under the ACL filter and reach
    the threshold; a record it leaves out either fails one of these or is preceded
    by [top_k] others with scores no lower. *)
Theorem vector_search_exact `{PyRepr} score q s l :
  search score q s = Ok l -> (0 <= vq_top_k q)%Z ->
  Forall (fun r => fnum (score_record score q r)) (fv_records s).*2 ->
  exists best rest,
    l = _search_result <$> best /\
    Z.of_nat (length best) = Z.min (vq_top_k q) (Z.of_nat (length (best ++ rest))) /\
    StronglySorted (fun a b : float * VectorRecord => fle b.1 a.1 = true) (best ++ rest) /\
    forall sr, sr ∈ best ++ rest <->
      sr.2 ∈ (fv_records s).*2 /\ record_found q sr.2 /\ sr.1 = score_record score q sr.2 /\
      below (vq_score_threshold q) sr.1 = false.
Proof.
  intros Hs Hk Hnum. unfold search in Hs. destruct (negb _); [done|]. injection Hs as <-.
  set (found := scored score q (fv_records s).*2). set (sorted := py_sort ranked_lt found).
  exists (take (Z.to_nat (vq_top_k q)) sorted), (drop (Z.to_nat (vq_top_k q)) sorted).
  rewrite take_drop. unfold py_take. destruct (Z.ltb_spec (vq_top_k q) 0); [lia|].
  assert (Forall (fun sr : float * VectorRecord => fnum sr.1) found) as Hf.
  { apply list.Forall_forall. intros sr Hsr%scored_spec. destruct Hsr as (Hr & _ & -> & _).
    rewrite list.Forall_forall in Hnum. by apply Hnum. }
  split_and!.
  - done.
  - rewrite length_take. lia.
  - assert (forall m, Forall (fun sr : float * VectorRecord => fnum sr.1) m ->
              StronglySorted (sort_le ranked_lt) m ->
              StronglySorted (fun a b : float * VectorRecord => fle b.1 a.1 = true) m) as Hmono.
    { intros m Hm Hss. induction Hss as [|x m Hss IH Hall]; [constructor|].
      apply list.Forall_cons in Hm as [Hx Hm]. constructor; [by apply IH|].
      rewrite list.Forall_forall in Hall, Hm |- *. intros y Hy.
      apply ranked_descends; auto. }
    apply Hmono; [by apply py_sort_Forall|]. by apply (py_sort_sorted _ _ ranked_weak_order).
  - intros sr. unfold sorted. rewrite py_sort_elem_of. apply scored_spec.
Qed.

(** ** The records *)

Record store_wf (s : FakeVectorStore) : Prop := {
  sw_dim : (0 < fv_index_dim s)%Z;
  sw_keys : NoDup (fv_records s).*1;
  sw_records : Forall (fun kr => kr.1 = _record_key kr.2 /\
                         ve_embedding_dim kr.2 = fv_index_dim s /\
                         Z.of_nat (length (ve_vector kr.2)) = fv_index_dim s) (fv_records s)
}.

Lemma batch_valid dim first vectors t :
  _validate_record_batch dim first vectors = Ok t ->
  Forall (fun r => ve_embedding_dim r = dim /\ Z.of_nat (length (ve_vector r)) = dim /\
            scope_of r = scope_of first /\ embedding_of r = embedding_of first) vectors.
Proof.
  revert t. induction vectors as [|r rest IH]; intros t; cbn [_validate_record_batch]; [done|].
  unfold mbind, result_bind, check_record.
  destruct (ve_embedding_dim r =? dim)%Z eqn:E1; [|done].
  destruct (Z.of_nat (length (ve_vector r)) =? dim)%Z eqn:E2; [|done]. cbn [negb orb].
  case_bool_decide; [|done]. case_bool_decide; [|done]. cbn [negb]. intros Hr.
  apply Z.eqb_eq in E1, E2. constructor; [done|by eapply IH].
Qed.

(** What may happen to a store. *)
Inductive store_op : Type :=
| OpUpsert (vectors : list VectorRecord)
| OpDelete (document_id : pystr) (version_id : option pystr) (tenant_id : pystr) (now : float).

Definition store_step (s : FakeVectorStore) (op : store_op) : FakeVectorStore :=
  match op with
  | OpUpsert vectors => (upsert vectors s).2
  | OpDelete d v t now => (delete_by_document d v t now s).2
  end.

Lemma put_records_wf s vectors :
  store_wf s ->
  Forall (fun r => ve_embedding_dim r = fv_index_dim s /\
            Z.of_nat (length (ve_vector r)) = fv_index_dim s) vectors ->
  store_wf (with_records s (put_records vectors (fv_records s))).
Proof.
  intros Hwf Hv. unfold put_records.
  assert (forall l, store_wf (with_records s l) ->
    store_wf (with_records s (foldl (fun l r => dict_set (_record_key r) r l) l vectors))) as Hgen.
  { induction Hv as [|r vectors [H1 H2] Hv IH]; intros l Hl; [done|]. cbn [foldl]. apply IH.
    destruct Hl as [Hd Hk Hr]. constructor; cbn in *; [done|by apply dict_set_keys|].
    by apply dict_set_Forall. }
  apply Hgen. by destruct s.
Qed.

Lemma store_step_wf s op : store_wf s -> store_wf (store_step s op).
Proof.
  intros Hwf. destruct op as [vectors|d v t now]; cbn [store_step].
  - unfold upsert. destruct vectors as [|first rest]; [done|].
    destruct (_validate_record_batch _ _ _) as [x|e] eqn:Hb; [|done]. cbn [snd].
    apply put_records_wf; [done|]. apply batch_valid in Hb. eapply Forall_impl; [exact Hb|].
    by intros r (H1 & H2 & _).
  - destruct Hwf as [Hd Hk Hr]. constructor; cbn; [done| |].
    + by rewrite <- list_fmap_compose.
    + apply Forall_fmap. eapply Forall_impl; [exact Hr|]. intros [k r] (H1 & H2 & H3). cbn in *.
      by destruct (deletes _ _ _ r).
Qed.

(** The records of the store stay well formed.  After any sequence of upserts,
    refused ones included, and deletions no two records share a key, every record
    is stored under its own key and every vector has the dimension of the index. *)
Theorem store_invariant index_dim s ops :
  new_store index_dim = Ok s -> store_wf (foldl store_step s ops).
Proof.
  unfold new_store. destruct (Z.leb_spec index_dim 0); [done|]. intros [= <-].
  assert (forall s0, store_wf s0 -> store_wf (foldl store_step s0 ops)) as Hrun.
  { induction ops as [|op ops IH]; intros s0 Hwf; [done|]. cbn. by apply IH, store_step_wf. }
  apply Hrun. constructor; cbn; [done|constructor|constructor].
Qed.

(** A deleted document is gone.  After [delete_by_document] no search that
    leaves out deleted records returns a chunk of the document, or of the version
    when one was named, for that tenant, and deleting it again deletes nothing. *)
Theorem deleted_never_found `{PyRepr} score document_id version_id tenant_id now again s q l :
  let s' := (delete_by_document document_id version_id tenant_id now s).2 in
  vd_deleted_count (delete_by_document document_id version_id tenant_id again s').1 = 0%Z /\
  (search score q s' = Ok l -> vq_include_deleted q = false ->
   Forall (fun r => ~ (vs_tenant_id r = tenant_id /\ vs_document_id r = document_id /\
                       match version_id with Some v => vs_version_id r = v | None => True end)) l).
Proof.
  cbn zeta. assert (forall r, r ∈ (fv_records
      (delete_by_document document_id version_id tenant_id now s).2).*2 ->
      deletes document_id version_id tenant_id r = false) as Hgone.
  { intros r Hr. cbn in Hr. rewrite <- list_fmap_compose in Hr.
    apply list_elem_of_fmap in Hr as ([k r0] & -> & _). cbn.
    destruct (deletes _ _ _ r0) eqn:Hd; [|done]. unfold deletes. cbn.
    by rewrite !andb_false_r. }
  split.
  - cbn [delete_by_document fst vd_deleted_count].
    destruct (List.filter _ _) as [|r rest] eqn:Hf; [done|]. exfalso.
    assert (In r (r :: rest)) as Hin by (by left). rewrite <- Hf in Hin.
    apply List.filter_In in Hin as [Hr Hd]. apply list_elem_of_In in Hr.
    rewrite (Hgone r Hr) in Hd. done.
  - intros Hs Hlive. unfold search in Hs. destruct (negb _); [done|]. injection Hs as <-.
    apply Forall_fmap, list.Forall_forall. intros sr Hsr%py_take_elem%py_sort_elem_of.
    apply scored_spec in Hsr as (Hr & Hf & _). destruct sr as [sc r]. cbn in *.
    intros (Ht & Hdoc & Hver). specialize (Hgone r Hr). destruct (rf_live _ _ Hf Hlive) as [Hd Hst].
    unfold deletes in Hgone. rewrite Hd, Hst, Ht, Hdoc, !bool_decide_eq_true_2 in Hgone by done.
    destruct version_id as [v|]; [rewrite Hver, bool_decide_eq_true_2 in Hgone by done|];
      vm_compute in Hgone; done.
Qed.

(** * Examples *)

Module StoreExamples.
Import Examples.

Definition record (doc chunk : string) (x : Z) (acl : pydict) : VectorRecord :=
  {| ve_tenant_id := u "t1"; ve_document_id := u doc; ve_version_id := u "v1";
     ve_chunk_id := u chunk; ve_created_by := u "u0"; ve_status := u "active";
     ve_vector := [fofZ x]; ve_embedding_provider := u "fake"; ve_embedding_model := u "m";
     ve_embedding_version := None; ve_embedding_dim := 1; ve_source_type := u "md";
     ve_source_uri := None; ve_title_path := [u "T"]; ve_page_start := None; ve_page_end := None;
     ve_token_count := 1; ve_acl := acl; ve_checksum := u "x"; ve_metadata := [];
     ve_deleted_at := None |}.

Definition hidden : pydict := [(u "visibility", VStr (u "private"))].
Definition product (a b : list float) (_ : distance_metric) : float :=
  match a, b with x :: _, y :: _ => fmul x y | _, _ => fzero end.

Definition ops1 : list store_op :=
  [OpUpsert [record "d1" "c1" 1 []; record "d1" "c2" 3 []; record "d1" "c3" 5 hidden];
   OpUpsert [record "d2" "c4" 2 []; record "d1" "c5" 2 []];
   OpUpsert [record "d2" "c4" 2 []]].

Definition empty1 : FakeVectorStore := {| fv_index_dim := 1; fv_records := [] |}.
Definition store1 : FakeVectorStore := foldl store_step empty1 ops1.

Definition query1 : VectorSearchRequest :=
  {| vq_tenant_id := u "t1"; vq_query_vector := [fone]; vq_embedding_dim := 1; vq_top_k := 2;
     vq_score_threshold := None; vq_metadata_filters := [];
     vq_acl_filter := {| acl_user_id := u "alice"; acl_roles := []; acl_department := None;
                         acl_permissions := [] |};
     vq_include_deleted := false; vq_distance_metric := Cosine; vq_embedding_provider := Some (u "fake");
     vq_embedding_model := Some (u "m"); vq_embedding_version := None |}.

Definition found1 : list VectorSearchResult :=
  match search product query1 store1 with Ok l => l | Err _ => [] end.

(** The batch of two documents is refused as a whole; the hidden chunk is not found. *)
Example found1_chunks : vs_chunk_id <$> found1 = [u "c2"; u "c4"].
Proof. vm_compute. reflexivity. Qed.

Lemma vector_search_exact_witness :
  search product query1 store1 = Ok found1 /\
  exists best rest, found1 = _search_result <$> best /\
    Z.of_nat (length best) = Z.min 2 (Z.of_nat (length (best ++ rest))).
Proof.
  assert (search product query1 store1 = Ok found1) as Hs by (vm_compute; reflexivity).
  assert (0 <= vq_top_k query1)%Z as Hk by (vm_compute; discriminate).
  assert (Forall (fun r => fnum (score_record product query1 r)) (fv_records store1).*2) as Hf
    by (apply (bool_decide_unpack _); vm_compute; exact I).
  split; [exact Hs|].
  destruct (vector_search_exact product query1 store1 found1 Hs Hk Hf) as (best & rest & Hl & Hn & _).
  exists best, rest. split; [exact Hl|exact Hn].
Defined.

Lemma store_invariant_witness : new_store 1 = Ok empty1 /\ store_wf (foldl store_step empty1 ops1).
Proof.
  assert (new_store 1 = Ok empty1) as Hs by (vm_compute; reflexivity).
  exact (conj Hs (store_invariant 1 empty1 ops1 Hs)).
Defined.

Definition after1 : FakeVectorStore := (delete_by_document (u "d1") None (u "t1") fone store1).2.
Definition left1 : list VectorSearchResult :=
  match search product query1 after1 with Ok l => l | Err _ => [] end.

Example left1_chunks : vs_chunk_id <$> left1 = [u "c4"].
Proof. vm_compute. reflexivity. Qed.

Lemma deleted_never_found_witness :
  search product query1 after1 = Ok left1 /\
  Forall (fun r => ~ (vs_tenant_id r = u "t1" /\ vs_document_id r = u "d1" /\ True)) left1.
Proof.
  assert (search product query1 after1 = Ok left1) as Hs by (vm_compute; reflexivity).
  split; [exact Hs|].
  exact (proj2 (deleted_never_found product (u "d1") None (u "t1") fone fone store1 query1 left1)
    Hs eq_refl).
Defined.
End StoreExamples.
