(* ===== verification/Dense.v ===== *)
(** Dense retrieval.

    Models [packages/retrieval/dense.py] with the data of
    [packages/embeddings/dto.py] it uses: the query is embedded, the embedding is
    checked against the configuration, the vector store is searched within the
    caller's scope and its rows become candidates with redacted ACL and metadata.
    The embedding provider and the vector store are ports.

    - [dense_search_pinned]: what the vector store is asked, and when it is not;
    - [dense_answers_store]: the answer over a store that keeps [SearchContract]. *)

From Stdlib Require Import ZArith String.
From S2P Require Import Prelude Effects Float64 PyVal Access Redact Rrf Hybrid Rerank SqlAcl RetrievalService VectorStore.
From S2P Require SourceMetadata.
From stdpp Require Import base list numbers sets.

Open Scope eff_scope.

(** * Configuration and embeddings *)

Record DenseRetrieverConfig : Type := {
  dc_embedding_provider : pystr;
  dc_embedding_model : pystr;
  dc_embedding_version : option pystr;
  dc_timeout_seconds : float;
  dc_retry_budget : Z;
  dc_distance_metric : distance_metric
}.

Inductive dense_config_error : Type := DenseBlankText | DenseTimeout | DenseRetryBudget.

Definition make_dense_config (c : DenseRetrieverConfig)
    : result dense_config_error DenseRetrieverConfig :=
  _ ← raise_if (negb (nonblank (dc_embedding_provider c) && nonblank (dc_embedding_model c)))
        DenseBlankText;
  _ ← raise_if (fle (dc_timeout_seconds c) fzero) DenseTimeout;
  _ ← raise_if (dc_retry_budget c <? 0)%Z DenseRetryBudget;
  mret {| dc_embedding_provider := strip (dc_embedding_provider c);
          dc_embedding_model := strip (dc_embedding_model c);
          dc_embedding_version := optional_text (dc_embedding_version c);
          dc_timeout_seconds := dc_timeout_seconds c; dc_retry_budget := dc_retry_budget c;
          dc_distance_metric := dc_distance_metric c |}.

Record EmbeddingRequest : Type := {
  eq_texts : list pystr;
  eq_provider : pystr;
  eq_model : pystr;
  eq_timeout_seconds : float;
  eq_retry_budget : Z;
  eq_rate_limit_key : option pystr;
  eq_metadata : pydict
}.

(** [EmbeddingRequest(...)] without chunk ids. *)
Definition make_embedding_request (r : EmbeddingRequest) : result vector_error EmbeddingRequest :=
  _ ← raise_if (negb (forallb nonblank [eq_provider r; eq_model r])) VectorBlankText;
  _ ← raise_if (negb (forallb nonblank (eq_texts r)) || match eq_texts r with [] => true | _ => false end)
        VectorBlankText;
  _ ← raise_if (fle (eq_timeout_seconds r) fzero || (eq_retry_budget r <? 0)%Z) VectorNotPositive;
  mret {| eq_texts := eq_texts r; eq_provider := strip (eq_provider r); eq_model := strip (eq_model r);
          eq_timeout_seconds := eq_timeout_seconds r; eq_retry_budget := eq_retry_budget r;
          eq_rate_limit_key := eq_rate_limit_key r; eq_metadata := eq_metadata r |}.

Record EmbeddingVector : Type := { ev_index : Z; ev_vector : list float }.

Record EmbeddingResponse : Type := {
  er_vectors : list EmbeddingVector;
  er_provider : pystr;
  er_model : pystr;
  er_version : option pystr;
  er_dim : Z
}.

(** What the embedding provider raises: an [EmbeddingProviderError] with its code,
    or something else. *)
Record embedding_failure : Type := { ef_code : option pystr; ef_exception : pyexc }.

Definition embedding_port (S : Type) : Type :=
  EmbeddingRequest -> eff embedding_failure S EmbeddingResponse.

(** * Redaction *)

Definition _RETRIEVAL_SENSITIVE_METADATA_KEYS : list pystr := u <$>
  ["chunk_content"; "chunk_text"; "content"; "document_content"; "embedding"; "embedding_vector";
   "provider_raw_response"; "query_vector"; "raw_response"; "text"; "vector"]%string.

(** Unlike the merger, the drive must be a letter. *)
Definition _looks_like_local_absolute_path (value : pystr) : bool :=
  SourceMetadata._looks_like_local_absolute_path (strip value).

Section Dense.
Context `{PyRepr, UnicodeDB}.

Definition _safe_optional_text (value : option pystr) : option pystr :=
  match value with
  | None => None
  | Some s =>
      if _looks_like_local_absolute_path s then Some REDACTED_VALUE
      else Some (match redact_sensitive_data (VStr s) with VStr t => t | _ => REDACTED_VALUE end)
  end.

Fixpoint _safe_metadata_value (key : pystr) (value : pyval) : pyval :=
  let normalized_key := lower (strip key) in
  if bool_decide (normalized_key ∈ _RETRIEVAL_SENSITIVE_METADATA_KEYS) then VStr REDACTED_VALUE else
  match value with
  | VDict d => VDict ((fun kv => (kv.1, _safe_metadata_value kv.1 kv.2)) <$> d)
  | VList l | VTuple l => VList (_safe_metadata_value normalized_key <$> l)
  | VStr s => if _looks_like_local_absolute_path s then VStr REDACTED_VALUE
              else redact_sensitive_data value
  | _ => redact_sensitive_data value
  end.

Definition _safe_mapping (value : pydict) : pydict :=
  (fun kv => (kv.1, _safe_metadata_value kv.1 kv.2)) <$> value.

Definition _candidate_from_vector_result (r : VectorSearchResult)
    : result candidate_error RetrievalCandidate :=
  make_candidate
    {| rc_document_id := vs_document_id r; rc_version_id := vs_version_id r;
       rc_chunk_id := vs_chunk_id r; rc_source := _safe_optional_text (vs_source r);
       rc_source_type := vs_source_type r; rc_source_uri := _safe_optional_text (vs_source_uri r);
       rc_page_start := vs_page_start r; rc_page_end := vs_page_end r;
       rc_title_path := vs_title_path r; rc_score := vs_score r;
       rc_retrieval_method := u "dense"; rc_tenant_id := vs_tenant_id r;
       rc_acl := _safe_mapping (vs_acl r); rc_metadata := _safe_mapping (vs_metadata r);
       rc_content := [] |}.

(** * Errors *)

Definition RETRIEVAL_EMBEDDING_FAILED : pystr := u "RETRIEVAL_EMBEDDING_FAILED".
Definition RETRIEVAL_VECTOR_SEARCH_FAILED : pystr := u "RETRIEVAL_VECTOR_SEARCH_FAILED".

Definition _summary_value (value : option pystr) : option pystr :=
  match strip (default [] value) with [] => None | s => Some s end.

(** [a or b]. *)
Definition or_text (a b : option pystr) : option pystr :=
  match a with Some (c :: s) => a | _ => b end.

Definition entry (k : string) (o : option pyval) : pydict :=
  match o with Some v => [(u k, v)] | None => [] end.

Definition _embedding_summary (config : option DenseRetrieverConfig)
    (embedding : option EmbeddingResponse) : pydict :=
  let provider := _summary_value (er_provider <$> embedding) in
  let model := _summary_value (er_model <$> embedding) in
  let version := _summary_value (e ← embedding; er_version e) in
  let '(provider, model, version) :=
    match config with
    | Some c => (or_text provider (Some (dc_embedding_provider c)),
                 or_text model (Some (dc_embedding_model c)),
                 or_text version (dc_embedding_version c))
    | None => (provider, model, version)
    end in
  entry "embedding_provider" (VStr <$> provider) ++ entry "embedding_model" (VStr <$> model)
  ++ entry "embedding_version" (VStr <$> version)
  ++ entry "embedding_dim" (VInt ∘ er_dim <$> embedding).

Definition _safe_details (request : RetrievalRequest) (filters : RetrievalFilterSet)
    (error_code : pystr) (config : option DenseRetrieverConfig) (embedding : option EmbeddingResponse)
    (provider_error_code : option pystr) : pydict :=
  [(u "request_id", VStr (rq_request_id request)); (u "trace_id", VStr (rq_trace_id request));
   (u "tenant_id", VStr (fs_tenant_id filters)); (u "user_id", VStr (fs_user_id filters));
   (u "top_k", VInt (rq_top_k request))]
  ++ _embedding_summary config embedding
  ++ entry "provider_error_code" (VStr <$> provider_error_code)
  ++ [(u "error_code", VStr error_code)].

Section Retriever.
Context {S : Type} (embed_texts : embedding_port S) (search : vector_search S).
Context (config : DenseRetrieverConfig).

Section Request.
Context (request : RetrievalRequest) (filters : RetrievalFilterSet).

Definition embedding_error (message : string) (embedding : option EmbeddingResponse)
    (provider_error_code : option pystr) (cause : option pyexc) : pyexc :=
  Hybrid.retrieval_error RETRIEVAL_EMBEDDING_FAILED (u message)
    (_safe_details request filters RETRIEVAL_EMBEDDING_FAILED (Some config) embedding
       provider_error_code) cause.

Definition invalid_embedding (embedding : EmbeddingResponse) : pyexc :=
  embedding_error "Dense retrieval query embedding response is invalid." (Some embedding) None None.

Definition embedding_request : EmbeddingRequest :=
  {| eq_texts := [rq_query request]; eq_provider := dc_embedding_provider config;
     eq_model := dc_embedding_model config; eq_timeout_seconds := dc_timeout_seconds config;
     eq_retry_budget := dc_retry_budget config; eq_rate_limit_key := Some (fs_tenant_id filters);
     eq_metadata :=
       [(u "request_id", VStr (rq_request_id request)); (u "trace_id", VStr (rq_trace_id request));
        (u "tenant_id", VStr (fs_tenant_id filters)); (u "user_id", VStr (fs_user_id filters));
        (u "retrieval_method", VStr (u "dense"))] |}.

(** The request is built outside of the [try]. *)
Definition _embed_query : eff pyexc S EmbeddingResponse :=
  match make_embedding_request embedding_request with
  | Err _ => mraise (python_error "ValidationError")
  | Ok r => fun s =>
      match embed_texts r s with
      | (Ok e, s') => (Ok e, s')
      | (Err f, s') =>
          (Err (if is_cancelled (ef_exception f) then ef_exception f
                else embedding_error "Dense retrieval query embedding failed." None (ef_code f)
                       (Some (ef_exception f))), s')
      end
  end.

Definition _validated_embedding_version_or_raise (embedding : EmbeddingResponse)
    : result pyexc (option pystr) :=
  if negb (bool_decide (er_provider embedding = dc_embedding_provider config))
     || negb (bool_decide (er_model embedding = dc_embedding_model config))
  then Err (invalid_embedding embedding) else
  match dc_embedding_version config with
  | Some v => if negb (bool_decide (er_version embedding = Some v))
              then Err (invalid_embedding embedding) else Ok (Some v)
  | None => Ok (er_version embedding)
  end.

Definition _is_empty_or_dimension_mismatch (v : EmbeddingVector) (expected_dim : Z) : bool :=
  negb (ev_index v =? 0)%Z || match ev_vector v with [] => true | _ => false end
  || negb (Z.of_nat (length (ev_vector v)) =? expected_dim)%Z
  || existsb (fun x => negb (isfinite x)) (ev_vector v).

Definition _single_query_vector_or_raise (embedding : EmbeddingResponse)
    : result pyexc (list float) :=
  match er_vectors embedding with
  | [v] => if _is_empty_or_dimension_mismatch v (er_dim embedding)
           then Err (invalid_embedding embedding) else Ok (ev_vector v)
  | _ => Err (invalid_embedding embedding)
  end.

Definition search_request (embedding : EmbeddingResponse) (query_vector : list float)
    (embedding_version : option pystr) : result pyexc VectorSearchRequest :=
  match to_vector_metadata_filters filters, to_vector_acl_filter filters with
  | Ok metadata_filters, Ok acl_filter =>
      match make_search_request
        {| vq_tenant_id := fs_tenant_id filters; vq_query_vector := query_vector;
           vq_embedding_dim := er_dim embedding; vq_top_k := rq_top_k request;
           vq_score_threshold := rq_score_threshold request;
           vq_metadata_filters := metadata_filters; vq_acl_filter := acl_filter;
           vq_include_deleted := false; vq_distance_metric := dc_distance_metric config;
           vq_embedding_provider := Some (dc_embedding_provider config);
           vq_embedding_model := Some (dc_embedding_model config);
           vq_embedding_version := embedding_version |} with
      | Ok q => Ok q
      | Err _ => Err (python_error "ValidationError")
      end
  | _, _ => Err (python_error "ValidationError")
  end.

Definition search_error (embedding : EmbeddingResponse) (cause : pyexc) : pyexc :=
  Hybrid.retrieval_error RETRIEVAL_VECTOR_SEARCH_FAILED (u "Dense retrieval vector search failed.")
    (_safe_details request filters RETRIEVAL_VECTOR_SEARCH_FAILED None (Some embedding) None)
    (Some cause).

Definition candidates_of (results : list VectorSearchResult) : result pyexc (list RetrievalCandidate) :=
  match mapM _candidate_from_vector_result results with
  | Ok l => Ok l
  | Err _ => Err (python_error "ValidationError")
  end.

Definition retrieve : eff pyexc S (list RetrievalCandidate) :=
  embedding <- _embed_query;;
  embedding_version <- mlift (_validated_embedding_version_or_raise embedding);;
  query_vector <- mlift (_single_query_vector_or_raise embedding);;
  vector_request <- mlift (search_request embedding query_vector embedding_version);;
  results <- mcatch (search vector_request)
    (fun exc => if is_cancelled exc then mraise exc else mraise (search_error embedding exc));;
  mlift (candidates_of results).
End Request.
End Retriever.
End Dense.

(** * Properties *)

Section Props.
Context `{PyRepr, UnicodeDB} {S : Type}.
Context (embed_texts : embedding_port S) (search : vector_search S) (config : DenseRetrieverConfig).

(** The search request is the caller's: the scope of the filter set, the limits of
    the request and the model of the configuration. *)
Record pinned (request : RetrievalRequest) (filters : RetrievalFilterSet)
    (embedding : EmbeddingResponse) (q : VectorSearchRequest) : Prop := {
  pi_tenant : vq_tenant_id q = strip (fs_tenant_id filters);
  pi_acl : to_vector_acl_filter filters = Ok (vq_acl_filter q);
  pi_metadata : to_vector_metadata_filters filters = Ok (vq_metadata_filters q);
  pi_live : vq_include_deleted q = false;
  pi_limits : vq_top_k q = rq_top_k request /\ vq_score_threshold q = rq_score_threshold request;
  pi_model : vq_embedding_provider q = Some (dc_embedding_provider config) /\
             vq_embedding_model q = Some (dc_embedding_model config) /\
             er_provider embedding = dc_embedding_provider config /\
             er_model embedding = dc_embedding_model config;
  pi_version : vq_embedding_version q = er_version embedding /\
               forall v, dc_embedding_version config = Some v -> er_version embedding = Some v;
  pi_vector : exists v, er_vectors embedding = [v] /\ vq_query_vector q = ev_vector v /\
                Z.of_nat (length (ev_vector v)) = er_dim embedding /\
                vq_embedding_dim q = er_dim embedding /\
                Forall (fun x => isfinite x = true) (ev_vector v)
}.

Lemma vector_checked v dim :
  _is_empty_or_dimension_mismatch v dim = false ->
  Z.of_nat (length (ev_vector v)) = dim /\ Forall (fun x => isfinite x = true) (ev_vector v).
Proof.
  unfold _is_empty_or_dimension_mismatch. intros Hv. apply orb_false_iff in Hv as [Hv Hf].
  apply orb_false_iff in Hv as [_ Hd]. apply negb_false_iff, Z.eqb_eq in Hd. split; [done|].
  apply list.Forall_forall. intros x Hx. destruct (isfinite x) eqn:Hi; [done|].
  assert (existsb (fun x => negb (isfinite x)) (ev_vector v) = true) as Hc; [|congruence].
  apply existsb_exists. exists x. split; [by apply list_elem_of_In|]. by rewrite Hi.
Qed.

Lemma request_pinned request filters embedding version vector q :
  _validated_embedding_version_or_raise config request filters embedding = Ok version ->
  _single_query_vector_or_raise config request filters embedding = Ok vector ->
  search_request config request filters embedding vector version = Ok q ->
  pinned request filters embedding q.
Proof.
  intros Hver Hvec Hq. unfold _validated_embedding_version_or_raise in Hver.
  case_bool_decide as Hp; [|done]. case_bool_decide as Hm; [|done]. cbn [negb orb] in Hver.
  assert (version = er_version embedding /\
          forall v, dc_embedding_version config = Some v -> er_version embedding = Some v) as [-> Hv].
  { destruct (dc_embedding_version config) as [v|]; [|by injection Hver as <-].
    case_bool_decide as Hv; [|done]. injection Hver as <-. split; [done|]. by intros w [= <-]. }
  clear Hver. unfold _single_query_vector_or_raise in Hvec.
  destruct (er_vectors embedding) as [|v [|]] eqn:Hvs; try done.
  destruct (_is_empty_or_dimension_mismatch _ _) eqn:Hd; [done|]. injection Hvec as <-.
  apply vector_checked in Hd as [Hd Hf]. unfold search_request in Hq.
  destruct (to_vector_metadata_filters filters) as [md|] eqn:Hmd; [|done].
  destruct (to_vector_acl_filter filters) as [f|] eqn:Ha; [|done].
  destruct (make_search_request _) as [q'|] eqn:Hmk; [|done]. injection Hq as ->.
  unfold make_search_request in Hmk. res_inv; bool_inv. constructor; cbn; [done..| |].
  - by split.
  - by exists v.
Qed.

(** What dense retrieval raises. *)
Definition dense_error (e : pyexc) : Prop :=
  is_cancelled e = true \/ e = python_error "ValidationError" \/
  error_code_of e = RETRIEVAL_EMBEDDING_FAILED \/ error_code_of e = RETRIEVAL_VECTOR_SEARCH_FAILED.

Lemma dense_run request filters s r s' :
  retrieve embed_texts search config request filters s = (r, s') ->
  match r with
  | Err e => dense_error e
  | Ok l => exists asked embedding q results s1,
      make_embedding_request (embedding_request config request filters) = Ok asked /\
      embed_texts asked s = (Ok embedding, s1) /\ pinned request filters embedding q /\
      search q s1 = (Ok results, s') /\
      Forall2 (fun r c => _candidate_from_vector_result r = Ok c) results l
  end.
Proof.
  assert (forall m e p c, dense_error (embedding_error config request filters m e p c)) as Hemb
    by (intros; right; right; by left).
  unfold retrieve. intros [(e & He & ->)|(embedding & s1 & Hem & Hr)]%mthen_inv.
  { unfold _embed_query in He. destruct (make_embedding_request _) as [a|].
    2: { injection He as <- _. right. by left. }
    destruct (embed_texts a s) as [[x|f] s2]; [done|]. injection He as <- _.
    destruct (is_cancelled (ef_exception f)) eqn:Hc; [by left|apply Hemb]. }
  unfold _embed_query in Hem. destruct (make_embedding_request _) as [a|] eqn:Ha; [|done].
  destruct (embed_texts a s) as [[x|f] s2] eqn:Hx; [|done]. injection Hem as -> ->.
  unfold mthen at 1, mlift at 1 in Hr.
  destruct (_validated_embedding_version_or_raise _ _ _ _) as [version|e] eqn:Hver.
  2: { injection Hr as <- _. unfold _validated_embedding_version_or_raise, invalid_embedding in Hver.
       destruct (_ || _); [by injection Hver as <-|].
       destruct (dc_embedding_version config); [|done]. destruct (negb _); [by injection Hver as <-|done]. }
  unfold mthen at 1, mlift at 1 in Hr.
  destruct (_single_query_vector_or_raise _ _ _ _) as [vector|e] eqn:Hvec.
  2: { injection Hr as <- _. unfold _single_query_vector_or_raise, invalid_embedding in Hvec.
       destruct (er_vectors embedding) as [|v [|]]; try (injection Hvec as <-; apply Hemb).
       destruct (_is_empty_or_dimension_mismatch _ _); [|done]. by injection Hvec as <-. }
  unfold mthen at 1, mlift at 1 in Hr.
  destruct (search_request _ _ _ _ _ _) as [q|e] eqn:Hq.
  2: { injection Hr as <- _. right. left. unfold search_request in Hq. by repeat case_match; simplify_eq. }
  pose proof (request_pinned _ _ _ _ _ _ Hver Hvec Hq) as Hpin.
  unfold mthen, mcatch, mlift in Hr. destruct (search q s1) as [[results|e] s2] eqn:Hs.
  2: { destruct (is_cancelled e) eqn:Hc; injection Hr as <- _; [by left|right; right; by right]. }
  unfold candidates_of in Hr. destruct (mapM _ results) as [l|] eqn:Hm; injection Hr as <- <-.
  2: { right. by left. }
  exists a, embedding, q, results, s1. split_and!; try done. clear -Hm. revert l Hm.
  induction results as [|r results IH]; intros l Hm; cbn in Hm; [by injection Hm as <-|].
  unfold mbind, result_bind in Hm.
  destruct (_candidate_from_vector_result r) as [c|] eqn:Hc; [|done].
  destruct (mapM _ results) as [l'|]; [|done]. injection Hm as <-. constructor; [done|by apply IH].
Qed.
End Props.

(** Dense retrieval asks the vector store for what the caller may see and for
    nothing else.  When it answers, the query's embedding comes from the configured
    provider, model and version and is one finite vector of the dimension it
    claims, and the store was asked once, for live records of the tenant, with the
    ACL filter and the metadata filters of the filter set, the limit and the
    threshold of the request, and that model; the candidates are the rows of its
    answer in order.  When it fails, it is with one of its two error codes, a
    validation error or a cancellation: what the provider or the store raises
    never leaves it as it is. *)
Theorem dense_search_pinned `{PyRepr, UnicodeDB} {S} (embed_texts : embedding_port S)
    (search : vector_search S) config request filters s r s' :
  retrieve embed_texts search config request filters s = (r, s') ->
  match r with
  | Err e => dense_error e
  | Ok l => exists asked embedding q results s1,
      make_embedding_request (embedding_request config request filters) = Ok asked /\
      embed_texts asked s = (Ok embedding, s1) /\ pinned config request filters embedding q /\
      search q s1 = (Ok results, s') /\
      Forall2 (fun r c => _candidate_from_vector_result r = Ok c) results l
  end.
Proof. apply dense_run. Qed.

Lemma dense_candidate_fields `{PyRepr, UnicodeDB} r c :
  _candidate_from_vector_result r = Ok c ->
  rc_tenant_id c = strip (vs_tenant_id r) /\ rc_acl c = _safe_mapping (vs_acl r) /\
  rc_metadata c = _safe_mapping (vs_metadata r).
Proof. unfold _candidate_from_vector_result, make_candidate. intros Hm. by res_inv. Qed.

(** Over a store that keeps its contract the candidates are the tenant's, at most
    [top_k], and readable when their stored ACL has nothing to redact. *)
Theorem dense_answers_store `{PyRepr, UnicodeDB} {S} (embed_texts : embedding_port S)
    (search : vector_search S) `{!SearchContract search} config request filters s l s' :
  retrieve embed_texts search config request filters s = (Ok l, s') ->
  (0 <= rq_top_k request)%Z -> strip (fs_tenant_id filters) = fs_tenant_id filters ->
  (Z.of_nat (length l) <= rq_top_k request)%Z /\
  Forall (fun c => rc_tenant_id c = fs_tenant_id filters /\
    exists acl f, rc_acl c = _safe_mapping acl /\ to_vector_acl_filter filters = Ok f /\
      acl_allows acl f = true /\ (_safe_mapping acl = acl -> readable filters c)) l.
Proof.
  intros Hr Hk Ht. apply dense_run in Hr as (asked & embedding & q & results & s1 & _ & _ & Hp & Hs & Hc).
  destruct Hp as [Htq Haq _ _ [Hkq _] _ _ _].
  destruct (search_promise q s1 results s' ltac:(lia) Hs) as [Hlen Hall]. rewrite Hkq in Hlen.
  split; [by rewrite <- (Forall2_length _ _ _ Hc)|]. rewrite Ht in Htq.
  revert Hall. clear -Hc Haq Htq Ht. induction Hc as [|r c results l Hrc Hc IH]; [constructor|].
  intros [[Hrt Hra] Hall]%list.Forall_cons. constructor; [|by apply IH].
  apply dense_candidate_fields in Hrc as (Hct & Hca & _). rewrite Hrt, Htq, Ht in Hct.
  split; [done|]. exists (vs_acl r), (vq_acl_filter q). split_and!; [done|done|done|].
  intros Hfix. split; [done|]. exists (vq_acl_filter q). by rewrite Hca, Hfix.
Qed.

(** * Examples *)

Module DenseExamples.
Import Examples RedactExamples RrfExamples StoreExamples.

Definition config1 : DenseRetrieverConfig :=
  {| dc_embedding_provider := u "fake"; dc_embedding_model := u "m"; dc_embedding_version := None;
     dc_timeout_seconds := fone; dc_retry_budget := 0; dc_distance_metric := Cosine |}.

Definition embedder (model : string) : embedding_port FakeVectorStore := fun _ s =>
  (Ok {| er_vectors := [{| ev_index := 0; ev_vector := [fone] |}]; er_provider := u "fake";
         er_model := u model; er_version := None; er_dim := 1 |}, s).

Definition dense_answer := retrieve (embedder "m") (fake_search product) config1 request1 filters1 store1.
Definition dense_found : list RetrievalCandidate :=
  match dense_answer.1 with Ok l => l | Err _ => [] end.

Example dense_chunks : rc_chunk_id <$> dense_found = [u "c2"; u "c4"].
Proof. vm_compute. reflexivity. Qed.

Example other_model_refused :
  match (retrieve (embedder "other") (fake_search product) config1 request1 filters1 store1).1 with
  | Err e => error_code_of e | Ok _ => [] end = RETRIEVAL_EMBEDDING_FAILED.
Proof. vm_compute. reflexivity. Qed.

Lemma dense_search_pinned_witness :
  retrieve (embedder "m") (fake_search product) config1 request1 filters1 store1
  = (Ok dense_found, store1) /\
  exists embedding q, pinned config1 request1 filters1 embedding q.
Proof.
  assert (retrieve (embedder "m") (fake_search product) config1 request1 filters1 store1
          = (Ok dense_found, store1)) as Hr by (vm_compute; reflexivity).
  split; [exact Hr|].
  destruct (dense_search_pinned _ _ _ _ _ _ _ _ Hr) as (asked & embedding & q & results & s1 & _ & _ & Hp & _).
  exists embedding, q. exact Hp.
Defined.

Lemma dense_answers_store_witness :
  retrieve (embedder "m") (fake_search product) config1 request1 filters1 store1
  = (Ok dense_found, store1) /\ (Z.of_nat (length dense_found) <= 2)%Z.
Proof.
  assert (retrieve (embedder "m") (fake_search product) config1 request1 filters1 store1
          = (Ok dense_found, store1)) as Hr by (vm_compute; reflexivity).
  split; [exact Hr|].
  exact (proj1 (dense_answers_store (embedder "m") (fake_search product) config1 request1 filters1 store1
    dense_found store1 Hr ltac:(vm_compute; discriminate) ltac:(vm_compute; reflexivity))).
Defined.
End DenseExamples.
