(* ===== verification/ContextPacker.v ===== *)
(** Context packing.

    Models [packages/rag/context_packer.py] ([ContextPacker.pack] and all its
    helpers) and the data types and validators of [packages/rag/dto.py] it uses:
    candidates are authorised, deduplicated, taken within the token budget,
    extended with related chunks, and grouped into the items of the prompt. *)

From Stdlib Require Import ZArith String Sorting.Sorted Permutation.
From S2P Require Import Prelude Float64 PyVal Access Redact.
From stdpp Require Import base list numbers sorting sets.

(** * Data types *)

Inductive OversizedPolicy : Type := Drop | FailClosed.

Record ContextPackingConfig : Type := {
  max_tokens : Z;
  merge_adjacent : bool;
  include_parent_context : bool;
  include_child_context : bool;
  include_neighbor_context : bool;
  max_related_chunks_per_candidate : Z;
  oversized_policy : OversizedPolicy
}.

Definition default_packing_config : ContextPackingConfig :=
  {| max_tokens := 3000; merge_adjacent := false; include_parent_context := false;
     include_child_context := false; include_neighbor_context := false;
     max_related_chunks_per_candidate := 2; oversized_policy := Drop |}.

(** The validator [_positive_int]. *)
Definition valid_packing_config (c : ContextPackingConfig) : bool :=
  negb (max_tokens c <=? 0)%Z && negb (max_related_chunks_per_candidate c <=? 0)%Z.

Record ContextCandidate : Type := {
  cc_content : pystr;
  cc_token_count : Z;
  cc_document_id : pystr;
  cc_version_id : pystr;
  cc_chunk_id : pystr;
  cc_tenant_id : pystr;
  cc_acl : pydict;
  cc_source : option pystr;
  cc_source_uri : option pystr;
  cc_source_type : pystr;
  cc_page_start : option Z;
  cc_page_end : option Z;
  cc_title_path : list pystr;
  cc_score : float;
  cc_retrieval_method : pystr;
  cc_metadata : pydict
}.

Inductive dto_error : Type :=
| BlankText | BlankTitlePath | TokenCountNotPositive | ScoreNotNormalized | BadPageRange.

(** The module-level validators of [packages/rag/dto.py]. *)
Definition _required_text (s : pystr) : result dto_error pystr :=
  match strip s with [] => Err BlankText | n => Ok n end.
Definition _positive_int (z : Z) : result dto_error Z :=
  if (z <=? 0)%Z then Err TokenCountNotPositive else Ok z.
Definition _title_path (l : list pystr) : result dto_error (list pystr) :=
  match strip_nonblank l with [] => Err BlankTitlePath | n => Ok n end.
Definition _normalized_score (x : float) : result dto_error float :=
  if negb (isfinite x) || flt x fzero || flt fone x then Err ScoreNotNormalized else Ok x.
Definition _validate_page_range (ps pe : option Z) : result dto_error unit :=
  match ps, pe with
  | None, None => Ok tt
  | Some a, Some b =>
      if (a <? 1)%Z || (b <? 1)%Z then Err BadPageRange
      else if (b <? a)%Z then Err BadPageRange else Ok tt
  | _, _ => Err BadPageRange
  end.

(** [ContextCandidate(...)]. *)
Definition make_context_candidate (c : ContextCandidate) : result dto_error ContextCandidate :=
  content ← _required_text (cc_content c);
  tokens ← _positive_int (cc_token_count c);
  doc ← _required_text (cc_document_id c);
  ver ← _required_text (cc_version_id c);
  chunk ← _required_text (cc_chunk_id c);
  tenant ← _required_text (cc_tenant_id c);
  st ← _required_text (cc_source_type c);
  title ← _title_path (cc_title_path c);
  score ← _normalized_score (cc_score c);
  method ← _required_text (cc_retrieval_method c);
  _ ← _validate_page_range (cc_page_start c) (cc_page_end c);
  mret {| cc_content := content; cc_token_count := tokens; cc_document_id := doc;
          cc_version_id := ver; cc_chunk_id := chunk; cc_tenant_id := tenant; cc_acl := cc_acl c;
          cc_source := optional_text (cc_source c);
          cc_source_uri := optional_text (cc_source_uri c); cc_source_type := st;
          cc_page_start := cc_page_start c; cc_page_end := cc_page_end c;
          cc_title_path := title; cc_score := score; cc_retrieval_method := method;
          cc_metadata := cc_metadata c |}.

Record PackedCitationSource : Type := {
  ps_document_id : pystr;
  ps_version_id : pystr;
  ps_chunk_id : pystr;
  ps_source : option pystr;
  ps_source_uri : option pystr;
  ps_source_type : pystr;
  ps_page_start : option Z;
  ps_page_end : option Z;
  ps_title_path : list pystr;
  ps_score : float;
  ps_retrieval_method : pystr;
  ps_token_count : Z;
  ps_inclusion_reason : pystr;
  ps_metadata : pydict
}.

Record PackedContextItem : Type := {
  pi_content : pystr;
  pi_token_count : Z;
  pi_document_id : pystr;
  pi_version_id : pystr;
  pi_chunk_ids : list pystr;
  pi_source : option pystr;
  pi_source_uri : option pystr;
  pi_source_type : pystr;
  pi_page_start : option Z;
  pi_page_end : option Z;
  pi_title_path : list pystr;
  pi_score : float;
  pi_retrieval_method : pystr;
  pi_citation_sources : list PackedCitationSource
}.

Record ContextDroppedCandidate : Type := {
  cd_reason : pystr;
  cd_document_id : option pystr;
  cd_version_id : option pystr;
  cd_chunk_id : option pystr;
  cd_tenant_id : option pystr;
  cd_token_count : option Z;
  cd_score : option float;
  cd_retrieval_method : option pystr;
  cd_related_reason : option pystr
}.

Record ContextPackingTrace : Type := {
  pt_request_id : pystr;
  pt_trace_id : pystr;
  pt_tenant_id : pystr;
  pt_user_id : pystr;
  pt_input_count : Z;
  pt_authorized_count : Z;
  pt_packed_count : Z;
  pt_dropped_count : Z;
  pt_total_tokens : Z;
  pt_budget : Z;
  pt_drop_reasons : list (pystr * Z);
  pt_merged_groups : list pydict;
  pt_related_context_items : list pydict;
  pt_related_context_counts : list (pystr * Z);
  pt_safe_counts : list (pystr * Z)
}.

Record PackedContext : Type := {
  pc_items : list PackedContextItem;
  pc_total_tokens : Z;
  pc_budget : Z;
  pc_dropped_candidates : list ContextDroppedCandidate;
  pc_packing_trace : ContextPackingTrace
}.

(** The exceptions [pack] may raise: [RagContextPackingError] with its redacted
    details, a validation error of a packed item, and the [ValueError] of [int]
    on digits that are no decimal number. *)
Inductive pack_error : Type :=
| RagContextPackingError (code : pystr) (details : pydict) (status : Z)
| PackValidation (e : dto_error)
| PackValueError.

Definition RAG_CONTEXT_UNAUTHORIZED_CHUNK : pystr := u "RAG_CONTEXT_UNAUTHORIZED_CHUNK".
Definition RAG_CONTEXT_BUDGET_EXCEEDED : pystr := u "RAG_CONTEXT_BUDGET_EXCEEDED".

Definition PRIMARY_CONTEXT_REASON : pystr := u "retrieval_candidate".
Definition PARENT_CONTEXT_REASON : pystr := u "parent_context".
Definition CHILD_CONTEXT_REASON : pystr := u "child_context".
Definition NEIGHBOR_CONTEXT_REASON : pystr := u "neighbor_context".

Record SelectedCandidate : Type := {
  sel_candidate : ContextCandidate;
  sel_reason : pystr;
  sel_order : Z
}.

(** * Small helpers *)

Definition _candidate_identity (c : ContextCandidate) : pystr * pystr * pystr * pystr :=
  (cc_tenant_id c, cc_document_id c, cc_version_id c, cc_chunk_id c).

Definition _candidate_score (c : ContextCandidate) : float :=
  if isfinite (cc_score c) then cc_score c else fzero.

(** The sort key [(-score, document, version, chunk)]. *)
Definition candidate_lt (a b : ContextCandidate) : bool :=
  lex (fun a b => feq (fopp (_candidate_score a)) (fopp (_candidate_score b)))
      (fun a b => flt (fopp (_candidate_score a)) (fopp (_candidate_score b)))
  (lex (fun a b => bool_decide (cc_document_id a = cc_document_id b))
       (fun a b => str_lt (cc_document_id a) (cc_document_id b))
  (lex (fun a b => bool_decide (cc_version_id a = cc_version_id b))
       (fun a b => str_lt (cc_version_id a) (cc_version_id b))
       (fun a b => str_lt (cc_chunk_id a) (cc_chunk_id b)))) a b.

(** [isinstance(candidate, ContextCandidate)] distinguishes the objects. *)
Definition _drop (c : option ContextCandidate) (reason : pystr) (related : option pystr)
    : ContextDroppedCandidate :=
  match c with
  | None =>
      {| cd_reason := reason; cd_document_id := None; cd_version_id := None; cd_chunk_id := None;
         cd_tenant_id := None; cd_token_count := None; cd_score := None;
         cd_retrieval_method := None; cd_related_reason := related |}
  | Some c =>
      {| cd_reason := reason; cd_document_id := Some (cc_document_id c);
         cd_version_id := Some (cc_version_id c); cd_chunk_id := Some (cc_chunk_id c);
         cd_tenant_id := Some (cc_tenant_id c); cd_token_count := Some (cc_token_count c);
         cd_score := Some (cc_score c); cd_retrieval_method := Some (cc_retrieval_method c);
         cd_related_reason := related |}
  end.

Definition _invalid_reason (c : ContextCandidate) : option pystr :=
  if bool_decide (strip (cc_content c) = []) then Some (u "content")
  else if (cc_token_count c <=? 0)%Z then Some (u "token_count")
  else if negb (isfinite (cc_score c)) || flt (cc_score c) fzero || flt fone (cc_score c)
  then Some (u "score")
  else if bool_decide (cc_title_path c = []) then Some (u "title_path")
  else match cc_page_start c, cc_page_end c with
       | Some a, Some b => if (a <? 1)%Z || (b <? a)%Z then Some (u "page_range") else None
       | None, None => None
       | _, _ => Some (u "page_range")
       end.

Definition id_char (c : N) : bool := is_alpha c || is_digit c || bool_decide (c ∈ u "._:-").

(** [RELATED_ID_PATTERN.fullmatch]. *)
Definition _is_safe_identifier (s : pystr) : bool :=
  match s with
  | [] => false
  | c :: rest => (is_alpha c || is_digit c) && forallb id_char rest && (length rest <=? 127)
  end.
Definition _safe_diagnostic_id (s : pystr) : pystr :=
  if _is_safe_identifier s then s else u "[REDACTED]".

Definition _metadata_text (metadata : pydict) (key : pystr) : option pystr :=
  match dict_get key metadata with
  | Some (VStr s) => match strip s with [] => None | n => Some n end
  | _ => None
  end.

Definition _same_lineage (a b : ContextCandidate) : bool :=
  bool_decide (cc_tenant_id a = cc_tenant_id b) && bool_decide (cc_document_id a = cc_document_id b)
  && bool_decide (cc_version_id a = cc_version_id b)
  && bool_decide (cc_title_path a = cc_title_path b).

Definition _min_page (l : list ContextCandidate) : option Z :=
  match omap cc_page_start l with [] => None | p :: ps => Some (foldl Z.min p ps) end.
Definition _max_page (l : list ContextCandidate) : option Z :=
  match omap cc_page_end l with [] => None | p :: ps => Some (foldl Z.max p ps) end.

(** [tuple(dict.fromkeys(...))]: a single method, or [merged]. *)
Definition _merged_retrieval_method (l : list ContextCandidate) : pystr :=
  match l with
  | [] => u "merged"
  | c :: cs => if forallb (fun d => bool_decide (cc_retrieval_method d = cc_retrieval_method c)) cs
               then cc_retrieval_method c else u "merged"
  end.

(** [max(candidate.score ...)]: the first of the largest. *)
Definition max_score (l : list ContextCandidate) : float :=
  match l with [] => fzero | c :: cs => foldl (fun m d => fmax m (cc_score d)) (cc_score c) cs end.

(** [Counter(...)[k] += 1]. *)
Definition count_incr (k : pystr) (d : list (pystr * Z)) : list (pystr * Z) :=
  dict_set k (default 0 (dict_get k d) + 1)%Z d.

(** ** Decimal digits outside ASCII, from the Unicode database *)
Class UnicodeDigits := {
  unicode_isdigit : N -> bool;
  unicode_decimal : N -> option Z
}.

Section Digits.
Context `{UnicodeDigits}.

Definition char_isdigit (c : N) : bool := is_digit c || ((128 <=? c)%N && unicode_isdigit c).
Definition char_decimal (c : N) : option Z :=
  if is_digit c then Some (Z.of_N c - 48)%Z
  else if (128 <=? c)%N then unicode_decimal c else None.

Definition str_isdigit (s : pystr) : bool :=
  match s with [] => false | _ => forallb char_isdigit s end.

(** [int(s)] on a string of digits: decimal digits only, at most 4300 of them. *)
Definition int_of_digits (s : pystr) : result pack_error Z :=
  if (4300 <? length s) then Err PackValueError else
  foldl (fun acc c => a ← acc;
           match char_decimal c with Some d => Ok (a * 10 + d)%Z | None => Err PackValueError end)
        (Ok 0%Z) s.

Fixpoint sequence_from (metadata : pydict) (keys : list pystr) : result pack_error (option Z) :=
  match keys with
  | [] => Ok None
  | key :: rest =>
      match dict_get key metadata with
      | Some (VInt z) => Ok (Some z)
      | Some (VStr s) =>
          if str_isdigit (strip s) then z ← int_of_digits (strip s); mret (Some z)
          else sequence_from metadata rest
      | _ => sequence_from metadata rest
      end
  end.

Definition _sequence (c : ContextCandidate) : result pack_error (option Z) :=
  sequence_from (cc_metadata c) [u "chunk_index"; u "sequence"].
End Digits.

(** * Packing *)

Section Pack.
Context `{PyRepr, UnicodeDB, UnicodeDigits}.

Definition _metadata_texts (metadata : pydict) (key : pystr) : list pystr :=
  _text_set (dict_get key metadata).

(** ** Errors *)

Definition _safe_error_details (c : ContextCandidate) (auth : AuthContext)
    (request_id trace_id reason : pystr) (input_count : Z) (error_code : pystr) : pydict :=
  [(u "request_id", VStr request_id); (u "trace_id", VStr trace_id);
   (u "tenant_id", VStr (auth_tenant_id auth)); (u "user_id", VStr (auth_user_id auth));
   (u "document_id", VStr (cc_document_id c)); (u "version_id", VStr (cc_version_id c));
   (u "chunk_id", VStr (cc_chunk_id c)); (u "candidate_tenant_id", VStr (cc_tenant_id c));
   (u "reason", VStr reason); (u "drop_reason", VStr (u "unauthorized"));
   (u "error_code", VStr error_code);
   (u "safe_counts", VDict [(u "input_candidates", VInt input_count);
                            (u "candidate_token_count", VInt (cc_token_count c))])].

(** The caller and the request a [pack] call works for. *)
Record PackEnv : Type := {
  env_auth : AuthContext;
  env_acl : AclFilter;
  env_config : ContextPackingConfig;
  env_related : list (pystr * ContextCandidate);
  env_request_id : pystr;
  env_trace_id : pystr;
  env_input_count : Z
}.

Definition packing_error (env : PackEnv) (c : ContextCandidate) (reason code : pystr) (status : Z)
    : pack_error :=
  RagContextPackingError code
    (redact_mapping (_safe_error_details c (env_auth env) (env_request_id env) (env_trace_id env)
       reason (env_input_count env) code)) status.

Definition _unauthorized_error (env : PackEnv) (c : ContextCandidate) (reason : pystr) : pack_error :=
  packing_error env c reason RAG_CONTEXT_UNAUTHORIZED_CHUNK 403.

Definition _authorize_or_raise (env : PackEnv) (c : ContextCandidate) : result pack_error unit :=
  if negb (bool_decide (cc_tenant_id c = auth_tenant_id (env_auth env)))
  then Err (_unauthorized_error env c (u "tenant_mismatch"))
  else if negb (acl_allows (cc_acl c) (env_acl env))
  then Err (_unauthorized_error env c (u "acl_denied"))
  else Ok tt.

Definition _handle_oversized_candidate (env : PackEnv) (c : ContextCandidate)
    : result pack_error unit :=
  match oversized_policy (env_config env) with
  | Drop => Ok tt
  | FailClosed => Err (packing_error env c (u "oversized") RAG_CONTEXT_BUDGET_EXCEEDED 400)
  end.

(** ** Related chunks *)

Definition opt_request (o : option pystr) (reason : pystr) : list (pystr * pystr) :=
  match o with Some i => [(i, reason)] | None => [] end.

Definition _related_chunk_requests (c : ContextCandidate) (config : ContextPackingConfig)
    : list (pystr * pystr) :=
  (if include_parent_context config
   then opt_request (_metadata_text (cc_metadata c) (u "parent_chunk_id")) PARENT_CONTEXT_REASON
   else [])
  ++ (if include_child_context config
      then (fun i => (i, CHILD_CONTEXT_REASON))
             <$> _metadata_texts (cc_metadata c) (u "child_chunk_ids")
      else [])
  ++ (if include_neighbor_context config
      then opt_request (_metadata_text (cc_metadata c) (u "neighbor_prev_chunk_id"))
             NEIGHBOR_CONTEXT_REASON
           ++ opt_request (_metadata_text (cc_metadata c) (u "neighbor_next_chunk_id"))
                NEIGHBOR_CONTEXT_REASON
      else []).

Definition reciprocal_differs (o : option pystr) (chunk : pystr) : bool :=
  match o with Some r => negb (bool_decide (r = chunk)) | None => false end.

Definition _invalid_related_reason (primary related : ContextCandidate) (requested_id reason : pystr)
    : option pystr :=
  let bad (b : bool) := if b then Some (u "invalid_related_metadata") else None in
  if negb (bool_decide (cc_chunk_id related = requested_id))
  then Some (u "invalid_related_identity")
  else if negb (_same_lineage primary related) then Some (u "invalid_related_lineage")
  else if bool_decide (reason = PARENT_CONTEXT_REASON) then
    let child_ids := _metadata_texts (cc_metadata related) (u "child_chunk_ids") in
    bad (match child_ids with
         | [] => false | _ => negb (bool_decide (cc_chunk_id primary ∈ child_ids)) end)
  else if bool_decide (reason = CHILD_CONTEXT_REASON) then
    bad (reciprocal_differs (_metadata_text (cc_metadata related) (u "parent_chunk_id"))
           (cc_chunk_id primary))
  else if bool_decide (reason = NEIGHBOR_CONTEXT_REASON) then
    if bool_decide (Some requested_id
                    = _metadata_text (cc_metadata primary) (u "neighbor_prev_chunk_id"))
    then bad (reciprocal_differs
                (_metadata_text (cc_metadata related) (u "neighbor_next_chunk_id"))
                (cc_chunk_id primary))
    else if bool_decide (Some requested_id
                         = _metadata_text (cc_metadata primary) (u "neighbor_next_chunk_id"))
    then bad (reciprocal_differs
                (_metadata_text (cc_metadata related) (u "neighbor_prev_chunk_id"))
                (cc_chunk_id primary))
    else Some (u "invalid_related_metadata")
  else None.

(** ** The selection loop *)

Record PackState : Type := {
  st_dropped : list ContextDroppedCandidate;
  st_selected : list SelectedCandidate;
  st_identities : list (pystr * pystr * pystr * pystr);
  st_related_counts : list (pystr * Z);
  st_related_items : list pydict;
  st_total_tokens : Z;
  st_authorized : Z
}.

Definition add_drop (d : ContextDroppedCandidate) (st : PackState) : PackState :=
  {| st_dropped := st_dropped st ++ [d]; st_selected := st_selected st;
     st_identities := st_identities st; st_related_counts := st_related_counts st;
     st_related_items := st_related_items st; st_total_tokens := st_total_tokens st;
     st_authorized := st_authorized st |}.

Definition add_authorized (st : PackState) : PackState :=
  {| st_dropped := st_dropped st; st_selected := st_selected st;
     st_identities := st_identities st; st_related_counts := st_related_counts st;
     st_related_items := st_related_items st; st_total_tokens := st_total_tokens st;
     st_authorized := st_authorized st + 1 |}.

Definition add_selected (c : ContextCandidate) (reason : pystr) (st : PackState) : PackState :=
  {| st_dropped := st_dropped st;
     st_selected := st_selected st ++
       [{| sel_candidate := c; sel_reason := reason;
           sel_order := Z.of_nat (length (st_selected st)) |}];
     st_identities := _candidate_identity c :: st_identities st;
     st_related_counts := st_related_counts st; st_related_items := st_related_items st;
     st_total_tokens := st_total_tokens st + cc_token_count c;
     st_authorized := st_authorized st |}.

Definition add_related_trace (primary c : ContextCandidate) (reason : pystr) (st : PackState)
    : PackState :=
  {| st_dropped := st_dropped st; st_selected := st_selected st;
     st_identities := st_identities st;
     st_related_counts := count_incr reason (st_related_counts st);
     st_related_items := st_related_items st ++
       [[(u "document_id", VStr (cc_document_id c)); (u "version_id", VStr (cc_version_id c));
         (u "chunk_id", VStr (cc_chunk_id c)); (u "reason", VStr reason);
         (u "source_chunk_id", VStr (cc_chunk_id primary));
         (u "token_count", VInt (cc_token_count c)); (u "score", VFloat (cc_score c))]];
     st_total_tokens := st_total_tokens st; st_authorized := st_authorized st |}.

(** The checks shared by the two loops, after authorisation: duplicate,
    oversized, over budget, or [inl] when the chunk is to be selected. *)
Definition admit_or_drop (env : PackEnv) (c : ContextCandidate) (related : option pystr)
    (st : PackState) : result pack_error (PackState + PackState) :=
  if bool_decide (_candidate_identity c ∈ st_identities st)
  then Ok (inr (add_drop (_drop (Some c) (u "duplicate") related) st))
  else if (max_tokens (env_config env) <? cc_token_count c)%Z
  then _ ← _handle_oversized_candidate env c;
       mret (inr (add_drop (_drop (Some c) (u "oversized") related) st))
  else if (max_tokens (env_config env) <? st_total_tokens st + cc_token_count c)%Z
  then Ok (inr (add_drop (_drop (Some c) (u "budget_exceeded") related) st))
  else Ok (inl st).

Definition dropped_related (c : ContextCandidate) (related_id why reason : pystr)
    : ContextDroppedCandidate :=
  {| cd_reason := why; cd_document_id := Some (cc_document_id c);
     cd_version_id := Some (cc_version_id c); cd_chunk_id := Some (_safe_diagnostic_id related_id);
     cd_tenant_id := Some (cc_tenant_id c); cd_token_count := None; cd_score := None;
     cd_retrieval_method := None; cd_related_reason := Some reason |}.

(** One iteration of the loop over related chunks. *)
Definition pack_related_one (env : PackEnv) (primary : ContextCandidate) (related_id reason : pystr)
    (st : PackState) : result pack_error PackState :=
  if negb (_is_safe_identifier related_id)
  then Ok (add_drop (dropped_related primary related_id (u "invalid_related_id") reason) st)
  else match dict_get related_id (env_related env) with
  | None => Ok (add_drop (dropped_related primary related_id (u "missing_related") reason) st)
  | Some c =>
      match _invalid_reason c with
      | Some _ => Ok (add_drop (_drop (Some c) (u "invalid_candidate") (Some reason)) st)
      | None =>
          _ ← _authorize_or_raise env c;
          let st := add_authorized st in
          match _invalid_related_reason primary c related_id reason with
          | Some why => Ok (add_drop (_drop (Some c) why (Some reason)) st)
          | None =>
              r ← admit_or_drop env c (Some reason) st;
              match r with
              | inr st' => mret st'
              | inl st' => mret (add_related_trace primary c reason (add_selected c reason st'))
              end
          end
      end
  end.

Fixpoint pack_related (env : PackEnv) (primary : ContextCandidate) (attempts : Z)
    (requests : list (pystr * pystr)) (st : PackState) : result pack_error PackState :=
  match requests with
  | [] => Ok st
  | (related_id, reason) :: rest =>
      if (max_related_chunks_per_candidate (env_config env) <=? attempts)%Z then Ok st
      else st' ← pack_related_one env primary related_id reason st;
           pack_related env primary (attempts + 1) rest st'
  end.

(** One iteration of the loop over the sorted candidates. *)
Definition pack_one (env : PackEnv) (c : ContextCandidate) (st : PackState)
    : result pack_error PackState :=
  match _invalid_reason c with
  | Some _ => Ok (add_drop (_drop (Some c) (u "invalid_candidate") None) st)
  | None =>
      _ ← _authorize_or_raise env c;
      r ← admit_or_drop env c None (add_authorized st);
      match r with
      | inr st' => mret st'
      | inl st' =>
          pack_related env c 0 (_related_chunk_requests c (env_config env))
            (add_selected c PRIMARY_CONTEXT_REASON st')
      end
  end.

Fixpoint pack_all (env : PackEnv) (cs : list ContextCandidate) (st : PackState)
    : result pack_error PackState :=
  match cs with
  | [] => Ok st
  | c :: rest => st' ← pack_one env c st; pack_all env rest st'
  end.

(** ** Building the items *)

Definition _looks_like_local_path (value : pystr) : bool :=
  let normalized := strip value in
  (match normalized with
   | _ :: b :: c :: _ => (b =? 58)%N && ((c =? 92)%N || (c =? 47)%N)
   | _ => false
   end)
  || startswith (u "/home/") normalized || startswith (u "/Users/") normalized
  || startswith (u "\\") normalized.

Fixpoint _redact_local_paths (value : pyval) : pyval :=
  match value with
  | VDict d => VDict ((fun kv => (kv.1, _redact_local_paths kv.2)) <$> d)
  | VList l | VTuple l => VList (_redact_local_paths <$> l)
  | VStr s => if _looks_like_local_path s then VStr (u "[REDACTED]") else value
  | _ => value
  end.

Definition _safe_metadata (metadata : pydict) : pydict :=
  match _redact_local_paths (VDict (redact_mapping metadata)) with VDict d => d | _ => [] end.

Definition lift_dto {A} (r : result dto_error A) : result pack_error A :=
  match r with Ok a => Ok a | Err e => Err (PackValidation e) end.

Definition _citation_source (s : SelectedCandidate) : result pack_error PackedCitationSource :=
  let c := sel_candidate s in
  lift_dto (
    doc ← _required_text (cc_document_id c);
    ver ← _required_text (cc_version_id c);
    chunk ← _required_text (cc_chunk_id c);
    st ← _required_text (cc_source_type c);
    title ← _title_path (cc_title_path c);
    score ← _normalized_score (cc_score c);
    method ← _required_text (cc_retrieval_method c);
    tokens ← _positive_int (cc_token_count c);
    reason ← _required_text (sel_reason s);
    _ ← _validate_page_range (cc_page_start c) (cc_page_end c);
    mret {| ps_document_id := doc; ps_version_id := ver; ps_chunk_id := chunk;
            ps_source := optional_text (cc_source c);
            ps_source_uri := optional_text (cc_source_uri c); ps_source_type := st;
            ps_page_start := cc_page_start c; ps_page_end := cc_page_end c;
            ps_title_path := title; ps_score := score; ps_retrieval_method := method;
            ps_token_count := tokens; ps_inclusion_reason := reason;
            ps_metadata := _safe_metadata (cc_metadata c) |}).

Fixpoint map_result {E A B} (f : A -> result E B) (l : list A) : result E (list B) :=
  match l with
  | [] => Ok []
  | x :: l' => y ← f x; ys ← map_result f l'; mret (y :: ys)
  end.

(** [_item_from_group] on a group given by its first element and the rest. *)
Definition _item_from_group (s : SelectedCandidate) (rest : list SelectedCandidate)
    : result pack_error PackedContextItem :=
  let ordered := sel_candidate <$> s :: rest in
  let first := sel_candidate s in
  citations ← map_result _citation_source (s :: rest);
  lift_dto (
    content ← _required_text (PyVal.join (u "
") (cc_content <$> ordered));
    tokens ← _positive_int (zsum cc_token_count ordered);
    doc ← _required_text (cc_document_id first);
    ver ← _required_text (cc_version_id first);
    chunks ← map_result _required_text (cc_chunk_id <$> ordered);
    st ← _required_text (cc_source_type first);
    title ← _title_path (cc_title_path first);
    score ← _normalized_score (max_score ordered);
    method ← _required_text (_merged_retrieval_method ordered);
    _ ← _validate_page_range (_min_page ordered) (_max_page ordered);
    mret {| pi_content := content; pi_token_count := tokens; pi_document_id := doc;
            pi_version_id := ver; pi_chunk_ids := chunks;
            pi_source := optional_text (cc_source first);
            pi_source_uri := optional_text (cc_source_uri first); pi_source_type := st;
            pi_page_start := _min_page ordered; pi_page_end := _max_page ordered;
            pi_title_path := title; pi_score := score; pi_retrieval_method := method;
            pi_citation_sources := citations |}).

Definition merge_key : Type := pystr * pystr * pystr * list pystr * list (pystr * pystr).

Definition _merge_key (c : ContextCandidate) : merge_key :=
  (cc_tenant_id c, cc_document_id c, cc_version_id c, cc_title_path c,
   py_sort (lex (fun x y => bool_decide (x.1 = y.1)) (fun x y => str_lt x.1 y.1)
              (fun x y => str_lt x.2 y.2))
           ((fun kv => (kv.1, py_repr kv.2)) <$> cc_acl c)).

(** A selected chunk with its sequence number, which the sort key and the
    adjacency test read. *)
Definition numbered : Type := SelectedCandidate * option Z.

Definition _adjacency_sort_key (n : numbered) : Z * Z * pystr :=
  let c := sel_candidate n.1 in
  match n.2 with
  | Some s => (0%Z, s, cc_chunk_id c)
  | None => match cc_page_start c with
            | Some p => (1%Z, p, cc_chunk_id c)
            | None => (2%Z, 0%Z, cc_chunk_id c)
            end
  end.

Definition adjacency_lt (a b : numbered) : bool :=
  let ka := _adjacency_sort_key a in
  let kb := _adjacency_sort_key b in
  if negb (ka.1.1 =? kb.1.1)%Z then (ka.1.1 <? kb.1.1)%Z
  else if negb (ka.1.2 =? kb.1.2)%Z then (ka.1.2 <? kb.1.2)%Z
  else str_lt ka.2 kb.2.

Definition _are_adjacent (left right : numbered) : bool :=
  let l := sel_candidate left.1 in
  let r := sel_candidate right.1 in
  if negb (bool_decide (_merge_key l = _merge_key r)) then false else
  match left.2, right.2 with
  | Some a, Some b => (b =? a + 1)%Z
  | _, _ =>
      match cc_page_start l, cc_page_end l, cc_page_start r, cc_page_end r with
      | Some _, Some le, Some rs, Some _ => (rs =? le + 1)%Z
      | _, _, _, _ => false
      end
  end.

(** The inner loop of [_build_items]: the runs of adjacent chunks of an ordered
    group, each as its first chunk and the rest. *)
Fixpoint adjacent_runs (first : numbered) (rest : list numbered) (last : numbered)
    (l : list numbered) : list (numbered * list numbered) :=
  match l with
  | [] => [(first, rest)]
  | x :: l' =>
      if _are_adjacent last x then adjacent_runs first (rest ++ [x]) x l'
      else (first, rest) :: adjacent_runs x [] x l'
  end.

Definition runs_of (ordered : list numbered) : list (numbered * list numbered) :=
  match ordered with [] => [] | x :: l => adjacent_runs x [] x l end.

Definition number (s : SelectedCandidate) : result pack_error numbered :=
  q ← _sequence (sel_candidate s); mret (s, q).

(** [_append_group]: the order of the group, its item and its merge record. *)
Record BuiltGroup : Type := {
  bg_members : list SelectedCandidate;
  bg_order : Z;
  bg_item : PackedContextItem
}.

Definition opt_int (o : option Z) : pyval := match o with Some z => VInt z | None => VNone end.

Definition _append_group (g : numbered * list numbered) : result pack_error BuiltGroup :=
  let first := g.1.1 in
  let rest := fst <$> g.2 in
  item ← _item_from_group first rest;
  mret {| bg_members := first :: rest;
          bg_order := foldl (fun m s => Z.min m (sel_order s)) (sel_order first) rest;
          bg_item := item |}.

Definition merged_group (b : BuiltGroup) : list pydict :=
  match bg_members b with
  | first :: _ :: _ =>
      let c := sel_candidate first in
      [[(u "document_id", VStr (cc_document_id c)); (u "version_id", VStr (cc_version_id c));
        (u "chunk_ids", VTuple (VStr <$> pi_chunk_ids (bg_item b)));
        (u "reason", VStr (u "adjacent_chunks"));
        (u "token_count", VInt (pi_token_count (bg_item b)));
        (u "page_start", opt_int (pi_page_start (bg_item b)));
        (u "page_end", opt_int (pi_page_end (bg_item b)))]]
  | _ => []
  end.

Definition group_by_key (selected : list SelectedCandidate)
    : list (merge_key * list SelectedCandidate) :=
  foldl (fun grouped s =>
           let k := _merge_key (sel_candidate s) in
           dict_set k (default [] (dict_get k grouped) ++ [s]) grouped) [] selected.

Definition build_group (group : list SelectedCandidate) : result pack_error (list BuiltGroup) :=
  annotated ← map_result number group;
  map_result _append_group (runs_of (py_sort adjacency_lt annotated)).

Definition _build_items (selected : list SelectedCandidate) (merge_adjacent : bool)
    : result pack_error (list PackedContextItem * list pydict) :=
  if negb merge_adjacent
  then items ← map_result (fun s => _item_from_group s []) selected; mret (items, [])
  else
    built ← map_result build_group (snd <$> group_by_key selected);
    let groups := concat built in
    mret (bg_item <$> py_sort (fun a b => (bg_order a <? bg_order b)%Z) groups,
          groups ≫= merged_group).

(** ** [ContextPacker.pack] *)

(** The first loop: objects that are not candidates are dropped. *)
Definition split_candidates (candidates : list (option ContextCandidate))
    : list ContextDroppedCandidate * list ContextCandidate :=
  (omap (fun o => match o with
                  | None => Some (_drop None (u "invalid_candidate") None)
                  | Some _ => None end) candidates,
   omap id candidates).

Definition drop_first (d : list ContextDroppedCandidate) : PackState :=
  {| st_dropped := d; st_selected := []; st_identities := []; st_related_counts := [];
     st_related_items := []; st_total_tokens := 0; st_authorized := 0 |}.

Definition pack (candidates : list (option ContextCandidate)) (auth : AuthContext)
    (config : option ContextPackingConfig) (related : option (list (pystr * ContextCandidate)))
    (request_id trace_id : pystr) : result pack_error PackedContext :=
  let packing_config := default default_packing_config config in
  acl_filter ← match acl_filter_from_auth auth with
               | Ok f => Ok f | Err _ => Err (PackValidation BlankText) end;
  let input_count := Z.of_nat (length candidates) in
  let env := {| env_auth := auth; env_acl := acl_filter; env_config := packing_config;
                env_related := default [] related; env_request_id := request_id;
                env_trace_id := trace_id; env_input_count := input_count |} in
  let '(dropped, valid) := split_candidates candidates in
  st ← pack_all env (py_sort candidate_lt valid) (drop_first dropped);
  built ← _build_items (st_selected st) (merge_adjacent packing_config);
  let '(items, merged_groups) := built in
  let n {A} (l : list A) := Z.of_nat (length l) in
  let drop_reasons := foldl (fun acc d => count_incr (cd_reason d) acc) [] (st_dropped st) in
  mret {| pc_items := items; pc_total_tokens := st_total_tokens st;
          pc_budget := max_tokens packing_config; pc_dropped_candidates := st_dropped st;
          pc_packing_trace :=
            {| pt_request_id := request_id; pt_trace_id := trace_id;
               pt_tenant_id := auth_tenant_id auth; pt_user_id := auth_user_id auth;
               pt_input_count := input_count; pt_authorized_count := st_authorized st;
               pt_packed_count := n items; pt_dropped_count := n (st_dropped st);
               pt_total_tokens := st_total_tokens st; pt_budget := max_tokens packing_config;
               pt_drop_reasons := drop_reasons; pt_merged_groups := merged_groups;
               pt_related_context_items := st_related_items st;
               pt_related_context_counts := st_related_counts st;
               pt_safe_counts :=
                 [(u "input_candidates", input_count); (u "selected_chunks", n (st_selected st));
                  (u "packed_items", n items); (u "dropped_candidates", n (st_dropped st))] |} |}.
End Pack.

(** * Invariants of the selection *)

Section PackProps.
Context `{PyRepr, UnicodeDB, UnicodeDigits}.
Context (env : PackEnv) (pool : list ContextCandidate).

Definition authorized (c : ContextCandidate) : Prop :=
  cc_tenant_id c = auth_tenant_id (env_auth env) /\ acl_allows (cc_acl c) (env_acl env) = true.

Definition usable (c : ContextCandidate) : Prop := _invalid_reason c = None.

Definition sel_identity (s : SelectedCandidate) := _candidate_identity (sel_candidate s).

Record pack_inv (st : PackState) : Prop := {
  inv_identities : st_identities st = reverse (sel_identity <$> st_selected st);
  inv_nodup : NoDup (sel_identity <$> st_selected st);
  inv_total : st_total_tokens st = zsum (cc_token_count ∘ sel_candidate) (st_selected st);
  inv_budget : (st_total_tokens st <= max_tokens (env_config env))%Z;
  inv_chunks : Forall (fun s => authorized (sel_candidate s) /\ usable (sel_candidate s) /\
                        sel_candidate s ∈ pool ++ (env_related env).*2) (st_selected st)
}.

Lemma authorize_ok c : _authorize_or_raise env c = Ok tt <-> authorized c.
Proof.
  unfold _authorize_or_raise, authorized. case_bool_decide; simpl.
  - destruct (acl_allows _ _); simpl; split; try done. by intros [_ ?].
  - split; [done|]. by intros [? _].
Qed.

Lemma inv_add_drop d st : pack_inv st -> pack_inv (add_drop d st).
Proof. intros []. by split. Qed.
Lemma inv_add_authorized st : pack_inv st -> pack_inv (add_authorized st).
Proof. intros []. by split. Qed.
Lemma inv_add_trace p c r st : pack_inv st -> pack_inv (add_related_trace p c r st).
Proof. intros []. by split. Qed.

Lemma inv_add_selected c reason st :
  pack_inv st -> authorized c -> usable c -> c ∈ pool ++ (env_related env).*2 ->
  _candidate_identity c ∉ st_identities st ->
  (st_total_tokens st + cc_token_count c <= max_tokens (env_config env))%Z ->
  pack_inv (add_selected c reason st).
Proof.
  intros [I1 I2 I3 I4 I5] Ha Hu Hp Hni Hb. split; simpl.
  - by rewrite fmap_app, reverse_app, I1.
  - rewrite fmap_app. apply list.NoDup_app. split; [done|]. split; [|apply NoDup_singleton].
    intros x Hx Hc. apply list_elem_of_singleton in Hc as ->. apply Hni.
    rewrite I1. by apply elem_of_reverse.
  - rewrite zsum_app. simpl. lia.
  - lia.
  - apply Forall_app. split; [done|]. by apply Forall_singleton.
Qed.

Lemma admit_inv c related st r :
  admit_or_drop env c related st = Ok r -> pack_inv st ->
  match r with
  | inr st' => pack_inv st' /\ st_selected st' = st_selected st /\
               exists d, cd_related_reason d = related /\ st_dropped st' = st_dropped st ++ [d]
  | inl st' => st' = st /\ _candidate_identity c ∉ st_identities st /\
               (st_total_tokens st + cc_token_count c <= max_tokens (env_config env))%Z
  end.
Proof.
  unfold admit_or_drop. case_bool_decide as Hi.
  { intros [= <-] Hst. split; [by apply inv_add_drop|]. split; [done|]. eexists. split; [|reflexivity]. done. }
  destruct (Z.ltb_spec (max_tokens (env_config env)) (cc_token_count c)).
  { unfold mbind, result_bind. destruct (_handle_oversized_candidate env c); [|done].
    intros [= <-] Hst. split; [by apply inv_add_drop|]. split; [done|]. eexists. split; [|reflexivity]. done. }
  destruct (Z.ltb_spec (max_tokens (env_config env)) (st_total_tokens st + cc_token_count c)).
  { intros [= <-] Hst. split; [by apply inv_add_drop|]. split; [done|]. eexists. split; [|reflexivity]. done. }
  intros [= <-] Hst. done.
Qed.

(** What a step adds: drops and selections, those of related chunks apart. *)
Definition plain_drops (st : PackState) : nat :=
  length (filter (fun d => cd_related_reason d = None) (st_dropped st)).
Definition primaries (st : PackState) : nat :=
  length (filter (fun s => sel_reason s = PRIMARY_CONTEXT_REASON) (st_selected st)).
Definition handled (st : PackState) : nat := plain_drops st + primaries st.

Lemma handled_drop d st :
  handled (add_drop d st) = handled st + (if decide (cd_related_reason d = None) then 1 else 0).
Proof.
  unfold handled, plain_drops, primaries. simpl. rewrite filter_app, length_app. simpl.
  rewrite filter_cons, filter_nil. destruct (decide _); simpl; lia.
Qed.

Lemma handled_selected c r st :
  handled (add_selected c r st) = handled st + (if decide (r = PRIMARY_CONTEXT_REASON) then 1 else 0).
Proof.
  unfold handled, plain_drops, primaries. simpl. rewrite filter_app, length_app. simpl.
  rewrite filter_cons, filter_nil. simpl. destruct (decide _); simpl; lia.
Qed.

Lemma handled_same st st' d :
  st_selected st' = st_selected st -> st_dropped st' = st_dropped st ++ [d] ->
  handled st' = handled st + (if decide (cd_related_reason d = None) then 1 else 0).
Proof.
  unfold handled, plain_drops, primaries. intros -> ->. rewrite filter_app, length_app. simpl.
  rewrite filter_cons, filter_nil. destruct (decide _); simpl; lia.
Qed.

Lemma related_one_inv primary related_id reason st st' :
  pack_related_one env primary related_id reason st = Ok st' ->
  reason <> PRIMARY_CONTEXT_REASON -> pack_inv st -> pack_inv st' /\ handled st' = handled st.
Proof.
  unfold pack_related_one. intros Hp Hr Hst.
  destruct (negb (_is_safe_identifier related_id)).
  { injection Hp as <-. split; [by apply inv_add_drop|]. rewrite handled_drop. simpl. lia. }
  destruct (dict_get related_id (env_related env)) as [c|] eqn:Hg.
  2:{ injection Hp as <-. split; [by apply inv_add_drop|]. rewrite handled_drop. simpl. lia. }
  destruct (_invalid_reason c) eqn:Hi.
  { injection Hp as <-. split; [by apply inv_add_drop|]. rewrite handled_drop. simpl. lia. }
  unfold mbind, result_bind in Hp. destruct (_authorize_or_raise env c) as [[]|] eqn:Ha; [|done].
  apply authorize_ok in Ha.
  destruct (_invalid_related_reason primary c related_id reason).
  { injection Hp as <-. split; [by apply inv_add_drop, inv_add_authorized|].
    rewrite handled_drop. simpl. unfold handled. simpl. unfold plain_drops, primaries. simpl. lia. }
  destruct (admit_or_drop _ _ _ _) as [r|] eqn:Had; [|done].
  apply admit_inv in Had; [|by apply inv_add_authorized].
  destruct r as [st1|st1]; unfold mret, result_ret in Hp; injection Hp as <-.
  - destruct Had as (-> & Hni & Hb). split.
    + apply inv_add_trace, inv_add_selected; try done; [by apply inv_add_authorized|].
      apply elem_of_app. right. apply dict_get_elem in Hg. apply list_elem_of_fmap.
      by exists (related_id, c).
    + transitivity (handled (add_selected c reason (add_authorized st))); [done|].
      rewrite handled_selected, decide_False by done. unfold handled. simpl.
      unfold plain_drops, primaries. simpl. lia.
  - destruct Had as (Hinv & Hsel & d & Hd & Hdr). split; [done|].
    rewrite (handled_same _ _ _ Hsel Hdr), decide_False by (by rewrite Hd).
    unfold handled, plain_drops, primaries. simpl. lia.
Qed.

Lemma related_inv primary attempts requests st st' :
  pack_related env primary attempts requests st = Ok st' ->
  Forall (fun q => q.2 <> PRIMARY_CONTEXT_REASON) requests ->
  pack_inv st -> pack_inv st' /\ handled st' = handled st.
Proof.
  revert attempts st. induction requests as [|[i r] requests IH]; intros attempts st; simpl.
  { by intros [= <-]. }
  destruct (_ <=? _)%Z; [by intros [= <-]|]. unfold mbind, result_bind.
  destruct (pack_related_one _ _ _ _ _) as [st1|] eqn:Hone; [|done].
  intros Hp [Hr Hrs]%Forall_cons Hst. apply related_one_inv in Hone as [Hinv He]; [|done|done].
  apply IH in Hp as [? He']; [|done|done]. split; [done|]. congruence.
Qed.

Lemma related_requests_reasons c :
  Forall (fun q => q.2 <> PRIMARY_CONTEXT_REASON) (_related_chunk_requests c (env_config env)).
Proof.
  assert (forall o r, r <> PRIMARY_CONTEXT_REASON ->
    Forall (fun q : pystr * pystr => q.2 <> PRIMARY_CONTEXT_REASON) (opt_request o r)) as Ho.
  { intros [] r Hr; simpl; [by apply Forall_singleton|constructor]. }
  unfold _related_chunk_requests. rewrite !Forall_app. split_and!.
  - case_match; [by apply Ho|constructor].
  - case_match; [|constructor]. apply Forall_fmap, Forall_true. done.
  - case_match; [|constructor]. apply Forall_app. split; by apply Ho.
Qed.

Lemma pack_one_inv c st st' :
  pack_one env c st = Ok st' -> c ∈ pool -> pack_inv st ->
  pack_inv st' /\ handled st' = S (handled st) /\ (usable c -> authorized c).
Proof.
  unfold pack_one, usable. intros Hp Hc Hst. destruct (_invalid_reason c) eqn:Hi.
  { injection Hp as <-. split; [by apply inv_add_drop|]. rewrite handled_drop. simpl.
    split; [lia|done]. }
  unfold mbind, result_bind in Hp. destruct (_authorize_or_raise env c) as [[]|] eqn:Ha; [|done].
  apply authorize_ok in Ha. destruct (admit_or_drop _ _ _ _) as [r|] eqn:Had; [|done].
  apply admit_inv in Had; [|by apply inv_add_authorized].
  destruct r as [st1|st1].
  - destruct Had as (-> & Hni & Hb). apply related_inv in Hp as [? He].
    + split; [done|]. split; [|done]. rewrite He, handled_selected, decide_True by done.
      unfold handled, plain_drops, primaries. simpl. lia.
    + apply related_requests_reasons.
    + apply inv_add_selected; try done; [by apply inv_add_authorized|]. apply elem_of_app. by left.
  - unfold mret, result_ret in Hp. injection Hp as <-. destruct Had as (Hinv & Hsel & d & Hd & Hdr).
    split; [done|]. split; [|done]. rewrite (handled_same _ _ _ Hsel Hdr), decide_True by done.
    unfold handled, plain_drops, primaries. simpl. lia.
Qed.

Lemma pack_all_inv cs st st' :
  pack_all env cs st = Ok st' -> (forall c, c ∈ cs -> c ∈ pool) -> pack_inv st ->
  pack_inv st' /\ handled st' = handled st + length cs /\
  Forall (fun c => usable c -> authorized c) cs.
Proof.
  revert st. induction cs as [|c cs IH]; intros st; simpl.
  { intros [= <-] _ ?. split; [done|]. split; [lia|constructor]. }
  unfold mbind, result_bind. destruct (pack_one env c st) as [st1|] eqn:Hone; [|done].
  intros Hp Hin Hst. apply pack_one_inv in Hone as (A1 & A2 & A3); [|apply Hin; by left|done].
  apply IH in Hp as (B1 & B2 & B3); [|intros; apply Hin; by right|done].
  split; [done|]. split; [lia|]. by constructor.
Qed.
End PackProps.

(** * The items *)

Section ItemProps.
Context `{PyRepr, UnicodeDB, UnicodeDigits}.

Lemma map_result_Forall2 {E A B} (f : A -> result E B) l ys :
  map_result f l = Ok ys <-> Forall2 (fun x y => f x = Ok y) l ys.
Proof.
  revert ys. induction l as [|x l IH]; intros ys; simpl.
  - split; [by intros [= <-]|]. intros Hf. by inversion Hf.
  - unfold mbind, result_bind, mret, result_ret. split.
    + destruct (f x) as [y|] eqn:Hx; [|done].
      destruct (map_result f l) as [ys'|] eqn:Hl; [|done]. intros [= <-].
      constructor; [done|]. by apply IH.
    + inversion 1 as [|? y ? ys' Hx Hl]; subst. rewrite Hx. apply IH in Hl. by rewrite Hl.
Qed.

(** A group of selected chunks and the item made of it. *)
Definition item_of (g : list SelectedCandidate) (item : PackedContextItem) : Prop :=
  exists s rest, g = s :: rest /\ _item_from_group s rest = Ok item.

Definition same_key (g : list SelectedCandidate) : Prop :=
  forall s t, s ∈ g -> t ∈ g -> _merge_key (sel_candidate s) = _merge_key (sel_candidate t).

Lemma citation_tokens s ps : _citation_source s = Ok ps -> ps_token_count ps = cc_token_count (sel_candidate s).
Proof.
  unfold _citation_source, lift_dto. destruct (mbind _ _) as [x|] eqn:Hx; [|done].
  intros [= <-]. res_inv; unfold _positive_int in *; by repeat case_match; simplify_eq/=.
Qed.

Lemma item_of_tokens g item :
  item_of g item ->
  pi_token_count item = zsum (cc_token_count ∘ sel_candidate) g /\
  pi_token_count item = zsum ps_token_count (pi_citation_sources item) /\
  length (pi_chunk_ids item) = length g.
Proof.
  intros (s & rest & -> & Hi). unfold _item_from_group, mbind, result_bind in Hi.
  destruct (map_result _citation_source (s :: rest)) as [cits|] eqn:Hc; [|done].
  apply map_result_Forall2 in Hc.
  assert (zsum ps_token_count cits = zsum (cc_token_count ∘ sel_candidate) (s :: rest)) as Hz.
  { clear -Hc. induction Hc as [|x y l k Hxy _ IH]; simpl in *; [done|].
    rewrite IH. apply citation_tokens in Hxy. lia. }
  assert (zsum cc_token_count (sel_candidate <$> s :: rest)
          = zsum (cc_token_count ∘ sel_candidate) (s :: rest)) as Hz'.
  { generalize (s :: rest). intros l. induction l as [|x l IH]; [done|]. rewrite fmap_cons. cbn [zsum]. by rewrite IH. }
  unfold lift_dto in Hi.
  destruct (_required_text (PyVal.join _ _)); [|done].
  unfold _positive_int in Hi. destruct (_ <=? _)%Z; [done|].
  destruct (_required_text (cc_document_id _)); [|done].
  destruct (_required_text (cc_version_id _)); [|done].
  destruct (map_result _required_text _) as [ids|] eqn:Hids; [|done].
  destruct (_required_text (cc_source_type _)); [|done].
  destruct (_title_path _); [|done]. destruct (_normalized_score _); [|done].
  destruct (_required_text (_merged_retrieval_method _)); [|done].
  destruct (_validate_page_range _ _); [|done]. unfold mret, result_ret in Hi.
  injection Hi as <-. cbn [pi_token_count pi_citation_sources pi_chunk_ids].
  split; [exact Hz'|]. split; [rewrite Hz; exact Hz'|].
  apply map_result_Forall2, Forall2_length in Hids. by rewrite <- Hids, !length_fmap.
Qed.

Definition run_members (gs : list (numbered * list numbered)) : list numbered :=
  concat ((fun g => g.1 :: g.2) <$> gs).

Lemma runs_concat first rest last l :
  run_members (adjacent_runs first rest last l) = first :: rest ++ l.
Proof.
  revert first rest last. induction l as [|x l IH]; intros first rest last; cbn [adjacent_runs].
  { unfold run_members. simpl. by rewrite !app_nil_r. }
  destruct (_are_adjacent last x).
  - rewrite IH. by rewrite <- app_assoc.
  - specialize (IH x [] x). unfold run_members in *. rewrite fmap_cons. cbn [concat].
    by rewrite IH.
Qed.

Definition nkey (n : numbered) : merge_key := _merge_key (sel_candidate n.1).

Lemma adjacent_key a b : _are_adjacent a b = true -> nkey b = nkey a.
Proof. unfold _are_adjacent, nkey. by case_bool_decide. Qed.

Lemma runs_same_key first rest last l :
  Forall (fun x => nkey x = nkey first) rest -> nkey last = nkey first ->
  Forall (fun g : numbered * list numbered => Forall (fun x => nkey x = nkey g.1) g.2)
    (adjacent_runs first rest last l).
Proof.
  revert first rest last. induction l as [|x l IH]; intros first rest last Hr Hl; simpl.
  { by apply Forall_singleton. }
  destruct (_are_adjacent last x) eqn:Ha.
  - apply adjacent_key in Ha. apply IH; [|congruence]. apply Forall_app. split; [done|].
    apply Forall_singleton. congruence.
  - constructor; [done|]. apply IH; [constructor|done].
Qed.

Lemma group_by_key_perm selected : concat (snd <$> group_by_key selected) ≡ₚ selected.
Proof.
  unfold group_by_key.
  assert (forall (k : merge_key) (s : SelectedCandidate) g,
    concat (snd <$> dict_set k (default [] (dict_get k g) ++ [s]) g) ≡ₚ concat (snd <$> g) ++ [s])
    as Hset.
  { intros k s g. induction g as [|[k' l] g IH]; simpl; [done|].
    destruct (decide (k = k')) as [->|Hne]; simpl.
    - rewrite <- !app_assoc. apply Permutation_app_head, Permutation_app_comm.
    - rewrite IH. by rewrite app_assoc. }
  assert (forall g, concat (snd <$> foldl (fun grouped s =>
             let k := _merge_key (sel_candidate s) in
             dict_set k (default [] (dict_get k grouped) ++ [s]) grouped) g selected)
           ≡ₚ concat (snd <$> g) ++ selected) as Hfold; [|by rewrite Hfold].
  induction selected as [|s selected IH]; intros g; simpl; [by rewrite app_nil_r|].
  rewrite IH, Hset. by rewrite <- app_assoc.
Qed.

Lemma append_groups_spec gs built :
  map_result _append_group gs = Ok built ->
  Forall (fun g : numbered * list numbered => Forall (fun x => nkey x = nkey g.1) g.2) gs ->
  concat (bg_members <$> built)
  = fst <$> run_members gs /\
  Forall (fun b => item_of (bg_members b) (bg_item b) /\ same_key (bg_members b)) built.
Proof.
  intros Hm%map_result_Forall2 Hk. induction Hm as [|g b gs built Hb _ IH].
  { split; [done|constructor]. }
  apply Forall_cons in Hk as [Hg Hk]. destruct (IH Hk) as [IH1 IH2].
  unfold _append_group, mbind, result_bind, mret, result_ret in Hb.
  destruct (_item_from_group _ _) as [item|] eqn:Hi; [|done]. injection Hb as <-.
  unfold run_members in *. rewrite !fmap_cons. cbn [concat]. rewrite fmap_app, IH1. split; [done|].
  constructor; [|done]. simpl. split; [by eexists _, _|].
  assert (forall s, s ∈ g.1.1 :: (fst <$> g.2) ->
            _merge_key (sel_candidate s) = _merge_key (sel_candidate g.1.1)) as Hs.
  { intros s [->|(n & -> & Hn)%list_elem_of_fmap]%elem_of_cons; [done|].
    rewrite list.Forall_forall in Hg. by apply Hg. }
  intros s t Hs1 Hs2. by rewrite (Hs s), (Hs t).
Qed.

Lemma build_group_spec group built :
  build_group group = Ok built ->
  concat (bg_members <$> built) ≡ₚ group /\
  Forall (fun b => item_of (bg_members b) (bg_item b) /\ same_key (bg_members b)) built.
Proof.
  unfold build_group, mbind, result_bind.
  destruct (map_result number group) as [ann|] eqn:Hn; [|done]. intros Hb.
  assert (fst <$> ann = group) as Hfst.
  { apply map_result_Forall2 in Hn. clear -Hn. induction Hn as [|s n l k Hsn _ IH]; [done|].
    rewrite fmap_cons, IH. f_equal. unfold number, mbind, result_bind, mret, result_ret in Hsn.
    destruct (_sequence _); [|done]. by injection Hsn as <-. }
  apply append_groups_spec in Hb as [Hc Hall].
  - split; [|done]. rewrite Hc, <- Hfst.
    assert (run_members (runs_of (py_sort adjacency_lt ann)) = py_sort adjacency_lt ann) as ->.
    { unfold runs_of. destruct (py_sort adjacency_lt ann) as [|x l]; [done|]. apply runs_concat. }
    by rewrite <- py_sort_perm.
  - unfold runs_of. destruct (py_sort adjacency_lt ann); [constructor|].
    apply runs_same_key; [constructor|done].
Qed.

(** The items partition the selected chunks into groups of one merge key. *)
Lemma build_items_spec selected merge items merged :
  _build_items selected merge = Ok (items, merged) ->
  exists groups, concat groups ≡ₚ selected /\ Forall2 item_of groups items /\
    Forall same_key groups.
Proof.
  unfold _build_items, mbind, result_bind, mret, result_ret. destruct merge; simpl.
  - destruct (map_result build_group _) as [built|] eqn:Hb; [|done]. intros [= <- <-].
    set (sorted := py_sort _ (concat built)).
    assert (concat (bg_members <$> concat built) ≡ₚ selected /\
            Forall (fun b => item_of (bg_members b) (bg_item b) /\ same_key (bg_members b))
              (concat built)) as [Hp Hall].
    { rewrite <- (group_by_key_perm selected). apply map_result_Forall2 in Hb.
      clear sorted. induction Hb as [|g b gs bs Hg _ [IH1 IH2]]; simpl; [done|].
      apply build_group_spec in Hg as [Hg1 Hg2]. rewrite fmap_app, concat_app, Hg1, IH1.
      split; [done|]. by apply Forall_app. }
    exists (bg_members <$> sorted).
    assert (concat built ≡ₚ sorted) as Hperm by apply py_sort_perm.
    split; [|split].
    + rewrite <- Hp. clear -Hperm. induction Hperm; simpl; [done|by f_equiv| |etrans; eassumption].
      rewrite !app_assoc. f_equiv. apply Permutation_app_comm.
    + rewrite Hperm in Hall. clear -Hall. induction Hall as [|b l [Hb _] _ IH]; simpl; by constructor.
    + rewrite Hperm in Hall. clear -Hall. apply Forall_fmap. eapply Forall_impl; [exact Hall|].
      by intros b [_ ?].
  - destruct (map_result _ selected) as [its|] eqn:Hb; [|done]. intros [= <- <-].
    exists ((fun s => [s]) <$> selected). apply map_result_Forall2 in Hb. split; [|split].
    + assert (concat ((fun s => [s]) <$> selected) = selected) as ->; [|done].
      clear. induction selected; simpl; by f_equal.
    + clear -Hb. induction Hb; simpl; constructor; [|done]. by eexists _, [].
    + apply Forall_fmap, Forall_true. intros s a b ->%list_elem_of_singleton ->%list_elem_of_singleton.
      done.
Qed.
End ItemProps.

(** * Properties of [pack] *)

Section PackTheorems.
Context `{PyRepr, UnicodeDB, UnicodeDigits}.

Definition pack_env (candidates : list (option ContextCandidate)) (auth : AuthContext)
    (config : option ContextPackingConfig) (related : option (list (pystr * ContextCandidate)))
    (request_id trace_id : pystr) (f : AclFilter) : PackEnv :=
  {| env_auth := auth; env_acl := f; env_config := default default_packing_config config;
     env_related := default [] related; env_request_id := request_id;
     env_trace_id := trace_id; env_input_count := Z.of_nat (length candidates) |}.

Lemma split_count l :
  length (filter (fun d => cd_related_reason d = None) (split_candidates l).1)
  + length (split_candidates l).2 = length l.
Proof.
  unfold split_candidates. cbn [fst snd]. induction l as [|[c|] l IH]; [done| |].
  - cbn in *. lia.
  - cbn [omap list_omap length] in *. rewrite filter_cons, decide_True by done. cbn [length].
    cbn in *. lia.
Qed.

Lemma pack_ok_inv candidates auth config related request_id trace_id pc :
  pack candidates auth config related request_id trace_id = Ok pc ->
  (0 <= max_tokens (default default_packing_config config))%Z ->
  exists f st groups,
    let env := pack_env candidates auth config related request_id trace_id f in
    acl_filter_from_auth auth = Ok f /\
    pack_inv env (omap id candidates) st /\
    handled st = length candidates /\
    Forall (fun c => usable c -> authorized env c) (omap id candidates) /\
    concat groups ≡ₚ st_selected st /\ Forall2 item_of groups (pc_items pc) /\
    Forall same_key groups /\
    pc_total_tokens pc = st_total_tokens st /\ pc_budget pc = max_tokens (env_config env) /\
    pc_dropped_candidates pc = st_dropped st.
Proof.
  unfold pack, mbind, result_bind, mret, result_ret. intros Hp Hmax.
  destruct (acl_filter_from_auth auth) as [f|] eqn:Hf; [|done]. simpl in Hp.
  destruct (pack_all _ _ _) as [st|] eqn:Hall; [|done].
  destruct (_build_items _ _) as [[items merged]|] eqn:Hb; [|done]. injection Hp as <-. simpl.
  apply (pack_all_inv _ (omap id candidates)) in Hall as (A1 & A2 & A3).
  - apply build_items_spec in Hb as (groups & G1 & G2 & G3).
    exists f, st, groups. split_and!; try done.
    + rewrite A2, py_sort_length, <- (split_count candidates).
      unfold handled, plain_drops, primaries. simpl. lia.
    + by rewrite <- py_sort_perm in A3.
  - intros c Hc. by apply py_sort_elem_of in Hc.
  - split; simpl; [done|constructor|done|done|constructor].
Qed.

(** C35: the token budget holds: the chunks of the packed context never exceed
    [max_tokens], the reported total is the sum of the items' tokens, and an
    item's tokens are those of the chunks it cites, one citation per chunk. *)
Theorem pack_within_budget candidates auth config related request_id trace_id pc :
  pack candidates auth config related request_id trace_id = Ok pc ->
  (0 <= max_tokens (default default_packing_config config))%Z ->
  (pc_total_tokens pc <= pc_budget pc)%Z /\
  pc_total_tokens pc = zsum pi_token_count (pc_items pc) /\
  Forall (fun i => pi_token_count i = zsum ps_token_count (pi_citation_sources i)) (pc_items pc).
Proof.
  intros Hp Hmax. apply pack_ok_inv in Hp as
    (f & st & groups & _ & [_ _ I3 I4 _] & _ & _ & Hperm & Hitems & _ & -> & -> & _); [|done].
  split; [done|]. split.
  - rewrite I3, <- (zsum_perm _ _ _ Hperm). clear -Hitems.
    induction Hitems as [|g i gs its Hi _ IH]; simpl; [done|].
    rewrite zsum_app, IH. by destruct (item_of_tokens _ _ Hi) as [-> _].
  - clear -Hitems. induction Hitems as [|g i gs its Hi _ IH]; constructor; [|done].
    by destruct (item_of_tokens _ _ Hi) as (_ & ? & _).
Qed.


(** Packing fails closed: one well-formed input candidate that belongs to
    another tenant or that the caller's ACL does not admit makes the whole call
    fail, however the other candidates are. *)
Theorem pack_fails_closed candidates auth config related request_id trace_id c :
  Some c ∈ candidates -> _invalid_reason c = None ->
  (0 <= max_tokens (default default_packing_config config))%Z ->
  (cc_tenant_id c <> auth_tenant_id auth \/ acl_allows_auth (cc_acl c) auth = Ok false) ->
  is_ok (pack candidates auth config related request_id trace_id) = false.
Proof.
  intros Hin Hi Hmax Hbad.
  destruct (pack candidates auth config related request_id trace_id) as [pc|] eqn:Hp; [|done].
  apply pack_ok_inv in Hp as (f & st & groups & Hf & _ & _ & Hauth & _); [|done].
  rewrite list.Forall_forall in Hauth.
  assert (c ∈ omap id candidates) as Hc by (apply list_elem_of_omap; by exists (Some c)).
  destruct (Hauth c Hc Hi) as [Ht Ha]. exfalso. destruct Hbad as [Hbad|Hbad]; [done|].
  unfold acl_allows_auth in Hbad. rewrite Hf in Hbad. simpl in *. injection Hbad as Hbad.
  congruence.
Qed.

(** No candidate is lost: every input is either selected as a primary chunk
    or reported once among the dropped candidates (drops of related chunks carry
    a related reason and are counted apart). *)
Theorem pack_accounts_for_inputs candidates auth config related request_id trace_id pc :
  pack candidates auth config related request_id trace_id = Ok pc ->
  (0 <= max_tokens (default default_packing_config config))%Z ->
  exists groups,
    Forall2 item_of groups (pc_items pc) /\
    length candidates
    = length (filter (fun d => cd_related_reason d = None) (pc_dropped_candidates pc))
      + length (filter (fun s => sel_reason s = PRIMARY_CONTEXT_REASON) (concat groups)).
Proof.
  intros Hp Hmax. apply pack_ok_inv in Hp as
    (f & st & groups & _ & _ & Hh & _ & Hperm & Hitems & _ & _ & _ & ->); [|done].
  exists groups. split; [done|]. rewrite <- Hh. unfold handled, plain_drops, primaries.
  f_equal. apply Permutation_length. by rewrite Hperm.
Qed.
End PackTheorems.

(** * A concrete packing: two adjacent chunks merged, one over budget, one object
    that is no candidate, a related neighbour *)
Module PackExamples.
Import Examples RedactExamples.
#[export] Instance ascii_digits : UnicodeDigits :=
  {| unicode_isdigit := fun _ => false; unicode_decimal := fun _ => None |}.

Definition chunk (tenant id : pystr) (tokens : Z) (md : pydict) : ContextCandidate :=
  {| cc_content := u "text"; cc_token_count := tokens; cc_document_id := u "d1";
     cc_version_id := u "v1"; cc_chunk_id := id; cc_tenant_id := tenant; cc_acl := [];
     cc_source := None; cc_source_uri := None; cc_source_type := u "md"; cc_page_start := None;
     cc_page_end := None; cc_title_path := [u "T"]; cc_score := fone;
     cc_retrieval_method := u "hybrid"; cc_metadata := md |}.

Definition idx (s : string) : pydict := [(u "chunk_index", VStr (u s))].
Definition c1 := chunk (u "t1") (u "c1") 40
  [(u "chunk_index", VStr (u "1")); (u "neighbor_next_chunk_id", VStr (u "c2"))].
Definition c2 := chunk (u "t1") (u "c2") 50 (idx "2").
Definition c3 := chunk (u "t1") (u "c3") 90 (idx "7").
Definition intruder := chunk (u "t2") (u "c4") 1 [].

Definition config1 : ContextPackingConfig :=
  {| max_tokens := 100; merge_adjacent := true; include_parent_context := false;
     include_child_context := false; include_neighbor_context := true;
     max_related_chunks_per_candidate := 2; oversized_policy := Drop |}.

Definition packed1 := pack [Some c3; None; Some c1] alice (Some config1)
  (Some [(u "c2", c2)]) (u "r1") (u "tr1").

Definition unpack (r : result pack_error PackedContext) : PackedContext :=
  match r with
  | Ok pc => pc
  | Err _ => {| pc_items := []; pc_total_tokens := 0; pc_budget := 0; pc_dropped_candidates := [];
                pc_packing_trace :=
                  {| pt_request_id := []; pt_trace_id := []; pt_tenant_id := []; pt_user_id := [];
                     pt_input_count := 0; pt_authorized_count := 0; pt_packed_count := 0;
                     pt_dropped_count := 0; pt_total_tokens := 0; pt_budget := 0;
                     pt_drop_reasons := []; pt_merged_groups := [];
                     pt_related_context_items := []; pt_related_context_counts := [];
                     pt_safe_counts := [] |} |}
  end.

Example packed1_items :
  (pi_chunk_ids <$> pc_items (unpack packed1), cd_reason <$> pc_dropped_candidates (unpack packed1))
  = ([[u "c1"; u "c2"]], [u "invalid_candidate"; u "budget_exceeded"]).
Proof. vm_compute. reflexivity. Qed.
End PackExamples.

Lemma pack_within_budget_witness :
  (pc_total_tokens (PackExamples.unpack PackExamples.packed1) <= 100)%Z.
Proof.
  apply (pack_within_budget (H := Examples.repr0) (H0 := RedactExamples.ascii_only)
    (H1 := PackExamples.ascii_digits) [Some PackExamples.c3; None; Some PackExamples.c1]
    Examples.alice (Some PackExamples.config1) (Some [(u "c2", PackExamples.c2)]) (u "r1")
    (u "tr1") (PackExamples.unpack PackExamples.packed1)); [vm_compute; reflexivity|done].
Defined.


Lemma pack_fails_closed_witness :
  is_ok (pack (H := Examples.repr0) (H0 := RedactExamples.ascii_only)
    (H1 := PackExamples.ascii_digits) [Some PackExamples.c1; Some PackExamples.intruder]
    Examples.alice None None (u "r1") (u "tr1")) = false.
Proof.
  apply (pack_fails_closed (H := Examples.repr0) (H0 := RedactExamples.ascii_only)
    (H1 := PackExamples.ascii_digits) _ _ _ _ _ _ PackExamples.intruder);
    [right; left|reflexivity|done|left; done].
Defined.

Lemma pack_accounts_for_inputs_witness :
  exists groups, 3 = length (filter (fun d => cd_related_reason d = None)
      (pc_dropped_candidates (PackExamples.unpack PackExamples.packed1)))
    + length (filter (fun s => sel_reason s = PRIMARY_CONTEXT_REASON) (concat groups)).
Proof.
  destruct (pack_accounts_for_inputs (H := Examples.repr0) (H0 := RedactExamples.ascii_only)
    (H1 := PackExamples.ascii_digits) [Some PackExamples.c3; None; Some PackExamples.c1]
    Examples.alice (Some PackExamples.config1) (Some [(u "c2", PackExamples.c2)]) (u "r1")
    (u "tr1") (PackExamples.unpack PackExamples.packed1)) as (groups & _ & Hl);
    [vm_compute; reflexivity|done|].
  exists groups. exact Hl.
Defined.
