(* ===== verification/Decimal28.v ===== *)
(** Python's [decimal.Decimal] in its default context, as far as money needs it.

    A value is [coef / 10^scale].  The default context keeps 28 significant
    digits and rounds half to even after every operation; rounding to significant
    digits depends on the value only, so the representation need not track
    trailing zeros.  Prices and token counts are far from the exponent limits. *)

From Stdlib Require Import ZArith Lia.
From stdpp Require Import base numbers.

#[local] Open Scope Z_scope.

Record decimal : Type := Dec { dcoef : Z; dscale : nat }.

Definition pow10 (n : nat) : Z := 10 ^ Z.of_nat n.

(** Number of decimal digits of a non-negative integer below [10^n]. *)
Fixpoint digits_fuel (n : nat) (z : Z) : nat :=
  match n with
  | O => 0
  | S n' => if z <? 1 then 0 else S (digits_fuel n' (z / 10))
  end.
(** A positive integer has at most [log2 + 1] decimal digits. *)
Definition digits (z : Z) : nat := digits_fuel (S (Z.to_nat (Z.log2 (Z.abs z)))) (Z.abs z).

(** Division rounded half to even. *)
Definition div_half_even (a b : Z) : Z :=
  let q := a / b in
  let r := a mod b in
  if 2 * r <? b then q
  else if b <? 2 * r then q + 1
  else if Z.even q then q else q + 1.

Definition PRECISION : nat := 28.

Definition dround (d : decimal) : decimal :=
  let n := digits (dcoef d) in
  if (n <=? PRECISION)%nat then d
  else
    let k := (n - PRECISION)%nat in
    let q := div_half_even (dcoef d) (pow10 k) in
    if (k <=? dscale d)%nat then Dec q (dscale d - k) else Dec (q * pow10 (k - dscale d)) 0.

Definition dmul_int (d : decimal) (n : Z) : decimal := dround (Dec (dcoef d * n) (dscale d)).

Definition dadd (a b : decimal) : decimal :=
  dround (if (dscale a <=? dscale b)%nat
          then Dec (dcoef a * pow10 (dscale b - dscale a) + dcoef b) (dscale b)
          else Dec (dcoef a + dcoef b * pow10 (dscale a - dscale b)) (dscale a)).

(** Division by [10^n]. *)
Definition dshift (d : decimal) (n : nat) : decimal := dround (Dec (dcoef d) (dscale d + n)).

(** [int(d.to_integral_value(rounding=ROUND_CEILING))]. *)
Definition dceil (d : decimal) : Z := - ((- dcoef d) / pow10 (dscale d)).

(** Values that need no rounding. *)
Definition exact28 (d : decimal) : Prop := (digits (dcoef d) <= PRECISION)%nat.

Lemma dround_exact d : exact28 d -> dround d = d.
Proof. unfold dround, exact28. intros Hd. by destruct (Nat.leb_spec (digits (dcoef d)) PRECISION); [|lia]. Qed.

Lemma pow10_pos n : 0 < pow10 n.
Proof. unfold pow10. lia. Qed.

Lemma pow10_add m n : pow10 (m + n) = pow10 m * pow10 n.
Proof. unfold pow10. rewrite Nat2Z.inj_add, Z.pow_add_r by lia. done. Qed.

(** The ceiling is the least integer not below the value. *)
Lemma dceil_spec d z : dceil d <= z <-> dcoef d <= z * pow10 (dscale d).
Proof.
  unfold dceil. pose proof (pow10_pos (dscale d)) as Hp.
  pose proof (Z.div_mod (- dcoef d) (pow10 (dscale d)) ltac:(lia)) as Hd.
  pose proof (Z.mod_pos_bound (- dcoef d) (pow10 (dscale d)) Hp) as Hm. nia.
Qed.

Lemma digits_fuel_spec f z n :
  0 <= z -> z < pow10 f -> ((digits_fuel f z <= n)%nat <-> z < pow10 n).
Proof.
  revert z n. induction f as [|f IH]; intros z n Hz Hf.
  { unfold pow10 in Hf. simpl in Hf. assert (z = 0) as -> by lia. simpl.
    pose proof (pow10_pos n). split; [lia|lia]. }
  cbn [digits_fuel]. destruct (Z.ltb_spec z 1).
  { assert (z = 0) as -> by lia. pose proof (pow10_pos n). split; lia. }
  assert (pow10 (S f) = 10 * pow10 f) as Hp.
  { change (S f) with (1 + f)%nat. by rewrite pow10_add. }
  destruct n as [|n].
  { unfold pow10. simpl. split; lia. }
  assert (pow10 (S n) = 10 * pow10 n) as Hn.
  { change (S n) with (1 + n)%nat. by rewrite pow10_add. }
  assert (0 <= z / 10 /\ z / 10 < pow10 f) as [H1 H2].
  { split; [apply Z.div_pos; lia|apply Z.div_lt_upper_bound; lia]. }
  specialize (IH (z / 10) n H1 H2). rewrite <- Nat.succ_le_mono, IH, Hn.
  split; intros.
  - pose proof (Z.mod_pos_bound z 10 ltac:(lia)). pose proof (Z.div_mod z 10 ltac:(lia)). lia.
  - apply Z.div_lt_upper_bound; lia.
Qed.

Lemma exact28_spec z s : 0 <= z -> (exact28 (Dec z s) <-> z < pow10 PRECISION).
Proof.
  intros Hz. unfold exact28, digits. cbn [dcoef]. rewrite Z.abs_eq by done.
  apply digits_fuel_spec; [done|]. unfold pow10.
  destruct (Z.eq_dec z 0) as [->|Hne]; [lia|].
  pose proof (Z.log2_spec z ltac:(lia)) as [_ Hl]. pose proof (Z.log2_nonneg z).
  eapply Z.lt_le_trans; [exact Hl|].
  rewrite Nat2Z.inj_succ, Z2Nat.id by done. apply Z.pow_le_mono_l. lia.
Qed.
