(* ===== verification/Billing.v ===== *)
(** Cost accounting.

    Models [packages/billing]: the price catalogue and its arithmetic ([dto.py]),
    the two tables and their constraints ([models.py]), the repository's
    transactions ([repository.py]), the accounting service ([service.py]) and the
    wrapping of a provider ([provider.py]).  Times are microseconds since the
    epoch, money is counted in nanos, integers columns are 64 bits wide.  A
    transaction is one step on the tables; it commits or leaves them unchanged. *)

From Stdlib Require Import ZArith String.
From S2P Require Import Prelude Float64 PyVal Access Decimal28.
From stdpp Require Import base list gmap numbers sets relations.

#[local] Open Scope Z_scope.

(** * Prices *)

Record TokenUsage : Type := { input_tokens : Z; output_tokens : Z; total_tokens : Z }.

Record ModelPrice : Type := {
  mp_provider : pystr;
  mp_model : pystr;
  mp_provider_version : option pystr;
  mp_price_version : pystr;
  mp_currency : pystr;
  mp_effective_from : Z;
  mp_input_per_million : decimal;
  mp_output_per_million : decimal
}.

Inductive price_error : Type :=
| PriceBlankText | PriceTooLong | PriceBadCurrency | PriceNegative | PriceAmbiguous.

Definition length_between (lo hi : nat) (s : pystr) : bool :=
  (lo <=? length s)%nat && (length s <=? hi)%nat.
Definition blank (s : pystr) : bool := match strip s with [] => true | _ => false end.
Definition currency_ok (s : pystr) : bool :=
  (length s =? 3)%nat && forallb (fun c => (65 <=? c) && (c <=? 90))%N s.

(** The field constraints and validators of [ModelPrice]. *)
Definition make_model_price (p : ModelPrice) : result price_error ModelPrice :=
  _ ← raise_if (negb (length_between 1 64 (mp_provider p) && length_between 1 128 (mp_model p)
                      && length_between 1 64 (mp_price_version p))) PriceTooLong;
  _ ← raise_if (negb (currency_ok (mp_currency p))) PriceBadCurrency;
  _ ← raise_if ((dcoef (mp_input_per_million p) <? 0) || (dcoef (mp_output_per_million p) <? 0))
        PriceNegative;
  _ ← raise_if (blank (mp_provider p) || blank (mp_model p) || blank (mp_price_version p))
        PriceBlankText;
  mret {| mp_provider := strip (mp_provider p); mp_model := strip (mp_model p);
          mp_provider_version := mp_provider_version p;
          mp_price_version := strip (mp_price_version p); mp_currency := mp_currency p;
          mp_effective_from := mp_effective_from p;
          mp_input_per_million := mp_input_per_million p;
          mp_output_per_million := mp_output_per_million p |}.

(** [int((value * 10^9).to_integral_value(rounding=ROUND_CEILING))]. *)
Definition money_to_nanos (d : decimal) : Z := dceil (dmul_int d 1000000000).

Definition cost_nanos (p : ModelPrice) (usage : TokenUsage) : Z :=
  money_to_nanos
    (dshift (dadd (dmul_int (mp_input_per_million p) (input_tokens usage))
                  (dmul_int (mp_output_per_million p) (output_tokens usage))) 6).

Definition price_prefix (p : ModelPrice) :=
  (mp_provider p, mp_model p, mp_provider_version p, mp_currency p).

(** The model validator [_unambiguous_versions]. *)
Fixpoint _unambiguous_versions (seen prices : list ModelPrice) : result price_error unit :=
  match prices with
  | [] => Ok tt
  | p :: rest =>
      if existsb (fun q => bool_decide (price_prefix q = price_prefix p)
                   && (bool_decide (mp_price_version q = mp_price_version p)
                       || (mp_effective_from q =? mp_effective_from p))) seen
      then Err PriceAmbiguous
      else _unambiguous_versions (seen ++ [p]) rest
  end.

Definition eligible (provider model : pystr) (version : option pystr) (currency : pystr) (at_ : Z)
    (p : ModelPrice) : bool :=
  bool_decide (mp_provider p = provider) && bool_decide (mp_model p = model)
  && bool_decide (mp_currency p = currency) && (mp_effective_from p <=? at_)
  && match mp_provider_version p with
     | None => true
     | Some v => bool_decide (Some v = version)
     end.

(** The key [(provider_version is not None, effective_from)]. *)
Definition price_rank_lt (p q : ModelPrice) : bool :=
  let exact p := match mp_provider_version p with Some _ => 1 | None => 0 end in
  if negb (exact p =? exact q) then exact p <? exact q
  else mp_effective_from p <? mp_effective_from q.

(** [max(l, key=...)] keeps the first of equal keys. *)
Definition max_price (p : ModelPrice) (l : list ModelPrice) : ModelPrice :=
  foldl (fun m q => if price_rank_lt m q then q else m) p l.

Definition resolve (prices : list ModelPrice) (provider model : pystr) (version : option pystr)
    (currency : pystr) (at_ : Z) : option ModelPrice :=
  match List.filter (eligible provider model version currency at_) prices with
  | [] => None
  | p :: l => Some (max_price p l)
  end.

(** * Tables *)

Definition akey : Type := pystr * pystr * pystr.     (* tenant, currency, period *)

Record CostAccount : Type := { spent_nanos : Z; reserved_nanos : Z }.

Inductive charge_status : Type := Reserved | Completed | Failed | Incomplete.
#[export] Instance charge_status_eq : EqDecision charge_status.
Proof. solve_decision. Defined.

Record UsageCharge : Type := {
  ch_id : pystr;
  ch_tenant : pystr;
  ch_user : pystr;
  ch_status : charge_status;
  ch_created_at : Z;
  ch_request_id : pystr;
  ch_trace_id : pystr;
  ch_provider : pystr;
  ch_model : pystr;
  ch_operation : pystr;
  ch_provider_version : option pystr;
  ch_currency : pystr;
  ch_period : pystr;
  ch_price_version : option pystr;
  ch_price_snapshot : option ModelPrice;
  ch_usage_known : bool;
  ch_usage : option TokenUsage;
  ch_amount : option Z;
  ch_reserved : Z;
  ch_latency : option float
}.

Record db : Type := { accounts : gmap akey CostAccount; charges : list UsageCharge }.

Definition charge_key (c : UsageCharge) : akey := (ch_tenant c, ch_currency c, ch_period c).

(** The [BigInteger] columns and the check constraints. *)
Definition fits64 (z : Z) : bool := (- 2 ^ 63 <=? z) && (z <? 2 ^ 63).
Definition account_ok (a : CostAccount) : bool :=
  fits64 (spent_nanos a) && fits64 (reserved_nanos a)
  && (0 <=? spent_nanos a) && (0 <=? reserved_nanos a).
Definition charge_ok (c : UsageCharge) : bool :=
  fits64 (ch_reserved c) && (0 <=? ch_reserved c)
  && match ch_amount c with Some a => fits64 a && (0 <=? a) | None => true end
  && match ch_usage c with
     | Some t => fits64 (input_tokens t) && fits64 (output_tokens t) && fits64 (total_tokens t)
     | None => true end.

Inductive billing_error : Type :=
| COST_BUDGET_EXCEEDED
| COST_PRICE_MISSING
| COST_OUTPUT_CAP_REQUIRED
| COST_TENANT_CONTEXT_MISMATCH
| COST_USAGE_MISMATCH
| COST_STORAGE_UNAVAILABLE
| COST_PERIOD_INVALID
| COST_FORBIDDEN.

(** * The repository *)

Definition no_account : CostAccount := {| spent_nanos := 0; reserved_nanos := 0 |}.
Definition account (d : db) (k : akey) : CostAccount := default no_account (accounts d !! k).

(** [CostRepository.reserve]: the account is created on first use, the conditional
    UPDATE moves the hold, the charge row is inserted.  An overflow, a violated
    constraint or a duplicate id aborts the transaction. *)
Definition reserve (d : db) (charge : UsageCharge) (limit_nanos : option Z)
    : result billing_error db :=
  let k := charge_key charge in
  let a := account d k in
  let sum := spent_nanos a + reserved_nanos a in
  _ ← raise_if (match limit_nanos with
                | Some _ => negb (fits64 sum && fits64 (sum + ch_reserved charge))
                | None => false end) COST_STORAGE_UNAVAILABLE;
  _ ← raise_if (match limit_nanos with
                | Some l => negb (sum + ch_reserved charge <=? l)
                | None => false end) COST_BUDGET_EXCEEDED;
  let a' := {| spent_nanos := spent_nanos a;
               reserved_nanos := reserved_nanos a + ch_reserved charge |} in
  _ ← raise_if (negb (account_ok a' && charge_ok charge)
                || bool_decide (ch_id charge ∈ ch_id <$> charges d)) COST_STORAGE_UNAVAILABLE;
  mret {| accounts := <[k := a']> (accounts d); charges := charges d ++ [charge] |}.

(** The values [settle] writes. *)
Record Settlement : Type := {
  se_status : charge_status;
  se_usage : option TokenUsage;
  se_amount : option Z;
  se_usage_known : bool;
  se_provider_version : option pystr;
  se_price_snapshot : option ModelPrice;
  se_price_version : option pystr;
  se_latency : option float
}.

Definition settled_charge (s : Settlement) (c : UsageCharge) : UsageCharge :=
  {| ch_id := ch_id c; ch_tenant := ch_tenant c; ch_user := ch_user c; ch_status := se_status s;
     ch_created_at := ch_created_at c; ch_request_id := ch_request_id c;
     ch_trace_id := ch_trace_id c; ch_provider := ch_provider c; ch_model := ch_model c;
     ch_operation := ch_operation c; ch_provider_version := se_provider_version s;
     ch_currency := ch_currency c; ch_period := ch_period c;
     ch_price_version := se_price_version s; ch_price_snapshot := se_price_snapshot s;
     ch_usage_known := match se_usage s with Some _ => se_usage_known s | None => false end;
     ch_usage := se_usage s; ch_amount := se_amount s; ch_reserved := ch_reserved c;
     ch_latency := se_latency s |}.

Definition claimable (call_id tenant : pystr) (c : UsageCharge) : bool :=
  bool_decide (ch_id c = call_id) && bool_decide (ch_tenant c = tenant)
  && bool_decide (ch_status c = Reserved).

(** [CostRepository.settle]: the atomic claim, then the move from reserved to
    spent when the call has a price.  Ids are unique, so one row at most matches. *)
Definition settle (d : db) (call_id tenant : pystr) (s : Settlement)
    : result billing_error (db * bool) :=
  match List.find (claimable call_id tenant) (charges d) with
  | None => Ok (d, false)
  | Some c =>
      let c' := settled_charge s c in
      let charges' :=
        (fun x => if claimable call_id tenant x then settled_charge s x else x) <$> charges d in
      _ ← raise_if (negb (charge_ok c')) COST_STORAGE_UNAVAILABLE;
      match se_amount s with
      | None => mret ({| accounts := accounts d; charges := charges' |}, true)
      | Some amount =>
          let k := charge_key c in
          match accounts d !! k with
          | None => mret ({| accounts := accounts d; charges := charges' |}, true)
          | Some a =>
              let a' := {| spent_nanos := spent_nanos a + amount;
                           reserved_nanos := reserved_nanos a - ch_reserved c |} in
              _ ← raise_if (negb (account_ok a')) COST_STORAGE_UNAVAILABLE;
              mret ({| accounts := <[k := a']> (accounts d); charges := charges' |}, true)
          end
      end
  end.

Record BudgetSummary : Type := {
  bs_currency : pystr; bs_period : pystr; bs_limit : option Z; bs_spent : Z; bs_reserved : Z;
  bs_remaining : option Z; bs_over_budget : bool
}.

(** [CostRepository.budget], in nanos. *)
Definition budget (d : db) (tenant currency period : pystr) (limit_nanos : option Z)
    : BudgetSummary :=
  let a := account d (tenant, currency, period) in
  {| bs_currency := currency; bs_period := period; bs_limit := limit_nanos;
     bs_spent := spent_nanos a; bs_reserved := reserved_nanos a;
     bs_remaining := (fun l => l - spent_nanos a - reserved_nanos a) <$> limit_nanos;
     bs_over_budget := match limit_nanos with
                       | Some l => l <? spent_nanos a + reserved_nanos a | None => false end |}.

(** The totals of [CostRepository.metrics], in nanos. *)
Record BusinessMetrics : Type := {
  bm_calls : Z; bm_successful : Z; bm_failed : Z; bm_incomplete : Z; bm_unknown_usage : Z;
  bm_unpriced : Z; bm_input_tokens : Z; bm_output_tokens : Z; bm_total_tokens : Z;
  bm_priced_cost : Z; bm_pending_reserved : Z; bm_cost_complete : bool
}.

Definition in_period (tenant currency : pystr) (start end_ : Z) (c : UsageCharge) : bool :=
  bool_decide (ch_tenant c = tenant) && bool_decide (ch_currency c = currency)
  && (start <=? ch_created_at c) && (ch_created_at c <? end_).

Definition count_if (f : UsageCharge -> bool) (l : list UsageCharge) : Z :=
  zsum (fun c => if f c then 1 else 0) l.
Definition sum_opt (f : UsageCharge -> option Z) (l : list UsageCharge) : Z :=
  zsum (fun c => default 0 (f c)) l.
Definition is_status (s : charge_status) (c : UsageCharge) : bool := bool_decide (ch_status c = s).
Definition unpriced (c : UsageCharge) : bool :=
  ch_usage_known c && match ch_amount c with None => true | Some _ => false end.

Definition metrics (d : db) (tenant currency : pystr) (start end_ : Z) : BusinessMetrics :=
  let rows := List.filter (in_period tenant currency start end_) (charges d) in
  let incomplete := count_if (fun c => is_status Reserved c || is_status Incomplete c) rows in
  let unknown := count_if (fun c => negb (ch_usage_known c)) rows in
  let unpriced_count := count_if unpriced rows in
  {| bm_calls := Z.of_nat (length rows);
     bm_successful := count_if (is_status Completed) rows;
     bm_failed := count_if (is_status Failed) rows;
     bm_incomplete := incomplete; bm_unknown_usage := unknown; bm_unpriced := unpriced_count;
     bm_input_tokens := sum_opt (fun c => input_tokens <$> ch_usage c) rows;
     bm_output_tokens := sum_opt (fun c => output_tokens <$> ch_usage c) rows;
     bm_total_tokens := sum_opt (fun c => total_tokens <$> ch_usage c) rows;
     bm_priced_cost := sum_opt ch_amount rows;
     bm_pending_reserved :=
       sum_opt (fun c => match ch_amount c with None => Some (ch_reserved c) | Some _ => None end)
         rows;
     bm_cost_complete := (unknown =? 0) && (unpriced_count =? 0) && (incomplete =? 0) |}.

(** * Calendar: [strftime("%Y-%m")] and the first of the month, in UTC *)

Definition micros_per_day : Z := 86400000000.

(** Year and month of a day number (proleptic Gregorian calendar). *)
Definition civil (day : Z) : Z * Z :=
  let z := day + 719468 in
  let era := z / 146097 in
  let doe := z - era * 146097 in
  let yoe := (doe - doe / 1460 + doe / 36524 - doe / 146096) / 365 in
  let doy := doe - (365 * yoe + yoe / 4 - yoe / 100) in
  let mp := (5 * doy + 2) / 153 in
  let m := if mp <? 10 then mp + 3 else mp - 9 in
  (yoe + era * 400 + (if m <=? 2 then 1 else 0), m).

(** Day number of the first of a month. *)
Definition first_of_month (y m : Z) : Z :=
  let y' := if m <=? 2 then y - 1 else y in
  let era := y' / 400 in
  let yoe := y' - era * 400 in
  let doy := (153 * (m + (if 2 <? m then -3 else 9)) + 2) / 5 in
  era * 146097 + (yoe * 365 + yoe / 4 - yoe / 100 + doy) - 719468.

Definition digit (z : Z) : N := Z.to_N (48 + z mod 10).
Definition period_of (now : Z) : pystr :=
  let '(y, m) := civil (now / micros_per_day) in
  [digit (y / 1000); digit (y / 100); digit (y / 10); digit y; 45%N; digit (m / 10); digit m].

Definition month_start (now : Z) : Z :=
  let '(y, m) := civil (now / micros_per_day) in first_of_month y m * micros_per_day.

(** * The accounting service *)

Record GenerateRequest : Type := {
  gr_messages : list pystr;            (* the contents *)
  gr_decision_json : option pystr;     (* the JSON text of a [DecisionRequest]'s tools *)
  gr_provider : pystr;
  gr_model : pystr;
  gr_request_id : pystr;
  gr_trace_id : pystr;
  gr_tenant_id : pystr;
  gr_user_id : pystr;
  gr_max_output_tokens : option Z
}.

Record GenerationMetadata : Type := {
  gm_request_id : pystr;
  gm_trace_id : pystr;
  gm_tenant_id : pystr;
  gm_user_id : pystr;
  gm_provider : pystr;
  gm_model : pystr;
  gm_version : option pystr;
  gm_usage : TokenUsage;
  gm_latency_ms : float;
  gm_error_code : option pystr;
  gm_metadata : pydict
}.

Record Service : Type := {
  sv_catalog : list ModelPrice;
  sv_currency : pystr;
  sv_limit : option Z;
  sv_minimum : Z;
  sv_provider_version : option pystr;
  sv_operation : pystr
}.

(** [CostAccountingService.__init__]. *)
Definition make_service (catalog : list ModelPrice) (currency : pystr)
    (monthly_budget minimum_reservation : option decimal) (version : option pystr)
    (operation : pystr) : Service :=
  {| sv_catalog := catalog; sv_currency := currency;
     sv_limit := money_to_nanos <$> monthly_budget;
     sv_minimum := money_to_nanos (default (Dec 0 0) minimum_reservation);
     sv_provider_version := version; sv_operation := operation |}.

Record ChargeTicket : Type := { ct_call_id : pystr; ct_request : GenerateRequest; ct_started_at : Z }.

(** [_owned_session]: the tenant the task inherited must be the request's; [io]
    says whether the database answers within the timeout. *)
Definition _owned_session (inherited : option pystr) (tenant : pystr) (io : bool) {A}
    (body : result billing_error A) : result billing_error A :=
  _ ← raise_if (match inherited with
                | Some t => negb (bool_decide (t = tenant)) | None => false end)
        COST_TENANT_CONTEXT_MISMATCH;
  _ ← raise_if (negb io) COST_STORAGE_UNAVAILABLE;
  body.

(** Bytes of a code point in UTF-8. *)
Definition utf8_len (c : N) : Z :=
  if (c <? 128)%N then 1 else if (c <? 2048)%N then 2 else if (c <? 65536)%N then 3 else 4.
Definition byte_len (s : pystr) : Z := zsum utf8_len s.

Definition input_estimate (r : GenerateRequest) : Z :=
  zsum byte_len (gr_messages r) + 256
  + match gr_decision_json r with Some j => byte_len j | None => 0 end.

(** The amount [begin] holds. *)
Definition reservation (sv : Service) (r : GenerateRequest) (price : option ModelPrice)
    : result billing_error Z :=
  match sv_limit sv with
  | None => Ok 0
  | Some _ =>
      match price with
      | None => Err COST_PRICE_MISSING
      | Some p =>
          match gr_max_output_tokens r with
          | None => Err COST_OUTPUT_CAP_REQUIRED
          | Some cap =>
              let c := cost_nanos p {| input_tokens := input_estimate r; output_tokens := cap;
                                       total_tokens := 0 |} in
              Ok (if sv_minimum sv <? c then c else sv_minimum sv)
          end
      end
  end.

Definition begin (sv : Service) (inherited : option pystr) (io : bool) (now : Z) (call_id : pystr)
    (r : GenerateRequest) (d : db) : result billing_error (ChargeTicket * db) :=
  let price := resolve (sv_catalog sv) (gr_provider r) (gr_model r) (sv_provider_version sv)
                 (sv_currency sv) now in
  hold ← reservation sv r price;
  let charge :=
    {| ch_id := call_id; ch_tenant := gr_tenant_id r; ch_user := gr_user_id r;
       ch_status := Reserved; ch_created_at := now; ch_request_id := gr_request_id r;
       ch_trace_id := gr_trace_id r; ch_provider := gr_provider r; ch_model := gr_model r;
       ch_operation := sv_operation sv; ch_provider_version := sv_provider_version sv;
       ch_currency := sv_currency sv; ch_period := period_of now; ch_price_version := None;
       ch_price_snapshot := None; ch_usage_known := false; ch_usage := None; ch_amount := None;
       ch_reserved := hold; ch_latency := None |} in
  d' ← _owned_session inherited (gr_tenant_id r) io (reserve d charge (sv_limit sv));
  mret ({| ct_call_id := call_id; ct_request := r; ct_started_at := now |}, d').

Definition metadata_mismatch (r : GenerateRequest) (m : GenerationMetadata) : bool :=
  negb (bool_decide (gm_request_id m = gr_request_id r))
  || negb (bool_decide (gm_trace_id m = gr_trace_id r))
  || negb (bool_decide (gm_tenant_id m = gr_tenant_id r))
  || negb (bool_decide (gm_user_id m = gr_user_id r))
  || negb (bool_decide (gm_provider m = gr_provider r))
  || negb (bool_decide (gm_model m = gr_model r)).

Definition usage_known (m : option GenerationMetadata) : bool :=
  match m with
  | None => false
  | Some m => negb (truthy (default (VInt 0) (dict_get (u "usage_unavailable_count") (gm_metadata m))))
  end.

Definition split_known (t : TokenUsage) : bool :=
  (total_tokens t =? 0) || (total_tokens t =? input_tokens t + output_tokens t).

(** The settlement [finish] writes for a ticket. *)
Definition settlement_for (sv : Service) (t : ChargeTicket) (m : option GenerationMetadata)
    (status : charge_status) : Settlement :=
  let r := ct_request t in
  let status := match m with
                | Some m => match gm_error_code m with Some _ => Failed | None => status end
                | None => status end in
  let price := resolve (sv_catalog sv) (gr_provider r) (gr_model r)
                 (match m with Some m => gm_version m | None => sv_provider_version sv end)
                 (sv_currency sv) (ct_started_at t) in
  let usage := gm_usage <$> m in
  let amount := match price, usage with
                | Some p, Some us =>
                    if split_known us && usage_known m then Some (cost_nanos p us) else None
                | _, _ => None
                end in
  {| se_status := status; se_usage := usage; se_amount := amount; se_usage_known := usage_known m;
     se_provider_version := m ≫= gm_version; se_price_snapshot := price;
     se_price_version := mp_price_version <$> price; se_latency := gm_latency_ms <$> m |}.

Definition finish (sv : Service) (inherited : option pystr) (io : bool) (t : ChargeTicket)
    (m : option GenerationMetadata) (status : charge_status) (d : db)
    : result billing_error (db * bool) :=
  let r := ct_request t in
  _ ← raise_if (match m with Some m => metadata_mismatch r m | None => false end)
        COST_USAGE_MISMATCH;
  _owned_session inherited (gr_tenant_id r) io
    (settle d (ct_call_id t) (gr_tenant_id r) (settlement_for sv t m status)).

(** [_authorize], [summary] and [budget] of the service. *)
Definition _authorize (a : AuthContext) : result billing_error unit :=
  raise_if (negb (intersects [u "audit:read"; u "cost:read"] (auth_permissions a))) COST_FORBIDDEN.

(** A time with or without a timezone. *)
Record pytime : Type := { pt_micros : Z; pt_aware : bool }.

Definition summary (sv : Service) (a : AuthContext) (inherited : option pystr) (io : bool) (now : Z)
    (start end_ : option pytime) (d : db) : result billing_error BusinessMetrics :=
  _ ← _authorize a;
  let end_ := default {| pt_micros := now; pt_aware := true |} end_ in
  let start := default {| pt_micros := month_start (pt_micros end_); pt_aware := pt_aware end_ |}
                 start in
  _ ← raise_if (negb (pt_aware start) || negb (pt_aware end_)
                || (pt_micros end_ <=? pt_micros start)
                || (366 * micros_per_day <? pt_micros end_ - pt_micros start)) COST_PERIOD_INVALID;
  _owned_session inherited (auth_tenant_id a) io
    (Ok (metrics d (auth_tenant_id a) (sv_currency sv) (pt_micros start) (pt_micros end_))).

Definition service_budget (sv : Service) (a : AuthContext) (inherited : option pystr) (io : bool)
    (now : Z) (d : db) : result billing_error BudgetSummary :=
  _ ← _authorize a;
  _owned_session inherited (auth_tenant_id a) io
    (Ok (budget d (auth_tenant_id a) (sv_currency sv) (period_of now) (sv_limit sv))).

(** * The accounting provider *)

(** The outcome of a wrapped call: the provider's response metadata, its own
    exception, or an error of the accounting itself. *)
Inductive call_outcome : Type :=
| CallReturned
| CallRaised
| CallAccountingError (e : billing_error).

(** [AccountingLLMProvider.generate] and [AccountingDecisionProvider.decide]; the
    provider either returns metadata or raises. *)
Definition generate (sv : Service) (inherited : option pystr) (io_begin io_finish : bool) (now : Z)
    (call_id : pystr) (r : GenerateRequest) (provider : option GenerationMetadata) (d : db)
    : db * call_outcome :=
  match begin sv inherited io_begin now call_id r d with
  | Err e => (d, CallAccountingError e)
  | Ok (ticket, d1) =>
      let '(m, status, outcome) :=
        match provider with
        | None => (None, Failed, CallRaised)
        | Some m => (Some m, Completed, CallReturned)
        end in
      match finish sv inherited io_finish ticket m status d1 with
      | Err e => (d1, CallAccountingError e)
      | Ok (d2, _) => (d2, outcome)
      end
  end.

(** A streamed chunk, and how the iteration over the stream ends. *)
Record chunk : Type := { ck_is_final : bool; ck_response : option GenerationMetadata }.
Inductive stream_end : Type := StreamExhausted | StreamRaised | StreamClosed | StreamCancelled.

(** The loop of [stream]: the chunks forwarded, whether a settlement was made, and
    whether the loop raised. *)
Fixpoint stream_loop (sv : Service) (inherited : option pystr) (io : bool) (t : ChargeTicket)
    (chunks : list chunk) (settled : bool) (d : db) : db * bool * list chunk * bool :=
  match chunks with
  | [] => (d, settled, [], false)
  | c :: rest =>
      if ck_is_final c && negb settled then
        match ck_response c with
        | None => (d, settled, [], true)
        | Some m =>
            match finish sv inherited io t (Some m) Completed d with
            | Err _ => (d, settled, [], true)
            | Ok (d', _) =>
                let '(d2, s2, out, e) := stream_loop sv inherited io t rest true d' in
                (d2, s2, c :: out, e)
            end
        end
      else
        let '(d2, s2, out, e) := stream_loop sv inherited io t rest settled d in
        (d2, s2, c :: out, e)
  end.

Definition stream (sv : Service) (inherited : option pystr) (io : bool) (now : Z)
    (call_id : pystr) (r : GenerateRequest) (chunks : list chunk) (ending : stream_end) (d : db)
    : db * list chunk * option billing_error :=
  match begin sv inherited io now call_id r d with
  | Err e => (d, [], Some e)
  | Ok (ticket, d1) =>
      let '(d2, settled, out, raised) := stream_loop sv inherited io ticket chunks false d1 in
      let failed := raised || match ending with StreamRaised => true | _ => false end in
      if settled then (d2, out, None)
      else match finish sv inherited io ticket None (if failed then Failed else Incomplete) d2 with
           | Err e => (d2, out, Some e)
           | Ok (d3, _) => (d3, out, None)
           end
  end.

Example period_2026 : (period_of 1785000000000000, month_start 1785000000000000)
  = (u "2026-07", 1782864000000000).
Proof. vm_compute. reflexivity. Qed.

(** * The ledger invariant *)

Definition hold_of (c : UsageCharge) : Z :=
  match ch_amount c with None => ch_reserved c | Some _ => 0 end.
Definition price_of (c : UsageCharge) : Z := default 0 (ch_amount c).
Definition on_key (k : akey) (f : UsageCharge -> Z) (c : UsageCharge) : Z :=
  if decide (charge_key c = k) then f c else 0.

(** Every account agrees with the charges booked on it. *)
Record ledger_ok (d : db) : Prop := {
  lo_ids : NoDup (ch_id <$> charges d);
  lo_open : Forall (fun c => ch_status c = Reserved -> ch_amount c = None) (charges d);
  lo_reserved : forall k, reserved_nanos (account d k) = zsum (on_key k hold_of) (charges d);
  lo_spent : forall k, spent_nanos (account d k) = zsum (on_key k price_of) (charges d);
  lo_accounts : Forall (fun c => is_Some (accounts d !! charge_key c)) (charges d)
}.

Lemma ledger_empty : ledger_ok {| accounts := ∅; charges := [] |}.
Proof.
  split; simpl; try constructor; intros k; unfold account; simpl; by rewrite lookup_empty.
Qed.

Lemma account_insert d k a k' l :
  account {| accounts := <[k := a]> (accounts d); charges := l |} k'
  = if decide (k = k') then a else account d k'.
Proof.
  unfold account. simpl. destruct (decide (k = k')) as [->|Hne].
  - by rewrite lookup_insert_eq.
  - by rewrite lookup_insert_ne.
Qed.

Lemma reserve_inv d c limit d' :
  reserve d c limit = Ok d' ->
  let a := account d (charge_key c) in
  let a' := {| spent_nanos := spent_nanos a; reserved_nanos := reserved_nanos a + ch_reserved c |} in
  d' = {| accounts := <[charge_key c := a']> (accounts d); charges := charges d ++ [c] |} /\
  ch_id c ∉ ch_id <$> charges d /\ charge_ok c = true /\
  (forall l, limit = Some l -> spent_nanos a + reserved_nanos a + ch_reserved c <= l).
Proof.
  unfold reserve. intros Hr. res_inv; bool_inv; split_and!; try done.
  all: intros l Hl; simplify_eq; lia.
Qed.

Lemma reserve_ledger d c limit d' :
  reserve d c limit = Ok d' -> ch_status c = Reserved -> ch_amount c = None ->
  ledger_ok d -> ledger_ok d'.
Proof.
  intros (-> & Hid & _ & _)%reserve_inv Hs Ha [I1 I2 I3 I4 I5].
  assert (hold_of c = ch_reserved c /\ price_of c = 0) as [Hhold Hprice]
    by (unfold hold_of, price_of; by rewrite Ha).
  split; simpl.
  - rewrite fmap_app. apply list.NoDup_app. split; [done|]. split; [|apply NoDup_singleton].
    intros x Hx Hc%list_elem_of_singleton. by subst.
  - apply Forall_app. split; [done|]. by apply Forall_singleton.
  - intros k. rewrite account_insert, zsum_app. simpl. unfold on_key at 2.
    destruct (decide (charge_key c = k)) as [<-|]; simpl; [|rewrite I3; lia].
    rewrite I3. lia.
  - intros k. rewrite account_insert, zsum_app. simpl. unfold on_key at 2.
    destruct (decide (charge_key c = k)) as [<-|]; simpl; [|rewrite I4; lia].
    rewrite I4. lia.
  - apply Forall_app. split.
    + eapply Forall_impl; [exact I5|]. intros x [a Hx]. simpl.
      destruct (decide (charge_key c = charge_key x)) as [->|]; [by rewrite lookup_insert_eq|].
      rewrite lookup_insert_ne by done. by eexists.
    + apply Forall_singleton. by rewrite lookup_insert_eq.
Qed.

(** Settling changes exactly one charge. *)
Lemma claim_unique id tenant l c :
  NoDup (ch_id <$> l) -> List.find (claimable id tenant) l = Some c ->
  claimable id tenant c = true /\ c ∈ l /\
  forall x, x ∈ l -> claimable id tenant x = true -> x = c.
Proof.
  intros Hnd Hf. apply find_some in Hf as [Hin Hc]. apply list_elem_of_In in Hin.
  split; [done|]. split; [done|]. intros x Hx Hcx.
  unfold claimable in *. bool_inv. apply list_elem_of_lookup in Hin as [i Hi].
  apply list_elem_of_lookup in Hx as [j Hj].
  assert (i = j) as ->; [|congruence].
  eapply (NoDup_lookup _ i j (ch_id c) Hnd); rewrite list_lookup_fmap; [by rewrite Hi|].
  rewrite Hj. simpl. congruence.
Qed.

Lemma zsum_update (f g : UsageCharge -> Z) (p : UsageCharge -> bool) l c :
  NoDup (ch_id <$> l) -> c ∈ l -> p c = true -> (forall x, x ∈ l -> p x = true -> x = c) ->
  zsum (fun x => if p x then g x else f x) l = zsum f l + (g c - f c).
Proof.
  intros Hnd Hin Hp Huniq. induction l as [|x l IH]; [by apply list.not_elem_of_nil in Hin|].
  apply list.NoDup_cons in Hnd as [Hx Hnd]. cbn [zsum].
  apply elem_of_cons in Hin as [<-|Hin].
  - rewrite Hp. assert (zsum (fun y => if p y then g y else f y) l = zsum f l) as ->; [|lia].
    assert (forall y, y ∈ l -> p y = false) as Hno.
    { intros y Hy. destruct (p y) eqn:E; [|done]. exfalso. apply Hx.
      rewrite <- (Huniq y ltac:(by right) E). apply list_elem_of_fmap. by exists y. }
    clear -Hno. induction l as [|y l IH]; [done|]. simpl. rewrite Hno by by left.
    rewrite IH; [done|]. intros z Hz. apply Hno. by right.
  - rewrite IH; [|done|done|intros y Hy; apply Huniq; by right].
    destruct (p x) eqn:E; [|lia]. exfalso. apply Hx.
    rewrite (Huniq x ltac:(by left) E). apply list_elem_of_fmap. by exists c.
Qed.

Lemma settle_inv d id tenant s d' b :
  settle d id tenant s = Ok (d', b) -> ledger_ok d ->
  (b = false /\ d' = d) \/
  exists c, b = true /\ claimable id tenant c = true /\ c ∈ charges d /\
    (forall x, x ∈ charges d -> claimable id tenant x = true -> x = c) /\
    charge_ok (settled_charge s c) = true /\
    charges d' = (fun x => if claimable id tenant x then settled_charge s x else x) <$> charges d /\
    accounts d' = match se_amount s with
                  | None => accounts d
                  | Some amount =>
                      let a := account d (charge_key c) in
                      <[charge_key c := {| spent_nanos := spent_nanos a + amount;
                                           reserved_nanos := reserved_nanos a - ch_reserved c |}]>
                        (accounts d)
                  end.
Proof.
  unfold settle. intros Hs [I1 _ _ _ I5].
  destruct (List.find (claimable id tenant) (charges d)) as [c|] eqn:Hf; [|left; by injection Hs as <- <-].
  right. exists c. apply claim_unique in Hf as (Hc & Hin & Hu); [|done].
  rewrite list.Forall_forall in I5. destruct (I5 c Hin) as [a Ha].
  unfold mbind, result_bind, raise_if, mret, result_ret in Hs.
  destruct (charge_ok (settled_charge s c)) eqn:Hok; [|done]. simpl in Hs.
  destruct (se_amount s) as [amount|].
  - rewrite Ha in Hs. destruct (negb _); [done|]. injection Hs as <- <-.
    split_and!; try done. simpl. unfold account. by rewrite Ha.
  - injection Hs as <- <-. split_and!; done.
Qed.

Lemma settled_key s c : charge_key (settled_charge s c) = charge_key c.
Proof. done. Qed.

(** Settling one charge moves a sum by that charge's own change. *)
Lemma settled_sum l id tenant s c k f :
  NoDup (ch_id <$> l) -> c ∈ l -> claimable id tenant c = true ->
  (forall x, x ∈ l -> claimable id tenant x = true -> x = c) ->
  zsum (on_key k f) ((fun x => if claimable id tenant x then settled_charge s x else x) <$> l)
  = zsum (on_key k f) l + (on_key k f (settled_charge s c) - on_key k f c).
Proof.
  intros I1 Hin Hc Hu.
  rewrite <- (zsum_update (on_key k f) (fun x => on_key k f (settled_charge s x))
    (claimable id tenant) l c I1 Hin Hc Hu).
  clear. induction l as [|x l IH]; [done|].
  rewrite fmap_cons. cbn [zsum]. rewrite IH. by destruct (claimable id tenant x).
Qed.

Lemma settle_ledger d id tenant s d' b :
  settle d id tenant s = Ok (d', b) -> se_status s <> Reserved -> ledger_ok d -> ledger_ok d'.
Proof.
  intros Hs Hst Hd. pose proof (settle_inv _ _ _ _ _ _ Hs Hd)
    as [[_ ->]|(c & _ & Hc & Hin & Hu & Hok & Hch & Hac)]; [done|].
  destruct Hd as [I1 I2 I3 I4 I5].
  assert (ch_amount c = None) as Hna.
  { rewrite list.Forall_forall in I2. apply I2; [done|]. unfold claimable in Hc. by bool_inv. }
  pose proof (fun k f => settled_sum (charges d) id tenant s c k f I1 Hin Hc Hu) as Hz.
  rewrite <- Hch in Hz.
  assert (forall k, account d' k = match se_amount s with
     | Some amount => if decide (charge_key c = k)
         then {| spent_nanos := spent_nanos (account d k) + amount;
                 reserved_nanos := reserved_nanos (account d k) - ch_reserved c |}
         else account d k
     | None => account d k end) as Hacc.
  { intros k. unfold account at 1. rewrite Hac. destruct (se_amount s); [|done].
    destruct (decide (charge_key c = k)) as [<-|Hne].
    - by rewrite lookup_insert_eq.
    - by rewrite lookup_insert_ne. }
  split.
  - rewrite Hch, <- list_fmap_compose.
    assert (ch_id ∘ (fun x => if claimable id tenant x then settled_charge s x else x) <$> charges d
            = ch_id <$> charges d) as ->; [|done].
    apply list_fmap_ext. intros i x _. simpl. by destruct (claimable id tenant x).
  - rewrite Hch. apply Forall_fmap. eapply Forall_impl; [exact I2|]. intros x Hx. simpl.
    by destruct (claimable id tenant x).
  - intros k. rewrite Hz, Hacc, <- I3. unfold on_key. rewrite settled_key.
    destruct (se_amount s) as [amount|] eqn:E; simpl.
    + destruct (decide (charge_key c = k)); [|lia]. unfold hold_of. simpl. rewrite E, Hna. simpl. lia.
    + destruct (decide (charge_key c = k)); [|lia]. unfold hold_of. simpl. rewrite E, Hna. lia.
  - intros k. rewrite Hz, Hacc, <- I4. unfold on_key. rewrite settled_key.
    destruct (se_amount s) as [amount|] eqn:E; simpl.
    + destruct (decide (charge_key c = k)); [|lia]. unfold price_of. simpl. rewrite E, Hna. simpl. lia.
    + destruct (decide (charge_key c = k)); [|lia]. unfold price_of. simpl. rewrite E, Hna. simpl. lia.
  - rewrite Hch. apply Forall_fmap. eapply Forall_impl; [exact I5|]. intros x [a Hx]. simpl.
    assert (charge_key (if claimable id tenant x then settled_charge s x else x) = charge_key x) as ->
      by (by destruct (claimable id tenant x)).
    rewrite Hac. destruct (se_amount s); [|by eexists].
    destruct (decide (charge_key c = charge_key x)) as [->|];
      [by rewrite lookup_insert_eq|rewrite lookup_insert_ne by done; by eexists].
Qed.

(** ** Reachable ledgers: any interleaving of calls of any service instances *)

Inductive billing_step : db -> db -> Prop :=
| step_begin sv inherited io now call_id r d t d' :
    begin sv inherited io now call_id r d = Ok (t, d') -> billing_step d d'
| step_finish sv inherited io t m status d d' b :
    status <> Reserved -> finish sv inherited io t m status d = Ok (d', b) -> billing_step d d'.

Lemma begin_inv sv inherited io now call_id r d t d' :
  begin sv inherited io now call_id r d = Ok (t, d') ->
  exists c, reserve d c (sv_limit sv) = Ok d' /\ ch_status c = Reserved /\ ch_amount c = None /\
    ch_id c = call_id /\ ch_tenant c = gr_tenant_id r /\
    t = {| ct_call_id := call_id; ct_request := r; ct_started_at := now |}.
Proof.
  unfold begin, _owned_session, mbind, result_bind, mret, result_ret, raise_if.
  destruct (reservation _ _ _); [|done]. destruct (match inherited with Some _ => _ | None => _ end);
    [done|]. destruct (negb io); [done|].
  destruct (reserve _ _ _) as [d1|] eqn:Hr; [|done]. intros [= <- <-]. by eexists.
Qed.

Lemma finish_inv sv inherited io t m status d d' b :
  finish sv inherited io t m status d = Ok (d', b) ->
  settle d (ct_call_id t) (gr_tenant_id (ct_request t)) (settlement_for sv t m status) = Ok (d', b).
Proof.
  unfold finish, _owned_session, mbind, result_bind, raise_if.
  destruct (match m with Some _ => _ | None => _ end); [done|].
  destruct (match inherited with Some _ => _ | None => _ end); [done|]. by destruct (negb io).
Qed.

Lemma settlement_status sv t m status :
  status <> Reserved -> se_status (settlement_for sv t m status) <> Reserved.
Proof. unfold settlement_for. simpl. intros. by repeat case_match. Qed.

Lemma step_ledger d d' : billing_step d d' -> ledger_ok d -> ledger_ok d'.
Proof.
  intros [sv inherited io now call_id r d0 t d1 Hb|sv inherited io t m status d0 d1 b Hs Hf] Hd.
  - apply begin_inv in Hb as (c & Hr & ? & ? & _). by eapply reserve_ledger.
  - apply finish_inv in Hf. eapply settle_ledger; [done| |done]. by apply settlement_status.
Qed.

Lemma steps_ledger d d' : rtc billing_step d d' -> ledger_ok d -> ledger_ok d'.
Proof. induction 1 as [|d1 d2 d3 Hs _ IH]; eauto using step_ledger. Qed.

Lemma generate_steps sv inherited io1 io2 now call_id r provider d :
  rtc billing_step d (generate sv inherited io1 io2 now call_id r provider d).1.
Proof.
  unfold generate. destruct (begin _ _ _ _ _ _ _) as [[t d1]|] eqn:Hb; [|done].
  assert (billing_step d d1) as H1 by (by eapply step_begin).
  destruct provider as [m|].
  - destruct (finish _ _ _ _ _ _ _) as [[d2 b]|] eqn:Hf; simpl; [|by apply rtc_once].
    eapply rtc_l; [done|]. apply rtc_once. by eapply (step_finish _ _ _ _ _ Completed).
  - destruct (finish _ _ _ _ _ _ _) as [[d2 b]|] eqn:Hf; simpl; [|by apply rtc_once].
    eapply rtc_l; [done|]. apply rtc_once. by eapply (step_finish _ _ _ _ _ Failed).
Qed.

Definition db0 : db := {| accounts := ∅; charges := [] |}.

(** C34: the ledger always balances: whatever sequence of reservations and
    settlements the calls of any services make, in any order, every account's
    reserved amount is the sum of the holds of its charges that have no priced
    amount, its spent amount is the sum of its charges' amounts, every charge has
    its account and a charge still reserved has no amount. *)
Theorem ledger_balances d : rtc billing_step db0 d -> ledger_ok d.
Proof. intros Hr. apply (steps_ledger db0); [done|apply ledger_empty]. Qed.

(** Settlement is exactly-once: after a call has been settled, settling it
    again (a duplicate final chunk, a retried write) reports that nothing changed
    and leaves every table as it was. *)
Theorem settle_once d id tenant s d' b s' :
  ledger_ok d -> se_status s <> Reserved -> settle d id tenant s = Ok (d', b) ->
  settle d' id tenant s' = Ok (d', false).
Proof.
  intros Hd Hst Hs. pose proof (settle_inv _ _ _ _ _ _ Hs Hd)
    as [[-> ->]|(c & _ & Hc & Hin & Hu & Hok & Hch & Hac)].
  - unfold settle in Hs |- *.
    destruct (List.find (claimable id tenant) (charges d)) eqn:Hf; [|done].
    exfalso. res_inv.
  - unfold settle. destruct (List.find (claimable id tenant) (charges d')) as [x|] eqn:Hf; [|done].
    exfalso. apply find_some in Hf as [Hx Hcl]. apply list_elem_of_In in Hx. rewrite Hch in Hx.
    apply list_elem_of_fmap in Hx as (y & -> & Hy).
    destruct (claimable id tenant y) eqn:Ey; [|congruence].
    unfold claimable in Hcl. bool_inv. by simpl in *.
Qed.

(** A reservation is only granted within the budget: after [begin] succeeds
    under a monthly limit, the account's spent and reserved amounts together do
    not exceed it, and the new hold is part of them. *)
Theorem begin_within_budget sv inherited io now call_id r d t d' limit :
  begin sv inherited io now call_id r d = Ok (t, d') -> sv_limit sv = Some limit ->
  let k := (gr_tenant_id r, sv_currency sv, period_of now) in
  spent_nanos (account d' k) + reserved_nanos (account d' k) <= limit /\
  exists c, c ∈ charges d' /\ ch_id c = call_id /\ ch_status c = Reserved /\
    reserved_nanos (account d' k) = reserved_nanos (account d k) + ch_reserved c.
Proof.
  intros Hb Hl k. unfold begin, _owned_session, mbind, result_bind, mret, result_ret, raise_if in Hb.
  destruct (reservation _ _ _) as [hold|]; [|done].
  destruct (match inherited with Some _ => _ | None => _ end); [done|]. destruct (negb io); [done|].
  destruct (reserve _ _ _) as [d1|] eqn:Hr; [|done]. injection Hb as <- <-.
  apply reserve_inv in Hr as (-> & _ & _ & Hlim). specialize (Hlim _ Hl).
  unfold charge_key in Hlim. simpl in Hlim. subst k.
  rewrite !account_insert. unfold charge_key. cbn [ch_tenant ch_currency ch_period].
  rewrite !decide_True by done. simpl.
  split; [lia|]. eexists. split; [apply elem_of_app; right; by apply list_elem_of_singleton|]. done.
Qed.

(** Steps in which no settlement costs more than its hold, under one limit. *)
Inductive frugal_step (limit : Z) : db -> db -> Prop :=
| frugal_begin sv inherited io now call_id r d t d' :
    sv_limit sv = Some limit -> begin sv inherited io now call_id r d = Ok (t, d') ->
    frugal_step limit d d'
| frugal_settle d id tenant s d' b :
    se_status s <> Reserved -> settle d id tenant s = Ok (d', b) ->
    (forall c a, c ∈ charges d -> claimable id tenant c = true -> se_amount s = Some a ->
       a <= ch_reserved c) -> frugal_step limit d d'.

(** The monthly budget is never exceeded as long as calls cost no more than
    was reserved for them: in every state reachable by reservations under the
    limit and such settlements, spent plus reserved stays within the limit for
    every tenant, currency and month. *)
Theorem budget_never_exceeded limit d k :
  0 <= limit -> rtc (frugal_step limit) db0 d ->
  spent_nanos (account d k) + reserved_nanos (account d k) <= limit.
Proof.
  intros Hl Hr.
  assert (forall d1 d2, frugal_step limit d1 d2 -> ledger_ok d1 ->
    (forall k, spent_nanos (account d1 k) + reserved_nanos (account d1 k) <= limit) ->
    ledger_ok d2 /\ forall k, spent_nanos (account d2 k) + reserved_nanos (account d2 k) <= limit)
    as Hstep.
  { intros d1 d2 [sv inherited io now call_id r e t e' Hsv Hb|e id tenant s e' b Hst Hs Hcost] Hd Hk.
    - apply begin_inv in Hb as (c & Hres & ? & ? & _).
      split; [by eapply reserve_ledger|]. apply reserve_inv in Hres as (-> & _ & _ & Hlim).
      specialize (Hlim _ Hsv). intros k'. rewrite account_insert. case_decide; [simpl; lia|apply Hk].
    - split; [by eapply settle_ledger|].
      pose proof (settle_inv _ _ _ _ _ _ Hs Hd) as [[_ ->]|(c & _ & Hc & Hin & _ & _ & _ & Hac)];
        [done|]. intros k'. specialize (Hk k'). unfold account at 1 2. rewrite Hac.
      destruct (se_amount s) as [a|] eqn:Ha; [|done].
      destruct (decide (charge_key c = k')) as [<-|];
        [rewrite lookup_insert_eq|rewrite lookup_insert_ne by done; done].
      simpl. specialize (Hcost c a Hin Hc eq_refl). lia. }
  assert (ledger_ok d /\ forall k, spent_nanos (account d k) + reserved_nanos (account d k) <= limit)
    as [_ H]; [|apply H].
  assert (ledger_ok db0 /\
    forall k, spent_nanos (account db0 k) + reserved_nanos (account db0 k) <= limit) as H0.
  { split; [apply ledger_empty|]. intros k'. unfold account. simpl. by rewrite lookup_empty. }
  induction Hr as [e|e1 e2 e3 Hs _ IH]; [done|]. apply IH. destruct H0. by eapply Hstep.
Qed.

(** The reported metrics reconcile with the account: when an interval selects
    exactly the charges of a tenant's month, the priced cost it reports is the
    account's spent amount and the pending cost its reserved amount. *)
Theorem metrics_reconcile d tenant currency period start end_ :
  ledger_ok d ->
  (forall c, c ∈ charges d ->
     in_period tenant currency start end_ c = true <-> charge_key c = (tenant, currency, period)) ->
  let m := metrics d tenant currency start end_ in
  let s := budget d tenant currency period None in
  bm_priced_cost m = bs_spent s /\ bm_pending_reserved m = bs_reserved s /\
  bm_calls m = bm_successful m + bm_failed m + bm_incomplete m.
Proof.
  intros [_ _ I3 I4 _] Hsel. simpl. rewrite I3, I4. unfold sum_opt, count_if, is_status.
  generalize dependent (charges d). intros l _ _ Hsel.
  induction l as [|c l IH]; [done|].
  destruct IH as (IH1 & IH2 & IH3); [intros x Hx; apply Hsel; by right|].
  specialize (Hsel c ltac:(by left)). cbn [List.filter zsum].
  unfold on_key at 1 3. destruct (in_period tenant currency start end_ c) eqn:E.
  - rewrite !decide_True by (by apply Hsel). cbn [zsum length]. unfold hold_of at 1, price_of at 1.
    split_and!; [lia|destruct (ch_amount c); simpl; lia|].
    rewrite Nat2Z.inj_succ, IH3. destruct (ch_status c); simpl; lia.
  - rewrite !decide_False by (intros Hk; apply Hsel in Hk; congruence). split_and!; [lia|lia|done].
Qed.

Lemma weak_order_price : weak_order price_rank_lt (fun _ => True).
Proof.
  apply (weak_order_lex
    (fun p q => (match mp_provider_version p with Some _ => 1 | None => 0 end
                 =? match mp_provider_version q with Some _ => 1 | None => 0 end))
    (fun p q => (match mp_provider_version p with Some _ => 1 | None => 0 end
                 <? match mp_provider_version q with Some _ => 1 | None => 0 end))
    (fun p q => mp_effective_from p <? mp_effective_from q)).
  - intros. apply Z_eqb_ltb.
  - by apply (weak_order_key (fun p => match mp_provider_version p with Some _ => 1 | None => 0 end)
      _ _ _ (fun _ _ => I) weak_order_Z).
  - by apply (weak_order_key mp_effective_from _ _ _ (fun _ _ => I) weak_order_Z).
Qed.

Lemma max_price_spec p l :
  max_price p l ∈ p :: l /\ forall q, q ∈ p :: l -> price_rank_lt (max_price p l) q = false.
Proof.
  destruct weak_order_price as [Ha Ht]. unfold sort_le in Ht.
  revert p. induction l as [|x l IH]; intros p; unfold max_price in *; simpl.
  - split; [by left|]. intros q ->%list_elem_of_singleton.
    destruct (price_rank_lt p p) eqn:E; [|done]. by rewrite (Ha p p I I E) in E.
  - destruct (price_rank_lt p x) eqn:E.
    + destruct (IH x) as [H1 H2]. split; [by right|].
      intros q [->|Hq]%elem_of_cons; [|by apply H2].
      apply (Ht p x); [done..|by apply Ha|apply H2; by left].
    + destruct (IH p) as [H1 H2]. split.
      { apply elem_of_cons in H1 as [->|]; [by left|by right; right]. }
      intros q [->|[->|Hq]%elem_of_cons]%elem_of_cons; [apply H2; by left| |apply H2; by right].
      apply (Ht x p); [done..|apply H2; by left].
Qed.

Lemma unambiguous_spec seen prices :
  _unambiguous_versions seen prices = Ok tt ->
  (forall p q, p ∈ seen -> q ∈ seen -> price_prefix p = price_prefix q ->
     mp_effective_from p = mp_effective_from q -> p = q) ->
  forall p q, p ∈ seen ++ prices -> q ∈ seen ++ prices -> price_prefix p = price_prefix q ->
    mp_effective_from p = mp_effective_from q -> p = q.
Proof.
  revert seen. induction prices as [|x prices IH]; intros seen; simpl.
  { by rewrite app_nil_r. }
  destruct (existsb _ seen) eqn:E; [done|]. intros Hu Hs.
  assert (forall y, y ∈ seen -> price_prefix y = price_prefix x ->
            mp_effective_from y = mp_effective_from x -> False) as Hx.
  { intros y Hy Hp He. rewrite <- not_true_iff_false in E. apply E, existsb_exists. exists y.
    split; [by apply list_elem_of_In|]. rewrite bool_decide_eq_true_2 by done. simpl.
    rewrite He, Z.eqb_refl. by rewrite orb_true_r. }
  specialize (IH (seen ++ [x]) Hu). rewrite <- app_assoc in IH. apply IH.
  intros p q Hp Hq. rewrite elem_of_app, list_elem_of_singleton in Hp, Hq.
  destruct Hp as [Hp| ->], Hq as [Hq| ->]; intros; [by apply Hs|by exfalso; eapply Hx| |done].
  exfalso. by eapply Hx.
Qed.

Lemma equal_rank p q :
  price_rank_lt p q = false -> price_rank_lt q p = false ->
  (is_Some (mp_provider_version p) <-> is_Some (mp_provider_version q)) /\
  mp_effective_from p = mp_effective_from q.
Proof.
  unfold price_rank_lt. destruct (mp_provider_version p), (mp_provider_version q); simpl; try done;
    intros H1 H2; bool_inv; (split; [|lia]); split; intros; try done.
  all: by apply is_Some_None in H.
Qed.

(** An exact provider version is preferred to the model-level fallback and a
    later effective date to an earlier one: [resolve] returns an eligible price
    that no other eligible price outranks, and in a validated catalogue it
    outranks every other one, so the answer does not depend on the order of the
    catalogue; it returns nothing only when no price is eligible. *)
Theorem resolve_best prices provider model version currency at_ :
  _unambiguous_versions [] prices = Ok tt ->
  let ok := eligible provider model version currency at_ in
  match resolve prices provider model version currency at_ with
  | None => Forall (fun q => ok q = false) prices
  | Some p => p ∈ prices /\ ok p = true /\
      forall q, q ∈ prices -> ok q = true -> q <> p -> price_rank_lt q p = true
  end.
Proof.
  intros Hu ok. unfold resolve. fold ok.
  destruct (List.filter ok prices) as [|p0 l] eqn:Hf.
  - apply list.Forall_forall. intros q Hq. destruct (ok q) eqn:E; [|done].
    assert (In q (List.filter ok prices)) as Hin
      by (apply filter_In; split; [by apply list_elem_of_In|done]). by rewrite Hf in Hin.
  - destruct (max_price_spec p0 l) as [Hin Hmax].
    assert (forall q, q ∈ p0 :: l <-> q ∈ prices /\ ok q = true) as Hmem.
    { intros q. rewrite <- Hf, !list_elem_of_In. apply filter_In. }
    apply Hmem in Hin as Hp. destruct Hp as [Hp Hok]. split; [done|]. split; [done|].
    intros q Hq Hokq Hne. destruct (price_rank_lt q (max_price p0 l)) eqn:E; [done|]. exfalso.
    apply Hne. specialize (Hmax q ltac:(by apply Hmem)).
    destruct (equal_rank _ _ E Hmax) as [Hv He].
    apply (unambiguous_spec [] prices Hu); [set_solver|done|done| |done].
    unfold ok, eligible in Hok, Hokq. bool_inv. unfold price_prefix.
    destruct (mp_provider_version q) as [v|] eqn:Ev, (mp_provider_version (max_price p0 l)) as [w|] eqn:Ew;
      bool_inv; try congruence.
    + destruct Hv as [Hv _]. by destruct Hv.
    + destruct Hv as [_ Hv]. by destruct Hv.
Qed.

(** * Pricing *)

(** A price whose two rates have the same scale, with non-negative rates. *)
Record plain_price (p : ModelPrice) (ci co : Z) (s : nat) : Prop := {
  pp_input : mp_input_per_million p = Dec ci s;
  pp_output : mp_output_per_million p = Dec co s;
  pp_nonneg : 0 <= ci /\ 0 <= co
}.

Lemma cost_exact p ci co s us :
  plain_price p ci co s -> 0 <= input_tokens us -> 0 <= output_tokens us ->
  (ci * input_tokens us + co * output_tokens us) * 1000000000 < pow10 PRECISION ->
  cost_nanos p us = dceil (Dec ((ci * input_tokens us + co * output_tokens us) * 1000000000) (s + 6)).
Proof.
  intros [Hi Ho [Hci Hco]] Hin Hout Hlt. unfold cost_nanos, money_to_nanos. rewrite Hi, Ho.
  assert (0 <= ci * input_tokens us /\ 0 <= co * output_tokens us) as [H1 H2] by nia.
  unfold dmul_int at 2 3. simpl.
  rewrite !(dround_exact (Dec _ s)) by (apply exact28_spec; lia).
  unfold dadd. cbn [dcoef dscale]. rewrite Nat.leb_refl, Nat.sub_diag. unfold pow10 at 1. simpl.
  rewrite Z.mul_1_r, (dround_exact (Dec _ s)) by (apply exact28_spec; lia).
  unfold dshift. cbn [dcoef dscale]. rewrite (dround_exact (Dec _ (s + 6))) by (apply exact28_spec; lia).
  unfold dmul_int. cbn [dcoef dscale]. by rewrite dround_exact by (apply exact28_spec; lia).
Qed.

(** A call is charged the exact price rounded up to the next nano, never less:
    as long as the amount fits the 28 digits of the decimal context, [cost_nanos]
    is the least number of nanos that covers the rates times the tokens. *)
Theorem cost_is_ceiling p ci co s us z :
  plain_price p ci co s -> 0 <= input_tokens us -> 0 <= output_tokens us ->
  (ci * input_tokens us + co * output_tokens us) * 1000000000 < pow10 PRECISION ->
  (cost_nanos p us <= z <->
   (ci * input_tokens us + co * output_tokens us) * 1000000000 <= z * pow10 (s + 6)).
Proof. intros. rewrite (cost_exact p ci co s) by done. by rewrite dceil_spec. Qed.

(** The hold covers the call: when a call uses no more input than the byte
    estimate and no more output than its cap, and the price did not change, its
    amount is at most what [begin] reserved. *)
Theorem hold_covers_usage sv r p ci co s cap hold us :
  plain_price p ci co s -> reservation sv r (Some p) = Ok hold -> is_Some (sv_limit sv) ->
  gr_max_output_tokens r = Some cap ->
  0 <= input_tokens us <= input_estimate r -> 0 <= output_tokens us <= cap ->
  (ci * input_estimate r + co * cap) * 1000000000 < pow10 PRECISION ->
  cost_nanos p us <= hold.
Proof.
  intros Hp Hr [limit Hl] Hcap Hin Hout Hlt. unfold reservation in Hr. rewrite Hl, Hcap in Hr.
  injection Hr as <-. set (est := {| input_tokens := input_estimate r |}).
  assert (cost_nanos p us <= cost_nanos p est) as Hle.
  { pose proof (pp_nonneg _ _ _ _ Hp) as [Hci Hco].
    assert (ci * input_tokens us + co * output_tokens us <= ci * input_estimate r + co * cap) by nia.
    rewrite (cost_exact p ci co s us) by (done || lia).
    rewrite (cost_exact p ci co s est) by (done || (simpl; lia)).
    apply dceil_spec. simpl. pose proof (dceil_spec
      (Dec ((ci * input_estimate r + co * cap) * 1000000000) (s + 6))
      (dceil (Dec ((ci * input_estimate r + co * cap) * 1000000000) (s + 6)))) as [Hd _].
    specialize (Hd ltac:(lia)). simpl in Hd. lia. }
  destruct (Z.ltb_spec (sv_minimum sv) (cost_nanos p est)); lia.
Qed.

(** * Every wrapped call is settled *)

Lemma settle_claims d id tenant s c d' b :
  ledger_ok d -> c ∈ charges d -> claimable id tenant c = true ->
  settle d id tenant s = Ok (d', b) -> b = true /\ settled_charge s c ∈ charges d'.
Proof.
  intros Hd Hin Hc Hs.
  pose proof (settle_inv _ _ _ _ _ _ Hs Hd) as [[-> ->]|(x & -> & Hx & _ & Hu & _ & Hch & _)].
  - exfalso. unfold settle in Hs.
    destruct (List.find (claimable id tenant) (charges d)) as [y|] eqn:Hf.
    + clear -Hs. res_inv.
    + eapply find_none in Hf; [|by apply list_elem_of_In]. congruence.
  - split; [done|]. rewrite Hch. apply list_elem_of_fmap. exists c. by rewrite Hc.
Qed.

Lemma begin_claimable sv inherited io now call_id r d t d' :
  begin sv inherited io now call_id r d = Ok (t, d') -> ledger_ok d ->
  ledger_ok d' /\ ct_call_id t = call_id /\ ct_request t = r /\
  exists c, c ∈ charges d' /\ claimable call_id (gr_tenant_id r) c = true.
Proof.
  intros Hb Hd. apply begin_inv in Hb as (c & Hr & Hs & Ha & Hi & Ht & ->).
  split; [by eapply reserve_ledger|]. split; [done|]. split; [done|].
  apply reserve_inv in Hr as (-> & _). exists c. split; [apply elem_of_app; right; by apply list_elem_of_singleton|].
  unfold claimable. by rewrite Hi, Ht, Hs, !bool_decide_eq_true_2.
Qed.

(** A call that was settled: its charge is there and no longer reserved. *)
Definition settled_in (d : db) (call_id : pystr) : Prop :=
  exists c, c ∈ charges d /\ ch_id c = call_id /\ ch_status c <> Reserved.

Lemma finish_settles sv inherited io t m status d d' b :
  finish sv inherited io t m status d = Ok (d', b) -> ledger_ok d -> status <> Reserved ->
  (exists c, c ∈ charges d /\ claimable (ct_call_id t) (gr_tenant_id (ct_request t)) c = true) ->
  ledger_ok d' /\ settled_in d' (ct_call_id t).
Proof.
  intros Hf%finish_inv Hd Hs (c & Hin & Hc). pose proof (settlement_status sv t m status Hs) as Hst.
  split; [by eapply settle_ledger|].
  destruct (settle_claims _ _ _ _ _ _ _ Hd Hin Hc Hf) as [_ Hin'].
  eexists. split; [exact Hin'|]. simpl. split; [|done]. unfold claimable in Hc. by bool_inv.
Qed.

(** A wrapped call never leaves its charge open: when [generate] (or [decide])
    ends with the provider's response or the provider's exception, the call's
    charge has been settled; it is left reserved only when the accounting itself
    reports an error. *)
Theorem generate_settles sv inherited io1 io2 now call_id r provider d d' out :
  ledger_ok d -> generate sv inherited io1 io2 now call_id r provider d = (d', out) ->
  out = CallReturned \/ out = CallRaised -> ledger_ok d' /\ settled_in d' call_id.
Proof.
  unfold generate. intros Hd Hg Hout.
  destruct (begin _ _ _ _ _ _ _) as [[t d1]|e] eqn:Hb;
    [|injection Hg as <- <-; by destruct Hout].
  apply begin_claimable in Hb as (Hd1 & <- & <- & Hc); [|done].
  destruct provider as [m|];
    (destruct (finish _ _ _ _ _ _ _) as [[d2 b]|e] eqn:Hf;
      [|injection Hg as <- <-; by destruct Hout]); injection Hg as <- <-.
  - by apply (finish_settles _ _ _ _ _ _ _ _ _ Hf).
  - by apply (finish_settles _ _ _ _ _ _ _ _ _ Hf).
Qed.

Lemma stream_loop_spec sv inherited io t chunks settled d d' settled' out raised :
  stream_loop sv inherited io t chunks settled d = (d', settled', out, raised) ->
  ledger_ok d ->
  (if settled then settled_in d (ct_call_id t)
   else exists c, c ∈ charges d /\
          claimable (ct_call_id t) (gr_tenant_id (ct_request t)) c = true) ->
  ledger_ok d' /\
  (if settled' then settled_in d' (ct_call_id t)
   else exists c, c ∈ charges d' /\
          claimable (ct_call_id t) (gr_tenant_id (ct_request t)) c = true).
Proof.
  revert settled d out. induction chunks as [|c chunks IH]; intros settled d out; simpl.
  { by intros [= <- <- <- <-]. }
  intros Hl Hd Hset. destruct (ck_is_final c && negb settled) eqn:Hfin.
  - apply andb_prop in Hfin as [_ Hns]. destruct settled; [done|].
    destruct (ck_response c) as [m|]; [|by injection Hl as <- <- <- <-].
    destruct (finish _ _ _ _ _ _ _) as [[d1 b]|] eqn:Hf; [|by injection Hl as <- <- <- <-].
    destruct (stream_loop _ _ _ _ chunks true d1) as [[[d2 s2] o2] e2] eqn:Hl2.
    injection Hl as <- <- <- <-.
    apply finish_settles in Hf as [H1 H2]; [|done|done|done]. by eapply IH.
  - destruct (stream_loop _ _ _ _ chunks settled d) as [[[d2 s2] o2] e2] eqn:Hl2.
    injection Hl as <- <- <- <-. by eapply IH.
Qed.

(** A streamed call is settled however the stream ends: when it is exhausted,
    when it raises, when the consumer closes it early or the task is cancelled,
    with or without a final chunk, the call's charge is no longer reserved
    afterwards unless the accounting reports an error. *)
Theorem stream_settles sv inherited io now call_id r chunks ending d d' out :
  ledger_ok d -> stream sv inherited io now call_id r chunks ending d = (d', out, None) ->
  ledger_ok d' /\ settled_in d' call_id.
Proof.
  unfold stream. intros Hd Hs. destruct (begin _ _ _ _ _ _ _) as [[t d1]|e] eqn:Hb; [|done].
  apply begin_claimable in Hb as (Hd1 & <- & <- & Hc); [|done].
  destruct (stream_loop _ _ _ _ _ _ _) as [[[d2 settled] o2] e2] eqn:Hl.
  apply stream_loop_spec in Hl as [Hd2 Hst]; [|done|done].
  destruct settled; [by injection Hs as <- <-|].
  destruct (finish _ _ _ _ _ _ _) as [[d3 b]|e] eqn:Hf; [|done]. injection Hs as <- <-.
  apply finish_settles in Hf; [done|done| |done]. by destruct (_ || _).
Qed.

(** * A concrete month *)
Module BillingExamples.
Definition price1 : ModelPrice :=
  {| mp_provider := u "p"; mp_model := u "m"; mp_provider_version := None;
     mp_price_version := u "v1"; mp_currency := u "USD"; mp_effective_from := 0;
     mp_input_per_million := Dec 250 2; mp_output_per_million := Dec 1000 2 |}.
Definition price2 : ModelPrice :=
  {| mp_provider := u "p"; mp_model := u "m"; mp_provider_version := Some (u "x");
     mp_price_version := u "v2"; mp_currency := u "USD"; mp_effective_from := 5;
     mp_input_per_million := Dec 300 2; mp_output_per_million := Dec 1200 2 |}.
Definition sv1 : Service :=
  make_service [price1; price2] (u "USD") (Some (Dec 1 0)) None None (u "llm").
Definition now1 : Z := 1785000000000000.
Definition req1 : GenerateRequest :=
  {| gr_messages := [u "hello"]; gr_decision_json := None; gr_provider := u "p";
     gr_model := u "m"; gr_request_id := u "r1"; gr_trace_id := u "t1"; gr_tenant_id := u "acme";
     gr_user_id := u "alice"; gr_max_output_tokens := Some 100 |}.
Definition meta1 : GenerationMetadata :=
  {| gm_request_id := u "r1"; gm_trace_id := u "t1"; gm_tenant_id := u "acme";
     gm_user_id := u "alice"; gm_provider := u "p"; gm_model := u "m"; gm_version := None;
     gm_usage := {| input_tokens := 12; output_tokens := 40; total_tokens := 52 |};
     gm_latency_ms := fone; gm_error_code := None; gm_metadata := [] |}.
Definition call1 := generate sv1 None true true now1 (u "id1") req1 (Some meta1) db0.
Definition d1 : db := call1.1.
Definition begun1 : ChargeTicket * db :=
  match begin sv1 None true now1 (u "id1") req1 db0 with
  | Ok td => td
  | Err _ => ({| ct_call_id := []; ct_request := req1; ct_started_at := 0 |}, db0)
  end.
Definition month1 : akey := (u "acme", u "USD", u "2026-07").
Definition settlement1 : Settlement := settlement_for sv1 begun1.1 (Some meta1) Completed.

Example spent1 :
  (account d1 month1, reserved_nanos (account begun1.2 month1))
  = ({| spent_nanos := 430000; reserved_nanos := 0 |}, 1652500).
Proof. vm_compute. reflexivity. Qed.
End BillingExamples.
Import BillingExamples.

Lemma ledger_balances_witness : ledger_ok d1.
Proof.
  apply ledger_balances. exact (generate_steps sv1 None true true now1 (u "id1") req1 (Some meta1) db0).
Defined.

Lemma settle_once_witness :
  settle d1 (u "id1") (u "acme") settlement1 = Ok (d1, false).
Proof.
  apply (settle_once begun1.2 (u "id1") (u "acme") settlement1 d1 true settlement1);
    [|discriminate|vm_compute; reflexivity].
  apply (step_ledger db0); [|apply ledger_empty].
  apply (step_begin sv1 None true now1 (u "id1") req1 db0 begun1.1). vm_compute. reflexivity.
Defined.

Lemma begin_within_budget_witness :
  spent_nanos (account begun1.2 month1) + reserved_nanos (account begun1.2 month1) <= 1000000000.
Proof.
  apply (begin_within_budget sv1 None true now1 (u "id1") req1 db0 begun1.1 begun1.2 1000000000);
    vm_compute; reflexivity.
Defined.

Lemma budget_never_exceeded_witness :
  spent_nanos (account begun1.2 month1) + reserved_nanos (account begun1.2 month1) <= 1000000000.
Proof.
  apply (budget_never_exceeded 1000000000); [lia|]. apply rtc_once.
  apply (frugal_begin _ sv1 None true now1 (u "id1") req1 db0 begun1.1); vm_compute; reflexivity.
Defined.

Lemma metrics_reconcile_witness :
  bm_priced_cost (metrics d1 (u "acme") (u "USD") (month_start now1) (now1 + 1)) = 430000.
Proof.
  transitivity (bs_spent (budget d1 (u "acme") (u "USD") (u "2026-07") None));
    [|vm_compute; reflexivity].
  apply (metrics_reconcile d1 (u "acme") (u "USD") (u "2026-07") (month_start now1) (now1 + 1)).
  - apply (steps_ledger db0); [|apply ledger_empty].
    exact (generate_steps sv1 None true true now1 (u "id1") req1 (Some meta1) db0).
  - assert (forallb (fun c => in_period (u "acme") (u "USD") (month_start now1) (now1 + 1) c
      && bool_decide (charge_key c = month1)) (charges d1) = true) as Hall
      by (vm_compute; reflexivity).
    rewrite forallb_forall in Hall. intros c Hc%list_elem_of_In.
    destruct (andb_prop _ _ (Hall c Hc)) as [Hp Hk]. apply bool_decide_eq_true in Hk.
    split; [intros _; exact Hk|intros _; exact Hp].
Defined.

Lemma resolve_best_witness :
  resolve [price1; price2] (u "p") (u "m") (Some (u "x")) (u "USD") 10 = Some price2 /\
  price_rank_lt price1 price2 = true.
Proof.
  split; [vm_compute; reflexivity|].
  pose proof (resolve_best [price1; price2] (u "p") (u "m") (Some (u "x")) (u "USD") 10 eq_refl) as H.
  destruct H as (_ & _ & H). apply H; [by left|vm_compute; reflexivity|discriminate].
Defined.

Lemma cost_is_ceiling_witness :
  cost_nanos price1 {| input_tokens := 12; output_tokens := 40; total_tokens := 52 |} <= 430000.
Proof.
  apply (cost_is_ceiling price1 250 1000 2
    {| input_tokens := 12; output_tokens := 40; total_tokens := 52 |});
    [by split|simpl; lia|simpl; lia|vm_compute; reflexivity|vm_compute; discriminate].
Defined.

Lemma hold_covers_usage_witness :
  cost_nanos price1 {| input_tokens := 12; output_tokens := 40; total_tokens := 52 |} <= 1652500.
Proof.
  apply (hold_covers_usage sv1 req1 price1 250 1000 2 100); try (vm_compute; reflexivity).
  - by split.
  - vm_compute. by eexists.
  - vm_compute. split; discriminate.
  - simpl. lia.
Defined.

Lemma generate_settles_witness : settled_in d1 (u "id1").
Proof.
  apply (proj2 (generate_settles sv1 None true true now1 (u "id1") req1 (Some meta1) db0 d1
      CallReturned ledger_empty ltac:(vm_compute; reflexivity) (or_introl eq_refl))).
Defined.

Lemma stream_settles_witness :
  exists d', stream sv1 None true now1 (u "id2") req1 [{| ck_is_final := false; ck_response := None |}]
               StreamClosed db0 = (d', [{| ck_is_final := false; ck_response := None |}], None) /\
    settled_in d' (u "id2").
Proof.
  eexists. split; [vm_compute; reflexivity|].
  eapply (stream_settles sv1 None true now1 (u "id2") req1 [{| ck_is_final := false; ck_response := None |}]
    StreamClosed db0); [apply ledger_empty|vm_compute; reflexivity].
Defined.
