(* ===== verification/Chunker.v ===== *)
(** The fixed-size chunker of the ingestion pipeline.

    Models [packages/ingestion/chunkers/fixed_size.py] with the documents of
    [packages/ingestion/domain.py] and the canonical text of
    [packages/ingestion/cleaner.py].  A document's sections become one sequence of
    tokens; [split] cuts it into overlapping windows and builds a chunk of each.

    Unicode normalisation and the two digests, which the source takes from
    [unicodedata], [hashlib] and [uuid], are the class [ChunkLib]; a digest fails
    on text that UTF-8 cannot encode. *)

From Stdlib Require Import ZArith String.
From S2P Require Import Prelude Float64 PyVal.
From stdpp Require Import base list numbers.

#[local] Open Scope Z_scope.

Class ChunkLib := {
  nfkc : pystr -> pystr;
  sha256_hex : pystr -> option pystr;
  uuid5_name : pystr -> option pystr
}.

(** * Documents *)

Record Section_ : Type := {
  s_section_id : pystr;
  s_tenant_id : pystr;
  s_document_id : pystr;
  s_version_id : pystr;
  s_source_type : pystr;
  s_source_uri : option pystr;
  s_title_path : list pystr;
  s_content : pystr;
  s_page_start : option Z;
  s_page_end : option Z;
  s_acl : pydict
}.

Record ParsedDocument : Type := {
  d_tenant_id : pystr;
  d_document_id : pystr;
  d_version_id : pystr;
  d_source_type : pystr;
  d_source_uri : option pystr;
  d_sections : list Section_
}.

Record Chunk : Type := {
  ch_chunk_id : pystr;
  ch_tenant_id : pystr;
  ch_document_id : pystr;
  ch_version_id : pystr;
  ch_source_type : pystr;
  ch_source_uri : option pystr;
  ch_title_path : list pystr;
  ch_content : pystr;
  ch_page_start : option Z;
  ch_page_end : option Z;
  ch_token_count : Z;
  ch_acl : pydict;
  ch_checksum : pystr;
  ch_section_ids : list pystr;
  ch_metadata : pydict
}.

(** The exceptions, with the [reason] of their details. *)
Inductive chunk_error : Type :=
| InvalidChunkConfig (reason : pystr)
| EmptyChunkContent (reason : pystr)
| GenericDocumentChunk (reason : pystr)
| ChunkValidation
| UnicodeEncodeError
| OverflowError
| IndexError
| OutOfFuel.

(** [Chunk(...)]: the field validators of the model. *)
Definition required (s : pystr) : result chunk_error pystr :=
  match strip s with [] => Err ChunkValidation | n => Ok n end.
Definition nonblank (l : list pystr) : list pystr :=
  strip <$> List.filter (fun s => match strip s with [] => false | _ => true end) l.
Definition required_list (l : list pystr) : result chunk_error (list pystr) :=
  match nonblank l with [] => Err ChunkValidation | n => Ok n end.
Definition page_ok (p : option Z) : bool := match p with Some v => 1 <=? v | None => true end.
Definition _validate_page_range (ps pe : option Z) : bool :=
  page_ok ps && page_ok pe
  && match ps, pe with Some a, Some b => a <=? b | _, _ => true end.

Definition make_chunk (c : Chunk) : result chunk_error Chunk :=
  cid ← required (ch_chunk_id c); tenant ← required (ch_tenant_id c);
  doc ← required (ch_document_id c); ver ← required (ch_version_id c);
  st ← required (ch_source_type c); sum ← required (ch_checksum c);
  _ ← required (ch_content c);
  title ← required_list (ch_title_path c); ids ← required_list (ch_section_ids c);
  _ ← raise_if (ch_token_count c <=? 0) ChunkValidation;
  _ ← raise_if (negb (_validate_page_range (ch_page_start c) (ch_page_end c))) ChunkValidation;
  mret {| ch_chunk_id := cid; ch_tenant_id := tenant; ch_document_id := doc;
          ch_version_id := ver; ch_source_type := st;
          ch_source_uri := match ch_source_uri c with
                           | None => None
                           | Some v => match strip v with [] => None | n => Some n end
                           end;
          ch_title_path := title; ch_content := ch_content c; ch_page_start := ch_page_start c;
          ch_page_end := ch_page_end c; ch_token_count := ch_token_count c; ch_acl := ch_acl c;
          ch_checksum := sum; ch_section_ids := ids; ch_metadata := ch_metadata c |}.

(** [_sections_required]: a document has sections, with distinct ids. *)
Definition _sections_required (l : list Section_) : bool :=
  negb (bool_decide (l = [])) && bool_decide (NoDup (s_section_id <$> l)).

(** * Canonical text *)

Definition LF : N := 10.
Definition CR : N := 13.

(** [s.replace("\r\n", "\n").replace("\r", "\n")]. *)
Fixpoint replace_crlf (s : pystr) : pystr :=
  match s with
  | [] => []
  | c :: s' =>
      match s' with
      | d :: s'' => if (c =? CR)%N && (d =? LF)%N then LF :: replace_crlf s'' else c :: replace_crlf s'
      | [] => [c]
      end
  end.

Definition _ZERO_WIDTH : list N := [8203; 8204; 8205; 65279]%N.

(** [_MULTIPLE_BLANK_LINES.sub("\n\n", s)]: of a run of line feeds only two stay;
    [n] is the length of the run so far. *)
Fixpoint _MULTIPLE_BLANK_LINES (n : nat) (s : pystr) : pystr :=
  match s with
  | [] => []
  | c :: s' =>
      if (c =? LF)%N
      then if (n <? 2)%nat then c :: _MULTIPLE_BLANK_LINES (S n) s' else _MULTIPLE_BLANK_LINES n s'
      else c :: _MULTIPLE_BLANK_LINES 0 s'
  end.

Section Canonical.
Context `{ChunkLib}.

Definition canonicalize_content (content : pystr) : pystr :=
  let normalized := replace_char CR LF (replace_crlf (nfkc content)) in
  let visible := List.filter (fun c => negb (bool_decide (c ∈ _ZERO_WIDTH))) normalized in
  let lines := rstrip <$> split_on LF visible in
  _MULTIPLE_BLANK_LINES 0 (strip (PyVal.join [LF] lines)).

Definition stable_content_checksum (content : pystr) : result chunk_error pystr :=
  match sha256_hex (canonicalize_content content) with
  | Some h => Ok h
  | None => Err UnicodeEncodeError
  end.
End Canonical.

(** * Tokens *)

Definition is_cjk (c : N) : bool := ((19968 <=? c) && (c <=? 40959))%N.

(** The matches of [_TOKEN_PATTERN]: a CJK character where a match starts on
    one, otherwise the longest run of characters that are not white space.
    [run] is the start of the run the scan is in. *)
Fixpoint token_spans (s : pystr) (pos : nat) (run : option nat) : list (nat * nat) :=
  match s with
  | [] => match run with Some start => [(start, pos)] | None => [] end
  | c :: s' =>
      match run with
      | Some start =>
          if is_space c then (start, pos) :: token_spans s' (S pos) None
          else token_spans s' (S pos) run
      | None =>
          if is_space c then token_spans s' (S pos) None
          else if is_cjk c then (pos, S pos) :: token_spans s' (S pos) None
          else token_spans s' (S pos) (Some pos)
      end
  end.

Definition slice {A} (i j : nat) (l : list A) : list A := take (j - i) (drop i l).

Definition _split_tokens (content : pystr) : list pystr :=
  (fun ij => slice ij.1 ij.2 content) <$> token_spans content 0 None.

Record TokenRef : Type := {
  t_text : pystr;
  t_section : Section_;
  t_section_content : pystr;
  t_start : nat;
  t_end : nat
}.

Definition _iter_token_refs (content : pystr) (section : Section_) : list TokenRef :=
  (fun ij => {| t_text := slice ij.1 ij.2 content; t_section := section;
                t_section_content := content; t_start := ij.1; t_end := ij.2 |})
  <$> token_spans content 0 None.

(** * Configuration *)

Record FixedSizeChunkerConfig : Type := {
  min_tokens : Z;
  max_tokens : Z;
  overlap_ratio : float
}.

(** [int(self.max_tokens * self.overlap_ratio)]. *)
Definition overlap_int (c : FixedSizeChunkerConfig) : Z :=
  ftrunc (fmul (fofZ (max_tokens c)) (overlap_ratio c)).
Definition overlap_tokens (c : FixedSizeChunkerConfig) : Z := Z.max 1 (overlap_int c).

Definition make_chunker_config (c : FixedSizeChunkerConfig)
    : result chunk_error FixedSizeChunkerConfig :=
  _ ← raise_if (negb (isfinite (overlap_ratio c)))
        (InvalidChunkConfig (u "overlap_ratio_must_be_finite"));
  _ ← raise_if (min_tokens c <=? 0) (InvalidChunkConfig (u "min_tokens_must_be_positive"));
  _ ← raise_if (max_tokens c <? min_tokens c)
        (InvalidChunkConfig (u "max_tokens_must_be_at_least_min_tokens"));
  _ ← raise_if (flt (overlap_ratio c) (flit 1 10) || flt (flit 1 5) (overlap_ratio c))
        (InvalidChunkConfig (u "overlap_ratio_out_of_range"));
  _ ← raise_if (negb (isfinite (fmul (fofZ (max_tokens c)) (overlap_ratio c)))) OverflowError;
  _ ← raise_if (max_tokens c <=? overlap_tokens c)
        (InvalidChunkConfig (u "overlap_must_be_smaller_than_window"));
  mret c.

(** * The chunker *)

Section Chunker.
Context `{ChunkLib} (config : FixedSizeChunkerConfig).
(** The injected estimator: [None] when it raises. *)
Context (token_estimator : pystr -> option Z).

Definition estimate_tokens (content : pystr) : Z :=
  match canonicalize_content content with
  | [] => 0
  | canonical => Z.of_nat (length (_split_tokens canonical))
  end.

Definition _safe_estimate (content : pystr) : result chunk_error Z :=
  match token_estimator content with
  | None => Err (GenericDocumentChunk (u "token_estimator_failed"))
  | Some estimated =>
      let estimated := if estimated <=? 0 then estimate_tokens content else estimated in
      _ ← raise_if (estimated <=? 0) (GenericDocumentChunk (u "token_estimator_non_positive"));
      mret estimated
  end.

Definition _validate_section_boundary (document : ParsedDocument) (section : Section_)
    : result chunk_error unit :=
  raise_if (negb (bool_decide (s_tenant_id section = d_tenant_id document)
                  && bool_decide (s_document_id section = d_document_id document)
                  && bool_decide (s_version_id section = d_version_id document)
                  && bool_decide (s_source_type section = d_source_type document)
                  && bool_decide (s_source_uri section = d_source_uri document)))
    (GenericDocumentChunk (u "section_boundary_mismatch")).

(** The loop of [_collect_tokens] over the sections. *)
Fixpoint collect_sections (document : ParsedDocument) (sections : list Section_)
    : result chunk_error (list TokenRef) :=
  match sections with
  | [] => mret []
  | section :: rest =>
      _ ← _validate_section_boundary document section;
      let content := canonicalize_content (s_content section) in
      _ ← raise_if (bool_decide (content = [])) (EmptyChunkContent (u "empty_section_content"));
      _ ← _safe_estimate content;
      more ← collect_sections document rest;
      mret (_iter_token_refs content section ++ more)
  end.
Definition _collect_tokens (document : ParsedDocument) : result chunk_error (list TokenRef) :=
  collect_sections document (d_sections document).

(** [_adjust_end_for_tail], for [n] tokens. *)
Definition _adjust_end_for_tail (n start stop : Z) : Z :=
  if stop =? n then stop else
  let next_chunk_length := n - (stop - overlap_tokens config) in
  if min_tokens config <=? next_chunk_length then stop else
  let deficit := min_tokens config - next_chunk_length in
  let adjusted_end := Z.max (start + min_tokens config) (stop - deficit) in
  if (adjusted_end <=? start) || (stop <=? adjusted_end) then stop else adjusted_end.

(** The parts of [_chunk_content]: the text of each stretch of tokens of one
    section; the state is that of the source's loop. *)
Fixpoint content_parts (tokens : list TokenRef) (current : option (pystr * pystr * nat * nat))
    : list pystr :=
  match tokens with
  | [] => match current with
          | Some (_, content, i, j) => [strip (slice i j content)]
          | None => []
          end
  | t :: rest =>
      match current with
      | Some (id, content, i, j) =>
          if bool_decide (s_section_id (t_section t) = id)
          then content_parts rest (Some (id, content, i, t_end t))
          else strip (slice i j content)
               :: content_parts rest (Some (s_section_id (t_section t), t_section_content t,
                                            t_start t, t_end t))
      | None => content_parts rest (Some (s_section_id (t_section t), t_section_content t,
                                          t_start t, t_end t))
      end
  end.
Definition _chunk_content (window : list TokenRef) : pystr :=
  canonicalize_content
    (PyVal.join [LF; LF] (List.filter (fun p => negb (bool_decide (p = [])))
                            (content_parts window None))).

Fixpoint unique_sections (tokens : list TokenRef) (seen : list pystr) : list Section_ :=
  match tokens with
  | [] => []
  | t :: rest =>
      let id := s_section_id (t_section t) in
      if bool_decide (id ∈ seen) then unique_sections rest seen
      else t_section t :: unique_sections rest (id :: seen)
  end.
Definition _ordered_unique_sections (tokens : list TokenRef) : list Section_ :=
  unique_sections tokens [].

Definition _validate_acl_consistency (sections : list Section_) : result chunk_error unit :=
  match sections with
  | [] => mret tt
  | first :: rest =>
      raise_if (existsb (fun s => negb (py_eq (VDict (s_acl s)) (VDict (s_acl first)))) rest)
        (GenericDocumentChunk (u "acl_mismatch"))
  end.

Definition min_list (l : list Z) : option Z :=
  match l with [] => None | x :: l' => Some (foldl Z.min x l') end.
Definition max_list (l : list Z) : option Z :=
  match l with [] => None | x :: l' => Some (foldl Z.max x l') end.
Definition _page_range (sections : list Section_) : option Z * option Z :=
  (min_list (omap s_page_start sections), max_list (omap s_page_end sections)).

(** The common prefix of the title paths, as [zip] walks them. *)
Fixpoint common_titles (first : list pystr) (rest : list (list pystr)) : list pystr :=
  match first with
  | [] => []
  | x :: first' =>
      if forallb (fun r => match r with y :: _ => bool_decide (y = x) | [] => false end) rest
      then x :: common_titles first' (tail <$> rest)
      else []
  end.
Definition _chunk_title_path (title_paths : list (list pystr)) : result chunk_error (list pystr) :=
  match title_paths with
  | [] => Err IndexError
  | [p] => mret p
  | p :: rest => match common_titles p rest with [] => mret p | common => mret common end
  end.

Definition _stable_chunk_id (tenant document version : pystr) (section_ids : list pystr)
    (chunk_index : Z) (checksum : pystr) : result chunk_error pystr :=
  match uuid5_name (PyVal.join (u "|") [tenant; document; version;
                      PyVal.join (u ",") section_ids; str_of_Z chunk_index; checksum]) with
  | Some id => Ok id
  | None => Err UnicodeEncodeError
  end.

Definition _build_chunk (document : ParsedDocument) (window : list TokenRef) (chunk_index : Z)
    : result chunk_error Chunk :=
  let sections := _ordered_unique_sections window in
  _ ← _validate_acl_consistency sections;
  let content := _chunk_content window in
  _ ← raise_if (bool_decide (content = [])) (EmptyChunkContent (u "empty_chunk_content"));
  match sections with
  | [] => Err IndexError
  | first :: _ =>
      token_count ← _safe_estimate content;
      _ ← raise_if (max_tokens config <? token_count)
            (GenericDocumentChunk (u "chunk_token_budget_exceeded"));
      checksum ← stable_content_checksum content;
      let section_ids := s_section_id <$> sections in
      let title_paths := s_title_path <$> sections in
      let '(page_start, page_end) := _page_range sections in
      let overlap_token_count := if chunk_index =? 0 then 0 else overlap_int config in
      chunk_id ← _stable_chunk_id (d_tenant_id document) (d_document_id document)
                   (d_version_id document) section_ids chunk_index checksum;
      title_path ← _chunk_title_path title_paths;
      make_chunk
        {| ch_chunk_id := chunk_id; ch_tenant_id := d_tenant_id document;
           ch_document_id := d_document_id document; ch_version_id := d_version_id document;
           ch_source_type := d_source_type document; ch_source_uri := d_source_uri document;
           ch_title_path := title_path; ch_content := content; ch_page_start := page_start;
           ch_page_end := page_end; ch_token_count := token_count; ch_acl := s_acl first;
           ch_checksum := checksum; ch_section_ids := section_ids;
           ch_metadata :=
             [(u "title_paths", VList ((fun p => VList (VStr <$> p)) <$> title_paths));
              (u "source_section_count", VInt (Z.of_nat (length section_ids)));
              (u "overlap_ratio", VFloat (overlap_ratio config));
              (u "overlap_token_count", VInt overlap_token_count);
              (u "chunk_index", VInt chunk_index)] |}
  end.

(** The loop of [split]; every turn moves [start] forward, so the number of
    tokens is fuel enough ([split_loop_plan]). *)
Fixpoint split_loop (fuel : nat) (document : ParsedDocument) (tokens : list TokenRef)
    (start chunk_index : Z) : result chunk_error (list Chunk) :=
  match fuel with
  | O => Err OutOfFuel
  | S fuel' =>
      let n := Z.of_nat (length tokens) in
      if start <? n then
        let stop := _adjust_end_for_tail n start (Z.min (start + max_tokens config) n) in
        let window := slice (Z.to_nat start) (Z.to_nat stop) tokens in
        chunk ← _build_chunk document window chunk_index;
        if stop =? n then mret [chunk]
        else
          let next_start := Z.max 0 (stop - overlap_tokens config) in
          if next_start <=? start
          then Err (InvalidChunkConfig (u "overlap_must_advance_window"))
          else rest ← split_loop fuel' document tokens next_start (chunk_index + 1);
               mret (chunk :: rest)
      else mret []
  end.

Definition split (document : ParsedDocument) : result chunk_error (list Chunk) :=
  tokens ← _collect_tokens document;
  _ ← raise_if (bool_decide (length tokens = 0%nat)) (EmptyChunkContent (u "empty_document_content"));
  split_loop (length tokens) document tokens 0 0.
End Chunker.

(** * The windows *)

Section Windows.
Context (config : FixedSizeChunkerConfig).
Abbreviation ov := (overlap_tokens config).

(** The windows [split] cuts [n] tokens into from [start] on: each but the last
    has between [min_tokens] and [max_tokens] tokens, and the next one starts
    [overlap_tokens] before its end; when the sizes leave room for it, what is
    left for the next windows is at least [min_tokens]. *)
Inductive plan (n : Z) : Z -> list (Z * Z) -> Prop :=
| plan_last s : 0 <= s < n -> n - s <= max_tokens config -> plan n s [(s, n)]
| plan_more s e ws :
    0 <= s -> s + min_tokens config <= e -> e - s <= max_tokens config -> e < n -> s < e - ov ->
    (2 * min_tokens config <= max_tokens config + ov -> min_tokens config <= n - (e - ov)) ->
    plan n (e - ov) ws -> plan n s ((s, e) :: ws).

Lemma config_bounds c : make_chunker_config c = Ok config ->
  0 < min_tokens config <= max_tokens config /\ 1 <= ov < max_tokens config.
Proof.
  unfold make_chunker_config. intros Hc. res_inv. bool_inv. split; [lia|].
  unfold overlap_tokens in *. lia.
Qed.

(** One turn of the loop. *)
Lemma adjust_end n start :
  0 < min_tokens config <= max_tokens config -> 1 <= ov < max_tokens config ->
  0 <= start < n ->
  let stop := _adjust_end_for_tail config n start (Z.min (start + max_tokens config) n) in
  (stop = n /\ n - start <= max_tokens config)
  \/ (start + min_tokens config <= stop /\ stop - start <= max_tokens config /\ stop < n
      /\ start < stop - ov
      /\ (2 * min_tokens config <= max_tokens config + ov -> min_tokens config <= n - (stop - ov))).
Proof.
  intros Hm Ho Hs. unfold _adjust_end_for_tail. cbv zeta.
  destruct (Z.eqb_spec (Z.min (start + max_tokens config) n) n) as [E|E]; [left; lia|right].
  destruct (Z.leb_spec (min_tokens config)
              (n - (Z.min (start + max_tokens config) n - ov))); [lia|].
  destruct (_ || _) eqn:Eg; [apply orb_true_iff in Eg as [Eg|Eg]|]; bool_inv; lia.
Qed.

Lemma plan_start n s ws : plan n s ws -> 0 <= s < n.
Proof. induction 1; lia. Qed.

Lemma plan_bounds n s ws :
  0 < min_tokens config ->
  plan n s ws -> Forall (fun w => s <= w.1 < w.2 /\ w.2 <= n /\ w.2 - w.1 <= max_tokens config) ws.
Proof.
  intros Hm. induction 1 as [s Hs Hl|s e ws ? ? ? ? ? _ Hp IH]; constructor; simpl; try lia; [done|].
  eapply list.Forall_impl; [exact IH|]. simpl. intros w ?. lia.
Qed.

Lemma plan_covers n s ws k :
  1 <= ov -> plan n s ws -> s <= k < n -> exists w, w ∈ ws /\ w.1 <= k < w.2.
Proof.
  intros Hov. induction 1 as [s Hs Hl|s e ws ? ? ? ? ? _ Hp IH]; intros Hk.
  - exists (s, n). split; [by apply list_elem_of_singleton|]. simpl. lia.
  - destruct (Z.lt_ge_cases k e) as [Hlt|Hge].
    + exists (s, e). split; [left|]. simpl. lia.
    + destruct IH as (w & Hw & Hkw); [lia|]. exists w. split; [by right|done].
Qed.

Lemma plan_chain n s ws i w w' :
  plan n s ws -> ws !! i = Some w -> ws !! S i = Some w' ->
  w'.1 = w.2 - ov /\ w.1 < w'.1 /\ w.1 + min_tokens config <= w.2.
Proof.
  intros Hp. revert i. induction Hp as [s Hs Hl|s e ws ? ? ? ? ? _ Hp IH]; intros [|i] Hi Hi'; try done.
  - simpl in *. injection Hi as <-. inversion Hp; subst; simpl in *; simplify_eq; simpl; lia.
  - simpl in *. by eapply IH.
Qed.

Lemma plan_min n s ws :
  2 * min_tokens config <= max_tokens config + ov -> min_tokens config <= n - s -> plan n s ws ->
  Forall (fun w => min_tokens config <= w.2 - w.1) ws.
Proof.
  intros Hr Hn Hp. induction Hp as [s Hs Hl|s e ws ? ? ? ? ? Hq Hp IH]; constructor; simpl; try lia;
    [constructor|]. apply IH. auto.
Qed.
End Windows.

Section Correct.
Context `{ChunkLib} (config : FixedSizeChunkerConfig) (est : pystr -> option Z).
Implicit Types (doc : ParsedDocument) (tokens : list TokenRef).

(** The chunks of a list of windows, in order. *)
Fixpoint build_all doc tokens (ws : list (Z * Z)) (index : Z) : result chunk_error (list Chunk) :=
  match ws with
  | [] => mret []
  | w :: ws' =>
      chunk ← _build_chunk config est doc (slice (Z.to_nat w.1) (Z.to_nat w.2) tokens) index;
      rest ← build_all doc tokens ws' (index + 1);
      mret (chunk :: rest)
  end.

Lemma split_loop_plan fuel doc tokens start index :
  0 < min_tokens config <= max_tokens config -> 1 <= overlap_tokens config < max_tokens config ->
  0 <= start < Z.of_nat (length tokens) -> Z.of_nat (length tokens) - start <= Z.of_nat fuel ->
  exists ws, plan config (Z.of_nat (length tokens)) start ws
  /\ split_loop config est fuel doc tokens start index = build_all doc tokens ws index.
Proof.
  intros Hm Ho. revert start index. induction fuel as [|fuel IH]; intros start index Hs Hf; [lia|].
  cbn [split_loop]. set (n := Z.of_nat (length tokens)) in *.
  rewrite (proj2 (Z.ltb_lt _ _)) by lia. cbv zeta.
  pose proof (adjust_end config n start Hm Ho Hs) as Ha. cbv zeta in Ha.
  set (stop := _adjust_end_for_tail config n start _) in *.
  destruct Ha as [[-> Hl]|(H1 & H2 & H3 & H4 & H5)].
  - exists [(start, n)]. split; [by constructor|]. simpl. rewrite Z.eqb_refl.
    by destruct (_build_chunk _ _ _ _ _).
  - rewrite (proj2 (Z.eqb_neq _ _)) by lia.
    rewrite Z.max_r by lia. rewrite (proj2 (Z.leb_gt _ _)) by lia.
    destruct (IH (stop - overlap_tokens config) (index + 1)) as (ws & Hp & Hb); [lia..|].
    exists ((start, stop) :: ws). split; [by apply plan_more; try lia|]. simpl. by rewrite Hb.
Qed.

(** C39: Splitting always terminates with the chunks of a complete list of
    windows, and the window-advance error cannot occur: the windows cover every
    token, start at the first, hold at most [max_tokens] tokens, each overlaps
    its successor by exactly [overlap_tokens] and starts before it, only the
    last can have fewer than [min_tokens]; and not even that when
    [2 * min_tokens <= max_tokens + overlap_tokens] and the document has
    [min_tokens]. *)
Theorem split_windows doc tokens c :
  make_chunker_config c = Ok config -> _collect_tokens est doc = Ok tokens -> tokens <> [] ->
  let n := Z.of_nat (length tokens) in
  exists ws,
    split config est doc = build_all doc tokens ws 0
    /\ fst <$> head ws = Some 0
    /\ (forall k, 0 <= k < n -> exists w, w ∈ ws /\ w.1 <= k < w.2)
    /\ Forall (fun w => 0 <= w.1 < w.2 /\ w.2 <= n /\ w.2 - w.1 <= max_tokens config) ws
    /\ (forall i w w', ws !! i = Some w -> ws !! S i = Some w' ->
          w'.1 = w.2 - overlap_tokens config /\ w.1 < w'.1 /\ w.1 + min_tokens config <= w.2)
    /\ (2 * min_tokens config <= max_tokens config + overlap_tokens config ->
        min_tokens config <= n -> Forall (fun w => min_tokens config <= w.2 - w.1) ws).
Proof.
  intros Hc Ht Hne n. destruct (config_bounds config c Hc) as [Hm Ho].
  assert (Hn : 0 < n) by (unfold n; destruct tokens; [done|simpl; lia]).
  destruct (split_loop_plan (length tokens) doc tokens 0 0 Hm Ho) as (ws & Hp & Hb); [lia..|].
  exists ws. split_and!.
  - unfold split. rewrite Ht. unfold mbind, result_bind, raise_if.
    rewrite bool_decide_false by (destruct tokens; done). exact Hb.
  - by inversion Hp.
  - intros k Hk. eapply plan_covers; [|exact Hp|done]. lia.
  - eapply plan_bounds; [|exact Hp]. lia.
  - intros i w w'. by apply (plan_chain config n 0).
  - intros H2 Hmin. eapply plan_min; [exact H2| |exact Hp]. lia.
Qed.

(** ** Provenance and access control *)

Definition in_document doc (s : Section_) : Prop :=
  s ∈ d_sections doc /\ s_tenant_id s = d_tenant_id doc /\ s_document_id s = d_document_id doc
  /\ s_version_id s = d_version_id doc /\ s_source_type s = d_source_type doc
  /\ s_source_uri s = d_source_uri doc.

Lemma collect_sections_inv doc sections tokens :
  collect_sections est doc sections = Ok tokens -> sections ⊆ d_sections doc ->
  Forall (fun t => in_document doc (t_section t)) tokens.
Proof.
  revert tokens. induction sections as [|s sections IH]; intros tokens Hc Hsub; simpl in Hc.
  - injection Hc as <-. constructor.
  - unfold _validate_section_boundary in Hc. unfold mbind, result_bind, raise_if in Hc.
    destruct (negb _) eqn:Eb in Hc; [done|]. apply negb_false_iff in Eb. bool_inv.
    destruct (bool_decide _) in Hc; [done|]. destruct (_safe_estimate _ _) in Hc; [|done].
    destruct (collect_sections est doc sections) as [more|] eqn:Em; [|done].
    injection Hc as <-. apply list.Forall_app. split.
    + apply list.Forall_forall. intros t Ht. unfold _iter_token_refs in Ht.
      apply list_elem_of_fmap in Ht as (ij & -> & _). simpl. split_and!; try done.
      apply Hsub. left.
    + apply IH; [done|]. intros x Hx. apply Hsub. by right.
Qed.

Lemma unique_sections_sound tokens seen s :
  s ∈ unique_sections tokens seen -> exists t, t ∈ tokens /\ t_section t = s.
Proof.
  revert seen. induction tokens as [|t tokens IH]; intros seen Hs; simpl in Hs.
  - by apply list.not_elem_of_nil in Hs.
  - case_bool_decide.
    + destruct (IH _ Hs) as (t' & ? & ?). exists t'. split; [by right|done].
    + apply elem_of_cons in Hs as [->|Hs]; [exists t; split; [left|done]|].
      destruct (IH _ Hs) as (t' & ? & ?). exists t'. split; [by right|done].
Qed.

Lemma unique_sections_complete tokens seen t :
  t ∈ tokens -> s_section_id (t_section t) ∉ seen ->
  exists s, s ∈ unique_sections tokens seen /\ s_section_id s = s_section_id (t_section t).
Proof.
  revert seen. induction tokens as [|x tokens IH]; intros seen Ht Hn; simpl.
  - by apply list.not_elem_of_nil in Ht.
  - case_bool_decide as Hseen.
    + apply elem_of_cons in Ht as [->|Ht]; [done|]. by apply IH.
    + destruct (decide (s_section_id (t_section t) = s_section_id (t_section x))) as [E|E].
      * exists (t_section x). split; [left|done].
      * apply elem_of_cons in Ht as [->|Ht]; [done|].
        destruct (IH (s_section_id (t_section x) :: seen) Ht) as (s & Hs & Hi).
        { rewrite elem_of_cons. naive_solver. }
        exists s. split; [by right|done].
Qed.

Lemma required_inv s r : required s = Ok r -> r = strip s.
Proof. unfold required. destruct (strip s); [done|]. by intros [= <-]. Qed.
Lemma required_list_inv l r : required_list l = Ok r -> r = nonblank l.
Proof. unfold required_list. destruct (nonblank l); [done|]. by intros [= <-]. Qed.

Lemma make_chunk_inv c0 c :
  make_chunk c0 = Ok c ->
  ch_acl c = ch_acl c0 /\ ch_section_ids c = nonblank (ch_section_ids c0)
  /\ ch_tenant_id c = strip (ch_tenant_id c0) /\ ch_document_id c = strip (ch_document_id c0)
  /\ ch_version_id c = strip (ch_version_id c0) /\ ch_content c = ch_content c0
  /\ ch_token_count c = ch_token_count c0 /\ 0 < ch_token_count c0.
Proof.
  unfold make_chunk, mbind, result_bind, raise_if.
  repeat match goal with |- context [match required ?s with _ => _ end] =>
    let E := fresh "E" in destruct (required s) eqn:E; [apply required_inv in E|done] end.
  repeat match goal with |- context [match required_list ?s with _ => _ end] =>
    let E := fresh "E" in destruct (required_list s) eqn:E; [apply required_list_inv in E|done] end.
  destruct (_ <=? 0) eqn:El; [done|]. destruct (negb _); [done|]. bool_inv.
  intros [= <-]. simpl. split_and!; done || lia.
Qed.

(** What a built chunk says of its window. *)
Lemma build_chunk_inv doc window index c :
  _build_chunk config est doc window index = Ok c ->
  exists first others,
    _ordered_unique_sections window = first :: others
    /\ Forall (fun s => py_eq (VDict (s_acl s)) (VDict (s_acl first)) = true) others
    /\ ch_acl c = s_acl first /\ ch_section_ids c = nonblank (s_section_id <$> first :: others)
    /\ ch_tenant_id c = strip (d_tenant_id doc) /\ ch_document_id c = strip (d_document_id doc)
    /\ ch_version_id c = strip (d_version_id doc)
    /\ ch_content c = _chunk_content window
    /\ 0 < ch_token_count c <= max_tokens config.
Proof.
  unfold _build_chunk. unfold mbind at 1, result_bind at 1.
  destruct (_validate_acl_consistency _) eqn:Ea; [|done].
  unfold mbind at 1, result_bind at 1, raise_if at 1. destruct (bool_decide _); [done|].
  destruct (_ordered_unique_sections window) as [|first others] eqn:Es; [done|].
  unfold _validate_acl_consistency, raise_if in Ea. destruct (existsb _ _) eqn:Ex; [done|].
  intros Hb. exists first, others. split; [done|].
  assert (Hall : Forall (fun s => py_eq (VDict (s_acl s)) (VDict (s_acl first)) = true) others).
  { apply list.Forall_forall. intros s Hs. apply list_elem_of_In in Hs.
    destruct (py_eq (VDict (s_acl s)) (VDict (s_acl first))) eqn:E; [done|].
    assert (Ht : existsb (fun s => negb (py_eq (VDict (s_acl s)) (VDict (s_acl first)))) others = true).
    { apply existsb_exists. exists s. by rewrite E. }
    congruence. }
  split; [exact Hall|]. destruct (_page_range _) as [ps pe].
  unfold mbind, result_bind, raise_if in Hb.
  destruct (_safe_estimate _ _) as [k|]; [|done].
  destruct (_ <? k) eqn:Ek; [done|]. destruct (stable_content_checksum _); [|done].
  destruct (_stable_chunk_id _ _ _ _ _ _); [|done]. destruct (_chunk_title_path _); [|done].
  apply make_chunk_inv in Hb as (? & ? & ? & ? & ? & ? & Hk & ?). simpl in *. bool_inv.
  split_and!; done || lia.
Qed.

Lemma build_all_elem doc tokens ws index chunks c :
  build_all doc tokens ws index = Ok chunks -> c ∈ chunks ->
  exists w i, w ∈ ws
  /\ _build_chunk config est doc (slice (Z.to_nat w.1) (Z.to_nat w.2) tokens) i = Ok c.
Proof.
  revert index chunks. induction ws as [|w ws IH]; intros index chunks Hb Hc; simpl in Hb.
  - injection Hb as <-. by apply list.not_elem_of_nil in Hc.
  - unfold mbind, result_bind in Hb.
    destruct (_build_chunk _ _ _ _ _) as [c0|] eqn:E0 in Hb; [|done].
    destruct (build_all doc tokens ws (index + 1)) as [rest|] eqn:Er; [|done].
    injection Hb as <-. apply elem_of_cons in Hc as [->|Hc].
    + exists w, index. split; [left|done].
    + destruct (IH _ _ Er Hc) as (w' & i & ? & ?). exists w', i. split; [by right|done].
Qed.

Lemma slice_elem {A} i j (l : list A) x : x ∈ slice i j l -> x ∈ l.
Proof.
  unfold slice. intros Hx. apply elem_of_take_weak in Hx. apply list_elem_of_In.
  apply list_elem_of_In in Hx. rewrite <- (take_drop i l). apply in_or_app. by right.
Qed.

(** A chunk never mixes access levels or documents: its ACL is that of one
    section of the document and equal to the ACL of every section that
    contributed a token to its window, its identity is the document's, its
    section ids are those of the contributing sections, and its token count is
    positive and within [max_tokens]; a window with two ACLs makes the split
    fail. *)
Theorem split_respects_acl doc tokens chunks chunk c :
  make_chunker_config c = Ok config -> _sections_required (d_sections doc) = true ->
  _collect_tokens est doc = Ok tokens -> split config est doc = Ok chunks -> chunk ∈ chunks ->
  exists window first others,
    (forall t, t ∈ window -> t ∈ tokens /\ t_section t ∈ first :: others)
    /\ Forall (in_document doc) (first :: others)
    /\ Forall (fun s => py_eq (VDict (s_acl s)) (VDict (s_acl first)) = true) others
    /\ ch_acl chunk = s_acl first
    /\ ch_section_ids chunk = nonblank (s_section_id <$> first :: others)
    /\ ch_tenant_id chunk = strip (d_tenant_id doc)
    /\ ch_document_id chunk = strip (d_document_id doc)
    /\ ch_version_id chunk = strip (d_version_id doc)
    /\ ch_content chunk = _chunk_content window
    /\ 0 < ch_token_count chunk <= max_tokens config.
Proof.
  intros Hc Hreq Ht Hs Hin. destruct (config_bounds config c Hc) as [Hm Ho].
  unfold split in Hs. rewrite Ht in Hs. unfold mbind, result_bind, raise_if in Hs.
  case_bool_decide as Hlen; [done|].
  destruct (split_loop_plan (length tokens) doc tokens 0 0 Hm Ho) as (ws & Hp & Hb); [lia..|].
  rewrite Hb in Hs. destruct (build_all_elem _ _ _ _ _ _ Hs Hin) as (w & i & Hw & Hbc).
  set (window := slice _ _ tokens) in Hbc.
  assert (Hwt : forall t, t ∈ window -> t ∈ tokens) by (intros t; apply slice_elem).
  assert (Hdoc : Forall (fun t => in_document doc (t_section t)) tokens)
    by (by eapply collect_sections_inv).
  rewrite list.Forall_forall in Hdoc.
  destruct (build_chunk_inv _ _ _ _ Hbc) as (first & others & Hu & Hacl & Hrest).
  exists window, first, others.
  assert (Hsec : Forall (in_document doc) (first :: others)).
  { apply list.Forall_forall. intros s Hs'. rewrite <- Hu in Hs'.
    destruct (unique_sections_sound _ _ _ Hs') as (t & Htw & <-). auto. }
  split_and!; try done; try apply Hrest. intros t Htw. split; [auto|].
  destruct (unique_sections_complete window [] t Htw) as (s & Hss & Hid);
    [by apply list.not_elem_of_nil|].
  change (unique_sections window []) with (_ordered_unique_sections window) in Hss.
  rewrite Hu in Hss. rewrite list.Forall_forall in Hsec.
  destruct (Hsec s Hss) as [Hsd _]. destruct (Hdoc t (Hwt t Htw)) as [Htd _].
  unfold _sections_required in Hreq. bool_inv.
  rename select (NoDup _) into Hnd. assert (s = t_section t) as <-; [|done].
  eapply NoDup_fmap_elem; eauto.
Qed.
End Correct.

Module ChunkExamples.
(** A library for ASCII text: nothing to normalise, digests that name their
    input. *)
#[export] Instance plain_lib : ChunkLib :=
  {| nfkc := id; sha256_hex s := Some (u "sum"); uuid5_name s := Some (u "id" ++ s) |}.

Definition small_config : FixedSizeChunkerConfig :=
  {| min_tokens := 3; max_tokens := 5; overlap_ratio := flit 1 5 |}.

Definition section_of (id text : pystr) (acl : pydict) : Section_ :=
  {| s_section_id := id; s_tenant_id := u "acme"; s_document_id := u "doc";
     s_version_id := u "v1"; s_source_type := u "txt"; s_source_uri := None;
     s_title_path := [u "Title"]; s_content := text; s_page_start := None; s_page_end := None;
     s_acl := acl |}.
Definition tenant_acl : pydict := [(u "visibility", VStr (u "tenant"))].
Definition secret_acl : pydict := [(u "allowed_users", VList [VStr (u "ann")])].

Definition doc0 : ParsedDocument :=
  {| d_tenant_id := u "acme"; d_document_id := u "doc"; d_version_id := u "v1";
     d_source_type := u "txt"; d_source_uri := None;
     d_sections := [section_of (u "s1") (u "one two three four") tenant_acl;
                    section_of (u "s2") (u "five six seven eight nine") tenant_acl] |}.
Definition doc_mixed : ParsedDocument :=
  {| d_tenant_id := u "acme"; d_document_id := u "doc"; d_version_id := u "v1";
     d_source_type := u "txt"; d_source_uri := None;
     d_sections := [section_of (u "s1") (u "one two three four") tenant_acl;
                    section_of (u "s2") (u "five six seven eight nine") secret_acl] |}.

Definition no_estimate : pystr -> option Z := fun _ => Some 0.

Lemma doc0_chunks :
  match split small_config no_estimate doc0 with
  | Ok l => Some (map (fun c => (ch_token_count c, ch_section_ids c)) l)
  | Err _ => None
  end = Some [(5, [u "s1"; u "s2"]); (5, [u "s2"])].
Proof. vm_compute. reflexivity. Qed.

Lemma doc_mixed_fails :
  split small_config no_estimate doc_mixed = Err (GenericDocumentChunk (u "acl_mismatch")).
Proof. vm_compute. reflexivity. Qed.

Lemma split_windows_witness :
  exists tokens ws,
    _collect_tokens no_estimate doc0 = Ok tokens
    /\ split small_config no_estimate doc0
       = build_all small_config no_estimate doc0 tokens ws 0
    /\ fst <$> head ws = Some 0.
Proof.
  destruct (_collect_tokens no_estimate doc0) as [tokens|e] eqn:Et; [|by vm_compute in Et].
  assert (Hne : tokens <> []) by (intros ->; by vm_compute in Et).
  assert (Hc : make_chunker_config small_config = Ok small_config) by (vm_compute; reflexivity).
  destruct (split_windows small_config no_estimate doc0 tokens small_config Hc Et Hne)
    as (ws & Hs & Hh & _).
  exists tokens, ws. split; [reflexivity|]. split; [exact Hs|exact Hh].
Defined.

Lemma split_respects_acl_witness :
  exists chunks chunk, split small_config no_estimate doc0 = Ok chunks /\ chunk ∈ chunks
    /\ ch_acl chunk = tenant_acl /\ 0 < ch_token_count chunk <= 5.
Proof.
  destruct (_collect_tokens no_estimate doc0) as [tokens|e] eqn:Et; [|by vm_compute in Et].
  destruct (split small_config no_estimate doc0) as [chunks|e] eqn:Es; [|by vm_compute in Es].
  destruct chunks as [|chunk chunks]; [by vm_compute in Es|].
  assert (Hc : make_chunker_config small_config = Ok small_config) by (vm_compute; reflexivity).
  destruct (split_respects_acl small_config no_estimate doc0 tokens (chunk :: chunks) chunk
              small_config Hc eq_refl Et Es (list_elem_of_here _ _))
    as (window & first & others & _ & _ & _ & Ha & _ & _ & _ & _ & _ & Hn).
  exists (chunk :: chunks), chunk. split; [reflexivity|]. split; [left|].
  split; [|exact Hn]. vm_compute in Es. injection Es as <- _. reflexivity.
Defined.
End ChunkExamples.
