(* ===== verification/Registry.v ===== *)
(** The tool registry.

    Models [packages/agent/registry.py] ([ToolRegistry], its in-memory rate
    limiter and the functions that summarise a call for the audit trail) and
    [packages/agent/approval.py] (the one-dispatch approval capability).

    [execute] is a coroutine over shared objects: the registry, the limiter, the
    approval grants and the dispatch receipts other tasks may revoke.  They are
    the [world]; a computation takes a world to a result and the world it leaves,
    also when it raises.  What the call cannot decide itself (clock readings, what
    the handler, the recorder and the audit port do, a revocation while it awaits)
    is its [call_env]. *)

From Stdlib Require Import ZArith String.
From S2P Require Import Prelude Float64 PyVal Access Redact Json AgentDto Decimal28.
From stdpp Require Import base list gmap numbers.

#[local] Open Scope eff_scope.
#[local] Arguments fadd : simpl never.
#[local] Arguments fsub : simpl never.
#[local] Arguments fmul : simpl never.

(** * Approval grants *)

Record ToolApprovalGrant : Type := {
  ag_run_id : pystr;
  ag_tenant_id : pystr;
  ag_user_id : pystr;
  ag_tool_name : pystr;
  ag_arguments_digest : pystr;
  ag_expires_at : float;
  ag_consumed : bool
}.

Definition mark_consumed (g : ToolApprovalGrant) : ToolApprovalGrant :=
  {| ag_run_id := ag_run_id g; ag_tenant_id := ag_tenant_id g; ag_user_id := ag_user_id g;
     ag_tool_name := ag_tool_name g; ag_arguments_digest := ag_arguments_digest g;
     ag_expires_at := ag_expires_at g; ag_consumed := true |}.

Section Grant.
Context `{PyRepr}.

Definition argument_digest (arguments : pydict) : option pystr := json_digest arguments.

(** The conditions of [consume] that are checked before the digest. *)
Definition grant_matches (g : ToolApprovalGrant) (now : float) (run_id : option pystr)
    (ctx : RequestContext) (tool_name : pystr) : bool :=
  negb (ag_consumed g)
  && negb (fle (ag_expires_at g) now)
  && bool_decide (run_id = Some (ag_run_id g))
  && bool_decide (auth_tenant_id (rc_auth ctx) = ag_tenant_id g)
  && bool_decide (auth_user_id (rc_auth ctx) = ag_user_id g)
  && bool_decide (tool_name = ag_tool_name g).

(** [None]: the arguments have no JSON text and the digest raises. *)
Definition consume (g : ToolApprovalGrant) (now : float) (run_id : option pystr)
    (ctx : RequestContext) (tool_name : pystr) (arguments : pydict)
  : option (bool * ToolApprovalGrant) :=
  if negb (grant_matches g now run_id ctx tool_name) then Some (false, g) else
  match argument_digest arguments with
  | None => None
  | Some digest =>
      if bool_decide (digest = ag_arguments_digest g)
      then Some (true, mark_consumed g) else Some (false, g)
  end.
End Grant.

(** * Rate limiting *)

(** The [ToolRateLimiter] protocol: admission at a clock reading. *)
Class ToolRateLimiter (L : Type) :=
  acquire : float -> ToolRateLimitKey -> ToolRateLimit -> L -> ToolRateLimitDecision * L.

Module InMemoryToolRateLimiter.
Abbreviation calls_by_key := (gmap ToolRateLimitKey (list float)).

(** [min(calls)]. *)
Definition oldest (calls : list float) : float :=
  match calls with [] => fzero | t :: l => foldl fmin t l end.

Definition recent (now : float) (limit : ToolRateLimit) (calls : list float) : list float :=
  let window_start := fsub now (window_seconds limit) in
  filter (fun timestamp => flt window_start timestamp = true) calls.

Definition acquire_at (now : float) (key : ToolRateLimitKey) (limit : ToolRateLimit)
    (st : calls_by_key) : ToolRateLimitDecision * calls_by_key :=
  let calls := recent now limit (default [] (st !! key)) in
  if (max_calls limit <=? Z.of_nat (length calls))%Z then
    ({| allowed := false; remaining := 0;
        reset_after_seconds :=
          fmax (fsub (fadd (oldest calls) (window_seconds limit)) now) fzero |},
     <[key := calls]> st)
  else
    let calls := calls ++ [now] in
    ({| allowed := true; remaining := Z.max (max_calls limit - Z.of_nat (length calls)) 0;
        reset_after_seconds := window_seconds limit |},
     <[key := calls]> st).

#[export] Instance limiter : ToolRateLimiter calls_by_key := acquire_at.
End InMemoryToolRateLimiter.

(** * Names that may be observed *)

Definition _SAFE_IDENTIFIER_PATTERN : pystr -> bool :=
  ident_match (fun c => is_alpha c || (c =? 95)%N) is_ident (Some 63).
Definition _SAFE_TOOL_NAME_PATTERN : pystr -> bool := _TOOL_NAME_PATTERN.

Definition _SENSITIVE_NAME_PARTS : list pystr := u <$>
  ["absolute_path"; "access_token"; "apikey"; "api_key"; "authorization"; "content"; "cookie";
   "credential"; "file_path"; "local_path"; "password"; "private_key"; "prompt"; "secret";
   "token"]%string.
Definition _REDACTED_KEY : pystr := u "redacted_key".
Definition _UNKNOWN_TOOL_RESOURCE_ID : pystr := u "unknown_tool".

(** [re.sub(r"[^a-z0-9_]", "_", s)]. *)
Definition underscored (s : pystr) : pystr :=
  (fun c => if is_lower c || is_digit c || (c =? 95)%N then c else 95%N) <$> s.

Definition _is_sensitive_name (value : pystr) : bool :=
  let normalized := underscored (lower (strip value)) in
  let compact := drop_underscores normalized in
  existsb (fun part => contains part normalized || contains (drop_underscores part) compact)
    _SENSITIVE_NAME_PARTS.

Definition _is_safe_observable_name (value : pystr) : bool :=
  _SAFE_IDENTIFIER_PATTERN value && negb (_is_sensitive_name value).

Definition _safe_argument_key (key : pystr) : pystr :=
  let normalized := strip key in
  if _is_safe_observable_name normalized then normalized else _REDACTED_KEY.

Definition _safe_tool_name (tool_name : pystr) : pystr :=
  let normalized := strip tool_name in
  if negb (_SAFE_TOOL_NAME_PATTERN normalized) || _is_sensitive_name normalized
  then _UNKNOWN_TOOL_RESOURCE_ID else normalized.

(** [tuple(sorted({f(key) for key in d}))]. *)
Definition sorted_set (l : list pystr) : list pystr := py_sort str_lt (remove_dups l).

Definition _safe_argument_keys (arguments : pyval) : list pystr :=
  match arguments with
  | VDict d => sorted_set (_safe_argument_key <$> d.*1)
  | _ => []
  end.
Definition _safe_result_keys (output : pydict) : list pystr :=
  sorted_set (_safe_argument_key <$> output.*1).

(** * Summaries *)

(** [round(x, 3)]: the decimal nearest to the exact value, halves to even, then
    the float nearest to that decimal. *)
Definition fround3 (x : float) : float :=
  match x with
  | S754_finite s m e =>
      if (0 <=? e)%Z then x else
      match div_half_even (Zpos m * 1000) (2 ^ (- e)) with
      | Zpos n => fdiv (S754_finite s n 0) (S754_finite false 1000 0)
      | _ => S754_zero s
      end
  | _ => x
  end.

Definition _elapsed_ms (elapsed_seconds : float) : float :=
  fround3 (fmul (fmax elapsed_seconds fzero) (fofZ 1000)).

Definition str_list (l : list pystr) : list pyval := VStr <$> l.

Definition _base_metadata (tool_name : pystr) (arguments : pyval)
    (definition : option ToolDefinition) : pydict :=
  [(u "tool_name", VStr (_safe_tool_name tool_name));
   (u "permission", match definition with Some d => VStr (td_permission d) | None => VNone end);
   (u "argument_keys", VTuple (str_list (_safe_argument_keys arguments)));
   (u "timeout_seconds",
      match definition with Some d => VFloat (td_timeout_seconds d) | None => VNone end);
   (u "status", VStr (invocation_value ToolFAILURE))].

Definition _arguments_summary (arguments : pyval) : pydict :=
  match arguments with
  | VDict d =>
      [(u "argument_keys", VList (str_list (_safe_argument_keys arguments)));
       (u "argument_count", VInt (Z.of_nat (length d)));
       (u "argument_shape", VStr (u "mapping"))]
  | _ =>
      [(u "argument_keys", VList []); (u "argument_count", VInt 0);
       (u "argument_shape", VStr (u "non_mapping"))]
  end.

(** A handler's return value: a pydantic model (its fields and its extra values),
    a mapping, or any other object. *)
Inductive raw_output : Type :=
| RawModel (fields extra : pydict)
| RawMapping (d : pydict)
| RawOther (v : pyval).

Definition _result_summary (status : ToolInvocationStatus) (error_code : option pystr)
    (output : option pydict) (raw : option raw_output) (error_fields : list pystr) : pydict :=
  let mapping := match output, raw with
                 | Some d, _ => Some d
                 | None, Some (RawMapping d) => Some d
                 | _, _ => None
                 end in
  [(u "status", VStr (invocation_value status)); (u "error_code", opt_str error_code)]
  ++ (match error_fields with [] => [] | l => [(u "error_fields", VList (str_list l))] end)
  ++ match mapping with
     | Some d => [(u "result_keys", VList (str_list (_safe_result_keys d)));
                  (u "result_count", VInt (Z.of_nat (length d)))]
     | None => [(u "result_keys", VList []); (u "result_count", VInt 0)]
     end.

Definition _rate_limit_metadata (limit : ToolRateLimit) (d : ToolRateLimitDecision) : pydict :=
  [(u "max_calls", VInt (max_calls limit)); (u "window_seconds", VFloat (window_seconds limit));
   (u "remaining", VInt (remaining d)); (u "reset_after_seconds", VFloat (reset_after_seconds d))].

(** Locations of schema errors, joined with dots; an empty location is dropped. *)
Definition _validation_error_fields (locs : list (list pystr)) : list pystr :=
  sorted_set (filter (fun f => f <> []) (PyVal.join (u ".") <$> locs)).

Definition _extra_fields (data : pydict) (s : schema) : list pystr :=
  py_sort str_lt (_safe_argument_key <$>
    remove_dups (filter (fun k => k ∉ model_fields s) data.*1)).

(** Both exceptions of validation carry error fields: [ToolSchemaValidationError]
    has those of [_extra_fields], [ValidationError] those of its locations. *)
Definition _validate_input (arguments : pydict) (s : schema)
  : result (list pystr) pydict :=
  match _extra_fields arguments s with
  | [] => match model_validate s (VDict arguments) with
          | Ok payload => Ok payload
          | Err locs => Err (_validation_error_fields locs)
          end
  | extra => Err extra
  end.

(** [data.update(model.model_extra)]. *)
Definition _model_field_data (fields extra : pydict) : pydict :=
  foldl (fun acc kv => dict_set kv.1 kv.2 acc) fields extra.

Definition validate_data (data : pydict) (s : schema) : result (list pystr) pydict :=
  _validate_input data s.

Definition _validate_output (raw : raw_output) (s : schema) : result (list pystr) pydict :=
  match raw with
  | RawModel fields extra => validate_data (_model_field_data fields extra) s
  | RawMapping d => validate_data d s
  | RawOther v =>
      match model_validate s v with
      | Ok output => Ok output
      | Err locs => Err (_validation_error_fields locs)
      end
  end.

Definition status_is (output_data : pydict) (s : pystr) : bool :=
  match dict_get (u "status") output_data with Some v => py_eq v (VStr s) | None => false end.

Definition _output_invocation_status (output_data : pydict) : ToolInvocationStatus :=
  if status_is output_data (invocation_value ToolFAILURE) then ToolFAILURE
  else if status_is output_data (u "error") then ToolFAILURE
  else ToolSUCCESS.

Definition _output_error_code (output_data : pydict) : option pystr :=
  match _output_invocation_status output_data, dict_get (u "error_code") output_data with
  | ToolFAILURE, Some (VStr error_code) =>
      let normalized := strip error_code in
      if _is_safe_observable_name normalized then Some normalized else None
  | _, _ => None
  end.

(** * The world of a call *)

Record ToolDispatchState : Type := {
  registry_entered : bool;
  handler_started : bool;
  revoked : bool
}.

Definition revoke (s : ToolDispatchState) : ToolDispatchState :=
  {| registry_entered := registry_entered s; handler_started := handler_started s;
     revoked := true |}.
Definition enter (s : ToolDispatchState) : ToolDispatchState :=
  {| registry_entered := true; handler_started := handler_started s; revoked := revoked s |}.
Definition start_handler (s : ToolDispatchState) : ToolDispatchState :=
  {| registry_entered := registry_entered s; handler_started := true; revoked := revoked s |}.

Record AgentToolError : Type := { te_code : pystr; te_status_code : Z; te_details : pydict }.

(** What a call raises: a domain error, [asyncio.CancelledError], or any other
    Python exception. *)
Inductive tool_exn : Type :=
| ToolError (e : AgentToolError)
| Cancelled
| OtherException.

Definition TOOL_ALREADY_REGISTERED := u "TOOL_ALREADY_REGISTERED".
Definition TOOL_NOT_REGISTERED := u "TOOL_NOT_REGISTERED".
Definition TOOL_INPUT_VALIDATION_FAILED := u "TOOL_INPUT_VALIDATION_FAILED".
Definition TOOL_OUTPUT_VALIDATION_FAILED := u "TOOL_OUTPUT_VALIDATION_FAILED".
Definition TOOL_PERMISSION_DENIED := u "TOOL_PERMISSION_DENIED".
Definition TOOL_RATE_LIMITED := u "TOOL_RATE_LIMITED".
Definition TOOL_TIMEOUT := u "TOOL_TIMEOUT".
Definition TOOL_HANDLER_FAILED := u "TOOL_HANDLER_FAILED".
Definition TOOL_CALL_AUDIT_FAILED := u "TOOL_CALL_AUDIT_FAILED".
Definition TOOL_APPROVAL_REQUIRED := u "TOOL_APPROVAL_REQUIRED".
Definition TOOL_DISPATCH_CANCELLED := u "TOOL_DISPATCH_CANCELLED".

(** The observable effects, in order: a handler is started on a payload under a
    grant, a tool call is recorded, an audit event is written. *)
Inductive tool_event : Type :=
| EvHandler (name : pystr) (payload : pydict) (ctx : RequestContext) (grant : option N)
| EvRecord (r : ToolCallCreate)
| EvAudit (e : AuditEvent).

(** Grants and receipts are shared objects, named by their address. *)
Record world {L : Type} : Type := {
  w_definitions : list (pystr * ToolDefinition);
  w_recorder : bool;                                   (* a recorder is configured *)
  w_limiter : L;
  w_grants : gmap N ToolApprovalGrant;
  w_dispatches : gmap N ToolDispatchState;
  w_log : list tool_event
}.
Arguments world : clear implicits.

Definition with_limiter {L} (w : world L) (l : L) : world L :=
  {| w_definitions := w_definitions w; w_recorder := w_recorder w; w_limiter := l;
     w_grants := w_grants w; w_dispatches := w_dispatches w; w_log := w_log w |}.
Definition with_grants {L} (w : world L) (g : gmap N ToolApprovalGrant) : world L :=
  {| w_definitions := w_definitions w; w_recorder := w_recorder w; w_limiter := w_limiter w;
     w_grants := g; w_dispatches := w_dispatches w; w_log := w_log w |}.
Definition with_dispatches {L} (w : world L) (d : gmap N ToolDispatchState) : world L :=
  {| w_definitions := w_definitions w; w_recorder := w_recorder w; w_limiter := w_limiter w;
     w_grants := w_grants w; w_dispatches := d; w_log := w_log w |}.
Definition logged {L} (w : world L) (e : tool_event) : world L :=
  {| w_definitions := w_definitions w; w_recorder := w_recorder w; w_limiter := w_limiter w;
     w_grants := w_grants w; w_dispatches := w_dispatches w; w_log := w_log w ++ [e] |}.

Abbreviation M := (fun L A => eff tool_exn (world L) A).

(** What an awaited port does: it returns, raises, or the task is cancelled in it. *)
Inductive io_outcome : Type := IoOk | IoRaises | IoCancelled.

Inductive handler_outcome : Type :=
| HReturns (raw : raw_output)
| HTimeout
| HCancelled
| HRaises.

Record call : Type := {
  c_name : pystr;
  c_arguments : pyval;
  c_context : RequestContext;
  c_agent_run_id : option pystr;
  c_approval_grant : option N;
  c_dispatch_state : option N
}.

Record call_env : Type := {
  ce_started : float;                    (* the two readings of [perf_counter] *)
  ce_ended : float;
  ce_consume_now : float;                (* the grant's clock at [consume] *)
  ce_limiter_now : float;
  ce_revoked : bool;                     (* another task revokes while the limiter is awaited *)
  ce_dispatch_now : float;               (* the grant's clock before dispatch *)
  ce_handler : pydict -> handler_outcome;
  ce_recorder : io_outcome;
  ce_audit : io_outcome
}.

Section Registry.
Context `{PyRepr, UnicodeDB} {L : Type} `{ToolRateLimiter L}.

Definition register (definition : ToolDefinition) : M L unit := fun w =>
  let name := td_name definition in
  match dict_get name (w_definitions w) with
  | Some _ =>
      (Err (ToolError {| te_code := TOOL_ALREADY_REGISTERED; te_status_code := 409;
                         te_details := [(u "tool_name", VStr name);
                                        (u "error_code", VStr TOOL_ALREADY_REGISTERED)] |}), w)
  | None =>
      (Ok tt, {| w_definitions := dict_set name definition (w_definitions w);
                 w_recorder := w_recorder w; w_limiter := w_limiter w; w_grants := w_grants w;
                 w_dispatches := w_dispatches w; w_log := w_log w |})
  end.

(** ** The audit trail *)

Definition audit_failed (ctx : RequestContext) (tool_name : pystr) (run : option pystr)
  : tool_exn :=
  ToolError {| te_code := TOOL_CALL_AUDIT_FAILED; te_status_code := 500;
     te_details :=
       [(u "request_id", VStr (rc_request_id ctx)); (u "trace_id", VStr (rc_trace_id ctx));
        (u "tenant_id", VStr (auth_tenant_id (rc_auth ctx)));
        (u "user_id", VStr (auth_user_id (rc_auth ctx)))]
       ++ (match run with Some r => [(u "agent_run_id", VStr r)] | None => [] end)
       ++ [(u "tool_name", VStr (_safe_tool_name tool_name));
           (u "error_code", VStr TOOL_CALL_AUDIT_FAILED)] |}.

Definition tool_call_record (ctx : RequestContext) (run tool_name : pystr)
    (definition : option ToolDefinition) (arguments : pyval) (status : ToolInvocationStatus)
    (latency_ms : float) (error_code : option pystr) (output : option pydict)
    (raw : option raw_output) (error_fields : list pystr) : ToolCallCreate :=
  {| tc_agent_run_id := run; tc_request_id := rc_request_id ctx;
     tc_trace_id := rc_trace_id ctx; tc_tenant_id := auth_tenant_id (rc_auth ctx);
     tc_user_id := auth_user_id (rc_auth ctx); tc_tool_name := _safe_tool_name tool_name;
     tc_permission := td_permission <$> definition; tc_status := status;
     tc_latency_ms := latency_ms; tc_error_code := error_code;
     tc_arguments_summary := _arguments_summary arguments;
     tc_result_summary := _result_summary status error_code output raw error_fields |}.

Definition _record_tool_call (c : call) (e : call_env) (definition : option ToolDefinition)
    (status : ToolInvocationStatus) (latency_ms : float) (error_code : option pystr)
    (output : option pydict) (raw : option raw_output) (error_fields : list pystr)
  : M L unit := fun w =>
  if negb (w_recorder w) then (Ok tt, w) else
  match c_agent_run_id c with
  | None => (Err (audit_failed (c_context c) (c_name c) None), w)
  | Some run =>
      let failed := (Err (audit_failed (c_context c) (c_name c) (Some run)), w) in
      match make_tool_call (tool_call_record (c_context c) run (c_name c) definition
                              (c_arguments c) status latency_ms error_code output raw
                              error_fields), ce_recorder e with
      | Err _, _ => failed
      | Ok r, IoOk => (Ok tt, logged w (EvRecord r))
      | Ok _, IoRaises => failed
      | Ok _, IoCancelled => (Err Cancelled, w)
      end
  end.

(** Best effort: only a cancellation of the caller leaves it. *)
Definition _record_audit (c : call) (e : call_env) (status : AuditStatus) (latency_ms : float)
    (error_code : option pystr) (metadata : pydict) : M L unit := fun w =>
  let ctx := c_context c in
  let event :=
    resource ← make_audit_resource (u "tool") (_safe_tool_name (c_name c)) [];
    make_audit_event (rc_request_id ctx) (rc_trace_id ctx) (auth_tenant_id (rc_auth ctx))
      (auth_user_id (rc_auth ctx)) (u "agent.tool.execute") resource status latency_ms
      error_code metadata in
  match event, ce_audit e with
  | Ok ev, IoOk => (Ok tt, logged w (EvAudit ev))
  | Ok _, IoCancelled => (Err Cancelled, w)
  | _, _ => (Ok tt, w)
  end.

(** Every refusal and every failure ends the same way: record, audit, raise. *)
Definition reject {A} (c : call) (e : call_env) (definition : option ToolDefinition)
    (status : ToolInvocationStatus) (latency_ms : float) (code : pystr) (status_code : Z)
    (extra_details : pydict) (raw : option raw_output) (error_fields : list pystr)
    (metadata : pydict) : M L A :=
  _ <- _record_tool_call c e definition status latency_ms (Some code) None raw error_fields;;
  _ <- _record_audit c e (match status with ToolDENIED => AuditDENIED | _ => AuditFAILURE end)
         latency_ms (Some code) metadata;;
  mraise (ToolError {| te_code := code; te_status_code := status_code;
                       te_details := (u "tool_name", VStr (c_name c)) :: extra_details
                                     ++ [(u "error_code", VStr code)] |}).

Definition latency (e : call_env) : float := _elapsed_ms (fsub (ce_ended e) (ce_started e)).

Definition field_list (l : list pystr) : pyval := VTuple (str_list l).
Definition with_status (metadata : pydict) (s : ToolInvocationStatus) : pydict :=
  dict_set (u "status") (VStr (invocation_value s)) metadata.

(** ** Stages of [execute] *)

(** The grant is consumed before anything else is checked of the arguments. *)
Definition check_approval (c : call) (e : call_env) (d : ToolDefinition) (arguments : pydict)
  : M L bool := fun w =>
  if negb (td_requires_approval d) then (Ok true, w) else
  match g ← c_approval_grant c; grant ← w_grants w !! g; Some (g, grant) with
  | None => (Ok false, w)
  | Some (g, grant) =>
      match consume grant (ce_consume_now e) (c_agent_run_id c) (c_context c) (c_name c)
              arguments with
      | None => (Err OtherException, w)
      | Some (ok, grant') => (Ok ok, with_grants w (<[g := grant']> (w_grants w)))
      end
  end.

Definition check_rate (c : call) (e : call_env) (d : ToolDefinition)
  : M L ToolRateLimitDecision := fun w =>
  let auth := rc_auth (c_context c) in
  match make_rate_limit_key (auth_tenant_id auth) (auth_user_id auth) (c_name c) with
  | Err _ => (Err OtherException, w)
  | Ok key =>
      let '(decision, l) := acquire (ce_limiter_now e) key (td_rate_limit d) (w_limiter w) in
      (Ok decision, with_limiter w l)
  end.

(** The receipt as other tasks left it when the limiter was awaited. *)
Definition awaited (c : call) (e : call_env) (w : world L) : world L :=
  match c_dispatch_state c with
  | Some p => if ce_revoked e then with_dispatches w (alter revoke p (w_dispatches w)) else w
  | None => w
  end.

Definition dispatch_allowed (c : call) (e : call_env) (w : world L) : bool :=
  negb (match p ← c_dispatch_state c; w_dispatches w !! p with
        | Some s => revoked s
        | None => false
        end)
  && negb (match g ← c_approval_grant c; w_grants w !! g with
           | Some grant => fle (ag_expires_at grant) (ce_dispatch_now e)
           | None => false
           end).

Definition mark_dispatch (f : ToolDispatchState -> ToolDispatchState) (c : call) (w : world L)
  : world L :=
  match c_dispatch_state c with
  | Some p => with_dispatches w (alter f p (w_dispatches w))
  | None => w
  end.

(** [dict(projected)] when the projection returns a mapping; it may raise. *)
Definition project (d : ToolDefinition) (output_data : pydict) : pydict :=
  match td_prompt_projection d with
  | Some f => match f output_data with Some (VDict p) => p | _ => [] end
  | None => []
  end.

Definition finish_output (c : call) (e : call_env) (d : ToolDefinition) (base rate : pydict)
    (raw : raw_output) : M L ToolExecutionResult :=
  match _validate_output raw (td_output_schema d) with
  | Err fields =>
      reject c e (Some d) ToolFAILURE (latency e) TOOL_OUTPUT_VALIDATION_FAILED 502
        [(u "error_fields", field_list fields)] (Some raw) fields
        (with_status (base ++ [(u "rate_limit", VDict rate); (u "error_fields", field_list fields)])
           ToolFAILURE)
  | Ok output =>
      let output_data := model_dump (td_output_schema d) output in
      let prompt_context := project d output_data in
      let status := _output_invocation_status output_data in
      let error_code := _output_error_code output_data in
      let metadata :=
        with_status (base ++ [(u "result_keys", field_list (py_sort str_lt output_data.*1));
                              (u "rate_limit", VDict rate)]) status in
      _ <- _record_tool_call c e (Some d) status (latency e) error_code (Some output_data) None [];;
      _ <- _record_audit c e (if decide (status = ToolFAILURE) then AuditFAILURE else AuditSUCCESS)
             (latency e) error_code metadata;;
      mreturn {| tr_tool_name := c_name c; tr_status := status; tr_output := Some output_data;
                 tr_latency_ms := latency e; tr_metadata := metadata;
                 tr_prompt_context := prompt_context |}
  end.

Definition run_handler (c : call) (e : call_env) (d : ToolDefinition) (base rate payload : pydict)
  : M L ToolExecutionResult :=
  _ <- modify (fun w => logged (mark_dispatch start_handler c w)
                          (EvHandler (c_name c) payload (c_context c) (c_approval_grant c)));;
  let failed := with_status (base ++ [(u "rate_limit", VDict rate)]) ToolFAILURE in
  match ce_handler e payload with
  | HReturns raw => finish_output c e d base rate raw
  | HTimeout => reject c e (Some d) ToolFAILURE (latency e) TOOL_TIMEOUT 504 [] None [] failed
  | HCancelled =>
      _ <- _record_tool_call c e (Some d) ToolFAILURE (latency e) (Some TOOL_TIMEOUT) None None [];;
      _ <- _record_audit c e AuditFAILURE (latency e) (Some TOOL_TIMEOUT) failed;;
      mraise Cancelled
  | HRaises => reject c e (Some d) ToolFAILURE (latency e) TOOL_HANDLER_FAILED 502 [] None [] failed
  end.

Definition admit_call (c : call) (e : call_env) (d : ToolDefinition) (base payload : pydict)
  : M L ToolExecutionResult :=
  if negb (has_tool_permission (rc_auth (c_context c)) (td_permission d)) then
    reject c e (Some d) ToolDENIED (latency e) TOOL_PERMISSION_DENIED 403
      [(u "required_permission", VStr (td_permission d))] None [] (with_status base ToolDENIED)
  else
  decision <- check_rate c e d;;
  let rate := _rate_limit_metadata (td_rate_limit d) decision in
  if negb (allowed decision) then
    reject c e (Some d) ToolDENIED (latency e) TOOL_RATE_LIMITED 429 [] None []
      (with_status (base ++ [(u "rate_limit", VDict rate)]) ToolDENIED)
  else
  _ <- modify (awaited c e);;
  fun w =>
    if negb (dispatch_allowed c e w) then
      (Err (ToolError {| te_code := TOOL_DISPATCH_CANCELLED; te_status_code := 409;
                         te_details := [(u "tool_name", VStr (c_name c));
                                        (u "error_code", VStr TOOL_DISPATCH_CANCELLED)] |}), w)
    else run_handler c e d base rate payload w.

Definition validate_and_admit (c : call) (e : call_env) (d : ToolDefinition) (base arguments : pydict)
  : M L ToolExecutionResult :=
  match _validate_input arguments (td_input_schema d) with
  | Err fields =>
      reject c e (Some d) ToolFAILURE (latency e) TOOL_INPUT_VALIDATION_FAILED 422
        [(u "error_fields", field_list fields)] None fields
        (with_status (base ++ [(u "error_fields", field_list fields)]) ToolFAILURE)
  | Ok payload => admit_call c e d base payload
  end.

Definition execute (c : call) (e : call_env) : M L ToolExecutionResult := fun w0 =>
  let w := mark_dispatch enter c w0 in
  if w_recorder w && bool_decide (c_agent_run_id c = None)
  then (Err (audit_failed (c_context c) (c_name c) None), w) else
  let definition := dict_get (c_name c) (w_definitions w) in
  let base := _base_metadata (c_name c) (c_arguments c) definition in
  match definition, c_arguments c with
  | None, _ => reject c e None ToolDENIED (latency e) TOOL_NOT_REGISTERED 404 [] None [] base w
  | Some d, VDict arguments =>
      (approved <- check_approval c e d arguments;;
       if (approved : bool) then validate_and_admit c e d base arguments
       else reject c e (Some d) ToolDENIED fzero TOOL_APPROVAL_REQUIRED 403 [] None [] base) w
  | Some d, _ =>
      let fields := [u "arguments"] in
      reject c e (Some d) ToolFAILURE (latency e) TOOL_INPUT_VALIDATION_FAILED 422
        [(u "error_fields", field_list fields)] None fields
        (with_status (base ++ [(u "error_fields", field_list fields)]) ToolFAILURE) w
  end.

(** [get]: the definition, or an audited refusal. *)
Definition get (c : call) (e : call_env) : M L ToolDefinition := fun w =>
  match dict_get (c_name c) (w_definitions w) with
  | Some d => (Ok d, w)
  | None =>
      (_ <- _record_audit c e AuditDENIED fzero (Some TOOL_NOT_REGISTERED)
              (_base_metadata (c_name c) (VDict []) None);;
       mraise (ToolError {| te_code := TOOL_NOT_REGISTERED; te_status_code := 404;
                            te_details := [(u "tool_name", VStr (c_name c));
                                           (u "error_code", VStr TOOL_NOT_REGISTERED)] |})) w
  end.
End Registry.

(** * Theorems *)

(** ** The rate limiter *)
Section LimiterWindow.
Import InMemoryToolRateLimiter.
Context (key : ToolRateLimitKey) (limit : ToolRateLimit).

Definition window_start (now : float) : float := fsub now (window_seconds limit).
Definition in_window (now : float) (history : list float) : list float :=
  filter (fun s => flt (window_start now) s = true) history.

(** A sequence of acquisitions, and the times at which [key] was admitted. *)
Definition request : Type := ToolRateLimitKey * ToolRateLimit * float.
Fixpoint admissions (rs : list request) (st : calls_by_key) (history : list float)
  : calls_by_key * list float :=
  match rs with
  | [] => (st, history)
  | (k, l, now) :: rs' =>
      let '(d, st') := acquire_at now k l st in
      admissions rs' st'
        (if bool_decide (k = key) && allowed d then history ++ [now] else history)
  end.

(** Readings of a monotonic clock: the window never moves back; and a tool's limit
    is fixed. *)
Fixpoint forward (from : float) (rs : list request) : bool :=
  match rs with
  | [] => true
  | r :: rs' => fle (window_start from) (window_start r.2) && forward r.2 rs'
  end.
Fixpoint last_time (from : float) (rs : list request) : float :=
  match rs with [] => from | r :: rs' => last_time r.2 rs' end.
Definition same_limit (r : request) : Prop := r.1.1 = key -> r.1.2 = limit.

(** What the limiter kept is what any later window needs. *)
Definition tracked (from : float) (st : calls_by_key) (history : list float) : Prop :=
  forall now, fle (window_start from) (window_start now) = true ->
    in_window now (default [] (st !! key)) = in_window now history.

Lemma in_window_recent from now l :
  fle (window_start from) (window_start now) = true ->
  in_window now (recent from limit l) = in_window now l.
Proof.
  intros Hle. unfold in_window, recent. fold (window_start from).
  induction l as [|t l IH]; [done|]. rewrite !filter_cons.
  destruct (decide (flt (window_start from) t = true)) as [E|E]; [by rewrite filter_cons, IH|].
  rewrite decide_False; [done|]. intros F. by rewrite (fle_flt_trans _ _ _ Hle F) in E.
Qed.

Lemma in_window_snoc now l t :
  in_window now (l ++ [t]) = in_window now l ++ in_window now [t].
Proof. apply list.filter_app. Qed.

Lemma tracked_step from st history k l now :
  tracked from st history -> fle (window_start from) (window_start now) = true ->
  (k = key -> l = limit) ->
  tracked now (acquire_at now k l st).2
    (if bool_decide (k = key) && allowed (acquire_at now k l st).1 then history ++ [now]
     else history).
Proof.
  intros Ht Hle Hl later Hl2. unfold acquire_at.
  destruct (decide (k = key)) as [->|Hne].
  - rewrite (Hl eq_refl), bool_decide_true by done.
    destruct (_ <=? _)%Z; cbn [fst snd allowed andb]; rewrite lookup_insert_eq; cbn [default from_option id].
    + rewrite in_window_recent by done. apply Ht. by eapply fle_trans.
    + rewrite !in_window_snoc, in_window_recent by done. f_equal. apply Ht. by eapply fle_trans.
  - rewrite bool_decide_false by done.
    destruct (_ <=? _)%Z; cbn [fst snd allowed andb]; rewrite lookup_insert_ne by done; apply Ht; by eapply fle_trans.
Qed.

Lemma admissions_tracked rs from st history st' history' :
  tracked from st history -> forward from rs = true -> Forall same_limit rs ->
  admissions rs st history = (st', history') ->
  tracked (last_time from rs) st' history'.
Proof.
  revert from st history. induction rs as [|[[k l] t] rs IH]; intros from st history Ht Hf Hs Ha;
    simpl in *; simplify_eq; [done|].
  bool_inv. apply list.Forall_cons in Hs as [Hk Hs].
  pose proof (tracked_step from st history k l t Ht ltac:(done) Hk) as Hstep.
  destruct (acquire_at t k l st) as [d st1]. simpl in Hstep.
  exact (IH t _ _ Hstep ltac:(done) Hs Ha).
Qed.

(** The rate limiter admits at most [max_calls] calls of one key in any window:
    whenever it admits a call, the admissions of that key that lie in the window
    ending at this call, itself included, number at most the limit, whatever calls
    of other keys came in between. *)
Theorem limiter_window rs t st history :
  admissions rs ∅ [] = (st, history) ->
  forward (last_time t (take 1 rs)) (rs ++ [(key, limit, t)]) = true ->
  Forall same_limit rs ->
  allowed (acquire_at t key limit st).1 = true ->
  (Z.of_nat (length (in_window t (history ++ [t]))) <= max_calls limit)%Z.
Proof.
  intros Ha Hf Hs Hal. set (from := last_time t (take 1 rs)) in *.
  assert (forward from rs = true /\ fle (window_start (last_time from rs)) (window_start t) = true) as [Hf1 Hf2].
  { clear -Hf. clearbody from. revert from Hf. induction rs as [|r rs IH]; intros from Hf; simpl in *.
    - by rewrite andb_true_r in Hf.
    - bool_inv. apply IH in H0 as [-> Hl]. by rewrite H. }
  assert (tracked from ∅ []) as H0 by (intros now _; by rewrite lookup_empty).
  pose proof (admissions_tracked rs from ∅ [] st history H0 Hf1 Hs Ha t Hf2) as Ht.
  unfold acquire_at in Hal. destruct (_ <=? _)%Z eqn:E; [done|]. bool_inv.
  rewrite in_window_snoc, length_app, <- Ht.
  assert (length (in_window t [t]) <= 1) by (unfold in_window; rewrite filter_cons; case_decide; simpl; lia).
  unfold recent in E. fold (window_start t) in E. unfold in_window at 1. lia.
Qed.
End LimiterWindow.

(** ** What a call leaves behind *)
Section ExecuteFacts.
Context `{PyRepr, UnicodeDB} {L : Type} `{ToolRateLimiter L}.

Definition is_handler (ev : tool_event) : bool :=
  match ev with EvHandler _ _ _ _ => true | _ => false end.
Definition is_record (ev : tool_event) : bool :=
  match ev with EvRecord _ => true | _ => false end.
Definition handlers (w : world L) : list tool_event := filter (fun ev => is_handler ev = true) (w_log w).
Definition records (w : world L) : list tool_event := filter (fun ev => is_record ev = true) (w_log w).

(** Only the audit trail differs. *)
Record same_state (w w' : world L) : Prop := {
  ss_definitions : w_definitions w' = w_definitions w;
  ss_recorder : w_recorder w' = w_recorder w;
  ss_limiter : w_limiter w' = w_limiter w;
  ss_grants : w_grants w' = w_grants w;
  ss_dispatches : w_dispatches w' = w_dispatches w;
  ss_handlers : handlers w' = handlers w
}.

#[local] Instance same_state_po : PreOrder same_state.
Proof. split; [by constructor|]. intros ? ? ? [] []. constructor; congruence. Qed.

Lemma handlers_logged w ev :
  handlers (logged w ev) = handlers w ++ (if is_handler ev then [ev] else []).
Proof.
  unfold handlers. simpl. rewrite list.filter_app, filter_cons, filter_nil. by destruct (is_handler ev).
Qed.
Lemma records_logged w ev :
  records (logged w ev) = records w ++ (if is_record ev then [ev] else []).
Proof.
  unfold records. simpl. rewrite list.filter_app, filter_cons, filter_nil. by destruct (is_record ev).
Qed.

Lemma same_state_logged w ev : is_handler ev = false -> same_state w (logged w ev).
Proof. intros E. constructor; try done. rewrite handlers_logged, E. apply app_nil_r. Qed.

(** With a recorder, the call has left one record of this status and error code
    under the caller's identity; without one, nothing. *)
Definition recorded (c : call) (w w' : world L) (st : ToolInvocationStatus)
    (code : option pystr) : Prop :=
  if w_recorder w then
    exists rec run, records w' = records w ++ [EvRecord rec] /\
      tc_status rec = st /\ tc_error_code rec = strip <$> code /\
      c_agent_run_id c = Some run /\ tc_agent_run_id rec = strip run /\
      tc_tenant_id rec = strip (auth_tenant_id (rc_auth (c_context c))) /\
      tc_user_id rec = strip (auth_user_id (rc_auth (c_context c)))
  else records w' = records w.

(** How a call may end: a result or an error is recorded as what it is, except
    that failing to record is an error of its own, and that a cancelled dispatch
    leaves no record. *)
Definition trail (c : call) (w w' : world L) (r : result tool_exn ToolExecutionResult) : Prop :=
  match r with
  | Ok res => recorded c w w' (tr_status res) (tr_output res ≫= _output_error_code)
  | Err (ToolError t) =>
      (te_code t = TOOL_CALL_AUDIT_FAILED \/ te_code t = TOOL_DISPATCH_CANCELLED) /\
      records w' = records w
      \/ exists st, st <> ToolSUCCESS /\ recorded c w w' st (Some (te_code t))
  | Err _ => True
  end.

Lemma nonblank_text_ok s n : nonblank_text s = Ok n -> n = strip s.
Proof. unfold nonblank_text. by destruct (strip s); intros; simplify_eq. Qed.
Lemma nonblank_option_ok o n : nonblank_option o = Ok n -> n = strip <$> o.
Proof.
  destruct o as [s|]; simpl; intros; [|by simplify_eq].
  res_inv. apply nonblank_text_ok in Heqr. by subst.
Qed.

Lemma make_tool_call_ok r r' :
  make_tool_call r = Ok r' ->
  tc_status r' = tc_status r /\ tc_error_code r' = strip <$> tc_error_code r /\
  tc_agent_run_id r' = strip (tc_agent_run_id r) /\
  tc_tenant_id r' = strip (tc_tenant_id r) /\ tc_user_id r' = strip (tc_user_id r).
Proof.
  unfold make_tool_call. intros E. res_inv.
  repeat match goal with
  | H : nonblank_text _ = Ok _ |- _ => apply nonblank_text_ok in H
  | H : nonblank_option _ = Ok _ |- _ => apply nonblank_option_ok in H
  end. by subst.
Qed.

Lemma recorded_same c w w1 w2 st code :
  w_recorder w1 = w_recorder w -> records w1 = records w ->
  recorded c w1 w2 st code -> recorded c w w2 st code.
Proof. unfold recorded. by intros -> ->. Qed.

Lemma trail_same c w w1 w2 r :
  w_recorder w1 = w_recorder w -> records w1 = records w -> trail c w1 w2 r -> trail c w w2 r.
Proof.
  intros E1 E2. destruct r as [res|[t| |]]; simpl; try done.
  - by apply recorded_same.
  - rewrite E2. intros [?|(st & ? & ?)]; [by left|right]. exists st. split; [done|].
    by eapply recorded_same.
Qed.

Lemma record_inv c e d st lat code out raw fs w r w' :
  _record_tool_call c e d st lat code out raw fs w = (r, w') ->
  same_state w w' /\
  match r with
  | Ok _ => recorded c w w' st code
  | Err x => records w' = records w /\
             (x = Cancelled \/ exists t, x = ToolError t /\ te_code t = TOOL_CALL_AUDIT_FAILED)
  end.
Proof.
  unfold _record_tool_call. intros E.
  destruct (w_recorder w) eqn:Hr; simpl in E; [|simplify_eq; split; [done|]; unfold recorded; by rewrite Hr].
  destruct (c_agent_run_id c) as [run|] eqn:Hrun;
    [|simplify_eq; split; [done|]; unfold audit_failed; eauto].
  destruct (make_tool_call _) as [rec|] eqn:Hm; [destruct (ce_recorder e)|]; simplify_eq;
    (split; [by first [apply same_state_logged|reflexivity]|]);
    try (split; [done|]; unfold audit_failed; eauto; fail).
  apply make_tool_call_ok in Hm as (? & ? & ? & ? & ?). unfold recorded. rewrite Hr.
  exists rec, run. by rewrite records_logged.
Qed.

Lemma audit_inv c e st lat code md w r w' :
  _record_audit c e st lat code md w = (r, w') ->
  same_state w w' /\ records w' = records w /\ (r = Ok tt \/ r = Err Cancelled).
Proof.
  unfold _record_audit. intros E. repeat case_match; simplify_eq;
    (split; [by first [apply same_state_logged|reflexivity]|]); (split; [|by auto]);
    try done; rewrite records_logged; apply app_nil_r.
Qed.

(** Record, audit, then an action that touches nothing. *)
Lemma ending_inv {A} c e d st lat code out raw fs ast md (k : M L A) w r w' :
  (_ <- _record_tool_call c e d st lat code out raw fs;;
   _ <- _record_audit c e ast lat code md;; k) w = (r, w') ->
  exists w1, same_state w w1 /\
    ((w1 = w' /\ exists x, r = Err x /\
        (x = Cancelled \/ records w' = records w /\ exists t, x = ToolError t /\ te_code t = TOOL_CALL_AUDIT_FAILED)) \/
     (recorded c w w1 st code /\ k w1 = (r, w'))).
Proof.
  intros E. apply mthen_inv in E as [(x & E & ->)|([] & w1 & E1 & E)].
  { apply record_inv in E as [Hs [Hr [->|(t & -> & Ht)]]]; eexists; (split; [done|]); left; eauto 10. }
  apply record_inv in E1 as [Hs1 Hr].
  apply mthen_inv in E as [(x & E & ->)|([] & w2 & E2 & E)].
  { apply audit_inv in E as (Hs & _ & [?|?]); simplify_eq. exists w'. split; [by etrans|]. left; eauto. }
  apply audit_inv in E2 as (Hs2 & Hr2 & _). exists w2. split; [by etrans|]. right.
  split; [|done]. unfold recorded in *. by rewrite Hr2.
Qed.

Lemma reject_inv c e d st lat code sc det raw fs md w r w' :
  st <> ToolSUCCESS ->
  reject c e d st lat code sc det raw fs md w = (r, w') ->
  same_state w w' /\ trail c w w' r /\ is_ok r = false.
Proof.
  intros Hst E. apply ending_inv in E as (w1 & Hs & [(-> & x & -> & [->|(Hr & t & -> & Ht)])|[Hr E]]);
    [by auto|by simpl; auto 10|].
  unfold mraise in E. simplify_eq. split; [done|]. split; [|done]. right. eauto.
Qed.

Lemma finish_output_inv c e d base rate raw w r w' :
  finish_output c e d base rate raw w = (r, w') -> same_state w w' /\ trail c w w' r.
Proof.
  unfold finish_output. intros E. destruct (_validate_output _ _) as [out|fields].
  - apply ending_inv in E as (w1 & Hs & [(-> & x & -> & [->|(Hr & t & -> & Ht)])|[Hr E]]);
      [by auto|by simpl; auto 10|].
    unfold mreturn in E. by simplify_eq.
  - by apply reject_inv in E as (? & ? & _).
Qed.

Definition started_by (c : call) (payload : pydict) : tool_event :=
  EvHandler (c_name c) payload (c_context c) (c_approval_grant c).

Lemma mark_dispatch_same f c (w : world L) :
  let w' := mark_dispatch f c w in
  w_definitions w' = w_definitions w /\ w_recorder w' = w_recorder w /\
  w_limiter w' = w_limiter w /\ w_grants w' = w_grants w /\ w_log w' = w_log w.
Proof. unfold mark_dispatch. by destruct (c_dispatch_state c). Qed.

Lemma run_handler_inv c e d base rate payload w r w' :
  run_handler c e d base rate payload w = (r, w') ->
  w_definitions w' = w_definitions w /\ w_recorder w' = w_recorder w /\
  w_grants w' = w_grants w /\ handlers w' = handlers w ++ [started_by c payload] /\
  trail c w w' r.
Proof.
  unfold run_handler. intros E. unfold mthen at 1, modify in E.
  set (w1 := logged _ _) in E.
  destruct (mark_dispatch_same start_handler c w) as (Hd & Hr & _ & Hg & Hl).
  assert (handlers w1 = handlers w ++ [started_by c payload] /\ records w1 = records w) as [Hh Hrec].
  { subst w1. rewrite handlers_logged, records_logged. unfold handlers, records. rewrite Hl.
    split; [done|apply app_nil_r]. }
  assert (same_state w1 w' /\ trail c w1 w' r) as [Hs Ht].
  { destruct (ce_handler e payload) as [raw| | |].
    - by apply finish_output_inv in E.
    - by apply reject_inv in E as (? & ? & _).
    - apply ending_inv in E as (w2 & Hs & [(-> & x & -> & [->|(? & t & -> & Ht)])|[? E]]);
        [by auto|by simpl; auto 10|]. unfold mraise in E. by simplify_eq.
    - by apply reject_inv in E as (? & ? & _). }
  destruct Hs as [S1 S2 S3 S4 S5 S6]. rewrite S1, S2, S4, S6. repeat split; try done.
  by apply (trail_same c w w1 w').
Qed.

(** The limiter admits the call. *)
Definition rate_admits (c : call) (e : call_env) (d : ToolDefinition) (w : world L) : Prop :=
  exists key,
    make_rate_limit_key (auth_tenant_id (rc_auth (c_context c)))
      (auth_user_id (rc_auth (c_context c))) (c_name c) = Ok key /\
    allowed (acquire (ce_limiter_now e) key (td_rate_limit d) (w_limiter w)).1 = true.

Lemma admit_call_inv c e d base payload w r w' :
  admit_call c e d base payload w = (r, w') ->
  w_definitions w' = w_definitions w /\ w_recorder w' = w_recorder w /\
  w_grants w' = w_grants w /\ trail c w w' r /\
  (handlers w' = handlers w \/
   handlers w' = handlers w ++ [started_by c payload] /\
   has_tool_permission (rc_auth (c_context c)) (td_permission d) = true /\
   rate_admits c e d w /\ dispatch_allowed c e (awaited c e w) = true).
Proof.
  unfold admit_call. intros E.
  destruct (has_tool_permission _ _) eqn:Hp; simpl in E;
    [|apply reject_inv in E as ([] & ? & _); [split_and!; auto|done]].
  apply mthen_inv in E as [(x & E & ->)|(dec & w1 & E1 & E)].
  { unfold check_rate in E. repeat case_match; simplify_eq. split_and!; auto; done. }
  unfold check_rate in E1. destruct (make_rate_limit_key _ _ _) as [key|] eqn:Hk; [|done].
  destruct (acquire _ key _ _) as [dec' l] eqn:Ha. simplify_eq.
  destruct (allowed dec) eqn:Hal; simpl in E;
    [|apply reject_inv in E as ([] & Ht & _); [split_and!; try done; auto|done];
      by apply (trail_same c w (with_limiter w l) w')].
  unfold mthen, modify in E.
  assert (dispatch_allowed c e (awaited c e (with_limiter w l))
          = dispatch_allowed c e (awaited c e w)) as Hd.
  { unfold dispatch_allowed, awaited. destruct (c_dispatch_state c), (ce_revoked e); done. }
  rewrite Hd in E. clear Hd.
  set (w1 := awaited c e (with_limiter w l)) in E.
  assert (w_definitions w1 = w_definitions w /\ w_recorder w1 = w_recorder w /\
          w_grants w1 = w_grants w /\ w_log w1 = w_log w) as (Hd & Hr & Hg & Hl).
  { subst w1. unfold awaited. by destruct (c_dispatch_state c), (ce_revoked e). }
  assert (handlers w1 = handlers w /\ records w1 = records w) as [Hh Hrec].
  { unfold handlers, records. by rewrite Hl. }
  destruct (dispatch_allowed c e (awaited c e w)) eqn:Hda; simpl in E.
  - apply run_handler_inv in E as (E1 & E2 & E3 & E4 & Ht).
    rewrite E1, E2, E3, E4, Hd, Hr, Hg, Hh. split_and!; try done.
    + by apply (trail_same c w w1 w').
    + right. split_and!; try done. exists key. by rewrite Ha.
  - simplify_eq. split_and!; try done; [|by auto]. simpl. rewrite Hrec. auto.
Qed.
End ExecuteFacts.

(** ** Safety of dispatch *)
Section Safety.
Context `{PyRepr, UnicodeDB} {L : Type} `{ToolRateLimiter L}.

(** The grant that pays for a call: unused, in time when it is consumed and when
    the handler is dispatched, issued for this run, caller, tool and arguments;
    and used up afterwards. *)
Definition approved_by (c : call) (e : call_env) (arguments : pydict) (w w' : world L) : Prop :=
  exists g grant,
    c_approval_grant c = Some g /\ w_grants w !! g = Some grant /\
    ag_consumed grant = false /\
    fle (ag_expires_at grant) (ce_consume_now e) = false /\
    fle (ag_expires_at grant) (ce_dispatch_now e) = false /\
    c_agent_run_id c = Some (ag_run_id grant) /\
    auth_tenant_id (rc_auth (c_context c)) = ag_tenant_id grant /\
    auth_user_id (rc_auth (c_context c)) = ag_user_id grant /\
    c_name c = ag_tool_name grant /\
    argument_digest arguments = Some (ag_arguments_digest grant) /\
    w_grants w' !! g = Some (mark_consumed grant).

Definition not_revoked (c : call) (e : call_env) (w : world L) : Prop :=
  forall p s, c_dispatch_state c = Some p -> w_dispatches w !! p = Some s ->
    revoked s = false /\ ce_revoked e = false.

(** Everything that must hold for the handler of a call to be started. *)
Definition authorized (c : call) (e : call_env) (payload : pydict) (w w' : world L) : Prop :=
  exists d arguments,
    dict_get (c_name c) (w_definitions w) = Some d /\
    c_arguments c = VDict arguments /\
    arguments.*1 ⊆ model_fields (td_input_schema d) /\
    model_validate (td_input_schema d) (VDict arguments) = Ok payload /\
    has_tool_permission (rc_auth (c_context c)) (td_permission d) = true /\
    rate_admits c e d w /\
    (td_requires_approval d = true -> approved_by c e arguments w w') /\
    not_revoked c e w.

Definition grants_kept (w w' : world L) : Prop :=
  forall g, match w_grants w !! g with
            | Some x => w_grants w' !! g = Some x \/ w_grants w' !! g = Some (mark_consumed x)
            | None => w_grants w' !! g = None
            end.

Lemma grants_kept_eq w w' : w_grants w' = w_grants w -> grants_kept w w'.
Proof. intros E g. rewrite E. destruct (w_grants w !! g); auto. Qed.

Lemma validate_input_ok arguments s payload :
  _validate_input arguments s = Ok payload ->
  arguments.*1 ⊆ model_fields s /\ model_validate s (VDict arguments) = Ok payload.
Proof.
  unfold _validate_input. intros E. destruct (_extra_fields arguments s) eqn:Hx; [|done].
  split; [|repeat case_match; by simplify_eq].
  unfold _extra_fields in Hx. apply (f_equal length) in Hx.
  rewrite py_sort_length, length_fmap in Hx. apply nil_length_inv in Hx.
  intros k Hk. destruct (decide (k ∈ model_fields s)) as [|Hn]; [done|exfalso].
  assert (k ∈ remove_dups (filter (fun k => k ∉ model_fields s) arguments.*1)) as Hin
    by (apply elem_of_remove_dups, list_elem_of_filter; done).
  rewrite Hx in Hin. by apply list.not_elem_of_nil in Hin.
Qed.

Lemma consume_true g now run ctx name arguments g' :
  consume g now run ctx name arguments = Some (true, g') ->
  g' = mark_consumed g /\ ag_consumed g = false /\ fle (ag_expires_at g) now = false /\
  run = Some (ag_run_id g) /\ auth_tenant_id (rc_auth ctx) = ag_tenant_id g /\
  auth_user_id (rc_auth ctx) = ag_user_id g /\ name = ag_tool_name g /\
  argument_digest arguments = Some (ag_arguments_digest g).
Proof.
  unfold consume. destruct (grant_matches g now run ctx name) eqn:Hm; simpl; [|done].
  destruct (argument_digest arguments) as [dg|]; [|done]. case_bool_decide; [|done].
  intros [= <-]. unfold grant_matches in Hm. bool_inv. by subst.
Qed.

Lemma consume_kept g now run ctx name arguments b g' :
  consume g now run ctx name arguments = Some (b, g') -> g' = g \/ g' = mark_consumed g.
Proof. unfold consume. intros E. repeat case_match; simplify_eq; auto. Qed.

Lemma check_approval_inv c e d arguments w r w' :
  check_approval c e d arguments w = (r, w') ->
  w' = with_grants w (w_grants w') /\ grants_kept w w' /\
  (forall x, r = Err x -> x = OtherException) /\
  (r = Ok true -> td_requires_approval d = true ->
   exists g grant, c_approval_grant c = Some g /\ w_grants w !! g = Some grant /\
     w_grants w' !! g = Some (mark_consumed grant) /\
     consume grant (ce_consume_now e) (c_agent_run_id c) (c_context c) (c_name c) arguments
     = Some (true, mark_consumed grant)).
Proof.
  unfold check_approval. intros E.
  destruct (td_requires_approval d); simpl in E;
    [|simplify_eq; split_and!; [by destruct w'|by apply grants_kept_eq|done|done]].
  destruct (c_approval_grant c) as [g|]; simpl in E;
    [|simplify_eq; split_and!; [by destruct w'|by apply grants_kept_eq|done|done]].
  destruct (w_grants w !! g) as [grant|] eqn:Hg; simpl in E;
    [|simplify_eq; split_and!; [by destruct w'|by apply grants_kept_eq|done|done]].
  destruct (consume _ _ _ _ _ _) as [[b grant']|] eqn:Hc; simplify_eq;
    [|split_and!; [by destruct w'|by apply grants_kept_eq|by intros ? [= <-]|done]].
  split_and!; [done| |done|].
  - intros g'. simpl. destruct (decide (g' = g)) as [->|Hne].
    + rewrite Hg, lookup_insert_eq. apply consume_kept in Hc as [->| ->]; auto.
    + rewrite lookup_insert_ne by done. destruct (w_grants w !! g'); auto.
  - intros [= ->] _. pose proof (consume_true _ _ _ _ _ _ _ Hc) as [-> _].
    exists g, grant. simpl. by rewrite lookup_insert_eq.
Qed.

Lemma dispatch_allowed_inv c e (w : world L) :
  dispatch_allowed c e (awaited c e w) = true ->
  not_revoked c e w /\
  forall g grant, c_approval_grant c = Some g -> w_grants w !! g = Some grant ->
    fle (ag_expires_at grant) (ce_dispatch_now e) = false.
Proof.
  unfold dispatch_allowed. intros Hd. bool_inv. split.
  - intros p s Hp Hs. rewrite Hp in *. unfold awaited in *. rewrite Hp in *. simpl in *.
    destruct (ce_revoked e); simpl in *.
    + by rewrite lookup_alter_eq, Hs in H2.
    + rewrite Hs in H2. done.
  - intros g grant Hg Hgr. rewrite Hg in H3. simpl in H3.
    assert (w_grants (awaited c e w) = w_grants w) as Ew.
    { unfold awaited. by destruct (c_dispatch_state c), (ce_revoked e). }
    by rewrite Ew, Hgr in H3.
Qed.

Definition outcome_of (c : call) (e : call_env) (r : result tool_exn ToolExecutionResult)
    (w w' : world L) : Prop :=
  w_definitions w' = w_definitions w /\ w_recorder w' = w_recorder w /\ grants_kept w w' /\
  trail c w w' r /\
  (handlers w' = handlers w \/
   exists payload, handlers w' = handlers w ++ [started_by c payload] /\
     authorized c e payload w w').

(** Before the handler: grants may be used up, nothing has been started or
    recorded. *)
Definition undecided (w w1 : world L) : Prop :=
  w_definitions w1 = w_definitions w /\ w_recorder w1 = w_recorder w /\ grants_kept w w1 /\
  handlers w1 = handlers w /\ records w1 = records w.

(** A refusal changes nothing but the trail. *)
Lemma reject_outcome c e d st lat code sc det raw fs md w w1 r w' :
  st <> ToolSUCCESS -> undecided w w1 ->
  reject c e d st lat code sc det raw fs md w1 = (r, w') -> outcome_of c e r w w'.
Proof.
  intros Hst (U1 & U2 & U3 & U4 & U5) E.
  apply reject_inv in E as ([S1 S2 S3 S4 S5 S6] & Ht & _); [|done].
  unfold outcome_of, grants_kept. rewrite S1, S2, S4, S6. split_and!; auto.
  by apply (trail_same c w w1 w').
Qed.

Lemma mapping_outcome c e d base arguments w w0 r w' :
  dict_get (c_name c) (w_definitions w) = Some d -> c_arguments c = VDict arguments ->
  undecided w w0 -> w_grants w0 = w_grants w -> w_limiter w0 = w_limiter w ->
  (not_revoked c e w0 -> not_revoked c e w) ->
  (approved <- check_approval c e d arguments;;
   if (approved : bool) then validate_and_admit c e d base arguments
   else reject c e (Some d) ToolDENIED fzero TOOL_APPROVAL_REQUIRED 403 [] None [] base) w0
  = (r, w') -> outcome_of c e r w w'.
Proof.
  intros Hd Ha (U1 & U2 & U3 & U4 & U5) Hg Hl Hnr E.
  apply mthen_inv in E as [(x & E & ->)|(b & w1 & E1 & E)].
  { apply check_approval_inv in E as (-> & Hk & Hx & _). rewrite (Hx x eq_refl).
    unfold outcome_of, grants_kept in *. rewrite Hg in Hk. split_and!; try done. by left. }
  apply check_approval_inv in E1 as (Hw1 & Hk & _ & Hap).
  assert (undecided w w1 /\ w_limiter w1 = w_limiter w /\ w_dispatches w1 = w_dispatches w0)
    as (Hun & Hlim & Hdis).
  { unfold undecided, grants_kept in *. rewrite Hg in Hk. rewrite Hw1. simpl. by split_and!. }
  destruct b; cbn beta iota in E; [|eapply reject_outcome; [|exact Hun|exact E]; discriminate].
  unfold validate_and_admit in E.
  destruct (_validate_input _ _) as [payload|] eqn:Hv;
    [|eapply reject_outcome; [|exact Hun|exact E]; discriminate].
  apply validate_input_ok in Hv as [Hsub Hmv].
  destruct Hun as (V1 & V2 & V3 & V4 & V5).
  apply admit_call_inv in E as (E1 & E2 & E3 & Ht & Hh).
  unfold outcome_of, grants_kept. rewrite E1, E2, E3. split_and!; try done.
  { by apply (trail_same c w w1 w'). }
  destruct Hh as [->|(-> & Hp & Hrate & Hda)]; [by left|right].
  exists payload. rewrite V4. split; [done|]. exists d, arguments.
  apply dispatch_allowed_inv in Hda as [Hnv Hexp]. unfold rate_admits in Hrate. rewrite Hlim in Hrate.
  split_and!; try done; [|apply Hnr; intros p s' Hp' Hs'; apply (Hnv p s' Hp'); by rewrite Hdis].
  intros Hreq. destruct (Hap eq_refl Hreq) as (g & grant & G1 & G2 & G3 & G4).
  apply consume_true in G4 as (_ & C1 & C2 & C3 & C4 & C5 & C6 & C7).
  exists g, grant. rewrite E3. rewrite <- Hg. split_and!; try done.
  exact (Hexp g _ G1 G3).
Qed.

Lemma execute_outcome c e w r w' : execute c e w = (r, w') -> outcome_of c e r w w'.
Proof.
  unfold execute. set (w0 := mark_dispatch enter c w).
  destruct (mark_dispatch_same enter c w) as (Hd & Hr & Hl & Hg & Hlog).
  fold w0 in Hd, Hr, Hl, Hg, Hlog.
  assert (undecided w w0) as Hun.
  { unfold undecided, handlers, records. rewrite Hd, Hr, Hlog. split_and!; auto.
    by apply grants_kept_eq. }
  intros E. destruct (w_recorder w0 && _).
  { destruct Hun as (U1 & U2 & U3 & U4 & U5). simplify_eq. unfold outcome_of.
    rewrite U1, U2, U4. split_and!; auto. simpl. rewrite U5. auto. }
  rewrite Hd in E. destruct (dict_get (c_name c) (w_definitions w)) as [d|] eqn:Hdef;
    [|eapply reject_outcome; [|exact Hun|exact E]; discriminate].
  destruct (c_arguments c) as [| | | | | | | |arguments] eqn:Harg;
    try (eapply reject_outcome; [|exact Hun|exact E]; discriminate).
  eapply mapping_outcome; try done.
  intros Hn p s Hp Hs. unfold not_revoked in Hn. subst w0. unfold mark_dispatch in Hn.
  rewrite Hp in Hn. apply (Hn p (enter s) eq_refl). simpl. by rewrite lookup_alter_eq, Hs.
Qed.

(** C31: A tool's handler is started only when the tool is registered, the arguments
    are an object with no undeclared field that the input schema accepts (and the
    handler gets the validated payload), the caller holds the tool's permission,
    the rate limiter admits the call, the dispatch has not been revoked, and, for
    a tool that requires approval, an unused unexpired grant for exactly this run,
    tenant, user, tool and arguments is used up by the call.  Otherwise no handler
    is started at all, and in no case more than one. *)
Theorem handler_only_if_authorized c e w r w' :
  execute c e w = (r, w') ->
  handlers w' = handlers w \/
  exists payload, handlers w' = handlers w ++ [started_by c payload] /\
    authorized c e payload w w'.
Proof. intros E. by apply execute_outcome in E as (_ & _ & _ & _ & Hh). Qed.

(** Every call leaves its record before it returns or raises: a result is
    recorded with its status, an error with its code, exactly once and under the
    caller's run, tenant and user; when the record cannot be stored the call fails
    with that, and only a dispatch cancelled before the handler goes unrecorded. *)
Theorem every_call_recorded c e w r w' :
  execute c e w = (r, w') -> trail c w w' r.
Proof. intros E. by apply execute_outcome in E as (_ & _ & _ & Ht & _). Qed.

(** ** Sequences of calls *)

Definition run_calls (cs : list (call * call_env)) (w : world L) : world L :=
  foldl (fun w ce => (execute ce.1 ce.2 w).2) w cs.

(** The handlers started under grant [g] for tools that require approval. *)
Definition needs_approval (defs : list (pystr * ToolDefinition)) (name : pystr) : bool :=
  match dict_get name defs with Some d => td_requires_approval d | None => false end.
Definition spent_on (defs : list (pystr * ToolDefinition)) (g : N) (ev : tool_event) : bool :=
  match ev with
  | EvHandler name _ _ (Some g') => (g' =? g)%N && needs_approval defs name
  | _ => false
  end.
Definition uses (g : N) (w : world L) : nat :=
  length (filter (fun ev => spent_on (w_definitions w) g ev = true) (handlers w)).
Definition left (g : N) (w : world L) : nat :=
  match w_grants w !! g with Some x => if ag_consumed x then 0 else 1 | None => 0 end.

Lemma execute_uses g c e w :
  let w' := (execute c e w).2 in uses g w' + left g w' <= uses g w + left g w.
Proof.
  destruct (execute c e w) as [r w'] eqn:E. simpl.
  apply execute_outcome in E as (Hd & _ & Hk & _ & Hh).
  assert (left g w' <= left g w) as Hleft.
  { unfold left. specialize (Hk g). destruct (w_grants w !! g) as [x|]; [|by rewrite Hk].
    destruct Hk as [->| ->]; simpl; [lia|]. destruct (ag_consumed x); lia. }
  unfold uses. rewrite Hd. destruct Hh as [->|(payload & -> & Hau)]; [lia|].
  rewrite list.filter_app, length_app, filter_cons, filter_nil.
  destruct (decide (spent_on _ _ _ = true)) as [Hsp|]; simpl; [|lia].
  unfold started_by in Hsp. simpl in Hsp.
  destruct (c_approval_grant c) as [g'|] eqn:Hcg; [|done]. bool_inv.
  apply N.eqb_eq in H2 as ->. unfold needs_approval in *.
  destruct Hau as (d & arguments & Hdef & _ & _ & _ & _ & _ & Hap & _).
  rewrite Hdef in H3. destruct (Hap H3) as (g1 & grant & G1 & G2 & G3 & _ & _ & _ & _ & _ & _ & _ & G4).
  rewrite Hcg in G1. simplify_eq. unfold left. rewrite G2, G4, G3. simpl. lia.
Qed.

(** An approval is good for one dispatch: over any sequence of calls, by any
    callers and with any arguments, the handlers of approval-requiring tools started
    under one grant number at most one, and none if it was already used. *)
Theorem grant_used_once g cs w :
  uses g (run_calls cs w) <= uses g w + left g w <= uses g w + 1.
Proof.
  split.
  - assert (uses g (run_calls cs w) + left g (run_calls cs w) <= uses g w + left g w); [|lia].
    revert w. induction cs as [|[c e] cs IH]; intros w; simpl; [lia|].
    pose proof (execute_uses g c e w). specialize (IH (execute c e w).2). simpl in *.
    unfold run_calls in *. lia.
  - unfold left. repeat case_match; lia.
Qed.
End Safety.

(** ** What the recorder is given *)
Section Summaries.
Context `{UnicodeDB}.

Lemma startswith_chars p s x : startswith p s = true -> x ∈ p -> x ∈ s.
Proof.
  revert s. induction p as [|a p IH]; intros s Hs Hx; [by apply list.not_elem_of_nil in Hx|].
  destruct s as [|b s]; simpl in Hs; [done|]. bool_inv. apply N.eqb_eq in H0 as ->.
  apply elem_of_cons in Hx as [->|Hx]; apply elem_of_cons; [by left|right; eauto].
Qed.

Lemma contains_chars p s x : contains p s = true -> x ∈ p -> x ∈ s.
Proof.
  induction s as [|b s IH]; intros Hc Hx; apply orb_true_iff in Hc as [Hc|Hc];
    [by eapply startswith_chars|done|by eapply startswith_chars|].
  apply elem_of_cons. right. auto.
Qed.

Lemma is_ident_lower c : is_ident c = true -> Forall (fun d => (is_lower d || is_digit d || (d =? 95)%N) = true) (lower_cp c).
Proof.
  unfold is_ident, lower_cp, is_alpha, is_lower, is_digit. intros Hc.
  destruct ((65 <=? c) && (c <=? 90))%N eqn:E.
  - repeat constructor. bool_inv. apply N.leb_le in H0, H1.
    rewrite (proj2 (N.leb_le 97 (c + 32))), (proj2 (N.leb_le (c + 32) 122)) by lia. done.
  - simpl in Hc. destruct (c =? 304)%N eqn:E1; [apply N.eqb_eq in E1 as ->; done|].
    destruct (c =? 8490)%N eqn:E2; [apply N.eqb_eq in E2 as ->; done|].
    repeat constructor. exact Hc.
Qed.

Lemma ident_lower s : forallb is_ident s = true ->
  Forall (fun d => (is_lower d || is_digit d || (d =? 95)%N) = true) (lower s).
Proof.
  unfold lower. induction s as [|c s IH]; simpl; intros Hs; [done|]. bool_inv.
  apply Forall_app. split; [by apply is_ident_lower|by apply IH].
Qed.

Lemma underscored_id s :
  Forall (fun d => (is_lower d || is_digit d || (d =? 95)%N) = true) s -> underscored s = s.
Proof. unfold underscored. induction 1 as [|c s Hc _ IH]; [done|]. by rewrite fmap_cons, Hc, IH. Qed.

(** A marker with a character outside identifiers does not occur in one. *)
Lemma marker_absent m x s :
  Forall (fun d => (is_lower d || is_digit d || (d =? 95)%N) = true) s ->
  x ∈ m -> (is_lower x || is_digit x || (x =? 95)%N) = false -> contains m s = false.
Proof.
  intros Hs Hx Hc. destruct (contains m s) eqn:E; [|done].
  pose proof (contains_chars m s x E Hx) as Hin. rewrite list.Forall_forall in Hs.
  by rewrite (Hs x Hin) in Hc.
Qed.

Lemma identifier_not_sensitive s :
  strip s = s -> forallb is_ident s = true -> _is_sensitive_name s = false ->
  _looks_like_sensitive_value s = false.
Proof.
  intros Hst Hid Hn. pose proof (ident_lower s Hid) as Hl.
  unfold _is_sensitive_name in Hn. rewrite Hst, (underscored_id _ Hl) in Hn.
  assert (contains (u "api_key") (lower s) = false) as Hapi.
  { destruct (contains (u "api_key") (lower s)) eqn:E; [|done]. rewrite <- Hn. symmetry.
    apply existsb_exists. exists (u "api_key"). split.
    - apply list_elem_of_In. apply list_elem_of_fmap. exists "api_key"%string. split; [done|].
      by repeat (apply elem_of_cons; first [left; reflexivity|right]).
    - by rewrite E. }
  unfold _looks_like_sensitive_value, _SUMMARY_VALUE_SECRET_MARKERS. simpl. rewrite Hapi.
  rewrite (marker_absent (u "authorization:") 58%N _ Hl) by (vm_compute; try done; set_solver).
  rewrite (marker_absent (u "bearer ") 32%N _ Hl) by (vm_compute; try done; set_solver).
  rewrite (marker_absent (u "password=") 61%N _ Hl) by (vm_compute; try done; set_solver).
  rewrite (marker_absent (u "secret=") 61%N _ Hl) by (vm_compute; try done; set_solver).
  by rewrite (marker_absent (u "token=") 61%N _ Hl) by (vm_compute; try done; set_solver).
Qed.

Lemma identifier_not_path s :
  strip s = s -> forallb is_ident s = true -> _looks_like_absolute_path s = false.
Proof.
  intros Hst Hid. unfold _looks_like_absolute_path. rewrite Hst.
  assert (forall x c t, s = c :: t -> is_ident x = false -> (x =? c)%N = false) as Hne.
  { intros x c t -> Hx. destruct (N.eqb_spec x c) as [->|]; [|done]. simpl in Hid. bool_inv. congruence. }
  destruct s as [|a s]; [done|]. cbn [startswith u].
  change (u "/") with [47%N]. change (u "\\") with [92%N; 92%N]. cbn [startswith].
  rewrite (Hne 47%N a s), (Hne 92%N a s) by done. simpl.
  destruct s as [|b s]; [done|]. destruct s as [|c s]; [done|]. simpl in Hid. bool_inv.
  assert ((b =? 58)%N = false) as ->; [|by rewrite andb_false_r].
  destruct (N.eqb_spec b 58) as [->|]; done.
Qed.

Lemma identifier_summary s :
  strip s = s -> _is_safe_observable_name s = true -> _is_safe_summary_string s = true.
Proof.
  intros Hst Hs. unfold _is_safe_observable_name, _SAFE_IDENTIFIER_PATTERN in Hs. bool_inv.
  destruct s as [|c t]; [done|]. unfold ident_match in H0.
  apply andb_true_iff in H0 as [[Hf Ht]%andb_true_iff Hn]. apply Nat.leb_le in Hn.
  assert (is_ident c = true) as Hc.
  { unfold is_ident. apply orb_true_iff in Hf as [->| ->]; [done|]. by rewrite !orb_true_r. }
  assert (forallb is_ident (c :: t) = true) as Hid by (simpl; by rewrite Hc, Ht).
  unfold _is_safe_summary_string. rewrite Hst.
  rewrite identifier_not_path, identifier_not_sensitive by done.
  replace (200 <? length (c :: t)) with false by (symmetry; apply Nat.ltb_ge; simpl; lia).
  unfold _SAFE_SUMMARY_IDENTIFIER_PATTERN, ident_match. rewrite Hc. simpl.
  apply andb_true_iff. split; [|apply Nat.leb_le; lia].
  apply forallb_forall. intros x Hx. unfold is_dotted.
  rewrite forallb_forall in Ht. by rewrite (Ht x Hx).
Qed.

Lemma safe_key_summary k : _is_safe_summary_string (_safe_argument_key k) = true.
Proof.
  unfold _safe_argument_key. destruct (_is_safe_observable_name (strip k)) eqn:E; [|by vm_compute].
  apply identifier_summary; [apply strip_idem|done].
Qed.

Lemma summary_strings l :
  Forall (fun s => _is_safe_summary_string s = true) l ->
  _validate_safe_summary_value (VList (str_list l)) = Ok tt.
Proof. simpl. induction 1 as [|s l Hs _ IH]; simpl; [done|]. by rewrite Hs. Qed.

Lemma safe_keys_summary l :
  Forall (fun s => _is_safe_summary_string s = true) (sorted_set (_safe_argument_key <$> l)).
Proof.
  apply py_sort_Forall, list.Forall_forall. intros x Hx. rewrite elem_of_remove_dups in Hx.
  apply list_elem_of_fmap in Hx as (k & -> & _). apply safe_key_summary.
Qed.

Lemma summary_entry k v d :
  _is_forbidden_summary_key k = false -> _validate_safe_summary_value v = Ok tt ->
  _validate_safe_summary_mapping d = Ok tt -> _validate_safe_summary_mapping ((k, v) :: d) = Ok tt.
Proof. unfold _validate_safe_summary_mapping. simpl. by intros -> ->. Qed.

Lemma arguments_summary_accepted arguments :
  _validate_safe_summary_mapping (_arguments_summary arguments) = Ok tt.
Proof.
  assert (forall l n s, Forall (fun s => _is_safe_summary_string s = true) l ->
    _is_safe_summary_string s = true ->
    _validate_safe_summary_mapping [(u "argument_keys", VList (str_list l));
      (u "argument_count", VInt n); (u "argument_shape", VStr s)] = Ok tt) as Hg.
  { intros l n s Hl Hs. apply summary_entry; [by vm_compute|by apply summary_strings|].
    apply summary_entry; [by vm_compute|done|].
    apply summary_entry; [by vm_compute| |done]. cbn [_validate_safe_summary_value]. by rewrite Hs. }
  destruct arguments as [| | | | | | | |d];
    [..|apply Hg; [apply safe_keys_summary|by vm_compute]];
    (apply (Hg []); [constructor|by vm_compute]).
Qed.

Definition observable_code (code : option pystr) : Prop :=
  match code with Some c => _is_safe_summary_string c = true | None => True end.

Lemma result_summary_accepted status code out raw fs :
  observable_code code -> Forall (fun s => _is_safe_summary_string s = true) fs ->
  _validate_safe_summary_mapping (_result_summary status code out raw fs) = Ok tt.
Proof.
  intros Hc Hfs.
  assert (forall l n, Forall (fun s => _is_safe_summary_string s = true) l ->
    _validate_safe_summary_mapping [(u "result_keys", VList (str_list l));
      (u "result_count", VInt n)] = Ok tt) as Hg.
  { intros l n Hl. apply summary_entry; [by vm_compute|by apply summary_strings|].
    by apply summary_entry; [by vm_compute| |]. }
  unfold _result_summary. simpl app. apply summary_entry; [by vm_compute|by destruct status|].
  apply summary_entry; [by vm_compute| |].
  { destruct code as [c|]; [|done]. simpl in *. by rewrite Hc. }
  assert (forall m : option pydict, _validate_safe_summary_mapping
    (match m with
     | Some d => [(u "result_keys", VList (str_list (_safe_result_keys d)));
                  (u "result_count", VInt (Z.of_nat (length d)))]
     | None => [(u "result_keys", VList []); (u "result_count", VInt 0)]
     end) = Ok tt) as Hm.
  { intros [d|]; [apply Hg, safe_keys_summary|by apply (Hg [])]. }
  destruct fs as [|f fs]; [apply Hm|]. simpl app.
  apply summary_entry; [by vm_compute|exact (summary_strings (f :: fs) Hfs)|apply Hm].
Qed.

(** A wf identity: what the validators of the request context and of [AuthContext]
    leave. *)
Definition identified (ctx : RequestContext) : Prop :=
  Forall (fun s => strip s <> [])
    [rc_request_id ctx; rc_trace_id ctx; auth_tenant_id (rc_auth ctx); auth_user_id (rc_auth ctx)].

Lemma nonblank_text_some s : strip s <> [] -> nonblank_text s = Ok (strip s).
Proof. unfold nonblank_text. by destruct (strip s). Qed.

Lemma safe_tool_name_nonblank name : strip (_safe_tool_name name) <> [].
Proof.
  unfold _safe_tool_name. destruct (_ || _) eqn:E; [by vm_compute|]. bool_inv.
  rewrite strip_idem. by destruct (strip name).
Qed.

Lemma nonblank_option_some o : (forall s, o = Some s -> strip s <> []) ->
  nonblank_option o = Ok (strip <$> o).
Proof. destruct o as [s|]; [|done]. simpl. intros Hs. by rewrite nonblank_text_some by auto. Qed.

Lemma safe_summary_nonblank s : _is_safe_summary_string s = true -> strip s <> [].
Proof. unfold _is_safe_summary_string. by destruct (strip s). Qed.

(** The recorder's validation accepts every record the registry builds: for a
    validated identity, any arguments (their keys are replaced when they are not
    safe to show), any output and any observable error code and error fields, the
    summaries pass the checks that forbid secrets, paths and free text.  A call is
    therefore never refused because its own record was unsafe. *)
Theorem record_accepted ctx run name d arguments status lat code out raw fs :
  identified ctx -> strip run <> [] ->
  (forall def, d = Some def -> strip (td_permission def) <> []) ->
  fle fzero lat = true -> observable_code code ->
  Forall (fun s => _is_safe_summary_string s = true) fs ->
  is_ok (make_tool_call (tool_call_record ctx run name d arguments status lat code out raw fs)) = true.
Proof.
  intros Hctx Hrun Hd Hlat Hc Hfs. unfold identified in Hctx.
  repeat match goal with H : Forall _ (_ :: _) |- _ => apply list.Forall_cons in H as [? H] end.
  unfold make_tool_call, tool_call_record. cbn [tc_agent_run_id tc_request_id tc_trace_id tc_tenant_id
    tc_user_id tc_tool_name tc_permission tc_status tc_latency_ms tc_error_code tc_arguments_summary
    tc_result_summary].
  rewrite !nonblank_text_some by (done || apply safe_tool_name_nonblank). cbn [mbind result_bind].
  assert (forall s, td_permission <$> d = Some s -> strip s <> []) as Hperm.
  { intros s Eq. apply fmap_Some in Eq as (def & -> & ->). by apply Hd. }
  rewrite (nonblank_option_some _ Hperm). cbn [mbind result_bind].
  rewrite Hlat. cbn [negb raise_if mbind result_bind].
  assert (forall s, code = Some s -> strip s <> []) as Hcode.
  { intros s ->. by apply safe_summary_nonblank. }
  rewrite (nonblank_option_some _ Hcode). cbn [mbind result_bind].
  rewrite arguments_summary_accepted. cbn [mbind result_bind].
  by rewrite result_summary_accepted.
Qed.
End Summaries.

(** * Witnesses *)

Module RegistryExamples.
Import InMemoryToolRateLimiter.

Definition open_schema (fields : list pystr) : schema :=
  {| model_fields := fields;
     model_validate := fun v => match v with VDict d => Ok d | _ => Err [[u "root"]] end;
     model_dump := fun d => d;
     model_json_schema := [(u "type", VStr (u "object"))] |}.

(** A tool that searches documents and needs an approval. *)
Definition search : ToolDefinition :=
  {| td_name := u "search"; td_description := u "search"; td_input_schema := open_schema [u "x"];
     td_output_schema := open_schema [u "hits"]; td_permission := u "document:read";
     td_timeout_seconds := fofZ 5; td_rate_limit := {| max_calls := 1; window_seconds := fofZ 60 |};
     td_prompt_projection := None; td_durable_replay_policy := replay_read_only;
     td_requires_approval := true; td_implementation_version := u "1" |}.

Definition ctx : RequestContext :=
  {| rc_request_id := u "req"; rc_trace_id := u "trace"; rc_session_id := None;
     rc_auth_method := None; rc_auth := Examples.alice |}.

Definition args : pydict := [(u "x", VInt 1)].

Definition grant : ToolApprovalGrant :=
  {| ag_run_id := u "run"; ag_tenant_id := u "t1"; ag_user_id := u "alice";
     ag_tool_name := u "search";
     ag_arguments_digest := sha256_hex (u "{" ++ 34%N :: u "x" ++ 34%N :: u ":1}");
     ag_expires_at := fofZ 100; ag_consumed := false |}.

Definition w0 : world calls_by_key :=
  {| w_definitions := [(u "search", search)]; w_recorder := true; w_limiter := ∅;
     w_grants := {[ 7%N := grant ]};
     w_dispatches := {[ 3%N := {| registry_entered := false; handler_started := false;
                                  revoked := false |} ]};
     w_log := [] |}.

Definition c0 : call :=
  {| c_name := u "search"; c_arguments := VDict args; c_context := ctx;
     c_agent_run_id := Some (u "run"); c_approval_grant := Some 7%N;
     c_dispatch_state := Some 3%N |}.

Definition e0 : call_env :=
  {| ce_started := fofZ 1; ce_ended := fofZ 2; ce_consume_now := fofZ 50;
     ce_limiter_now := fofZ 10; ce_revoked := false; ce_dispatch_now := fofZ 51;
     ce_handler := fun _ => HReturns (RawMapping [(u "hits", VInt 0)]);
     ce_recorder := IoOk; ce_audit := IoOk |}.

Definition final : result tool_exn ToolExecutionResult * world calls_by_key :=
  execute (H := Examples.repr0) (H0 := RedactExamples.ascii_only) c0 e0 w0.

Example search_runs : is_ok final.1 = true /\ length (w_log final.2) = 3.
Proof. by vm_compute. Qed.

(** The same grant does not pay twice. *)
Example grant_refused_second_time :
  match (execute (H := Examples.repr0) (H0 := RedactExamples.ascii_only) c0 e0 final.2).1 with
  | Err (ToolError t) => te_code t = TOOL_APPROVAL_REQUIRED
  | _ => False
  end.
Proof. by vm_compute. Qed.

Definition key : ToolRateLimitKey := (u "t1", u "alice", u "search").
Definition lim : ToolRateLimit := {| max_calls := 1; window_seconds := fofZ 60 |}.
Definition two_calls : list request := [(key, lim, fofZ 10); (key, lim, fofZ 20)].
End RegistryExamples.

Lemma handler_only_if_authorized_witness :
  handlers RegistryExamples.final.2
  = [started_by RegistryExamples.c0 RegistryExamples.args] /\
  approved_by (H := Examples.repr0) RegistryExamples.c0 RegistryExamples.e0 RegistryExamples.args
    RegistryExamples.w0 RegistryExamples.final.2.
Proof.
  assert (handlers RegistryExamples.final.2
          = [started_by RegistryExamples.c0 RegistryExamples.args]) as E by (by vm_compute).
  split; [exact E|].
  destruct (handler_only_if_authorized (H := Examples.repr0) (H0 := RedactExamples.ascii_only)
    RegistryExamples.c0 RegistryExamples.e0 RegistryExamples.w0 RegistryExamples.final.1
    RegistryExamples.final.2 (surjective_pairing _)) as [Hh|(p & Hp & d & a & Hd & Ha & _ & _ & _ & _ & Hap & _)].
  - rewrite E in Hh. discriminate Hh.
  - injection Ha as <-. injection Hd as <-. exact (Hap eq_refl).
Defined.

Lemma every_call_recorded_witness :
  exists rec, records RegistryExamples.final.2 = [EvRecord rec] /\
    tc_status rec = ToolSUCCESS /\ tc_tenant_id rec = u "t1".
Proof.
  pose proof (every_call_recorded (H := Examples.repr0) (H0 := RedactExamples.ascii_only)
    RegistryExamples.c0 RegistryExamples.e0 RegistryExamples.w0 RegistryExamples.final.1
    RegistryExamples.final.2 (surjective_pairing _)) as Ht.
  assert (exists res, RegistryExamples.final.1 = Ok res /\ tr_status res = ToolSUCCESS) as (res & Er & Es)
    by (eexists; split; by vm_compute).
  rewrite Er in Ht. destruct Ht as (rec & run & Hr & Hst & _ & _ & _ & Hten & _).
  exists rec. split; [exact Hr|]. split; [rewrite Hst; exact Es|rewrite Hten; by vm_compute].
Defined.

Lemma limiter_window_witness :
  (Z.of_nat (length (in_window RegistryExamples.lim (fofZ 100)
    ([fofZ 10] ++ [fofZ 100]))) <= 1)%Z.
Proof.
  set (st := admissions RegistryExamples.key RegistryExamples.two_calls ∅ []).
  assert (st.2 = [fofZ 10]) as E by (vm_compute; reflexivity).
  rewrite <- E. apply (limiter_window RegistryExamples.key RegistryExamples.lim
    RegistryExamples.two_calls (fofZ 100) st.1).
  - apply surjective_pairing.
  - vm_compute. reflexivity.
  - constructor; [intros _; reflexivity|]. constructor; [intros _; reflexivity|constructor].
  - vm_compute. reflexivity.
Defined.

Lemma record_accepted_witness :
  is_ok (make_tool_call (H := RedactExamples.ascii_only)
    (tool_call_record RegistryExamples.ctx (u "run") (u "search") (Some RegistryExamples.search)
      (VDict [(u "api_key", VStr (u "s"))]) ToolFAILURE fone (Some TOOL_TIMEOUT) None None [])) = true.
Proof.
  apply record_accepted.
  - unfold identified. do 4 (constructor; [by vm_compute|]). constructor.
  - by vm_compute.
  - intros def [= <-]. by vm_compute.
  - by vm_compute.
  - by vm_compute.
  - constructor.
Defined.
