(* ===== verification/FinalAnswer.v ===== *)
(** Validation of an agent's final answer.

    Models [packages/agent/final_answer.py] ([StrictFinalAnswerValidator]) and the
    observation record of [packages/agent/runtime.py] it reads.  An answer is
    published only when every citation it makes points at evidence that a
    successful search returned in the same run. *)

From Stdlib Require Import ZArith String.
From S2P Require Import Prelude Float64 PyVal Access Redact AgentDto ContextPacker Registry.
From stdpp Require Import base list numbers.

#[local] Arguments fadd : simpl never.
#[local] Arguments fsub : simpl never.
#[local] Arguments fmul : simpl never.

Record AgentObservationSummary : Type := {
  ob_tool_name : pystr;
  ob_status : ToolInvocationStatus;
  ob_output_keys : list pystr;
  ob_citation_refs : list AgentCitationRef;
  ob_error_code : option pystr;
  ob_result_status : option pystr;
  ob_latency_ms : float;
  ob_metadata : pydict;
  ob_output_summary : pydict;
  ob_prompt_context : pydict
}.

Definition AGENT_FINAL_ANSWER_UNSUPPORTED_CITATION := u "AGENT_FINAL_ANSWER_UNSUPPORTED_CITATION".
Definition AGENT_FINAL_ANSWER_FAILED_TOOL_REFERENCE := u "AGENT_FINAL_ANSWER_FAILED_TOOL_REFERENCE".
Definition AGENT_FINAL_ANSWER_VALIDATION_FAILED := u "AGENT_FINAL_ANSWER_VALIDATION_FAILED".
Definition FINAL_ANSWER_VALIDATION_ACTION := u "agent.final_answer_validation".

Definition rag_search : pystr := u "rag_search".

Section Validator.
Context `{UnicodeDB, UnicodeDigits}.

(** Text that names a source without citing it. *)
Definition _SOURCE_LIKE_TEXT : re :=
  let dash := RChr (ROneOf (u "-_")) in
  let ident := RPlus (RChr (fun c => is_alnum_i c || ROneOf (u "_.:-") c)) in
  let part := RPlus (RChr (fun c => is_alnum_i c || ROneOf (u "_.-") c)) in
  let inner := RStar (RChr (fun c => negb (c =? 93)%N)) in
  let cats := foldr RCat REps in
  RAnyOf
    [ cats [RBound; RAnyOf [RStrI (u "document_id"); RStrI (u "version_id");
                            RStrI (u "chunk_id"); RStrI (u "source")]; RBound;
            RStar (RChr is_space); RChr (ROneOf (u ":="))];
      cats [RStr (u "["); inner; RBound;
            RAnyOf [RStrI (u "doc"); RStrI (u "chunk"); RStrI (u "source")]; inner; RStr (u "]")];
      cats [RBound; RStrI (u "doc"); dash; ident; RBound;
            RStar (RChr (fun c => negb (c =? 10)%N));
            RBound; RStrI (u "chunk"); dash; ident; RBound];
      cats [RBound; RStrI (u "doc"); dash; part; RStr (u ":"); part; RStr (u ":");
            RStrI (u "chunk"); dash; part; RBound];
      cats [RBound; RStrI (u "page"); RPlus (RChr is_space);
            RPlus (RChr (fun c => match char_decimal c with Some _ => true | None => false end));
            RBound] ].

Definition cites (o : AgentObservationSummary) (c : AgentCitationRef) : bool :=
  existsb (fun ref => bool_decide (evidence_key ref = evidence_key c)) (ob_citation_refs o).

Definition _observation_is_failed_or_non_rag (o : AgentObservationSummary) : bool :=
  negb (bool_decide (ob_tool_name o = rag_search))
  || negb (bool_decide (ob_status o = ToolSUCCESS))
  || negb (bool_decide (ob_error_code o = None))
  || negb (bool_decide (ob_result_status o ∈ [None; Some (u "success")])).

Definition _successful_rag_search_observation_contains (o : AgentObservationSummary)
    (c : AgentCitationRef) : bool :=
  if negb (bool_decide (ob_tool_name o = rag_search)) then false
  else if negb (bool_decide (ob_status o = ToolSUCCESS)) then false
  else if negb (bool_decide (ob_error_code o = None)) then false
  else if negb (bool_decide (ob_result_status o ∈ [None; Some (u "success")])) then false
  else cites o c.

(** An index is not negative ([ge=0] of the citation's field), so it selects from
    the front. *)
Definition _citation_is_supported (c : AgentCitationRef) (obs : list AgentObservationSummary)
  : bool :=
  if negb (bool_decide (cr_tool_name c ∈ [None; Some rag_search])) then false else
  match cr_observation_index c with
  | Some i =>
      match obs !! Z.to_nat i with
      | Some o => _successful_rag_search_observation_contains o c
      | None => false
      end
  | None => existsb (fun o => _successful_rag_search_observation_contains o c) obs
  end.

Definition _failed_observation_contains_citation (o : AgentObservationSummary)
    (c : AgentCitationRef) : bool :=
  cites o c && _observation_is_failed_or_non_rag o.

Definition failed_reference (obs : list AgentObservationSummary) (c : AgentCitationRef) : bool :=
  match cr_observation_index c with
  | None => existsb (fun o => _failed_observation_contains_citation o c) obs
  | Some i =>
      match obs !! Z.to_nat i with
      | None => true
      | Some o => _observation_is_failed_or_non_rag o
      end
  end.

Definition _failed_tool_reference_count (citations : list AgentCitationRef)
    (obs : list AgentObservationSummary) : Z :=
  Z.of_nat (length (filter (fun c => failed_reference obs c = true) citations)).

(** ** Results *)

Definition opt_entry {A} (key : pystr) (f : A -> pyval) (o : option A) : pydict :=
  match o with Some a => [(key, f a)] | None => [] end.

Definition safe_citation_identifier (c : AgentCitationRef) : pyval :=
  VDict ([(u "document_id", VStr (cr_document_id c)); (u "version_id", VStr (cr_version_id c));
          (u "chunk_id", VStr (cr_chunk_id c))]
         ++ opt_entry (u "page_start") VInt (cr_page_start c)
         ++ opt_entry (u "page_end") VInt (cr_page_end c)
         ++ opt_entry (u "tool_name") VStr (cr_tool_name c)
         ++ opt_entry (u "observation_index") VInt (cr_observation_index c)).

Definition _safe_validation_metadata (status : pystr) (error_code : option pystr)
    (citations : list AgentCitationRef) (validated unsupported failed : Z) : pydict :=
  [(u "validation_status", VStr status); (u "error_code", opt_str error_code);
   (u "validated_citation_count", VInt validated);
   (u "unsupported_citation_count", VInt unsupported);
   (u "failed_tool_reference_count", VInt failed);
   (u "citation_refs", VList (safe_citation_identifier <$> citations))].

Definition _invalid_result (latency_ms : float) (error_code : pystr)
    (validated unsupported failed : Z) (citations : list AgentCitationRef)
  : result agent_dto_error FinalAnswerValidationResult :=
  make_validation_result
    {| vr_status := FvInvalid; vr_answer := None; vr_citations := [];
       vr_latency_ms := latency_ms; vr_error_code := Some error_code;
       vr_validated_citation_count := Z.max validated 0;
       vr_unsupported_citation_count := unsupported;
       vr_failed_tool_reference_count := failed;
       vr_metadata := _safe_validation_metadata (u "invalid") (Some error_code) citations
                        (Z.max validated 0) unsupported failed |}.

Definition valid_result (request : FinalAnswerValidationRequest) (latency_ms : float)
  : FinalAnswerValidationResult :=
  let n := Z.of_nat (length (vq_citations request)) in
  {| vr_status := FvValid; vr_answer := Some (vq_answer request);
     vr_citations := vq_citations request; vr_latency_ms := latency_ms; vr_error_code := None;
     vr_validated_citation_count := n; vr_unsupported_citation_count := 0;
     vr_failed_tool_reference_count := 0;
     vr_metadata := _safe_validation_metadata (u "valid") None (vq_citations request) n 0 0 |}.

Definition _validate (request : FinalAnswerValidationRequest) (obs : list AgentObservationSummary)
    (latency_ms : float) : result agent_dto_error FinalAnswerValidationResult :=
  let citations := vq_citations request in
  let n := Z.of_nat (length citations) in
  if bool_decide (strip (vq_answer request) = []) then
    _invalid_result latency_ms AGENT_FINAL_ANSWER_VALIDATION_FAILED 0 0 0 []
  else if bool_decide (citations = []) && re_search _SOURCE_LIKE_TEXT (vq_answer request) then
    _invalid_result latency_ms AGENT_FINAL_ANSWER_UNSUPPORTED_CITATION 0 1 0 []
  else
    let failed := _failed_tool_reference_count citations obs in
    let unsupported :=
      Z.of_nat (length (filter (fun c => _citation_is_supported c obs = false) citations)) in
    if negb (failed =? 0)%Z then
      _invalid_result latency_ms AGENT_FINAL_ANSWER_FAILED_TOOL_REFERENCE (n - unsupported)
        unsupported failed citations
    else if negb (unsupported =? 0)%Z then
      _invalid_result latency_ms AGENT_FINAL_ANSWER_UNSUPPORTED_CITATION (n - unsupported)
        unsupported 0 citations
    else make_validation_result (valid_result request latency_ms).

Definition validation_failed (latency_ms : float) : FinalAnswerValidationResult :=
  {| vr_status := FvInvalid; vr_answer := None; vr_citations := [];
     vr_latency_ms := latency_ms; vr_error_code := Some AGENT_FINAL_ANSWER_VALIDATION_FAILED;
     vr_validated_citation_count := 0; vr_unsupported_citation_count := 0;
     vr_failed_tool_reference_count := 0;
     vr_metadata := [(u "validation_status", VStr (u "invalid"));
                     (u "error_code", VStr AGENT_FINAL_ANSWER_VALIDATION_FAILED)] |}.

Definition _audit_status (s : FinalAnswerValidationStatus) : AuditStatus :=
  match s with FvValid => AuditSUCCESS | FvDegraded => AuditDENIED | FvInvalid => AuditFAILURE end.

(** The event of [_record_validation_audit]; building it may fail, which only logs. *)
Definition validation_audit_event (ctx : RequestContext) (run : option pystr)
    (status : AuditStatus) (r : FinalAnswerValidationResult) : result agent_dto_error AuditEvent :=
  let resource_id := match run with Some ((_ :: _) as i) => i | _ => rc_request_id ctx end in
  resource ← make_audit_resource (u "agent_run") resource_id
               [(u "agent_run_id", VStr resource_id)];
  make_audit_event (rc_request_id ctx) (rc_trace_id ctx) (auth_tenant_id (rc_auth ctx))
    (auth_user_id (rc_auth ctx)) FINAL_ANSWER_VALIDATION_ACTION resource status
    (vr_latency_ms r) (vr_error_code r) (vr_metadata r).

(** [validate] without its audit write: [t0], [t1], [t2] are the clock's readings.
    The fallback is built outside the [try]. *)
Definition validate (request : FinalAnswerValidationRequest) (obs : list AgentObservationSummary)
    (t0 t1 t2 : float) : result agent_dto_error FinalAnswerValidationResult :=
  match _validate request obs (_elapsed_ms (fsub t1 t0)) with
  | Ok r => Ok r
  | Err _ => make_validation_result (validation_failed (_elapsed_ms (fsub t2 t0)))
  end.
End Validator.

(** * Theorems *)

Section Grounding.
Context `{UnicodeDB, UnicodeDigits}.

(** The evidence behind a citation: an observation of a successful search in this
    run (the one the citation names, when it names one) that returned exactly the
    cited document, version, chunk, source and pages. *)
Definition grounded (obs : list AgentObservationSummary) (c : AgentCitationRef) : Prop :=
  exists i o ref,
    obs !! i = Some o /\
    (forall z, cr_observation_index c = Some z -> i = Z.to_nat z) /\
    ob_tool_name o = rag_search /\ ob_status o = ToolSUCCESS /\ ob_error_code o = None /\
    ob_result_status o ∈ [None; Some (u "success")] /\
    ref ∈ ob_citation_refs o /\ evidence_key ref = evidence_key c.

Lemma cites_spec o c :
  cites o c = true <-> exists ref, ref ∈ ob_citation_refs o /\ evidence_key ref = evidence_key c.
Proof.
  unfold cites. rewrite existsb_exists. split.
  - intros (ref & Hin & Hk). bool_inv. exists ref. by rewrite list_elem_of_In.
  - intros (ref & Hin & Hk). exists ref. rewrite <- list_elem_of_In. by rewrite bool_decide_true.
Qed.

Lemma contains_inv o c :
  _successful_rag_search_observation_contains o c = true ->
  ob_tool_name o = rag_search /\ ob_status o = ToolSUCCESS /\ ob_error_code o = None /\
  ob_result_status o ∈ [None; Some (u "success")] /\ cites o c = true.
Proof.
  unfold _successful_rag_search_observation_contains. intros E.
  repeat (case_bool_decide; simpl in E; [|done]). done.
Qed.

Lemma supported_grounded obs c : _citation_is_supported c obs = true -> grounded obs c.
Proof.
  unfold _citation_is_supported. intros E. case_bool_decide; simpl in E; [|done].
  assert (exists i o, obs !! i = Some o /\ (forall z, cr_observation_index c = Some z -> i = Z.to_nat z)
    /\ _successful_rag_search_observation_contains o c = true) as (i & o & Hi & Hz & Ho).
  { destruct (cr_observation_index c) as [z|].
    - destruct (obs !! Z.to_nat z) as [o|] eqn:Ho; [|done].
      exists (Z.to_nat z), o. split_and!; [done|by intros ? [= ->]|done].
    - apply existsb_exists in E as (o & Hin & Ho). apply list_elem_of_In in Hin.
      apply list_elem_of_lookup in Hin as [i Hi]. by exists i, o. }
  apply contains_inv in Ho as (H2 & H3 & H4 & H5 & (ref & Hr & Hk)%cites_spec).
  exists i, o, ref. by split_and!.
Qed.

Lemma filter_empty {A} (P : A -> Prop) `{forall x, Decision (P x)} l :
  Z.of_nat (length (filter P l)) = 0%Z -> Forall (fun x => ~ P x) l.
Proof.
  intros E. apply list.Forall_forall. intros x Hx Hp.
  assert (x ∈ filter P l) as Hin by (by apply list_elem_of_filter).
  destruct (filter P l); [by apply list.not_elem_of_nil in Hin|simpl in E; lia].
Qed.

Lemma filter_none {A} (P : A -> Prop) `{forall x, Decision (P x)} l :
  Forall (fun x => ~ P x) l -> filter P l = [].
Proof. induction 1 as [|x l Hx _ IH]; [done|]. by rewrite filter_cons, decide_False. Qed.

Lemma make_validation_result_id r r' : make_validation_result r = Ok r' -> r' = r.
Proof. unfold make_validation_result. intros E. by res_inv. Qed.

Lemma invalid_result_inv lat code v un f cs r :
  _invalid_result lat code v un f cs = Ok r ->
  vr_status r = FvInvalid /\ vr_answer r = None /\ vr_citations r = [] /\ vr_error_code r = Some code.
Proof. intros E. by apply make_validation_result_id in E as ->. Qed.

(** What a request must satisfy. *)
Definition acceptable (request : FinalAnswerValidationRequest) (obs : list AgentObservationSummary)
  : Prop :=
  strip (vq_answer request) <> [] /\
  (vq_citations request = [] -> re_search _SOURCE_LIKE_TEXT (vq_answer request) = false) /\
  Forall (fun c => _citation_is_supported c obs = true /\ failed_reference obs c = false)
    (vq_citations request).

Lemma validate_cases request obs lat r :
  _validate request obs lat = Ok r ->
  (acceptable request obs /\ r = valid_result request lat) \/
  (~ acceptable request obs /\ vr_status r = FvInvalid /\ vr_answer r = None /\
   vr_citations r = [] /\ is_Some (vr_error_code r)).
Proof.
  unfold _validate. intros E. unfold acceptable.
  case_bool_decide as Hans; [right; apply invalid_result_inv in E as (? & ? & ? & ->);
    split_and!; [by intros [? _]|done..|by eexists]|].
  case_bool_decide as Hc; simpl in E.
  - destruct (re_search _ _) eqn:Hs.
    + right. apply invalid_result_inv in E as (? & ? & ? & ->).
      split_and!; [intros (_ & Hn & _); discriminate (Hn Hc)|done..|by eexists].
    + rewrite Hc in E |- *. simpl in E. left. split; [done|]. by apply make_validation_result_id.
  - unfold _failed_tool_reference_count in E.
    destruct (Z.eqb_spec (Z.of_nat (length (filter (fun c => failed_reference obs c = true)
      (vq_citations request)))) 0) as [Hf|Hf]; simpl in E.
    2:{ right. apply invalid_result_inv in E as (? & ? & ? & ->).
        split_and!; [|done..|by eexists]. intros (_ & _ & Hall). apply Hf.
        rewrite filter_none; [done|]. eapply list.Forall_impl; [exact Hall|]. intros c [_ ->]. done. }
    destruct (Z.eqb_spec (Z.of_nat (length (filter (fun c => _citation_is_supported c obs = false)
      (vq_citations request)))) 0) as [Hu|Hu]; simpl in E.
    + left. apply make_validation_result_id in E. split; [|done]. split; [done|]. split; [done|].
      apply filter_empty in Hf, Hu. rewrite list.Forall_forall in *. intros c Hin.
      split; [apply not_false_is_true, Hu|apply not_true_is_false, Hf]; done.
    + right. apply invalid_result_inv in E as (? & ? & ? & ->).
      split_and!; [|done..|by eexists]. intros (_ & _ & Hall). apply Hu.
      rewrite filter_none; [done|]. eapply list.Forall_impl; [exact Hall|]. by intros c [-> _].
Qed.

(** ** Accepted requests produce a result *)

Lemma citation_identifier_summary s :
  strip s = s -> _is_safe_citation_identifier s = true -> _is_safe_summary_string s = true.
Proof.
  intros Hst Hs. unfold _is_safe_citation_identifier in Hs. apply andb_true_iff in Hs as [Hp Hn].
  bool_inv. unfold _is_safe_summary_string. rewrite Hst.
  destruct s as [|c t]; [done|]. unfold _SAFE_CITATION_IDENTIFIER_PATTERN, ident_match in Hp.
  apply andb_true_iff in Hp as [[Hc Ht]%andb_true_iff Hlen].
  rewrite H1, H2. unfold _SAFE_SUMMARY_IDENTIFIER_PATTERN, ident_match.
  rewrite Ht, Hlen. unfold is_ident. rewrite Hc. apply Nat.leb_le in Hlen.
  replace (200 <? length (c :: t)) with false by (symmetry; apply Nat.ltb_ge; simpl; lia). done.
Qed.

Lemma summary_list l :
  Forall (fun v => _validate_safe_summary_value v = Ok tt) l ->
  _validate_safe_summary_value (VList l) = Ok tt.
Proof. simpl. induction 1 as [|v l Hv _ IH]; [done|]. by rewrite Hv. Qed.

(** A citation as its constructor leaves it. *)
Definition citation_wf (c : AgentCitationRef) : Prop :=
  Forall (fun s => strip s = s /\ _is_safe_citation_identifier s = true)
    [cr_document_id c; cr_version_id c; cr_chunk_id c].

Lemma identifier_wf s n : _identifier_must_be_safe s = Ok n ->
  strip n = n /\ _is_safe_citation_identifier n = true.
Proof.
  unfold _identifier_must_be_safe. intros E. res_inv. apply nonblank_text_ok in Heqr0 as ->.
  split; [apply strip_idem|]. by apply negb_false_iff.
Qed.

Lemma make_citation_ref_wf c c' : make_citation_ref c = Ok c' -> citation_wf c'.
Proof.
  unfold make_citation_ref. intros E. res_inv.
  repeat match goal with H : _identifier_must_be_safe _ = Ok _ |- _ => apply identifier_wf in H end.
  unfold citation_wf. by do 3 (constructor; [done|]).
Qed.

Lemma citation_metadata_ok c :
  citation_wf c -> cr_tool_name c ∈ [None; Some rag_search] ->
  _validate_safe_summary_value (safe_citation_identifier c) = Ok tt.
Proof.
  intros Hw Ht. unfold citation_wf in Hw.
  assert (forall key s d, _is_forbidden_summary_key key = false -> strip s = s /\
    _is_safe_citation_identifier s = true -> _validate_safe_summary_mapping d = Ok tt ->
    _validate_safe_summary_mapping ((key, VStr s) :: d) = Ok tt) as Hid.
  { intros key s d Hk [Hs1 Hs2] Hd. apply summary_entry; [done| |done].
    simpl. by rewrite citation_identifier_summary. }
  assert (forall {A} key (f : A -> pyval) o d, _is_forbidden_summary_key key = false ->
    (forall a, o = Some a -> _validate_safe_summary_value (f a) = Ok tt) ->
    _validate_safe_summary_mapping d = Ok tt ->
    _validate_safe_summary_mapping (opt_entry key f o ++ d) = Ok tt) as Hopt.
  { intros A key f [a|] d Hk Ha Hd; [|done]. by apply summary_entry; [| apply Ha|]. }
  repeat match goal with H : Forall _ (_ :: _) |- _ => apply list.Forall_cons in H as [? H] end.
  unfold safe_citation_identifier.
  change (_validate_safe_summary_value (VDict ?d)) with (_validate_safe_summary_mapping d).
  cbn [app]. apply Hid; [by vm_compute|done|]. apply Hid; [by vm_compute|done|].
  apply Hid; [by vm_compute|done|].
  apply Hopt; [by vm_compute|done|]. apply Hopt; [by vm_compute|done|].
  apply Hopt; [by vm_compute| |].
  { intros a Ea. rewrite Ea in Ht. apply elem_of_cons in Ht as [|Ht]; [done|].
    apply list_elem_of_singleton in Ht as [= ->]. by vm_compute. }
  rewrite <- (app_nil_r (opt_entry _ _ _)). by apply Hopt; [by vm_compute| |].
Qed.

Definition latency_ok (l : float) : Prop := fle fzero l = true /\ isfinite l = true.

Lemma valid_result_accepted request lat obs :
  latency_ok lat -> answer_too_long (vq_answer request) = false ->
  too_many_citations (vq_citations request) = false ->
  Forall citation_wf (vq_citations request) -> acceptable request obs ->
  make_validation_result (valid_result request lat) = Ok (valid_result request lat).
Proof.
  intros [Hl1 Hl2] Ha Hc Hw (Hn & _ & Hall). unfold make_validation_result, valid_result.
  cbn [vr_answer vr_citations vr_latency_ms vr_validated_citation_count
    vr_unsupported_citation_count vr_failed_tool_reference_count vr_metadata].
  rewrite Ha, Hc, Hl1, Hl2. cbn [raise_if negb mbind result_bind].
  replace (Z.of_nat (length (vq_citations request)) <? 0)%Z with false by (symmetry; apply Z.ltb_ge; lia).
  cbn [orb Z.ltb Z.compare raise_if mbind result_bind].
  assert (_validate_safe_summary_mapping (_safe_validation_metadata (u "valid") None
    (vq_citations request) (Z.of_nat (length (vq_citations request))) 0 0) = Ok tt) as ->.
  { unfold _safe_validation_metadata. do 5 (apply summary_entry; [by vm_compute|by vm_compute|]).
    apply summary_entry; [by vm_compute| |done]. apply summary_list, list.Forall_forall.
    intros v (c & -> & Hin)%list_elem_of_fmap. rewrite list.Forall_forall in Hw, Hall.
    apply citation_metadata_ok; [by apply Hw|]. destruct (Hall c Hin) as [Hs _].
    unfold _citation_is_supported in Hs. case_bool_decide; done. }
  cbn [raise_if mbind result_bind]. unfold _status_and_answer_must_be_consistent. simpl.
  by destruct (strip (vq_answer request)).
Qed.

Lemma failed_result_accepted lat :
  latency_ok lat ->
  make_validation_result (validation_failed lat) = Ok (validation_failed lat).
Proof.
  intros [L1 L2]. unfold make_validation_result.
  cbn [vr_answer vr_citations vr_latency_ms vr_metadata validation_failed too_many_citations
    vr_validated_citation_count vr_unsupported_citation_count vr_failed_tool_reference_count].
  rewrite L1, L2. cbn [raise_if negb mbind result_bind].
  assert (_validate_safe_summary_mapping [(u "validation_status", VStr (u "invalid"));
    (u "error_code", VStr AGENT_FINAL_ANSWER_VALIDATION_FAILED)] = Ok tt) as -> by (by vm_compute).
  done.
Qed.

(** The validator is total and exact: for a request within the size limits whose
    citations passed their own validation, it returns the answer with its citations
    as valid if and only if the answer is not blank, does not name sources without
    citing any, every citation is backed by a successful search of this run and
    none points at a failed or foreign observation; in every other case it returns
    an error code and neither answer nor citations. *)
Theorem validator_exact request obs t0 t1 t2 :
  latency_ok (_elapsed_ms (fsub t1 t0)) -> latency_ok (_elapsed_ms (fsub t2 t0)) ->
  answer_too_long (vq_answer request) = false ->
  too_many_citations (vq_citations request) = false ->
  Forall citation_wf (vq_citations request) ->
  exists r, validate request obs t0 t1 t2 = Ok r /\
    ((acceptable request obs /\ r = valid_result request (_elapsed_ms (fsub t1 t0))) \/
     (~ acceptable request obs /\ vr_status r = FvInvalid /\ vr_answer r = None /\
      vr_citations r = [] /\ is_Some (vr_error_code r))).
Proof.
  intros Hl1 Hl2 Ha Hc Hw. unfold validate.
  destruct (_validate _ _ _) as [r|err] eqn:E.
  - exists r. split; [done|]. by apply validate_cases in E.
  - pose proof (failed_result_accepted _ Hl2) as Hf.
    exists (validation_failed (_elapsed_ms (fsub t2 t0))). split; [done|]. right.
    split; [|by split_and!]. intros Hacc.
    pose proof (valid_result_accepted request _ obs Hl1 Ha Hc Hw Hacc) as Hv.
    unfold _validate in E. destruct Hacc as (Hn & Hs & Hall).
    rewrite bool_decide_false in E by done.
    assert (bool_decide (vq_citations request = []) && re_search _SOURCE_LIKE_TEXT (vq_answer request)
            = false) as Hsl.
    { case_bool_decide as Hc0; [simpl; by apply Hs|done]. }
    rewrite Hsl in E. unfold _failed_tool_reference_count in E.
    rewrite !filter_none in E; [simpl in E; congruence|..];
      (eapply list.Forall_impl; [exact Hall|]); intros c [H3 H4]; congruence.
Qed.

(** No invented citation is published: whatever the request and the
    observations, if the validator does not declare the answer invalid, then what
    it returns is the submitted answer with the submitted citations, and each of
    them is grounded in an observation of a successful search of this run. *)
Theorem published_answers_grounded request obs t0 t1 t2 r :
  validate request obs t0 t1 t2 = Ok r -> vr_status r <> FvInvalid ->
  vr_answer r = Some (vq_answer request) /\ strip (vq_answer request) <> [] /\
  vr_citations r = vq_citations request /\ Forall (grounded obs) (vr_citations r).
Proof.
  unfold validate. intros E Hst. destruct (_validate _ _ _) as [r'|err] eqn:Ev.
  - simplify_eq. apply validate_cases in Ev as [[(Hn & _ & Hall) ->]|(_ & Hi & _)]; [|done].
    split_and!; try done. eapply list.Forall_impl; [exact Hall|]. intros c [Hs _].
    by apply supported_grounded.
  - apply make_validation_result_id in E as ->. done.
Qed.
End Grounding.

Module FinalExamples.
#[export] Instance no_digits : UnicodeDigits :=
  {| unicode_isdigit := fun _ => false; unicode_decimal := fun _ => None |}.

Definition cite : AgentCitationRef :=
  {| cr_document_id := u "doc-1"; cr_version_id := u "v1"; cr_chunk_id := u "c1";
     cr_source := None; cr_page_start := Some 1%Z; cr_page_end := Some 1%Z;
     cr_tool_name := Some (u "rag_search"); cr_observation_index := Some 0%Z |}.
Definition search_obs : AgentObservationSummary :=
  {| ob_tool_name := rag_search; ob_status := ToolSUCCESS; ob_output_keys := [];
     ob_citation_refs := [cite]; ob_error_code := None; ob_result_status := Some (u "success");
     ob_latency_ms := fzero; ob_metadata := []; ob_output_summary := []; ob_prompt_context := [] |}.
Definition request : FinalAnswerValidationRequest :=
  {| vq_agent_run_id := None; vq_answer := u "see the report"; vq_citations := [cite] |}.
Definition vresult := validate (H := RedactExamples.ascii_only) (H0 := no_digits) request [search_obs]
                        (fofZ 1) (fofZ 2) (fofZ 2).

Example uncited_source_refused :
  match validate (H := RedactExamples.ascii_only) (H0 := no_digits)
    {| vq_agent_run_id := None; vq_answer := u "see [Doc 7]"; vq_citations := [] |} [search_obs]
    (fofZ 1) (fofZ 2) (fofZ 2) with
  | Ok r => vr_error_code r = Some AGENT_FINAL_ANSWER_UNSUPPORTED_CITATION
  | Err _ => False
  end.
Proof. vm_compute. reflexivity. Qed.
End FinalExamples.

Lemma validator_exact_witness :
  exists r, FinalExamples.vresult = Ok r /\ vr_status r = FvValid.
Proof.
  destruct (validator_exact (H := RedactExamples.ascii_only) (H0 := FinalExamples.no_digits)
    FinalExamples.request [FinalExamples.search_obs] (fofZ 1) (fofZ 2) (fofZ 2))
    as (r & Hr & Hc).
  - by vm_compute.
  - by vm_compute.
  - by vm_compute.
  - by vm_compute.
  - constructor; [|constructor]. unfold citation_wf. by do 3 (constructor; [by vm_compute|]).
  - exists r. split; [exact Hr|]. destruct Hc as [[_ ->]|(Hn & _)]; [reflexivity|].
    exfalso. apply Hn. split; [by vm_compute|]. split; [done|].
    constructor; [|constructor]. split; by vm_compute.
Defined.

Lemma published_answers_grounded_witness :
  exists r, FinalExamples.vresult = Ok r /\ Forall (grounded [FinalExamples.search_obs]) (vr_citations r).
Proof.
  destruct FinalExamples.vresult as [r|] eqn:E; [|vm_compute in E; discriminate E].
  exists r. split; [done|].
  apply (published_answers_grounded (H := RedactExamples.ascii_only) (H0 := FinalExamples.no_digits)
    _ _ _ _ _ r E).
  assert (match FinalExamples.vresult with Ok r => vr_status r | Err _ => FvInvalid end = FvValid) as Hv
    by (vm_compute; reflexivity).
  rewrite E in Hv. rewrite Hv. discriminate.
Defined.
