(* ===== verification/DurableStore.v ===== *)
(** The durable agent store.

    Models [packages/agent/storage/durable.py] ([SqlAlchemyDurableStore]) on the
    tables of [packages/agent/storage/models.py], with the snapshot type of
    [packages/agent/durable/dto.py] and its validators.  Every method is one
    database transaction: a function from the tables to the new tables and a
    result, or to an error that leaves the tables as they were.  Times are the
    source's floats, read from the caller's clock.

    The part of a snapshot the store only carries (observations, decision,
    repeated counts, digests) is the type parameter [B]; its JSON form, which
    drops the prompt contexts, and its encoded size are the class
    [SnapshotCodec]. *)

From Stdlib Require Import ZArith String.
From S2P Require Import Prelude Float64 PyVal.
From stdpp Require Import base list gmap numbers sets relations.

#[local] Open Scope Z_scope.
#[local] Arguments fadd : simpl never.
#[local] Arguments fsub : simpl never.
#[local] Arguments fmin : simpl never.

(** * Snapshots *)

Inductive DurableStatus : Type :=
| running | awaiting_approval | completed | failed | stopped | cancelled | intervention_required.
#[export] Instance DurableStatus_eq : EqDecision DurableStatus.
Proof. solve_decision. Defined.

Inductive DurablePhase : Type := decision | tool | validation | done_.
#[export] Instance DurablePhase_eq : EqDecision DurablePhase.
Proof. solve_decision. Defined.

Definition TERMINAL_STATUSES : list DurableStatus :=
  [completed; failed; stopped; cancelled; intervention_required].
Definition terminal (s : DurableStatus) : bool := bool_decide (s ∈ TERMINAL_STATUSES).

Definition SNAPSHOT_VERSION : Z := 1.
Definition MAX_SNAPSHOT_BYTES : Z := 262144.

Record RunConfig : Type := {
  rc_max_steps : Z;
  rc_max_tool_calls : Z;
  rc_timeout_seconds : float;
  rc_repeated_action_threshold : Z;
  rc_input_text : pystr
}.

Record ApprovalRequest : Type := {
  ap_approval_id : pystr;
  ap_tool_name : pystr;
  ap_arguments : pydict;
  ap_action_digest : pystr;
  ap_definition_digest : pystr;
  ap_expires_at : float
}.

Record DurableActiveBudget : Type := {
  ab_seconds_used : float;
  ab_active_since_at : option float;
  ab_approval_timeout_seconds : float
}.

Record RunResult : Type := {
  rr_error_code : option pystr;
  rr_termination_reason : pystr;
  rr_latency_ms : float
}.

Record DurableSnapshot {B : Type} : Type := {
  sn_run_id : pystr;
  sn_tenant_id : pystr;
  sn_user_id : pystr;
  sn_request_id : pystr;
  sn_trace_id : pystr;
  sn_startup : option pystr;                     (* the command fingerprint *)
  sn_active_budget : option DurableActiveBudget;
  sn_dispatch : bool;                            (* background dispatch present *)
  sn_revision : Z;
  sn_config : RunConfig;
  sn_status : DurableStatus;
  sn_phase : DurablePhase;
  sn_started_at : float;
  sn_deadline_at : float;
  sn_last_observed_at : float;
  sn_expires_at : float;
  sn_steps_used : Z;
  sn_tool_calls_used : Z;
  sn_repeated_counts : list (pystr * Z);
  sn_approval : option ApprovalRequest;
  sn_result : option RunResult;
  sn_error_code : option pystr;
  sn_body : B
}.
Arguments DurableSnapshot : clear implicits.

(** [snapshot.model_copy(update={...})] on the fields the store changes. *)
Definition sn_update {B} (s : DurableSnapshot B) (revision : Z) (status : DurableStatus)
    (phase : DurablePhase) (deadline last_observed : float)
    (active : option DurableActiveBudget) (approval : option ApprovalRequest)
    (res : option RunResult) (error : option pystr) : DurableSnapshot B :=
  {| sn_run_id := sn_run_id s; sn_tenant_id := sn_tenant_id s; sn_user_id := sn_user_id s;
     sn_request_id := sn_request_id s; sn_trace_id := sn_trace_id s; sn_startup := sn_startup s;
     sn_active_budget := active; sn_dispatch := sn_dispatch s; sn_revision := revision;
     sn_config := sn_config s; sn_status := status; sn_phase := phase;
     sn_started_at := sn_started_at s; sn_deadline_at := deadline;
     sn_last_observed_at := last_observed; sn_expires_at := sn_expires_at s;
     sn_steps_used := sn_steps_used s; sn_tool_calls_used := sn_tool_calls_used s;
     sn_repeated_counts := sn_repeated_counts s; sn_approval := approval; sn_result := res;
     sn_error_code := error; sn_body := sn_body s |}.

Definition with_body {B} (s : DurableSnapshot B) (b : B) : DurableSnapshot B :=
  {| sn_run_id := sn_run_id s; sn_tenant_id := sn_tenant_id s; sn_user_id := sn_user_id s;
     sn_request_id := sn_request_id s; sn_trace_id := sn_trace_id s; sn_startup := sn_startup s;
     sn_active_budget := sn_active_budget s; sn_dispatch := sn_dispatch s;
     sn_revision := sn_revision s; sn_config := sn_config s; sn_status := sn_status s;
     sn_phase := sn_phase s; sn_started_at := sn_started_at s;
     sn_deadline_at := sn_deadline_at s; sn_last_observed_at := sn_last_observed_at s;
     sn_expires_at := sn_expires_at s; sn_steps_used := sn_steps_used s;
     sn_tool_calls_used := sn_tool_calls_used s; sn_repeated_counts := sn_repeated_counts s;
     sn_approval := sn_approval s; sn_result := sn_result s; sn_error_code := sn_error_code s;
     sn_body := b |}.

Class SnapshotCodec (B : Type) := {
  strip_body : B -> B;                      (* what [model_dump] keeps of the payload *)
  encoded_bytes : DurableSnapshot B -> option Z;
      (* size of the JSON text; [None] when [json.dumps] meets a float that is
         not finite and raises [ValueError] *)
  body_valid : B -> bool                    (* the payload's own field validators *)
}.

Definition in_z (lo hi z : Z) : bool := (lo <=? z) && (z <=? hi).

(** [AgentRunConfig]: its field constraints. *)
Definition valid_run_config (c : RunConfig) : bool :=
  (0 <? rc_max_steps c) && (0 <=? rc_max_tool_calls c) && flt fzero (rc_timeout_seconds c)
  && isfinite (rc_timeout_seconds c) && (0 <? rc_repeated_action_threshold c).

(** [DurableActiveBudget]: its field constraints. *)
Definition valid_active_budget (b : DurableActiveBudget) : bool :=
  isfinite (ab_seconds_used b) && fle fzero (ab_seconds_used b)
  && match ab_active_since_at b with Some t => isfinite t | None => true end
  && isfinite (ab_approval_timeout_seconds b) && flt fzero (ab_approval_timeout_seconds b)
  && fle (ab_approval_timeout_seconds b) (fofZ 604800).

(** [DurableStartup.command_fingerprint]: [^[0-9a-f]{64}$]. *)
Definition hex_char (c : N) : bool :=
  ((48 <=? c) && (c <=? 57) || (97 <=? c) && (c <=? 102))%N.
Definition valid_fingerprint (s : pystr) : bool :=
  bool_decide (length s = 64%nat) && forallb hex_char s.

(** The field constraints, [finite_timestamp] and [bounded_snapshot]. *)
Definition bounded_snapshot {B} `{SnapshotCodec B} (s : DurableSnapshot B) : bool :=
  (0 <=? sn_revision s) && in_z 0 20 (sn_steps_used s) && in_z 0 20 (sn_tool_calls_used s)
  && isfinite (sn_started_at s) && isfinite (sn_deadline_at s)
  && isfinite (sn_last_observed_at s) && isfinite (sn_expires_at s)
  && valid_run_config (sn_config s)
  && match sn_startup s with Some f => valid_fingerprint f | None => true end
  && match sn_active_budget s with Some b => valid_active_budget b | None => true end
  && negb ((20 <? rc_max_steps (sn_config s)) || (20 <? rc_max_tool_calls (sn_config s)))
  && negb (flt (fofZ (if sn_active_budget s then 3600 else 120)) (rc_timeout_seconds (sn_config s)))
  && match sn_active_budget s with
     | None => true
     | Some b =>
         negb (flt (rc_timeout_seconds (sn_config s)) (ab_seconds_used b))
         && match ab_active_since_at b with
            | None => true
            | Some t => negb (flt t (sn_started_at s))
                        && bool_decide (sn_status s = running)
            end
     end
  && negb (4000 <? Z.of_nat (length (rc_input_text (sn_config s))))
  && negb (flt (sn_deadline_at s) (sn_started_at s) || flt (sn_expires_at s) (sn_deadline_at s))
  && negb ((20 <? Z.of_nat (length (sn_repeated_counts s)))
           || existsb (fun kv => kv.2 <? 1) (sn_repeated_counts s))
  && body_valid (sn_body s).

(** * Errors and tables *)

(** The codes of [durable_error], and the two Python exceptions that reach the
    caller as they are. *)
Inductive durable_error : Type :=
| ValueError
| AssertionError
| DURABLE_SNAPSHOT_TOO_LARGE
| DURABLE_STORAGE_UNAVAILABLE
| DURABLE_START_PROTOCOL_INVALID
| DURABLE_START_KEY_COLLISION
| DURABLE_RUN_EXPIRED
| DURABLE_RUN_NOT_FOUND
| DURABLE_SCHEMA_UNSUPPORTED
| DURABLE_SNAPSHOT_INVALID
| DURABLE_RESUME_CONFLICT
| DURABLE_CLOCK_REGRESSION
| DURABLE_LEASE_LOST
| DURABLE_LEDGER_IMMUTABLE
| DURABLE_LEDGER_MISSING
| DURABLE_GRAPH_CHECKPOINT_MISSING
| DURABLE_STORAGE_BIND_UNSUPPORTED
| DURABLE_STORAGE_LOGGING_UNSAFE.

Inductive LedgerStatus : Type := started | ledger_completed | unknown.
#[export] Instance LedgerStatus_eq : EqDecision LedgerStatus.
Proof. solve_decision. Defined.
Inductive ReplayPolicy : Type := read_only | never.
#[export] Instance ReplayPolicy_eq : EqDecision ReplayPolicy.
Proof. solve_decision. Defined.

Record ToolLedgerEntry {O : Type} : Type := {
  le_call_id : pystr;
  le_tool_name : pystr;
  le_action_digest : pystr;
  le_replay_policy : ReplayPolicy;
  le_status : LedgerStatus;
  le_observation : option O
}.
Arguments ToolLedgerEntry : clear implicits.

(** A row of [agent_runs]: the legacy, redacted record of a run. *)
Record AgentRun : Type := {
  ar_request_id : pystr;
  ar_trace_id : pystr;
  ar_max_steps : Z;
  ar_max_tool_calls : Z;
  ar_timeout_seconds : float;
  ar_input_char_count : Z;
  ar_tenant_id : pystr;
  ar_user_id : pystr;
  ar_status : pystr;
  ar_steps_used : Z;
  ar_tool_calls_used : Z;
  ar_error_code : option pystr;
  ar_termination_reason : option pystr;
  ar_latency_ms : option float;
  ar_durable : bool;
  ar_keyed_start : bool
}.

(** The CHECK constraints of [agent_runs].  The status is one of the four public
    ones by construction; the SQL comparison of a NaN is not below zero. *)
Definition agent_run_ok (a : AgentRun) : bool :=
  (0 <? ar_max_steps a) && (0 <=? ar_max_tool_calls a) && negb (fle (ar_timeout_seconds a) fzero)
  && (0 <=? ar_steps_used a) && (0 <=? ar_tool_calls_used a)
  && match ar_latency_ms a with Some l => negb (flt l fzero) | None => true end.

(** A row of [durable_agent_runs]. *)
Record DurableRow {B : Type} : Type := {
  dr_tenant_id : pystr;
  dr_user_id : pystr;
  dr_status : DurableStatus;
  dr_schema_version : Z;
  dr_revision : Z;
  dr_snapshot : DurableSnapshot B;
  dr_expires_at : float;
  dr_lease_token : option pystr;
  dr_lease_until : option float
}.
Arguments DurableRow : clear implicits.

(** A row of [durable_tool_ledger], by its unique call id. *)
Record LedgerRow {O : Type} : Type := {
  lr_tenant_id : pystr;
  lr_user_id : pystr;
  lr_run_id : pystr;
  lr_entry : ToolLedgerEntry O
}.
Arguments LedgerRow : clear implicits.

(** A row of [durable_graph_checkpoints], by its unique checkpoint id. *)
Record GraphRow : Type := {
  gr_tenant_id : pystr;
  gr_user_id : pystr;
  gr_run_id : pystr;
  gr_checkpoint : pydict;
  gr_metadata : pydict;
  gr_parent_id : option pystr;
  gr_writes : list ((pystr * Z) * pydict)   (* by task id and index *)
}.

Record store {B O : Type} : Type := {
  agent_runs : gmap pystr AgentRun;
  durable_runs : gmap pystr (DurableRow B);
  tool_ledger : gmap pystr (LedgerRow O);
  graph_rows : gmap pystr GraphRow
}.
Arguments store : clear implicits.

(** * Operations *)

Section Store.
Context {B O : Type} `{SnapshotCodec B}.
Abbreviation snapshot := (DurableSnapshot B).
Abbreviation tables := (store B O).

Definition set_runs (d : tables) (r : gmap pystr AgentRun) : tables :=
  {| agent_runs := r; durable_runs := durable_runs d; tool_ledger := tool_ledger d;
     graph_rows := graph_rows d |}.
Definition set_durable (d : tables) (r : gmap pystr (DurableRow B)) : tables :=
  {| agent_runs := agent_runs d; durable_runs := r; tool_ledger := tool_ledger d;
     graph_rows := graph_rows d |}.
Definition set_ledger (d : tables) (r : gmap pystr (LedgerRow O)) : tables :=
  {| agent_runs := agent_runs d; durable_runs := durable_runs d; tool_ledger := r;
     graph_rows := graph_rows d |}.
Definition set_graph (d : tables) (r : gmap pystr GraphRow) : tables :=
  {| agent_runs := agent_runs d; durable_runs := durable_runs d; tool_ledger := tool_ledger d;
     graph_rows := r |}.

(** [DurableSnapshot.persisted]. *)
Definition persisted (s : snapshot) : result durable_error snapshot :=
  match encoded_bytes s with
  | None => Err ValueError
  | Some n => if MAX_SNAPSHOT_BYTES <? n then Err DURABLE_SNAPSHOT_TOO_LARGE
              else Ok (with_body s (strip_body (sn_body s)))
  end.

(** [_scope]: the row a snapshot belongs to. *)
Definition _scope (s : snapshot) (r : DurableRow B) : bool :=
  (dr_schema_version r =? SNAPSHOT_VERSION) && bool_decide (dr_tenant_id r = sn_tenant_id s)
  && bool_decide (dr_user_id r = sn_user_id s).

Definition scoped_row (d : tables) (s : snapshot) : option (DurableRow B) :=
  match durable_runs d !! sn_run_id s with
  | Some r => if _scope s r then Some r else None
  | None => None
  end.

Definition lease_free (r : DurableRow B) (now : float) : bool :=
  match dr_lease_until r with None => true | Some t => fle t now end.
Definition lease_live (r : DurableRow B) (token : pystr) (now : float) : bool :=
  bool_decide (dr_lease_token r = Some token)
  && match dr_lease_until r with Some t => flt now t | None => false end.

(** The two rows [_add_new] inserts. *)
Definition new_agent_run (s : snapshot) : AgentRun :=
  {| ar_request_id := sn_request_id s; ar_trace_id := sn_trace_id s;
     ar_max_steps := rc_max_steps (sn_config s);
     ar_max_tool_calls := rc_max_tool_calls (sn_config s);
     ar_timeout_seconds := rc_timeout_seconds (sn_config s);
     ar_input_char_count := Z.of_nat (length (rc_input_text (sn_config s)));
     ar_tenant_id := sn_tenant_id s; ar_user_id := sn_user_id s; ar_status := u "running";
     ar_steps_used := 0; ar_tool_calls_used := 0; ar_error_code := None;
     ar_termination_reason := None; ar_latency_ms := None; ar_durable := true;
     ar_keyed_start := bool_decide (is_Some (sn_startup s)) |}.
Definition new_durable_row (s payload : snapshot) (token : option pystr)
    (lease_until : option float) : DurableRow B :=
  {| dr_tenant_id := sn_tenant_id s; dr_user_id := sn_user_id s; dr_status := sn_status s;
     dr_schema_version := SNAPSHOT_VERSION; dr_revision := sn_revision s; dr_snapshot := payload;
     dr_expires_at := sn_expires_at s; dr_lease_token := token; dr_lease_until := lease_until |}.

(** [_add_new] with the flush of its transaction: a violated CHECK constraint
    and a primary key already present are the two [IntegrityError]s. *)
Inductive integrity : Type := CheckViolation | UniqueViolation.
Definition _add_new (d : tables) (s : snapshot) (token : option pystr) (lease_until : option float)
    : result durable_error (tables + integrity) :=
  payload ← persisted s;
  let id := sn_run_id s in
  if negb (agent_run_ok (new_agent_run s) && (0 <=? sn_revision s)) then mret (inr CheckViolation)
  else match agent_runs d !! id, durable_runs d !! id with
       | None, None =>
           mret (inl {| agent_runs := <[id := new_agent_run s]> (agent_runs d);
                        durable_runs :=
                          <[id := new_durable_row s payload token lease_until]> (durable_runs d);
                        tool_ledger := tool_ledger d; graph_rows := graph_rows d |})
       | _, _ => mret (inr UniqueViolation)
       end.

(** [create]; the storage boundary turns a database error into one code. *)
Definition create (d : tables) (s : snapshot) : result durable_error tables :=
  r ← _add_new d s None None;
  match r with inl d' => mret d' | inr _ => Err DURABLE_STORAGE_UNAVAILABLE end.

Definition _validated_snapshot (r : DurableRow B) (tenant user run_id : pystr)
    : result durable_error snapshot :=
  let v := dr_snapshot r in
  _ ← raise_if (negb (dr_schema_version r =? SNAPSHOT_VERSION)) DURABLE_SCHEMA_UNSUPPORTED;
  _ ← raise_if (negb (bounded_snapshot v)) DURABLE_SNAPSHOT_INVALID;
  _ ← raise_if (negb ((sn_revision v =? dr_revision r) && bool_decide (sn_status v = dr_status r)
                      && bool_decide (sn_run_id v = run_id)
                      && bool_decide (sn_tenant_id v = tenant)
                      && bool_decide (sn_user_id v = user))) DURABLE_SNAPSHOT_INVALID;
  mret v.

(** The owned row of a run, in either table. *)
Definition owned_legacy (d : tables) (tenant user run_id : pystr) : option AgentRun :=
  match agent_runs d !! run_id with
  | Some a => if bool_decide (ar_tenant_id a = tenant) && bool_decide (ar_user_id a = user)
              then Some a else None
  | None => None
  end.
Definition owned_row (d : tables) (tenant user run_id : pystr) : option (DurableRow B) :=
  match durable_runs d !! run_id with
  | Some r => if bool_decide (dr_tenant_id r = tenant) && bool_decide (dr_user_id r = user)
              then Some r else None
  | None => None
  end.

Definition lookup_keyed (d : tables) (tenant user run_id : pystr)
    : result durable_error (option snapshot) :=
  match owned_legacy d tenant user run_id with
  | None => Ok None
  | Some legacy =>
      _ ← raise_if (negb (ar_keyed_start legacy)) DURABLE_START_KEY_COLLISION;
      match owned_row d tenant user run_id with
      | None => Err DURABLE_RUN_EXPIRED
      | Some r =>
          v ← _validated_snapshot r tenant user run_id;
          match sn_startup v with
          | None => Err DURABLE_START_PROTOCOL_INVALID
          | Some _ => mret (Some v)
          end
      end
  end.

(** [create_keyed]: an insert that violates a primary key falls back to the
    owner-scoped read. *)
Definition create_keyed (d : tables) (s : snapshot) (token : pystr) (now lease_seconds : float)
    : result durable_error (tables * bool * snapshot) :=
  match sn_startup s with
  | None => Err DURABLE_START_PROTOCOL_INVALID
  | Some _ =>
      r ← _add_new d s (Some token) (Some (fadd now lease_seconds));
      match r with
      | inl d' => mret (d', true, s)
      | inr CheckViolation => Err DURABLE_STORAGE_UNAVAILABLE
      | inr UniqueViolation =>
          existing ← lookup_keyed d (sn_tenant_id s) (sn_user_id s) (sn_run_id s);
          match existing with
          | None => Err DURABLE_STORAGE_UNAVAILABLE
          | Some v => mret (d, false, v)
          end
      end
  end.

Definition load (d : tables) (tenant user run_id : pystr) : result durable_error snapshot :=
  match owned_row d tenant user run_id with
  | Some r => _validated_snapshot r tenant user run_id
  | None =>
      match owned_legacy d tenant user run_id with
      | Some legacy => if ar_keyed_start legacy then Err DURABLE_RUN_EXPIRED
                       else Err DURABLE_RUN_NOT_FOUND
      | None => Err DURABLE_RUN_NOT_FOUND
      end
  end.

(** Python's [max(x, 0)] on a float. *)
Definition max0 (x : float) : float := if flt x fzero then fzero else x.
(** [row.lease_until or snapshot.last_observed_at]. *)
Definition or_float (o : option float) (x : float) : float :=
  match o with Some t => if feq t fzero then x else t | None => x end.

(** The accounting of an active window that ends at [until]. *)
Definition charge_active (b : DurableActiveBudget) (until timeout : float) : float :=
  let used := match ab_active_since_at b with
              | Some since => fadd (ab_seconds_used b) (max0 (fsub until since))
              | None => ab_seconds_used b
              end in
  fmin used timeout.

Definition active_deadline (now timeout used expires : float) : float :=
  fmin (fsub (fadd now timeout) used) expires.

Definition with_used (b : DurableActiveBudget) (used : float) (since : option float)
    : DurableActiveBudget :=
  {| ab_seconds_used := used; ab_active_since_at := since;
     ab_approval_timeout_seconds := ab_approval_timeout_seconds b |}.

(** The snapshot [acquire] saves. *)
Definition acquired_snapshot (s : snapshot) (row : DurableRow B) (now : float) (activate : bool)
    : snapshot :=
  match sn_active_budget s with
  | None => s
  | Some b =>
      let timeout := rc_timeout_seconds (sn_config s) in
      let until := fmin now (or_float (dr_lease_until row) (sn_last_observed_at s)) in
      let used := charge_active b until timeout in
      sn_update s (sn_revision s + 1) (sn_status s) (sn_phase s)
        (active_deadline now timeout used (sn_expires_at s)) now
        (Some (with_used b used
                 (if activate && bool_decide (sn_status s = running) then Some now else None)))
        (sn_approval s) (sn_result s) (sn_error_code s)
  end.

Definition claimed_row (row : DurableRow B) (token : option pystr) (until : option float)
    : DurableRow B :=
  {| dr_tenant_id := dr_tenant_id row; dr_user_id := dr_user_id row; dr_status := dr_status row;
     dr_schema_version := dr_schema_version row; dr_revision := dr_revision row;
     dr_snapshot := dr_snapshot row; dr_expires_at := dr_expires_at row;
     dr_lease_token := token; dr_lease_until := until |}.

Definition written_row (row : DurableRow B) (payload : snapshot) (revision : Z)
    (status : DurableStatus) (token : option pystr) (until : option float) : DurableRow B :=
  {| dr_tenant_id := dr_tenant_id row; dr_user_id := dr_user_id row; dr_status := status;
     dr_schema_version := dr_schema_version row; dr_revision := revision;
     dr_snapshot := payload; dr_expires_at := dr_expires_at row;
     dr_lease_token := token; dr_lease_until := until |}.

Definition acquire (d : tables) (s : snapshot) (token : pystr) (now lease_seconds : float)
    (activate : bool) : result durable_error (tables * snapshot) :=
  match scoped_row d s with
  | None => Err DURABLE_RESUME_CONFLICT
  | Some row =>
      _ ← (match sn_active_budget s with
           | None => mret tt
           | Some _ =>
               _ ← raise_if (negb (dr_revision row =? sn_revision s)) DURABLE_RESUME_CONFLICT;
               raise_if (flt now (sn_last_observed_at s)) DURABLE_CLOCK_REGRESSION
           end);
      let saved := acquired_snapshot s row now activate in
      payload ← (match sn_active_budget s with None => mret s | Some _ => persisted saved end);
      _ ← raise_if (negb ((dr_revision row =? sn_revision s) && negb (terminal (dr_status row))
                          && flt now (dr_expires_at row) && lease_free row now))
            DURABLE_RESUME_CONFLICT;
      let until := Some (fadd now lease_seconds) in
      let row' := match sn_active_budget s with
                  | None => claimed_row row (Some token) until
                  | Some _ => written_row row payload (sn_revision saved) (dr_status row)
                                (Some token) until
                  end in
      mret (set_durable d (<[sn_run_id s := row']> (durable_runs d)), saved)
  end.

Definition renew (d : tables) (s : snapshot) (token : pystr) (now lease_seconds : float)
    : result durable_error tables :=
  match scoped_row d s with
  | None => Err DURABLE_LEASE_LOST
  | Some row =>
      _ ← raise_if (negb (lease_live row token now && negb (terminal (dr_status row))))
            DURABLE_LEASE_LOST;
      mret (set_durable d (<[sn_run_id s :=
              claimed_row row (dr_lease_token row) (Some (fadd now lease_seconds))]>
              (durable_runs d)))
  end.

Definition release (d : tables) (s : snapshot) (token : pystr) : tables :=
  match scoped_row d s with
  | Some row =>
      if bool_decide (dr_lease_token row = Some token)
      then set_durable d (<[sn_run_id s := claimed_row row None None]> (durable_runs d))
      else d
  | None => d
  end.

(** [_settle_active]: [None] when the assertion that the new snapshot keeps its
    active budget fails. *)
Definition _settle_active (previous s : snapshot) (now : float) : option snapshot :=
  match sn_active_budget previous with
  | None => Some s
  | Some b =>
      match sn_active_budget s with
      | None => None
      | Some b' =>
          let timeout := rc_timeout_seconds (sn_config s) in
          let used := charge_active b now timeout in
          let active := bool_decide (sn_status s = running)
                        && match ab_active_since_at b' with Some _ => true | None => false end in
          Some (sn_update s (sn_revision s) (sn_status s) (sn_phase s)
                  (active_deadline now timeout used (sn_expires_at s)) (sn_last_observed_at s)
                  (Some (with_used b used (if active then Some now else None)))
                  (sn_approval s) (sn_result s) (sn_error_code s))
      end
  end.

(** [_legacy_update]: the public row follows the snapshot. *)
Definition legacy_status (s : DurableStatus) : pystr :=
  match s with
  | running | awaiting_approval => u "running"
  | completed => u "completed"
  | failed => u "failed"
  | stopped | cancelled | intervention_required => u "stopped"
  end.

Definition or_text (a b : option pystr) : option pystr :=
  match a with Some (c :: s) => Some (c :: s) | _ => b end.

Definition legacy_row (a : AgentRun) (s : snapshot) : AgentRun :=
  {| ar_request_id := ar_request_id a; ar_trace_id := ar_trace_id a;
     ar_max_steps := ar_max_steps a; ar_max_tool_calls := ar_max_tool_calls a;
     ar_timeout_seconds := ar_timeout_seconds a; ar_input_char_count := ar_input_char_count a;
     ar_tenant_id := ar_tenant_id a; ar_user_id := ar_user_id a;
     ar_status := legacy_status (sn_status s); ar_steps_used := sn_steps_used s;
     ar_tool_calls_used := sn_tool_calls_used s;
     ar_error_code := or_text (sn_error_code s) (sn_result s ≫= rr_error_code);
     ar_termination_reason := match sn_result s with
                              | Some r => Some (rr_termination_reason r)
                              | None => sn_error_code s end;
     ar_latency_ms := rr_latency_ms <$> sn_result s;
     ar_durable := true;
     ar_keyed_start := bool_decide (is_Some (sn_startup s)) |}.

Definition _legacy_update (d : tables) (s : snapshot) : result durable_error tables :=
  match owned_legacy d (sn_tenant_id s) (sn_user_id s) (sn_run_id s) with
  | None => mret d
  | Some a =>
      _ ← raise_if (negb (agent_run_ok (legacy_row a s))) DURABLE_STORAGE_UNAVAILABLE;
      mret (set_runs d (<[sn_run_id s := legacy_row a s]> (agent_runs d)))
  end.

(** The ledger part of [save]. *)
Definition save_ledger (d : tables) (saved : snapshot) (entry : ToolLedgerEntry O)
    : result durable_error tables :=
  let row := {| lr_tenant_id := sn_tenant_id saved; lr_user_id := sn_user_id saved;
                lr_run_id := sn_run_id saved; lr_entry := entry |} in
  match tool_ledger d !! le_call_id entry with
  | None =>
      (* the foreign key to durable_agent_runs *)
      _ ← raise_if (bool_decide (durable_runs d !! sn_run_id saved = None))
            DURABLE_STORAGE_UNAVAILABLE;
      mret (set_ledger d (<[le_call_id entry := row]> (tool_ledger d)))
  | Some existing =>
      if bool_decide (lr_run_id existing = sn_run_id saved)
         && bool_decide (lr_tenant_id existing = sn_tenant_id saved)
         && bool_decide (lr_user_id existing = sn_user_id saved)
      then if bool_decide (le_status (lr_entry existing) = ledger_completed)
           then Err DURABLE_LEDGER_IMMUTABLE
           else mret (set_ledger d (<[le_call_id entry := row]> (tool_ledger d)))
      else Err DURABLE_STORAGE_UNAVAILABLE
  end.

Definition save (d : tables) (previous s : snapshot) (token : pystr) (now : float)
    (entry : option (ToolLedgerEntry O)) : result durable_error (tables * snapshot) :=
  let s1 := sn_update s (sn_revision previous + 1) (sn_status s) (sn_phase s) (sn_deadline_at s) now
              (sn_active_budget s) (sn_approval s) (sn_result s) (sn_error_code s) in
  match _settle_active previous s1 now with
  | None => Err AssertionError
  | Some saved =>
      payload ← persisted saved;
      match scoped_row d previous with
      | None => Err DURABLE_LEASE_LOST
      | Some row =>
          _ ← raise_if (negb ((dr_revision row =? sn_revision previous) && lease_live row token now
                              && negb (terminal (dr_status row)))) DURABLE_LEASE_LOST;
          let d1 := set_durable d (<[sn_run_id previous :=
                      written_row row payload (sn_revision saved) (sn_status saved)
                        (dr_lease_token row) (dr_lease_until row)]> (durable_runs d)) in
          d2 ← (match entry with None => mret d1 | Some e => save_ledger d1 saved e end);
          d3 ← _legacy_update d2 saved;
          mret (d3, saved)
      end
  end.

(** [owner_condition]: the ownership test of [cancel] and [owns]. *)
Definition owner_condition (row : DurableRow B) (token : pystr) (allow_unclaimed : bool) : bool :=
  bool_decide (dr_lease_token row = Some token)
  || (allow_unclaimed && bool_decide (dr_lease_token row = None) && (dr_revision row =? 0)).

Definition cancel (d : tables) (previous : snapshot) (now : float)
    (ownership_token : option pystr) (allow_unclaimed : bool)
    : result durable_error (tables * snapshot) :=
  let s1 := sn_update previous (sn_revision previous + 1) cancelled done_ (sn_deadline_at previous)
              now (sn_active_budget previous) None None (Some (u "DURABLE_CANCELLED")) in
  match _settle_active previous s1 now with
  | None => Err AssertionError
  | Some saved =>
      payload ← persisted saved;
      match scoped_row d previous with
      | None => Err DURABLE_RESUME_CONFLICT
      | Some row =>
          _ ← raise_if (negb (match ownership_token with
                              | Some t => owner_condition row t allow_unclaimed
                              | None => true end
                              && (dr_revision row =? sn_revision previous)
                              && negb (terminal (dr_status row)))) DURABLE_RESUME_CONFLICT;
          d1 ← _legacy_update
                 (set_durable d (<[sn_run_id previous :=
                    written_row row payload (sn_revision saved) cancelled None None]>
                    (durable_runs d))) saved;
          mret (d1, saved)
      end
  end.

Definition owns (d : tables) (s : snapshot) (token : pystr) (allow_unclaimed : bool) : bool :=
  match scoped_row d s with Some row => owner_condition row token allow_unclaimed | None => false end.

Definition ledger (d : tables) (s : snapshot) (call_id : pystr)
    : result durable_error (ToolLedgerEntry O) :=
  match tool_ledger d !! call_id with
  | Some r =>
      if bool_decide (lr_run_id r = sn_run_id s) && bool_decide (lr_tenant_id r = sn_tenant_id s)
         && bool_decide (lr_user_id r = sn_user_id s)
      then Ok (lr_entry r) else Err DURABLE_LEDGER_MISSING
  | None => Err DURABLE_LEDGER_MISSING
  end.

(** ** Graph checkpoints *)

Definition _graph_fence (d : tables) (s : snapshot) (token : pystr) (now : float)
    : result durable_error unit :=
  match scoped_row d s with
  | None => Err DURABLE_LEASE_LOST
  | Some row => raise_if (negb (lease_live row token now)) DURABLE_LEASE_LOST
  end.

Definition graph_owned (s : snapshot) (g : GraphRow) : bool :=
  bool_decide (gr_run_id g = sn_run_id s) && bool_decide (gr_tenant_id g = sn_tenant_id s)
  && bool_decide (gr_user_id g = sn_user_id s).

Definition graph_put (d : tables) (s : snapshot) (token : pystr) (now : float)
    (checkpoint_id : pystr) (checkpoint metadata : pydict) (parent_id : option pystr)
    : result durable_error tables :=
  _ ← _graph_fence d s token now;
  match graph_rows d !! checkpoint_id with
  | Some _ => Err DURABLE_STORAGE_UNAVAILABLE
  | None =>
      mret (set_graph d (<[checkpoint_id :=
        {| gr_tenant_id := sn_tenant_id s; gr_user_id := sn_user_id s; gr_run_id := sn_run_id s;
           gr_checkpoint := checkpoint; gr_metadata := metadata; gr_parent_id := parent_id;
           gr_writes := [] |}]> (graph_rows d)))
  end.

Definition graph_writes (d : tables) (s : snapshot) (token : pystr) (now : float)
    (checkpoint_id : pystr) (writes : list ((pystr * Z) * pydict))
    : result durable_error tables :=
  _ ← _graph_fence d s token now;
  match graph_rows d !! checkpoint_id with
  | Some g =>
      if graph_owned s g
      then mret (set_graph d (<[checkpoint_id :=
             {| gr_tenant_id := gr_tenant_id g; gr_user_id := gr_user_id g;
                gr_run_id := gr_run_id g; gr_checkpoint := gr_checkpoint g;
                gr_metadata := gr_metadata g; gr_parent_id := gr_parent_id g;
                gr_writes := foldl (fun acc w => dict_set w.1 w.2 acc) (gr_writes g) writes |}]>
             (graph_rows d)))
      else Err DURABLE_GRAPH_CHECKPOINT_MISSING
  | None => Err DURABLE_GRAPH_CHECKPOINT_MISSING
  end.

(** [graph_get]: the named checkpoint of the run, or its latest in the
    database's collation [before] of checkpoint ids. *)
Definition graph_get (before : pystr -> pystr -> bool) (d : tables) (s : snapshot)
    (checkpoint_id : option pystr) : option GraphRow :=
  let rows := List.filter (fun kg => graph_owned s kg.2
                && match checkpoint_id with Some c => bool_decide (kg.1 = c) | None => true end)
                (map_to_list (graph_rows d)) in
  snd <$> head (py_sort (fun x y => before y.1 x.1) rows).

(** ** Retention *)

(** [purge_expired]: the SELECT has a LIMIT and no ORDER BY, so the rows it
    returns are a prefix of the expired ones in the order [scan] in which the
    database meets them.  The ledger and graph rows of a deleted run go by the
    explicit DELETE or by the foreign key's cascade. *)
Definition expired (d : tables) (tenant : pystr) (now : float) (i : pystr) : bool :=
  match durable_runs d !! i with
  | Some r => bool_decide (dr_tenant_id r = tenant) && fle (dr_expires_at r) now
  | None => false
  end.
Definition expired_ids (d : tables) (tenant : pystr) (now : float) (limit : Z) (scan : list pystr)
    : list pystr :=
  take (Z.to_nat (Z.min (Z.max limit 1) 1000)) (List.filter (expired d tenant now) scan).

Definition purge_expired (d : tables) (tenant : pystr) (now : float) (limit : Z)
    (scan : list pystr) : tables * Z :=
  let ids := expired_ids d tenant now limit scan in
  ({| agent_runs := agent_runs d;
      durable_runs := filter (fun kr => kr.1 ∉ ids) (durable_runs d);
      tool_ledger := filter (fun kr => lr_run_id kr.2 ∉ ids) (tool_ledger d);
      graph_rows := filter (fun kr => gr_run_id kr.2 ∉ ids) (graph_rows d) |},
   Z.of_nat (length ids)).

(** * Transactions as steps *)

(** One call of the store by some worker: the transactions that write. *)
Inductive store_op : Type :=
| OpCreate (s : snapshot)
| OpCreateKeyed (s : snapshot) (token : pystr) (now lease_seconds : float)
| OpAcquire (s : snapshot) (token : pystr) (now lease_seconds : float) (activate : bool)
| OpRenew (s : snapshot) (token : pystr) (now lease_seconds : float)
| OpRelease (s : snapshot) (token : pystr)
| OpSave (previous s : snapshot) (token : pystr) (now : float) (entry : option (ToolLedgerEntry O))
| OpCancel (previous : snapshot) (now : float) (ownership_token : option pystr) (unclaimed : bool)
| OpGraphPut (s : snapshot) (token : pystr) (now : float) (checkpoint_id : pystr)
    (checkpoint metadata : pydict) (parent_id : option pystr)
| OpGraphWrites (s : snapshot) (token : pystr) (now : float) (checkpoint_id : pystr)
    (writes : list ((pystr * Z) * pydict))
| OpPurge (tenant : pystr) (now : float) (limit : Z) (scan : list pystr).

(** The tables after a transaction; one that raises is rolled back. *)
Definition committed {A} (d : tables) (f : A -> tables) (r : result durable_error A) : tables :=
  match r with Ok a => f a | Err _ => d end.

Definition exec (d : tables) (o : store_op) : tables :=
  match o with
  | OpCreate s => committed d id (create d s)
  | OpCreateKeyed s t now l => committed d (fun x => x.1.1) (create_keyed d s t now l)
  | OpAcquire s t now l a => committed d fst (acquire d s t now l a)
  | OpRenew s t now l => committed d id (renew d s t now l)
  | OpRelease s t => release d s t
  | OpSave p s t now e => committed d fst (save d p s t now e)
  | OpCancel p now t a => committed d fst (cancel d p now t a)
  | OpGraphPut s t now c cp m pa => committed d id (graph_put d s t now c cp m pa)
  | OpGraphWrites s t now c w => committed d id (graph_writes d s t now c w)
  | OpPurge t now limit scan => (purge_expired d t now limit scan).1
  end.

(** Transactions of any number of workers, in the order they commit. *)
Definition exec_all : tables -> list store_op -> tables := foldl exec.
End Store.

(** * What one transaction does *)

Section Effects.
Context {B O : Type} `{SnapshotCodec B}.
Abbreviation snapshot := (DurableSnapshot B).
Abbreviation tables := (store B O).
Implicit Types (d : tables) (s : snapshot) (row : DurableRow B).

Lemma persisted_inv s p : persisted s = Ok p -> p = with_body s (strip_body (sn_body s)).
Proof. unfold persisted. intros. by res_inv. Qed.

Lemma scoped_row_inv d s row :
  scoped_row d s = Some row ->
  durable_runs d !! sn_run_id s = Some row /\ dr_schema_version row = SNAPSHOT_VERSION
  /\ dr_tenant_id row = sn_tenant_id s /\ dr_user_id row = sn_user_id s.
Proof.
  unfold scoped_row, _scope. destruct (durable_runs d !! sn_run_id s) as [r|]; [|done].
  destruct (_ && _) eqn:E; [|done]. intros [= ->]. by bool_inv.
Qed.

Lemma _add_new_inv d s t l d' :
  _add_new d s t l = Ok (inl d') ->
  exists p, persisted s = Ok p /\ agent_runs d !! sn_run_id s = None
  /\ durable_runs d !! sn_run_id s = None /\ 0 <= sn_revision s
  /\ d' = {| agent_runs := <[sn_run_id s := new_agent_run s]> (agent_runs d);
             durable_runs := <[sn_run_id s := new_durable_row s p t l]> (durable_runs d);
             tool_ledger := tool_ledger d; graph_rows := graph_rows d |}.
Proof. unfold _add_new. intros. res_inv. bool_inv. eauto 10. Qed.

Lemma create_keyed_inv d s t now l d' ins v :
  create_keyed d s t now l = Ok (d', ins, v) ->
  (ins = true /\ v = s /\ _add_new d s (Some t) (Some (fadd now l)) = Ok (inl d'))
  \/ (ins = false /\ d' = d
      /\ lookup_keyed d (sn_tenant_id s) (sn_user_id s) (sn_run_id s) = Ok (Some v)).
Proof.
  unfold create_keyed, mbind, result_bind. destruct (sn_startup s); [|done].
  destruct (_add_new _ _ _ _) as [[d1|[]]|]; try done.
  - intros [= -> <- <-]. by left.
  - destruct (lookup_keyed _ _ _ _) as [[w|]|]; try done. intros [= -> <- <-]. by right.
Qed.

Lemma _legacy_update_inv d s d' :
  _legacy_update d s = Ok d' ->
  d' = set_runs d (agent_runs d')
  /\ ((owned_legacy d (sn_tenant_id s) (sn_user_id s) (sn_run_id s) = None
       /\ agent_runs d' = agent_runs d)
      \/ (exists a, owned_legacy d (sn_tenant_id s) (sn_user_id s) (sn_run_id s) = Some a
           /\ agent_runs d' = <[sn_run_id s := legacy_row a s]> (agent_runs d))).
Proof. unfold _legacy_update. intros. destruct d; res_inv; eauto 10. Qed.

Lemma save_ledger_inv d s e d' :
  save_ledger d s e = Ok d' ->
  d' = set_ledger d (<[le_call_id e := {| lr_tenant_id := sn_tenant_id s; lr_user_id := sn_user_id s;
                        lr_run_id := sn_run_id s; lr_entry := e |}]> (tool_ledger d))
  /\ match tool_ledger d !! le_call_id e with
     | None => is_Some (durable_runs d !! sn_run_id s)
     | Some r => lr_run_id r = sn_run_id s /\ lr_tenant_id r = sn_tenant_id s
                 /\ lr_user_id r = sn_user_id s /\ le_status (lr_entry r) <> ledger_completed
     end.
Proof.
  unfold save_ledger. intros. res_inv; split; try done; bool_inv; try done.
  by apply not_eq_None_Some.
Qed.

Lemma _settle_active_same previous s now v :
  _settle_active previous s now = Some v ->
  sn_revision v = sn_revision s /\ sn_status v = sn_status s /\ sn_run_id v = sn_run_id s
  /\ sn_tenant_id v = sn_tenant_id s /\ sn_user_id v = sn_user_id s /\ sn_startup v = sn_startup s.
Proof. unfold _settle_active. intros. repeat case_match; simplify_eq; done. Qed.

Lemma acquire_inv d s t now l act d' v :
  acquire d s t now l act = Ok (d', v) ->
  exists row row',
    scoped_row d s = Some row /\ dr_revision row = sn_revision s
    /\ terminal (dr_status row) = false /\ flt now (dr_expires_at row) = true
    /\ lease_free row now = true
    /\ d' = set_durable d (<[sn_run_id s := row']> (durable_runs d))
    /\ v = acquired_snapshot s row now act
    /\ ((sn_active_budget s = None /\ row' = claimed_row row (Some t) (Some (fadd now l)))
        \/ (sn_active_budget s <> None /\ exists p, persisted v = Ok p
            /\ flt now (sn_last_observed_at s) = false
            /\ row' = written_row row p (dr_revision row + 1) (dr_status row)
                        (Some t) (Some (fadd now l)))).
Proof.
  unfold acquire. intros Ha. destruct (scoped_row d s) as [row|] eqn:Er; [|done].
  exists row. destruct (sn_active_budget s) as [b|] eqn:Eb.
  - res_inv. bool_inv. eexists. split_and!; eauto.
    right. split; [done|]. eexists. split_and!; eauto.
    unfold acquired_snapshot. rewrite Eb. simpl. congruence.
  - res_inv. bool_inv. eexists. split_and!; eauto.
Qed.

Lemma renew_inv d s t now l d' :
  renew d s t now l = Ok d' ->
  exists row, scoped_row d s = Some row /\ lease_live row t now = true
    /\ terminal (dr_status row) = false
    /\ d' = set_durable d (<[sn_run_id s := claimed_row row (dr_lease_token row)
                                            (Some (fadd now l))]> (durable_runs d)).
Proof. unfold renew. intros. res_inv. bool_inv. eauto. Qed.

Lemma save_inv d prev s t now e d' v :
  save d prev s t now e = Ok (d', v) ->
  exists row p,
    scoped_row d prev = Some row /\ dr_revision row = sn_revision prev
    /\ lease_live row t now = true /\ terminal (dr_status row) = false
    /\ persisted v = Ok p
    /\ sn_revision v = dr_revision row + 1 /\ sn_status v = sn_status s
    /\ sn_run_id v = sn_run_id s /\ sn_tenant_id v = sn_tenant_id s
    /\ sn_user_id v = sn_user_id s /\ sn_startup v = sn_startup s
    /\ durable_runs d' = <[sn_run_id prev := written_row row p (dr_revision row + 1) (sn_status s)
                            (dr_lease_token row) (dr_lease_until row)]> (durable_runs d)
    /\ graph_rows d' = graph_rows d
    /\ ((owned_legacy d (sn_tenant_id s) (sn_user_id s) (sn_run_id s) = None
         /\ agent_runs d' = agent_runs d)
        \/ exists a, owned_legacy d (sn_tenant_id s) (sn_user_id s) (sn_run_id s) = Some a
             /\ agent_runs d' = <[sn_run_id s := legacy_row a v]> (agent_runs d))
    /\ match e with
       | None => tool_ledger d' = tool_ledger d
       | Some le =>
           tool_ledger d' = <[le_call_id le := {| lr_tenant_id := sn_tenant_id s;
               lr_user_id := sn_user_id s; lr_run_id := sn_run_id s; lr_entry := le |}]>
               (tool_ledger d)
           /\ match tool_ledger d !! le_call_id le with
              | None => is_Some (durable_runs d' !! sn_run_id s)
              | Some r => lr_run_id r = sn_run_id s /\ lr_tenant_id r = sn_tenant_id s
                          /\ lr_user_id r = sn_user_id s
                          /\ le_status (lr_entry r) <> ledger_completed
              end
       end.
Proof.
  unfold save. destruct (_settle_active _ _ _) as [w|] eqn:Es; [|done].
  apply _settle_active_same in Es as (E1 & E2 & E3 & E4 & E5 & E6). simpl in *.
  unfold mbind at 1, result_bind at 1. destruct (persisted w) as [p|] eqn:Ep; [|done].
  destruct (scoped_row d prev) as [row|] eqn:Er; [|done].
  intros Hs. exists row, p. unfold mbind at 1, result_bind at 1, raise_if in Hs.
  destruct (negb _) eqn:Eg in Hs; [done|].
  apply negb_false_iff in Eg. bool_inv. rename select (dr_revision row = _) into Hrev.
  set (d1 := set_durable d _) in Hs.
  unfold mbind, result_bind in Hs.
  destruct (match e with None => _ | Some _ => _ end) as [d2|] eqn:E2' in Hs; [|done].
  destruct (_legacy_update d2 w) as [d3|] eqn:E3' in Hs; [|done].
  injection Hs as <- <-. apply _legacy_update_inv in E3' as [-> Ha]. simpl in *.
  rewrite E3, E4, E5 in *.
  assert (d2 = set_ledger d1 (tool_ledger d2)) as Hd2.
  { destruct e; [apply save_ledger_inv in E2' as [-> _]; done|].
    injection E2' as <-. by destruct d1. }
  rewrite E1, E2 in *. split_and!; try done; try congruence.
  - rewrite Hd2. subst d1. simpl. by rewrite E1, E2, Hrev.
  - by rewrite Hd2.
  - rewrite Hd2 in Ha. destruct Ha as [Ha|[a Ha]]; [left|right; exists a]; done.
  - destruct e as [le|]; [|by injection E2' as <-].
    apply save_ledger_inv in E2' as [Hl Hm]. rewrite E3, E4, E5 in *.
    split; [by rewrite Hl|]. subst d1. rewrite Hd2. simpl in *. exact Hm.
Qed.

Lemma cancel_inv d prev now t a d' v :
  cancel d prev now t a = Ok (d', v) ->
  exists row p,
    scoped_row d prev = Some row /\ dr_revision row = sn_revision prev
    /\ terminal (dr_status row) = false
    /\ match t with Some t => owner_condition row t a = true | None => True end
    /\ persisted v = Ok p /\ sn_revision v = dr_revision row + 1 /\ sn_status v = cancelled
    /\ sn_run_id v = sn_run_id prev /\ sn_tenant_id v = sn_tenant_id prev
    /\ sn_user_id v = sn_user_id prev /\ sn_startup v = sn_startup prev
    /\ durable_runs d' = <[sn_run_id prev := written_row row p (dr_revision row + 1) cancelled
                            None None]> (durable_runs d)
    /\ graph_rows d' = graph_rows d /\ tool_ledger d' = tool_ledger d
    /\ ((owned_legacy d (sn_tenant_id prev) (sn_user_id prev) (sn_run_id prev) = None
         /\ agent_runs d' = agent_runs d)
        \/ exists b, owned_legacy d (sn_tenant_id prev) (sn_user_id prev) (sn_run_id prev) = Some b
             /\ agent_runs d' = <[sn_run_id prev := legacy_row b v]> (agent_runs d)).
Proof.
  unfold cancel. destruct (_settle_active _ _ _) as [w|] eqn:Es; [|done].
  apply _settle_active_same in Es as (E1 & E2 & E3 & E4 & E5 & E6). simpl in *.
  unfold mbind at 1, result_bind at 1. destruct (persisted w) as [p|] eqn:Ep; [|done].
  destruct (scoped_row d prev) as [row|] eqn:Er; [|done].
  intros Hs. exists row, p. unfold mbind, result_bind, raise_if in Hs.
  destruct (negb _) eqn:Eg in Hs; [done|]. apply negb_false_iff in Eg. bool_inv.
  rename select (dr_revision row = _) into Hrev.
  destruct (_legacy_update _ w) as [d3|] eqn:E3' in Hs; [|done].
  injection Hs as <- <-. apply _legacy_update_inv in E3' as [-> Ha]. simpl in *.
  rewrite E3, E4, E5 in *. split_and!; try done; try congruence.
  - by destruct t.
Qed.

Lemma _graph_fence_inv d s t now u :
  _graph_fence d s t now = Ok u -> exists row, scoped_row d s = Some row /\ lease_live row t now = true.
Proof. unfold _graph_fence. intros. res_inv. bool_inv. eauto. Qed.

Lemma graph_put_inv d s t now c cp m pa d' :
  graph_put d s t now c cp m pa = Ok d' ->
  exists row, scoped_row d s = Some row /\ lease_live row t now = true
  /\ graph_rows d !! c = None
  /\ d' = set_graph d (<[c := {| gr_tenant_id := sn_tenant_id s; gr_user_id := sn_user_id s;
       gr_run_id := sn_run_id s; gr_checkpoint := cp; gr_metadata := m; gr_parent_id := pa;
       gr_writes := [] |}]> (graph_rows d)).
Proof.
  unfold graph_put, mbind, result_bind. destruct (_graph_fence _ _ _ _) eqn:E; [|done].
  apply _graph_fence_inv in E as (row & ? & ?). intros. res_inv. eauto 10.
Qed.

Lemma graph_writes_inv d s t now c w d' :
  graph_writes d s t now c w = Ok d' ->
  exists row g ws, scoped_row d s = Some row /\ lease_live row t now = true
  /\ graph_rows d !! c = Some g /\ graph_owned s g = true
  /\ d' = set_graph d (<[c := {| gr_tenant_id := gr_tenant_id g; gr_user_id := gr_user_id g;
       gr_run_id := gr_run_id g; gr_checkpoint := gr_checkpoint g; gr_metadata := gr_metadata g;
       gr_parent_id := gr_parent_id g; gr_writes := ws |}]> (graph_rows d)).
Proof.
  unfold graph_writes, mbind, result_bind. destruct (_graph_fence _ _ _ _) eqn:E; [|done].
  apply _graph_fence_inv in E as (row & ? & ?). intros. res_inv. eauto 15.
Qed.

Lemma release_cases d s t :
  release d s t = d
  \/ exists row, scoped_row d s = Some row /\ dr_lease_token row = Some t
     /\ release d s t = set_durable d (<[sn_run_id s := claimed_row row None None]> (durable_runs d)).
Proof.
  unfold release. destruct (scoped_row d s) as [row|]; [|by left].
  case_bool_decide; eauto.
Qed.

(** The committed transactions; every other call leaves the tables alone. *)
Inductive commits d : store_op -> tables -> Prop :=
| commit_create s d' : _add_new d s None None = Ok (inl d') -> commits d (OpCreate s) d'
| commit_create_keyed s t now l d' :
    _add_new d s (Some t) (Some (fadd now l)) = Ok (inl d') -> commits d (OpCreateKeyed s t now l) d'
| commit_acquire s t now l a d' v :
    acquire d s t now l a = Ok (d', v) -> commits d (OpAcquire s t now l a) d'
| commit_renew s t now l d' : renew d s t now l = Ok d' -> commits d (OpRenew s t now l) d'
| commit_release s t row :
    scoped_row d s = Some row -> dr_lease_token row = Some t ->
    commits d (OpRelease s t)
      (set_durable d (<[sn_run_id s := claimed_row row None None]> (durable_runs d)))
| commit_save p s t now e d' v : save d p s t now e = Ok (d', v) -> commits d (OpSave p s t now e) d'
| commit_cancel p now t a d' v : cancel d p now t a = Ok (d', v) -> commits d (OpCancel p now t a) d'
| commit_graph_put s t now c cp m pa d' :
    graph_put d s t now c cp m pa = Ok d' -> commits d (OpGraphPut s t now c cp m pa) d'
| commit_graph_writes s t now c w d' :
    graph_writes d s t now c w = Ok d' -> commits d (OpGraphWrites s t now c w) d'
| commit_purge t now limit scan :
    commits d (OpPurge t now limit scan) (purge_expired d t now limit scan).1.
#[local] Hint Constructors commits : core.

Lemma exec_commits d o : exec d o = d \/ commits d o (exec d o).
Proof.
  destruct o as [s|s t now l|s t now l a|s t now l|s t|p s t now e|p now t a|s t now c cp m pa
                |s t now c w|t now limit scan]; simpl; auto.
  - unfold create, mbind, result_bind. destruct (_add_new _ _ _ _) as [[d'|]|] eqn:E; simpl; auto.
  - destruct (create_keyed _ _ _ _ _) as [[[d' ins] v]|] eqn:E; simpl; auto.
    apply create_keyed_inv in E as [(_ & _ & E)|(_ & -> & _)]; auto.
  - destruct (acquire _ _ _ _ _ _) as [[d' v]|] eqn:E; simpl; eauto.
  - destruct (renew _ _ _ _ _) as [d'|] eqn:E; simpl; auto.
  - destruct (release_cases d s t) as [->|(row & Hr & Ht & ->)]; auto.
  - destruct (save _ _ _ _ _ _) as [[d' v]|] eqn:E; simpl; eauto.
  - destruct (cancel _ _ _ _ _) as [[d' v]|] eqn:E; simpl; eauto.
  - destruct (graph_put _ _ _ _ _ _ _ _) as [d'|] eqn:E; simpl; auto.
  - destruct (graph_writes _ _ _ _ _ _) as [d'|] eqn:E; simpl; auto.
Qed.
End Effects.

(** Case analysis on the effect of one call: first the unchanged tables, then
    the committed transactions in the order of [commits]. *)
Ltac exec_cases d o :=
  generalize (exec_commits d o); generalize (exec d o);
  let dx := fresh "dx" in
  intros dx [->|[s d' E|s t now lt d' E|s t now lt ac d' v E|s t now lt d' E|s t row Hr Hlt
                |p s t now e d' v E|p now t ac d' v E|s t now k cp m pa d' E|s t now k w d' E
                |t now limit scan]].

(** * Row histories *)

Section Histories.
Context {B O : Type} `{SnapshotCodec B}.
Abbreviation snapshot := (DurableSnapshot B).
Abbreviation tables := (store B O).
Implicit Types (d : tables) (s : snapshot) (r : DurableRow B) (o : @store_op B O).

(** What a transaction can do to the private row of one run, [legacy] being its
    row in [agent_runs]. *)
Inductive row_change (legacy : option AgentRun)
    : option (DurableRow B) -> option (DurableRow B) -> Prop :=
| row_same x : row_change legacy x x
| row_new r : legacy = None -> row_change legacy None (Some r)
| row_claim r t u : row_change legacy (Some r) (Some (claimed_row r t u))
| row_write r p st t u :
    terminal (dr_status r) = false ->
    row_change legacy (Some r) (Some (written_row r p (dr_revision r + 1) st t u))
| row_purge r : row_change legacy (Some r) None.
#[local] Hint Constructors row_change : core.

Lemma row_change_insert d k r r' i :
  durable_runs d !! k = Some r ->
  (forall legacy, row_change legacy (Some r) (Some r')) ->
  row_change (agent_runs d !! i) (durable_runs d !! i) (<[k := r']> (durable_runs d) !! i).
Proof.
  intros Hr Hc. destruct (decide (k = i)) as [->|Hk].
  - rewrite lookup_insert_eq, Hr. apply Hc.
  - rewrite lookup_insert_ne by done. constructor.
Qed.

Lemma _add_new_row d s t l d' i :
  _add_new d s t l = Ok (inl d') ->
  row_change (agent_runs d !! i) (durable_runs d !! i) (durable_runs d' !! i).
Proof.
  intros E. apply _add_new_inv in E as (p & Hp & Ha & Hd & _ & ->). simpl.
  destruct (decide (sn_run_id s = i)) as [<-|Hk].
  - rewrite lookup_insert_eq, Hd. by constructor.
  - rewrite lookup_insert_ne by done. constructor.
Qed.

Lemma exec_row d o i :
  row_change (agent_runs d !! i) (durable_runs d !! i) (durable_runs (exec d o) !! i).
Proof.
  exec_cases d o; [constructor|..].
  - eapply _add_new_row, E.
  - eapply _add_new_row, E.
  - apply acquire_inv in E as (row & row' & Hr & _ & Ht & _ & _ & -> & _ & Hc).
    apply scoped_row_inv in Hr as [Hr _]. simpl. eapply row_change_insert; [done|]. intros legacy.
    destruct Hc as [[_ ->]|(_ & q & _ & _ & ->)]; auto.
  - apply renew_inv in E as (row & Hr & _ & _ & ->).
    apply scoped_row_inv in Hr as [Hr _]. simpl. eapply row_change_insert; [done|auto].
  - apply scoped_row_inv in Hr as [Hr _]. simpl. eapply row_change_insert; [done|auto].
  - apply save_inv in E as (row & q & Hr & _ & _ & Ht & _ & _ & _ & _ & _ & _ & _ & -> & _).
    apply scoped_row_inv in Hr as [Hr _]. eapply row_change_insert; [done|auto].
  - apply cancel_inv in E as (row & q & Hr & _ & Ht & _ & _ & _ & _ & _ & _ & _ & _ & -> & _).
    apply scoped_row_inv in Hr as [Hr _]. eapply row_change_insert; [done|auto].
  - apply graph_put_inv in E as (row & _ & _ & _ & ->). constructor.
  - apply graph_writes_inv in E as (row & g & ws & _ & _ & _ & _ & ->). constructor.
  - simpl. destruct (durable_runs d !! i) as [r|] eqn:Er.
    + destruct (decide (i ∈ expired_ids d t now limit scan)).
      * rewrite map_lookup_filter_None_2; [constructor|]. right. intros ? ? []. done.
      * rewrite (map_lookup_filter_Some_2 _ _ i r); [constructor|done|done].
    + rewrite map_lookup_filter_None_2; [constructor|]. by left.
Qed.

(** Rows of [agent_runs] stay, with their owner. *)
Definition same_owner (a a' : AgentRun) : Prop :=
  ar_tenant_id a' = ar_tenant_id a /\ ar_user_id a' = ar_user_id a.
#[export] Instance same_owner_preorder : PreOrder same_owner.
Proof. unfold same_owner. split; [done|]. intros a1 a2 a3 [] []. split; congruence. Qed.
Lemma same_owner_refl a : same_owner a a.
Proof. done. Qed.
#[local] Hint Resolve same_owner_refl : core.

Lemma legacy_update_keeps d s (v : snapshot) i a m :
  agent_runs d !! i = Some a ->
  (owned_legacy d (sn_tenant_id s) (sn_user_id s) (sn_run_id s) = None /\ m = agent_runs d
   \/ exists b, owned_legacy d (sn_tenant_id s) (sn_user_id s) (sn_run_id s) = Some b
     /\ m = <[sn_run_id s := legacy_row b v]> (agent_runs d)) ->
  exists a', m !! i = Some a' /\ same_owner a a'.
Proof.
  intros Ha [[_ ->]|(b & Hb & ->)]; [by eauto|].
  destruct (decide (sn_run_id s = i)) as [<-|]; [|rewrite lookup_insert_ne by done; eauto].
  rewrite lookup_insert_eq. unfold owned_legacy in Hb. rewrite Ha in Hb.
  destruct (_ && _); simplify_eq. by eexists.
Qed.

Lemma _add_new_legacy d s t l d' i a :
  _add_new d s t l = Ok (inl d') -> agent_runs d !! i = Some a ->
  exists a', agent_runs d' !! i = Some a' /\ same_owner a a'.
Proof.
  intros E Hi. apply _add_new_inv in E as (p & _ & Ha & _ & _ & ->). simpl.
  rewrite lookup_insert_ne by congruence. eauto.
Qed.

Lemma exec_legacy d o i a :
  agent_runs d !! i = Some a ->
  exists a', agent_runs (exec d o) !! i = Some a' /\ same_owner a a'.
Proof.
  intros Hi.
  exec_cases d o; [eauto|..].
  - eapply _add_new_legacy; eauto.
  - eapply _add_new_legacy; eauto.
  - apply acquire_inv in E as (row & row' & _ & _ & _ & _ & _ & -> & _). eauto.
  - apply renew_inv in E as (row & _ & _ & _ & ->). eauto.
  - eauto.
  - apply save_inv in E as (row & q & _ & _ & _ & _ & _ & _ & _ & _ & _ & _ & _ & _ & _ & Hl & _).
    eapply legacy_update_keeps; eauto.
  - apply cancel_inv in E as (row & q & _ & _ & _ & _ & _ & _ & _ & _ & _ & _ & _ & _ & _ & _ & Hl).
    eapply legacy_update_keeps; eauto.
  - apply graph_put_inv in E as (row & _ & _ & _ & ->). eauto.
  - apply graph_writes_inv in E as (row & g & ws & _ & _ & _ & _ & ->). eauto.
  - eauto.
Qed.

Lemma exec_all_legacy d ops i a :
  agent_runs d !! i = Some a ->
  exists a', agent_runs (exec_all d ops) !! i = Some a' /\ same_owner a a'.
Proof.
  revert d a. induction ops as [|o ops IH]; intros d a Ha; simpl; [by eauto|].
  destruct (exec_legacy d o i a Ha) as (a1 & Ha1 & Ho).
  destruct (IH _ _ Ha1) as (a2 & Ha2 & Ho2). exists a2. split; [done|]. by etransitivity.
Qed.

(** The history of one private row: its revision only grows, a revision is
    written once, and a terminal row is never written again. *)
Record evolves (r r' : DurableRow B) : Prop := {
  ev_owner : dr_tenant_id r' = dr_tenant_id r /\ dr_user_id r' = dr_user_id r
             /\ dr_expires_at r' = dr_expires_at r;
  ev_revision : dr_revision r <= dr_revision r';
  ev_once : dr_revision r' = dr_revision r ->
            dr_snapshot r' = dr_snapshot r /\ dr_status r' = dr_status r;
  ev_terminal : terminal (dr_status r) = true -> dr_revision r' = dr_revision r
}.

#[export] Instance evolves_preorder : PreOrder evolves.
Proof.
  split.
  - intros r. by split.
  - intros r1 r2 r3 [O1 R1 S1 T1] [O2 R2 S2 T2]. split.
    + intuition congruence.
    + lia.
    + intros E. destruct S1 as [A1 A2]; [lia|]. destruct S2 as [A3 A4]; [lia|]. by split; etransitivity.
    + intros T. pose proof (T1 T) as E. destruct (S1 E) as [_ Es]. rewrite T2; [done|congruence].
Qed.

Lemma row_change_evolves legacy r r' : row_change legacy (Some r) (Some r') -> evolves r r'.
Proof.
  inversion 1; subst; [done|by split|]. split; simpl; try done; [lia|lia|congruence].
Qed.

(** A row of a run that has its legacy row evolves, and once purged stays away. *)
Lemma exec_all_gone d ops i a :
  agent_runs d !! i = Some a -> durable_runs d !! i = None ->
  durable_runs (exec_all d ops) !! i = None.
Proof.
  revert d a. induction ops as [|o ops IH]; intros d a Ha Hr; simpl; [done|].
  destruct (exec_legacy d o i a Ha) as (a1 & Ha1 & _). eapply IH; [done|].
  pose proof (exec_row d o i) as Hc. rewrite Ha, Hr in Hc. by inversion Hc.
Qed.

Lemma exec_all_row d ops i a r :
  agent_runs d !! i = Some a -> durable_runs d !! i = Some r ->
  match durable_runs (exec_all d ops) !! i with Some r' => evolves r r' | None => True end.
Proof.
  revert d a r. induction ops as [|o ops IH]; intros d a r Ha Hr; simpl.
  - by rewrite Hr.
  - destruct (exec_legacy d o i a Ha) as (a1 & Ha1 & _).
    pose proof (exec_row d o i) as Hc. rewrite Hr in Hc.
    destruct (durable_runs (exec d o) !! i) as [r1|] eqn:E1.
    + specialize (IH _ _ _ Ha1 E1). apply row_change_evolves in Hc.
      destruct (durable_runs (exec_all _ _) !! i); [|done]. by etransitivity.
    + by rewrite (exec_all_gone _ _ _ _ Ha1 E1).
Qed.

(** A completed ledger entry leaves only with its run. *)
Lemma exec_ledger d o c l :
  tool_ledger d !! c = Some l -> le_status (lr_entry l) = ledger_completed ->
  tool_ledger (exec d o) !! c = Some l \/ durable_runs (exec d o) !! lr_run_id l = None.
Proof.
  intros Hc Hl.
  exec_cases d o; [auto|..].
  - apply _add_new_inv in E as (q & _ & _ & _ & _ & ->). auto.
  - apply _add_new_inv in E as (q & _ & _ & _ & _ & ->). auto.
  - apply acquire_inv in E as (row & row' & _ & _ & _ & _ & _ & -> & _). auto.
  - apply renew_inv in E as (row & _ & _ & _ & ->). auto.
  - auto.
  - apply save_inv in E as (row & q & _ & _ & _ & _ & _ & _ & _ & _ & _ & _ & _ & _ & _ & _ & Hm).
    left. destruct e as [le|]; [|by rewrite Hm]. destruct Hm as [-> Hm].
    destruct (decide (le_call_id le = c)) as [<-|]; [|by rewrite lookup_insert_ne].
    rewrite Hc in Hm. naive_solver.
  - apply cancel_inv in E as (row & q & _ & _ & _ & _ & _ & _ & _ & _ & _ & _ & _ & _ & _ & -> & _).
    auto.
  - apply graph_put_inv in E as (row & _ & _ & _ & ->). auto.
  - apply graph_writes_inv in E as (row & g & ws & _ & _ & _ & _ & ->). auto.
  - simpl. destruct (decide (lr_run_id l ∈ expired_ids d t now limit scan)).
    + right. apply map_lookup_filter_None_2. right. intros ? ? []. done.
    + left. by apply map_lookup_filter_Some.
Qed.

Lemma exec_all_ledger d ops c l a :
  agent_runs d !! lr_run_id l = Some a ->
  tool_ledger d !! c = Some l -> le_status (lr_entry l) = ledger_completed ->
  tool_ledger (exec_all d ops) !! c = Some l \/ durable_runs (exec_all d ops) !! lr_run_id l = None.
Proof.
  revert d a. induction ops as [|o ops IH]; intros d a Ha Hc Hl; simpl; [by left|].
  destruct (exec_legacy d o _ a Ha) as (a1 & Ha1 & _).
  destruct (exec_ledger d o c l Hc Hl) as [Hc1|Hg]; [by eapply IH|].
  right. by eapply exec_all_gone.
Qed.

(** ** Leases *)

(** [o] does not use the lease [token] of run [i], and its clock is before the
    lease's end.  An operator's unfenced cancel is excluded. *)
Definition contender (i token : pystr) (until : float) o : Prop :=
  match o with
  | OpAcquire s _ now _ _ => sn_run_id s = i -> flt now until = true
  | OpRenew s t _ _ | OpRelease s t => sn_run_id s = i -> t <> token
  | OpSave p _ t _ _ => sn_run_id p = i -> t <> token
  | OpCancel p _ t _ => sn_run_id p = i -> t <> None /\ t <> Some token
  | _ => True
  end.

Lemma flt_not_fle x y : flt x y = true -> fle y x = false.
Proof.
  intros Hl. destruct (fle y x) eqn:E; [|done].
  pose proof (flt_fle_trans _ _ _ Hl E) as Hx. by rewrite flt_irrefl in Hx.
Qed.

Lemma insert_other (m : gmap pystr (DurableRow B)) k i r r' :
  m !! i = Some r -> (k = i -> False) -> <[k := r']> m !! i = Some r.
Proof. intros ? Hk. rewrite lookup_insert_ne; [done|]. intros ->. by apply Hk. Qed.

Lemma exec_contender d o i token until r :
  durable_runs d !! i = Some r -> dr_lease_token r = Some token -> dr_lease_until r = Some until ->
  contender i token until o ->
  durable_runs (exec d o) !! i = Some r \/ durable_runs (exec d o) !! i = None.
Proof.
  intros Hi Ht Hu Hc.
  revert Hc. exec_cases d o; simpl; intros Hc; [auto|..].
  - apply _add_new_inv in E as (q & _ & _ & Hn & _ & ->). left.
    apply insert_other; [done|]. intros <-. congruence.
  - apply _add_new_inv in E as (q & _ & _ & Hn & _ & ->). left.
    apply insert_other; [done|]. intros <-. congruence.
  - apply acquire_inv in E as (row & row' & Hr & _ & _ & _ & Hfree & -> & _).
    apply scoped_row_inv in Hr as [Hr _]. left. apply insert_other; [done|].
    intros <-. simplify_eq. unfold lease_free in Hfree. rewrite Hu in Hfree.
    by rewrite flt_not_fle in Hfree by auto.
  - apply renew_inv in E as (row & Hr & Hlive & _ & ->).
    apply scoped_row_inv in Hr as [Hr _]. left. apply insert_other; [done|].
    intros <-. simplify_eq. unfold lease_live in Hlive. bool_inv. naive_solver.
  - apply scoped_row_inv in Hr as [Hr _]. left. apply insert_other; [done|]. naive_solver.
  - apply save_inv in E as (row & q & Hr & _ & Hlive & _ & _ & _ & _ & _ & _ & _ & _ & -> & _).
    apply scoped_row_inv in Hr as [Hr _]. left. apply insert_other; [done|].
    intros <-. simplify_eq. unfold lease_live in Hlive. bool_inv. naive_solver.
  - apply cancel_inv in E as (row & q & Hr & _ & _ & Hown & _ & _ & _ & _ & _ & _ & _ & -> & _).
    apply scoped_row_inv in Hr as [Hr _]. left. apply insert_other; [done|].
    intros <-. simplify_eq. destruct (Hc eq_refl) as [Hn Hne]. destruct t as [t|]; [|done].
    unfold owner_condition in Hown. rewrite Ht in Hown.
    apply orb_true_iff in Hown as [Hx|Hx]; bool_inv; naive_solver.
  - apply graph_put_inv in E as (row & _ & _ & _ & ->). auto.
  - apply graph_writes_inv in E as (row & g & ws & _ & _ & _ & _ & ->). auto.
  - pose proof (exec_row d (OpPurge t now limit scan) i) as Hx. simpl in Hx.
    destruct (filter _ _ !! i) as [r'|] eqn:E; [|auto].
    apply map_lookup_filter_Some in E as [E _]. left. congruence.
Qed.

Lemma exec_all_contender d ops i token until r a :
  agent_runs d !! i = Some a -> durable_runs d !! i = Some r ->
  dr_lease_token r = Some token -> dr_lease_until r = Some until ->
  Forall (contender i token until) ops ->
  durable_runs (exec_all d ops) !! i = Some r \/ durable_runs (exec_all d ops) !! i = None.
Proof.
  intros Ha Hr Ht Hu Hops. revert d a Ha Hr.
  induction Hops as [|o ops Ho _ IH]; intros d a Ha Hr; simpl; [by left|].
  destruct (exec_legacy d o i a Ha) as (a1 & Ha1 & _).
  destruct (exec_contender d o i token until r) as [Hr1|Hg]; [done..|by eapply IH|].
  right. by eapply exec_all_gone.
Qed.
End Histories.

(** * The invariant of the tables *)

Section Invariant.
Context {B O : Type} `{SnapshotCodec B}.
Abbreviation snapshot := (DurableSnapshot B).
Abbreviation tables := (store B O).
Implicit Types (d : tables) (s : snapshot) (r : DurableRow B) (o : @store_op B O).

(** The columns of a private row repeat what its snapshot says. *)
Record row_coherent (i : pystr) (r : DurableRow B) : Prop := {
  rc_schema : dr_schema_version r = SNAPSHOT_VERSION;
  rc_revision : sn_revision (dr_snapshot r) = dr_revision r;
  rc_status : sn_status (dr_snapshot r) = dr_status r;
  rc_run : sn_run_id (dr_snapshot r) = i;
  rc_tenant : sn_tenant_id (dr_snapshot r) = dr_tenant_id r;
  rc_user : sn_user_id (dr_snapshot r) = dr_user_id r
}.

Definition owned_by d (i tenant user : pystr) : Prop :=
  exists r, durable_runs d !! i = Some r /\ dr_tenant_id r = tenant /\ dr_user_id r = user.

Record store_wf (d : tables) : Prop := {
  wf_rows : forall i r, durable_runs d !! i = Some r -> row_coherent i r;
  wf_legacy : forall i r, durable_runs d !! i = Some r ->
    exists a, agent_runs d !! i = Some a /\ ar_tenant_id a = dr_tenant_id r
      /\ ar_user_id a = dr_user_id r /\ ar_status a = legacy_status (dr_status r);
  wf_ledger : forall c l, tool_ledger d !! c = Some l ->
    le_call_id (lr_entry l) = c /\ owned_by d (lr_run_id l) (lr_tenant_id l) (lr_user_id l);
  wf_graph : forall c g, graph_rows d !! c = Some g ->
    owned_by d (gr_run_id g) (gr_tenant_id g) (gr_user_id g)
}.

(** What the durable service passes: a new run is [running]; a saved snapshot is
    a copy of the previous one; an acquired snapshot was loaded, so it agrees
    with the row that still has its revision. *)
Definition op_ok d o : Prop :=
  match o with
  | OpCreate s | OpCreateKeyed s _ _ _ => sn_status s = running
  | OpAcquire s _ _ _ _ =>
      forall r, durable_runs d !! sn_run_id s = Some r -> dr_revision r = sn_revision s ->
                sn_status s = dr_status r
  | OpSave previous s _ _ _ =>
      sn_run_id s = sn_run_id previous /\ sn_tenant_id s = sn_tenant_id previous
      /\ sn_user_id s = sn_user_id previous
  | _ => True
  end.

Definition empty_store : tables :=
  {| agent_runs := empty; durable_runs := empty; tool_ledger := empty; graph_rows := empty |}.

Inductive reachable : tables -> Prop :=
| reach_empty : reachable empty_store
| reach_step d o : reachable d -> op_ok d o -> reachable (exec d o).

Lemma owned_by_mono d d' i tenant user :
  (forall r, durable_runs d !! i = Some r ->
     exists r', durable_runs d' !! i = Some r' /\ dr_tenant_id r' = dr_tenant_id r
                /\ dr_user_id r' = dr_user_id r) ->
  owned_by d i tenant user -> owned_by d' i tenant user.
Proof. intros Hm (r & Hr & <- & <-). destruct (Hm r Hr) as (r' & ? & ? & ?). by exists r'. Qed.

Lemma owned_by_insert d d' i r r' j tenant user :
  durable_runs d !! i = Some r -> durable_runs d' = <[i := r']> (durable_runs d) ->
  dr_tenant_id r' = dr_tenant_id r -> dr_user_id r' = dr_user_id r ->
  owned_by d j tenant user -> owned_by d' j tenant user.
Proof.
  intros Hr Hd Ht Hu. apply owned_by_mono. intros r0 Hr0. rewrite Hd.
  destruct (decide (i = j)) as [->|].
  - rewrite lookup_insert_eq. simplify_eq. eauto.
  - rewrite lookup_insert_ne by done. eauto.
Qed.

(** Rewriting one private row and, in step with it, its legacy row. *)
Lemma wf_write d d' i r r' :
  store_wf d -> durable_runs d !! i = Some r -> row_coherent i r' ->
  dr_tenant_id r' = dr_tenant_id r -> dr_user_id r' = dr_user_id r ->
  durable_runs d' = <[i := r']> (durable_runs d) ->
  (agent_runs d' = agent_runs d /\ dr_status r' = dr_status r
   \/ exists a, agent_runs d' = <[i := a]> (agent_runs d) /\ ar_tenant_id a = dr_tenant_id r
        /\ ar_user_id a = dr_user_id r /\ ar_status a = legacy_status (dr_status r')) ->
  (forall c l, tool_ledger d' !! c = Some l -> tool_ledger d !! c = Some l
     \/ le_call_id (lr_entry l) = c /\ lr_run_id l = i /\ lr_tenant_id l = dr_tenant_id r
        /\ lr_user_id l = dr_user_id r) ->
  graph_rows d' = graph_rows d -> store_wf d'.
Proof.
  intros Hwf Hr Hco Ht Hu Hd Ha Hl Hg.
  assert (Hown : forall j tn us, owned_by d j tn us -> owned_by d' j tn us)
    by (intros; by eapply owned_by_insert).
  split.
  - intros j q. rewrite Hd. intros [[<- <-]|[_ Hq]]%lookup_insert_Some; [done|]. by apply Hwf.
  - intros j q. rewrite Hd. intros [[<- <-]|[Hne Hq]]%lookup_insert_Some.
    + destruct Ha as [[-> Hst]|(a & -> & ? & ? & ?)].
      * rewrite Ht, Hu, Hst. by apply Hwf.
      * exists a. rewrite lookup_insert_eq. split_and!; congruence.
    + destruct (wf_legacy _ Hwf _ _ Hq) as (a & Haj & ?).
      destruct Ha as [[-> Hst]|(b & -> & _)]; [by exists a|].
      exists a. by rewrite lookup_insert_ne.
  - intros c l [Hc|(? & <- & ? & ?)]%Hl.
    + destruct (wf_ledger _ Hwf _ _ Hc). auto.
    + split; [done|]. apply Hown. exists r. eauto.
  - intros c g. rewrite Hg. intros Hc. apply Hown. by eapply wf_graph.
Qed.

Lemma coherent_claimed i r t l : row_coherent i r -> row_coherent i (claimed_row r t l).
Proof. intros []. by split. Qed.

Lemma _add_new_wf d s t l d' :
  store_wf d -> sn_status s = running -> _add_new d s t l = Ok (inl d') -> store_wf d'.
Proof.
  intros Hwf Hs E. apply _add_new_inv in E as (p & Hp & Ha & Hd & _ & ->).
  apply persisted_inv in Hp as ->.
  assert (Hown : forall j tn us, owned_by d j tn us -> owned_by
            {| agent_runs := <[sn_run_id s := new_agent_run s]> (agent_runs d);
               durable_runs := <[sn_run_id s := new_durable_row s
                 (with_body s (strip_body (sn_body s))) t l]> (durable_runs d);
               tool_ledger := tool_ledger d; graph_rows := graph_rows d |} j tn us).
  { intros j tn us. apply owned_by_mono. intros r Hr. exists r. simpl.
    by rewrite lookup_insert_ne by congruence. }
  split; simpl.
  - intros j q [[<- <-]|[_ Hq]]%lookup_insert_Some; [by split|]. by apply Hwf.
  - intros j q [[<- <-]|[Hne Hq]]%lookup_insert_Some.
    + exists (new_agent_run s). rewrite lookup_insert_eq. simpl. by rewrite Hs.
    + rewrite lookup_insert_ne by done. by apply Hwf.
  - intros c r Hc. destruct (wf_ledger _ Hwf _ _ Hc). auto.
  - intros c g Hc. apply Hown. by eapply wf_graph.
Qed.

(** The columns a successful transaction leaves in the row it wrote. *)
Lemma coherent_written i r v p st t l :
  row_coherent i r -> persisted v = Ok p -> sn_revision v = dr_revision r + 1 -> sn_status v = st ->
  sn_run_id v = i -> sn_tenant_id v = dr_tenant_id r -> sn_user_id v = dr_user_id r ->
  row_coherent i (written_row r p (dr_revision r + 1) st t l).
Proof. intros [] Hp ? ? ? ? ?. apply persisted_inv in Hp as ->. by split. Qed.

Lemma acquire_wf d s t now l act d' v :
  store_wf d -> op_ok d (OpAcquire s t now l act) -> acquire d s t now l act = Ok (d', v) ->
  store_wf d'.
Proof.
  intros Hwf Hok E. apply acquire_inv in E as (r & r' & Hr & Hrev & Hst & _ & _ & -> & Ev & Hc).
  apply scoped_row_inv in Hr as (Hr & _ & Ht & Hu). specialize (Hok r Hr Hrev).
  assert (row_coherent (sn_run_id s) r' /\ dr_tenant_id r' = dr_tenant_id r
          /\ dr_user_id r' = dr_user_id r /\ dr_status r' = dr_status r) as (? & ? & ? & ?).
  { destruct Hc as [[_ ->]|(Hb & p & Hp & _ & ->)].
    - split_and!; try done. by apply coherent_claimed, Hwf.
    - split_and!; try done. eapply coherent_written; [by apply Hwf|done|..]; subst v;
        unfold acquired_snapshot; destruct (sn_active_budget s); try done; simpl; congruence. }
  eapply (wf_write d _ (sn_run_id s) r r'); eauto.
Qed.

Lemma owned_legacy_wf d s r :
  store_wf d -> durable_runs d !! sn_run_id s = Some r ->
  dr_tenant_id r = sn_tenant_id s -> dr_user_id r = sn_user_id s ->
  exists a, owned_legacy d (sn_tenant_id s) (sn_user_id s) (sn_run_id s) = Some a
    /\ ar_tenant_id a = dr_tenant_id r /\ ar_user_id a = dr_user_id r.
Proof.
  intros Hwf Hr Ht Hu. destruct (wf_legacy _ Hwf _ _ Hr) as (a & Ha & Hat & Hau & _).
  exists a. unfold owned_legacy. rewrite Ha, !bool_decide_true by congruence. done.
Qed.

Lemma save_wf d p s t now e d' v :
  store_wf d -> op_ok d (OpSave p s t now e) -> save d p s t now e = Ok (d', v) -> store_wf d'.
Proof.
  intros Hwf (Hi & Hti & Hui) E.
  apply save_inv in E as (r & q & Hr & Hrev & _ & _ & Hq & Vr & Vs & Vi & Vt & Vu & _ & Hd & Hg & Ha & Hl).
  apply scoped_row_inv in Hr as (Hr & _ & Ht & Hu). rewrite Hi, Hti, Hui in *.
  destruct (owned_legacy_wf d p r Hwf Hr Ht Hu) as (a & Hoa & Hat & Hau).
  eapply (wf_write d d' (sn_run_id p) r); [done..|idtac|idtac|idtac|exact Hd| |idtac|done]; try done.
  - eapply coherent_written; [by apply Hwf|done|congruence..].
  - right. destruct Ha as [[Hn _]|(b & Hb & ->)]; [congruence|]. simplify_eq.
    exists (legacy_row b v). split_and!; try done. simpl. by rewrite Vs.
  - intros c lr Hc. destruct e as [le|]; [|by left; rewrite <- Hl].
    destruct Hl as [Hl _]. rewrite Hl in Hc.
    apply lookup_insert_Some in Hc as [[<- <-]|[_ Hc]]; [right|by left].
    split_and!; simpl; congruence.
Qed.

Lemma cancel_wf d p now t a d' v :
  store_wf d -> cancel d p now t a = Ok (d', v) -> store_wf d'.
Proof.
  intros Hwf E.
  apply cancel_inv in E as (r & q & Hr & Hrev & _ & _ & Hq & Vr & Vs & Vi & Vt & Vu & _ & Hd & Hg & Hl & Ha).
  apply scoped_row_inv in Hr as (Hr & _ & Ht & Hu).
  destruct (owned_legacy_wf d p r Hwf Hr Ht Hu) as (b & Hob & Hat & Hau).
  eapply (wf_write d d' (sn_run_id p) r); [done..|idtac|idtac|idtac|exact Hd| |idtac|done]; try done.
  - eapply coherent_written; [by apply Hwf|done|congruence..].
  - right. destruct Ha as [[Hn _]|(b' & Hb & ->)]; [congruence|]. simplify_eq.
    exists (legacy_row b' v). split_and!; try done. simpl. by rewrite Vs.
  - intros c lr. rewrite Hl. by left.
Qed.

Lemma graph_insert_wf d c g :
  store_wf d -> owned_by d (gr_run_id g) (gr_tenant_id g) (gr_user_id g) ->
  store_wf (set_graph d (<[c := g]> (graph_rows d))).
Proof.
  intros [W1 W2 W3 W4] Ho. split; try done. simpl.
  intros c' g' [[<- <-]|[_ Hq]]%lookup_insert_Some; [done|]. by apply (W4 c').
Qed.

Lemma purge_wf d tenant now limit scan : store_wf d -> store_wf (purge_expired d tenant now limit scan).1.
Proof.
  intros [W1 W2 W3 W4]. unfold purge_expired. set (ids := expired_ids _ _ _ _ _).
  assert (Hown : forall (x : pystr) tn us, x ∉ ids -> owned_by d x tn us -> forall a b c,
    owned_by {| agent_runs := a; tool_ledger := b; graph_rows := c;
                durable_runs := filter (fun kr => kr.1 ∉ ids) (durable_runs d) |} x tn us).
  { intros x tn us Hx (r & Hr & Hown) a b c. exists r. split; [|done]. simpl.
    by apply map_lookup_filter_Some. }
  split; simpl.
  - intros i r [Hr _]%map_lookup_filter_Some. auto.
  - intros i r [Hr _]%map_lookup_filter_Some. auto.
  - intros c l [Hl Hx]%map_lookup_filter_Some. destruct (W3 _ _ Hl). auto.
  - intros c g [Hg Hx]%map_lookup_filter_Some. apply Hown; [done|]. by apply (W4 c).
Qed.

Lemma exec_wf d o : store_wf d -> op_ok d o -> store_wf (exec d o).
Proof.
  intros Hwf Hok.
  revert Hok. exec_cases d o; intros Hok; [done|..].
  - by eapply _add_new_wf.
  - by eapply _add_new_wf.
  - by eapply acquire_wf.
  - apply renew_inv in E as (r & Hr & _ & _ & ->). apply scoped_row_inv in Hr as [Hr _].
    eapply (wf_write d _ (sn_run_id s) r (claimed_row r _ _)); eauto. by apply coherent_claimed, Hwf.
  - apply scoped_row_inv in Hr as [Hr _].
    eapply (wf_write d _ (sn_run_id s) row (claimed_row row _ _)); eauto. by apply coherent_claimed, Hwf.
  - by eapply save_wf.
  - by eapply cancel_wf.
  - apply graph_put_inv in E as (r & Hr & _ & _ & ->).
    apply scoped_row_inv in Hr as (Hr & _ & ? & ?). apply graph_insert_wf; [done|]. by exists r.
  - apply graph_writes_inv in E as (r & g & ws & _ & _ & Hg & _ & ->).
    apply graph_insert_wf; [done|]. exact (wf_graph _ Hwf k g Hg).
  - by apply purge_wf.
Qed.

Lemma reachable_wf d : reachable d -> store_wf d.
Proof. induction 1; [by split|]. by apply exec_wf. Qed.

(** ** What one owner can see *)

Definition owner_view (tenant user : pystr) d : tables :=
  {| agent_runs := filter (fun kr => ar_tenant_id kr.2 = tenant /\ ar_user_id kr.2 = user)
                     (agent_runs d);
     durable_runs := filter (fun kr => dr_tenant_id kr.2 = tenant /\ dr_user_id kr.2 = user)
                       (durable_runs d);
     tool_ledger := filter (fun kr => lr_tenant_id kr.2 = tenant /\ lr_user_id kr.2 = user)
                      (tool_ledger d);
     graph_rows := filter (fun kr => gr_tenant_id kr.2 = tenant /\ gr_user_id kr.2 = user)
                     (graph_rows d) |}.

(** The owner in whose name a transaction runs; a purge runs for a tenant. *)
Definition acts_as o (tenant user : pystr) : Prop :=
  match o with
  | OpCreate s | OpCreateKeyed s _ _ _ | OpAcquire s _ _ _ _ | OpRenew s _ _ _ | OpRelease s _
  | OpSave s _ _ _ _ | OpCancel s _ _ _ | OpGraphPut s _ _ _ _ _ _ | OpGraphWrites s _ _ _ _ =>
      sn_tenant_id s = tenant /\ sn_user_id s = user
  | OpPurge t _ _ _ => t = tenant
  end.

Lemma view_add_new d s t l d' tenant user :
  ~ (sn_tenant_id s = tenant /\ sn_user_id s = user) ->
  _add_new d s t l = Ok (inl d') -> owner_view tenant user d' = owner_view tenant user d.
Proof.
  intros Hn E. apply _add_new_inv in E as (p & _ & Ha & Hd & _ & ->).
  unfold owner_view. simpl. f_equal; apply map_filter_insert_not'; simpl; naive_solver.
Qed.

(** Replacing a row by one of the same owner is not seen by another. *)
Lemma view_durable d i r r' tenant user :
  durable_runs d !! i = Some r -> dr_tenant_id r' = dr_tenant_id r -> dr_user_id r' = dr_user_id r ->
  ~ (dr_tenant_id r = tenant /\ dr_user_id r = user) ->
  filter (fun kr : pystr * DurableRow B => dr_tenant_id kr.2 = tenant /\ dr_user_id kr.2 = user)
    (<[i := r']> (durable_runs d))
  = filter (fun kr => dr_tenant_id kr.2 = tenant /\ dr_user_id kr.2 = user) (durable_runs d).
Proof. intros Hr Ht Hu Hn. apply map_filter_insert_not'; simpl; [|naive_solver]. by rewrite Ht, Hu. Qed.

Lemma view_legacy d s (v : snapshot) m tenant user :
  ~ (sn_tenant_id s = tenant /\ sn_user_id s = user) ->
  (owned_legacy d (sn_tenant_id s) (sn_user_id s) (sn_run_id s) = None /\ m = agent_runs d
   \/ exists b, owned_legacy d (sn_tenant_id s) (sn_user_id s) (sn_run_id s) = Some b
        /\ m = <[sn_run_id s := legacy_row b v]> (agent_runs d)) ->
  filter (fun kr : pystr * AgentRun => ar_tenant_id kr.2 = tenant /\ ar_user_id kr.2 = user) m
  = filter (fun kr => ar_tenant_id kr.2 = tenant /\ ar_user_id kr.2 = user) (agent_runs d).
Proof.
  intros Hn [[_ ->]|(b & Hb & ->)]; [done|]. unfold owned_legacy in Hb.
  destruct (agent_runs d !! sn_run_id s) as [a|] eqn:Ha; [|done].
  destruct (_ && _) eqn:E; [|done]. bool_inv. simplify_eq.
  apply map_filter_insert_not'; simpl; naive_solver.
Qed.

Lemma view_set_durable d s r r' tenant user :
  scoped_row d s = Some r -> dr_tenant_id r' = dr_tenant_id r -> dr_user_id r' = dr_user_id r ->
  ~ (sn_tenant_id s = tenant /\ sn_user_id s = user) ->
  owner_view tenant user (set_durable d (<[sn_run_id s := r']> (durable_runs d)))
  = owner_view tenant user d.
Proof.
  intros Hr Ht Hu Hn. apply scoped_row_inv in Hr as (Hr & _ & Et & Eu).
  unfold owner_view. simpl. f_equal. eapply view_durable; eauto. by rewrite Et, Eu.
Qed.

Lemma view_save d p s t now e d' v tenant user :
  op_ok d (OpSave p s t now e) -> save d p s t now e = Ok (d', v) ->
  ~ (sn_tenant_id p = tenant /\ sn_user_id p = user) ->
  owner_view tenant user d' = owner_view tenant user d.
Proof.
  intros (Hi & Hti & Hui) E Hn.
  apply save_inv in E as (r & q & Hr & _ & _ & _ & _ & _ & _ & _ & _ & _ & _ & Hd & Hg & Ha & Hl).
  apply scoped_row_inv in Hr as (Hr & _ & Et & Eu). rewrite Hi, Hti, Hui in *.
  unfold owner_view. f_equal; [by eapply view_legacy| | |by rewrite Hg].
  - rewrite Hd. eapply view_durable; eauto. by rewrite Et, Eu.
  - destruct e as [le|]; [|by rewrite Hl]. destruct Hl as [-> Hl].
    apply map_filter_insert_not'; simpl; [done|]. intros y Hy. rewrite Hy in Hl. naive_solver.
Qed.

Lemma view_cancel d p now t a d' v tenant user :
  cancel d p now t a = Ok (d', v) -> ~ (sn_tenant_id p = tenant /\ sn_user_id p = user) ->
  owner_view tenant user d' = owner_view tenant user d.
Proof.
  intros E Hn.
  apply cancel_inv in E as (r & q & Hr & _ & _ & _ & _ & _ & _ & _ & _ & _ & _ & Hd & Hg & Hl & Ha).
  apply scoped_row_inv in Hr as (Hr & _ & Et & Eu).
  unfold owner_view. f_equal; [by eapply view_legacy| |by rewrite Hl|by rewrite Hg].
  rewrite Hd. eapply view_durable; eauto. by rewrite Et, Eu.
Qed.

Lemma expired_ids_owner d t now limit scan i r :
  i ∈ expired_ids d t now limit scan -> durable_runs d !! i = Some r -> dr_tenant_id r = t.
Proof.
  intros Hi Hr. apply elem_of_take_weak, list_elem_of_In, filter_In in Hi as [_ Hx].
  unfold expired in Hx. rewrite Hr in Hx. by bool_inv.
Qed.

Lemma view_purge d t now limit scan tenant user :
  store_wf d -> t <> tenant ->
  owner_view tenant user (purge_expired d t now limit scan).1 = owner_view tenant user d.
Proof.
  intros Hwf Hn. unfold owner_view, purge_expired. simpl.
  f_equal; rewrite map_filter_filter; apply map_filter_ext; simpl; intros i x Hx;
    (split; [by intros [? _]|intros Hown; split; [done|intros Hi]]).
  - pose proof (expired_ids_owner _ _ _ _ _ _ _ Hi Hx). naive_solver.
  - destruct (wf_ledger _ Hwf _ _ Hx) as (_ & r & Hr & ? & ?).
    pose proof (expired_ids_owner _ _ _ _ _ _ _ Hi Hr). naive_solver.
  - destruct (wf_graph _ Hwf _ _ Hx) as (r & Hr & ? & ?).
    pose proof (expired_ids_owner _ _ _ _ _ _ _ Hi Hr). naive_solver.
Qed.
End Invariant.

(** * Correctness of the durable store *)

Section Correct.
Context {B O : Type} `{SnapshotCodec B}.
Abbreviation snapshot := (DurableSnapshot B).
Abbreviation tables := (store B O).
Implicit Types (d : tables) (s : snapshot) (r : DurableRow B) (o : @store_op B O).

Lemma load_coherent d i r :
  durable_runs d !! i = Some r -> row_coherent i r ->
  load d (dr_tenant_id r) (dr_user_id r) i
  = if bounded_snapshot (dr_snapshot r) then Ok (dr_snapshot r) else Err DURABLE_SNAPSHOT_INVALID.
Proof.
  intros Hr [Hs Hv Hst Hi Ht Hu]. unfold load, owned_row. rewrite Hr, !bool_decide_true by done.
  simpl. unfold _validated_snapshot. rewrite Hs, Hv, Hst, Hi, Ht, Hu, !Z.eqb_refl.
  rewrite !bool_decide_true by done. simpl. by destruct (bounded_snapshot _).
Qed.

(** C37: In every state the store's transactions can reach (new runs are
    running, saved snapshots are copies of the previous one, acquired snapshots
    were loaded) each private row agrees with its own snapshot, has a legacy row
    of the same owner whose public status mirrors it, every ledger and checkpoint
    row belongs to a run of the same owner; so loading a row returns its
    snapshot, the only possible failure being a value out of bounds. *)
Theorem durable_store_invariant d :
  reachable d ->
  store_wf d
  /\ forall i r, durable_runs d !! i = Some r ->
     load d (dr_tenant_id r) (dr_user_id r) i
     = if bounded_snapshot (dr_snapshot r) then Ok (dr_snapshot r)
       else Err DURABLE_SNAPSHOT_INVALID.
Proof.
  intros Hd%reachable_wf. split; [done|]. intros i r Hr. by apply load_coherent, Hd.
Qed.

(** Whatever transactions follow, in any order and by any number of
    workers, a run's revision never decreases, one revision never has two
    contents, a run in a terminal status is never written again, its owner and
    expiry never change; and once purged it never comes back. *)
Theorem terminal_runs_frozen d ops more i r :
  store_wf d -> durable_runs d !! i = Some r ->
  match durable_runs (exec_all d ops) !! i with
  | Some r' =>
      dr_tenant_id r' = dr_tenant_id r /\ dr_user_id r' = dr_user_id r
      /\ dr_expires_at r' = dr_expires_at r /\ dr_revision r <= dr_revision r'
      /\ (dr_revision r' = dr_revision r ->
          dr_snapshot r' = dr_snapshot r /\ dr_status r' = dr_status r)
      /\ (terminal (dr_status r) = true ->
          dr_revision r' = dr_revision r /\ dr_snapshot r' = dr_snapshot r
          /\ dr_status r' = dr_status r)
  | None => durable_runs (exec_all d (ops ++ more)) !! i = None
  end.
Proof.
  intros Hwf Hr. destruct (wf_legacy _ Hwf _ _ Hr) as (a & Ha & _).
  pose proof (exec_all_row d ops i a r Ha Hr) as He.
  destruct (durable_runs (exec_all d ops) !! i) as [r'|] eqn:E.
  - destruct He as [(?&?&?) ? Hone Hterm]. split_and!; try done.
    intros T. pose proof (Hterm T) as Hrev. destruct (Hone Hrev). done.
  - unfold exec_all in *. rewrite foldl_app.
    destruct (exec_all_legacy d ops i a Ha) as (a' & Ha' & _). by eapply exec_all_gone.
Qed.

(** The legacy row is a tombstone: an id used once is never inserted again
    by any later transaction, before or after a purge; a keyed start on it
    changes nothing and can only return what an owner-scoped read finds. *)
Theorem run_ids_single_use d ops i a :
  agent_runs d !! i = Some a ->
  let d' := exec_all d ops in
  (exists a', agent_runs d' !! i = Some a' /\ same_owner a a')
  /\ forall s, sn_run_id s = i ->
     (exists e, create d' s = Err e)
     /\ forall t now l res, create_keyed d' s t now l = Ok res ->
        exists v, res = (d', false, v)
        /\ lookup_keyed d' (sn_tenant_id s) (sn_user_id s) i = Ok (Some v).
Proof.
  intros Ha d'. destruct (exec_all_legacy d ops i a Ha) as (a' & Ha' & Ho).
  split; [by exists a'|]. intros s <-. fold d' in Ha'.
  assert (Hno : forall t l d1, _add_new d' s t l <> Ok (inl d1)).
  { intros t l d1 E. apply _add_new_inv in E as (p & _ & Hn & _). congruence. }
  split.
  - unfold create, mbind, result_bind. destruct (_add_new d' s None None) as [[d1|]|e] eqn:E.
    + by apply Hno in E.
    + by eexists.
    + by eexists.
  - intros t now l [[d1 ins] v] E. apply create_keyed_inv in E as [(_ & _ & E)|(-> & -> & E)].
    + by apply Hno in E.
    + by exists v.
Qed.

(** A completed tool call is recorded for good: no later transaction changes
    or removes its ledger entry while its run is there. *)
Theorem completed_ledger_immutable d ops c l :
  store_wf d -> tool_ledger d !! c = Some l -> le_status (lr_entry l) = ledger_completed ->
  is_Some (durable_runs (exec_all d ops) !! lr_run_id l) ->
  tool_ledger (exec_all d ops) !! c = Some l.
Proof.
  intros Hwf Hc Hl [r Hr]. destruct (wf_ledger _ Hwf _ _ Hc) as (_ & r0 & Hr0 & _).
  destruct (wf_legacy _ Hwf _ _ Hr0) as (a & Ha & _).
  destruct (exec_all_ledger d ops c l a Ha Hc Hl) as [|Hg]; [done|congruence].
Qed.

(** C38: A lease excludes: after [acquire] gave [token] the run until its end,
    no sequence of transactions with other tokens and earlier clocks (acquires,
    saves, renewals, releases, fenced cancels) changes the row; only a purge
    can remove it. *)
Theorem lease_exclusive d s token now lease act d1 v ops :
  store_wf d -> acquire d s token now lease act = Ok (d1, v) ->
  Forall (contender (sn_run_id s) token (fadd now lease)) ops ->
  exists r, durable_runs d1 !! sn_run_id s = Some r /\ dr_lease_token r = Some token
  /\ dr_lease_until r = Some (fadd now lease)
  /\ (durable_runs (exec_all d1 ops) !! sn_run_id s = Some r
      \/ durable_runs (exec_all d1 ops) !! sn_run_id s = None).
Proof.
  intros Hwf E Hops. apply acquire_inv in E as (row & r & Hr & _ & _ & _ & _ & -> & _ & Hc).
  apply scoped_row_inv in Hr as (Hr & _). destruct (wf_legacy _ Hwf _ _ Hr) as (a & Ha & _).
  assert (dr_lease_token r = Some token /\ dr_lease_until r = Some (fadd now lease)) as [Ht Hu]
    by (destruct Hc as [[_ ->]|(_ & p & _ & _ & ->)]; done).
  assert (Hr' : durable_runs (set_durable d (<[sn_run_id s := r]> (durable_runs d))) !! sn_run_id s
                = Some r) by (simpl; by rewrite lookup_insert_eq).
  exists r. split_and!; [done..|]. by eapply exec_all_contender.
Qed.

(** C36: A successful [save] is a compare-and-swap: it needs the live lease, the
    current revision and a non-terminal row; it stores exactly the returned
    snapshot (without the prompt contexts) one revision later, which [load] then
    returns, leaves every other run alone, and a second save from the same
    previous snapshot fails. *)
Theorem save_load d prev s token now e d' v :
  store_wf d -> op_ok d (OpSave prev s token now e) -> save d prev s token now e = Ok (d', v) ->
  (exists r, durable_runs d !! sn_run_id prev = Some r /\ dr_revision r = sn_revision prev
     /\ lease_live r token now = true /\ terminal (dr_status r) = false)
  /\ sn_revision v = sn_revision prev + 1
  /\ (let stored := with_body v (strip_body (sn_body v)) in
      load d' (sn_tenant_id prev) (sn_user_id prev) (sn_run_id prev)
      = if bounded_snapshot stored then Ok stored else Err DURABLE_SNAPSHOT_INVALID)
  /\ (forall j, j <> sn_run_id prev -> durable_runs d' !! j = durable_runs d !! j)
  /\ (forall s2 token2 now2 e2, exists err, save d' prev s2 token2 now2 e2 = Err err).
Proof.
  intros Hwf Hok E. pose proof (save_wf _ _ _ _ _ _ _ _ Hwf Hok E) as Hwf'.
  apply save_inv in E as (r & q & Hr & Hrev & Hlive & Hnt & Hq & Vr & _ & _ & _ & _ & _ & Hd & _).
  apply scoped_row_inv in Hr as (Hr & _ & Ht & Hu). apply persisted_inv in Hq as ->.
  set (r' := written_row _ _ _ _ _ _) in Hd.
  assert (Hr' : durable_runs d' !! sn_run_id prev = Some r') by (by rewrite Hd, lookup_insert_eq).
  split_and!.
  - by exists r.
  - congruence.
  - rewrite <- Ht, <- Hu. apply (load_coherent d' (sn_run_id prev) r'); [done|]. by apply Hwf'.
  - intros j Hj. by rewrite Hd, lookup_insert_ne.
  - intros s2 t2 now2 e2. destruct (save d' prev s2 t2 now2 e2) as [[d2 v2]|err] eqn:E; [|by exists err].
    apply save_inv in E as (r2 & q2 & Hr2 & Hrev2 & _). apply scoped_row_inv in Hr2 as [Hr2 _].
    rewrite Hr' in Hr2. injection Hr2 as <-. simpl in Hrev2. lia.
Qed.

(** A transaction in the name of one owner (of one tenant, for a purge)
    leaves what any other owner can see of the four tables exactly as it was. *)
Theorem owner_isolation d o tenant user :
  store_wf d -> op_ok d o -> ~ acts_as o tenant user ->
  owner_view tenant user (exec d o) = owner_view tenant user d.
Proof.
  intros Hwf Hok Hn.
  revert Hok Hn. exec_cases d o; simpl; intros Hok Hn; [done|..].
  - by eapply view_add_new.
  - by eapply view_add_new.
  - apply acquire_inv in E as (row & r' & Hr & _ & _ & _ & _ & -> & _ & Hc).
    destruct Hc as [[_ ->]|(_ & q & _ & _ & ->)]; by eapply view_set_durable.
  - apply renew_inv in E as (row & Hr & _ & _ & ->). by eapply view_set_durable.
  - by eapply view_set_durable.
  - by eapply view_save.
  - by eapply view_cancel.
  - apply graph_put_inv in E as (row & _ & _ & Hc & ->).
    unfold owner_view. simpl. f_equal. apply map_filter_insert_not'; simpl; naive_solver.
  - apply graph_writes_inv in E as (row & g & ws & _ & _ & Hc & Hg & ->).
    unfold graph_owned in Hg. bool_inv.
    unfold owner_view. simpl. f_equal. apply map_filter_insert_not'; simpl; naive_solver.
  - by apply view_purge.
Qed.
End Correct.

(** * Concrete runs *)

Module DurableExamples.

(** A payload without content, always within the size limit. *)
#[export] Instance unit_codec : SnapshotCodec unit :=
  {| strip_body := id; encoded_bytes _ := Some 512; body_valid _ := true |}.

Definition at_ (z : Z) : float := fofZ z.
Definition config0 : RunConfig :=
  {| rc_max_steps := 4; rc_max_tool_calls := 4; rc_timeout_seconds := at_ 60;
     rc_repeated_action_threshold := 2; rc_input_text := u "hello" |}.

Definition run0 : DurableSnapshot unit :=
  {| sn_run_id := u "run-1"; sn_tenant_id := u "acme"; sn_user_id := u "ann";
     sn_request_id := u "req"; sn_trace_id := u "trace"; sn_startup := None;
     sn_active_budget := None; sn_dispatch := false; sn_revision := 0; sn_config := config0;
     sn_status := running; sn_phase := decision; sn_started_at := at_ 100;
     sn_deadline_at := at_ 160; sn_last_observed_at := at_ 100; sn_expires_at := at_ 1000;
     sn_steps_used := 0; sn_tool_calls_used := 0; sn_repeated_counts := []; sn_approval := None;
     sn_result := None; sn_error_code := None; sn_body := tt |}.

Definition finished (s : DurableSnapshot unit) : DurableSnapshot unit :=
  sn_update s (sn_revision s) completed done_ (sn_deadline_at s) (sn_last_observed_at s)
    (sn_active_budget s) None None None.

Definition call0 : ToolLedgerEntry unit :=
  {| le_call_id := u "call-1"; le_tool_name := u "search"; le_action_digest := u "digest";
     le_replay_policy := never; le_status := ledger_completed; le_observation := Some tt |}.

Definition worker : pystr := u "worker-1".
Definition rival : pystr := u "worker-2".

Definition created : store unit unit := exec empty_store (OpCreate run0).
Definition claimed : store unit unit :=
  exec created (OpAcquire run0 worker (at_ 101) (at_ 30) true).
Definition ended : store unit unit :=
  exec claimed (OpSave run0 (finished run0) worker (at_ 110) (Some call0)).

Lemma created_reachable : reachable created.
Proof. apply reach_step; [constructor|done]. Qed.
Lemma claimed_reachable : reachable claimed.
Proof.
  apply reach_step; [apply created_reachable|]. intros r Hr _.
  vm_compute in Hr. by injection Hr as <-.
Qed.
Lemma ended_reachable : reachable ended.
Proof. apply reach_step; [apply claimed_reachable|done]. Qed.

Lemma ended_row :
  dr_status <$> durable_runs ended !! u "run-1" = Some completed
  /\ dr_revision <$> durable_runs ended !! u "run-1" = Some 1
  /\ ar_status <$> agent_runs ended !! u "run-1" = Some (u "completed").
Proof. vm_compute. done. Qed.

Lemma durable_store_invariant_witness :
  reachable ended
  /\ load ended (u "acme") (u "ann") (u "run-1")
     = Ok (sn_update run0 1 completed done_ (at_ 160) (at_ 110) None None None None).
Proof.
  split; [exact ended_reachable|].
  pose proof (proj2 (durable_store_invariant ended ended_reachable) (u "run-1")) as Hl.
  destruct (durable_runs ended !! u "run-1") as [r|] eqn:Er; [|by vm_compute in Er].
  specialize (Hl r eq_refl). vm_compute in Er. injection Er as <-. exact Hl.
Defined.

Definition after : list (@store_op unit unit) :=
  [OpCancel run0 (at_ 120) None false; OpSave run0 run0 worker (at_ 121) None;
   OpRelease run0 worker; OpCreate run0; OpPurge (u "acme") (at_ 2000) 10 [u "run-1"]].

Lemma terminal_runs_frozen_witness :
  durable_runs (exec_all ended (after ++ [OpCreate run0])) !! u "run-1" = None.
Proof.
  assert (exists r, durable_runs ended !! u "run-1" = Some r) as [r Hr] by (vm_compute; eauto).
  pose proof (terminal_runs_frozen ended after [OpCreate run0] (u "run-1") r
                (reachable_wf _ ended_reachable) Hr) as Hf.
  assert (durable_runs (exec_all ended after) !! u "run-1" = None) as Hn by (vm_compute; done).
  rewrite Hn in Hf. exact Hf.
Defined.

Lemma run_ids_single_use_witness :
  exists e, create (exec_all ended after) run0 = Err e.
Proof.
  assert (exists a, agent_runs ended !! u "run-1" = Some a) as [a Ha] by (vm_compute; eauto).
  destruct (run_ids_single_use ended after (u "run-1") a Ha) as [_ Hs].
  exact (proj1 (Hs run0 eq_refl)).
Defined.

Lemma completed_ledger_immutable_witness :
  exists l, tool_ledger ended !! u "call-1" = Some l
  /\ tool_ledger (exec_all ended (take 4 after)) !! u "call-1" = Some l.
Proof.
  assert (exists l, tool_ledger ended !! u "call-1" = Some l /\ le_status (lr_entry l) = ledger_completed
          /\ lr_run_id l = u "run-1") as (l & Hl & Hs & Hi) by (vm_compute; eauto).
  exists l. split; [exact Hl|].
  apply (completed_ledger_immutable ended (take 4 after) (u "call-1") l
           (reachable_wf _ ended_reachable) Hl Hs).
  rewrite Hi. vm_compute. eauto.
Defined.

Definition contest : list (@store_op unit unit) :=
  [OpAcquire run0 rival (at_ 105) (at_ 30) true; OpSave run0 (finished run0) rival (at_ 106) None;
   OpRelease run0 rival; OpCancel run0 (at_ 107) (Some rival) true].

Lemma lease_exclusive_witness :
  exists d1 v, acquire created run0 worker (at_ 101) (at_ 30) true = Ok (d1, v)
  /\ dr_lease_token <$> durable_runs (exec_all d1 contest) !! u "run-1" = Some (Some worker).
Proof.
  assert (acquire created run0 worker (at_ 101) (at_ 30) true = Ok (claimed, run0)) as Ha
    by (vm_compute; reflexivity).
  exists claimed, run0. split; [exact Ha|].
  destruct (lease_exclusive created run0 worker (at_ 101) (at_ 30) true claimed run0 contest
              (reachable_wf _ created_reachable) Ha) as (r & Hr & Ht & Hu & [Hc|Hn]).
  - repeat constructor; intros; try (vm_compute; done); split; done.
  - change (sn_run_id run0) with (u "run-1") in Hc. rewrite Hc. simpl. by rewrite Ht.
  - exfalso. vm_compute in Hn. done.
Defined.

Lemma save_load_witness :
  exists d' v, save claimed run0 (finished run0) worker (at_ 110) (Some call0) = Ok (d', v)
  /\ sn_revision v = 1
  /\ exists err, save d' run0 run0 worker (at_ 111) None = Err err.
Proof.
  assert (exists v, save claimed run0 (finished run0) worker (at_ 110) (Some call0) = Ok (ended, v))
    as [v Hs] by (eexists; vm_compute; reflexivity).
  exists ended, v. split; [exact Hs|].
  destruct (save_load claimed run0 (finished run0) worker (at_ 110) (Some call0) ended v
              (reachable_wf _ claimed_reachable)) as (_ & Hr & _ & _ & H2); [done|exact Hs|].
  split; [exact Hr|]. apply H2.
Defined.

Lemma owner_isolation_witness :
  owner_view (u "acme") (u "bob") (exec claimed (OpSave run0 (finished run0) worker (at_ 110) None))
  = owner_view (u "acme") (u "bob") claimed.
Proof.
  apply owner_isolation; [exact (reachable_wf _ claimed_reachable)|done|].
  intros [_ Hu]. discriminate Hu.
Defined.
End DurableExamples.
