(* ===== verification/AgentRuntime.v ===== *)
(** The agent loop.

    Models [packages/agent/runtime.py]: decide, dispatch one tool through the
    registry, observe, and publish an answer only after validation, within budgets
    of steps, tool calls, repetitions and time.

    The model behind the decisions, the registry, the validator, the clock, the
    event sink and the audit port are the interface [AgentPorts]; the loop is
    written against it and so are the theorems.  A timeout or a cancellation is an
    outcome of the awaited port.  [rw_trace] records the dispatches in order: it is
    the part of the outside world the budgets are about. *)

From Stdlib Require Import ZArith String.
From S2P Require Import Prelude Float64 PyVal Access Redact Json AgentDto SourceMetadata ContextPacker.
From S2P Require Import Registry FinalAnswer DurableStore.
From stdpp Require Import base list gmap numbers.

#[local] Open Scope eff_scope.
#[local] Open Scope Z_scope.
#[local] Arguments fadd : simpl never.
#[local] Arguments fsub : simpl never.
#[local] Arguments fmul : simpl never.

(** * Data *)

Definition MAX_STEPS_REACHED := u "MAX_STEPS_REACHED".
Definition MAX_TOOL_CALLS_REACHED := u "MAX_TOOL_CALLS_REACHED".
Definition AGENT_TIMEOUT := u "AGENT_TIMEOUT".
Definition REPEATED_ACTION_DETECTED := u "REPEATED_ACTION_DETECTED".
Definition AGENT_STEPPER_FAILED := u "AGENT_STEPPER_FAILED".
Definition AGENT_TOOL_FAILED := u "AGENT_TOOL_FAILED".
Definition TOOL_EXECUTION_FAILED := u "TOOL_EXECUTION_FAILED".
Definition FINAL_ANSWER_VALIDATION_FAILED := u "FINAL_ANSWER_VALIDATION_FAILED".

Inductive AgentActionType : Type := TOOL_CALL | FINAL_ANSWER.
#[export] Instance AgentActionType_eq_dec : EqDecision AgentActionType.
Proof. solve_decision. Defined.

Inductive AgentRunStatus : Type := RunCOMPLETED | RunSTOPPED | RunFAILED.
#[export] Instance AgentRunStatus_eq_dec : EqDecision AgentRunStatus.
Proof. solve_decision. Defined.

Inductive AgentTerminationReason : Type :=
| TrFinalAnswer
| TrFinalAnswerValidationFailed
| TrMaxStepsReached
| TrMaxToolCallsReached
| TrAgentTimeout
| TrRepeatedActionDetected
| TrAgentStepperFailed
| TrAgentToolFailed.
#[export] Instance AgentTerminationReason_eq_dec : EqDecision AgentTerminationReason.
Proof. solve_decision. Defined.

Definition termination_value (r : AgentTerminationReason) : pystr :=
  match r with
  | TrFinalAnswer => u "FINAL_ANSWER"
  | TrFinalAnswerValidationFailed => FINAL_ANSWER_VALIDATION_FAILED
  | TrMaxStepsReached => MAX_STEPS_REACHED
  | TrMaxToolCallsReached => MAX_TOOL_CALLS_REACHED
  | TrAgentTimeout => AGENT_TIMEOUT
  | TrRepeatedActionDetected => REPEATED_ACTION_DETECTED
  | TrAgentStepperFailed => AGENT_STEPPER_FAILED
  | TrAgentToolFailed => AGENT_TOOL_FAILED
  end.

Definition run_status_value (s : AgentRunStatus) : pystr :=
  match s with
  | RunCOMPLETED => u "completed" | RunSTOPPED => u "stopped" | RunFAILED => u "failed"
  end.

Record AgentStepDecision : Type := {
  sd_action : AgentActionType;
  sd_tool_name : option pystr;
  sd_arguments : pydict;
  sd_final_answer : option pystr;
  sd_final_citations : list AgentCitationRef
}.

(** [_decision_must_match_action]. *)
Definition valid_decision (d : AgentStepDecision) : bool :=
  match sd_action d with
  | TOOL_CALL =>
      match sd_tool_name d with
      | None => false
      | Some n => negb (bool_decide (strip n = []))
      end
      && bool_decide (sd_final_answer d = None) && bool_decide (sd_final_citations d = [])
  | FINAL_ANSWER =>
      match sd_final_answer d with Some _ => true | None => false end
      && bool_decide (sd_tool_name d = None)
      && match sd_arguments d with [] => true | _ => false end
  end.

Record AgentRuntimeState : Type := {
  st_request_id : pystr;
  st_trace_id : pystr;
  st_tenant_id : pystr;
  st_user_id : pystr;
  st_input_text : pystr;
  st_steps_used : Z;
  st_tool_calls_used : Z;
  st_observations : list AgentObservationSummary
}.

Record AgentRunResult : Type := {
  ars_status : AgentRunStatus;
  ars_termination_reason : AgentTerminationReason;
  ars_steps_used : Z;
  ars_tool_calls_used : Z;
  ars_final_answer : option pystr;
  ars_final_citations : list AgentCitationRef;
  ars_error_code : option pystr;
  ars_request_id : pystr;
  ars_trace_id : pystr;
  ars_tenant_id : pystr;
  ars_user_id : pystr;
  ars_observations : list AgentObservationSummary;
  ars_latency_ms : float;
  ars_metadata : pydict
}.

Inductive tool_event_kind : Type := EvToolCall | EvToolResult.
Inductive tool_event_status : Type := EsStarted | EsSuccess | EsError.

Record AgentToolEvent : Type := {
  te_event : tool_event_kind;
  te_request_id : pystr;
  te_trace_id : pystr;
  te_tool_call_id : pystr;
  te_tool_name : pystr;
  te_status : tool_event_status;
  te_metadata : pydict
}.

(** * Repeated actions *)

Section Canonical.
Context `{PyRepr}.

(** A value that is neither a JSON scalar nor a container is replaced by its type. *)
Fixpoint _canonicalize (value : pyval) : pyval :=
  match value with
  | VDict d => VDict (map (fun kv => (kv.1, _canonicalize kv.2)) d)
  | VList l | VTuple l => VList (map _canonicalize l)
  | VSet _ => VDict [(u "type", VStr (u "set"))]
  | v => v
  end.

(** The text [json.dumps] gives the canonical action; it always has one
    ([canonical_text_total]). *)
Definition canonical_text (tool_name : pystr) (arguments : pydict) : option pystr :=
  json_dumps true (VDict [(u "tool_name", VStr tool_name);
                          (u "arguments", _canonicalize (VDict arguments))]).

Definition _action_hash (tool_name : pystr) (arguments : pydict) : pystr :=
  take 32 (sha256_hex (default [] (canonical_text tool_name arguments))).
End Canonical.

Record RepeatedActionCheck : Type := {
  rk_triggered : bool;
  rk_repeat_count : Z;
  rk_threshold : Z;
  rk_action_hash : pystr;
  rk_metadata : pydict
}.

(** [observe]: the check and the detector's new counts. *)
Definition observe `{PyRepr} (threshold : Z) (counts : list (pystr * Z)) (tool_name : pystr)
    (arguments : pydict) : RepeatedActionCheck * list (pystr * Z) :=
  let action_hash := _action_hash tool_name arguments in
  let repeat_count := default 0 (dict_get action_hash counts) + 1 in
  let triggered := threshold <=? repeat_count in
  ({| rk_triggered := triggered; rk_repeat_count := repeat_count; rk_threshold := threshold;
      rk_action_hash := action_hash;
      rk_metadata :=
        [(u "tool_name", VStr (_safe_tool_name tool_name));
         (u "argument_keys", VList (str_list (_safe_argument_keys (VDict arguments))));
         (u "action_hash", VStr action_hash); (u "repeat_count", VInt repeat_count);
         (u "threshold", VInt threshold); (u "repeated_action_detected", VBool triggered)] |},
   dict_set action_hash repeat_count counts).

(** [restore]: [None] is [ValueError]. *)
Definition restore (counts : list (pystr * Z)) : option (list (pystr * Z)) :=
  if existsb (fun kv => kv.2 <? 1) counts then None else Some counts.

(** * Observations *)

Section Observations.
Context `{NetlocCheck, UnicodeDigits}.

Definition _safe_error_code (output : option pydict) : option pystr :=
  match d ← output; dict_get (u "error_code") d with
  | Some (VStr error_code) =>
      let normalized := strip error_code in
      if _is_safe_observable_name normalized then Some normalized else None
  | _ => None
  end.

Definition _safe_result_status (output : option pydict) : option pystr :=
  match d ← output; dict_get (u "status") d with
  | Some (VStr status) =>
      let normalized := lower (strip status) in
      if bool_decide (normalized ∈ [u "success"; u "error"; u "failure"])
      then Some normalized else None
  | _ => None
  end.

Definition _safe_output_keys (output : option pydict) : list pystr :=
  match output with None => [] | Some d => _safe_result_keys d end.

(** A sequence that is not a string. *)
Definition as_sequence (v : pyval) : option (list pyval) :=
  match v with VList l | VTuple l => Some l | _ => None end.

Definition safe_item (item : pydict) : pydict :=
  omap (fun key =>
          match dict_get key item with
          | Some (VStr s) =>
              if bool_decide (key ∈ [u "document_id"; u "version_id"; u "chunk_id"])
              then Some (key, VStr (take 128 s)) else None
          | Some ((VInt _ | VFloat _) as v) => Some (key, v)
          | _ => None
          end)
    [u "document_id"; u "version_id"; u "chunk_id"; u "page_start"; u "page_end"; u "score"].

Definition safe_results (l : list pyval) : pyval :=
  VList (omap (fun item => match item with VDict d => Some (VDict (safe_item d)) | _ => None end)
           (take 5 l)).

Definition summary_entry_of (result_status error_code : option pystr) (key : pystr) (value : pyval)
  : option pyval :=
  if bool_decide (key = u "results") then safe_results <$> as_sequence value
  else if bool_decide (key = u "status") then VStr <$> result_status
  else if bool_decide (key = u "error_code") then VStr <$> error_code
  else if bool_decide (key = u "result_count")
  then match value with VInt _ => Some value | _ => None end
  else None.

Definition _safe_output_summary (output : option pydict) (result_status error_code : option pystr)
  : pydict :=
  match output with
  | None => []
  | Some d => omap (fun kv => v ← summary_entry_of result_status error_code kv.1 kv.2;
                              Some (kv.1, v)) d
  end.

(** [-?\d{1,30}(?:\.\d{1,30})?]. *)
Definition digit_run (s : pystr) : bool :=
  (1 <=? length s)%nat && (length s <=? 30)%nat
  && forallb (fun c => match char_decimal c with Some _ => true | None => false end) s.
Definition calculator_number (s : pystr) : bool :=
  let unsigned := if startswith (u "-") s then drop 1 s else s in
  match split_on 46 unsigned with
  | [a] => digit_run a
  | [a; b] => digit_run a && digit_run b
  | _ => false
  end.

Definition calculator_summary (output summary : pydict) : pydict :=
  let summary :=
    match dict_get (u "result") output with
    | Some (VStr value) =>
        if calculator_number value then dict_set (u "result") (VStr value) summary else summary
    | _ => summary
    end in
  match dict_get (u "result_type") output with
  | Some (VStr kind) =>
      if bool_decide (kind ∈ [u "integer"; u "decimal"])
      then dict_set (u "result_type") (VStr kind) summary else summary
  | _ => summary
  end.

(** [len(s) == 36] and [str(UUID(s)) == s]: groups of 8, 4, 4, 4 and 12 lower-case
    hexadecimal digits. *)
Definition canonical_uuid (s : pystr) : bool :=
  (length s =? 36)%nat
  && match split_on 45 s with
     | [a; b; c; d; e] =>
         (length a =? 8)%nat && (length b =? 4)%nat && (length c =? 4)%nat && (length d =? 4)%nat
         && (length e =? 12)%nat && forallb hex_char (a ++ b ++ c ++ d ++ e)
     | _ => false
     end.

Definition support_ticket_receipt (output : pydict) : pydict :=
  match dict_get (u "ticket_id") output, dict_get (u "status") output with
  | Some (VStr ticket_id), Some (VStr status) =>
      if canonical_uuid ticket_id
         && bool_decide (status ∈ [u "open"; u "in_progress"; u "resolved"])
      then [(u "ticket_id", VStr ticket_id); (u "status", VStr status)] else []
  | _, _ => []
  end.

Definition citation_of_item (item : pyval) : option AgentCitationRef :=
  match item with
  | VDict d =>
      match dict_get (u "document_id") d, dict_get (u "version_id") d, dict_get (u "chunk_id") d with
      | Some (VStr document_id), Some (VStr version_id), Some (VStr chunk_id) =>
          let source := match dict_get (u "source_display_name") d with
                        | Some (VStr s) => Some (safe_source_display_name (Some s))
                        | _ => None
                        end in
          match make_citation_ref
                  {| cr_document_id := document_id; cr_version_id := version_id;
                     cr_chunk_id := chunk_id; cr_source := source;
                     cr_page_start := dict_get (u "page_start") d ≫= as_int;
                     cr_page_end := dict_get (u "page_end") d ≫= as_int;
                     cr_tool_name := Some rag_search; cr_observation_index := None |} with
          | Ok ref => Some ref
          | Err _ => None
          end
      | _, _, _ => None
      end
  | _ => None
  end.

Definition _citation_refs_from_tool_result (r : ToolExecutionResult) : list AgentCitationRef :=
  if negb (bool_decide (tr_tool_name r = rag_search)) then []
  else if negb (bool_decide (tr_status r = ToolSUCCESS)) then []
  else match tr_output r with
       | None => []
       | Some output =>
           if negb (status_is output (u "success")) then []
           else match dict_get (u "results") output ≫= as_sequence with
                | Some results => omap citation_of_item results
                | None => []
                end
       end.

Definition _summarize_tool_result (r : ToolExecutionResult) : AgentObservationSummary :=
  let output := tr_output r in
  let output_keys := _safe_output_keys output in
  let result_status := _safe_result_status output in
  let error_code := _safe_error_code output in
  let citation_refs := _citation_refs_from_tool_result r in
  let summary := _safe_output_summary output result_status error_code in
  let summary := match output with
                 | Some d => if bool_decide (tr_tool_name r = u "calculator")
                             then calculator_summary d summary else summary
                 | None => summary
                 end in
  let summary := match output with
                 | Some d =>
                     if bool_decide (tr_tool_name r = u "create_support_ticket")
                        && bool_decide (tr_status r = ToolSUCCESS)
                     then support_ticket_receipt d else summary
                 | None => summary
                 end in
  {| ob_tool_name := _safe_tool_name (tr_tool_name r); ob_status := tr_status r;
     ob_output_keys := output_keys; ob_citation_refs := citation_refs;
     ob_error_code := error_code; ob_result_status := result_status;
     ob_latency_ms := tr_latency_ms r;
     ob_metadata :=
       [(u "tool_name", VStr (_safe_tool_name (tr_tool_name r)));
        (u "status", VStr (invocation_value (tr_status r)));
        (u "output_keys", VList (str_list output_keys));
        (u "result_status", opt_str result_status); (u "error_code", opt_str error_code);
        (u "citation_ref_count", VInt (Z.of_nat (length citation_refs)))];
     ob_output_summary := summary; ob_prompt_context := tr_prompt_context r |}.
End Observations.

(** * Metadata of results *)

Definition _base_run_metadata (error_code : option pystr) (steps_used tool_calls_used : Z) : pydict :=
  [(u "steps_used", VInt steps_used); (u "tool_calls_used", VInt tool_calls_used);
   (u "error_code", opt_str error_code)].

Definition _limit_metadata (reason : pystr) (steps_used tool_calls_used : Z)
    (tool_name : option pystr) (arguments : option pydict) (action_hash : option pystr) : pydict :=
  _base_run_metadata (Some reason) steps_used tool_calls_used
  ++ opt_entry (u "tool_name") (fun n => VStr (_safe_tool_name n)) tool_name
  ++ opt_entry (u "argument_keys") (fun a => VList (str_list (_safe_argument_keys (VDict a)))) arguments
  ++ opt_entry (u "action_hash") VStr action_hash.

Definition _tool_failure_metadata (steps_used tool_calls_used : Z) (tool_name : pystr)
    (arguments : pydict) (tool_error_code : option pystr) : pydict :=
  _base_run_metadata (Some AGENT_TOOL_FAILED) steps_used tool_calls_used
  ++ [(u "tool_name", VStr (_safe_tool_name tool_name));
      (u "argument_keys", VList (str_list (_safe_argument_keys (VDict arguments))));
      (u "tool_error_code", opt_str tool_error_code)].

Definition _validation_failure_result (error_code : pystr) (latency_ms : float)
  : FinalAnswerValidationResult :=
  {| vr_status := FvInvalid; vr_answer := None; vr_citations := []; vr_latency_ms := latency_ms;
     vr_error_code := Some error_code; vr_validated_citation_count := 0;
     vr_unsupported_citation_count := 0; vr_failed_tool_reference_count := 0;
     vr_metadata := [(u "validation_status", VStr (u "invalid")); (u "error_code", VStr error_code);
                     (u "validated_citation_count", VInt 0);
                     (u "unsupported_citation_count", VInt 0);
                     (u "failed_tool_reference_count", VInt 0)] |}.

Definition _tool_call_event_id (ctx : RequestContext) (agent_run_id : option pystr)
    (steps_used tool_calls_used : Z) : pystr :=
  let prefix := match agent_run_id with Some ((_ :: _) as i) => i | _ => rc_request_id ctx end in
  prefix ++ u "-step-" ++ str_of_Z (Z.max steps_used 1) ++ u "-tool-"
         ++ str_of_Z (Z.max tool_calls_used 1).

(** * The ports *)

Inductive step_outcome : Type :=
| StepReturns (d : AgentStepDecision)
| StepTimeout
| StepRaises
| StepCancelled.

Inductive execute_outcome : Type :=
| XReturns (r : ToolExecutionResult)
| XTimeout
| XToolError (code : pystr)
| XRaises
| XCancelled.

Inductive validate_outcome : Type :=
| VReturns (r : FinalAnswerValidationResult)
| VTimeout
| VRaises
| VCancelled.

(** An awaited write: done (or failed and logged), out of time, cancelled. *)
Inductive await_outcome : Type := AwDone | AwTimeout | AwCancelled.

Class AgentPorts (W : Type) := {
  port_now : W -> float * W;                       (* [perf_counter] *)
  port_default_now : W -> float * W;               (* the default validator's own clock *)
  port_step : AgentRuntimeState -> float -> W -> step_outcome * W;
  port_execute : call -> float -> W -> execute_outcome * W;
  port_new_dispatch : W -> N * W;                  (* [ToolDispatchState()] *)
  port_revoke : N -> W -> W;
  port_validator : option (RequestContext -> FinalAnswerValidationRequest ->
                           list AgentObservationSummary -> float -> W -> validate_outcome * W);
  port_emit : AgentToolEvent -> W -> await_outcome * W;
  port_audit : AuditEvent -> W -> await_outcome * W
}.

(** * The runtime *)

Record AgentRuntime : Type := {
  rt_config : RunConfig;
  rt_agent_run_id : option pystr;
  rt_has_audit : bool;
  rt_has_sink : bool
}.

Record AgentExecution : Type := {
  x_context : RequestContext;
  x_started : float;
  x_deadline : float;
  x_counts : list (pystr * Z);                    (* the repeated-action detector *)
  x_steps_used : Z;
  x_tool_calls_used : Z;
  x_observations : list AgentObservationSummary;
  x_decision : option AgentStepDecision
}.

Definition set_counts (x : AgentExecution) (c : list (pystr * Z)) : AgentExecution :=
  {| x_context := x_context x; x_started := x_started x; x_deadline := x_deadline x;
     x_counts := c; x_steps_used := x_steps_used x; x_tool_calls_used := x_tool_calls_used x;
     x_observations := x_observations x; x_decision := x_decision x |}.
Definition decided (x : AgentExecution) (d : AgentStepDecision) : AgentExecution :=
  {| x_context := x_context x; x_started := x_started x; x_deadline := x_deadline x;
     x_counts := x_counts x; x_steps_used := x_steps_used x + 1;
     x_tool_calls_used := x_tool_calls_used x; x_observations := x_observations x;
     x_decision := Some d |}.
Definition count_call (x : AgentExecution) : AgentExecution :=
  {| x_context := x_context x; x_started := x_started x; x_deadline := x_deadline x;
     x_counts := x_counts x; x_steps_used := x_steps_used x;
     x_tool_calls_used := x_tool_calls_used x + 1; x_observations := x_observations x;
     x_decision := x_decision x |}.
Definition add_observation (x : AgentExecution) (o : AgentObservationSummary) : AgentExecution :=
  {| x_context := x_context x; x_started := x_started x; x_deadline := x_deadline x;
     x_counts := x_counts x; x_steps_used := x_steps_used x;
     x_tool_calls_used := x_tool_calls_used x; x_observations := x_observations x ++ [o];
     x_decision := x_decision x |}.

Inductive rt_event : Type :=
| RtDispatch (name : pystr) (arguments : pydict) (hash : pystr)
| RtReturned (r : ToolExecutionResult).

(** The outside world, the execution the loop mutates, and the dispatches so far. *)
Record rworld {W : Type} : Type := {
  rw_inner : W;
  rw_exec : AgentExecution;
  rw_trace : list rt_event
}.
Arguments rworld : clear implicits.

Definition with_inner {W} (w : rworld W) (i : W) : rworld W :=
  {| rw_inner := i; rw_exec := rw_exec w; rw_trace := rw_trace w |}.
Definition with_exec {W} (x : AgentExecution) (w : rworld W) : rworld W :=
  {| rw_inner := rw_inner w; rw_exec := x; rw_trace := rw_trace w |}.
Definition traced {W} (e : rt_event) (w : rworld W) : rworld W :=
  {| rw_inner := rw_inner w; rw_exec := rw_exec w; rw_trace := rw_trace w ++ [e] |}.

(** Exceptions that leave the runtime: the task was cancelled, an assertion failed,
    or the journal of a durable run raised. *)
Inductive rt_exn {E : Type} : Type :=
| RtCancelled
| RtAssertion
| RtJournal (e : E).
Arguments rt_exn : clear implicits.

Section Runtime.
Context `{PyRepr, UnicodeDB, UnicodeDigits, NetlocCheck} {W E : Type} `{AgentPorts W}.
Context (rt : AgentRuntime).

Abbreviation act A := (eff (rt_exn E) (rworld W) A).

(** The durable journal around a dispatch; the grant is an address. *)
Record AgentToolJournal : Type := {
  before_dispatch : pystr -> act (option N);
  after_dispatch : pystr -> ToolExecutionResult -> act unit
}.

Definition now : act float := fun w =>
  let '(t, i) := port_now (rw_inner w) in (Ok t, with_inner w i).
Definition default_now : act float := fun w =>
  let '(t, i) := port_default_now (rw_inner w) in (Ok t, with_inner w i).
Definition get_exec : act AgentExecution := fun w => (Ok (rw_exec w), w).
Definition put_exec (x : AgentExecution) : act unit := modify (with_exec x).

(** A best-effort write: only a cancellation of the caller leaves it. *)
Definition settle (o : await_outcome * W) (w : rworld W) : result (rt_exn E) unit * rworld W :=
  match o with
  | (AwCancelled, i) => (Err RtCancelled, with_inner w i)
  | (_, i) => (Ok tt, with_inner w i)
  end.

Definition write_audit (event : result agent_dto_error AuditEvent) : act unit := fun w =>
  if negb (rt_has_audit rt) then (Ok tt, w) else
  match event with
  | Err _ => (Ok tt, w)
  | Ok ev => settle (port_audit ev (rw_inner w)) w
  end.

Definition _record_audit (ctx : RequestContext) (action : pystr) (status : AuditStatus)
    (latency_ms : float) (error_code : option pystr) (metadata : pydict) : act unit :=
  write_audit
    (resource ← make_audit_resource (u "agent_run") (rc_request_id ctx) [];
     make_audit_event (rc_request_id ctx) (rc_trace_id ctx) (auth_tenant_id (rc_auth ctx))
       (auth_user_id (rc_auth ctx)) action resource status latency_ms error_code metadata).

Definition _emit_agent_event (event : AgentToolEvent) : act unit := fun w =>
  if negb (rt_has_sink rt) then (Ok tt, w) else settle (port_emit event (rw_inner w)) w.

Definition _emit_tool_call_event (ctx : RequestContext) (tool_call_id tool_name : pystr) : act unit :=
  _emit_agent_event
    {| te_event := EvToolCall; te_request_id := rc_request_id ctx; te_trace_id := rc_trace_id ctx;
       te_tool_call_id := tool_call_id; te_tool_name := _safe_tool_name tool_name;
       te_status := EsStarted;
       te_metadata := [(u "agent_run_id", opt_str (rt_agent_run_id rt));
                       (u "status", VStr (u "started"));
                       (u "request_id", VStr (rc_request_id ctx));
                       (u "trace_id", VStr (rc_trace_id ctx))] |}.

Definition _emit_tool_result_event (ctx : RequestContext) (tool_call_id tool_name : pystr)
    (success : bool) (error_code : option pystr) (latency_ms : float) : act unit :=
  _emit_agent_event
    {| te_event := EvToolResult; te_request_id := rc_request_id ctx; te_trace_id := rc_trace_id ctx;
       te_tool_call_id := tool_call_id; te_tool_name := _safe_tool_name tool_name;
       te_status := if success then EsSuccess else EsError;
       te_metadata := [(u "agent_run_id", opt_str (rt_agent_run_id rt));
                       (u "status", VStr (if success then u "success" else u "error"));
                       (u "latency_ms", VFloat latency_ms); (u "error_code", opt_str error_code);
                       (u "request_id", VStr (rc_request_id ctx));
                       (u "trace_id", VStr (rc_trace_id ctx))] |}.

(** ** Ending a run *)

Definition _finish (t : float) (status : AgentRunStatus) (reason : AgentTerminationReason)
    (action : pystr) (audit_status : AuditStatus) (metadata : pydict)
    (final_answer : option pystr) (final_citations : list AgentCitationRef)
    (error_code : option pystr) : act AgentRunResult :=
  x <- get_exec;;
  let ctx := x_context x in
  let error_code :=
    match error_code with
    | Some c => Some c
    | None => if bool_decide (reason = TrFinalAnswer) then None else Some (termination_value reason)
    end in
  let latency_ms := _elapsed_ms (fsub t (x_started x)) in
  let result :=
    {| ars_status := status; ars_termination_reason := reason;
       ars_steps_used := x_steps_used x; ars_tool_calls_used := x_tool_calls_used x;
       ars_final_answer := final_answer; ars_final_citations := final_citations;
       ars_error_code := error_code; ars_request_id := rc_request_id ctx;
       ars_trace_id := rc_trace_id ctx; ars_tenant_id := auth_tenant_id (rc_auth ctx);
       ars_user_id := auth_user_id (rc_auth ctx); ars_observations := x_observations x;
       ars_latency_ms := latency_ms; ars_metadata := metadata |} in
  _ <- _record_audit ctx action audit_status latency_ms error_code
         (dict_set (u "termination_reason") (VStr (termination_value reason))
            (dict_set (u "run_status") (VStr (run_status_value status)) metadata));;
  mreturn result.

Definition RUN_ACTION := u "agent.runtime.run".
Definition LIMIT_ACTION := u "agent.runtime.limit".

Definition _stop (t : float) (reason : AgentTerminationReason) (metadata : pydict) : act AgentRunResult :=
  _finish t RunSTOPPED reason LIMIT_ACTION AuditDENIED metadata None [] None.
Definition _fail (t : float) (reason : AgentTerminationReason) (metadata : pydict)
    (error_code : option pystr) : act AgentRunResult :=
  _finish t RunFAILED reason RUN_ACTION AuditFAILURE metadata None [] error_code.

Definition _timeout_result (t : float) (metadata : option pydict) : act AgentRunResult :=
  x <- get_exec;;
  _stop t TrAgentTimeout
    match metadata with
    | Some ((_ :: _) as m) => m
    | _ => _limit_metadata AGENT_TIMEOUT (x_steps_used x) (x_tool_calls_used x) None None None
    end.

(** ** One decision *)

Definition _build_state (x : AgentExecution) : AgentRuntimeState :=
  {| st_request_id := rc_request_id (x_context x); st_trace_id := rc_trace_id (x_context x);
     st_tenant_id := auth_tenant_id (rc_auth (x_context x));
     st_user_id := auth_user_id (rc_auth (x_context x));
     st_input_text := rc_input_text (rt_config rt); st_steps_used := x_steps_used x;
     st_tool_calls_used := x_tool_calls_used x; st_observations := x_observations x |}.

(** [_await_with_timeout] starts nothing when no time is left. *)
Definition await_step (state : AgentRuntimeState) (timeout : float) : act step_outcome := fun w =>
  if fle timeout fzero then (Ok StepTimeout, w) else
  let '(o, i) := port_step state timeout (rw_inner w) in (Ok o, with_inner w i).

Definition _decide : act (option AgentRunResult) :=
  t <- now;;
  x <- get_exec;;
  if rc_max_steps (rt_config rt) <=? x_steps_used x then
    r <- _stop t TrMaxStepsReached
           (_limit_metadata MAX_STEPS_REACHED (x_steps_used x) (x_tool_calls_used x) None None None);;
    mreturn (Some r)
  else if fle (x_deadline x) t then
    r <- _timeout_result t None;; mreturn (Some r)
  else
    o <- await_step (_build_state x) (fsub (x_deadline x) t);;
    let stepper_failed :=
      t2 <- now;;
      r <- _fail t2 TrAgentStepperFailed
             (_base_run_metadata (Some AGENT_STEPPER_FAILED) (x_steps_used x) (x_tool_calls_used x))
             None;;
      mreturn (Some r) in
    match o with
    | StepReturns d =>
        if valid_decision d then _ <- put_exec (decided x d);; mreturn None else stepper_failed
    | StepTimeout => r <- _timeout_result (x_deadline x) None;; mreturn (Some r)
    | StepRaises => stepper_failed
    | StepCancelled => mraise RtCancelled
    end.

(** ** Validating the answer *)

(** The default validator: synchronous but for its audit write. *)
Definition strict_validator (ctx : RequestContext) (request : FinalAnswerValidationRequest)
    (obs : list AgentObservationSummary) : act validate_outcome :=
  t0 <- default_now;;
  t1 <- default_now;;
  t2 <- default_now;;
  match validate request obs t0 t1 t2 with
  | Err _ => mreturn VRaises
  | Ok r =>
      fun w =>
        match validation_audit_event ctx (vq_agent_run_id request) (_audit_status (vr_status r)) r,
              rt_has_audit rt with
        | Ok ev, true =>
            let '(o, i) := port_audit ev (rw_inner w) in
            (Ok (match o with AwDone => VReturns r | AwTimeout => VTimeout | AwCancelled => VCancelled end),
             with_inner w i)
        | _, _ => (Ok (VReturns r), w)
        end
  end.

Definition await_validation (ctx : RequestContext) (request : FinalAnswerValidationRequest)
    (obs : list AgentObservationSummary) (timeout : float) : act validate_outcome :=
  match port_validator with
  | None => strict_validator ctx request obs
  | Some v => fun w => let '(o, i) := v ctx request obs timeout (rw_inner w) in (Ok o, with_inner w i)
  end.

Definition failed_validation (started : float) (code : pystr) : act FinalAnswerValidationResult :=
  x <- get_exec;;
  t <- now;;
  let r := _validation_failure_result code (_elapsed_ms (fsub t started)) in
  _ <- write_audit (validation_audit_event (x_context x) (rt_agent_run_id rt) AuditFAILURE r);;
  mreturn r.

Definition _validate_final_answer (answer : pystr) (citations : list AgentCitationRef)
  : act FinalAnswerValidationResult :=
  started <- now;;
  x <- get_exec;;
  match make_validation_request (rt_agent_run_id rt) answer citations with
  | Err _ => failed_validation started AGENT_FINAL_ANSWER_VALIDATION_FAILED
  | Ok request =>
      t <- now;;
      let remaining_seconds := fsub (x_deadline x) t in
      if fle remaining_seconds fzero then failed_validation started AGENT_TIMEOUT else
      o <- await_validation (x_context x) request (x_observations x) remaining_seconds;;
      match o with
      | VReturns r => mreturn r
      | VTimeout => failed_validation started AGENT_TIMEOUT
      | VRaises => failed_validation started AGENT_FINAL_ANSWER_VALIDATION_FAILED
      | VCancelled => mraise RtCancelled
      end
  end.

Definition validation_metadata (error_code : option pystr) (x : AgentExecution)
    (v : FinalAnswerValidationResult) : pydict :=
  _base_run_metadata error_code (x_steps_used x) (x_tool_calls_used x)
  ++ [(u "final_answer_validation", VDict (vr_metadata v))].

Definition _validate_result : act AgentRunResult :=
  x <- get_exec;;
  match x_decision x with
  | None => mraise RtAssertion
  | Some d =>
      v <- _validate_final_answer (default [] (sd_final_answer d)) (sd_final_citations d);;
      t <- now;;
      if bool_decide (vr_error_code v = Some AGENT_TIMEOUT) then
        _timeout_result t (Some (validation_metadata (Some AGENT_TIMEOUT) x v))
      else if negb (bool_decide (vr_status v = FvInvalid)) then
        _finish t RunCOMPLETED TrFinalAnswer RUN_ACTION AuditSUCCESS (validation_metadata None x v)
          (vr_answer v) (vr_citations v) None
      else
        let code := match vr_error_code v with
                    | Some ((_ :: _) as c) => c
                    | _ => AGENT_FINAL_ANSWER_VALIDATION_FAILED
                    end in
        _fail t TrFinalAnswerValidationFailed (validation_metadata (Some code) x v) (Some code)
  end.

(** ** One tool call *)

Definition event_id (x : AgentExecution) (tool_calls_used : Z) : pystr :=
  _tool_call_event_id (x_context x) (rt_agent_run_id rt) (x_steps_used x) tool_calls_used.

(** The call the registry gets; the receipt is a fresh object. *)
Definition registry_call (x : AgentExecution) (tool_name : pystr) (arguments : pydict)
    (grant : option N) (receipt : N) : call :=
  {| c_name := tool_name; c_arguments := VDict arguments; c_context := x_context x;
     c_agent_run_id := rt_agent_run_id rt; c_approval_grant := grant;
     c_dispatch_state := Some receipt |}.

(** Dispatch under the time that is left; the receipt is revoked however it ends. *)
Definition dispatch (x : AgentExecution) (tool_name : pystr) (arguments : pydict)
    (grant : option N) (hash : pystr) : act execute_outcome :=
  fun w =>
    let '(receipt, i) := port_new_dispatch (rw_inner w) in
    let '(t, i) := port_now i in
    let timeout := fsub (x_deadline x) t in
    if fle timeout fzero then (Ok XTimeout, with_inner w (port_revoke receipt i)) else
    let w := traced (RtDispatch tool_name arguments hash) w in
    let '(o, i) := port_execute (registry_call x tool_name arguments grant receipt) timeout i in
    (Ok o, with_inner w (port_revoke receipt i)).

(** Limits that stop the run before anything is dispatched. *)
Definition stop_before_dispatch (x : AgentExecution) (tool_name : pystr)
    (reason : AgentTerminationReason) (metadata : pydict) : act AgentRunResult :=
  _ <- _emit_tool_result_event (x_context x) (event_id x (x_tool_calls_used x + 1)) tool_name false
         (Some (termination_value reason)) fzero;;
  t <- now;;
  _stop t reason metadata.

Definition tool_failed (x : AgentExecution) (call_id tool_name : pystr) (arguments : pydict)
    (code : pystr) : act (option AgentRunResult) :=
  _ <- _emit_tool_result_event (x_context x) call_id tool_name false (Some code) fzero;;
  t <- now;;
  r <- _fail t TrAgentToolFailed
         (_tool_failure_metadata (x_steps_used x) (x_tool_calls_used x) tool_name arguments (Some code))
         None;;
  mreturn (Some r).

(** After a result: journal, observation, and the end of the run if it failed. *)
Definition absorb_result (journal : option AgentToolJournal) (call_id tool_name : pystr)
    (arguments : pydict) (r : ToolExecutionResult) : act (option AgentRunResult) :=
  _ <- modify (traced (RtReturned r));;
  _ <- match journal with None => mreturn tt | Some j => after_dispatch j call_id r end;;
  x <- get_exec;;
  let observation := _summarize_tool_result r in
  _ <- _emit_tool_result_event (x_context x) call_id (tr_tool_name r)
         (bool_decide (tr_status r = ToolSUCCESS)) (ob_error_code observation) (tr_latency_ms r);;
  _ <- put_exec (add_observation x observation);;
  if bool_decide (tr_status r = ToolFAILURE) then
    t <- now;;
    res <- _fail t TrAgentToolFailed
             (_tool_failure_metadata (x_steps_used x) (x_tool_calls_used x) tool_name arguments
                (_safe_error_code (tr_output r))) None;;
    mreturn (Some res)
  else mreturn None.

(** From the count of the call to its outcome. *)
Definition perform_call (journal : option AgentToolJournal) (tool_name : pystr)
    (arguments : pydict) (t : float) (hash : pystr) : act (option AgentRunResult) :=
  x0 <- get_exec;;
  _ <- put_exec (count_call x0);;
  let x := count_call x0 in
  let call_id := event_id x (x_tool_calls_used x) in
  _ <- now;;                                    (* the time left for the event *)
  _ <- _emit_tool_call_event (x_context x) call_id tool_name;;
  t1 <- now;;
  if fle (x_deadline x) t1 then
    t2 <- now;; r <- _timeout_result t2 None;; mreturn (Some r)
  else
  grant <- match journal with None => mreturn None | Some j => before_dispatch j call_id end;;
  o <- dispatch x tool_name arguments grant hash;;
  match o with
  | XTimeout =>
      _ <- _emit_tool_result_event (x_context x) call_id tool_name false (Some AGENT_TIMEOUT)
             (_elapsed_ms (fsub (x_deadline x) t));;
      r <- _timeout_result (x_deadline x)
             (Some (_limit_metadata AGENT_TIMEOUT (x_steps_used x) (x_tool_calls_used x)
                      (Some tool_name) (Some arguments) (Some hash)));;
      mreturn (Some r)
  | XToolError code => tool_failed x call_id tool_name arguments code
  | XRaises => tool_failed x call_id tool_name arguments TOOL_EXECUTION_FAILED
  | XCancelled => mraise RtCancelled
  | XReturns r => absorb_result journal call_id tool_name arguments r
  end.

Definition _execute_tool (journal : option AgentToolJournal) : act (option AgentRunResult) :=
  x <- get_exec;;
  match d ← x_decision x; name ← sd_tool_name d; Some (name, sd_arguments d) with
  | None => mraise RtAssertion
  | Some (tool_name, arguments) =>
      if rc_max_tool_calls (rt_config rt) <=? x_tool_calls_used x then
        r <- stop_before_dispatch x tool_name TrMaxToolCallsReached
               (_limit_metadata MAX_TOOL_CALLS_REACHED (x_steps_used x) (x_tool_calls_used x)
                  (Some tool_name) (Some arguments) None);;
        mreturn (Some r)
      else
      t <- now;;
      if fle (x_deadline x) t then
        r <- _timeout_result t
               (Some (_limit_metadata AGENT_TIMEOUT (x_steps_used x) (x_tool_calls_used x)
                        (Some tool_name) (Some arguments) None));;
        mreturn (Some r)
      else
      let '(check, counts) :=
        observe (rc_repeated_action_threshold (rt_config rt)) (x_counts x) tool_name arguments in
      _ <- put_exec (set_counts x counts);;
      if rk_triggered check then
        r <- stop_before_dispatch x tool_name TrRepeatedActionDetected
               (_base_run_metadata (Some REPEATED_ACTION_DETECTED) (x_steps_used x)
                  (x_tool_calls_used x) ++ rk_metadata check);;
        mreturn (Some r)
      else perform_call journal tool_name arguments t (rk_action_hash check)
  end.

(** ** The loop *)

Definition _new_execution (ctx : RequestContext) (started : float) : AgentExecution :=
  {| x_context := ctx; x_started := started;
     x_deadline := fadd started (rc_timeout_seconds (rt_config rt)); x_counts := [];
     x_steps_used := 0; x_tool_calls_used := 0; x_observations := []; x_decision := None |}.

(** One turn: a result ends the run. *)
Definition turn : act (option AgentRunResult) :=
  r <- _decide;;
  match r with
  | Some res => mreturn (Some res)
  | None =>
      x <- get_exec;;
      match x_decision x with
      | None => mraise RtAssertion
      | Some d =>
          match sd_action d with
          | FINAL_ANSWER => res <- _validate_result;; mreturn (Some res)
          | TOOL_CALL => _execute_tool None
          end
      end
  end.

(** [while True], with fuel; [Ok None] is fuel exhaustion. *)
Fixpoint run_loop (fuel : nat) : act (option AgentRunResult) :=
  match fuel with
  | O => mreturn None
  | S fuel' =>
      r <- turn;;
      match r with
      | Some res => mreturn (Some res)
      | None => run_loop fuel'
      end
  end.

(** The loop makes at most [max_steps] decisions and one more turn to notice it. *)
Definition run (ctx : RequestContext) : W -> result (rt_exn E) (option AgentRunResult) * rworld W :=
  fun w =>
    let '(t0, i) := port_now w in
    run_loop (S (Z.to_nat (rc_max_steps (rt_config rt))))
      {| rw_inner := i; rw_exec := _new_execution ctx t0; rw_trace := [] |}.
End Runtime.

Create HintDb quiet.

(** * What the loop relies on

    [HandlerCount] counts the tool handlers the ports have started: only a registry
    call starts one, and at most one. *)

Class HandlerCount (W : Type) `{AgentPorts W} := {
  handler_count : W -> nat;
  count_now : forall w, handler_count (port_now w).2 = handler_count w;
  count_default_now : forall w, handler_count (port_default_now w).2 = handler_count w;
  count_step : forall s t w, handler_count (port_step s t w).2 = handler_count w;
  count_execute : forall c t w,
    (handler_count (port_execute c t w).2 <= handler_count w + 1)%nat;
  count_new_dispatch : forall w, handler_count (port_new_dispatch w).2 = handler_count w;
  count_revoke : forall p w, handler_count (port_revoke p w) = handler_count w;
  count_validator : forall v ctx q obs t w, port_validator = Some v ->
    handler_count (v ctx q obs t w).2 = handler_count w;
  count_emit : forall e w, handler_count (port_emit e w).2 = handler_count w;
  count_audit : forall e w, handler_count (port_audit e w).2 = handler_count w
}.

(** Counting nothing is always possible. *)
Definition no_count (W : Type) `{AgentPorts W} : HandlerCount W.
Proof. refine {| handler_count := fun _ => 0%nat |}; intros; lia. Defined.

Section RuntimeFacts.
Context `{PyRepr, UnicodeDB, UnicodeDigits, NetlocCheck} {W E : Type} `{AgentPorts W}.
Context `{!HandlerCount W} (rt : AgentRuntime).
Abbreviation act A := (eff (rt_exn E) (rworld W) A).

Record quiet (w w' : rworld W) : Prop := {
  q_exec : rw_exec w' = rw_exec w;
  q_trace : rw_trace w' = rw_trace w;
  q_count : handler_count (rw_inner w') = handler_count (rw_inner w)
}.
#[export] Instance quiet_po : PreOrder quiet.
Proof. split; [by constructor|]. intros ? ? ? [] []. constructor; congruence. Qed.

(** A computation that only talks to the ports. *)
Definition is_quiet {A} (m : act A) : Prop := forall w r w', m w = (r, w') -> quiet w w'.

Lemma quiet_ret {A} (a : A) : is_quiet (mreturn a).
Proof. intros w r w' [= <- <-]. reflexivity. Qed.
Lemma quiet_raise {A} (e : rt_exn E) : is_quiet (mraise (A := A) e).
Proof. intros w r w' [= <- <-]. reflexivity. Qed.
Lemma quiet_bind {A B} (m : act A) (f : A -> act B) :
  is_quiet m -> (forall a, is_quiet (f a)) -> is_quiet (mthen m f).
Proof.
  intros Hm Hf w r w' Eq. apply mthen_inv in Eq as [(e & Eq & ->)|(a & w1 & E1 & E2)]; [by eapply Hm|].
  transitivity w1; [by eapply Hm|by eapply Hf].
Qed.

Lemma quiet_get : is_quiet get_exec.
Proof. intros w r w' [= <- <-]. reflexivity. Qed.
Lemma rt_quiet_now : is_quiet now.
Proof.
  intros w r w' Eq. unfold now in Eq. pose proof (count_now (rw_inner w)) as Hc.
  destruct (port_now (rw_inner w)) as [t i]. injection Eq as <- <-. by constructor.
Qed.
Lemma quiet_default_now : is_quiet default_now.
Proof.
  intros w r w' Eq. unfold default_now in Eq. pose proof (count_default_now (rw_inner w)) as Hc.
  destruct (port_default_now (rw_inner w)) as [t i]. injection Eq as <- <-. by constructor.
Qed.

Lemma settle_quiet o (w : rworld W) r w' :
  handler_count o.2 = handler_count (rw_inner w) -> settle (E := E) o w = (r, w') -> quiet w w'.
Proof. intros Hc Eq. destruct o as [[] i]; injection Eq as <- <-; by constructor. Qed.

Lemma quiet_audit ev : is_quiet (write_audit rt ev).
Proof.
  intros w r w' Eq. unfold write_audit in Eq. destruct (rt_has_audit rt), ev; simpl in Eq;
    try (injection Eq as <- <-; reflexivity).
  eapply settle_quiet; [|exact Eq]. apply count_audit.
Qed.
Lemma quiet_emit ev : is_quiet (_emit_agent_event rt ev).
Proof.
  intros w r w' Eq. unfold _emit_agent_event in Eq. destruct (rt_has_sink rt); simpl in Eq;
    [|injection Eq as <- <-; reflexivity].
  eapply settle_quiet; [|exact Eq]. apply count_emit.
Qed.
Lemma quiet_await_step s t : is_quiet (await_step s t).
Proof.
  intros w r w' Eq. unfold await_step in Eq. destruct (fle t fzero); [injection Eq as <- <-; reflexivity|].
  pose proof (count_step s t (rw_inner w)) as Hc.
  destruct (port_step s t (rw_inner w)) as [o i]. injection Eq as <- <-. by constructor.
Qed.
#[local] Hint Resolve quiet_ret quiet_raise quiet_get rt_quiet_now quiet_default_now quiet_audit
  quiet_emit quiet_await_step : quiet.

Ltac quiet_tac :=
  repeat match goal with
  | |- is_quiet (mthen _ _) => apply quiet_bind; [|intros ?]
  | |- is_quiet (match ?x with _ => _ end) => destruct x
  | |- is_quiet (if ?x then _ else _) => destruct x
  | |- _ => solve [eauto with quiet]
  end.

(** ** Ends of a run *)

(** A result reports the execution it ends. *)
Definition reports (x : AgentExecution) (res : AgentRunResult) : Prop :=
  ars_steps_used res = x_steps_used x /\ ars_tool_calls_used res = x_tool_calls_used x /\
  ars_observations res = x_observations x /\
  ars_tenant_id res = auth_tenant_id (rc_auth (x_context x)) /\
  ars_user_id res = auth_user_id (rc_auth (x_context x)).

(** An answer is present exactly when the run completed, and then there is no error. *)
Definition consistent (res : AgentRunResult) : Prop :=
  (ars_status res = RunCOMPLETED <-> ars_termination_reason res = TrFinalAnswer) /\
  (ars_status res <> RunCOMPLETED ->
   ars_final_answer res = None /\ ars_final_citations res = [] /\ is_Some (ars_error_code res)) /\
  (ars_status res = RunCOMPLETED -> ars_error_code res = None).

Lemma finish_spec t st reason action ast md fa fc ec w (r : result (rt_exn E) AgentRunResult) w' :
  _finish rt t st reason action ast md fa fc ec w = (r, w') ->
  quiet w w' /\
  forall res, r = Ok res ->
    reports (rw_exec w) res /\ ars_status res = st /\ ars_termination_reason res = reason /\
    ars_final_answer res = fa /\ ars_final_citations res = fc /\
    ars_error_code res = match ec with
                         | Some c => Some c
                         | None => if bool_decide (reason = TrFinalAnswer) then None
                                   else Some (termination_value reason)
                         end.
Proof.
  intros Eq. split.
  { revert w r w' Eq. change (is_quiet (_finish rt t st reason action ast md fa fc ec)).
    unfold _finish, _record_audit. quiet_tac. }
  intros res ->. unfold _finish in Eq.
  apply mthen_inv in Eq as [(e & Eq & ?)|(x & w1 & E1 & Eq)]; [done|]. injection E1 as <- <-.
  apply mthen_inv in Eq as [(e & Eq & ?)|([] & w2 & E2 & Eq)]; [done|].
  injection Eq as <- <-. by split_and!.
Qed.

(** What ends a run without an answer. *)
Definition stops (m : act AgentRunResult) : Prop :=
  forall w r w', m w = (r, w') ->
    quiet w w' /\ forall res, r = Ok res ->
      reports (rw_exec w) res /\ consistent res /\ ars_status res <> RunCOMPLETED.

Lemma finish_stops t st reason action ast md ec :
  st <> RunCOMPLETED -> reason <> TrFinalAnswer ->
  stops (_finish rt t st reason action ast md None [] ec).
Proof.
  intros Hst Hr w r w' Eq. apply finish_spec in Eq as [Hq Hres]. split; [done|].
  intros res ->. destruct (Hres res eq_refl) as (Hrep & Hs & Ht & Ha & Hc & He).
  split; [done|]. split; [|by rewrite Hs]. unfold consistent. rewrite Hs, Ht, Ha, Hc, He.
  split_and!; [tauto| |done]. intros _. split_and!; [done..|]. destruct ec; [by eexists|].
  rewrite bool_decide_false by done. by eexists.
Qed.

Lemma stop_stops t reason md : reason <> TrFinalAnswer -> stops (_stop rt t reason md).
Proof. intros Hr. by apply finish_stops. Qed.
Lemma fail_stops t reason md ec : reason <> TrFinalAnswer -> stops (_fail rt t reason md ec).
Proof. intros Hr. by apply finish_stops. Qed.

(** A quiet prefix does not matter. *)
Lemma stops_bind {A} (m : act A) (f : A -> act AgentRunResult) :
  is_quiet m -> (forall a, stops (f a)) -> stops (mthen m f).
Proof.
  intros Hm Hf w r w' Eq. apply mthen_inv in Eq as [(e & Eq & ->)|(a & w1 & E1 & E2)].
  - apply Hm in Eq. by split.
  - apply Hm in E1. apply Hf in E2 as [Hq Hres]. split; [by transitivity w1|].
    rewrite (q_exec _ _ E1) in Hres. exact Hres.
Qed.

Lemma timeout_stops t md : stops (_timeout_result rt t md).
Proof. apply stops_bind; [eauto with quiet|]. intros x. by apply stop_stops. Qed.

Lemma stop_before_stops x n reason md :
  reason <> TrFinalAnswer -> stops (stop_before_dispatch rt x n reason md).
Proof.
  intros Hr. apply stops_bind; [unfold _emit_tool_result_event; eauto with quiet|].
  intros _. apply stops_bind; [eauto with quiet|]. intros t. by apply stop_stops.
Qed.

(** Ending a turn with such a result. *)
Definition stops_turn (m : act (option AgentRunResult)) : Prop :=
  forall w r w', m w = (r, w') ->
    quiet w w' /\ forall o, r = Ok o ->
      exists res, o = Some res /\ reports (rw_exec w) res /\ consistent res /\
                  ars_status res <> RunCOMPLETED.

Lemma stops_some (m : act AgentRunResult) :
  stops m -> stops_turn (mthen m (fun r => mreturn (Some r))).
Proof.
  intros Hm w r w' Eq. apply mthen_inv in Eq as [(e & Eq & ->)|(res & w1 & E1 & E2)].
  - apply Hm in Eq as [Hq _]. by split.
  - injection E2 as <- <-. apply Hm in E1 as [Hq Hres]. split; [done|].
    intros o [= <-]. exists res. destruct (Hres res eq_refl) as (? & ? & ?). done.
Qed.

Lemma stops_turn_bind {A} (m : act A) f :
  is_quiet m -> (forall a, stops_turn (f a)) -> stops_turn (mthen m f).
Proof.
  intros Hm Hf w r w' Eq. apply mthen_inv in Eq as [(e & Eq & ->)|(a & w1 & E1 & E2)].
  - apply Hm in Eq. by split.
  - apply Hm in E1. apply Hf in E2 as [Hq Hres]. split; [by transitivity w1|].
    rewrite (q_exec _ _ E1) in Hres. exact Hres.
Qed.

Lemma tool_failed_stops x id n a code : stops_turn (tool_failed rt x id n a code).
Proof.
  apply stops_turn_bind; [unfold _emit_tool_result_event; eauto with quiet|]. intros _.
  apply stops_turn_bind; [eauto with quiet|]. intros t. by apply stops_some, fail_stops.
Qed.

(** ** Decisions and validation *)

Definition decide_post (w : rworld W) (r : result (rt_exn E) (option AgentRunResult))
    (w' : rworld W) : Prop :=
  match r with
  | Ok None => exists w1 d, quiet w w1 /\ w' = with_exec (decided (rw_exec w) d) w1 /\
                 x_steps_used (rw_exec w) < rc_max_steps (rt_config rt) /\ valid_decision d = true
  | Ok (Some res) => quiet w w' /\ reports (rw_exec w) res /\ consistent res /\
                     ars_status res <> RunCOMPLETED
  | Err _ => quiet w w'
  end.

Lemma stops_decide_post m w w1 r w' :
  quiet w w1 -> stops_turn m -> m w1 = (r, w') -> decide_post w r w'.
Proof.
  intros Hq Hm Em. apply Hm in Em as [Hq' Hres]. rewrite (q_exec _ _ Hq) in Hres. unfold decide_post.
  destruct r as [o|e]; [|by transitivity w1].
  destruct (Hres o eq_refl) as (res & -> & ? & ? & ?). split; [by transitivity w1|done].
Qed.

Lemma decide_spec w (r : result (rt_exn E) (option AgentRunResult)) w' :
  _decide rt w = (r, w') -> decide_post w r w'.
Proof.
  intros Eq. unfold _decide in Eq.
  apply mthen_inv in Eq as [(e & Eq & ->)|(t & w1 & E1 & Eq)]; [by apply rt_quiet_now in Eq|].
  apply rt_quiet_now in E1.
  apply mthen_inv in Eq as [(e & Eq & ->)|(x & w1' & E2 & Eq)]; [done|]. injection E2 as <- <-.
  rewrite (q_exec _ _ E1) in Eq.
  destruct (Z.leb_spec (rc_max_steps (rt_config rt)) (x_steps_used (rw_exec w))) as [|Hlt];
    [eapply stops_decide_post, Eq; [done|]; by apply stops_some, stop_stops|].
  destruct (fle (x_deadline (rw_exec w)) t);
    [eapply stops_decide_post, Eq; [done|]; by apply stops_some, timeout_stops|].
  apply mthen_inv in Eq as [(e & Eq & ->)|(o & w2 & E2 & Eq)].
  { apply quiet_await_step in Eq. unfold decide_post. by transitivity w1. }
  apply quiet_await_step in E2. assert (quiet w w2) as Hq by (by transitivity w1).
  assert (stops_turn (t2 <- now;;
      r <- _fail rt t2 TrAgentStepperFailed
             (_base_run_metadata (Some AGENT_STEPPER_FAILED) (x_steps_used (rw_exec w))
                (x_tool_calls_used (rw_exec w))) None;;
      mreturn (Some r))) as Hf.
  { apply stops_turn_bind; [eauto with quiet|]. intros t2. by apply stops_some, fail_stops. }
  destruct o as [d| | |].
  - destruct (valid_decision d) eqn:Hv; [|by eapply stops_decide_post].
    injection Eq as <- <-. by exists w2, d.
  - eapply stops_decide_post, Eq; [done|]. by apply stops_some, timeout_stops.
  - by eapply stops_decide_post.
  - by injection Eq as <- <-.
Qed.

(** A validation result that lets an answer out comes from the validator, for the
    answer that was submitted and the observations of this run. *)
Definition validated (x : AgentExecution) (answer : pystr) (citations : list AgentCitationRef)
    (v : FinalAnswerValidationResult) : Prop :=
  vr_status v <> FvInvalid ->
  exists request, make_validation_request (rt_agent_run_id rt) answer citations = Ok request /\
    (port_validator (W := W) = None ->
     exists t0 t1 t2, validate request (x_observations x) t0 t1 t2 = Ok v).

Lemma quiet_await_validation ctx q obs t : is_quiet (await_validation rt ctx q obs t).
Proof.
  unfold await_validation. destruct port_validator as [v|] eqn:Hv.
  - intros w r w' Eq. pose proof (count_validator v ctx q obs t (rw_inner w) Hv) as Hc.
    destruct (v ctx q obs t (rw_inner w)) as [o i]. injection Eq as <- <-. by constructor.
  - unfold strict_validator. quiet_tac. intros w r w' Eq.
    repeat case_match; simplify_eq; try reflexivity; (constructor; [done|done|]);
    match goal with Hp : port_audit ?ev ?i = _ |- _ =>
      pose proof (count_audit ev i) as Hc; by rewrite Hp in Hc end.
Qed.

Lemma quiet_failed_validation t code : is_quiet (failed_validation rt t code).
Proof. unfold failed_validation. quiet_tac. Qed.

Lemma failed_validation_invalid t code w v w' :
  failed_validation (E := E) rt t code w = (Ok v, w') -> vr_status v = FvInvalid.
Proof.
  intros Eq. unfold failed_validation in Eq.
  do 3 (apply mthen_inv in Eq as [(e & Eq & ?)|(? & ? & _ & Eq)]; [done|]).
  by injection Eq as <- <-.
Qed.

Lemma strict_returns ctx q obs w v w' :
  strict_validator (E := E) rt ctx q obs w = (Ok (VReturns v), w') ->
  exists t0 t1 t2, validate q obs t0 t1 t2 = Ok v.
Proof.
  intros Eq. unfold strict_validator in Eq.
  apply mthen_inv in Eq as [(e & Eq & ?)|(t0 & ? & _ & Eq)]; [done|].
  apply mthen_inv in Eq as [(e & Eq & ?)|(t1 & ? & _ & Eq)]; [done|].
  apply mthen_inv in Eq as [(e & Eq & ?)|(t2 & ? & _ & Eq)]; [done|].
  exists t0, t1, t2. destruct (validate q obs t0 t1 t2) as [r|]; [|by injection Eq].
  repeat case_match; by simplify_eq.
Qed.

Lemma validate_answer_spec answer citations w (r : result (rt_exn E) FinalAnswerValidationResult) w' :
  _validate_final_answer rt answer citations w = (r, w') ->
  quiet w w' /\ forall v, r = Ok v -> validated (rw_exec w) answer citations v.
Proof.
  intros Eq. split.
  { revert w r w' Eq. change (is_quiet (_validate_final_answer (E := E) rt answer citations)).
    unfold _validate_final_answer. quiet_tac; apply quiet_await_validation || apply quiet_failed_validation. }
  intros v ->. unfold _validate_final_answer in Eq. intros Hst.
  apply mthen_inv in Eq as [(e & Eq & ?)|(t & w1 & E1 & Eq)]; [done|]. apply rt_quiet_now in E1.
  apply mthen_inv in Eq as [(e & Eq & ?)|(x & w1' & E2 & Eq)]; [done|]. injection E2 as <- <-.
  destruct (make_validation_request _ _ _) as [request|] eqn:Hreq;
    [|by apply failed_validation_invalid in Eq].
  apply mthen_inv in Eq as [(e & Eq & ?)|(t2 & w2 & E2 & Eq)]; [done|].
  destruct (fle _ _); [by apply failed_validation_invalid in Eq|].
  apply mthen_inv in Eq as [(e & Eq & ?)|(o & w3 & E3 & Eq)]; [done|].
  exists request. split; [done|]. intros Hv.
  destruct o as [v'| | |]; [|by apply failed_validation_invalid in Eq..|done].
  injection Eq as <- <-. unfold await_validation in E3. rewrite Hv in E3.
  apply strict_returns in E3. by rewrite (q_exec _ _ E1) in E3.
Qed.

(** What a completed run publishes. *)
Definition publishes (x : AgentExecution) (res : AgentRunResult) : Prop :=
  ars_status res = RunCOMPLETED ->
  exists answer citations v, validated x answer citations v /\ vr_status v <> FvInvalid /\
    ars_final_answer res = vr_answer v /\ ars_final_citations res = vr_citations v.

Lemma validate_result_spec w (r : result (rt_exn E) AgentRunResult) w' :
  _validate_result rt w = (r, w') ->
  quiet w w' /\ forall res, r = Ok res ->
    reports (rw_exec w) res /\ consistent res /\ publishes (rw_exec w) res.
Proof.
  intros Eq. unfold _validate_result in Eq.
  apply mthen_inv in Eq as [(e & Eq & ->)|(x & w1 & E1 & Eq)]; [done|]. injection E1 as <- <-.
  destruct (x_decision _) as [d|]; [|injection Eq as <- <-; by split].
  apply mthen_inv in Eq as [(e & Eq & ->)|(v & w1 & E1 & Eq)].
  { apply validate_answer_spec in Eq as [Hq _]. by split. }
  apply validate_answer_spec in E1 as [Hq1 Hv]. specialize (Hv v eq_refl).
  apply mthen_inv in Eq as [(e & Eq & ->)|(t & w2 & E2 & Eq)].
  { apply rt_quiet_now in Eq. split; [by transitivity w1|done]. }
  apply rt_quiet_now in E2. assert (quiet w w2) as Hq by (by transitivity w1).
  assert (forall m, stops m -> m w2 = (r, w') -> quiet w w' /\ forall res, r = Ok res ->
    reports (rw_exec w) res /\ consistent res /\ publishes (rw_exec w) res) as Hend.
  { intros m Hm Em. apply Hm in Em as [Hq' Hres]. split; [by transitivity w2|].
    rewrite (q_exec _ _ Hq) in Hres. intros res Hr. destruct (Hres res Hr) as (? & ? & ?).
    split_and!; [done..|]. by intros ?. }
  case_bool_decide; [by eapply Hend, Eq; apply timeout_stops|].
  case_bool_decide as Hst; simpl in Eq; [by eapply Hend, Eq; apply fail_stops|].
  apply finish_spec in Eq as [Hq' Hres]. split; [by transitivity w2|].
  rewrite (q_exec _ _ Hq) in Hres. intros res Hr.
  destruct (Hres res Hr) as (Hrep & Hs & Hre & Ha & Hc & He).
  split_and!; [done| |]; [unfold consistent; rewrite Hs, Hre, He; by split_and!|].
  intros _. by exists (default [] (sd_final_answer d)), (sd_final_citations d), v.
Qed.
End RuntimeFacts.

(** * What the ports are asked to keep

    [port_stable P]: every port but the registry call keeps [P]. *)
Record port_stable {W : Type} `{AgentPorts W} (P : W -> Prop) : Prop := {
  ps_now : forall w, P w -> P (port_now w).2;
  ps_default_now : forall w, P w -> P (port_default_now w).2;
  ps_step : forall s t w, P w -> P (port_step s t w).2;
  ps_validator : forall v ctx q obs t w, port_validator = Some v -> P w -> P (v ctx q obs t w).2;
  ps_emit : forall e w, P w -> P (port_emit e w).2;
  ps_audit : forall e w, P w -> P (port_audit e w).2;
  ps_new_dispatch : forall w, P w -> P (port_new_dispatch w).2;
  ps_revoke : forall p w, P w -> P (port_revoke p w)
}.

Create HintDb keeps.

Section Keeps.
Context `{PyRepr, UnicodeDB, UnicodeDigits, NetlocCheck} {W E : Type} `{AgentPorts W}.
Context (rt : AgentRuntime) (P : W -> Prop) (HP : port_stable P).
Abbreviation act A := (eff (rt_exn E) (rworld W) A).

Definition keeps {A} (m : act A) : Prop :=
  forall w r w', m w = (r, w') -> P (rw_inner w) -> P (rw_inner w').

Lemma rt_keeps_ret {A} (a : A) : keeps (mreturn a).
Proof. by intros w r w' [= <- <-]. Qed.
Lemma rt_keeps_raise {A} (e : rt_exn E) : keeps (mraise (A := A) e).
Proof. by intros w r w' [= <- <-]. Qed.
Lemma rt_keeps_bind {A B} (m : act A) (f : A -> act B) :
  keeps m -> (forall a, keeps (f a)) -> keeps (mthen m f).
Proof.
  intros Hm Hf w r w' Eq Hw. apply mthen_inv in Eq as [(e & Eq & ->)|(a & w1 & E1 & E2)]; [by eapply Hm|].
  eapply Hf; [exact E2|]. by eapply Hm.
Qed.
Lemma keeps_get : keeps get_exec.
Proof. by intros w r w' [= <- <-]. Qed.
Lemma keeps_put x : keeps (put_exec x).
Proof. by intros w r w' [= <- <-]. Qed.
Lemma keeps_now : keeps now.
Proof.
  intros w r w' Eq Hw. unfold now in Eq. pose proof (ps_now _ HP _ Hw).
  destruct (port_now (rw_inner w)). by injection Eq as <- <-.
Qed.
Lemma keeps_default_now : keeps default_now.
Proof.
  intros w r w' Eq Hw. unfold default_now in Eq. pose proof (ps_default_now _ HP _ Hw).
  destruct (port_default_now (rw_inner w)). by injection Eq as <- <-.
Qed.
Lemma settle_keeps o w (r : result (rt_exn E) unit) w' : settle o w = (r, w') -> P o.2 -> P (rw_inner w').
Proof. intros Eq Ho. destruct o as [[] i]; by injection Eq as <- <-. Qed.
Lemma keeps_audit ev : keeps (write_audit rt ev).
Proof.
  intros w r w' Eq Hw. unfold write_audit in Eq. destruct (rt_has_audit rt), ev; simpl in Eq;
    try (by injection Eq as <- <-). eapply settle_keeps; [exact Eq|]. by apply ps_audit.
Qed.
Lemma keeps_emit ev : keeps (_emit_agent_event rt ev).
Proof.
  intros w r w' Eq Hw. unfold _emit_agent_event in Eq. destruct (rt_has_sink rt); simpl in Eq;
    [|by injection Eq as <- <-]. eapply settle_keeps; [exact Eq|]. by apply ps_emit.
Qed.
Lemma keeps_await_step s t : keeps (await_step s t).
Proof.
  intros w r w' Eq Hw. unfold await_step in Eq. destruct (fle t fzero); [by injection Eq as <- <-|].
  pose proof (ps_step _ HP s t _ Hw). destruct (port_step s t (rw_inner w)). by injection Eq as <- <-.
Qed.
Lemma keeps_await_validation ctx q obs t : keeps (await_validation rt ctx q obs t).
Proof.
  unfold await_validation. destruct port_validator as [v|] eqn:Hv.
  - intros w r w' Eq Hw. pose proof (ps_validator _ HP v ctx q obs t _ Hv Hw).
    destruct (v ctx q obs t (rw_inner w)). by injection Eq as <- <-.
  - unfold strict_validator. do 3 (apply rt_keeps_bind; [apply keeps_default_now|intros ?]).
    destruct (validate _ _ _ _ _); [|apply rt_keeps_ret]. intros w r w' Eq Hw.
    repeat case_match; simplify_eq; try done; simpl;
    match goal with Hp : port_audit ?e ?i = _ |- _ => pose proof (ps_audit _ HP e i Hw) as Hk;
      by rewrite Hp in Hk end.
Qed.
Hint Resolve rt_keeps_ret rt_keeps_raise keeps_get keeps_put keeps_now keeps_default_now keeps_audit
  keeps_emit keeps_await_step keeps_await_validation : keeps.

Ltac keeps_tac :=
  repeat match goal with
  | |- keeps (mthen _ _) => apply rt_keeps_bind; [|intros ?]
  | |- keeps (match ?x with _ => _ end) => destruct x
  | |- keeps (if ?x then _ else _) => destruct x
  | |- _ => solve [eauto with keeps]
  end.

Lemma keeps_finish t st reason action ast md fa fc ec :
  keeps (_finish rt t st reason action ast md fa fc ec).
Proof. unfold _finish, _record_audit. keeps_tac. Qed.
Hint Resolve keeps_finish : keeps.
Lemma keeps_stop t reason md : keeps (_stop rt t reason md).
Proof. apply keeps_finish. Qed.
Lemma keeps_fail t reason md ec : keeps (_fail rt t reason md ec).
Proof. apply keeps_finish. Qed.
Hint Resolve keeps_stop keeps_fail : keeps.
Lemma keeps_timeout t md : keeps (_timeout_result rt t md).
Proof. unfold _timeout_result. keeps_tac. Qed.
Hint Resolve keeps_timeout : keeps.

Lemma keeps_decide : keeps (_decide rt).
Proof. unfold _decide. keeps_tac. Qed.
Lemma keeps_validate : keeps (_validate_result rt).
Proof. unfold _validate_result, _validate_final_answer, failed_validation. keeps_tac. Qed.
Lemma keeps_emit_result ctx id n ok ec l : keeps (_emit_tool_result_event rt ctx id n ok ec l).
Proof. apply keeps_emit. Qed.
Lemma keeps_emit_call ctx id n : keeps (_emit_tool_call_event rt ctx id n).
Proof. apply keeps_emit. Qed.
Hint Resolve keeps_emit_result keeps_emit_call : keeps.
Lemma keeps_stop_before x n reason md : keeps (stop_before_dispatch rt x n reason md).
Proof. unfold stop_before_dispatch. keeps_tac. Qed.
Lemma keeps_tool_failed x id n a code : keeps (tool_failed rt x id n a code).
Proof. unfold tool_failed. keeps_tac. Qed.
End Keeps.
#[export] Hint Resolve rt_keeps_ret rt_keeps_raise keeps_get keeps_put keeps_now keeps_emit_result
  keeps_emit_call keeps_stop_before keeps_tool_failed keeps_timeout keeps_stop keeps_fail : keeps.

(** * A tool turn under a journal

    The worlds of a turn: [P] before the journal's entry, [Q] after it, [R] after the
    registry call, [T] after the outcome is recorded, [F] where the journal raised. *)
Section JournalRule.
Context `{PyRepr, UnicodeDB, UnicodeDigits, NetlocCheck} {W E : Type} `{AgentPorts W}.
Context (rt : AgentRuntime) (x0 : AgentExecution) (j : AgentToolJournal (W := W) (E := E)).
Context (P Q R T F : W -> Prop).
Context (HP : port_stable P) (HQ : port_stable Q) (HR : port_stable R) (HT : port_stable T).
#[local] Instance uncounted : HandlerCount W := no_count W.

Definition at_call (counts : list (pystr * Z)) (w : rworld W) : Prop :=
  rw_exec w = count_call (set_counts x0 counts).

(** The identifier of the call the turn makes. *)
Definition the_call : pystr := event_id rt (count_call x0) (x_tool_calls_used (count_call x0)).

Context (Hbefore : forall counts w r w',
  P (rw_inner w) -> at_call counts w -> before_dispatch j the_call w = (r, w') ->
  at_call counts w' /\
  match r with Ok _ => Q (rw_inner w') | Err _ => F (rw_inner w') end).
Context (Hexecute : forall d n counts g p t i,
  x_decision x0 = Some d -> sd_tool_name d = Some n -> Q i ->
  R (port_execute (registry_call rt (count_call (set_counts x0 counts)) n (sd_arguments d) g p) t i).2).
Context (Hafter : forall counts res w r w',
  R (rw_inner w) -> at_call counts w -> after_dispatch j the_call res w = (r, w') ->
  at_call counts w' /\
  match r with Ok _ => T (rw_inner w') | Err _ => F (rw_inner w') end).

Definition somewhere (i : W) : Prop := P i \/ Q i \/ R i \/ T i.

(** A result that ends the run in this turn. *)
Definition turn_result (res : AgentRunResult) : Prop :=
  ars_status res <> RunCOMPLETED /\ ars_steps_used res = x_steps_used x0 /\
  (ars_tool_calls_used res = x_tool_calls_used x0 \/
   x_tool_calls_used x0 < rc_max_tool_calls (rt_config rt) /\
   ars_tool_calls_used res = x_tool_calls_used x0 + 1).

Definition journal_post (r : result (rt_exn E) (option AgentRunResult)) (w' : rworld W) : Prop :=
  match r with
  | Ok None => T (rw_inner w')
  | Ok (Some res) => somewhere (rw_inner w') /\ turn_result res
  | Err _ => somewhere (rw_inner w') \/ F (rw_inner w')
  end.

(** Where the turn stands: what its execution spent. *)
Definition spent (w : rworld W) : Prop :=
  x_steps_used (rw_exec w) = x_steps_used x0 /\
  (x_tool_calls_used (rw_exec w) = x_tool_calls_used x0 \/
   x_tool_calls_used x0 < rc_max_tool_calls (rt_config rt) /\
   x_tool_calls_used (rw_exec w) = x_tool_calls_used x0 + 1).

Lemma spent_at_call counts w :
  x_tool_calls_used x0 < rc_max_tool_calls (rt_config rt) -> at_call counts w -> spent w.
Proof. intros Hlt Hx. unfold spent. rewrite Hx. cbn. split; [done|]. by right. Qed.

(** A computation that only ends the run, from a world in one of the four. *)
Lemma ends_turn m w r w' (S : W -> Prop) :
  (forall i, S i -> somewhere i) -> keeps S m -> stops_turn m -> m w = (r, w') ->
  S (rw_inner w) -> spent w -> journal_post r w'.
Proof.
  intros HS Hk Hst Eq Hw [Hs Hc]. pose proof (Hk _ _ _ Eq Hw) as Hw'. apply Hst in Eq as [_ Hres].
  destruct r as [o|e]; [|left; by apply HS].
  destruct (Hres o eq_refl) as (res & -> & (Rs & Rc & _) & _ & Hn). split; [by apply HS|].
  unfold turn_result. rewrite Rs, Rc. done.
Qed.

Lemma in_P i : P i -> somewhere i.
Proof. unfold somewhere. tauto. Qed.
Lemma in_Q i : Q i -> somewhere i.
Proof. unfold somewhere. tauto. Qed.
Lemma in_R i : R i -> somewhere i.
Proof. unfold somewhere. tauto. Qed.
Lemma in_T i : T i -> somewhere i.
Proof. unfold somewhere. tauto. Qed.

Lemma journal_absorb counts n a res w r w' :
  x_tool_calls_used x0 < rc_max_tool_calls (rt_config rt) ->
  absorb_result rt (Some j) the_call n a res w = (r, w') -> at_call counts w -> R (rw_inner w) ->
  journal_post r w'.
Proof.
  intros Hlt Eq Hx0 Hr0. unfold absorb_result in Eq. unfold mthen at 1, modify in Eq.
  assert (R (rw_inner (traced (RtReturned res) w))) as Hr by exact Hr0.
  assert (at_call counts (traced (RtReturned res) w)) as Hx by exact Hx0.
  apply mthen_inv in Eq as [(e & Eq & ->)|([] & w1 & E1 & Eq)].
  { destruct (Hafter counts _ _ _ _ Hr Hx Eq). by right. }
  destruct (Hafter counts _ _ _ _ Hr Hx E1) as [Hx1 Ht].
  unfold mthen at 1, get_exec in Eq.
  apply mthen_inv in Eq as [(e & Eq & ->)|([] & w2 & E2 & Eq)].
  { left. apply in_T. eapply keeps_emit_result; [exact HT|exact Eq|done]. }
  pose proof (keeps_emit_result rt T HT _ _ _ _ _ _ _ _ _ E2 Ht) as Ht2.
  apply quiet_emit in E2. unfold mthen at 1, put_exec, modify in Eq.
  case_bool_decide.
  - eapply (ends_turn _ _ _ _ T in_T); [| |exact Eq|done|].
    + apply rt_keeps_bind; [by apply keeps_now|]. intros t. apply rt_keeps_bind; [by apply keeps_fail|].
      intros. apply rt_keeps_ret.
    + apply stops_turn_bind; [apply rt_quiet_now|]. intros t. by apply stops_some, fail_stops.
    + rewrite Hx1. unfold spent. cbn. split; [done|]. by right.
  - injection Eq as <- <-. done.
Qed.

Lemma journal_perform counts n d t hash w r w' :
  x_tool_calls_used x0 < rc_max_tool_calls (rt_config rt) ->
  x_decision x0 = Some d -> sd_tool_name d = Some n ->
  perform_call rt (Some j) n (sd_arguments d) t hash w = (r, w') ->
  rw_exec w = set_counts x0 counts -> P (rw_inner w) -> journal_post r w'.
Proof.
  intros Hlt Hd Hn Eq Hx Hp. unfold perform_call in Eq.
  unfold mthen at 1, get_exec in Eq. unfold mthen at 1, put_exec, modify in Eq.
  set (w1 := with_exec (count_call (rw_exec w)) w) in Eq.
  assert (at_call counts w1) as Hx1 by (unfold at_call; subst w1; cbn; by rewrite Hx).
  assert (P (rw_inner w1)) as Hp1 by done. rewrite Hx in Eq. clearbody w1.
  change (event_id rt (count_call (set_counts x0 counts)) _) with the_call in Eq.
  apply mthen_inv in Eq as [(e & Eq & ->)|(? & w2 & E2 & Eq)].
  { left. apply in_P. eapply keeps_now; eauto. }
  pose proof (keeps_now P HP _ _ _ E2 Hp1) as Hp2. apply rt_quiet_now in E2.
  apply mthen_inv in Eq as [(e & Eq & ->)|([] & w3 & E3 & Eq)].
  { left. apply in_P. eapply keeps_emit_call; eauto. }
  pose proof (keeps_emit_call rt P HP _ _ _ _ _ _ E3 Hp2) as Hp3. apply quiet_emit in E3.
  apply mthen_inv in Eq as [(e & Eq & ->)|(t1 & w4 & E4 & Eq)].
  { left. apply in_P. eapply keeps_now; eauto. }
  pose proof (keeps_now P HP _ _ _ E4 Hp3) as Hp4. apply rt_quiet_now in E4.
  assert (at_call counts w4) as Hx4
    by (unfold at_call; by rewrite (q_exec _ _ E4), (q_exec _ _ E3), (q_exec _ _ E2)).
  clear E2 E3 E4. destruct (fle _ t1).
  { eapply (ends_turn _ _ _ _ P in_P); [| |exact Eq|done|exact (spent_at_call _ _ Hlt Hx4)].
    - apply rt_keeps_bind; [by apply keeps_now|]. intros. apply rt_keeps_bind; [by apply keeps_timeout|].
      intros. apply rt_keeps_ret.
    - apply stops_turn_bind; [apply rt_quiet_now|]. intros. by apply stops_some, timeout_stops. }
  apply mthen_inv in Eq as [(e & Eq & ->)|(g & w5 & E5 & Eq)].
  { destruct (Hbefore counts _ _ _ Hp4 Hx4 Eq). by right. }
  destruct (Hbefore counts _ _ _ Hp4 Hx4 E5) as [Hx5 Hq5].
  apply mthen_inv in Eq as [(e & Eq & ->)|(o & w6 & E6 & Eq)].
  { unfold dispatch in Eq. repeat case_match; simplify_eq. }
  assert (at_call counts w6 /\ (o = XTimeout /\ Q (rw_inner w6) \/ R (rw_inner w6))) as [Hx6 Ho].
  { unfold dispatch in E6. pose proof (ps_new_dispatch _ HQ _ Hq5) as Ha.
    destruct (port_new_dispatch (rw_inner w5)) as [p i1]. simpl in Ha.
    pose proof (ps_now _ HQ _ Ha) as Hb.
    destruct (port_now i1) as [t2 i2]. simpl in Hb. destruct (fle _ _).
    - injection E6 as <- <-. split; [done|]. left. split; [done|]. exact (ps_revoke _ HQ _ _ Hb).
    - pose proof (Hexecute d n counts g p (fsub (x_deadline (count_call (set_counts x0 counts))) t2)
        i2 Hd Hn Hb) as Hc.
      destruct (port_execute _ _ i2) as [o' i3]. injection E6 as <- <-. split; [done|]. right.
      exact (ps_revoke _ HR _ _ Hc). }
  assert (spent w6) as Hs by exact (spent_at_call _ _ Hlt Hx6).
  assert (forall (S : W -> Prop) m, port_stable S -> (forall i, S i -> somewhere i) -> S (rw_inner w6) ->
    keeps S m -> stops_turn m -> m w6 = (r, w') -> journal_post r w') as Hend
    by (intros S m _ HS Hw Hk Hst Em; by eapply ends_turn).
  destruct o as [res| |code| |].
  - destruct Ho as [[? _]|Ho]; [done|]. by eapply journal_absorb.
  - assert (forall S : W -> Prop, port_stable S -> (forall i, S i -> somewhere i) ->
      S (rw_inner w6) -> journal_post r w') as Hto.
    { intros S HS Hin Hw. eapply (Hend S); [done|done|done| | |exact Eq].
      - apply rt_keeps_bind; [by apply keeps_emit_result|]. intros.
        apply rt_keeps_bind; [by apply keeps_timeout|]. intros. apply rt_keeps_ret.
      - apply stops_turn_bind; [apply quiet_emit|]. intros _. by apply stops_some, timeout_stops. }
    destruct Ho as [[_ Ho]|Ho]; [by apply (Hto Q HQ in_Q)|by apply (Hto R HR in_R)].
  - destruct Ho as [[? _]|Ho]; [done|].
    eapply (Hend R); [done|apply in_R|done|by apply keeps_tool_failed|apply tool_failed_stops|exact Eq].
  - destruct Ho as [[? _]|Ho]; [done|].
    eapply (Hend R); [done|apply in_R|done|by apply keeps_tool_failed|apply tool_failed_stops|exact Eq].
  - injection Eq as <- <-. destruct Ho as [[? _]|Ho]; [done|]. left. by apply in_R.
Qed.

Lemma journal_rule w r w' :
  _execute_tool rt (Some j) w = (r, w') -> rw_exec w = x0 -> P (rw_inner w) -> journal_post r w'.
Proof.
  intros Eq Hx Hp. unfold _execute_tool in Eq. unfold mthen at 1, get_exec in Eq. rewrite Hx in Eq.
  destruct (x_decision x0) as [d|] eqn:Hd in Eq; [|injection Eq as <- <-; left; by apply in_P].
  cbn [mbind option_bind] in Eq. destruct (sd_tool_name d) as [n|] eqn:Hn;
    [|injection Eq as <- <-; left; by apply in_P]. cbn [mbind option_bind] in Eq.
  assert (spent w) as Hs by (unfold spent; rewrite Hx; split; [done|by left]).
  destruct (Z.leb_spec (rc_max_tool_calls (rt_config rt)) (x_tool_calls_used x0)) as [|Hlt].
  { eapply (ends_turn _ _ _ _ P in_P); [| |exact Eq|done|done].
    - apply rt_keeps_bind; [by apply keeps_stop_before|]. intros. apply rt_keeps_ret.
    - by apply stops_some, stop_before_stops. }
  apply mthen_inv in Eq as [(e & Eq & ->)|(t & w1 & E1 & Eq)].
  { left. apply in_P. eapply keeps_now; eauto. }
  pose proof (keeps_now P HP _ _ _ E1 Hp) as Hp1. apply rt_quiet_now in E1.
  pose proof (q_exec _ _ E1) as Hx1. rewrite Hx in Hx1.
  assert (spent w1) as Hs1 by (unfold spent; rewrite Hx1; split; [done|by left]).
  destruct (fle _ t).
  { eapply (ends_turn _ _ _ _ P in_P); [| |exact Eq|done|done].
    - apply rt_keeps_bind; [by apply keeps_timeout|]. intros. apply rt_keeps_ret.
    - by apply stops_some, timeout_stops. }
  destruct (observe _ _ _ _) as [check counts]. unfold mthen at 1, put_exec, modify in Eq.
  set (w2 := with_exec (set_counts x0 counts) w1) in Eq.
  destruct (rk_triggered check).
  { eapply (ends_turn _ w2 _ _ P in_P); [| |exact Eq|done|].
    - apply rt_keeps_bind; [by apply keeps_stop_before|]. intros. apply rt_keeps_ret.
    - by apply stops_some, stop_before_stops.
    - unfold spent. cbn. split; [done|by left]. }
  by eapply (journal_perform counts).
Qed.
End JournalRule.

(** * Budgets *)

Definition dispatch_of (ev : rt_event) : bool :=
  match ev with RtDispatch _ _ _ => true | _ => false end.
Definition dispatch_hash (h : pystr) (ev : rt_event) : bool :=
  match ev with RtDispatch _ _ h' => bool_decide (h' = h) | _ => false end.
Definition dispatches (tr : list rt_event) : Z :=
  Z.of_nat (length (filter (fun ev => dispatch_of ev = true) tr)).
Definition dispatches_of (h : pystr) (tr : list rt_event) : Z :=
  Z.of_nat (length (filter (fun ev => dispatch_hash h ev = true) tr)).
Definition returned (tr : list rt_event) : list ToolExecutionResult :=
  omap (fun ev => match ev with RtReturned r => Some r | _ => None end) tr.

Lemma dispatches_snoc tr ev :
  dispatches (tr ++ [ev]) = dispatches tr + (if dispatch_of ev then 1 else 0).
Proof.
  unfold dispatches. rewrite list.filter_app, length_app, filter_cons, filter_nil.
  destruct (dispatch_of ev); simpl; lia.
Qed.
Lemma dispatches_of_snoc h tr ev :
  dispatches_of h (tr ++ [ev]) = dispatches_of h tr + (if dispatch_hash h ev then 1 else 0).
Proof.
  unfold dispatches_of. rewrite list.filter_app, length_app, filter_cons, filter_nil.
  destruct (dispatch_hash h ev); simpl; lia.
Qed.
Lemma returned_snoc tr ev :
  returned (tr ++ [ev]) = returned tr ++ match ev with RtReturned r => [r] | _ => [] end.
Proof. unfold returned. rewrite omap_app. by destruct ev. Qed.

#[local] Arguments _action_hash : simpl never.

Section Budgets.
Context `{PyRepr, UnicodeDB, UnicodeDigits, NetlocCheck} {W E : Type} `{AgentPorts W}.
Context `{!HandlerCount W} (rt : AgentRuntime).
Abbreviation act A := (eff (rt_exn E) (rworld W) A).
Abbreviation cfg := (rt_config rt).

Definition repeats (x : AgentExecution) (h : pystr) : Z := default 0 (dict_get h (x_counts x)).

(** The invariant of the loop; [base] counts the handlers started before it. *)
Record budget (base : nat) (w : rworld W) : Prop := {
  b_steps : 0 <= x_steps_used (rw_exec w) <= rc_max_steps cfg;
  b_calls : 0 <= x_tool_calls_used (rw_exec w) <= rc_max_tool_calls cfg;
  b_dispatches : dispatches (rw_trace w) <= x_tool_calls_used (rw_exec w);
  b_repeats : forall h, dispatches_of h (rw_trace w) <= repeats (rw_exec w) h /\
                        dispatches_of h (rw_trace w) < rc_repeated_action_threshold cfg;
  b_hashes : Forall (fun ev => match ev with RtDispatch n a h => h = _action_hash n a | _ => True end)
               (rw_trace w);
  b_handlers : Z.of_nat (handler_count (rw_inner w)) <= Z.of_nat base + dispatches (rw_trace w)
}.

Lemma budget_quiet base w w' : quiet w w' -> budget base w -> budget base w'.
Proof. intros [Q1 Q2 Q3] []. constructor; rewrite ?Q1, ?Q2, ?Q3; done. Qed.

(** The call has been counted but not dispatched yet. *)
Record armed (base : nat) (h : pystr) (w : rworld W) : Prop := {
  a_budget : budget base w;
  a_calls : dispatches (rw_trace w) + 1 <= x_tool_calls_used (rw_exec w);
  a_repeats : dispatches_of h (rw_trace w) + 1 <= repeats (rw_exec w) h;
  a_threshold : dispatches_of h (rw_trace w) + 1 < rc_repeated_action_threshold cfg
}.

Lemma armed_quiet base h w w' : quiet w w' -> armed base h w -> armed base h w'.
Proof.
  intros Hq [A1 A2 A3 A4]. pose proof (budget_quiet base w w' Hq A1). destruct Hq as [Q1 Q2 Q3].
  constructor; rewrite ?Q1, ?Q2; done.
Qed.

Lemma armed_dispatch base n a w i :
  armed base (_action_hash n a) w -> (handler_count i <= handler_count (rw_inner w) + 1)%nat ->
  budget base (with_inner (traced (RtDispatch n a (_action_hash n a)) w) i).
Proof.
  intros [[B1 B2 B3 B4 B5 B6] A2 A3 A4] Hi. constructor; simpl; try done.
  - rewrite dispatches_snoc. simpl. lia.
  - intros h. rewrite dispatches_of_snoc. cbn [dispatch_hash]. destruct (B4 h).
    case_bool_decide; [subst h; lia|lia].
  - apply Forall_app. split; [done|]. constructor; [reflexivity|constructor].
  - rewrite dispatches_snoc. simpl. lia.
Qed.

(** The observations are the summaries of what the registry returned. *)
Definition settled (w : rworld W) : Prop :=
  x_observations (rw_exec w) = _summarize_tool_result <$> returned (rw_trace w).

Lemma settled_quiet w w' : quiet w w' -> settled w -> settled w'.
Proof. intros [Q1 Q2 _]. unfold settled. by rewrite Q1, Q2. Qed.

(** What a tool turn guarantees. *)
Definition turn_post (base : nat) (w : rworld W) (r : result (rt_exn E) (option AgentRunResult))
    (w' : rworld W) : Prop :=
  budget base w' /\
  forall o, r = Ok o ->
    settled w' /\ x_steps_used (rw_exec w') = x_steps_used (rw_exec w) /\
    match o with
    | Some res => reports (rw_exec w') res /\ consistent res /\ ars_status res <> RunCOMPLETED
    | None => True
    end.

Lemma stops_turn_post base m w w1 r w' :
  stops_turn m -> m w1 = (r, w') -> budget base w1 -> settled w1 ->
  x_steps_used (rw_exec w1) = x_steps_used (rw_exec w) -> turn_post base w r w'.
Proof.
  intros Hm Em Hb Hs Hx. apply Hm in Em as [Hq Hres]. split; [by eapply budget_quiet|].
  intros o ->. destruct (Hres o eq_refl) as (res & -> & Hr). rewrite (q_exec _ _ Hq).
  split_and!; [by eapply settled_quiet|done|..]; apply Hr.
Qed.

Definition journal_quiet (j : option (AgentToolJournal (W := W) (E := E))) : Prop :=
  match j with
  | None => True
  | Some j => forall id, is_quiet (before_dispatch j id) /\ forall r, is_quiet (after_dispatch j id r)
  end.

Lemma quiet_err_post base w0 w1 (e : rt_exn E) w2 :
  quiet w1 w2 -> budget base w1 -> turn_post base w0 (Err e) w2.
Proof. intros Hq Hb. split; [by eapply budget_quiet|done]. Qed.

(** Recording what was returned, then the observation, settles the run again. *)
Lemma budget_returned base res w : budget base w -> budget base (traced (RtReturned res) w).
Proof.
  intros []. constructor; simpl; rewrite ?dispatches_snoc, ?Z.add_0_r; try done.
  - intros h. by rewrite dispatches_of_snoc, Z.add_0_r.
  - apply Forall_app. split; [done|]. constructor; [exact I|constructor].
Qed.

Lemma budget_observed base o w :
  budget base w -> budget base (with_exec (add_observation (rw_exec w) o) w).
Proof. intros []. by constructor. Qed.

Lemma settled_observed res w w1 :
  settled w -> quiet (traced (RtReturned res) w) w1 ->
  settled (with_exec (add_observation (rw_exec w1) (_summarize_tool_result res)) w1).
Proof.
  intros Hs [Q1 Q2 _]. unfold settled in *. simpl. rewrite Q1, Q2. simpl.
  by rewrite returned_snoc, fmap_app, Hs.
Qed.

Lemma absorb_post base j id n a res w0 w r w' :
  journal_quiet j -> absorb_result rt j id n a res w = (r, w') ->
  budget base w -> settled w -> x_steps_used (rw_exec w) = x_steps_used (rw_exec w0) ->
  turn_post base w0 r w'.
Proof.
  intros Hj Eq Hb Hs Hx. unfold absorb_result in Eq. unfold mthen at 1, modify in Eq.
  pose proof (budget_returned base res w Hb) as Hb1.
  assert (is_quiet (match j with None => mreturn tt | Some j => after_dispatch j id res end)) as Hqj
    by (destruct j as [j|]; [apply Hj|eauto with quiet]; apply quiet_ret).
  apply mthen_inv in Eq as [(e & Eq & ->)|([] & w1 & E1 & Eq)]; [eapply quiet_err_post; [by eapply Hqj|done]|].
  apply Hqj in E1.
  apply mthen_inv in Eq as [(e & Eq & ->)|(x & w1' & E2 & Eq)]; [done|]. injection E2 as <- <-.
  apply mthen_inv in Eq as [(e & Eq & ->)|([] & w2 & E2 & Eq)].
  { apply quiet_emit in Eq. eapply quiet_err_post; [|exact Hb1]. by transitivity w1. }
  apply quiet_emit in E2. assert (quiet (traced (RtReturned res) w) w2) as Hq by (by transitivity w1).
  unfold mthen at 1, put_exec, modify in Eq.
  rewrite <- (q_exec _ _ E2) in Eq.
  pose proof (settled_observed res w w2 Hs Hq) as Hs3.
  pose proof (budget_observed base (_summarize_tool_result res) w2 (budget_quiet _ _ _ Hq Hb1)) as Hb3.
  set (w3 := with_exec _ w2) in Eq, Hs3, Hb3.
  assert (x_steps_used (rw_exec w3) = x_steps_used (rw_exec w0)) as Hx3.
  { subst w3. simpl. rewrite (q_exec _ _ Hq). exact Hx. }
  case_bool_decide.
  - eapply stops_turn_post, Hx3; [|exact Eq|done|done].
    apply stops_turn_bind; [apply rt_quiet_now|]. intros t. by apply stops_some, fail_stops.
  - injection Eq as <- <-. split; [done|]. by intros o [= <-].
Qed.

Lemma dispatch_spec base x n a g w o w' :
  armed base (_action_hash n a) w ->
  dispatch (E := E) rt x n a g (_action_hash n a) w = (Ok o, w') ->
  budget base w' /\ rw_exec w' = rw_exec w /\ returned (rw_trace w') = returned (rw_trace w).
Proof.
  intros Ha Eq. unfold dispatch in Eq.
  pose proof (count_new_dispatch (rw_inner w)) as H1'.
  destruct (port_new_dispatch (rw_inner w)) as [p i1]. simpl in H1'.
  pose proof (count_now i1) as H2'. destruct (port_now i1) as [t i2]. simpl in H2'.
  destruct (fle _ _).
  - injection Eq as <- <-. pose proof (count_revoke p i2). split; [|done].
    eapply budget_quiet; [|apply Ha]. constructor; try done. simpl. lia.
  - pose proof (count_execute (registry_call rt x n a g p) (fsub (x_deadline x) t) i2) as H3'.
    destruct (port_execute _ _ i2) as [o' i3]. injection Eq as <- <-. simpl in H3'.
    pose proof (count_revoke p i3) as H4'. split.
    + apply armed_dispatch; [done|]. lia.
    + simpl. by rewrite returned_snoc, app_nil_r.
Qed.

(** From the journal's entry on. *)
Lemma dispatched_post base j id n a t x w0 w1 w r w' :
  journal_quiet j -> quiet w1 w -> armed base (_action_hash n a) w1 -> settled w1 ->
  x_steps_used (rw_exec w1) = x_steps_used (rw_exec w0) ->
  (grant <- match j with None => mreturn None | Some j => before_dispatch j id end;;
   o <- dispatch rt x n a grant (_action_hash n a);;
   match o with
   | XTimeout =>
      _ <- _emit_tool_result_event rt (x_context x) id n false (Some AGENT_TIMEOUT)
             (_elapsed_ms (fsub (x_deadline x) t));;
      r <- _timeout_result rt (x_deadline x)
             (Some (_limit_metadata AGENT_TIMEOUT (x_steps_used x) (x_tool_calls_used x)
                      (Some n) (Some a) (Some (_action_hash n a))));;
      mreturn (Some r)
   | XToolError code => tool_failed rt x id n a code
   | XRaises => tool_failed rt x id n a TOOL_EXECUTION_FAILED
   | XCancelled => mraise RtCancelled
   | XReturns r => absorb_result rt j id n a r
   end) w = (r, w') -> turn_post base w0 r w'.
Proof.
  intros Hj Hq Ha Hs Hx Eq.
  assert (is_quiet (match j with None => mreturn None | Some j => before_dispatch j id end)) as Hqj
    by (destruct j as [j|]; [apply Hj|apply quiet_ret]).
  apply mthen_inv in Eq as [(e & Eq & ->)|(g & w2 & E2 & Eq)].
  { apply Hqj in Eq. eapply quiet_err_post, Ha. by transitivity w. }
  apply Hqj in E2. assert (quiet w1 w2) as Hq2 by (by transitivity w).
  pose proof (armed_quiet base _ _ _ Hq2 Ha) as Ha2.
  apply mthen_inv in Eq as [(e & Eq & ->)|(o & w3 & E3 & Eq)].
  { unfold dispatch in Eq. repeat case_match; simplify_eq. }
  apply (dispatch_spec base) in E3 as (Hb3 & Hx3 & Hr3); [|done].
  assert (settled w3) as Hs3.
  { apply (settled_quiet _ _ Hq2) in Hs. unfold settled in *. by rewrite Hx3, Hr3. }
  assert (x_steps_used (rw_exec w3) = x_steps_used (rw_exec w0)) as Hst
    by (by rewrite Hx3, (q_exec _ _ Hq2)).
  destruct o as [res| |code| |].
  - by eapply absorb_post.
  - eapply stops_turn_post, Hst; [|exact Eq|done|done].
    apply stops_turn_bind; [apply quiet_emit|]. intros _. by apply stops_some, timeout_stops.
  - eapply stops_turn_post, Hst; [|exact Eq|done|done]. apply tool_failed_stops.
  - eapply stops_turn_post, Hst; [|exact Eq|done|done]. apply tool_failed_stops.
  - injection Eq as <- <-. by split.
Qed.

Lemma perform_post base j n a t w0 w r w' :
  journal_quiet j -> perform_call rt j n a t (_action_hash n a) w = (r, w') ->
  armed base (_action_hash n a) (with_exec (count_call (rw_exec w)) w) -> settled w ->
  x_steps_used (rw_exec w) = x_steps_used (rw_exec w0) ->
  turn_post base w0 r w'.
Proof.
  intros Hj Eq Ha Hs Hx. unfold perform_call in Eq.
  unfold mthen at 1, get_exec in Eq. unfold mthen at 1, put_exec, modify in Eq.
  set (w1 := with_exec (count_call (rw_exec w)) w) in *.
  assert (settled w1) as Hs1 by exact Hs.
  assert (forall w2, quiet w1 w2 -> budget base w2 /\ settled w2 /\
            x_steps_used (rw_exec w2) = x_steps_used (rw_exec w0)) as Hq1.
  { intros w2 Hq. split; [eapply budget_quiet, Ha; done|]. split; [by eapply settled_quiet|].
    by rewrite (q_exec _ _ Hq). }
  apply mthen_inv in Eq as [(e & Eq & ->)|(? & w2 & E2 & Eq)].
  { apply rt_quiet_now in Eq. by eapply quiet_err_post, Ha. }
  apply rt_quiet_now in E2.
  apply mthen_inv in Eq as [(e & Eq & ->)|([] & w3 & E3 & Eq)].
  { apply quiet_emit in Eq. eapply quiet_err_post, Ha. by transitivity w2. }
  apply quiet_emit in E3.
  apply mthen_inv in Eq as [(e & Eq & ->)|(t1 & w4 & E4 & Eq)].
  { apply rt_quiet_now in Eq. eapply quiet_err_post, Ha. transitivity w3; [by transitivity w2|done]. }
  apply rt_quiet_now in E4.
  assert (quiet w1 w4) as Hq4 by (transitivity w3; [by transitivity w2|done]).
  destruct (fle _ t1).
  { destruct (Hq1 w4 Hq4) as (? & ? & ?). eapply stops_turn_post, H6; [|exact Eq|done|done].
    apply stops_turn_bind; [apply rt_quiet_now|]. intros t2. by apply stops_some, timeout_stops. }
  clear E2 E3 E4 w2 w3.
  eapply dispatched_post; eauto.
Qed.

(** The count of the chosen action goes up by one. *)
Lemma observe_spec th x n a check counts :
  observe th (x_counts x) n a = (check, counts) ->
  rk_action_hash check = _action_hash n a /\
  (rk_triggered check = false -> repeats x (_action_hash n a) + 1 < th) /\
  repeats (set_counts x counts) (_action_hash n a) = repeats x (_action_hash n a) + 1 /\
  (forall h, h <> _action_hash n a -> repeats (set_counts x counts) h = repeats x h).
Proof.
  unfold observe. intros [= <- <-]. cbn [rk_action_hash rk_triggered]. unfold repeats.
  cbn [set_counts x_counts]. split_and!; [done| |by rewrite dict_get_set|].
  - intros Ht. by apply Z.leb_gt in Ht.
  - intros h Hne. by rewrite dict_get_set_ne.
Qed.

Lemma execute_tool_post base j w r w' :
  journal_quiet j -> _execute_tool rt j w = (r, w') -> budget base w -> settled w ->
  turn_post base w r w'.
Proof.
  intros Hj Eq Hb Hs. unfold _execute_tool in Eq. unfold mthen at 1, get_exec in Eq.
  destruct (d ← x_decision (rw_exec w); name ← sd_tool_name d; Some (name, sd_arguments d))
    as [[n a]|]; [|injection Eq as <- <-; by split].
  destruct (Z.leb_spec (rc_max_tool_calls cfg) (x_tool_calls_used (rw_exec w))) as [|Hlt].
  { eapply stops_turn_post; [|exact Eq|done..]. by apply stops_some, stop_before_stops. }
  apply mthen_inv in Eq as [(e & Eq & ->)|(t & w1 & E1 & Eq)].
  { apply rt_quiet_now in Eq. by eapply quiet_err_post. }
  apply rt_quiet_now in E1. pose proof (budget_quiet _ _ _ E1 Hb) as Hb1.
  pose proof (settled_quiet _ _ E1 Hs) as Hs1. pose proof (q_exec _ _ E1) as Hx1.
  rewrite <- Hx1 in Eq, Hlt. assert (x_steps_used (rw_exec w1) = x_steps_used (rw_exec w)) as Hst
    by (by rewrite Hx1).
  destruct (fle _ t).
  { eapply stops_turn_post, Hst; [|exact Eq|done|done]. by apply stops_some, timeout_stops. }
  destruct (observe _ _ _ _) as [check counts] eqn:Ho.
  apply observe_spec in Ho as (Hh & Htr & Hrep & Hother).
  unfold mthen at 1, put_exec, modify in Eq.
  set (w2 := with_exec (set_counts (rw_exec w1) counts) w1) in Eq.
  assert (budget base w2) as Hb2.
  { destruct Hb1 as [B1 B2 B3 B4 B5 B6]. constructor; try done. intros h. destruct (B4 h) as [C1 C2].
    split; [|done]. subst w2. cbn [with_exec rw_exec rw_trace].
    destruct (decide (h = _action_hash n a)) as [->|Hne]; [rewrite Hrep; lia|by rewrite Hother]. }
  destruct (rk_triggered check) eqn:Htrig.
  { eapply stops_turn_post; [|exact Eq|done|done|exact Hst].
    by apply stops_some, stop_before_stops. }
  rewrite Hh in Eq. eapply perform_post; [done|exact Eq| |done|exact Hst].
  destruct Hb2 as [B1 B2 B3 B4 B5 B6]. specialize (Htr eq_refl).
  pose proof (b_repeats _ _ Hb1 (_action_hash n a)) as [C1 _].
  constructor; subst w2; cbn [with_exec rw_exec rw_trace rw_inner] in *.
  - constructor; try done; cbn [with_exec rw_exec rw_trace rw_inner count_call set_counts
      x_tool_calls_used x_steps_used] in *; lia.
  - cbn [count_call set_counts x_tool_calls_used] in *. lia.
  - unfold repeats in *. cbn [count_call x_counts] in *. lia.
  - lia.
Qed.

(** A whole turn. *)
Definition loop_post (base : nat) (w : rworld W) (r : result (rt_exn E) (option AgentRunResult))
    (w' : rworld W) : Prop :=
  budget base w' /\
  forall o, r = Ok o ->
    settled w' /\
    match o with
    | Some res => reports (rw_exec w') res /\ consistent res /\ publishes rt (rw_exec w') res
    | None => x_steps_used (rw_exec w') = x_steps_used (rw_exec w) + 1 /\
              x_steps_used (rw_exec w) < rc_max_steps cfg
    end.

Lemma publishes_stopped x res : ars_status res <> RunCOMPLETED -> publishes (W := W) rt x res.
Proof. by intros Hn ?. Qed.

Lemma turn_spec base w r w' :
  turn rt w = (r, w') -> budget base w -> settled w -> loop_post base w r w'.
Proof.
  intros Eq Hb Hs. unfold turn in Eq.
  apply mthen_inv in Eq as [(e & Eq & ->)|(o & w1 & E1 & Eq)].
  { apply decide_spec in Eq. split; [by eapply budget_quiet|done]. }
  apply decide_spec in E1. destruct o as [res|].
  { injection Eq as <- <-. destruct E1 as (Hq & Hr & Hc & Hn). split; [by eapply budget_quiet|].
    intros o [= <-]. split; [by eapply settled_quiet|]. rewrite (q_exec _ _ Hq).
    split_and!; [done..|by apply publishes_stopped]. }
  destruct E1 as (w2 & d & Hq & -> & Hlt & _).
  assert (budget base (with_exec (decided (rw_exec w) d) w2)) as Hb1.
  { destruct Hb, Hq as [Q1 Q2 Q3]. constructor; simpl; rewrite ?Q1, ?Q2, ?Q3; try done; lia. }
  assert (settled (with_exec (decided (rw_exec w) d) w2)) as Hs1.
  { unfold settled in *. simpl. by rewrite (q_trace _ _ Hq). }
  set (w3 := with_exec _ w2) in *. unfold mthen at 1, get_exec in Eq. simpl in Eq.
  destruct (sd_action d).
  - pose proof (execute_tool_post base None w3 r w' I Eq Hb1 Hs1) as [Hb2 Hr]. split; [done|].
    intros o ->. destruct (Hr o eq_refl) as (Hs2 & Hst & Ho). split; [done|].
    destruct o as [res|];
      [destruct Ho as (? & ? & ?); split_and!; [done..|by apply publishes_stopped]|]. by rewrite Hst.
  - apply mthen_inv in Eq as [(e & Eq & ->)|(res & w4 & E4 & Eq)].
    { apply validate_result_spec in Eq as [Hq4 _]. split; [by eapply budget_quiet|done]. }
    injection Eq as <- <-. apply validate_result_spec in E4 as [Hq4 Hres].
    split; [by eapply budget_quiet|]. intros o [= <-]. split; [by eapply settled_quiet|].
    destruct (Hres res eq_refl) as (? & ? & ?). rewrite (q_exec _ _ Hq4). by split_and!.
Qed.

Lemma run_loop_spec base fuel w (r : result (rt_exn E) (option AgentRunResult)) w' :
  run_loop rt fuel w = (r, w') -> budget base w -> settled w ->
  rc_max_steps cfg - x_steps_used (rw_exec w) < Z.of_nat fuel ->
  budget base w' /\
  forall o, r = Ok o ->
    settled w' /\ exists res, o = Some res /\ reports (rw_exec w') res /\ consistent res /\
      publishes rt (rw_exec w') res.
Proof.
  revert w. induction fuel as [|fuel IH]; intros w Eq Hb Hs Hf.
  { pose proof (b_steps _ _ Hb). lia. }
  simpl in Eq. apply mthen_inv in Eq as [(e & Eq & ->)|(o & w1 & E1 & Eq)].
  { apply (turn_spec base) in Eq as [Hb1 _]; [|done..]. by split. }
  apply (turn_spec base) in E1 as [Hb1 Hr]; [|done..]. destruct (Hr o eq_refl) as [Hs1 Ho].
  destruct o as [res|].
  - injection Eq as <- <-. split; [done|]. intros o [= <-]. split; [done|]. by exists res.
  - destruct Ho as [Hst Hlt]. apply IH in Eq; [done..|]. rewrite Hst. lia.
Qed.
End Budgets.

(** ** The canonical text of an action always exists *)
Section CanonicalTotal.
Context `{PyRepr}.

Lemma mapM_total {A B} (f : A -> option B) l : Forall (fun x => is_Some (f x)) l -> is_Some (mapM f l).
Proof. intros Hl. apply mapM_is_Some_2. exact Hl. Qed.

Lemma canonical_total v : is_Some (json_dumps true (_canonicalize v)).
Proof.
  induction v as [| | | x | |l IH|l IH|l IH|d IH] using pyval_nested_ind;
    cbn [_canonicalize json_dumps]; try by eexists.
  - by destruct b; eexists.
  - by destruct x as [[]|[]| |]; eexists.
  - destruct (mapM_total (json_dumps true) (map _canonicalize l)) as [p ->]; [|by eexists].
    apply Forall_map. exact IH.
  - destruct (mapM_total (json_dumps true) (map _canonicalize l)) as [p ->]; [|by eexists].
    apply Forall_map. exact IH.
  - destruct (mapM_total (fun kv => w ← json_dumps true kv.2; Some (kv.1, w))
      (map (fun kv => (kv.1, _canonicalize kv.2)) d)) as [p ->]; [|by eexists].
    apply Forall_map. eapply list.Forall_impl; [exact IH|]. intros kv [t Ht]. simpl.
    rewrite Ht. by eexists.
Qed.

Lemma canonical_text_total name arguments : is_Some (canonical_text name arguments).
Proof.
  unfold canonical_text. destruct (canonical_total (VDict arguments)) as [t Ht].
  revert Ht. generalize (_canonicalize (VDict arguments)). intros v Ht.
  cbn [json_dumps]. simpl. rewrite Ht. by eexists.
Qed.
End CanonicalTotal.

(** * Theorems *)
Section RunTheorems.
Context `{PyRepr, UnicodeDB, UnicodeDigits, NetlocCheck} {W E : Type} `{AgentPorts W}.
Context (rt : AgentRuntime).

Lemma run_post (HC : HandlerCount W) ctx w (r : result (rt_exn E) (option AgentRunResult)) w' :
  valid_run_config (rt_config rt) = true -> run rt ctx w = (r, w') ->
  budget rt (handler_count w) w' /\
  forall o, r = Ok o ->
    settled w' /\ exists res, o = Some res /\ reports (rw_exec w') res /\ consistent res /\
      publishes (W := W) rt (rw_exec w') res.
Proof.
  intros Hv Eq. unfold run in Eq. pose proof (count_now w) as Hc.
  destruct (port_now w) as [t0 i]. simpl in Hc.
  unfold valid_run_config in Hv. bool_inv.
  eapply run_loop_spec; [exact Eq| |done|cbn [rw_exec _new_execution x_steps_used]; lia].
  constructor; cbn [rw_exec rw_trace rw_inner _new_execution x_steps_used x_tool_calls_used]; try lia;
    [done| |constructor|unfold dispatches; simpl; lia].
  intros h. unfold repeats, dispatches_of. simpl. lia.
Qed.

(** An agent run ends: with a validated configuration the loop returns a result
    or raises, within [max_steps] decisions and one more turn, whatever the model,
    the tools, the validator and the clock do. *)
Theorem run_terminates ctx w :
  valid_run_config (rt_config rt) = true ->
  (run (E := E) rt ctx w).1 <> Ok None.
Proof.
  intros Hv Eq. destruct (run rt ctx w) as [r w'] eqn:Er. simpl in Eq. subst r.
  apply (run_post (no_count W)) in Er as [_ Hr]; [|done].
  destruct (Hr None eq_refl) as (_ & res & Hn & _). done.
Qed.

(** A run stays within its budgets however it ends: it asks the registry for at
    most [max_tool_calls] calls, and for the same tool with the same arguments fewer
    times than the repetition threshold; a result reports no more steps than
    [max_steps], no more tool calls than allowed and at least as many as were
    dispatched. *)
Theorem run_within_budgets ctx w r w' :
  valid_run_config (rt_config rt) = true ->
  run (E := E) rt ctx w = (r, w') ->
  dispatches (rw_trace w') <= rc_max_tool_calls (rt_config rt) /\
  (forall name arguments,
     dispatches_of (_action_hash name arguments) (rw_trace w')
     < rc_repeated_action_threshold (rt_config rt)) /\
  (forall name arguments h, RtDispatch name arguments h ∈ rw_trace w' ->
     h = _action_hash name arguments) /\
  forall res, r = Ok (Some res) ->
    0 <= ars_steps_used res <= rc_max_steps (rt_config rt) /\
    dispatches (rw_trace w') <= ars_tool_calls_used res <= rc_max_tool_calls (rt_config rt).
Proof.
  intros Hv Eq. apply (run_post (no_count W)) in Eq as [[B1 B2 B3 B4 B5 B6] Hr]; [|done].
  split_and!; [lia|intros n a; apply (B4 (_action_hash n a))| |].
  - intros n a h Hin. rewrite list.Forall_forall in B5. exact (B5 _ Hin).
  - intros res ->. destruct (Hr _ eq_refl) as (_ & res' & [= <-] & (Hs & Ht & _) & _).
    rewrite Hs, Ht. lia.
Qed.

(** The outcome of a run is consistent: it is completed exactly when it ended
    with a final answer, and then has no error code; otherwise it carries an error
    code and neither an answer nor citations. *)
Theorem run_outcome_consistent ctx w res w' :
  valid_run_config (rt_config rt) = true ->
  run (E := E) rt ctx w = (Ok (Some res), w') -> consistent res.
Proof.
  intros Hv Eq. apply (run_post (no_count W)) in Eq as [_ Hr]; [|done].
  by destruct (Hr _ eq_refl) as (_ & res' & [= <-] & _ & Hc & _).
Qed.

(** Where a citation comes from: an item of the result list of a search that the
    registry returned as successful in this run. *)
Definition found_by_search (tr : list rt_event) (c : AgentCitationRef) : Prop :=
  exists r output results item ref,
    RtReturned r ∈ tr /\ tr_tool_name r = rag_search /\ tr_status r = ToolSUCCESS /\
    tr_output r = Some output /\
    dict_get (u "results") output ≫= as_sequence = Some results /\ item ∈ results /\
    citation_of_item item = Some ref /\ evidence_key ref = evidence_key c.

Lemma citation_refs_source r ref :
  ref ∈ _citation_refs_from_tool_result r ->
  tr_tool_name r = rag_search /\ tr_status r = ToolSUCCESS /\
  exists output results item, tr_output r = Some output /\
    dict_get (u "results") output ≫= as_sequence = Some results /\ item ∈ results /\
    citation_of_item item = Some ref.
Proof.
  unfold _citation_refs_from_tool_result. intros Hin.
  case_bool_decide as Hn; cbn [negb] in Hin; [|by apply list.not_elem_of_nil in Hin].
  case_bool_decide as Hs; cbn [negb] in Hin; [|by apply list.not_elem_of_nil in Hin].
  destruct (tr_output r) as [output|]; [|by apply list.not_elem_of_nil in Hin].
  destruct (status_is _ _); cbn [negb] in Hin; [|by apply list.not_elem_of_nil in Hin].
  destruct (dict_get _ output ≫= as_sequence) as [results|] eqn:Hr; [|by apply list.not_elem_of_nil in Hin].
  apply list_elem_of_omap in Hin as (item & Hi & Hc). split_and!; [done..|].
  by exists output, results, item.
Qed.

(** C32: A completed run under the default validator only cites what it found: each
    citation of the answer has the document, version, chunk, source and pages of an
    item that a [rag_search] call of this very run returned, and the answer is the
    validator's and not blank. *)
Theorem completed_run_cites_findings ctx w res w' :
  valid_run_config (rt_config rt) = true -> port_validator (W := W) = None ->
  run (E := E) rt ctx w = (Ok (Some res), w') -> ars_status res = RunCOMPLETED ->
  Forall (found_by_search (rw_trace w')) (ars_final_citations res) /\
  exists answer, ars_final_answer res = Some answer /\ strip answer <> [].
Proof.
  intros Hv Hp Eq Hst. apply (run_post (no_count W)) in Eq as [_ Hr]; [|done].
  destruct (Hr _ eq_refl) as (Hset & res' & [= <-] & _ & _ & Hpub).
  destruct (Hpub Hst) as (answer & citations & v & Hval & Hvs & Ha & Hc).
  destruct (Hval Hvs) as (request & _ & Hvd). destruct (Hvd Hp) as (t0 & t1 & t2 & Hvl).
  rewrite Ha, Hc. clear Hval Hvd. unfold validate in Hvl.
  destruct (_validate _ _ _) as [v'|] eqn:Ev; [|by apply make_validation_result_id in Hvl as ->].
  injection Hvl as ->. apply validate_cases in Ev as [[(Hn & _ & Hall) ->]|(_ & Hi & _)]; [|done].
  simpl. split; [|by eexists].
  eapply list.Forall_impl; [exact Hall|]. intros c [Hs _].
  apply supported_grounded in Hs as (i & o & ref & Ho & _ & _ & _ & _ & _ & Hin & Hk).
  rewrite Hset in Ho. apply list_lookup_fmap_Some in Ho as (r & -> & Hret).
  apply list_elem_of_lookup_2 in Hret. unfold returned in Hret.
  apply list_elem_of_omap in Hret as ([|r'] & Hev & [= ->]).
  apply citation_refs_source in Hin as (? & ? & output & results & item & ? & ? & ? & ?).
  by exists r, output, results, item, ref.
Qed.

(** Through any ports that start handlers only in registry calls and at most one
    in each, a run starts at most [max_tool_calls] tool handlers. *)
Theorem run_bounds_handlers (HC : HandlerCount W) ctx w r w' :
  valid_run_config (rt_config rt) = true ->
  run (E := E) rt ctx w = (r, w') ->
  Z.of_nat (handler_count (rw_inner w')) <=
  Z.of_nat (handler_count w) + rc_max_tool_calls (rt_config rt).
Proof. intros Hv Eq. apply (run_post HC) in Eq as [[] _]; [|done]. lia. Qed.
End RunTheorems.

(** * The registry behind the ports

    A scripted environment around the registry of [Registry]: the clock readings,
    the model's decisions and the environment of each registry call, in order; a
    call flagged as late is one the runtime stops waiting for. *)

Record agent_script {L : Type} : Type := {
  as_world : world L;
  as_clock : list float;
  as_steps : list step_outcome;
  as_envs : list (call_env * bool);
  as_next : N
}.
Arguments agent_script : clear implicits.

Section RegistryPorts.
Context `{PyRepr, UnicodeDB} {L : Type} `{ToolRateLimiter L}.
Abbreviation script := (agent_script L).

Definition with_world (s : script) (w : world L) : script :=
  {| as_world := w; as_clock := as_clock s; as_steps := as_steps s; as_envs := as_envs s;
     as_next := as_next s |}.

Definition script_now (s : script) : float * script :=
  match as_clock s with
  | [] => (fzero, s)
  | t :: l => (t, {| as_world := as_world s; as_clock := l; as_steps := as_steps s;
                     as_envs := as_envs s; as_next := as_next s |})
  end.

Definition script_step (s : script) : step_outcome * script :=
  match as_steps s with
  | [] => (StepRaises, s)
  | o :: l => (o, {| as_world := as_world s; as_clock := as_clock s; as_steps := l;
                     as_envs := as_envs s; as_next := as_next s |})
  end.

Definition outcome_of_call (late : bool) (r : result tool_exn ToolExecutionResult)
  : execute_outcome :=
  if late then XTimeout else
  match r with
  | Ok res => XReturns res
  | Err (ToolError t) => XToolError (te_code t)
  | Err Cancelled => XCancelled
  | Err OtherException => XRaises
  end.

Definition script_execute (c : call) (s : script) : execute_outcome * script :=
  match as_envs s with
  | [] => (XTimeout, s)
  | (e, late) :: l =>
      let '(r, w) := execute c e (as_world s) in
      (outcome_of_call late r,
       {| as_world := w; as_clock := as_clock s; as_steps := as_steps s; as_envs := l;
          as_next := as_next s |})
  end.

Definition script_dispatch (s : script) : N * script :=
  (as_next s,
   {| as_world := with_dispatches (as_world s)
        (<[as_next s := {| registry_entered := false; handler_started := false; revoked := false |}]>
           (w_dispatches (as_world s)));
      as_clock := as_clock s; as_steps := as_steps s; as_envs := as_envs s;
      as_next := N.succ (as_next s) |}).

#[export] Instance registry_ports : AgentPorts script := {|
  port_now := script_now;
  port_default_now := script_now;
  port_step := fun _ _ => script_step;
  port_execute := fun c _ => script_execute c;
  port_new_dispatch := script_dispatch;
  port_revoke := fun p s =>
    with_world s (with_dispatches (as_world s) (alter revoke p (w_dispatches (as_world s))));
  port_validator := None;
  port_emit := fun _ s => (AwDone, s);
  port_audit := fun e s => (AwDone, with_world s (logged (as_world s) (EvAudit e)))
|}.

(** The registry starts at most one handler per call, and nothing else starts any. *)
#[export] Instance registry_handler_count : HandlerCount script.
Proof.
  refine {| handler_count := fun s => length (handlers (as_world s)) |}; try done.
  - intros s. unfold port_now, registry_ports, script_now. by destruct (as_clock s).
  - intros s. unfold port_default_now, registry_ports, script_now. by destruct (as_clock s).
  - intros st t s. unfold port_step, registry_ports, script_step. by destruct (as_steps s).
  - intros c t s. unfold port_execute, registry_ports, script_execute.
    destruct (as_envs s) as [|[e late] l]; [simpl; lia|].
    destruct (execute c e (as_world s)) as [r w] eqn:Eq.
    apply Registry.execute_outcome in Eq as (_ & _ & _ & _ & [Hh|(p & Hh & _)]); simpl; rewrite Hh; [lia|].
    rewrite length_app. simpl. lia.
  - intros e s. simpl. rewrite handlers_logged. by rewrite app_nil_r.
Defined.
End RegistryPorts.

(** * Witnesses *)
Module RuntimeExamples.
Import RegistryExamples.

Definition search_tool : ToolDefinition :=
  {| td_name := rag_search; td_description := u "search";
     td_input_schema := open_schema [u "query"];
     td_output_schema := open_schema [u "status"; u "results"]; td_permission := u "document:read";
     td_timeout_seconds := fofZ 5; td_rate_limit := {| max_calls := 10; window_seconds := fofZ 60 |};
     td_prompt_projection := None; td_durable_replay_policy := replay_read_only;
     td_requires_approval := false; td_implementation_version := u "1" |}.

Definition hit : pyval :=
  VDict [(u "document_id", VStr (u "doc-1")); (u "version_id", VStr (u "v1"));
         (u "chunk_id", VStr (u "c1")); (u "source_display_name", VStr (u "Report"))].

Definition env : call_env :=
  {| ce_started := fofZ 1; ce_ended := fofZ 2; ce_consume_now := fofZ 2;
     ce_limiter_now := fofZ 2; ce_revoked := false; ce_dispatch_now := fofZ 2;
     ce_handler := fun _ => HReturns (RawMapping [(u "status", VStr (u "success"));
                                                  (u "results", VList [hit])]);
     ce_recorder := IoOk; ce_audit := IoOk |}.

Definition cited : AgentCitationRef :=
  {| cr_document_id := u "doc-1"; cr_version_id := u "v1"; cr_chunk_id := u "c1";
     cr_source := Some (u "Report"); cr_page_start := None; cr_page_end := None;
     cr_tool_name := None; cr_observation_index := Some 0%Z |}.

(** Search once, then answer with the citation. *)
Definition script0 : agent_script (gmap ToolRateLimitKey (list float)) :=
  {| as_world := {| w_definitions := [(rag_search, search_tool)]; w_recorder := false;
                    w_limiter := ∅; w_grants := ∅; w_dispatches := ∅; w_log := [] |};
     as_clock := replicate 30 (fofZ 1);
     as_steps := [StepReturns {| sd_action := TOOL_CALL; sd_tool_name := Some rag_search;
                                 sd_arguments := [(u "query", VStr (u "q"))];
                                 sd_final_answer := None; sd_final_citations := [] |};
                  StepReturns {| sd_action := FINAL_ANSWER; sd_tool_name := None;
                                 sd_arguments := []; sd_final_answer := Some (u "It is so.");
                                 sd_final_citations := [cited] |}];
     as_envs := [(env, false)]; as_next := 1%N |}.

Definition rt0 : AgentRuntime :=
  {| rt_config := {| rc_max_steps := 3; rc_max_tool_calls := 2; rc_timeout_seconds := fofZ 30;
                     rc_repeated_action_threshold := 2; rc_input_text := u "question" |};
     rt_agent_run_id := Some (u "run-1"); rt_has_audit := true; rt_has_sink := true |}.

#[export] Instance repr : PyRepr := Examples.repr0.
#[export] Instance udb : UnicodeDB := RedactExamples.ascii_only.
#[export] Instance digits : UnicodeDigits := FinalExamples.no_digits.
#[export] Instance netloc : NetlocCheck := SourceExamples.any_netloc.
#[export] Instance lim : ToolRateLimiter (gmap ToolRateLimitKey (list float)) :=
  InMemoryToolRateLimiter.limiter.

Definition outcome := run (E := unit) rt0 RegistryExamples.ctx script0.

Definition status_of (r : result (rt_exn unit) (option AgentRunResult)) : option AgentRunStatus :=
  match r with Ok (Some res) => Some (ars_status res) | _ => None end.

Example answers : status_of outcome.1 = Some RunCOMPLETED /\ dispatches (rw_trace outcome.2) = 1.
Proof. vm_compute. split; reflexivity. Qed.
End RuntimeExamples.

Import RuntimeExamples.

Lemma run_terminates_witness : outcome.1 <> Ok None.
Proof. apply run_terminates. vm_compute. reflexivity. Defined.

Lemma run_within_budgets_witness : dispatches (rw_trace outcome.2) <= 2.
Proof.
  destruct (run_within_budgets (E := unit) rt0 RegistryExamples.ctx script0 outcome.1 outcome.2)
    as [Hd _]; [vm_compute; reflexivity|apply surjective_pairing|exact Hd].
Defined.

Lemma outcome_completed : exists res, outcome.1 = Ok (Some res) /\ ars_status res = RunCOMPLETED.
Proof.
  destruct outcome.1 as [[res|]|] eqn:E.
  - exists res. split; [reflexivity|]. pose proof (proj1 answers) as Ha. rewrite E in Ha.
    injection Ha as Ha. exact Ha.
  - pose proof (proj1 answers) as Ha. rewrite E in Ha. discriminate Ha.
  - pose proof (proj1 answers) as Ha. rewrite E in Ha. discriminate Ha.
Qed.

Lemma run_outcome_consistent_witness :
  exists res, outcome.1 = Ok (Some res) /\ ars_error_code res = None.
Proof.
  destruct outcome_completed as (res & E & Hs). exists res. split; [exact E|].
  destruct (run_outcome_consistent (E := unit) rt0 RegistryExamples.ctx script0 res outcome.2)
    as (_ & _ & Hc); [vm_compute; reflexivity| |exact (Hc Hs)].
  rewrite <- E. apply surjective_pairing.
Defined.

Lemma completed_run_cites_findings_witness :
  exists res, outcome.1 = Ok (Some res) /\
    Forall (found_by_search (rw_trace outcome.2)) (ars_final_citations res).
Proof.
  destruct outcome_completed as (res & E & Hs). exists res. split; [exact E|].
  apply (completed_run_cites_findings (E := unit) rt0 RegistryExamples.ctx script0 res outcome.2);
    [vm_compute; reflexivity|reflexivity| |exact Hs].
  rewrite <- E. apply surjective_pairing.
Defined.

Lemma run_bounds_handlers_witness :
  Z.of_nat (length (handlers (as_world (rw_inner outcome.2)))) <= 2.
Proof.
  exact (run_bounds_handlers (E := unit) rt0 registry_handler_count RegistryExamples.ctx script0
    outcome.1 outcome.2 eq_refl (surjective_pairing _)).
Defined.
