(* ===== verification/DurableDto.v ===== *)
(** Data of durable runs.

    Models [packages/agent/durable/dto.py] beyond the snapshot columns that
    [DurableStore] reads: the payload of a snapshot and what its JSON form keeps,
    the start, resume and cancel commands with their validators, idempotent run
    ids and command fingerprints, digests of decisions and tool definitions, the
    response built from a snapshot, and the refusal of credential-shaped
    arguments. *)

From Stdlib Require Import ZArith String.
From S2P Require Import Prelude Float64 PyVal Access Redact Json AgentDto.
From S2P Require Import FinalAnswer DurableStore AgentRuntime.
From stdpp Require Import base list gmap numbers.

#[local] Open Scope Z_scope.
#[local] Arguments fadd : simpl never.
#[local] Arguments fsub : simpl never.

(** * Errors *)

(** What leaves a coroutine of the service: a [DomainError] with its code, the
    exceptions of asyncio, or another Python exception. *)
Inductive durable_exn : Type :=
| ExDomain (code : pystr)
| ExTimeout
| ExCancelled
| ExAssertion
| ExValue
| ExOther.

Definition store_error_code (e : durable_error) : option pystr :=
  match e with
  | ValueError | AssertionError => None
  | DURABLE_SNAPSHOT_TOO_LARGE => Some (u "DURABLE_SNAPSHOT_TOO_LARGE")
  | DURABLE_STORAGE_UNAVAILABLE => Some (u "DURABLE_STORAGE_UNAVAILABLE")
  | DURABLE_START_PROTOCOL_INVALID => Some (u "DURABLE_START_PROTOCOL_INVALID")
  | DURABLE_START_KEY_COLLISION => Some (u "DURABLE_START_KEY_COLLISION")
  | DURABLE_RUN_EXPIRED => Some (u "DURABLE_RUN_EXPIRED")
  | DURABLE_RUN_NOT_FOUND => Some (u "DURABLE_RUN_NOT_FOUND")
  | DURABLE_SCHEMA_UNSUPPORTED => Some (u "DURABLE_SCHEMA_UNSUPPORTED")
  | DURABLE_SNAPSHOT_INVALID => Some (u "DURABLE_SNAPSHOT_INVALID")
  | DURABLE_RESUME_CONFLICT => Some (u "DURABLE_RESUME_CONFLICT")
  | DURABLE_CLOCK_REGRESSION => Some (u "DURABLE_CLOCK_REGRESSION")
  | DURABLE_LEASE_LOST => Some (u "DURABLE_LEASE_LOST")
  | DURABLE_LEDGER_IMMUTABLE => Some (u "DURABLE_LEDGER_IMMUTABLE")
  | DURABLE_LEDGER_MISSING => Some (u "DURABLE_LEDGER_MISSING")
  | DURABLE_GRAPH_CHECKPOINT_MISSING => Some (u "DURABLE_GRAPH_CHECKPOINT_MISSING")
  | DURABLE_STORAGE_BIND_UNSUPPORTED => Some (u "DURABLE_STORAGE_BIND_UNSUPPORTED")
  | DURABLE_STORAGE_LOGGING_UNSAFE => Some (u "DURABLE_STORAGE_LOGGING_UNSAFE")
  end.

Definition store_exn (e : durable_error) : durable_exn :=
  match e with
  | ValueError => ExValue
  | AssertionError => ExAssertion
  | _ => match store_error_code e with Some c => ExDomain c | None => ExOther end
  end.

(** * The payload of a snapshot *)

Inductive DurableBackend : Type := native | langgraph.
#[export] Instance DurableBackend_eq_dec : EqDecision DurableBackend.
Proof. solve_decision. Defined.

(** [sn_result] of a snapshot is the part of its result the store reads;
    [sb_result] is the whole of it. *)
Record SnapshotBody : Type := {
  sb_backend : DurableBackend;
  sb_observations : list AgentObservationSummary;
  sb_evidence_fingerprints : list (pystr * pystr);
  sb_decision : option AgentStepDecision;
  sb_approval_tools : list pystr;
  sb_approved_action_digest : option pystr;
  sb_approved_definition_digest : option pystr;
  sb_pending_call_id : option pystr;
  sb_decision_inflight : bool;
  sb_result : option AgentRunResult
}.

Abbreviation run_snapshot := (DurableSnapshot SnapshotBody).
Abbreviation run_store := (store SnapshotBody AgentObservationSummary).
Abbreviation ledger_entry := (ToolLedgerEntry AgentObservationSummary).

(** [model_dump(mode="json")] on a value: tuples and sets become lists. *)
Fixpoint json_mode (v : pyval) : pyval :=
  match v with
  | VDict d => VDict (map (fun kv => (kv.1, json_mode kv.2)) d)
  | VList l | VTuple l | VSet l => VList (map json_mode l)
  | v => v
  end.
Definition json_mode_dict (d : pydict) : pydict := map (fun kv => (kv.1, json_mode kv.2)) d.

(** [prompt_context] is excluded from serialization. *)
Definition strip_observation (o : AgentObservationSummary) : AgentObservationSummary :=
  {| ob_tool_name := ob_tool_name o; ob_status := ob_status o; ob_output_keys := ob_output_keys o;
     ob_citation_refs := ob_citation_refs o; ob_error_code := ob_error_code o;
     ob_result_status := ob_result_status o; ob_latency_ms := ob_latency_ms o;
     ob_metadata := json_mode_dict (ob_metadata o);
     ob_output_summary := json_mode_dict (ob_output_summary o); ob_prompt_context := [] |}.

Definition strip_decision (d : AgentStepDecision) : AgentStepDecision :=
  {| sd_action := sd_action d; sd_tool_name := sd_tool_name d;
     sd_arguments := json_mode_dict (sd_arguments d); sd_final_answer := sd_final_answer d;
     sd_final_citations := sd_final_citations d |}.

Definition strip_result (r : AgentRunResult) : AgentRunResult :=
  {| ars_status := ars_status r; ars_termination_reason := ars_termination_reason r;
     ars_steps_used := ars_steps_used r; ars_tool_calls_used := ars_tool_calls_used r;
     ars_final_answer := ars_final_answer r; ars_final_citations := ars_final_citations r;
     ars_error_code := ars_error_code r; ars_request_id := ars_request_id r;
     ars_trace_id := ars_trace_id r; ars_tenant_id := ars_tenant_id r;
     ars_user_id := ars_user_id r; ars_observations := strip_observation <$> ars_observations r;
     ars_latency_ms := ars_latency_ms r; ars_metadata := json_mode_dict (ars_metadata r) |}.

Definition strip_payload (b : SnapshotBody) : SnapshotBody :=
  {| sb_backend := sb_backend b; sb_observations := strip_observation <$> sb_observations b;
     sb_evidence_fingerprints := sb_evidence_fingerprints b;
     sb_decision := strip_decision <$> sb_decision b; sb_approval_tools := sb_approval_tools b;
     sb_approved_action_digest := sb_approved_action_digest b;
     sb_approved_definition_digest := sb_approved_definition_digest b;
     sb_pending_call_id := sb_pending_call_id b; sb_decision_inflight := sb_decision_inflight b;
     sb_result := strip_result <$> sb_result b |}.

(** The validators of the payload's fields. *)
Definition payload_valid (b : SnapshotBody) : bool :=
  (Z.of_nat (length (sb_observations b)) <=? 20)
  && forallb (fun o => fle fzero (ob_latency_ms o)) (sb_observations b)
  && match sb_decision b with Some d => valid_decision d | None => true end
  && match sb_result b with
     | Some r => (0 <=? ars_steps_used r) && (0 <=? ars_tool_calls_used r)
                 && fle fzero (ars_latency_ms r)
     | None => true
     end.

(** The size of the JSON text of a snapshot, whose framing pydantic decides. *)
Class SnapshotSize := json_size : run_snapshot -> option Z.

#[export] Instance payload_codec `{SnapshotSize} : SnapshotCodec SnapshotBody := {|
  strip_body := strip_payload;
  encoded_bytes := json_size;
  body_valid := payload_valid
|}.

(** * Digests *)

Section Digests.
Context `{PyRepr}.

Definition opt_int (o : option Z) : pyval := match o with Some z => VInt z | None => VNone end.
Definition opt_float (o : option float) : pyval :=
  match o with Some x => VFloat x | None => VNone end.

Definition citation_json (c : AgentCitationRef) : pyval :=
  VDict [(u "document_id", VStr (cr_document_id c)); (u "version_id", VStr (cr_version_id c));
         (u "chunk_id", VStr (cr_chunk_id c)); (u "source", opt_str (cr_source c));
         (u "page_start", opt_int (cr_page_start c)); (u "page_end", opt_int (cr_page_end c));
         (u "tool_name", opt_str (cr_tool_name c));
         (u "observation_index", opt_int (cr_observation_index c))].

Definition action_value (a : AgentActionType) : pystr :=
  match a with TOOL_CALL => u "tool_call" | FINAL_ANSWER => u "final_answer" end.

Definition decision_json (d : AgentStepDecision) : pydict :=
  [(u "action", VStr (action_value (sd_action d))); (u "tool_name", opt_str (sd_tool_name d));
   (u "arguments", VDict (json_mode_dict (sd_arguments d)));
   (u "final_answer", opt_str (sd_final_answer d));
   (u "final_citations", VList (citation_json <$> sd_final_citations d))].

(** [None]: an argument that is not a finite number, and [ValueError]. *)
Definition decision_digest (d : AgentStepDecision) : option pystr := json_digest (decision_json d).

Definition replay_policy_value (p : DurableReplayPolicy) : pystr :=
  match p with
  | replay_unsupported => u "unsupported"
  | replay_read_only => u "read_only"
  | replay_never => u "never"
  end.

(** [_definition_digest] of the service; [json.dumps] with NaN allowed. *)
Definition _definition_digest (d : ToolDefinition) : option pystr :=
  sha256_hex <$> json_dumps true (VDict
    [(u "name", VStr (td_name d)); (u "permission", VStr (td_permission d));
     (u "input_schema", VDict (model_json_schema (td_input_schema d)));
     (u "output_schema", VDict (model_json_schema (td_output_schema d)));
     (u "requires_approval", VBool (td_requires_approval d));
     (u "replay_policy", VStr (replay_policy_value (td_durable_replay_policy d)));
     (u "implementation_version", VStr (td_implementation_version d))]).
End Digests.

(** * Arguments that must not be stored *)

Definition MAX_ARGUMENT_BYTES : Z := 16384.

Definition forbidden_key_parts : list pystr := u <$>
  ["password"; "secret"; "token"; "access_token"; "api_key"; "authorization"; "cookie";
   "credential"; "private_key"]%string.
Definition secret_markers : list pystr := u <$>
  ["-----begin"; "bearer "; "password="; "api_key="; "secret="; "access_token="]%string.

Definition sensitive_key (key : pystr) : bool :=
  existsb (fun part => contains part (replace_char 45 95 (lower key))) forbidden_key_parts.
Definition sensitive_text (s : pystr) : bool :=
  existsb (fun marker => contains marker (lower s)) secret_markers.

(** [visit]: does it raise? *)
Fixpoint visit (v : pyval) : bool :=
  match v with
  | VDict d => existsb (fun kv => sensitive_key kv.1 || visit kv.2) d
  | VList l | VTuple l => existsb visit l
  | VStr s => sensitive_text s
  | _ => false
  end.

Definition validate_private_arguments `{PyRepr} (arguments : pydict) : result durable_exn unit :=
  _ ← raise_if (visit (VDict arguments)) (ExDomain (u "DURABLE_SENSITIVE_ARGUMENT"));
  match json_dumps_default (VDict arguments) with
  | None => Err (ExDomain (u "DURABLE_ARGUMENTS_INVALID"))
  | Some encoded =>
      raise_if (MAX_ARGUMENT_BYTES <? Z.of_nat (length encoded))
        (ExDomain (u "DURABLE_ARGUMENTS_TOO_LARGE"))
  end.

(** * Commands *)

Inductive BudgetMode : Type := wall_clock | active.
#[export] Instance BudgetMode_eq_dec : EqDecision BudgetMode.
Proof. solve_decision. Defined.
Inductive ExecutionMode : Type := inline | background.
#[export] Instance ExecutionMode_eq_dec : EqDecision ExecutionMode.
Proof. solve_decision. Defined.

(** [AgentRunCommand] and its extension; a UUID is its canonical text. *)
Record DurableStartCommand : Type := {
  cmd_input : pystr;
  cmd_max_steps : option Z;
  cmd_max_tool_calls : option Z;
  cmd_timeout_seconds : option float;
  cmd_metadata : pydict;
  cmd_idempotency_key : option pystr;
  cmd_approval_tools : list pystr;
  cmd_budget_mode : BudgetMode;
  cmd_execution_mode : ExecutionMode;
  cmd_approval_timeout_seconds : option float
}.

(** [UUID(s).version == 4] on a canonical text: the version digit, and the variant
    bits that give a UUID a version at all. *)
Definition uuid4 (s : pystr) : bool :=
  canonical_uuid s && bool_decide (s !! 14%nat = Some 52%N)
  && match s !! 19%nat with Some c => ROneOf (u "89ab") c | None => false end.

Section Commands.
Context `{PyRepr, UnicodeDB}.

(** [str.isalnum] of one character. *)
Definition char_alnum (c : N) : bool :=
  is_alpha c || is_digit c || ((128 <=? c)%N && unicode_alnum c).

Definition _metadata_key_is_forbidden (key : pystr) : bool :=
  let normalized := replace_char 32 95 (replace_char 45 95 (lower (strip key))) in
  let compact := filter (fun c => char_alnum c = true) normalized in
  bool_decide (normalized ∈ _FORBIDDEN_METADATA_KEYS)
  || bool_decide (compact ∈ drop_underscores <$> _FORBIDDEN_METADATA_KEYS).

(** [None] is [_DROP_VALUE]. *)
Definition _safe_metadata_scalar (value : pyval) : option pyval :=
  match value with
  | VNone | VBool _ | VInt _ => Some value
  | VFloat x => if isfinite x then Some value else None
  | VStr s => if (length s <=? 200)%nat && negb (_looks_like_absolute_path s)
              then Some value else None
  | _ => None
  end.

(** [None] is a validation error. *)
Definition _metadata_must_be_safe_mapping (value : pyval) : option pydict :=
  match value with
  | VNone => Some []
  | VDict d =>
      if existsb (fun kv => bool_decide (strip kv.1 = [])) d then None
      else Some (foldl (fun safe kv =>
                   if _metadata_key_is_forbidden kv.1 then safe else
                   match _safe_metadata_scalar kv.2 with
                   | Some v => dict_set (strip kv.1) v safe
                   | None => safe
                   end) [] d)
  | _ => None
  end.

Definition opt_in {A} (ok : A -> bool) (o : option A) : bool :=
  match o with Some a => ok a | None => true end.

(** The field constraints of a start command and its validators. *)
Definition valid_start_options (c : DurableStartCommand) : bool :=
  opt_in (fun z => (0 <? z) && (z <=? 20)) (cmd_max_steps c)
  && opt_in (in_z 0 20) (cmd_max_tool_calls c)
  && opt_in (fun x => flt fzero x && fle x (fofZ 3600) && isfinite x) (cmd_timeout_seconds c)
  && opt_in (fun x => flt fzero x && fle x (fofZ 604800) && isfinite x)
       (cmd_approval_timeout_seconds c)
  && opt_in uuid4 (cmd_idempotency_key c)
  && (length (cmd_approval_tools c) <=? 20)%nat
  && bool_decide (NoDup (cmd_approval_tools c))
  && forallb _TOOL_NAME_PATTERN (cmd_approval_tools c)
  && (bool_decide (cmd_budget_mode c = active)
      || opt_in (fun x => negb (flt (fofZ 120) x)) (cmd_timeout_seconds c)
         && bool_decide (cmd_approval_timeout_seconds c = None)).

Definition make_start_command (c : DurableStartCommand) (metadata : pyval)
  : option DurableStartCommand :=
  let n := length (cmd_input c) in
  if negb ((1 <=? n)%nat && (n <=? 4000)%nat && negb (bool_decide (strip (cmd_input c) = []))) then None
  else if negb (valid_start_options c) then None
  else md ← _metadata_must_be_safe_mapping metadata;
       Some {| cmd_input := strip (cmd_input c); cmd_max_steps := cmd_max_steps c;
               cmd_max_tool_calls := cmd_max_tool_calls c;
               cmd_timeout_seconds := cmd_timeout_seconds c; cmd_metadata := md;
               cmd_idempotency_key := cmd_idempotency_key c;
               cmd_approval_tools := cmd_approval_tools c; cmd_budget_mode := cmd_budget_mode c;
               cmd_execution_mode := cmd_execution_mode c;
               cmd_approval_timeout_seconds := cmd_approval_timeout_seconds c |}.

(** ** Idempotent starts *)

Definition START_PROTOCOL_VERSION : Z := 1.
Definition _START_NAMESPACE_V1 : list N :=
  [169; 121; 89; 222; 53; 192; 83; 168; 189; 187; 22; 88; 218; 182; 170; 152]%N.

(** [str(uuid5(namespace, name))]. *)
Definition uuid5 (namespace : list N) (name : pystr) : pystr :=
  let h := take 16 (Sha1.digest (namespace ++ name)) in
  let h := alter (fun b => N.lor (N.land b 15) 80)%N 6%nat h in
  let h := alter (fun b => N.lor (N.land b 63) 128)%N 8%nat h in
  let hex := h ≫= Sha.hex_byte in
  PyVal.join [45%N] [take 8 hex; take 4 (drop 8 hex); take 4 (drop 12 hex); take 4 (drop 16 hex);
                     take 12 (drop 20 hex)].

Definition keyed_run_id (tenant_id user_id key : pystr) : pystr :=
  uuid5 _START_NAMESPACE_V1
    (default [] (json_dumps true (VList [VStr tenant_id; VStr user_id; VStr key]))).

Definition budget_mode_value (m : BudgetMode) : pystr :=
  match m with wall_clock => u "wall_clock" | active => u "active" end.
Definition execution_mode_value (m : ExecutionMode) : pystr :=
  match m with inline => u "inline" | background => u "background" end.

(** [None]: [json.dumps] refuses a number of the metadata; it cannot, after
    validation. *)
Definition start_command_fingerprint (c : DurableStartCommand) : option pystr :=
  let canonical :=
    [(u "protocol_version", VInt START_PROTOCOL_VERSION); (u "input", VStr (cmd_input c));
     (u "max_steps", opt_int (cmd_max_steps c));
     (u "max_tool_calls", opt_int (cmd_max_tool_calls c));
     (u "timeout_seconds", opt_float (cmd_timeout_seconds c));
     (u "approval_tools", VTuple (VStr <$> cmd_approval_tools c));
     (u "metadata", VDict (cmd_metadata c))] in
  let extended :=
    if negb (bool_decide (cmd_budget_mode c = wall_clock))
       || negb (bool_decide (cmd_execution_mode c = inline))
       || bool_decide (is_Some (cmd_approval_timeout_seconds c))
    then canonical ++
         [(u "execution_options", VDict
            [(u "budget_mode", VStr (budget_mode_value (cmd_budget_mode c)));
             (u "execution_mode", VStr (execution_mode_value (cmd_execution_mode c)));
             (u "approval_timeout_seconds", opt_float (cmd_approval_timeout_seconds c))])]
    else canonical in
  json_digest extended.
End Commands.

Record DurableResumeCommand : Type := {
  rs_expected_revision : Z;
  rs_approval_id : option pystr;
  rs_approve : option bool
}.

Definition valid_resume_command (c : DurableResumeCommand) : bool :=
  (0 <=? rs_expected_revision c)
  && opt_in (fun i => (1 <=? length i)%nat && (length i <=? 36)%nat) (rs_approval_id c)
  && eqb (bool_decide (rs_approval_id c = None)) (bool_decide (rs_approve c = None)).

(** * Responses *)

Record DurableRunResponse : Type := {
  dp_run_id : pystr;
  dp_status : DurableStatus;
  dp_revision : Z;
  dp_backend : DurableBackend;
  dp_steps_used : Z;
  dp_tool_calls_used : Z;
  dp_deadline_at : float;
  dp_budget_mode : BudgetMode;
  dp_execution_mode : ExecutionMode;
  dp_active_seconds_used : option float;
  dp_active_seconds_remaining : option float;
  dp_approval : option ApprovalRequest;
  dp_final_answer : option pystr;
  dp_final_citations : list AgentCitationRef;
  dp_error_code : option pystr;
  dp_termination_reason : option pystr
}.

(** The result of a snapshot: present exactly when the store's column is. *)
Definition snapshot_result (s : run_snapshot) : option AgentRunResult :=
  match sn_result s with Some _ => sb_result (sn_body s) | None => None end.

Definition from_snapshot (s : run_snapshot) : DurableRunResponse :=
  let res := snapshot_result s in
  let completed_ := bool_decide (sn_status s = completed) in
  {| dp_run_id := sn_run_id s; dp_status := sn_status s; dp_revision := sn_revision s;
     dp_backend := sb_backend (sn_body s); dp_steps_used := sn_steps_used s;
     dp_tool_calls_used := sn_tool_calls_used s; dp_deadline_at := sn_deadline_at s;
     dp_budget_mode := if sn_active_budget s then active else wall_clock;
     dp_execution_mode := if sn_dispatch s then background else inline;
     dp_active_seconds_used := ab_seconds_used <$> sn_active_budget s;
     dp_active_seconds_remaining :=
       (fun b => max0 (fsub (rc_timeout_seconds (sn_config s)) (ab_seconds_used b)))
       <$> sn_active_budget s;
     dp_approval := if bool_decide (sn_status s = awaiting_approval) then sn_approval s else None;
     dp_final_answer := if completed_ then res ≫= ars_final_answer else None;
     dp_final_citations := if completed_ then default [] (ars_final_citations <$> res) else [];
     dp_error_code := or_text (sn_error_code s) (res ≫= ars_error_code);
     dp_termination_reason := match res with
                              | Some r => Some (termination_value (ars_termination_reason r))
                              | None => sn_error_code s
                              end |}.
