(* ===== verification/DurableMachine.v ===== *)
(** What a durable run promises, as an abstract machine.

    A run is a stage with two budgets and the calls its ledger knows.  [mstep] are
    the steps any number of workers may take on it: reserve a decision, decide,
    ask for and get an approval, write a call to the ledger before it is
    dispatched, record its outcome, give up on a call that only reads, end.  This
    file is about the machine alone: a call that may have side effects is never
    dispatched again, a tool behind an approval is not dispatched without one, and
    the budgets hold over the whole life of the run, restarts included.
    [DurableRefinement] shows that the service and the store implement it. *)

From Stdlib Require Import ZArith String.
From S2P Require Import Prelude PyVal DurableStore AgentRuntime DurableDto.
From stdpp Require Import base list gmap numbers.

#[local] Open Scope Z_scope.

(** * States *)

(** What the ledger says about a call. *)
Record mcall : Type := {
  mc_tool : pystr;
  mc_policy : ReplayPolicy;
  mc_status : LedgerStatus
}.

(** [Acting d approved pending]: the tool call [d] is to be made, with the digest
    of the action a person approved, and the call that was dispatched without a
    recorded outcome. *)
Inductive stage : Type :=
| Deciding (reserved : bool)
| Acting (d : AgentStepDecision) (approved : option pystr) (pending : option pystr)
| Awaiting (d : AgentStepDecision) (digest : pystr)
| Validating
| Ended (status : DurableStatus)
| Broken.

Record mrun : Type := {
  m_stage : stage;
  m_steps : Z;
  m_calls : Z;
  m_config : RunConfig;
  m_gated : list pystr;               (* tools that need an approval in this run *)
  m_ledger : gmap pystr mcall
}.

Definition m_move (m : mrun) (st : stage) : mrun :=
  {| m_stage := st; m_steps := m_steps m; m_calls := m_calls m; m_config := m_config m;
     m_gated := m_gated m; m_ledger := m_ledger m |}.
Definition m_record (m : mrun) (c : pystr) (e : mcall) : mrun :=
  {| m_stage := m_stage m; m_steps := m_steps m; m_calls := m_calls m; m_config := m_config m;
     m_gated := m_gated m; m_ledger := <[c := e]> (m_ledger m) |}.
Definition m_spend (m : mrun) (steps calls : Z) : mrun :=
  {| m_stage := m_stage m; m_steps := steps; m_calls := calls; m_config := m_config m;
     m_gated := m_gated m; m_ledger := m_ledger m |}.
Definition mc_with (e : mcall) (status : LedgerStatus) : mcall :=
  {| mc_tool := mc_tool e; mc_policy := mc_policy e; mc_status := status |}.

(** * Steps *)

Inductive maction : Type :=
| AReserve
| ADecide (d : AgentStepDecision)
| AAsk
| AApprove (digest : pystr)
| ADispatch (call_id tool : pystr) (policy : ReplayPolicy)
| AComplete (call_id : pystr)
| AForget (call_id : pystr)
| ATouch
| AEnd (status : DurableStatus).

Definition ended (st : stage) : bool := match st with Ended _ => true | _ => false end.

Section Machine.
Context `{PyRepr}.

Inductive mstep : mrun -> maction -> mrun -> Prop :=
| m_reserve m b :
    m_stage m = Deciding b -> m_steps m < rc_max_steps (m_config m) ->
    mstep m AReserve (m_spend (m_move m (Deciding true)) (m_steps m + 1) (m_calls m))
| m_decide_tool m d :
    m_stage m = Deciding true -> sd_action d = TOOL_CALL -> valid_decision d = true ->
    mstep m (ADecide d) (m_move m (Acting d None None))
| m_decide_answer m d :
    m_stage m = Deciding true -> sd_action d = FINAL_ANSWER -> valid_decision d = true ->
    mstep m (ADecide d) (m_move m Validating)
| m_ask m d approved g :
    m_stage m = Acting d approved None -> decision_digest d = Some g ->
    mstep m AAsk (m_move m (Awaiting d g))
| m_approve m d g :
    m_stage m = Awaiting d g ->
    mstep m (AApprove g) (m_move m (Acting d (Some g) None))
| m_dispatch m d approved c n p :
    m_stage m = Acting d approved None -> m_calls m < rc_max_tool_calls (m_config m) ->
    (n ∈ m_gated m -> is_Some approved) ->
    mstep m (ADispatch c n p)
      (m_record (m_spend (m_move m (Acting d approved (Some c))) (m_steps m) (m_calls m + 1)) c
         {| mc_tool := n; mc_policy := p; mc_status := started |})
| m_complete m d approved c e :
    m_stage m = Acting d approved (Some c) -> m_ledger m !! c = Some e ->
    mstep m (AComplete c) (m_record (m_move m (Deciding false)) c (mc_with e ledger_completed))
| m_forget m d approved c e :
    m_stage m = Acting d approved (Some c) -> m_ledger m !! c = Some e ->
    mc_policy e = read_only -> mc_status e <> ledger_completed ->
    mstep m (AForget c) (m_record (m_move m (Acting d approved None)) c (mc_with e unknown))
| m_touch m :
    ended (m_stage m) = false -> mstep m ATouch m
| m_end m st steps calls :
    ended (m_stage m) = false -> terminal st = true ->
    (st = completed -> m_stage m = Validating) ->
    m_steps m <= steps <= rc_max_steps (m_config m) ->
    m_calls m <= calls <= rc_max_tool_calls (m_config m) ->
    mstep m (AEnd st) (m_spend (m_move m (Ended st)) steps calls)
| m_end_recorded m d approved c e st steps calls :
    m_stage m = Acting d approved (Some c) -> m_ledger m !! c = Some e ->
    terminal st = true -> st <> completed ->
    m_steps m <= steps <= rc_max_steps (m_config m) ->
    m_calls m <= calls <= rc_max_tool_calls (m_config m) ->
    mstep m (AEnd st)
      (m_record (m_spend (m_move m (Ended st)) steps calls) c (mc_with e ledger_completed)).

Inductive msteps : mrun -> list maction -> mrun -> Prop :=
| msteps_nil m : msteps m [] m
| msteps_cons m a m1 tr m2 : mstep m a m1 -> msteps m1 tr m2 -> msteps m (a :: tr) m2.

Lemma msteps_app m tr1 m1 tr2 m2 :
  msteps m tr1 m1 -> msteps m1 tr2 m2 -> msteps m (tr1 ++ tr2) m2.
Proof. induction 1; [done|]. intros. econstructor; eauto. Qed.

Lemma msteps_one m a m1 : mstep m a m1 -> msteps m [a] m1.
Proof. intros. econstructor; [done|constructor]. Qed.

Lemma msteps_app_inv m tr1 tr2 m2 :
  msteps m (tr1 ++ tr2) m2 -> exists m1, msteps m tr1 m1 /\ msteps m1 tr2 m2.
Proof.
  revert m. induction tr1 as [|a tr1 IH]; intros m Hs; [exists m; split; [constructor|done]|].
  inversion Hs; subst. edestruct IH as (m1' & ? & ?); [eassumption|].
  exists m1'. split; [by econstructor|done].
Qed.

Lemma msteps_snoc_inv m tr a m2 :
  msteps m (tr ++ [a]) m2 -> exists m1, msteps m tr m1 /\ mstep m1 a m2.
Proof.
  intros (m1 & H1 & H2)%msteps_app_inv. exists m1. split; [done|].
  inversion H2 as [|? ? m' ? ? Ha Hn]; subst. by inversion Hn; subst.
Qed.

(** A run as it is created. *)
Record m_initial (m : mrun) : Prop := {
  mi_stage : m_stage m = Deciding false;
  mi_steps : m_steps m = 0;
  mi_calls : m_calls m = 0;
  mi_ledger : m_ledger m = ∅;
  mi_config : valid_run_config (m_config m) = true
}.

(** ** Well-formed runs *)

Record m_wf (m : mrun) : Prop := {
  mw_stage : m_stage m <> Broken;
  mw_steps : 0 <= m_steps m <= rc_max_steps (m_config m);
  mw_calls : 0 <= m_calls m <= rc_max_tool_calls (m_config m);
  mw_pending : forall d ap c, m_stage m = Acting d ap (Some c) -> is_Some (m_ledger m !! c);
  mw_tool : forall d ap p, m_stage m = Acting d ap p ->
    sd_action d = TOOL_CALL /\ valid_decision d = true;
  mw_approved : forall d g p, m_stage m = Acting d (Some g) p -> decision_digest d = Some g;
  mw_awaiting : forall d g, m_stage m = Awaiting d g ->
    decision_digest d = Some g /\ sd_action d = TOOL_CALL /\ valid_decision d = true;
  mw_ended : forall st, m_stage m = Ended st -> terminal st = true
}.

Lemma m_initial_wf m : m_initial m -> m_wf m.
Proof.
  intros [Hst Hs Hc Hl Hv]. unfold valid_run_config in Hv. bool_inv.
  constructor; rewrite ?Hst, ?Hs, ?Hc; try done; lia.
Qed.

Lemma mstep_config m a m' :
  mstep m a m' -> m_config m' = m_config m /\ m_gated m' = m_gated m.
Proof. by destruct 1. Qed.

Lemma mstep_wf m a m' : mstep m a m' -> m_wf m -> m_wf m'.
Proof.
  intros Hs [W1 W2 W3 W4 W5 W6 W7 W8]. destruct Hs; try done;
    match goal with E : m_stage _ = _ |- _ => rewrite E in * | _ => idtac end;
    constructor; cbn [m_stage m_steps m_calls m_config m_ledger m_move m_spend m_record] in *;
    try lia; try done; try (intros; simplify_eq; try done; eauto; fail).
  - intros d' ap p [= <- <- <-]. by apply (W7 _ _ eq_refl).
  - intros d' g' p [= <- <- <-]. by apply (W7 _ _ eq_refl).
  - intros d' ap c' [= <- <- <-]. by rewrite lookup_insert_eq.
Qed.

Lemma msteps_wf m tr m' : msteps m tr m' -> m_wf m -> m_wf m'.
Proof. induction 1; [done|]. intros. eauto using mstep_wf. Qed.

Lemma msteps_config m tr m' :
  msteps m tr m' -> m_config m' = m_config m /\ m_gated m' = m_gated m.
Proof.
  induction 1 as [|m a m1 tr m2 Hs _ [IH1 IH2]]; [done|].
  apply mstep_config in Hs as [<- <-]. done.
Qed.

(** A run that ended takes no further step. *)
Lemma mstep_ended m a m' : mstep m a m' -> ended (m_stage m) = false.
Proof. by destruct 1 as [? ? E|? ? E|? ? E|? ? ? ? E|? ? ? E|? ? ? ? ? ? E|? ? ? ? ? E|? ? ? ? ? E| | |? ? ? ? ? ? ? ? E]; rewrite ?E. Qed.

Lemma msteps_ended m tr m' : msteps m tr m' -> ended (m_stage m) = true -> tr = [] /\ m' = m.
Proof. destruct 1 as [|m a m1 tr m2 Hs _]; [done|]. apply mstep_ended in Hs. congruence. Qed.

(** ** Budgets *)

Definition is_dispatch (a : maction) : bool := match a with ADispatch _ _ _ => true | _ => false end.
Definition is_reserve (a : maction) : bool := match a with AReserve => true | _ => false end.
Definition count (f : maction -> bool) (tr : list maction) : Z :=
  Z.of_nat (length (List.filter f tr)).

Lemma count_cons f a tr : count f (a :: tr) = (if f a then 1 else 0) + count f tr.
Proof. unfold count. simpl. destruct (f a); simpl; lia. Qed.

Lemma mstep_spends m a m' :
  mstep m a m' ->
  m_calls m + (if is_dispatch a then 1 else 0) <= m_calls m' /\
  m_steps m + (if is_reserve a then 1 else 0) <= m_steps m'.
Proof. destruct 1; simpl; lia. Qed.

Lemma msteps_spend m tr m' :
  msteps m tr m' ->
  m_calls m + count is_dispatch tr <= m_calls m' /\ m_steps m + count is_reserve tr <= m_steps m'.
Proof.
  induction 1 as [m|m a m1 tr m2 Hs _ IH]; [unfold count; simpl; lia|].
  apply mstep_spends in Hs. rewrite !count_cons. lia.
Qed.

(** What is left of a run: every step but [ATouch] lowers it. *)
Definition m_left (m : mrun) : Z :=
  match m_stage m with
  | Ended _ => -1
  | Deciding true => 3 * (rc_max_steps (m_config m) - m_steps m) + 2
  | Deciding false | Broken => 3 * (rc_max_steps (m_config m) - m_steps m)
  | _ => 3 * (rc_max_steps (m_config m) - m_steps m) + 1
  end.

(** The steps that stay in the tool phase. *)
Definition stays_acting (a : maction) : bool :=
  match a with
  | AAsk | AApprove _ | ADispatch _ _ _ | AForget _ | ATouch => true
  | _ => false
  end.

Lemma mstep_left m a m' :
  mstep m a m' -> m_wf m -> m_left m' <= m_left m - (if stays_acting a then 0 else 1).
Proof.
  intros Hs [_ Hst _ _ _ _ _ _]. unfold m_left.
  destruct Hs; cbn [m_stage m_steps m_config m_move m_spend m_record stays_acting];
    try match goal with E : m_stage _ = _ |- _ => rewrite E end;
    try (destruct b); try lia.
  destruct (m_stage m) as [[]| | | | |]; simpl in *; try lia; done.
Qed.

Lemma msteps_left m tr m' : msteps m tr m' -> m_wf m -> m_left m' <= m_left m.
Proof.
  induction 1 as [|m a m1 tr m2 Hs _ IH]; intros Hw; [done|].
  pose proof (mstep_left _ _ _ Hs Hw) as Hl. specialize (IH (mstep_wf _ _ _ Hs Hw)).
  destruct (stays_acting a); lia.
Qed.

(** ** Calls with side effects *)

(** A call that may have had effects and has no recorded outcome. *)
Definition uncertain (c : pystr) (m : mrun) : Prop :=
  exists d approved e, m_stage m = Acting d approved (Some c) /\
    m_ledger m !! c = Some e /\ mc_policy e = never.

Definition settles (c : pystr) (a : maction) : bool :=
  match a with AComplete c' => bool_decide (c' = c) | AEnd _ => true | _ => false end.

Lemma uncertain_step c m a m' :
  mstep m a m' -> uncertain c m -> is_dispatch a = false /\ (settles c a = true \/ uncertain c m').
Proof.
  intros Hs (d & ap & e & Hst & He & Hp).
  destruct Hs; simplify_eq; try congruence; split; try done.
  - left. simpl. apply bool_decide_eq_true. congruence.
  - right. by exists d, ap, e.
  - by left.
  - by left.
Qed.

Lemma uncertain_steps c m tr m' :
  msteps m tr m' -> uncertain c m -> Forall (fun a => settles c a = false) tr ->
  Forall (fun a => is_dispatch a = false) tr /\ uncertain c m'.
Proof.
  induction 1 as [|m a m1 tr m2 Hs _ IH]; intros Hu Hf; [by split|].
  apply list.Forall_cons in Hf as [Ha Hf].
  destruct (uncertain_step _ _ _ _ Hs Hu) as [Hd [|Hu1]]; [congruence|].
  destruct (IH Hu1 Hf). split; [by constructor|done].
Qed.

(** ** Approvals *)

Definition is_decide (a : maction) : bool := match a with ADecide _ => true | _ => false end.

(** The approval [g] was given after the last decision of [tr]. *)
Definition approved_last (g : pystr) (tr : list maction) : Prop :=
  exists tr1 tr2, tr = tr1 ++ AApprove g :: tr2 /\ Forall (fun a => is_decide a = false) tr2.

Lemma approved_last_snoc g tr a :
  is_decide a = false -> approved_last g tr -> approved_last g (tr ++ [a]).
Proof.
  intros Ha (tr1 & tr2 & -> & Hf). exists tr1, (tr2 ++ [a]). split; [by rewrite <- app_assoc|].
  apply Forall_app. split; [done|]. by constructor.
Qed.

Lemma acting_approved m0 tr m d g p :
  m_initial m0 -> msteps m0 tr m -> m_stage m = Acting d (Some g) p -> approved_last g tr.
Proof.
  intros Hi. revert m d p. induction tr as [|a tr IH] using rev_ind; intros m d p Hs Hst.
  { inversion Hs; subst. rewrite (mi_stage _ Hi) in Hst. done. }
  apply msteps_snoc_inv in Hs as (m1 & Hs & Ha).
  inversion Ha; subst; simplify_eq/=; try (eapply approved_last_snoc; [done|eauto]; fail).
  exists tr, []. by split.
Qed.

(** * Theorems *)

(** The budgets hold over the whole life of a run, whoever works on it: the calls
    written to the ledger never exceed [max_tool_calls] and the decisions asked of
    the model never exceed [max_steps], restarts and retries included. *)
Lemma machine_budgets m0 tr m :
  m_initial m0 -> msteps m0 tr m ->
  count is_dispatch tr <= rc_max_tool_calls (m_config m0) /\
  count is_reserve tr <= rc_max_steps (m_config m0).
Proof.
  intros Hi Hs. pose proof (msteps_wf _ _ _ Hs (m_initial_wf _ Hi)) as [_ W2 W3 _ _ _ _ _].
  pose proof (msteps_spend _ _ _ Hs) as [S1 S2]. destruct (msteps_config _ _ _ Hs) as [Hc _].
  rewrite Hc in *. rewrite (mi_calls _ Hi), (mi_steps _ Hi) in *. lia.
Qed.

(** A call that may have side effects is never repeated: from the moment it is in
    the ledger without an outcome, nothing is dispatched in this run until that
    very call is recorded as completed or the run is over. *)
Lemma machine_never_repeats m0 tr1 c n tr2 c' n' p' tr3 m :
  msteps m0 (tr1 ++ ADispatch c n never :: tr2 ++ ADispatch c' n' p' :: tr3) m ->
  existsb (settles c) tr2 = true.
Proof.
  intros (m1 & _ & Hs)%msteps_app_inv. inversion Hs as [|? ? m2 ? ? Hd Hs2]; subst.
  apply msteps_app_inv in Hs2 as (m3 & H2 & Hs3). inversion Hs3 as [|? ? m4 ? ? Hd' _]; subst.
  apply not_false_iff_true. intros Hn.
  assert (uncertain c m2) as Hu.
  { inversion Hd; subst. eexists d, approved, _. split; [done|]. cbn. by rewrite lookup_insert_eq. }
  assert (Forall (fun a => settles c a = false) tr2) as Hf.
  { apply list.Forall_forall. intros a Ha. apply not_true_iff_false. intros Hx.
    apply not_true_iff_false in Hn. apply Hn, existsb_exists. exists a.
    split; [by apply list_elem_of_In|done]. }
  destruct (uncertain_steps _ _ _ _ H2 Hu Hf) as [_ Hu3].
  by destruct (uncertain_step _ _ _ _ Hd' Hu3).
Qed.

(** A tool that needs an approval in this run is dispatched only after a person
    approved this decision: an approval lies between the decision and the call. *)
Lemma machine_gated m0 tr1 c n p tr2 m :
  m_initial m0 -> n ∈ m_gated m0 -> msteps m0 (tr1 ++ ADispatch c n p :: tr2) m ->
  exists g, approved_last g tr1.
Proof.
  intros Hi Hn (m1 & H1 & Hs)%msteps_app_inv. inversion Hs as [|? ? m2 ? ? Hd _]; subst.
  destruct (msteps_config _ _ _ H1) as [_ Hg]. inversion Hd; subst.
  rewrite Hg in *. match goal with Hx : _ -> is_Some _ |- _ => destruct (Hx Hn) as [g ->] end.
  exists g. by eapply acting_approved.
Qed.
End Machine.
