(* ===== verification/DurableLaw.v ===== *)
(** What workers on the same runs owe one another.

    [run_view] reads a run of [DurableMachine] off the tables of [DurableStore].
    [lawful] relates tables: every run moved by steps of the machine, a revision is
    written once, a purged run stays away.  Each transaction of the store is lawful
    when the worker holds the snapshot it starts from ([known]) and, for a save, when
    the new snapshot is a step of the machine. *)

From Stdlib Require Import ZArith String.
From S2P Require Import Prelude Float64 PyVal.
From S2P Require Import DurableStore AgentRuntime DurableDto DurableMachine.
From stdpp Require Import base list gmap numbers.

#[local] Open Scope Z_scope.
#[local] Arguments fadd : simpl never.
#[local] Arguments fsub : simpl never.
#[local] Arguments fmul : simpl never.
#[local] Arguments fdiv : simpl never.

(** * The machine state of a stored run *)

Definition stage_of (s : run_snapshot) : stage :=
  let b := sn_body s in
  let inflight := sb_decision_inflight b in
  match sn_status s with
  | running =>
      match sn_phase s, sb_decision b with
      | decision, _ =>
          if bool_decide (sb_approved_action_digest b = None) && bool_decide (sb_pending_call_id b = None)
          then Deciding inflight else Broken
      | tool, Some d =>
          if inflight then Broken
          else Acting (strip_decision d) (sb_approved_action_digest b) (sb_pending_call_id b)
      | validation, Some _ => if inflight then Broken else Validating
      | _, _ => Broken
      end
  | awaiting_approval =>
      match sn_phase s, sb_decision b, sn_approval s, sb_pending_call_id b with
      | tool, Some d, Some a, None =>
          if inflight then Broken else Awaiting (strip_decision d) (ap_action_digest a)
      | _, _, _, _ => Broken
      end
  | st => if bool_decide (sn_phase s = done_) then Ended st else Broken
  end.

Definition mcall_of (e : ledger_entry) : mcall :=
  {| mc_tool := le_tool_name e; mc_policy := le_replay_policy e; mc_status := le_status e |}.

Abbreviation calls := (gmap pystr mcall).

Definition ledger_of (d : run_store) (i : pystr) : calls :=
  omap (fun l => if bool_decide (lr_run_id l = i) then Some (mcall_of (lr_entry l)) else None)
    (tool_ledger d).

Definition view (s : run_snapshot) (led : calls) : mrun :=
  {| m_stage := stage_of s; m_steps := sn_steps_used s; m_calls := sn_tool_calls_used s;
     m_config := sn_config s; m_gated := sb_approval_tools (sn_body s); m_ledger := led |}.

Definition run_view (d : run_store) (i : pystr) : option mrun :=
  (fun r => view (dr_snapshot r) (ledger_of d i)) <$> durable_runs d !! i.

(** ** What the JSON form keeps *)

Lemma json_mode_idem v : json_mode (json_mode v) = json_mode v.
Proof.
  induction v as [| | | | |l IH|l IH|l IH|d IH] using pyval_nested_ind; cbn [json_mode]; try done;
    f_equal; rewrite map_map; apply map_ext_Forall; [exact IH..|].
  eapply list.Forall_impl; [exact IH|]. intros [k v] Hv. simpl in *. by rewrite Hv.
Qed.

Lemma json_mode_dict_idem d : json_mode_dict (json_mode_dict d) = json_mode_dict d.
Proof.
  unfold json_mode_dict. rewrite map_map. apply map_ext. intros [k v]. simpl. by rewrite json_mode_idem.
Qed.

Lemma strip_decision_idem d : strip_decision (strip_decision d) = strip_decision d.
Proof. unfold strip_decision. cbn. by rewrite json_mode_dict_idem. Qed.

Lemma strip_decision_digest `{PyRepr} d : decision_digest (strip_decision d) = decision_digest d.
Proof. unfold decision_digest, decision_json, strip_decision. cbn. by rewrite json_mode_dict_idem. Qed.

Lemma strip_decision_valid d : valid_decision (strip_decision d) = valid_decision d.
Proof. unfold valid_decision, strip_decision. cbn. by destruct (sd_arguments d). Qed.

Definition stripped (s : run_snapshot) : run_snapshot := with_body s (strip_payload (sn_body s)).

Lemma stage_of_stripped s : stage_of (stripped s) = stage_of s.
Proof.
  unfold stage_of, stripped. cbn [sn_body with_body sn_status sn_phase sn_approval strip_payload
    sb_decision_inflight sb_decision sb_approved_action_digest sb_pending_call_id].
  destruct (sb_decision (sn_body s)) as [d|]; [|done]. cbn. by rewrite strip_decision_idem.
Qed.

Lemma view_stripped s led : view (stripped s) led = view s led.
Proof. unfold view. rewrite stage_of_stripped. done. Qed.

(** The store changes the accounting fields of what it saves, never these. *)
Lemma stage_of_update s rev dl lo ab :
  stage_of (sn_update s rev (sn_status s) (sn_phase s) dl lo ab (sn_approval s) (sn_result s)
              (sn_error_code s)) = stage_of s.
Proof. done. Qed.

(** * Lawful changes of the tables *)

Section Law.
Context `{PyRepr, SnapshotSize}.
Implicit Types (d : run_store) (s : run_snapshot) (i : pystr).

Definition store_inv d : Prop :=
  store_wf d /\ forall i m, run_view d i = Some m -> m_wf m.

(** How one run may move: from creation, or from where it was, by machine steps. *)
Definition run_moves d d' i : Prop :=
  match run_view d i, run_view d' i with
  | _, None => True
  | None, Some m => agent_runs d !! i = None /\ exists m0 tr, m_initial m0 /\ msteps m0 tr m
  | Some m, Some m' => exists tr, msteps m tr m'
  end.

(** A revision is written once, with what the ledger says about the run. *)
Definition revision_fixed d d' i : Prop :=
  forall r r', durable_runs d !! i = Some r -> durable_runs d' !! i = Some r' ->
    dr_revision r <= dr_revision r' /\
    (dr_revision r' = dr_revision r ->
     dr_snapshot r' = dr_snapshot r /\ ledger_of d' i = ledger_of d i).

Record lawful d d' : Prop := {
  law_inv : store_inv d';
  law_moves : forall i, run_moves d d' i;
  law_revisions : forall i, revision_fixed d d' i;
  law_ids : forall i, is_Some (agent_runs d !! i) -> is_Some (agent_runs d' !! i)
}.

(** What is left of the run of a snapshot, whatever its ledger. *)
Definition left_of s : Z := m_left (view s ∅).

(** A snapshot some worker holds: it was read or written at its revision. *)
Definition known d s : Prop :=
  is_Some (agent_runs d !! sn_run_id s) /\
  forall r, durable_runs d !! sn_run_id s = Some r ->
    sn_config (dr_snapshot r) = sn_config s /\ sn_revision s <= dr_revision r /\
    left_of (dr_snapshot r) <= left_of s /\
    (dr_revision r = sn_revision s -> dr_snapshot r = s \/ dr_snapshot r = stripped s).

Lemma left_of_stripped s : left_of (stripped s) <= left_of s.
Proof. unfold left_of. by rewrite view_stripped. Qed.

(** A ledger entry read while the run had the revision of [s]. *)
Definition read_entry d s (e : ledger_entry) : Prop :=
  forall r, durable_runs d !! sn_run_id s = Some r -> dr_revision r = sn_revision s ->
    ledger_of d (sn_run_id s) !! le_call_id e = Some (mcall_of e).

Lemma lawful_refl d : store_inv d -> lawful d d.
Proof.
  intros Hd. split; [done| | |done]; intros i.
  - unfold run_moves. destruct (run_view d i); [|done]. exists []. constructor.
  - intros r r' Hr Hr'. simplify_eq. split; [lia|done].
Qed.

Lemma run_view_row d i r :
  durable_runs d !! i = Some r -> run_view d i = Some (view (dr_snapshot r) (ledger_of d i)).
Proof. intros Hr. unfold run_view. by rewrite Hr. Qed.
Lemma run_view_some d i m :
  run_view d i = Some m ->
  exists r, durable_runs d !! i = Some r /\ m = view (dr_snapshot r) (ledger_of d i).
Proof. unfold run_view. intros (r & ? & ?)%fmap_Some. eauto. Qed.

Lemma row_has_id d i m : store_wf d -> run_view d i = Some m -> is_Some (agent_runs d !! i).
Proof.
  intros Hwf (r & Hr & _)%run_view_some. destruct (wf_legacy _ Hwf _ _ Hr) as (a & -> & _). by eexists.
Qed.

(** A purged run does not come back. *)
Lemma lawful_gone d d' i :
  store_inv d -> lawful d d' -> is_Some (agent_runs d !! i) -> durable_runs d !! i = None ->
  durable_runs d' !! i = None.
Proof.
  intros _ [_ M _ _] [a Ha] Hr. specialize (M i). unfold run_moves, run_view in M. rewrite Hr in M.
  destruct (durable_runs d' !! i); [|done]. simpl in M. destruct M as [M _]. congruence.
Qed.

Lemma lawful_trans d1 d2 d3 : store_inv d1 -> lawful d1 d2 -> lawful d2 d3 -> lawful d1 d3.
Proof.
  intros Hd L12 L23. pose proof (law_inv _ _ L12) as Hd2.
  destruct L12 as [I1 M1 R1 L1] eqn:E12, L23 as [I2 M2 R2 L2] eqn:E23. clear E12 E23.
  split; [done| | |eauto].
  - intros i. specialize (M1 i). specialize (M2 i). unfold run_moves in *.
    destruct (run_view d3 i) as [m3|] eqn:E3; [|by destruct (run_view d1 i)].
    destruct (run_view d2 i) as [m2|] eqn:E2.
    + destruct M2 as [tr2 H2]. destruct (run_view d1 i) as [m1|].
      * destruct M1 as [tr1 H1]. exists (tr1 ++ tr2). by eapply msteps_app.
      * destruct M1 as (Ha & m0 & tr1 & Hi & H1). split; [done|]. exists m0, (tr1 ++ tr2).
        split; [done|]. by eapply msteps_app.
    + destruct M2 as [Ha M2]. destruct (run_view d1 i) as [m1|] eqn:E1.
      * destruct Hd as [Hwf _]. apply (row_has_id _ _ _ Hwf), L1 in E1 as [a Ha']. congruence.
      * split; [|done]. destruct (agent_runs d1 !! i) as [a|] eqn:Ea; [|done].
        destruct (L1 i) as [b Hb]; [by eexists|congruence].
  - intros i r1 r3 Hr1 Hr3. destruct (durable_runs d2 !! i) as [r2|] eqn:Hr2.
    + destruct (R1 i r1 r2 Hr1 Hr2) as [A1 B1], (R2 i r2 r3 Hr2 Hr3) as [A2 B2].
      split; [lia|]. intros He. destruct B1 as [<- <-]; [lia|]. apply B2. lia.
    + destruct Hd as [Hwf _]. destruct (wf_legacy _ Hwf _ _ Hr1) as (a & Ha & _).
      assert (durable_runs d3 !! i = None) as Hn.
      { eapply lawful_gone; [exact Hd2|by split|apply L1; by eexists|done]. }
      congruence.
Qed.

Lemma known_lawful d d' s : store_inv d -> lawful d d' -> known d s -> known d' s.
Proof.
  intros Hd Hl [Ha Hs]. split; [by eapply law_ids|]. intros r' Hr'.
  destruct (durable_runs d !! sn_run_id s) as [r|] eqn:Hr.
  - destruct (Hs r eq_refl) as (Hc & Hle & Hleft & Heq).
    destruct (law_revisions _ _ Hl _ _ _ Hr Hr') as [Hrev Honce].
    pose proof (law_moves _ _ Hl (sn_run_id s)) as M. unfold run_moves in M.
    rewrite (run_view_row _ _ _ Hr), (run_view_row _ _ _ Hr') in M. destruct M as [tr M].
    pose proof (msteps_left _ _ _ M (proj2 Hd _ _ (run_view_row _ _ _ Hr))) as Hml.
    apply msteps_config in M as [M _]. simpl in M.
    assert (left_of (dr_snapshot r') <= left_of (dr_snapshot r)) by exact Hml.
    split_and!; [congruence|lia|lia|].
    intros He. destruct Honce as [-> _]; [lia|]. apply Heq. lia.
  - by rewrite (lawful_gone _ _ _ Hd Hl Ha Hr) in Hr'.
Qed.

Lemma read_entry_lawful d d' s e :
  store_inv d -> lawful d d' -> known d s -> read_entry d s e -> read_entry d' s e.
Proof.
  intros Hd Hl [Ha Hs] He r' Hr' Hrev. destruct (durable_runs d !! sn_run_id s) as [r|] eqn:Hr.
  - destruct (Hs r eq_refl) as (_ & Hle & _ & _).
    destruct (law_revisions _ _ Hl _ _ _ Hr Hr') as [Hmono Honce].
    destruct Honce as [_ ->]; [lia|]. apply (He r); [done|lia].
  - by rewrite (lawful_gone _ _ _ Hd Hl Ha Hr) in Hr'.
Qed.

(** ** Single transactions *)

(** Only the run [i] moved. *)
Lemma lawful_at d d' i :
  store_inv d -> store_wf d' ->
  (forall j, j <> i -> run_view d' j = run_view d j) ->
  (forall j, is_Some (agent_runs d !! j) -> is_Some (agent_runs d' !! j)) ->
  (forall j, j <> i -> durable_runs d' !! j = durable_runs d !! j) ->
  revision_fixed d d' i ->
  match run_view d i, run_view d' i with
  | _, None => True
  | None, Some m => agent_runs d !! i = None /\ m_initial m
  | Some m, Some m' => m' = m \/ exists a, mstep m a m'
  end -> lawful d d'.
Proof.
  intros [Hwf Hv] Hwf' Hj Hids Hrows Hfix Hi.
  assert (Hm : match run_view d' i with Some m' => m_wf m' | None => True end).
  { destruct (run_view d' i) as [m'|]; [|done]. destruct (run_view d i) as [m|] eqn:E.
    - destruct Hi as [->|[a Ha]]; [by eapply Hv|]. eapply mstep_wf; [done|]. by eapply Hv.
    - apply m_initial_wf, Hi. }
  split; [split; [done|]| | |done].
  - intros j m' Em. destruct (decide (j = i)) as [->|Hne]; [by rewrite Em in Hm|].
    rewrite Hj in Em by done. by eapply Hv.
  - intros j. unfold run_moves. destruct (decide (j = i)) as [->|Hne].
    + destruct (run_view d' i) as [m'|]; [|by destruct (run_view d i)].
      destruct (run_view d i) as [m|].
      * destruct Hi as [->|[a Ha]]; [exists []; constructor|exists [a]; by apply msteps_one].
      * destruct Hi as [Ha Hi]. split; [done|]. exists m', []. split; [done|constructor].
    + rewrite Hj by done. destruct (run_view d j); [|done]. exists []. constructor.
  - intros j. destruct (decide (j = i)) as [->|Hne]; [done|]. intros r r' Hr Hr'.
    specialize (Hj j Hne). rewrite Hrows in Hr' by done. assert (r' = r) as -> by congruence.
    split; [lia|]. intros _. split; [done|].
    unfold run_view in Hj. rewrite Hrows, Hr in Hj by done. simpl in Hj. by injection Hj.
Qed.

Lemma exec_ids d o j : is_Some (agent_runs d !! j) -> is_Some (agent_runs (exec d o) !! j).
Proof. intros [a Ha]. destruct (exec_legacy d o j a Ha) as (a' & -> & _). by eexists. Qed.

Lemma ledger_lookup d i c :
  ledger_of d i !! c = l ← tool_ledger d !! c;
    if bool_decide (lr_run_id l = i) then Some (mcall_of (lr_entry l)) else None.
Proof. unfold ledger_of. by rewrite lookup_omap. Qed.

(** Rows of the run [i] only. *)
Lemma views_elsewhere d d' i :
  (forall j, j <> i -> durable_runs d' !! j = durable_runs d !! j) ->
  (forall c, tool_ledger d' !! c = tool_ledger d !! c \/
     exists l', tool_ledger d' !! c = Some l' /\ lr_run_id l' = i /\
       match tool_ledger d !! c with Some l => lr_run_id l = i | None => True end) ->
  forall j, j <> i -> run_view d' j = run_view d j.
Proof.
  intros Hr Hl j Hj. unfold run_view. rewrite Hr by done. destruct (durable_runs d !! j); [|done].
  simpl. do 2 f_equal. apply map_eq. intros c. rewrite !ledger_lookup.
  destruct (Hl c) as [->|(l' & -> & Hi & Hc)]; [done|]. simpl. rewrite bool_decide_false by congruence.
  destruct (tool_ledger d !! c) as [l|]; [|done]. simpl. by rewrite bool_decide_false by congruence.
Qed.

(** The row of [i] got a snapshot with the same view, the ledger stayed. *)
Lemma lawful_same d d' i r r' :
  store_inv d -> store_wf d' ->
  (forall j, is_Some (agent_runs d !! j) -> is_Some (agent_runs d' !! j)) ->
  tool_ledger d' = tool_ledger d -> durable_runs d !! i = Some r ->
  durable_runs d' = <[i := r']> (durable_runs d) ->
  (dr_snapshot r' = dr_snapshot r /\ dr_revision r' = dr_revision r \/
   dr_revision r < dr_revision r' /\
   forall led, view (dr_snapshot r') led = view (dr_snapshot r) led) -> lawful d d'.
Proof.
  intros Hd Hwf Hids Hl Hr Hr' Hv.
  assert (forall j, j <> i -> durable_runs d' !! j = durable_runs d !! j) as Hrows
    by (intros j Hj; by rewrite Hr', lookup_insert_ne).
  assert (forall led, view (dr_snapshot r') led = view (dr_snapshot r) led) as Hv'
    by (destruct Hv as [[-> _]|[_ Hv]]; done).
  apply (lawful_at d d' i); try done.
  - apply views_elsewhere; [done|intros c; left; by rewrite Hl].
  - intros r0 r0' H1 H2. rewrite Hr', lookup_insert_eq in H2. simplify_eq.
    destruct Hv as [[E1 E2]|[E1 _]]; [|lia]. split; [lia|]. intros _. split; [done|].
    unfold ledger_of. by rewrite Hl.
  - rewrite (run_view_row _ _ _ Hr), (run_view_row d' i r') by (by rewrite Hr', lookup_insert_eq).
    left. rewrite Hv'. unfold ledger_of. by rewrite Hl.
Qed.

(** ** The transactions of a worker *)

(** Claiming, renewing and releasing a lease change no view. *)
Lemma law_lease d i r r' :
  store_inv d -> store_wf (set_durable d (<[i := r']> (durable_runs d))) ->
  durable_runs d !! i = Some r -> dr_snapshot r' = dr_snapshot r -> dr_revision r' = dr_revision r ->
  lawful d (set_durable d (<[i := r']> (durable_runs d))).
Proof. intros Hd Hwf Hr Hs Hv. eapply (lawful_same _ _ i); eauto. Qed.

Lemma law_renew d s t now l : store_inv d -> lawful d (exec d (OpRenew s t now l)).
Proof.
  intros Hd. pose proof (exec_wf d (OpRenew s t now l) (proj1 Hd) I) as Hwf. revert Hwf. simpl.
  destruct (renew d s t now l) as [d'|] eqn:E; simpl; [|intros; by apply lawful_refl].
  apply renew_inv in E as (row & (Hr & _)%scoped_row_inv & _ & _ & ->). intros Hwf.
  by eapply law_lease.
Qed.

Lemma law_release d s t : store_inv d -> lawful d (exec d (OpRelease s t)).
Proof.
  intros Hd. pose proof (exec_wf d (OpRelease s t) (proj1 Hd) I) as Hwf. revert Hwf. simpl.
  unfold release. destruct (scoped_row d s) as [row|] eqn:E; [|intros; by apply lawful_refl].
  apply scoped_row_inv in E as (Hr & _). case_bool_decide; [|intros; by apply lawful_refl].
  intros Hwf. by eapply law_lease.
Qed.

(** What a known snapshot says about the row at its revision. *)
Lemma known_row d s r :
  store_inv d -> known d s -> scoped_row d s = Some r -> dr_revision r = sn_revision s ->
  durable_runs d !! sn_run_id s = Some r /\
  (forall led, view (dr_snapshot r) led = view s led) /\
  dr_status r = sn_status s /\ m_wf (view s (ledger_of d (sn_run_id s))).
Proof.
  intros [Hwf Hv] [_ Hs] (Hr & _ & _ & _)%scoped_row_inv Hrev.
  destruct (Hs r Hr) as (_ & _ & _ & He). specialize (He Hrev).
  assert (forall led, view (dr_snapshot r) led = view s led) as Hview.
  { intros led. destruct He as [->| ->]; [done|]. apply view_stripped. }
  split_and!; [done|done| |].
  - rewrite <- (rc_status _ _ (wf_rows _ Hwf _ _ Hr)). by destruct He as [->| ->].
  - apply run_view_row, Hv in Hr. by rewrite Hview in Hr.
Qed.

Lemma view_acquired s row now act led : view (acquired_snapshot s row now act) led = view s led.
Proof. unfold acquired_snapshot. by destruct (sn_active_budget s). Qed.

Lemma law_acquire d s t now l act :
  store_inv d -> known d s -> lawful d (exec d (OpAcquire s t now l act)).
Proof.
  intros Hd Hk. assert (op_ok d (OpAcquire s t now l act)) as Hok.
  { simpl. intros r Hr Hrev. destruct Hk as [_ Hs]. destruct (Hs r Hr) as (_ & _ & _ & He).
    rewrite <- (rc_status _ _ (wf_rows _ (proj1 Hd) _ _ Hr)). by destruct (He Hrev) as [->| ->]. }
  pose proof (exec_wf _ _ (proj1 Hd) Hok) as Hwf. revert Hwf. simpl.
  destruct (acquire d s t now l act) as [[d' v]|] eqn:E; simpl; [|intros; by apply lawful_refl].
  apply acquire_inv in E as (row & row' & Hr & Hrev & _ & _ & _ & -> & -> & Hc).
  destruct (known_row _ _ _ Hd Hk Hr Hrev) as (Hr' & He & _ & _). intros Hwf.
  destruct Hc as [[_ ->]|(_ & p & Hp & _ & ->)]; [by eapply law_lease|].
  eapply (lawful_same _ _ (sn_run_id s)); eauto. right. split; [simpl; lia|]. intros led. simpl.
  apply persisted_inv in Hp as ->. rewrite He.
  etransitivity; [apply (view_stripped (acquired_snapshot s row now act))|]. apply view_acquired.
Qed.

Lemma view_settled prev s now v led :
  _settle_active prev s now = Some v -> view v led = view s led.
Proof. unfold _settle_active. intros. repeat case_match; by simplify_eq. Qed.

(** The ledger after a save. *)
Definition noted (led : calls) (e : option ledger_entry) : calls :=
  match e with None => led | Some e => <[le_call_id e := mcall_of e]> led end.

Lemma ledger_noted d d' i c l e :
  tool_ledger d' = <[c := l]> (tool_ledger d) -> lr_run_id l = i -> lr_entry l = e ->
  ledger_of d' i = <[c := mcall_of e]> (ledger_of d i).
Proof.
  intros Hl Hi He. apply map_eq. intros c'. rewrite ledger_lookup, Hl.
  destruct (decide (c' = c)) as [->|Hne].
  - rewrite !lookup_insert_eq. simpl. rewrite bool_decide_true by done. by rewrite He.
  - rewrite !lookup_insert_ne by done. by rewrite ledger_lookup.
Qed.

Definition same_run (s s' : run_snapshot) : Prop :=
  sn_run_id s' = sn_run_id s /\ sn_tenant_id s' = sn_tenant_id s /\ sn_user_id s' = sn_user_id s.

(** A save from a known snapshot that is a step of the machine wherever the run is
    well-formed. *)
Definition save_steps (prev s : run_snapshot) (e : option ledger_entry) (led : calls) : Prop :=
  m_wf (view prev led) -> ended (stage_of prev) = false ->
  exists a, mstep (view prev led) a (view s (noted led e)).

Lemma not_ended s : terminal (sn_status s) = false -> ended (stage_of s) = false.
Proof.
  unfold stage_of. intros Ht.
  by destruct (sn_status s) eqn:E; try discriminate Ht; destruct (sn_phase s);
    repeat case_match.
Qed.

Lemma save_settles d prev s t now e d' v :
  save d prev s t now e = Ok (d', v) ->
  exists s1, _settle_active prev s1 now = Some v /\ (forall led, view s1 led = view s led) /\
    sn_config s1 = sn_config s /\ sn_phase s1 = sn_phase s /\ sn_body s1 = sn_body s.
Proof.
  unfold save. destruct (_settle_active _ _ _) as [v0|] eqn:Es; [|done]. intros E.
  eexists. split; [etransitivity; [exact Es|]; f_equal|done].
  unfold mbind, result_bind in E. destruct (persisted v0); [|done].
  destruct (scoped_row d prev); [|done]. destruct (raise_if _ _); [|done].
  destruct (match e with None => _ | Some _ => _ end); [|done].
  destruct (_legacy_update _ _); [|done]. by injection E.
Qed.

Lemma law_save d prev s t now e :
  store_inv d -> known d prev -> same_run prev s ->
  (forall r, durable_runs d !! sn_run_id prev = Some r -> dr_revision r = sn_revision prev ->
     save_steps prev s e (ledger_of d (sn_run_id prev))) ->
  lawful d (exec d (OpSave prev s t now e)).
Proof.
  intros Hd Hk (Si & St & Su) Hstep.
  pose proof (exec_wf d (OpSave prev s t now e) (proj1 Hd) (conj Si (conj St Su))) as Hwf.
  pose proof (exec_ids d (OpSave prev s t now e)) as Hids. revert Hwf Hids. simpl.
  destruct (save d prev s t now e) as [[d' v]|] eqn:E; simpl; [|intros; by apply lawful_refl].
  intros Hwf Hids.
  assert (forall led, view v led = view s led) as Hview.
  { destruct (save_settles _ _ _ _ _ _ _ _ E) as (s1 & Es & Hv & _). intros led.
    by rewrite (view_settled _ _ _ _ _ Es). }
  apply save_inv in E as (row & p & Hr & Hrev & _ & Hnt & Hp & _ & _ & _ & _ & _ & _ & Hrows & _ & _ & Hled).
  destruct (known_row _ _ _ Hd Hk Hr Hrev) as (Hr' & He & Hst & Hm).
  destruct (Hstep row) as [a Ha]; [done|done|done|apply not_ended; congruence|].
  apply persisted_inv in Hp as ->.
  assert (forall j, j <> sn_run_id prev -> durable_runs d' !! j = durable_runs d !! j) as Hother
    by (intros j Hj; by rewrite Hrows, lookup_insert_ne).
  apply (lawful_at d d' (sn_run_id prev)); try done.
  - apply views_elsewhere; [done|]. intros c. destruct e as [le|]; [|left; by rewrite Hled].
    destruct Hled as [-> Hold]. destruct (decide (c = le_call_id le)) as [->|Hne].
    + right. rewrite lookup_insert_eq. eexists. split; [done|]. split; [done|].
      destruct (tool_ledger d !! le_call_id le); [|done]. destruct Hold as [-> _]. done.
    + left. by rewrite lookup_insert_ne.
  - intros r1 r2 H1 H2. rewrite Hrows, lookup_insert_eq in H2. simplify_eq. simpl. lia.
  - rewrite (run_view_row _ _ _ Hr'), (run_view_row d' (sn_run_id prev) _)
      by (by rewrite Hrows, lookup_insert_eq).
    simpl. rewrite He. right. exists a.
    replace (ledger_of d' (sn_run_id prev)) with (noted (ledger_of d (sn_run_id prev)) e).
    + change (with_body v (strip_payload (sn_body v))) with (stripped v).
      rewrite view_stripped, Hview. done.
    + destruct e as [le|]; simpl; [|unfold ledger_of; by rewrite Hled].
      destruct Hled as [Hl _]. symmetry. by eapply ledger_noted.
Qed.

(** The worker then holds what it saved. *)
Lemma known_saved d prev s t now e d' v :
  known d prev -> same_run prev s -> sn_config s = sn_config prev ->
  save d prev s t now e = Ok (d', v) ->
  known d' v /\ same_run prev v /\ sn_config v = sn_config prev /\
  (forall led, view v led = view s led) /\ sn_status v = sn_status s /\ sn_phase v = sn_phase s /\
  sn_body v = sn_body s.
Proof.
  intros [Ha Hs] (Si & St & Su) Hc E.
  destruct (save_settles _ _ _ _ _ _ _ _ E) as (s1 & Es & Hv1 & Hc1 & Hp1 & Hb1).
  pose proof (exec_ids d (OpSave prev s t now e)) as Hids. simpl in Hids. rewrite E in Hids.
  apply save_inv in E as (row & p & Hr & Hrev & _ & _ & Hp & Vr & Vs & Vi & Vt & Vu & _ & Hrows & _).
  assert (sn_config v = sn_config s /\ (forall led, view v led = view s led) /\
          sn_phase v = sn_phase s /\ sn_body v = sn_body s) as (Vc & Vv & Vp & Vb).
  { rewrite <- Hc1, <- Hp1, <- Hb1.
    split_and!; [|intros led; by rewrite (view_settled _ _ _ _ _ Es)|..];
      clear -Es; unfold _settle_active in Es; repeat case_match; by simplify_eq. }
  split_and!; try done; try congruence; [|unfold same_run; split_and!; congruence].
  split; [rewrite Vi, Si; by apply Hids|]. intros r. rewrite Vi, Si, Hrows, lookup_insert_eq.
  intros [= <-]. apply persisted_inv in Hp as ->. split_and!; [done|simpl; lia|exact (left_of_stripped _)|by right].
Qed.

Lemma known_acquired d s t now l act d' v :
  known d s -> acquire d s t now l act = Ok (d', v) ->
  known d' v /\ same_run s v /\ sn_config v = sn_config s /\ sn_status v = sn_status s /\
  sn_approval v = sn_approval s /\ sn_phase v = sn_phase s /\ sn_body v = sn_body s /\
  forall led, view v led = view s led.
Proof.
  intros [Ha Hs] E. pose proof (exec_ids d (OpAcquire s t now l act)) as Hids. simpl in Hids.
  rewrite E in Hids. simpl in Hids.
  apply acquire_inv in E as (row & row' & (Hr & _)%scoped_row_inv & Hrev & _ & _ & _ & -> & -> & Hc).
  destruct (Hs row Hr) as (Hcfg & _ & Hleft & He). specialize (He Hrev).
  unfold acquired_snapshot in *. destruct (sn_active_budget s) as [b|] eqn:Eb.
  - destruct Hc as [[? _]|(_ & p & Hp & _ & ->)]; [done|]. apply persisted_inv in Hp as ->.
    split_and!; try done. split; [by apply Hids|]. intros r. simpl. rewrite lookup_insert_eq.
    intros [= <-]. split_and!; [done|simpl; lia|exact (left_of_stripped _)|by right].
  - destruct Hc as [[_ ->]|[? _]]; [|done]. split_and!; try done. split; [by apply Hids|].
    intros r. simpl. rewrite lookup_insert_eq. intros [= <-]. simpl. split_and!; [done|lia|done|done].
Qed.

(** ** Cancelling, creating, purging *)

Lemma cancelled_view d prev now t un d' v :
  DurableStore.cancel d prev now t un = Ok (d', v) ->
  forall led, view v led = m_move (view prev led) (Ended cancelled).
Proof.
  intros E. unfold DurableStore.cancel in E.
  destruct (_settle_active _ _ _) as [v0|] eqn:Es; [|done].
  assert (v0 = v) as <-.
  { unfold mbind, result_bind in E. destruct (persisted v0); [|done].
    destruct (scoped_row d prev); [|done]. destruct (raise_if _ _); [|done].
    destruct (_legacy_update _ _); [|done]. by injection E. }
  intros led. by rewrite (view_settled _ _ _ _ _ Es).
Qed.

Lemma law_cancel d prev now t un :
  store_inv d -> known d prev -> lawful d (exec d (OpCancel prev now t un)).
Proof.
  intros Hd Hk. pose proof (exec_wf d (OpCancel prev now t un) (proj1 Hd) I) as Hwf.
  pose proof (exec_ids d (OpCancel prev now t un)) as Hids. revert Hwf Hids. simpl.
  destruct (DurableStore.cancel d prev now t un) as [[d' v]|] eqn:E; simpl;
    [|intros; by apply lawful_refl].
  intros Hwf Hids.
  pose proof (cancelled_view _ _ _ _ _ _ _ E) as Hview.
  apply cancel_inv in E as (row & p & Hr & Hrev & Hnt & _ & Hp & _ & _ & _ & _ & _ & _ & Hrows & _ & Hled & _).
  destruct (known_row _ _ _ Hd Hk Hr Hrev) as (Hr' & He & Hst & Hm).
  apply persisted_inv in Hp as ->.
  assert (forall j, j <> sn_run_id prev -> durable_runs d' !! j = durable_runs d !! j) as Hother
    by (intros j Hj; by rewrite Hrows, lookup_insert_ne).
  apply (lawful_at d d' (sn_run_id prev)); try done.
  - apply views_elsewhere; [done|]. intros c. left. by rewrite Hled.
  - intros r1 r2 H1 H2. rewrite Hrows, lookup_insert_eq in H2. simplify_eq. simpl. lia.
  - rewrite (run_view_row _ _ _ Hr'), (run_view_row d' (sn_run_id prev) _)
      by (by rewrite Hrows, lookup_insert_eq).
    simpl. rewrite He. right. exists (AEnd cancelled).
    change (with_body v (strip_payload (sn_body v))) with (stripped v).
    rewrite view_stripped. rewrite Hview.
    replace (ledger_of d' (sn_run_id prev)) with (ledger_of d (sn_run_id prev))
      by (unfold ledger_of; by rewrite Hled).
    destruct Hm as [_ W2 W3 _ _ _ _ _].
    apply (m_end (view prev (ledger_of d (sn_run_id prev))) cancelled (sn_steps_used prev)
      (sn_tool_calls_used prev)); simpl in *; try done; try lia.
    apply not_ended. congruence.
Qed.

Lemma known_cancelled d prev now t un d' v :
  known d prev -> DurableStore.cancel d prev now t un = Ok (d', v) ->
  known d' v /\ same_run prev v /\ sn_config v = sn_config prev.
Proof.
  intros [Ha Hs] E. pose proof (exec_ids d (OpCancel prev now t un)) as Hids. simpl in Hids.
  rewrite E in Hids. simpl in Hids. assert (sn_config v = sn_config prev) as Vc.
  { unfold DurableStore.cancel in E. destruct (_settle_active _ _ _) as [v0|] eqn:Es; [|done].
    unfold mbind, result_bind in E. destruct (persisted v0); [|done].
    destruct (scoped_row d prev); [|done]. destruct (raise_if _ _); [|done].
    destruct (_legacy_update _ _); [|done]. injection E as _ <-.
    unfold _settle_active in Es. repeat case_match; by simplify_eq. }
  apply cancel_inv in E as (row & p & Hr & Hrev & _ & _ & Hp & Vr & _ & Vi & Vt & Vu & _ & Hrows & _).
  split_and!; [|by unfold same_run|done].
  split; [rewrite Vi; by apply Hids|]. intros r. rewrite Vi, Hrows, lookup_insert_eq.
  intros [= <-]. apply persisted_inv in Hp as ->. split_and!; [done|simpl; lia|exact (left_of_stripped _)|by right].
Qed.

(** A new run has no calls yet. *)
Lemma no_calls d i : store_wf d -> durable_runs d !! i = None -> ledger_of d i = ∅.
Proof.
  intros Hwf Hr. apply map_eq. intros c. rewrite ledger_lookup, lookup_empty.
  destruct (tool_ledger d !! c) as [l|] eqn:El; [|done]. simpl. case_bool_decide as Hi; [|done].
  destruct (wf_ledger _ Hwf _ _ El) as (_ & r & Hx & _). congruence.
Qed.

Definition fresh_run (s : run_snapshot) : Prop :=
  sn_status s = running /\ m_initial (view s ∅).

Lemma law_add_new d s t l d' :
  store_inv d -> fresh_run s -> store_wf d' -> _add_new d s t l = Ok (inl d') ->
  lawful d d' /\ known d' s.
Proof.
  intros Hd [Hst Hi] Hwf E.
  apply _add_new_inv in E as (p & Hp & Ha & Hr & _ & ->). apply persisted_inv in Hp as ->.
  set (d' := {| agent_runs := _ |}) in *.
  split.
  - apply (lawful_at d d' (sn_run_id s)); try done.
    + apply views_elsewhere; [|by left]. intros j Hj. by apply lookup_insert_ne.
    + intros j [a Hj]. simpl. destruct (decide (j = sn_run_id s)) as [->|]; [congruence|].
      by rewrite lookup_insert_ne, Hj.
    + intros j Hj. by apply lookup_insert_ne.
    + intros r r' Hr1. congruence.
    + unfold run_view. rewrite Hr. simpl. rewrite lookup_insert_eq. simpl. split; [done|].
      change (with_body s (strip_payload (sn_body s))) with (stripped s). rewrite view_stripped.
      replace (ledger_of d' (sn_run_id s)) with (ledger_of d (sn_run_id s)) by done.
      rewrite (no_calls d); [done|apply Hd|done].
  - split; [simpl; rewrite lookup_insert_eq; by eexists|]. intros r. simpl.
    rewrite lookup_insert_eq. intros [= <-]. split_and!; [done|simpl; lia|exact (left_of_stripped _)|by right].
Qed.

Lemma law_create d s :
  store_inv d -> fresh_run s -> lawful d (exec d (OpCreate s)) /\
  (forall d', create d s = Ok d' -> known (exec d (OpCreate s)) s).
Proof.
  intros Hd Hf. pose proof (exec_wf d (OpCreate s) (proj1 Hd) (proj1 Hf)) as Hwf. revert Hwf.
  simpl. unfold create, mbind, result_bind.
  destruct (_add_new d s None None) as [[d'|]|] eqn:E; simpl; intros Hwf;
    try (split; [by apply lawful_refl|done]; fail).
  by destruct (law_add_new _ _ _ _ _ Hd Hf Hwf E).
Qed.

Lemma law_create_keyed d s t now l :
  store_inv d -> fresh_run s -> lawful d (exec d (OpCreateKeyed s t now l)) /\
  (forall d' v, create_keyed d s t now l = Ok (d', true, v) ->
   known (exec d (OpCreateKeyed s t now l)) s).
Proof.
  intros Hd Hf. pose proof (exec_wf d (OpCreateKeyed s t now l) (proj1 Hd) (proj1 Hf)) as Hwf.
  revert Hwf. simpl. destruct (create_keyed d s t now l) as [[[d' ins] v]|] eqn:E; simpl; intros Hwf;
    [|split; [by apply lawful_refl|done]].
  apply create_keyed_inv in E as [(-> & -> & E)|(-> & -> & _)].
  - by destruct (law_add_new _ _ _ _ _ Hd Hf Hwf E).
  - split; [by apply lawful_refl|done].
Qed.

Lemma law_purge d tenant now limit scan :
  store_inv d -> lawful d (exec d (OpPurge tenant now limit scan)).
Proof.
  intros Hd. pose proof (exec_wf d (OpPurge tenant now limit scan) (proj1 Hd) I) as Hwf.
  simpl in *. set (ids := expired_ids d tenant now limit scan) in *.
  set (d' := {| agent_runs := _ |}) in *.
  assert (forall i r, durable_runs d' !! i = Some r ->
            durable_runs d !! i = Some r /\ ledger_of d' i = ledger_of d i) as Hkeep.
  { intros i r Hr. simpl in Hr. apply map_lookup_filter_Some in Hr as [Hr Hi]. simpl in Hi.
    split; [done|]. apply map_eq. intros c. rewrite !ledger_lookup. simpl.
    destruct (tool_ledger d !! c) as [l|] eqn:El; simpl.
    - case_bool_decide as Hli.
      + rewrite (map_lookup_filter_Some_2 _ _ c l); [|done|simpl; congruence]. simpl.
        by rewrite bool_decide_true.
      + destruct (filter _ _ !! c) as [l'|] eqn:Ef; [|done].
        apply map_lookup_filter_Some in Ef as [Ef _]. simplify_eq. simpl. by rewrite bool_decide_false.
    - rewrite map_lookup_filter_None_2; [done|by left]. }
  assert (forall i m, run_view d' i = Some m -> run_view d i = Some m) as Hview.
  { intros i m (r & Hr & ->)%run_view_some. destruct (Hkeep _ _ Hr) as [Hr' ->]. by apply run_view_row. }
  split; [split; [done|]| | |done].
  - intros i m Hm. apply Hview in Hm. by eapply Hd.
  - intros i. unfold run_moves. destruct (run_view d' i) as [m|] eqn:Em; [|by destruct (run_view d i)].
    rewrite (Hview _ _ Em). exists []. constructor.
  - intros i r r' Hr Hr'. destruct (Hkeep _ _ Hr') as [Hr'' ->]. simplify_eq. split; [lia|done].
Qed.

(** ** Reading *)

Lemma validated_inv (r : DurableRow SnapshotBody) tenant user i v :
  _validated_snapshot r tenant user i = Ok v ->
  v = dr_snapshot r /\ dr_revision r = sn_revision v /\ sn_run_id v = i /\
  sn_tenant_id v = tenant /\ sn_user_id v = user.
Proof.
  unfold _validated_snapshot, mbind, result_bind. intros E.
  destruct (raise_if _ DURABLE_SCHEMA_UNSUPPORTED); [|done].
  destruct (raise_if (negb (bounded_snapshot _)) _); [|done].
  unfold raise_if in E. destruct (negb _) eqn:Eb; [done|]. apply negb_false_iff in Eb.
  injection E as <-. bool_inv. split_and!; congruence.
Qed.

Lemma known_loaded d tenant user i v :
  store_inv d -> load d tenant user i = Ok v ->
  known d v /\ sn_run_id v = i /\ sn_tenant_id v = tenant /\ sn_user_id v = user.
Proof.
  intros Hd. unfold load. destruct (owned_row d tenant user i) as [r|] eqn:Eo.
  - intros (Hs & Hrev & Hi & Ht & Hu)%validated_inv. split; [|done].
    unfold owned_row in Eo. destruct (durable_runs d !! i) as [r0|] eqn:Hr; [|done].
    destruct (_ && _); [|done]. injection Eo as ->.
    split; [rewrite Hi; eapply row_has_id; [apply Hd|by apply run_view_row]|].
    intros r'. rewrite Hi, Hr. intros [= <-]. rewrite <- Hs; split_and!; [done|lia|lia|by left].
  - destruct (owned_legacy d tenant user i); [|done]. by case_match.
Qed.

(** A snapshot of a well-formed run, whatever has become of the run since. *)
Definition wf_snapshot s : Prop := exists led, m_wf (view s led).

Lemma wf_view s s' : (forall led, view s' led = view s led) -> wf_snapshot s -> wf_snapshot s'.
Proof. intros Hv [led Hw]. exists led. by rewrite Hv. Qed.

Lemma loaded_row d tenant user i v :
  store_inv d -> load d tenant user i = Ok v ->
  exists r, durable_runs d !! i = Some r /\ dr_snapshot r = v.
Proof.
  intros Hd. unfold load. destruct (owned_row d tenant user i) as [r|] eqn:Eo.
  - intros (-> & _)%validated_inv. unfold owned_row in Eo.
    destruct (durable_runs d !! i) as [r0|] eqn:Hr; [|done]. destruct (_ && _); [|done].
    injection Eo as ->. by exists r.
  - destruct (owned_legacy d tenant user i); [|done]. by case_match.
Qed.

Lemma loaded_wf d tenant user i v : store_inv d -> load d tenant user i = Ok v -> wf_snapshot v.
Proof.
  intros Hd (r & Hr & <-)%loaded_row; [|done]. exists (ledger_of d i).
  by apply (proj2 Hd i), run_view_row.
Qed.

(** What is read again is not behind what was held. *)
Lemma loaded_after d tenant user s v :
  store_inv d -> known d s -> load d tenant user (sn_run_id s) = Ok v ->
  sn_config v = sn_config s /\ left_of v <= left_of s.
Proof.
  intros Hd [_ Hs] (r & Hr & <-)%loaded_row; [|done].
  destruct (Hs r Hr) as (? & _ & ? & _). done.
Qed.

(** While a run goes on, something of it is left. *)
Lemma left_running s :
  wf_snapshot s -> sn_status s = running ->
  0 <= left_of s <= 3 * rc_max_steps (sn_config s) + 2.
Proof.
  intros [led [W1 W2 _ _ _ _ _ _]] Hst. unfold left_of, m_left. simpl in *.
  destruct (stage_of s) as [[]| | | |st|] eqn:E; try lia.
  exfalso. unfold stage_of in E. rewrite Hst in E. repeat case_match; done.
Qed.

Lemma read_ledger d s c e :
  store_inv d -> ledger d s c = Ok e -> read_entry d s e /\ le_call_id e = c.
Proof.
  intros [Hwf _]. unfold ledger. destruct (tool_ledger d !! c) as [l|] eqn:El; [|done].
  destruct (_ && _) eqn:Eb; [|done]. intros [= <-]. bool_inv.
  destruct (wf_ledger _ Hwf _ _ El) as [Hc _]. split; [|done].
  intros r _ _. rewrite ledger_lookup, Hc, El. simpl. by rewrite bool_decide_true.
Qed.
End Law.
