(* ===== verification/DurableService.v ===== *)
(** The durable agent service.

    Models [packages/agent/durable/service.py]: starting, reading, resuming,
    cancelling and driving a run whose state lives in the store of [DurableStore],
    one bounded phase at a time, with the decisions, the validation and the tool
    calls of [AgentRuntime], and the journal that writes a ledger entry before a
    tool is dispatched and its outcome after.

    The service is a coroutine among others.  What it cannot decide is the
    interface [DurablePorts]: clocks and identifiers, the transactions other
    workers commit before each of its own, whether a transaction of its own
    commits and is answered, when its heartbeat beats, when a wait is cut short,
    what the registry, the evidence revalidator and the audit port answer.  A
    timeout or a cancellation of the task is an outcome of an awaited call, so it
    can arrive at every [await] and at no other place.  [sw_log] records the
    service's own commits and dispatches in order. *)

From Stdlib Require Import ZArith String.
From S2P Require Import Prelude Effects Float64 PyVal Access Redact Json AgentDto SourceMetadata ContextPacker.
From S2P Require Import FinalAnswer DurableStore AgentRuntime DurableDto.
From S2P Require Registry.
From stdpp Require Import base list gmap numbers.

#[local] Open Scope eff_scope.
#[local] Open Scope Z_scope.
#[local] Arguments fadd : simpl never.
#[local] Arguments fsub : simpl never.
#[local] Arguments fmul : simpl never.
#[local] Arguments fdiv : simpl never.

(** * The outside *)

Abbreviation store_transaction := (@store_op SnapshotBody AgentObservationSummary).

(** A transaction the service awaits: answered, failed, or cut off by a
    cancellation; in the last two cases it may have committed. *)
Inductive fate : Type :=
| FReturns
| FUnavailable (committed : bool)
| FCancelled (committed : bool).

Inductive port_result {A : Type} : Type :=
| PReturns (a : A)
| PRaises (e : durable_exn).
Arguments port_result : clear implicits.

(** What ended the wait of [_drive] for a task that was still running. *)
Inductive wait_end : Type := WaitTimeout | WaitDisconnected.

(** A node the graph framework runs, with the reference it hands to it. *)
Inductive graph_node : Type := GnAdvance (run_ref : pystr) | GnApproval (run_ref : pystr).

Class DurablePorts (W : Type) := {
  port_clock : W -> float * W;                                 (* [wall_clock] *)
  port_uuid : W -> pystr * W;
  port_others : W -> list store_transaction * W;               (* of other workers *)
  port_fate : W -> fate * W;
  port_scan : W -> list pystr * W;                             (* the order of a purge *)
  port_beats : W -> nat * W;                                   (* heartbeats that are due *)
  port_timed_out : W -> bool * W;     (* a wait was cut by its own timeout, not by the caller *)
  port_interrupted : W -> bool * W;   (* the caller was cancelled while a shielded task ran *)
  port_wait : W -> wait_end * W;
  port_patience : W -> nat * W;       (* turns of a retry loop that fit into its timeout *)
  port_graph : W -> (list graph_node * option durable_exn) * W;
  port_tool_names : W -> list pystr;
  port_get_tool : pystr -> RequestContext -> W -> port_result ToolDefinition * W;
  port_rehydrate : RequestContext -> list AgentObservationSummary -> list (pystr * pystr) -> W ->
    port_result (list AgentObservationSummary * list (pystr * pystr)) * W;
  port_context_revalidator : option (RequestContext -> W -> port_result RequestContext * W);
  port_new_grant : Registry.ToolApprovalGrant -> W -> N * W;
  port_receipt : N -> W -> bool * bool;        (* [registry_entered], [handler_started] *)
  port_transition_audit : option (AuditEvent -> W -> await_outcome * W)
}.

(** * Worlds *)

Inductive durable_event : Type :=
| EvCommit (before : run_store) (o : store_transaction)
| EvDispatch (c : Registry.call).

Record sworld {W : Type} : Type := {
  sw_tables : run_store;
  sw_inner : W;
  sw_log : list durable_event
}.
Arguments sworld : clear implicits.

(** [_DurableExecution].  The dispatch receipt is that of its live runtime
    execution; the heartbeat runs from the claim to its end. *)
Inductive heartbeat_state : Type := HbIdle | HbBeating | HbDone.

Record DurableExecution : Type := {
  de_created_here : bool;
  de_context : RequestContext;
  de_snapshot : run_snapshot;
  de_token : pystr;
  de_runtime : AgentRuntime;
  de_revocation_error : option durable_exn;
  de_receipt : option N;
  de_heartbeat : heartbeat_state
}.

Record dworld {W : Type} : Type := {
  dw_base : sworld W;
  dw_exec : DurableExecution
}.
Arguments dworld : clear implicits.

Definition with_base {W} (w : dworld W) (b : sworld W) : dworld W :=
  {| dw_base := b; dw_exec := dw_exec w |}.
Definition with_execution {W} (w : dworld W) (x : DurableExecution) : dworld W :=
  {| dw_base := dw_base w; dw_exec := x |}.

Definition ex_snapshot (x : DurableExecution) (s : run_snapshot) : DurableExecution :=
  {| de_created_here := de_created_here x; de_context := de_context x; de_snapshot := s;
     de_token := de_token x; de_runtime := de_runtime x;
     de_revocation_error := de_revocation_error x; de_receipt := de_receipt x;
     de_heartbeat := de_heartbeat x |}.
Definition ex_context (x : DurableExecution) (ctx : RequestContext) : DurableExecution :=
  {| de_created_here := de_created_here x; de_context := ctx; de_snapshot := de_snapshot x;
     de_token := de_token x; de_runtime := de_runtime x;
     de_revocation_error := de_revocation_error x; de_receipt := de_receipt x;
     de_heartbeat := de_heartbeat x |}.
Definition ex_receipt (x : DurableExecution) (r : option N) : DurableExecution :=
  {| de_created_here := de_created_here x; de_context := de_context x;
     de_snapshot := de_snapshot x; de_token := de_token x; de_runtime := de_runtime x;
     de_revocation_error := de_revocation_error x; de_receipt := r;
     de_heartbeat := de_heartbeat x |}.
Definition ex_heartbeat (x : DurableExecution) (h : heartbeat_state) : DurableExecution :=
  {| de_created_here := de_created_here x; de_context := de_context x;
     de_snapshot := de_snapshot x; de_token := de_token x; de_runtime := de_runtime x;
     de_revocation_error := de_revocation_error x; de_receipt := de_receipt x;
     de_heartbeat := h |}.
Definition ex_revoked (x : DurableExecution) (e : durable_exn) : DurableExecution :=
  {| de_created_here := de_created_here x; de_context := de_context x;
     de_snapshot := de_snapshot x; de_token := de_token x; de_runtime := de_runtime x;
     de_revocation_error := Some e; de_receipt := de_receipt x;
     de_heartbeat := de_heartbeat x |}.
(** [execution.created_here = False] and the start of its heartbeat. *)
Definition ex_claimed (x : DurableExecution) (s : run_snapshot) : DurableExecution :=
  {| de_created_here := false; de_context := de_context x; de_snapshot := s;
     de_token := de_token x; de_runtime := de_runtime x;
     de_revocation_error := de_revocation_error x; de_receipt := de_receipt x;
     de_heartbeat := HbBeating |}.

(** * The service *)

Record DurableAgentService : Type := {
  sv_backend : DurableBackend;
  sv_default_max_steps : Z;
  sv_default_max_tool_calls : Z;
  sv_default_timeout_seconds : float;
  sv_repeated_action_threshold : Z;
  sv_retention_seconds : float;
  sv_lease_seconds : float;
  sv_background_enabled : bool;
  sv_runtime_factory : RunConfig -> pystr -> AgentRuntime
}.

Definition valid_service (s : DurableAgentService) : bool :=
  flt fzero (sv_lease_seconds s) && fle (sv_lease_seconds s) (fofZ 60)
  && negb (flt (sv_retention_seconds s) (fofZ 120)).

Definition domain (code : string) : durable_exn := ExDomain (u code).

(** [except TimeoutError: raise durable_error(code)]. *)
Definition timeout_as {W A} (code : string) (m : eff durable_exn W A) : eff durable_exn W A :=
  mcatch m (fun e => mraise match e with ExTimeout => domain code | e => e end).

Section Service.
Context `{PyRepr, UnicodeDB, UnicodeDigits, NetlocCheck} `{SnapshotSize}.
Context {W : Type} `{AgentPorts W} `{DurablePorts W} (svc : DurableAgentService).

Abbreviation sv A := (eff durable_exn (sworld W) A).
Abbreviation ex A := (eff durable_exn (dworld W) A).

(** ** Reading the outside *)

Definition outside {A} (f : W -> A * W) : sv A := fun w =>
  let '(a, i) := f (sw_inner w) in
  (Ok a, {| sw_tables := sw_tables w; sw_inner := i; sw_log := sw_log w |}).
Definition answered {A} (f : W -> port_result A * W) : sv A :=
  r <- outside f;;
  match r with PReturns a => mreturn a | PRaises e => mraise e end.
Definition clock : sv float := outside port_clock.
Definition perf_counter : sv float := outside port_now.

(** What other workers commit until the service's own access. *)
Definition meanwhile (w : sworld W) : sworld W :=
  let '(ops, i) := port_others (sw_inner w) in
  {| sw_tables := exec_all (sw_tables w) ops; sw_inner := i; sw_log := sw_log w |}.

(** The error an unanswered access raises. *)
Definition fate_error (f : fate) : durable_exn :=
  match f with
  | FCancelled _ => ExCancelled
  | _ => domain "DURABLE_STORAGE_UNAVAILABLE"
  end.
Definition fate_commits (f : fate) : bool :=
  match f with FReturns => true | FUnavailable c | FCancelled c => c end.

Definition store_result {A} (r : result durable_error A) : result durable_exn A :=
  match r with Ok a => Ok a | Err e => Err (store_exn e) end.

(** A read of the store. *)
Definition query {A} (read : run_store -> result durable_error A) : sv A := fun w =>
  let w := meanwhile w in
  let '(f, i) := port_fate (sw_inner w) in
  let w := {| sw_tables := sw_tables w; sw_inner := i; sw_log := sw_log w |} in
  match f with
  | FReturns => (store_result (read (sw_tables w)), w)
  | _ => (Err (fate_error f), w)
  end.

(** A transaction [o] with the value [read] that the method returns. *)
Definition transact {A} (o : store_transaction) (read : run_store -> result durable_error A) : sv A :=
  fun w =>
    let w := meanwhile w in
    let '(f, i) := port_fate (sw_inner w) in
    let d := sw_tables w in
    let r := read d in
    let w := if fate_commits f
             then {| sw_tables := exec d o; sw_inner := i;
                     sw_log := if is_ok r then sw_log w ++ [EvCommit d o] else sw_log w |}
             else {| sw_tables := d; sw_inner := i; sw_log := sw_log w |} in
    match f with
    | FReturns => (store_result r, w)
    | _ => (Err (fate_error f), w)
    end.

(** [_await_with_timeout]. *)
Definition timed {A} (timeout_seconds : float) (m : sv A) : sv A :=
  if fle timeout_seconds fzero then mraise ExTimeout else
  mcatch m (fun e =>
    match e with
    | ExCancelled =>
        own <- outside port_timed_out;;
        mraise (if (own : bool) then ExTimeout else ExCancelled)
    | e => mraise e
    end).

Definition store_load (tenant user run_id : pystr) : sv run_snapshot :=
  query (fun d => load d tenant user run_id).
Definition store_ledger (s : run_snapshot) (call_id : pystr) : sv ledger_entry :=
  query (fun d => ledger d s call_id).
Definition store_owns (s : run_snapshot) (token : pystr) (allow_unclaimed : bool) : sv bool :=
  query (fun d => Ok (owns d s token allow_unclaimed)).
Definition store_purge (tenant : pystr) (t : float) : sv unit :=
  scan <- outside port_scan;;
  transact (OpPurge tenant t 100 scan) (fun _ => Ok tt).
Definition store_save (previous s : run_snapshot) (token : pystr) (t : float)
    (entry : option ledger_entry) : sv run_snapshot :=
  transact (OpSave previous s token t entry) (fun d => snd <$> save d previous s token t entry).
Definition store_cancel (previous : run_snapshot) (t : float) (token : option pystr)
    (allow_unclaimed : bool) : sv run_snapshot :=
  transact (OpCancel previous t token allow_unclaimed)
    (fun d => snd <$> DurableStore.cancel d previous t token allow_unclaimed).
Definition store_release (s : run_snapshot) (token : pystr) : sv unit :=
  transact (OpRelease s token) (fun _ => Ok tt).
Definition store_renew (s : run_snapshot) (token : pystr) (t : float) : sv unit :=
  transact (OpRenew s token t (sv_lease_seconds svc))
    (fun d => (fun _ => tt) <$> renew d s token t (sv_lease_seconds svc)).
Definition store_acquire (s : run_snapshot) (token : pystr) (t : float) (activate : bool)
  : sv run_snapshot :=
  transact (OpAcquire s token t (sv_lease_seconds svc) activate)
    (fun d => snd <$> acquire d s token t (sv_lease_seconds svc) activate).

(** ** Budgets and audit *)

Definition remaining_at (s : run_snapshot) (t : float) : float :=
  match sn_active_budget s with
  | None => max0 (fsub (sn_deadline_at s) t)
  | Some b =>
      let elapsed := match ab_active_since_at b with
                     | Some since => max0 (fsub t since)
                     | None => fzero
                     end in
      max0 (fmin (fsub (fsub (rc_timeout_seconds (sn_config s)) (ab_seconds_used b)) elapsed)
                 (fsub (sn_expires_at s) t))
  end.
Definition _remaining (s : run_snapshot) : sv float :=
  t <- clock;; mreturn (remaining_at s t).

Definition status_value (s : DurableStatus) : pystr :=
  match s with
  | running => u "running" | awaiting_approval => u "awaiting_approval"
  | completed => u "completed" | failed => u "failed" | stopped => u "stopped"
  | cancelled => u "cancelled" | intervention_required => u "intervention_required"
  end.

Definition transition_event (ctx : RequestContext) (s : run_snapshot) (action : pystr)
    (latency_ms : float) (approval_ref : option pystr) : result agent_dto_error AuditEvent :=
  resource ← make_audit_resource (u "agent_run") (sn_run_id s) [];
  make_audit_event (rc_request_id ctx) (rc_trace_id ctx) (sn_tenant_id s) (sn_user_id s) action
    resource
    (match sn_status s with
     | failed | intervention_required => AuditFAILURE
     | cancelled | stopped => AuditDENIED
     | _ => AuditSUCCESS
     end)
    latency_ms (sn_error_code s)
    [(u "durable_status", VStr (status_value (sn_status s))); (u "revision", VInt (sn_revision s));
     (u "steps_used", VInt (sn_steps_used s)); (u "tool_calls_used", VInt (sn_tool_calls_used s));
     (u "approval_ref", opt_str approval_ref)].

(** Best effort: only a cancellation of the caller leaves it. *)
Definition _audit_transition (ctx : RequestContext) (s : run_snapshot) (action : pystr)
    (approval_ref : option pystr) : sv unit :=
  match port_transition_audit with
  | None => mreturn tt
  | Some port =>
      t <- clock;;
      let latency := fmul (max0 (fsub t (sn_started_at s))) (fofZ 1000) in
      match transition_event ctx s action latency approval_ref with
      | Err _ => mreturn tt
      | Ok event =>
          _ <- _remaining s;;
          o <- outside (port event);;
          match o with AwCancelled => mraise ExCancelled | _ => mreturn tt end
      end
  end.

Definition _authorize (ctx : RequestContext) : sv unit :=
  if has_agent_run_permission (rc_auth ctx) then mreturn tt else mraise (domain "AGENT_RUN_FORBIDDEN").

Definition _load (ctx : RequestContext) (run_id : pystr) : sv run_snapshot :=
  _ <- _authorize ctx;;
  value <- timeout_as "DURABLE_STORAGE_TIMEOUT"
             (timed (fofZ 5) (store_load (auth_tenant_id (rc_auth ctx)) (auth_user_id (rc_auth ctx))
                                run_id));;
  t <- clock;;
  if fle (sn_expires_at value) t then
    t2 <- clock;;
    _ <- timeout_as "DURABLE_STORAGE_TIMEOUT"
           (timed (fofZ 5) (store_purge (auth_tenant_id (rc_auth ctx)) t2));;
    mraise (domain "DURABLE_RUN_EXPIRED")
  else mreturn value.

(** ** Current permissions, definitions and evidence *)

Definition runtime_for (s : run_snapshot) : AgentRuntime :=
  sv_runtime_factory svc (sn_config s) (sn_run_id s).

Definition _definition (s : run_snapshot) (ctx : RequestContext) : sv ToolDefinition :=
  match d ← sb_decision (sn_body s); name ← sd_tool_name d; Some (name, sd_arguments d) with
  | None => mraise ExAssertion
  | Some (name, arguments) =>
      definition <- answered (port_get_tool name ctx);;
      if negb (has_tool_permission (rc_auth ctx) (td_permission definition))
      then mraise (domain "TOOL_PERMISSION_DENIED")
      else if bool_decide (td_durable_replay_policy definition = replay_unsupported)
      then mraise (domain "DURABLE_TOOL_UNSUPPORTED")
      else
      _ <- mlift (validate_private_arguments arguments);;
      mreturn definition
  end.

(** The tools of the observations, one after the other. *)
Fixpoint recheck_tools (ctx : RequestContext) (observations : list AgentObservationSummary)
  : sv unit :=
  match observations with
  | [] => mreturn tt
  | o :: rest =>
      definition <- answered (port_get_tool (ob_tool_name o) ctx);;
      if negb (has_tool_permission (rc_auth ctx) (td_permission definition))
      then mraise (domain "TOOL_PERMISSION_DENIED")
      else recheck_tools ctx rest
  end.

Definition same_identity (ctx : RequestContext) (s : run_snapshot) : bool :=
  bool_decide (auth_tenant_id (rc_auth ctx) = sn_tenant_id s)
  && bool_decide (auth_user_id (rc_auth ctx) = sn_user_id s).

(** The runtime execution that continues a snapshot. *)
Definition restored_execution (ctx : RequestContext) (s : run_snapshot) (started deadline : float)
    (observations : list AgentObservationSummary) (counts : list (pystr * Z)) : AgentExecution :=
  {| x_context := ctx; x_started := started; x_deadline := deadline; x_counts := counts;
     x_steps_used := sn_steps_used s; x_tool_calls_used := sn_tool_calls_used s;
     x_observations := observations; x_decision := sb_decision (sn_body s) |}.

Definition _revalidate (ctx : RequestContext) (s : run_snapshot)
  : sv (RequestContext * AgentExecution * list (pystr * pystr)) :=
  ctx <- match port_context_revalidator with
         | None => mreturn ctx
         | Some revalidator => answered (revalidator ctx)
         end;;
  _ <- _authorize ctx;;
  if negb (same_identity ctx s) then mraise (domain "DURABLE_IDENTITY_CHANGED") else
  _ <- recheck_tools ctx (sb_observations (sn_body s));;
  evidence <- answered (port_rehydrate ctx (sb_observations (sn_body s))
                          (sb_evidence_fingerprints (sn_body s)));;
  started <- perf_counter;;
  t <- clock;;
  if flt t (sn_last_observed_at s) then mraise (domain "DURABLE_CLOCK_REGRESSION") else
  elapsed <- match sn_active_budget s with
             | Some _ => r <- _remaining s;;
                         mreturn (fsub (rc_timeout_seconds (sn_config s)) r)
             | None => mreturn (max0 (fsub t (sn_started_at s)))
             end;;
  p <- perf_counter;;
  r <- _remaining s;;
  match restore (sn_repeated_counts s) with
  | None => mraise ExValue
  | Some counts =>
      mreturn (ctx, restored_execution ctx s (fsub started elapsed) (fadd p r) evidence.1 counts,
               evidence.2)
  end.

(** ** Reading and cancelling *)

Definition get (ctx : RequestContext) (run_id : pystr) : sv DurableRunResponse :=
  s <- _load ctx run_id;;
  _ <- (if bool_decide (sn_status s = completed)
        then timeout_as "DURABLE_VALIDATION_TIMEOUT"
               (timed (fofZ 5) (_ <- _revalidate ctx s;; mreturn tt))
        else mreturn tt);;
  mreturn (from_snapshot s).

Definition cancel (ctx : RequestContext) (run_id : pystr) (expected_revision : option Z)
  : sv DurableRunResponse :=
  s <- _load ctx run_id;;
  if negb (bool_decide (expected_revision = Some (sn_revision s)))
  then mraise (domain "DURABLE_RESUME_CONFLICT")
  else if terminal (sn_status s) then mraise (domain "DURABLE_RUN_TERMINAL") else
  t <- clock;;
  saved <- timeout_as "DURABLE_STORAGE_TIMEOUT" (timed (fofZ 5) (store_cancel s t None false));;
  _ <- _audit_transition ctx saved (u "agent.durable.cancelled") None;;
  mreturn (from_snapshot saved).

(** * An execution of a run *)

Definition on_base {A} (m : sv A) : ex A := fun w =>
  let '(r, b) := m (dw_base w) in (r, with_base w b).
Definition the_execution : ex DurableExecution := fun w => (Ok (dw_exec w), w).
Definition set_execution (f : DurableExecution -> DurableExecution) : ex unit :=
  modify (fun w => with_execution w (f (dw_exec w))).

(** [revoke]: the first error stays; the receipt of the live dispatch is revoked. *)
Definition revoke_execution (error : option durable_exn) (w : dworld W) : dworld W :=
  let x := dw_exec w in
  let w := match de_revocation_error x with
           | Some _ => w
           | None => with_execution w (ex_revoked x (default (domain "DURABLE_LEASE_LOST") error))
           end in
  match de_receipt x with
  | None => w
  | Some p =>
      let b := dw_base w in
      with_base w {| sw_tables := sw_tables b; sw_inner := port_revoke p (sw_inner b);
                     sw_log := sw_log b |}
  end.

Definition check_active : ex unit := fun w =>
  match de_revocation_error (dw_exec w) with
  | None => (Ok tt, w)
  | Some e => (Err e, w)
  end.

(** One turn of the heartbeat's loop after its sleep. *)
Definition renewal (x : DurableExecution) : sv unit :=
  t <- clock;;
  r <- _remaining (de_snapshot x);;
  timed (fmin (fmin (fdiv (sv_lease_seconds svc) (fofZ 3)) r) (fofZ 5))
    (store_renew (de_snapshot x) (de_token x) t).

Definition renewal_error (e : durable_exn) : durable_exn :=
  match e with
  | ExTimeout | ExCancelled => domain "DURABLE_STORAGE_TIMEOUT"
  | ExDomain code => ExDomain code
  | _ => domain "DURABLE_STORAGE_UNAVAILABLE"
  end.

Definition heartbeat_beat (w : dworld W) : dworld W :=
  let x := dw_exec w in
  match de_heartbeat x with
  | HbBeating =>
      if terminal (sn_status (de_snapshot x)) then with_execution w (ex_heartbeat x HbDone) else
      match renewal x (dw_base w) with
      | (Ok _, b) => with_base w b
      | (Err e, b) =>
          revoke_execution (Some (renewal_error e))
            (with_execution (with_base w b) (ex_heartbeat x HbDone))
      end
  | _ => w
  end.

(** The heartbeats that fall into an [await]. *)
Definition beats (w : dworld W) : dworld W :=
  let b := dw_base w in
  let '(n, i) := port_beats (sw_inner b) in
  Nat.iter n heartbeat_beat
    (with_base w {| sw_tables := sw_tables b; sw_inner := i; sw_log := sw_log b |}).

Definition awaiting {A} (m : sv A) : ex A := fun w => on_base m (beats w).

(** The part of a result the store keeps in columns. *)
Definition result_column (r : AgentRunResult) : RunResult :=
  {| rr_error_code := ars_error_code r;
     rr_termination_reason := termination_value (ars_termination_reason r);
     rr_latency_ms := ars_latency_ms r |}.

(** ** Copies of a snapshot

    [model_copy] with the fields the service updates; one definition for each
    update the code makes. *)
Definition model_copy (s : run_snapshot) (status : DurableStatus) (phase : DurablePhase)
    (steps calls : Z) (counts : list (pystr * Z)) (active : option DurableActiveBudget)
    (approval : option ApprovalRequest) (res : option RunResult) (error : option pystr)
    (body : SnapshotBody) : run_snapshot :=
  {| sn_run_id := sn_run_id s; sn_tenant_id := sn_tenant_id s; sn_user_id := sn_user_id s;
     sn_request_id := sn_request_id s; sn_trace_id := sn_trace_id s; sn_startup := sn_startup s;
     sn_active_budget := active; sn_dispatch := sn_dispatch s; sn_revision := sn_revision s;
     sn_config := sn_config s; sn_status := status; sn_phase := phase;
     sn_started_at := sn_started_at s; sn_deadline_at := sn_deadline_at s;
     sn_last_observed_at := sn_last_observed_at s; sn_expires_at := sn_expires_at s;
     sn_steps_used := steps; sn_tool_calls_used := calls; sn_repeated_counts := counts;
     sn_approval := approval; sn_result := res;
     sn_error_code := error; sn_body := body |}.

Definition body_copy (b : SnapshotBody) (observations : list AgentObservationSummary)
    (fingerprints : list (pystr * pystr)) (d : option AgentStepDecision)
    (approved_action approved_definition pending : option pystr) (inflight : bool)
    (res : option AgentRunResult) : SnapshotBody :=
  {| sb_backend := sb_backend b; sb_observations := observations;
     sb_evidence_fingerprints := fingerprints; sb_decision := d;
     sb_approval_tools := sb_approval_tools b; sb_approved_action_digest := approved_action;
     sb_approved_definition_digest := approved_definition; sb_pending_call_id := pending;
     sb_decision_inflight := inflight; sb_result := res |}.

Definition body_keeping (b : SnapshotBody) (d : option AgentStepDecision)
    (approved_action approved_definition pending : option pystr) : SnapshotBody :=
  body_copy b (sb_observations b) (sb_evidence_fingerprints b) d approved_action
    approved_definition pending (sb_decision_inflight b) (sb_result b).

Definition copy_stop (s : run_snapshot) (code : pystr) (status : DurableStatus) : run_snapshot :=
  let b := sn_body s in
  model_copy s status done_ (sn_steps_used s) (sn_tool_calls_used s) (sn_repeated_counts s)
    (sn_active_budget s) None None (Some code)
    (body_copy b (sb_observations b) (sb_evidence_fingerprints b) (sb_decision b)
       (sb_approved_action_digest b) (sb_approved_definition_digest b) (sb_pending_call_id b)
       (sb_decision_inflight b) None).

(** [AgentRunStatus(...).value] as a durable status. *)
Definition result_status (s : AgentRunStatus) : DurableStatus :=
  match s with RunCOMPLETED => completed | RunSTOPPED => stopped | RunFAILED => failed end.

Definition with_totals (r : AgentRunResult) (s : run_snapshot) : AgentRunResult :=
  {| ars_status := ars_status r; ars_termination_reason := ars_termination_reason r;
     ars_steps_used := Z.max (ars_steps_used r) (sn_steps_used s);
     ars_tool_calls_used := Z.max (ars_tool_calls_used r) (sn_tool_calls_used s);
     ars_final_answer := ars_final_answer r; ars_final_citations := ars_final_citations r;
     ars_error_code := ars_error_code r; ars_request_id := ars_request_id r;
     ars_trace_id := ars_trace_id r; ars_tenant_id := ars_tenant_id r;
     ars_user_id := ars_user_id r; ars_observations := ars_observations r;
     ars_latency_ms := ars_latency_ms r; ars_metadata := ars_metadata r |}.

Definition copy_finish (s : run_snapshot) (res : AgentRunResult) : run_snapshot :=
  let r := with_totals res s in
  let b := sn_body s in
  model_copy s (result_status (ars_status r)) done_ (ars_steps_used r) (ars_tool_calls_used r)
    (sn_repeated_counts s) (sn_active_budget s) None (Some (result_column r)) (ars_error_code r)
    (body_copy b (ars_observations r) (sb_evidence_fingerprints b) (sb_decision b)
       (sb_approved_action_digest b) (sb_approved_definition_digest b) None
       (sb_decision_inflight b) (Some r)).

Definition copy_same (s : run_snapshot) (status : DurableStatus) (phase : DurablePhase)
    (steps calls : Z) (counts : list (pystr * Z)) (active : option DurableActiveBudget)
    (approval : option ApprovalRequest) (body : SnapshotBody) : run_snapshot :=
  model_copy s status phase steps calls counts active approval (sn_result s)
    (sn_error_code s) body.

Definition copy_reserve (s : run_snapshot) : run_snapshot :=
  let b := sn_body s in
  copy_same s (sn_status s) (sn_phase s) (sn_steps_used s + 1) (sn_tool_calls_used s)
    (sn_repeated_counts s) (sn_active_budget s) (sn_approval s)
    (body_copy b (sb_observations b) (sb_evidence_fingerprints b) (sb_decision b)
       (sb_approved_action_digest b) (sb_approved_definition_digest b) (sb_pending_call_id b) true
       (sb_result b)).

Definition copy_decided (s : run_snapshot) (steps : Z) (d : AgentStepDecision)
    (fingerprints : list (pystr * pystr)) : run_snapshot :=
  let b := sn_body s in
  copy_same s (sn_status s)
    (match sd_action d with FINAL_ANSWER => validation | TOOL_CALL => tool end)
    steps (sn_tool_calls_used s) (sn_repeated_counts s) (sn_active_budget s) (sn_approval s)
    (body_copy b (sb_observations b) fingerprints (Some d) (sb_approved_action_digest b)
       (sb_approved_definition_digest b) (sb_pending_call_id b) false (sb_result b)).

(** The remaining updates of status, approval and payload. *)
Definition copy_step (s : run_snapshot) (status : DurableStatus) (phase : DurablePhase)
    (active : option DurableActiveBudget) (approval : option ApprovalRequest)
    (body : SnapshotBody) : run_snapshot :=
  copy_same s status phase (sn_steps_used s) (sn_tool_calls_used s) (sn_repeated_counts s) active
    approval body.

Definition copy_forget (s : run_snapshot) : run_snapshot :=
  let b := sn_body s in
  copy_step s (sn_status s) (sn_phase s) (sn_active_budget s) (sn_approval s)
    (body_keeping b (sb_decision b) (sb_approved_action_digest b)
       (sb_approved_definition_digest b) None).

Definition copy_await (s : run_snapshot) (request : ApprovalRequest) : run_snapshot :=
  copy_step s awaiting_approval (sn_phase s) (sn_active_budget s) (Some request) (sn_body s).

Definition copy_approve (s : run_snapshot) (request : ApprovalRequest)
    (active : option DurableActiveBudget) : run_snapshot :=
  let b := sn_body s in
  copy_step s running (sn_phase s) active None
    (body_keeping b (sb_decision b) (Some (ap_action_digest request))
       (Some (ap_definition_digest request)) (sb_pending_call_id b)).

Definition copy_clear (s : run_snapshot) : run_snapshot :=
  copy_step s (sn_status s) decision (sn_active_budget s) (sn_approval s)
    (body_keeping (sn_body s) None None None (sb_pending_call_id (sn_body s))).

Definition copy_dispatch (s : run_snapshot) (x : AgentExecution) (call_id : pystr) : run_snapshot :=
  let b := sn_body s in
  copy_same s (sn_status s) (sn_phase s) (x_steps_used x) (x_tool_calls_used x) (x_counts x)
    (sn_active_budget s) (sn_approval s)
    (body_keeping b (sb_decision b) (sb_approved_action_digest b)
       (sb_approved_definition_digest b) (Some call_id)).

Definition copy_complete (s : run_snapshot) (observations : list AgentObservationSummary)
    (fingerprints : list (pystr * pystr)) : run_snapshot :=
  let b := sn_body s in
  copy_step s (sn_status s) decision (sn_active_budget s) (sn_approval s)
    (body_copy b observations fingerprints None None None None (sb_decision_inflight b)
       (sb_result b)).

(** ** Saving *)

Definition audit_transition (action : pystr) (approval_ref : option pystr) : ex unit :=
  x <- the_execution;;
  awaiting (_audit_transition (de_context x) (de_snapshot x) action approval_ref).

Definition save_snapshot (s : run_snapshot) (entry : option ledger_entry) (allow_revoked : bool)
  : ex unit :=
  _ <- (if allow_revoked then mreturn tt else check_active);;
  t <- on_base clock;;
  x <- the_execution;;
  let previous := de_snapshot x in
  let early := flt t (sn_last_observed_at previous) in
  if early && negb (bool_decide (sn_error_code s = Some (u "DURABLE_CLOCK_REGRESSION")))
  then mraise (domain "DURABLE_CLOCK_REGRESSION") else
  let t := if early then sn_last_observed_at previous else t in
  saved <- awaiting (store_save previous s (de_token x) t entry);;
  _ <- set_execution (fun x => ex_snapshot x saved);;
  _ <- (if allow_revoked then mreturn tt else check_active);;
  if bool_decide (sn_status previous = sn_status saved) then mreturn tt else
  audit_transition (u "agent.durable." ++ status_value (sn_status saved))
    (match sn_approval previous with
     | Some a => Some (ap_approval_id a)
     | None => ap_approval_id <$> sn_approval saved
     end).

Definition stop (code : pystr) (status : DurableStatus) (allow_revoked : bool) : ex unit :=
  x <- the_execution;;
  save_snapshot (copy_stop (de_snapshot x) code status) None allow_revoked.

Definition finish (res : AgentRunResult) (entry : option ledger_entry) : ex unit :=
  x <- the_execution;;
  save_snapshot (copy_finish (de_snapshot x) res) entry false.

(** ** The runtime inside an execution

    The runtime's ports are the outside seen through the execution: every await
    lets the heartbeat beat, a dispatch is logged and its receipt becomes the one
    that [revoke] revokes. *)

Definition within {A} (f : W -> A * W) (w : dworld W) : A * dworld W :=
  let b := dw_base w in
  let '(a, i) := f (sw_inner b) in
  (a, with_base w {| sw_tables := sw_tables b; sw_inner := i; sw_log := sw_log b |}).

Definition dispatch_logged (c : Registry.call) (w : dworld W) : dworld W :=
  let b := dw_base w in
  with_base w {| sw_tables := sw_tables b; sw_inner := sw_inner b;
                 sw_log := sw_log b ++ [EvDispatch c] |}.

#[export] Instance execution_ports : AgentPorts (dworld W) := {|
  port_now := within port_now;
  port_default_now := within port_default_now;
  port_step := fun st t w => within (port_step st t) (beats w);
  port_execute := fun c t w => within (port_execute c t) (dispatch_logged c (beats w));
  port_new_dispatch := fun w =>
    let '(p, w) := within port_new_dispatch w in
    (p, with_execution w (ex_receipt (dw_exec w) (Some p)));
  port_revoke := fun p w => (within (fun i => (tt, port_revoke p i)) w).2;
  port_validator :=
    (fun v ctx q obs t w => within (v ctx q obs t) (beats w)) <$> port_validator (W := W);
  port_emit := fun e w => within (port_emit e) (beats w);
  port_audit := fun e w => within (port_audit e) (beats w)
|}.

Abbreviation act A := (eff (rt_exn durable_exn) (rworld (dworld W)) A).

Definition runtime_exn (e : rt_exn durable_exn) : durable_exn :=
  match e with RtCancelled => ExCancelled | RtAssertion => ExAssertion | RtJournal e => e end.

(** A step of the runtime on the execution [live]. *)
Definition in_runtime {A} (live : AgentExecution) (m : act A) : ex (A * AgentExecution) := fun w =>
  match m {| rw_inner := w; rw_exec := live; rw_trace := [] |} with
  | (Ok a, w') => (Ok (a, rw_exec w'), rw_inner w')
  | (Err e, w') => (Err (runtime_exn e), rw_inner w')
  end.

(** A step of the journal, with the runtime execution it reads. *)
Definition journal_step {A} (f : AgentExecution -> ex A) : act A := fun w =>
  match f (rw_exec w) (rw_inner w) with
  | (Ok a, i) => (Ok a, with_inner w i)
  | (Err e, i) => (Err (RtJournal e), with_inner w i)
  end.

Definition or_raise {A} (o : option A) (e : durable_exn) : ex A :=
  match o with Some a => mreturn a | None => mraise e end.

(** ** The tool journal *)

Definition ledger_policy (p : DurableReplayPolicy) : option ReplayPolicy :=
  match p with
  | replay_unsupported => None
  | replay_read_only => Some read_only
  | replay_never => Some never
  end.

Definition ledger_with (e : ledger_entry) (status : LedgerStatus)
    (observation : option AgentObservationSummary) : ledger_entry :=
  {| le_call_id := le_call_id e; le_tool_name := le_tool_name e;
     le_action_digest := le_action_digest e; le_replay_policy := le_replay_policy e;
     le_status := status; le_observation := observation |}.

Definition journal_before (definition : ToolDefinition) (call_id : pystr) (x : AgentExecution)
  : ex (option N) :=
  d <- or_raise (x_decision x) ExAssertion;;
  policy <- or_raise (ledger_policy (td_durable_replay_policy definition)) ExAssertion;;
  own <- the_execution;;
  digest <- or_raise (decision_digest d) ExValue;;
  _ <- save_snapshot (copy_dispatch (de_snapshot own) x call_id)
         (Some {| le_call_id := call_id; le_tool_name := td_name definition;
                  le_action_digest := digest; le_replay_policy := policy; le_status := started;
                  le_observation := None |}) false;;
  _ <- check_active;;
  own <- the_execution;;
  let s := de_snapshot own in
  t <- on_base clock;;
  r <- on_base (_remaining s);;
  if fle r fzero then mraise (domain "AGENT_TIMEOUT")
  else if flt t (sn_last_observed_at s) then mraise (domain "DURABLE_CLOCK_REGRESSION")
  else if td_requires_approval definition then
    if negb (bool_decide (sb_approved_action_digest (sn_body s) = Some digest))
    then mraise (domain "DURABLE_APPROVAL_REQUIRED")
    else
    arguments <- or_raise (Registry.argument_digest (sd_arguments d)) ExValue;;
    grant <- on_base (outside (port_new_grant
      {| Registry.ag_run_id := sn_run_id s; Registry.ag_tenant_id := sn_tenant_id s;
         Registry.ag_user_id := sn_user_id s; Registry.ag_tool_name := td_name definition;
         Registry.ag_arguments_digest := arguments; Registry.ag_expires_at := sn_deadline_at s;
         Registry.ag_consumed := false |}));;
    mreturn (Some grant)
  else mreturn None.

Definition journal_after (call_id : pystr) (r : ToolExecutionResult) (x : AgentExecution)
  : ex unit :=
  let observation := _summarize_tool_result r in
  own <- the_execution;;
  entry <- awaiting (store_ledger (de_snapshot own) call_id);;
  own <- the_execution;;
  evidence <- awaiting (answered (port_rehydrate (de_context own)
                (x_observations x ++ [observation])
                (sb_evidence_fingerprints (sn_body (de_snapshot own)))));;
  own <- the_execution;;
  save_snapshot (copy_complete (de_snapshot own) evidence.1 evidence.2)
    (Some (ledger_with entry ledger_completed (Some observation))) false.

Definition tool_journal (definition : ToolDefinition) : AgentToolJournal (W := dworld W) :=
  {| before_dispatch := fun call_id => journal_step (journal_before definition call_id);
     after_dispatch := fun call_id r => journal_step (journal_after call_id r) |}.

(** ** One tool phase *)

(** A dispatch whose outcome is unknown: [true] when it may be repeated, [false]
    when the run was ended for intervention. *)
Definition settle_pending (definition : ToolDefinition) (digest : pystr) : ex bool :=
  x <- the_execution;;
  match sb_pending_call_id (sn_body (de_snapshot x)) with
  | None => mreturn true
  | Some call_id =>
      entry <- awaiting (store_ledger (de_snapshot x) call_id);;
      if negb (bool_decide (le_action_digest entry = digest))
         || bool_decide (le_status entry = ledger_completed)
      then mraise (domain "DURABLE_LEDGER_INVALID")
      else if negb (bool_decide (le_replay_policy entry = read_only)
                    && bool_decide (td_durable_replay_policy definition = replay_read_only))
      then _ <- stop (u "DURABLE_TOOL_OUTCOME_UNKNOWN") intervention_required false;;
           mreturn false
      else x <- the_execution;;
           _ <- save_snapshot (copy_forget (de_snapshot x))
                  (Some (ledger_with entry unknown (le_observation entry))) false;;
           mreturn true
  end.

Definition ask_approval (definition : ToolDefinition) (d : AgentStepDecision)
    (digest definition_digest : pystr) : ex unit :=
  id <- on_base (outside port_uuid);;
  x <- the_execution;;
  let s := de_snapshot x in
  expires <- match sn_active_budget s with
             | Some b => t <- on_base clock;;
                         mreturn (fmin (fadd t (ab_approval_timeout_seconds b)) (sn_expires_at s))
             | None => mreturn (sn_deadline_at s)
             end;;
  save_snapshot
    (copy_await s {| ap_approval_id := id; ap_tool_name := td_name definition;
                     ap_arguments := sd_arguments d; ap_action_digest := digest;
                     ap_definition_digest := definition_digest; ap_expires_at := expires |})
    None false.

(** A tool phase that ended the run: what its ledger entry says about it. *)
Definition finish_tool (res : AgentRunResult) : ex unit :=
  x <- the_execution;;
  match sb_pending_call_id (sn_body (de_snapshot x)) with
  | None => finish res None
  | Some call_id =>
      entry <- awaiting (store_ledger (de_snapshot x) call_id);;
      rejected <- (fun w => (Ok (match de_receipt (dw_exec w) with
                                 | Some p => let '(entered, handled) := port_receipt p (sw_inner (dw_base w)) in
                                             entered && negb handled
                                 | None => false
                                 end), w));;
      if (rejected : bool)
      then finish res (Some (ledger_with entry ledger_completed (le_observation entry)))
      else if bool_decide (le_status entry = started) && bool_decide (le_replay_policy entry = never)
      then stop (u "DURABLE_TOOL_OUTCOME_UNKNOWN") intervention_required false
      else finish res None
  end.

Definition execute_tool (live : AgentExecution) : ex unit :=
  _ <- set_execution (fun x => ex_receipt x None);;
  _ <- check_active;;
  x <- the_execution;;
  definition <- awaiting (_definition (de_snapshot x) (de_context x));;
  x <- the_execution;;
  d <- or_raise (sb_decision (sn_body (de_snapshot x))) ExAssertion;;
  digest <- or_raise (decision_digest d) ExValue;;
  definition_digest <- or_raise (_definition_digest definition) ExOther;;
  continue <- settle_pending definition digest;;
  if negb continue then mreturn tt else
  x <- the_execution;;
  let s := de_snapshot x in
  if rc_max_tool_calls (sn_config s) <=? sn_tool_calls_used s then
    r <- in_runtime live (_execute_tool (de_runtime x) None);;
    match r.1 with
    | None => mraise ExAssertion
    | Some res => finish res None
    end
  else
  let needs_approval := td_requires_approval definition
                        || bool_decide (td_name definition ∈ sb_approval_tools (sn_body s)) in
  if needs_approval && negb (bool_decide (sb_approved_action_digest (sn_body s) = Some digest))
  then ask_approval definition d digest definition_digest
  else if needs_approval
          && negb (bool_decide (sb_approved_definition_digest (sn_body s) = Some definition_digest))
  then mraise (domain "DURABLE_APPROVAL_STALE")
  else
  r <- in_runtime live (_execute_tool (de_runtime x) (Some (tool_journal definition)));;
  match r.1 with
  | Some res => finish_tool res
  | None => x <- the_execution;; save_snapshot (copy_clear (de_snapshot x)) None false
  end.

(** ** One phase *)

Definition tool_failed_before (s : run_snapshot) : bool :=
  match list.last (sb_observations (sn_body s)) with
  | Some o => bool_decide (ob_status o = ToolFAILURE)
  | None => false
  end.

Definition decide_phase (live : AgentExecution) (fingerprints : list (pystr * pystr)) : ex unit :=
  x <- the_execution;;
  let s := de_snapshot x in
  if tool_failed_before s then stop AGENT_TOOL_FAILED failed false else
  _ <- (if sn_steps_used s <? rc_max_steps (sn_config s)
        then save_snapshot (copy_reserve s) None false else mreturn tt);;
  r <- in_runtime live (_decide (de_runtime x));;
  match r.1 with
  | Some res => finish res None
  | None =>
      d <- or_raise (x_decision r.2) ExAssertion;;
      _ <- mlift (validate_private_arguments (sd_arguments d));;
      x <- the_execution;;
      save_snapshot (copy_decided (de_snapshot x) (x_steps_used r.2) d fingerprints) None false
  end.

Definition validate_phase (live : AgentExecution) : ex unit :=
  x <- the_execution;;
  r <- in_runtime live (_validate_result (de_runtime x));;
  x <- the_execution;;
  _ <- awaiting (_revalidate (de_context x) (de_snapshot x));;
  x <- the_execution;;
  left <- on_base (_remaining (de_snapshot x));;
  if fle left fzero then stop AGENT_TIMEOUT stopped false else finish r.1 None.

Definition phase_body : ex unit :=
  x <- the_execution;;
  v <- awaiting (_revalidate (de_context x) (de_snapshot x));;
  _ <- set_execution (fun x => ex_context x v.1.1);;
  _ <- check_active;;
  x <- the_execution;;
  match sn_phase (de_snapshot x) with
  | decision => decide_phase v.1.2 v.2
  | validation => validate_phase v.1.2
  | tool => execute_tool v.1.2
  | done_ => mraise (domain "DURABLE_PHASE_INVALID")
  end.

Definition phase_error (e : durable_exn) : ex unit :=
  match e with
  | ExDomain code =>
      if bool_decide (code = u "DURABLE_LEASE_LOST") || bool_decide (code = u "DURABLE_RESUME_CONFLICT")
      then mraise e
      else stop code (if bool_decide (code = AGENT_TIMEOUT) then stopped else failed) false
  | e => mraise e
  end.

Definition reload : ex unit :=
  x <- the_execution;;
  s <- awaiting (store_load (auth_tenant_id (rc_auth (de_context x)))
                   (auth_user_id (rc_auth (de_context x))) (sn_run_id (de_snapshot x)));;
  set_execution (fun x => ex_snapshot x s).

Definition advance : ex unit :=
  _ <- check_active;;
  _ <- reload;;
  _ <- check_active;;
  x <- the_execution;;
  let s := de_snapshot x in
  if negb (bool_decide (sn_status s = running)) then mreturn tt else
  t <- on_base clock;;
  if flt t (sn_last_observed_at s) then stop (u "DURABLE_CLOCK_REGRESSION") failed false else
  left <- on_base (_remaining s);;
  if fle left fzero then stop AGENT_TIMEOUT stopped false else
  mcatch phase_body phase_error.

(** ** Driving a run *)

(** The graph framework ([adapters/durable_langgraph.py]) chooses the nodes; the
    nodes themselves are these two. *)
Definition graph_reference_ok (run_ref : pystr) : ex unit :=
  x <- the_execution;;
  if bool_decide (run_ref = sn_run_id (de_snapshot x)) then mreturn tt
  else mraise (domain "DURABLE_GRAPH_SCOPE_INVALID").

Definition graph_node_body (n : graph_node) : ex unit :=
  match n with
  | GnAdvance run_ref => _ <- graph_reference_ok run_ref;; advance
  | GnApproval run_ref =>
      _ <- graph_reference_ok run_ref;;
      _ <- reload;;
      x <- the_execution;;
      if bool_decide (sn_status (de_snapshot x) = awaiting_approval)
      then mraise (domain "DURABLE_APPROVAL_REQUIRED") else mreturn tt
  end.

Fixpoint graph_run (nodes : list graph_node) : ex unit :=
  match nodes with
  | [] => mreturn tt
  | n :: rest => _ <- graph_node_body n;; graph_run rest
  end.

Definition run_durable_graph : ex unit :=
  plan <- on_base (outside port_graph);;
  _ <- graph_run plan.1;;
  match plan.2 with None => mreturn tt | Some e => mraise e end.

(** [while execution.snapshot.status == "running"], with fuel; [false] is fuel
    exhaustion. *)
Fixpoint advance_loop (fuel : nat) : ex bool :=
  x <- the_execution;;
  if negb (bool_decide (sn_status (de_snapshot x) = running)) then mreturn true else
  match fuel with
  | O => mreturn false
  | S fuel' => _ <- advance;; advance_loop fuel'
  end.

(** Every turn uses up a decision or leaves the phase it found ([advance_progress]). *)
Definition advance_fuel (s : run_snapshot) : nat := (3 * Z.to_nat (rc_max_steps (sn_config s)) + 3)%nat.

Definition approve_or_reject (s : run_snapshot) (approve : option bool) (queue_only : bool) : ex unit :=
  match sn_approval s with
  | None => mraise ExAssertion
  | Some request =>
      if negb (bool_decide (approve = Some true))
      then stop (u "DURABLE_APPROVAL_REJECTED") cancelled false
      else
      budget <- match sn_active_budget s with
                | None => mreturn None
                | Some b =>
                    since <- (if queue_only then mreturn None
                              else t <- on_base clock;; mreturn (Some t));;
                    mreturn (Some (with_used b (ab_seconds_used b) since))
                end;;
      save_snapshot (copy_approve s request budget) None false
  end.

(** [run_body]; [false] only if the fuel of the loop ran out. *)
Definition run_body (s : run_snapshot) (command : option DurableResumeCommand) (queue_only : bool)
  : ex bool :=
  t <- on_base clock;;
  _ <- (if flt t (sn_last_observed_at s)
        then stop (u "DURABLE_CLOCK_REGRESSION") failed false
        else match command with
             | Some c =>
                 if bool_decide (sn_status s = awaiting_approval)
                 then approve_or_reject s (rs_approve c) queue_only else mreturn tt
             | None => mreturn tt
             end);;
  if queue_only then mreturn true else
  x <- the_execution;;
  if negb (bool_decide (sn_status (de_snapshot x) = running)) then mreturn true
  else if bool_decide (sb_backend (sn_body s) = langgraph)
  then _ <- run_durable_graph;; mreturn true
  else advance_loop (advance_fuel s).

(** *** The terminal fence *)

Definition ex_timed {A} (timeout_seconds : float) (m : ex A) : ex A :=
  if fle timeout_seconds fzero then mraise ExTimeout else
  mcatch m (fun e =>
    match e with
    | ExCancelled =>
        own <- on_base (outside port_timed_out);;
        mraise (if (own : bool) then ExTimeout else ExCancelled)
    | e => mraise e
    end).

Definition is_code (code : string) (e : durable_exn) : bool :=
  match e with ExDomain c => bool_decide (c = u code) | _ => false end.

(** [load], unless the run is gone. *)
Definition load_if_there (s : run_snapshot) : sv (option run_snapshot) :=
  mcatch (v <- store_load (sn_tenant_id s) (sn_user_id s) (sn_run_id s);; mreturn (Some v))
    (fun e => if is_code "DURABLE_RUN_NOT_FOUND" e || is_code "DURABLE_RUN_EXPIRED" e
              then mreturn None else mraise e).

Definition fence_stopped (s : run_snapshot) : ex unit :=
  uncertain <- match sb_pending_call_id (sn_body s) with
               | None => mreturn false
               | Some call_id =>
                   entry <- awaiting (store_ledger s call_id);;
                   mreturn (bool_decide (le_status entry = started)
                            && bool_decide (le_replay_policy entry = never))
               end;;
  if (uncertain : bool)
  then stop (u "DURABLE_TOOL_OUTCOME_UNKNOWN") intervention_required true
  else stop AGENT_TIMEOUT stopped true.

Definition fence_cancelled (s : run_snapshot) : ex unit :=
  x <- the_execution;;
  t <- on_base clock;;
  saved <- awaiting (store_cancel s t (Some (de_token x)) (de_created_here x));;
  _ <- set_execution (fun x => ex_snapshot x saved);;
  audit_transition (u "agent.durable.cancelled") None.

(** [persist]: it repeats on a conflict until its timeout cuts it. *)
Fixpoint fence (patience : nat) (disconnected : bool) : ex unit :=
  match patience with
  | O => mraise ExCancelled
  | S patience' =>
      x <- the_execution;;
      found <- awaiting (load_if_there (de_snapshot x));;
      match found with
      | None => mreturn tt
      | Some s =>
          _ <- set_execution (fun x => ex_snapshot x s);;
          if terminal (sn_status s) then mreturn tt else
          x <- the_execution;;
          owned <- awaiting (store_owns s (de_token x) (de_created_here x));;
          if negb owned then
            if disconnected then mreturn tt else mraise (domain "DURABLE_LEASE_LOST")
          else
          mcatch (if disconnected then fence_cancelled s else fence_stopped s)
            (fun e => if is_code "DURABLE_RESUME_CONFLICT" e then fence patience' disconnected
                      else mraise e)
      end
  end.

Definition _terminal_cleanup (disconnected : bool) : ex unit :=
  n <- on_base (outside port_patience);;
  timeout_as "DURABLE_TERMINAL_PERSISTENCE_FAILED" (ex_timed fone (fence n disconnected)).

Definition _cancel_after_disconnect : ex unit :=
  _ <- mcatch (_terminal_cleanup true)
         (fun e => match e with ExCancelled => mraise e | _ => mreturn tt end);;
  interrupted <- on_base (outside port_interrupted);;
  if (interrupted : bool) then mraise ExCancelled else mreturn tt.

(** *** [_drive] *)

Definition new_execution (ctx : RequestContext) (s : run_snapshot) (token : pystr)
    (created_here : bool) : DurableExecution :=
  {| de_created_here := created_here; de_context := ctx; de_snapshot := s; de_token := token;
     de_runtime := runtime_for s; de_revocation_error := None; de_receipt := None;
     de_heartbeat := HbIdle |}.

Definition with_new_execution {A} (x : DurableExecution) (m : ex A) : sv A := fun b =>
  let '(r, w) := m {| dw_base := b; dw_exec := x |} in (r, dw_base w).

(** A new keyed run already owns the lease inserted with its rows. *)
Definition claim (s : run_snapshot) (token : pystr) (owned queue_only : bool) : sv run_snapshot :=
  t <- clock;;
  timeout <- match sn_active_budget s with
             | Some _ => mreturn (fofZ 5)
             | None => t2 <- clock;;
                       mreturn (fmin (fmax (fsub (sn_deadline_at s) t2) (flit 1 100)) (fofZ 5))
             end;;
  timed timeout
    (if owned then _ <- store_renew s token t;; mreturn s
     else store_acquire s token t
            (match sn_active_budget s with Some _ => negb queue_only | None => true end)).

Definition response (ctx : RequestContext) (run_id : pystr) (reconcile : bool)
  : ex DurableRunResponse :=
  x <- the_execution;;
  if negb reconcile && negb (bool_decide (sn_status (de_snapshot x) = completed))
  then mreturn (from_snapshot (de_snapshot x))
  else timeout_as "DURABLE_STORAGE_TIMEOUT" (awaiting (timed fone (get ctx run_id))).

Definition revoke_now : ex unit := modify (revoke_execution None).

(** The heartbeat ended first, or the lease was revoked. *)
Definition after_heartbeat (ctx : RequestContext) (run_id : pystr) : ex DurableRunResponse :=
  _ <- revoke_now;;
  x <- the_execution;;
  current <- response ctx run_id true;;
  if terminal (dp_status current) then mreturn current
  else mraise (default (domain "DURABLE_LEASE_LOST") (de_revocation_error x)).

Definition after_timeout (ctx : RequestContext) (run_id : pystr) : ex DurableRunResponse :=
  _ <- revoke_now;;
  _ <- _terminal_cleanup false;;
  response ctx run_id false.

(** What follows the first of the business task, the heartbeat and the timeout. *)
Definition conclude (ctx : RequestContext) (run_id : pystr) (r : result durable_exn bool)
  : ex DurableRunResponse :=
  x <- the_execution;;
  match de_heartbeat x, de_revocation_error x with
  | HbDone, _ | _, Some _ => after_heartbeat ctx run_id
  | _, None =>
      match r with
      | Ok _ => response ctx run_id false
      | Err ExTimeout => after_timeout ctx run_id
      | Err ExCancelled =>
          o <- on_base (outside port_wait);;
          match o with
          | WaitTimeout => after_timeout ctx run_id
          | WaitDisconnected => mraise ExCancelled
          end
      | Err e => mraise e
      end
  end.

Definition release_lease : ex unit :=
  x <- the_execution;;
  mcatch (on_base (timed fone (store_release (de_snapshot x) (de_token x))))
    (fun e => match e with
              | ExCancelled => _ <- _cancel_after_disconnect;; mraise ExCancelled
              | _ => mreturn tt
              end).

(** The [finally] block: both tasks are over when it cleans up. *)
Definition finally_release {A} (r : result durable_exn A) : ex A :=
  _ <- revoke_now;;
  _ <- set_execution (fun x => ex_heartbeat x HbDone);;
  _ <- match r with Err ExCancelled => _cancel_after_disconnect | _ => mreturn tt end;;
  _ <- release_lease;;
  interrupted <- on_base (outside port_interrupted);;
  if (interrupted : bool) then _ <- _cancel_after_disconnect;; mraise ExCancelled
  else mlift r.

(** The business task: its outcome is a value to what waits for it. *)
Definition business (s : run_snapshot) (command : option DurableResumeCommand) (queue_only : bool)
  : ex (result durable_exn bool) := fun w =>
  let '(r, w) := run_body s command queue_only w in (Ok r, w).

Definition drive_claimed (ctx : RequestContext) (s : run_snapshot)
    (command : option DurableResumeCommand) (queue_only : bool) : ex DurableRunResponse :=
  _ <- on_base (_remaining s);;
  r <- business s command queue_only;;
  fun w =>
    let '(o, w) := conclude ctx (sn_run_id s) r w in
    finally_release o w.

Definition _drive (ctx : RequestContext) (s : run_snapshot) (command : option DurableResumeCommand)
    (created_here : bool) (initial_token : option pystr) (queue_only : bool)
  : sv DurableRunResponse :=
  token <- match initial_token with Some t => mreturn t | None => outside port_uuid end;;
  let x := new_execution ctx s token created_here in
  claimed <- mcatch (claim s token (bool_decide (is_Some initial_token)) queue_only)
    (fun e => match e with
              | ExCancelled => _ <- with_new_execution x _cancel_after_disconnect;; mraise ExCancelled
              | ExTimeout => _ <- with_new_execution x _cancel_after_disconnect;;
                             mraise (domain "DURABLE_STORAGE_TIMEOUT")
              | e => mraise e
              end);;
  with_new_execution (ex_claimed x claimed) (drive_claimed ctx claimed command queue_only).

(** * Entry points *)

(** The conditions under which an answer to an approval request is current. *)
Definition check_approval_answer (ctx : RequestContext) (s : run_snapshot)
    (c : DurableResumeCommand) : sv unit :=
  let stale := mraise (domain "DURABLE_APPROVAL_STALE") in
  match sn_approval s with
  | None => stale
  | Some a =>
      if negb (bool_decide (rs_approval_id c = Some (ap_approval_id a)))
         || bool_decide (rs_approve c = None) then stale else
      t <- clock;;
      if fle (ap_expires_at a) t then stale else
      match sb_decision (sn_body s) with
      | None => stale
      | Some d =>
          match decision_digest d with
          | None => mraise ExValue
          | Some digest =>
              if negb (bool_decide (digest = ap_action_digest a)) then stale else
              r <- _remaining s;;
              definition <- timeout_as "DURABLE_VALIDATION_TIMEOUT"
                              (timed (fmin r (fofZ 5)) (_definition s ctx));;
              match _definition_digest definition with
              | None => mraise ExOther
              | Some dd => if bool_decide (dd = ap_definition_digest a) then mreturn tt else stale
              end
          end
      end
  end.

Definition resume (ctx : RequestContext) (run_id : pystr) (c : DurableResumeCommand)
  : sv DurableRunResponse :=
  s <- _load ctx run_id;;
  if negb (sn_revision s =? rs_expected_revision c) then mraise (domain "DURABLE_RESUME_CONFLICT")
  else if terminal (sn_status s) then mraise (domain "DURABLE_RUN_TERMINAL") else
  _ <- (if bool_decide (sn_status s = awaiting_approval) then check_approval_answer ctx s c
        else if bool_decide (rs_approval_id c = None) then mreturn tt
        else mraise (domain "DURABLE_APPROVAL_STALE"));;
  _drive ctx s (Some c) false None (sn_dispatch s).

Definition run_background (ctx : RequestContext) (run_id : pystr) (expected_revision : Z)
  : sv DurableRunResponse :=
  if negb (sv_background_enabled svc)
     || match port_context_revalidator (W := W) with None => true | Some _ => false end
  then mraise (domain "DURABLE_BACKGROUND_UNCONFIGURED") else
  s <- _load ctx run_id;;
  if negb (sn_dispatch s) || negb (bool_decide (sn_status s = running))
  then mraise (domain "DURABLE_BACKGROUND_NOT_READY")
  else if negb (sn_revision s =? expected_revision)
  then mraise (domain "DURABLE_RESUME_CONFLICT")
  else _drive ctx s None false None false.

(** ** Starting *)

Definition _lookup_keyed (ctx : RequestContext) (run_id : pystr) : sv (option run_snapshot) :=
  timeout_as "DURABLE_STORAGE_TIMEOUT"
    (timed (fofZ 5)
       (query (fun d => lookup_keyed d (auth_tenant_id (rc_auth ctx)) (auth_user_id (rc_auth ctx))
                          run_id))).

Definition _existing_start (ctx : RequestContext) (s : run_snapshot) (fingerprint : pystr)
  : sv DurableRunResponse :=
  t <- clock;;
  if fle (sn_expires_at s) t then get ctx (sn_run_id s)
  else if negb (bool_decide (sn_startup s = Some fingerprint))
  then mraise (domain "DURABLE_START_KEY_CONFLICT")
  else get ctx (sn_run_id s).

Definition recover (ctx : RequestContext) (key : pystr) : sv DurableRunResponse :=
  _ <- _authorize ctx;;
  if negb (uuid4 key) then mraise (domain "DURABLE_START_KEY_INVALID") else
  let run_id := keyed_run_id (auth_tenant_id (rc_auth ctx)) (auth_user_id (rc_auth ctx)) key in
  found <- _lookup_keyed ctx run_id;;
  match found with
  | None => mraise (domain "DURABLE_RUN_NOT_FOUND")
  | Some _ => get ctx run_id
  end.

(** [persist] of [_cancel_keyed_creation], until its timeout cuts it. *)
Fixpoint fence_creation (patience : nat) (ctx : RequestContext) (s : run_snapshot) (token : pystr)
  : sv unit :=
  match patience with
  | O => mraise ExCancelled
  | S patience' =>
      found <- load_if_there s;;
      match found with
      | None => mreturn tt
      | Some current =>
          if terminal (sn_status current) then mreturn tt else
          owned <- store_owns current token false;;
          if negb owned then mreturn tt else
          t <- clock;;
          saved <- mcatch (v <- store_cancel current t (Some token) false;; mreturn (Some v))
                     (fun e => if is_code "DURABLE_RESUME_CONFLICT" e then mreturn None
                               else mraise e);;
          match saved with
          | None => fence_creation patience' ctx s token
          | Some v => _audit_transition ctx v (u "agent.durable.cancelled") None
          end
      end
  end.

(** Best effort and shielded: a cancellation of the caller does not end it. *)
Definition _cancel_keyed_creation (ctx : RequestContext) (s : run_snapshot) (token : pystr)
  : sv unit :=
  n <- outside port_patience;;
  mcatch (timed fone (fence_creation n ctx s token))
    (fun e => match e with ExCancelled => mraise e | _ => mreturn tt end).

(** [max(snapshot.deadline_at - self._clock(), 0)]. *)
Definition until_deadline (s : run_snapshot) : sv float :=
  t <- clock;; mreturn (max0 (fsub (sn_deadline_at s) t)).

Definition create_keyed_run (ctx : RequestContext) (s : run_snapshot) (token : pystr)
  : sv (bool * run_snapshot) :=
  t <- clock;;
  left <- until_deadline s;;
  _ <- timed left (store_purge (sn_tenant_id s) t);;
  t <- clock;;
  left <- until_deadline s;;
  r <- timed left
         (transact (OpCreateKeyed s token t (sv_lease_seconds svc))
            (fun d => (fun x => (x.1.2, x.2)) <$> create_keyed d s token t (sv_lease_seconds svc)));;
  _ <- (if (r.1 : bool) then _audit_transition ctx s (u "agent.durable.created") None
        else mreturn tt);;
  mreturn r.

(** A storage task that is still running when the wait for it ends is fenced again
    when it is over; that later cancel is one of [port_others]. *)
Definition _start_keyed (ctx : RequestContext) (s : run_snapshot) (fingerprint : pystr)
  : sv DurableRunResponse :=
  token <- outside port_uuid;;
  r <- mcatch (create_keyed_run ctx s token)
         (fun e => _ <- _cancel_keyed_creation ctx s token;;
                   mraise match e with ExTimeout => domain "DURABLE_STORAGE_TIMEOUT" | e => e end);;
  if negb r.1 then _existing_start ctx r.2 fingerprint
  else if sn_dispatch s
  then _ <- timed fone (store_release s token);; mreturn (from_snapshot s)
  else _drive ctx s None false (Some token) false.

Definition start_config (c : DurableStartCommand) : RunConfig :=
  {| rc_max_steps := default (sv_default_max_steps svc) (cmd_max_steps c);
     rc_max_tool_calls := default (sv_default_max_tool_calls svc) (cmd_max_tool_calls c);
     rc_timeout_seconds := default (sv_default_timeout_seconds svc) (cmd_timeout_seconds c);
     rc_repeated_action_threshold := sv_repeated_action_threshold svc;
     rc_input_text := cmd_input c |}.

Definition initial_snapshot (ctx : RequestContext) (c : DurableStartCommand) (run_id : pystr)
    (startup : option pystr) (t : float) : run_snapshot :=
  let config := start_config c in
  {| sn_run_id := run_id; sn_tenant_id := auth_tenant_id (rc_auth ctx);
     sn_user_id := auth_user_id (rc_auth ctx); sn_request_id := rc_request_id ctx;
     sn_trace_id := rc_trace_id ctx; sn_startup := startup;
     sn_active_budget :=
       if bool_decide (cmd_budget_mode c = active)
       then Some {| ab_seconds_used := fzero;
                    ab_active_since_at := if bool_decide (cmd_execution_mode c = inline)
                                          then Some t else None;
                    ab_approval_timeout_seconds :=
                      default (fofZ 3600) (cmd_approval_timeout_seconds c) |}
       else None;
     sn_dispatch := bool_decide (cmd_execution_mode c = background); sn_revision := 0;
     sn_config := config; sn_status := running; sn_phase := decision; sn_started_at := t;
     sn_deadline_at := fadd t (rc_timeout_seconds config); sn_last_observed_at := t;
     sn_expires_at := fadd t (sv_retention_seconds svc); sn_steps_used := 0;
     sn_tool_calls_used := 0; sn_repeated_counts := []; sn_approval := None; sn_result := None;
     sn_error_code := None;
     sn_body := {| sb_backend := sv_backend svc; sb_observations := [];
                   sb_evidence_fingerprints := []; sb_decision := None;
                   sb_approval_tools := cmd_approval_tools c; sb_approved_action_digest := None;
                   sb_approved_definition_digest := None; sb_pending_call_id := None;
                   sb_decision_inflight := false; sb_result := None |} |}.

(** The new snapshot of a start, or what the constructors and the checks raise. *)
Definition prepare_start (ctx : RequestContext) (c : DurableStartCommand) (run_id : pystr)
    (startup : option pystr) : sv run_snapshot :=
  _ <- mlift (validate_private_arguments [(u "input", VStr (cmd_input c))]);;
  t <- clock;;
  let s := initial_snapshot ctx c run_id startup t in
  if negb (valid_run_config (sn_config s)) then mraise ExValue
  else if flt (sv_retention_seconds svc) (rc_timeout_seconds (sn_config s))
  then mraise (domain "DURABLE_BUDGET_EXCEEDS_RETENTION")
  else if negb (bounded_snapshot s) then mraise ExValue else
  names <- outside (fun i => (port_tool_names i, i));;
  if existsb (fun name => bool_decide (name ∉ names)) (cmd_approval_tools c)
  then mraise (domain "DURABLE_APPROVAL_TOOL_UNKNOWN") else mreturn s.

Definition create_run (ctx : RequestContext) (s : run_snapshot) : sv unit :=
  left <- until_deadline s;;
  _ <- timed left (store_purge (auth_tenant_id (rc_auth ctx)) (sn_started_at s));;
  left <- until_deadline s;;
  _ <- timed left (transact (OpCreate s) (fun d => (fun _ => tt) <$> create d s));;
  _audit_transition ctx s (u "agent.durable.created") None.

Definition start_new (ctx : RequestContext) (s : run_snapshot) : sv DurableRunResponse :=
  _ <- mcatch (create_run ctx s)
         (fun e => match e with
                   | ExCancelled =>
                       token <- outside port_uuid;;
                       _ <- with_new_execution (new_execution ctx s token true)
                              _cancel_after_disconnect;;
                       mraise ExCancelled
                   | ExTimeout => mraise (domain "DURABLE_STORAGE_TIMEOUT")
                   | e => mraise e
                   end);;
  if sn_dispatch s then mreturn (from_snapshot s)
  else _drive ctx s None true None false.

Definition start (ctx : RequestContext) (c : DurableStartCommand) : sv DurableRunResponse :=
  _ <- _authorize ctx;;
  if bool_decide (cmd_execution_mode c = background) && negb (sv_background_enabled svc)
  then mraise (domain "DURABLE_BACKGROUND_UNCONFIGURED") else
  fresh <- outside port_uuid;;
  match cmd_idempotency_key c with
  | None => s <- prepare_start ctx c fresh None;; start_new ctx s
  | Some key =>
      let run_id := keyed_run_id (auth_tenant_id (rc_auth ctx)) (auth_user_id (rc_auth ctx)) key in
      match start_command_fingerprint c with
      | None => mraise ExValue
      | Some fingerprint =>
          found <- _lookup_keyed ctx run_id;;
          match found with
          | Some existing => _existing_start ctx existing fingerprint
          | None =>
              s <- prepare_start ctx c run_id (Some fingerprint);;
              _start_keyed ctx s fingerprint
          end
      end
  end.
End Service.
