(* ===== verification/DurableRefinement.v ===== *)
(** The durable service implements the run machine.

    Every entry point of [DurableService] moves the runs of the store only by steps
    of [DurableMachine], on the assumption that the transactions other workers
    commit in between do ([LawfulOthers]), which is the same statement about them:
    any number of workers together implement the machine.  The log shows that a
    tool is dispatched only after its call was written to the ledger under a live
    lease, and the measure of the machine that the loop of a worker ends. *)

From Stdlib Require Import ZArith String.
From S2P Require Import Prelude Effects Float64 PyVal Access Redact Json AgentDto SourceMetadata ContextPacker.
From S2P Require Import FinalAnswer DurableStore AgentRuntime DurableDto DurableMachine DurableLaw.
From S2P Require Import DurableService.
From S2P Require Registry.
From stdpp Require Import base list gmap numbers.

#[local] Open Scope eff_scope.
#[local] Open Scope Z_scope.
#[local] Arguments fadd : simpl never.
#[local] Arguments fsub : simpl never.
#[local] Arguments fmul : simpl never.
#[local] Arguments fdiv : simpl never.

(** * Assumptions *)

(** What the others do between two accesses of this worker is lawful. *)
Class LawfulOthers `{PyRepr, SnapshotSize} (W : Type) `{DurablePorts W} : Prop :=
  others_lawful : forall (i : W) d, store_inv d -> lawful d (exec_all d (port_others i).1).

(** The runtime built for a run has the run's configuration. *)
Class ConfiguredRuntime (svc : DurableAgentService) : Prop :=
  runtime_config : forall c id, rt_config (sv_runtime_factory svc c id) = c.

(** * Accesses to the store *)

Definition is_commit (ev : durable_event) : Prop :=
  match ev with EvCommit _ _ => True | EvDispatch _ => False end.
Definition is_renewal (ev : durable_event) : Prop :=
  match ev with EvCommit _ (OpRenew _ _ _ _) => True | _ => False end.

Section Accesses.
Context `{PyRepr, SnapshotSize} {W : Type} `{DurablePorts W} `{!LawfulOthers W}.
Abbreviation sv A := (eff durable_exn (sworld W) A).
Implicit Types (w : sworld W) (P : durable_event -> Prop).

Record moved P w w' : Prop := {
  mv_law : lawful (sw_tables w) (sw_tables w');
  mv_log : exists evs, sw_log w' = sw_log w ++ evs /\ Forall P evs
}.

Abbreviation inv w := (store_inv (sw_tables w)).

Lemma moved_inv P w w' : moved P w w' -> inv w'.
Proof. intros []. by eapply law_inv. Qed.

Lemma moved_refl P w : inv w -> moved P w w.
Proof. intros Hw. split; [by apply lawful_refl|]. exists []. by rewrite app_nil_r. Qed.
Lemma moved_same P w w' : inv w -> sw_tables w' = sw_tables w -> sw_log w' = sw_log w -> moved P w w'.
Proof. intros Hw Ht Hl. split; [rewrite Ht; by apply lawful_refl|]. exists []. by rewrite app_nil_r. Qed.
Lemma moved_trans P w1 w2 w3 : inv w1 -> moved P w1 w2 -> moved P w2 w3 -> moved P w1 w3.
Proof.
  intros Hw [L1 (e1 & E1 & F1)] [L2 (e2 & E2 & F2)]. split; [by eapply lawful_trans|].
  exists (e1 ++ e2). split; [by rewrite E2, E1, app_assoc|]. by apply Forall_app.
Qed.
Lemma moved_weaken P P' w w' : (forall e, P e -> P' e) -> moved P w w' -> moved P' w w'.
Proof.
  intros HP [L (e & E & F)]. split; [done|]. exists e. split; [done|]. by eapply list.Forall_impl.
Qed.

(** A computation that is lawful whatever the worker holds. *)
Definition sv_law P {A} (m : sv A) : Prop :=
  forall w r w', m w = (r, w') -> inv w -> moved P w w'.

Lemma sv_ret P {A} (a : A) : sv_law P (mreturn a).
Proof. intros w r w' [= <- <-]. apply moved_refl. Qed.
Lemma sv_raise P {A} e : sv_law P (mraise (A := A) e).
Proof. intros w r w' [= <- <-]. apply moved_refl. Qed.
Lemma sv_lift P {A} (r : result durable_exn A) : sv_law P (mlift r).
Proof. intros w r' w' [= <- <-]. apply moved_refl. Qed.
Lemma sv_bind P {A B} (m : sv A) (f : A -> sv B) :
  sv_law P m -> (forall a, sv_law P (f a)) -> sv_law P (mthen m f).
Proof.
  intros Hm Hf w r w' Eq Hw. apply mthen_inv in Eq as [(e & Eq & ->)|(a & w1 & E1 & E2)]; [by eapply Hm|].
  pose proof (Hm _ _ _ E1 Hw) as M1. eapply moved_trans; [done|exact M1|].
  eapply Hf; [exact E2|]. by eapply moved_inv.
Qed.
Lemma sv_catch P {A} (m : sv A) h :
  sv_law P m -> (forall e, sv_law P (h e)) -> sv_law P (mcatch m h).
Proof.
  intros Hm Hh w r w' Eq Hw. unfold mcatch in Eq. destruct (m w) as [[a|e] w1] eqn:E1.
  - injection Eq as <- <-. by eapply Hm.
  - pose proof (Hm _ _ _ E1 Hw) as M1. eapply moved_trans; [done|exact M1|].
    eapply Hh; [exact Eq|]. by eapply moved_inv.
Qed.
Lemma sv_outside P {A} (f : W -> A * W) : sv_law P (outside f).
Proof.
  intros w r w' Eq Hw. unfold outside in Eq. destruct (f (sw_inner w)). injection Eq as <- <-.
  by apply moved_same.
Qed.
Lemma sv_answered P {A} (f : W -> port_result A * W) : sv_law P (answered f).
Proof. apply sv_bind; [apply sv_outside|]. intros []; [apply sv_ret|apply sv_raise]. Qed.
Lemma sv_timeout_as P {A} code (m : sv A) : sv_law P m -> sv_law P (timeout_as code m).
Proof. intros Hm. apply sv_catch; [done|]. intros. apply sv_raise. Qed.
Lemma sv_timed P {A} t (m : sv A) : sv_law P m -> sv_law P (timed t m).
Proof.
  intros Hm. unfold timed. destruct (fle t fzero); [apply sv_raise|]. apply sv_catch; [done|].
  intros []; try apply sv_raise. apply sv_bind; [apply sv_outside|]. intros. apply sv_raise.
Qed.

Lemma meanwhile_moved P w : inv w -> moved P w (meanwhile w).
Proof.
  intros Hw. unfold meanwhile. pose proof (others_lawful (sw_inner w) _ Hw) as Hl.
  destruct (port_others (sw_inner w)) as [ops i]. split; [done|]. exists []. by rewrite app_nil_r.
Qed.

(** What a read returns holds of the tables it leaves. *)
Lemma query_spec P {A} (read : run_store -> result durable_error A) w r w' :
  query read w = (r, w') -> inv w ->
  moved P w w' /\ forall a, r = Ok a -> read (sw_tables w') = Ok a.
Proof.
  intros Eq Hw. unfold query in Eq. pose proof (meanwhile_moved P w Hw) as M.
  destruct (port_fate _) as [f i].
  assert (moved P w {| sw_tables := sw_tables (meanwhile w); sw_inner := i; sw_log := sw_log (meanwhile w) |}) as M'.
  { destruct M as [L [e E]]. split; [done|]. by exists e. }
  destruct f; injection Eq as <- <-; (split; [done|]); try done.
  intros a. simpl. destruct (read _); simpl; congruence.
Qed.
Lemma sv_query P {A} (read : run_store -> result durable_error A) : sv_law P (query read).
Proof. intros w r w' Eq Hw. by eapply query_spec. Qed.

(** A transaction that is lawful on whatever tables the others leave. *)
Lemma transact_spec P {A} o (read : run_store -> result durable_error A) w r w' :
  transact o read w = (r, w') -> inv w ->
  (forall d, lawful (sw_tables w) d -> lawful d (exec d o)) -> (forall d, P (EvCommit d o)) ->
  moved P w w' /\
  forall a, r = Ok a -> exists d, lawful (sw_tables w) d /\ read d = Ok a /\
    sw_tables w' = exec d o /\ sw_log w' = sw_log w ++ [EvCommit d o].
Proof.
  intros Eq Hw Ho HP. unfold transact in Eq.
  assert (sw_log (meanwhile w) = sw_log w) as Hlog
    by (unfold meanwhile; by destruct (port_others (sw_inner w))).
  pose proof (mv_law _ _ _ (meanwhile_moved P w Hw)) as L. rewrite Hlog in Eq.
  destruct (port_fate _) as [f i]. set (d := sw_tables (meanwhile w)) in *.
  assert (forall evs, Forall P evs -> moved P w {| sw_tables := exec d o; sw_inner := i; sw_log := sw_log w ++ evs |}) as M1.
  { intros evs He. split; [simpl; eapply lawful_trans; [done|exact L|by apply Ho]|]. by exists evs. }
  assert (moved P w {| sw_tables := exec d o; sw_inner := i;
            sw_log := if is_ok (read d) then sw_log w ++ [EvCommit d o] else sw_log w |}) as M2.
  { destruct (is_ok (read d)); [apply M1; by constructor|].
    specialize (M1 [] (Forall_nil_2 _)). by rewrite app_nil_r in M1. }
  assert (moved P w {| sw_tables := d; sw_inner := i; sw_log := sw_log w |}) as M3.
  { split; [done|]. exists []. by rewrite app_nil_r. }
  destruct f as [|[]|[]]; simpl in Eq; injection Eq as <- <-; (split; [done|]); try done.
  intros a Hr. exists d. destruct (read d); [|done]. simpl in *. split_and!; try done. congruence.
Qed.
Lemma sv_transact P {A} o (read : run_store -> result durable_error A) :
  (forall d, store_inv d -> lawful d (exec d o)) -> (forall d, P (EvCommit d o)) ->
  sv_law P (transact o read).
Proof.
  intros Ho HP w r w' Eq Hw. eapply transact_spec; [exact Eq|done| |done].
  intros d Hd. apply Ho. by eapply law_inv.
Qed.
End Accesses.

Create HintDb law.
#[export] Hint Resolve sv_ret sv_raise sv_lift sv_outside sv_answered sv_query : law.

Ltac law_tac :=
  repeat match goal with
  | |- sv_law _ (mthen _ _) => apply sv_bind; [|intros ?]
  | |- sv_law _ (timeout_as _ _) => apply sv_timeout_as
  | |- sv_law _ (timed _ _) => apply sv_timed
  | |- sv_law _ (mcatch _ _) => apply sv_catch; [|intros ?]
  | |- sv_law _ (match ?x with _ => _ end) => destruct x
  | |- sv_law _ (if ?x then _ else _) => destruct x
  | |- sv_law _ (let _ := _ in _) => cbv zeta
  | |- _ => solve [eauto with law]
  end.

Section ServiceReads.
Context `{PyRepr, UnicodeDB, UnicodeDigits, NetlocCheck} `{SnapshotSize}.
Context {W : Type} `{AgentPorts W} `{DurablePorts W} `{!LawfulOthers W} (svc : DurableAgentService).
Abbreviation sv A := (eff durable_exn (sworld W) A).
Abbreviation inv w := (store_inv (sw_tables w)).

Lemma sv_clock P : sv_law P clock.
Proof. apply sv_outside. Qed.
Lemma sv_perf P : sv_law P perf_counter.
Proof. apply sv_outside. Qed.
Lemma sv_load P t us i : sv_law P (store_load t us i).
Proof. apply sv_query. Qed.
Lemma sv_ledger P s c : sv_law P (store_ledger s c).
Proof. apply sv_query. Qed.
Lemma sv_owns P s t un : sv_law P (store_owns s t un).
Proof. apply sv_query. Qed.
Hint Resolve sv_clock sv_perf sv_load sv_ledger sv_owns : law.
Lemma sv_purge t x : sv_law is_commit (store_purge t x).
Proof.
  apply sv_bind; [apply sv_outside|]. intros scan. apply sv_transact; [|done]. intros. by apply law_purge.
Qed.
Lemma sv_release s t : sv_law is_commit (store_release s t).
Proof. apply sv_transact; [|done]. intros. by apply law_release. Qed.
Lemma sv_renew s t x : sv_law is_renewal (store_renew svc s t x).
Proof. apply sv_transact; [|done]. intros. by apply law_renew. Qed.
Lemma sv_remaining P s : sv_law P (_remaining s).
Proof. unfold _remaining. law_tac. Qed.
Hint Resolve sv_purge sv_release sv_renew sv_remaining : law.
Lemma sv_audit P ctx s a ref : sv_law P (_audit_transition ctx s a ref).
Proof. unfold _audit_transition. law_tac. Qed.
Lemma sv_authorize P ctx : sv_law P (_authorize ctx : sv unit).
Proof. unfold _authorize. law_tac. Qed.
Hint Resolve sv_audit sv_authorize : law.
Lemma sv_definition P s ctx : sv_law P (_definition s ctx).
Proof. unfold _definition. law_tac. Qed.
Lemma sv_recheck P ctx obs : sv_law P (recheck_tools ctx obs).
Proof. induction obs as [|o obs IH]; cbn [recheck_tools]; law_tac. Qed.
Hint Resolve sv_definition sv_recheck : law.
Lemma sv_revalidate P ctx s : sv_law P (_revalidate ctx s).
Proof. unfold _revalidate. law_tac. Qed.
Lemma sv_load_run ctx i : sv_law is_commit (_load ctx i).
Proof. unfold _load. law_tac. Qed.
Hint Resolve sv_revalidate sv_load_run : law.
Lemma sv_get ctx i : sv_law is_commit (get ctx i).
Proof. unfold get. law_tac. Qed.
Lemma sv_load_if_there P s : sv_law P (load_if_there s).
Proof. unfold load_if_there. law_tac. Qed.
Lemma sv_lookup P ctx i : sv_law P (_lookup_keyed ctx i).
Proof. unfold _lookup_keyed. law_tac. Qed.
Hint Resolve sv_get sv_load_if_there sv_lookup : law.
Lemma sv_existing ctx s f : sv_law is_commit (_existing_start ctx s f).
Proof. unfold _existing_start. law_tac. Qed.
Hint Resolve sv_existing : law.
Lemma sv_recover ctx k : sv_law is_commit (recover ctx k).
Proof. unfold recover. law_tac. Qed.
Lemma sv_check_answer P ctx s c : sv_law P (check_approval_answer ctx s c).
Proof. unfold check_approval_answer. law_tac. Qed.

(** What a worker holds after it read or wrote. *)
Lemma load_spec P t us i w r w' :
  store_load t us i w = (r, w') -> inv w ->
  moved P w w' /\ forall v, r = Ok v ->
    known (sw_tables w') v /\ sn_run_id v = i /\ sn_tenant_id v = t /\ sn_user_id v = us.
Proof.
  intros Eq Hw. apply (query_spec P) in Eq as [M Hr]; [|done]. split; [done|]. intros v ->.
  apply known_loaded; [by eapply moved_inv|by apply Hr].
Qed.

Lemma ledger_spec P s c w r w' :
  store_ledger s c w = (r, w') -> inv w ->
  moved P w w' /\ forall e, r = Ok e -> read_entry (sw_tables w') s e /\ le_call_id e = c.
Proof.
  intros Eq Hw. apply (query_spec P) in Eq as [M Hr]; [|done]. split; [done|]. intros e ->.
  apply read_ledger; [by eapply moved_inv|by apply Hr].
Qed.

Lemma cancel_spec s t tok un w r w' :
  store_cancel s t tok un w = (r, w') -> inv w -> known (sw_tables w) s ->
  moved is_commit w w' /\ forall v, r = Ok v ->
    known (sw_tables w') v /\ same_run s v /\ sn_config v = sn_config s.
Proof.
  intros Eq Hw Hk. apply (transact_spec is_commit) in Eq as [M Hr]; [|done| |done].
  - split; [done|]. intros v ->. destruct (Hr v eq_refl) as (d & Hl & Hv & Ht & _).
    destruct (DurableStore.cancel d s t tok un) as [[d' v']|] eqn:E; [|done]. injection Hv as ->.
    rewrite Ht. simpl. rewrite E. eapply known_cancelled; [by eapply known_lawful|exact E].
  - intros d Hd. apply law_cancel; [by eapply law_inv|by eapply known_lawful].
Qed.

Lemma acquire_spec s t tok act w r w' :
  store_acquire svc s tok t act w = (r, w') -> inv w -> known (sw_tables w) s ->
  moved is_commit w w' /\ forall v, r = Ok v ->
    known (sw_tables w') v /\ same_run s v /\ sn_config v = sn_config s /\
    sn_status v = sn_status s /\ sn_approval v = sn_approval s /\ sn_phase v = sn_phase s /\
    sn_body v = sn_body s /\ forall led, view v led = view s led.
Proof.
  intros Eq Hw Hk. apply (transact_spec is_commit) in Eq as [M Hr]; [|done| |done].
  - split; [done|]. intros v ->. destruct (Hr v eq_refl) as (d & Hl & Hv & Ht & _).
    destruct (acquire d s tok t (sv_lease_seconds svc) act) as [[d' v']|] eqn:E; [|done].
    injection Hv as ->. rewrite Ht. simpl. rewrite E.
    eapply known_acquired; [by eapply known_lawful|exact E].
  - intros d Hd. apply law_acquire; [by eapply law_inv|by eapply known_lawful].
Qed.

(** A save whose step is one of the machine at every state with its revision. *)
Lemma save_spec prev s tok t e w r w' :
  store_save prev s tok t e w = (r, w') -> inv w -> known (sw_tables w) prev ->
  same_run prev s -> sn_config s = sn_config prev ->
  (forall d row, lawful (sw_tables w) d -> durable_runs d !! sn_run_id prev = Some row ->
     dr_revision row = sn_revision prev -> save_steps prev s e (ledger_of d (sn_run_id prev))) ->
  moved is_commit w w' /\ forall v, r = Ok v ->
    known (sw_tables w') v /\ same_run prev v /\ sn_config v = sn_config prev /\
    (forall led, view v led = view s led) /\ sn_status v = sn_status s /\
    sn_phase v = sn_phase s /\ sn_body v = sn_body s /\
    exists d d', lawful (sw_tables w) d /\ save d prev s tok t e = Ok (d', v) /\
      sw_log w' = sw_log w ++ [EvCommit d (OpSave prev s tok t e)].
Proof.
  intros Eq Hw Hk Hrun Hc Hstep. apply (transact_spec is_commit) in Eq as [M Hr]; [|done| |done].
  - split; [done|]. intros v ->. destruct (Hr v eq_refl) as (d & Hl & Hv & Ht & Hlog).
    destruct (save d prev s tok t e) as [[d' v']|] eqn:E; [|done]. injection Hv as ->.
    rewrite Ht. simpl. rewrite E. simpl.
    destruct (known_saved d prev s tok t e d' v) as (K1 & K2 & K3 & K4 & K5 & K6 & K7);
      [by eapply known_lawful|done|done|done|].
    split_and!; try done. by exists d, d'.
  - intros d Hd. apply law_save; [by eapply law_inv|by eapply known_lawful|done|]. intros row. by apply Hstep.
Qed.
End ServiceReads.
#[export] Hint Resolve sv_clock sv_perf sv_load sv_ledger sv_owns sv_purge sv_release sv_renew
  sv_remaining sv_audit sv_authorize sv_definition sv_recheck sv_revalidate sv_load_run sv_get
  sv_load_if_there sv_lookup sv_existing sv_recover sv_check_answer : law.

(** * Dispatches and the ledger

    [dispatch_commit d o c]: the transaction [o], committed on the tables [d], wrote
    the call [c] to the ledger: a save by the holder of the live lease from the
    run's current revision, whose decision is this call, counted against the budget
    and, where the run asks for it, approved.  It is the machine's step [ADispatch]. *)
Definition dispatch_commit `{PyRepr} (d : run_store) (o : store_transaction) (c : Registry.call) : Prop :=
  exists prev s token t e row dec,
    o = OpSave prev s token t (Some e) /\
    scoped_row d prev = Some row /\ dr_revision row = sn_revision prev /\
    lease_live row token t = true /\ terminal (dr_status row) = false /\
    sb_decision (sn_body prev) = Some dec /\ sd_tool_name dec = Some (Registry.c_name c) /\
    Registry.c_arguments c = VDict (sd_arguments dec) /\
    le_status e = started /\ decision_digest dec = Some (le_action_digest e) /\
    sb_pending_call_id (sn_body prev) = None /\
    sb_pending_call_id (sn_body s) = Some (le_call_id e) /\
    sn_tool_calls_used s = sn_tool_calls_used prev + 1 /\
    sn_tool_calls_used s <= rc_max_tool_calls (sn_config s) /\
    (le_tool_name e ∈ sb_approval_tools (sn_body prev) ->
     sb_approved_action_digest (sn_body prev) = Some (le_action_digest e)) /\
    (let led := ledger_of d (sn_run_id prev) in
     mstep (view prev led) (ADispatch (le_call_id e) (le_tool_name e) (le_replay_policy e))
       (view s (noted led (Some e)))).

(** The last thing but renewals before each dispatch is its entry in the ledger. *)
Definition entered `{PyRepr} (log : list durable_event) (c : Registry.call) : Prop :=
  exists l0 d o mid, log = l0 ++ EvCommit d o :: mid /\ Forall is_renewal mid /\ dispatch_commit d o c.
Definition journaled `{PyRepr} (log : list durable_event) : Prop :=
  forall l1 c l2, log = l1 ++ EvDispatch c :: l2 -> entered l1 c.

Lemma journaled_commits `{PyRepr} log evs :
  journaled log -> Forall is_commit evs -> journaled (log ++ evs).
Proof.
  intros Hj Hf l1 c l2 E. apply app_eq_app in E as (k & [[E1 E2]|[E1 E2]]).
  - destruct k as [|e k].
    + rewrite app_nil_r in E1. simpl in E2. subst evs. apply list.Forall_cons in Hf as [[] _].
    + simpl in E2. injection E2 as <- E2. by eapply Hj.
  - subst evs. apply Forall_app in Hf as [_ Hf]. apply list.Forall_cons in Hf as [[] _].
Qed.

Lemma journaled_dispatch `{PyRepr} log c : journaled log -> entered log c -> journaled (log ++ [EvDispatch c]).
Proof.
  intros Hj He l1 c' l2 E. apply app_eq_app in E as (k & [[E1 E2]|[E1 E2]]).
  - destruct k as [|e k].
    + rewrite app_nil_r in E1. simpl in E2. by simplify_eq.
    + simpl in E2. injection E2 as <- E2. by eapply Hj.
  - destruct k as [|e k]; simpl in E2; [|by destruct k].
    rewrite app_nil_r in E1. by simplify_eq.
Qed.

(** * Executions *)

Section Executions.
Context `{PyRepr, UnicodeDB, UnicodeDigits, NetlocCheck} `{SnapshotSize}.
Context {W : Type} `{AgentPorts W} `{DurablePorts W} `{!LawfulOthers W} (svc : DurableAgentService).
Abbreviation sv A := (eff durable_exn (sworld W) A).
Abbreviation ex A := (eff durable_exn (dworld W) A).
Abbreviation tables_of w := (sw_tables (dw_base w)).
Abbreviation log_of w := (sw_log (dw_base w)).
Abbreviation held w := (de_snapshot (dw_exec w)).
Implicit Types (w : dworld W).

Record same_exec (x x' : DurableExecution) : Prop := {
  se_created : de_created_here x' = de_created_here x;
  se_context : de_context x' = de_context x;
  se_snapshot : de_snapshot x' = de_snapshot x;
  se_token : de_token x' = de_token x;
  se_runtime : de_runtime x' = de_runtime x
}.

(** The execution waited: the tables moved, what it holds did not. *)
Record calm (P : durable_event -> Prop) w w' : Prop := {
  ca_moved : moved P (dw_base w) (dw_base w');
  ca_exec : same_exec (dw_exec w) (dw_exec w')
}.

Lemma calm_refl P w : store_inv (tables_of w) -> calm P w w.
Proof. intros Hw. split; [by apply moved_refl|done]. Qed.
Lemma calm_trans P w1 w2 w3 : store_inv (tables_of w1) -> calm P w1 w2 -> calm P w2 w3 -> calm P w1 w3.
Proof.
  intros Hw [M1 []] [M2 []]. split; [by eapply moved_trans|]. constructor; congruence.
Qed.
Lemma calm_weaken (P P' : durable_event -> Prop) w w' :
  (forall e, P e -> P' e) -> calm P w w' -> calm P' w w'.
Proof. intros HP []. split; [by eapply moved_weaken|done]. Qed.
Lemma calm_inv P w w' : calm P w w' -> store_inv (tables_of w').
Proof. intros []. by eapply moved_inv. Qed.

Lemma revoke_calm P e w : store_inv (tables_of w) -> calm P w (revoke_execution e w).
Proof.
  intros Hw. unfold revoke_execution. destruct (de_revocation_error (dw_exec w)), (de_receipt (dw_exec w));
    split; try (by apply moved_refl); try (by apply moved_same); done.
Qed.

Lemma beat_calm w : store_inv (tables_of w) -> calm is_renewal w (heartbeat_beat svc w).
Proof.
  intros Hw. unfold heartbeat_beat. destruct (de_heartbeat (dw_exec w)); try by apply calm_refl.
  destruct (terminal _); [split; [by apply moved_refl|done]|].
  destruct (renewal svc (dw_exec w) (dw_base w)) as [r b] eqn:E.
  assert (moved is_renewal (dw_base w) b) as M.
  { revert E Hw. unfold renewal. set (m := mthen _ _).
    assert (sv_law is_renewal m) as Hm by (subst m; law_tac). intros E Hw. by eapply Hm. }
  destruct r; [by split|].
  set (w1 := with_execution _ _). assert (calm is_renewal w w1) as C1 by (by split).
  eapply calm_trans; [done|exact C1|]. apply revoke_calm. by eapply calm_inv.
Qed.

Lemma beats_calm w : store_inv (tables_of w) -> calm is_renewal w (beats svc w).
Proof.
  intros Hw. unfold beats. destruct (port_beats _) as [n i].
  set (w1 := with_base _ _). assert (calm is_renewal w w1) as C1 by (split; [by apply moved_same|done]).
  clearbody w1. induction n as [|n IH]; [done|]. simpl.
  eapply calm_trans; [done|exact IH|]. apply beat_calm. by eapply calm_inv.
Qed.

(** ** What an execution keeps *)

Record sound w : Prop := {
  so_inv : store_inv (tables_of w);
  so_known : known (tables_of w) (held w);
  so_config : rt_config (de_runtime (dw_exec w)) = sn_config (held w);
  so_log : journaled (log_of w);
  so_wf : wf_snapshot (held w)
}.

Record reach w w' : Prop := {
  re_law : lawful (tables_of w) (tables_of w');
  re_token : de_token (dw_exec w') = de_token (dw_exec w);
  re_runtime : de_runtime (dw_exec w') = de_runtime (dw_exec w);
  re_run : sn_run_id (held w') = sn_run_id (held w);
  re_left : left_of (held w') <= left_of (held w)
}.

Lemma reach_refl w : sound w -> reach w w.
Proof. intros []. split; try done. by apply lawful_refl. Qed.
Lemma reach_trans w1 w2 w3 : sound w1 -> reach w1 w2 -> reach w2 w3 -> reach w1 w3.
Proof.
  intros Hs [L1 T1 R1 A1 E1] [L2 T2 R2 A2 E2].
  split; try congruence; [eapply lawful_trans; [apply Hs|done|done]|lia].
Qed.

Lemma calm_sound P w w' :
  (forall e, P e -> is_commit e) -> sound w -> calm P w w' -> sound w' /\ reach w w'.
Proof.
  intros HP [I K C J V] [[L (evs & El & F)] [S1 S2 S3 S4 S5]]. split.
  - split; [by eapply law_inv| |congruence| |congruence].
    + rewrite S3. by eapply known_lawful.
    + rewrite El. apply journaled_commits; [done|]. by eapply list.Forall_impl.
  - split; try done; rewrite S3; lia || done.
Qed.

Lemma renewal_commit e : is_renewal e -> is_commit e.
Proof. by destruct e as [? []|]. Qed.

(** A computation that keeps its execution sound. *)
Definition guar {A} (m : ex A) : Prop :=
  forall w r w', m w = (r, w') -> sound w -> sound w' /\ reach w w'.

Lemma guar_ret {A} (a : A) : guar (mreturn a).
Proof. intros w r w' [= <- <-] Hs. split; [done|by apply reach_refl]. Qed.
Lemma guar_raise {A} e : guar (mraise (A := A) e).
Proof. intros w r w' [= <- <-] Hs. split; [done|by apply reach_refl]. Qed.
Lemma guar_lift {A} (r : result durable_exn A) : guar (mlift r).
Proof. intros w r' w' [= <- <-] Hs. split; [done|by apply reach_refl]. Qed.
Lemma guar_or_raise {A} (o : option A) e : guar (or_raise o e).
Proof. destruct o; [apply guar_ret|apply guar_raise]. Qed.
Lemma guar_bind {A B} (m : ex A) (f : A -> ex B) :
  guar m -> (forall a, guar (f a)) -> guar (mthen m f).
Proof.
  intros Hm Hf w r w' Eq Hs. apply mthen_inv in Eq as [(e & Eq & ->)|(a & w1 & E1 & E2)]; [by eapply Hm|].
  destruct (Hm _ _ _ E1 Hs) as [S1 R1]. destruct (Hf a _ _ _ E2 S1) as [S2 R2].
  split; [done|by eapply reach_trans].
Qed.
Lemma guar_catch {A} (m : ex A) h : guar m -> (forall e, guar (h e)) -> guar (mcatch m h).
Proof.
  intros Hm Hh w r w' Eq Hs. unfold mcatch in Eq. destruct (m w) as [[a|e] w1] eqn:E1.
  - injection Eq as <- <-. by eapply Hm.
  - destruct (Hm _ _ _ E1 Hs) as [S1 R1]. destruct (Hh e _ _ _ Eq S1) as [S2 R2].
    split; [done|by eapply reach_trans].
Qed.
Lemma guar_the : guar the_execution.
Proof. intros w r w' [= <- <-] Hs. split; [done|by apply reach_refl]. Qed.
Lemma guar_check : guar check_active.
Proof.
  intros w r w' Eq Hs. unfold check_active in Eq.
  destruct (de_revocation_error _); injection Eq as <- <-; (split; [done|by apply reach_refl]).
Qed.

Lemma check_same w r w' : check_active w = (r, w') -> w' = w.
Proof. unfold check_active. case_match; by intros [= _ <-]. Qed.
Lemma check_unless (allow : bool) w r w' :
  (if allow then mreturn tt else check_active) w = (r, w') -> w' = w.
Proof. destruct allow; [by intros [= _ <-]|apply check_same]. Qed.

(** Changes of the execution that leave what it holds. *)
Lemma guar_set f : (forall x, same_exec x (f x)) -> guar (set_execution f).
Proof.
  intros Hf w r w' [= <- <-] Hs. apply (calm_sound is_commit); [done|done|].
  split; [apply moved_same; [apply Hs|done|done]|]. apply Hf.
Qed.

Lemma on_base_calm P {A} (m : sv A) w r w' :
  sv_law P m -> on_base m w = (r, w') -> store_inv (tables_of w) -> calm P w w'.
Proof.
  intros Hm Eq Hw. unfold on_base in Eq. destruct (m (dw_base w)) as [r' b] eqn:E.
  injection Eq as <- <-. split; [by eapply Hm|done].
Qed.
Lemma guar_on_base {A} (m : sv A) : sv_law is_commit m -> guar (on_base m).
Proof.
  intros Hm w r w' Eq Hs. apply (calm_sound is_commit); [done|done|].
  eapply on_base_calm; [exact Hm|exact Eq|apply Hs].
Qed.
Lemma guar_awaiting {A} (m : sv A) : sv_law is_commit m -> guar (awaiting svc m).
Proof.
  intros Hm w r w' Eq Hs. unfold awaiting in Eq.
  destruct (calm_sound is_renewal w (beats svc w)) as [S1 R1];
    [apply renewal_commit|done|apply beats_calm, Hs|].
  destruct (guar_on_base m Hm _ _ _ Eq S1) as [S2 R2]. split; [done|by eapply reach_trans].
Qed.
(** ** Saving *)

(** What a successful save of [s] did. *)
Record saved w s (e : option ledger_entry) w' : Prop := {
  sd_view : forall led, view (held w') led = view s led;
  sd_status : sn_status (held w') = sn_status s;
  sd_phase : sn_phase (held w') = sn_phase s;
  sd_body : sn_body (held w') = sn_body s;
  sd_commit : exists d d' t before after a,
    log_of w' = log_of w ++ before ++ EvCommit d (OpSave (held w) s (de_token (dw_exec w)) t e) :: after /\
    Forall is_renewal before /\ Forall is_renewal after /\
    save d (held w) s (de_token (dw_exec w)) t e = Ok (d', held w') /\
    (let led := ledger_of d (sn_run_id (held w)) in
     m_wf (view (held w) led) /\ mstep (view (held w) led) a (view s (noted led e)))
}.

(** The hypothesis of a save: it is a step wherever the run has its revision. *)
Definition steps_from w s (e : option ledger_entry) : Prop :=
  same_run (held w) s /\ sn_config s = sn_config (held w) /\
  forall d row, lawful (tables_of w) d -> durable_runs d !! sn_run_id (held w) = Some row ->
    dr_revision row = sn_revision (held w) ->
    save_steps (held w) s e (ledger_of d (sn_run_id (held w))).

Lemma steps_calm P w w' s e :
  store_inv (tables_of w) -> calm P w w' -> steps_from w s e -> steps_from w' s e.
Proof.
  intros Hw [[L _] [_ _ S _ _]] (H1' & H2' & H3'). unfold steps_from. rewrite S. split_and!; [done..|].
  intros d row Hd. apply H3'. by eapply lawful_trans.
Qed.

(** The step a save took. *)
Lemma save_step_taken d prev s tok t e d' v :
  store_inv d -> known d prev -> save d prev s tok t e = Ok (d', v) ->
  (forall row, durable_runs d !! sn_run_id prev = Some row -> dr_revision row = sn_revision prev ->
     save_steps prev s e (ledger_of d (sn_run_id prev))) ->
  let led := ledger_of d (sn_run_id prev) in
  m_wf (view prev led) /\ exists a, mstep (view prev led) a (view s (noted led e)).
Proof.
  intros Hd Hk E Hst led. apply save_inv in E as (row & p & Hr & Hrev & _ & Hnt & _).
  destruct (known_row _ _ _ Hd Hk Hr Hrev) as (Hr' & _ & Hs & Hm). split; [done|].
  eapply Hst; [exact Hr'|done|done|]. apply not_ended. congruence.
Qed.

Lemma awaited_save s tok t e w rs w3 :
  awaiting svc (store_save (held w) s tok t e) w = (rs, w3) -> sound w -> steps_from w s e ->
  calm is_commit w w3 /\
  forall v, rs = Ok v ->
    known (tables_of w3) v /\ same_run (held w) v /\ sn_config v = sn_config (held w) /\
    (forall led, view v led = view s led) /\ sn_status v = sn_status s /\
    sn_phase v = sn_phase s /\ sn_body v = sn_body s /\ left_of v <= left_of (held w) /\
    exists d d' before a,
      log_of w3 = log_of w ++ before ++ [EvCommit d (OpSave (held w) s tok t e)] /\
      Forall is_renewal before /\ save d (held w) s tok t e = Ok (d', v) /\
      (let led := ledger_of d (sn_run_id (held w)) in
       m_wf (view (held w) led) /\ mstep (view (held w) led) a (view s (noted led e))).
Proof.
  intros Eq Hs Hst. unfold awaiting in Eq.
  pose proof (beats_calm w (so_inv _ Hs)) as C.
  destruct (calm_sound is_renewal _ _ renewal_commit Hs C) as [S2 _].
  pose proof (steps_calm _ _ _ _ _ (so_inv _ Hs) C Hst) as (Hrun & Hcfg & Hstep).
  pose proof (so_known _ S2) as Hk. rewrite (se_snapshot _ _ (ca_exec _ _ _ C)) in Hrun, Hcfg, Hstep, Hk.
  unfold on_base in Eq.
  destruct (store_save (held w) s tok t e (dw_base (beats svc w))) as [r b] eqn:E.
  injection Eq as <- <-. apply save_spec in E as [M Hv]; [|apply S2|done..]. split.
  { eapply calm_trans; [apply Hs|eapply calm_weaken; [apply renewal_commit|exact C]|]. by split. }
  intros v ->. destruct (Hv v eq_refl) as (K1 & K2 & K3 & K4 & K5 & K6 & K7 & d & d' & Hl & Es & Hlog).
  destruct (save_step_taken d (held w) s tok t e d' v) as [Hm [a Ha]];
    [by eapply law_inv|eapply known_lawful; [apply S2|done|done]|done|
     intros row; by apply Hstep|].
  assert (left_of v <= left_of (held w)) as Hleft.
  { pose proof (mstep_left _ _ _ Ha Hm) as Hl1.
    change (left_of s <= left_of (held w) - (if stays_acting a then 0 else 1)) in Hl1.
    unfold left_of at 1. rewrite (K4 ∅). change (left_of s <= left_of (held w)).
    destruct (stays_acting a); lia. }
  split_and!; try done. destruct (mv_log _ _ _ (ca_moved _ _ _ C)) as (before & Hb & Hf).
  exists d, d', before, a. split_and!; try done. simpl. by rewrite Hlog, Hb, app_assoc.
Qed.

Lemma save_guar s e allow w r w' :
  save_snapshot svc s e allow w = (r, w') -> sound w -> steps_from w s e ->
  sound w' /\ reach w w' /\ (r = Ok tt -> saved w s e w').
Proof.
  intros Eq Hs Hst. unfold save_snapshot in Eq.
  apply mthen_inv in Eq as [(e0 & Eq & ->)|([] & w0 & E0 & Eq)];
    [apply check_unless in Eq as ->; split_and!; [done|by apply reach_refl|done]|].
  apply check_unless in E0 as ->.
  apply mthen_inv in Eq as [(e0 & Eq & ->)|(t & w1 & E1 & Eq)].
  { destruct (guar_on_base clock (sv_clock _) _ _ _ Eq Hs). done. }
  pose proof (on_base_calm is_renewal clock w _ w1 (sv_clock _) E1 (so_inv _ Hs)) as C1.
  destruct (calm_sound is_renewal _ _ renewal_commit Hs C1) as [S1 R1].
  pose proof (steps_calm _ _ _ _ _ (so_inv _ Hs) C1 Hst) as Hst1.
  unfold mthen at 1, the_execution in Eq. cbv zeta in Eq.
  destruct (_ && _); [injection Eq as <- <-; by split_and!|].
  set (t' := if flt _ _ then _ else _) in Eq. clearbody t'.
  apply mthen_inv in Eq as [(e0 & Eq & ->)|(v & w3 & E3 & Eq)].
  { apply awaited_save in Eq as [C3 _]; [|done|done].
    destruct (calm_sound _ _ _ (fun _ x => x) S1 C3) as [S3 R3].
    split_and!; [done|by eapply reach_trans|done]. }
  apply awaited_save in E3 as [C3 Hv]; [|done|done].
  destruct (Hv v eq_refl) as (K1 & K2 & K3 & K4 & K5 & K6 & K7 & K8 & d & d' & before & a & Hlog & Hb & Hsv & Hstep).
  destruct (calm_sound _ _ _ (fun _ x => x) S1 C3) as [S3 R3].
  pose proof (se_snapshot _ _ (ca_exec _ _ _ C1)) as Hheld.
  pose proof (se_token _ _ (ca_exec _ _ _ C1)) as Htok.
  unfold mthen at 1, set_execution, modify in Eq.
  set (w4 := with_execution w3 (ex_snapshot (dw_exec w3) v)) in Eq.
  assert (sound w4) as S4.
  { split; [apply S3|done| |apply S3|].
    - cbn. rewrite (se_runtime _ _ (ca_exec _ _ _ C3)). rewrite (so_config _ S1). done.
    - destruct Hstep as [Hm Hstep]. eexists. cbn. rewrite K4. by eapply mstep_wf. }
  assert (reach w w4) as R4.
  { eapply reach_trans; [done|exact R1|]. destruct R3 as [Q1 Q2 Q3 _ _], K2. split; try done. }
  (* the rest only waits *)
  assert (forall w5, calm is_renewal w4 w5 -> saved w s e w5) as Hdone.
  { intros w5 [[_ (after & Hl5 & Hf5)] [_ _ Hh5 _ _]]. constructor.
    - intros led. rewrite Hh5. apply K4.
    - by rewrite Hh5.
    - by rewrite Hh5.
    - by rewrite Hh5.
    - destruct (mv_log _ _ _ (ca_moved _ _ _ C1)) as (ev1 & Hl1 & Hf1).
      rewrite <- Hheld, <- Htok. exists d, d', t', (ev1 ++ before), after, a. split_and!; try done.
      + rewrite Hl5. change (log_of w4) with (log_of w3). rewrite Hlog, Hl1.
        rewrite <- !app_assoc. simpl. done.
      + by apply Forall_app.
      + rewrite Hh5. done. }
  assert (forall w5, calm is_renewal w4 w5 -> sound w5 /\ reach w w5) as Hgo.
  { intros w5 C5. destruct (calm_sound _ _ _ renewal_commit S4 C5) as [S5 R5].
    split; [done|by eapply reach_trans]. }
  assert (calm is_renewal w4 w4) as C4 by apply calm_refl, S4.
  apply mthen_inv in Eq as [(e0 & Eq & ->)|([] & w5 & E5 & Eq)].
  { apply check_unless in Eq as ->. destruct (Hgo _ C4). done. }
  apply check_unless in E5 as ->. case_bool_decide as Hstat.
  { injection Eq as <- <-. destruct (Hgo _ C4). split_and!; [done..|]. intros _. by apply Hdone. }
  unfold audit_transition in Eq. unfold mthen at 1, the_execution, awaiting in Eq.
  pose proof (beats_calm w4 (so_inv _ S4)) as C6.
  assert (calm is_renewal w4 w') as C7.
  { eapply calm_trans; [apply S4|exact C6|]. eapply on_base_calm; [|exact Eq|by eapply calm_inv]. apply sv_audit. }
  destruct (Hgo _ C7). split_and!; [done..|]. intros _. by apply Hdone.
Qed.
End Executions.
