(* ===== verification/DurablePhases.v ===== *)
(** The phases of an execution are steps of the run machine.

    [wp m Q w]: run from a sound execution, [m] leaves a sound one, moves the store
    lawfully, and what it returns satisfies [Q].  The lemmas go up through
    [DurableService] in its own order: stopping and finishing, the tool journal, the
    tool phase, deciding, validating, [advance], the loops, the fences and [_drive].
    [advance_progress] is the reason the loop of a worker ends. *)

From Stdlib Require Import ZArith String.
From S2P Require Import Prelude Effects Float64 PyVal Access Redact Json AgentDto SourceMetadata ContextPacker.
From S2P Require Import FinalAnswer DurableStore AgentRuntime DurableDto DurableMachine DurableLaw.
From S2P Require Import DurableService DurableRefinement.
From S2P Require Registry.
From stdpp Require Import base list gmap numbers.

#[local] Open Scope eff_scope.
#[local] Open Scope Z_scope.
#[local] Arguments fadd : simpl never.
#[local] Arguments fsub : simpl never.
#[local] Arguments fmul : simpl never.
#[local] Arguments fdiv : simpl never.

Section Phases.
Context `{PyRepr, UnicodeDB, UnicodeDigits, NetlocCheck} `{SnapshotSize}.
Context {W : Type} `{AgentPorts W} `{DurablePorts W} `{!LawfulOthers W} (svc : DurableAgentService).
Abbreviation sv A := (eff durable_exn (sworld W) A).
Abbreviation ex A := (eff durable_exn (dworld W) A).
Abbreviation tables_of w := (sw_tables (dw_base w)).
Abbreviation log_of w := (sw_log (dw_base w)).
Abbreviation held w := (de_snapshot (dw_exec w)).
Implicit Types (w : dworld W) (s : run_snapshot).

(** * Rules *)

Definition wp {A} (m : ex A) (Q : A -> dworld W -> Prop) w : Prop :=
  sound w -> forall r w', m w = (r, w') ->
  sound w' /\ reach w w' /\ forall a, r = Ok a -> Q a w'.

Lemma wp_ret {A} (a : A) (Q : A -> dworld W -> Prop) w : (sound w -> Q a w) -> wp (mreturn a) Q w.
Proof.
  intros HQ Hs r w' [= <- <-]. split_and!; [done|by apply reach_refl|]. intros a' [= <-]. by apply HQ.
Qed.
Lemma wp_raise {A} e (Q : A -> dworld W -> Prop) w : wp (mraise e) Q w.
Proof. intros Hs r w' [= <- <-]. by split_and!; [|apply reach_refl|]. Qed.
Lemma wp_lift {A} (r : result durable_exn A) (Q : A -> dworld W -> Prop) w :
  (forall a, r = Ok a -> Q a w) -> wp (mlift r) Q w.
Proof. intros HQ Hs r' w' [= <- <-]. by split_and!; [|apply reach_refl|]. Qed.
Lemma wp_or_raise {A} (o : option A) e (Q : A -> dworld W -> Prop) w :
  (forall a, o = Some a -> Q a w) -> wp (or_raise o e) Q w.
Proof. destruct o; intros HQ; [apply wp_ret; intros; by apply HQ|apply wp_raise]. Qed.

Lemma wp_bind {A B} (m : ex A) (f : A -> ex B) Q R w :
  wp m Q w -> (forall a w1, sound w1 -> reach w w1 -> Q a w1 -> wp (f a) R w1) ->
  wp (mthen m f) R w.
Proof.
  intros Hm Hf Hs r w' Eq. apply mthen_inv in Eq as [(e & Eq & ->)|(a & w1 & E1 & E2)].
  { destruct (Hm Hs _ _ Eq) as (? & ? & _). done. }
  destruct (Hm Hs _ _ E1) as (S1 & R1 & Q1). specialize (Q1 a eq_refl).
  destruct (Hf a w1 S1 R1 Q1 S1 _ _ E2) as (S2 & R2 & Q2).
  split_and!; [done|by eapply reach_trans|done].
Qed.

Lemma wp_catch {A} (m : ex A) h Q w :
  wp m Q w -> (forall e w1, sound w1 -> reach w w1 -> wp (h e) Q w1) -> wp (mcatch m h) Q w.
Proof.
  intros Hm Hh Hs r w' Eq. unfold mcatch in Eq. destruct (m w) as [[a|e] w1] eqn:E1.
  { injection Eq as <- <-. by apply Hm. }
  destruct (Hm Hs _ _ E1) as (S1 & R1 & _). destruct (Hh e w1 S1 R1 S1 _ _ Eq) as (S2 & R2 & Q2).
  split_and!; [done|by eapply reach_trans|done].
Qed.

Lemma wp_mono {A} (m : ex A) (Q R : A -> dworld W -> Prop) w :
  wp m Q w -> (forall a w1, sound w1 -> reach w w1 -> Q a w1 -> R a w1) -> wp m R w.
Proof.
  intros Hm HR Hs r w' Eq. destruct (Hm Hs _ _ Eq) as (S1 & R1 & Q1).
  split_and!; [done..|]. intros a Ha. eauto.
Qed.

Lemma wp_the {B} (f : DurableExecution -> ex B) Q w :
  wp (f (dw_exec w)) Q w -> wp (mthen the_execution f) Q w.
Proof. done. Qed.

Lemma wp_sound {A} (m : ex A) Q w : (sound w -> wp m Q w) -> wp m Q w.
Proof. intros Hm Hs. by apply Hm. Qed.

Definition any {A} : A -> dworld W -> Prop := fun _ _ => True.

Lemma wp_any {A} (m : ex A) Q w : wp m Q w -> wp m any w.
Proof. intros Hm. by eapply wp_mono. Qed.

Lemma wp_check Q w : Q tt w -> wp check_active Q w.
Proof.
  intros HQ Hs r w' Eq. pose proof (check_same _ _ _ Eq) as ->. by split_and!; [|apply reach_refl|intros []].
Qed.

(** Waiting: what the execution holds stays. *)
Abbreviation stay w w' := (same_exec (dw_exec w) (dw_exec w')).

Lemma wp_calm {A} (m : ex A) Q w :
  (forall r w', sound w -> m w = (r, w') -> calm is_commit w w' /\ forall a, r = Ok a -> Q a w') ->
  wp m Q w.
Proof.
  intros Hm Hs r w' Eq. destruct (Hm r w' Hs Eq) as [C HQ].
  by destruct (calm_sound is_commit _ _ (fun _ h => h) Hs C).
Qed.

Lemma wp_base {A} (m : sv A) w : sv_law is_commit m -> wp (on_base m) (fun _ w' => stay w w') w.
Proof.
  intros Hm. apply wp_calm. intros r w' Hs Eq.
  pose proof (on_base_calm is_commit m w r w' Hm Eq (so_inv _ Hs)) as C. split; [done|]. by destruct C.
Qed.

Lemma awaiting_calm {A} (m : sv A) w r w' :
  sv_law is_commit m -> awaiting svc m w = (r, w') -> sound w -> calm is_commit w w'.
Proof.
  intros Hm Eq Hs. unfold awaiting in Eq. pose proof (beats_calm svc w (so_inv _ Hs)) as C1.
  eapply calm_trans; [apply Hs|eapply calm_weaken; [apply renewal_commit|exact C1]|].
  eapply on_base_calm; [exact Hm|exact Eq|by eapply calm_inv].
Qed.
Lemma wp_await {A} (m : sv A) w :
  sv_law is_commit m -> wp (awaiting svc m) (fun _ w' => stay w w') w.
Proof.
  intros Hm. apply wp_calm. intros r w' Hs Eq. pose proof (awaiting_calm m w r w' Hm Eq Hs) as C.
  split; [done|]. by destruct C.
Qed.

Lemma wp_set f w : (forall x, same_exec x (f x)) -> wp (set_execution f) (fun _ w' => stay w w') w.
Proof.
  intros Hf. apply wp_calm. intros r w' Hs [= <- <-]. split; [|intros; apply Hf].
  split; [apply moved_same; [apply Hs|done|done]|apply Hf].
Qed.

(** Sequencing after a wait. *)
Lemma wp_then_base {A B} (m : sv A) (f : A -> ex B) Q w :
  sv_law is_commit m -> (forall a w1, sound w1 -> reach w w1 -> stay w w1 -> wp (f a) Q w1) ->
  wp (mthen (on_base m) f) Q w.
Proof. intros Hm Hf. eapply wp_bind; [by apply wp_base|done]. Qed.
Lemma wp_then_await {A B} (m : sv A) (f : A -> ex B) Q w :
  sv_law is_commit m -> (forall a w1, sound w1 -> reach w w1 -> stay w w1 -> wp (f a) Q w1) ->
  wp (mthen (awaiting svc m) f) Q w.
Proof. intros Hm Hf. eapply wp_bind; [by apply wp_await|done]. Qed.
Lemma wp_then_check {B} (f : unit -> ex B) Q w : wp (f tt) Q w -> wp (mthen check_active f) Q w.
Proof.
  intros Hf. eapply wp_bind; [by apply (wp_check (fun _ w' => w' = w))|]. intros [] w1 _ _ ->. done.
Qed.
Lemma wp_then_or {A B} (o : option A) e (f : A -> ex B) Q w :
  (forall a, o = Some a -> wp (f a) Q w) -> wp (mthen (or_raise o e) f) Q w.
Proof.
  intros Hf. eapply wp_bind; [by apply (wp_or_raise _ _ (fun a w' => o = Some a /\ w' = w))|].
  intros a w1 _ _ [Ha ->]. by apply Hf.
Qed.

(** A ledger entry that was read describes the run as the execution holds it. *)
Lemma wp_then_ledger {B} (c : pystr) (f : ledger_entry -> ex B) Q w :
  (forall e w1, sound w1 -> reach w w1 -> stay w w1 -> le_call_id e = c ->
     read_entry (tables_of w1) (held w1) e -> wp (f e) Q w1) ->
  wp (mthen (awaiting svc (store_ledger (held w) c)) f) Q w.
Proof.
  intros Hf. eapply (wp_bind _ _ (fun e w1 => stay w w1 /\ le_call_id e = c /\
    read_entry (tables_of w1) (held w1) e)); [|intros e w1 S1 R1 (? & ? & ?); by apply Hf].
  apply wp_calm. intros r w' Hs Eq. pose proof (awaiting_calm _ w r w' (sv_ledger _ _ _) Eq Hs) as C.
  split; [done|]. intros e ->. pose proof (ca_exec _ _ _ C) as Hst. split; [done|].
  rewrite (se_snapshot _ _ Hst). unfold awaiting, on_base in Eq.
  pose proof (calm_inv _ _ _ (beats_calm svc w (so_inv _ Hs))) as Hb.
  destruct (store_ledger (held w) c (dw_base (beats svc w))) as [r b] eqn:E. injection Eq as -> <-.
  apply (ledger_spec is_commit) in E as [_ Hr]; [|done]. destruct (Hr e eq_refl). done.
Qed.

(** * Saving *)

Lemma saved_stage w s e w' : saved w s e w' -> stage_of (held w') = stage_of s.
Proof. intros [Hv _ _ _ _]. exact (f_equal m_stage (Hv ∅)). Qed.
Lemma saved_steps w s e w' : saved w s e w' -> sn_steps_used (held w') = sn_steps_used s.
Proof. intros [Hv _ _ _ _]. exact (f_equal m_steps (Hv ∅)). Qed.
Lemma saved_calls w s e w' : saved w s e w' -> sn_tool_calls_used (held w') = sn_tool_calls_used s.
Proof. intros [Hv _ _ _ _]. exact (f_equal m_calls (Hv ∅)). Qed.
Lemma saved_config w s e w' : saved w s e w' -> sn_config (held w') = sn_config s.
Proof. intros [Hv _ _ _ _]. exact (f_equal m_config (Hv ∅)). Qed.
Lemma saved_left w s e w' : saved w s e w' -> left_of (held w') = left_of s.
Proof. intros [Hv _ _ _ _]. exact (f_equal m_left (Hv ∅)). Qed.

Lemma wp_save s e allow w :
  steps_from w s e -> wp (save_snapshot svc s e allow) (fun _ w' => saved w s e w') w.
Proof.
  intros Hst Hs r w' Eq. destruct (save_guar svc s e allow w r w' Eq Hs Hst) as (S1 & R1 & Hr).
  split_and!; [done..|]. intros [] ->. by apply Hr.
Qed.

Lemma wp_then_save {B} s e allow (f : unit -> ex B) Q w :
  steps_from w s e -> (forall w1, sound w1 -> reach w w1 -> saved w s e w1 -> wp (f tt) Q w1) ->
  wp (mthen (save_snapshot svc s e allow) f) Q w.
Proof. intros Hst Hf. eapply wp_bind; [by apply wp_save|]. intros []. apply Hf. Qed.

(** ** Stopping and finishing *)

(** The run is over, or less of it is left than at [w]. *)
Definition further w w' : Prop :=
  sn_status (held w') <> running \/ left_of (held w') < left_of (held w).

Lemma stop_steps w code st :
  terminal st = true -> st <> completed -> steps_from w (copy_stop (held w) code st) None.
Proof.
  intros Ht Hc. split_and!; [done..|]. intros d row _ _ _ Hm Hne. exists (AEnd st).
  destruct Hm as [_ W2 W3 _ _ _ _ _]. simpl in *.
  pose proof (m_end (view (held w) (ledger_of d (sn_run_id (held w)))) st (sn_steps_used (held w))
    (sn_tool_calls_used (held w))) as Hend.
  replace (view (copy_stop (held w) code st) _) with
    (m_spend (m_move (view (held w) (ledger_of d (sn_run_id (held w)))) (Ended st))
       (sn_steps_used (held w)) (sn_tool_calls_used (held w)));
    [apply Hend; simpl; try done; lia|]. by destruct st.
Qed.

Lemma wp_stop code st allow w :
  terminal st = true -> st <> completed ->
  wp (stop svc code st allow) (fun _ w' => sn_status (held w') = st) w.
Proof.
  intros Ht Hc. apply wp_the. eapply wp_mono; [by apply wp_save, stop_steps|].
  intros [] w1 _ _ Hsv. apply (sd_status _ _ _ _ Hsv).
Qed.

(** A result the run may end with: only a validated answer completes it. *)
Definition can_finish s (res : AgentRunResult) : Prop :=
  (ars_status res = RunCOMPLETED -> stage_of s = Validating) /\
  ars_steps_used res <= Z.max (sn_steps_used s) (rc_max_steps (sn_config s)) /\
  ars_tool_calls_used res <= Z.max (sn_tool_calls_used s) (rc_max_tool_calls (sn_config s)).

Lemma finished_terminal s res : terminal (sn_status (copy_finish s res)) = true.
Proof. simpl. by destruct (ars_status res). Qed.

Lemma view_finished s res led :
  view (copy_finish s res) led =
  m_spend (m_move (view s led) (Ended (result_status (ars_status res))))
    (Z.max (ars_steps_used res) (sn_steps_used s)) (Z.max (ars_tool_calls_used res) (sn_tool_calls_used s)).
Proof. unfold view. f_equal. unfold stage_of, copy_finish. simpl. by destruct (ars_status res). Qed.

Lemma finish_steps w res : can_finish (held w) res -> steps_from w (copy_finish (held w) res) None.
Proof.
  intros (Hv & Hst & Hca). split_and!; [done..|]. intros d row _ _ _ Hm Hne.
  exists (AEnd (result_status (ars_status res))). destruct Hm as [_ W2 W3 _ _ _ _ _]. simpl in *.
  rewrite view_finished. apply m_end; simpl; try lia; try done.
  - by destruct (ars_status res).
  - intros Hx. apply Hv. by destruct (ars_status res).
Qed.

(** The entry of the pending call is closed with the run. *)
Lemma finish_recorded_steps w res e d ap :
  can_finish (held w) res -> ars_status res <> RunCOMPLETED ->
  stage_of (held w) = Acting d ap (Some (le_call_id e)) -> store_inv (tables_of w) ->
  known (tables_of w) (held w) -> read_entry (tables_of w) (held w) e ->
  steps_from w (copy_finish (held w) res) (Some (ledger_with e ledger_completed (le_observation e))).
Proof.
  intros (_ & Hst & Hca) Hn Hstage Hi Hk He. split_and!; [done..|]. intros d' row Hl Hrow Hrev Hm Hne.
  exists (AEnd (result_status (ars_status res))). destruct Hm as [_ W2 W3 _ _ _ _ _]. simpl in *.
  pose proof (read_entry_lawful _ _ _ _ Hi Hl Hk He row Hrow Hrev) as Hled. rewrite view_finished.
  set (m := view (held w) (ledger_of d' (sn_run_id (held w)))).
  apply (m_end_recorded m d ap (le_call_id e) (mcall_of e) (result_status (ars_status res))
    (Z.max (ars_steps_used res) (sn_steps_used (held w)))
    (Z.max (ars_tool_calls_used res) (sn_tool_calls_used (held w)))); subst m; simpl; try done; try lia;
    by destruct (ars_status res).
Qed.

Lemma wp_finish res e w :
  steps_from w (copy_finish (held w) res) e ->
  wp (finish svc res e) (fun _ w' => terminal (sn_status (held w')) = true) w.
Proof.
  intros Hst. apply wp_the. eapply wp_mono; [by apply wp_save|].
  intros [] w1 _ _ Hsv. rewrite (sd_status _ _ _ _ Hsv). apply finished_terminal.
Qed.

(** * The tool phase *)

Definition acting s : Prop := sn_status s = running /\ sn_phase s = tool.

Lemma acting_stage s :
  wf_snapshot s -> acting s ->
  sb_decision_inflight (sn_body s) = false /\
  exists d, sb_decision (sn_body s) = Some d /\
    stage_of s = Acting (strip_decision d) (sb_approved_action_digest (sn_body s))
                   (sb_pending_call_id (sn_body s)).
Proof.
  intros [led [W1 _ _ _ _ _ _ _]] [Hst Hph]. simpl in W1. unfold stage_of in *. rewrite Hst, Hph in *.
  destruct (sb_decision (sn_body s)) as [d|]; [|done].
  destruct (sb_decision_inflight (sn_body s)); [done|]. split; [done|]. by exists d.
Qed.

(** What a tool phase does not change before it dispatches. *)
Record same_work s s' : Prop := {
  wk_status : sn_status s' = sn_status s;
  wk_phase : sn_phase s' = sn_phase s;
  wk_steps : sn_steps_used s' = sn_steps_used s;
  wk_calls : sn_tool_calls_used s' = sn_tool_calls_used s;
  wk_config : sn_config s' = sn_config s;
  wk_decision : sb_decision (sn_body s') = sb_decision (sn_body s)
}.

Lemma work_refl s : same_work s s.
Proof. by constructor. Qed.

(** ** Calls without an outcome *)

Lemma forget_steps w e d ap :
  stage_of (held w) = Acting (strip_decision d) ap (Some (le_call_id e)) -> acting (held w) ->
  sb_decision (sn_body (held w)) = Some d -> sb_decision_inflight (sn_body (held w)) = false ->
  sb_approved_action_digest (sn_body (held w)) = ap ->
  le_replay_policy e = read_only -> le_status e <> ledger_completed ->
  sound w -> read_entry (tables_of w) (held w) e ->
  steps_from w (copy_forget (held w)) (Some (ledger_with e unknown (le_observation e))).
Proof.
  intros Hstage [Hst Hph] Hd Hin Hap Hp Hc Hs He. split_and!; [done..|].
  intros d' row Hl Hrow Hrev Hm Hne. exists (AForget (le_call_id e)).
  pose proof (read_entry_lawful _ _ _ _ (so_inv _ Hs) Hl (so_known _ Hs) He row Hrow Hrev) as Hled.
  pose proof (m_forget (view (held w) (ledger_of d' (sn_run_id (held w)))) (strip_decision d) ap
    (le_call_id e) (mcall_of e) Hstage Hled Hp Hc) as Hstep.
  assert (stage_of (copy_forget (held w)) = Acting (strip_decision d) ap None) as Hnew.
  { unfold stage_of. cbn. by rewrite Hst, Hph, Hd, Hin, Hap. }
  unfold view. rewrite Hnew. exact Hstep.
Qed.

Lemma wp_settle definition digest w :
  acting (held w) ->
  wp (settle_pending svc definition digest) (fun go w' =>
    if (go : bool) then same_work (held w) (held w') /\ sb_pending_call_id (sn_body (held w')) = None
    else sn_status (held w') <> running) w.
Proof.
  intros Hact. apply wp_sound. intros Hs. apply wp_the.
  destruct (sb_pending_call_id (sn_body (held w))) as [c|] eqn:Hp;
    [|apply wp_ret; intros; split; [apply work_refl|done]].
  apply wp_then_ledger. intros e w1 S1 R1 St1 Hc He. pose proof (se_snapshot _ _ St1) as Hh.
  destruct (negb _ || _) eqn:Hx; [apply wp_raise|]. apply orb_false_iff in Hx as [_ Hx].
  apply bool_decide_eq_false in Hx. destruct (negb (_ && _)) eqn:Hro.
  { eapply wp_bind; [by apply wp_stop|]. intros [] w2 S2 R2 Hw2. apply wp_ret. intros _.
    by rewrite Hw2. }
  apply negb_false_iff, andb_true_iff in Hro as [Hro _]. apply bool_decide_eq_true in Hro.
  apply wp_the. rewrite <- Hh in Hact, Hp.
  destruct (acting_stage _ (so_wf _ S1) Hact) as (Hin & d & Hd & Hstage). rewrite Hp in Hstage.
  apply wp_then_save; [by eapply forget_steps; subst c|]. intros w2 S2 R2 Hsv. apply wp_ret. intros _.
  rewrite <- Hh. split; [|by rewrite (sd_body _ _ _ _ Hsv)].
  constructor; [apply (sd_status _ _ _ _ Hsv)|apply (sd_phase _ _ _ _ Hsv)|apply (saved_steps _ _ _ _ Hsv)|
    apply (saved_calls _ _ _ _ Hsv)|apply (saved_config _ _ _ _ Hsv)|by rewrite (sd_body _ _ _ _ Hsv)].
Qed.

(** ** Asking *)

Lemma ask_steps w d digest request :
  acting (held w) -> wf_snapshot (held w) -> sb_decision (sn_body (held w)) = Some d ->
  decision_digest d = Some digest -> sb_pending_call_id (sn_body (held w)) = None ->
  ap_action_digest request = digest -> steps_from w (copy_await (held w) request) None.
Proof.
  intros Hact Hwf Hd Hdig Hp Hr. split_and!; [done..|]. intros d' row _ _ _ Hm Hne. exists AAsk.
  destruct (acting_stage _ Hwf Hact) as (Hin & d0 & Hd0 & Hstage). destruct Hact as [Hst Hph].
  simplify_eq. rewrite Hp in Hstage.
  assert (stage_of (copy_await (held w) request) = Awaiting (strip_decision d) (ap_action_digest request)) as Hnew.
  { unfold stage_of. cbn. by rewrite Hph, Hd, Hin, Hp. }
  unfold view at 2. rewrite Hnew. eapply (m_ask (view (held w) _)); [exact Hstage|].
  by rewrite strip_decision_digest.
Qed.

Lemma wp_ask definition d digest definition_digest w :
  acting (held w) -> sb_decision (sn_body (held w)) = Some d -> decision_digest d = Some digest ->
  sb_pending_call_id (sn_body (held w)) = None ->
  wp (ask_approval svc definition d digest definition_digest)
    (fun _ w' => sn_status (held w') = awaiting_approval) w.
Proof.
  intros Hact Hd Hdig Hp. apply wp_then_base; [apply sv_outside|]. intros id w1 S1 R1 St1.
  rewrite <- (se_snapshot _ _ St1) in *. apply wp_the.
  eapply (wp_bind _ _ (fun _ w2 => stay w1 w2)).
  { destruct (sn_active_budget (held w1)) as [b|]; [|by apply wp_ret].
    apply wp_then_base; [apply sv_clock|]. intros. by apply wp_ret. }
  intros expires w2 S2 R2 St2. rewrite <- (se_snapshot _ _ St2) in *.
  eapply wp_mono; [by apply wp_save; eapply ask_steps; [|apply S2|..]|].
  intros [] w3 _ _ Hsv. apply (sd_status _ _ _ _ Hsv).
Qed.

(** ** The runtime's ports only wait *)

Lemma within_calm {A} P (f : W -> A * W) w : store_inv (tables_of w) -> calm P w (within f w).2.
Proof.
  intros Hw. unfold within. destruct (f (sw_inner (dw_base w))) as [a i].
  split; [by apply moved_same|done].
Qed.

Lemma stable_waiting (P : dworld W -> Prop) :
  (forall i, P i -> store_inv (tables_of i)) ->
  (forall i i', P i -> calm is_renewal i i' -> P i') -> port_stable (H := execution_ports svc) P.
Proof.
  intros Hi HP.
  assert (forall A (f : W -> A * W) i, P i -> P (within f i).2) as Hwithin.
  { intros A f i Hp. eapply HP; [exact Hp|]. by apply within_calm, Hi. }
  assert (forall i, P i -> P (beats svc i)) as Hbeats.
  { intros i Hp. eapply HP; [exact Hp|]. by apply beats_calm, Hi. }
  constructor; cbn [port_now port_default_now port_step port_validator port_emit port_audit
    port_new_dispatch port_revoke execution_ports]; intros; auto.
  - match goal with Hv : _ <$> _ = Some _ |- _ => apply fmap_Some in Hv as (v0 & _ & ->) end. auto.
  - destruct (within port_new_dispatch w) as [p i] eqn:E. simpl.
    assert (P i) as Hp by (change i with (p, i).2; rewrite <- E; auto).
    eapply HP; [exact Hp|]. split; [apply moved_refl; exact (Hi i Hp)|done].
Qed.

(** ** The journal *)

(** The runtime execution continues the snapshot. *)
Record restored (live : AgentExecution) s : Prop := {
  rs_steps : x_steps_used live = sn_steps_used s;
  rs_calls : x_tool_calls_used live = sn_tool_calls_used s;
  rs_decision : x_decision live = sb_decision (sn_body s)
}.

Lemma restored_work live s s' : restored live s -> same_work s s' -> restored live s'.
Proof. intros [] []. constructor; congruence. Qed.

(** A call may be written: nothing is pending, the budget has room, and the person
    asked has approved where the run wants it. *)
Record may_dispatch (definition : ToolDefinition) (d : AgentStepDecision) s : Prop := {
  md_acting : acting s;
  md_decision : sb_decision (sn_body s) = Some d;
  md_pending : sb_pending_call_id (sn_body s) = None;
  md_calls : sn_tool_calls_used s < rc_max_tool_calls (sn_config s);
  md_gate : td_name definition ∈ sb_approval_tools (sn_body s) ->
    exists g, decision_digest d = Some g /\ sb_approved_action_digest (sn_body s) = Some g
}.

Definition call_entry (definition : ToolDefinition) (call_id digest : pystr) (policy : ReplayPolicy)
  : ledger_entry :=
  {| le_call_id := call_id; le_tool_name := td_name definition; le_action_digest := digest;
     le_replay_policy := policy; le_status := started; le_observation := None |}.

Lemma dispatch_step w definition d x call_id digest policy led :
  may_dispatch definition d (held w) -> wf_snapshot (held w) ->
  x_steps_used x = sn_steps_used (held w) -> x_tool_calls_used x = sn_tool_calls_used (held w) + 1 ->
  mstep (view (held w) led) (ADispatch call_id (td_name definition) policy)
    (view (copy_dispatch (held w) x call_id)
       (noted led (Some (call_entry definition call_id digest policy)))).
Proof.
  intros [Hact Hd Hp Hc Hg] Hwf Hxs Hxc.
  destruct (acting_stage _ Hwf Hact) as (Hin & d0 & Hd0 & Hstage). destruct Hact as [Hst Hph].
  simplify_eq. rewrite Hp in Hstage.
  assert (stage_of (copy_dispatch (held w) x call_id) =
    Acting (strip_decision d) (sb_approved_action_digest (sn_body (held w))) (Some call_id)) as Hnew.
  { unfold stage_of. cbn. by rewrite Hst, Hph, Hd, Hin. }
  unfold view at 2. rewrite Hnew. cbn [sn_steps_used sn_tool_calls_used copy_dispatch copy_same model_copy].
  rewrite Hxs, Hxc. apply (m_dispatch (view (held w) _)); [exact Hstage|exact Hc|].
  intros Hn. destruct (Hg Hn) as (g & _ & ->). by eexists.
Qed.

Lemma dispatch_steps w definition d x call_id digest policy :
  may_dispatch definition d (held w) -> wf_snapshot (held w) ->
  x_steps_used x = sn_steps_used (held w) -> x_tool_calls_used x = sn_tool_calls_used (held w) + 1 ->
  steps_from w (copy_dispatch (held w) x call_id) (Some (call_entry definition call_id digest policy)).
Proof. intros. split_and!; [done..|]. intros d' row _ _ _ _ _. eexists. by eapply dispatch_step. Qed.

(** The entry of the call is in the log, and nothing but renewals after it. *)
Lemma saved_entered w definition d x call_id digest policy w' (c : Registry.call) :
  saved w (copy_dispatch (held w) x call_id) (Some (call_entry definition call_id digest policy)) w' ->
  may_dispatch definition d (held w) -> wf_snapshot (held w) -> decision_digest d = Some digest ->
  x_steps_used x = sn_steps_used (held w) -> x_tool_calls_used x = sn_tool_calls_used (held w) + 1 ->
  sd_tool_name d = Some (Registry.c_name c) -> Registry.c_arguments c = VDict (sd_arguments d) ->
  entered (log_of w') c.
Proof.
  intros [_ _ _ _ (d0 & d1 & t & before & after & a & Hlog & Hb & Ha & Hsv & _)] Hmay Hwf Hdig Hxs Hx Hn Harg.
  pose proof Hmay as [Hact Hd Hp Hc Hg].
  exists (log_of w ++ before), d0, (OpSave (held w) (copy_dispatch (held w) x call_id)
    (de_token (dw_exec w)) t (Some (call_entry definition call_id digest policy))), after.
  split; [by rewrite Hlog, <- app_assoc|]. split; [done|].
  apply save_inv in Hsv as (row & p & Hr & Hrev & Hlive & Hnt & _).
  exists (held w), (copy_dispatch (held w) x call_id), (de_token (dw_exec w)), t,
    (call_entry definition call_id digest policy), row, d.
  split_and!; try done.
  - cbn. lia.
  - intros Hin. destruct (Hg Hin) as (g & Hg1 & ->). simpl. congruence.
  - by eapply dispatch_step.
Qed.

(** Right after the entry, before the dispatch. *)
Definition written (w0 : dworld W) (call_id : pystr) (d : AgentStepDecision) (i : dworld W) : Prop :=
  sound i /\ reach w0 i /\ acting (held i) /\ sb_pending_call_id (sn_body (held i)) = Some call_id /\
  forall c, sd_tool_name d = Some (Registry.c_name c) -> Registry.c_arguments c = VDict (sd_arguments d) ->
    entered (log_of i) c.

Lemma entered_renewals log evs c : entered log c -> Forall is_renewal evs -> entered (log ++ evs) c.
Proof.
  intros (l0 & d & o & mid & -> & Hf & Hc) He. exists l0, d, o, (mid ++ evs).
  rewrite <- app_assoc. split; [done|]. split; [by apply Forall_app|done].
Qed.

Lemma written_calm w0 id d i i' :
  sound w0 -> written w0 id d i -> calm is_renewal i i' -> written w0 id d i'.
Proof.
  intros Hs (S & R & A & Hp & He) C. destruct (calm_sound _ _ _ renewal_commit S C) as [S' R'].
  destruct C as [[_ (evs & El & Hf)] [_ _ Hh _ _]]. unfold written. rewrite Hh.
  split_and!; try done; [by eapply reach_trans|]. intros c Hn Ha. rewrite El.
  apply entered_renewals; [by apply He|done].
Qed.

(** A wait that only renews. *)
Lemma wp_then_quiet {A B} (m : sv A) (f : A -> ex B) (S : dworld W -> Prop) Q w :
  sv_law is_renewal m -> (forall i i', S i -> calm is_renewal i i' -> S i') -> S w ->
  (forall a w1, stay w w1 -> S w1 -> wp (f a) Q w1) -> wp (mthen (on_base m) f) Q w.
Proof.
  intros Hm HS Hw Hf. eapply (wp_bind _ _ (fun _ w1 => stay w w1 /\ S w1)).
  - apply wp_calm. intros r w' Hs Eq. pose proof (on_base_calm _ _ _ _ _ Hm Eq (so_inv _ Hs)) as C.
    split; [by eapply calm_weaken; [apply renewal_commit|]|]. intros _ _. split; [apply C|by eapply HS].
  - intros a w1 _ _ [? ?]. by apply Hf.
Qed.

Lemma wp_before w0 definition d x call_id w :
  sound w0 -> reach w0 w -> may_dispatch definition d (held w) -> x_decision x = Some d ->
  x_steps_used x = sn_steps_used (held w) -> x_tool_calls_used x = sn_tool_calls_used (held w) + 1 ->
  wp (journal_before svc definition call_id x) (fun _ => written w0 call_id d) w.
Proof.
  intros Hs0 R0 Hmay Hd Hxs Hxc. apply wp_sound. intros Hs. unfold journal_before.
  apply wp_then_or. intros d' Hd'. assert (d' = d) as -> by congruence.
  apply wp_then_or. intros policy _. apply wp_the. apply wp_then_or. intros digest Hdig.
  apply wp_then_save; [by eapply dispatch_steps; [|apply Hs|..]|]. intros w1 S1 R1 Hsv.
  assert (written w0 call_id d w1) as Hw1.
  { pose proof (md_acting _ _ _ Hmay) as [A1 A2]. split_and!; [done|by eapply reach_trans|..].
    - split; [by rewrite (sd_status _ _ _ _ Hsv)|by rewrite (sd_phase _ _ _ _ Hsv)].
    - by rewrite (sd_body _ _ _ _ Hsv).
    - intros c Hn Ha. by eapply saved_entered; [|done|apply Hs|..]. }
  apply wp_then_check, wp_the.
  eapply (wp_then_quiet clock _ (written w0 call_id d)); [apply sv_clock|intros i i'; by apply written_calm|done|].
  intros t w2 St2 Hw2. eapply (wp_then_quiet (_remaining _) _ (written w0 call_id d)); [apply sv_remaining|intros i i'; by apply written_calm|done|].
  intros left w3 St3 Hw3. destruct (fle left fzero); [apply wp_raise|]. destruct (flt t _); [apply wp_raise|].
  destruct (td_requires_approval definition); [|by apply wp_ret].
  destruct (negb _); [apply wp_raise|]. apply wp_then_or. intros arguments _.
  eapply (wp_then_quiet (outside _) _ (written w0 call_id d)); [apply sv_outside|intros i i'; by apply written_calm|done|].
  intros grant w4 St4 Hw4. by apply wp_ret.
Qed.

(** After the dispatch, and after its outcome is recorded. *)
Definition called (w0 : dworld W) (call_id : pystr) (i : dworld W) : Prop :=
  sound i /\ reach w0 i /\ acting (held i) /\ sb_pending_call_id (sn_body (held i)) = Some call_id.

Record deciding s : Prop := {
  dg_status : sn_status s = running;
  dg_phase : sn_phase s = decision;
  dg_approved : sb_approved_action_digest (sn_body s) = None;
  dg_pending : sb_pending_call_id (sn_body s) = None
}.

Definition recorded (w0 : dworld W) (i : dworld W) : Prop :=
  sound i /\ reach w0 i /\ deciding (held i) /\ left_of (held i) < left_of (held w0).

Lemma called_calm w0 id i i' : sound w0 -> called w0 id i -> calm is_renewal i i' -> called w0 id i'.
Proof.
  intros Hs (S & R & A & Hp) C. destruct (calm_sound _ _ _ renewal_commit S C) as [S' R'].
  destruct C as [_ [_ _ Hh _ _]]. unfold called. rewrite Hh.
  split_and!; try done. by eapply reach_trans.
Qed.

Lemma recorded_calm w0 i i' : sound w0 -> recorded w0 i -> calm is_renewal i i' -> recorded w0 i'.
Proof.
  intros Hs (S & R & D & Hl) C. destruct (calm_sound _ _ _ renewal_commit S C) as [S' R'].
  destruct C as [_ [_ _ Hh _ _]]. unfold recorded. rewrite Hh.
  split_and!; try done. by eapply reach_trans.
Qed.

Lemma complete_steps w e observations fingerprints o :
  acting (held w) -> sound w -> sb_pending_call_id (sn_body (held w)) = Some (le_call_id e) ->
  read_entry (tables_of w) (held w) e ->
  steps_from w (copy_complete (held w) observations fingerprints)
    (Some (ledger_with e ledger_completed o)) /\
  left_of (copy_complete (held w) observations fingerprints) < left_of (held w).
Proof.
  intros Hact Hs Hp He. destruct (acting_stage _ (so_wf _ Hs) Hact) as (Hin & d & Hd & Hstage).
  destruct Hact as [Hst Hph]. rewrite Hp in Hstage.
  assert (stage_of (copy_complete (held w) observations fingerprints) = Deciding false) as Hnew.
  { unfold stage_of. cbn. by rewrite Hst, Hin. }
  split; [|unfold left_of, m_left; cbn [m_stage view]; rewrite Hnew, Hstage; cbn; lia].
  split_and!; [done..|]. intros d' row Hl Hrow Hrev Hm Hne. exists (AComplete (le_call_id e)).
  pose proof (read_entry_lawful _ _ _ _ (so_inv _ Hs) Hl (so_known _ Hs) He row Hrow Hrev) as Hled.
  unfold view at 2. rewrite Hnew.
  exact (m_complete (view (held w) (ledger_of d' (sn_run_id (held w)))) _ _ _ _ Hstage Hled).
Qed.

Lemma read_entry_stay w w' e :
  sound w -> reach w w' -> stay w w' -> read_entry (tables_of w) (held w) e ->
  read_entry (tables_of w') (held w') e.
Proof.
  intros Hs R St He. rewrite (se_snapshot _ _ St).
  eapply read_entry_lawful; [apply Hs|apply R|apply Hs|done].
Qed.

Lemma wp_after w0 call_id r x w :
  sound w0 -> called w0 call_id w ->
  wp (journal_after svc call_id r x) (fun _ => recorded w0) w.
Proof.
  intros Hs0 (Hs & R0 & Hact & Hp). unfold journal_after. apply wp_the.
  apply wp_then_ledger. intros e w1 S1 R1 St1 Hc He. apply wp_the.
  apply wp_then_await; [apply sv_answered|]. intros evidence w2 S2 R2 St2. apply wp_the.
  apply (read_entry_stay _ _ _ S1 R2 St2) in He.
  rewrite <- (se_snapshot _ _ St1), <- (se_snapshot _ _ St2) in *. rewrite <- Hc in Hp.
  destruct (complete_steps w2 e evidence.1 evidence.2 (Some (_summarize_tool_result r)) Hact S2 Hp He)
    as [Hsteps Hleft].
  eapply wp_mono; [by apply wp_save|]. intros [] w3 S3 R3 Hsv.
  assert (reach w0 w2) as R02 by (eapply reach_trans; [done|by eapply reach_trans; [|exact R0|]|done]).
  split_and!; [done|by eapply reach_trans|..].
  - destruct Hact. constructor; rewrite ?(sd_status _ _ _ _ Hsv), ?(sd_phase _ _ _ _ Hsv),
      ?(sd_body _ _ _ _ Hsv); done.
  - rewrite (saved_left _ _ _ _ Hsv). pose proof (re_left _ _ R02). lia.
Qed.

(** The turn of the runtime under the journal. *)
Lemma journal_step_spec {A} (f : AgentExecution -> ex A) Q (w w' : rworld (dworld W)) r :
  journal_step f w = (r, w') -> sound (rw_inner w) -> wp (f (rw_exec w)) Q (rw_inner w) ->
  rw_exec w' = rw_exec w /\ sound (rw_inner w') /\ reach (rw_inner w) (rw_inner w') /\
  forall a, r = Ok a -> Q a (rw_inner w').
Proof.
  intros Eq Hs Hwp. unfold journal_step in Eq. destruct (f (rw_exec w) (rw_inner w)) as [r0 i] eqn:E.
  destruct (Hwp Hs _ _ E) as (S1 & R1 & HQ).
  destruct r0; injection Eq as <- <-; split_and!; try done. intros a0 [= <-]. by apply HQ.
Qed.

Lemma execute_called w0 id d c t i :
  sound w0 -> written w0 id d i -> sd_tool_name d = Some (Registry.c_name c) ->
  Registry.c_arguments c = VDict (sd_arguments d) ->
  called w0 id (@port_execute _ (execution_ports svc) c t i).2.
Proof.
  intros Hs0 Hw Hn Ha.
  pose proof (written_calm _ _ _ _ _ Hs0 Hw (beats_calm svc i (so_inv _ (proj1 Hw)))) as (S & R & A & Hp & He).
  simpl. unfold within. destruct (port_execute c t _) as [o i'].
  split_and!; [|by destruct R|done|done]. destruct S as [S1 S2 S3 S4 S5].
  split; try done. apply journaled_dispatch; [done|by apply He].
Qed.

Lemma wp_journaled live definition d w :
  may_dispatch definition d (held w) -> restored live (held w) ->
  let rt := de_runtime (dw_exec w) in
  wp (in_runtime live (_execute_tool (H3 := execution_ports svc) rt (Some (tool_journal svc definition))))
    (fun r w' => match r.1 with
                 | None => recorded w w'
                 | Some res => (acting (held w') \/ recorded w w') /\ turn_result rt live res
                 end) w.
Proof.
  intros Hmay [Rs Rc Rd] rt Hs r w' Eq. unfold in_runtime in Eq.
  set (rw := {| rw_inner := w; rw_exec := live; rw_trace := [] |}) in Eq.
  destruct (_execute_tool (H3 := execution_ports svc) rt (Some (tool_journal svc definition)) rw) as [r0 rw'] eqn:E.
  set (id := the_call rt live). set (F := fun i => sound i /\ reach w i).
  assert (journal_post rt live (calm is_renewal w) (written w id d) (called w id)
    (recorded w) F r0 rw') as Hpost.
  { refine (journal_rule (H3 := execution_ports svc) rt live (tool_journal svc definition) (calm is_renewal w)
      (written w id d) (called w id) (recorded w) F _ _ _ _ _ _ _ rw r0 rw' E eq_refl _).
    - apply stable_waiting; [intros i Hi; by eapply calm_inv|]. intros. eapply calm_trans; [apply Hs|done|done].
    - apply stable_waiting; [intros i Hi; apply Hi|]. intros. by eapply written_calm.
    - apply stable_waiting; [intros i Hi; apply Hi|]. intros. by eapply called_calm.
    - apply stable_waiting; [intros i Hi; apply Hi|]. intros. by eapply recorded_calm.
    - intros counts w1 r1 w1' Hc Hx Eb.
      destruct (calm_sound _ _ _ renewal_commit Hs Hc) as [S1 R1].
      pose proof (se_snapshot _ _ (ca_exec _ _ _ Hc)) as Hh.
      apply (journal_step_spec _ (fun _ => written w id d)) in Eb as (Hx' & S2 & R2 & Hq); [|done|].
      + split; [by unfold at_call; rewrite Hx'|]. destruct r1 as [g|]; [apply (Hq g eq_refl)|].
        split; [done|by eapply reach_trans].
      + rewrite Hx. apply wp_before; try done; rewrite ?Hh; simpl; try done;
          [by rewrite Rd; apply Hmay|lia].
    - intros d' n counts g p t i Hd Hn Hw. rewrite Rd, (md_decision _ _ _ Hmay) in Hd. simplify_eq.
      by eapply execute_called.
    - intros counts res w1 r1 w1' Hc Hx Ea.
      apply (journal_step_spec _ (fun _ => recorded w)) in Ea as (Hx' & S2 & R2 & Hq); [|apply Hc|by apply wp_after].
      split; [by unfold at_call; rewrite Hx'|]. destruct r1 as [g|]; [apply (Hq g eq_refl)|].
      split; [done|]. eapply reach_trans; [done|apply Hc|done].
    - by apply calm_refl, Hs. }
  assert (forall i, somewhere (calm is_renewal w) (written w id d) (called w id) (recorded w) i ->
    sound i /\ reach w i /\ (acting (held i) \/ recorded w i)) as Hsome.
  { intros i [Hc|[Hc|[Hc|Hc]]]; [|split_and!; try apply Hc; left; apply Hc..|split_and!; try apply Hc; by right].
    destruct (calm_sound _ _ _ renewal_commit Hs Hc). split_and!; try done. left.
    rewrite (se_snapshot _ _ (ca_exec _ _ _ Hc)). apply Hmay. }
  destruct r0 as [o|e]; injection Eq as <- <-; simpl in Hpost.
  - destruct o as [res|].
    + destruct Hpost as [Hw Hres]. apply Hsome in Hw as (? & ? & ?). split_and!; try done.
      intros a [= <-]. done.
    + destruct Hpost as (? & ? & ?). split_and!; try done. intros a [= <-]. done.
  - destruct Hpost as [Hw|[? ?]]; [apply Hsome in Hw as (? & ? & _)|]; by split_and!.
Qed.

(** A step of the runtime that dispatches nothing. *)
Lemma waiting_stable w : sound w -> port_stable (H := execution_ports svc) (calm is_renewal w).
Proof.
  intros Hs. apply stable_waiting; [intros i Hi; by eapply calm_inv|].
  intros i i' Hc Hc'. by eapply calm_trans; [apply Hs|exact Hc|].
Qed.

Lemma wp_runtime {A} live (m : eff (rt_exn durable_exn) (rworld (dworld W)) A) w :
  (sound w -> keeps (calm is_renewal w) m) ->
  wp (in_runtime live m) (fun r w' => stay w w' /\ exists rw,
    m {| rw_inner := w; rw_exec := live; rw_trace := [] |} = (Ok r.1, rw) /\ rw_exec rw = r.2) w.
Proof.
  intros Hm. apply wp_calm. intros r w' Hs Eq. unfold in_runtime in Eq.
  destruct (m _) as [r0 rw] eqn:E. pose proof (Hm Hs _ _ _ E (calm_refl _ _ (so_inv _ Hs))) as C.
  destruct r0; injection Eq as <- <-; (split; [by eapply calm_weaken; [apply renewal_commit|]|]); [|done].
  intros a' [= <-]. split; [apply C|]. by exists rw.
Qed.

(** The budget of calls is used up: the runtime says so without a call. *)
Lemma exhausted_step rt live w (r : result (rt_exn durable_exn) (option AgentRunResult)) rw :
  rc_max_tool_calls (rt_config rt) <= x_tool_calls_used live -> sound w ->
  _execute_tool (H3 := execution_ports svc) rt None
    {| rw_inner := w; rw_exec := live; rw_trace := [] |} = (r, rw) ->
  calm is_renewal w (rw_inner rw) /\ forall res, r = Ok (Some res) -> turn_result rt live res.
Proof.
  intros Hmax Hs Eq. unfold _execute_tool in Eq. unfold mthen at 1, get_exec in Eq.
  cbn [rw_exec] in Eq. pose proof (calm_refl is_renewal w (so_inv _ Hs)) as C0.
  destruct (x_decision live) as [d|]; [|by injection Eq as <- <-].
  cbn [mbind option_bind] in Eq. destruct (sd_tool_name d) as [n|]; [|by injection Eq as <- <-].
  cbn [mbind option_bind] in Eq. destruct (Z.leb_spec (rc_max_tool_calls (rt_config rt)) (x_tool_calls_used live)) as [_|]; [|lia].
  pose proof (no_count (dworld W) (H := execution_ports svc)) as HC.
  split.
  - eapply (rt_keeps_bind (calm is_renewal w)); [| |exact Eq|exact C0].
    + apply keeps_stop_before, waiting_stable, Hs.
    + intros. apply rt_keeps_ret.
  - intros res ->.
    assert (stops_turn (H3 := execution_ports svc) (HandlerCount0 := HC) (E := durable_exn) (mthen (stop_before_dispatch (H3 := execution_ports svc) rt live n TrMaxToolCallsReached
        (_limit_metadata MAX_TOOL_CALLS_REACHED (x_steps_used live) (x_tool_calls_used live) (Some n)
           (Some (sd_arguments d)) None)) (fun r => mreturn (Some r)))) as Hst
      by (by apply stops_some, stop_before_stops).
    apply Hst in Eq as [_ Hres]. destruct (Hres _ eq_refl) as (res' & [= <-] & (A1 & A2 & _) & _ & Hn).
    unfold turn_result. rewrite A1, A2. simpl. split_and!; [done|done|by left].
Qed.

(** ** The end of a tool phase *)

Lemma reach_config w w' : sound w -> sound w' -> reach w w' -> sn_config (held w') = sn_config (held w).
Proof. intros [_ _ C _ _] [_ _ C' _ _] R. rewrite <- C, <- C'. by rewrite (re_runtime _ _ R). Qed.

Lemma wf_budgets s :
  wf_snapshot s -> 0 <= sn_steps_used s <= rc_max_steps (sn_config s) /\
  0 <= sn_tool_calls_used s <= rc_max_tool_calls (sn_config s).
Proof. intros [led [_ W2 W3 _ _ _ _ _]]. done. Qed.

Lemma turn_can_finish w w' live res :
  sound w -> sound w' -> reach w w' -> restored live (held w) ->
  turn_result (de_runtime (dw_exec w)) live res ->
  can_finish (held w') res /\ ars_status res <> RunCOMPLETED.
Proof.
  intros Hs Hs' R [Rs Rc _] (Hn & Hst & Hca). split; [|done].
  destruct (wf_budgets _ (so_wf _ Hs)) as [B1 B2].
  pose proof (reach_config _ _ Hs Hs' R) as Hc. pose proof (so_config _ Hs) as Hrt.
  split_and!; [done|rewrite Hc; lia|rewrite Hc; rewrite Hrt in Hca; lia].
Qed.

Lemma terminal_not_running st : terminal st = true -> st <> running.
Proof. intros Ht ->. done. Qed.

Lemma wp_finish_none res w :
  can_finish (held w) res -> wp (finish svc res None) (fun _ w' => sn_status (held w') <> running) w.
Proof.
  intros Hf. eapply wp_mono; [by apply wp_finish, finish_steps|].
  intros ? w1 _ _ Ht. by apply terminal_not_running.
Qed.

Lemma wp_finish_tool res w :
  can_finish (held w) res -> ars_status res <> RunCOMPLETED ->
  acting (held w) \/ sb_pending_call_id (sn_body (held w)) = None ->
  wp (finish_tool svc res) (fun _ w' => sn_status (held w') <> running) w.
Proof.
  intros Hf Hn Hact. apply wp_the.
  destruct (sb_pending_call_id (sn_body (held w))) as [c|] eqn:Hp; [|by apply wp_finish_none].
  destruct Hact as [Hact|]; [|done].
  apply wp_then_ledger. intros e w1 S1 R1 St1 Hc He. rewrite <- (se_snapshot _ _ St1) in *.
  eapply (wp_bind _ _ (fun _ w2 => w2 = w1)).
  { intros Hs r w' [= <- <-]. split_and!; [done|by apply reach_refl|done]. }
  intros rejected w2 _ _ ->. destruct rejected.
  - destruct (acting_stage _ (so_wf _ S1) Hact) as (_ & d & _ & Hstage). rewrite Hp, <- Hc in Hstage.
    eapply wp_mono; [apply wp_finish; eapply finish_recorded_steps; [done|done|done|apply S1|apply S1|done]|].
    intros ? w3 _ _ Ht. by apply terminal_not_running.
  - destruct (_ && _); [|by apply wp_finish_none].
    eapply wp_mono; [by apply wp_stop|]. intros ? w3 _ _ Hw3. by rewrite Hw3.
Qed.

Lemma clear_steps w : deciding (held w) -> steps_from w (copy_clear (held w)) None.
Proof.
  intros [Hst Hph Ha Hp]. split_and!; [done..|]. intros d row _ _ _ Hm Hne. exists ATouch.
  replace (view (copy_clear (held w)) _) with (view (held w) (ledger_of d (sn_run_id (held w))));
    [by apply m_touch|].
  unfold view. f_equal. unfold stage_of. cbn. by rewrite Hst, Hph, Ha, Hp.
Qed.

Lemma wp_clear w0 w :
  recorded w0 w ->
  wp (x <- the_execution;; save_snapshot svc (copy_clear (de_snapshot x)) None false)
    (fun _ w' => further w0 w') w.
Proof.
  intros (Hs & R & Hd & Hl). apply wp_the. eapply wp_mono; [by apply wp_save, clear_steps|].
  intros [] w1 S1 R1 Hsv. right. rewrite (saved_left _ _ _ _ Hsv).
  assert (left_of (copy_clear (held w)) = left_of (held w)) as ->; [|done].
  destruct Hd as [Hst Hph Ha Hp]. unfold left_of, m_left. cbn [m_stage view].
  unfold stage_of. cbn. by rewrite Hst, Hph, Ha, Hp.
Qed.

Lemma further_trans w0 w w' : reach w0 w -> further w w' -> further w0 w'.
Proof. intros R [?|?]; [by left|]. right. pose proof (re_left _ _ R). lia. Qed.

Lemma wp_execute_tool live w :
  acting (held w) -> restored live (held w) -> wp (execute_tool svc live) (fun _ w' => further w w') w.
Proof.
  intros Hact Hrs. apply wp_sound. intros Hs. unfold execute_tool.
  eapply wp_bind; [by apply wp_set|]. intros ? w1 S1 R1 St1. apply wp_then_check, wp_the.
  apply wp_then_await; [apply sv_definition|]. intros definition w2 S2 R2 St2. apply wp_the.
  apply wp_then_or. intros d Hd. apply wp_then_or. intros digest Hdig.
  apply wp_then_or. intros definition_digest _.
  assert (held w2 = held w) as Hh by (by rewrite (se_snapshot _ _ St2), (se_snapshot _ _ St1)).
  assert (reach w w2) as R02 by (by eapply reach_trans; [|exact R1|]).
  rewrite <- Hh in Hact, Hrs.
  eapply wp_bind; [by apply wp_settle|]. intros go w3 S3 R3 Hgo. simpl in Hgo.
  assert (reach w w3) as R03 by (by eapply reach_trans; [|exact R02|]).
  destruct go; [|apply wp_ret; intros; by left]. destruct Hgo as [Hwk Hp]. simpl negb. cbv iota.
  assert (acting (held w3)) as Hact3 by (destruct Hact, Hwk; split; congruence).
  pose proof (restored_work _ _ _ Hrs Hwk) as Hrs3.
  assert (sb_decision (sn_body (held w3)) = Some d) as Hd3 by (by rewrite (wk_decision _ _ Hwk)).
  apply wp_the. destruct (Z.leb_spec (rc_max_tool_calls (sn_config (held w3))) (sn_tool_calls_used (held w3))) as [Hmax|Hlt].
  - eapply (wp_bind _ _ (fun r w4 => forall res, r.1 = Some res -> can_finish (held w4) res)).
    { apply wp_calm. intros r w4 _ Eq. unfold in_runtime in Eq.
      destruct (_execute_tool _ _ _) as [r0 rw] eqn:E.
      apply exhausted_step in E as [C Hres]; [|rewrite (so_config _ S3), (rs_calls _ _ Hrs3); done|done].
      destruct r0 as [o|]; injection Eq as <- <-;
        (split; [by eapply calm_weaken; [apply renewal_commit|]|]); [|done].
      intros ? [= <-] res [= ->].
      destruct (calm_sound _ _ _ renewal_commit S3 C) as [S4 R4].
      by apply (turn_can_finish w3 _ live res S3 S4 R4 Hrs3), Hres. }
    intros [o x4] w4 S4 R4 Hres. simpl in *. destruct o as [res|]; [|apply wp_raise].
    eapply wp_mono; [by apply wp_finish_none, Hres|]. intros ? w5 _ _ ?. by left.
  - destruct (_ && negb (bool_decide (sb_approved_action_digest _ = _))) eqn:Hgate.
    { eapply wp_mono; [by eapply wp_ask|]. intros ? w5 _ _ ?. left. congruence. }
    match goal with |- wp (if ?b then _ else _) _ _ => destruct b; [apply wp_raise|] end.
    assert (may_dispatch definition d (held w3)) as Hmay.
    { constructor; try done. intros Hin. exists digest. split; [done|].
      rewrite (bool_decide_true _ Hin), orb_true_r in Hgate. simpl in Hgate.
      by apply negb_false_iff, bool_decide_eq_true in Hgate. }
    eapply wp_bind; [by apply (wp_journaled live definition d)|]. intros [o x4] w4 S4 R4 Hres. simpl in *.
    destruct o as [res|].
    + destruct Hres as [Hw Hres]. destruct (turn_can_finish w3 w4 live res S3 S4 R4 Hrs3 Hres) as [Hf Hn].
      eapply wp_mono; [apply wp_finish_tool; [done|done|]|intros ? w5 _ _ ?; by left].
      destruct Hw as [Hw|(_ & _ & Hw & _)]; [by left|right; apply Hw].
    + eapply wp_mono; [by apply (wp_clear w3)|]. intros ? w5 _ _ Hf. by eapply further_trans.
Qed.

(** * The other phases *)

Lemma deciding_stage s :
  wf_snapshot s -> sn_status s = running -> sn_phase s = decision ->
  deciding s /\ stage_of s = Deciding (sb_decision_inflight (sn_body s)).
Proof.
  intros [led [W1 _ _ _ _ _ _ _]] Hst Hph. simpl in W1. unfold stage_of in *. rewrite Hst, Hph in *.
  destruct (bool_decide (sb_approved_action_digest _ = _)) eqn:Ha, (bool_decide (sb_pending_call_id _ = _)) eqn:Hp;
    simpl in *; try done. apply bool_decide_eq_true in Ha, Hp. done.
Qed.

Lemma reserve_steps w :
  wf_snapshot (held w) -> sn_status (held w) = running -> sn_phase (held w) = decision ->
  sn_steps_used (held w) < rc_max_steps (sn_config (held w)) ->
  steps_from w (copy_reserve (held w)) None.
Proof.
  intros Hwf Hst Hph Hlt. split_and!; [done..|]. intros d row _ _ _ Hm Hne. exists AReserve.
  destruct (deciding_stage _ Hwf Hst Hph) as [[_ _ Ha Hp] Hstage].
  assert (stage_of (copy_reserve (held w)) = Deciding true) as Hnew.
  { unfold stage_of. cbn. by rewrite Hst, Hph, Ha, Hp. }
  unfold view at 2. rewrite Hnew. by eapply (m_reserve (view (held w) _)).
Qed.

Lemma decided_steps w d fingerprints :
  deciding (held w) -> stage_of (held w) = Deciding true -> valid_decision d = true ->
  steps_from w (copy_decided (held w) (sn_steps_used (held w)) d fingerprints) None /\
  left_of (copy_decided (held w) (sn_steps_used (held w)) d fingerprints) < left_of (held w).
Proof.
  intros [Hst Hph Ha Hp] Hstage Hv. set (s := copy_decided _ _ _ _).
  assert (stage_of s = match sd_action d with
                       | FINAL_ANSWER => Validating
                       | TOOL_CALL => Acting (strip_decision d) None None
                       end) as Hnew.
  { unfold stage_of. cbn. rewrite Hst. by destruct (sd_action d); rewrite ?Ha, ?Hp. }
  split.
  - split_and!; [done..|]. intros d' row _ _ _ Hm Hne. exists (ADecide (strip_decision d)).
    unfold view at 2. rewrite Hnew. set (m := view (held w) (ledger_of d' (sn_run_id (held w)))).
    destruct (sd_action d) eqn:Ea.
    + apply (m_decide_tool m); [done|done|by rewrite strip_decision_valid].
    + apply (m_decide_answer m); [done|done|by rewrite strip_decision_valid].
  - unfold left_of, m_left. cbn [m_stage view]. rewrite Hnew, Hstage.
    destruct (sd_action d); cbn; lia.
Qed.

(** The runtime's decision, from an execution that continues the snapshot. *)
Lemma decide_outcome rt live w (r : result (rt_exn durable_exn) (option AgentRunResult)) rw :
  _decide (H3 := execution_ports svc) rt {| rw_inner := w; rw_exec := live; rw_trace := [] |} = (r, rw) ->
  match r with
  | Ok (Some res) => ars_status res <> RunCOMPLETED /\ ars_steps_used res = x_steps_used live /\
      ars_tool_calls_used res = x_tool_calls_used live
  | Ok None => exists d, rw_exec rw = decided live d /\
      x_steps_used live < rc_max_steps (rt_config rt) /\ valid_decision d = true
  | Err _ => True
  end.
Proof.
  intros Eq. pose proof (no_count (dworld W) (H := execution_ports svc)) as HC.
  apply (decide_spec (HandlerCount0 := HC)) in Eq. unfold decide_post in Eq.
  destruct r as [[res|]|]; [|destruct Eq as (w1 & d & _ & -> & Hlt & Hv); by exists d|done].
  destruct Eq as (_ & (A1 & A2 & _) & _ & Hn). done.
Qed.

Lemma wp_decide live fingerprints w :
  sn_status (held w) = running -> sn_phase (held w) = decision -> restored live (held w) ->
  wp (decide_phase svc live fingerprints) (fun _ w' => further w w') w.
Proof.
  intros Hst Hph [Rs Rc _]. apply wp_sound. intros Hs. apply wp_the. cbv zeta.
  destruct (tool_failed_before (held w)).
  { eapply wp_mono; [by apply wp_stop|]. intros ? w1 _ _ Hw1. left. by rewrite Hw1. }
  set (rt := de_runtime (dw_exec w)).
  eapply (wp_bind _ _ (fun _ w1 => sn_status (held w1) = running /\ sn_phase (held w1) = decision /\
    sn_tool_calls_used (held w1) = x_tool_calls_used live /\ x_steps_used live <= sn_steps_used (held w1) /\
    (x_steps_used live < rc_max_steps (rt_config rt) ->
     stage_of (held w1) = Deciding true /\ sn_steps_used (held w1) = x_steps_used live + 1))).
  { destruct (Z.ltb_spec (sn_steps_used (held w)) (rc_max_steps (sn_config (held w)))) as [Hlt|Hge].
    - eapply wp_mono; [apply wp_save, reserve_steps; [apply Hs|done..]|].
      intros [] w1 _ _ Hsv. rewrite (sd_status _ _ _ _ Hsv), (sd_phase _ _ _ _ Hsv),
        (saved_steps _ _ _ _ Hsv), (saved_calls _ _ _ _ Hsv), (saved_stage _ _ _ _ Hsv), Rs, Rc.
      destruct (deciding_stage _ (so_wf _ Hs) Hst Hph) as [[_ _ Ha Hp] _].
      split_and!; [done..|cbn; lia|]. intros _. split; [|done]. unfold stage_of. cbn. by rewrite Hst, Hph, Ha, Hp.
    - apply wp_ret. intros _. split_and!; [done..|lia|]. unfold rt. rewrite (so_config _ Hs). lia. }
  intros [] w1 S1 R1 (Hst1 & Hph1 & Hc1 & Hs1 & Hres1).
  eapply wp_bind; [apply wp_runtime; intros; by apply keeps_decide, waiting_stable|].
  intros [o x2] w2 S2 R2 (St2 & rw & Ed & Hx). simpl in *. apply decide_outcome in Ed.
  rewrite <- (se_snapshot _ _ St2) in *. destruct o as [res|].
  { eapply wp_mono; [apply wp_finish_none|intros ? w3 _ _ ?; by left].
    destruct Ed as (Hn & E1 & E2). split_and!; [done|lia|lia]. }
  destruct Ed as (d & Hd & Hlt & Hv). destruct (Hres1 Hlt) as [Hstage Hsteps].
  apply wp_then_or. intros d' Hd'. rewrite <- Hx, Hd in *. simpl in Hd'. injection Hd' as <-.
  eapply (wp_bind _ _ (fun _ w3 => w3 = w2)); [by apply wp_lift|]. intros ? w3 _ _ ->. apply wp_the.
  simpl. rewrite <- Hsteps. destruct (deciding_stage _ (so_wf _ S2) Hst1 Hph1) as [Hdg _].
  destruct (decided_steps w2 d fingerprints Hdg Hstage Hv) as [Hsf Hl].
  eapply wp_mono; [by apply wp_save|]. intros [] w3 S3 R3 Hsv. right.
  rewrite (saved_left _ _ _ _ Hsv). pose proof (re_left _ _ R1). pose proof (re_left _ _ R2). lia.
Qed.

Lemma wp_validate live w :
  sn_status (held w) = running -> sn_phase (held w) = validation -> restored live (held w) ->
  wp (validate_phase svc live) (fun _ w' => further w w') w.
Proof.
  intros Hst Hph [Rs Rc _]. apply wp_sound. intros Hs. apply wp_the.
  assert (stage_of (held w) = Validating) as Hstage.
  { destruct (so_wf _ Hs) as [led [W1 _ _ _ _ _ _ _]]. simpl in W1. unfold stage_of in *.
    rewrite Hst, Hph in *. destruct (sb_decision _); [|done]. by destruct (sb_decision_inflight _). }
  eapply wp_bind; [apply wp_runtime; intros; by apply keeps_validate, waiting_stable|].
  intros [res x1] w1 S1 R1 (St1 & rw & Ev & _). simpl in *. apply wp_the.
  apply wp_then_await; [apply sv_revalidate|]. intros ? w2 S2 R2 St2. apply wp_the.
  apply wp_then_base; [apply sv_remaining|]. intros left w3 S3 R3 St3.
  destruct (fle left fzero).
  { eapply wp_mono; [by apply wp_stop|]. intros ? w4 _ _ Hw4. left. by rewrite Hw4. }
  eapply wp_mono; [apply wp_finish_none|intros ? w4 _ _ ?; by left].
  rewrite (se_snapshot _ _ St3), (se_snapshot _ _ St2), (se_snapshot _ _ St1).
  apply (validate_result_spec (HandlerCount0 := no_count (dworld W) (H := execution_ports svc))) in Ev as [_ Hres].
  destruct (Hres res eq_refl) as ((E1 & E2 & _) & _). simpl in E1, E2. split_and!; [done|lia|lia].
Qed.

(** ** A phase *)

(** What a computation returns, when it does. *)
Definition returns {A} (m : sv A) (Q : A -> Prop) : Prop := forall b a b', m b = (Ok a, b') -> Q a.

Lemma returns_ret {A} (a : A) (Q : A -> Prop) : Q a -> returns (mreturn a) Q.
Proof. by intros HQ b a' b' [= <- <-]. Qed.
Lemma returns_raise {A} e (Q : A -> Prop) : returns (mraise e) Q.
Proof. by intros b a' b'. Qed.
Lemma returns_bind {A B} (m : sv A) (f : A -> sv B) Q : (forall a, returns (f a) Q) -> returns (mthen m f) Q.
Proof. intros Hf b a b' Eq. apply mthen_inv in Eq as [(e & _ & ?)|(a1 & b1 & _ & E)]; [done|by eapply Hf]. Qed.

Lemma revalidate_restored ctx s : returns (_revalidate ctx s) (fun v => restored v.1.2 s).
Proof.
  unfold _revalidate. apply returns_bind. intros ctx'. apply returns_bind. intros _.
  destruct (negb _); [apply returns_raise|]. do 4 (apply returns_bind; intros ?).
  destruct (flt _ _); [apply returns_raise|]. do 3 (apply returns_bind; intros ?).
  destruct (restore _); [by apply returns_ret|apply returns_raise].
Qed.

Lemma awaited_returns {A} (m : sv A) Q w a w' :
  returns m Q -> awaiting svc m w = (Ok a, w') -> Q a.
Proof.
  intros Hm Eq. unfold awaiting, on_base in Eq. destruct (m _) as [r b] eqn:E.
  injection Eq as -> _. by eapply Hm.
Qed.

Lemma wp_phase_body w :
  sn_status (held w) = running -> wp (phase_body svc) (fun _ w' => further w w') w.
Proof.
  intros Hst. apply wp_the.
  eapply (wp_bind _ _ (fun v w1 => stay w w1 /\ restored v.1.2 (held w))).
  { apply wp_calm. intros r w1 Hs Eq. pose proof (awaiting_calm _ _ _ _ (sv_revalidate _ _ _) Eq Hs) as C.
    split; [done|]. intros v ->. split; [apply C|]. exact (awaited_returns _ _ _ _ _ (revalidate_restored _ _) Eq). }
  intros [[ctx live] fingerprints] w1 S1 R1 [St1 Hrs]. simpl in Hrs.
  eapply (wp_bind _ _ (fun _ w2 => held w2 = held w1)).
  { intros Hs r w2 [= <- <-]. destruct Hs as [I1 I2 I3 I4 I5]. split_and!; [by split| |done].
    split; try done. by apply lawful_refl. }
  intros ? w2 S2 R2 Hh. apply wp_then_check, wp_the.
  rewrite <- (se_snapshot _ _ St1), <- Hh in Hst, Hrs.
  assert (forall m, wp m (fun _ w' => further w2 w') w2 -> wp m (fun (_ : unit) w' => further w w') w2) as Hgo.
  { intros m Hm. eapply wp_mono; [exact Hm|]. intros ? w3 _ _ [?|Hl]; [by left|]. right.
    pose proof (re_left _ _ R1). pose proof (re_left _ _ R2). lia. }
  destruct (sn_phase (held w2)) eqn:Hph; simpl; apply Hgo;
    [by apply wp_decide|by apply wp_execute_tool|by apply wp_validate|apply wp_raise].
Qed.

Lemma wp_phase_error e w : wp (phase_error svc e) (fun _ w' => sn_status (held w') <> running) w.
Proof.
  unfold phase_error. destruct e; try apply wp_raise. destruct (_ || _); [apply wp_raise|].
  destruct (bool_decide (code = AGENT_TIMEOUT));
    (eapply wp_mono; [by apply wp_stop|]; intros ? w1 _ _ Hw1; by rewrite Hw1).
Qed.

(** Holding another snapshot of the run. *)
Lemma wp_hold v w :
  known (tables_of w) v -> wf_snapshot v -> sn_config v = sn_config (held w) ->
  sn_run_id v = sn_run_id (held w) -> left_of v <= left_of (held w) ->
  wp (set_execution (fun x => ex_snapshot x v)) (fun _ w' => held w' = v) w.
Proof.
  intros Hk Hw Hc Hi Hl Hs r w' [= <- <-]. destruct Hs as [I1 I2 I3 I4 I5].
  split_and!; [split; try done; simpl; congruence| |done]. split; try done. by apply lawful_refl.
Qed.

Lemma loaded_facts P w w1 tenant user v :
  sound w -> calm P w w1 -> load (tables_of w1) tenant user (sn_run_id (held w)) = Ok v ->
  known (tables_of w1) v /\ wf_snapshot v /\ sn_config v = sn_config (held w1) /\
  sn_run_id v = sn_run_id (held w1) /\ left_of v <= left_of (held w1).
Proof.
  intros Hs C Hr. pose proof (calm_inv _ _ _ C) as Hi. rewrite (se_snapshot _ _ (ca_exec _ _ _ C)).
  pose proof (known_lawful _ _ _ (so_inv _ Hs) (mv_law _ _ _ (ca_moved _ _ _ C)) (so_known _ Hs)) as Hk.
  destruct (known_loaded _ _ _ _ _ Hi Hr) as (K1 & K2 & _).
  destruct (loaded_after _ _ _ _ _ Hi Hk Hr) as [? ?].
  split_and!; try done. eapply loaded_wf; [exact Hi|exact Hr].
Qed.

Lemma wp_reload w : wp (reload svc) any w.
Proof.
  apply wp_the. eapply (wp_bind _ _ (fun v w1 => known (tables_of w1) v /\ wf_snapshot v /\
    sn_config v = sn_config (held w1) /\ sn_run_id v = sn_run_id (held w1) /\ left_of v <= left_of (held w1))).
  - apply wp_calm. intros r w1 Hs Eq. pose proof (awaiting_calm _ _ _ _ (sv_load _ _ _ _) Eq Hs) as C.
    split; [done|]. intros v ->. unfold awaiting, on_base in Eq.
    pose proof (calm_inv _ _ _ (beats_calm svc w (so_inv _ Hs))) as Hb.
    destruct (store_load _ _ _ (dw_base (beats svc w))) as [r b] eqn:E. injection Eq as -> <-.
    apply (query_spec is_commit) in E as [_ Hr]; [|done].
    by eapply loaded_facts; [|exact C|exact (Hr v eq_refl)].
  - intros v w1 S1 R1 (Hk & Hw & Hc & Hid & Hl). eapply wp_any. by apply wp_hold.
Qed.

(** Every turn of the loop ends the run, suspends it, or uses something up. *)
Lemma advance_progress w : wp (advance svc) (fun _ w' => further w w') w.
Proof.
  apply wp_sound. intros Hs. apply wp_then_check. eapply wp_bind; [apply wp_reload|].
  intros _ w1 S1 R1 _. apply wp_then_check, wp_the. cbv zeta.
  case_bool_decide as Hst; [|apply wp_ret; intros; by left]. simpl negb. cbv iota.
  apply wp_then_base; [apply sv_clock|]. intros t w2 S2 R2 St2.
  destruct (flt t _).
  { eapply wp_mono; [by apply wp_stop|]. intros ? w3 _ _ Hw3. left. by rewrite Hw3. }
  apply wp_then_base; [apply sv_remaining|]. intros left w3 S3 R3 St3. destruct (fle left fzero).
  { eapply wp_mono; [by apply wp_stop|]. intros ? w4 _ _ Hw4. left. by rewrite Hw4. }
  assert (reach w w3) as R03 by (eapply reach_trans; [done|exact R1|]; by eapply reach_trans).
  apply wp_catch.
  - eapply wp_mono; [apply wp_phase_body; by rewrite (se_snapshot _ _ St3), (se_snapshot _ _ St2)|]. intros ? w4 _ _ Hf. by eapply further_trans.
  - intros e w4 S4 R4. eapply wp_mono; [apply wp_phase_error|]. intros ? w5 _ _ ?. by left.
Qed.

(** * Driving *)

Lemma graph_node_any n w : wp (graph_node_body svc n) any w.
Proof.
  assert (forall run_ref (f : unit -> ex unit), (forall w1, wp (f tt) any w1) ->
    wp (mthen (graph_reference_ok run_ref) f) any w) as Href.
  { intros run_ref f Hf. eapply (wp_bind _ _ any); [|intros [] w1 _ _ _; apply Hf].
    apply wp_the. case_bool_decide; [by apply wp_ret|apply wp_raise]. }
  destruct n as [run_ref|run_ref]; apply Href; intros w1.
  - eapply wp_any, advance_progress.
  - eapply wp_bind; [apply wp_reload|]. intros ? w2 _ _ _. apply wp_the.
    case_bool_decide; [apply wp_raise|by apply wp_ret].
Qed.

Lemma graph_any w : wp (run_durable_graph svc) any w.
Proof.
  apply wp_then_base; [apply sv_outside|]. intros [nodes e] w1 _ _ _. simpl.
  eapply (wp_bind _ _ any); [|intros ? w2 _ _ _; destruct e; [apply wp_raise|by apply wp_ret]].
  revert w1. induction nodes as [|n nodes IH]; intros w1; [by apply wp_ret|].
  eapply wp_bind; [apply graph_node_any|]. intros ? w2 _ _ _. apply IH.
Qed.

(** The loop ends within the fuel the run's budget gives. *)
Lemma loop_ends fuel w :
  (sn_status (held w) = running -> left_of (held w) < Z.of_nat fuel) ->
  wp (advance_loop svc fuel) (fun finished _ => finished = true) w.
Proof.
  revert w. induction fuel as [|fuel IH]; intros w Hl; apply wp_sound; intros Hs; cbn [advance_loop];
    apply wp_the; case_bool_decide as Hst; simpl negb; cbv iota; try (by apply wp_ret).
  - destruct (left_running _ (so_wf _ Hs) Hst). specialize (Hl Hst). lia.
  - eapply wp_bind; [apply advance_progress|]. intros ? w1 S1 R1 [Hne|Hlt]; apply IH; [done|].
    intros _. specialize (Hl Hst). lia.
Qed.

Lemma approve_steps w request budget :
  sn_status (held w) = awaiting_approval -> sn_approval (held w) = Some request -> wf_snapshot (held w) ->
  steps_from w (copy_approve (held w) request budget) None.
Proof.
  intros Hst Ha [led0 [W1 _ _ _ _ _ _ _]]. split_and!; [done..|]. intros d row _ _ _ Hm Hne.
  exists (AApprove (ap_action_digest request)). simpl in W1. unfold stage_of in W1. rewrite Hst, Ha in W1.
  destruct (sn_phase (held w)) eqn:Hph; try done. destruct (sb_decision (sn_body (held w))) as [d0|] eqn:Hd; [|done].
  destruct (sb_pending_call_id (sn_body (held w))) eqn:Hp; [done|].
  destruct (sb_decision_inflight (sn_body (held w))) eqn:Hin; [done|].
  assert (stage_of (held w) = Awaiting (strip_decision d0) (ap_action_digest request)) as Hold.
  { unfold stage_of. by rewrite Hst, Hph, Hd, Ha, Hp, Hin. }
  assert (stage_of (copy_approve (held w) request budget) =
    Acting (strip_decision d0) (Some (ap_action_digest request)) None) as Hnew.
  { unfold stage_of. cbn. by rewrite Hph, Hd, Hp, Hin. }
  unfold view at 2. rewrite Hnew. by apply (m_approve (view (held w) _)).
Qed.

Lemma wp_approve approve queue_only w :
  sn_status (held w) = awaiting_approval -> wp (approve_or_reject svc (held w) approve queue_only) any w.
Proof.
  intros Hst. apply wp_sound. intros Hs. unfold approve_or_reject.
  destruct (sn_approval (held w)) as [request|] eqn:Ha; [|apply wp_raise].
  destruct (negb _); [by eapply wp_any, wp_stop|].
  eapply (wp_bind _ _ (fun _ w1 => stay w w1)).
  - destruct (sn_active_budget (held w)); [|by apply wp_ret].
    eapply (wp_bind _ _ (fun _ w1 => stay w w1)); [|intros; by apply wp_ret].
    destruct queue_only; [by apply wp_ret|]. apply wp_then_base; [apply sv_clock|]. intros. by apply wp_ret.
  - intros budget w1 S1 R1 St. rewrite <- (se_snapshot _ _ St) in *. eapply wp_any, wp_save.
    apply approve_steps; [done|done|apply S1].
Qed.

(** The body of a claimed run ends with a value or an error, never for want of fuel. *)
Lemma wp_run_body command queue_only w :
  wp (run_body svc (held w) command queue_only) (fun finished _ => finished = true) w.
Proof.
  apply wp_sound. intros Hs. apply wp_then_base; [apply sv_clock|]. intros t w1 S1 R1 St1.
  eapply (wp_bind _ _ any).
  { destruct (flt t _); [by eapply wp_any, wp_stop|]. destruct command as [c|]; [|by apply wp_ret].
    case_bool_decide as Hst; [|by apply wp_ret]. rewrite <- (se_snapshot _ _ St1) in *. by apply wp_approve. }
  intros ? w2 S2 R2 _. destruct queue_only; [by apply wp_ret|]. apply wp_the.
  case_bool_decide as Hst; [|by apply wp_ret]. simpl negb. cbv iota.
  case_bool_decide.
  - eapply wp_bind; [apply graph_any|]. intros. by apply wp_ret.
  - apply loop_ends. intros _. destruct (left_running _ (so_wf _ S2) Hst) as [_ Hl].
    assert (reach w w2) as R02 by (by eapply reach_trans; [|exact R1|]).
    rewrite (reach_config _ _ Hs S2 R02) in Hl. unfold advance_fuel.
    destruct (wf_budgets _ (so_wf _ Hs)). lia.
Qed.

(** ** The terminal fence *)

Lemma load_if_there_inv s (b : sworld W) v b' :
  load_if_there s b = (Ok (Some v), b') ->
  store_load (sn_tenant_id s) (sn_user_id s) (sn_run_id s) b = (Ok v, b').
Proof.
  unfold load_if_there, mcatch. intros Eq. destruct (mthen _ _ b) as [[o|e] b1] eqn:E.
  - injection Eq as -> ->. apply mthen_inv in E as [(e & _ & ?)|(v' & b2 & E2 & E3)]; [done|].
    by injection E3 as <- <-.
  - by destruct (_ || _).
Qed.

Lemma wp_fence_stopped w : wp (fence_stopped svc (held w)) any w.
Proof.
  eapply (wp_bind _ _ any).
  - destruct (sb_pending_call_id _); [|by apply wp_ret].
    apply wp_then_await; [apply sv_ledger|]. intros. by apply wp_ret.
  - intros unsure w1 _ _ _. destruct unsure; by eapply wp_any, wp_stop.
Qed.

Lemma wp_fence n w : wp (fence svc n false) any w.
Proof.
  revert w. induction n as [|n IH]; intros w; [apply wp_raise|]. cbn [fence]. apply wp_the.
  eapply (wp_bind _ _ (fun found w1 => forall v, found = Some v -> known (tables_of w1) v /\ wf_snapshot v /\
    sn_config v = sn_config (held w1) /\ sn_run_id v = sn_run_id (held w1) /\ left_of v <= left_of (held w1))).
  { apply wp_calm. intros r w1 Hs Eq. pose proof (awaiting_calm _ _ _ _ (sv_load_if_there _ _) Eq Hs) as C.
    split; [done|]. intros ? -> v ->. unfold awaiting, on_base in Eq.
    pose proof (calm_inv _ _ _ (beats_calm svc w (so_inv _ Hs))) as Hb.
    destruct (load_if_there (held w) (dw_base (beats svc w))) as [r b] eqn:E. injection Eq as -> <-.
    apply load_if_there_inv, (query_spec is_commit) in E as [_ Hr]; [|done].
    by eapply loaded_facts; [|exact C|exact (Hr v eq_refl)]. }
  intros [s|] w1 S1 R1 Hf; [|by apply wp_ret]. destruct (Hf s eq_refl) as (K & V & C & I & L).
  eapply wp_bind; [by apply wp_hold|]. intros ? w2 S2 R2 <-. destruct (terminal _); [by apply wp_ret|].
  apply wp_the, wp_then_await; [apply sv_owns|]. intros owned w3 S3 R3 St3.
  destruct owned; [|apply wp_raise]. simpl negb. cbv iota. rewrite <- (se_snapshot _ _ St3).
  apply wp_catch; [apply wp_fence_stopped|]. intros e w4 _ _. destruct (is_code _ _); [apply IH|apply wp_raise].
Qed.

Lemma wp_ex_timed {A} t (m : ex A) Q w : wp m Q w -> wp (ex_timed t m) Q w.
Proof.
  intros Hm. unfold ex_timed. destruct (fle t fzero); [apply wp_raise|]. apply wp_catch; [done|].
  intros [] w1 _ _; try apply wp_raise. apply wp_then_base; [apply sv_outside|]. intros. apply wp_raise.
Qed.

Lemma wp_timeout_as {A} code (m : ex A) Q w : wp m Q w -> wp (timeout_as code m) Q w.
Proof. intros Hm. apply wp_catch; [done|]. intros. apply wp_raise. Qed.

Lemma wp_cleanup w : wp (_terminal_cleanup svc false) any w.
Proof.
  apply wp_then_base; [apply sv_outside|]. intros n w1 _ _ _. apply wp_timeout_as, wp_ex_timed, wp_fence.
Qed.
End Phases.
