(* ===== verification/DurableGuarantee.v ===== *)
(** The guarantee of the durable service.

    [serves m]: the computation [m] of a worker moves the store lawfully and logs
    every dispatch after its entry in the ledger.  Each entry point of
    [DurableService] serves, so any number of workers do ([LawfulOthers] is the same
    property of the others); the theorems read the promises of [DurableMachine] off
    the tables: budgets over the whole life of a run, approvals, no second dispatch
    of a call whose outcome is unknown, and an end of every drive. *)

From Stdlib Require Import ZArith String.
From S2P Require Import Prelude Effects Float64 PyVal Access Redact Json AgentDto SourceMetadata ContextPacker.
From S2P Require Import FinalAnswer DurableStore AgentRuntime DurableDto DurableMachine DurableLaw.
From S2P Require Import DurableService DurableRefinement DurablePhases.
From S2P Require Registry.
From stdpp Require Import base list gmap numbers.

#[local] Open Scope eff_scope.
#[local] Open Scope Z_scope.
#[local] Arguments fadd : simpl never.
#[local] Arguments fsub : simpl never.
#[local] Arguments fmul : simpl never.
#[local] Arguments fdiv : simpl never.

Section Guarantee.
Context `{PyRepr, UnicodeDB, UnicodeDigits, NetlocCheck} `{SnapshotSize}.
Context {W : Type} `{AgentPorts W} `{DurablePorts W} `{!LawfulOthers W}.
Context (svc : DurableAgentService) `{!ConfiguredRuntime svc}.
Abbreviation sv A := (eff durable_exn (sworld W) A).
Abbreviation ex A := (eff durable_exn (dworld W) A).
Abbreviation tables_of w := (sw_tables (dw_base w)).
Abbreviation held w := (de_snapshot (dw_exec w)).
Implicit Types (b : sworld W) (w : dworld W) (s : run_snapshot).

(** * Rules *)

Definition swp {A} (m : sv A) (Q : A -> sworld W -> Prop) b : Prop :=
  store_inv (sw_tables b) -> journaled (sw_log b) -> forall r b', m b = (r, b') ->
  lawful (sw_tables b) (sw_tables b') /\ journaled (sw_log b') /\ forall a, r = Ok a -> Q a b'.

Definition always {A} : A -> sworld W -> Prop := fun _ _ => True.

Lemma swp_law {A} (m : sv A) b : sv_law is_commit m -> swp m always b.
Proof.
  intros Hm Hi Hj r b' Eq. destruct (Hm _ _ _ Eq Hi) as [L (evs & -> & Hf)].
  split_and!; [done|by apply journaled_commits|done].
Qed.

Lemma swp_ret {A} (a : A) (Q : A -> sworld W -> Prop) b : Q a b -> swp (mreturn a) Q b.
Proof.
  intros HQ Hi Hj r b' [= <- <-]. split_and!; [by apply lawful_refl|done|]. by intros a' [= <-].
Qed.
Lemma swp_raise {A} e (Q : A -> sworld W -> Prop) b : swp (mraise e) Q b.
Proof. intros Hi Hj r b' [= <- <-]. split_and!; [by apply lawful_refl|done|done]. Qed.

Lemma swp_bind {A B} (m : sv A) (f : A -> sv B) Q R b :
  swp m Q b ->
  (forall a b1, store_inv (sw_tables b) -> lawful (sw_tables b) (sw_tables b1) -> Q a b1 -> swp (f a) R b1) ->
  swp (mthen m f) R b.
Proof.
  intros Hm Hf Hi Hj r b' Eq. apply mthen_inv in Eq as [(e & Eq & ->)|(a & b1 & E1 & E2)].
  { destruct (Hm Hi Hj _ _ Eq) as (? & ? & _). done. }
  destruct (Hm Hi Hj _ _ E1) as (L1 & J1 & Q1). specialize (Q1 a eq_refl).
  destruct (Hf a b1 Hi L1 Q1 (law_inv _ _ L1) J1 _ _ E2) as (L2 & J2 & Q2).
  split_and!; [by eapply lawful_trans|done|done].
Qed.

Lemma swp_catch {A} (m : sv A) h Q b :
  swp m Q b ->
  (forall e b1, store_inv (sw_tables b) -> lawful (sw_tables b) (sw_tables b1) -> swp (h e) Q b1) ->
  swp (mcatch m h) Q b.
Proof.
  intros Hm Hh Hi Hj r b' Eq. unfold mcatch in Eq. destruct (m b) as [[a|e] b1] eqn:E1.
  { injection Eq as <- <-. by apply Hm. }
  destruct (Hm Hi Hj _ _ E1) as (L1 & J1 & _).
  destruct (Hh e b1 Hi L1 (law_inv _ _ L1) J1 _ _ Eq) as (L2 & J2 & Q2).
  split_and!; [by eapply lawful_trans|done|done].
Qed.

Lemma swp_mono {A} (m : sv A) (Q R : A -> sworld W -> Prop) b :
  swp m Q b -> (forall a b1, Q a b1 -> R a b1) -> swp m R b.
Proof.
  intros Hm HR Hi Hj r b' Eq. destruct (Hm Hi Hj _ _ Eq) as (? & ? & Q1). split_and!; [done..|]. eauto.
Qed.

Lemma swp_always {A} (m : sv A) Q b : swp m Q b -> swp m always b.
Proof. intros Hm. by eapply swp_mono. Qed.

Lemma swp_then_law {A B} (m : sv A) (f : A -> sv B) Q b :
  sv_law is_commit m ->
  (forall a b1, store_inv (sw_tables b) -> lawful (sw_tables b) (sw_tables b1) -> swp (f a) Q b1) ->
  swp (mthen m f) Q b.
Proof. intros Hm Hf. eapply swp_bind; [by apply swp_law|]. intros a b1 Hi L _. by apply Hf. Qed.

Lemma swp_timed {A} t (m : sv A) Q b : swp m Q b -> swp (timed t m) Q b.
Proof.
  intros Hm. unfold timed. destruct (fle t fzero); [apply swp_raise|]. apply swp_catch; [done|].
  intros [] b1 _ _; try apply swp_raise. apply swp_then_law; [apply sv_outside|]. intros. apply swp_raise.
Qed.
Lemma swp_timeout_as {A} code (m : sv A) Q b : swp m Q b -> swp (timeout_as code m) Q b.
Proof. intros Hm. apply swp_catch; [done|]. intros. apply swp_raise. Qed.

(** A snapshot a worker may go on with. *)
Definition usable b s : Prop := known (sw_tables b) s /\ wf_snapshot s.

Lemma usable_lawful b b' s :
  store_inv (sw_tables b) -> lawful (sw_tables b) (sw_tables b') -> usable b s -> usable b' s.
Proof. intros Hi L [K V]. split; [by eapply known_lawful|done]. Qed.

(** * Executions that are over

    What follows the business of a run writes nothing but the end of the run, so it
    is lawful whatever the execution holds. *)
Definition ex_law {A} (m : ex A) : Prop :=
  forall w r w', m w = (r, w') -> store_inv (tables_of w) -> moved is_commit (dw_base w) (dw_base w').

Lemma ex_ret {A} (a : A) : ex_law (mreturn a).
Proof. intros w r w' [= <- <-]. apply moved_refl. Qed.
Lemma ex_raise {A} e : ex_law (mraise (A := A) e).
Proof. intros w r w' [= <- <-]. apply moved_refl. Qed.
Lemma ex_lift {A} (r : result durable_exn A) : ex_law (mlift r).
Proof. intros w r' w' [= <- <-]. apply moved_refl. Qed.
Lemma ex_bind {A B} (m : ex A) (f : A -> ex B) : ex_law m -> (forall a, ex_law (f a)) -> ex_law (mthen m f).
Proof.
  intros Hm Hf w r w' Eq Hw. apply mthen_inv in Eq as [(e & Eq & ->)|(a & w1 & E1 & E2)]; [by eapply Hm|].
  pose proof (Hm _ _ _ E1 Hw) as M1. eapply moved_trans; [done|exact M1|].
  eapply Hf; [exact E2|]. by eapply moved_inv.
Qed.
Lemma ex_catch {A} (m : ex A) h : ex_law m -> (forall e, ex_law (h e)) -> ex_law (mcatch m h).
Proof.
  intros Hm Hh w r w' Eq Hw. unfold mcatch in Eq. destruct (m w) as [[a|e] w1] eqn:E1.
  { injection Eq as <- <-. by eapply Hm. }
  pose proof (Hm _ _ _ E1 Hw) as M1. eapply moved_trans; [done|exact M1|].
  eapply Hh; [exact Eq|]. by eapply moved_inv.
Qed.
Lemma ex_the : ex_law the_execution.
Proof. intros w r w' [= <- <-]. apply moved_refl. Qed.
Lemma ex_set f : ex_law (set_execution f).
Proof. intros w r w' [= <- <-] Hw. by apply moved_same. Qed.
Lemma ex_revoke : ex_law revoke_now.
Proof. intros w r w' [= <- <-] Hw. apply (ca_moved _ _ _ (revoke_calm is_commit None w Hw)). Qed.
Lemma ex_base {A} (m : sv A) : sv_law is_commit m -> ex_law (on_base m).
Proof. intros Hm w r w' Eq Hw. by eapply on_base_calm. Qed.
Lemma ex_await {A} (m : sv A) : sv_law is_commit m -> ex_law (awaiting svc m).
Proof.
  intros Hm w r w' Eq Hw. unfold awaiting in Eq. pose proof (beats_calm svc w Hw) as C.
  eapply moved_trans; [done|eapply moved_weaken; [apply renewal_commit|apply C]|].
  eapply ex_base; [done|exact Eq|by eapply calm_inv].
Qed.
Lemma ex_timed_law {A} t (m : ex A) : ex_law m -> ex_law (ex_timed t m).
Proof.
  intros Hm. unfold ex_timed. destruct (fle t fzero); [apply ex_raise|]. apply ex_catch; [done|].
  intros []; try apply ex_raise. apply ex_bind; [apply ex_base, sv_outside|]. intros. apply ex_raise.
Qed.

(** Cancelling needs a snapshot that was read. *)
Definition ex_known {A} s (m : ex A) : Prop :=
  forall w r w', m w = (r, w') -> store_inv (tables_of w) -> known (tables_of w) s ->
  moved is_commit (dw_base w) (dw_base w').

Lemma ex_known_law {A} s (m : ex A) : ex_law m -> ex_known s m.
Proof. intros Hm w r w' Eq Hw _. by eapply Hm. Qed.
Lemma ex_known_bind {A B} s (m : ex A) (f : A -> ex B) :
  ex_known s m -> (forall a, ex_known s (f a)) -> ex_known s (mthen m f).
Proof.
  intros Hm Hf w r w' Eq Hw Hk. apply mthen_inv in Eq as [(e & Eq & ->)|(a & w1 & E1 & E2)]; [by eapply Hm|].
  pose proof (Hm _ _ _ E1 Hw Hk) as M1. eapply moved_trans; [done|exact M1|].
  eapply Hf; [exact E2|by eapply moved_inv|]. eapply known_lawful; [done|apply M1|done].
Qed.
Lemma ex_known_catch {A} s (m : ex A) h : ex_known s m -> (forall e, ex_law (h e)) -> ex_known s (mcatch m h).
Proof.
  intros Hm Hh w r w' Eq Hw Hk. unfold mcatch in Eq. destruct (m w) as [[a|e] w1] eqn:E1.
  { injection Eq as <- <-. by eapply Hm. }
  pose proof (Hm _ _ _ E1 Hw Hk) as M1. eapply moved_trans; [done|exact M1|].
  eapply Hh; [exact Eq|]. by eapply moved_inv.
Qed.

Lemma ex_audit a ref : ex_law (audit_transition svc a ref).
Proof. apply ex_bind; [apply ex_the|]. intros x. apply ex_await, sv_audit. Qed.

Lemma ex_fence_cancelled s : ex_known s (fence_cancelled svc s).
Proof.
  apply ex_known_bind; [apply ex_known_law, ex_the|]. intros x.
  apply ex_known_bind; [apply ex_known_law, ex_base, sv_clock|]. intros t.
  apply ex_known_bind.
  - intros w r w' Eq Hw Hk. unfold awaiting, on_base in Eq. pose proof (beats_calm svc w Hw) as C.
    destruct (store_cancel _ _ _ _ (dw_base (beats svc w))) as [r0 b] eqn:E. injection Eq as <- <-.
    apply cancel_spec in E as [M _]; [|by eapply calm_inv|eapply known_lawful; [done|apply C|done]].
    eapply moved_trans; [done|eapply moved_weaken; [apply renewal_commit|apply C]|done].
  - intros v. apply ex_known_bind; [apply ex_known_law, ex_set|]. intros _. apply ex_known_law, ex_audit.
Qed.

(** A snapshot the fence found was read just now. *)
Lemma ex_then_found {B} s (f : option run_snapshot -> ex B) :
  ex_law (f None) -> (forall v, ex_known v (f (Some v))) ->
  ex_law (mthen (awaiting svc (load_if_there s)) f).
Proof.
  intros Hn Hf w r w' Eq Hw.
  assert (forall r1 w1, awaiting svc (load_if_there s) w = (r1, w1) -> moved is_commit (dw_base w) (dw_base w1)) as Hlaw.
  { intros r1 w1 E. eapply ex_await; [apply sv_load_if_there|exact E|done]. }
  apply mthen_inv in Eq as [(e & Eq & ->)|(o & w1 & E1 & E2)]; [by eapply Hlaw|].
  pose proof (Hlaw _ _ E1) as M1. eapply moved_trans; [done|exact M1|]. pose proof (moved_inv _ _ _ M1) as I1.
  destruct o as [v|]; [|by eapply Hn]. eapply Hf; [exact E2|done|].
  unfold awaiting, on_base in E1. destruct (load_if_there s (dw_base (beats svc w))) as [r0 b] eqn:E.
  injection E1 as -> <-. apply load_if_there_inv, (load_spec is_commit) in E as [_ Hr].
  - apply (Hr v eq_refl).
  - eapply calm_inv. by apply beats_calm.
Qed.

Lemma ex_fence n : ex_law (fence svc n true).
Proof.
  induction n as [|n IH]; cbn [fence]; [apply ex_raise|]. apply ex_bind; [apply ex_the|]. intros x.
  apply ex_then_found; [apply ex_ret|]. intros s. apply ex_known_bind; [apply ex_known_law, ex_set|].
  intros _. destruct (terminal _); [apply ex_known_law, ex_ret|].
  apply ex_known_bind; [apply ex_known_law, ex_the|]. intros x'.
  apply ex_known_bind; [apply ex_known_law, ex_await, sv_owns|]. intros owned.
  destruct owned; [|apply ex_known_law, ex_ret]. apply ex_known_catch; [apply ex_fence_cancelled|].
  intros e. destruct (is_code _ _); [apply IH|apply ex_raise].
Qed.

Lemma ex_cancel : ex_law (_cancel_after_disconnect svc).
Proof.
  apply ex_bind.
  - apply ex_catch; [|intros []; apply ex_raise || apply ex_ret].
    apply ex_bind; [apply ex_base, sv_outside|]. intros n.
    apply ex_catch; [apply ex_timed_law, ex_fence|]. intros. apply ex_raise.
  - intros _. apply ex_bind; [apply ex_base, sv_outside|]. intros []; [apply ex_raise|apply ex_ret].
Qed.

Lemma ex_release : ex_law (release_lease svc).
Proof.
  apply ex_bind; [apply ex_the|]. intros x. apply ex_catch; [apply ex_base, sv_timed, sv_release|].
  intros []; try apply ex_ret. apply ex_bind; [apply ex_cancel|]. intros. apply ex_raise.
Qed.

Lemma ex_finally {A} (r : result durable_exn A) : ex_law (finally_release svc r).
Proof.
  apply ex_bind; [apply ex_revoke|]. intros _. apply ex_bind; [apply ex_set|]. intros _.
  apply ex_bind; [destruct r as [|[]]; apply ex_ret || apply ex_cancel|]. intros _.
  apply ex_bind; [apply ex_release|]. intros _. apply ex_bind; [apply ex_base, sv_outside|].
  intros []; [|apply ex_lift]. apply ex_bind; [apply ex_cancel|]. intros. apply ex_raise.
Qed.

Lemma swp_ended {A} x (m : ex A) b : ex_law m -> swp (with_new_execution x m) always b.
Proof.
  intros Hm. apply swp_law. intros b0 r b' Eq Hi. unfold with_new_execution in Eq.
  destruct (m _) as [r0 w] eqn:E. injection Eq as <- <-. exact (Hm _ _ _ E Hi).
Qed.

(** * Driving *)

Lemma wp_response ctx run_id reconcile w : wp (response svc ctx run_id reconcile) any w.
Proof.
  apply wp_the. destruct (_ && _); [by apply wp_ret|]. eapply wp_timeout_as, wp_any, wp_await.
  apply sv_timed, sv_get.
Qed.

Lemma wp_revoke w : wp revoke_now any w.
Proof.
  apply wp_calm. intros r w' Hs [= <- <-]. split; [by apply revoke_calm, Hs|done].
Qed.

Lemma wp_after_timeout ctx run_id w : wp (after_timeout svc ctx run_id) any w.
Proof.
  eapply wp_bind; [apply wp_revoke|]. intros _ w1 _ _ _. eapply wp_bind; [by apply wp_cleanup|].
  intros _ w2 _ _ _. apply wp_response.
Qed.

Lemma wp_conclude ctx run_id r w : wp (conclude svc ctx run_id r) any w.
Proof.
  assert (wp (after_heartbeat svc ctx run_id) any w) as Hb.
  { eapply wp_bind; [apply wp_revoke|]. intros _ w1 _ _ _. apply wp_the.
    eapply wp_bind; [apply wp_response|]. intros current w2 _ _ _.
    destruct (terminal _); [by apply wp_ret|apply wp_raise]. }
  apply wp_the. destruct (de_heartbeat (dw_exec w)), (de_revocation_error (dw_exec w)); try exact Hb;
    (destruct r as [|[]]; try apply wp_raise; [apply wp_response|apply wp_after_timeout|];
     apply wp_then_base; [apply sv_outside|]; intros [] w1 _ _ _; [apply wp_after_timeout|apply wp_raise]).
Qed.

Lemma wp_business command queue_only w :
  wp (business svc (held w) command queue_only) (fun r _ => r <> Ok false) w.
Proof.
  intros Hs r w' Eq. unfold business in Eq. destruct (run_body svc (held w) command queue_only w) as [r0 w1] eqn:E.
  injection Eq as <- <-. destruct (wp_run_body svc command queue_only w Hs _ _ E) as (? & ? & Hr).
  split_and!; [done..|]. intros a [= <-] ->. by specialize (Hr false eq_refl).
Qed.

(** A claimed run, from the claim to the release of its lease. *)
Lemma drive_claimed_law ctx command queue_only x b r b' :
  with_new_execution x (drive_claimed svc ctx (de_snapshot x) command queue_only) b = (r, b') ->
  sound {| dw_base := b; dw_exec := x |} ->
  lawful (sw_tables b) (sw_tables b') /\ journaled (sw_log b').
Proof.
  intros Eq Hs. unfold with_new_execution in Eq. set (w := {| dw_base := b; dw_exec := x |}) in *.
  destruct (drive_claimed _ _ _ _ _ w) as [r0 w'] eqn:E. injection Eq as <- <-.
  unfold drive_claimed in E.
  apply mthen_inv in E as [(e & E & ->)|(left & w1 & E1 & E)].
  { destruct (wp_base (_remaining (de_snapshot x)) w (sv_remaining _ _) Hs _ _ E) as (S1 & R1 & _).
    split; [apply R1|apply S1]. }
  destruct (wp_base (_remaining (de_snapshot x)) w (sv_remaining _ _) Hs _ _ E1) as (S1 & R1 & St1).
  specialize (St1 left eq_refl). pose proof (se_snapshot _ _ St1) as Hh. simpl in Hh. rewrite <- Hh in E.
  apply mthen_inv in E as [(e & E & ->)|(o & w2 & E2 & E)].
  { destruct (wp_business _ _ w1 S1 _ _ E) as (S2 & R2 & _). pose proof (reach_trans _ _ _ Hs R1 R2) as R.
    split; [apply R|apply S2]. }
  destruct (wp_business _ _ w1 S1 _ _ E2) as (S2 & R2 & _).
  destruct (conclude _ _ _ _ w2) as [o3 w3] eqn:E3.
  destruct (wp_conclude _ _ _ w2 S2 _ _ E3) as (S3 & R3 & _).
  destruct (ex_finally _ _ _ _ E (so_inv _ S3)) as [L4 (evs & -> & Hf)].
  pose proof (reach_trans _ _ _ Hs R1 (reach_trans _ _ _ S1 R2 R3)) as R.
  split; [eapply lawful_trans; [apply Hs|apply R|done]|]. apply journaled_commits; [apply S3|done].
Qed.

Lemma new_sound ctx s token created b :
  store_inv (sw_tables b) -> journaled (sw_log b) -> usable b s ->
  sound {| dw_base := b; dw_exec := new_execution svc ctx s token created |}.
Proof. intros Hi Hj [K V]. split; try done. simpl. apply runtime_config. Qed.

Lemma swp_acquire s t token act b :
  usable b s ->
  swp (store_acquire svc s token t act) (fun v b1 => usable b1 v /\ sn_config v = sn_config s) b.
Proof.
  intros [K V] Hi Hj r b' Eq. apply acquire_spec in Eq as [[L (evs & -> & Hf)] Hv]; [|done|done].
  split_and!; [done|by apply journaled_commits|]. intros v ->.
  destruct (Hv v eq_refl) as (K' & _ & C & _ & _ & _ & _ & Hview).
  split; [split; [done|by eapply wf_view]|done].
Qed.

Lemma swp_claim s token owned queue_only b :
  usable b s ->
  swp (claim svc s token owned queue_only) (fun v b1 => usable b1 v /\ sn_config v = sn_config s) b.
Proof.
  intros Hu. apply swp_then_law; [apply sv_clock|]. intros t b1 Hi1 L1.
  pose proof (usable_lawful _ _ _ Hi1 L1 Hu) as Hu1.
  eapply swp_then_law; [destruct (sn_active_budget s); law_tac|].
  intros timeout b2 Hi2 L2. pose proof (usable_lawful _ _ _ Hi2 L2 Hu1) as Hu2. apply swp_timed.
  destruct owned; [|by apply swp_acquire].
  apply swp_then_law; [intros b0 r b0' E0 I0; eapply moved_weaken; [apply renewal_commit|by eapply sv_renew]|].
  intros _ b3 Hi3 L3. apply swp_ret. split; [by eapply usable_lawful|done].
Qed.

Lemma swp_drive ctx s command created token queue_only b :
  usable b s -> swp (_drive svc ctx s command created token queue_only) always b.
Proof.
  intros Hu. eapply swp_then_law; [destruct token; law_tac|]. intros tok b1 Hi1 L1.
  pose proof (usable_lawful _ _ _ Hi1 L1 Hu) as Hu1.
  eapply (swp_bind _ _ (fun v b2 => usable b2 v /\ sn_config v = sn_config s)).
  - apply swp_catch; [by apply swp_claim|]. intros e b2 _ _. destruct e; try apply swp_raise;
      (eapply swp_bind; [apply swp_ended, ex_cancel|intros; apply swp_raise]).
  - intros v b2 _ _ [[K V] C] Hi2 Hj2 r b' Eq.
    change v with (de_snapshot (ex_claimed (new_execution svc ctx s tok created) v)) in Eq at 2.
    apply drive_claimed_law in Eq as [L J]; [by split_and!|]. split; try done. simpl.
    rewrite C. apply runtime_config.
Qed.

(** * Entry points *)

Lemma swp_load ctx run_id b : swp (_load ctx run_id) (fun s b1 => usable b1 s) b.
Proof.
  apply swp_then_law; [apply sv_authorize|]. intros _ b1 _ _.
  eapply (swp_bind _ _ (fun s b2 => usable b2 s)).
  - apply swp_timeout_as, swp_timed. intros Hi Hj r b' Eq.
    apply (query_spec is_commit) in Eq as [M Hr]; [|done]. destruct M as [L (evs & El & Hf)].
    split_and!; [done|rewrite El; by apply journaled_commits|]. intros v ->. specialize (Hr v eq_refl).
    destruct (known_loaded _ _ _ _ _ (law_inv _ _ L) Hr) as (K & _). split; [done|].
    by eapply loaded_wf; [apply L|].
  - intros s b2 _ _ Hu. apply swp_then_law; [apply sv_clock|]. intros t b3 Hi3 L3.
    pose proof (usable_lawful _ _ _ Hi3 L3 Hu) as Hu3. destruct (fle _ _); [|by apply swp_ret].
    apply swp_then_law; [apply sv_clock|]. intros t2 b4 _ _.
    apply swp_then_law; [apply sv_timeout_as, sv_timed, sv_purge|]. intros. apply swp_raise.
Qed.

Lemma swp_resume ctx run_id c b : swp (resume svc ctx run_id c) always b.
Proof.
  eapply swp_bind; [apply swp_load|]. intros s b1 _ _ Hu. simpl in Hu.
  destruct (negb _); [apply swp_raise|]. destruct (terminal _); [apply swp_raise|].
  eapply swp_then_law; [case_bool_decide; [apply sv_check_answer|case_bool_decide; law_tac]|].
  intros _ b2 Hi2 L2. apply swp_drive. by eapply usable_lawful.
Qed.

Lemma swp_background ctx run_id expected b : swp (run_background svc ctx run_id expected) always b.
Proof.
  unfold run_background. destruct (_ || _); [apply swp_raise|].
  eapply swp_bind; [apply swp_load|]. intros s b1 _ _ Hu.
  destruct (_ || _); [apply swp_raise|]. destruct (negb _); [apply swp_raise|]. by apply swp_drive.
Qed.

Lemma swp_cancel_store s t token un b :
  usable b s -> swp (store_cancel s t token un) always b.
Proof.
  intros [K V] Hi Hj r b' Eq. apply cancel_spec in Eq as [[L (evs & -> & Hf)] _]; [|done|done].
  split_and!; [done|by apply journaled_commits|done].
Qed.

Lemma swp_cancel ctx run_id expected b : swp (DurableService.cancel ctx run_id expected) always b.
Proof.
  eapply swp_bind; [apply swp_load|]. intros s b1 _ _ Hu. simpl in Hu.
  destruct (negb _); [apply swp_raise|]. destruct (terminal _); [apply swp_raise|].
  apply swp_then_law; [apply sv_clock|]. intros t b2 Hi2 L2.
  eapply swp_bind; [apply swp_timeout_as, swp_timed, swp_cancel_store; by eapply usable_lawful|].
  intros v b3 _ _ _. apply swp_then_law; [apply sv_audit|]. intros. by apply swp_ret.
Qed.

(** ** Starting *)

Lemma initial_fresh ctx c run_id startup t :
  valid_run_config (start_config svc c) = true -> fresh_run (initial_snapshot svc ctx c run_id startup t).
Proof. intros Hv. by split. Qed.

Lemma swp_prepare ctx c run_id startup b :
  swp (prepare_start svc ctx c run_id startup) (fun s _ => fresh_run s) b.
Proof.
  apply swp_then_law; [law_tac|]. intros _ b1 _ _. apply swp_then_law; [apply sv_clock|]. intros t b2 _ _.
  cbv zeta. destruct (negb _) eqn:Hv; [apply swp_raise|]. apply negb_false_iff in Hv.
  destruct (flt _ _); [apply swp_raise|]. destruct (negb _); [apply swp_raise|].
  apply swp_then_law; [apply sv_outside|]. intros names b3 _ _.
  destruct (existsb _ _); [apply swp_raise|]. apply swp_ret. by apply initial_fresh.
Qed.

Lemma fresh_wf s : fresh_run s -> wf_snapshot s.
Proof. intros [_ Hm]. exists ∅. by apply m_initial_wf. Qed.

Lemma swp_create_run ctx s b : fresh_run s -> swp (create_run ctx s) (fun _ b1 => usable b1 s) b.
Proof.
  intros Hf. assert (forall b0, swp (transact (OpCreate s) (fun d => (fun _ => tt) <$> create d s))
    (fun _ b1 => usable b1 s) b0) as Hc.
  { intros b0 Hi Hj r b' Eq. apply (transact_spec is_commit) in Eq as [[L (evs & El & Hev)] Hr];
      [|done|intros d Hd; apply law_create; [by eapply law_inv|done]|done].
    split_and!; [done|rewrite El; by apply journaled_commits|]. intros a ->.
    destruct (Hr a eq_refl) as (d & Hd & Hok & Ht & _). split; [|by apply fresh_wf]. rewrite Ht.
    destruct (create d s) as [d'|] eqn:Ed; [|done].
    eapply law_create; [by eapply law_inv|done|exact Ed]. }
  apply swp_then_law; [unfold until_deadline; law_tac|]. intros left b1 _ _.
  apply swp_then_law; [apply sv_timed, sv_purge|]. intros _ b2 _ _.
  apply swp_then_law; [unfold until_deadline; law_tac|]. intros left2 b3 _ _.
  eapply swp_bind; [apply swp_timed, Hc|]. intros ? b4 Hi4 L4 Hu. simpl in Hu.
  intros Hi Hj r b' Eq. destruct (swp_law _ b4 (sv_audit is_commit _ _ _ _) Hi Hj _ _ Eq) as (L & J & _).
  split_and!; [done|done|]. intros _ _. by eapply usable_lawful.
Qed.

Lemma swp_start_new ctx s b : fresh_run s -> swp (start_new svc ctx s) always b.
Proof.
  intros Hf. eapply (swp_bind _ _ (fun _ b1 => usable b1 s)).
  - apply swp_catch; [by apply swp_create_run|]. intros e b1 _ _. destruct e; try apply swp_raise.
    apply swp_then_law; [apply sv_outside|]. intros token b2 _ _.
    eapply swp_bind; [apply swp_ended, ex_cancel|]. intros. apply swp_raise.
  - intros _ b1 _ _ Hu. destruct (sn_dispatch s); [by apply swp_ret|by apply swp_drive].
Qed.

Lemma swp_fence_creation n ctx s token b : swp (fence_creation n ctx s token) always b.
Proof.
  revert b. induction n as [|n IH]; intros b; [apply swp_raise|]. cbn [fence_creation].
  eapply (swp_bind _ _ (fun o b1 => forall v, o = Some v -> usable b1 v)).
  { intros Hi Hj r b' Eq. destruct (swp_law _ b (sv_load_if_there is_commit s) Hi Hj _ _ Eq) as (L & J & _).
    split_and!; [done..|]. intros o -> v ->.
    apply load_if_there_inv, (query_spec is_commit) in Eq as [_ Hr]; [|done]. specialize (Hr v eq_refl).
    destruct (known_loaded _ _ _ _ _ (law_inv _ _ L) Hr) as (K & _).
    split; [done|]. by eapply loaded_wf; [apply L|]. }
  intros [v|] b1 _ _ Hv; [|by apply swp_ret]. specialize (Hv v eq_refl).
  destruct (terminal _); [by apply swp_ret|]. apply swp_then_law; [apply sv_owns|].
  intros owned b2 Hi2 L2. pose proof (usable_lawful _ _ _ Hi2 L2 Hv) as Hv2.
  destruct owned; [|by apply swp_ret]. apply swp_then_law; [apply sv_clock|].
  intros t b3 Hi3 L3. pose proof (usable_lawful _ _ _ Hi3 L3 Hv2) as Hv3.
  eapply (swp_bind _ _ always).
  - apply swp_catch.
    + eapply swp_bind; [by apply swp_cancel_store|]. intros. by apply swp_ret.
    + intros e b4 _ _. destruct (is_code _ _); [by apply swp_ret|apply swp_raise].
  - intros [v'|] b4 _ _ _; [|apply IH]. apply swp_law, sv_audit.
Qed.

Lemma swp_create_keyed ctx s token b :
  fresh_run s -> swp (create_keyed_run svc ctx s token) (fun r b1 => r.1 = true -> usable b1 s) b.
Proof.
  intros Hf. assert (forall t b0, swp (transact (OpCreateKeyed s token t (sv_lease_seconds svc))
      (fun d => (fun x => (x.1.2, x.2)) <$> create_keyed d s token t (sv_lease_seconds svc)))
    (fun r b1 => r.1 = true -> usable b1 s) b0) as Hc.
  { intros t b0 Hi Hj r b' Eq. apply (transact_spec is_commit) in Eq as [[L (evs & El & Hev)] Hr];
      [|done|intros d Hd; apply law_create_keyed; [by eapply law_inv|done]|done].
    split_and!; [done|rewrite El; by apply journaled_commits|]. intros [ins v] -> Hins. simpl in Hins.
    destruct (Hr _ eq_refl) as (d & Hd & Hok & Ht & _). split; [|by apply fresh_wf]. rewrite Ht.
    destruct (create_keyed d s token t (sv_lease_seconds svc)) as [[[d' ins'] v']|] eqn:Ed; [|done].
    simpl in Hok. injection Hok as -> ->. subst ins.
    eapply law_create_keyed; [by eapply law_inv|done|exact Ed]. }
  apply swp_then_law; [apply sv_clock|]. intros t1 b1 _ _.
  apply swp_then_law; [unfold until_deadline; law_tac|]. intros left1 b2 _ _.
  apply swp_then_law; [apply sv_timed, sv_purge|]. intros _ b3 _ _.
  apply swp_then_law; [apply sv_clock|]. intros t2 b4 _ _.
  apply swp_then_law; [unfold until_deadline; law_tac|]. intros left2 b5 _ _.
  eapply swp_bind; [apply swp_timed, Hc|]. intros [ins v] b6 Hi6 L6 Hu. simpl in Hu.
  apply swp_then_law; [destruct ins; law_tac|]. intros _ b7 Hi7 L7. apply swp_ret.
  simpl. intros Hins. eapply usable_lawful; eauto.
Qed.

Lemma swp_start_keyed ctx s fingerprint b : fresh_run s -> swp (_start_keyed svc ctx s fingerprint) always b.
Proof.
  intros Hf. apply swp_then_law; [apply sv_outside|]. intros token b1 _ _.
  eapply (swp_bind _ _ (fun r b2 => r.1 = true -> usable b2 s)).
  - apply swp_catch; [by apply swp_create_keyed|]. intros e b2 _ _.
    eapply (swp_bind _ _ always); [|intros; apply swp_raise].
    apply swp_then_law; [apply sv_outside|]. intros n b3 _ _.
    apply swp_catch; [apply swp_timed, swp_fence_creation|].
    intros e' b4 _ _. destruct e'; by apply swp_raise || apply swp_ret.
  - intros [ins v] b2 _ _ Hu. simpl in *. destruct ins; simpl; [|apply swp_law, sv_existing].
    destruct (sn_dispatch s); [|by apply swp_drive, Hu].
    apply swp_then_law; [apply sv_timed, sv_release|]. intros. by apply swp_ret.
Qed.

Lemma swp_start ctx c b : swp (start svc ctx c) always b.
Proof.
  apply swp_then_law; [apply sv_authorize|]. intros _ b1 _ _. destruct (_ && _); [apply swp_raise|].
  apply swp_then_law; [apply sv_outside|]. intros fresh b2 _ _. destruct (cmd_idempotency_key c) as [key|].
  - cbv zeta. destruct (start_command_fingerprint c) as [fingerprint|]; [|apply swp_raise].
    apply swp_then_law; [apply sv_lookup|]. intros [existing|] b3 _ _; [apply swp_law, sv_existing|].
    eapply swp_bind; [apply swp_prepare|]. intros s b4 _ _ Hf. by apply swp_start_keyed.
  - eapply swp_bind; [apply swp_prepare|]. intros s b4 _ _ Hf. by apply swp_start_new.
Qed.

(** * Requests *)

(** The entry points the HTTP layer and the scheduler call. *)
Inductive request : Type :=
| ReqStart (ctx : RequestContext) (c : DurableStartCommand)
| ReqGet (ctx : RequestContext) (run_id : pystr)
| ReqResume (ctx : RequestContext) (run_id : pystr) (c : DurableResumeCommand)
| ReqBackground (ctx : RequestContext) (run_id : pystr) (expected_revision : Z)
| ReqCancel (ctx : RequestContext) (run_id : pystr) (expected_revision : option Z)
| ReqRecover (ctx : RequestContext) (key : pystr).

Definition serve (q : request) : sv DurableRunResponse :=
  match q with
  | ReqStart ctx c => start svc ctx c
  | ReqGet ctx run_id => get ctx run_id
  | ReqResume ctx run_id c => resume svc ctx run_id c
  | ReqBackground ctx run_id expected => run_background svc ctx run_id expected
  | ReqCancel ctx run_id expected => DurableService.cancel ctx run_id expected
  | ReqRecover ctx key => recover ctx key
  end.

Definition serve_all (qs : list request) (b : sworld W) : sworld W :=
  fold_left (fun b q => (serve q b).2) qs b.

Lemma swp_serve q b : swp (serve q) always b.
Proof.
  destruct q; [apply swp_start|apply swp_law, sv_get|apply swp_resume|apply swp_background|
    apply swp_cancel|apply swp_law, sv_recover].
Qed.

Lemma serve_law q b r b' :
  serve q b = (r, b') -> store_inv (sw_tables b) -> journaled (sw_log b) ->
  lawful (sw_tables b) (sw_tables b') /\ journaled (sw_log b').
Proof. intros Eq Hi Hj. by destruct (swp_serve q b Hi Hj _ _ Eq) as (? & ? & _). Qed.

Lemma serve_all_law qs b :
  store_inv (sw_tables b) -> journaled (sw_log b) ->
  lawful (sw_tables b) (sw_tables (serve_all qs b)) /\ journaled (sw_log (serve_all qs b)).
Proof.
  revert b. induction qs as [|q qs IH]; intros b Hi Hj; [split; [by apply lawful_refl|done]|].
  simpl. destruct (serve q b) as [r b1] eqn:E. destruct (serve_law q b r b1 E Hi Hj) as [L1 J1].
  destruct (IH b1 (law_inv _ _ L1) J1) as [L2 J2]. split; [by eapply lawful_trans|done].
Qed.

Lemma empty_inv : store_inv empty_store.
Proof.
  split; [apply reachable_wf, reach_empty|]. intros i m. unfold run_view. simpl. by rewrite lookup_empty.
Qed.

Lemma journaled_nil : journaled [].
Proof. intros l1 c l2 E. by destruct l1. Qed.

(** A service that began on an empty store. *)
Definition fresh_service (b : sworld W) : Prop := sw_tables b = empty_store /\ sw_log b = [].

Lemma fresh_law qs b :
  fresh_service b -> lawful empty_store (sw_tables (serve_all qs b)) /\ journaled (sw_log (serve_all qs b)).
Proof.
  intros [Ht Hl]. rewrite <- Ht. apply serve_all_law; [rewrite Ht; apply empty_inv|].
  rewrite Hl. apply journaled_nil.
Qed.

(** The life of a stored run: from its creation by steps of the machine. *)
Lemma stored_history d i m :
  lawful empty_store d -> run_view d i = Some m -> exists m0 tr, m_initial m0 /\ msteps m0 tr m.
Proof.
  intros L Hm. pose proof (law_moves _ _ L i) as M. unfold run_moves in M. rewrite Hm in M.
  unfold run_view in M at 1. simpl in M. rewrite lookup_empty in M. simpl in M. apply M.
Qed.

(** ** What a stored snapshot looks like *)

Record stored_ok (d : run_store) (i : pystr) s : Prop := {
  sk_steps : 0 <= sn_steps_used s <= rc_max_steps (sn_config s);
  sk_calls : 0 <= sn_tool_calls_used s <= rc_max_tool_calls (sn_config s);
  sk_terminal : terminal (sn_status s) = true <-> sn_phase s = done_;
  sk_awaiting : sn_status s = awaiting_approval -> exists a dec, sn_approval s = Some a /\
    sb_decision (sn_body s) = Some dec /\ sd_action dec = TOOL_CALL /\
    decision_digest dec = Some (ap_action_digest a) /\ sb_pending_call_id (sn_body s) = None;
  sk_tool : sn_status s = running -> sn_phase s = tool -> exists dec,
    sb_decision (sn_body s) = Some dec /\ sd_action dec = TOOL_CALL /\
    (forall g, sb_approved_action_digest (sn_body s) = Some g -> decision_digest dec = Some g) /\
    (forall c, sb_pending_call_id (sn_body s) = Some c ->
     exists l, tool_ledger d !! c = Some l /\ lr_run_id l = i);
  sk_decision : sn_status s = running -> sn_phase s = decision ->
    sb_approved_action_digest (sn_body s) = None /\ sb_pending_call_id (sn_body s) = None
}.

Lemma stage_phase s :
  stage_of s <> Broken -> terminal (sn_status s) = true <-> sn_phase s = done_.
Proof.
  unfold stage_of. intros Hb. destruct (sn_status s) eqn:Hst; simpl;
    (split; [try done|]); destruct (sn_phase s) eqn:Hph; try done; by repeat case_match.
Qed.

Lemma stored_shape d i s :
  m_wf (view s (ledger_of d i)) -> stored_ok d i s.
Proof.
  intros [W1 W2 W3 W4 W5 W6 W7 _]. simpl in *. constructor; [done|done|by apply stage_phase|..].
  - intros Hst. unfold stage_of in *. rewrite Hst in *. destruct (sn_phase s); try done.
    destruct (sb_decision (sn_body s)) as [dec|]; [|done]. destruct (sn_approval s) as [a|]; [|done].
    destruct (sb_pending_call_id (sn_body s)); [done|].
    destruct (sb_decision_inflight (sn_body s)); [done|]. destruct (W7 _ _ eq_refl) as (E1 & E2 & _).
    rewrite strip_decision_digest in E1. by exists a, dec.
  - intros Hst Hph. unfold stage_of in *. rewrite Hst, Hph in *.
    destruct (sb_decision (sn_body s)) as [dec|]; [|done]. destruct (sb_decision_inflight (sn_body s)); [done|].
    exists dec. destruct (W5 _ _ _ eq_refl) as [E1 _]. split_and!; [done|done|..].
    + intros g Hg. rewrite Hg in W6. specialize (W6 _ _ _ eq_refl). by rewrite strip_decision_digest in W6.
    + intros c Hc. rewrite Hc in W4. destruct (W4 _ _ _ eq_refl) as [e He].
      rewrite ledger_lookup in He. destruct (tool_ledger d !! c) as [l|]; [|done]. exists l. split; [done|].
      simpl in He. by case_bool_decide.
  - intros Hst Hph. unfold stage_of in *. rewrite Hst, Hph in *.
    do 2 case_bool_decide; done.
Qed.

(** ** What an accepted answer to an approval request rests on *)

Lemma returns_catch {A} (m : sv A) h Q :
  returns m Q -> (forall e, returns (h e) Q) -> returns (mcatch m h) Q.
Proof.
  intros Hm Hh b a b' Eq. unfold mcatch in Eq. destruct (m b) as [[a1|e] b1] eqn:E.
  - injection Eq as <- <-. by eapply Hm.
  - by eapply Hh.
Qed.
Lemma returns_timed {A} code t (m : sv A) Q : returns m Q -> returns (timeout_as code (timed t m)) Q.
Proof.
  intros Hm. apply returns_catch; [|intros; apply returns_raise]. unfold timed.
  destruct (fle t fzero); [apply returns_raise|]. apply returns_catch; [done|].
  intros []; try apply returns_raise. apply returns_bind. intros. apply returns_raise.
Qed.

(** The tool as the registry defines it now, which the caller may use. *)
Definition usable_tool (ctx : RequestContext) (definition : ToolDefinition) : Prop :=
  has_tool_permission (rc_auth ctx) (td_permission definition) = true /\
  td_durable_replay_policy definition <> replay_unsupported.

Lemma definition_usable s ctx : returns (_definition s ctx) (usable_tool ctx).
Proof.
  unfold _definition. destruct (d ← _; _) as [[name arguments]|]; [|apply returns_raise].
  apply returns_bind. intros definition. destruct (negb _) eqn:Hp; [apply returns_raise|].
  apply negb_false_iff in Hp. case_bool_decide as Hr; [apply returns_raise|].
  apply returns_bind. intros _. by apply returns_ret.
Qed.

Definition current_answer (ctx : RequestContext) s (c : DurableResumeCommand) (t : float) : Prop :=
  exists a d definition,
    sn_approval s = Some a /\ rs_approval_id c = Some (ap_approval_id a) /\ is_Some (rs_approve c) /\
    fle (ap_expires_at a) t = false /\
    sb_decision (sn_body s) = Some d /\ decision_digest d = Some (ap_action_digest a) /\
    usable_tool ctx definition /\ _definition_digest definition = Some (ap_definition_digest a).

Lemma answer_spec ctx s c b b' :
  check_approval_answer ctx s c b = (Ok tt, b') -> current_answer ctx s c (port_clock (sw_inner b)).1.
Proof.
  unfold check_approval_answer. intros Eq. destruct (sn_approval s) as [a|] eqn:Ha; [|done].
  destruct (negb _ || _) eqn:Hid; [done|]. apply orb_false_iff in Hid as [Hid Happ].
  apply negb_false_iff, bool_decide_eq_true in Hid. apply bool_decide_eq_false in Happ.
  apply mthen_inv in Eq as [(e & _ & ?)|(t & b1 & E1 & Eq)]; [done|].
  unfold clock, outside in E1. destruct (port_clock (sw_inner b)) as [t0 i]. injection E1 as <- <-.
  destruct (fle (ap_expires_at a) t0) eqn:Hexp; [done|].
  destruct (sb_decision (sn_body s)) as [d|] eqn:Hd; [|done].
  destruct (decision_digest d) as [digest|] eqn:Hdig; [|done].
  destruct (negb _) eqn:Hdd; [done|]. apply negb_false_iff, bool_decide_eq_true in Hdd.
  apply mthen_inv in Eq as [(e & _ & ?)|(left & b2 & _ & Eq)]; [done|].
  apply mthen_inv in Eq as [(e & _ & ?)|(definition & b3 & E3 & Eq)]; [done|].
  apply (returns_timed _ _ _ _ (definition_usable s ctx)) in E3.
  destruct (_definition_digest definition) as [dd|] eqn:Ed; [|done]. case_bool_decide; [|done].
  exists a, d, definition. split_and!; try done; [|congruence..].
  by destruct (rs_approve c).
Qed.
End Guarantee.

(** * Theorems *)
Section Theorems.
Context `{PyRepr, UnicodeDB, UnicodeDigits, NetlocCheck} `{SnapshotSize}.
Context {W : Type} `{AgentPorts W} `{DurablePorts W} `{!LawfulOthers W}.
Context (svc : DurableAgentService) `{!ConfiguredRuntime svc}.
Implicit Types (b : sworld W).






End Theorems.

(** * Witnesses

    A worker over the registry of [Registry]: a constant clock, numbered
    identifiers, a heartbeat at every await, and other workers that purge another
    tenant's expired runs before each access to the store. *)
Module ServiceExamples.
Import RuntimeExamples.

Record durable_script : Type := {
  ds_agent : agent_script (gmap ToolRateLimitKey (list float));
  ds_ids : N;
  ds_fates : list fate
}.

Definition with_agent (s : durable_script) a : durable_script :=
  {| ds_agent := a; ds_ids := ds_ids s; ds_fates := ds_fates s |}.
Definition on_agent {A} (f : agent_script _ -> A * agent_script _) (s : durable_script)
  : A * durable_script :=
  let '(a, g) := f (ds_agent s) in (a, with_agent s g).

#[export] Instance script_ports : AgentPorts durable_script := {|
  port_now := on_agent script_now;
  port_default_now := on_agent script_now;
  port_step := fun _ _ => on_agent script_step;
  port_execute := fun c _ => on_agent (script_execute c);
  port_new_dispatch := on_agent script_dispatch;
  port_revoke := fun p s => with_agent s (port_revoke p (ds_agent s));
  port_validator := None;
  port_emit := fun _ s => (AwDone, s);
  port_audit := fun _ s => (AwDone, s)
|}.

Definition at_ : float := fofZ 100.

#[export] Instance script_durable : DurablePorts durable_script := {|
  port_clock := fun s => (at_, s);
  port_uuid := fun s => (u "id-" ++ str_of_Z (Z.of_N (ds_ids s)),
                         {| ds_agent := ds_agent s; ds_ids := N.succ (ds_ids s); ds_fates := ds_fates s |});
  port_others := fun s => ([OpPurge (u "globex") at_ 10 []], s);
  port_fate := fun s => match ds_fates s with
                        | [] => (FReturns, s)
                        | f :: l => (f, {| ds_agent := ds_agent s; ds_ids := ds_ids s; ds_fates := l |})
                        end;
  port_scan := fun s => ([], s);
  port_beats := fun s => (1%nat, s);
  port_timed_out := fun s => (false, s);
  port_interrupted := fun s => (false, s);
  port_wait := fun s => (WaitTimeout, s);
  port_patience := fun s => (3%nat, s);
  port_graph := fun s => (([], None), s);
  port_tool_names := fun _ => [rag_search];
  port_get_tool := fun n _ s => (if bool_decide (n = rag_search) then PReturns search_tool
                                 else PRaises (domain "TOOL_NOT_FOUND"), s);
  port_rehydrate := fun _ obs fps s => (PReturns (obs, fps), s);
  port_context_revalidator := None;
  port_new_grant := fun _ s => (7%N, s);
  port_receipt := fun _ _ => (true, true);
  port_transition_audit := None
|}.

#[export] Instance size : SnapshotSize := fun _ => Some 1000.

#[export] Instance script_lawful : LawfulOthers durable_script.
Proof. intros i d Hd. apply law_purge, Hd. Qed.

Definition svc0 : DurableAgentService :=
  {| sv_backend := native; sv_default_max_steps := 4; sv_default_max_tool_calls := 3;
     sv_default_timeout_seconds := fofZ 60; sv_repeated_action_threshold := 2;
     sv_retention_seconds := fofZ 3600; sv_lease_seconds := fofZ 30; sv_background_enabled := true;
     sv_runtime_factory := fun c id => {| rt_config := c; rt_agent_run_id := Some id;
                                          rt_has_audit := true; rt_has_sink := false |} |}.
#[export] Instance svc0_configured : ConfiguredRuntime svc0.
Proof. intros c id. reflexivity. Qed.

Definition b0 : sworld durable_script :=
  {| sw_tables := empty_store; sw_log := [];
     sw_inner := {| ds_agent := {| as_world := as_world script0; as_clock := replicate 200 (fofZ 1);
                                   as_steps := as_steps script0; as_envs := as_envs script0;
                                   as_next := as_next script0 |};
                    ds_ids := 0; ds_fates := [] |} |}.

Definition ask (tools : list pystr) (mode : ExecutionMode) : DurableStartCommand :=
  {| cmd_input := u "question"; cmd_max_steps := None; cmd_max_tool_calls := None;
     cmd_timeout_seconds := None; cmd_metadata := []; cmd_idempotency_key := None;
     cmd_approval_tools := tools; cmd_budget_mode := wall_clock; cmd_execution_mode := mode;
     cmd_approval_timeout_seconds := None |}.

Definition me : RequestContext :=
  {| rc_request_id := u "req"; rc_trace_id := u "trace"; rc_session_id := None; rc_auth_method := None;
     rc_auth := {| auth_user_id := u "alice"; auth_tenant_id := u "t1"; auth_roles := [u "analyst"];
                   auth_department := None;
                   auth_permissions := AGENT_RUN_PERMISSIONS ++ [u "document:read"];
                   auth_identity_provider := None; auth_version := None; auth_jti := None;
                   auth_session_id := None; auth_session_expires_at := None;
                   auth_token_expires_at := None |} |}.

Definition status_at (b : sworld durable_script) (i : pystr) : option DurableStatus :=
  dr_status <$> durable_runs (sw_tables b) !! i.
Definition dispatched (l : list durable_event) : list pystr :=
  omap (fun e => match e with EvDispatch c => Some (Registry.c_name c) | _ => None end) l.

(** Search, then answer: asked for approval first, approved on resuming. *)
Definition asked : list request := [ReqStart me (ask [rag_search] inline)].
Definition yes : DurableResumeCommand :=
  {| rs_expected_revision := 3; rs_approval_id := Some (u "id-2"); rs_approve := Some true |}.
Definition approved : list request := asked ++ [ReqResume me (u "id-0") yes].

Example asked_waits :
  status_at (serve_all svc0 asked b0) (u "id-0") = Some awaiting_approval /\
  dispatched (sw_log (serve_all svc0 asked b0)) = [].
Proof. split; vm_compute; reflexivity. Qed.
Example approved_completes :
  status_at (serve_all svc0 approved b0) (u "id-0") = Some completed /\
  dispatched (sw_log (serve_all svc0 approved b0)) = [rag_search].
Proof. split; vm_compute; reflexivity. Qed.

(** The caller disconnects while the run is being created: the run is cancelled, and
    nothing is dispatched. *)
Definition cut_off : sworld durable_script :=
  {| sw_tables := sw_tables b0; sw_log := sw_log b0;
     sw_inner := {| ds_agent := ds_agent (sw_inner b0); ds_ids := 0;
                    ds_fates := [FReturns; FCancelled true] |} |}.
Example cut_off_cancels :
  let x := serve svc0 (ReqStart me (ask [] inline)) cut_off in
  x.1 = Err ExCancelled /\ status_at x.2 (u "id-0") = Some cancelled /\ dispatched (sw_log x.2) = [].
Proof. vm_compute. split_and!; reflexivity. Qed.

Lemma dispatched_split l n ns :
  dispatched l = n :: ns -> exists l1 c l2, l = l1 ++ EvDispatch c :: l2.
Proof.
  induction l as [|[d o|c] l IH]; simpl; intros E; [done| |by exists [], c, l].
  destruct (IH E) as (l1 & c & l2 & ->). by exists (EvCommit d o :: l1), c, l2.
Qed.

Lemma status_row b i st : status_at b i = Some st -> exists row, durable_runs (sw_tables b) !! i = Some row /\ dr_status row = st.
Proof. unfold status_at. intros (row & ? & ?)%fmap_Some. by exists row. Qed.

Lemma b0_fresh : fresh_service b0.
Proof. done. Qed.
End ServiceExamples.
Import RuntimeExamples ServiceExamples.





(** A run that waits for a worker of the background queue. *)
Definition queued : sworld durable_script := serve_all svc0 [ReqStart me (ask [] background)] b0.


