(* ===== verification/Resilience.v ===== *)
(** The circuit breaker.

    Models [packages/common/circuit_breaker.py].  [call] awaits the wrapped
    function, so on one event loop its two halves, the admission and the report
    of the outcome, interleave with those of other calls: they are the events of
    a state machine whose clock readings are arguments. *)

From Stdlib Require Import ZArith.
From S2P Require Import Prelude Float64.
From stdpp Require Import base list numbers.

#[local] Open Scope Z_scope.
#[local] Arguments fsub : simpl never.
#[local] Arguments fle : simpl never.

Module Breaker.

Inductive CircuitState : Type := CLOSED | OPEN | HALF_OPEN.
#[export] Instance CircuitState_eq : EqDecision CircuitState.
Proof. solve_decision. Defined.

Record CircuitBreakerConfig : Type := {
  failure_threshold : Z;
  success_threshold : Z;
  timeout_seconds : float;
  half_open_max_calls : Z
}.

Definition valid_breaker_config (c : CircuitBreakerConfig) : bool :=
  (1 <=? failure_threshold c) && (1 <=? success_threshold c) && flt fzero (timeout_seconds c)
  && isfinite (timeout_seconds c) && (1 <=? half_open_max_calls c).

Record CircuitBreaker : Type := {
  cb_state : CircuitState;
  cb_failure_count : Z;
  cb_success_count : Z;
  cb_last_failure_time : float;
  cb_opened_at : float
}.

Definition fresh_breaker : CircuitBreaker :=
  {| cb_state := CLOSED; cb_failure_count := 0; cb_success_count := 0;
     cb_last_failure_time := fzero; cb_opened_at := fzero |}.

Section Machine.
Context (config : CircuitBreakerConfig).

(** The [OPEN] breaker has waited long enough at [now]. *)
Definition ready (b : CircuitBreaker) (now : float) : bool :=
  fle (timeout_seconds config) (fsub now (cb_opened_at b)).

Definition _transition_if_ready (b : CircuitBreaker) (now : float) : CircuitBreaker :=
  if bool_decide (cb_state b = OPEN) && ready b now
  then {| cb_state := HALF_OPEN; cb_failure_count := cb_failure_count b; cb_success_count := 0;
          cb_last_failure_time := cb_last_failure_time b; cb_opened_at := cb_opened_at b |}
  else b.

Definition _on_failure (b : CircuitBreaker) (now : float) : CircuitBreaker :=
  let n := cb_failure_count b + 1 in
  let reopened := {| cb_state := OPEN; cb_failure_count := n; cb_success_count := 0;
                     cb_last_failure_time := now; cb_opened_at := now |} in
  let counted := {| cb_state := cb_state b; cb_failure_count := n;
                    cb_success_count := cb_success_count b;
                    cb_last_failure_time := now; cb_opened_at := cb_opened_at b |} in
  if bool_decide (cb_state b = CLOSED) && (failure_threshold config <=? n) then reopened
  else if bool_decide (cb_state b = HALF_OPEN) && (1 <=? n) then reopened
  else counted.

Definition _on_success (b : CircuitBreaker) : CircuitBreaker :=
  if bool_decide (cb_state b = HALF_OPEN) then
    let s := cb_success_count b + 1 in
    if success_threshold config <=? s
    then {| cb_state := CLOSED; cb_failure_count := 0; cb_success_count := s;
            cb_last_failure_time := cb_last_failure_time b; cb_opened_at := cb_opened_at b |}
    else {| cb_state := HALF_OPEN; cb_failure_count := cb_failure_count b; cb_success_count := s;
            cb_last_failure_time := cb_last_failure_time b; cb_opened_at := cb_opened_at b |}
  else b.

(** The first half of [call]: the breaker after the admission check, and whether
    the function is called. *)
Definition admit_call (b : CircuitBreaker) (now : float) : CircuitBreaker * bool :=
  let b' := _transition_if_ready b now in (b', negb (bool_decide (cb_state b' = OPEN))).

(** [call] when nothing else runs meanwhile: [outcome] is what the awaited
    function does and [ended] the clock when it fails. *)
Inductive call_error (E : Type) : Type := CircuitOpenError (opened_at : float) | Raised (e : E).
Arguments CircuitOpenError {E} opened_at.
Arguments Raised {E} e.
Definition call {T E} (b : CircuitBreaker) (now ended : float) (outcome : result E T)
    : CircuitBreaker * result (call_error E) T :=
  let '(b', admitted) := admit_call b now in
  if admitted then
    match outcome with
    | Ok v => (_on_success b', Ok v)
    | Err e => (_on_failure b' ended, Err (Raised e))
    end
  else (b', Err (CircuitOpenError (cb_opened_at b'))).

Inductive event : Type := Begin (now : float) | Failed (now : float) | Succeeded.

Definition step (b : CircuitBreaker) (e : event) : CircuitBreaker :=
  match e with
  | Begin now => (admit_call b now).1
  | Failed now => _on_failure b now
  | Succeeded => _on_success b
  end.
Definition steps : CircuitBreaker -> list event -> CircuitBreaker := foldl step.

Definition is_failure (e : event) : bool := match e with Failed _ => true | _ => false end.
Definition failures (evs : list event) : Z := zsum (fun e => if is_failure e then 1 else 0) evs.

(** ** Invariant *)

Record breaker_ok (b : CircuitBreaker) : Prop := {
  bo_count : 0 <= cb_failure_count b;
  bo_closed : cb_state b = CLOSED -> cb_failure_count b < failure_threshold config;
  bo_half : cb_state b = HALF_OPEN -> 0 <= cb_success_count b < success_threshold config
}.

Lemma step_ok b e : valid_breaker_config config = true -> breaker_ok b -> breaker_ok (step b e).
Proof.
  intros Hv [H1 H2 H3]. unfold valid_breaker_config in Hv. bool_inv.
  destruct e as [now|now|]; simpl.
  - unfold _transition_if_ready. destruct (_ && _) eqn:E; [|done]. split; simpl; [done..|lia].
  - unfold _on_failure. destruct (bool_decide (cb_state b = CLOSED) && _) eqn:E1;
      [by split; simpl; [lia|..]|].
    destruct (bool_decide (cb_state b = HALF_OPEN) && _) eqn:E2; [by split; simpl; [lia|..]|].
    split; simpl; [lia| |auto]. intros Hc. rewrite Hc in E1. simpl in E1. bool_inv. lia.
  - unfold _on_success. case_bool_decide as Hh; [|done]. specialize (H3 Hh).
    destruct (_ <=? _) eqn:E; split; simpl; try done; bool_inv; lia.
Qed.

Lemma steps_ok b evs : valid_breaker_config config = true -> breaker_ok b -> breaker_ok (steps b evs).
Proof. intros Hv. revert b. induction evs; intros b Hb; simpl; auto using step_ok. Qed.

Lemma fresh_ok : valid_breaker_config config = true -> breaker_ok fresh_breaker.
Proof. unfold valid_breaker_config. intros. bool_inv. split; simpl; [lia|lia|done]. Qed.

(** A closed breaker under events that do not reach the threshold. *)
Lemma closed_step b e :
  cb_state b = CLOSED ->
  cb_failure_count b + (if is_failure e then 1 else 0) < failure_threshold config ->
  cb_state (step b e) = CLOSED
  /\ cb_failure_count (step b e) = cb_failure_count b + (if is_failure e then 1 else 0).
Proof.
  intros Hc Hn. destruct e as [now|now|]; simpl in *.
  - unfold _transition_if_ready. rewrite Hc. simpl. split; [done|lia].
  - unfold _on_failure. rewrite Hc. simpl. destruct (_ <=? _) eqn:E; [bool_inv; lia|]. done.
  - unfold _on_success. rewrite Hc. simpl. split; [done|lia].
Qed.

Lemma failures_cons e evs : failures (e :: evs) = (if is_failure e then 1 else 0) + failures evs.
Proof. done. Qed.
Lemma failures_nonneg evs : 0 <= failures evs.
Proof. apply zsum_nonneg. apply list.Forall_forall. intros e _. destruct (is_failure e); lia. Qed.

Lemma closed_steps b evs :
  cb_state b = CLOSED -> cb_failure_count b + failures evs < failure_threshold config ->
  cb_state (steps b evs) = CLOSED
  /\ cb_failure_count (steps b evs) = cb_failure_count b + failures evs.
Proof.
  revert b. induction evs as [|e evs IH]; intros b Hc Hn; [simpl; split; [done|unfold failures; simpl; lia]|].
  rewrite failures_cons in Hn |- *. pose proof (failures_nonneg evs).
  destruct (closed_step b e Hc) as [Hc' Hn']; [lia|].
  destruct (IH (step b e) Hc') as [? ?]; [lia|]. simpl. split; [done|]. lia.
Qed.

(** An open breaker under events before its timeout. *)
Definition early (opened : float) (e : event) : Prop :=
  match e with Begin now => fle (timeout_seconds config) (fsub now opened) = false | _ => True end.

Lemma open_step b e :
  cb_state b = OPEN -> early (cb_opened_at b) e ->
  cb_state (step b e) = OPEN /\ cb_opened_at (step b e) = cb_opened_at b.
Proof.
  intros Ho He. destruct e as [now|now|]; simpl in *.
  - unfold _transition_if_ready, ready. rewrite He, andb_false_r. done.
  - unfold _on_failure. rewrite Ho. done.
  - unfold _on_success. by rewrite Ho.
Qed.

Lemma open_steps b evs :
  cb_state b = OPEN -> Forall (early (cb_opened_at b)) evs ->
  cb_state (steps b evs) = OPEN /\ cb_opened_at (steps b evs) = cb_opened_at b.
Proof.
  revert b. induction evs as [|e evs IH]; intros b Ho He; [done|]. simpl.
  apply list.Forall_cons in He as [He Hes]. destruct (open_step b e Ho He) as [Ho' Ht].
  rewrite <- Ht. apply IH; [done|]. by rewrite Ht.
Qed.

(** From a fresh breaker, whatever calls start, fail and succeed in whatever
    interleaving, the breaker is closed and admits every call as long as fewer
    than [failure_threshold] failures were reported in all, and the failure that
    reaches the threshold opens it at that instant; successes in between do not
    reset the count. *)
Theorem breaker_trips evs now now' :
  valid_breaker_config config = true -> failures evs < failure_threshold config ->
  let b := steps fresh_breaker evs in
  admit_call b now' = (b, true)
  /\ (failures evs + 1 < failure_threshold config -> cb_state (step b (Failed now)) = CLOSED)
  /\ (failures evs + 1 = failure_threshold config ->
      cb_state (step b (Failed now)) = OPEN /\ cb_opened_at (step b (Failed now)) = now).
Proof.
  intros Hv Hf b. destruct (closed_steps fresh_breaker evs eq_refl) as [Hc Hn]; [done|].
  fold b in Hc, Hn. change (cb_failure_count fresh_breaker) with 0 in Hn. split_and!.
  - unfold admit_call, _transition_if_ready. rewrite Hc. simpl. by rewrite Hc.
  - intros H1. apply (closed_step b (Failed now) Hc). simpl. lia.
  - intros H1. simpl. unfold _on_failure. rewrite Hc. simpl.
    assert (E : (failure_threshold config <=? cb_failure_count b + 1) = true) by (apply Z.leb_le; lia).
    by rewrite E.
Qed.

(** In any state the breaker can reach: while open it rejects every call
    before its timeout, whatever late outcomes arrive, and keeps the instant it
    opened; the first call after the timeout is admitted half-open; there, one
    failure opens it again and [success_threshold] successes in a row close it
    with a cleared count. *)
Theorem breaker_recovers before b evs now :
  valid_breaker_config config = true -> b = steps fresh_breaker before ->
  (cb_state b = OPEN ->
     (Forall (early (cb_opened_at b)) evs -> early (cb_opened_at b) (Begin now) ->
        (admit_call (steps b evs) now).2 = false)
     /\ (ready b now = true ->
        let h := (admit_call b now).1 in
        (admit_call b now).2 = true /\ cb_state h = HALF_OPEN
        /\ (forall t, cb_state (step h (Failed t)) = OPEN /\ cb_opened_at (step h (Failed t)) = t)
        /\ (let c := steps h (replicate (Z.to_nat (success_threshold config)) Succeeded) in
            cb_state c = CLOSED /\ cb_failure_count c = 0)))
  /\ (cb_state b = HALF_OPEN -> forall t, cb_state (step b (Failed t)) = OPEN).
Proof.
  intros Hv ->. set (b := steps fresh_breaker before).
  pose proof (steps_ok _ before Hv (fresh_ok Hv)) as [Hn _ _]. fold b in Hn.
  assert (Hre : forall h t, cb_state h = HALF_OPEN -> 0 <= cb_failure_count h ->
            cb_state (step h (Failed t)) = OPEN /\ cb_opened_at (step h (Failed t)) = t).
  { intros h t Hh Hc. simpl. unfold _on_failure. rewrite Hh. simpl.
    assert (E : (1 <=? cb_failure_count h + 1) = true) by (apply Z.leb_le; lia). by rewrite E. }
  assert (Hcl : forall k h, cb_state h = HALF_OPEN -> 0 <= cb_success_count h < success_threshold config ->
            success_threshold config - cb_success_count h = Z.of_nat k ->
            cb_state (steps h (replicate k Succeeded)) = CLOSED
            /\ cb_failure_count (steps h (replicate k Succeeded)) = 0).
  { induction k as [|k IH]; intros h Hh Hs Hk; [lia|]. simpl. unfold _on_success. rewrite Hh. simpl.
    destruct (Z.leb_spec (success_threshold config) (cb_success_count h + 1)) as [Hle|Hgt].
    - assert (k = 0%nat) as -> by lia. done.
    - apply IH; simpl; lia || done. }
  split.
  - intros Ho. split.
    + intros He Hb. destruct (open_steps b evs Ho He) as [Ho' Ht].
      destruct (open_step (steps b evs) (Begin now) Ho') as [Hs _]; [by rewrite Ht|].
      simpl in *. by rewrite Hs.
    + intros Hr. unfold admit_call, _transition_if_ready. rewrite Ho, Hr. simpl.
      split; [done|]. split; [done|]. split.
      * intros t. by apply Hre.
      * unfold valid_breaker_config in Hv. bool_inv. apply Hcl; simpl; lia || done.
  - intros Hh t. by apply Hre.
Qed.
End Machine.

Module BreakerExamples.
Definition default_breaker_config : CircuitBreakerConfig :=
  {| failure_threshold := 5; success_threshold := 2; timeout_seconds := fofZ 30;
     half_open_max_calls := 1 |}.

(** Four failures with successes between them; the fifth opens. *)
Definition mixed : list event :=
  [Begin (fofZ 1); Failed (fofZ 2); Succeeded; Failed (fofZ 3); Succeeded; Succeeded;
   Failed (fofZ 4); Failed (fofZ 5); Succeeded].

Lemma breaker_trips_witness :
  cb_state (step default_breaker_config (steps default_breaker_config fresh_breaker mixed)
              (Failed (fofZ 6))) = OPEN.
Proof.
  refine (proj1 (proj2 (proj2 (breaker_trips default_breaker_config mixed (fofZ 6) (fofZ 7) _ _)) _));
    vm_compute; reflexivity.
Defined.

Definition opening : list event := mixed ++ [Failed (fofZ 6)].

Lemma breaker_recovers_witness :
  (admit_call default_breaker_config
     (steps default_breaker_config fresh_breaker opening) (fofZ 40)).2 = true.
Proof.
  destruct (breaker_recovers default_breaker_config opening
              (steps default_breaker_config fresh_breaker opening) [] (fofZ 40)) as [Ho _];
    [vm_compute; reflexivity|reflexivity|].
  refine (proj1 (proj2 (Ho _) _)); vm_compute; reflexivity.
Defined.
End BreakerExamples.
End Breaker.
