(* ===== verification/RagDto.v ===== *)
(** Data transfer objects and exceptions of the answering pipeline.

    Models [packages/common/errors.py], [packages/rag/exceptions.py],
    [packages/rag/citation_identity.py], [packages/rag/capture.py] and the
    command, response and prompt DTOs of [packages/rag/dto.py] (the packing DTOs
    are in [ContextPacker]).  A pydantic model is a record; its constructor is a
    [make_] function that normalises the fields or raises. *)

From Stdlib Require Import ZArith String.
From S2P Require Import Prelude Float64 PyVal Access Redact Json SourceMetadata ContextPacker.
From stdpp Require Import base list numbers sets.

(** * Exceptions *)

(** The subclasses of [DomainError] the code tells apart. *)
Inductive domain_class : Type :=
| CContextPacking | CPromptBuild | CGeneration | CCitationExtraction | CQuery | CRetrieval
| CSourceResolve | CStorage | COther.

#[export] Instance domain_class_eq_dec : EqDecision domain_class.
Proof. solve_decision. Defined.

Record DomainError : Type := {
  de_class : domain_class;
  de_code : pystr;
  de_message : pystr;
  de_details : pydict;
  de_status_code : Z
}.

(** What leaves a coroutine: a [DomainError], another [Exception] by its type, a
    cancellation, or the [GeneratorExit] a closed generator sees. *)
Inductive exc : Type :=
| EDomain (e : DomainError)
| EException (type : pystr)
| ECancelled
| EGeneratorExit.

Definition is_exception (e : exc) : bool :=
  match e with EDomain _ | EException _ => true | _ => false end.

Definition ValidationError : exc := EException (u "ValidationError").
Definition UnicodeEncodeError : exc := EException (u "UnicodeEncodeError").
Definition AssertionError : exc := EException (u "AssertionError").

(** A validator that refuses raises pydantic's [ValidationError]. *)
Definition validated {E A} (r : result E A) : result exc A :=
  match r with Ok a => Ok a | Err _ => Err ValidationError end.

Definition opt_check (b : bool) : result exc unit := raise_if (negb b) ValidationError.

Definition RAG_PROMPT_INVALID_REQUEST : pystr := u "RAG_PROMPT_INVALID_REQUEST".
Definition RAG_PROMPT_INPUT_TOO_LARGE : pystr := u "RAG_PROMPT_INPUT_TOO_LARGE".
Definition RAG_PROMPT_BUILD_FAILED : pystr := u "RAG_PROMPT_BUILD_FAILED".
Definition RAG_GENERATION_INVALID_REQUEST : pystr := u "RAG_GENERATION_INVALID_REQUEST".
Definition RAG_GENERATION_FAILED : pystr := u "RAG_GENERATION_FAILED".
Definition RAG_QUERY_FORBIDDEN : pystr := u "RAG_QUERY_FORBIDDEN".
Definition RAG_QUERY_FAILED : pystr := u "RAG_QUERY_FAILED".
Definition RAG_QUERY_CONTEXT_UNAVAILABLE : pystr := u "RAG_QUERY_CONTEXT_UNAVAILABLE".
Definition RAG_QUERY_CLIENT_DISCONNECTED : pystr := u "RAG_QUERY_CLIENT_DISCONNECTED".

Section Errors.
Context `{UnicodeDB}.

(** [DomainError.__init__] redacts the details. *)
Definition domain_error (class : domain_class) (code message : pystr) (details : pydict)
    (status_code : Z) : DomainError :=
  {| de_class := class; de_code := code; de_message := message;
     de_details := redact_mapping details; de_status_code := status_code |}.

Definition RagPromptBuildError := domain_error CPromptBuild.
Definition RagGenerationError := domain_error CGeneration.
Definition RagQueryError := domain_error CQuery.

(** What [ContextPacker.pack] raises, with the message of each code. *)
Definition pack_exc (e : pack_error) : exc :=
  match e with
  | RagContextPackingError code details status =>
      EDomain {| de_class := CContextPacking; de_code := code;
                 de_message :=
                   if bool_decide (code = RAG_CONTEXT_BUDGET_EXCEEDED)
                   then u "Context candidate exceeds token budget."
                   else u "Context candidate is not authorized for this request.";
                 de_details := details; de_status_code := status |}
  | PackValidation _ => ValidationError
  | PackValueError => EException (u "ValueError")
  end.
End Errors.

(** * Text validators *)

Definition text (s : pystr) : result exc pystr := validated (_required_text s).
Definition blank (s : pystr) : bool := match strip s with [] => true | _ => false end.

(** A mapping argument: a [FrozenDict] is kept by the validators, another
    mapping is copied (and redacted where the validator redacts). *)
Record mapping : Type := { frozen : bool; entries : pydict }.
Definition FrozenDict (d : pydict) : mapping := {| frozen := true; entries := d |}.
Definition plain (d : pydict) : mapping := {| frozen := false; entries := d |}.

(** * Citation identity *)

(** Document, version and chunk of a source. *)
Abbreviation source_identity := (pystr * pystr * pystr)%type.

Definition identity_json (i : source_identity) : pystr :=
  let '(document, version, chunk) := i in
  [91%N] ++ PyVal.join [44%N] (json_string_raw <$> [document; version; chunk]) ++ [93%N].

Definition citation_id (i : source_identity) : result exc pystr :=
  match utf8_encode (identity_json i) with
  | Some bytes => Ok (u "cite-" ++ take 16 (sha256_hex bytes))
  | None => Err UnicodeEncodeError
  end.

Definition source_key (s : PackedCitationSource) : source_identity :=
  (ps_document_id s, ps_version_id s, ps_chunk_id s).

(** * Citations *)

Record Citation : Type := {
  ci_document_id : pystr;
  ci_version_id : pystr;
  ci_chunk_id : pystr;
  ci_source_display_name : pystr;
  ci_source_ref : option pystr;
  ci_source_type : pystr;
  ci_page_start : option Z;
  ci_page_end : option Z;
  ci_title_path : list pystr;
  ci_retrieval_method : pystr;
  ci_score : float
}.

Definition citation_key (c : Citation) : source_identity :=
  (ci_document_id c, ci_version_id c, ci_chunk_id c).

(** The computed field [Citation.citation_id]. *)
Definition citation_id_of (c : Citation) : result exc pystr := citation_id (citation_key c).

Section Citations.
Context `{NetlocCheck}.

Definition make_citation (c : Citation) : result exc Citation :=
  doc ← text (ci_document_id c);
  ver ← text (ci_version_id c);
  chunk ← text (ci_chunk_id c);
  st ← text (ci_source_type c);
  title ← validated (_title_path (ci_title_path c));
  method ← text (ci_retrieval_method c);
  score ← validated (_normalized_score (ci_score c));
  _ ← validated (_validate_page_range (ci_page_start c) (ci_page_end c));
  mret {| ci_document_id := doc; ci_version_id := ver; ci_chunk_id := chunk;
          ci_source_display_name := safe_source_display_name (Some (ci_source_display_name c));
          ci_source_ref := optional_text (ci_source_ref c); ci_source_type := st;
          ci_page_start := ci_page_start c; ci_page_end := ci_page_end c;
          ci_title_path := title; ci_retrieval_method := method; ci_score := score |}.

(** [build_safe_source_metadata] on the fields of a packed source. *)
Definition source_metadata (s : PackedCitationSource) : result exc SafeSourceMetadata :=
  validated (build_safe_source_metadata (ps_source s) (ps_source_uri s) (Some (ps_source_type s))
    (ps_document_id s) (ps_version_id s) (ps_chunk_id s) (ps_page_start s) (ps_page_end s)
    (ps_title_path s) None).

Definition from_source (s : PackedCitationSource) : result exc Citation :=
  m ← source_metadata s;
  make_citation
    {| ci_document_id := sm_document_id m; ci_version_id := sm_version_id m;
       ci_chunk_id := sm_chunk_id m; ci_source_display_name := sm_source_display_name m;
       ci_source_ref := sm_source_ref m; ci_source_type := sm_source_type m;
       ci_page_start := sm_page_start m; ci_page_end := sm_page_end m;
       ci_title_path := sm_title_path m; ci_retrieval_method := ps_retrieval_method s;
       ci_score := ps_score s |}.
End Citations.

Record UnsupportedClaim : Type := {
  uc_reason : pystr;
  uc_summary : pystr;
  uc_severity : pystr
}.

Record CitationExtractionTrace : Type := {
  xt_request_id : pystr;
  xt_trace_id : pystr;
  xt_tenant_id : pystr;
  xt_user_id : pystr;
  xt_input_source_count : Z;
  xt_allowed_source_count : Z;
  xt_citation_count : Z;
  xt_unsupported_count : Z;
  xt_forged_reference_count : Z;
  xt_no_answer : bool;
  xt_safe_counts : list (pystr * Z)
}.

Record CitationExtractionResult : Type := {
  xr_answer : pystr;
  xr_citations : list Citation;
  xr_unsupported_claims : list UnsupportedClaim;
  xr_no_answer : bool;
  xr_trace : CitationExtractionTrace
}.

(** * Queries and responses *)

Definition MAX_QUERY_CHARS : nat := 4000.
Definition MAX_OUTPUT_TOKENS : Z := 4096.

Record QueryCommand : Type := {
  qc_query : pystr;
  qc_top_k : Z;
  qc_metadata_filter : pydict;
  qc_score_threshold : option float;
  qc_answer_style : option pystr;
  qc_max_output_tokens : option Z
}.

Definition _metadata_filter_object (v : metadata_input) : result validation_error pydict :=
  match v with
  | MdNone => Ok []
  | MdFrozen d | MdMapping d => normalize_metadata_filter d []
  | MdOther => Err MetadataFilterNotMapping
  end.

(** [QueryCommand(...)]: a NaN threshold fails both bounds. *)
Definition make_query_command (query : pystr) (top_k : Z) (metadata : metadata_input)
    (threshold : option float) (answer_style : option pystr) (max_output_tokens : option Z)
  : result exc QueryCommand :=
  q ← text query;
  _ ← raise_if (MAX_QUERY_CHARS <? length q)%nat ValidationError;
  _ ← opt_check ((1 <=? top_k) && (top_k <=? 100))%Z;
  md ← validated (_metadata_filter_object metadata);
  _ ← opt_check (match threshold with Some x => fle fzero x && fle x fone | None => true end);
  _ ← opt_check (match max_output_tokens with
                 | Some n => (0 <? n) && (n <=? MAX_OUTPUT_TOKENS) | None => true end)%Z;
  mret {| qc_query := q; qc_top_k := top_k; qc_metadata_filter := md;
          qc_score_threshold := threshold; qc_answer_style := optional_text answer_style;
          qc_max_output_tokens := max_output_tokens |}.

Record QueryResponse : Type := {
  qr_request_id : pystr;
  qr_trace_id : pystr;
  qr_tenant_id : pystr;
  qr_user_id : pystr;
  qr_answer : pystr;
  qr_citations : list Citation;
  qr_no_answer : bool;
  qr_unsupported_claims : list UnsupportedClaim;
  qr_metadata : mapping
}.

Definition make_query_response (request_id trace_id tenant_id user_id answer : pystr)
    (citations : list Citation) (no_answer : bool) (claims : list UnsupportedClaim)
    (metadata : pydict) : result exc QueryResponse :=
  r ← text request_id;
  t ← text trace_id;
  n ← text tenant_id;
  us ← text user_id;
  mret {| qr_request_id := r; qr_trace_id := t; qr_tenant_id := n; qr_user_id := us;
          qr_answer := answer; qr_citations := citations; qr_no_answer := no_answer;
          qr_unsupported_claims := claims; qr_metadata := FrozenDict metadata |}.

(** * Prompts *)

(** [SAFE_TEXT_PATTERN.fullmatch]: one line without control characters. *)
Definition safe_text_char (c : N) : bool := ((32 <=? c) && negb (c =? 127))%N.
Definition SAFE_TEXT_PATTERN (s : pystr) : bool :=
  match s with [] => false | _ => forallb safe_text_char s end.

Record PromptBuilderConfig : Type := {
  pb_max_query_chars : Z;
  pb_max_context_item_chars : Z;
  pb_max_context_items : Z;
  pb_include_source_metadata : bool;
  pb_language : pystr;
  pb_default_no_answer_text : pystr
}.

(** The text "cannot be confirmed from the given context". *)
Definition DEFAULT_NO_ANSWER_TEXT : pystr :=
  [26080; 27861; 20174; 32473; 23450; 19978; 19979; 25991; 30830; 35748; 12290]%N.

Definition default_prompt_config : PromptBuilderConfig :=
  {| pb_max_query_chars := 4000; pb_max_context_item_chars := 12000; pb_max_context_items := 20;
     pb_include_source_metadata := true; pb_language := u "zh-CN";
     pb_default_no_answer_text := DEFAULT_NO_ANSWER_TEXT |}.

Definition safe_line (s : pystr) : result exc pystr :=
  n ← text s; _ ← opt_check (SAFE_TEXT_PATTERN n); mret n.

Definition make_prompt_config (c : PromptBuilderConfig) : result exc PromptBuilderConfig :=
  _ ← opt_check (0 <? pb_max_query_chars c)%Z;
  _ ← opt_check (0 <? pb_max_context_item_chars c)%Z;
  _ ← opt_check (0 <? pb_max_context_items c)%Z;
  language ← safe_line (pb_language c);
  no_answer ← safe_line (pb_default_no_answer_text c);
  mret {| pb_max_query_chars := pb_max_query_chars c;
          pb_max_context_item_chars := pb_max_context_item_chars c;
          pb_max_context_items := pb_max_context_items c;
          pb_include_source_metadata := pb_include_source_metadata c; pb_language := language;
          pb_default_no_answer_text := no_answer |}.

Record PromptHistoryMessage : Type := {
  hm_role : pystr;
  hm_content : pystr;
  hm_token_count : Z;
  hm_sequence_no : Z
}.

Definition HISTORY_ROLES : list pystr := [u "user"; u "assistant"; u "system_summary"].

Definition make_history_message (m : PromptHistoryMessage) : result exc PromptHistoryMessage :=
  role ← text (hm_role m);
  _ ← opt_check (bool_decide (role ∈ HISTORY_ROLES));
  content ← text (hm_content m);
  _ ← opt_check (0 <=? hm_token_count m)%Z;
  _ ← opt_check (0 <? hm_sequence_no m)%Z;
  mret {| hm_role := role; hm_content := content; hm_token_count := hm_token_count m;
          hm_sequence_no := hm_sequence_no m |}.

Record PromptMemoryContext : Type := {
  mc_session_id : pystr;
  mc_messages : list PromptHistoryMessage;
  mc_message_count : Z;
  mc_used_count : Z;
  mc_dropped_count : Z;
  mc_token_count : Z
}.

Definition make_memory_context (m : PromptMemoryContext) : result exc PromptMemoryContext :=
  session ← text (mc_session_id m);
  _ ← opt_check ((0 <=? mc_message_count m) && (0 <=? mc_used_count m)
                 && (0 <=? mc_dropped_count m) && (0 <=? mc_token_count m))%Z;
  mret {| mc_session_id := session; mc_messages := mc_messages m;
          mc_message_count := mc_message_count m; mc_used_count := mc_used_count m;
          mc_dropped_count := mc_dropped_count m; mc_token_count := mc_token_count m |}.

Record PromptBuildRequest : Type := {
  pr_query : pystr;
  pr_packed_context : PackedContext;
  pr_request_id : pystr;
  pr_trace_id : pystr;
  pr_tenant_id : pystr;
  pr_user_id : pystr;
  pr_session_id : option pystr;
  pr_language : pystr;
  pr_answer_style : option pystr;
  pr_max_output_tokens : option Z;
  pr_memory_context : option PromptMemoryContext
}.

Definition make_prompt_request (r : PromptBuildRequest) : result exc PromptBuildRequest :=
  query ← text (pr_query r);
  request ← text (pr_request_id r);
  trace ← text (pr_trace_id r);
  tenant ← text (pr_tenant_id r);
  user ← text (pr_user_id r);
  language ← text (pr_language r);
  _ ← opt_check (match pr_max_output_tokens r with Some n => (0 <? n)%Z | None => true end);
  mret {| pr_query := query; pr_packed_context := pr_packed_context r; pr_request_id := request;
          pr_trace_id := trace; pr_tenant_id := tenant; pr_user_id := user;
          pr_session_id := optional_text (pr_session_id r); pr_language := language;
          pr_answer_style := optional_text (pr_answer_style r);
          pr_max_output_tokens := pr_max_output_tokens r;
          pr_memory_context := pr_memory_context r |}.

Inductive PromptRole : Type := RoleSystem | RoleUser.

#[export] Instance PromptRole_eq_dec : EqDecision PromptRole.
Proof. solve_decision. Defined.

Definition role_value (r : PromptRole) : pystr :=
  match r with RoleSystem => u "system" | RoleUser => u "user" end.

Record PromptMessage : Type := {
  pm_role : PromptRole;
  pm_name : pystr;
  pm_content : pystr
}.

Definition make_prompt_message (role : PromptRole) (name content : pystr)
  : result exc PromptMessage :=
  n ← text name;
  c ← text content;
  mret {| pm_role := role; pm_name := n; pm_content := c |}.

Record PromptBuildTrace : Type := {
  tr_request_id : pystr;
  tr_trace_id : pystr;
  tr_tenant_id : pystr;
  tr_user_id : pystr;
  tr_context_item_count : Z;
  tr_source_chunk_count : Z;
  tr_input_char_count : Z;
  tr_prompt_part_count : Z;
  tr_detected_risk_count : Z;
  tr_risk_types : list pystr;
  tr_injection_pattern_detected : bool;
  tr_error_code : option pystr;
  tr_safe_counts : list (pystr * Z)
}.

Record PromptBuildResult : Type := {
  br_messages : list PromptMessage;
  br_trace : PromptBuildTrace;
  br_citation_source_ids : list pystr;
  br_metadata : pydict
}.

(** * Captured queries *)

Record CapturedContext : Type := {
  cx_content : pystr;
  cx_document_id : pystr;
  cx_version_id : pystr;
  cx_chunk_ids : list pystr
}.

Record CapturedQuery : Type := {
  cq_response : QueryResponse;
  cq_contexts : list CapturedContext;
  cq_prompt_sha256 : option pystr
}.
