(* ===== verification/CitationExtractor.v ===== *)
(** Citation extraction.

    Models [packages/rag/citation_extractor.py]: the sources of a packed context,
    the references an answer contains, and the decision whether the answer may
    carry citations.  The reference pattern is matched the way [re] does, leftmost
    and with the preferences of a backtracking matcher. *)

From Stdlib Require Import ZArith String Sorting.Sorted Permutation.
From S2P Require Import Prelude Float64 PyVal Access Redact SourceMetadata ContextPacker RagDto.
From stdpp Require Import base list numbers sorting sets.

(** * [re.findall]

    [re_prefs r s i] lists the ends of the matches of [r] at position [i] of [s] in
    the order a backtracking matcher tries them: the left alternative first, as
    many repetitions as possible first. *)
Section Match.
Context `{UnicodeDB}.

Fixpoint star_prefs (f : nat -> list nat) (n i : nat) : list nat :=
  match n with
  | O => [i]
  | S n' => (filter (fun j => j <> i) (f i) ≫= star_prefs f n') ++ [i]
  end.

Fixpoint re_prefs (r : re) (s : pystr) (i : nat) : list nat :=
  match r with
  | RCat a b => re_prefs a s i ≫= re_prefs b s
  | RAlt a b => re_prefs a s i ++ re_prefs b s i
  | RStar a => star_prefs (re_prefs a s) (length s) i
  | r => re_ends r s i
  end.

(** The match at position [i] that [re] returns. *)
Definition re_match (r : re) (s : pystr) (i : nat) : option nat := head (re_prefs r s i).

(** [pattern.findall(s)] for a pattern without groups that matches no empty text. *)
Fixpoint findall_from (r : re) (s : pystr) (fuel i : nat) : list pystr :=
  match fuel with
  | O => []
  | S fuel' =>
      match re_match r s i with
      | Some e => take (e - i) (drop i s) :: findall_from r s fuel' (Nat.max e (S i))
      | None => findall_from r s fuel' (S i)
      end
  end.
Definition re_findall (r : re) (s : pystr) : list pystr := findall_from r s (length s) 0.
End Match.

Definition _REFERENCE_PATTERN : re :=
  RCat RBound (RCat
    (RAlt (RCat (RStrI (u "cite-"))
             (RPlus (RChr (fun c => is_alnum_i c || ROneOf (u "_-") c))))
          (RCat (RAnyOf [RStrI (u "doc"); RStrI (u "document"); RStrI (u "chunk");
                         RStrI (u "source")])
             (RCat (ROpt (RChr (ROneOf (u "-_"))))
                (RPlus (RChr (fun c => is_alnum_i c || ROneOf (u "._:-") c))))))
    RBound).

Definition _SAFE_REFERENCE_FIELD_NAMES : list pystr := u <$>
  ["document_id"; "version_id"; "chunk_id"; "source_display_name"; "source_type"; "page_start";
   "page_end"]%string.

(** [str.casefold] on the characters the reference pattern matches: the ASCII
    ones and the four letters outside ASCII that [re.I] equates with them. *)
Definition casefold_cp (c : N) : pystr := if (c =? 383)%N then [115%N] else lower_cp c.
Definition casefold (s : pystr) : pystr := s ≫= casefold_cp.

(** * No answer *)

Record CitationExtractionConfig : Type := {
  xc_default_no_answer_text : pystr;
  xc_max_citations : Z
}.
Definition default_extraction_config : CitationExtractionConfig :=
  {| xc_default_no_answer_text := DEFAULT_NO_ANSWER_TEXT; xc_max_citations := 20 |}.

(** White space and the full stops and exclamation marks of both scripts. *)
Definition answer_noise (c : N) : bool := is_space c || bool_decide (c ∈ [12290; 46; 33; 65281]%N).

Definition _normalize_answer (value : pystr) : pystr :=
  lower (filter (fun c => answer_noise c = false) (strip value)).

Definition NO_ANSWER_VARIANTS : list pystr :=
  [[26080; 27861; 26681; 25454; 19978; 19979; 25991; 30830; 35748; 12290]%N;
   [19978; 19979; 25991; 19981; 36275; 65292; 26080; 27861; 22238; 31572; 12290]%N;
   u "The provided context is insufficient to answer.";
   u "I cannot answer from the provided context."].

Definition _is_no_answer (answer default_no_answer_text : pystr) : bool :=
  let normalized := _normalize_answer answer in
  bool_decide (normalized = [])
  || bool_decide (normalized ∈ _normalize_answer <$> default_no_answer_text :: NO_ANSWER_VARIANTS).

(** * Sources *)

(** The sources of the items, the first of each identity. *)
Fixpoint first_by_identity (seen : list source_identity) (l : list PackedCitationSource)
  : list PackedCitationSource :=
  match l with
  | [] => []
  | s :: l' =>
      if bool_decide (source_key s ∈ seen) then first_by_identity seen l'
      else s :: first_by_identity (source_key s :: seen) l'
  end.

Definition all_sources (items : list PackedContextItem) : list PackedCitationSource :=
  items ≫= pi_citation_sources.

Definition _collect_sources (packed_context : PackedContext) : list PackedCitationSource :=
  first_by_identity [] (all_sources (pc_items packed_context)).

(** The sort key [(-score, document, version, chunk)]. *)
Definition source_lt (a b : PackedCitationSource) : bool :=
  lex (fun a b => feq (fopp (ps_score a)) (fopp (ps_score b)))
      (fun a b => flt (fopp (ps_score a)) (fopp (ps_score b)))
  (lex (fun a b => bool_decide (ps_document_id a = ps_document_id b))
       (fun a b => str_lt (ps_document_id a) (ps_document_id b))
  (lex (fun a b => bool_decide (ps_version_id a = ps_version_id b))
       (fun a b => str_lt (ps_version_id a) (ps_version_id b))
       (fun a b => str_lt (ps_chunk_id a) (ps_chunk_id b)))) a b.

Definition FORGED_CLAIM : UnsupportedClaim :=
  {| uc_reason := u "forged_or_unauthorized_reference";
     uc_summary := u "Generated answer included source references that were not in the authorized citation allowlist.";
     uc_severity := u "high" |}.
Definition MISSING_CLAIM : UnsupportedClaim :=
  {| uc_reason := u "missing_authorized_citation_source";
     uc_summary := u "Generated answer could not be bound to an authorized citation source.";
     uc_severity := u "low" |}.

Definition _unsupported_claims (answer : pystr) (citations : list Citation)
  : list UnsupportedClaim :=
  match citations with
  | _ :: _ => []
  | [] => if blank answer then [] else [MISSING_CLAIM]
  end.

Section Extract.
Context `{UnicodeDB, NetlocCheck}.

(** The identifiers and names an answer may mention. *)
Definition source_tokens (s : PackedCitationSource) : result exc (list pystr) :=
  m ← source_metadata s;
  mret (filter (fun t => t <> [])
          [ps_document_id s; ps_version_id s; ps_chunk_id s; sm_source_display_name m;
           ps_source_type s]).

Definition _forged_reference_count (answer : pystr) (allowed_sources : list PackedCitationSource)
    (allowed_source_ids : list pystr) : result exc Z :=
  tokens ← map_result source_tokens allowed_sources;
  let allowed_tokens := filter (fun t => t <> []) allowed_source_ids ++ mjoin tokens in
  let forged := filter (fun m => (casefold m ∉ _SAFE_REFERENCE_FIELD_NAMES)
                                 /\ m ∉ allowed_tokens)
                       (re_findall _REFERENCE_PATTERN answer) in
  mret (Z.of_nat (length forged)).

(** [CitationExtractor.extract]. *)
Definition extract (answer : pystr) (packed_context : PackedContext)
    (citation_source_ids : option (list pystr)) (config : option CitationExtractionConfig)
  : result exc CitationExtractionResult :=
  let extraction_config := default default_extraction_config config in
  let no_answer := _is_no_answer answer (xc_default_no_answer_text extraction_config) in
  let sources := _collect_sources packed_context in
  ids ← map_result (fun s => citation_id (source_key s)) sources;
  let allowed_ids := default ids citation_source_ids in
  let allowed_sources :=
    fst <$> filter (fun si => si.2 ∈ allowed_ids) (zip sources ids) in
  forged_reference_count ← _forged_reference_count answer allowed_sources allowed_ids;
  decision ←
    (if no_answer then Ok ([], [])
     else if (0 <? forged_reference_count)%Z then Ok ([], [FORGED_CLAIM])
     else
       citations ← map_result from_source
                     (py_take (xc_max_citations extraction_config)
                        (py_sort source_lt allowed_sources));
       mret (citations, _unsupported_claims answer citations));
  let '(citations, unsupported_claims) := decision in
  let trace := pc_packing_trace packed_context in
  let n {A} (l : list A) := Z.of_nat (length l) in
  mret {| xr_answer := if blank answer then xc_default_no_answer_text extraction_config
                       else answer;
          xr_citations := citations; xr_unsupported_claims := unsupported_claims;
          xr_no_answer := no_answer;
          xr_trace :=
            {| xt_request_id := pt_request_id trace; xt_trace_id := pt_trace_id trace;
               xt_tenant_id := pt_tenant_id trace; xt_user_id := pt_user_id trace;
               xt_input_source_count := n sources; xt_allowed_source_count := n allowed_sources;
               xt_citation_count := n citations; xt_unsupported_count := n unsupported_claims;
               xt_forged_reference_count := forged_reference_count;
               xt_no_answer := no_answer;
               xt_safe_counts :=
                 [(u "context_item_count", n (pc_items packed_context));
                  (u "input_source_count", n sources);
                  (u "allowed_source_count", n allowed_sources);
                  (u "citation_count", n citations);
                  (u "unsupported_count", n unsupported_claims);
                  (u "forged_reference_count", forged_reference_count)] |} |}.
End Extract.

(** * Properties of the extraction *)

Lemma first_by_identity_elem seen l s : s ∈ first_by_identity seen l -> s ∈ l /\ source_key s ∉ seen.
Proof.
  revert seen. induction l as [|x l IH]; intros seen; cbn [first_by_identity]; [set_solver|].
  case_bool_decide as Hx; [intros [? ?]%IH; split; [by right|done]|].
  intros [->|[Hl Hs]%IH]%elem_of_cons; [split; [by left|done]|].
  split; [by right|]. intros Hn. apply Hs. by right.
Qed.

Lemma first_by_identity_nodup seen l : NoDup (source_key <$> first_by_identity seen l).
Proof.
  revert seen. induction l as [|x l IH]; intros seen; cbn [first_by_identity]; [constructor|].
  case_bool_decide as Hx; [apply IH|]. rewrite fmap_cons. constructor; [|apply IH].
  intros (s & Hs & Hin)%list_elem_of_fmap. apply first_by_identity_elem in Hin as [_ Hn].
  apply Hn. rewrite Hs. by left.
Qed.

(** Every identity of the list is represented. *)
Lemma first_by_identity_complete seen l s :
  s ∈ l -> source_key s ∈ seen \/ source_key s ∈ source_key <$> first_by_identity seen l.
Proof.
  revert seen. induction l as [|x l IH]; intros seen; cbn [first_by_identity]; [set_solver|].
  intros [->|Hin]%elem_of_cons.
  - case_bool_decide; [by left|right]. rewrite fmap_cons. by left.
  - case_bool_decide as Hx; [by apply IH|].
    destruct (IH (source_key x :: seen) Hin) as [[Hs|Hs]%elem_of_cons|Hs].
    + right. rewrite fmap_cons, Hs. by left.
    + by left.
    + right. rewrite fmap_cons. by right.
Qed.

Lemma zip_filter_elem {A} (S : list pystr) (l : list A) (k : list pystr) x :
  x ∈ fst <$> filter (fun ab => ab.2 ∈ S) (zip l k) ->
  exists i b, l !! i = Some x /\ k !! i = Some b /\ b ∈ S.
Proof.
  intros ([a b] & -> & [HP Hin]%list_elem_of_filter)%list_elem_of_fmap. simpl in HP.
  apply list_elem_of_lookup in Hin as [i Hi]. exists i, b.
  apply lookup_zip_Some in Hi as [Ha Hb]. by split_and!.
Qed.

Lemma map_result_elem {E A B} (f : A -> result E B) l ys y :
  map_result f l = Ok ys -> y ∈ ys -> exists x, x ∈ l /\ f x = Ok y.
Proof.
  rewrite map_result_Forall2. intros Hf [i Hi]%list_elem_of_lookup.
  destruct (Forall2_lookup_r _ _ _ _ _ Hf Hi) as (x & Hx & Hxy). exists x. split; [|done].
  by eapply list_elem_of_lookup_2.
Qed.

Section ExtractProps.
Context `{UnicodeDB, NetlocCheck}.

(** [s] is a source of the context whose identifier the caller allowed. *)
Definition citable (pc : PackedContext) (allowed : option (list pystr)) (s : PackedCitationSource)
  : Prop :=
  s ∈ all_sources (pc_items pc) /\
  exists i, citation_id (source_key s) = Ok i /\ (forall l, allowed = Some l -> i ∈ l).

(** [m] names something the caller allowed: one of the identifiers, or a field of
    a citable source. *)
Definition authorized_reference (pc : PackedContext) (allowed : option (list pystr)) (m : pystr)
  : Prop :=
  casefold m ∈ _SAFE_REFERENCE_FIELD_NAMES \/
  (exists l, allowed = Some l /\ m ∈ l) \/
  (exists s, s ∈ all_sources (pc_items pc) /\ citation_id (source_key s) = Ok m) \/
  (exists s tokens, citable pc allowed s /\ source_tokens s = Ok tokens /\ m ∈ tokens).

Lemma forged_zero answer sources ids :
  _forged_reference_count answer sources ids = Ok 0%Z ->
  Forall (fun m => casefold m ∈ _SAFE_REFERENCE_FIELD_NAMES \/ m ∈ ids \/
            exists s tokens, s ∈ sources /\ source_tokens s = Ok tokens /\ m ∈ tokens)
         (re_findall _REFERENCE_PATTERN answer).
Proof.
  unfold _forged_reference_count. intros E. res_inv.
  rename a into tokens, Heqr into Htok. apply list.Forall_forall. intros m Hm.
  destruct (decide (casefold m ∈ _SAFE_REFERENCE_FIELD_NAMES)) as [?|Hc]; [by left|].
  destruct (decide (m ∈ filter (fun t => t <> []) ids ++ mjoin tokens)) as [Ha|Ha].
  - right. apply elem_of_app in Ha as [Ha|Ha].
    + left. by apply list_elem_of_filter in Ha as [_ ?].
    + right. apply list_elem_of_join in Ha as (t & Ht & Hin).
      destruct (map_result_elem _ _ _ t Htok Hin) as (s & Hs & Hst). by exists s, t.
  - exfalso. assert (m ∈ @nil pystr) as Hn; [|by apply elem_of_nil in Hn].
    match type of E with Z.of_nat (length ?l) = _ =>
      assert (l = []) as <- by (apply nil_length_inv; lia) end.
    apply list_elem_of_filter. done.
Qed.

(** What a successful extraction computed. *)
Lemma extract_inv answer pc ids config r :
  extract answer pc ids config = Ok r ->
  exists allowed_sources own_ids forged,
    let allowed := default own_ids ids in
    let cfg := default default_extraction_config config in
    (forall s, s ∈ allowed_sources -> s ∈ _collect_sources pc /\
       exists i, citation_id (source_key s) = Ok i /\ i ∈ allowed) /\
    (forall i, i ∈ own_ids -> exists s, s ∈ _collect_sources pc /\ citation_id (source_key s) = Ok i) /\
    NoDup (source_key <$> allowed_sources) /\
    _forged_reference_count answer allowed_sources allowed = Ok forged /\
    xr_no_answer r = _is_no_answer answer (xc_default_no_answer_text cfg) /\
    xt_forged_reference_count (xr_trace r) = forged /\
    xt_citation_count (xr_trace r) = Z.of_nat (length (xr_citations r)) /\
    xt_unsupported_count (xr_trace r) = Z.of_nat (length (xr_unsupported_claims r)) /\
    (if xr_no_answer r then xr_citations r = [] /\ xr_unsupported_claims r = []
     else if (0 <? forged)%Z
     then xr_citations r = [] /\ xr_unsupported_claims r = [FORGED_CLAIM]
     else map_result from_source
            (py_take (xc_max_citations cfg) (py_sort source_lt allowed_sources))
          = Ok (xr_citations r) /\
          xr_unsupported_claims r = _unsupported_claims answer (xr_citations r)).
Proof.
  unfold extract, mbind at 1, result_bind at 1.
  destruct (map_result _ (_collect_sources pc)) as [own|] eqn:Hown; [|done].
  unfold mbind at 1, result_bind at 1.
  set (allowed := default own ids). set (srcs := fst <$> _).
  destruct (_forged_reference_count answer srcs allowed) as [forged|] eqn:Hf; [|done].
  intros E. exists srcs, own, forged. cbn zeta. fold allowed.
  assert (NoDup (source_key <$> srcs)) as Hnd.
  { pose proof (first_by_identity_nodup [] (all_sources (pc_items pc))) as Hn.
    fold (_collect_sources pc) in Hn. unfold srcs. clearbody allowed. clear -Hn.
    revert own. induction (_collect_sources pc) as [|s l IH]; intros [|i own]; simpl; try constructor.
    rewrite fmap_cons in Hn. apply list.NoDup_cons in Hn as [Hs Hn]. rewrite filter_cons.
    destruct (decide _); [|by apply IH]. rewrite !fmap_cons. constructor; [|by apply IH].
    intros (x & Hx & (i' & b & Hi & _)%zip_filter_elem)%list_elem_of_fmap. apply Hs.
    cbn [fst] in Hx. rewrite Hx. apply list_elem_of_fmap. exists x. split; [done|].
    by eapply list_elem_of_lookup_2. }
  assert (forall s, s ∈ srcs -> s ∈ _collect_sources pc /\
            exists i, citation_id (source_key s) = Ok i /\ i ∈ allowed) as Hsrcs.
  { intros s (i & b & Hi & Hb & Hin)%zip_filter_elem. split; [by eapply list_elem_of_lookup_2|].
    apply map_result_Forall2 in Hown.
    pose proof (Forall2_lookup_lr _ _ _ _ _ _ Hown Hi Hb) as Hid. by exists b. }
  assert (forall i, i ∈ own -> exists s, s ∈ _collect_sources pc /\ citation_id (source_key s) = Ok i)
    as Hids by (intros i Hi; by apply (map_result_elem _ _ _ i Hown)).
  destruct (_is_no_answer _ _) eqn:Hno; [|destruct (0 <? forged)%Z eqn:Hz].
  - injection E as <-. by split_and!.
  - injection E as <-. by split_and!.
  - res_inv. by split_and!.
Qed.

Lemma collect_elem pc s : s ∈ _collect_sources pc -> s ∈ all_sources (pc_items pc).
Proof. by intros [? _]%first_by_identity_elem. Qed.

(** An answer carries citations only of the packed sources whose identifier
    was in the prompt's allow-list, at most [max_citations] and one per source
    identity, and only when it is not a refusal and every reference it mentions
    (a [cite-], document, chunk or source identifier) names a citable source; an
    answer that mentions any other reference keeps no citation and is reported
    as a high-severity unsupported claim. *)
Theorem extract_sound answer pc ids config r :
  extract answer pc ids config = Ok r ->
  let cfg := default default_extraction_config config in
  Forall (fun c => exists s, citable pc ids s /\ from_source s = Ok c) (xr_citations r) /\
  ((0 <= xc_max_citations cfg)%Z ->
   (Z.of_nat (length (xr_citations r)) <= xc_max_citations cfg)%Z) /\
  (xr_citations r <> [] ->
   xr_no_answer r = false /\ xr_unsupported_claims r = [] /\
   Forall (authorized_reference pc ids) (re_findall _REFERENCE_PATTERN answer)) /\
  (xr_no_answer r = true -> xr_citations r = [] /\ xr_unsupported_claims r = []) /\
  (xr_no_answer r = false -> (0 < xt_forged_reference_count (xr_trace r))%Z ->
   xr_citations r = [] /\ xr_unsupported_claims r = [FORGED_CLAIM]).
Proof.
  intros (srcs & own & forged & Hsrcs & Hown & _ & Hf & Hno & Hfc & _ & _ & Hd)%extract_inv.
  cbn zeta in *. set (cfg := default default_extraction_config config) in *.
  assert (forall s, s ∈ srcs -> citable pc ids s) as Hcit.
  { intros s (Hs & i & Hi & Hin)%Hsrcs. split; [by apply collect_elem|].
    exists i. split; [done|]. by intros l ->. }
  destruct (xr_no_answer r); [destruct Hd as [-> ->]; split_and!; try done; constructor|].
  destruct (0 <? forged)%Z eqn:Hz; [destruct Hd as [-> ->]; split_and!; try done; constructor|].
  destruct Hd as [Hc Hu]. apply Z.ltb_ge in Hz. split_and!; try done.
  - apply list.Forall_forall. intros c Hin.
    destruct (map_result_elem _ _ _ c Hc Hin) as (s & Hs & Hfs). exists s. split; [|done].
    by apply Hcit, (py_sort_elem_of source_lt), (py_take_elem _ _ _ Hs).
  - intros Hmax. apply map_result_Forall2, Forall2_length in Hc. rewrite <- Hc.
    by apply py_take_length.
  - intros Hne. split_and!; [done|rewrite Hu; by destruct (xr_citations r)|].
    assert (forged = 0%Z) as -> by (unfold _forged_reference_count in Hf; res_inv; lia).
    eapply Forall_impl; [by apply forged_zero|].
    intros m [Hm|[Hm|(s & tokens & Hs & Ht & Hm)]]; [by left| |].
    + right. destruct ids as [l|]; [left; by exists l|right; left].
      destruct (Hown m Hm) as (s & Hs & Hi). exists s. split; [by apply collect_elem|done].
    + right. right. right. exists s, tokens. split_and!; [by apply Hcit|done..].
  - intros _ Hpos. lia.
Qed.
End ExtractProps.

(** * A concrete context of two chunks *)
Module ExtractExamples.
Import Examples RedactExamples PackExamples SourceExamples.

Definition context1 : PackedContext := unpack packed1.
Definition run (answer : string) : result exc CitationExtractionResult :=
  extract (u answer) context1 None None.
Definition outcome (answer : string) : option (list pystr * list pystr) :=
  match run answer with
  | Ok r => Some (ci_chunk_id <$> xr_citations r, uc_severity <$> xr_unsupported_claims r)
  | Err _ => None
  end.

(** The identifier of a source is the one the Python code computes. *)
Example citation_id_value :
  citation_id (u "d1", u "v1", u "c1") = Ok (u "cite-57533258f6c745f8").
Proof. vm_compute. reflexivity. Qed.

Example answers_cited :
  outcome "It is 42 [cite-57533258f6c745f8]." = Some ([u "c1"; u "c2"], []) /\
  outcome "I cannot answer from the provided context!" = Some ([], []) /\
  outcome "See [cite-0000000000000000]." = Some ([], [u "high"]).
Proof. vm_compute. done. Qed.

(** The pattern reads the plain English words "document", "documents" and
    "sources" as references, so an answer that uses one of them loses its
    citations although it cites nothing else. *)
Example plain_word_is_a_reference :
  outcome "The document says 42 [cite-57533258f6c745f8]." = Some ([], [u "high"]) /\
  re_findall _REFERENCE_PATTERN (u "All sources and documents agree.")
  = [u "sources"; u "documents"].
Proof. vm_compute. done. Qed.
End ExtractExamples.

Lemma extract_sound_witness :
  exists r, ExtractExamples.run "It is 42 [cite-57533258f6c745f8]." = Ok r /\
    xr_citations r <> [] /\ xr_no_answer r = false /\ xr_unsupported_claims r = [].
Proof.
  destruct (ExtractExamples.run "It is 42 [cite-57533258f6c745f8].") as [r|] eqn:E;
    [|vm_compute in E; discriminate E].
  exists r. assert (xr_citations r <> []) as Hne.
  { intros Hn. apply (f_equal (fun x => match x with Ok r => length (xr_citations r) | _ => 0 end)) in E.
    rewrite Hn in E. vm_compute in E. discriminate E. }
  destruct (extract_sound _ _ _ _ _ E) as (_ & _ & Hc & _). destruct (Hc Hne) as (H1 & H2 & _).
  exact (conj eq_refl (conj Hne (conj H1 H2))).
Defined.
