(* ===== verification/Hydration.v ===== *)
(** Hydration of retrieved candidates.

    Models [packages/rag/hydration.py] and the stored records of
    [packages/data/dto.py] it reads ([ChunkRecord], and [DocumentRecord] and
    [DocumentVersionRecord], which [SourceResolver] shares): the text of a retrieved
    chunk is read back from the store and checked against the candidate and the
    caller before it may enter a prompt.  The repository is the parameter
    [get_chunk], an effect on any world. *)

From Stdlib Require Import ZArith String.
From S2P Require Import Prelude Effects Float64 PyVal Access Redact Rrf ContextPacker RagDto.
From stdpp Require Import base list numbers sets.

(** * Stored records *)

Definition _default_acl : pydict := [(u "visibility", VStr (u "tenant"))].

(** Times are microseconds since the epoch. *)
Record ChunkRecord : Type := {
  ch_tenant_id : pystr;
  ch_document_id : pystr;
  ch_version_id : pystr;
  ch_chunk_id : pystr;
  ch_created_by : pystr;
  ch_status : pystr;
  ch_source_type : pystr;
  ch_source_uri : option pystr;
  ch_title_path : list pystr;
  ch_content : pystr;
  ch_page_start : option Z;
  ch_page_end : option Z;
  ch_token_count : Z;
  ch_acl : pydict;
  ch_checksum : pystr;
  ch_section_ids : list pystr;
  ch_metadata : pydict;
  ch_deleted_at : option Z
}.

(** [ChunkRecord(...)]: an empty ACL becomes the default one. *)
Definition make_chunk_record (c : ChunkRecord) : result exc ChunkRecord :=
  tenant ← text (ch_tenant_id c);
  doc ← text (ch_document_id c);
  ver ← text (ch_version_id c);
  chunk ← text (ch_chunk_id c);
  by_ ← text (ch_created_by c);
  status ← text (ch_status c);
  st ← text (ch_source_type c);
  content ← text (ch_content c);
  checksum ← text (ch_checksum c);
  _ ← opt_check (0 <? ch_token_count c)%Z;
  title ← validated (_title_path (ch_title_path c));
  sections ← validated (_title_path (ch_section_ids c));
  _ ← validated (_validate_page_range (ch_page_start c) (ch_page_end c));
  mret {| ch_tenant_id := tenant; ch_document_id := doc; ch_version_id := ver;
          ch_chunk_id := chunk; ch_created_by := by_; ch_status := status; ch_source_type := st;
          ch_source_uri := optional_text (ch_source_uri c); ch_title_path := title;
          ch_content := content; ch_page_start := ch_page_start c; ch_page_end := ch_page_end c;
          ch_token_count := ch_token_count c;
          ch_acl := match ch_acl c with [] => _default_acl | a => a end;
          ch_checksum := checksum; ch_section_ids := sections; ch_metadata := ch_metadata c;
          ch_deleted_at := ch_deleted_at c |}.

Record DocumentRecord : Type := {
  dr_id : pystr;
  dr_tenant_id : pystr;
  dr_created_by : pystr;
  dr_status : pystr;
  dr_source_type : pystr;
  dr_source_uri : option pystr;
  dr_title : option pystr;
  dr_acl : pydict;
  dr_checksum : pystr;
  dr_metadata : pydict;
  dr_deleted_at : option Z
}.

Definition make_document_record (d : DocumentRecord) : result exc DocumentRecord :=
  i ← text (dr_id d);
  tenant ← text (dr_tenant_id d);
  by_ ← text (dr_created_by d);
  status ← text (dr_status d);
  st ← text (dr_source_type d);
  checksum ← text (dr_checksum d);
  mret {| dr_id := i; dr_tenant_id := tenant; dr_created_by := by_; dr_status := status;
          dr_source_type := st; dr_source_uri := dr_source_uri d; dr_title := dr_title d;
          dr_acl := dr_acl d; dr_checksum := checksum; dr_metadata := dr_metadata d;
          dr_deleted_at := dr_deleted_at d |}.

Record DocumentVersionRecord : Type := {
  vr_id : pystr;
  vr_document_id : pystr;
  vr_tenant_id : pystr;
  vr_created_by : pystr;
  vr_status : pystr;
  vr_source_type : pystr;
  vr_object_key : pystr;
  vr_filename : pystr;
  vr_byte_size : Z;
  vr_acl : pydict;
  vr_checksum : pystr;
  vr_deleted_at : option Z
}.

Definition make_version_record (v : DocumentVersionRecord) : result exc DocumentVersionRecord :=
  i ← text (vr_id v);
  doc ← text (vr_document_id v);
  tenant ← text (vr_tenant_id v);
  by_ ← text (vr_created_by v);
  status ← text (vr_status v);
  st ← text (vr_source_type v);
  key ← text (vr_object_key v);
  name ← text (vr_filename v);
  checksum ← text (vr_checksum v);
  _ ← opt_check (0 <=? vr_byte_size v)%Z;
  mret {| vr_id := i; vr_document_id := doc; vr_tenant_id := tenant; vr_created_by := by_;
          vr_status := status; vr_source_type := st; vr_object_key := key; vr_filename := name;
          vr_byte_size := vr_byte_size v; vr_acl := vr_acl v; vr_checksum := checksum;
          vr_deleted_at := vr_deleted_at v |}.

(** [a or b] on optional strings. *)
Definition str_or (a b : option pystr) : option pystr :=
  match a with Some (_ :: _) => a | _ => b end.

(** * Checking a chunk against its candidate *)

Definition both_differ (a b : option pystr) : bool :=
  match a, b with Some x, Some y => negb (bool_decide (x = y)) | _, _ => false end.

Section Check.
Context `{PyRepr}.

Definition _invalid_chunk_reason (candidate : RetrievalCandidate) (chunk : ChunkRecord)
    (auth : AuthContext) : result exc (option pystr) :=
  if negb (bool_decide (ch_tenant_id chunk = auth_tenant_id auth))
     || negb (bool_decide (rc_tenant_id candidate = auth_tenant_id auth))
  then Ok (Some (u "tenant_mismatch"))
  else if negb (bool_decide (ch_document_id chunk = rc_document_id candidate))
       || negb (bool_decide (ch_version_id chunk = rc_version_id candidate))
       || negb (bool_decide (ch_chunk_id chunk = rc_chunk_id candidate))
  then Ok (Some (u "identity_mismatch"))
  else if negb (bool_decide (ch_status chunk = u "active"))
       || negb (bool_decide (ch_deleted_at chunk = None))
  then Ok (Some (u "inactive_chunk"))
  else if negb (bool_decide (ch_source_type chunk = rc_source_type candidate))
  then Ok (Some (u "source_type_mismatch"))
  else if both_differ (rc_source_uri candidate) (ch_source_uri chunk)
  then Ok (Some (u "source_uri_mismatch"))
  else if negb (bool_decide (ch_title_path chunk = rc_title_path candidate))
  then Ok (Some (u "title_path_mismatch"))
  else if negb (bool_decide (ch_page_start chunk = rc_page_start candidate))
       || negb (bool_decide (ch_page_end chunk = rc_page_end candidate))
  then Ok (Some (u "page_mismatch"))
  else
    acl_filter ← validated (acl_filter_from_auth auth);
    if negb (acl_allows (ch_acl chunk) acl_filter) then Ok (Some (u "acl_denied"))
    else if negb (acl_allows (rc_acl candidate) acl_filter)
    then Ok (Some (u "candidate_acl_denied"))
    else Ok None.
End Check.

Definition _normalize_score (score : float) : float :=
  if negb (isfinite score) then fzero
  else if flt score fzero then fzero
  else if flt fone score then fone
  else score.

Definition HYDRATION_METADATA_KEYS : list pystr := u <$>
  ["chunk_index"; "sequence"; "parent_chunk_id"; "child_chunk_ids"; "neighbor_prev_chunk_id";
   "neighbor_next_chunk_id"; "retrieval_provenance"; "rerank_provenance"]%string.

Definition _safe_hydration_metadata (metadata : pydict) : pydict :=
  filter (fun kv => kv.1 ∈ HYDRATION_METADATA_KEYS) metadata.

Definition _context_candidate (candidate : RetrievalCandidate) (chunk : ChunkRecord)
  : result exc ContextCandidate :=
  validated (make_context_candidate
    {| cc_content := ch_content chunk; cc_token_count := ch_token_count chunk;
       cc_document_id := rc_document_id candidate; cc_version_id := rc_version_id candidate;
       cc_chunk_id := rc_chunk_id candidate; cc_tenant_id := rc_tenant_id candidate;
       cc_acl := ch_acl chunk; cc_source := rc_source candidate;
       cc_source_uri := str_or (ch_source_uri chunk) (rc_source_uri candidate);
       cc_source_type := ch_source_type chunk; cc_page_start := ch_page_start chunk;
       cc_page_end := ch_page_end chunk; cc_title_path := ch_title_path chunk;
       cc_score := _normalize_score (rc_score candidate);
       cc_retrieval_method := rc_retrieval_method candidate;
       cc_metadata := _safe_hydration_metadata (rc_metadata candidate) |}).

(** * [RetrievalCandidateHydrator.hydrate] *)

Section Hydrate.
Context `{PyRepr, UnicodeDB} {W : Type}.
(** [repository.get_chunk(tenant_id, document_id, version_id, chunk_id)]. *)
Context (get_chunk : pystr -> pystr -> pystr -> pystr -> eff exc W (option ChunkRecord)).
Open Scope eff_scope.

(** The reason is not reported to the caller. *)
Definition _hydration_error (auth : AuthContext) (request_id trace_id : pystr) : exc :=
  EDomain (RagQueryError RAG_QUERY_CONTEXT_UNAVAILABLE (u "Query context is unavailable.")
    [(u "request_id", VStr request_id); (u "trace_id", VStr trace_id);
     (u "tenant_id", VStr (auth_tenant_id auth)); (u "user_id", VStr (auth_user_id auth));
     (u "stage", VStr (u "hydration")); (u "error_code", VStr RAG_QUERY_CONTEXT_UNAVAILABLE);
     (u "safe_counts", VDict [(u "unavailable_context_count", VInt 1)])] 404).

Definition _validate_chunk (candidate : RetrievalCandidate) (chunk : ChunkRecord)
    (auth : AuthContext) (request_id trace_id : pystr) : result exc unit :=
  reason ← _invalid_chunk_reason candidate chunk auth;
  match reason with
  | None => Ok tt
  | Some _ => Err (_hydration_error auth request_id trace_id)
  end.

(** The body of the loop. *)
Definition hydrate_one (candidate : RetrievalCandidate) (auth : AuthContext)
    (request_id trace_id : pystr) : eff exc W ContextCandidate :=
  found <- get_chunk (auth_tenant_id auth) (rc_document_id candidate) (rc_version_id candidate)
             (rc_chunk_id candidate);;
  match found with
  | None => mraise (_hydration_error auth request_id trace_id)
  | Some chunk =>
      _ <- mlift (_validate_chunk candidate chunk auth request_id trace_id);;
      mlift (_context_candidate candidate chunk)
  end.

Fixpoint hydrate (candidates : list RetrievalCandidate) (auth : AuthContext)
    (request_id trace_id : pystr) : eff exc W (list ContextCandidate) :=
  match candidates with
  | [] => mreturn []
  | candidate :: rest =>
      h <- hydrate_one candidate auth request_id trace_id;;
      hs <- hydrate rest auth request_id trace_id;;
      mreturn (h :: hs)
  end.
End Hydrate.

(** * Properties *)

Section HydrateProps.
Context `{PyRepr, UnicodeDB} {W : Type}.
Context (get_chunk : pystr -> pystr -> pystr -> pystr -> eff exc W (option ChunkRecord)).

(** The chunk is the one the candidate names, live, and the caller may read it,
    by the stored ACL and by the one that was indexed. *)
Record chunk_verified (auth : AuthContext) (candidate : RetrievalCandidate) (chunk : ChunkRecord)
  : Prop := {
  cv_tenant : ch_tenant_id chunk = auth_tenant_id auth /\ rc_tenant_id candidate = auth_tenant_id auth;
  cv_identity : ch_document_id chunk = rc_document_id candidate /\
                ch_version_id chunk = rc_version_id candidate /\
                ch_chunk_id chunk = rc_chunk_id candidate;
  cv_live : ch_status chunk = u "active" /\ ch_deleted_at chunk = None;
  cv_place : ch_source_type chunk = rc_source_type candidate /\
             ch_title_path chunk = rc_title_path candidate /\
             ch_page_start chunk = rc_page_start candidate /\
             ch_page_end chunk = rc_page_end candidate;
  cv_acl : acl_allows_auth (ch_acl chunk) auth = Ok true /\
           acl_allows_auth (rc_acl candidate) auth = Ok true
}.

Lemma invalid_reason_none candidate chunk auth :
  _invalid_chunk_reason candidate chunk auth = Ok None -> chunk_verified auth candidate chunk.
Proof.
  unfold _invalid_chunk_reason. intros E.
  repeat match type of E with
  | (if ?c then _ else _) = _ => destruct c eqn:?; [discriminate E|]
  end.
  unfold validated, mbind, result_bind in E.
  destruct (acl_filter_from_auth auth) as [f|] eqn:Hf; [|done].
  destruct (acl_allows (ch_acl chunk) f) eqn:Ha; [|done].
  destruct (acl_allows (rc_acl candidate) f) eqn:Hc; [|done].
  unfold both_differ in *. bool_inv.
  repeat match goal with Hx : negb (bool_decide _) = false |- _ =>
    apply negb_false_iff, bool_decide_eq_true in Hx end.
  split; try done; unfold acl_allows_auth; rewrite Hf; cbn; unfold mret, result_ret;
    by rewrite ?Ha, ?Hc.
Qed.

(** The repository answered this request with that chunk. *)
Definition served (tenant document version chunk : pystr) (record : ChunkRecord) : Prop :=
  exists w w', get_chunk tenant document version chunk w = (Ok (Some record), w').

Definition hydrated_from (auth : AuthContext) (candidate : RetrievalCandidate)
    (h : ContextCandidate) : Prop :=
  exists chunk,
    served (auth_tenant_id auth) (rc_document_id candidate) (rc_version_id candidate)
      (rc_chunk_id candidate) chunk /\
    chunk_verified auth candidate chunk /\ _context_candidate candidate chunk = Ok h.

Lemma hydrate_one_inv candidate auth request_id trace_id w h w' :
  hydrate_one get_chunk candidate auth request_id trace_id w = (Ok h, w') ->
  hydrated_from auth candidate h.
Proof.
  unfold hydrate_one. intros [(e & _ & [=])|(o & w1 & Hg & E)]%mthen_inv.
  destruct o as [chunk|]; [|done].
  apply mthen_inv in E as [(e & _ & [=])|([] & w2 & Hv & E)].
  unfold mlift in Hv, E. injection Hv as Hv <-. injection E as E <-.
  unfold _validate_chunk, mbind, result_bind in Hv.
  destruct (_invalid_chunk_reason candidate chunk auth) as [[|]|] eqn:Hr; try done.
  exists chunk. split; [by exists w, w1|]. split; [by apply invalid_reason_none|done].
Qed.

Lemma hydrate_inv candidates auth request_id trace_id w hs w' :
  hydrate get_chunk candidates auth request_id trace_id w = (Ok hs, w') ->
  Forall2 (hydrated_from auth) candidates hs.
Proof.
  revert w hs. induction candidates as [|c cs IH]; intros w hs; cbn [hydrate].
  { intros [= <- <-]. constructor. }
  intros [(e & _ & [=])|(h & w1 & Hh & E)]%mthen_inv.
  apply mthen_inv in E as [(e & _ & [=])|(hs' & w2 & Hs & [= <- <-])].
  constructor; [by eapply hydrate_one_inv|by eapply IH].
Qed.

Lemma context_candidate_fields candidate chunk h :
  _context_candidate candidate chunk = Ok h ->
  cc_acl h = ch_acl chunk /\ cc_token_count h = ch_token_count chunk /\
  cc_content h = strip (ch_content chunk) /\ cc_tenant_id h = strip (rc_tenant_id candidate) /\
  cc_document_id h = strip (rc_document_id candidate) /\
  cc_version_id h = strip (rc_version_id candidate) /\
  cc_chunk_id h = strip (rc_chunk_id candidate).
Proof.
  unfold _context_candidate, validated. destruct (make_context_candidate _) as [x|] eqn:E; [|done].
  intros [= <-]. unfold make_context_candidate in E.
  assert (forall s n, _required_text s = Ok n -> n = strip s) as Hr
    by (intros s n; unfold _required_text; destruct (strip s); congruence).
  assert (forall z n, _positive_int z = Ok n -> n = z) as Hp
    by (intros z n; unfold _positive_int; destruct (z <=? 0)%Z; congruence).
  unfold mbind, result_bind, mret, result_ret in E.
  repeat match type of E with
  | match ?r with Ok _ => _ | Err _ => _ end = _ => destruct r eqn:?; [|discriminate E]
  end.
  injection E as <-. cbn.
  repeat match goal with Hx : _required_text _ = Ok _ |- _ => apply Hr in Hx; subst end.
  repeat match goal with Hx : _positive_int _ = Ok _ |- _ => apply Hp in Hx; subst end.
  by split_and!.
Qed.

(** Hydration fails closed: it succeeds only when every retrieved candidate, in
    order, names a chunk the repository returned for the caller's tenant, that is
    active and agrees with the candidate on identity, source type, title and pages,
    and that both the stored ACL and the indexed one let the caller read; the text
    and the ACL that go on to the packer are the stored ones. *)
Theorem hydrate_verified candidates auth request_id trace_id w hs w' :
  hydrate get_chunk candidates auth request_id trace_id w = (Ok hs, w') ->
  Forall2 (fun candidate h => exists chunk,
    served (auth_tenant_id auth) (rc_document_id candidate) (rc_version_id candidate)
      (rc_chunk_id candidate) chunk /\
    chunk_verified auth candidate chunk /\
    cc_content h = strip (ch_content chunk) /\ cc_acl h = ch_acl chunk) candidates hs.
Proof.
  intros Hh%hydrate_inv. eapply Forall2_impl; [exact Hh|].
  intros c h (chunk & Hs & Hv & Hc). exists chunk.
  apply context_candidate_fields in Hc as (Ha & _ & Ht & _). by split_and!.
Qed.
End HydrateProps.

(** * A concrete store *)
Module HydrateExamples.
Import Examples RedactExamples.

Definition record1 : ChunkRecord :=
  {| ch_tenant_id := u "t1"; ch_document_id := u "d1"; ch_version_id := u "v1";
     ch_chunk_id := u "c1"; ch_created_by := u "u0"; ch_status := u "active";
     ch_source_type := u "md"; ch_source_uri := None; ch_title_path := [u "T"];
     ch_content := u "The answer is 42."; ch_page_start := None; ch_page_end := None;
     ch_token_count := 5; ch_acl := _default_acl; ch_checksum := u "x"; ch_section_ids := [u "s"];
     ch_metadata := []; ch_deleted_at := None |}.

Definition candidate1 : RetrievalCandidate :=
  {| rc_document_id := u "d1"; rc_version_id := u "v1"; rc_chunk_id := u "c1"; rc_source := None;
     rc_source_type := u "md"; rc_source_uri := None; rc_page_start := None; rc_page_end := None;
     rc_title_path := [u "T"]; rc_score := fone; rc_retrieval_method := u "hybrid";
     rc_tenant_id := u "t1"; rc_acl := _default_acl; rc_metadata := []; rc_content := [] |}.

Definition store1 (tenant document version chunk : pystr) : eff exc unit (option ChunkRecord) :=
  fun w => (Ok (if bool_decide ((tenant, document, version, chunk)
                                = (ch_tenant_id record1, ch_document_id record1,
                                   ch_version_id record1, ch_chunk_id record1))
                then Some record1 else None), w).

Definition hydrated1 := hydrate store1 [candidate1] alice (u "r1") (u "tr1") tt.
End HydrateExamples.

Lemma hydrate_verified_witness :
  exists hs, HydrateExamples.hydrated1 = (Ok hs, tt) /\ length hs = 1.
Proof.
  destruct HydrateExamples.hydrated1 as [[hs|] []] eqn:E; [|vm_compute in E; discriminate E].
  exists hs. split; [reflexivity|].
  pose proof (hydrate_verified (H := Examples.repr0) (H0 := RedactExamples.ascii_only)
    HydrateExamples.store1 _ _ _ _ _ _ _ E) as Hv.
  apply Forall2_length in Hv. exact (eq_sym Hv).
Defined.
