(* ===== verification/Generation.v ===== *)
(** Generation.

    Models the DTOs of [packages/llm/dto.py] and [packages/rag/generation.py]: the
    request built from a prompt and the checks that what a model provider returns,
    whole or as a stream, belongs to that request.  The provider itself is a
    parameter of the services that use these definitions. *)

From Stdlib Require Import ZArith String.
From S2P Require Import Prelude Float64 PyVal Access Redact AgentDto RagDto ContextPacker PromptBuilder.
From stdpp Require Import base list numbers sets.

(** * DTOs *)

Record LLMMessage : Type := { lm_role : PromptRole; lm_name : option pystr; lm_content : pystr }.

Definition make_llm_message (role : PromptRole) (name : option pystr) (content : pystr)
  : result exc LLMMessage :=
  c ← text content;
  mret {| lm_role := role; lm_name := optional_text name; lm_content := c |}.

Definition endswith (suffix s : pystr) : bool := startswith (reverse suffix) (reverse s).

Definition nonneg_int (v : pyval) : bool := match v with VInt z => (0 <=? z)%Z | _ => false end.

Definition _is_safe_metadata_item (key : pystr) (value : pyval) : bool :=
  let normalized := lower key in
  if bool_decide (normalized = u "include_usage")
  then match value with VBool _ => true | _ => false end
  else if endswith (u "_count") normalized || endswith (u "_tokens") normalized
  then nonneg_int value
  else if bool_decide (normalized = u "latency_ms")
  then match value with VInt z => (0 <=? z)%Z | VFloat x => fle fzero x | _ => false end
  else false.

(** [_safe_metadata] on a mapping that is no [FrozenDict]. *)
Definition _safe_metadata (value : pydict) : pydict :=
  List.filter (fun kv => _is_safe_metadata_item kv.1 kv.2) value.

Record GenerateRequest : Type := {
  gr_messages : list LLMMessage;
  gr_provider : pystr;
  gr_model : pystr;
  gr_timeout_seconds : float;
  gr_retry_budget : Z;
  gr_request_id : pystr;
  gr_trace_id : pystr;
  gr_tenant_id : pystr;
  gr_user_id : pystr;
  gr_session_id : option pystr;
  gr_temperature : option float;
  gr_max_output_tokens : option Z;
  gr_metadata : pydict
}.

Definition make_generate_request (r : GenerateRequest) : result exc GenerateRequest :=
  _ ← opt_check (negb (bool_decide (length (gr_messages r) = 0)));
  provider ← text (gr_provider r);
  model ← text (gr_model r);
  request ← text (gr_request_id r);
  trace ← text (gr_trace_id r);
  tenant ← text (gr_tenant_id r);
  user ← text (gr_user_id r);
  _ ← opt_check (negb (fle (gr_timeout_seconds r) fzero));
  _ ← opt_check (0 <=? gr_retry_budget r)%Z;
  _ ← opt_check (match gr_temperature r with
                 | Some t => negb (flt t fzero || flt (fofZ 2) t) | None => true end);
  _ ← opt_check (match gr_max_output_tokens r with Some n => (0 <? n)%Z | None => true end);
  mret {| gr_messages := gr_messages r; gr_provider := provider; gr_model := model;
          gr_timeout_seconds := gr_timeout_seconds r; gr_retry_budget := gr_retry_budget r;
          gr_request_id := request; gr_trace_id := trace; gr_tenant_id := tenant;
          gr_user_id := user; gr_session_id := optional_text (gr_session_id r);
          gr_temperature := gr_temperature r; gr_max_output_tokens := gr_max_output_tokens r;
          gr_metadata := _safe_metadata (gr_metadata r) |}.

Record TokenUsage : Type := { us_input_tokens : Z; us_output_tokens : Z; us_total_tokens : Z }.

Definition make_token_usage (us : TokenUsage) : result exc TokenUsage :=
  _ ← opt_check ((0 <=? us_input_tokens us) && (0 <=? us_output_tokens us)
                 && (0 <=? us_total_tokens us))%Z;
  mret us.

Record GenerationMetadata : Type := {
  gm_request_id : pystr;
  gm_trace_id : pystr;
  gm_tenant_id : pystr;
  gm_user_id : pystr;
  gm_provider : pystr;
  gm_model : pystr;
  gm_version : option pystr;
  gm_usage : TokenUsage;
  gm_latency_ms : float;
  gm_finish_reason : pystr;
  gm_error_code : option pystr;
  gm_chunk_count : option Z;
  gm_token_count : option Z;
  gm_metadata : pydict
}.

Definition usage_dump (us : TokenUsage) : pyval :=
  VDict [(u "input_tokens", VInt (us_input_tokens us)); (u "output_tokens", VInt (us_output_tokens us));
         (u "total_tokens", VInt (us_total_tokens us))].

(** [metadata.model_dump()]. *)
Definition metadata_dump (m : GenerationMetadata) : pydict :=
  [(u "request_id", VStr (gm_request_id m)); (u "trace_id", VStr (gm_trace_id m));
   (u "tenant_id", VStr (gm_tenant_id m)); (u "user_id", VStr (gm_user_id m));
   (u "provider", VStr (gm_provider m)); (u "model", VStr (gm_model m));
   (u "version", opt_str (gm_version m)); (u "usage", usage_dump (gm_usage m));
   (u "latency_ms", VFloat (gm_latency_ms m)); (u "finish_reason", VStr (gm_finish_reason m));
   (u "error_code", opt_str (gm_error_code m)); (u "chunk_count", opt_num (gm_chunk_count m));
   (u "token_count", opt_num (gm_token_count m)); (u "metadata", VDict (gm_metadata m))].

Record GenerateResponse : Type := {
  go_text : pystr;
  go_provider : pystr;
  go_model : pystr;
  go_request_id : pystr;
  go_trace_id : pystr;
  go_tenant_id : pystr;
  go_user_id : pystr;
  go_metadata : GenerationMetadata
}.

Record GenerateChunkMetadata : Type := {
  gk_request_id : pystr;
  gk_trace_id : pystr;
  gk_tenant_id : pystr;
  gk_user_id : pystr;
  gk_provider : pystr;
  gk_model : pystr
}.

Record GenerateChunk : Type := {
  gc_delta : pystr;
  gc_index : Z;
  gc_is_final : bool;
  gc_response : option GenerateResponse;
  gc_metadata : option GenerateChunkMetadata
}.

(** The validators of [GenerateChunk]: the last chunk, and no other, has a response. *)
Definition make_generate_chunk (c : GenerateChunk) : result exc GenerateChunk :=
  _ ← opt_check (0 <=? gc_index c)%Z;
  _ ← opt_check (match gc_response c with Some _ => gc_is_final c | None => negb (gc_is_final c) end);
  mret c.

(** * [RagGenerationService] *)

Record GenerationConfig : Type := {
  gs_provider_name : pystr;
  gs_model : pystr;
  gs_timeout_seconds : float;
  gs_retry_budget : Z;
  gs_temperature : option float;
  gs_max_output_tokens : option Z
}.

Definition provider_summary (s : GenerationConfig) : pydict :=
  [(u "provider", VStr (gs_provider_name s)); (u "model", VStr (gs_model s)); (u "version", VNone);
   (u "usage", usage_dump {| us_input_tokens := 0; us_output_tokens := 0; us_total_tokens := 0 |});
   (u "latency_ms", VNone); (u "finish_reason", VNone); (u "error_code", VNone)].

Definition _max_output_tokens (metadata : pydict) (default_ : option Z) : option Z :=
  match dict_get (u "max_output_tokens") metadata with
  | Some (VInt z) => if (0 <? z)%Z then Some z else default_
  | _ => default_
  end.

(** Fields in the order of the code, with their values. *)
Abbreviation fields := (list (pystr * pystr)).

Definition _identity_mismatches (expected actual : fields) : list pystr :=
  fst <$> filter (fun kv => dict_get kv.1 actual <> Some kv.2) expected.

Definition caller_fields (request trace tenant user : pystr) : fields :=
  [(u "request_id", request); (u "trace_id", trace); (u "tenant_id", tenant); (u "user_id", user)].

Definition request_fields (r : GenerateRequest) : fields :=
  caller_fields (gr_request_id r) (gr_trace_id r) (gr_tenant_id r) (gr_user_id r)
  ++ [(u "provider", gr_provider r); (u "model", gr_model r)].
Definition response_fields (r : GenerateResponse) : fields :=
  caller_fields (go_request_id r) (go_trace_id r) (go_tenant_id r) (go_user_id r)
  ++ [(u "provider", go_provider r); (u "model", go_model r)].
Definition metadata_fields (m : GenerationMetadata) : fields :=
  caller_fields (gm_request_id m) (gm_trace_id m) (gm_tenant_id m) (gm_user_id m)
  ++ [(u "provider", gm_provider m); (u "model", gm_model m)].
Definition chunk_fields (m : GenerateChunkMetadata) : fields :=
  caller_fields (gk_request_id m) (gk_trace_id m) (gk_tenant_id m) (gk_user_id m)
  ++ [(u "provider", gk_provider m); (u "model", gk_model m)].

Section Generation.
Context `{UnicodeDB}.

Definition _raise_provider_identity_mismatch (mismatched : list pystr) : DomainError :=
  RagGenerationError RAG_GENERATION_FAILED
    (u "LLM provider response identity does not match generation request.")
    [(u "reason", VStr (u "provider_response_identity_mismatch"));
     (u "mismatched_fields", VList (VStr <$> mismatched))] 502.

Definition _validate_identity (prompt : PromptBuildResult) (context : RequestContext)
  : result exc unit :=
  let t := br_trace prompt in
  match _identity_mismatches
          (caller_fields (rc_request_id context) (rc_trace_id context)
             (auth_tenant_id (rc_auth context)) (auth_user_id (rc_auth context)))
          (caller_fields (tr_request_id t) (tr_trace_id t) (tr_tenant_id t) (tr_user_id t)) with
  | [] => Ok tt
  | mismatched =>
      Err (EDomain (RagGenerationError RAG_GENERATION_INVALID_REQUEST
        (u "RAG generation request is inconsistent with prompt trace.")
        [(u "reason", VStr (u "prompt_trace_context_mismatch"));
         (u "mismatched_fields", VList (VStr <$> mismatched))] 400))
  end.

Definition _request (s : GenerationConfig) (prompt : PromptBuildResult) (context : RequestContext)
  : result exc GenerateRequest :=
  _ ← _validate_identity prompt context;
  messages ← map_result (fun m => make_llm_message (pm_role m) (Some (pm_name m)) (pm_content m))
               (br_messages prompt);
  make_generate_request
    {| gr_messages := messages; gr_provider := gs_provider_name s; gr_model := gs_model s;
       gr_timeout_seconds := gs_timeout_seconds s; gr_retry_budget := gs_retry_budget s;
       gr_request_id := rc_request_id context; gr_trace_id := rc_trace_id context;
       gr_tenant_id := auth_tenant_id (rc_auth context);
       gr_user_id := auth_user_id (rc_auth context); gr_session_id := rc_session_id context;
       gr_temperature := gs_temperature s;
       gr_max_output_tokens := _max_output_tokens (br_metadata prompt) (gs_max_output_tokens s);
       gr_metadata :=
         [(u "citation_source_count", VInt (num (br_citation_source_ids prompt)));
          (u "prompt_part_count", VInt (tr_prompt_part_count (br_trace prompt)));
          (u "context_item_count", VInt (tr_context_item_count (br_trace prompt)));
          (u "source_chunk_count", VInt (tr_source_chunk_count (br_trace prompt)));
          (u "detected_risk_count", VInt (tr_detected_risk_count (br_trace prompt)))] |}.

Definition response_mismatches (response : GenerateResponse) (request : GenerateRequest)
  : list pystr :=
  _identity_mismatches (request_fields request) (response_fields response)
  ++ ((fun f => u "metadata." ++ f)
        <$> _identity_mismatches (request_fields request) (metadata_fields (go_metadata response))).

Definition _validate_response_identity (response : GenerateResponse) (request : GenerateRequest)
  : result exc unit :=
  match response_mismatches response request with
  | [] => Ok tt
  | mismatched => Err (EDomain (_raise_provider_identity_mismatch mismatched))
  end.

(** The mismatches of a chunk: those of its response are read back from the
    (redacted) details of the error that reported them. *)
Definition chunk_mismatches (chunk : GenerateChunk) (request : GenerateRequest) : list pystr :=
  (match gc_metadata chunk with
   | Some m => (fun f => u "chunk.metadata." ++ f)
                 <$> _identity_mismatches (request_fields request) (chunk_fields m)
   | None => []
   end)
  ++ (match gc_response chunk with
      | Some response =>
          match response_mismatches response request with
          | [] => []
          | mismatched =>
              match dict_get (u "mismatched_fields")
                      (de_details (_raise_provider_identity_mismatch mismatched)) with
              | Some (VList l) =>
                  (fun v => u "chunk.response." ++ match v with VStr s => s | _ => [] end) <$> l
              | _ => [u "chunk.response"]
              end
          end
      | None => []
      end).

Definition _validate_chunk_identity (chunk : GenerateChunk) (request : GenerateRequest)
  : result exc unit :=
  match chunk_mismatches chunk request with
  | [] => Ok tt
  | mismatched => Err (EDomain (_raise_provider_identity_mismatch mismatched))
  end.

(** One turn of the loop of [_validated_stream]: the chunk is passed on, with the
    new value of [seen_final]. *)
Definition _validated_stream (request : GenerateRequest) (seen_final : bool)
    (chunk : GenerateChunk) : result exc (GenerateChunk * bool) :=
  if seen_final
  then Err (EDomain (RagGenerationError RAG_GENERATION_FAILED
         (u "RAG generation stream emitted chunks after final response.")
         [(u "reason", VStr (u "provider_stream_chunk_after_final"));
          (u "request_id", VStr (gr_request_id request)); (u "trace_id", VStr (gr_trace_id request));
          (u "tenant_id", VStr (gr_tenant_id request)); (u "user_id", VStr (gr_user_id request))] 502))
  else
    _ ← _validate_chunk_identity chunk request;
    mret (chunk, gc_is_final chunk).

(** [generate]: the response of the provider, checked against the request. *)
Record RagGenerationResult : Type := { ge_text : pystr; ge_metadata : GenerationMetadata }.

Definition checked_response (request : GenerateRequest) (response : GenerateResponse)
  : result exc RagGenerationResult :=
  _ ← _validate_response_identity response request;
  mret {| ge_text := go_text response; ge_metadata := go_metadata response |}.
End Generation.

(** * Properties *)

Section GenerationProps.
Context `{UnicodeDB}.

Lemma dict_get_head {V} k (v : V) (d : list (pystr * V)) : dict_get k ((k, v) :: d) = Some v.
Proof. cbn. by rewrite decide_True. Qed.

Lemma mismatches_nil (e a : fields) :
  e.*1 = a.*1 -> NoDup a.*1 -> _identity_mismatches e a = [] -> e = a.
Proof.
  intros Hk Hnd Hm.
  assert (Forall (fun kv => dict_get kv.1 a = Some kv.2) e) as Hall.
  { apply list.Forall_forall. intros kv Hin. apply dec_stable. intros Hne.
    assert (kv.1 ∈ @nil pystr) as Hx; [|by apply elem_of_nil in Hx].
    rewrite <- Hm. apply list_elem_of_fmap. exists kv. split; [done|]. by apply list_elem_of_filter. }
  clear Hm. revert a Hk Hnd Hall. induction e as [|[k v] e IH]; intros [|[k' v'] a]; try done.
  cbn [fmap list_fmap fst]. intros [= -> Hk] Hnd Hall. apply list.NoDup_cons in Hnd as [Hn Hnd].
  apply list.Forall_cons in Hall as [Hh Hall]. cbn [fst snd] in Hh. rewrite dict_get_head in Hh.
  injection Hh as ->. f_equal. apply IH; try done.
  rewrite list.Forall_forall in Hall |- *. intros [k v0] Hin. specialize (Hall _ Hin).
  cbn [fst snd dict_get] in *. rewrite decide_False in Hall; [done|]. intros ->. apply Hn. rewrite <- Hk. apply list_elem_of_fmap.
  by exists (k', v0).
Qed.

(** What every chunk and response carries of the request it answers. *)
Definition identity_keys : list pystr :=
  u <$> ["request_id"; "trace_id"; "tenant_id"; "user_id"; "provider"; "model"]%string.

Lemma identity_keys_nodup : NoDup identity_keys.
Proof. by apply (bool_decide_unpack _). Qed.

Lemma response_checked request response g :
  checked_response request response = Ok g ->
  response_fields response = request_fields request /\
  metadata_fields (go_metadata response) = request_fields request /\
  g = {| ge_text := go_text response; ge_metadata := go_metadata response |}.
Proof.
  unfold checked_response, _validate_response_identity. intros E.
  destruct (response_mismatches response request) as [|] eqn:Hm; [|done].
  unfold response_mismatches in Hm. apply app_eq_nil in Hm as [Hr Hd]. apply fmap_nil_inv in Hd.
  apply mismatches_nil in Hr; [|done|apply identity_keys_nodup].
  apply mismatches_nil in Hd; [|done|apply identity_keys_nodup].
  injection E as <-. by split_and!.
Qed.

Lemma mismatch_details l :
  dict_get (u "mismatched_fields") (de_details (_raise_provider_identity_mismatch l))
  = Some (VList (redact_sensitive_data <$> (VStr <$> l))).
Proof.
  unfold _raise_provider_identity_mismatch, RagGenerationError, domain_error, redact_mapping.
  cbn [de_details]. rewrite redact_dict_eq. cbn [fmap list_fmap foldl]. unfold redact_entry.
  cbn [fst snd].
  assert (_is_sensitive_key (u "reason") = false) as -> by (vm_compute; reflexivity).
  assert (_is_sensitive_key (u "mismatched_fields") = false) as -> by (vm_compute; reflexivity).
  cbn [dict_set]. rewrite decide_False by (vm_compute; discriminate).
  cbn [dict_get]. rewrite decide_False by (vm_compute; discriminate). by rewrite decide_True.
Qed.

Lemma chunk_checked request seen chunk out :
  _validated_stream request seen chunk = Ok out ->
  seen = false /\ out = (chunk, gc_is_final chunk) /\
  (forall m, gc_metadata chunk = Some m -> chunk_fields m = request_fields request) /\
  (forall r, gc_response chunk = Some r ->
     checked_response request r = Ok {| ge_text := go_text r; ge_metadata := go_metadata r |}).
Proof.
  unfold _validated_stream. destruct seen; [done|]. unfold _validate_chunk_identity.
  destruct (chunk_mismatches chunk request) eqn:Hm; [|done]. intros E. injection E as <-.
  unfold chunk_mismatches in Hm. apply app_eq_nil in Hm as [H1 H2]. split_and!; try done.
  - intros m Hc. rewrite Hc in H1. apply fmap_nil_inv in H1.
    apply mismatches_nil in H1; [done|done|apply identity_keys_nodup].
  - intros r Hr. rewrite Hr in H2. unfold checked_response, _validate_response_identity.
    destruct (response_mismatches r request) as [|x l]; [done|].
    rewrite mismatch_details in H2. discriminate H2.
Qed.
End GenerationProps.
