(* ===== verification/RagStreaming.v ===== *)
(** Stream events.

    Models [packages/rag/streaming.py]: the events of a streamed answer, their
    constructors and the metadata a tool event may carry.  [format_sse_event] prints
    pydantic's JSON and is not modelled. *)

From Stdlib Require Import ZArith String.
From S2P Require Import Prelude Float64 PyVal Access Redact AgentDto RagDto.
From stdpp Require Import base list numbers sets.

Inductive StreamStatus : Type := StreamSuccess | StreamError.

(** One constructor per payload; an event's type is its payload's. *)
Inductive RagStreamEvent : Type :=
| TokenEvent (request_id trace_id : pystr) (index : Z) (delta : pystr)
| CitationEvent (request_id trace_id : pystr) (citation : Citation)
| ErrorEvent (request_id trace_id code message : pystr) (details : pydict) (terminal : bool)
| FinalEvent (request_id trace_id : pystr) (status : StreamStatus) (session_id : option pystr)
    (tenant_id user_id answer : pystr) (citations : list Citation) (no_answer : bool)
    (unsupported_claims : list UnsupportedClaim) (metadata : pydict)
| ToolCallEvent (request_id trace_id tool_call_id tool_name : pystr) (metadata : pydict)
| ToolResultEvent (request_id trace_id tool_call_id tool_name : pystr) (status : StreamStatus)
    (metadata : pydict).

Definition event_type (e : RagStreamEvent) : pystr :=
  match e with
  | TokenEvent _ _ _ _ => u "token" | CitationEvent _ _ _ => u "citation"
  | ErrorEvent _ _ _ _ _ _ => u "error" | FinalEvent _ _ _ _ _ _ _ _ _ _ _ => u "final"
  | ToolCallEvent _ _ _ _ _ => u "tool_call" | ToolResultEvent _ _ _ _ _ _ => u "tool_result"
  end.

Definition event_ids (e : RagStreamEvent) : pystr * pystr :=
  match e with
  | TokenEvent r t _ _ | CitationEvent r t _ | ErrorEvent r t _ _ _ _
  | FinalEvent r t _ _ _ _ _ _ _ _ _ | ToolCallEvent r t _ _ _ | ToolResultEvent r t _ _ _ _ =>
      (r, t)
  end.

Definition status_value (s : StreamStatus) : pystr :=
  match s with StreamSuccess => u "success" | StreamError => u "error" end.

(** * Metadata of tool events *)

Definition SAFE_TOOL_EVENT_METADATA_FIELDS : list pystr := u <$>
  ["agent_run_id"; "status"; "latency_ms"; "error_code"; "request_id"; "trace_id"; "next_step";
   "audit_ref"; "review_ref"]%string.

Definition _SAFE_ID_PATTERN : pystr -> bool := _SAFE_CITATION_IDENTIFIER_PATTERN.
Definition _STREAM_SECRET_MARKERS : list pystr := u <$>
  ["authorization:"; "bearer "; "api_key"; "password="; "secret="; "token="]%string.
Definition _SAFE_TOOL_EVENT_STATUSES : list pystr := u <$>
  ["started"; "success"; "error"; "denied"; "failure"]%string.

Definition _looks_sensitive (value : pystr) : bool :=
  let lowered := lower value in
  existsb (fun m => contains m lowered) _STREAM_SECRET_MARKERS
  || startswith (u "file:") lowered || startswith (u "minio:") lowered
  || match value with
     | a :: b :: c :: _ => is_alpha a && (b =? 58)%N && ((c =? 92) || (c =? 47))%N
     | _ => false
     end.

Definition keep_if (b : bool) (v : pyval) : option pyval := if b then Some v else None.

Definition _safe_tool_event_value (field : pystr) (value : pyval) : option pyval :=
  match value with
  | VNone => None
  | _ =>
      if bool_decide (field = u "latency_ms")
      then match value with
           | VFloat x => Some (VFloat (fmax x fzero))
           | VInt z => Some (VInt (Z.max z 0))
           | _ => None
           end
      else match value with
           | VStr s =>
               let normalized := strip s in
               if bool_decide (normalized = []) || (240 <? length normalized)%nat
                  || _looks_sensitive normalized
               then None
               else if bool_decide (field ∈ [u "agent_run_id"; u "request_id"; u "trace_id"; u "error_code"])
               then keep_if (_SAFE_ID_PATTERN normalized) (VStr normalized)
               else if bool_decide (field = u "status")
               then keep_if (bool_decide (normalized ∈ _SAFE_TOOL_EVENT_STATUSES)) (VStr normalized)
               else if bool_decide (field ∈ [u "audit_ref"; u "review_ref"])
               then keep_if (startswith (u "/governance?") normalized) (VStr normalized)
               else Some (VStr normalized)
           | _ => None
           end
  end.

Definition _safe_tool_event_metadata (value : pydict) (event_status : option pystr) : pydict :=
  let safe :=
    foldl (fun safe kv =>
             let field := strip kv.1 in
             if bool_decide (field ∈ SAFE_TOOL_EVENT_METADATA_FIELDS)
             then match _safe_tool_event_value field kv.2 with
                  | Some cleaned => dict_set field cleaned safe
                  | None => safe
                  end
             else safe) [] value in
  match event_status with Some s => dict_set (u "status") (VStr s) safe | None => safe end.

(** [{**metadata, k: v, ...}]. *)
Definition dict_update (d extra : pydict) : pydict := foldl (fun d kv => dict_set kv.1 kv.2 d) d extra.

(** * Constructors *)

Section Events.
Context `{UnicodeDB}.

Definition token_event (request_id trace_id : pystr) (index : Z) (delta : pystr)
  : result exc RagStreamEvent :=
  r ← text request_id;
  t ← text trace_id;
  _ ← opt_check (0 <=? index)%Z;
  mret (TokenEvent r t index delta).

Definition citation_event (request_id trace_id : pystr) (citation : Citation)
  : result exc RagStreamEvent :=
  r ← text request_id;
  t ← text trace_id;
  mret (CitationEvent r t citation).

Definition safe_error_event (request_id trace_id code message : pystr) (details : pydict)
    (terminal : bool) : result exc RagStreamEvent :=
  r ← text request_id;
  t ← text trace_id;
  c ← text code;
  m ← text message;
  mret (ErrorEvent r t c m (redact_mapping details) terminal).

Definition final_event (request_id trace_id tenant_id user_id answer : pystr)
    (citations : list Citation) (no_answer : bool) (claims : list UnsupportedClaim)
    (metadata : mapping) (status : StreamStatus) (session_id : option pystr)
  : result exc RagStreamEvent :=
  r ← text request_id;
  t ← text trace_id;
  n ← text tenant_id;
  us ← text user_id;
  mret (FinalEvent r t status (optional_text session_id) n us answer citations no_answer claims
          (if frozen metadata then entries metadata else redact_mapping (entries metadata))).

Definition tool_call_event (request_id trace_id tool_call_id tool_name : pystr) (metadata : pydict)
  : result exc RagStreamEvent :=
  r ← text request_id;
  t ← text trace_id;
  i ← text tool_call_id;
  n ← text tool_name;
  mret (ToolCallEvent r t i n
    (_safe_tool_event_metadata
       (dict_update metadata [(u "status", VStr (u "started")); (u "request_id", VStr request_id);
                              (u "trace_id", VStr trace_id)]) (Some (u "started")))).

Definition tool_result_event (request_id trace_id tool_call_id tool_name : pystr)
    (status : StreamStatus) (metadata : pydict) : result exc RagStreamEvent :=
  r ← text request_id;
  t ← text trace_id;
  i ← text tool_call_id;
  n ← text tool_name;
  mret (ToolResultEvent r t i n status
    (_safe_tool_event_metadata
       (dict_update metadata [(u "status", VStr (status_value status));
                              (u "request_id", VStr request_id); (u "trace_id", VStr trace_id)])
       None)).
End Events.

(** * Properties *)

(** What a tool event may carry: a number or a text without secret markers, of
    bounded length, under one of the nine fields. *)
Definition safe_entry (kv : pystr * pyval) : Prop :=
  kv.1 ∈ SAFE_TOOL_EVENT_METADATA_FIELDS /\
  match kv.2 with
  | VInt z => kv.1 = u "latency_ms" /\ (0 <= z)%Z
  | VFloat x => kv.1 = u "latency_ms" /\ flt x fzero = false
  | VStr s => _looks_sensitive s = false /\ (1 <= length s <= 240)%nat
  | _ => False
  end.

Lemma fmax_zero x : flt (fmax x fzero) fzero = false.
Proof. unfold fmax. by destruct (flt x fzero) eqn:E. Qed.

Lemma safe_value_ok field v w :
  field ∈ SAFE_TOOL_EVENT_METADATA_FIELDS -> _safe_tool_event_value field v = Some w ->
  safe_entry (field, w).
Proof.
  intros Hf. unfold _safe_tool_event_value, keep_if.
  assert (forall s, bool_decide (strip s = []) || (240 <? length (strip s)) || _looks_sensitive (strip s) = false ->
            safe_entry (field, VStr (strip s))) as Hstr.
  { intros s Hs. apply orb_false_iff in Hs as [Hs Hl]. apply orb_false_iff in Hs as [Hn Hlen].
    split; [done|]. cbn. split; [done|]. apply bool_decide_eq_false in Hn. apply Nat.ltb_ge in Hlen.
    destruct (strip s); [done|]. simpl in *. lia. }
  destruct v as [| |z|x|s| | | |]; try done; try (by case_bool_decide).
  - case_bool_decide; [|done]. intros [= <-]. split; [done|]. cbn. split; [done|lia].
  - case_bool_decide; [|done]. intros [= <-]. split; [done|]. cbn. split; [done|apply fmax_zero].
  - case_bool_decide; [done|].
    destruct (bool_decide (strip s = []) || (240 <? length (strip s)) || _looks_sensitive (strip s)) eqn:Hs;
      [done|].
    specialize (Hstr s Hs). clear Hs. repeat case_match; intros E; try done; by injection E as <-.
Qed.

Lemma tool_metadata_safe value st :
  (forall s, st = Some s -> s ∈ _SAFE_TOOL_EVENT_STATUSES) ->
  Forall safe_entry (_safe_tool_event_metadata value st).
Proof.
  intros Hst. unfold _safe_tool_event_metadata.
  set (f := fun (safe : pydict) (kv : pystr * pyval) => _).
  assert (forall acc, Forall safe_entry acc -> Forall safe_entry (foldl f acc value)) as Hfold.
  { induction value as [|kv value IH]; intros acc Hacc; [done|]. cbn [foldl]. apply IH.
    unfold f. case_bool_decide as Hf; [|done].
    destruct (_safe_tool_event_value (strip kv.1) kv.2) as [w|] eqn:Hw; [|done].
    apply dict_set_Forall; [by eapply safe_value_ok|done]. }
  specialize (Hfold [] (Forall_nil_2 _)). destruct st as [s|]; [|done].
  apply dict_set_Forall; [|done]. specialize (Hst s eq_refl).
  assert (Forall (fun s => safe_entry (u "status", VStr s)) _SAFE_TOOL_EVENT_STATUSES) as Hall.
  { repeat constructor; cbn; try done; try lia; apply (bool_decide_unpack _); by vm_compute. }
  rewrite list.Forall_forall in Hall. by apply Hall.
Qed.
