(* ===== verification/RagQuery.v ===== *)
(** The query service.

    Models [packages/rag/query.py]: [RagQueryApplicationService] with its plain,
    captured and streamed queries.  Retrieval, the chunk repository, the model
    provider, the audit ports and the clock are the parameters of the section: each
    is an effect on a state [S] of its own, may return anything its type allows, or
    raise.  The world of a query adds to that state a log of the calls made, the
    events a stream emitted and the local variables of the generator. *)

From Stdlib Require Import ZArith String.
From S2P Require Import Prelude Effects Float64 PyVal Access Redact Json SourceMetadata Rrf ContextPacker.
From S2P Require Import AgentDto RagDto CitationExtractor Hydration PromptBuilder Generation.
From S2P Require Import RagStreaming.
From S2P Require Registry.
From stdpp Require Import base list numbers sets.

Definition _elapsed_ms : float -> float := Registry._elapsed_ms.

(** * Retrieval *)

Definition opt_float (o : option float) : pyval := match o with Some x => VFloat x | None => VNone end.

Record _PreparedQueryContext : Type := {
  pq_retrieval : RetrievalResult;
  pq_packed_context : option PackedContext;
  pq_prompt : option PromptBuildResult;
  pq_context_item_count : Z;
  pq_citation_source_count : Z;
  pq_memory_context : option PromptMemoryContext
}.

(** * Metadata of responses and audit records *)

Record event_counts : Type := {
  ec_token : Z; ec_citation : Z; ec_error : Z; ec_final : Z
}.
Definition _empty_stream_event_counts : event_counts :=
  {| ec_token := 0; ec_citation := 0; ec_error := 0; ec_final := 0 |}.

Definition _stream_event_counts_summary (c : event_counts) : pyval :=
  let entry (k : string) (z : Z) := VDict [(u "event", VStr (u k)); (u "count", VInt z)] in
  VTuple [entry "token"%string (ec_token c); entry "citation"%string (ec_citation c);
          entry "error"%string (ec_error c); entry "final"%string (ec_final c)].

Definition get (k : string) (d : pydict) : pyval := default VNone (dict_get (u k) d).

Definition _safe_generation_metadata (metadata : option pydict) : pydict :=
  match metadata with
  | None => [(u "provider", VNone); (u "model", VNone); (u "version", VNone); (u "token_usage", VNone)]
  | Some m =>
      let usage := match get "usage" m with VDict d => d | _ => [] end in
      let tokens (k : string) := (u k, default (VInt 0) (dict_get (u k) usage)) in
      [(u "provider", get "provider" m); (u "model", get "model" m); (u "version", get "version" m);
       (u "token_usage", VDict [tokens "input_tokens"%string; tokens "output_tokens"%string;
                                tokens "total_tokens"%string]);
       (u "latency_ms", get "latency_ms" m); (u "finish_reason", get "finish_reason" m);
       (u "error_code", get "error_code" m)]
  end.

Definition _memory_metadata (m : option PromptMemoryContext) : pydict :=
  let c (f : PromptMemoryContext -> Z) := VInt (match m with Some x => f x | None => 0%Z end) in
  [(u "message_count", c mc_message_count); (u "used_count", c mc_used_count);
   (u "dropped_count", c mc_dropped_count); (u "token_count", c mc_token_count)].

(** The counts a response reports. *)
Record answer_counts : Type := {
  ac_context_item : Z;
  ac_citation_source : Z;
  ac_prompt_risk : Z;
  ac_citation : Z;
  ac_unsupported : Z;
  ac_forged_reference : Z
}.

Definition _response_metadata (command : QueryCommand) (retrieval : RetrievalResult)
    (n : answer_counts) (generation : option pydict) (latency_ms : float)
    (error_code : option pystr) (memory : option PromptMemoryContext) : pydict :=
  [(u "retrieval", VDict [(u "top_k", VInt (qc_top_k command));
                          (u "result_count", VInt (num (rt_candidates retrieval)));
                          (u "latency_ms", opt_float (rt_latency_ms retrieval))]);
   (u "context", VDict [(u "item_count", VInt (ac_context_item n));
                        (u "citation_source_count", VInt (ac_citation_source n))]);
   (u "prompt_risk", VDict [(u "detected_risk_count", VInt (ac_prompt_risk n))]);
   (u "memory", VDict (_memory_metadata memory));
   (u "generation", VDict (_safe_generation_metadata generation));
   (u "citation", VDict [(u "citation_count", VInt (ac_citation n));
                         (u "unsupported_count", VInt (ac_unsupported n));
                         (u "forged_reference_count", VInt (ac_forged_reference n))]);
   (u "latency_ms", VFloat latency_ms); (u "error_code", opt_str error_code)].

Definition stream_entry (c : event_counts) : pystr * pyval :=
  (u "stream", VDict [(u "event_counts", _stream_event_counts_summary c)]).

Definition _stream_response_metadata (command : QueryCommand) (retrieval : RetrievalResult)
    (n : answer_counts) (generation : option pydict) (latency_ms : float)
    (error_code : option pystr) (c : event_counts) (memory : option PromptMemoryContext) : pydict :=
  _response_metadata command retrieval n generation latency_ms error_code memory ++ [stream_entry c].

Definition _with_stream_metadata (response : QueryResponse) (c : event_counts) : QueryResponse :=
  {| qr_request_id := qr_request_id response; qr_trace_id := qr_trace_id response;
     qr_tenant_id := qr_tenant_id response; qr_user_id := qr_user_id response;
     qr_answer := qr_answer response; qr_citations := qr_citations response;
     qr_no_answer := qr_no_answer response; qr_unsupported_claims := qr_unsupported_claims response;
     qr_metadata := plain (dict_set (stream_entry c).1 (stream_entry c).2
                             (entries (qr_metadata response))) |}.

Definition _nested_metadata_value (metadata : pydict) (parent child : string) : pyval :=
  match dict_get (u parent) metadata with
  | Some (VDict d) => default VNone (dict_get (u child) d)
  | _ => VNone
  end.

Definition _metadata_latency (metadata : pydict) : float :=
  match dict_get (u "latency_ms") metadata with
  | Some (VInt z) => fofZ z
  | Some (VBool b) => fofZ (if b then 1 else 0)
  | Some (VFloat x) => x
  | _ => fzero
  end.

(** The fields of an audit record that are copied out of response metadata. *)
Definition audit_fields (metadata : pydict) : pydict :=
  let nested := _nested_metadata_value metadata in
  [(u "top_k", nested "retrieval" "top_k"); (u "result_count", nested "retrieval" "result_count");
   (u "context_item_count", nested "context" "item_count");
   (u "context_source_count", nested "context" "citation_source_count");
   (u "prompt_risk_count", nested "prompt_risk" "detected_risk_count");
   (u "memory_message_count", nested "memory" "message_count");
   (u "memory_used_count", nested "memory" "used_count");
   (u "memory_dropped_count", nested "memory" "dropped_count");
   (u "provider", nested "generation" "provider"); (u "model", nested "generation" "model");
   (u "version", nested "generation" "version");
   (u "token_usage", nested "generation" "token_usage")]%string.

(** The audit record of a request that got no answer. *)
Definition empty_audit_fields (command : QueryCommand) (error_code : pystr) : pydict :=
  [(u "top_k", VInt (qc_top_k command)); (u "result_count", VInt 0);
   (u "context_item_count", VInt 0); (u "context_source_count", VInt 0);
   (u "prompt_risk_count", VInt 0); (u "memory_message_count", VInt 0);
   (u "memory_used_count", VInt 0); (u "memory_dropped_count", VInt 0); (u "provider", VNone);
   (u "model", VNone); (u "version", VNone); (u "token_usage", VNone); (u "citation_count", VInt 0);
   (u "unsupported_count", VInt 0); (u "forged_reference_count", VInt 0); (u "tool_calls", VInt 0);
   (u "error_code", VStr error_code)].

(** * Errors *)

Definition setdefault (k : string) (v : pyval) (d : pydict) : pydict :=
  match dict_get (u k) d with Some _ => d | None => d ++ [(u k, v)] end.

Definition _error_details (error : DomainError) (stage : pystr) : pydict :=
  setdefault "error_code" (VStr (de_code error)) (setdefault "stage" (VStr stage) (de_details error)).

Definition _STREAM_ERROR_DETAIL_ALLOWLIST : list pystr := u <$>
  ["request_id"; "trace_id"; "stage"; "reason"; "drop_reason"; "error_code"; "safe_counts";
   "required_permissions"; "mismatched_fields"; "retryable"]%string.

Definition _safe_stream_error_details (error : DomainError) (stage : pystr) : pydict :=
  filter (fun kv => kv.1 ∈ _STREAM_ERROR_DETAIL_ALLOWLIST) (_error_details error stage).

Definition _stream_error_stage (error : DomainError) : pystr :=
  let code_starts (p : pystr) := startswith p (de_code error) in
  let isa (c : domain_class) := bool_decide (de_class error = c) in
  let explicit_stage :=
    match get "stage" (de_details error) with VStr s => strip s | _ => [] end in
  match explicit_stage with
  | _ :: _ => explicit_stage
  | [] =>
      if isa CPromptBuild || code_starts (u "RAG_PROMPT_") then u "prompt_build"
      else if isa CContextPacking || code_starts (u "RAG_CONTEXT_") then u "context_packing"
      else if isa CGeneration || code_starts (u "RAG_GENERATION_") || code_starts (u "LLM_")
      then u "generation_stream"
      else if isa CCitationExtraction || code_starts (u "RAG_CITATION_") then u "citation_extraction"
      else if code_starts (u "RETRIEVAL_") then u "retrieval"
      else if bool_decide (de_code error = RAG_QUERY_CONTEXT_UNAVAILABLE) then u "hydration"
      else if bool_decide (de_code error = RAG_QUERY_CLIENT_DISCONNECTED) then u "client_disconnect"
      else u "stream_query"
  end.

Section ErrorValues.
Context `{UnicodeDB}.

Definition caller_details (context : RequestContext) : pydict :=
  [(u "request_id", VStr (rc_request_id context)); (u "trace_id", VStr (rc_trace_id context));
   (u "tenant_id", VStr (auth_tenant_id (rc_auth context)));
   (u "user_id", VStr (auth_user_id (rc_auth context)))].

Definition staged_error (context : RequestContext) (code message : pystr) (stage : string)
    (status : Z) : DomainError :=
  RagQueryError code message
    (caller_details context ++ [(u "stage", VStr (u stage)); (u "error_code", VStr code)]) status.

Definition _query_forbidden_error (context : RequestContext) : DomainError :=
  RagQueryError RAG_QUERY_FORBIDDEN (u "RAG query permission is required.")
    (caller_details context
     ++ [(u "required_permissions", VList [VStr (u "document:read"); VStr (u "retrieval:query")]);
         (u "error_code", VStr RAG_QUERY_FORBIDDEN)]) 403.

Definition query_failed (context : RequestContext) : DomainError :=
  staged_error context RAG_QUERY_FAILED (u "RAG query failed.") "query" 500.
Definition stream_failed (context : RequestContext) : DomainError :=
  staged_error context RAG_QUERY_FAILED (u "RAG query stream failed.") "stream_query" 500.
Definition no_final_response (context : RequestContext) : DomainError :=
  staged_error context RAG_QUERY_FAILED
    (u "RAG stream did not receive a final provider response.") "generation_stream" 502.
Definition stream_cancelled (context : RequestContext) : DomainError :=
  staged_error context RAG_QUERY_CLIENT_DISCONNECTED
    (u "RAG query stream was cancelled by the client.") "client_disconnect" 499.
Definition stream_closed (context : RequestContext) : DomainError :=
  staged_error context RAG_QUERY_CLIENT_DISCONNECTED
    (u "RAG query stream was closed before a terminal event.") "client_disconnect" 499.

Definition _audit_event (context : RequestContext) (action : string) (status : AuditStatus)
    (latency_ms : float) (error_code : option pystr) (metadata : pydict) : result exc AuditEvent :=
  resource ← validated (make_audit_resource (u "rag_query") (rc_request_id context)
    [(u "request_id", VStr (rc_request_id context)); (u "trace_id", VStr (rc_trace_id context))]);
  validated (make_audit_event (rc_request_id context) (rc_trace_id context)
    (auth_tenant_id (rc_auth context)) (auth_user_id (rc_auth context)) (u action) resource status
    latency_ms error_code metadata).

Definition _empty_retrieval_result (context : RequestContext) (command : QueryCommand)
  : RetrievalResult :=
  {| rt_request_id := rc_request_id context; rt_trace_id := rc_trace_id context;
     rt_tenant_id := auth_tenant_id (rc_auth context); rt_user_id := auth_user_id (rc_auth context);
     rt_top_k := qc_top_k command; rt_query_summary := [(u "length", num (qc_query command))];
     rt_candidates := []; rt_latency_ms := Some fzero; rt_error_code := None |}.

(** What an interrupted stream reports: the counts known so far. *)
Definition interrupted_metadata (context : RequestContext) (command : QueryCommand)
    (latency_ms : float) (error : DomainError) (c : event_counts)
    (prepared : option _PreparedQueryContext) (generation : option pydict) : pydict :=
  let retrieval := match prepared with
                   | Some p => pq_retrieval p
                   | None => _empty_retrieval_result context command
                   end in
  let count (f : _PreparedQueryContext -> Z) := match prepared with Some p => f p | None => 0%Z end in
  _stream_response_metadata command retrieval
    {| ac_context_item := count pq_context_item_count;
       ac_citation_source := count pq_citation_source_count;
       ac_prompt_risk := match p ← prepared; pq_prompt p with
                         | Some b => tr_detected_risk_count (br_trace b) | None => 0%Z end;
       ac_citation := ec_citation c; ac_unsupported := 0; ac_forged_reference := 0 |}
    generation latency_ms (Some (de_code error)) c (p ← prepared; pq_memory_context p).

Definition _stream_failure_metadata (context : RequestContext) (command : QueryCommand)
    (latency_ms : float) (error : DomainError) (c : event_counts)
    (prepared : option _PreparedQueryContext) (generation : option pydict) : pydict :=
  audit_fields (interrupted_metadata context command latency_ms error c prepared generation)
  ++ [(u "event_counts", _stream_event_counts_summary c); (u "citation_count", VInt (ec_citation c));
      (u "unsupported_count", VInt 0); (u "forged_reference_count", VInt 0);
      (u "tool_calls", VInt 0); (u "error_code", VStr (de_code error));
      (u "error_details", VDict (_safe_stream_error_details error (_stream_error_stage error)))].
End ErrorValues.

(** * Citations of a packed context, in order *)

Section PackedCitations.
Context `{NetlocCheck}.
Definition _citations_from_packed_context (pc : PackedContext) : result exc (list Citation) :=
  map_result from_source (_collect_sources pc).
End PackedCitations.

(** * Captured queries *)

(** [json.dumps([message.model_dump(mode="json"), ...], sort_keys=True)]. *)
Definition message_json (m : PromptMessage) : pystr :=
  [123%N]
  ++ PyVal.join [44%N]
       ((fun kv : string * pystr => json_string_raw (u kv.1) ++ [58%N] ++ json_string_raw kv.2)
          <$> [("content"%string, pm_content m); ("name"%string, pm_name m);
               ("role"%string, role_value (pm_role m))])
  ++ [125%N].
Definition messages_json (l : list PromptMessage) : pystr :=
  [91%N] ++ PyVal.join [44%N] (message_json <$> l) ++ [93%N].

Definition _captured_query (response : QueryResponse) (prepared : _PreparedQueryContext)
  : result exc CapturedQuery :=
  sha ← match pq_prompt prepared with
        | None => Ok None
        | Some b =>
            match utf8_encode (messages_json (br_messages b)) with
            | Some bytes => Ok (Some (Json.sha256_hex bytes))
            | None => Err UnicodeEncodeError
            end
        end;
  mret {| cq_response := response;
          cq_contexts :=
            (fun i => {| cx_content := pi_content i; cx_document_id := pi_document_id i;
                         cx_version_id := pi_version_id i; cx_chunk_ids := pi_chunk_ids i |})
              <$> match pq_packed_context prepared with Some pc => pc_items pc | None => [] end;
          cq_prompt_sha256 := sha |}.

(** * The service *)

(** The calls a query makes on the ports, in order. *)
Inductive rag_call : Type :=
| CallRetrieve (request : RetrievalRequest)
| CallGetChunk (tenant document version chunk : pystr) (reply : option ChunkRecord)
| CallGenerate (request : GenerateRequest)
| CallStream (request : GenerateRequest)
| CallClose
| CallAudit (event : AuditEvent) (recorded : bool).

(** The local variables of the generator [stream_query]. *)
Record stream_locals : Type := {
  sl_counts : event_counts;
  sl_prepared : option _PreparedQueryContext;
  sl_generation_metadata : option pydict;
  sl_completed : bool
}.

Record world (S : Type) : Type := {
  w_state : S;
  w_log : list rag_call;
  w_events : list RagStreamEvent;
  w_locals : stream_locals
}.
Arguments w_state {S}.
Arguments w_log {S}.
Arguments w_events {S}.
Arguments w_locals {S}.

Definition fresh_locals : stream_locals :=
  {| sl_counts := _empty_stream_event_counts; sl_prepared := None;
     sl_generation_metadata := None; sl_completed := false |}.

Definition new_world {S} (s : S) : world S :=
  {| w_state := s; w_log := []; w_events := []; w_locals := fresh_locals |}.

(** The ports.  A provider's stream is the finite run of chunks and exceptions it
    will deliver if it is consumed to the end; [aclose] closes it. *)
Record ports (S : Type) : Type := {
  retrieve : RetrievalRequest -> AuthContext -> eff exc S RetrievalResult;
  get_chunk : pystr -> pystr -> pystr -> pystr -> eff exc S (option ChunkRecord);
  provider_generate : GenerateRequest -> eff exc S GenerateResponse;
  provider_stream : GenerateRequest -> S -> list (result exc GenerateChunk) * S;
  provider_aclose : eff exc S unit;
  audit_record : AuditEvent -> eff exc S unit;
  stream_audit_record : AuditEvent -> eff exc S unit;
  perf_counter : S -> float * S
}.
Arguments retrieve {S}.
Arguments get_chunk {S}.
Arguments provider_generate {S}.
Arguments provider_stream {S}.
Arguments provider_aclose {S}.
Arguments audit_record {S}.
Arguments stream_audit_record {S}.
Arguments perf_counter {S}.

Record RagQueryApplicationService : Type := {
  qs_context_packing_config : ContextPackingConfig;
  qs_prompt_builder_config : PromptBuilderConfig;
  qs_generation : GenerationConfig;
  qs_cot_enhancer : option CoTPromptEnhancer
}.

Section Service.
Context `{PyRepr, UnicodeDB, NetlocCheck, UnicodeDigits}.
Context {S : Type} (P : ports S) (svc : RagQueryApplicationService).
(** The consumer of a stream: having received these events, it closes the
    generator instead of asking for the next one. *)
Context (closes : list RagStreamEvent -> bool).
Open Scope eff_scope.

Abbreviation M := (eff exc (world S)).

Definition with_state (w : world S) (s : S) (calls : list rag_call) : world S :=
  {| w_state := s; w_log := w_log w ++ calls; w_events := w_events w; w_locals := w_locals w |}.

(** A call on a port, with its entry in the log. *)
Definition call {A} (m : eff exc S A) (entry : result exc A -> list rag_call) : M A := fun w =>
  let '(r, s) := m (w_state w) in (r, with_state w s (entry r)).

Definition now : M float := fun w =>
  let '(t, s) := perf_counter P (w_state w) in (Ok t, with_state w s []).

Definition elapsed (started : float) : M float :=
  t <- now;; mreturn (_elapsed_ms (fsub t started)).

Definition read_chunk (tenant document version chunk : pystr) : M (option ChunkRecord) :=
  call (get_chunk P tenant document version chunk)
    (fun r => [CallGetChunk tenant document version chunk
                 match r with Ok reply => reply | Err _ => None end]).

Definition record_with (port : AuditEvent -> eff exc S unit) (event : result exc AuditEvent)
  : M unit :=
  e <- mlift event;;
  call (port e) (fun r => [CallAudit e (is_ok r)]).

(** [with suppress(Exception)], and [except Exception] around a best-effort call. *)
Definition suppress (m : M unit) : M unit :=
  mcatch m (fun e => if is_exception e then mreturn tt else mraise e).

(** ** Audit records *)

Definition _record_audit (context : RequestContext) (response : QueryResponse)
    (status : AuditStatus) (error_code : option pystr) : M unit :=
  let md := entries (qr_metadata response) in
  record_with (audit_record P)
    (_audit_event context "rag.query" status (_metadata_latency md) error_code
       (audit_fields md
        ++ [(u "citation_count", VInt (num (qr_citations response)));
            (u "unsupported_count", VInt (num (qr_unsupported_claims response)));
            (u "forged_reference_count", _nested_metadata_value md "citation" "forged_reference_count");
            (u "tool_calls", VInt 0); (u "error_code", opt_str error_code)])).

Definition _record_stream_audit (context : RequestContext) (response : QueryResponse)
    (status : AuditStatus) (error_code : option pystr) (c : event_counts) : M unit :=
  let md := entries (qr_metadata response) in
  suppress (record_with (stream_audit_record P)
    (_audit_event context "rag.query.stream" status (_metadata_latency md) error_code
       (audit_fields md
        ++ [(u "event_counts", _stream_event_counts_summary c);
            (u "citation_count", VInt (num (qr_citations response)));
            (u "unsupported_count", VInt (num (qr_unsupported_claims response)));
            (u "forged_reference_count", _nested_metadata_value md "citation" "forged_reference_count");
            (u "tool_calls", VInt 0); (u "error_code", opt_str error_code)]))).

Definition _record_denied (port : AuditEvent -> eff exc S unit) (context : RequestContext)
    (command : QueryCommand) (latency_ms : float) (error : DomainError) : M unit :=
  suppress (record_with port
    (_audit_event context "rag.query" AuditDENIED latency_ms (Some (de_code error))
       (empty_audit_fields command (de_code error)))).

Definition _record_failure (context : RequestContext) (command : QueryCommand) (latency_ms : float)
    (error : DomainError) : M unit :=
  suppress (record_with (audit_record P)
    (_audit_event context "rag.query" AuditFAILURE latency_ms (Some (de_code error))
       (empty_audit_fields command (de_code error)
        ++ [(u "error_details", VDict (de_details error))]))).

Definition _record_stream_failure (context : RequestContext) (command : QueryCommand)
    (latency_ms : float) (error : DomainError) : M unit :=
  l <- reads w_locals;;
  suppress (record_with (stream_audit_record P)
    (_audit_event context "rag.query.stream" AuditFAILURE latency_ms (Some (de_code error))
       (_stream_failure_metadata context command latency_ms error (sl_counts l) (sl_prepared l)
          (sl_generation_metadata l)))).

(** ** Preparing the context *)

Definition retrieval_request (context : RequestContext) (command : QueryCommand)
  : result exc RetrievalRequest :=
  let c := command in
  match make_retrieval_request (qc_query c) (qc_top_k c) (MdMapping (qc_metadata_filter c))
          (qc_score_threshold c) (rc_request_id context) (rc_trace_id context) with
  | Ok r => Ok r
  | Err _ =>
      Err (EDomain (domain_error CRetrieval RETRIEVAL_INVALID_REQUEST
        (u "Retrieval request is invalid.")
        (_safe_validation_details (qc_top_k c)
           (request_error_count (qc_query c) (qc_top_k c) (MdMapping (qc_metadata_filter c))
              (qc_score_threshold c) (rc_request_id context) (rc_trace_id context))
           (rc_request_id context) (rc_trace_id context)) 400))
  end.

Definition build_prompt (context : RequestContext) (command : QueryCommand) (pc : PackedContext)
    (memory : option PromptMemoryContext) : result exc PromptBuildResult :=
  request ← make_prompt_request
    {| pr_query := qc_query command; pr_packed_context := pc;
       pr_request_id := rc_request_id context; pr_trace_id := rc_trace_id context;
       pr_tenant_id := auth_tenant_id (rc_auth context);
       pr_user_id := auth_user_id (rc_auth context); pr_session_id := rc_session_id context;
       pr_language := u "zh-CN"; pr_answer_style := qc_answer_style command;
       pr_max_output_tokens := qc_max_output_tokens command; pr_memory_context := memory |};
  prompt ← build request (Some (qs_prompt_builder_config svc));
  match qs_cot_enhancer svc with
  | None => Ok prompt
  | Some e =>
      messages ← enhance_system_messages e (br_messages prompt);
      mret {| br_messages := messages; br_trace := br_trace prompt;
              br_citation_source_ids := br_citation_source_ids prompt;
              br_metadata := br_metadata prompt |}
  end.

Definition pack_context (context : RequestContext) (candidates : list ContextCandidate)
  : result exc PackedContext :=
  match pack (Some <$> candidates) (rc_auth context) (Some (qs_context_packing_config svc)) None
          (rc_request_id context) (rc_trace_id context) with
  | Ok pc => Ok pc
  | Err e => Err (pack_exc e)
  end.

Definition _prepare_query_context (context : RequestContext) (command : QueryCommand)
    (memory : option PromptMemoryContext) : M _PreparedQueryContext :=
  request <- mlift (retrieval_request context command);;
  retrieval <- call (retrieve P request (rc_auth context)) (fun _ => [CallRetrieve request]);;
  let prepared pc prompt items sources :=
    {| pq_retrieval := retrieval; pq_packed_context := pc; pq_prompt := prompt;
       pq_context_item_count := items; pq_citation_source_count := sources;
       pq_memory_context := memory |} in
  match rt_candidates retrieval with
  | [] => mreturn (prepared None None 0%Z 0%Z)
  | _ =>
      candidates <- hydrate read_chunk (rt_candidates retrieval) (rc_auth context)
                      (rc_request_id context) (rc_trace_id context);;
      pc <- mlift (pack_context context candidates);;
      match pc_items pc with
      | [] => mreturn (prepared (Some pc) None 0%Z 0%Z)
      | items =>
          prompt <- mlift (build_prompt context command pc memory);;
          mreturn (prepared (Some pc) (Some prompt) (num items)
                     (zsum (fun i => num (pi_citation_sources i)) items))
      end
  end.


(** ** Plain queries *)

Definition no_counts : answer_counts :=
  {| ac_context_item := 0; ac_citation_source := 0; ac_prompt_risk := 0; ac_citation := 0;
     ac_unsupported := 0; ac_forged_reference := 0 |}.

Definition respond (context : RequestContext) (answer : pystr) (citations : list Citation)
    (no_answer : bool) (claims : list UnsupportedClaim) (metadata : pydict)
  : result exc QueryResponse :=
  make_query_response (rc_request_id context) (rc_trace_id context)
    (auth_tenant_id (rc_auth context)) (auth_user_id (rc_auth context)) answer citations no_answer
    claims metadata.

Definition _no_answer_response (context : RequestContext) (command : QueryCommand)
    (p : _PreparedQueryContext) (latency_ms : float) : result exc QueryResponse :=
  respond context (pb_default_no_answer_text (qs_prompt_builder_config svc)) [] true []
    (_response_metadata command (pq_retrieval p)
       {| ac_context_item := pq_context_item_count p;
          ac_citation_source := pq_citation_source_count p; ac_prompt_risk := 0; ac_citation := 0;
          ac_unsupported := 0; ac_forged_reference := 0 |}
       None latency_ms (Some RAG_QUERY_CONTEXT_UNAVAILABLE) (pq_memory_context p)).

(** The counts of an answered query. *)
Definition answered_counts (p : _PreparedQueryContext) (prompt : PromptBuildResult)
    (x : CitationExtractionResult) : answer_counts :=
  {| ac_context_item := pq_context_item_count p;
     ac_citation_source := xt_input_source_count (xr_trace x);
     ac_prompt_risk := tr_detected_risk_count (br_trace prompt);
     ac_citation := num (xr_citations x); ac_unsupported := num (xr_unsupported_claims x);
     ac_forged_reference := xt_forged_reference_count (xr_trace x) |}.

Definition extract_citations (answer : pystr) (pc : PackedContext) (prompt : PromptBuildResult)
  : result exc CitationExtractionResult :=
  extract answer pc (Some (br_citation_source_ids prompt)) None.

Definition respond_with (context : RequestContext) (x : CitationExtractionResult)
    (metadata : pydict) : result exc QueryResponse :=
  respond context (xr_answer x) (xr_citations x) (xr_no_answer x) (xr_unsupported_claims x) metadata.

(** [RagGenerationService.generate]. *)
Definition generate (prompt : PromptBuildResult) (context : RequestContext) : M RagGenerationResult :=
  request <- mlift (_request (qs_generation svc) prompt context);;
  response <- call (provider_generate P request) (fun _ => [CallGenerate request]);;
  mlift (checked_response request response).

(** The evaluation callback receives the captured query, if one is asked for. *)
Definition captured (capture : bool) (response : QueryResponse) (p : _PreparedQueryContext)
  : result exc (QueryResponse * option CapturedQuery) :=
  if capture then c ← _captured_query response p; mret (response, Some c) else Ok (response, None).

Definition query_body (context : RequestContext) (command : QueryCommand)
    (memory : option PromptMemoryContext) (capture : bool) (started : float)
  : M (QueryResponse * option CapturedQuery) :=
  p <- _prepare_query_context context command memory;;
  match pq_prompt p with
  | None =>
      latency <- elapsed started;;
      response <- mlift (_no_answer_response context command p latency);;
      _ <- _record_audit context response AuditSUCCESS None;;
      mlift (captured capture response p)
  | Some prompt =>
      pc <- mlift (match pq_packed_context p with Some pc => Ok pc | None => Err AssertionError end);;
      generation <- generate prompt context;;
      x <- mlift (extract_citations (ge_text generation) pc prompt);;
      latency <- elapsed started;;
      response <- mlift (respond_with context x
        (_response_metadata command (pq_retrieval p) (answered_counts p prompt x)
           (Some (metadata_dump (ge_metadata generation))) latency None (pq_memory_context p)));;
      _ <- _record_audit context response AuditSUCCESS None;;
      mlift (captured capture response p)
  end.

(** The [except] clauses of [query]. *)
Definition query_failure (context : RequestContext) (command : QueryCommand) (started : float)
    (e : exc) : M (QueryResponse * option CapturedQuery) :=
  match e with
  | EDomain error =>
      latency <- elapsed started;;
      _ <- _record_failure context command latency error;;
      mraise (EDomain error)
  | EException _ =>
      latency <- elapsed started;;
      _ <- _record_failure context command latency (query_failed context);;
      mraise (EDomain (query_failed context))
  | _ => mraise e
  end.

Definition query (context : RequestContext) (command : QueryCommand)
    (memory : option PromptMemoryContext) (capture : bool)
  : M (QueryResponse * option CapturedQuery) :=
  started <- now;;
  if negb (has_rag_query_permission (rc_auth context))
  then
    latency <- elapsed started;;
    _ <- _record_denied (audit_record P) context command latency (_query_forbidden_error context);;
    mraise (EDomain (_query_forbidden_error context))
  else
    mcatch (query_body context command memory capture started)
           (query_failure context command started).

(** [query_with_capture] returns [captures[0]]. *)
Definition query_with_capture (context : RequestContext) (command : QueryCommand)
    (memory : option PromptMemoryContext) : M CapturedQuery :=
  r <- query context command memory true;;
  match r.2 with Some c => mreturn c | None => mraise (EException (u "IndexError")) end.

(** ** Streamed queries *)

Definition set_locals (f : stream_locals -> stream_locals) : M unit :=
  modify (fun w => {| w_state := w_state w; w_log := w_log w; w_events := w_events w;
                      w_locals := f (w_locals w) |}).

Definition map_counts (f : event_counts -> event_counts) (l : stream_locals) : stream_locals :=
  {| sl_counts := f (sl_counts l); sl_prepared := sl_prepared l;
     sl_generation_metadata := sl_generation_metadata l; sl_completed := sl_completed l |}.
Definition set_prepared (p : _PreparedQueryContext) (l : stream_locals) : stream_locals :=
  {| sl_counts := sl_counts l; sl_prepared := Some p;
     sl_generation_metadata := sl_generation_metadata l; sl_completed := sl_completed l |}.
Definition set_generation (m : pydict) (l : stream_locals) : stream_locals :=
  {| sl_counts := sl_counts l; sl_prepared := sl_prepared l; sl_generation_metadata := Some m;
     sl_completed := sl_completed l |}.
Definition set_completed (l : stream_locals) : stream_locals :=
  {| sl_counts := sl_counts l; sl_prepared := sl_prepared l;
     sl_generation_metadata := sl_generation_metadata l; sl_completed := true |}.

(** [event_counts[k] += 1]. *)
Definition count_token (c : event_counts) : event_counts :=
  {| ec_token := ec_token c + 1; ec_citation := ec_citation c; ec_error := ec_error c;
     ec_final := ec_final c |}.
Definition count_citation (c : event_counts) : event_counts :=
  {| ec_token := ec_token c; ec_citation := ec_citation c + 1; ec_error := ec_error c;
     ec_final := ec_final c |}.
Definition count_error (c : event_counts) : event_counts :=
  {| ec_token := ec_token c; ec_citation := ec_citation c; ec_error := ec_error c + 1;
     ec_final := ec_final c |}.
Definition count_final (c : event_counts) : event_counts :=
  {| ec_token := ec_token c; ec_citation := ec_citation c; ec_error := ec_error c;
     ec_final := ec_final c + 1 |}.
Definition bump (f : event_counts -> event_counts) : M unit := set_locals (map_counts f).
Definition complete : M unit := set_locals set_completed.
Definition counts : M event_counts := reads (fun w => sl_counts (w_locals w)).

(** [yield event]: the consumer has the event; it may close the generator there. *)
Definition yield_event (event : result exc RagStreamEvent) : M unit :=
  e <- mlift event;;
  _ <- modify (fun w => {| w_state := w_state w; w_log := w_log w; w_events := w_events w ++ [e];
                           w_locals := w_locals w |});;
  stop <- reads (fun w => closes (w_events w));;
  if stop then mraise EGeneratorExit else mreturn tt.

Definition _final_success_event (context : RequestContext) (r : QueryResponse)
  : result exc RagStreamEvent :=
  final_event (rc_request_id context) (rc_trace_id context) (auth_tenant_id (rc_auth context))
    (auth_user_id (rc_auth context)) (qr_answer r) (qr_citations r) (qr_no_answer r)
    (qr_unsupported_claims r) (qr_metadata r) StreamSuccess None.

Definition _stream_error_final_event (context : RequestContext) (command : QueryCommand)
    (latency_ms : float) (error : DomainError) (c : event_counts)
    (prepared : option _PreparedQueryContext) (generation : option pydict)
  : result exc RagStreamEvent :=
  final_event (rc_request_id context) (rc_trace_id context) (auth_tenant_id (rc_auth context))
    (auth_user_id (rc_auth context)) (pb_default_no_answer_text (qs_prompt_builder_config svc)) []
    true [] (plain (interrupted_metadata context command latency_ms error c prepared generation))
    StreamError None.

Definition error_event (context : RequestContext) (error : DomainError) (stage : pystr)
  : result exc RagStreamEvent :=
  safe_error_event (rc_request_id context) (rc_trace_id context) (de_code error) (de_message error)
    (_safe_stream_error_details error stage) true.

Fixpoint yield_citations (context : RequestContext) (citations : list Citation) : M unit :=
  match citations with
  | [] => mreturn tt
  | c :: rest =>
      _ <- bump count_citation;;
      _ <- yield_event (citation_event (rc_request_id context) (rc_trace_id context) c);;
      yield_citations context rest
  end.

(** The loop over the chunks of [_validated_stream]. *)
Fixpoint yield_tokens (context : RequestContext) (request : GenerateRequest) (seen_final : bool)
    (final_response : option GenerateResponse) (chunks : list (result exc GenerateChunk))
  : M (option GenerateResponse) :=
  match chunks with
  | [] => mreturn final_response
  | Err e :: _ => mraise e
  | Ok chunk :: rest =>
      v <- mlift (_validated_stream request seen_final chunk);;
      if gc_is_final chunk
      then
        _ <- (match gc_response chunk with
              | Some r => set_locals (set_generation (metadata_dump (go_metadata r)))
              | None => mreturn tt
              end);;
        yield_tokens context request v.2 (gc_response chunk) rest
      else
        _ <- bump count_token;;
        _ <- yield_event (token_event (rc_request_id context) (rc_trace_id context)
                            (gc_index chunk) (gc_delta chunk));;
        yield_tokens context request v.2 final_response rest
  end.

Definition stream_tokens (context : RequestContext) (request : GenerateRequest)
  : M (option GenerateResponse) :=
  chunks <- call (fun s => let '(l, s') := provider_stream P request s in (Ok l, s'))
              (fun _ => [CallStream request]);;
  try_finally (yield_tokens context request false None chunks)
              (call (provider_aclose P) (fun _ => [CallClose])).

Definition finish_stream (context : RequestContext) (response : QueryResponse) : M unit :=
  c <- counts;;
  _ <- _record_stream_audit context response AuditSUCCESS None c;;
  _ <- complete;;
  yield_event (_final_success_event context response).

Definition stream_body (context : RequestContext) (command : QueryCommand)
    (memory : option PromptMemoryContext) (started : float) : M unit :=
  p <- _prepare_query_context context command memory;;
  _ <- set_locals (set_prepared p);;
  match pq_prompt p with
  | None =>
      latency <- elapsed started;;
      response <- mlift (_no_answer_response context command p latency);;
      _ <- bump count_final;;
      c <- counts;;
      finish_stream context (_with_stream_metadata response c)
  | Some prompt =>
      pc <- mlift (match pq_packed_context p with Some pc => Ok pc | None => Err AssertionError end);;
      citations <- mlift (_citations_from_packed_context pc);;
      _ <- yield_citations context citations;;
      _ <- set_locals (set_generation (provider_summary (qs_generation svc)));;
      request <- mlift (_request (qs_generation svc) prompt context);;
      final_response <- stream_tokens context request;;
      response <- mlift (match final_response with
                         | Some r => Ok r
                         | None => Err (EDomain (no_final_response context))
                         end);;
      x <- mlift (extract_citations (go_text response) pc prompt);;
      latency <- elapsed started;;
      _ <- bump count_final;;
      c <- counts;;
      response <- mlift (respond_with context x
        (_stream_response_metadata command (pq_retrieval p) (answered_counts p prompt x)
           (Some (metadata_dump (go_metadata response))) latency None c (pq_memory_context p)));;
      finish_stream context response
  end.

(** The two error handlers: an error event, the audit record, a final event. *)
Definition report_error (context : RequestContext) (command : QueryCommand) (started : float)
    (error : DomainError) (stage : pystr) : M unit :=
  latency <- elapsed started;;
  _ <- bump count_error;;
  _ <- yield_event (error_event context error stage);;
  _ <- bump count_final;;
  _ <- _record_stream_failure context command latency error;;
  _ <- complete;;
  l <- reads w_locals;;
  yield_event (_stream_error_final_event context command latency error (sl_counts l)
                 (sl_prepared l) (sl_generation_metadata l)).

Definition stream_handler (context : RequestContext) (command : QueryCommand) (started : float)
    (e : exc) : M unit :=
  match e with
  | ECancelled =>
      latency <- elapsed started;;
      _ <- bump count_error;;
      _ <- _record_stream_failure context command latency (stream_cancelled context);;
      _ <- complete;;
      mraise ECancelled
  | EDomain error => report_error context command started error (_stream_error_stage error)
  | EException _ =>
      report_error context command started (stream_failed context) (u "stream_query")
  | EGeneratorExit => mraise EGeneratorExit
  end.

(** The [finally] clause: a generator closed before its last event is audited. *)
Definition stream_cleanup (context : RequestContext) (command : QueryCommand) (started : float)
  : M unit :=
  l <- reads w_locals;;
  if negb (sl_completed l)
     && ((0 <? ec_token (sl_counts l))%Z || (0 <? ec_citation (sl_counts l))%Z
         || match sl_prepared l with Some _ => true | None => false end)
  then
    latency <- elapsed started;;
    _ <- bump count_error;;
    _record_stream_failure context command latency (stream_closed context)
  else mreturn tt.

Definition stream_denied (context : RequestContext) (command : QueryCommand) (started : float)
  : M unit :=
  latency <- elapsed started;;
  let error := _query_forbidden_error context in
  _ <- _record_denied (stream_audit_record P) context command latency error;;
  event <- mlift (error_event context error (u "authorization"));;
  _ <- bump count_error;;
  _ <- yield_event (Ok event);;
  _ <- bump count_final;;
  c <- counts;;
  yield_event (_stream_error_final_event context command latency error c None None).

Definition stream_query (context : RequestContext) (command : QueryCommand)
    (memory : option PromptMemoryContext) : M unit :=
  started <- now;;
  _ <- set_locals (fun _ => fresh_locals);;
  if negb (has_rag_query_permission (rc_auth context))
  then stream_denied context command started
  else
    try_finally
      (mcatch (stream_body context command memory started) (stream_handler context command started))
      (stream_cleanup context command started).
End Service.
