(* ===== verification/DocumentStore.v ===== *)
(** The document repository.

    Models [DocumentRepository] of [packages/data/storage/repositories.py] over the
    tables of [packages/data/storage/models.py]: documents, their versions, the
    ingestion and embedding jobs of a version and its chunks.  A request or a worker
    owns one transaction: its statements change the working copy of the tables,
    [commit] publishes it, [rollback] discards it.  The database may refuse any
    statement ([sp_fault]); a statement refused and not rolled back leaves the
    transaction aborted, as PostgreSQL does: every later statement is refused and a
    commit only rolls back.  Transactions are taken one after the other, so a row
    read again under a lock is the row read before.  [DocumentGuarantee] proves:

    - [document_tables_invariant]: in every reachable state identifiers are unique, a row is
      marked deleted in both its columns or in neither, jobs belong to the document
      of their version, and a document carries the status of its newest live
      version, or is deleted when it has none;
    - [deletion_is_final]: what is deleted in the published tables stays deleted;
    - [claim_exclusive]: when a worker obtains an ingestion job, what that changes,
      and that nobody else obtains it meanwhile;
    - [superseded_failure_ignored]: a failure reported by an attempt that another
      claim has superseded changes nothing;
    - [ready_only_if_indexed]: a version becomes retrievable only when as many
      vectors are indexed as it has chunks;
    - [listed_status_is_reviewed_status]: the status the listing computes in SQL is
      the one the review computes from the newest version and its newest job.

    The column [updated_at] is not kept.  [get_source_citation_metadata], which reads
    the tables of other components, is not modelled. *)

From Stdlib Require Import ZArith String.
From S2P Require Import Prelude Effects Float64 PyVal Access Redact SourceMetadata Rrf ContextPacker AgentDto RagDto.
From S2P Require Import Hydration RagStreaming.
From stdpp Require Import base list numbers sorting sets.

Open Scope eff_scope.

(** * Rows *)

(** The columns the records of [Hydration] do not carry are kept beside them.  A
    record not yet stored has no [created_at]. *)
Record document_row : Type := { d_rec : DocumentRecord; d_created_at : option Z }.

Record version_row : Type := {
  v_rec : DocumentVersionRecord;
  v_source_uri : option pystr;
  v_content_type : option pystr;
  v_metadata : pydict;
  v_created_at : option Z
}.

Record IngestionJobRecord : Type := {
  ij_id : pystr;
  ij_tenant_id : pystr;
  ij_created_by : pystr;
  ij_status : pystr;
  ij_document_id : pystr;
  ij_version_id : pystr;
  ij_queue_name : pystr;
  ij_queue_job_id : option pystr;
  ij_attempt_count : Z;
  ij_error_code : option pystr;
  ij_last_attempt_at : option Z;
  ij_next_retry_at : option Z;
  ij_created_at : option Z
}.

Record EmbeddingJobRecord : Type := {
  ej_id : pystr;
  ej_tenant_id : pystr;
  ej_created_by : pystr;
  ej_status : pystr;
  ej_document_id : pystr;
  ej_version_id : pystr;
  ej_provider : pystr;
  ej_model : pystr;
  ej_version : option pystr;
  ej_dim : option Z;
  ej_chunk_count : option Z;
  ej_attempt_count : Z;
  ej_error_code : option pystr;
  ej_last_attempt_at : option Z;
  ej_next_retry_at : option Z;
  ej_metadata : pydict;
  ej_created_at : option Z
}.

Record chunk_row : Type := { c_id : option pystr; c_rec : ChunkRecord; c_created_at : option Z }.

(** ** The validators of the records *)

Definition make_ingestion_job (j : IngestionJobRecord) : result exc IngestionJobRecord :=
  i ← text (ij_id j);
  tenant ← text (ij_tenant_id j);
  by_ ← text (ij_created_by j);
  status ← text (ij_status j);
  doc ← text (ij_document_id j);
  ver ← text (ij_version_id j);
  queue ← text (ij_queue_name j);
  _ ← opt_check (0 <=? ij_attempt_count j)%Z;
  mret {| ij_id := i; ij_tenant_id := tenant; ij_created_by := by_; ij_status := status;
          ij_document_id := doc; ij_version_id := ver; ij_queue_name := queue;
          ij_queue_job_id := ij_queue_job_id j; ij_attempt_count := ij_attempt_count j;
          ij_error_code := ij_error_code j; ij_last_attempt_at := ij_last_attempt_at j;
          ij_next_retry_at := ij_next_retry_at j; ij_created_at := ij_created_at j |}.

Definition opt_all (p : Z -> bool) (o : option Z) : bool :=
  match o with Some z => p z | None => true end.

Definition make_embedding_job (j : EmbeddingJobRecord) : result exc EmbeddingJobRecord :=
  i ← text (ej_id j);
  tenant ← text (ej_tenant_id j);
  by_ ← text (ej_created_by j);
  status ← text (ej_status j);
  doc ← text (ej_document_id j);
  ver ← text (ej_version_id j);
  provider ← text (ej_provider j);
  model ← text (ej_model j);
  _ ← opt_check (0 <=? ej_attempt_count j)%Z;
  _ ← opt_check (opt_all (fun z => 0 <? z)%Z (ej_dim j));
  _ ← opt_check (opt_all (fun z => 0 <=? z)%Z (ej_chunk_count j));
  mret {| ej_id := i; ej_tenant_id := tenant; ej_created_by := by_; ej_status := status;
          ej_document_id := doc; ej_version_id := ver; ej_provider := provider; ej_model := model;
          ej_version := ej_version j; ej_dim := ej_dim j; ej_chunk_count := ej_chunk_count j;
          ej_attempt_count := ej_attempt_count j; ej_error_code := ej_error_code j;
          ej_last_attempt_at := ej_last_attempt_at j; ej_next_retry_at := ej_next_retry_at j;
          ej_metadata := ej_metadata j; ej_created_at := ej_created_at j |}.

(** The record of a row; the columns beside the validated record are copied. *)
Definition document_record_from_model (d : document_row) : result exc document_row :=
  r ← make_document_record (d_rec d); mret {| d_rec := r; d_created_at := d_created_at d |}.

Definition document_version_record_from_model (v : version_row) : result exc version_row :=
  r ← make_version_record (v_rec v);
  mret {| v_rec := r; v_source_uri := v_source_uri v; v_content_type := v_content_type v;
          v_metadata := v_metadata v; v_created_at := v_created_at v |}.

Definition ingestion_job_record_from_model (j : IngestionJobRecord) : result exc IngestionJobRecord :=
  make_ingestion_job j.

Definition embedding_job_record_from_model (j : EmbeddingJobRecord) : result exc EmbeddingJobRecord :=
  make_embedding_job j.

Definition chunk_record_from_model (c : chunk_row) : result exc chunk_row :=
  r ← make_chunk_record (c_rec c);
  mret {| c_id := c_id c; c_rec := r; c_created_at := c_created_at c |}.

(** The row of a record, with the creation time the database gives it. *)
Definition _document_model (now : Z) (d : document_row) : document_row :=
  {| d_rec := d_rec d; d_created_at := Some now |}.

Definition _version_model (now : Z) (v : version_row) : version_row :=
  {| v_rec := v_rec v; v_source_uri := v_source_uri v; v_content_type := v_content_type v;
     v_metadata := v_metadata v; v_created_at := Some now |}.

Definition _job_model (now : Z) (j : IngestionJobRecord) : IngestionJobRecord :=
  {| ij_id := ij_id j; ij_tenant_id := ij_tenant_id j; ij_created_by := ij_created_by j;
     ij_status := ij_status j; ij_document_id := ij_document_id j; ij_version_id := ij_version_id j;
     ij_queue_name := ij_queue_name j; ij_queue_job_id := ij_queue_job_id j;
     ij_attempt_count := ij_attempt_count j; ij_error_code := ij_error_code j;
     ij_last_attempt_at := ij_last_attempt_at j; ij_next_retry_at := ij_next_retry_at j;
     ij_created_at := Some now |}.

Definition _embedding_job_model (now : Z) (j : EmbeddingJobRecord) : EmbeddingJobRecord :=
  {| ej_id := ej_id j; ej_tenant_id := ej_tenant_id j; ej_created_by := ej_created_by j;
     ej_status := ej_status j; ej_document_id := ej_document_id j; ej_version_id := ej_version_id j;
     ej_provider := ej_provider j; ej_model := ej_model j; ej_version := ej_version j;
     ej_dim := ej_dim j; ej_chunk_count := ej_chunk_count j; ej_attempt_count := ej_attempt_count j;
     ej_error_code := ej_error_code j; ej_last_attempt_at := ej_last_attempt_at j;
     ej_next_retry_at := ej_next_retry_at j; ej_metadata := ej_metadata j;
     ej_created_at := Some now |}.

(** ** Assignments to the attributes of a row *)

Definition d_id d := dr_id (d_rec d).
Definition d_tenant d := dr_tenant_id (d_rec d).
Definition d_status d := dr_status (d_rec d).
Definition d_deleted_at d := dr_deleted_at (d_rec d).
Definition v_id v := vr_id (v_rec v).
Definition v_tenant v := vr_tenant_id (v_rec v).
Definition v_document_id v := vr_document_id (v_rec v).
Definition v_status v := vr_status (v_rec v).
Definition v_deleted_at v := vr_deleted_at (v_rec v).

Definition d_set (status : pystr) (deleted_at : option Z) (metadata : pydict) (d : document_row)
  : document_row :=
  let r := d_rec d in
  {| d_rec := {| dr_id := dr_id r; dr_tenant_id := dr_tenant_id r; dr_created_by := dr_created_by r;
                 dr_status := status; dr_source_type := dr_source_type r;
                 dr_source_uri := dr_source_uri r; dr_title := dr_title r; dr_acl := dr_acl r;
                 dr_checksum := dr_checksum r; dr_metadata := metadata; dr_deleted_at := deleted_at |};
     d_created_at := d_created_at d |}.

Definition v_set (status : pystr) (deleted_at : option Z) (metadata : pydict) (v : version_row)
  : version_row :=
  let r := v_rec v in
  {| v_rec := {| vr_id := vr_id r; vr_document_id := vr_document_id r; vr_tenant_id := vr_tenant_id r;
                 vr_created_by := vr_created_by r; vr_status := status;
                 vr_source_type := vr_source_type r; vr_object_key := vr_object_key r;
                 vr_filename := vr_filename r; vr_byte_size := vr_byte_size r; vr_acl := vr_acl r;
                 vr_checksum := vr_checksum r; vr_deleted_at := deleted_at |};
     v_source_uri := v_source_uri v; v_content_type := v_content_type v; v_metadata := metadata;
     v_created_at := v_created_at v |}.

Definition ij_set (status : pystr) (attempt : Z) (error : option pystr) (last next : option Z)
    (j : IngestionJobRecord) : IngestionJobRecord :=
  {| ij_id := ij_id j; ij_tenant_id := ij_tenant_id j; ij_created_by := ij_created_by j;
     ij_status := status; ij_document_id := ij_document_id j; ij_version_id := ij_version_id j;
     ij_queue_name := ij_queue_name j; ij_queue_job_id := ij_queue_job_id j;
     ij_attempt_count := attempt; ij_error_code := error; ij_last_attempt_at := last;
     ij_next_retry_at := next; ij_created_at := ij_created_at j |}.

Definition ij_set_queue (queue_job_id : option pystr) (j : IngestionJobRecord) : IngestionJobRecord :=
  {| ij_id := ij_id j; ij_tenant_id := ij_tenant_id j; ij_created_by := ij_created_by j;
     ij_status := ij_status j; ij_document_id := ij_document_id j; ij_version_id := ij_version_id j;
     ij_queue_name := ij_queue_name j; ij_queue_job_id := queue_job_id;
     ij_attempt_count := ij_attempt_count j; ij_error_code := ij_error_code j;
     ij_last_attempt_at := ij_last_attempt_at j; ij_next_retry_at := ij_next_retry_at j;
     ij_created_at := ij_created_at j |}.

Definition ej_set (status : pystr) (attempt : Z) (error : option pystr) (last next : option Z)
    (j : EmbeddingJobRecord) : EmbeddingJobRecord :=
  {| ej_id := ej_id j; ej_tenant_id := ej_tenant_id j; ej_created_by := ej_created_by j;
     ej_status := status; ej_document_id := ej_document_id j; ej_version_id := ej_version_id j;
     ej_provider := ej_provider j; ej_model := ej_model j; ej_version := ej_version j;
     ej_dim := ej_dim j; ej_chunk_count := ej_chunk_count j; ej_attempt_count := attempt;
     ej_error_code := error; ej_last_attempt_at := last; ej_next_retry_at := next;
     ej_metadata := ej_metadata j; ej_created_at := ej_created_at j |}.

(** [provider], [model], [version], [dim], [chunk_count] and [metadata_]. *)
Definition ej_describe (provider model : pystr) (version : option pystr) (dim count : option Z)
    (metadata : pydict) (j : EmbeddingJobRecord) : EmbeddingJobRecord :=
  {| ej_id := ej_id j; ej_tenant_id := ej_tenant_id j; ej_created_by := ej_created_by j;
     ej_status := ej_status j; ej_document_id := ej_document_id j; ej_version_id := ej_version_id j;
     ej_provider := provider; ej_model := model; ej_version := version; ej_dim := dim;
     ej_chunk_count := count; ej_attempt_count := ej_attempt_count j;
     ej_error_code := ej_error_code j; ej_last_attempt_at := ej_last_attempt_at j;
     ej_next_retry_at := ej_next_retry_at j; ej_metadata := metadata;
     ej_created_at := ej_created_at j |}.

Definition ch_set (status : pystr) (deleted_at : option Z) (metadata : pydict) (c : chunk_row) : chunk_row :=
  let r := c_rec c in
  {| c_id := c_id c;
     c_rec := {| ch_tenant_id := ch_tenant_id r; ch_document_id := ch_document_id r;
                 ch_version_id := ch_version_id r; ch_chunk_id := ch_chunk_id r;
                 ch_created_by := ch_created_by r; ch_status := status;
                 ch_source_type := ch_source_type r; ch_source_uri := ch_source_uri r;
                 ch_title_path := ch_title_path r; ch_content := ch_content r;
                 ch_page_start := ch_page_start r; ch_page_end := ch_page_end r;
                 ch_token_count := ch_token_count r; ch_acl := ch_acl r;
                 ch_checksum := ch_checksum r; ch_section_ids := ch_section_ids r;
                 ch_metadata := metadata; ch_deleted_at := deleted_at |};
     c_created_at := c_created_at c |}.

(** The row of a chunk, with an identifier when the record has none. *)
Definition _chunk_model (id : pystr) (now : Z) (c : chunk_row) : chunk_row :=
  {| c_id := Some (default id (c_id c)); c_rec := c_rec c; c_created_at := Some now |}.

(** * The session *)

Record document_db : Type := {
  t_documents : list document_row;
  t_versions : list version_row;
  t_ingestion : list IngestionJobRecord;
  t_embedding : list EmbeddingJobRecord;
  t_chunks : list chunk_row
}.

(** What the world decides: whether the database refuses the next statement, the
    time of the process, the time of the database, and new identifiers. *)
Record store_ports (S : Type) : Type := {
  sp_fault : S -> bool * S;
  sp_now : S -> Z * S;
  sp_db_now : S -> Z * S;
  sp_uuid : S -> pystr * S
}.
Arguments sp_fault {S}.
Arguments sp_now {S}.
Arguments sp_db_now {S}.
Arguments sp_uuid {S}.

Record store_world (S : Type) : Type := {
  sw_ports : S;
  sw_committed : document_db;
  sw_db : document_db;
  sw_aborted : bool
}.
Arguments sw_ports {S}.
Arguments sw_committed {S}.
Arguments sw_db {S}.
Arguments sw_aborted {S}.

Definition with_documents (l : list document_row) (t : document_db) : document_db :=
  {| t_documents := l; t_versions := t_versions t; t_ingestion := t_ingestion t;
     t_embedding := t_embedding t; t_chunks := t_chunks t |}.
Definition with_versions (l : list version_row) (t : document_db) : document_db :=
  {| t_documents := t_documents t; t_versions := l; t_ingestion := t_ingestion t;
     t_embedding := t_embedding t; t_chunks := t_chunks t |}.
Definition with_ingestion (l : list IngestionJobRecord) (t : document_db) : document_db :=
  {| t_documents := t_documents t; t_versions := t_versions t; t_ingestion := l;
     t_embedding := t_embedding t; t_chunks := t_chunks t |}.
Definition with_embedding (l : list EmbeddingJobRecord) (t : document_db) : document_db :=
  {| t_documents := t_documents t; t_versions := t_versions t; t_ingestion := t_ingestion t;
     t_embedding := l; t_chunks := t_chunks t |}.
Definition with_chunks (l : list chunk_row) (t : document_db) : document_db :=
  {| t_documents := t_documents t; t_versions := t_versions t; t_ingestion := t_ingestion t;
     t_embedding := t_embedding t; t_chunks := l |}.

(** [UPDATE]: the rows that satisfy [p] are changed. *)
Definition update_where {A} (p : A -> bool) (f : A -> A) (l : list A) : list A :=
  (fun x => if p x then f x else x) <$> l.

(** An object of the identity map stands for the row of its primary key. *)
Definition set_document (id : pystr) (f : document_row -> document_row) (t : document_db) : document_db :=
  with_documents (update_where (fun d => bool_decide (d_id d = id)) f (t_documents t)) t.
Definition set_version (id : pystr) (f : version_row -> version_row) (t : document_db) : document_db :=
  with_versions (update_where (fun v => bool_decide (v_id v = id)) f (t_versions t)) t.
Definition set_ingestion (id : pystr) (f : IngestionJobRecord -> IngestionJobRecord) (t : document_db)
  : document_db :=
  with_ingestion (update_where (fun j => bool_decide (ij_id j = id)) f (t_ingestion t)) t.
Definition set_embedding (id : pystr) (f : EmbeddingJobRecord -> EmbeddingJobRecord) (t : document_db)
  : document_db :=
  with_embedding (update_where (fun j => bool_decide (ej_id j = id)) f (t_embedding t)) t.

(** ** Statuses *)

Definition DELETED : pystr := u "deleted".
Definition FAILED_RETRYABLE : pystr := u "failed_retryable".
Definition FAILED_TERMINAL : pystr := u "failed_terminal".

Definition _EMBEDDING_STATUS_OVERRIDES : list pystr :=
  u <$> ["embedding"; "failed_retryable"; "failed_terminal"]%string.
Definition _PROTECTED_VERSION_STATUSES : list pystr :=
  u <$> ["deleted"; "embedded"; "retrieval_ready"]%string.

(** [x in {...}] *)
Definition among (s : pystr) (l : list string) : bool := bool_decide (s ∈ (u <$> l)).

Definition is_some {A} (o : option A) : bool := match o with Some _ => true | None => false end.

Definition document_live (d : document_row) : bool :=
  negb (is_some (d_deleted_at d)) && negb (bool_decide (d_status d = DELETED)).
Definition version_live (v : version_row) : bool :=
  negb (is_some (v_deleted_at v)) && negb (bool_decide (v_status v = DELETED)).

(** ** Queries *)

Definition document_key (tenant id : pystr) (d : document_row) : bool :=
  bool_decide (d_tenant d = tenant) && bool_decide (d_id d = id).
Definition version_key (tenant id : pystr) (v : version_row) : bool :=
  bool_decide (v_tenant v = tenant) && bool_decide (v_id v = id).
Definition ingestion_key (tenant id : pystr) (j : IngestionJobRecord) : bool :=
  bool_decide (ij_tenant_id j = tenant) && bool_decide (ij_id j = id).
Definition embedding_key (tenant id : pystr) (j : EmbeddingJobRecord) : bool :=
  bool_decide (ej_tenant_id j = tenant) && bool_decide (ej_id j = id).

Definition version_of (tenant document : pystr) (v : version_row) : bool :=
  bool_decide (v_tenant v = tenant) && bool_decide (v_document_id v = document).
Definition ingestion_of (tenant document version : pystr) (j : IngestionJobRecord) : bool :=
  bool_decide (ij_tenant_id j = tenant) && bool_decide (ij_document_id j = document)
  && bool_decide (ij_version_id j = version).
Definition embedding_of (tenant document version : pystr) (j : EmbeddingJobRecord) : bool :=
  bool_decide (ej_tenant_id j = tenant) && bool_decide (ej_document_id j = document)
  && bool_decide (ej_version_id j = version).
Definition chunk_of (tenant document version : pystr) (c : chunk_row) : bool :=
  bool_decide (ch_tenant_id (c_rec c) = tenant) && bool_decide (ch_document_id (c_rec c) = document)
  && bool_decide (ch_version_id (c_rec c) = version).
Definition chunk_present (c : chunk_row) : bool := negb (is_some (ch_deleted_at (c_rec c))).

(** [created_at], then [id]; a row without a time sorts first. *)
Definition time_lt (a b : option Z) : bool :=
  match a, b with
  | None, Some _ => true
  | Some x, Some y => (x <? y)%Z
  | _, None => false
  end.
Definition older_key (a b : option Z * pystr) : bool :=
  time_lt a.1 b.1 || (bool_decide (a.1 = b.1) && str_lt a.2 b.2).

(** [ORDER BY created_at DESC, id DESC] and the first row. *)
Definition newest {A} (key : A -> option Z * pystr) (l : list A) : option A :=
  foldl (fun best x => match best with
                       | Some b => if older_key (key b) (key x) then Some x else Some b
                       | None => Some x
                       end) None l.

Definition document_order (d : document_row) : option Z * pystr := (d_created_at d, d_id d).
Definition version_order (v : version_row) : option Z * pystr := (v_created_at v, v_id v).
Definition ingestion_order (j : IngestionJobRecord) : option Z * pystr := (ij_created_at j, ij_id j).
Definition embedding_order (j : EmbeddingJobRecord) : option Z * pystr := (ej_created_at j, ej_id j).

Definition latest_live_version (tenant document : pystr) (t : document_db) : option version_row :=
  newest version_order
    (List.filter (fun v => version_of tenant document v && version_live v) (t_versions t)).

Definition count_chunks (tenant document version : pystr) (t : document_db) : Z :=
  Z.of_nat (length (List.filter (fun c => chunk_of tenant document version c && chunk_present c) (t_chunks t))).

(** ** Metadata *)

(** [{key: metadata[key] for key in allowed_keys if key in metadata}]; the order of
    the entries of a JSON column carries no meaning. *)
Definition keep_keys (allowed : list string) (metadata : pydict) : pydict :=
  omap (fun k => (fun v => (u k, v)) <$> dict_get (u k) metadata) allowed.

Definition _safe_chunk_summary : pydict -> pydict :=
  keep_keys ["chunk_count"; "token_count_min"; "token_count_max"; "checksum_summary"]%string.
Definition _safe_embedding_summary : pydict -> pydict :=
  keep_keys ["stage"; "provider"; "model"; "version"; "dim"; "chunk_count"; "token_count_min";
             "token_count_max"; "usage"; "vector_index_summary"]%string.
Definition _safe_vector_index_summary : pydict -> pydict :=
  keep_keys ["stage"; "status"; "vector_count"; "provider"; "model"; "version"; "dim";
             "latency_ms"]%string.

Definition _dict_from_object (v : option pyval) : pydict :=
  match v with Some (VDict d) => d | _ => [] end.

Definition _safe_error_summary (error_code : option pystr) : option pydict :=
  (fun c => [(u "error_code", VStr c)]) <$> error_code.

Definition _document_latest_metadata (metadata : pydict) (latest : version_row) : pydict :=
  let result := dict_set (u "latest_version_id") (VStr (v_id latest)) metadata in
  if bool_decide (v_status latest = u "retrieval_ready")
  then match dict_get (u "retrieval_ready_summary") (v_metadata latest) with
       | Some (VDict d) => dict_set (u "retrieval_ready_summary") (VDict d) result
       | _ => result
       end
  else dict_pop (u "retrieval_ready_summary") result.

Definition details3 (tenant document version : pystr) : pydict :=
  [(u "tenant_id", VStr tenant); (u "document_id", VStr document); (u "version_id", VStr version)].
Definition details_document (tenant document : pystr) : pydict :=
  [(u "tenant_id", VStr tenant); (u "document_id", VStr document)].
Definition details_job (tenant job : pystr) : pydict :=
  [(u "tenant_id", VStr tenant); (u "job_id", VStr job)].

(** ** Statements *)

Section Session.
Context `{UnicodeDB} {S : Type} (P : store_ports S).
Abbreviation M := (eff exc (store_world S)).

Definition StorageError (code message : string) (details : pydict) : exc :=
  EDomain (domain_error CStorage (u code) (u message) details 400).
Definition SQLAlchemyError : exc := EException (u "SQLAlchemyError").

Definition ask {A} (f : S -> A * S) : M A := fun w =>
  let '(a, s) := f (sw_ports w) in
  (Ok a, {| sw_ports := s; sw_committed := sw_committed w; sw_db := sw_db w; sw_aborted := sw_aborted w |}).

Definition change (f : document_db -> document_db) : M unit :=
  modify (fun w => {| sw_ports := sw_ports w; sw_committed := sw_committed w; sw_db := f (sw_db w);
                      sw_aborted := sw_aborted w |}).
Definition the_db : M document_db := reads sw_db.

Definition rollback : M unit :=
  modify (fun w => {| sw_ports := sw_ports w; sw_committed := sw_committed w;
                      sw_db := sw_committed w; sw_aborted := false |}).
Definition fail_transaction : M unit :=
  modify (fun w => {| sw_ports := sw_ports w; sw_committed := sw_committed w; sw_db := sw_db w;
                      sw_aborted := true |}).

(** Whether the next statement is refused. *)
Definition refuses : M bool :=
  aborted <- reads sw_aborted;;
  if aborted then mreturn true else ask (sp_fault P).

(** [except SQLAlchemyError: raise error]. *)
Definition query (error : exc) : M unit :=
  fault <- refuses;;
  if fault then _ <- fail_transaction;; mraise error else mreturn tt.

(** [except SQLAlchemyError: await session.rollback(); raise error]. *)
Definition flush (refused : bool) (error : exc) : M unit :=
  fault <- refuses;;
  if fault || refused then _ <- rollback;; mraise error else mreturn tt.

Definition commit : M unit :=
  fault <- ask (sp_fault P);;
  if fault then
    _ <- rollback;;
    mraise (StorageError "DOCUMENT_STORAGE_COMMIT_FAILED" "Document storage commit failed." [])
  else
    aborted <- reads sw_aborted;;
    if aborted then rollback
    else modify (fun w => {| sw_ports := sw_ports w; sw_committed := sw_db w; sw_db := sw_db w;
                             sw_aborted := false |}).

Definition found {A} (o : option A) (error : exc) : M A :=
  match o with Some a => mreturn a | None => mraise error end.

(** ** Reads *)

Definition _get_document_model (tenant document : pystr) : M document_row :=
  _ <- query (StorageError "DOCUMENT_READ_FAILED" "Document read failed." (details_document tenant document));;
  t <- the_db;;
  found (List.find (document_key tenant document) (t_documents t))
    (StorageError "DOCUMENT_NOT_FOUND" "Document was not found." (details_document tenant document)).

Definition _get_version_model (tenant version : pystr) : M version_row :=
  let details := [(u "tenant_id", VStr tenant); (u "version_id", VStr version)] in
  _ <- query (StorageError "DOCUMENT_VERSION_READ_FAILED" "Document version read failed." details);;
  t <- the_db;;
  found (List.find (version_key tenant version) (t_versions t))
    (StorageError "DOCUMENT_VERSION_NOT_FOUND" "Document version was not found." details).

Definition _get_job (tenant job : pystr) : M IngestionJobRecord :=
  _ <- query (StorageError "INGESTION_JOB_READ_FAILED" "Ingestion job read failed." (details_job tenant job));;
  t <- the_db;;
  found (List.find (ingestion_key tenant job) (t_ingestion t))
    (StorageError "INGESTION_JOB_NOT_FOUND" "Ingestion job was not found." (details_job tenant job)).

Definition _get_embedding_job_model (tenant job : pystr) : M EmbeddingJobRecord :=
  _ <- query (StorageError "EMBEDDING_JOB_READ_FAILED" "Embedding job read failed." (details_job tenant job));;
  t <- the_db;;
  found (List.find (embedding_key tenant job) (t_embedding t))
    (StorageError "EMBEDDING_JOB_NOT_FOUND" "Embedding job was not found." (details_job tenant job)).

Definition optional_record {A} (make : A -> result exc A) (o : option A) : M (option A) :=
  match o with
  | Some a => r <- mlift (make a);; mreturn (Some r)
  | None => mreturn None
  end.

Definition get_document (tenant document : pystr) : M (option document_row) :=
  _ <- query (StorageError "DOCUMENT_READ_FAILED" "Document read failed." (details_document tenant document));;
  t <- the_db;;
  optional_record document_record_from_model (List.find (document_key tenant document) (t_documents t)).

Definition get_version (tenant version : pystr) : M (option version_row) :=
  _ <- query (StorageError "DOCUMENT_STORAGE_QUERY_FAILED" "Document version query failed."
                [(u "tenant_id", VStr tenant); (u "version_id", VStr version)]);;
  t <- the_db;;
  optional_record document_version_record_from_model (List.find (version_key tenant version) (t_versions t)).

Definition get_ingestion_job (tenant job : pystr) : M (option IngestionJobRecord) :=
  _ <- query (StorageError "INGESTION_JOB_READ_FAILED" "Ingestion job read failed." (details_job tenant job));;
  t <- the_db;;
  optional_record ingestion_job_record_from_model (List.find (ingestion_key tenant job) (t_ingestion t)).

Definition get_embedding_job (tenant job : pystr) : M (option EmbeddingJobRecord) :=
  _ <- query (StorageError "EMBEDDING_JOB_READ_FAILED" "Embedding job read failed." (details_job tenant job));;
  t <- the_db;;
  optional_record embedding_job_record_from_model (List.find (embedding_key tenant job) (t_embedding t)).

(** [session.refresh(model, with_for_update=True)], outside any handler. *)
Definition refresh : M unit := query SQLAlchemyError.

Definition _count_chunks_for_version (tenant document version : pystr) : M Z :=
  _ <- query (StorageError "CHUNK_STORAGE_QUERY_FAILED" "Chunk metadata query failed."
                (details3 tenant document version));;
  t <- the_db;;
  mreturn (count_chunks tenant document version t).

Definition _latest_non_deleted_version_model (tenant document : pystr) : M (option version_row) :=
  _ <- query (StorageError "DOCUMENT_STORAGE_QUERY_FAILED" "Document version query failed."
                (details_document tenant document));;
  t <- the_db;;
  mreturn (latest_live_version tenant document t).

Definition _count_non_deleted_versions (tenant document : pystr) (excluding : option pystr) : M Z :=
  _ <- query (StorageError "DOCUMENT_STORAGE_QUERY_FAILED" "Document version query failed."
                (details_document tenant document));;
  t <- the_db;;
  mreturn (Z.of_nat (length (List.filter (fun v =>
    version_of tenant document v && version_live v
    && match excluding with Some x => negb (bool_decide (v_id v = x)) | None => true end) (t_versions t)))).

Definition _latest_ingestion_job_model (tenant document version : pystr) : M (option IngestionJobRecord) :=
  _ <- query (StorageError "INGESTION_JOB_READ_FAILED" "Ingestion job read failed."
                (details3 tenant document version));;
  t <- the_db;;
  mreturn (newest ingestion_order (List.filter (ingestion_of tenant document version) (t_ingestion t))).

Definition _latest_embedding_job_model (tenant document version : pystr) (status : option pystr)
  : M (option EmbeddingJobRecord) :=
  _ <- query (StorageError "EMBEDDING_JOB_READ_FAILED" "Embedding job read failed."
                (details3 tenant document version));;
  t <- the_db;;
  mreturn (newest embedding_order (List.filter (fun j =>
    embedding_of tenant document version j
    && match status with Some s => bool_decide (ej_status j = s) | None => true end) (t_embedding t))).

(** ** Shared steps of the writes *)

Definition _ensure_active_document_version (document : document_row) (version : version_row)
    (code : string) : M unit :=
  let details := details3 (d_tenant document) (d_id document) (v_id version) in
  if negb (bool_decide (v_document_id version = d_id document)) then
    mraise (StorageError "DOCUMENT_VERSION_NOT_FOUND" "Document version was not found." details)
  else if is_some (d_deleted_at document) || bool_decide (d_status document = DELETED)
          || is_some (v_deleted_at version) || bool_decide (v_status version = DELETED) then
    mraise (StorageError code "Document version is not active." details)
  else mreturn tt.

Definition _sync_document_status_from_latest_version (document : document_row) : M unit :=
  latest <- _latest_non_deleted_version_model (d_tenant document) (d_id document);;
  match latest with
  | None =>
      at_ <- match d_deleted_at document with Some x => mreturn x | None => ask (sp_now P) end;;
      change (set_document (d_id document) (fun d => d_set DELETED (Some at_) (dr_metadata (d_rec d)) d))
  | Some v =>
      change (set_document (d_id document) (fun d =>
        d_set (v_status v) (d_deleted_at d) (_document_latest_metadata (dr_metadata (d_rec d)) v) d))
  end.

Definition _flush_job (job : pystr) (code : string) : M IngestionJobRecord :=
  _ <- flush false (StorageError code "Ingestion job update failed." [(u "job_id", VStr job)]);;
  t <- the_db;;
  row <- found (List.find (fun j => bool_decide (ij_id j = job)) (t_ingestion t)) SQLAlchemyError;;
  mlift (ingestion_job_record_from_model row).

Definition _flush_embedding_job (job : pystr) (code : string) : M EmbeddingJobRecord :=
  _ <- flush false (StorageError code "Embedding job update failed." [(u "job_id", VStr job)]);;
  t <- the_db;;
  row <- found (List.find (fun j => bool_decide (ej_id j = job)) (t_embedding t)) SQLAlchemyError;;
  mlift (embedding_job_record_from_model row).

(** [version.status = status; version.metadata_ = metadata]. *)
Definition put_version (id : pystr) (status : pystr) (metadata : pydict -> pydict) : M unit :=
  change (set_version id (fun v => v_set status (v_deleted_at v) (metadata (v_metadata v)) v)).
Definition put_entry (k : string) (v : pyval) (metadata : pydict) : pydict := dict_set (u k) v metadata.

(** [model.status = status; model.error_code = None]. *)
Definition put_ingestion (id : pystr) (status : pystr) : M unit :=
  change (set_ingestion id (fun j =>
    ij_set status (ij_attempt_count j) None (ij_last_attempt_at j) (ij_next_retry_at j) j)).
End Session.

(** * Operations *)

Section Operations.
Context `{UnicodeDB, PyRepr} {S : Type} (P : store_ports S).
Abbreviation M := (eff exc (store_world S)).

(** ** Documents and versions *)

Definition has_document (id : pystr) (t : document_db) : bool := bool_decide (id ∈ d_id <$> t_documents t).
Definition has_version (id : pystr) (t : document_db) : bool := bool_decide (id ∈ v_id <$> t_versions t).
Definition has_ingestion (id : pystr) (t : document_db) : bool := bool_decide (id ∈ ij_id <$> t_ingestion t).
Definition has_embedding (id : pystr) (t : document_db) : bool := bool_decide (id ∈ ej_id <$> t_embedding t).

Definition add_document (d : document_row) (t : document_db) : document_db :=
  with_documents (t_documents t ++ [d]) t.
Definition add_version (v : version_row) (t : document_db) : document_db :=
  with_versions (t_versions t ++ [v]) t.
Definition add_ingestion (j : IngestionJobRecord) (t : document_db) : document_db :=
  with_ingestion (t_ingestion t ++ [j]) t.
Definition add_embedding (j : EmbeddingJobRecord) (t : document_db) : document_db :=
  with_embedding (t_embedding t ++ [j]) t.

(** Primary keys and foreign keys of a version and its job, given the documents. *)
Definition version_job_conflict (v : version_row) (j : IngestionJobRecord) (documents : list pystr)
    (t : document_db) : bool :=
  has_version (v_id v) t || has_ingestion (ij_id j) t
  || negb (bool_decide (v_document_id v ∈ documents))
  || negb (bool_decide (ij_document_id j ∈ documents))
  || negb (bool_decide (ij_version_id j ∈ v_id v :: (v_id <$> t_versions t))).

Definition create_upload_records (document : document_row) (version : version_row)
    (job : IngestionJobRecord) : M (document_row * version_row * IngestionJobRecord) :=
  now <- ask (sp_db_now P);;
  t <- the_db;;
  _ <- flush P (has_document (d_id document) t
                || version_job_conflict version job (d_id document :: (d_id <$> t_documents t)) t)
         (StorageError "DOCUMENT_STORAGE_WRITE_FAILED" "Document metadata storage write failed."
            (details_document (d_tenant document) (d_id document)));;
  let d := _document_model now document in
  let v := _version_model now version in
  let j := _job_model now job in
  _ <- change (fun t => add_ingestion j (add_version v (add_document d t)));;
  rd <- mlift (document_record_from_model d);;
  rv <- mlift (document_version_record_from_model v);;
  rj <- mlift (ingestion_job_record_from_model j);;
  mreturn (rd, rv, rj).

Definition create_document_version_records (version : version_row) (job : IngestionJobRecord)
  : M (version_row * IngestionJobRecord) :=
  let details := details_document (v_tenant version) (v_document_id version) in
  document <- _get_document_model P (v_tenant version) (v_document_id version);;
  if is_some (d_deleted_at document) || bool_decide (d_status document = DELETED) then
    mraise (StorageError "DOCUMENT_NOT_FOUND" "Document was not found." details)
  else if negb (bool_decide (ij_tenant_id job = v_tenant version))
          || negb (bool_decide (ij_document_id job = v_document_id version)) then
    mraise (StorageError "DOCUMENT_VERSION_SCOPE_MISMATCH"
              "Document version and ingestion job scope does not match." details)
  else
    _ <- change (set_document (d_id document) (fun d =>
           d_set (v_status version) (d_deleted_at d)
             (_document_latest_metadata (dr_metadata (d_rec d)) version) d));;
    now <- ask (sp_db_now P);;
    t <- the_db;;
    _ <- (if version_job_conflict version job (d_id <$> t_documents t) t
          then flush P true (StorageError "DOCUMENT_VERSION_CONFLICT" "Document version already exists." details)
          else flush P false (StorageError "DOCUMENT_STORAGE_WRITE_FAILED"
                                "Document version storage write failed." details));;
    let v := _version_model now version in
    let j := _job_model now job in
    _ <- change (fun t => add_ingestion j (add_version v t));;
    rv <- mlift (document_version_record_from_model v);;
    rj <- mlift (ingestion_job_record_from_model j);;
    mreturn (rv, rj).

Definition delete_version_row (now : Z) (metadata : pydict) (v : version_row) : version_row :=
  v_set DELETED (Some now) metadata v.
Definition delete_document_row (now : Z) (deleted_by : pystr) (d : document_row) : document_row :=
  d_set DELETED (Some now) (put_entry "deleted_by" (VStr deleted_by) (dr_metadata (d_rec d))) d.

Definition soft_delete_document (tenant document deleted_by : pystr) : M Z :=
  let error := StorageError "DOCUMENT_DELETE_FAILED" "Document soft delete failed."
                 (details_document tenant document) in
  d <- _get_document_model P tenant document;;
  now <- ask (sp_now P);;
  _ <- flush P false error;;
  t <- the_db;;
  let doomed := fun v => version_of tenant document v && version_live v in
  _ <- change (fun t => with_versions
         (update_where doomed (fun v => delete_version_row now (v_metadata v) v) (t_versions t)) t);;
  _ <- change (set_document (d_id d) (delete_document_row now deleted_by));;
  _ <- flush P false error;;
  mreturn (Z.of_nat (length (List.filter doomed (t_versions t)))).

Definition soft_delete_document_version (tenant document version deleted_by : pystr) : M Z :=
  d <- _get_document_model P tenant document;;
  v <- _get_version_model P tenant version;;
  if negb (bool_decide (v_document_id v = document)) then
    mraise (StorageError "DOCUMENT_VERSION_NOT_FOUND" "Document version was not found."
              (details3 tenant document version))
  else if is_some (v_deleted_at v) || bool_decide (v_status v = DELETED) then mreturn 0%Z
  else
    now <- ask (sp_now P);;
    _ <- change (set_version (v_id v) (fun v =>
           delete_version_row now (put_entry "deleted_by" (VStr deleted_by) (v_metadata v)) v));;
    remaining <- _count_non_deleted_versions P tenant document (Some version);;
    _ <- (if (remaining =? 0)%Z then change (set_document (d_id d) (delete_document_row now deleted_by))
          else _sync_document_status_from_latest_version P d);;
    _ <- flush P false (StorageError "DOCUMENT_DELETE_FAILED" "Document version soft delete failed."
                          (details3 tenant document version));;
    mreturn 1%Z.

Definition soft_delete_chunks_for_version (tenant document version : pystr) : M Z :=
  let error := StorageError "DOCUMENT_DELETE_FAILED" "Document chunk soft delete failed."
                 (details3 tenant document version) in
  now <- ask (sp_now P);;
  _ <- flush P false error;;
  t <- the_db;;
  let doomed := fun c => chunk_of tenant document version c && chunk_present c
                         && negb (bool_decide (ch_status (c_rec c) = DELETED)) in
  _ <- change (fun t => with_chunks
         (update_where doomed (fun c => ch_set DELETED (Some now) (ch_metadata (c_rec c)) c) (t_chunks t)) t);;
  _ <- flush P false error;;
  mreturn (Z.of_nat (length (List.filter doomed (t_chunks t)))).

(** ** Ingestion jobs *)

Definition mark_ingestion_job_queued (tenant job : pystr) (queue_job_id : option pystr)
  : M IngestionJobRecord :=
  model <- _get_job P tenant job;;
  _ <- change (set_ingestion (ij_id model) (ij_set_queue queue_job_id));;
  _flush_job P (ij_id model) "INGESTION_JOB_UPDATE_FAILED".

(** [expected_attempt_count is not None and attempt_count != expected_attempt_count]. *)
Definition superseded (expected : option Z) (attempt : Z) : bool :=
  match expected with Some n => negb (attempt =? n)%Z | None => false end.

(** The version or its document is deleted, or the version is past its jobs. *)
Definition out_of_reach (v : version_row) (d : document_row) : bool :=
  is_some (v_deleted_at v) || is_some (d_deleted_at d)
  || among (v_status v) ["deleted"; "embedded"; "retrieval_ready"]%string.

(** Lock the job, its version and its document; [None] when the report is ignored. *)
Definition locked_version (tenant version document : pystr) : M (version_row * document_row) :=
  v <- _get_version_model P tenant version;;
  d <- _get_document_model P tenant document;;
  _ <- refresh P;;
  _ <- refresh P;;
  mreturn (v, d).

Definition mark_ingestion_job_failed (tenant job error_code status : pystr) (next_retry_at : option Z)
    (expected_attempt_count : option Z) : M IngestionJobRecord :=
  model <- _get_job P tenant job;;
  _ <- refresh P;;
  if among (ij_status model) ["chunked"; "failed_terminal"]%string
     || superseded expected_attempt_count (ij_attempt_count model)
  then mlift (ingestion_job_record_from_model model)
  else
    vd <- locked_version tenant (ij_version_id model) (ij_document_id model);;
    if out_of_reach vd.1 vd.2 then mlift (ingestion_job_record_from_model model)
    else
      now <- ask (sp_now P);;
      _ <- change (set_ingestion (ij_id model) (fun j =>
             ij_set status (ij_attempt_count j) (Some error_code) (Some now)
               (if bool_decide (status = FAILED_RETRYABLE) then next_retry_at else None) j));;
      latest <- _latest_ingestion_job_model P tenant (ij_document_id model) (ij_version_id model);;
      _ <- (if match latest with Some l => bool_decide (ij_id l = ij_id model) | None => false end
            then _ <- put_version (v_id vd.1) status id;;
                 _sync_document_status_from_latest_version P vd.2
            else mreturn tt);;
      _flush_job P (ij_id model) "INGESTION_JOB_UPDATE_FAILED".

Definition mark_ingestion_job_parsing (tenant job : pystr) : M IngestionJobRecord :=
  model <- _get_job P tenant job;;
  now <- ask (sp_now P);;
  _ <- change (set_ingestion (ij_id model) (fun j =>
         ij_set (u "parsing") (ij_attempt_count j + 1) None (Some now) (ij_next_retry_at j) j));;
  _flush_job P (ij_id model) "INGESTION_JOB_UPDATE_FAILED".

(** [next_retry_at IS NULL OR next_retry_at <= now]. *)
Definition retry_due (now : Z) (next_retry_at : option Z) : bool :=
  match next_retry_at with None => true | Some x => (x <=? now)%Z end.

(** [last_attempt_at < stale_before], false when either is absent. *)
Definition stale (stale_before last_attempt_at : option Z) : bool :=
  match stale_before, last_attempt_at with Some b, Some x => (x <? b)%Z | _, _ => false end.

(** The two [EXISTS] of a claim: the document and the version are live. *)
Definition scope_live (tenant document version : pystr) (t : document_db) : bool :=
  existsb (fun d => document_key tenant document d && document_live d) (t_documents t)
  && existsb (fun v => version_key tenant version v && bool_decide (v_document_id v = document)
                       && version_live v) (t_versions t).

Definition ingestion_startable (now : Z) (stale_before : option Z) (j : IngestionJobRecord) : bool :=
  among (ij_status j) ["uploaded"; "queued"]%string
  || (bool_decide (ij_status j = FAILED_RETRYABLE) && retry_due now (ij_next_retry_at j))
  || (bool_decide (ij_status j = u "parsing") && stale stale_before (ij_last_attempt_at j)).

Definition ingestion_claimable (tenant job document version : pystr) (now : Z)
    (stale_before : option Z) (t : document_db) (j : IngestionJobRecord) : bool :=
  ingestion_key tenant job j && bool_decide (ij_document_id j = document)
  && bool_decide (ij_version_id j = version) && ingestion_startable now stale_before j
  && scope_live tenant document version t.

Definition claimed_ingestion (now : Z) (j : IngestionJobRecord) : IngestionJobRecord :=
  ij_set (u "parsing") (ij_attempt_count j + 1) None (Some now) None j.

Definition claim_ingestion_job_parsing (tenant job document version : pystr) (stale_before : option Z)
  : M (option IngestionJobRecord) :=
  now <- ask (sp_now P);;
  _ <- flush P false (StorageError "INGESTION_JOB_UPDATE_FAILED" "Ingestion job update failed."
                        (details_job tenant job));;
  t <- the_db;;
  let p := ingestion_claimable tenant job document version now stale_before t in
  _ <- change (fun t => with_ingestion (update_where p (claimed_ingestion now) (t_ingestion t)) t);;
  optional_record ingestion_job_record_from_model (claimed_ingestion now <$> List.find p (t_ingestion t)).

Definition mark_ingestion_job_parsed (tenant job : pystr) (parsed_metadata : pydict)
  : M IngestionJobRecord :=
  model <- _get_job P tenant job;;
  version <- _get_version_model P tenant (ij_version_id model);;
  document <- _get_document_model P tenant (ij_document_id model);;
  _ <- _ensure_active_document_version document version "DOCUMENT_VERSION_INVALID_STATE";;
  _ <- put_ingestion (ij_id model) (u "parsed");;
  _ <- put_version (v_id version) (u "parsed") (put_entry "parsed_artifact_summary" (VDict parsed_metadata));;
  _ <- _sync_document_status_from_latest_version P document;;
  _flush_job P (ij_id model) "INGESTION_JOB_UPDATE_FAILED".

Definition mark_ingestion_job_chunked (tenant job : pystr) (chunk_metadata : pydict)
  : M IngestionJobRecord :=
  model <- _get_job P tenant job;;
  version <- _get_version_model P tenant (ij_version_id model);;
  document <- _get_document_model P tenant (ij_document_id model);;
  _ <- _ensure_active_document_version document version "DOCUMENT_VERSION_INVALID_STATE";;
  let details := details3 tenant (ij_document_id model) (ij_version_id model) ++ [(u "job_id", VStr job)] in
  if negb (bool_decide (ij_status model = u "parsed")) || negb (bool_decide (v_status version = u "parsed"))
  then mraise (StorageError "INGESTION_JOB_INVALID_STATE"
                 "Ingestion job must be parsed before it can be marked chunked." (details_job tenant job))
  else
    persisted <- _count_chunks_for_version P tenant (ij_document_id model) (ij_version_id model);;
    if (persisted <=? 0)%Z then
      mraise (StorageError "CHUNK_STORAGE_EMPTY"
                "Cannot mark ingestion job chunked without persisted chunks." details)
    else if negb (match dict_get (u "chunk_count") chunk_metadata with
                  | Some x => py_eq x (VInt persisted) | None => false end) then
      mraise (StorageError "CHUNK_METADATA_MISMATCH"
                "Chunk summary count does not match persisted chunks." details)
    else
      _ <- put_ingestion (ij_id model) (u "chunked");;
      _ <- put_version (v_id version) (u "chunked")
             (put_entry "chunk_artifact_summary" (VDict (_safe_chunk_summary chunk_metadata)));;
      _ <- _sync_document_status_from_latest_version P document;;
      _flush_job P (ij_id model) "INGESTION_JOB_UPDATE_FAILED".

(** ** Chunks *)

Definition chunk_in_scope (tenant document version : pystr) (c : chunk_row) : bool :=
  chunk_of tenant document version c.

(** The rows of new chunks, each with an identifier of its own. *)
Fixpoint chunk_models (now : Z) (chunks : list chunk_row) : M (list chunk_row) :=
  match chunks with
  | [] => mreturn []
  | c :: rest =>
      id <- match c_id c with Some i => mreturn i | None => ask (sp_uuid P) end;;
      rows <- chunk_models now rest;;
      mreturn (_chunk_model id now c :: rows)
  end.

(** Primary key and [uq_chunks_tenant_chunk_id]. *)
Definition chunk_ident (c : chunk_row) : pystr * pystr := (ch_tenant_id (c_rec c), ch_chunk_id (c_rec c)).
Definition chunk_conflict (rows kept : list chunk_row) : bool :=
  negb (bool_decide (NoDup (c_id <$> (kept ++ rows))))
  || negb (bool_decide (NoDup (chunk_ident <$> (kept ++ rows)))).

Fixpoint records {A} (make : A -> result exc A) (l : list A) : result exc (list A) :=
  match l with
  | [] => Ok []
  | x :: l' => r ← make x; rs ← records make l'; mret (r :: rs)
  end.

Definition replace_chunks_for_version (tenant document version : pystr) (chunks : list chunk_row)
  : M (list chunk_row) :=
  let details := details3 tenant document version in
  match chunks with
  | [] => mraise (StorageError "CHUNK_STORAGE_EMPTY" "Chunk replacement requires at least one chunk." details)
  | _ =>
      _ <- match List.find (fun c => negb (chunk_in_scope tenant document version c)) chunks with
           | Some c => mraise (StorageError "CHUNK_STORAGE_WRITE_FAILED"
                         "Chunk tenant, document, or version does not match request scope."
                         (details ++ [(u "chunk_id", VStr (ch_chunk_id (c_rec c)))]))
           | None => mreturn tt
           end;;
      d <- _get_document_model P tenant document;;
      v <- _get_version_model P tenant version;;
      if negb (bool_decide (v_document_id v = document)) then
        mraise (StorageError "CHUNK_STORAGE_WRITE_FAILED"
                  "Document version does not match request document scope." details)
      else
        _ <- _ensure_active_document_version d v "DOCUMENT_VERSION_INVALID_STATE";;
        now <- ask (sp_db_now P);;
        rows <- chunk_models now chunks;;
        t <- the_db;;
        let kept := List.filter (fun c => negb (chunk_of tenant document version c)) (t_chunks t) in
        _ <- flush P (chunk_conflict rows kept)
               (StorageError "CHUNK_STORAGE_WRITE_FAILED" "Chunk metadata storage write failed." details);;
        _ <- change (with_chunks (kept ++ rows));;
        mlift (records chunk_record_from_model rows)
  end.

Definition chunk_order (c : chunk_row) : option Z * pystr := (c_created_at c, default [] (c_id c)).

Definition list_chunks_for_version (tenant document version : pystr) (status : option pystr)
  : M (list chunk_row) :=
  _ <- query P (StorageError "DOCUMENT_STORAGE_QUERY_FAILED" "Document storage query failed." []);;
  t <- the_db;;
  mlift (records chunk_record_from_model
    (py_sort (fun a b => older_key (chunk_order a) (chunk_order b))
      (List.filter (fun c => chunk_of tenant document version c && chunk_present c
         && match status with Some s => bool_decide (ch_status (c_rec c) = s) | None => true end)
         (t_chunks t)))).

(** The order of rows of the same time is the database's. *)
Definition get_chunk (tenant chunk : pystr) (document version : option pystr) : M (option chunk_row) :=
  _ <- query P (StorageError "CHUNK_STORAGE_QUERY_FAILED" "Chunk metadata query failed."
                  [(u "tenant_id", VStr tenant); (u "chunk_id", VStr chunk)]);;
  t <- the_db;;
  let wanted (o : option pystr) (s : pystr) :=
    match o with Some x => bool_decide (s = x) | None => true end in
  optional_record chunk_record_from_model
    (head (py_sort (fun a b => time_lt (c_created_at a) (c_created_at b))
      (List.filter (fun c => bool_decide (ch_tenant_id (c_rec c) = tenant)
         && bool_decide (ch_chunk_id (c_rec c) = chunk) && chunk_present c
         && wanted document (ch_document_id (c_rec c)) && wanted version (ch_version_id (c_rec c)))
         (t_chunks t)))).

(** [summary[key]]. *)
Definition item (k : string) (d : pydict) : result exc pyval :=
  match dict_get (u k) d with Some v => Ok v | None => Err (EException (u "KeyError")) end.
Definition get_or_none (k : string) (d : pydict) : pyval := default VNone (dict_get (u k) d).

Definition _update_chunk_embedding_summary (tenant document version : pystr) (summary : pydict) : M unit :=
  provider <- mlift (item "provider" summary);;
  model <- mlift (item "model" summary);;
  dim <- mlift (item "dim" summary);;
  let chunk_summary := VDict [(u "provider", provider); (u "model", model);
                              (u "version", get_or_none "version" summary); (u "dim", dim)] in
  _ <- query P (StorageError "CHUNK_STORAGE_UPDATE_FAILED" "Chunk embedding summary update failed."
                  (details3 tenant document version));;
  change (fun t => with_chunks (update_where
    (fun c => chunk_of tenant document version c && chunk_present c
              && bool_decide (ch_status (c_rec c) = u "active"))
    (fun c => ch_set (ch_status (c_rec c)) (ch_deleted_at (c_rec c))
                (put_entry "embedding_summary" chunk_summary (ch_metadata (c_rec c))) c) (t_chunks t)) t).

(** ** Embedding jobs *)

Definition create_embedding_job (job : EmbeddingJobRecord) : M EmbeddingJobRecord :=
  document <- _get_document_model P (ej_tenant_id job) (ej_document_id job);;
  version <- _get_version_model P (ej_tenant_id job) (ej_version_id job);;
  if negb (bool_decide (v_document_id version = d_id document)) then
    mraise (StorageError "EMBEDDING_JOB_SCOPE_MISMATCH"
              "Embedding job document and version scope does not match."
              (details3 (ej_tenant_id job) (ej_document_id job) (ej_version_id job)))
  else
    _ <- _ensure_active_document_version document version "DOCUMENT_VERSION_INVALID_STATE";;
    now <- ask (sp_db_now P);;
    t <- the_db;;
    _ <- flush P (has_embedding (ej_id job) t)
           (StorageError "EMBEDDING_JOB_WRITE_FAILED" "Embedding job storage write failed."
              (details_job (ej_tenant_id job) (ej_id job)));;
    let row := _embedding_job_model now job in
    _ <- change (add_embedding row);;
    mlift (embedding_job_record_from_model row).

Definition embedding_startable (now : Z) (stale_before : option Z) (j : EmbeddingJobRecord) : bool :=
  bool_decide (ej_status j = u "queued")
  || (bool_decide (ej_status j = FAILED_RETRYABLE) && retry_due now (ej_next_retry_at j))
  || (bool_decide (ej_status j = u "embedding") && stale stale_before (ej_last_attempt_at j)).

Definition embedding_claimable (tenant job document version : pystr) (now : Z)
    (stale_before : option Z) (t : document_db) (j : EmbeddingJobRecord) : bool :=
  embedding_key tenant job j && bool_decide (ej_document_id j = document)
  && bool_decide (ej_version_id j = version) && embedding_startable now stale_before j
  && scope_live tenant document version t.

Definition claimed_embedding (now : Z) (j : EmbeddingJobRecord) : EmbeddingJobRecord :=
  ej_set (u "embedding") (ej_attempt_count j + 1) None (Some now) None j.

Definition claim_embedding_job (tenant job document version : pystr) (stale_before : option Z)
  : M (option EmbeddingJobRecord) :=
  now <- ask (sp_now P);;
  _ <- flush P false (StorageError "EMBEDDING_JOB_UPDATE_FAILED" "Embedding job update failed."
                        (details_job tenant job));;
  t <- the_db;;
  let p := embedding_claimable tenant job document version now stale_before t in
  _ <- change (fun t => with_embedding (update_where p (claimed_embedding now) (t_embedding t)) t);;
  optional_record embedding_job_record_from_model (claimed_embedding now <$> List.find p (t_embedding t)).

Definition _required_summary_int (summary : pydict) (key : string) : result exc Z :=
  match match dict_get (u key) summary with Some v => as_int v | None => None end with
  | Some z => Ok z
  | None => Err (StorageError "EMBEDDING_METADATA_INVALID" "Embedding metadata summary is invalid."
                   [(u "field", VStr (u key))])
  end.

(** The attributes are assigned one by one: those before a missing or invalid entry
    stay assigned. *)
Definition describe_embedding (job : pystr) (summary : pydict) : M unit :=
  let put (f : EmbeddingJobRecord -> EmbeddingJobRecord) : M unit := change (set_embedding job f) in
  _ <- put (fun j => ej_set (u "embedded") (ej_attempt_count j) None (ej_last_attempt_at j)
                       (ej_next_retry_at j) j);;
  provider <- mlift (item "provider" summary);;
  _ <- put (fun j => ej_describe (py_str provider) (ej_model j) (ej_version j) (ej_dim j)
                       (ej_chunk_count j) (ej_metadata j) j);;
  model <- mlift (item "model" summary);;
  _ <- put (fun j => ej_describe (ej_provider j) (py_str model)
                       (match get_or_none "version" summary with VNone => None | x => Some (py_str x) end)
                       (ej_dim j) (ej_chunk_count j) (ej_metadata j) j);;
  dim <- mlift (_required_summary_int summary "dim");;
  _ <- put (fun j => ej_describe (ej_provider j) (ej_model j) (ej_version j) (Some dim)
                       (ej_chunk_count j) (ej_metadata j) j);;
  count <- mlift (_required_summary_int summary "chunk_count");;
  put (fun j => ej_describe (ej_provider j) (ej_model j) (ej_version j) (ej_dim j) (Some count)
                  [(u "embedding_artifact_summary", VDict summary)] j).

Definition mark_embedding_job_embedded (tenant job : pystr) (embedding_metadata : pydict)
  : M EmbeddingJobRecord :=
  model <- _get_embedding_job_model P tenant job;;
  version <- _get_version_model P tenant (ej_version_id model);;
  document <- _get_document_model P tenant (ej_document_id model);;
  _ <- _ensure_active_document_version document version "DOCUMENT_VERSION_INVALID_STATE";;
  let summary := _safe_embedding_summary embedding_metadata in
  _ <- describe_embedding (ej_id model) summary;;
  _ <- put_version (v_id version) (u "embedded") (put_entry "embedding_artifact_summary" (VDict summary));;
  _ <- _sync_document_status_from_latest_version P document;;
  _ <- _update_chunk_embedding_summary tenant (ej_document_id model) (ej_version_id model) summary;;
  _flush_embedding_job P (ej_id model) "EMBEDDING_JOB_UPDATE_FAILED".

Definition mark_embedding_job_failed (tenant job error_code status : pystr) (next_retry_at : option Z)
    (expected_attempt_count : option Z) : M EmbeddingJobRecord :=
  model <- _get_embedding_job_model P tenant job;;
  _ <- refresh P;;
  if among (ej_status model) ["embedded"; "failed_terminal"]%string
     || superseded expected_attempt_count (ej_attempt_count model)
  then mlift (embedding_job_record_from_model model)
  else
    vd <- locked_version tenant (ej_version_id model) (ej_document_id model);;
    if out_of_reach vd.1 vd.2 then mlift (embedding_job_record_from_model model)
    else
      now <- ask (sp_now P);;
      _ <- change (set_embedding (ej_id model) (fun j =>
             ej_set status (ej_attempt_count j) (Some error_code) (Some now)
               (if bool_decide (status = FAILED_RETRYABLE) then next_retry_at else None) j));;
      latest <- _latest_embedding_job_model P tenant (ej_document_id model) (ej_version_id model) None;;
      _ <- (if bool_decide (status = FAILED_TERMINAL)
               && match latest with Some l => bool_decide (ej_id l = ej_id model) | None => false end
            then _ <- put_version (v_id vd.1) status id;;
                 _sync_document_status_from_latest_version P vd.2
            else mreturn tt);;
      _flush_embedding_job P (ej_id model) "EMBEDDING_JOB_UPDATE_FAILED".

(** The joined rows of [scope]: statuses and deletion marks of the job, its version
    and its document. *)
Definition handoff_scope (tenant job document version : pystr) (t : document_db)
  : list (IngestionJobRecord * version_row * document_row) :=
  j ← List.filter (fun j => ingestion_key tenant job j && bool_decide (ij_document_id j = document)
                            && bool_decide (ij_version_id j = version)) (t_ingestion t);
  v ← List.filter (fun v => version_of (ij_tenant_id j) (ij_document_id j) v
                            && bool_decide (v_id v = ij_version_id j)) (t_versions t);
  d ← List.filter (document_key (ij_tenant_id j) (ij_document_id j)) (t_documents t);
  [(j, v, d)].

(** [one_or_none()]: several rows are [MultipleResultsFound]. *)
Definition one_or_none {A} (l : list A) (error : exc) : M (option A) :=
  match l with
  | [] => mreturn None
  | [x] => mreturn (Some x)
  | _ => mraise error
  end.

(** The source marker of an embedding job; the code writes only text there. *)
Definition source_ingestion_job (j : EmbeddingJobRecord) : option pystr :=
  match dict_get (u "source_ingestion_job_id") (ej_metadata j) with Some (VStr s) => Some s | _ => None end.

Definition get_ingestion_embedding_handoff (tenant job document version : pystr)
  : M (option EmbeddingJobRecord) :=
  let read_failed := StorageError "EMBEDDING_JOB_READ_FAILED" "Embedding handoff read failed."
                       (details_job tenant job) in
  _ <- query P read_failed;;
  t <- the_db;;
  state <- one_or_none (handoff_scope tenant job document version t) read_failed;;
  match state with
  | Some (j, v, d) =>
      if negb (bool_decide (ij_status j = u "chunked")) then
        mraise (StorageError "EMBEDDING_HANDOFF_INVALID_STATE"
                  "Embedding handoff does not match a chunked ingestion job." (details_job tenant job))
      else if among (v_status v) ["deleted"; "embedded"; "retrieval_ready"]%string
              || is_some (v_deleted_at v) || bool_decide (d_status d = DELETED) || is_some (d_deleted_at d)
      then mreturn None
      else
        _ <- query P read_failed;;
        model <- one_or_none (List.filter (fun e => embedding_of tenant document version e
                   && bool_decide (source_ingestion_job e = Some job)) (t_embedding t)) read_failed;;
        match model with
        | None =>
            mraise (StorageError "EMBEDDING_HANDOFF_NOT_FOUND"
                      "Chunked ingestion is missing its embedding handoff." (details_job tenant job))
        | Some e =>
            if among (ej_status e) ["embedding"; "embedded"; "failed_retryable"; "failed_terminal"]%string
            then mreturn None
            else if negb (bool_decide (ej_status e = u "queued"))
                    || negb (bool_decide (v_status v = u "chunked")) then
              mraise (StorageError "EMBEDDING_HANDOFF_INVALID_STATE"
                        "Embedding handoff is not in a replayable state." (details_job tenant job))
            else r <- mlift (embedding_job_record_from_model e);; mreturn (Some r)
        end
  | None =>
      mraise (StorageError "EMBEDDING_HANDOFF_INVALID_STATE"
                "Embedding handoff does not match a chunked ingestion job." (details_job tenant job))
  end.

(** ** Readiness for retrieval *)

Definition opt_str (o : option pystr) : pyval := match o with Some s => VStr s | None => VNone end.
Definition opt_int (o : option Z) : pyval := match o with Some z => VInt z | None => VNone end.

(** The vector summary of the newest embedded job, with the caller's entries. *)
Definition vector_index_summary (summary index_metadata : pydict) : pydict :=
  let stored := _dict_from_object (dict_get (u "vector_index_summary") summary) in
  match index_metadata with
  | [] => stored
  | _ => dict_update stored (_safe_vector_index_summary index_metadata)
  end.

Definition retrieval_ready_summary (count : Z) (job : EmbeddingJobRecord) (vector_count : pyval)
    (vectors : pydict) : pydict :=
  [(u "stage", VStr (u "retrieval_ready")); (u "chunk_count", VInt count);
   (u "provider", VStr (ej_provider job)); (u "model", VStr (ej_model job));
   (u "version", opt_str (ej_version job)); (u "dim", opt_int (ej_dim job));
   (u "vector_count", vector_count); (u "index_status", get_or_none "status" vectors)].

Definition mark_document_version_retrieval_ready (tenant document version : pystr)
    (index_metadata : pydict) : M version_row :=
  let details := details3 tenant document version in
  let not_ready (message : string) (extra : pydict) : M version_row :=
    mraise (StorageError "DOCUMENT_INDEX_NOT_READY" message (details ++ extra)) in
  v <- _get_version_model P tenant version;;
  d <- _get_document_model P tenant document;;
  if negb (bool_decide (v_document_id v = document)) then
    mraise (StorageError "DOCUMENT_VERSION_NOT_FOUND" "Document version was not found." details)
  else
    _ <- _ensure_active_document_version d v "DOCUMENT_VERSION_INVALID_STATE";;
    count <- _count_chunks_for_version P tenant document version;;
    if (count <=? 0)%Z then not_ready "Document version has no active chunks."%string [] else
    job <- _latest_embedding_job_model P tenant document version (Some (u "embedded"));;
    match job with
    | None => not_ready "Document version does not have an embedded job."%string []
    | Some job =>
        let summary := _dict_from_object (dict_get (u "embedding_artifact_summary") (ej_metadata job)) in
        let vectors := vector_index_summary summary index_metadata in
        if negb (match dict_get (u "status") vectors with
                 | Some (VStr s) => bool_decide (s = u "indexed") | _ => false end)
        then not_ready "Document version vector index is not indexed."%string []
        else
          let vector_count := get_or_none "vector_count" vectors in
          if negb (match as_int vector_count with Some n => (n =? count)%Z | None => false end)
          then not_ready "Vector count does not match active chunk count."%string
                 [(u "chunk_count", VInt count); (u "vector_count", vector_count)]
          else
            _ <- put_version (v_id v) (u "retrieval_ready") (fun m =>
                   put_entry "retrieval_ready_summary"
                     (VDict (retrieval_ready_summary count job vector_count vectors))
                     (put_entry "embedding_artifact_summary" (VDict summary) m));;
            _ <- _sync_document_status_from_latest_version P d;;
            _ <- flush P false (StorageError "DOCUMENT_VERSION_STATUS_UPDATE_FAILED"
                                  "Document version retrieval status update failed." details);;
            t <- the_db;;
            row <- found (List.find (fun x => bool_decide (v_id x = v_id v)) (t_versions t)) SQLAlchemyError;;
            mlift (document_version_record_from_model row)
    end.

(** ** Status and lists *)

Definition _effective_version_status (version_status : pystr) (deleted_at : option Z)
    (embedding_job_status : option pystr) : pystr :=
  match embedding_job_status with
  | Some s =>
      if negb (is_some deleted_at) && negb (bool_decide (version_status ∈ _PROTECTED_VERSION_STATUSES))
         && bool_decide (s ∈ _EMBEDDING_STATUS_OVERRIDES)
      then s else version_status
  | None => version_status
  end.

Record DocumentVersionStatusResult : Type := {
  st_document_id : pystr;
  st_version_id : pystr;
  st_status : pystr;
  st_chunk_count : Z;
  st_provider : option pystr;
  st_model : option pystr;
  st_version : option pystr;
  st_dim : option Z;
  st_vector_count : option Z;
  st_index_status : option pystr;
  st_job_id : option pystr;
  st_attempt_count : option Z;
  st_last_attempt_at : option Z;
  st_next_retry_at : option Z;
  st_deleted_at : option Z;
  st_error_code : option pystr;
  st_error_summary : option pydict;
  st_request_id : pystr;
  st_trace_id : pystr
}.

(** [status_job.attr if status_job is not None else None] for
    [status_job = embedding_job or ingestion_job]. *)
Definition of_job {A} (fe : EmbeddingJobRecord -> option A) (fi : IngestionJobRecord -> option A)
    (e : option EmbeddingJobRecord) (i : option IngestionJobRecord) : option A :=
  match e, i with
  | Some e, _ => fe e
  | None, Some i => fi i
  | None, None => None
  end.

Definition get_document_version_status (tenant document version : pystr)
  : M (option DocumentVersionStatusResult) :=
  o <- get_version P tenant version;;
  match o with
  | None => mreturn None
  | Some v =>
      if negb (bool_decide (v_document_id v = document)) then mreturn None else
      count <- _count_chunks_for_version P tenant document version;;
      e <- _latest_embedding_job_model P tenant document version None;;
      i <- _latest_ingestion_job_model P tenant document version;;
      let summary := match e with
                     | Some e => _dict_from_object (dict_get (u "embedding_artifact_summary") (ej_metadata e))
                     | None => [] end in
      let vectors := _dict_from_object (dict_get (u "vector_index_summary") summary) in
      let error_code := of_job ej_error_code ij_error_code e i in
      mreturn (Some
        {| st_document_id := document; st_version_id := version;
           st_status := _effective_version_status (v_status v) (v_deleted_at v) (ej_status <$> e);
           st_chunk_count := count;
           st_provider := ej_provider <$> e; st_model := ej_model <$> e;
           st_version := e ≫= ej_version; st_dim := e ≫= ej_dim;
           st_vector_count := as_int (get_or_none "vector_count" vectors);
           st_index_status := match get_or_none "status" vectors with VNone => None | x => Some (py_str x) end;
           st_job_id := of_job (fun e => Some (ej_id e)) (fun i => Some (ij_id i)) e i;
           st_attempt_count := of_job (fun e => Some (ej_attempt_count e)) (fun i => Some (ij_attempt_count i)) e i;
           st_last_attempt_at := of_job ej_last_attempt_at ij_last_attempt_at e i;
           st_next_retry_at := of_job ej_next_retry_at ij_next_retry_at e i;
           st_deleted_at := v_deleted_at v; st_error_code := error_code;
           st_error_summary := _safe_error_summary error_code;
           st_request_id := []; st_trace_id := [] |})
  end.

(** [latest_job_status]: the scalar subquery of a version. *)
Definition latest_job_status (t : document_db) (v : version_row) : option pystr :=
  ej_status <$> newest embedding_order
    (List.filter (embedding_of (v_tenant v) (v_document_id v) (v_id v)) (t_embedding t)).

(** [version_status]: the [CASE]; a comparison with [NULL] is not true. *)
Definition sql_version_status (t : document_db) (v : version_row) : pystr :=
  match latest_job_status t v with
  | Some s =>
      if negb (is_some (v_deleted_at v)) && negb (bool_decide (v_status v ∈ _PROTECTED_VERSION_STATUSES))
         && bool_decide (s ∈ _EMBEDDING_STATUS_OVERRIDES)
      then s else v_status v
  | None => v_status v
  end.

(** [ORDER BY CASE ... DESC, created_at DESC, id DESC LIMIT 1]: live rows first. *)
Definition sql_older (a b : version_row) : bool :=
  if eqb (version_live a) (version_live b) then older_key (version_order a) (version_order b)
  else version_live b.
Definition sql_latest_version (t : document_db) (d : document_row) : option version_row :=
  foldl (fun best x => match best with
                       | Some b => if sql_older b x then Some x else Some b
                       | None => Some x
                       end) None (List.filter (version_of (d_tenant d) (d_id d)) (t_versions t)).

(** [coalesce(latest_version_status, documents.status)]. *)
Definition _effective_document_status_expression (t : document_db) (d : document_row) : pystr :=
  default (d_status d) (sql_version_status t <$> sql_latest_version t d).

Definition list_documents (tenant : pystr) (status : option pystr) (limit cursor : option nat)
  : M (list document_row) :=
  let failed := StorageError "DOCUMENT_STORAGE_QUERY_FAILED" "Document storage query failed." [] in
  _ <- query P failed;;
  t <- the_db;;
  let rows := List.filter (fun d => bool_decide (d_tenant d = tenant)
                && match status with
                   | Some s => bool_decide (_effective_document_status_expression t d = s)
                   | None => true end) (t_documents t) in
  let sorted := py_sort (fun a b => older_key (document_order a) (document_order b)) rows in
  let page := match limit with Some n => take n | None => id end
                (match cursor with Some n => drop n sorted | None => sorted end) in
  mlift (records (fun d => r ← document_record_from_model d;
                           mret (d_set (_effective_document_status_expression t d) (d_deleted_at r)
                                   (dr_metadata (d_rec r)) r)) page).

Definition list_versions (tenant document : pystr) (status : option pystr) : M (list version_row) :=
  _ <- query P (StorageError "DOCUMENT_STORAGE_QUERY_FAILED" "Document storage query failed." []);;
  t <- the_db;;
  mlift (records document_version_record_from_model
    (py_sort (fun a b => time_lt (v_created_at a) (v_created_at b))
      (List.filter (fun v => version_of tenant document v
         && match status with Some s => bool_decide (v_status v = s) | None => true end) (t_versions t)))).

Definition list_ingestion_jobs (tenant : pystr) (status version : option pystr) : M (list IngestionJobRecord) :=
  _ <- query P (StorageError "DOCUMENT_STORAGE_QUERY_FAILED" "Document storage query failed." []);;
  t <- the_db;;
  mlift (records ingestion_job_record_from_model
    (py_sort (fun a b => time_lt (ij_created_at a) (ij_created_at b))
      (List.filter (fun j => bool_decide (ij_tenant_id j = tenant)
         && match status with Some s => bool_decide (ij_status j = s) | None => true end
         && match version with Some x => bool_decide (ij_version_id j = x) | None => true end) (t_ingestion t)))).

Definition list_embedding_jobs (tenant : pystr) (status version : option pystr) : M (list EmbeddingJobRecord) :=
  _ <- query P (StorageError "DOCUMENT_STORAGE_QUERY_FAILED" "Document storage query failed." []);;
  t <- the_db;;
  mlift (records embedding_job_record_from_model
    (py_sort (fun a b => time_lt (ej_created_at a) (ej_created_at b))
      (List.filter (fun j => bool_decide (ej_tenant_id j = tenant)
         && match status with Some s => bool_decide (ej_status j = s) | None => true end
         && match version with Some x => bool_decide (ej_version_id j = x) | None => true end) (t_embedding t)))).
End Operations.

(** * The review of a document

    [_latest_review_version] of [packages/data/lifecycle.py]: the newest live
    version, or the newest of all when none is live.  Times written in ISO form in
    one time zone compare as the times do. *)
Definition _latest_review_version (versions : list version_row) : option version_row :=
  match versions with
  | [] => None
  | _ =>
      let active := List.filter version_live versions in
      last (py_sort (fun a b => older_key (version_order a) (version_order b))
              match active with [] => versions | _ => active end)
  end.
