(* ===== verification/DocumentGuarantee.v ===== *)
(** Guarantees of the document repository.

    Proofs about [DocumentStore]: the invariant of its tables, that deletion is
    final, how jobs are claimed and superseded, when a version becomes retrievable,
    and that the status the listing shows is the one of the review. *)

From Stdlib Require Import ZArith String Sorting.Sorted Permutation.
From S2P Require Import Prelude Effects Float64 PyVal Access Redact SourceMetadata Rrf ContextPacker AgentDto RagDto.
From S2P Require Import Hydration RagStreaming DocumentStore.
From stdpp Require Import base list numbers sorting sets relations.

Open Scope eff_scope.

Arguments newest : simpl never.
Arguments DELETED : simpl never.
Arguments FAILED_RETRYABLE : simpl never.
Arguments FAILED_TERMINAL : simpl never.

(** * The invariant of the tables *)

(** What the newest live version of a document says its status is. *)
Definition mirrored_status (tenant document : pystr) (t : document_db) : pystr :=
  match latest_live_version tenant document t with Some v => v_status v | None => DELETED end.

(** A row is marked deleted in both its columns or in neither. *)
Definition version_marked (v : version_row) : Prop := is_some (v_deleted_at v) = bool_decide (v_status v = DELETED).
Definition document_marked (d : document_row) : Prop := is_some (d_deleted_at d) = bool_decide (d_status d = DELETED).

(** The invariant, less the status of the documents with the identifier [but]. *)
Record ok_but (but : option pystr) (t : document_db) : Prop := {
  ok_documents : NoDup (d_id <$> t_documents t);
  ok_versions : NoDup (v_id <$> t_versions t);
  ok_document_marks : Forall document_marked (t_documents t);
  ok_version_marks : Forall version_marked (t_versions t);
  ok_owner : Forall (fun v => exists d, d ∈ t_documents t /\ d_id d = v_document_id v
                                        /\ d_tenant d = v_tenant v) (t_versions t);
  ok_ingestion : Forall (fun j => exists v, v ∈ t_versions t /\ v_id v = ij_version_id j
                                  /\ v_document_id v = ij_document_id j) (t_ingestion t);
  ok_embedding : Forall (fun j => exists v, v ∈ t_versions t /\ v_id v = ej_version_id j
                                  /\ v_document_id v = ej_document_id j) (t_embedding t);
  ok_ingestion_ids : NoDup (ij_id <$> t_ingestion t);
  ok_embedding_ids : NoDup (ej_id <$> t_embedding t);
  ok_mirror : Forall (fun d => Some (d_id d) <> but ->
                d_status d = mirrored_status (d_tenant d) (d_id d) t) (t_documents t)
}.
Definition db_ok : document_db -> Prop := ok_but None.

Lemma ok_weaken but t : db_ok t -> ok_but but t.
Proof.
  intros []. split; try done. eapply Forall_impl; [done|]. intros d Hd _. by apply Hd.
Qed.

(** * What never goes back *)

Definition version_gone (id : pystr) (t : document_db) : Prop :=
  exists v, v ∈ t_versions t /\ v_id v = id /\ version_live v = false.
Definition document_gone (id : pystr) (t : document_db) : Prop :=
  exists d, d ∈ t_documents t /\ d_id d = id /\ document_live d = false.
Definition ingestion_attempt (id : pystr) (n : Z) (t : document_db) : Prop :=
  exists j, j ∈ t_ingestion t /\ ij_id j = id /\ (n <= ij_attempt_count j)%Z.
Definition embedding_attempt (id : pystr) (n : Z) (t : document_db) : Prop :=
  exists j, j ∈ t_embedding t /\ ej_id j = id /\ (n <= ej_attempt_count j)%Z.

Record grows (t t' : document_db) : Prop := {
  grows_version : forall id, version_gone id t -> version_gone id t';
  grows_document : forall id, document_gone id t -> document_gone id t';
  grows_ingestion : forall id n, ingestion_attempt id n t -> ingestion_attempt id n t';
  grows_embedding : forall id n, embedding_attempt id n t -> embedding_attempt id n t'
}.

#[export] Instance grows_preorder : PreOrder grows.
Proof.
  split; [by split|]. intros t1 t2 t3 [] []. split; eauto.
Qed.

(** * Updates of rows *)

Lemma update_where_elem {A} p (f : A -> A) l y :
  y ∈ update_where p f l <-> exists x, x ∈ l /\ y = if p x then f x else x.
Proof. unfold update_where. rewrite list_elem_of_fmap. naive_solver. Qed.

Lemma update_where_map {A B} (k : A -> B) p f l :
  (forall x, x ∈ l -> p x = true -> k (f x) = k x) -> k <$> update_where p f l = k <$> l.
Proof.
  unfold update_where. intros Hk. rewrite <- list_fmap_compose. apply list_fmap_ext.
  intros i x Hx. cbn. destruct (p x) eqn:E; [|done]. apply Hk; [by eapply list_elem_of_lookup_2|done].
Qed.

(** A filter that no updated row passes, before or after, is unchanged. *)
Lemma update_where_filter {A} (q : A -> bool) p f l :
  (forall x, x ∈ l -> p x = true -> q x = false /\ q (f x) = false) ->
  List.filter q (update_where p f l) = List.filter q l.
Proof.
  unfold update_where. induction l as [|x l IH]; intros Hq; [done|]. cbn.
  rewrite IH by (intros; apply Hq; [by right|done]).
  destruct (p x) eqn:E; [|done]. destruct (Hq x) as [-> ->]; [by left|done|done].
Qed.

Lemma update_where_length {A} p (f : A -> A) l : length (update_where p f l) = length l.
Proof. unfold update_where. by rewrite length_fmap. Qed.

Lemma find_elem {A} (p : A -> bool) l x : List.find p l = Some x -> x ∈ l /\ p x = true.
Proof. intros Hf. apply find_some in Hf as [Hi Hp]. split; [by apply list_elem_of_In|done]. Qed.

Lemma newest_elem {A} (key : A -> option Z * pystr) l b : newest key l = Some b -> b ∈ l.
Proof.
  unfold newest. assert (forall acc, foldl (fun best x => match best with
      | Some b => if older_key (key b) (key x) then Some x else Some b | None => Some x end) acc l = Some b ->
      acc = Some b \/ b ∈ l) as Hg.
  { induction l as [|x l IH]; cbn; intros acc Hf; [by left|].
    apply IH in Hf as [Hf|Hf]; [|right; by right].
    destruct acc as [c|]; [destruct (older_key _ _)|]; simplify_eq; try (by left); right; by left. }
  intros Hf. apply Hg in Hf as [?|?]; done.
Qed.

Lemma newest_app {A} (key : A -> option Z * pystr) l x :
  (forall y, y ∈ l -> older_key (key y) (key x) = true) -> newest key (l ++ [x]) = Some x.
Proof.
  intros Hx. unfold newest. rewrite foldl_app. cbn. fold (newest key l).
  destruct (newest key l) as [b|] eqn:E; [|done]. by rewrite (Hx b (newest_elem _ _ _ E)).
Qed.

(** ** Liveness *)

Lemma version_marked_live v : version_marked v -> version_live v = negb (bool_decide (v_status v = DELETED)).
Proof. unfold version_live, version_marked. intros ->. by destruct (bool_decide _). Qed.

Lemma document_marked_live d : document_marked d -> document_live d = negb (bool_decide (d_status d = DELETED)).
Proof. unfold document_live, document_marked. intros ->. by destruct (bool_decide _). Qed.

Lemma latest_live_elem tenant document t v : latest_live_version tenant document t = Some v ->
  v ∈ t_versions t /\ v_tenant v = tenant /\ v_document_id v = document /\ version_live v = true.
Proof.
  intros Hl%newest_elem. apply list_elem_of_In, filter_In in Hl as [Hi Hp]. unfold version_of in Hp.
  bool_inv. split_and!; try done. by apply list_elem_of_In.
Qed.

Lemma latest_live_none tenant document t v : latest_live_version tenant document t = None ->
  v ∈ t_versions t -> v_tenant v = tenant -> v_document_id v = document -> version_live v = false.
Proof.
  intros Hl Hv <- <-. unfold latest_live_version in Hl. destruct (version_live v) eqn:Hlive; [|done].
  assert (v ∈ List.filter (fun v' => version_of (v_tenant v) (v_document_id v) v' && version_live v') (t_versions t))
    as Hin.
  { apply list_elem_of_In, filter_In. split; [by apply list_elem_of_In|].
    unfold version_of. by rewrite !bool_decide_true, Hlive. }
  destruct (List.filter _ _) as [|x l]; [by apply elem_of_nil in Hin|]. unfold newest in Hl. cbn in Hl.
  exfalso. clear Hin. revert Hl. generalize x. induction l as [|y l IH]; cbn; intros b Hl; [done|].
  destruct (older_key _ _); by eapply IH.
Qed.

(** * Table updates keep the invariant *)

(** A change of version rows that keeps their keys and marks them consistently. *)
Definition version_kept (f : version_row -> version_row) (v : version_row) : Prop :=
  v_id (f v) = v_id v /\ v_tenant (f v) = v_tenant v /\ v_document_id (f v) = v_document_id v
  /\ version_marked (f v).

Lemma update_versions_ok but p f t :
  ok_but (Some but) t ->
  (forall v, v ∈ t_versions t -> p v = true -> v_document_id v = but /\ version_kept f v) ->
  ok_but (Some but) (with_versions (update_where p f (t_versions t)) t).
Proof.
  intros Ok Hf.
  assert (forall v, v ∈ t_versions t -> exists v', v' ∈ update_where p f (t_versions t) /\ v_id v' = v_id v
            /\ v_document_id v' = v_document_id v) as Hsame.
  { intros v Hv. exists (if p v then f v else v). split; [apply update_where_elem; eauto|].
    destruct (p v) eqn:E; [|done]. by destruct (Hf v Hv E) as [_ (?&?&?&?)]. }
  split; cbn; try apply Ok.
  - rewrite update_where_map; [apply Ok|]. intros v Hv Hp. by destruct (Hf v Hv Hp) as [_ (?&?&?&?)].
  - apply list.Forall_forall. intros v (x & Hx & ->)%update_where_elem.
    destruct (p x) eqn:E; [by destruct (Hf x Hx E) as [_ (?&?&?&?)]|].
    pose proof (ok_version_marks _ _ Ok) as Hm. rewrite list.Forall_forall in Hm. by apply Hm.
  - pose proof (ok_owner _ _ Ok) as Ho. rewrite list.Forall_forall in Ho |- *.
    intros v (x & Hx & ->)%update_where_elem. destruct (Ho x Hx) as (d & Hd & E1 & E2). exists d.
    destruct (p x) eqn:E; [|done]. destruct (Hf x Hx E) as [_ (?&?&?&?)]. split_and!; congruence.
  - pose proof (ok_ingestion _ _ Ok) as Hj. rewrite list.Forall_forall in Hj |- *.
    intros j Hi. destruct (Hj j Hi) as (v & Hv & E1 & E2). destruct (Hsame v Hv) as (v' & ? & ? & ?).
    exists v'. split_and!; congruence.
  - pose proof (ok_embedding _ _ Ok) as Hj. rewrite list.Forall_forall in Hj |- *.
    intros j Hi. destruct (Hj j Hi) as (v & Hv & E1 & E2). destruct (Hsame v Hv) as (v' & ? & ? & ?).
    exists v'. split_and!; congruence.
  - pose proof (ok_mirror _ _ Ok) as Hm. rewrite list.Forall_forall in Hm |- *.
    intros d Hd Hb. rewrite (Hm d Hd Hb). unfold mirrored_status, latest_live_version. cbn.
    rewrite update_where_filter; [done|]. intros v Hv Hp. destruct (Hf v Hv Hp) as [E (_ & _ & E' & _)].
    unfold version_of. rewrite E', (bool_decide_false (v_document_id v = d_id d)) by congruence.
    by rewrite !andb_false_r.
Qed.

(** A change of the excepted document that leaves it with the mirrored status. *)
Definition document_kept (f : document_row -> document_row) (d : document_row) : Prop :=
  d_id (f d) = d_id d /\ d_tenant (f d) = d_tenant d /\ document_marked (f d).

Lemma update_documents_ok but but' f t :
  ok_but (Some but) t ->
  (forall d, d ∈ t_documents t -> d_id d = but -> document_kept f d /\
     (Some but <> but' -> d_status (f d) = mirrored_status (d_tenant d) (d_id d) t)) ->
  ok_but but' (set_document but f t).
Proof.
  intros Ok Hf. assert (forall d, d ∈ t_documents t -> bool_decide (d_id d = but) = true -> d_id (f d) = d_id d
    /\ d_tenant (f d) = d_tenant d /\ document_marked (f d)) as Hk.
  { intros d Hd Hb. bool_inv. destruct (Hf d Hd Hb) as [Hk _]. exact Hk. }
  split; cbn; try apply Ok.
  - rewrite update_where_map; [apply Ok|]. intros d Hd Hb. by apply Hk.
  - apply list.Forall_forall. intros v (x & Hx & ->)%update_where_elem.
    destruct (bool_decide _) eqn:E; [by apply Hk|].
    pose proof (ok_document_marks _ _ Ok) as Hm. rewrite list.Forall_forall in Hm. by apply Hm.
  - pose proof (ok_owner _ _ Ok) as Ho. rewrite list.Forall_forall in Ho |- *. intros v Hv.
    destruct (Ho v Hv) as (d & Hd & E1 & E2). exists (if bool_decide (d_id d = but) then f d else d).
    split; [apply update_where_elem; eauto|].
    destruct (bool_decide _) eqn:E; [|done]. destruct (Hk d Hd E) as (-> & -> & _). done.
  - pose proof (ok_mirror _ _ Ok) as Hm. rewrite list.Forall_forall in Hm |- *.
    intros d (x & Hx & ->)%update_where_elem Hb. destruct (bool_decide _) eqn:E.
    + destruct (Hk x Hx E) as (E1 & E2 & _). bool_inv. rewrite E1, E2 in *. subst but.
      destruct (Hf x Hx eq_refl) as [_ ->]; done.
    + apply (Hm x Hx). bool_inv. congruence.
Qed.

Lemma set_ingestion_ok but p f t : ok_but but t ->
  (forall j, ij_id (f j) = ij_id j /\ ij_version_id (f j) = ij_version_id j
             /\ ij_document_id (f j) = ij_document_id j) ->
  ok_but but (with_ingestion (update_where p f (t_ingestion t)) t).
Proof.
  intros Ok Hf. split; cbn; try apply Ok.
  - pose proof (ok_ingestion _ _ Ok) as Hj. rewrite list.Forall_forall in Hj |- *.
    intros j (x & Hx & ->)%update_where_elem. destruct (Hj x Hx) as (v & ? & ? & ?). exists v.
    destruct (p x); [|done]. destruct (Hf x) as (_ & -> & ->). done.
  - rewrite update_where_map; [apply Ok|]. intros j _ _. by destruct (Hf j) as (? & _ & _).
Qed.

Lemma set_embedding_ok but p f t : ok_but but t ->
  (forall j, ej_id (f j) = ej_id j /\ ej_version_id (f j) = ej_version_id j
             /\ ej_document_id (f j) = ej_document_id j) ->
  ok_but but (with_embedding (update_where p f (t_embedding t)) t).
Proof.
  intros Ok Hf. split; cbn; try apply Ok.
  - pose proof (ok_embedding _ _ Ok) as Hj. rewrite list.Forall_forall in Hj |- *.
    intros j (x & Hx & ->)%update_where_elem. destruct (Hj x Hx) as (v & ? & ? & ?). exists v.
    destruct (p x); [|done]. destruct (Hf x) as (_ & -> & ->). done.
  - rewrite update_where_map; [apply Ok|]. intros j _ _. by destruct (Hf j) as (? & _ & _).
Qed.

Lemma with_chunks_ok but l t : ok_but but t -> ok_but but (with_chunks l t).
Proof. intros []. by split. Qed.

(** ** New rows *)

Lemma NoDup_snoc {A} (l : list A) x : NoDup l -> x ∉ l -> NoDup (l ++ [x]).
Proof. intros Hl Hx. apply NoDup_app. split_and!; [done|set_solver|apply NoDup_singleton]. Qed.

Lemma Forall_snoc' {A} (Q : A -> Prop) l x : Forall Q l -> Q x -> Forall Q (l ++ [x]).
Proof. intros. apply Forall_app. auto. Qed.

(** A document whose identifier is new has no version yet. *)
Lemma add_document_ok d t : db_ok t -> d_id d ∉ d_id <$> t_documents t -> document_marked d ->
  ok_but (Some (d_id d)) (add_document d t).
Proof.
  intros Ok Hn Hm. split; cbn; try apply Ok.
  - rewrite fmap_app. by apply NoDup_snoc; [apply Ok|].
  - by apply Forall_snoc'; [apply Ok|].
  - eapply Forall_impl; [apply (ok_owner _ _ Ok)|]. cbn. intros v (x & Hx & ?). exists x. split; [set_solver|done].
  - apply Forall_snoc'; [|done]. eapply Forall_impl; [apply (ok_mirror _ _ Ok)|]. intros x Hx _. by apply Hx.
Qed.

Lemma add_version_ok v t : ok_but (Some (v_document_id v)) t ->
  v_id v ∉ v_id <$> t_versions t -> version_marked v -> version_live v = true ->
  (exists d, d ∈ t_documents t /\ d_id d = v_document_id v /\ d_tenant d = v_tenant v
             /\ d_status d = v_status v) ->
  (forall x, x ∈ t_versions t -> v_document_id x = v_document_id v ->
     older_key (version_order x) (version_order v) = true) ->
  db_ok (add_version v t).
Proof.
  intros Ok Hn Hm Hl (d & Hd & E1 & E2 & E3) Hnew. split; cbn; try apply Ok.
  - rewrite fmap_app. by apply NoDup_snoc; [apply Ok|].
  - by apply Forall_snoc'; [apply Ok|].
  - apply Forall_snoc'; [apply Ok|eauto].
  - eapply Forall_impl; [apply (ok_ingestion _ _ Ok)|]. intros j (x & Hx & ?). exists x. split; [set_solver|done].
  - eapply Forall_impl; [apply (ok_embedding _ _ Ok)|]. intros j (x & Hx & ?). exists x. split; [set_solver|done].
  - pose proof (ok_mirror _ _ Ok) as Hmi. rewrite list.Forall_forall in Hmi |- *. intros x Hx _.
    unfold mirrored_status, latest_live_version. cbn. rewrite List.filter_app. cbn. unfold version_of at 2.
    destruct (decide (d_id x = v_document_id v)) as [E|E].
    + assert (x = d) as -> by (eapply (NoDup_fmap_elem d_id); [apply Ok|done|done|congruence]).
      rewrite E2, E, !bool_decide_true by done. rewrite Hl. cbn.
      rewrite newest_app; [done|]. intros y Hy. apply list_elem_of_In, filter_In in Hy as [Hy Hp].
      unfold version_of in Hp. bool_inv. apply Hnew; [by apply list_elem_of_In|done].
    + rewrite (bool_decide_false (v_document_id v = d_id x)) by congruence.
      rewrite andb_false_r. cbn. rewrite app_nil_r. apply (Hmi x Hx). congruence.
Qed.

Lemma add_ingestion_ok but j t : ok_but but t -> ij_id j ∉ ij_id <$> t_ingestion t ->
  (exists v, v ∈ t_versions t /\ v_id v = ij_version_id j /\ v_document_id v = ij_document_id j) ->
  ok_but but (add_ingestion j t).
Proof.
  intros Ok Hn Hv. split; cbn; try apply Ok.
  - by apply Forall_snoc'; [apply Ok|].
  - rewrite fmap_app. by apply NoDup_snoc; [apply Ok|].
Qed.

Lemma add_embedding_ok but j t : ok_but but t -> ej_id j ∉ ej_id <$> t_embedding t ->
  (exists v, v ∈ t_versions t /\ v_id v = ej_version_id j /\ v_document_id v = ej_document_id j) ->
  ok_but but (add_embedding j t).
Proof.
  intros Ok Hn Hv. split; cbn; try apply Ok.
  - by apply Forall_snoc'; [apply Ok|].
  - rewrite fmap_app. by apply NoDup_snoc; [apply Ok|].
Qed.

(** ** Growth *)

Lemma grows_versions p f t :
  (forall v, v ∈ t_versions t -> p v = true ->
     v_id (f v) = v_id v /\ (version_live v = false -> version_live (f v) = false)) ->
  grows t (with_versions (update_where p f (t_versions t)) t).
Proof.
  intros Hf. split; try done. intros id (v & Hv & E & Hl). cbn.
  exists (if p v then f v else v). cbn. split; [apply update_where_elem; eauto|].
  destruct (p v) eqn:Hp; [|done]. destruct (Hf v Hv Hp) as [-> ?]. auto.
Qed.

Lemma grows_documents did f t :
  (forall d, d ∈ t_documents t -> d_id d = did ->
     d_id (f d) = d_id d /\ (document_live d = false -> document_live (f d) = false)) ->
  grows t (set_document did f t).
Proof.
  intros Hf. split; try done. intros id (d & Hd & E & Hl). cbn.
  exists (if bool_decide (d_id d = did) then f d else d). cbn. split; [apply update_where_elem; eauto|].
  destruct (bool_decide _) eqn:Hp; [|done]. bool_inv. destruct (Hf d Hd Hp) as [-> ?]. auto.
Qed.

Lemma grows_set_ingestion p f t :
  (forall j, ij_id (f j) = ij_id j /\ (ij_attempt_count j <= ij_attempt_count (f j))%Z) ->
  grows t (with_ingestion (update_where p f (t_ingestion t)) t).
Proof.
  intros Hf. split; try done. intros id n (j & Hj & E & Hl). exists (if p j then f j else j). cbn.
  split; [apply update_where_elem; eauto|]. destruct (p j); [|done]. destruct (Hf j) as [-> ?]. split; [done|lia].
Qed.

Lemma grows_set_embedding p f t :
  (forall j, ej_id (f j) = ej_id j /\ (ej_attempt_count j <= ej_attempt_count (f j))%Z) ->
  grows t (with_embedding (update_where p f (t_embedding t)) t).
Proof.
  intros Hf. split; try done. intros id n (j & Hj & E & Hl). exists (if p j then f j else j). cbn.
  split; [apply update_where_elem; eauto|]. destruct (p j); [|done]. destruct (Hf j) as [-> ?]. split; [done|lia].
Qed.

Lemma grows_chunks l t : grows t (with_chunks l t).
Proof. by split. Qed.

Lemma grows_add_document d t : grows t (add_document d t).
Proof. split; try done. intros id (x & Hx & ?). exists x. cbn. split; [apply elem_of_app; by left|done]. Qed.
Lemma grows_add_version v t : grows t (add_version v t).
Proof. split; try done. intros id (x & Hx & ?). exists x. cbn. split; [apply elem_of_app; by left|done]. Qed.
Lemma grows_add_ingestion j t : grows t (add_ingestion j t).
Proof. split; try done. intros id n (x & Hx & ?). exists x. cbn. split; [apply elem_of_app; by left|done]. Qed.
Lemma grows_add_embedding j t : grows t (add_embedding j t).
Proof. split; try done. intros id n (x & Hx & ?). exists x. cbn. split; [apply elem_of_app; by left|done]. Qed.

(** * The session *)

(** A world with the published tables [c], the working copy [t] and the mark [a]. *)
Definition at_ {S} (c t : document_db) (a : bool) (w : store_world S) : Prop :=
  sw_committed w = c /\ sw_db w = t /\ sw_aborted w = a.

(** What a transaction that leaves [c] published keeps: its working copy satisfies
    the invariant unless it can only be rolled back, and loses nothing of [c]. *)
Definition kept {S R} (c : document_db) (_ : R) (w : store_world S) : Prop :=
  sw_committed w = c /\ (sw_aborted w = false -> db_ok (sw_db w)) /\ grows c (sw_db w).

Section Rules.
Context `{UnicodeDB} {S : Type} (P : store_ports S).

Lemma ends_asking {A} (f : S -> A * S) (Q : result exc A -> store_world S -> Prop) c t a w :
  at_ c t a w -> (forall x w', at_ c t a w' -> Q (Ok x) w') -> ends (ask f) Q w.
Proof. intros Ha HQ. unfold ends, ask. destruct (f (sw_ports w)) as [x s]. by apply HQ. Qed.

Lemma ends_change f (Q : result exc unit -> store_world S -> Prop) c t a w :
  at_ c t a w -> (forall w', at_ c (f t) a w' -> Q (Ok tt) w') -> ends (change f) Q w.
Proof. intros (<- & <- & <-) HQ. by apply HQ. Qed.

Lemma ends_db (Q : result exc document_db -> store_world S -> Prop) c t a w :
  at_ c t a w -> Q (Ok t) w -> ends the_db Q w.
Proof. intros (? & <- & ?) HQ. exact HQ. Qed.

Lemma ends_query error (Q : result exc unit -> store_world S -> Prop) c t a w :
  at_ c t a w ->
  (forall w', a = false -> at_ c t false w' -> Q (Ok tt) w') ->
  (forall w', at_ c t true w' -> Q (Err error) w') ->
  ends (query P error) Q w.
Proof.
  intros (<- & <- & <-) H1 H2. unfold query, refuses. apply ends_bind, ends_bind, ends_reads.
  destruct (sw_aborted w) eqn:Ha; [apply H2; by repeat split|].
  eapply (ends_asking _ _ _ _ false); [by repeat split|]. intros x w' Hw. destruct x; [|by apply H1].
  destruct Hw as (E1 & E2 & E3). apply H2. repeat split; [exact E1|exact E2].
Qed.

Lemma ends_flush refused error (Q : result exc unit -> store_world S -> Prop) c t a w :
  at_ c t a w ->
  (forall w', refused = false -> a = false -> at_ c t false w' -> Q (Ok tt) w') ->
  (forall w', at_ c c false w' -> Q (Err error) w') ->
  ends (flush P refused error) Q w.
Proof.
  intros (<- & <- & <-) H1 H2. unfold flush, refuses. apply ends_bind, ends_bind, ends_reads.
  destruct (sw_aborted w) eqn:Ha; [apply H2; by repeat split|].
  eapply (ends_asking _ _ _ _ false); [by repeat split|]. intros x w' Hw. destruct (x || refused) eqn:Hx.
  - destruct Hw as (E1 & E2 & E3). apply H2. repeat split; [exact E1|exact E1].
  - bool_inv. by apply H1.
Qed.

Lemma kept_ok {R} c t a (r : R) (w : store_world S) :
  at_ c t a w -> (a = false -> db_ok t) -> grows c t -> kept c r w.
Proof. intros (<- & <- & <-) Ht Hg. by split_and!. Qed.

(** ** Reads *)

Context (c : document_db) (Hc : db_ok c).

Lemma kept_rolled {R} (r : R) (w : store_world S) : at_ c c false w -> kept c r w.
Proof. intros Hw. eapply kept_ok; [exact Hw|done|reflexivity]. Qed.

Lemma kept_aborted {R} t (r : R) (w : store_world S) : grows c t -> at_ c t true w -> kept c r w.
Proof. intros Hg Hw. by eapply kept_ok. Qed.

(** The rules of a transaction for the postcondition [kept c]. *)

Lemma kept_query {A} error (k : unit -> eff exc (store_world S) A) t a w :
  at_ c t a w -> grows c t ->
  (forall w', a = false -> at_ c t false w' -> ends (k tt) (kept c) w') ->
  ends (mthen (query P error) k) (kept c) w.
Proof.
  intros Hw Hg Hk. apply ends_bind. eapply ends_query; [exact Hw|exact Hk|].
  intros w' Hw'. by eapply kept_aborted.
Qed.

Lemma kept_flush {A} refused error (k : unit -> eff exc (store_world S) A) t a w :
  at_ c t a w ->
  (forall w', refused = false -> a = false -> at_ c t false w' -> ends (k tt) (kept c) w') ->
  ends (mthen (flush P refused error) k) (kept c) w.
Proof.
  intros Hw Hk. apply ends_bind. eapply ends_flush; [exact Hw|exact Hk|]. intros w' Hw'. by apply kept_rolled.
Qed.

Lemma kept_ask {A B} (f : S -> B * S) (k : B -> eff exc (store_world S) A) t a w :
  at_ c t a w -> (forall x w', at_ c t a w' -> ends (k x) (kept c) w') ->
  ends (mthen (ask f) k) (kept c) w.
Proof. intros Hw Hk. apply ends_bind. by eapply ends_asking. Qed.

Lemma kept_change {A} f (k : unit -> eff exc (store_world S) A) t a w :
  at_ c t a w -> (forall w', at_ c (f t) a w' -> ends (k tt) (kept c) w') ->
  ends (mthen (change f) k) (kept c) w.
Proof. intros Hw Hk. apply ends_bind. by eapply ends_change. Qed.

Lemma kept_db {A} (k : document_db -> eff exc (store_world S) A) t a w :
  at_ c t a w -> ends (k t) (kept c) w -> ends (mthen the_db k) (kept c) w.
Proof. intros Hw Hk. apply ends_bind. by eapply ends_db. Qed.

Lemma kept_lift {A} (r : result exc A) t a (w : store_world S) :
  at_ c t a w -> (a = false -> db_ok t) -> grows c t -> ends (mlift r) (kept c) w.
Proof. intros. by eapply ends_lift, kept_ok. Qed.

Lemma kept_lift_bind {A B} (r : result exc B) (k : B -> eff exc (store_world S) A) t a w :
  at_ c t a w -> (a = false -> db_ok t) -> grows c t ->
  (forall x, ends (k x) (kept c) w) -> ends (mthen (mlift r) k) (kept c) w.
Proof.
  intros Hw Ht Hg Hk. apply ends_bind, ends_lift. destruct r; [apply Hk|by eapply kept_ok].
Qed.

Lemma kept_ret {A} (x : A) t a (w : store_world S) :
  at_ c t a w -> (a = false -> db_ok t) -> grows c t -> ends (E := exc) (mreturn x) (kept c) w.
Proof. intros. by eapply ends_ret, kept_ok. Qed.

Lemma kept_raise {A} e t a (w : store_world S) :
  at_ c t a w -> (a = false -> db_ok t) -> grows c t -> ends (E := exc) (mraise (A := A) e) (kept c) w.
Proof. intros. by eapply ends_raise, kept_ok. Qed.

Section Find.
Context {A B : Type} (t : document_db) (a : bool) (w : store_world S)
  (Hw : at_ c t a w) (Ht : a = false -> db_ok t) (Hg : grows c t).

Lemma kept_found (o : option B) e (k : B -> eff exc (store_world S) A) :
  (forall x, o = Some x -> ends (k x) (kept c) w) -> ends (mthen (found o e) k) (kept c) w.
Proof. intros Hk. apply ends_bind. destruct o; [by apply ends_ret, Hk|by eapply kept_raise]. Qed.

(** A read by key: what it finds is a row of the table with that key. *)
Lemma kept_row error (l : document_db -> list B) p e (k : B -> eff exc (store_world S) A) :
  (forall x w', a = false -> at_ c t false w' -> x ∈ l t -> p x = true -> ends (k x) (kept c) w') ->
  ends (mthen (_ <- query P error;; t <- the_db;; found (List.find p (l t)) e) k) (kept c) w.
Proof.
  intros Hk. apply ends_bind, ends_bind. eapply ends_query; [exact Hw|..].
  - intros w' -> Hw'. apply ends_bind. eapply ends_db; [exact Hw'|].
    destruct (List.find p (l t)) as [x|] eqn:E; [|by eapply kept_raise].
    apply find_elem in E as [? ?]. by apply ends_ret, Hk.
  - intros w' Hw'. by eapply kept_aborted.
Qed.
End Find.

Section Getters.
Context {A : Type} (t : document_db) (a : bool) (w : store_world S)
  (Hw : at_ c t a w) (Ht : a = false -> db_ok t) (Hg : grows c t).

Lemma kept_document tenant id (k : document_row -> eff exc (store_world S) A) :
  (forall d w', a = false -> at_ c t false w' -> d ∈ t_documents t -> d_tenant d = tenant -> d_id d = id ->
     ends (k d) (kept c) w') ->
  ends (mthen (_get_document_model P tenant id) k) (kept c) w.
Proof.
  intros Hk. eapply kept_row; [done..|]. intros d w' Ha Hw' Hd Hp. unfold document_key in Hp. bool_inv. by apply Hk.
Qed.

Lemma kept_version tenant id (k : version_row -> eff exc (store_world S) A) :
  (forall v w', a = false -> at_ c t false w' -> v ∈ t_versions t -> v_tenant v = tenant -> v_id v = id ->
     ends (k v) (kept c) w') ->
  ends (mthen (_get_version_model P tenant id) k) (kept c) w.
Proof.
  intros Hk. eapply kept_row; [done..|]. intros d w' Ha Hw' Hd Hp. unfold version_key in Hp. bool_inv. by apply Hk.
Qed.

Lemma kept_ingestion tenant id (k : IngestionJobRecord -> eff exc (store_world S) A) :
  (forall j w', a = false -> at_ c t false w' -> j ∈ t_ingestion t -> ij_tenant_id j = tenant -> ij_id j = id ->
     ends (k j) (kept c) w') ->
  ends (mthen (_get_job P tenant id) k) (kept c) w.
Proof.
  intros Hk. eapply kept_row; [done..|]. intros d w' Ha Hw' Hd Hp. unfold ingestion_key in Hp. bool_inv. by apply Hk.
Qed.

Lemma kept_embedding tenant id (k : EmbeddingJobRecord -> eff exc (store_world S) A) :
  (forall j w', a = false -> at_ c t false w' -> j ∈ t_embedding t -> ej_tenant_id j = tenant -> ej_id j = id ->
     ends (k j) (kept c) w') ->
  ends (mthen (_get_embedding_job_model P tenant id) k) (kept c) w.
Proof.
  intros Hk. eapply kept_row; [done..|]. intros d w' Ha Hw' Hd Hp. unfold embedding_key in Hp. bool_inv. by apply Hk.
Qed.

Lemma kept_flush_job job code : ends (_flush_job P job code) (kept c) w.
Proof.
  unfold _flush_job. eapply kept_flush; [done|]. intros w' _ -> Hw'. eapply kept_db; [done|].
  eapply kept_found; [done..|]. intros x _. by eapply kept_lift.
Qed.

Lemma kept_flush_embedding job code : ends (_flush_embedding_job P job code) (kept c) w.
Proof.
  unfold _flush_embedding_job. eapply kept_flush; [done|]. intros w' _ -> Hw'. eapply kept_db; [done|].
  eapply kept_found; [done..|]. intros x _. by eapply kept_lift.
Qed.
End Getters.

(** The document of a changed version is brought back in step with it. *)
Lemma kept_sync {A} d (k : unit -> eff exc (store_world S) A) t w :
  at_ c t false w -> ok_but (Some (d_id d)) t -> grows c t -> d ∈ t_documents t ->
  d_deleted_at d = None ->
  (forall t' w', at_ c t' false w' -> db_ok t' -> grows c t' -> t_chunks t' = t_chunks t -> t_embedding t' = t_embedding t ->
     ends (k tt) (kept c) w') ->
  ends (mthen (_sync_document_status_from_latest_version P d) k) (kept c) w.
Proof.
  intros Hw Hok Hg Hd Hlive Hk. unfold _sync_document_status_from_latest_version, _latest_non_deleted_version_model.
  assert (forall x, x ∈ t_documents t -> d_id x = d_id d -> x = d) as Huniq.
  { intros x Hx E. eapply (NoDup_fmap_elem d_id); [apply Hok|done..]. }
  assert (document_live d = true) as Hdl.
  { pose proof (ok_document_marks _ _ Hok) as Hm. rewrite list.Forall_forall in Hm.
    unfold document_live. rewrite <- (Hm d Hd). by rewrite Hlive. }
  apply ends_bind, ends_bind, ends_bind.
  eapply ends_query; [exact Hw|..]; [|intros w' Hw'; by eapply kept_aborted].
  intros w1 _ Hw1. apply ends_bind. eapply ends_db; [exact Hw1|]. apply ends_ret.
  destruct (latest_live_version (d_tenant d) (d_id d) t) as [v|] eqn:E.
  - eapply ends_change; [exact Hw1|]. intros w2 Hw2. eapply Hk; [exact Hw2|..]; try done.
    + eapply update_documents_ok; [exact Hok|]. intros x Hx Ex. rewrite (Huniq x Hx Ex).
      apply latest_live_elem in E as Hv. destruct Hv as (Hv & _ & _ & Hvl). split.
      * split; [done|]. split; [done|]. unfold document_marked. cbn. rewrite Hlive. cbn.
        unfold version_live in Hvl. bool_inv. by rewrite bool_decide_false.
      * intros _. cbn. unfold mirrored_status. by rewrite E.
    + etrans; [exact Hg|]. apply grows_documents. intros x Hx Ex. rewrite (Huniq x Hx Ex), Hdl. done.
  - rewrite Hlive. apply ends_bind. eapply ends_asking; [exact Hw1|]. intros x w2 Hw2.
    eapply ends_change; [exact Hw2|]. intros w3 Hw3. eapply Hk; [exact Hw3|..]; try done.
    + eapply update_documents_ok; [exact Hok|]. intros y Hy Ey. rewrite (Huniq y Hy Ey). split.
      * split; [done|]. split; [done|]. unfold document_marked. cbn. by rewrite bool_decide_true.
      * intros _. cbn. unfold mirrored_status. by rewrite E.
    + etrans; [exact Hg|]. apply grows_documents. intros y Hy Ey. done.
Qed.
End Rules.

(** * Every operation keeps the invariant *)

Lemma ends_assoc_l {E W A B C} (m : eff E W A) (f : A -> eff E W B) (g : B -> eff E W C)
    (Q : result E C -> W -> Prop) w :
  ends (mthen m (fun a => mthen (f a) g)) Q w -> ends (mthen (mthen m f) g) Q w.
Proof. unfold ends, mthen. by destruct (m w) as [[a|e] w1]. Qed.

Lemma ends_ret_l {E W A B} (x : A) (g : A -> eff E W B) (Q : result E B -> W -> Prop) w :
  ends (g x) Q w -> ends (mthen (mreturn x) g) Q w.
Proof. done. Qed.

Lemma ends_raise_l {E W A B} e (g : A -> eff E W B) (Q : result E B -> W -> Prop) w :
  Q (Err e) w -> ends (mthen (mraise e) g) Q w.
Proof. done. Qed.

(** One step of a transaction for the postcondition [kept]. *)
Ltac world := intros; repeat match goal with H : ?a = false |- _ => is_var a; subst a end;
  repeat match goal with H : false = false |- _ => clear H end.
Ltac by_rule rule := eapply rule; first [eassumption | done | world].
Ltac by_bind := eapply kept_lift_bind; [eassumption | first [eassumption | done] | eassumption | world].
Ltac by_end rule := eapply rule; first [eassumption | done].
Ltac sql_step :=
  match goal with
  | |- ends (mthen (mthen _ _) _) _ _ => apply ends_assoc_l
  | |- ends (mthen (mreturn _) _) _ _ => apply ends_ret_l
  | |- ends (mthen (mraise _) _) _ _ => apply ends_raise_l; by eapply kept_ok
  | |- ends (mthen (query _ _) _) _ _ => by_rule @kept_query
  | |- ends (mthen (refresh _) _) _ _ => by_rule @kept_query
  | |- ends (mthen (flush _ _ _) _) _ _ => by_rule @kept_flush
  | |- ends (mthen (ask _) _) _ _ => by_rule @kept_ask
  | |- ends (mthen (change _) _) _ _ => by_rule @kept_change
  | |- ends (mthen the_db _) _ _ => by_rule @kept_db
  | |- ends (mthen (mlift _) _) _ _ => by_bind
  | |- ends (mthen (_get_document_model _ _ _) _) _ _ => by_rule @kept_document
  | |- ends (mthen (_get_version_model _ _ _) _) _ _ => by_rule @kept_version
  | |- ends (mthen (_get_job _ _ _) _) _ _ => by_rule @kept_ingestion
  | |- ends (mthen (_get_embedding_job_model _ _ _) _) _ _ => by_rule @kept_embedding
  | |- ends (mreturn _) _ _ => by_end @kept_ret
  | |- ends (mraise _) _ _ => by_end @kept_raise
  | |- ends (mlift _) _ _ => by_end @kept_lift
  | |- ends (if ?b then _ else _) _ _ => destruct b eqn:?; bool_inv
  | |- ends (mthen (if ?b then _ else _) _) _ _ => destruct b eqn:?; bool_inv
  | |- ends (match ?o with _ => _ end) _ _ => destruct o eqn:?
  | |- ends (mthen (match ?o with _ => _ end) _) _ _ => destruct o eqn:?
  end.
Ltac sql := repeat sql_step.
(** Up to the next branch. *)
Ltac sql_lines := repeat lazymatch goal with
  | |- ends (if _ then _ else _) _ _ => fail
  | |- ends (mthen (if _ then _ else _) _) _ _ => fail
  | _ => sql_step
  end; cbn [fst snd].

Section Kept.
Context `{UnicodeDB, PyRepr} {S : Type} (P : store_ports S) (c : document_db) (Hc : db_ok c).
Abbreviation M := (eff exc (store_world S)).

Definition good {A} (m : M A) : Prop := forall t a w,
  at_ c t a w -> (a = false -> db_ok t) -> grows c t -> ends m (kept c) w.

(** ** Reads *)

Lemma optional_record_kept {A} (make : A -> result exc A) o : good (optional_record make o).
Proof. intros t a w Hw Ht Hg. unfold optional_record. sql. Qed.

Lemma get_document_kept tenant id : good (get_document P tenant id).
Proof. intros t a w Hw Ht Hg. unfold get_document. sql. by eapply optional_record_kept. Qed.
Lemma get_version_kept tenant id : good (get_version P tenant id).
Proof. intros t a w Hw Ht Hg. unfold get_version. sql. by eapply optional_record_kept. Qed.
Lemma get_ingestion_job_kept tenant id : good (get_ingestion_job P tenant id).
Proof. intros t a w Hw Ht Hg. unfold get_ingestion_job. sql. by eapply optional_record_kept. Qed.
Lemma get_embedding_job_kept tenant id : good (get_embedding_job P tenant id).
Proof. intros t a w Hw Ht Hg. unfold get_embedding_job. sql. by eapply optional_record_kept. Qed.

Lemma list_documents_kept tenant status limit cursor : good (list_documents P tenant status limit cursor).
Proof. intros t a w Hw Ht Hg. unfold list_documents. cbn zeta. sql. Qed.
Lemma list_versions_kept tenant document status : good (list_versions P tenant document status).
Proof. intros t a w Hw Ht Hg. unfold list_versions. sql. Qed.
Lemma list_chunks_kept tenant document version status :
  good (list_chunks_for_version P tenant document version status).
Proof. intros t a w Hw Ht Hg. unfold list_chunks_for_version. sql. Qed.
Lemma list_ingestion_kept tenant status version : good (list_ingestion_jobs P tenant status version).
Proof. intros t a w Hw Ht Hg. unfold list_ingestion_jobs. sql. Qed.
Lemma list_embedding_kept tenant status version : good (list_embedding_jobs P tenant status version).
Proof. intros t a w Hw Ht Hg. unfold list_embedding_jobs. sql. Qed.
Lemma get_chunk_kept tenant chunk document version : good (get_chunk P tenant chunk document version).
Proof. intros t a w Hw Ht Hg. unfold get_chunk. sql. by eapply optional_record_kept. Qed.

Lemma one_or_none_kept {A B} (l : list A) e (k : option A -> M B) t a w :
  at_ c t a w -> (a = false -> db_ok t) -> grows c t -> (forall o, ends (k o) (kept c) w) ->
  ends (mthen (one_or_none l e) k) (kept c) w.
Proof. intros Hw Ht Hg Hk. unfold one_or_none. sql; apply Hk. Qed.

Lemma get_handoff_kept tenant job document version :
  good (get_ingestion_embedding_handoff P tenant job document version).
Proof.
  intros t a w Hw Ht Hg. unfold get_ingestion_embedding_handoff. cbn zeta. sql.
  eapply one_or_none_kept; [eassumption|done|done|]. intros o. sql.
  eapply one_or_none_kept; [eassumption|done|done|]. intros o'. sql.
Qed.

Lemma get_status_kept tenant document version : good (get_document_version_status P tenant document version).
Proof.
  intros t a w Hw Ht Hg. unfold get_document_version_status, get_version, optional_record,
    _count_chunks_for_version, _latest_embedding_job_model, _latest_ingestion_job_model. sql.
Qed.

(** ** Jobs *)

Lemma put_ingestion_ok p f t : db_ok t -> grows c t ->
  (forall j, ij_id (f j) = ij_id j /\ ij_version_id (f j) = ij_version_id j
             /\ ij_document_id (f j) = ij_document_id j /\ (ij_attempt_count j <= ij_attempt_count (f j))%Z) ->
  let t' := with_ingestion (update_where p f (t_ingestion t)) t in db_ok t' /\ grows c t'.
Proof.
  intros Ok Hg Hf. split; [apply set_ingestion_ok; [done|]|etrans; [exact Hg|apply grows_set_ingestion]];
    intros j; destruct (Hf j) as (? & ? & ? & ?); done.
Qed.

Lemma put_embedding_ok p f t : db_ok t -> grows c t ->
  (forall j, ej_id (f j) = ej_id j /\ ej_version_id (f j) = ej_version_id j
             /\ ej_document_id (f j) = ej_document_id j /\ (ej_attempt_count j <= ej_attempt_count (f j))%Z) ->
  let t' := with_embedding (update_where p f (t_embedding t)) t in db_ok t' /\ grows c t'.
Proof.
  intros Ok Hg Hf. split; [apply set_embedding_ok; [done|]|etrans; [exact Hg|apply grows_set_embedding]];
    intros j; destruct (Hf j) as (? & ? & ? & ?); done.
Qed.

Ltac job_row := intros; cbn; split_and!; done || lia.

Lemma mark_queued_kept tenant job queue : good (mark_ingestion_job_queued P tenant job queue).
Proof.
  intros t a w Hw Ht Hg. unfold mark_ingestion_job_queued. sql.
  destruct (put_ingestion_ok (fun x => bool_decide (ij_id x = ij_id j)) (ij_set_queue queue) t) as [? ?]; [auto|done|job_row|].
  eapply kept_flush_job; [done|eassumption|done|done].
Qed.

Lemma mark_parsing_kept tenant job : good (mark_ingestion_job_parsing P tenant job).
Proof.
  intros t a w Hw Ht Hg. unfold mark_ingestion_job_parsing. sql.
  edestruct (put_ingestion_ok (fun x => bool_decide (ij_id x = ij_id j))) as [? ?];
    [| | |eapply kept_flush_job; [done|eassumption|intros _; eassumption|eassumption]]; [auto|done|job_row].
Qed.

Lemma claim_ingestion_kept tenant job document version stale :
  good (claim_ingestion_job_parsing P tenant job document version stale).
Proof.
  intros t a w Hw Ht Hg. unfold claim_ingestion_job_parsing. cbn zeta. sql.
  edestruct put_ingestion_ok as [? ?]; [| | |eapply optional_record_kept; [eassumption|intros _; eassumption|eassumption]];
    [auto|done|job_row].
Qed.

Lemma claim_embedding_kept tenant job document version stale :
  good (claim_embedding_job P tenant job document version stale).
Proof.
  intros t a w Hw Ht Hg. unfold claim_embedding_job. cbn zeta. sql.
  edestruct put_embedding_ok as [? ?]; [| | |eapply optional_record_kept; [eassumption|intros _; eassumption|eassumption]];
    [auto|done|job_row].
Qed.

(** ** A version changes its status, and its document follows *)

Lemma kept_publish {A} d v status f (k : unit -> M A) t w :
  at_ c t false w -> db_ok t -> grows c t -> d ∈ t_documents t -> v ∈ t_versions t ->
  v_document_id v = d_id d -> d_deleted_at d = None -> v_deleted_at v = None -> status <> DELETED ->
  (forall t' w', at_ c t' false w' -> db_ok t' -> grows c t' -> t_embedding t' = t_embedding t ->
     ends (k tt) (kept c) w') ->
  ends (mthen (put_version (v_id v) status f)
          (fun _ => mthen (_sync_document_status_from_latest_version P d) k)) (kept c) w.
Proof.
  intros Hw Ok Hg Hd Hv Hvd Hdl Hvl Hs Hk. unfold put_version. sql_step.
  assert (forall x, x ∈ t_versions t -> bool_decide (v_id x = v_id v) = true -> x = v) as Huniq.
  { intros x Hx Ex. bool_inv. eapply (NoDup_fmap_elem v_id); [apply Ok|done..]. }
  eapply kept_sync; [eassumption|..]; try done.
  - apply update_versions_ok; [by apply ok_weaken|]. intros x Hx Ex. rewrite (Huniq x Hx Ex).
    split; [done|]. repeat split. unfold version_marked. cbn. rewrite Hvl. by rewrite bool_decide_false.
  - etrans; [exact Hg|]. apply grows_versions. intros x Hx Ex. rewrite (Huniq x Hx Ex). split; [done|].
    pose proof (ok_version_marks _ _ Ok) as Hm. rewrite list.Forall_forall in Hm.
    unfold version_live at 1. rewrite <- (Hm v Hv), Hvl. done.
  - intros t' w1 ? ? ? _ E. by eapply Hk.
Qed.

(** What the check of activity establishes. *)
Lemma kept_active {A} d v code (k : unit -> M A) t a w :
  at_ c t a w -> (a = false -> db_ok t) -> grows c t ->
  (v_document_id v = d_id d -> d_deleted_at d = None -> v_deleted_at v = None -> ends (k tt) (kept c) w) ->
  ends (mthen (_ensure_active_document_version d v code) k) (kept c) w.
Proof.
  intros Hw Ht Hg Hk. unfold _ensure_active_document_version. cbn zeta.
  sql_step; [by sql|]. sql_step; [by sql|]. sql_step. apply Hk; [done|..].
  - by destruct (d_deleted_at d).
  - by destruct (v_deleted_at v).
Qed.

Lemma mark_parsed_kept tenant job metadata : good (mark_ingestion_job_parsed P tenant job metadata).
Proof.
  intros t a w Hw Ht Hg. unfold mark_ingestion_job_parsed. sql.
  eapply kept_active; [eassumption|done|done|]. intros. unfold put_ingestion. sql_step.
  edestruct put_ingestion_ok as [? ?]; [| | |eapply kept_publish; [eassumption|eassumption|eassumption|..]];
    [auto|done|job_row|try done..].
  intros. by eapply kept_flush_job.
Qed.

Lemma mark_chunked_kept tenant job metadata : good (mark_ingestion_job_chunked P tenant job metadata).
Proof.
  intros t a w Hw Ht Hg. unfold mark_ingestion_job_chunked, _count_chunks_for_version. sql.
  eapply kept_active; [eassumption|done|done|]. intros. cbn zeta. unfold put_ingestion. sql.
  edestruct put_ingestion_ok as [? ?]; [| | |eapply kept_publish; [eassumption|eassumption|eassumption|..]];
    [auto|done|job_row|try done..].
  intros. by eapply kept_flush_job.
Qed.

Lemma ingestion_scope t j v : db_ok t -> j ∈ t_ingestion t -> v ∈ t_versions t ->
  v_id v = ij_version_id j -> v_document_id v = ij_document_id j.
Proof.
  intros Ok Hj Hv E. pose proof (ok_ingestion _ _ Ok) as Hs. rewrite list.Forall_forall in Hs.
  destruct (Hs j Hj) as (x & Hx & E1 & <-). f_equal. eapply (NoDup_fmap_elem v_id); [apply Ok|done|done|congruence].
Qed.

Lemma embedding_scope t j v : db_ok t -> j ∈ t_embedding t -> v ∈ t_versions t ->
  v_id v = ej_version_id j -> v_document_id v = ej_document_id j.
Proof.
  intros Ok Hj Hv E. pose proof (ok_embedding _ _ Ok) as Hs. rewrite list.Forall_forall in Hs.
  destruct (Hs j Hj) as (x & Hx & E1 & <-). f_equal. eapply (NoDup_fmap_elem v_id); [apply Ok|done|done|congruence].
Qed.

Lemma in_reach v d : out_of_reach v d = false -> v_deleted_at v = None /\ d_deleted_at d = None.
Proof. unfold out_of_reach. intros Ho. bool_inv. by destruct (v_deleted_at v), (d_deleted_at d). Qed.

Lemma mark_ingestion_failed_kept tenant job error status next expected : status <> DELETED ->
  good (mark_ingestion_job_failed P tenant job error status next expected).
Proof.
  intros Hs t a w Hw Ht Hg. unfold mark_ingestion_job_failed, locked_version, _latest_ingestion_job_model.
  sql_lines. sql_step; [by sql|]. sql_lines. sql_step; [by sql|].
  match goal with Ho : out_of_reach _ _ = false |- _ => apply in_reach in Ho as [Hv Hd] end.
  assert (v_document_id v = d_id d) as Hvd by (erewrite ingestion_scope; [symmetry; eassumption|by auto|done..]).
  do 2 sql_step. edestruct put_ingestion_ok as [Ok' Hg'];
    [| | |apply ends_assoc_l; eapply kept_query; [eassumption|exact Hg'|]]; [auto|done|job_row|].
  world. sql_lines. sql_step.
  - sql_step. eapply kept_publish; [eassumption|exact Ok'|exact Hg'|try done..].
    intros. by eapply kept_flush_job.
  - sql_step. by eapply kept_flush_job.
Qed.

Lemma mark_embedding_failed_kept tenant job error status next expected : status <> DELETED ->
  good (mark_embedding_job_failed P tenant job error status next expected).
Proof.
  intros Hs t a w Hw Ht Hg. unfold mark_embedding_job_failed, locked_version, _latest_embedding_job_model.
  sql_lines. sql_step; [by sql|]. sql_lines. sql_step; [by sql|].
  match goal with Ho : out_of_reach _ _ = false |- _ => apply in_reach in Ho as [Hv Hd] end.
  assert (v_document_id v = d_id d) as Hvd by (erewrite embedding_scope; [symmetry; eassumption|by auto|done..]).
  do 2 sql_step. edestruct put_embedding_ok as [Ok' Hg'];
    [| | |apply ends_assoc_l; eapply kept_query; [eassumption|exact Hg'|]]; [auto|done|job_row|].
  world. sql_lines. sql_step.
  - sql_step. eapply kept_publish; [eassumption|exact Ok'|exact Hg'|try done..].
    intros. by eapply kept_flush_embedding.
  - sql_step. by eapply kept_flush_embedding.
Qed.

(** The attributes of an embedded job, assigned one by one. *)
Lemma kept_describe {A} job summary (k : unit -> M A) t w :
  at_ c t false w -> db_ok t -> grows c t ->
  (forall t' w', at_ c t' false w' -> db_ok t' -> grows c t' -> t_documents t' = t_documents t ->
     t_versions t' = t_versions t -> ends (k tt) (kept c) w') ->
  ends (mthen (describe_embedding job summary) k) (kept c) w.
Proof.
  intros Hw Ok Hg Hk. unfold describe_embedding. cbn zeta.
  assert (forall B f (k' : unit -> M B) t0 w0, at_ c t0 false w0 -> db_ok t0 -> grows c t0 ->
    (forall j, ej_id (f j) = ej_id j /\ ej_version_id (f j) = ej_version_id j
       /\ ej_document_id (f j) = ej_document_id j /\ (ej_attempt_count j <= ej_attempt_count (f j))%Z) ->
    (forall t' w', at_ c t' false w' -> db_ok t' -> grows c t' -> t_documents t' = t_documents t0 ->
       t_versions t' = t_versions t0 -> ends (k' tt) (kept c) w') ->
    ends (mthen (change (set_embedding job f)) k') (kept c) w0) as Hput.
  { intros B f k' t0 w0 Hw0 Ok0 Hg0 Hf Hk'. sql_step. edestruct put_embedding_ok as [? ?];
      [| | |eapply Hk'; [eassumption|eassumption|eassumption|done|done]]; [done|done|exact Hf]. }
  repeat match goal with
  | |- ends (mthen (change _) _) _ _ => eapply Hput; [eassumption|eassumption|eassumption|job_row|intros]
  | |- ends (mthen _ _) _ _ => sql_step
  end.
  eapply Hk; [eassumption|eassumption|eassumption|congruence|congruence].
Qed.

Lemma mark_embedded_kept tenant job metadata : good (mark_embedding_job_embedded P tenant job metadata).
Proof.
  intros t a w Hw Ht Hg. unfold mark_embedding_job_embedded, _update_chunk_embedding_summary. cbn zeta. sql_lines.
  eapply kept_active; [eassumption|done|done|]. intros Hvd Hd Hv.
  eapply kept_describe; [eassumption|by auto|done|]. intros t1 w1 Hw1 Ok1 Hg1 E1 E2.
  eapply kept_publish; [eassumption|done|done|try (rewrite ?E1, ?E2; done)..].
  intros t2 w2 Hw2 Ok2 Hg2 _. sql. eapply kept_flush_embedding; [done|eassumption|..].
  - intros _. by apply with_chunks_ok.
  - etrans; [exact Hg2|apply grows_chunks].
Qed.

Lemma retrieval_ready_kept tenant document version index :
  good (mark_document_version_retrieval_ready P tenant document version index).
Proof.
  intros t a w Hw Ht Hg. unfold mark_document_version_retrieval_ready, _count_chunks_for_version,
    _latest_embedding_job_model. cbn zeta. sql_lines. sql_step; [by sql|].
  eapply kept_active; [eassumption|done|done|]. intros Hvd Hd Hv. sql.
  eapply kept_publish; [eassumption|by auto|done|try done..].
  intros t2 w2 Hw2 Ok2 Hg2 _. sql. eapply kept_found; [eassumption|done|done|]. intros. sql.
Qed.

(** ** Chunks *)

Lemma chunk_models_kept {A} now chunks (k : list chunk_row -> M A) t a w :
  at_ c t a w -> (forall rows w', at_ c t a w' -> ends (k rows) (kept c) w') ->
  ends (mthen (chunk_models P now chunks) k) (kept c) w.
Proof.
  revert k w. induction chunks as [|x l IH]; intros k w Hw Hk; cbn [chunk_models]; [by apply ends_ret_l, Hk|].
  apply ends_assoc_l. destruct (c_id x); [apply ends_ret_l|eapply kept_ask; [exact Hw|clear Hw; intros ? ? Hw]];
    apply ends_assoc_l; (eapply IH; [exact Hw|intros; by apply ends_ret_l, Hk]).
Qed.

Lemma replace_chunks_kept tenant document version chunks :
  good (replace_chunks_for_version P tenant document version chunks).
Proof.
  intros t a w Hw Ht Hg. unfold replace_chunks_for_version. cbn zeta. sql.
  eapply kept_active; [eassumption|done|done|]. intros _ _ _. sql.
  eapply chunk_models_kept; [eassumption|]. intros rows w1 Hw1. sql.
  eapply kept_lift; [eassumption|intros _; by apply with_chunks_ok, Ht|etrans; [exact Hg|apply grows_chunks]].
Qed.

Lemma soft_delete_chunks_kept tenant document version :
  good (soft_delete_chunks_for_version P tenant document version).
Proof.
  intros t a w Hw Ht Hg. unfold soft_delete_chunks_for_version. cbn zeta. sql.
  eapply kept_ret; [eassumption|intros _; by apply with_chunks_ok, Ht|etrans; [exact Hg|apply grows_chunks]].
Qed.

(** ** Deletion *)

(** A live version has a live document. *)
Lemma live_owner t d v : db_ok t -> d ∈ t_documents t -> v ∈ t_versions t -> v_document_id v = d_id d ->
  v_tenant v = d_tenant d -> version_live v = true -> d_deleted_at d = None.
Proof.
  intros Ok Hd Hv E1 E2 Hl.
  pose proof (ok_mirror _ _ Ok) as Hm. rewrite list.Forall_forall in Hm. specialize (Hm d Hd ltac:(done)).
  pose proof (ok_document_marks _ _ Ok) as Hk. rewrite list.Forall_forall in Hk. specialize (Hk d Hd).
  unfold mirrored_status in Hm. destruct (latest_live_version (d_tenant d) (d_id d) t) as [x|] eqn:E.
  - apply latest_live_elem in E as (_ & _ & _ & Hx). unfold version_live in Hx. bool_inv.
    unfold document_marked in Hk. rewrite bool_decide_false in Hk by congruence. by destruct (d_deleted_at d).
  - by rewrite (latest_live_none _ _ _ v E Hv E2 E1) in Hl.
Qed.

(** A document none of whose versions is live is marked deleted. *)
Lemma delete_document_ok now by_ did t : ok_but (Some did) t ->
  (forall d v, d ∈ t_documents t -> d_id d = did -> v ∈ t_versions t -> v_tenant v = d_tenant d ->
     v_document_id v = did -> version_live v = false) ->
  db_ok (set_document did (delete_document_row now by_) t).
Proof.
  intros Ok Hnone. eapply update_documents_ok; [exact Ok|]. intros d Hd E. split.
  - by repeat split.
  - intros _. cbn. unfold mirrored_status.
    destruct (latest_live_version (d_tenant d) (d_id d) t) as [v|] eqn:El; [|done].
    apply latest_live_elem in El as (Hv & E1 & E2 & Hl). by rewrite (Hnone d v Hd E Hv E1) in Hl; [|congruence].
Qed.

Lemma delete_document_grows now by_ did t : grows t (set_document did (delete_document_row now by_) t).
Proof. apply grows_documents. intros d _ _. done. Qed.

Lemma soft_delete_document_kept tenant document by_ : good (soft_delete_document P tenant document by_).
Proof.
  intros t a w Hw Ht Hg. unfold soft_delete_document. cbn zeta. sql_lines.
  assert (db_ok t) as Ok by auto. eapply kept_ret; [eassumption|intros _|].
  - apply delete_document_ok.
    + apply update_versions_ok; [by apply ok_weaken|]. intros v Hv Hp. unfold version_of in Hp. bool_inv.
      split; [congruence|]. by repeat split.
    + cbn. intros d1 v Hx Ex Hv E1 E2. apply update_where_elem in Hv as (y & Hy & ->).
      destruct (version_of tenant document y && version_live y) eqn:Ey; [done|].
      assert (d1 = d) as -> by (eapply (NoDup_fmap_elem d_id); [apply Ok|done|done|congruence]).
      unfold version_of in Ey. rewrite !bool_decide_true in Ey by congruence. exact Ey.
  - etrans; [exact Hg|]. etrans; [|apply delete_document_grows]. apply grows_versions. intros v _ _. done.
Qed.

Lemma soft_delete_version_kept tenant document version by_ :
  good (soft_delete_document_version P tenant document version by_).
Proof.
  intros t a w Hw Ht Hg. unfold soft_delete_document_version, _count_non_deleted_versions.
  sql_lines. sql_step; [by sql|]. sql_step; [by sql|].
  assert (db_ok t) as Ok by auto. do 3 sql_step.
  assert (d_deleted_at d = None) as Hdl.
  { eapply (live_owner t d v); try done; try congruence. unfold version_live.
    rewrite (bool_decide_false (v_status v = DELETED)) by done. by destruct (v_deleted_at v). }
  match goal with Hx : at_ c (set_version ?i ?f ?t0) false _ |- _ =>
    assert (ok_but (Some (d_id d)) (set_version i f t0) /\ grows c (set_version i f t0)) as [Ok1 Hg1] end.
  { assert (forall y, y ∈ t_versions t -> bool_decide (v_id y = v_id v) = true -> y = v) as Huniq
      by (intros y Hy Ey; bool_inv; eapply (NoDup_fmap_elem v_id); [apply Ok|done..]).
    split.
    - apply update_versions_ok; [by apply ok_weaken|]. intros y Hy Ey. rewrite (Huniq y Hy Ey). split; [congruence|].
      by repeat split.
    - etrans; [exact Hg|]. apply grows_versions. intros y _ _. done. }
  sql_lines. sql_step; [sql_lines|].
  - eapply kept_ret; [eassumption|intros _; apply delete_document_ok; [exact Ok1|]|etrans; [exact Hg1|apply delete_document_grows]].
    cbn. intros x1 v1 Hx1 Ex1 Hv1 E1 E2. destruct (version_live v1) eqn:Hl; [exfalso|done].
    assert (x1 = d) as -> by (eapply (NoDup_fmap_elem d_id); [apply Ok|done..]).
    match goal with Hn : Z.of_nat (length ?l) = 0%Z |- _ =>
      assert (v1 ∈ l) as Hin; [|destruct l; [by apply elem_of_nil in Hin|done]] end.
    apply list_elem_of_In, filter_In. split; [by apply list_elem_of_In|].
    unfold version_of. rewrite Hl, !bool_decide_true by congruence. cbn.
    apply update_where_elem in Hv1 as (y & Hy & ->). destruct (bool_decide (v_id y = v_id v)) eqn:Ey; [done|].
    bool_inv. rewrite bool_decide_false by congruence. done.
  - eapply kept_sync; [eassumption|exact Ok1|exact Hg1|done|done|]. intros. sql.
Qed.

(** ** New rows *)

(** The records of a first upload: one live document with one version and its job. *)
Record upload_ok (document : document_row) (version : version_row) (job : IngestionJobRecord) : Prop := {
  up_document : document_live document = true;
  up_version : version_live version = true;
  up_status : d_status document = v_status version;
  up_owner : v_document_id version = d_id document;
  up_tenant : v_tenant version = d_tenant document;
  up_job_document : ij_document_id job = d_id document;
  up_job_version : ij_version_id job = v_id version
}.

Lemma live_marked_version v : version_live v = true -> version_marked v.
Proof.
  unfold version_live, version_marked. intros Hl. bool_inv. rewrite bool_decide_false by done.
  by destruct (is_some _).
Qed.
Lemma live_marked_document d : document_live d = true -> document_marked d.
Proof.
  unfold document_live, document_marked. intros Hl. bool_inv. rewrite bool_decide_false by done.
  by destruct (is_some _).
Qed.

Lemma version_job_fresh v j ds t : version_job_conflict v j ds t = false ->
  v_id v ∉ v_id <$> t_versions t /\ ij_id j ∉ ij_id <$> t_ingestion t.
Proof. unfold version_job_conflict, has_version, has_ingestion. intros Hx. bool_inv. done. Qed.

(** The tables after an upload. *)
Lemma upload_tables document version job now t : upload_ok document version job -> db_ok t ->
  has_document (d_id document) t = false ->
  v_id version ∉ v_id <$> t_versions t -> ij_id job ∉ ij_id <$> t_ingestion t ->
  db_ok (add_ingestion (_job_model now job)
           (add_version (_version_model now version) (add_document (_document_model now document) t))).
Proof.
  intros [] Ok Hd Hv Hj. unfold has_document in Hd. bool_inv. apply add_ingestion_ok; [|done|].
  - apply add_version_ok; change (v_document_id (_version_model now version)) with (v_document_id version).
    + rewrite up_owner0. apply (add_document_ok (_document_model now document)); [done|done|by apply live_marked_document].
    + done.
    + by apply live_marked_version.
    + done.
    + exists (_document_model now document). split; [set_solver|done].
    + intros x Hx E. exfalso. pose proof (ok_owner _ _ Ok) as Ho. rewrite list.Forall_forall in Ho.
      destruct (Ho x Hx) as (d & Hin & Ed & _). apply Hd. rewrite <- up_owner0.
      rewrite <- E, <- Ed. by apply list_elem_of_fmap_2.
  - exists (_version_model now version). cbn. split; [set_solver|].
    change (v_id version = ij_version_id job /\ v_document_id version = ij_document_id job). split; congruence.
Qed.

Lemma create_upload_kept document version job : upload_ok document version job ->
  good (create_upload_records P document version job).
Proof.
  intros Hup t a w Hw Ht Hg. unfold create_upload_records. cbn zeta. sql_step. sql_step. sql_step. sql_step.
  bool_inv. match goal with Hx : version_job_conflict _ _ _ _ = false |- _ => apply version_job_fresh in Hx as [? ?] end.
  pose proof (upload_tables document version job x t Hup ltac:(auto) ltac:(done) ltac:(done) ltac:(done)) as Ok'.
  match type of Ok' with db_ok ?t' => assert (grows c t') as Hg' end.
  { etrans; [exact Hg|]. etrans; [|apply grows_add_ingestion]. etrans; [|apply grows_add_version]. apply grows_add_document. }
  do 3 (eapply kept_lift_bind; [eassumption|intros _; exact Ok'|exact Hg'|intros]).
  eapply kept_ret; [eassumption|intros _; exact Ok'|exact Hg'].
Qed.

Lemma create_embedding_kept job : good (create_embedding_job P job).
Proof.
  intros t a w Hw Ht Hg. unfold create_embedding_job. sql_lines. sql_step; [by sql|].
  eapply kept_active; [eassumption|done|done|]. intros Hvd _ _. sql_lines.
  eapply kept_lift; [eassumption| |etrans; [exact Hg|apply grows_add_embedding]]. intros _.
  unfold has_embedding in *. bool_inv. apply add_embedding_ok; [exact (Ht eq_refl)|done|].
  exists v. cbn. split_and!; [done|done|congruence].
Qed.

(** A version added to a document is the newest one: the row stored in [w'] comes
    after the rows of [w]. *)
Definition newest_version (version : version_row) (w w' : store_world S) : Prop :=
  forall v x, v ∈ t_versions (sw_db w') -> v_id v = v_id version -> x ∈ t_versions (sw_db w) ->
    v_document_id x = v_document_id version -> older_key (version_order x) (version_order v) = true.

(** The tables after a new version: its document takes its status. *)
Lemma version_tables d version job now meta t : db_ok t -> d ∈ t_documents t -> d_id d = v_document_id version ->
  d_tenant d = v_tenant version -> d_deleted_at d = None -> version_live version = true ->
  ij_document_id job = v_document_id version -> ij_version_id job = v_id version ->
  v_id version ∉ v_id <$> t_versions t -> ij_id job ∉ ij_id <$> t_ingestion t ->
  (forall x, x ∈ t_versions t -> v_document_id x = v_document_id version ->
     older_key (version_order x) (Some now, v_id version) = true) ->
  db_ok (add_ingestion (_job_model now job) (add_version (_version_model now version)
    (set_document (d_id d) (fun d => d_set (v_status version) (d_deleted_at d) (meta d) d) t))).
Proof.
  intros Ok Hd E1 E2 Hdl Hl E3 E4 Hv Hj Hnew.
  assert (forall x, x ∈ t_documents t -> d_id x = d_id d -> x = d) as Huniq
    by (intros x Hx E; eapply (NoDup_fmap_elem d_id); [apply Ok|done..]).
  apply add_ingestion_ok; [|done|].
  - apply add_version_ok; [| |by apply live_marked_version|done| |].
    + cbn. change (v_document_id (_version_model now version)) with (v_document_id version). rewrite <- E1.
      eapply update_documents_ok; [by apply ok_weaken|]. intros x Hx Ex. rewrite (Huniq x Hx Ex). split; [|done].
      split; [done|]. split; [done|]. unfold document_marked, version_live in *. cbn. bool_inv.
      by rewrite Hdl, bool_decide_false.
    + done.
    + eexists. split; [apply update_where_elem; exists d; split; [done|reflexivity]|].
      rewrite bool_decide_true by done. done.
    + intros x Hx Ex. by apply Hnew.
  - exists (_version_model now version). cbn. split; [set_solver|].
    change (v_id version = ij_version_id job /\ v_document_id version = ij_document_id job). split; congruence.
Qed.

Lemma create_version_kept version job t a w :
  at_ c t a w -> (a = false -> db_ok t) -> grows c t ->
  version_live version = true -> ij_version_id job = v_id version ->
  ends (create_document_version_records P version job)
    (fun r w' => newest_version version w w' -> kept c r w') w.
Proof.
  intros Hw Ht Hg Hl Hj. unfold create_document_version_records, _get_document_model.
  apply ends_bind, ends_bind. eapply ends_query; [exact Hw|..]; [|intros w' Hw' _; by eapply kept_aborted].
  intros w1 -> Hw1. specialize (Ht eq_refl). apply ends_bind. eapply ends_db; [exact Hw1|].
  destruct (List.find _ _) as [d|] eqn:Ed; [|apply ends_raise; intros _; by eapply kept_ok].
  apply find_elem in Ed as [Hd Hk]. unfold document_key in Hk. bool_inv. apply ends_ret.
  destruct (is_some (d_deleted_at d) || _) eqn:E1; [apply ends_raise; intros _; by eapply kept_ok|].
  destruct (negb _ || _) eqn:E2; [apply ends_raise; intros _; by eapply kept_ok|]. bool_inv.
  assert (d_deleted_at d = None) as Hdl by (by destruct (d_deleted_at d)).
  apply ends_bind. eapply ends_change; [exact Hw1|]. intros w2 Hw2.
  apply ends_bind. eapply ends_asking; [exact Hw2|]. intros now w3 Hw3.
  apply ends_bind. eapply ends_db; [exact Hw3|]. apply ends_bind.
  destruct (version_job_conflict _ _ _ _) eqn:Hc1; (eapply ends_flush; [exact Hw3|..]); try done;
    try (intros w' Hw' _; by eapply kept_rolled).
  intros w4 _ _ Hw4. apply version_job_fresh in Hc1 as [Hv1 Hj1]. apply ends_bind. eapply ends_change; [exact Hw4|].
  intros w5 Hw5.
  assert (newest_version version w w5 -> forall r : result exc (version_row * IngestionJobRecord), kept c r w5) as Hfin.
  { intros Hnew r. eapply kept_ok; [exact Hw5|intros _; eapply version_tables; try done; try congruence|].
    - intros x Hx Ex. destruct Hw as (_ & <- & _). apply (Hnew (_version_model now version) x); [|done..].
      destruct Hw5 as (_ & -> & _). cbn. set_solver.
    - etrans; [exact Hg|]. etrans; [|apply grows_add_ingestion]. etrans; [|apply grows_add_version].
      apply grows_documents. intros x Hx Ex.
      assert (x = d) as -> by (eapply (NoDup_fmap_elem d_id); [apply Ht|done..]). split; [done|].
      unfold document_live at 1. rewrite Hdl, bool_decide_false by done. done. }
  apply ends_bind, ends_lift. destruct (document_version_record_from_model _); [|intros Hn; by apply Hfin].
  apply ends_bind, ends_lift. destruct (ingestion_job_record_from_model _); [|intros Hn; by apply Hfin].
  apply ends_ret. intros Hn. by apply Hfin.
Qed.
End Kept.

(** * The repository as a state machine *)

Section Machine.
Context `{UnicodeDB, PyRepr} {S : Type} (P : store_ports S).
Abbreviation M := (eff exc (store_world S)).

(** The operations other than [commit], [rollback] and the creation of a version:
    uploads come as [DocumentUploadService] makes them, and a failure leaves one of
    the two failed statuses. *)
Inductive operation : forall {A : Type}, M A -> Prop :=
| op_upload document version job : upload_ok document version job ->
    operation (create_upload_records P document version job)
| op_get_document tenant id : operation (get_document P tenant id)
| op_get_version tenant id : operation (get_version P tenant id)
| op_get_ingestion tenant id : operation (get_ingestion_job P tenant id)
| op_get_embedding tenant id : operation (get_embedding_job P tenant id)
| op_get_handoff tenant job document version :
    operation (get_ingestion_embedding_handoff P tenant job document version)
| op_get_status tenant document version : operation (get_document_version_status P tenant document version)
| op_get_chunk tenant chunk document version : operation (get_chunk P tenant chunk document version)
| op_list_documents tenant status limit cursor : operation (list_documents P tenant status limit cursor)
| op_list_versions tenant document status : operation (list_versions P tenant document status)
| op_list_chunks tenant document version status :
    operation (list_chunks_for_version P tenant document version status)
| op_list_ingestion tenant status version : operation (list_ingestion_jobs P tenant status version)
| op_list_embedding tenant status version : operation (list_embedding_jobs P tenant status version)
| op_queued tenant job queue : operation (mark_ingestion_job_queued P tenant job queue)
| op_parsing tenant job : operation (mark_ingestion_job_parsing P tenant job)
| op_claim_ingestion tenant job document version stale :
    operation (claim_ingestion_job_parsing P tenant job document version stale)
| op_parsed tenant job metadata : operation (mark_ingestion_job_parsed P tenant job metadata)
| op_chunked tenant job metadata : operation (mark_ingestion_job_chunked P tenant job metadata)
| op_ingestion_failed tenant job error status next expected :
    status ∈ [FAILED_RETRYABLE; FAILED_TERMINAL] ->
    operation (mark_ingestion_job_failed P tenant job error status next expected)
| op_replace_chunks tenant document version chunks :
    operation (replace_chunks_for_version P tenant document version chunks)
| op_create_embedding job : operation (create_embedding_job P job)
| op_claim_embedding tenant job document version stale :
    operation (claim_embedding_job P tenant job document version stale)
| op_embedded tenant job metadata : operation (mark_embedding_job_embedded P tenant job metadata)
| op_embedding_failed tenant job error status next expected :
    status ∈ [FAILED_RETRYABLE; FAILED_TERMINAL] ->
    operation (mark_embedding_job_failed P tenant job error status next expected)
| op_ready tenant document version index :
    operation (mark_document_version_retrieval_ready P tenant document version index)
| op_delete_document tenant document by_ : operation (soft_delete_document P tenant document by_)
| op_delete_version tenant document version by_ :
    operation (soft_delete_document_version P tenant document version by_)
| op_delete_chunks tenant document version :
    operation (soft_delete_chunks_for_version P tenant document version).

(** One call on the repository, whatever it returns or raises. *)
Inductive store_step (w w' : store_world S) : Prop :=
| step_operation A (m : M A) r : operation m -> m w = (r, w') -> store_step w w'
| step_version version job r : version_live version = true -> ij_version_id job = v_id version ->
    create_document_version_records P version job w = (r, w') -> newest_version version w w' ->
    store_step w w'
| step_commit r : commit P w = (r, w') -> store_step w w'
| step_rollback r : rollback w = (r, w') -> store_step w w'.

Definition empty_tables : document_db :=
  {| t_documents := []; t_versions := []; t_ingestion := []; t_embedding := []; t_chunks := [] |}.
Definition initial (s : S) : store_world S :=
  {| sw_ports := s; sw_committed := empty_tables; sw_db := empty_tables; sw_aborted := false |}.

Lemma failure_not_deleted status : status ∈ [FAILED_RETRYABLE; FAILED_TERMINAL] -> status <> DELETED.
Proof. rewrite !elem_of_cons, elem_of_nil. intros [->|[->|[]]]; done. Qed.

Lemma operation_kept c (Hc : db_ok c) A (m : M A) : operation m -> good c m.
Proof.
  intros Hop. destruct Hop;
    eauto using create_upload_kept, get_document_kept, get_version_kept, get_ingestion_job_kept,
      get_embedding_job_kept, get_handoff_kept, get_status_kept, get_chunk_kept, list_documents_kept,
      list_versions_kept, list_chunks_kept, list_ingestion_kept, list_embedding_kept, mark_queued_kept, mark_parsing_kept, claim_ingestion_kept.
  all: eauto using mark_parsed_kept, mark_chunked_kept, mark_ingestion_failed_kept, failure_not_deleted,
      replace_chunks_kept, create_embedding_kept, claim_embedding_kept, mark_embedded_kept,
      mark_embedding_failed_kept, retrieval_ready_kept, soft_delete_document_kept,
      soft_delete_version_kept, soft_delete_chunks_kept.
Qed.

(** The invariant of a transaction. *)
Definition world_ok (w : store_world S) : Prop :=
  db_ok (sw_committed w) /\ (sw_aborted w = false -> db_ok (sw_db w)) /\ grows (sw_committed w) (sw_db w).

Lemma store_step_ok w w' : world_ok w -> store_step w w' ->
  world_ok w' /\ grows (sw_committed w) (sw_committed w').
Proof.
  intros (Hc & Ht & Hg) Hs.
  assert (forall R (r : R), kept (sw_committed w) r w' ->
    world_ok w' /\ grows (sw_committed w) (sw_committed w')) as Hkept.
  { intros R r (E & Ht' & Hg'). unfold world_ok. rewrite E. done. }
  destruct Hs as [A m r Hop Hm|version job r Hl Hj Hm Hn|r Hm|r Hm].
  - apply (Hkept _ r). eapply ends_run; [|exact Hm]. eapply (operation_kept _ Hc); [done| |exact Ht|exact Hg]. by repeat split.
  - apply (Hkept _ r). eapply ends_run in Hm; [|eapply (create_version_kept P _ Hc); [|exact Ht|exact Hg|done|done]; by repeat split].
    by apply Hm.
  - unfold commit, mthen, ask in Hm. destruct (sp_fault P (sw_ports w)) as [[] s]; cbn in Hm.
    + injection Hm as _ <-. unfold world_ok. cbn. by split_and!.
    + destruct (sw_aborted w) eqn:Ha; cbn in Hm; injection Hm as _ <-; unfold world_ok; cbn; split_and!; auto; done.
  - injection Hm as _ <-. unfold world_ok. cbn. by split_and!.
Qed.

Lemma world_ok_initial s : world_ok (initial s).
Proof. unfold world_ok. split_and!; [split; constructor|intros _; split; constructor|done]. Qed.

Lemma store_steps_ok w w' : world_ok w -> rtc store_step w w' ->
  world_ok w' /\ grows (sw_committed w) (sw_committed w').
Proof.
  intros Hw Hs. induction Hs as [w|w w1 w' H1 Hs IH]; [done|].
  destruct (store_step_ok w w1 Hw H1) as [Hw1 Hg1]. destruct (IH Hw1) as [Hw2 Hg2]. split; [done|by etrans].
Qed.

(** ** The guarantees *)


(** Jobs of a version that is gone are out of reach. *)
Lemma gone_scope tenant document version t : db_ok t -> version_gone version t ->
  scope_live tenant document version t = false.
Proof.
  intros Ok (v & Hv & E & Hl). unfold scope_live. apply andb_false_intro2.
  destruct (existsb _ (t_versions t)) eqn:Ex; [|done]. apply existsb_exists in Ex as (x & Hx & Hp).
  apply list_elem_of_In in Hx. unfold version_key in Hp. bool_inv.
  assert (x = v) as -> by (eapply (NoDup_fmap_elem v_id); [apply Ok|done|done|congruence]). congruence.
Qed.

Lemma find_none {A} (p : A -> bool) l : (forall x, p x = false) -> List.find p l = None.
Proof. intros Hp. induction l as [|x l IH]; [done|]. cbn. by rewrite Hp. Qed.

Lemma claim_ingestion_gone tenant job document version stale w :
  world_ok w -> version_gone version (sw_db w) ->
  forall r, (claim_ingestion_job_parsing P tenant job document version stale w).1 <> Ok (Some r).
Proof.
  intros (Hc & Ht & Hg) Hv r. change (ends (claim_ingestion_job_parsing P tenant job document version stale)
    (fun x _ => x <> Ok (Some r)) w). unfold claim_ingestion_job_parsing.
  apply ends_bind. eapply ends_asking; [by repeat split|]. intros now w1 Hw1. apply ends_bind.
  eapply ends_flush; [exact Hw1|..]; [|done]. intros w2 _ Ha Hw2. apply ends_bind. eapply ends_db; [exact Hw2|].
  cbn zeta. apply ends_bind. eapply ends_change; [exact Hw2|]. intros w3 _. rewrite find_none; [done|].
  intros j. unfold ingestion_claimable. rewrite gone_scope by auto. apply andb_false_r.
Qed.

Lemma claim_embedding_gone tenant job document version stale w :
  world_ok w -> version_gone version (sw_db w) ->
  forall r, (claim_embedding_job P tenant job document version stale w).1 <> Ok (Some r).
Proof.
  intros (Hc & Ht & Hg) Hv r. change (ends (claim_embedding_job P tenant job document version stale)
    (fun x _ => x <> Ok (Some r)) w). unfold claim_embedding_job.
  apply ends_bind. eapply ends_asking; [by repeat split|]. intros now w1 Hw1. apply ends_bind.
  eapply ends_flush; [exact Hw1|..]; [|done]. intros w2 _ Ha Hw2. apply ends_bind. eapply ends_db; [exact Hw2|].
  cbn zeta. apply ends_bind. eapply ends_change; [exact Hw2|]. intros w3 _. rewrite find_none; [done|].
  intros j. unfold embedding_claimable. rewrite gone_scope by auto. apply andb_false_r.
Qed.

Lemma gone_not_live id t v : db_ok t -> version_gone id t -> v ∈ t_versions t -> v_id v = id ->
  version_live v = false.
Proof.
  intros Ok (x & Hx & <- & Hl) Hv E. by assert (v = x) as -> by (by eapply (NoDup_fmap_elem v_id); [apply Ok|..]).
Qed.

Lemma gone_document_versions id t v : db_ok t -> document_gone id t -> v ∈ t_versions t ->
  v_document_id v = id -> version_live v = false.
Proof.
  intros Ok (d & Hd & <- & Hl) Hv E. destruct (version_live v) eqn:Hv1; [|done].
  pose proof (ok_owner _ _ Ok) as Ho. rewrite list.Forall_forall in Ho. destruct (Ho v Hv) as (d' & Hd' & E1 & E2).
  assert (d' = d) as -> by (eapply (NoDup_fmap_elem d_id); [apply Ok|done|done|congruence]).
  pose proof (live_owner t d v Ok Hd Hv E ltac:(done) Hv1) as Hn.
  pose proof (ok_document_marks _ _ Ok) as Hk. rewrite list.Forall_forall in Hk. specialize (Hk d Hd).
  unfold document_live in Hl. rewrite <- Hk, Hn in Hl. done.
Qed.


(** A failure reported by a superseded attempt changes no table. *)
Lemma superseded_ingestion_report tenant job error status next m n w :
  world_ok w -> ingestion_attempt job n (sw_db w) -> (m < n)%Z ->
  let w' := (mark_ingestion_job_failed P tenant job error status next (Some m) w).2 in
  sw_db w' = sw_db w /\ sw_committed w' = sw_committed w.
Proof.
  intros (Hc & Ht & Hg) (j & Hj & E & Hn) Hm. cbn zeta.
  change (ends (mark_ingestion_job_failed P tenant job error status next (Some m))
    (fun _ w' => sw_db w' = sw_db w /\ sw_committed w' = sw_committed w) w).
  assert (forall a (w' : store_world S), at_ (sw_committed w) (sw_db w) a w' ->
    sw_db w' = sw_db w /\ sw_committed w' = sw_committed w) as Hsame by (intros a w' (? & ? & ?); done).
  unfold mark_ingestion_job_failed, _get_job. apply ends_bind, ends_bind.
  eapply ends_query; [by repeat split|..]; [|intros w1 Hw1; by eapply Hsame].
  intros w1 Ha Hw1. apply ends_bind. eapply ends_db; [exact Hw1|].
  destruct (List.find _ _) as [x|] eqn:Ex; [|apply ends_raise; by eapply Hsame]. apply ends_ret, ends_bind.
  eapply ends_query; [exact Hw1|..]; [|intros w2 Hw2; by eapply Hsame]. intros w2 _ Hw2.
  apply find_elem in Ex as [Hx Hk]. unfold ingestion_key in Hk. bool_inv.
  assert (x = j) as -> by (eapply (NoDup_fmap_elem ij_id); [apply (Ht Ha)|done|done|congruence]).
  assert (superseded (Some m) (ij_attempt_count j) = true) as -> by (unfold superseded; apply negb_true_iff, Z.eqb_neq; lia).
  rewrite orb_true_r. apply ends_lift. by eapply Hsame.
Qed.

Lemma superseded_embedding_report tenant job error status next m n w :
  world_ok w -> embedding_attempt job n (sw_db w) -> (m < n)%Z ->
  let w' := (mark_embedding_job_failed P tenant job error status next (Some m) w).2 in
  sw_db w' = sw_db w /\ sw_committed w' = sw_committed w.
Proof.
  intros (Hc & Ht & Hg) (j & Hj & E & Hn) Hm. cbn zeta.
  change (ends (mark_embedding_job_failed P tenant job error status next (Some m))
    (fun _ w' => sw_db w' = sw_db w /\ sw_committed w' = sw_committed w) w).
  assert (forall a (w' : store_world S), at_ (sw_committed w) (sw_db w) a w' ->
    sw_db w' = sw_db w /\ sw_committed w' = sw_committed w) as Hsame by (intros a w' (? & ? & ?); done).
  unfold mark_embedding_job_failed, _get_embedding_job_model. apply ends_bind, ends_bind.
  eapply ends_query; [by repeat split|..]; [|intros w1 Hw1; by eapply Hsame].
  intros w1 Ha Hw1. apply ends_bind. eapply ends_db; [exact Hw1|].
  destruct (List.find _ _) as [x|] eqn:Ex; [|apply ends_raise; by eapply Hsame]. apply ends_ret, ends_bind.
  eapply ends_query; [exact Hw1|..]; [|intros w2 Hw2; by eapply Hsame]. intros w2 _ Hw2.
  apply find_elem in Ex as [Hx Hk]. unfold embedding_key in Hk. bool_inv.
  assert (x = j) as -> by (eapply (NoDup_fmap_elem ej_id); [apply (Ht Ha)|done|done|congruence]).
  assert (superseded (Some m) (ej_attempt_count j) = true) as -> by (unfold superseded; apply negb_true_iff, Z.eqb_neq; lia).
  rewrite orb_true_r. apply ends_lift. by eapply Hsame.
Qed.


(** ** Claims *)

(** A claim that returns, step by step. *)
Lemma claim_ingestion_run tenant job document version stale w :
  let now := (sp_now P (sw_ports w)).1 in
  let p := ingestion_claimable tenant job document version now stale (sw_db w) in
  ends (claim_ingestion_job_parsing P tenant job document version stale)
    (fun x w1 => forall r, x = Ok (Some r) ->
       sw_aborted w = false /\
       sw_db w1 = with_ingestion (update_where p (claimed_ingestion now) (t_ingestion (sw_db w))) (sw_db w) /\
       exists j, List.find p (t_ingestion (sw_db w)) = Some j /\
                 ingestion_job_record_from_model (claimed_ingestion now j) = Ok r) w.
Proof.
  cbn zeta. unfold claim_ingestion_job_parsing. apply ends_bind.
  unfold ends at 1, ask. destruct (sp_now P (sw_ports w)) as [now s] eqn:En. cbn.
  apply ends_bind. eapply ends_flush; [by repeat split|..]; [|done]. intros w2 _ Ha Hw2. cbn in Hw2.
  apply ends_bind. eapply ends_db; [exact Hw2|]. cbn zeta. apply ends_bind. eapply ends_change; [exact Hw2|].
  intros w3 (_ & E3 & _). destruct (List.find _ _) as [j|] eqn:Ej; [|done]. cbn. unfold optional_record.
  apply ends_bind, ends_lift. destruct (ingestion_job_record_from_model (claimed_ingestion now j)) as [x|] eqn:Er; [|done].
  apply ends_ret. intros r [= <-]. split; [exact Ha|]. split; [exact E3|]. by exists j.
Qed.

Lemma make_ingestion_attempt j r : make_ingestion_job j = Ok r -> ij_attempt_count r = ij_attempt_count j.
Proof. unfold make_ingestion_job. intros Hr. res_inv. done. Qed.

Lemma update_where_ext {A} (p q : A -> bool) f l : (forall x, x ∈ l -> p x = q x) ->
  update_where p f l = update_where q f l.
Proof.
  intros Hpq. apply list_fmap_ext. intros i x Hx. rewrite (Hpq x); [done|by eapply list_elem_of_lookup_2].
Qed.


(** ** Readiness *)

(** The version and its document are live, it has chunks, and a finished embedding
    job reports an index of as many vectors as there are chunks. *)
Definition fully_indexed (tenant document version : pystr) (index : pydict) (t : document_db) : Prop :=
  let n := count_chunks tenant document version t in
  (0 < n)%Z /\
  (exists v d, v ∈ t_versions t /\ v_id v = version /\ v_tenant v = tenant /\ v_document_id v = document /\
               d ∈ t_documents t /\ d_id d = document /\ version_live v = true /\ document_live d = true) /\
  (exists j, j ∈ t_embedding t /\ embedding_of tenant document version j = true /\ ej_status j = u "embedded" /\
     let vectors := vector_index_summary
                      (_dict_from_object (dict_get (u "embedding_artifact_summary") (ej_metadata j))) index in
     dict_get (u "status") vectors = Some (VStr (u "indexed")) /\
     as_int (get_or_none "vector_count" vectors) = Some n).

Lemma active_live d v code (Q : result exc unit -> store_world S -> Prop) w :
  (v_document_id v = d_id d -> version_live v = true -> document_live d = true -> Q (Ok tt) w) ->
  (forall e, Q (Err e) w) -> ends (_ensure_active_document_version d v code) Q w.
Proof.
  intros Hk He. unfold _ensure_active_document_version. cbn zeta.
  destruct (negb _) eqn:E1; [apply He|]. destruct (_ || _) eqn:E2; [apply He|]. bool_inv. apply Hk; [done|..].
  - unfold version_live. rewrite bool_decide_false by done. by destruct (is_some (v_deleted_at v)).
  - unfold document_live. rewrite bool_decide_false by done. by destruct (is_some (d_deleted_at d)).
Qed.

(** The synchronisation of a document leaves the versions as they are. *)
Lemma sync_versions d (Q : result exc unit -> store_world S -> Prop) c t w :
  at_ c t false w -> (forall t' w', at_ c t' false w' -> t_versions t' = t_versions t -> Q (Ok tt) w') ->
  (forall e w', Q (Err e) w') -> ends (_sync_document_status_from_latest_version P d) Q w.
Proof.
  intros Hw Hk He. unfold _sync_document_status_from_latest_version, _latest_non_deleted_version_model.
  apply ends_bind, ends_bind. eapply ends_query; [exact Hw|..]; [|intros; apply He]. intros w1 _ Hw1.
  apply ends_bind. eapply ends_db; [exact Hw1|]. apply ends_ret.
  destruct (latest_live_version _ _ _); [eapply ends_change; [exact Hw1|]; intros w2 Hw2; by eapply Hk|].
  apply ends_bind. destruct (d_deleted_at d).
  - apply ends_ret. eapply ends_change; [exact Hw1|]. intros w2 Hw2. by eapply Hk.
  - eapply ends_asking; [exact Hw1|]. intros x w2 Hw2. eapply ends_change; [exact Hw2|]. intros w3 Hw3. by eapply Hk.
Qed.

End Machine.

(** * The listing and the review agree on the status *)

Lemma weak_order_ext {A} (lt lt' : A -> A -> bool) (Q : A -> Prop) :
  (forall x y, lt x y = lt' x y) -> weak_order lt' Q -> weak_order lt Q.
Proof. intros E [Ha Ht]. split; unfold sort_le in *; intros *; rewrite !E; eauto. Qed.

Lemma weak_order_time : weak_order time_lt (fun _ => True).
Proof.
  split; unfold sort_le; [intros [x|] [y|] _ _|intros [x|] [y|] [z|] _ _ _]; cbn; try done;
    rewrite ?Z.ltb_lt, ?Z.ltb_ge; lia.
Qed.

Lemma time_eq_lt a b : bool_decide (a = b) = negb (time_lt a b) && negb (time_lt b a).
Proof.
  destruct a as [x|], b as [y|]; cbn; try done.
  rewrite <- Z_eqb_ltb. destruct (Z.eqb_spec x y) as [->|Hn]; [by rewrite bool_decide_true|].
  apply bool_decide_false. congruence.
Qed.

Lemma older_key_lex a b : older_key a b =
  lex (fun a b => bool_decide (a.1 = b.1)) (fun a b => time_lt a.1 b.1) (fun a b => str_lt a.2 b.2) a b.
Proof.
  unfold older_key, lex. destruct (bool_decide (a.1 = b.1)) eqn:E; cbn; [|by rewrite orb_false_r].
  rewrite time_eq_lt in E. bool_inv. by rewrite H.
Qed.

Lemma weak_order_older : weak_order older_key (fun _ => True).
Proof.
  eapply weak_order_ext; [apply older_key_lex|]. apply weak_order_lex.
  - intros x y _ _. apply time_eq_lt.
  - by eapply (weak_order_key fst _ _ (fun _ => True)), weak_order_time.
  - by eapply (weak_order_key snd _ _ (fun _ => True)), weak_order_str.
Qed.

Lemma older_key_total a b : older_key a b = false -> older_key b a = false -> a = b.
Proof.
  unfold older_key. rewrite !orb_false_iff. intros [T1 S1] [T2 S2].
  assert (bool_decide (a.1 = b.1) = true) as E1 by (by rewrite time_eq_lt, T1, T2).
  bool_inv. rewrite E1, bool_decide_true in S1, S2 by done. cbn in S1, S2.
  assert (bool_decide (a.2 = b.2) = true) as E2 by (by rewrite str_eq_lt, S1, S2).
  bool_inv. destruct a, b. cbn in *. by subst.
Qed.

Lemma weak_order_sql : weak_order sql_older (fun _ => True).
Proof.
  eapply (weak_order_ext _ (lex (fun a b => eqb (version_live a) (version_live b))
    (fun a b => negb (version_live a) && version_live b) (fun a b => older_key (version_order a) (version_order b)))).
  { intros x y. unfold sql_older, lex. by destruct (version_live x), (version_live y). }
  apply weak_order_lex.
  - intros x y _ _. by destruct (version_live x), (version_live y).
  - split; unfold sort_le; [intros x y _ _|intros x y z _ _ _];
      destruct (version_live x), (version_live y); try destruct (version_live z); done.
  - by eapply (weak_order_key version_order _ _ (fun _ => True)), weak_order_older.
Qed.

(** The running maximum of a scan is an element no other is above. *)
Lemma scan_max {A} (lt : A -> A -> bool) (HO : weak_order lt (fun _ => True)) l b :
  foldl (fun best x => match best with Some b => if lt b x then Some x else Some b | None => Some x end) None l
  = Some b -> b ∈ l /\ forall y, y ∈ l -> lt b y = false.
Proof.
  assert (forall x, lt x x = false) as Hirr.
  { intros x. destruct (lt x x) eqn:E; [|done]. by rewrite (wo_asym _ _ HO x x I I E) in E. }
  assert (forall acc, foldl (fun best x => match best with
      | Some b => if lt b x then Some x else Some b | None => Some x end) acc l = Some b ->
      (acc = Some b \/ b ∈ l) /\ (forall a, acc = Some a -> lt b a = false) /\ forall y, y ∈ l -> lt b y = false) as Hg.
  { induction l as [|x l IH]; cbn; intros acc Hf.
    - subst acc. split_and!; [by left| |by intros y Hy%elem_of_nil]. intros a [= ->]. apply Hirr.
    - apply IH in Hf as (H1 & H2 & H3). destruct acc as [a|]; [destruct (lt a x) eqn:Ea|].
      + pose proof (H2 x eq_refl) as Hx. split_and!.
        * destruct H1 as [[= ->]|H1]; right; [by left|by right].
        * intros a' [= <-]. apply (wo_trans _ _ HO a x b); [done..| |done]. by apply (wo_asym _ _ HO).
        * intros y [->|Hy]%elem_of_cons; auto.
      + pose proof (H2 a eq_refl) as Ha. split_and!.
        * destruct H1 as [H1|H1]; [by left|right; by right].
        * by intros a' [= <-].
        * intros y [->|Hy]%elem_of_cons; [|auto]. by apply (wo_trans _ _ HO x a b).
      + pose proof (H2 x eq_refl) as Hx. split_and!; [|done|intros y [->|Hy]%elem_of_cons; auto].
        destruct H1 as [[= ->]|H1]; right; [by left|by right]. }
  intros Hf. apply Hg in Hf as ([?|?] & _ & ?); done.
Qed.

Lemma scan_some {A} (lt : A -> A -> bool) x l :
  exists b, foldl (fun best x => match best with Some b => if lt b x then Some x else Some b | None => Some x end)
              None (x :: l) = Some b.
Proof.
  cbn. generalize x. induction l as [|y l IH]; cbn; intros b; [by eexists|]. destruct (lt b y); apply IH.
Qed.

(** The last element of a sorted list is one no other is above. *)
Lemma sorted_last {A} (lt : A -> A -> bool) (HO : weak_order lt (fun _ => True)) l b :
  last (py_sort lt l) = Some b -> b ∈ l /\ forall y, y ∈ l -> lt b y = false.
Proof.
  intros Hl. assert (b ∈ l) as Hb.
  { apply (py_sort_elem_of lt). by apply last_Some_elem_of. }
  split; [done|]. intros y Hy. apply (py_sort_elem_of lt) in Hy.
  pose proof (py_sort_sorted lt _ HO l ltac:(by apply list.Forall_forall)) as Hs.
  apply last_Some in Hl as [l' El]. rewrite El in Hs, Hy.
  apply elem_of_app in Hy as [Hy|Hy%list_elem_of_singleton].
  - clear El Hb. induction l' as [|z l' IH]; [by apply elem_of_nil in Hy|]. cbn in Hs.
    apply StronglySorted_inv in Hs as [Hs Hz]. apply elem_of_cons in Hy as [->|Hy]; [|by apply IH].
    rewrite list.Forall_forall in Hz. apply Hz. apply elem_of_app. right. by left.
  - subst y. destruct (lt b b) eqn:E; [|done]. by rewrite (wo_asym _ _ HO b b I I E) in E.
Qed.

Lemma sql_latest_is_reviewed t d versions : NoDup (v_id <$> t_versions t) ->
  versions ≡ₚ List.filter (version_of (d_tenant d) (d_id d)) (t_versions t) ->
  sql_latest_version t d = _latest_review_version versions.
Proof.
  intros Hn Hp. unfold sql_latest_version. set (rows := List.filter _ _) in *.
  assert (forall a b, a ∈ rows -> b ∈ rows -> v_id a = v_id b -> a = b) as Huniq.
  { intros a b Ha Hb E. apply list_elem_of_In, filter_In in Ha as [Ha _], Hb as [Hb _].
    eapply (NoDup_fmap_elem v_id); [exact Hn|by apply list_elem_of_In..|done]. }
  assert (forall y, y ∈ versions <-> y ∈ rows) as Hel by (intros y; by rewrite Hp).
  destruct versions as [|v vs].
  { apply Permutation_nil_l in Hp. by rewrite <- Hp. }
  destruct rows as [|r rs]; [by apply Permutation_nil_r in Hp|].
  destruct (scan_some sql_older r rs) as [m Em]. rewrite Em. apply (scan_max _ weak_order_sql) in Em as [Hm Hmax].
  unfold _latest_review_version. set (pool := match List.filter version_live (v :: vs) with [] => v :: vs | _ => _ end).
  assert (forall y, y ∈ pool -> y ∈ r :: rs) as Hpool.
  { intros y Hy. apply Hel. unfold pool in Hy. destruct (List.filter version_live (v :: vs)) eqn:E; [done|].
    rewrite <- E in Hy. apply list_elem_of_In, filter_In in Hy as [Hy _]. by apply list_elem_of_In. }
  assert (m ∈ pool /\ forall y, y ∈ pool -> version_live y = version_live m) as [Hmp Hlive].
  { unfold pool. destruct (List.filter version_live (v :: vs)) as [|a act] eqn:E.
    - assert (forall y, y ∈ v :: vs -> version_live y = false) as Hdead.
      { intros y Hy. destruct (version_live y) eqn:Hl; [|done].
        assert (y ∈ List.filter version_live (v :: vs)) as Hin
          by (apply list_elem_of_In, filter_In; split; [by apply list_elem_of_In|done]).
        rewrite E in Hin. by apply elem_of_nil in Hin. }
      split; [by apply Hel|]. intros y Hy. rewrite !Hdead; [done|by apply Hel|done].
    - assert (forall y, y ∈ a :: act -> y ∈ r :: rs /\ version_live y = true) as Hact.
      { intros y Hy. rewrite <- E in Hy. apply list_elem_of_In, filter_In in Hy as [Hy Hl].
        split; [by apply Hel, list_elem_of_In|done]. }
      assert (version_live m = true) as Hml.
      { destruct (Hact a) as [Ha Hal]; [by left|]. specialize (Hmax a Ha). unfold sql_older in Hmax.
        rewrite Hal in Hmax. by destruct (version_live m). }
      split; [rewrite <- E; apply list_elem_of_In, filter_In; split; [by apply list_elem_of_In, Hel|done]|].
      intros y Hy. destruct (Hact y Hy) as [_ ->]. done. }
  destruct (last (py_sort (fun a b => older_key (version_order a) (version_order b)) pool)) as [x|] eqn:Ex.
  - apply (sorted_last (fun a b => older_key (version_order a) (version_order b))) in Ex as [Hx Hxmax];
      [|by eapply (weak_order_key version_order _ _ (fun _ => True)), weak_order_older].
    f_equal. apply Huniq; [done|by apply Hpool|].
    specialize (Hmax x (Hpool x Hx)). unfold sql_older in Hmax. rewrite (Hlive x Hx), eqb_reflx in Hmax.
    by pose proof (older_key_total _ _ Hmax (Hxmax m Hmp)) as [= _ ?].
  - apply last_None in Ex. apply (py_sort_elem_of (fun a b => older_key (version_order a) (version_order b))) in Hmp.
    rewrite Ex in Hmp. by apply elem_of_nil in Hmp.
Qed.

(** C22: the status by which the listing filters, computed in SQL over all documents,
    is the one the review shows: that of the newest live version, or of the newest
    version when none is live, overridden by its newest embedding job while that job
    is running or has failed.  It does not depend on the order in which the versions
    are read. *)
Theorem listed_status_is_reviewed_status t d versions :
  NoDup (v_id <$> t_versions t) ->
  versions ≡ₚ List.filter (version_of (d_tenant d) (d_id d)) (t_versions t) ->
  _effective_document_status_expression t d =
    match _latest_review_version versions with
    | Some v => _effective_version_status (v_status v) (v_deleted_at v)
                  (ej_status <$> newest embedding_order
                     (List.filter (embedding_of (d_tenant d) (d_id d) (v_id v)) (t_embedding t)))
    | None => d_status d
    end.
Proof.
  intros Hn Hp. unfold _effective_document_status_expression. rewrite (sql_latest_is_reviewed t d versions Hn Hp).
  destruct (_latest_review_version versions) as [v|] eqn:E; [|done]. cbn.
  rewrite <- (sql_latest_is_reviewed t d versions Hn Hp) in E. apply (scan_max _ weak_order_sql) in E as [Hv _].
  apply list_elem_of_In, filter_In in Hv as [_ Hv]. unfold version_of in Hv. bool_inv.
  unfold sql_version_status, latest_job_status, _effective_version_status. by rewrite H, H0.
Qed.

(** * Examples *)

Module DocumentExamples.
Import Examples RedactExamples.

(** A database that accepts every statement, and a clock that counts its readings. *)
Definition ports1 : store_ports nat := {|
  sp_fault s := (false, s); sp_now s := (Z.of_nat s, S s); sp_db_now s := (Z.of_nat s, S s);
  sp_uuid s := (u "uuid-" ++ str_of_Z (Z.of_nat s), S s) |}.

Definition document1 : document_row :=
  {| d_rec := {| dr_id := u "d1"; dr_tenant_id := u "t1"; dr_created_by := u "ada"; dr_status := u "uploaded";
                 dr_source_type := u "txt"; dr_source_uri := None; dr_title := None; dr_acl := [];
                 dr_checksum := u "00"; dr_metadata := []; dr_deleted_at := None |};
     d_created_at := None |}.
Definition version1 : version_row :=
  {| v_rec := {| vr_id := u "v1"; vr_document_id := u "d1"; vr_tenant_id := u "t1"; vr_created_by := u "ada";
                 vr_status := u "uploaded"; vr_source_type := u "txt"; vr_object_key := u "k1";
                 vr_filename := u "a.txt"; vr_byte_size := 3; vr_acl := []; vr_checksum := u "00";
                 vr_deleted_at := None |};
     v_source_uri := None; v_content_type := None; v_metadata := []; v_created_at := None |}.
Definition job1 : IngestionJobRecord :=
  {| ij_id := u "j1"; ij_tenant_id := u "t1"; ij_created_by := u "ada"; ij_status := u "uploaded";
     ij_document_id := u "d1"; ij_version_id := u "v1"; ij_queue_name := u "ingestion";
     ij_queue_job_id := None; ij_attempt_count := 0; ij_error_code := None; ij_last_attempt_at := None;
     ij_next_retry_at := None; ij_created_at := None |}.
Definition chunk1 : chunk_row :=
  {| c_id := None;
     c_rec := {| ch_tenant_id := u "t1"; ch_document_id := u "d1"; ch_version_id := u "v1";
                 ch_chunk_id := u "c1"; ch_created_by := u "ada"; ch_status := u "active";
                 ch_source_type := u "txt"; ch_source_uri := None; ch_title_path := [u "T"];
                 ch_content := u "abc"; ch_page_start := None; ch_page_end := None; ch_token_count := 1;
                 ch_acl := []; ch_checksum := u "00"; ch_section_ids := [u "s1"]; ch_metadata := [];
                 ch_deleted_at := None |};
     c_created_at := None |}.
Definition embedding1 : EmbeddingJobRecord :=
  {| ej_id := u "e1"; ej_tenant_id := u "t1"; ej_created_by := u "ada"; ej_status := u "queued";
     ej_document_id := u "d1"; ej_version_id := u "v1"; ej_provider := u "p"; ej_model := u "m";
     ej_version := None; ej_dim := None; ej_chunk_count := None; ej_attempt_count := 0;
     ej_error_code := None; ej_last_attempt_at := None; ej_next_retry_at := None;
     ej_metadata := [(u "source_ingestion_job_id", VStr (u "j1"))]; ej_created_at := None |}.

Lemma upload1_ok : upload_ok document1 version1 job1.
Proof. split; reflexivity. Qed.

Lemma step_run {A} (m : eff exc (store_world nat) A) w : operation ports1 m -> store_step ports1 w (m w).2.
Proof. intros Hm. eapply (step_operation _ _ _ A m (m w).1); [exact Hm|]. apply surjective_pairing. Qed.
Lemma commit_run w : store_step ports1 w (commit ports1 w).2.
Proof. eapply (step_commit _ _ _ (commit ports1 w).1). apply surjective_pairing. Qed.

Definition after_upload : store_world nat :=
  (commit ports1 (create_upload_records ports1 document1 version1 job1 (initial 0)).2).2.

Lemma upload_reached : rtc (store_step ports1) (initial 0) after_upload.
Proof.
  eapply rtc_l; [apply (step_run (create_upload_records ports1 document1 version1 job1)), op_upload, upload1_ok|].
  eapply rtc_l; [apply commit_run|]. apply rtc_refl.
Qed.


(** ** A deletion *)

Definition after_delete : store_world nat :=
  (commit ports1 (soft_delete_document_version ports1 (u "t1") (u "d1") (u "v1") (u "ada") after_upload).2).2.
Lemma delete_reached : rtc (store_step ports1) after_upload after_delete.
Proof.
  eapply rtc_l; [apply (step_run (soft_delete_document_version ports1 (u "t1") (u "d1") (u "v1") (u "ada"))), op_delete_version|].
  eapply rtc_l; [apply commit_run|]. apply rtc_refl.
Qed.

Lemma v1_gone : version_gone (u "v1") (sw_committed after_delete).
Proof. eexists. vm_compute. split; [by left|done]. Qed.


(** ** Claims *)

Definition claim1 := claim_ingestion_job_parsing ports1 (u "t1") (u "j1") (u "d1") (u "v1") None after_upload.
Definition claim2 :=
  claim_ingestion_job_parsing ports1 (u "t1") (u "j1") (u "d1") (u "v1") (Some 100%Z) claim1.2.
Definition after_claims : store_world nat := (commit ports1 claim2.2).2.

Lemma claims_reached : rtc (store_step ports1) (initial 0) after_claims.
Proof.
  etrans; [exact upload_reached|]. eapply rtc_l; [apply (step_run (claim_ingestion_job_parsing ports1 (u "t1") (u "j1") (u "d1") (u "v1") None)), op_claim_ingestion|].
 
  eapply rtc_l; [apply (step_run (claim_ingestion_job_parsing ports1 (u "t1") (u "j1") (u "d1") (u "v1") (Some 100%Z))), op_claim_ingestion|].
  eapply rtc_l; [apply commit_run|]. apply rtc_refl.
Qed.


Definition claimed1 : IngestionJobRecord := match claim1.1 with Ok (Some r) => r | _ => job1 end.


(** A worker whose job has been terminated still publishes its result: the
    completion, unlike the failure, is not fenced by the attempt. *)
Definition terminated := mark_ingestion_job_failed ports1 (u "t1") (u "j1") (u "QUEUE_OPERATOR_TERMINATED")
  FAILED_TERMINAL None None claim1.2.
Example terminated_job_parsed :
  ij_status <$> t_ingestion (sw_db terminated.2) = [FAILED_TERMINAL] /\
  ij_status <$> t_ingestion (sw_db (mark_ingestion_job_parsed ports1 (u "t1") (u "j1") [] terminated.2).2)
    = [u "parsed"].
Proof. vm_compute. done. Qed.

(** ** The whole ingestion of a document *)

Definition vectors1 : pydict := [(u "status", VStr (u "indexed")); (u "vector_count", VInt 1)].
Definition summary1 : pydict :=
  [(u "provider", VStr (u "p")); (u "model", VStr (u "m")); (u "dim", VInt 2); (u "chunk_count", VInt 1);
   (u "vector_index_summary", VDict vectors1)].
Definition ingested : store_world nat :=
  let w := claim1.2 in
  let w := (mark_ingestion_job_parsed ports1 (u "t1") (u "j1") [] w).2 in
  let w := (replace_chunks_for_version ports1 (u "t1") (u "d1") (u "v1") [chunk1] w).2 in
  let w := (mark_ingestion_job_chunked ports1 (u "t1") (u "j1") [(u "chunk_count", VInt 1)] w).2 in
  let w := (create_embedding_job ports1 embedding1 w).2 in
  let w := (claim_embedding_job ports1 (u "t1") (u "e1") (u "d1") (u "v1") None w).2 in
  (mark_embedding_job_embedded ports1 (u "t1") (u "e1") summary1 w).2.

Definition ready1 := mark_document_version_retrieval_ready ports1 (u "t1") (u "d1") (u "v1") vectors1 ingested.
Example ready1_status : d_status <$> t_documents (sw_db ready1.2) = [u "retrieval_ready"].
Proof. vm_compute. done. Qed.

Definition ready_version : version_row := match ready1.1 with Ok v => v | Err _ => version1 end.

(** While the embedding runs, the document is listed and reviewed as embedding. *)
Definition embedding_db : document_db :=
  let w := (mark_ingestion_job_parsed ports1 (u "t1") (u "j1") [] claim1.2).2 in
  let w := (create_embedding_job ports1 embedding1 w).2 in
  sw_db (claim_embedding_job ports1 (u "t1") (u "e1") (u "d1") (u "v1") None w).2.
Definition the_document : document_row := default document1 (head (t_documents embedding_db)).

Lemma listed_status_is_reviewed_status_witness :
  d_status the_document = u "parsed" /\
  _effective_document_status_expression embedding_db the_document = u "embedding".
Proof.
  split; [vm_compute; reflexivity|].
  rewrite (listed_status_is_reviewed_status embedding_db the_document (t_versions embedding_db)).
  - vm_compute. reflexivity.
  - apply (bool_decide_unpack _). vm_compute. exact I.
  - vm_compute. reflexivity.
Defined.
End DocumentExamples.
