(* ===== verification/RetrieveApp.v ===== *)
(** The retrieval application service.

    Models [packages/retrieval/application.py] with [RetrievalLogCreate] of
    [packages/retrieval/dto.py]: the request body, the retrieval with hydration of
    the evidence, the log record and the audit event of every outcome, and the
    response that leaves the process.  The retrieval service, the chunk store, the
    log, the audit port, the clocks and the pipeline trace are ports; the calls made
    on the log and the audit port are kept in order in the world.

    - [retrieve_recorded]: what is recorded of each outcome, and what is raised.

    The [created_at] of an audit event and the causes chained to an exception of
    another port are not kept. *)

From Stdlib Require Import ZArith String.
From S2P Require Import Prelude Effects Float64 PyVal Access Redact SourceMetadata Rrf Hybrid Rerank RetrievalService.
From S2P Require Import ContextPacker AgentDto RagDto Hydration.
From S2P Require Registry.
From stdpp Require Import base list numbers sets.

Open Scope eff_scope.

Definition RETRIEVAL_CONTENT_HYDRATION_FAILED : pystr := u "RETRIEVAL_CONTENT_HYDRATION_FAILED".
Definition _elapsed_ms : float -> float := Registry._elapsed_ms.

(** * Exceptions *)

(** What the service may see: an exception of retrieval or of another port. *)
Inductive app_exc : Type :=
| ARetrieval (e : pyexc)
| APort (e : exc).

Definition app_exception (e : app_exc) : bool :=
  match e with ARetrieval e => negb (is_cancelled e) | APort e => is_exception e end.

Definition AppValidationError : app_exc := APort ValidationError.
Definition OverflowError : app_exc := APort (EException (u "OverflowError")).

(** Code and details of a [RetrievalError]. *)
Definition retrieval_error_fields (e : app_exc) : option (pystr * pydict) :=
  match e with
  | ARetrieval (PyExc (XRetrieval code _ details _) _ _) => Some (code, details)
  | APort (EDomain d) =>
      if bool_decide (de_class d = CRetrieval) then Some (de_code d, de_details d) else None
  | _ => None
  end.

(** [RagQueryError] and [StorageError]. *)
Definition evidence_error (e : app_exc) : bool :=
  match e with
  | APort (EDomain d) => bool_decide (de_class d = CQuery \/ de_class d = CStorage)
  | _ => false
  end.

(** * Commands and the request body *)

Record RetrieveCommand : Type := {
  rm_query : pystr;
  rm_top_k : Z;
  rm_metadata_filter : pydict;
  rm_score_threshold : option float
}.

(** [RetrieveRequestBody(...).to_command()]. *)
Definition request_body (query : pystr) (top_k : Z) (metadata : metadata_input)
    (threshold : option float) : result validation_error RetrieveCommand :=
  q ← required_text query;
  _ ← raise_if (top_k <? 1)%Z TopKNotPositive;
  _ ← raise_if (100 <? top_k)%Z TopKTooLarge;
  md ← _metadata_filter_must_be_structured metadata;
  _ ← raise_if (match threshold with
                | Some x => negb (fle fzero x && fle x fone) | None => false end)
        ScoreThresholdOutOfRange;
  mret {| rm_query := q; rm_top_k := top_k; rm_metadata_filter := md; rm_score_threshold := threshold |}.

(** * What is safe to show *)

Definition _SENSITIVE_METADATA_KEYS : list pystr := u <$>
  ["access_token"; "api_key"; "body"; "chunk_content"; "chunk_text"; "content"; "document_content";
   "embedding"; "embedding_vector"; "full_query"; "password"; "prompt"; "provider_raw_response";
   "query"; "query_vector"; "raw_response"; "secret"; "sql"; "text"; "token"; "tsquery"; "tsvector";
   "vector"]%string.

Definition _RETRIEVAL_SOURCE_ALLOWED_KEYS : list pystr := u <$>
  ["retrieval_method"; "rank"; "score"; "weight"; "contribution"]%string.

Definition RERANK_KEYS : list pystr := u <$>
  ["provider"; "model"; "status"; "input_rank"; "output_rank"; "pre_score"; "rerank_score";
   "score_source"; "latency_ms"; "error_code"]%string.

(** Unlike the merger, the drive must be a letter. *)
Definition _looks_like_local_absolute_path (value : pystr) : bool :=
  SourceMetadata._looks_like_local_absolute_path (strip value).

Section Safe.
Context `{PyRepr, UnicodeDB}.

Definition _SENSITIVE_COMPACT_KEYS : list pystr :=
  (compact_alnum <$> _SENSITIVE_METADATA_KEYS)
  ++ (u <$> ["chunkcontent"; "chunktext"; "documentcontent"; "documentchunk"; "querytext"]%string).

Definition _is_sensitive_key (key : pystr) : bool :=
  let normalized := replace_char 32 95 (replace_char 45 95 (lower (strip key))) in
  bool_decide (normalized ∈ _SENSITIVE_METADATA_KEYS)
  || bool_decide (compact_alnum normalized ∈ _SENSITIVE_COMPACT_KEYS).

(** Entries of a comprehension whose keys are not sensitive. *)
Definition open_entries (d : pydict) : pydict :=
  List.filter (fun kv => negb (_is_sensitive_key kv.1)) d.

Definition drop_redacted (d : pydict) : pydict :=
  List.filter (fun kv => negb (py_eq kv.2 (VStr REDACTED_VALUE))) d.

Fixpoint _safe_value (value : pyval) : pyval :=
  match value with
  | VDict d =>
      VDict (drop_redacted (redact_mapping (open_entries ((fun kv => (kv.1, _safe_value kv.2)) <$> d))))
  | VList l | VTuple l => VList (_safe_value <$> l)
  | VStr s =>
      if _looks_like_local_absolute_path s then VStr REDACTED_VALUE
      else match redact_sensitive_data value with VStr t => VStr t | _ => VStr REDACTED_VALUE end
  | _ => redact_sensitive_data value
  end.

Definition _safe_mapping (value : pydict) : pydict :=
  drop_redacted (redact_mapping (open_entries ((fun kv => (kv.1, _safe_value kv.2)) <$> value))).

Definition allowed_entries (allowed : list pystr) (d : pydict) : pydict :=
  List.filter (fun kv => bool_decide (kv.1 ∈ allowed) && negb (_is_sensitive_key kv.1)) d.

Definition safe_entries (d : pydict) : pydict := (fun kv => (kv.1, _safe_value kv.2)) <$> d.

Definition _safe_retrieval_sources (value : pyval) : list pyval :=
  match value with
  | VList l | VTuple l =>
      l ≫= fun source =>
        match source with
        | VDict d => match safe_entries (allowed_entries _RETRIEVAL_SOURCE_ALLOWED_KEYS d) with
                     | [] => [] | safe_source => [VDict safe_source] end
        | _ => []
        end
  | _ => []
  end.

Definition _safe_retrieval_provenance (value : pydict) : pydict :=
  (fun kv => (kv.1, if bool_decide (kv.1 = u "sources") then VList (_safe_retrieval_sources kv.2)
                    else _safe_value kv.2))
    <$> allowed_entries provenance_keys value.

Definition _safe_rerank_provenance (value : pydict) : pydict :=
  safe_entries (allowed_entries RERANK_KEYS value).

(** One turn of the loop of [_safe_candidate_metadata]. *)
Definition safe_candidate_entry (kv : pystr * pyval) : pydict :=
  let provenance (f : pydict -> pydict) : pydict :=
    match kv.2 with
    | VDict p => match f p with [] => [] | q => [(kv.1, VDict q)] end
    | _ => []
    end in
  if bool_decide (kv.1 = u "retrieval_provenance") then provenance _safe_retrieval_provenance else
  if bool_decide (kv.1 = u "rerank_provenance") then provenance _safe_rerank_provenance else
  if _is_sensitive_key kv.1 then [] else
  let safe_value := _safe_value kv.2 in
  if py_eq safe_value (VStr REDACTED_VALUE) then [] else [(kv.1, safe_value)].

Definition _safe_candidate_metadata (metadata : pydict) : pydict :=
  redact_mapping (metadata ≫= safe_candidate_entry).
End Safe.

(** * Summaries for the log *)

(** Exact comparison of an [int] with a [float]. *)
Definition Z_lt_float (z : Z) (x : float) : bool :=
  match x with
  | S754_zero _ => (z <? 0)%Z
  | S754_infinity s => negb s
  | S754_nan => false
  | S754_finite s m e =>
      let v := if s then Zneg m else Zpos m in
      (if 0 <=? e then z <? v * 2 ^ e else z * 2 ^ (- e) <? v)%Z
  end.

Definition number_lt (a b : pyval) : bool :=
  match a, b with
  | VFloat x, VFloat y => flt x y
  | VFloat x, _ => match as_int b with
                   | Some z => match x with
                               | S754_nan => false
                               | _ => negb (Z_lt_float z x) && negb (Z_eq_float z x) end
                   | None => false end
  | _, VFloat y => match as_int a with Some z => Z_lt_float z y | None => false end
  | _, _ => match as_int a, as_int b with Some m, Some n => (m <? n)%Z | _, _ => false end
  end.

(** [max(values)]: the first of the largest. *)
Definition py_max (lt : pyval -> pyval -> bool) (l : list pyval) : pyval :=
  match l with [] => VNone | x :: l' => foldl (fun m y => if lt m y then y else m) x l' end.

(** [isinstance(v, int | float) and isfinite(v)]: an [int] beyond the floats
    raises. *)
Definition finite_number (v : pyval) : result app_exc bool :=
  match v with
  | VFloat x => Ok (isfinite x)
  | VInt z => if isfinite (fofZ z) then Ok true else Err OverflowError
  | VBool _ => Ok true
  | _ => Ok false
  end.

(** [float(v)] of a number. *)
Definition to_float (v : pyval) : float :=
  match v with VFloat x => x | _ => match as_int v with Some z => fofZ z | None => fzero end end.

Fixpoint finite_values (l : list pyval) : result app_exc (list pyval) :=
  match l with
  | [] => Ok []
  | v :: rest =>
      ok ← finite_number v;
      vs ← finite_values rest;
      mret (if ok : bool then v :: vs else vs)
  end.

Definition field (k : string) (d : pydict) : pyval := default VNone (dict_get (u k) d).

Definition max_float (l : list pyval) : option float :=
  match to_float <$> l with [] => None | x :: l' => Some (foldl fmax x l') end.

Definition provenances (k : string) (candidates : list RetrievalCandidate) : list pydict :=
  candidates ≫= fun c => match field k (rc_metadata c) with VDict p => [p] | _ => [] end.

(** [_max_rerank_score] and, of sanitised provenances, [_max_score_from_provenance]. *)
Definition _max_score_from_provenance (ps : list pydict) : result app_exc (option float) :=
  scores ← finite_values (field "rerank_score" <$> ps); mret (max_float scores).
Definition _max_rerank_score (candidates : list RetrievalCandidate) : result app_exc (option float) :=
  _max_score_from_provenance (provenances "rerank_provenance" candidates).

Definition sequence_items (v : pyval) : option (list pyval) :=
  match v with VList l | VTuple l => Some l | _ => None end.

Definition _method_count (ps : list pydict) (method : pystr) : Z :=
  count (List.filter (fun p => match sequence_items (field "retrieval_methods" p) with
                               | Some l => existsb (py_eq (VStr method)) l
                               | None => false end) ps).

Definition incr (counts : pydict) (k : pystr) : pydict :=
  let n := match dict_get k counts with Some (VInt n) => n | _ => 0%Z end in
  dict_set k (VInt (n + 1)) counts.

Definition texts (l : list pyval) : list pystr :=
  l ≫= fun v => match v with VStr s => [s] | _ => [] end.

Definition source_methods (p : pydict) : list pystr :=
  texts (default [] (sequence_items (field "sources" p)) ≫=
         fun source => match source with VDict d => [field "retrieval_method" d] | _ => [] end).

Definition _rrf_summary (ps : list pydict) : pydict :=
  [(u "input_counts", VDict (foldl incr [] (ps ≫= source_methods)));
   (u "deduped_count", VInt (count ps)); (u "filtered_count", VNone);
   (u "fusion_reasons", VDict (foldl incr [] (texts (field "fusion_reason" <$> ps))))].

Definition opt_number (o : option float) : pyval := match o with Some x => VFloat x | None => VNone end.

Definition _rerank_summary `{PyRepr} (ps : list pydict) : result app_exc pydict :=
  match ps with
  | [] => Ok [(u "status", VStr (u "not_available")); (u "candidate_count", VInt 0)]
  | first :: _ =>
      latency_values ← finite_values (field "latency_ms" <$> ps);
      max_score ← _max_score_from_provenance ps;
      mret [(u "status", VStr (py_str (default (VStr (u "unknown")) (dict_get (u "status") first))));
            (u "provider", field "provider" first); (u "model", field "model" first);
            (u "latency_ms", py_max number_lt latency_values);
            (u "candidate_count", VInt (count ps)); (u "max_score", opt_number max_score)]
  end.

Definition _trace_method_count (trace : option pydict) (method : string) : option Z :=
  match trace with
  | None => None
  | Some t =>
      match field "rrf" t with
      | VDict rrf =>
          match field "input_counts" rrf with
          | VDict counts => match field method counts with
                            | VInt z => if (0 <=? z)%Z then Some z else None
                            | _ => None end
          | _ => None
          end
      | _ => None
      end
  end.

Section Log.
Context `{PyRepr, UnicodeDB}.

Definition candidate_id (c : RetrievalCandidate) : pyval :=
  VDict [(u "document_id", VStr (rc_document_id c)); (u "version_id", VStr (rc_version_id c));
         (u "chunk_id", VStr (rc_chunk_id c))].

Definition _log_metadata_from_candidates (candidates : list RetrievalCandidate)
    (pipeline_trace : option pydict) : result app_exc pydict :=
  let retrieval := _safe_retrieval_provenance <$> provenances "retrieval_provenance" candidates in
  let rerank := _safe_rerank_provenance <$> provenances "rerank_provenance" candidates in
  rerank_summary ← _rerank_summary rerank;
  let traced (k : string) (own : pydict) : pydict :=
    match pipeline_trace with
    | Some t => match field k t with VDict d => _safe_mapping d | _ => own end
    | None => own
    end in
  let top_k (method : string) : pyval :=
    VInt (default (_method_count retrieval (u method)) (_trace_method_count pipeline_trace method)) in
  mret (redact_mapping
    [(u "candidate_ids", VList (candidate_id <$> candidates)); (u "dense_top_k", top_k "dense"%string);
     (u "sparse_top_k", top_k "sparse"%string);
     (u "rrf", VDict (traced "rrf"%string (_rrf_summary retrieval)));
     (u "rerank", VDict (traced "rerank"%string rerank_summary))]).

Definition _query_summary (query : pystr) : list (pystr * Z) :=
  [(u "length", count query); (u "term_count", count (split_words query []))].

(** * Records *)

Inductive log_status : Type := LogSuccess | LogFailure.

(** [RetrievalLogCreate]; [lg_created_at] is what the clock showed, in microseconds. *)
Record RetrievalLogCreate : Type := {
  lg_request_id : pystr;
  lg_trace_id : pystr;
  lg_tenant_id : pystr;
  lg_user_id : pystr;
  lg_created_by : pystr;
  lg_status : log_status;
  lg_latency_ms : float;
  lg_top_k : Z;
  lg_result_count : Z;
  lg_rerank_score : option float;
  lg_error_code : option pystr;
  lg_query_summary : list (pystr * Z);
  lg_metadata : pydict;
  lg_created_at : Z
}.

Definition make_log (r : RetrievalLogCreate) : result app_exc RetrievalLogCreate :=
  let ok := forallb nonblank [lg_request_id r; lg_trace_id r; lg_tenant_id r; lg_user_id r; lg_created_by r]
            && isfinite (lg_latency_ms r) && negb (flt (lg_latency_ms r) fzero)
            && (0 <? lg_top_k r)%Z && (0 <=? lg_result_count r)%Z
            && match lg_rerank_score r with Some x => isfinite x | None => true end in
  if negb ok then Err AppValidationError else
  Ok {| lg_request_id := strip (lg_request_id r); lg_trace_id := strip (lg_trace_id r);
        lg_tenant_id := strip (lg_tenant_id r); lg_user_id := strip (lg_user_id r);
        lg_created_by := strip (lg_created_by r); lg_status := lg_status r;
        lg_latency_ms := lg_latency_ms r; lg_top_k := lg_top_k r; lg_result_count := lg_result_count r;
        lg_rerank_score := lg_rerank_score r; lg_error_code := lg_error_code r;
        lg_query_summary := lg_query_summary r; lg_metadata := lg_metadata r;
        lg_created_at := lg_created_at r |}.

Definition app_validated {E A} (r : result E A) : result app_exc A :=
  match r with Ok a => Ok a | Err _ => Err AppValidationError end.

Definition _audit_event (context : RequestContext) (status : AuditStatus) (latency_ms : float)
    (error_code : option pystr) (metadata : pydict) : result app_exc AuditEvent :=
  resource ← app_validated (make_audit_resource (u "retrieval_request") (rc_request_id context)
    [(u "request_id", VStr (rc_request_id context)); (u "trace_id", VStr (rc_trace_id context))]);
  app_validated (make_audit_event (rc_request_id context) (rc_trace_id context)
    (auth_tenant_id (rc_auth context)) (auth_user_id (rc_auth context)) (u "retrieval.retrieve")
    resource status latency_ms error_code metadata).

(** * The response *)

Record RetrieveCandidateResponse : Type := {
  ra_chunk_id : pystr;
  ra_document_id : pystr;
  ra_version_id : pystr;
  ra_source_display_name : pystr;
  ra_source_ref : option pystr;
  ra_source_type : pystr;
  ra_page_start : option Z;
  ra_page_end : option Z;
  ra_title_path : list pystr;
  ra_score : float;
  ra_retrieval_method : pystr;
  ra_tenant_id : pystr;
  ra_acl : pydict;
  ra_metadata : pydict;
  ra_content_excerpt : pystr   (* excluded from every dump *)
}.

Record RetrieveResponse : Type := {
  rp_request_id : pystr;
  rp_trace_id : pystr;
  rp_tenant_id : pystr;
  rp_user_id : pystr;
  rp_top_k : Z;
  rp_query_summary : list (pystr * Z);
  rp_latency_ms : option float;
  rp_candidates : list RetrieveCandidateResponse
}.

Context `{NetlocCheck}.

Definition from_candidate (c : RetrievalCandidate) : result app_exc RetrieveCandidateResponse :=
  m ← app_validated (build_safe_source_metadata (rc_source c) (rc_source_uri c) (Some (rc_source_type c))
        (rc_document_id c) (rc_version_id c) (rc_chunk_id c) (rc_page_start c) (rc_page_end c)
        (rc_title_path c) None);
  mret {| ra_chunk_id := sm_chunk_id m; ra_document_id := sm_document_id m;
          ra_version_id := sm_version_id m; ra_source_display_name := sm_source_display_name m;
          ra_source_ref := sm_source_ref m; ra_source_type := sm_source_type m;
          ra_page_start := sm_page_start m; ra_page_end := sm_page_end m;
          ra_title_path := sm_title_path m; ra_score := rc_score c;
          ra_retrieval_method := rc_retrieval_method c; ra_tenant_id := rc_tenant_id c;
          ra_acl := _safe_mapping (rc_acl c); ra_metadata := _safe_candidate_metadata (rc_metadata c);
          ra_content_excerpt := take 1200 (rc_content c) |}.

Definition from_result (r : RetrievalResult) (latency_ms : float) : result app_exc RetrieveResponse :=
  candidates ← mapM from_candidate (rt_candidates r);
  mret {| rp_request_id := rt_request_id r; rp_trace_id := rt_trace_id r;
          rp_tenant_id := rt_tenant_id r; rp_user_id := rt_user_id r; rp_top_k := rt_top_k r;
          rp_query_summary := rt_query_summary r; rp_latency_ms := Some latency_ms;
          rp_candidates := candidates |}.
End Log.

(** [_merge_hydrated_content]: the last hydrated item of a key counts. *)
Definition chunk_id_of (c : RetrievalCandidate) : pystr * pystr * pystr :=
  (rc_document_id c, rc_version_id c, rc_chunk_id c).
Definition content_by_key (hydrated : list ContextCandidate) : list ((pystr * pystr * pystr) * pystr) :=
  foldl (fun d h => dict_set (cc_document_id h, cc_version_id h, cc_chunk_id h) (cc_content h) d)
    [] hydrated.
Definition _merge_hydrated_content (candidates : list RetrievalCandidate)
    (hydrated : list ContextCandidate) : list RetrievalCandidate :=
  (fun c => with_content c
     (take 4000 (default (rc_content c) (dict_get (chunk_id_of c) (content_by_key hydrated)))))
    <$> candidates.

Definition with_candidates (r : RetrievalResult) (l : list RetrievalCandidate) : RetrievalResult :=
  {| rt_request_id := rt_request_id r; rt_trace_id := rt_trace_id r; rt_tenant_id := rt_tenant_id r;
     rt_user_id := rt_user_id r; rt_top_k := rt_top_k r; rt_query_summary := rt_query_summary r;
     rt_candidates := l; rt_latency_ms := rt_latency_ms r; rt_error_code := rt_error_code r |}.

(** * Ports and the world *)

(** Calls on the log and the audit port; [ok] tells whether they returned. *)
Inductive app_call : Type :=
| CallLog (record : RetrievalLogCreate) (ok : bool)
| CallAudit (event : AuditEvent) (ok : bool)
| CallCommit (ok : bool)
| CallRollback (ok : bool).

Record app_ports (S : Type) : Type := {
  ap_retrieval_service : RetrievalRequest -> AuthContext -> eff app_exc S RetrievalResult;
  ap_get_chunk : option (pystr -> pystr -> pystr -> pystr -> eff exc S (option ChunkRecord));
  ap_log_create : RetrievalLogCreate -> eff app_exc S unit;
  ap_log_commit : eff app_exc S unit;
  ap_log_rollback : eff app_exc S unit;
  ap_audit_record : AuditEvent -> eff app_exc S unit;
  ap_clock : S -> Z * S;
  ap_perf_counter : S -> float * S;
  ap_pipeline_trace : option (S -> option pydict * S)
}.
Arguments ap_retrieval_service {S}.
Arguments ap_get_chunk {S}.
Arguments ap_log_create {S}.
Arguments ap_log_commit {S}.
Arguments ap_log_rollback {S}.
Arguments ap_audit_record {S}.
Arguments ap_clock {S}.
Arguments ap_perf_counter {S}.
Arguments ap_pipeline_trace {S}.

(** * [RetrieveApplicationService] *)

Section Service.
Context `{PyRepr, UnicodeDB, NetlocCheck} {S : Type} (ports : app_ports S).

Definition app_eff (A : Type) : Type := eff app_exc (logged S app_call) A.

(** An exception of the hydrator as one of this service. *)
Definition as_port {A} (m : eff exc S A) : eff app_exc S A := fun s =>
  match m s with (Ok a, s') => (Ok a, s') | (Err e, s') => (Err (APort e), s') end.

Definition silent {A} (m : eff app_exc S A) : app_eff A := lcall m (fun _ => []).

(** [self._perf_counter()]. *)
Definition perf : app_eff float := lread (ap_perf_counter ports).

(** The construction of the request is outside of the [try] statement. *)
Definition retrieval_request (context : RequestContext) (c : RetrieveCommand)
    : result app_exc RetrievalRequest :=
  let metadata := MdMapping (rm_metadata_filter c) in
  match make_retrieval_request (rm_query c) (rm_top_k c) metadata (rm_score_threshold c)
          (rc_request_id context) (rc_trace_id context) with
  | Ok r => Ok r
  | Err _ =>
      Err (ARetrieval (PyExc (XRetrieval RETRIEVAL_INVALID_REQUEST (u "Retrieval request is invalid.")
        (redact_mapping (_safe_validation_details (rm_top_k c)
           (request_error_count (rm_query c) (rm_top_k c) metadata (rm_score_threshold c)
              (rc_request_id context) (rc_trace_id context))
           (rc_request_id context) (rc_trace_id context))) 400) None None))
  end.

Definition hydrated_result (context : RequestContext) (result : RetrievalResult)
    : app_eff RetrievalResult :=
  match ap_get_chunk ports, rt_candidates result with
  | Some get_chunk, _ :: _ =>
      hydrated <- silent (as_port (hydrate get_chunk (rt_candidates result) (rc_auth context)
                                     (rc_request_id context) (rc_trace_id context)));;
      mreturn (with_candidates result (_merge_hydrated_content (rt_candidates result) hydrated))
  | _, _ => mreturn result
  end.

(** The body of the [try] statement. *)
Definition gather (context : RequestContext) (request : RetrievalRequest) : app_eff RetrievalResult :=
  result <- silent (ap_retrieval_service ports request (rc_auth context));;
  hydrated_result context result.

Definition _pipeline_trace : app_eff (option pydict) :=
  match ap_pipeline_trace ports with
  | None => mreturn None
  | Some provider => trace <- lread provider;; mreturn (option_map _safe_mapping trace)
  end.

(** The record, the event and the commit, in this order: [record] and [event] are
    built where the code builds them. *)
Definition write_record (record : Z -> result app_exc RetrievalLogCreate)
    (event : result app_exc AuditEvent) : app_eff unit :=
  created_at <- lread (ap_clock ports);;
  r <- mlift (record created_at);;
  _ <- lcall (ap_log_create ports r) (fun out => [CallLog r (is_ok out)]);;
  e <- mlift event;;
  _ <- lcall (ap_audit_record ports e) (fun out => [CallAudit e (is_ok out)]);;
  lcall (ap_log_commit ports) (fun out => [CallCommit (is_ok out)]).

Definition log_record (context : RequestContext) (request_id trace_id : pystr) (status : log_status)
    (latency_ms : float) (top_k result_count : Z) (rerank_score : option float)
    (error_code : option pystr) (query_summary : list (pystr * Z)) (metadata : pydict)
    (created_at : Z) : result app_exc RetrievalLogCreate :=
  make_log {| lg_request_id := request_id; lg_trace_id := trace_id;
              lg_tenant_id := auth_tenant_id (rc_auth context);
              lg_user_id := auth_user_id (rc_auth context);
              lg_created_by := auth_user_id (rc_auth context); lg_status := status;
              lg_latency_ms := latency_ms; lg_top_k := top_k; lg_result_count := result_count;
              lg_rerank_score := rerank_score; lg_error_code := error_code;
              lg_query_summary := query_summary; lg_metadata := metadata;
              lg_created_at := created_at |}.

Definition _record_success (context : RequestContext) (result : RetrievalResult) (latency_ms : float)
    : app_eff unit :=
  trace <- _pipeline_trace;;
  metadata <- mlift (_log_metadata_from_candidates (rt_candidates result) trace);;
  rerank_score <- mlift (_max_rerank_score (rt_candidates result));;
  let n := count (rt_candidates result) in
  write_record
    (log_record context (rt_request_id result) (rt_trace_id result) LogSuccess latency_ms
       (rt_top_k result) n rerank_score None (rt_query_summary result) metadata)
    (_audit_event context AuditSUCCESS latency_ms None
       ([(u "top_k", VInt (rt_top_k result)); (u "result_count", VInt n);
         (u "rerank_score", opt_number rerank_score)] ++ metadata)).

(** [code] and [details] are the error's. *)
Definition _record_failure (context : RequestContext) (request : RetrievalRequest)
    (latency_ms : float) (code : pystr) (details : pydict) : app_eff unit :=
  let metadata := redact_mapping [(u "error_code", VStr code);
                                  (u "error_details", VDict (_safe_mapping details))] in
  write_record
    (log_record context (rq_request_id request) (rq_trace_id request) LogFailure latency_ms
       (rq_top_k request) 0 None (Some code) (_query_summary (rq_query request)) metadata)
    (_audit_event context AuditFAILURE latency_ms (Some code)
       ([(u "top_k", VInt (rq_top_k request)); (u "result_count", VInt 0)] ++ metadata)).

(** [except Exception] with [suppress(Exception)] around [f]. *)
Definition except_exception (m f : app_eff unit) : app_eff unit :=
  mcatch m (fun e => if app_exception e
                     then mcatch f (fun e' => if app_exception e' then mreturn tt else mraise e')
                     else mraise e).

Definition rollback : app_eff unit :=
  lcall (ap_log_rollback ports) (fun out => [CallRollback (is_ok out)]).

Definition hydration_failed (context : RequestContext) (cause : app_exc) : app_exc :=
  ARetrieval (PyExc (XRetrieval RETRIEVAL_CONTENT_HYDRATION_FAILED
    (u "Authorized retrieval evidence hydration failed.")
    (redact_mapping
       [(u "request_id", VStr (rc_request_id context)); (u "trace_id", VStr (rc_trace_id context));
        (u "tenant_id", VStr (auth_tenant_id (rc_auth context)));
        (u "user_id", VStr (auth_user_id (rc_auth context))); (u "stage", VStr (u "hydration"))])
    502) None (match cause with ARetrieval e => Some e | APort _ => None end)).

(** What the two [except] clauses raise of an error they catch. *)
Definition reported (context : RequestContext) (e : app_exc) : option app_exc :=
  match retrieval_error_fields e with
  | Some _ => Some e
  | None => if evidence_error e then Some (hydration_failed context e) else None
  end.

Definition except_clauses (context : RequestContext) (request : RetrievalRequest) (started : float)
    (e : app_exc) : app_eff RetrievalResult :=
  match reported context e with
  | None => mraise e
  | Some error =>
      t <- perf;;
      let '(code, details) := default ([], []) (retrieval_error_fields error) in
      _ <- except_exception
             (_record_failure context request (_elapsed_ms (fsub t started)) code details) rollback;;
      mraise error
  end.

(** [max(elapsed, response_latency_ms or 0.0)] when it is missing or out of date. *)
Definition response_latency (started : float) (result : RetrievalResult) : app_eff float :=
  match rt_latency_ms result, ap_get_chunk ports with
  | Some l, None => mreturn l
  | l, _ => t <- perf;; mreturn (fmax (_elapsed_ms (fsub t started)) (default fzero l))
  end.

Definition retrieve (context : RequestContext) (command : RetrieveCommand) : app_eff RetrieveResponse :=
  started <- perf;;
  request <- mlift (retrieval_request context command);;
  result <- mcatch (gather context request) (except_clauses context request started);;
  latency_ms <- response_latency started result;;
  _ <- _record_success context result latency_ms;;
  mlift (from_result result latency_ms).
End Service.

(** * Properties *)

Section Props.
Context `{PyRepr, UnicodeDB, NetlocCheck} {S : Type} (ports : app_ports S).

Definition audit_status (s : log_status) : AuditStatus :=
  match s with LogSuccess => AuditSUCCESS | LogFailure => AuditFAILURE end.

(** One log record and one audit event of the outcome, both in the caller's name,
    and the commit, all accepted and in this order. *)
Definition recorded (context : RequestContext) (status : log_status) (code : option pystr)
    (calls : list app_call) : Prop :=
  exists record event,
    calls = [CallLog record true; CallAudit event true; CallCommit true] /\
    (lg_tenant_id record, lg_user_id record, lg_status record, lg_error_code record)
      = (strip (auth_tenant_id (rc_auth context)), strip (auth_user_id (rc_auth context)), status, code) /\
    (ev_tenant_id event, ev_user_id event, ev_status event, ev_error_code event)
      = (strip (auth_tenant_id (rc_auth context)), strip (auth_user_id (rc_auth context)),
         audit_status status, code).

Definition uncommitted (calls : list app_call) : Prop := CallCommit true ∉ calls.

(** The outcome is on record, or its record was rolled back, uncommitted. *)
Definition accounted (context : RequestContext) (code : pystr) (calls : list app_call) : Prop :=
  recorded context LogFailure (Some code) calls \/
  exists attempts ok, calls = attempts ++ [CallRollback ok] /\ uncommitted attempts.

(** The calls a computation adds to the log. *)
Definition calls_of {A} (m : app_eff (S := S) A) (Q : result app_exc A -> list app_call -> Prop)
    (w : logged S app_call) : Prop :=
  ends m (fun r w' => exists calls, lg_log w' = lg_log w ++ calls /\ Q r calls) w.

Lemma calls_bind {A B} (m : app_eff A) (f : A -> app_eff B) Q R w :
  calls_of m Q w ->
  (forall a w' calls, Q (Ok a) calls ->
     calls_of (f a) (fun r more => R r (calls ++ more)) w') ->
  (forall e calls, Q (Err e) calls -> R (Err e) calls) ->
  calls_of (mthen m f) R w.
Proof.
  unfold calls_of. intros Hm Hf He. apply ends_bind. eapply ends_mono; [exact Hm|].
  intros [a|e] w' (calls & Hl & Hq); [|eauto].
  eapply ends_mono; [by apply Hf|]. intros r w'' (more & Hl' & Hr). exists (calls ++ more).
  by rewrite Hl', Hl, (assoc_L (++)).
Qed.

Lemma calls_catch {A} (m : app_eff A) h Q R w :
  calls_of m Q w ->
  (forall a calls, Q (Ok a) calls -> R (Ok a) calls) ->
  (forall e w' calls, Q (Err e) calls ->
     calls_of (h e) (fun r more => R r (calls ++ more)) w') ->
  calls_of (mcatch m h) R w.
Proof.
  unfold calls_of. intros Hm Ha Hh. apply ends_try. eapply ends_mono; [exact Hm|].
  intros [a|e] w' (calls & Hl & Hq); [eauto|].
  eapply ends_mono; [by apply Hh|]. intros r w'' (more & Hl' & Hr). exists (calls ++ more).
  by rewrite Hl', Hl, (assoc_L (++)).
Qed.

Lemma calls_weaken {A} (m : app_eff A) (Q R : result app_exc A -> list app_call -> Prop) w :
  calls_of m Q w -> (forall r calls, Q r calls -> R r calls) -> calls_of m R w.
Proof. unfold calls_of. intros Hm Hq. eapply ends_mono; [exact Hm|]. intros r w' (calls & Hl & Hr). eauto. Qed.

Lemma calls_ret {A} (a : A) (Q : result app_exc A -> list app_call -> Prop) w :
  Q (Ok a) [] -> calls_of (mreturn a) Q w.
Proof. intros Hq. apply ends_ret. exists []. by rewrite app_nil_r. Qed.

Lemma calls_raise {A} e (Q : result app_exc A -> list app_call -> Prop) w :
  Q (Err e) [] -> calls_of (mraise e) Q w.
Proof. intros Hq. apply ends_raise. exists []. by rewrite app_nil_r. Qed.

Lemma calls_lift {A} (r : result app_exc A) :
  forall w, calls_of (mlift r) (fun r' calls => r' = r /\ calls = []) w.
Proof. intros w. apply ends_lift. exists []. by rewrite app_nil_r. Qed.

Lemma calls_lcall {A} (m : eff app_exc S A) entry w :
  calls_of (lcall m entry) (fun r calls => calls = entry r) w.
Proof. unfold calls_of, ends, lcall. destruct (m (lg_state w)) as [r s]. by exists (entry r). Qed.

Lemma calls_lread {A} (m : S -> A * S) w :
  calls_of (lread m) (fun r calls => calls = [] /\ exists a, r = Ok a) w.
Proof. unfold calls_of, ends, lread. destruct (m (lg_state w)) as [a s]. exists []. eauto. Qed.

Lemma make_log_fields r record :
  make_log r = Ok record ->
  lg_tenant_id record = strip (lg_tenant_id r) /\ lg_user_id record = strip (lg_user_id r) /\
  lg_status record = lg_status r /\ lg_error_code record = lg_error_code r.
Proof. unfold make_log. destruct (negb _); [done|]. by intros [= <-]. Qed.

Lemma retrieve_text_ok s n : nonblank_text s = Ok n -> n = strip s.
Proof. unfold nonblank_text. destruct (strip s); congruence. Qed.

Lemma audit_event_fields context status latency code metadata e :
  _audit_event context status latency code metadata = Ok e ->
  ev_tenant_id e = strip (auth_tenant_id (rc_auth context)) /\
  ev_user_id e = strip (auth_user_id (rc_auth context)) /\
  ev_status e = status /\ ev_error_code e = code.
Proof.
  unfold _audit_event, app_validated.
  destruct (make_audit_resource _ _ _) as [res|]; [|done]. cbv [mbind result_bind].
  destruct (make_audit_event _ _ _ _ _ _ _ _ _ _) as [e'|] eqn:Hm; [|done]. intros [= <-].
  unfold make_audit_event in Hm. res_inv.
  repeat match goal with Hn : nonblank_text _ = Ok _ |- _ => apply retrieve_text_ok in Hn as -> end.
  done.
Qed.

(** What [write_record] leaves of an outcome. *)
Lemma write_record_calls context request_id trace_id status latency k n score code summary metadata
    audit w :
  calls_of (write_record ports
      (log_record context request_id trace_id status latency k n score code summary metadata)
      (_audit_event context (audit_status status) latency code audit))
    (fun r calls => match r with
                    | Ok _ => recorded context status code calls
                    | Err _ => uncommitted calls end) w.
Proof.
  unfold write_record, uncommitted.
  eapply calls_bind; [apply calls_lread| |by intros e calls (_ & a & [=])].
  intros t w1 ? (-> & _). eapply calls_bind; [apply calls_lift| |intros e c (_ & ->); set_solver].
  intros record w2 ? (Hr & ->). symmetry in Hr. apply make_log_fields in Hr as (Ht & Hu & Hs & Hc).
  eapply calls_bind; [apply calls_lcall| |intros e c ->; cbn; set_solver].
  intros [] w3 ? ->. eapply calls_bind; [apply calls_lift| |intros e c (_ & ->); cbn; set_solver].
  intros e w4 ? (He & ->). symmetry in He. apply audit_event_fields in He as (Et & Eu & Es & Ec).
  eapply calls_bind; [apply calls_lcall| |intros x c ->; cbn; set_solver].
  intros [] w5 ? ->. eapply calls_weaken; [apply calls_lcall|].
  intros [[]|x] calls ->; cbn; [|set_solver].
  exists record, e. split; [done|]. cbn in *. by rewrite Ht, Hu, Hs, Hc, Et, Eu, Es, Ec.
Qed.

Definition logs_nothing {A} (m : app_eff (S := S) A) : Prop :=
  forall w, calls_of m (fun r calls => r = (m w).1 /\ calls = []) w.

Lemma ends_own {A} (m : app_eff A) (Q : list app_call -> Prop) w :
  calls_of m (fun _ => Q) w -> calls_of m (fun r calls => r = (m w).1 /\ Q calls) w.
Proof. unfold calls_of, ends. intros (calls & Hl & Hq). by exists calls. Qed.

Lemma silent_nothing {A} (m : eff app_exc S A) : logs_nothing (silent m).
Proof.
  intros w. apply ends_own. eapply calls_weaken; [apply calls_lcall|]. by intros r calls ->.
Qed.

Lemma gather_nothing context request : logs_nothing (gather ports context request).
Proof.
  intros w. apply ends_own. unfold gather.
  eapply calls_bind; [apply silent_nothing| |by intros e calls (_ & ->)].
  intros result w1 ? (_ & ->). unfold hydrated_result.
  destruct (ap_get_chunk ports) as [g|]; [|by apply calls_ret].
  destruct (rt_candidates result); [by apply calls_ret|].
  eapply calls_bind; [apply silent_nothing| |by intros e calls (_ & ->)].
  intros hydrated w2 ? (_ & ->). by apply calls_ret.
Qed.

Lemma recorded_or_rolled_back context request latency code details w :
  calls_of (except_exception (_record_failure ports context request latency code details)
              (rollback ports))
    (fun r calls => match r with
                    | Ok _ => accounted context code calls
                    | Err c => app_exception c = false /\ uncommitted calls end) w.
Proof.
  unfold except_exception. eapply calls_catch.
  - apply (write_record_calls context _ _ LogFailure).
  - intros [] calls Hc. by left.
  - intros e w1 calls Hc. destruct (app_exception e) eqn:He;
      [|apply calls_raise; by rewrite app_nil_r].
    eapply calls_catch; [apply calls_lcall| |].
    + intros [] more ->. right. by exists calls, true.
    + intros e' w2 more ->. cbn [is_ok]. destruct (app_exception e') eqn:He'.
      * apply calls_ret. right. by exists calls, false.
      * apply calls_raise. split; [done|]. unfold uncommitted in *. set_solver.
Qed.

Lemma reported_fields context e error :
  reported context e = Some error ->
  exists code details, retrieval_error_fields error = Some (code, details).
Proof.
  unfold reported. destruct (retrieval_error_fields e) as [[code details]|] eqn:He.
  - intros [= <-]. by exists code, details.
  - destruct (evidence_error e); [|done]. intros [= <-]. eexists _, _. reflexivity.
Qed.

Lemma except_calls context request started e w :
  calls_of (except_clauses ports context request started e)
    (fun r calls =>
       match reported context e with
       | None => r = Err e /\ calls = []
       | Some error =>
           exists code details, retrieval_error_fields error = Some (code, details) /\
             ((r = Err error /\ accounted context code calls) \/
              exists c, r = Err c /\ app_exception c = false /\ uncommitted calls)
       end) w.
Proof.
  unfold except_clauses. destruct (reported context e) as [error|] eqn:Hr; [|by apply calls_raise].
  destruct (reported_fields _ _ _ Hr) as (code & details & Hf). rewrite Hf. cbn [default from_option id].
  eapply calls_bind; [apply calls_lread| |by intros ? ? (_ & ? & [=])].
  intros t w1 ? (-> & _).
  eapply calls_bind; [apply recorded_or_rolled_back| |].
  - intros [] w2 calls Hc. apply calls_raise. rewrite app_nil_r. eauto 6.
  - intros c calls (Hc & Hu). exists code, details. split; [done|]. right. by exists c.
Qed.

Lemma trace_nothing w :
  calls_of (_pipeline_trace ports) (fun r calls => calls = [] /\ exists a, r = Ok a) w.
Proof.
  unfold _pipeline_trace. destruct (ap_pipeline_trace ports) as [p|]; [|by apply calls_ret; split; [|eexists]].
  eapply calls_bind; [apply calls_lread| |by intros ? ? (_ & ? & [=])].
  intros t w1 ? (-> & _). by apply calls_ret; split; [|eexists].
Qed.

Lemma success_calls context result latency w :
  calls_of (_record_success ports context result latency)
    (fun r calls => match r with
                    | Ok _ => recorded context LogSuccess None calls
                    | Err _ => uncommitted calls end) w.
Proof.
  unfold _record_success.
  eapply calls_bind; [apply trace_nothing| |by intros ? ? (_ & ? & [=])].
  intros t w1 ? (-> & _).
  eapply calls_bind; [apply calls_lift| |intros e c (_ & ->); unfold uncommitted; set_solver].
  intros metadata w2 ? (_ & ->).
  eapply calls_bind; [apply calls_lift| |intros e c (_ & ->); unfold uncommitted; set_solver].
  intros score w3 ? (_ & ->). cbn [app]. apply (write_record_calls context _ _ LogSuccess).
Qed.

Lemma latency_nothing started result w :
  calls_of (response_latency ports started result) (fun r calls => calls = [] /\ exists a, r = Ok a) w.
Proof.
  unfold response_latency.
  destruct (rt_latency_ms result) as [l|], (ap_get_chunk ports); try (by apply calls_ret; split; [|eexists]).
  all: eapply calls_bind; [apply calls_lread| |by intros ? ? (_ & ? & [=])].
  all: intros t w1 ? (-> & _); by apply calls_ret; split; [|eexists].
Qed.

Lemma answer_calls context started result w :
  calls_of (mthen (response_latency ports started result) (fun latency_ms =>
              mthen (_record_success ports context result latency_ms) (fun _ =>
                mlift (from_result result latency_ms))))
    (fun r calls =>
       (exists latency, recorded context LogSuccess None calls /\ from_result result latency = r) \/
       (exists e, r = Err e) /\ uncommitted calls) w.
Proof.
  eapply calls_bind; [apply latency_nothing| |by intros ? ? (_ & ? & [=])].
  intros latency w1 ? (-> & _). eapply calls_bind; [apply success_calls| |].
  - intros [] w2 calls Hc. eapply calls_weaken; [apply calls_lift|]. intros r more (-> & ->).
    cbn [app]. rewrite app_nil_r. left. eauto.
  - intros e calls Hc. right. eauto.
Qed.

(** What a retrieval comes to, [gathered] being what the service and the hydrator
    make of a request. *)
Definition retrieval_outcome (context : RequestContext) (command : RetrieveCommand)
    (gathered : RetrievalRequest -> result app_exc RetrievalResult)
    (r : result app_exc RetrieveResponse) (calls : list app_call) : Prop :=
  match retrieval_request context command with
  | Err e => r = Err e /\ calls = []
  | Ok request =>
      match gathered request with
      | Err e =>
          match reported context e with
          | None => r = Err e /\ calls = []
          | Some error =>
              exists code details, retrieval_error_fields error = Some (code, details) /\
                ((r = Err error /\ accounted context code calls) \/
                 exists c, r = Err c /\ app_exception c = false /\ uncommitted calls)
          end
      | Ok result =>
          (exists latency, recorded context LogSuccess None calls /\ from_result result latency = r) \/
          (exists e, r = Err e) /\ uncommitted calls
      end
  end.

Lemma after_perf {A} (f : float -> app_eff A) Q w :
  (forall started, calls_of (f started) Q (perf ports w).2) -> calls_of (mthen (perf ports) f) Q w.
Proof.
  unfold perf, calls_of, ends, mthen, lread. destruct (ap_perf_counter ports (lg_state w)) as [t s].
  cbn [snd lg_log with_log]. intros Hf. destruct (Hf t) as (calls & Hl & Hq). exists calls.
  rewrite app_nil_r in Hl. done.
Qed.

Lemma caught_calls context request started w :
  calls_of (mcatch (gather ports context request) (except_clauses ports context request started))
    (fun r calls =>
       match (gather ports context request w).1 with
       | Ok result => r = Ok result /\ calls = []
       | Err e => (forall result, r <> Ok result) /\
           match reported context e with
           | None => r = Err e /\ calls = []
           | Some error =>
               exists code details, retrieval_error_fields error = Some (code, details) /\
                 ((r = Err error /\ accounted context code calls) \/
                  exists c, r = Err c /\ app_exception c = false /\ uncommitted calls)
           end
       end) w.
Proof.
  eapply calls_catch; [apply gather_nothing| |].
  - intros result calls (<- & ->). done.
  - intros e w1 calls (<- & ->). cbn [app]. eapply calls_weaken; [apply except_calls|].
    intros r more Hr. destruct (reported context e) as [error|].
    + split; [|exact Hr]. destruct Hr as (code & details & _ & [(-> & _)|(c & -> & _)]); done.
    + destruct Hr as (-> & ->). done.
Qed.

(** C12: Every retrieval is accounted for.  A request its validation refuses
    reaches neither the log nor the audit port.  When the service finds its
    evidence, an answer leaves only after one success record of the log, one audit
    event and the commit were accepted in this order, both in the caller's name,
    and it is that evidence; otherwise nothing was committed, except where the
    response itself could not be built.  When the service raises a retrieval error,
    or its evidence cannot be read back, that error, or the error of a failed
    hydration, is what is raised, after its failure record, event and commit, or
    after the attempt was rolled back; only a cancellation may replace it.  Any
    other exception leaves as it is. *)
Theorem retrieve_recorded context command w :
  calls_of (retrieve ports context command)
    (retrieval_outcome context command
       (fun request => (gather ports context request (perf ports w).2).1)) w.
Proof.
  unfold retrieve. apply after_perf. intros started. generalize (perf ports w).2. intros w1.
  unfold retrieval_outcome. destruct (retrieval_request context command) as [request|e];
    [|by apply calls_raise].
  match goal with |- calls_of (mthen _ ?f) ?Q _ => change (calls_of (f request) Q w1) end.
  cbv beta. eapply calls_bind; [apply caught_calls| |].
  - intros result w2 calls. destruct (gather ports context request w1).1 as [result'|e].
    + intros ([= <-] & ->). cbn [app]. apply answer_calls.
    + intros (Hn & _). by destruct (Hn result).
  - intros e calls. destruct (gather ports context request w1).1 as [result'|e']; [by intros ([=] & _)|].
    intros (_ & Ho). destruct (reported context e') as [error|].
    + destruct Ho as (code & details & Hf & [([= <-] & Ha)|(c & [= <-] & Hc)]); exists code, details.
      * split; [done|]. by left.
      * split; [done|]. right. by exists e.
    + by destruct Ho as ([= <-] & ->).
Qed.
End Props.

(** * Examples *)

Module AppExamples.
Import Examples RedactExamples SourceExamples HydrateExamples.

Definition context1 : RequestContext :=
  {| rc_request_id := u "r1"; rc_trace_id := u "tr1"; rc_session_id := None;
     rc_auth_method := None; rc_auth := alice |}.
Definition command1 : RetrieveCommand :=
  {| rm_query := u "the answer"; rm_top_k := 3; rm_metadata_filter := []; rm_score_threshold := None |}.
Definition result1 : RetrievalResult :=
  {| rt_request_id := u "r1"; rt_trace_id := u "tr1"; rt_tenant_id := u "t1"; rt_user_id := u "u1";
     rt_top_k := 3; rt_query_summary := []; rt_candidates := [candidate1];
     rt_latency_ms := Some fone; rt_error_code := None |}.
Definition service_failed : app_exc :=
  ARetrieval (PyExc (XRetrieval RETRIEVAL_BACKEND_FAILED (u "Retrieval backend failed.") [] 502) None None).

(** Ports that answer [evidence] and accept a record when [accept]. *)
Definition ports1 (evidence : result app_exc RetrievalResult) (accept : bool) : app_ports unit :=
  let answer (ok : bool) : eff app_exc unit unit :=
    fun s => (if ok then Ok tt else Err (APort (EException (u "OperationalError"))), s) in
  {| ap_retrieval_service := fun _ _ s => (evidence, s); ap_get_chunk := Some store1;
     ap_log_create := fun _ => answer true; ap_log_commit := answer accept;
     ap_log_rollback := answer true; ap_audit_record := fun _ => answer true;
     ap_clock := fun s => (0%Z, s); ap_perf_counter := fun s => (fzero, s);
     ap_pipeline_trace := None |}.

(** The outcome and the calls made. *)
Definition ran (evidence : result app_exc RetrievalResult) (accept : bool)
    : result app_exc (list pystr) * list string :=
  let '(r, w) := retrieve (ports1 evidence accept) context1 command1 {| lg_state := tt; lg_log := [] |} in
  (match r with Ok a => Ok (ra_content_excerpt <$> rp_candidates a) | Err e => Err e end,
   (fun c => match c with
             | CallLog record _ => match lg_status record with
                                   | LogSuccess => "success" | LogFailure => "failure" end
             | CallAudit _ _ => "audit"
             | CallCommit true => "commit" | CallCommit false => "commit failed"
             | CallRollback _ => "rollback" end%string) <$> lg_log w).

Example answered : ran (Ok result1) true = (Ok [u "The answer is 42."], ["success"; "audit"; "commit"]%string).
Proof. vm_compute. reflexivity. Qed.

(** A success that cannot be committed is not answered. *)
Example unrecorded_success : ran (Ok result1) false
  = (Err (APort (EException (u "OperationalError"))), ["success"; "audit"; "commit failed"]%string).
Proof. vm_compute. reflexivity. Qed.

(** A failure that cannot be recorded keeps its error. *)
Example unrecorded_failure : ran (Err service_failed) false
  = (Err service_failed, ["failure"; "audit"; "commit failed"; "rollback"]%string).
Proof. vm_compute. reflexivity. Qed.
End AppExamples.
