(* ===== verification/RagGuarantee.v ===== *)
(** Guarantees of the query service.

    What [RagQuery] promises about its answers, its streams and its audit trail, for
    every behaviour of the retriever, the store, the model provider and the audit
    ports: which chunks an answer may cite, that a caller without permission reaches
    no port, the order and the counts of the events of a stream, and that every
    query is audited. *)

From Stdlib Require Import ZArith String.
From S2P Require Import Prelude Effects Float64 PyVal Access Redact SourceMetadata Rrf ContextPacker.
From S2P Require Import AgentDto RagDto CitationExtractor Hydration PromptBuilder Generation.
From S2P Require Import RagStreaming RagQuery.
From S2P Require Registry.
From stdpp Require Import base list numbers sets.

Open Scope eff_scope.
#[local] Arguments fsub : simpl never.

(** * Latencies are not negative *)

Definition not_negative (x : float) : bool :=
  match x with S754_finite true _ _ | S754_infinity true => false | _ => true end.

Lemma not_negative_flt x : not_negative x = true -> flt x fzero = false.
Proof. by destruct x as [[]|[]| |[]]. Qed.

Lemma round_not_negative m e l : not_negative (binary_round_aux 53 1024 false m e l) = true.
Proof. unfold binary_round_aux. destruct (shr_fexp _ _ m e l). destruct (shr_fexp _ _ _ _ _). repeat case_match; done. Qed.

Lemma elapsed_not_negative x : flt (_elapsed_ms x) fzero = false.
Proof.
  apply not_negative_flt. unfold _elapsed_ms, Registry._elapsed_ms.
  assert (not_negative (fmax x fzero) = true) as Hm.
  { unfold fmax. destruct (flt x fzero) eqn:E; [done|].
    destruct x as [[]|[]| |[] m e]; try done. }
  assert (not_negative (fmul (fmax x fzero) (fofZ 1000)) = true) as Hp.
  { unfold fmul. change (fofZ 1000) with (S754_finite false 8796093022208000 (-43)).
    destruct (fmax x fzero) as [[]|[]| |[] m e]; try done. apply round_not_negative. }
  unfold Registry.fround3. destruct (fmul _ _) as [?|?| |s m e]; try done.
  destruct s; [done|]. destruct (0 <=? e)%Z; [done|]. destruct (Decimal28.div_half_even _ _); try done.
  unfold fdiv, SFdiv. destruct (SFdiv_core_binary _ _ _ _ _ _) as [[? ?] ?].
  apply round_not_negative.
Qed.

(** * Where cited chunks come from *)

(** The identity of a stored chunk, as citations show it. *)
Definition chunk_key (r : ChunkRecord) : source_identity :=
  (strip (ch_document_id r), strip (ch_version_id r), strip (ch_chunk_id r)).

Section Provenance.
Context `{PyRepr, UnicodeDB, NetlocCheck, UnicodeDigits}.

(** The chunk [key] was read from the store in this request, for the caller's
    tenant; it is active and its ACL lets the caller read it. *)
Definition read_for (auth : AuthContext) (log : list rag_call) (key : source_identity) : Prop :=
  exists d v c record,
    CallGetChunk (auth_tenant_id auth) d v c (Some record) ∈ log /\
    ch_tenant_id record = auth_tenant_id auth /\ ch_status record = u "active" /\
    ch_deleted_at record = None /\ acl_allows_auth (ch_acl record) auth = Ok true /\
    key = chunk_key record.

Lemma citation_source_key s x :
  _citation_source s = Ok x ->
  source_key x = (strip (cc_document_id (sel_candidate s)), strip (cc_version_id (sel_candidate s)),
                  strip (cc_chunk_id (sel_candidate s))).
Proof.
  unfold _citation_source, lift_dto. destruct (mbind _ _) as [y|] eqn:Hy; [|done].
  intros E. apply ok_eq in E as <-. ok_inv Hy.
  assert (forall t n, _required_text t = Ok n -> n = strip t) as Hr
    by (intros t n; unfold _required_text; destruct (strip t); congruence).
  repeat match goal with Hx : _required_text _ = Ok _ |- _ => apply Hr in Hx end.
  unfold source_key. cbn [ps_document_id ps_version_id ps_chunk_id]. congruence.
Qed.

Lemma item_sources g item :
  item_of g item -> Forall (fun x => exists s, s ∈ g /\ _citation_source s = Ok x) (pi_citation_sources item).
Proof.
  intros (s & rest & -> & Hi). unfold _item_from_group, mbind, result_bind in Hi.
  destruct (map_result _citation_source (s :: rest)) as [cits|] eqn:Hc; [|done].
  assert (pi_citation_sources item = cits) as ->.
  { unfold lift_dto in Hi.
    match type of Hi with match ?m with _ => _ end = _ => destruct m as [i|] eqn:Hm; [|done] end.
    apply ok_eq in Hi as <-. ok_inv Hm. done. }
  apply list.Forall_forall. intros x Hx. by apply (map_result_elem _ _ _ x Hc).
Qed.

(** Every source of a packed context is one of the packed candidates. *)
Lemma packed_source_candidate hs auth config request_id trace_id pc x :
  pack (Some <$> hs) auth (Some config) None request_id trace_id = Ok pc ->
  valid_packing_config config = true -> x ∈ all_sources (pc_items pc) ->
  exists h, h ∈ hs /\ source_key x = (strip (cc_document_id h), strip (cc_version_id h), strip (cc_chunk_id h)).
Proof.
  intros Hp Hcfg Hx.
  apply pack_ok_inv in Hp as (f & st & groups & _ & [_ _ _ _ Hsel] & _ & _ & Hperm & Hitems & _).
  2:{ unfold valid_packing_config in Hcfg. cbn. apply andb_true_iff in Hcfg as [Hm _].
      apply negb_true_iff, Z.leb_gt in Hm. lia. }
  apply list_elem_of_bind in Hx as (item & Hx & Hitem).
  apply list_elem_of_lookup in Hitem as [i Hi].
  destruct (Forall2_lookup_r _ _ _ _ _ Hitems Hi) as (g & Hg & Hgi).
  pose proof (item_sources _ _ Hgi) as Hall. rewrite list.Forall_forall in Hall.
  destruct (Hall x Hx) as (s & Hs & Hcs). apply citation_source_key in Hcs.
  assert (s ∈ st_selected st) as Hin.
  { rewrite <- Hperm. apply list_elem_of_In, in_concat. exists g.
    split; [apply list_elem_of_In; by eapply list_elem_of_lookup_2|by apply list_elem_of_In]. }
  rewrite list.Forall_forall in Hsel. destruct (Hsel s Hin) as (_ & _ & Hpool).
  cbn in Hpool. rewrite app_nil_r in Hpool. exists (sel_candidate s). split; [|done].
  apply list_elem_of_omap in Hpool as (o & Ho & Heq). cbn in Heq. subst o.
  apply list_elem_of_fmap in Ho as (h & [= ->] & Hh). exact Hh.
Qed.

Context {S : Type} (P : ports S) (svc : RagQueryApplicationService).

(** Hydration leaves in the log the reads that served its candidates. *)
Lemma hydrate_logged cs auth request_id trace_id w hs w' :
  hydrate (read_chunk P) cs auth request_id trace_id w = (Ok hs, w') ->
  exists l, w_log w' = w_log w ++ l /\
    Forall2 (fun c h => exists chunk,
      CallGetChunk (auth_tenant_id auth) (rc_document_id c) (rc_version_id c) (rc_chunk_id c)
        (Some chunk) ∈ l /\
      chunk_verified auth c chunk /\ _context_candidate c chunk = Ok h) cs hs.
Proof.
  revert w hs. induction cs as [|c cs IH]; intros w hs; cbn [hydrate].
  { intros [= <- <-]. exists []. rewrite app_nil_r. split; [done|constructor]. }
  intros [(e & _ & [=])|(h & w1 & Hh & E)]%mthen_inv.
  apply mthen_inv in E as [(e & _ & [=])|(hs' & w2 & Hs & [= <- <-])].
  apply IH in Hs as (l & Hl & Hall).
  unfold hydrate_one in Hh. apply mthen_inv in Hh as [(e & _ & [=])|(o & w3 & Hg & Hh)].
  destruct o as [chunk|]; [|done].
  apply mthen_inv in Hh as [(e & _ & [=])|([] & w4 & Hv & Hc)].
  unfold mlift in Hv, Hc. injection Hv as Hv <-. injection Hc as Hc <-.
  unfold _validate_chunk, mbind, result_bind in Hv.
  destruct (_invalid_chunk_reason c chunk auth) as [[|]|] eqn:Hr; try done.
  unfold read_chunk, call in Hg. destruct (get_chunk P _ _ _ _ _) as [r s].
  injection Hg as -> <-. cbn in Hl. exists (CallGetChunk (auth_tenant_id auth) (rc_document_id c)
    (rc_version_id c) (rc_chunk_id c) (Some chunk) :: l).
  split; [by rewrite Hl, <- app_assoc|]. constructor.
  - exists chunk. split_and!; [by left|by apply invalid_reason_none|done].
  - eapply Forall2_impl; [exact Hall|]. intros c' h' (k & Hk & Hrest). exists k.
    split; [by right|done].
Qed.

Lemma verified_candidate_key auth c chunk h :
  chunk_verified auth c chunk -> _context_candidate c chunk = Ok h ->
  (strip (cc_document_id h), strip (cc_version_id h), strip (cc_chunk_id h)) = chunk_key chunk.
Proof.
  intros [_ (Hd & Hv & Hc) _ _ _] (_ & _ & _ & _ & -> & -> & ->)%context_candidate_fields.
  unfold chunk_key. by rewrite !strip_idem, Hd, Hv, Hc.
Qed.

(** The context of a prompt holds only chunks read for the caller. *)
Lemma prepare_inv context command memory w p w' :
  _prepare_query_context P svc context command memory w = (Ok p, w') ->
  valid_packing_config (qs_context_packing_config svc) = true ->
  (exists l, w_log w' = w_log w ++ l) /\
  (forall prompt, pq_prompt p = Some prompt -> exists pc,
     pq_packed_context p = Some pc /\ pc_items pc <> [] /\
     build_prompt svc context command pc memory = Ok prompt /\
     forall x, x ∈ all_sources (pc_items pc) ->
       read_for (rc_auth context) (w_log w') (source_key x)).
Proof.
  intros E Hcfg. unfold _prepare_query_context in E.
  apply mthen_inv in E as [(e & _ & [=])|(request & w1 & Hq & E)]. injection Hq as Hq <-.
  apply mthen_inv in E as [(e & _ & [=])|(retrieval & w1 & Hr & E)].
  unfold call in Hr. destruct (retrieve P _ _ _) as [r s]. injection Hr as -> <-.
  destruct (rt_candidates retrieval) as [|c0 cs0] eqn:Hcands.
  { injection E as <- <-. split; [cbn; eauto|done]. }
  rewrite <- Hcands in E.
  apply mthen_inv in E as [(e & _ & [=])|(hs & w2 & Hh & E)].
  apply hydrate_logged in Hh as (l & Hl & Hall). cbn in Hl.
  assert (exists l, w_log w2 = w_log w ++ l) as Hlog by (rewrite Hl, <- app_assoc; eauto).
  apply mthen_inv in E as [(e & _ & [=])|(pc & w3 & Hpc & E)]. injection Hpc as Hpc <-.
  destruct (pc_items pc) as [|i its] eqn:Hitems.
  { injection E as <- <-. split; [done|done]. }
  apply mthen_inv in E as [(e & _ & [=])|(prompt & w3 & Hb & E)]. injection Hb as Hb <-.
  injection E as <- <-. split; [done|]. intros prompt' [= <-]. exists pc.
  split_and!; [done|by rewrite Hitems|done|]. intros x Hx.
  unfold pack_context in Hpc. destruct (pack _ _ _ _ _ _) as [pc'|] eqn:Hpack; [|done].
  apply ok_eq in Hpc as ->.
  destruct (packed_source_candidate _ _ _ _ _ _ x Hpack Hcfg Hx) as (h & Hin & ->).
  apply list_elem_of_lookup in Hin as [j Hj].
  destruct (Forall2_lookup_r _ _ _ _ _ Hall Hj) as (c & Hc & chunk & Hcall & Hv & Hcc).
  rewrite (verified_candidate_key _ _ _ _ Hv Hcc). destruct Hv as [[Ht _] _ [Ha Hd] _ [Hacl _]].
  exists (rc_document_id c), (rc_version_id c), (rc_chunk_id c), chunk. split_and!; try done.
  rewrite Hl. apply elem_of_app. by right.
Qed.
End Provenance.

(** * The log only grows *)

Section LogGrows.
Context `{PyRepr, UnicodeDB, NetlocCheck, UnicodeDigits}.
Context {S : Type} (P : ports S) (svc : RagQueryApplicationService).
Context (closes : list RagStreamEvent -> bool).

Definition log_grows (w w' : world S) : Prop := w_log w `prefix_of` w_log w'.

#[export] Instance log_grows_preorder : PreOrder log_grows.
Proof.
  split; [intros w; unfold log_grows; reflexivity|].
  intros w1 w2 w3 Ha Hb. unfold log_grows in *. by etrans.
Qed.

Lemma grows_call {A} (m : eff exc S A) entry : keeps log_grows (call m entry).
Proof.
  intros w. unfold call. destruct (m (w_state w)) as [r s]. unfold log_grows. cbn. by exists (entry r).
Qed.

Lemma grows_now : keeps log_grows (now P).
Proof.
  intros w. unfold now. destruct (perf_counter P _). unfold log_grows. cbn. by rewrite app_nil_r.
Qed.

Lemma grows_elapsed t : keeps log_grows (elapsed P t).
Proof. apply keeps_bind; [apply _|apply grows_now|]. intros. apply keeps_ret, _. Qed.

Lemma grows_record port event : keeps log_grows (record_with (S := S) port event).
Proof. apply keeps_bind; [apply _|apply keeps_lift, _|]. intros. apply grows_call. Qed.

Lemma grows_suppress m : keeps log_grows m -> keeps log_grows (suppress (S := S) m).
Proof.
  intros Hm. apply keeps_try; [apply _|done|]. intros e.
  destruct (is_exception e); [apply keeps_ret, _|apply keeps_raise, _].
Qed.

Lemma grows_locals f : keeps log_grows (set_locals (S := S) f).
Proof. intros w. unfold log_grows. reflexivity. Qed.

Lemma grows_yield e : keeps log_grows (yield_event (S := S) closes e).
Proof.
  apply keeps_bind; [apply _|apply keeps_lift, _|]. intros ev.
  apply keeps_bind; [apply _|intros w; unfold log_grows; reflexivity|]. intros _.
  apply keeps_bind; [apply _|apply keeps_reads, _|]. intros [];
    [apply keeps_raise, _|apply keeps_ret, _].
Qed.

Lemma grows_hydrate cs auth request_id trace_id :
  keeps log_grows (hydrate (read_chunk P) cs auth request_id trace_id).
Proof.
  induction cs as [|c cs IH]; cbn [hydrate]; [apply keeps_ret, _|].
  apply keeps_bind; [apply _| |].
  - unfold hydrate_one. apply keeps_bind; [apply _|apply grows_call|]. intros [chunk|].
    + apply keeps_bind; [apply _|apply keeps_lift, _|]. intros. apply keeps_lift, _.
    + apply keeps_raise, _.
  - intros h. apply keeps_bind; [apply _|apply IH|]. intros. apply keeps_ret, _.
Qed.
End LogGrows.

(** Run the rules for [keeps] through a program. *)
Create HintDb keeps.
#[export] Hint Resolve grows_call grows_now grows_elapsed grows_record grows_suppress grows_locals
  grows_yield grows_hydrate : keeps.
Ltac keeps_tac :=
  repeat match goal with
  | |- keeps _ (mthen _ _) => apply keeps_bind; [apply _| |intros ?]
  | |- keeps _ (mcatch _ _) => apply keeps_try; [apply _| |intros ?]
  | |- keeps _ (try_finally _ _) => apply keeps_finally; [apply _| |]
  | |- keeps _ (mlift _) => apply keeps_lift, _
  | |- keeps _ (mreturn _) => apply keeps_ret, _
  | |- keeps _ (mraise _) => apply keeps_raise, _
  | |- keeps _ (reads _) => apply keeps_reads, _
  | |- keeps _ (match ?x with _ => _ end) => destruct x
  | |- keeps _ (let _ := _ in _) => cbn zeta
  | |- keeps log_grows (suppress _) => apply grows_suppress
  | |- _ => solve [auto with keeps]
  end.

Section LogGrows2.
Context `{PyRepr, UnicodeDB, NetlocCheck, UnicodeDigits}.
Context {S : Type} (P : ports S) (svc : RagQueryApplicationService).
Context (closes : list RagStreamEvent -> bool).

Lemma grows_failure context command latency error :
  keeps log_grows (_record_failure P context command latency error).
Proof. unfold _record_failure. keeps_tac. Qed.
Lemma grows_denied port context command latency error :
  keeps log_grows (_record_denied (S := S) port context command latency error).
Proof. unfold _record_denied. keeps_tac. Qed.
Lemma grows_stream_failure context command latency error :
  keeps log_grows (_record_stream_failure P context command latency error).
Proof. unfold _record_stream_failure. keeps_tac. Qed.
Lemma grows_audit context response status code :
  keeps log_grows (_record_audit P context response status code).
Proof. unfold _record_audit. keeps_tac. Qed.
Lemma grows_stream_audit context response status code c :
  keeps log_grows (_record_stream_audit P context response status code c).
Proof. unfold _record_stream_audit. keeps_tac. Qed.
Lemma grows_prepare context command memory :
  keeps log_grows (_prepare_query_context P svc context command memory).
Proof. unfold _prepare_query_context. keeps_tac. Qed.
Lemma grows_generate prompt context : keeps log_grows (generate P svc prompt context).
Proof. unfold generate. keeps_tac. Qed.
End LogGrows2.
#[export] Hint Resolve grows_failure grows_denied grows_stream_failure grows_audit
  grows_stream_audit grows_prepare grows_generate : keeps.

Section LogGrows3.
Context `{PyRepr, UnicodeDB, NetlocCheck, UnicodeDigits}.
Context {S : Type} (P : ports S) (svc : RagQueryApplicationService).
Context (closes : list RagStreamEvent -> bool).

Lemma grows_citations context l : keeps log_grows (yield_citations (S := S) closes context l).
Proof. induction l; cbn [yield_citations]; unfold bump; keeps_tac. Qed.
Lemma grows_tokens context request seen final chunks :
  keeps log_grows (yield_tokens (S := S) closes context request seen final chunks).
Proof.
  revert seen final. induction chunks as [|[c|e] chunks IH]; intros seen final;
    cbn [yield_tokens]; unfold bump; keeps_tac.
Qed.
Lemma grows_stream_tokens context request :
  keeps log_grows (stream_tokens P closes context request).
Proof. unfold stream_tokens. keeps_tac. apply grows_tokens. Qed.
Lemma grows_finish context response : keeps log_grows (finish_stream P closes context response).
Proof. unfold finish_stream, counts, complete. keeps_tac. Qed.
Lemma grows_report context command started error stage :
  keeps log_grows (report_error P svc closes context command started error stage).
Proof. unfold report_error, bump, complete. keeps_tac. Qed.
Lemma grows_cleanup context command started : keeps log_grows (stream_cleanup P context command started).
Proof. unfold stream_cleanup, bump. keeps_tac. Qed.
End LogGrows3.
#[export] Hint Resolve grows_citations grows_tokens grows_stream_tokens grows_finish grows_report
  grows_cleanup : keeps.

Lemma read_for_grows `{PyRepr} auth log log' key :
  log `prefix_of` log' -> read_for auth log key -> read_for auth log' key.
Proof.
  intros [k ->] (d & v & c & r & Hin & Hrest). exists d, v, c, r. split; [|done].
  apply elem_of_app. by left.
Qed.

(** * Plain queries *)

Definition strip_key (k : source_identity) : source_identity :=
  let '(d, v, c) := k in (strip d, strip v, strip c).

Lemma strip_chunk_key r : strip_key (chunk_key r) = chunk_key r.
Proof. unfold strip_key, chunk_key. by rewrite !strip_idem. Qed.

Lemma from_source_key `{NetlocCheck} s c : from_source s = Ok c -> citation_key c = strip_key (source_key s).
Proof.
  assert (forall t n, text t = Ok n -> n = strip t) as Ht
    by (intros t n; unfold text, validated, _required_text; destruct (strip t); congruence).
  assert (forall t n, required_id t = Ok n -> n = strip t) as Hr
    by (intros t n; unfold required_id; destruct (strip t); congruence).
  unfold from_source, source_metadata, build_safe_source_metadata, mbind at 1, result_bind at 1.
  destruct (_safe_page_range _ _) as [a b].
  unfold validated at 1, make_safe_source. intros E.
  match type of E with match (match ?m with _ => _ end) with _ => _ end = _ =>
    destruct m as [md|] eqn:Hm; [|done] end.
  ok_inv Hm. repeat match goal with Hx : required_id _ = Ok _ |- _ => apply Hr in Hx end. subst.
  unfold make_citation in E. ok_inv E.
  repeat match goal with Hx : text _ = Ok _ |- _ => apply Ht in Hx end. subst.
  unfold citation_key, strip_key, source_key.
  cbn [ci_document_id ci_version_id ci_chunk_id sm_document_id sm_version_id sm_chunk_id].
  by rewrite !strip_idem.
Qed.

Section QueryProps.
Context `{PyRepr, UnicodeDB, NetlocCheck, UnicodeDigits}.
Context {S : Type} (P : ports S) (svc : RagQueryApplicationService).

(** What the caller's identity must be for an audit record of it to exist: the
    validators of [RequestContext] and [AuthContext] establish it. *)
Record context_wf (context : RequestContext) : Prop := {
  cw_request : strip (rc_request_id context) = rc_request_id context /\ rc_request_id context <> [];
  cw_trace : strip (rc_trace_id context) = rc_trace_id context /\ rc_trace_id context <> [];
  cw_auth : auth_wf (rc_auth context)
}.

Lemma make_request_context_wf r t s m a context :
  make_request_context r t s m a = Ok context -> auth_wf a -> context_wf context.
Proof.
  unfold make_request_context. intros E Ha. ok_inv E.
  assert (forall t n, nonblank_text t = Ok n -> strip n = n /\ n <> []) as Ht.
  { intros x n. unfold nonblank_text. destruct (strip x) as [|y ys] eqn:Hs; [done|].
    intros [= <-]. split; [|done]. rewrite <- Hs. apply strip_idem. }
  split; cbn; eauto.
Qed.

(** Citations of an extraction over a context whose sources were read for the caller. *)
Lemma extraction_cites answer pc prompt x auth log :
  extract_citations answer pc prompt = Ok x ->
  (forall s, s ∈ all_sources (pc_items pc) -> read_for auth log (source_key s)) ->
  Forall (fun c => read_for auth log (citation_key c)) (xr_citations x).
Proof.
  intros E Hread.
  apply extract_inv in E as (srcs & own & forged & Hsrcs & _ & _ & _ & _ & _ & _ & _ & Hd).
  cbn zeta in *. destruct (xr_no_answer x); [destruct Hd as [-> _]; constructor|].
  destruct (0 <? forged)%Z; [destruct Hd as [-> _]; constructor|]. destruct Hd as [Hc _].
  apply list.Forall_forall. intros c Hin.
  destruct (map_result_elem _ _ _ c Hc Hin) as (s & Hs & Hfs).
  apply py_take_elem, py_sort_elem_of, Hsrcs in Hs as [Hs _]. apply collect_elem in Hs.
  destruct (Hread s Hs) as (d & v & k & r & Hrest & Ht & Ha & Hd' & Hacl & Hk).
  exists d, v, k, r. split_and!; try done. by rewrite (from_source_key _ _ Hfs), Hk, strip_chunk_key.
Qed.

Lemma respond_inv context answer citations no_answer claims md r :
  respond context answer citations no_answer claims md = Ok r ->
  qr_citations r = citations /\ qr_no_answer r = no_answer /\ qr_unsupported_claims r = claims /\
  qr_tenant_id r = strip (auth_tenant_id (rc_auth context)) /\
  qr_user_id r = strip (auth_user_id (rc_auth context)) /\ entries (qr_metadata r) = md.
Proof.
  unfold respond, make_query_response. intros E. ok_inv E.
  assert (forall t n, text t = Ok n -> n = strip t) as Ht
    by (intros t n; unfold text, validated, _required_text; destruct (strip t); congruence).
  repeat match goal with Hx : text _ = Ok _ |- _ => apply Ht in Hx end. by subst.
Qed.

(** The part of a query that follows the permission check. *)
Lemma query_body_inv context command memory capture started w out w' :
  query_body P svc context command memory capture started w = (Ok out, w') ->
  valid_packing_config (qs_context_packing_config svc) = true ->
  qr_tenant_id out.1 = strip (auth_tenant_id (rc_auth context)) /\
  qr_user_id out.1 = strip (auth_user_id (rc_auth context)) /\
  Forall (fun c => read_for (rc_auth context) (w_log w') (citation_key c)) (qr_citations out.1) /\
  exists latency w1,
    _metadata_latency (entries (qr_metadata out.1)) = _elapsed_ms latency /\
    _record_audit P context out.1 AuditSUCCESS None w1 = (Ok tt, w').
Proof.
  assert (forall c resp p, captured capture resp p = Ok c -> c.1 = resp) as Hcap.
  { intros c resp p. unfold captured. destruct capture; intros E; [ok_inv E|apply ok_eq in E as <-]; done. }
  assert (forall c r n g l e m, _metadata_latency (_response_metadata c r n g l e m) = l) as Hlat.
  { intros. unfold _metadata_latency, _response_metadata. cbn [dict_get].
    repeat (rewrite decide_False by (vm_compute; discriminate)). by rewrite decide_True. }
  intros E Hcfg. unfold query_body in E.
  apply mthen_inv in E as [(e & _ & [=])|(p & w1 & Hp & E)].
  destruct (prepare_inv _ _ _ _ _ _ _ _ Hp Hcfg) as [_ Hprompt].
  assert (forall t w2 lat w3, elapsed P t w2 = (Ok lat, w3) -> exists d, lat = _elapsed_ms d) as Hel.
  { intros t w2 lat w3. unfold elapsed. intros [(? & _ & [=])|(a & w4 & _ & [= <- _])]%mthen_inv.
    by eexists. }
  destruct (pq_prompt p) as [prompt|] eqn:Hpp.
  - destruct (Hprompt _ eq_refl) as (pc & Hpc & _ & _ & Hread). rewrite Hpc in E.
    apply mthen_inv in E as [(e & _ & [=])|(pc' & w2 & Hl & E)]. injection Hl as <- <-.
    apply mthen_inv in E as [(e & _ & [=])|(g & w2 & Hgen & E)].
    apply mthen_inv in E as [(e & _ & [=])|(x & w3 & Hx & E)]. injection Hx as Hx <-.
    apply mthen_inv in E as [(e & _ & [=])|(lat & w3 & Ht & E)].
    apply mthen_inv in E as [(e & _ & [=])|(resp & w4 & Hr & E)]. injection Hr as Hr <-.
    apply mthen_inv in E as [(e & _ & [=])|([] & w4 & Ha & E)]. injection E as E <-.
    rewrite (Hcap _ _ _ E). apply respond_inv in Hr as (Hc & _ & _ & Hten & Hu & Hmd).
    split_and!; [done|done| |].
    + rewrite Hc. eapply Forall_impl; [by eapply extraction_cites|]. intros c. cbn.
      apply read_for_grows.
      pose proof (grows_generate P svc prompt context w1) as G1. rewrite Hgen in G1.
      pose proof (grows_elapsed P started w2) as G2. rewrite Ht in G2.
      pose proof (grows_audit P context resp AuditSUCCESS None w3) as G3. rewrite Ha in G3.
      unfold log_grows in *. cbn in *. etrans; [exact G1|]. by etrans.
    + destruct (Hel _ _ _ _ Ht) as [d ->]. exists d, w3. rewrite Hmd, Hlat. done.
  - apply mthen_inv in E as [(e & _ & [=])|(lat & w3 & Ht & E)].
    apply mthen_inv in E as [(e & _ & [=])|(resp & w4 & Hr & E)]. injection Hr as Hr <-.
    apply mthen_inv in E as [(e & _ & [=])|([] & w4 & Ha & E)]. injection E as E <-.
    rewrite (Hcap _ _ _ E). apply respond_inv in Hr as (Hc & _ & _ & Hten & Hu & Hmd).
    split_and!; [done|done|rewrite Hc; constructor|].
    destruct (Hel _ _ _ _ Ht) as [d ->]. exists d, w3. rewrite Hmd, Hlat. done.
Qed.
End QueryProps.

(** * The audit trail *)

(** The record names the caller, the request and the outcome. *)
Definition audited_as (context : RequestContext) (status : AuditStatus) (code : option pystr)
    (e : AuditEvent) : Prop :=
  ev_request_id e = rc_request_id context /\ ev_trace_id e = rc_trace_id context /\
  ev_tenant_id e = auth_tenant_id (rc_auth context) /\
  ev_user_id e = auth_user_id (rc_auth context) /\ ev_status e = status /\ ev_error_code e = code.

Section AuditProps.
Context `{UnicodeDB} {S : Type}.

Lemma nonblank_fix s : strip s = s -> s <> [] -> nonblank_text s = Ok s.
Proof. unfold nonblank_text. intros ->. by destruct s. Qed.

Lemma audit_event_ok context action status latency code md :
  context_wf context -> nonblank_text (u action) = Ok (u action) -> flt latency fzero = false ->
  exists e, _audit_event context action status latency code md = Ok e /\
    audited_as context status code e.
Proof.
  intros [[Hr Hr'] [Ht Ht'] [[Hu Hu'] [Hn Hn'] _ _ _ _]] Ha Hl.
  unfold _audit_event, make_audit_resource, make_audit_event.
  assert (nonblank_text (u "rag_query") = Ok (u "rag_query")) as Hrag by (vm_compute; reflexivity).
  rewrite Hrag, (nonblank_fix _ Hr Hr'). cbn [mbind result_bind mret result_ret validated].
  rewrite (nonblank_fix _ Ht Ht'), (nonblank_fix _ Hn Hn'),
    (nonblank_fix _ Hu Hu'), Ha, Hl.
  cbn [mbind result_bind mret result_ret raise_if validated]. eexists. split; [reflexivity|].
  by split_and!.
Qed.

(** Recording an event that exists: one attempt is logged, and the outcome is the
    port's. *)
Lemma record_spec port event e (w : world S) :
  event = Ok e ->
  exists r s, record_with port event w
    = (r, with_state w s [CallAudit e (is_ok r)]).
Proof.
  intros ->. unfold record_with, mthen, mlift, call. destruct (port e (w_state w)) as [r s]. eauto.
Qed.

Lemma suppress_spec port event e (w : world S) :
  event = Ok e ->
  exists r s ok, suppress (record_with port event) w = (r, with_state w s [CallAudit e ok]) /\
    (forall x, r = Err x -> is_exception x = false).
Proof.
  intros He. destruct (record_spec port event e w He) as (r & s & Hr).
  unfold suppress, mcatch. rewrite Hr. destruct r as [[]|x]; [by eexists _, _, _|].
  destruct (is_exception x) eqn:Hx; eexists _, _, _; (split; [reflexivity|]); [done|].
  by intros ? [= <-].
Qed.

Lemma failure_spec (P : ports S) context command d error (w : world S) :
  context_wf context ->
  exists e r s ok, _record_failure P context command (_elapsed_ms d) error w
    = (r, with_state w s [CallAudit e ok]) /\
    audited_as context AuditFAILURE (Some (de_code error)) e /\
    (forall x, r = Err x -> is_exception x = false).
Proof.
  intros Hw. destruct (audit_event_ok context "rag.query" AuditFAILURE (_elapsed_ms d)
    (Some (de_code error)) (empty_audit_fields command (de_code error)
        ++ [(u "error_details", VDict (de_details error))])) as (e & He & Ha);
    [done|vm_compute; reflexivity|apply elapsed_not_negative|].
  destruct (suppress_spec (audit_record P) _ e w He) as (r & s & ok & Hr & Hx).
  exists e, r, s, ok. by split_and!.
Qed.

Lemma denied_spec port context command d error (w : world S) :
  context_wf context ->
  exists e r s ok, _record_denied port context command (_elapsed_ms d) error w
    = (r, with_state w s [CallAudit e ok]) /\
    audited_as context AuditDENIED (Some (de_code error)) e /\
    (forall x, r = Err x -> is_exception x = false).
Proof.
  intros Hw. destruct (audit_event_ok context "rag.query" AuditDENIED (_elapsed_ms d)
    (Some (de_code error)) (empty_audit_fields command (de_code error))) as (e & He & Ha);
    [done|vm_compute; reflexivity|apply elapsed_not_negative|].
  destruct (suppress_spec port _ e w He) as (r & s & ok & Hr & Hx).
  exists e, r, s, ok. by split_and!.
Qed.

Lemma stream_failure_spec (P : ports S) context command d error (w : world S) :
  context_wf context ->
  exists e r s ok, _record_stream_failure P context command (_elapsed_ms d) error w
    = (r, with_state w s [CallAudit e ok]) /\
    audited_as context AuditFAILURE (Some (de_code error)) e /\
    (forall x, r = Err x -> is_exception x = false).
Proof.
  intros Hw. unfold _record_stream_failure, mthen, reads.
  destruct (audit_event_ok context "rag.query.stream" AuditFAILURE (_elapsed_ms d)
    (Some (de_code error)) (_stream_failure_metadata context command (_elapsed_ms d) error
      (sl_counts (w_locals w)) (sl_prepared (w_locals w)) (sl_generation_metadata (w_locals w))))
    as (e & He & Ha); [done|vm_compute; reflexivity|apply elapsed_not_negative|].
  destruct (suppress_spec (stream_audit_record P) _ e w He) as (r & s & ok & Hr & Hx).
  exists e, r, s, ok. by split_and!.
Qed.

Lemma elapsed_spec (P : ports S) t (w : world S) :
  exists d s, elapsed P t w = (Ok (_elapsed_ms d), with_state w s []).
Proof.
  unfold elapsed, mthen, now. destruct (perf_counter P (w_state w)) as [x s].
  by eexists _, _.
Qed.
End AuditProps.

Section QueryTheorems.
Context `{PyRepr, UnicodeDB, NetlocCheck, UnicodeDigits}.
Context {S : Type} (P : ports S) (svc : RagQueryApplicationService).

(** C8: a response is only given to a caller with the query permission, it is of
    the caller's tenant, every chunk it cites was read from the store in this very
    request for that tenant, is active and readable under its stored ACL, and the
    response has been recorded as a success in the audit log before it is
    returned. *)
Theorem query_answers_safely context command memory capture s out w' :
  query P svc context command memory capture (new_world s) = (Ok out, w') ->
  context_wf context -> valid_packing_config (qs_context_packing_config svc) = true ->
  has_rag_query_permission (rc_auth context) = true /\
  qr_tenant_id out.1 = auth_tenant_id (rc_auth context) /\
  Forall (fun c => read_for (rc_auth context) (w_log w') (citation_key c)) (qr_citations out.1) /\
  exists log e, w_log w' = log ++ [CallAudit e true] /\ audited_as context AuditSUCCESS None e.
Proof.
  intros E Hw Hcfg. unfold query in E.
  apply mthen_inv in E as [(e & _ & [=])|(started & w1 & _ & E)].
  destruct (has_rag_query_permission (rc_auth context)); cbn [negb] in E.
  2:{ apply mthen_inv in E as [(e & _ & [=])|(lat & w2 & _ & E)].
      apply mthen_inv in E as [(e & _ & [=])|([] & w3 & _ & [=])]. }
  split; [done|]. unfold mcatch in E.
  destruct (query_body P svc context command memory capture started w1) as [[o|x] w2] eqn:Hb.
  2:{ exfalso. destruct x; cbn [query_failure] in E; try done;
      apply mthen_inv in E as [(e' & _ & [=])|(lat & w3 & _ & E)];
      apply mthen_inv in E as [(e' & _ & [=])|([] & w4 & _ & [=])]. }
  injection E as -> ->.
  destruct (query_body_inv P svc _ _ _ _ _ _ _ _ Hb Hcfg) as (Ht & _ & Hc & d & w3 & Hl & Ha).
  destruct (wf_tenant _ (cw_auth _ Hw)) as [Hs _]. rewrite Hs in Ht. split; [done|]. split; [done|].
  unfold _record_audit in Ha. rewrite Hl in Ha.
  edestruct (audit_event_ok context "rag.query" AuditSUCCESS (_elapsed_ms d) None) as (e & He & Hae);
    [done|vm_compute; reflexivity|apply elapsed_not_negative|].
  edestruct (record_spec (audit_record P) _ e w3 He) as (r & s' & Hr).
  rewrite Hr in Ha. injection Ha as -> <-. exists (w_log w3), e. done.
Qed.

(** C9: a query that fails is reported and audited: whatever goes wrong outside a
    cancellation reaches the caller as a [DomainError], and the last thing the query
    does is to record that error's code for the caller, as a denial exactly when the
    permission is missing. *)
Theorem query_failure_is_audited context command memory capture s x w' :
  query P svc context command memory capture (new_world s) = (Err x, w') ->
  context_wf context -> is_exception x = true ->
  exists error log e ok,
    x = EDomain error /\ w_log w' = log ++ [CallAudit e ok] /\
    audited_as context (if has_rag_query_permission (rc_auth context) then AuditFAILURE
                        else AuditDENIED) (Some (de_code error)) e.
Proof.
  intros E Hw Hx. unfold query in E.
  apply mthen_inv in E as [(e & Hn & [= ->])|(started & w1 & _ & E)].
  { unfold now in Hn. by destruct (perf_counter P _). }
  destruct (has_rag_query_permission (rc_auth context)); cbn [negb] in E.
  - unfold mcatch in E.
    destruct (query_body P svc context command memory capture started w1) as [[o|y] w2]; [done|].
    assert (forall error, (latency <- elapsed P started;;
        _ <- _record_failure P context command latency error;;
        mraise (A := QueryResponse * option CapturedQuery) (EDomain error)) w2 = (Err x, w') ->
      exists error log e ok, x = EDomain error /\ w_log w' = log ++ [CallAudit e ok] /\
        audited_as context AuditFAILURE (Some (de_code error)) e) as Hfail.
    { intros error F. unfold mthen at 1 in F.
      destruct (elapsed_spec P started w2) as (d & s1 & Hd). rewrite Hd in F. unfold mthen in F.
      destruct (failure_spec P context command d error (with_state w2 s1 [])) as (e & r & s2 & ok & Hf & Ha & Hxx);
        [done|]. rewrite Hf in F. destruct r as [[]|z].
      - injection F as <- <-. eexists error, _, e, ok. by split_and!.
      - injection F as -> <-. by rewrite (Hxx x eq_refl) in Hx. }
    destruct y as [error|ty| |]; cbn [query_failure] in E; [by apply Hfail in E|by apply Hfail in E|..];
      injection E as <- <-; done.
  - unfold mthen at 1 in E. destruct (elapsed_spec P started w1) as (d & s1 & Hd). rewrite Hd in E.
    unfold mthen in E.
    destruct (denied_spec (audit_record P) context command d (_query_forbidden_error context) (with_state w1 s1 []))
      as (e & r & s2 & ok & Hf & Ha & Hxx); [done|]. rewrite Hf in E. destruct r as [[]|z].
    + injection E as <- <-. eexists _, _, e, ok. by split_and!.
    + injection E as -> <-. by rewrite (Hxx x eq_refl) in Hx.
Qed.
End QueryTheorems.

(** * A concrete service *)

Module RagExamples.
Import Examples RedactExamples PackExamples SourceExamples HydrateExamples.

Definition context1 : RequestContext :=
  {| rc_request_id := u "r1"; rc_trace_id := u "tr1"; rc_session_id := None;
     rc_auth_method := None; rc_auth := alice |}.

Lemma context1_wf : context_wf context1.
Proof.
  split; [split; [reflexivity|discriminate]..|].
  split; try (split; [reflexivity|discriminate]);
    try (repeat constructor; discriminate); try reflexivity.
  cbn. intros n [= <-]. discriminate.
Defined.

Definition command1 : QueryCommand :=
  {| qc_query := u "What is the answer?"; qc_top_k := 5; qc_metadata_filter := [];
     qc_score_threshold := None; qc_answer_style := None; qc_max_output_tokens := None |}.

Definition service1 : RagQueryApplicationService :=
  {| qs_context_packing_config := default_packing_config;
     qs_prompt_builder_config := default_prompt_config;
     qs_generation := {| gs_provider_name := u "p"; gs_model := u "m";
                         gs_timeout_seconds := fofZ 30; gs_retry_budget := 1;
                         gs_temperature := None; gs_max_output_tokens := None |};
     qs_cot_enhancer := None |}.

Definition answer1 (r : GenerateRequest) : GenerateResponse :=
  {| go_text := u "It is 42 [cite-57533258f6c745f8]."; go_provider := gr_provider r;
     go_model := gr_model r; go_request_id := gr_request_id r; go_trace_id := gr_trace_id r;
     go_tenant_id := gr_tenant_id r; go_user_id := gr_user_id r;
     go_metadata :=
       {| gm_request_id := gr_request_id r; gm_trace_id := gr_trace_id r;
          gm_tenant_id := gr_tenant_id r; gm_user_id := gr_user_id r;
          gm_provider := gr_provider r; gm_model := gr_model r; gm_version := None;
          gm_usage := {| us_input_tokens := 10; us_output_tokens := 4; us_total_tokens := 14 |};
          gm_latency_ms := fone; gm_finish_reason := u "stop"; gm_error_code := None;
          gm_chunk_count := None; gm_token_count := None; gm_metadata := [] |} |}.

Definition token1 (i : Z) (d : pystr) : GenerateChunk :=
  {| gc_delta := d; gc_index := i; gc_is_final := false; gc_response := None; gc_metadata := None |}.

(** Ports that retrieve [cs], answer as [answer1] and record every audit event. *)
Definition ports1 (cs : list RetrievalCandidate) : ports unit :=
  {| retrieve := fun r auth s =>
       (Ok {| rt_request_id := u "r1"; rt_trace_id := u "tr1"; rt_tenant_id := auth_tenant_id auth;
              rt_user_id := auth_user_id auth; rt_top_k := 5; rt_query_summary := [];
              rt_candidates := cs; rt_latency_ms := Some fone; rt_error_code := None |}, s);
     get_chunk := store1;
     provider_generate := fun r s => (Ok (answer1 r), s);
     provider_stream := fun r s =>
       ([Ok (token1 0 (u "It is ")); Ok (token1 1 (u "42"));
         Ok {| gc_delta := []; gc_index := 2; gc_is_final := true;
               gc_response := Some (answer1 r); gc_metadata := None |}], s);
     provider_aclose := fun s => (Ok tt, s);
     audit_record := fun _ s => (Ok tt, s);
     stream_audit_record := fun _ s => (Ok tt, s);
     perf_counter := fun s => (fone, s) |}.

(** The second candidate is of another document, that the store does not hold. *)
Definition missing : RetrievalCandidate :=
  {| rc_document_id := u "d2"; rc_version_id := u "v1"; rc_chunk_id := u "c1"; rc_source := None;
     rc_source_type := u "md"; rc_source_uri := None; rc_page_start := None; rc_page_end := None;
     rc_title_path := [u "T"]; rc_score := fone; rc_retrieval_method := u "hybrid";
     rc_tenant_id := u "t1"; rc_acl := _default_acl; rc_metadata := []; rc_content := [] |}.

End RagExamples.

Lemma query_answers_safely_witness :
  exists out w', query (H := Examples.repr0) (H0 := RedactExamples.ascii_only)
    (H1 := SourceExamples.any_netloc) (H2 := PackExamples.ascii_digits) (RagExamples.ports1 [HydrateExamples.candidate1])
    RagExamples.service1 RagExamples.context1 RagExamples.command1 None false (new_world tt) = (Ok out, w') /\
    ci_chunk_id <$> qr_citations out.1 = [u "c1"] /\
    qr_tenant_id out.1 = auth_tenant_id Examples.alice.
Proof.
  destruct (query (H := Examples.repr0) (H0 := RedactExamples.ascii_only)
    (H1 := SourceExamples.any_netloc) (H2 := PackExamples.ascii_digits) (RagExamples.ports1 [HydrateExamples.candidate1])
    RagExamples.service1 RagExamples.context1 RagExamples.command1 None false (new_world tt)) as [[out|x] w'] eqn:E.
  2:{ apply (f_equal (fun x => is_ok x.1)) in E. vm_compute in E. discriminate E. }
  exists out, w'. split; [reflexivity|]. split.
  - apply (f_equal (fun x => match x.1 with Ok o => ci_chunk_id <$> qr_citations o.1 | _ => [] end)) in E.
    vm_compute in E. symmetry. exact E.
  - exact (proj1 (proj2 (query_answers_safely (H := Examples.repr0) (H0 := RedactExamples.ascii_only)
      (H1 := SourceExamples.any_netloc) (H2 := PackExamples.ascii_digits) (RagExamples.ports1 _)
      RagExamples.service1 _ _ _ _ _ _ _ E RagExamples.context1_wf eq_refl))).
Defined.

Lemma query_failure_is_audited_witness :
  exists x w', query (H := Examples.repr0) (H0 := RedactExamples.ascii_only)
    (H1 := SourceExamples.any_netloc) (H2 := PackExamples.ascii_digits) (RagExamples.ports1 [RagExamples.missing])
    RagExamples.service1 RagExamples.context1 RagExamples.command1 None false (new_world tt) = (Err x, w') /\
    exists error, x = EDomain error.
Proof.
  destruct (query (H := Examples.repr0) (H0 := RedactExamples.ascii_only)
    (H1 := SourceExamples.any_netloc) (H2 := PackExamples.ascii_digits) (RagExamples.ports1 [RagExamples.missing])
    RagExamples.service1 RagExamples.context1 RagExamples.command1 None false (new_world tt)) as [[out|x] w'] eqn:E.
  { apply (f_equal (fun x => is_ok x.1)) in E. vm_compute in E. discriminate E. }
  exists x, w'. split; [reflexivity|].
  assert (is_exception x = true) as Hx.
  { apply (f_equal (fun x => match x.1 with Err e => is_exception e | _ => false end)) in E.
    vm_compute in E. symmetry. exact E. }
  destruct (query_failure_is_audited (H := Examples.repr0) (H0 := RedactExamples.ascii_only)
    (H1 := SourceExamples.any_netloc) (H2 := PackExamples.ascii_digits) (RagExamples.ports1 _)
    RagExamples.service1 _ _ _ _ _ _ _ E RagExamples.context1_wf Hx) as (error & _ & _ & _ & He & _).
  exists error. exact He.
Defined.
