(* ===== verification/RagStreamGuarantee.v ===== *)
(** Guarantees of streamed queries.

    The events of [RagQuery.stream_query] for every consumer (it may close the
    stream after any event) and every behaviour of the ports: their order, the
    counts the last event reports, and the audit record each stream leaves. *)

From Stdlib Require Import ZArith String.
From S2P Require Import Prelude Effects Float64 PyVal Access Redact SourceMetadata Rrf ContextPacker.
From S2P Require Import AgentDto RagDto CitationExtractor Hydration PromptBuilder Generation.
From S2P Require Import RagStreaming RagQuery RagGuarantee.
From stdpp Require Import base list numbers sets.

Open Scope eff_scope.
#[local] Arguments fsub : simpl never.

(** * Reading the counts of a final event *)

(** The counts (tokens, citations, errors, finals) that event metadata reports; the
    tuple becomes a list where the metadata is redacted. *)
Definition count_of (v : pyval) : option (pystr * Z) :=
  match v with
  | VDict d => match dict_get (u "event") d, dict_get (u "count") d with
               | Some (VStr k), Some (VInt z) => Some (k, z)
               | _, _ => None
               end
  | _ => None
  end.

Definition reported_counts (metadata : pydict) : option (list (pystr * Z)) :=
  match dict_get (u "stream") metadata with
  | Some (VDict d) =>
      match dict_get (u "event_counts") d with
      | Some (VTuple l) | Some (VList l) => mapM count_of l
      | _ => None
      end
  | _ => None
  end.

Definition counts_list (c : event_counts) : list (pystr * Z) :=
  [(u "token", ec_token c); (u "citation", ec_citation c); (u "error", ec_error c);
   (u "final", ec_final c)].

Section Redacted.
Context `{UnicodeDB}.

Lemma redact_mapping_get d k :
  NoDup d.*1 -> _is_sensitive_key k = false ->
  dict_get k (redact_mapping d) = redact_sensitive_data <$> dict_get k d.
Proof.
  intros Hnd Hk. unfold redact_mapping. rewrite redact_dict_eq.
  assert (forall d, (redact_entry <$> d).*1 = d.*1) as Hkeys
    by (intros x; rewrite <- list_fmap_compose; by apply list_fmap_ext).
  rewrite dict_build_id by (cbn [app]; by rewrite Hkeys). cbn [app].
  clear Hnd. induction d as [|[k' v] d IH]; [done|]. rewrite fmap_cons. unfold redact_entry at 1.
  cbn [fst snd dict_get]. destruct (decide (k = k')) as [<-|]; [by rewrite Hk|done].
Qed.

Lemma redact_counts c :
  redact_sensitive_data (stream_entry c).2 =
  VDict [(u "event_counts", match _stream_event_counts_summary c with VTuple l => VList l | v => v end)].
Proof. vm_compute. reflexivity. Qed.

Lemma summary_counts c :
  match _stream_event_counts_summary c with VTuple l => mapM count_of l | _ => None end
  = Some (counts_list c).
Proof. vm_compute. reflexivity. Qed.
End Redacted.

Section Reported.
Context `{UnicodeDB}.

Lemma stream_get command retrieval n g l e c m :
  dict_get (u "stream") (_stream_response_metadata command retrieval n g l e c m)
  = Some (stream_entry c).2.
Proof.
  unfold _stream_response_metadata, _response_metadata, stream_entry. cbn [app dict_get].
  repeat (rewrite decide_False by (vm_compute; discriminate)). by rewrite decide_True.
Qed.

Lemma stream_keys command retrieval n g l e c m :
  NoDup (_stream_response_metadata command retrieval n g l e c m).*1.
Proof.
  unfold _stream_response_metadata, _response_metadata, stream_entry.
  cbn [app fmap list_fmap fst]. apply (bool_decide_unpack _). vm_compute. exact I.
Qed.

Lemma reported_frozen command retrieval n g l e c m :
  reported_counts (_stream_response_metadata command retrieval n g l e c m) = Some (counts_list c).
Proof.
  unfold reported_counts. rewrite stream_get. unfold stream_entry. cbn [snd dict_get].
  rewrite decide_True by done. exact (summary_counts c).
Qed.

Lemma reported_redacted md c :
  NoDup md.*1 -> dict_get (u "stream") md = Some (stream_entry c).2 ->
  reported_counts (redact_mapping md) = Some (counts_list c).
Proof.
  intros Hnd Hg. unfold reported_counts.
  rewrite redact_mapping_get by (done || (vm_compute; reflexivity)). rewrite Hg.
  cbn [fmap option_fmap option_map]. rewrite redact_counts. cbn [dict_get].
  rewrite decide_True by done. exact (summary_counts c).
Qed.
End Reported.

(** * The shape of a stream *)

Section Shape.
Context `{PyRepr}.

(** The caller's citation of a chunk that was read for it. *)
Definition is_citation (context : RequestContext) (log : list rag_call) (e : RagStreamEvent) : Prop :=
  match e with
  | CitationEvent r t c =>
      r = rc_request_id context /\ t = rc_trace_id context /\
      read_for (rc_auth context) log (citation_key c)
  | _ => False
  end.
Definition is_token (context : RequestContext) (e : RagStreamEvent) : Prop :=
  match e with
  | TokenEvent r t _ _ => r = rc_request_id context /\ t = rc_trace_id context
  | _ => False
  end.
Definition is_error (context : RequestContext) (e : RagStreamEvent) : Prop :=
  match e with
  | ErrorEvent r t _ _ _ terminal =>
      r = rc_request_id context /\ t = rc_trace_id context /\ terminal = true
  | _ => False
  end.
(** A final event for the caller, with its status and the counts it reports; what it
    cites was read for the caller, and a failure cites nothing. *)
Definition is_final (context : RequestContext) (log : list rag_call) (st : StreamStatus)
    (c : event_counts) (e : RagStreamEvent) : Prop :=
  match e with
  | FinalEvent r t s _ tenant user _ citations _ _ md =>
      r = rc_request_id context /\ t = rc_trace_id context /\
      tenant = auth_tenant_id (rc_auth context) /\ user = auth_user_id (rc_auth context) /\
      s = st /\ reported_counts md = Some (counts_list c) /\
      (s = StreamError -> citations = []) /\
      Forall (fun c => read_for (rc_auth context) log (citation_key c)) citations
  | _ => False
  end.

Definition is_audit (c : rag_call) : bool := match c with CallAudit _ _ => true | _ => false end.
(** The audit attempts in a log. *)
Definition audits (log : list rag_call) : list rag_call := List.filter is_audit log.

Lemma audits_app l k : audits (l ++ k) = audits l ++ audits k.
Proof. apply List.filter_app. Qed.

(** The counts of a complete stream. *)
Definition all_counts (cits toks : list RagStreamEvent) (errors finals : Z) : event_counts :=
  {| ec_token := Z.of_nat (length toks); ec_citation := Z.of_nat (length cits);
     ec_error := errors; ec_final := finals |}.

Definition early {S} (w : world S) : bool :=
  match sl_prepared (w_locals w) with Some _ => false | None => true end.

(** How a stream can end: the outcome of the generator, the events after its
    citations and tokens, and the number of audit attempts it made.  A generator
    that its consumer closed ends with [GeneratorExit]. *)
Inductive stream_end (context : RequestContext) (log : list rag_call)
    (cits toks : list RagStreamEvent) (early : bool)
  : result exc unit -> list RagStreamEvent -> nat -> Prop :=
| se_success r f :
    r = Ok tt \/ r = Err EGeneratorExit ->
    is_final context log StreamSuccess (all_counts cits toks 0 1) f ->
    stream_end context log cits toks early r [f] 1
| se_failure r e f :
    r = Ok tt \/ r = Err EGeneratorExit -> is_error context e ->
    is_final context log StreamError (all_counts cits toks 1 1) f ->
    stream_end context log cits toks early r [e; f] 1
| se_closed :
    stream_end context log cits toks early (Err EGeneratorExit) [] (if early then 0 else 1)
| se_closed_at_error e :
    is_error context e ->
    stream_end context log cits toks early (Err EGeneratorExit) [e] (if early then 0 else 1)
| se_cancelled :
    stream_end context log cits toks early (Err ECancelled) [] 1
| se_unreportable x :
    is_exception x = true ->
    stream_end context log cits toks early (Err x) [] (if early then 0 else 1).
End Shape.

(** * The invariant of the generator *)

Section Invariant.
Context `{PyRepr, UnicodeDB, NetlocCheck, UnicodeDigits}.
Context {S : Type} (P : ports S) (svc : RagQueryApplicationService).
Context (closes : list RagStreamEvent -> bool).
Context (context : RequestContext) (Hwf : context_wf context).

(** [cits] and [toks] have been emitted, and counted, and nothing else has
    happened; [finals] counts the final event about to be sent. *)
Record streaming (finals : Z) (cits toks : list RagStreamEvent) (w : world S) : Prop := {
  st_events : w_events w = cits ++ toks;
  st_cits : Forall (is_citation context (w_log w)) cits;
  st_toks : Forall (is_token context) toks;
  st_counts : sl_counts (w_locals w) = all_counts cits toks 0 finals;
  st_open : sl_completed (w_locals w) = false;
  st_silent : audits (w_log w) = [];
  st_prepared : cits ++ toks <> [] -> early w = false
}.

(** Steps that only read the ports. *)
Record quiet (w w' : world S) : Prop := {
  qu_events : w_events w' = w_events w;
  qu_locals : w_locals w' = w_locals w;
  qu_audits : audits (w_log w') = audits (w_log w);
  qu_log : log_grows w w'
}.

#[export] Instance quiet_preorder : PreOrder quiet.
Proof.
  split; [intros w; split; done || (unfold log_grows; reflexivity)|].
  intros w1 w2 w3 [He Hl Ha Hg] [He' Hl' Ha' Hg']. split; [congruence..|by etrans].
Qed.

Lemma citation_grows log log' e :
  log `prefix_of` log' -> is_citation context log e -> is_citation context log' e.
Proof. intros Hp. destruct e; cbn; try done. intros (-> & -> & Hr). split_and!; try done. by eapply read_for_grows. Qed.

Lemma streaming_quiet n cits toks w w' : streaming n cits toks w -> quiet w w' -> streaming n cits toks w'.
Proof.
  intros [He Hc Ht Hn Ho Ha Hp] [He' Hl' Ha' Hg]. unfold early in *.
  split; unfold early; rewrite ?He', ?Hl', ?Ha'; try done.
  eapply Forall_impl; [exact Hc|]. intros e. by apply citation_grows.
Qed.

Lemma quiet_call {A} (m : eff exc S A) entry :
  (forall r, audits (entry r) = []) -> keeps quiet (call m entry).
Proof.
  intros Hq w. unfold call. destruct (m (w_state w)) as [r s]. split; try done.
  - cbn. by rewrite audits_app, Hq, app_nil_r.
  - unfold log_grows. cbn. by exists (entry r).
Qed.

Lemma quiet_now : keeps quiet (now P).
Proof.
  intros w. unfold now. destruct (perf_counter P _). split; [done|done|..].
  - cbn. by rewrite app_nil_r.
  - unfold log_grows. cbn. by rewrite app_nil_r.
Qed.

Lemma quiet_elapsed t : keeps quiet (elapsed P t).
Proof. apply keeps_bind; [apply _|apply quiet_now|]. intros. apply keeps_ret, _. Qed.

Lemma quiet_hydrate cs auth request_id trace_id :
  keeps quiet (hydrate (read_chunk P) cs auth request_id trace_id).
Proof.
  induction cs as [|c cs IH]; cbn [hydrate]; [apply keeps_ret, _|].
  apply keeps_bind; [apply _| |].
  - unfold hydrate_one. apply keeps_bind; [apply _|by apply quiet_call|]. intros [chunk|].
    + apply keeps_bind; [apply _|apply keeps_lift, _|]. intros. apply keeps_lift, _.
    + apply keeps_raise, _.
  - intros h. apply keeps_bind; [apply _|apply IH|]. intros. apply keeps_ret, _.
Qed.

Lemma quiet_prepare command memory : keeps quiet (_prepare_query_context P svc context command memory).
Proof.
  unfold _prepare_query_context. apply keeps_bind; [apply _|apply keeps_lift, _|]. intros request.
  apply keeps_bind; [apply _|by apply quiet_call|]. intros retrieval. cbn zeta.
  destruct (rt_candidates retrieval); [apply keeps_ret, _|].
  apply keeps_bind; [apply _|apply quiet_hydrate|]. intros hs.
  apply keeps_bind; [apply _|apply keeps_lift, _|]. intros pc. destruct (pc_items pc);
    [apply keeps_ret, _|]. apply keeps_bind; [apply _|apply keeps_lift, _|]. intros. apply keeps_ret, _.
Qed.

(** A quiet computation, run in a state that satisfies the invariant. *)
Lemma ends_quiet {A} (m : eff exc (world S) A) n cits toks Q w :
  keeps quiet m -> streaming n cits toks w ->
  (forall r w', m w = (r, w') -> quiet w w' -> streaming n cits toks w' -> Q r w') -> ends m Q w.
Proof.
  intros Hm Hs HQ. unfold ends. specialize (Hm w). destruct (m w) as [r w'] eqn:E. cbn in *.
  apply HQ; [done|done|by eapply streaming_quiet].
Qed.

(** ** Steps on the local variables *)

Lemma streaming_prepared n cits toks p w :
  streaming n cits toks w ->
  ends (set_locals (set_prepared p))
    (fun r w' => r = Ok tt /\ streaming n cits toks w' /\ early w' = false /\ w_log w' = w_log w) w.
Proof. intros [He Hc Ht Hn Ho Ha Hp]. cbn. split; [done|]. by split; [split|]. Qed.

Lemma streaming_generation n cits toks m w :
  streaming n cits toks w ->
  ends (set_locals (set_generation m))
    (fun r w' => r = Ok tt /\ streaming n cits toks w' /\ early w' = early w /\ w_log w' = w_log w) w.
Proof. intros [He Hc Ht Hn Ho Ha Hp]. cbn. split; [done|]. by split; [split|]. Qed.

Lemma streaming_final cits toks w :
  streaming 0 cits toks w ->
  ends (bump count_final)
    (fun r w' => r = Ok tt /\ streaming 1 cits toks w' /\ early w' = early w /\ w_log w' = w_log w) w.
Proof.
  intros [He Hc Ht Hn Ho Ha Hp]. cbn. split; [done|]. split; [|done]. split; try done. cbn.
  by rewrite Hn.
Qed.

(** ** Events *)

Lemma text_id (s : pystr) : strip s = s -> s <> [] -> text s = Ok s.
Proof. unfold text, validated, _required_text. intros ->. by destruct s. Qed.

(** Emitting an event that can be built: the consumer has it, and goes on or
    closes. *)
Lemma yield_spec event e (w : world S) :
  event = Ok e ->
  exists r, yield_event closes event w
    = (r, {| w_state := w_state w; w_log := w_log w; w_events := w_events w ++ [e]; w_locals := w_locals w |})
    /\ (r = Ok tt \/ r = Err EGeneratorExit).
Proof.
  intros ->. unfold yield_event, mthen, mlift, modify, reads. cbn.
  destruct (closes _); eexists; (split; [reflexivity|]); auto.
Qed.

Lemma count_yield_spec f event e (w : world S) :
  event = Ok e ->
  exists r, mthen (bump f) (fun _ => yield_event closes event) w
    = (r, {| w_state := w_state w; w_log := w_log w; w_events := w_events w ++ [e];
             w_locals := map_counts f (w_locals w) |})
    /\ (r = Ok tt \/ r = Err EGeneratorExit).
Proof.
  intros He. unfold mthen at 1, bump, set_locals, modify.
  exact (yield_spec event e {| w_state := w_state w; w_log := w_log w; w_events := w_events w;
                               w_locals := map_counts f (w_locals w) |} He).
Qed.

Lemma citation_event_ok c :
  citation_event (rc_request_id context) (rc_trace_id context) c
  = Ok (CitationEvent (rc_request_id context) (rc_trace_id context) c).
Proof.
  destruct Hwf as [[Hr Hr'] [Ht Ht'] _]. unfold citation_event.
  by rewrite (text_id _ Hr Hr'), (text_id _ Ht Ht').
Qed.

Lemma token_event_ok i d :
  (0 <= i)%Z -> token_event (rc_request_id context) (rc_trace_id context) i d
  = Ok (TokenEvent (rc_request_id context) (rc_trace_id context) i d).
Proof.
  destruct Hwf as [[Hr Hr'] [Ht Ht'] _]. intros Hi. unfold token_event.
  rewrite (text_id _ Hr Hr'), (text_id _ Ht Ht'). apply Z.leb_le in Hi. cbn. by rewrite Hi.
Qed.

(** What the caller sees when the invariant's state is left. *)
Definition running (finals : Z) (w : world S) : Prop :=
  exists cits toks, streaming finals cits toks w.

Lemma streaming_citation cits w c :
  streaming 0 cits [] w -> early w = false ->
  read_for (rc_auth context) (w_log w) (citation_key c) ->
  ends (mthen (bump count_citation) (fun _ =>
          yield_event closes (citation_event (rc_request_id context) (rc_trace_id context) c)))
    (fun r w' => (exists e, streaming 0 (cits ++ [e]) [] w') /\ early w' = false /\ w_log w' = w_log w) w.
Proof.
  intros [He Hc Ht Hn Ho Ha Hp] Hpr Hread. unfold ends.
  destruct (count_yield_spec count_citation _ _ w (citation_event_ok c)) as (r & -> & _). cbn. split; [|done]. eexists. split; cbn; try done.
  - by rewrite He, !app_nil_r.
  - apply Forall_app. split; [done|]. constructor; [|constructor]. by split_and!.
  - rewrite Hn. unfold count_citation, all_counts. cbn. rewrite length_app. cbn. f_equal. lia.
Qed.

Lemma streaming_token cits toks w i d :
  streaming 0 cits toks w -> early w = false -> (0 <= i)%Z ->
  ends (mthen (bump count_token) (fun _ =>
          yield_event closes (token_event (rc_request_id context) (rc_trace_id context) i d)))
    (fun r w' => (exists e, streaming 0 cits (toks ++ [e]) w') /\ early w' = false) w.
Proof.
  intros [He Hc Ht Hn Ho Ha Hp] Hpr Hi. unfold ends.
  destruct (count_yield_spec count_token _ _ w (token_event_ok i d Hi)) as (r & -> & _). cbn. split; [|done]. eexists. split; cbn; try done.
  - by rewrite He, <- app_assoc.
  - apply Forall_app. split; [done|]. constructor; [|constructor]. by split_and!.
  - rewrite Hn. unfold count_token, all_counts. cbn. rewrite length_app. cbn. f_equal. lia.
Qed.
End Invariant.

(** * The body of the generator *)

Lemma cited_read `{PyRepr, NetlocCheck} pc citations auth log :
  _citations_from_packed_context pc = Ok citations ->
  (forall s, s ∈ all_sources (pc_items pc) -> read_for auth log (source_key s)) ->
  Forall (fun c => read_for auth log (citation_key c)) citations.
Proof.
  unfold _citations_from_packed_context. intros E Hread. apply list.Forall_forall. intros c Hin.
  destruct (map_result_elem _ _ _ c E Hin) as (s & Hs & Hfs). apply collect_elem in Hs.
  destruct (Hread s Hs) as (d & v & k & r & Hrest & Ht & Ha & Hd' & Hacl & Hk).
  exists d, v, k, r. split_and!; try done. by rewrite (from_source_key _ _ Hfs), Hk, strip_chunk_key.
Qed.

Section Body.
Context `{PyRepr, UnicodeDB, NetlocCheck, UnicodeDigits}.
Context {S : Type} (P : ports S) (svc : RagQueryApplicationService).
Context (closes : list RagStreamEvent -> bool).
Context (context : RequestContext) (Hwf : context_wf context).

(** The chunks of the provider have passed their own validator. *)
Definition valid_chunks : Prop := forall request s,
  Forall (fun r => match r with Ok c => make_generate_chunk c = Ok c | Err _ => True end)
    (provider_stream P request s).1.

(** The audit port runs to its end: it returns or raises an ordinary exception. *)
Definition audit_runs : Prop := forall event s x,
  (stream_audit_record P event s).1 = Err x -> is_exception x = true.

Context (Hchunks : valid_chunks) (Haudit : audit_runs).
Abbreviation streaming := (streaming context).

Lemma citations_emit citations cits (w : world S) :
  streaming 0 cits [] w -> early w = false ->
  Forall (fun c => read_for (rc_auth context) (w_log w) (citation_key c)) citations ->
  ends (yield_citations closes context citations)
    (fun r w' => (exists cits', streaming 0 cits' [] w') /\ early w' = false /\ log_grows w w') w.
Proof.
  revert cits w. induction citations as [|c rest IH]; intros cits w Hs He Hr; cbn [yield_citations].
  { apply ends_ret. split_and!; [by exists cits|done|unfold log_grows; reflexivity]. }
  apply list.Forall_cons in Hr as [Hc Hrest]. apply ends_assoc, ends_bind.
  eapply ends_mono; [by apply (streaming_citation closes context Hwf cits)|].
  intros r w1 ((e & Hs1) & He1 & Hl1). cbn beta in *. unfold log_grows. rewrite <- Hl1 in Hrest |- *.
  destruct r as [[]|x]; [by eapply IH|]. split_and!; [by exists (cits ++ [e])|done|done].
Qed.

Lemma tokens_emit request cits chunks seen final toks (w : world S) :
  Forall (fun r => match r with Ok c => make_generate_chunk c = Ok c | Err _ => True end) chunks ->
  streaming 0 cits toks w -> early w = false ->
  ends (yield_tokens closes context request seen final chunks)
    (fun r w' => (exists toks', streaming 0 cits toks' w') /\ early w' = false) w.
Proof.
  intros Hall. revert seen final toks w.
  induction Hall as [|[c|x] chunks Hc Hall IH]; intros seen final toks w Hs He; cbn [yield_tokens].
  { apply ends_ret. eauto. }
  2:{ apply ends_raise. eauto. }
  apply ends_bind, ends_lift. destruct (_validated_stream request seen c) as [v|x]; [|by eauto].
  destruct (gc_is_final c).
  - apply ends_bind. destruct (gc_response c) as [resp|].
    + eapply ends_mono; [by apply streaming_generation|]. intros r w1 (-> & Hs1 & He1 & _).
      eapply IH; [done|congruence].
    + apply ends_ret. by eapply IH.
  - apply ends_assoc, ends_bind.
    assert (0 <= gc_index c)%Z as Hi.
    { unfold make_generate_chunk in Hc. destruct (0 <=? gc_index c)%Z eqn:E; [by apply Z.leb_le|done]. }
    eapply ends_mono; [by apply (streaming_token closes context Hwf cits toks)|].
    intros r w1 ((e & Hs1) & He1). destruct r as [[]|x]; [by eapply IH|by eauto].
Qed.

Lemma stream_tokens_emit request cits (w : world S) :
  streaming 0 cits [] w -> early w = false ->
  ends (stream_tokens P closes context request)
    (fun r w' => (exists toks, streaming 0 cits toks w') /\ early w' = false) w.
Proof.
  intros Hs He. unfold stream_tokens. apply ends_bind. unfold ends at 1, call.
  destruct (provider_stream P request (w_state w)) as [chunks s] eqn:Hp. cbn [fst snd].
  assert (streaming 0 cits [] (with_state w s [CallStream request])) as Hs'.
  { eapply streaming_quiet; [exact Hs|]. split; cbn; try done; [by rewrite audits_app, app_nil_r|].
    unfold log_grows. cbn. eexists. done. }
  apply ends_finally. eapply ends_mono.
  { eapply tokens_emit; [|exact Hs'|exact He]. pose proof (Hchunks request (w_state w)) as Hv.
    by rewrite Hp in Hv. }
  intros r w1 ((toks & Hs1) & He1). eapply ends_quiet; [|exact Hs1|].
  { by apply quiet_call. }
  intros r' w2 _ [_ Hl _ _] Hs2. assert (early w2 = false) by (unfold early in *; by rewrite Hl).
  destruct r'; eauto.
Qed.

(** ** Audit records of a stream *)

Lemma suppress_once event e (w : world S) :
  event = Ok e ->
  exists s ok, suppress (record_with (stream_audit_record P) event) w
    = (Ok tt, with_state w s [CallAudit e ok]).
Proof.
  intros ->. unfold suppress, record_with, mcatch, mthen, mlift, call.
  pose proof (Haudit e (w_state w)) as Hx.
  destruct (stream_audit_record P e (w_state w)) as [[[]|x] s]; [by eexists _, _|].
  cbn in Hx. rewrite (Hx x eq_refl). by eexists _, _.
Qed.

Lemma failure_once command d error (w : world S) :
  exists e s ok, _record_stream_failure P context command (_elapsed_ms d) error w
    = (Ok tt, with_state w s [CallAudit e ok]).
Proof.
  unfold _record_stream_failure, mthen, reads.
  destruct (audit_event_ok context "rag.query.stream" AuditFAILURE (_elapsed_ms d)
    (Some (de_code error)) (_stream_failure_metadata context command (_elapsed_ms d) error
      (sl_counts (w_locals w)) (sl_prepared (w_locals w)) (sl_generation_metadata (w_locals w))))
    as (e & He & _); [done|vm_compute; reflexivity|apply elapsed_not_negative|].
  destruct (suppress_once _ e w He) as (s & ok & Hr). by exists e, s, ok.
Qed.

(** ** The last event of a success *)

Record finished (w : world S) (cits toks : list RagStreamEvent) (f : RagStreamEvent) : Prop := {
  fi_events : w_events w = cits ++ toks ++ [f];
  fi_cits : Forall (is_citation context (w_log w)) cits;
  fi_toks : Forall (is_token context) toks;
  fi_final : is_final context (w_log w) StreamSuccess (all_counts cits toks 0 1) f;
  fi_completed : sl_completed (w_locals w) = true;
  fi_audits : length (audits (w_log w)) = 1;
  fi_prepared : cits ++ toks <> [] -> early w = false
}.

Lemma finish_emits cits toks resp d (w : world S) :
  streaming 1 cits toks w ->
  _metadata_latency (entries (qr_metadata resp)) = _elapsed_ms d ->
  (forall log, w_log w `prefix_of` log -> exists f,
     _final_success_event context resp = Ok f /\
     is_final context log StreamSuccess (all_counts cits toks 0 1) f) ->
  ends (finish_stream P closes context resp)
    (fun r w' => (r = Ok tt \/ r = Err EGeneratorExit) /\ exists f, finished w' cits toks f) w.
Proof.
  intros [He Hc Ht Hn Ho Ha Hp] Hl Hf. unfold finish_stream. apply ends_bind, ends_reads, ends_bind.
  unfold _record_stream_audit. rewrite Hl. set (md := _ ++ _).
  destruct (audit_event_ok context "rag.query.stream" AuditSUCCESS (_elapsed_ms d) None md)
    as (e & Hev & _); [done|vm_compute; reflexivity|apply elapsed_not_negative|].
  destruct (suppress_once _ e w Hev) as (s & ok & Hr). unfold ends at 1. rewrite Hr. cbn [fst snd].
  apply ends_bind. cbn [ends complete set_locals modify]. unfold ends.
  destruct (Hf (w_log w ++ [CallAudit e ok])) as (f & Hfe & Hfin); [by eexists|].
  match goal with |- context [yield_event closes _ ?w1] =>
    destruct (yield_spec closes _ f w1 Hfe) as (r & Hy & Hrr) end.
  rewrite Hy. cbn. split; [done|]. exists f. split; cbn; try done.
  - by rewrite He, <- app_assoc.
  - eapply Forall_impl; [exact Hc|]. intros x. apply citation_grows. by eexists.
  - by rewrite audits_app, Ha.
Qed.
End Body.

Section Outcome.
Context `{PyRepr, UnicodeDB, NetlocCheck, UnicodeDigits}.
Context {S : Type} (P : ports S) (svc : RagQueryApplicationService).
Context (closes : list RagStreamEvent -> bool).
Context (context : RequestContext) (Hwf : context_wf context).
Context (Hchunks : valid_chunks P) (Haudit : audit_runs P).
Abbreviation streaming := (streaming context).
Abbreviation finished := (finished context).

Lemma respond_ok answer citations no_answer claims md :
  respond context answer citations no_answer claims md
  = Ok {| qr_request_id := rc_request_id context; qr_trace_id := rc_trace_id context;
          qr_tenant_id := auth_tenant_id (rc_auth context);
          qr_user_id := auth_user_id (rc_auth context); qr_answer := answer;
          qr_citations := citations; qr_no_answer := no_answer; qr_unsupported_claims := claims;
          qr_metadata := FrozenDict md |}.
Proof.
  destruct Hwf as [[Hr Hr'] [Ht Ht'] [[Hu Hu'] [Hn Hn'] _ _ _ _]].
  unfold respond, make_query_response.
  by rewrite (text_id _ Hr Hr'), (text_id _ Ht Ht'), (text_id _ Hn Hn'), (text_id _ Hu Hu').
Qed.

Lemma final_event_ok answer citations no_answer claims md st :
  final_event (rc_request_id context) (rc_trace_id context) (auth_tenant_id (rc_auth context))
    (auth_user_id (rc_auth context)) answer citations no_answer claims md st None
  = Ok (FinalEvent (rc_request_id context) (rc_trace_id context) st None
          (auth_tenant_id (rc_auth context)) (auth_user_id (rc_auth context)) answer citations
          no_answer claims (if frozen md then entries md else redact_mapping (entries md))).
Proof.
  destruct Hwf as [[Hr Hr'] [Ht Ht'] [[Hu Hu'] [Hn Hn'] _ _ _ _]].
  unfold final_event.
  by rewrite (text_id _ Hr Hr'), (text_id _ Ht Ht'), (text_id _ Hn Hn'), (text_id _ Hu Hu').
Qed.

Lemma response_latency command retrieval n g l e m rest :
  _metadata_latency (_response_metadata command retrieval n g l e m ++ rest) = l.
Proof.
  unfold _metadata_latency, _response_metadata. cbn [dict_get app].
  repeat (rewrite decide_False by (vm_compute; discriminate)). by rewrite decide_True.
Qed.

(** The metadata of a response without a "stream" entry, with one added. *)
Lemma with_stream_entries command retrieval n g l e m c :
  dict_set (stream_entry c).1 (stream_entry c).2 (_response_metadata command retrieval n g l e m)
  = _stream_response_metadata command retrieval n g l e c m.
Proof.
  unfold _stream_response_metadata, _response_metadata, stream_entry. cbn [fst snd dict_set app].
  repeat (rewrite decide_False by (vm_compute; discriminate)). done.
Qed.

(** ** What the [try] block leaves *)

Definition body_post (r : result exc unit) (w : world S) : Prop :=
  match r with
  | Ok _ => exists cits toks f, finished w cits toks f
  | Err EGeneratorExit =>
      (exists cits toks f, finished w cits toks f) \/ (exists cits toks, streaming 0 cits toks w)
  | Err _ => exists cits toks, streaming 0 cits toks w
  end.

Lemma body_finished r (w : world S) cits toks :
  (r = Ok tt \/ r = Err EGeneratorExit) /\ (exists f, finished w cits toks f) -> body_post r w.
Proof. intros [[->| ->] (f & Hf)]; cbn; eauto 6. Qed.

Lemma body_streaming x (w : world S) cits toks : streaming 0 cits toks w -> body_post (Err x) w.
Proof. intros Hs. destruct x; cbn; eauto 6. Qed.

(** The branch without a prompt: the fallback answer. *)
Lemma no_answer_emits command p started (w : world S) :
  streaming 0 [] [] w ->
  ends (mthen (elapsed P started) (fun latency =>
        mthen (mlift (_no_answer_response svc context command p latency)) (fun response =>
        mthen (bump count_final) (fun _ => mthen counts (fun c =>
        finish_stream P closes context (_with_stream_metadata response c))))))
    body_post w.
Proof.
  intros Hs. apply ends_bind. destruct (elapsed_spec P started w) as (d & s & Hd).
  eapply ends_quiet; [apply quiet_elapsed|exact Hs|].
  intros r w1 E _ Hs1. rewrite Hd in E. injection E as <- <-.
  apply ends_bind, ends_lift. unfold _no_answer_response. rewrite respond_ok. apply ends_bind.
  eapply ends_mono; [by apply streaming_final|]. intros r w2 (-> & Hs2 & _ & _).
  apply ends_bind, ends_reads. rewrite (st_counts _ _ _ _ _ Hs2).
  unfold _with_stream_metadata. cbn [qr_metadata entries FrozenDict].
  rewrite with_stream_entries. eapply ends_mono.
  - eapply (finish_emits P closes context Hwf Haudit [] [] _ d); [exact Hs2| |].
    + cbn [qr_metadata entries plain]. apply response_latency.
    + intros log Hlog. unfold _final_success_event. eexists. split; [apply final_event_ok|].
      cbn [qr_metadata frozen plain entries qr_citations is_final].
      do 5 (split; [reflexivity|]). split; [|by split].
      apply reported_redacted; [apply stream_keys|apply stream_get].
  - intros r w3 Hf. exact (body_finished _ _ _ _ Hf).
Qed.

(** From the model's answer to the last event. *)
Lemma answer_emits command p prompt pc text md started cits toks (w : world S) :
  streaming 0 cits toks w ->
  (forall s, s ∈ all_sources (pc_items pc) -> read_for (rc_auth context) (w_log w) (source_key s)) ->
  ends (mthen (mlift (extract_citations text pc prompt)) (fun x =>
        mthen (elapsed P started) (fun latency =>
        mthen (bump count_final) (fun _ => mthen counts (fun c =>
        mthen (mlift (respond_with context x
          (_stream_response_metadata command (pq_retrieval p) (answered_counts p prompt x)
             (Some md) latency None c (pq_memory_context p)))) (fun response =>
        finish_stream P closes context response))))))
    body_post w.
Proof.
  intros Hs Hread. apply ends_bind, ends_lift.
  destruct (extract_citations text pc prompt) as [x|x] eqn:Hx; [|by eapply body_streaming].
  apply ends_bind. destruct (elapsed_spec P started w) as (d & s & Hd).
  eapply ends_quiet; [apply quiet_elapsed|exact Hs|].
  intros r w1 E [_ _ _ Hg1] Hs1. rewrite Hd in E. injection E as <- <-. apply ends_bind.
  eapply ends_mono; [by apply streaming_final|]. intros r w2 (-> & Hs2 & _ & Hg2).
  apply ends_bind, ends_reads. rewrite (st_counts _ _ _ _ _ Hs2).
  apply ends_bind, ends_lift. unfold respond_with. rewrite respond_ok. eapply ends_mono.
  - eapply (finish_emits P closes context Hwf Haudit cits toks _ d); [exact Hs2| |].
    + cbn [qr_metadata entries FrozenDict]. apply response_latency.
    + intros log Hlog. unfold _final_success_event. eexists. split; [apply final_event_ok|].
      cbn [qr_metadata frozen FrozenDict entries qr_citations is_final].
      do 5 (split; [reflexivity|]). split; [apply reported_frozen|]. split; [done|].
      eapply Forall_impl; [by eapply extraction_cites|]. intros c. apply read_for_grows.
      etrans; [exact Hg1|]. rewrite <- Hg2. exact Hlog.
  - intros r w3 Hf. exact (body_finished _ _ _ _ Hf).
Qed.

Lemma body_ends command memory started (w : world S) :
  streaming 0 [] [] w -> valid_packing_config (qs_context_packing_config svc) = true ->
  ends (stream_body P svc closes context command memory started) body_post w.
Proof.
  intros Hs Hcfg. unfold stream_body. apply ends_bind.
  eapply ends_quiet; [apply quiet_prepare|exact Hs|]. intros r w1 E _ Hs1.
  destruct r as [p|x]; [|by eapply body_streaming].
  destruct (prepare_inv P svc _ _ _ _ _ _ E Hcfg) as [_ Hprompt]. apply ends_bind.
  eapply ends_mono; [by apply (streaming_prepared context 0 [] [] p)|].
  intros r w2 (-> & Hs2 & He2 & Hl2). destruct (pq_prompt p) as [prompt|];
    [|by apply no_answer_emits].
  destruct (Hprompt _ eq_refl) as (pc & -> & _ & _ & Hread). rewrite <- Hl2 in Hread.
  apply ends_bind, ends_lift, ends_bind, ends_lift.
  destruct (_citations_from_packed_context pc) as [citations|x] eqn:Hcit;
    [|by eapply body_streaming].
  apply ends_bind. eapply ends_mono.
  { eapply (citations_emit closes context Hwf citations []); [exact Hs2|exact He2|].
    by eapply cited_read. }
  intros r w3 ((cits & Hs3) & He3 & Hg3). destruct r as [[]|x]; [|by eapply body_streaming].
  apply ends_bind. eapply ends_mono; [by apply streaming_generation|].
  intros r w4 (-> & Hs4 & He4 & Hl4). rewrite He3 in He4. apply ends_bind, ends_lift.
  destruct (_request (qs_generation svc) prompt context) as [request|x]; [|by eapply body_streaming].
  apply ends_bind. eapply ends_mono.
  { apply (ends_keeps log_grows); [auto with keeps|]. eapply (stream_tokens_emit P closes context Hwf Hchunks); [exact Hs4|exact He4]. }
  intros r w5 (((toks & Hs5) & He5) & Hg5). destruct r as [final|x]; [|by eapply body_streaming].
  apply ends_bind, ends_lift. destruct final as [response|]; [|by eapply body_streaming].
  eapply answer_emits; [exact Hs5|]. intros s Hin. eapply read_for_grows; [|by apply Hread].
  unfold log_grows in *. etrans; [exact Hg3|]. rewrite <- Hl4. exact Hg5.
Qed.
End Outcome.

(** * The handlers, the cleanup and the whole generator *)

#[local] Arguments audits : simpl never.

Section Stream.
Context `{PyRepr, UnicodeDB, NetlocCheck, UnicodeDigits}.
Context {S : Type} (P : ports S) (svc : RagQueryApplicationService).
Context (closes : list RagStreamEvent -> bool).
Context (context : RequestContext) (Hwf : context_wf context).
Context (Hchunks : valid_chunks P) (Haudit : audit_runs P).
Abbreviation streaming := (streaming context).

(** The events of a stream: citations, tokens, and what ends it. *)
Record emitted (w : world S) (cits toks tail : list RagStreamEvent) : Prop := {
  em_events : w_events w = cits ++ toks ++ tail;
  em_cits : Forall (is_citation context (w_log w)) cits;
  em_toks : Forall (is_token context) toks;
  em_prepared : cits ++ toks <> [] -> early w = false
}.

(** After the [except] clauses: either the stream is complete, and audited, or the
    [finally] clause still has to see to it. *)
Definition handled (r : result exc unit) (w : world S) : Prop :=
  exists cits toks tail, emitted w cits toks tail /\
  ((sl_completed (w_locals w) = true /\ length (audits (w_log w)) = 1 /\
    stream_end context (w_log w) cits toks (early w) r tail 1) \/
   (sl_completed (w_locals w) = false /\ audits (w_log w) = [] /\
    ec_token (sl_counts (w_locals w)) = Z.of_nat (length toks) /\
    ec_citation (sl_counts (w_locals w)) = Z.of_nat (length cits) /\
    forall log, stream_end context log cits toks (early w) r tail (if early w then 0 else 1))).

Lemma streaming_emitted n cits toks w : streaming n cits toks w -> emitted w cits toks [].
Proof. intros [He Hc Ht _ _ _ Hp]. split; try done. by rewrite app_nil_r. Qed.

(** The state after an interruption that emitted nothing. *)
Lemma streaming_handled n cits toks r w :
  streaming n cits toks w ->
  (forall log, stream_end context log cits toks (early w) r [] (if early w then 0 else 1)) ->
  handled r w.
Proof.
  intros Hs Hend. exists cits, toks, []. split; [by eapply streaming_emitted|]. right.
  destruct Hs as [_ _ _ Hn Ho Ha _]. by rewrite Hn.
Qed.

Lemma finished_handled r w cits toks f :
  r = Ok tt \/ r = Err EGeneratorExit -> finished context w cits toks f -> handled r w.
Proof.
  intros Hr [He Hc Ht Hf Ho Ha Hp]. exists cits, toks, [f]. split; [by split|]. left.
  split_and!; try done. by constructor.
Qed.

Lemma error_event_shape error stage :
  match error_event context error stage with
  | Ok e => is_error context e
  | Err x => is_exception x = true
  end.
Proof.
  destruct Hwf as [[Hr Hr'] [Ht Ht'] _]. unfold error_event, safe_error_event.
  rewrite (text_id _ Hr Hr'), (text_id _ Ht Ht').
  unfold text, validated, _required_text. cbn [mbind result_bind].
  destruct (strip (de_code error)); [done|]. by destruct (strip (de_message error)).
Qed.

Lemma error_final_ok command latency error c prepared g log :
  exists f, _stream_error_final_event svc context command latency error c prepared g = Ok f /\
    is_final context log StreamError c f.
Proof.
  unfold _stream_error_final_event. eexists. split; [by apply final_event_ok|].
  cbn [frozen plain entries is_final]. do 5 (split; [reflexivity|]). split; [|by split].
  unfold interrupted_metadata. apply reported_redacted; [apply stream_keys|apply stream_get].
Qed.

Lemma report_ends command started error stage cits toks (w : world S) :
  streaming 0 cits toks w ->
  ends (report_error P svc closes context command started error stage) handled w.
Proof.
  intros Hs. unfold report_error. apply ends_bind.
  destruct (elapsed_spec P started w) as (d & s & Hd).
  eapply ends_quiet; [apply quiet_elapsed|exact Hs|].
  intros r w1 E _ Hs1. rewrite Hd in E. injection E as <- <-. revert Hs1.
  generalize (with_state w s []). clear dependent w. intros w [He Hc Ht Hn Ho Ha Hp].
  pose proof (error_event_shape error stage) as Hev.
  destruct (error_event context error stage) as [e|x] eqn:Hee.
  2:{ apply ends_bind. cbn. unfold ends. cbn. exists cits, toks, []. split.
      { split; cbn; try done. by rewrite app_nil_r. }
      right. cbn. rewrite Hn. split_and!; try done. intros log. by apply se_unreportable. }
  apply ends_assoc, ends_bind. unfold ends at 1.
  destruct (count_yield_spec closes count_error _ e w eq_refl) as (r & -> & Hr).
  cbn [fst snd]. destruct r as [[]|x].
  2:{ destruct Hr as [[=]|[= ->]]. exists cits, toks, [e]. split.
      { split; cbn; try done. by rewrite He, <- app_assoc. }
      right. cbn. rewrite Hn. split_and!; try done. intros log. by apply se_closed_at_error. }
  apply ends_bind. unfold ends at 1. cbn [bump set_locals modify fst snd]. apply ends_bind.
  set (w2 := {| w_state := _ |}).
  destruct (failure_once P context Hwf Haudit command d error w2) as (a & s2 & ok & Hf).
  unfold ends at 1. rewrite Hf. cbn [fst snd]. apply ends_bind. unfold ends at 1.
  cbn [complete set_locals modify fst snd]. apply ends_bind, ends_reads. unfold ends.
  set (w3 := {| w_state := _ |}).
  destruct (error_final_ok command (_elapsed_ms d) error (sl_counts (w_locals w3))
    (sl_prepared (w_locals w3)) (sl_generation_metadata (w_locals w3)) (w_log w ++ [CallAudit a ok]))
    as (f & Hfe & Hfin).
  destruct (yield_spec closes _ f w3 Hfe) as (r & -> & Hr'). cbn [fst snd].
  exists cits, toks, [e; f]. split.
  - split; cbn; try done.
    + by rewrite He, <- !app_assoc.
    + eapply Forall_impl; [exact Hc|]. intros x. apply citation_grows. by eexists.
  - left. cbn. rewrite audits_app, Ha. split_and!; try done. apply se_failure; try done.
    unfold w3, w2 in Hfin. cbn in Hfin. rewrite Hn in Hfin. exact Hfin.
Qed.

Lemma handler_ends command started x cits toks (w : world S) :
  streaming 0 cits toks w ->
  ends (stream_handler P svc closes context command started x) handled w.
Proof.
  intros Hs. destruct x as [error|ty| |]; cbn [stream_handler]; try (by eapply report_ends).
  2:{ apply ends_raise. eapply streaming_handled; [exact Hs|]. intros log. constructor. }
  apply ends_bind. destruct (elapsed_spec P started w) as (d & s & Hd).
  eapply ends_quiet; [apply quiet_elapsed|exact Hs|].
  intros r w1 E _ [He Hc Ht Hn Ho Ha Hp]. rewrite Hd in E. injection E as <- <-.
  apply ends_bind. unfold ends at 1. cbn [bump set_locals modify fst snd]. apply ends_bind.
  match goal with |- ends _ _ ?w2 =>
    destruct (failure_once P context Hwf Haudit command d (stream_cancelled context) w2)
      as (a & s2 & ok & Hf) end.
  unfold ends at 1. rewrite Hf. cbn [fst snd]. apply ends_bind. unfold ends. cbn.
  exists cits, toks, []. split.
  - split; cbn; try done; [by rewrite app_nil_r|].
    eapply Forall_impl; [exact Hc|]. intros x. apply citation_grows. by eexists.
  - left. cbn in *. rewrite audits_app, Ha. split_and!; try done. constructor.
Qed.

(** What the caller observes of a stream. *)
Definition stream_outcome (r : result exc unit) (w : world S) : Prop :=
  exists cits toks tail, emitted w cits toks tail /\
    stream_end context (w_log w) cits toks (early w) r tail (length (audits (w_log w))).

Lemma cleanup_ends command started r (w : world S) :
  handled r w ->
  ends (stream_cleanup P context command started)
    (fun s w' => s = Ok tt /\ stream_outcome r w') w.
Proof.
  intros (cits & toks & tail & Hem & Hcase). unfold stream_cleanup. apply ends_bind, ends_reads.
  destruct Hcase as [(Ho & Ha & Hend)|(Ho & Ha & Hnt & Hnc & Hend)]; rewrite Ho; cbn [negb andb].
  { apply ends_ret. split; [done|]. exists cits, toks, tail. by rewrite Ha. }
  assert ((0 <? ec_token (sl_counts (w_locals w)))%Z || (0 <? ec_citation (sl_counts (w_locals w)))%Z
          || match sl_prepared (w_locals w) with Some _ => true | None => false end
          = negb (early w)) as ->.
  { rewrite Hnt, Hnc. pose proof (em_prepared _ _ _ _ Hem) as Hp. unfold early in *.
    destruct (sl_prepared (w_locals w)); cbn [negb]; [by rewrite orb_true_r|].
    destruct cits, toks; cbn in *; try done; by specialize (Hp ltac:(done)). }
  destruct (early w) eqn:Hearly; cbn [negb].
  { apply ends_ret. split; [done|]. exists cits, toks, tail. rewrite Hearly, Ha. by split. }
  apply ends_bind. destruct (elapsed_spec P started w) as (d & s & Hd). unfold ends at 1.
  rewrite Hd. cbn [fst snd]. apply ends_bind. unfold ends at 1. cbn [bump set_locals modify fst snd].
  match goal with |- ends _ _ ?w2 =>
    destruct (failure_once P context Hwf Haudit command d (stream_closed context) w2)
      as (a & s2 & ok & Hf) end.
  unfold ends. rewrite Hf. cbn [fst snd]. split; [done|]. exists cits, toks, tail.
  destruct Hem as [He Hc Ht Hp]. unfold early in *. split.
  - split; unfold early; cbn; try done. eapply Forall_impl; [exact Hc|]. intros x. apply citation_grows.
    rewrite <- app_assoc. by eexists.
  - cbn. rewrite app_nil_r, audits_app, Ha. unfold early. cbn. rewrite Hearly. apply Hend.
Qed.
End Stream.

Section StreamTheorems.
Context `{PyRepr, UnicodeDB, NetlocCheck, UnicodeDigits}.
Context {S : Type} (P : ports S) (svc : RagQueryApplicationService).
Context (closes : list RagStreamEvent -> bool).

Lemma stream_query_ends context command memory s :
  has_rag_query_permission (rc_auth context) = true -> context_wf context ->
  valid_packing_config (qs_context_packing_config svc) = true ->
  valid_chunks P -> audit_runs P ->
  ends (stream_query P svc closes context command memory) (stream_outcome context) (new_world s).
Proof.
  intros Hperm Hwf Hcfg Hchunks Haudit.
  unfold stream_query. apply ends_bind. unfold now. unfold ends at 1.
  destruct (perf_counter P (w_state (new_world s))) as [started s1]. cbn [fst snd].
  apply ends_bind. unfold ends at 1. cbn [set_locals modify fst snd]. rewrite Hperm. cbn [negb].
  apply ends_finally.
  assert (streaming context 0 [] [] {| w_state := s1; w_log := []; w_events := []; w_locals := fresh_locals |}) as Hs
    by (split; cbn; done || constructor).
  eapply (ends_mono _ (handled context)).
  - apply ends_try. eapply ends_mono; [by apply body_ends|]. intros [[]|x] w1 Hb.
    + destruct Hb as (cits & toks & f & Hf). eapply finished_handled; [by left|exact Hf].
    + assert ((exists cits toks, streaming context 0 cits toks w1) \/
              (x = EGeneratorExit /\ exists cits toks f, finished context w1 cits toks f)) as Hcase
        by (destruct x; cbn in Hb; intuition eauto).
      destruct Hcase as [(cits & toks & Hs1)|(-> & cits & toks & f & Hf)]; [by eapply handler_ends|].
      apply ends_raise. eapply finished_handled; [by right|exact Hf].
  - intros r1 w1 Hh. eapply ends_mono; [by apply cleanup_ends|]. by intros ? w2 [-> Ho].
Qed.
End StreamTheorems.

(** * Refused callers *)

Section Refused.
Context `{PyRepr, UnicodeDB, NetlocCheck, UnicodeDigits}.
Context {S : Type} (P : ports S) (svc : RagQueryApplicationService).
Context (closes : list RagStreamEvent -> bool).

Lemma forbidden_event context :
  context_wf context ->
  exists e, error_event context (_query_forbidden_error context) (u "authorization") = Ok e /\
    is_error context e.
Proof.
  intros Hwf. pose proof (error_event_shape context Hwf (_query_forbidden_error context) (u "authorization")) as Hs.
  destruct (error_event context (_query_forbidden_error context) (u "authorization")) as [e|x] eqn:E; [by exists e|].
  exfalso. unfold error_event, safe_error_event in E. destruct Hwf as [[Hr Hr'] [Ht Ht'] _].
  rewrite (text_id _ Hr Hr'), (text_id _ Ht Ht') in E. cbn [mbind result_bind] in E.
  set (d := redact_mapping _) in E. clearbody d. vm_compute in E. discriminate E.
Qed.

Definition denial (context : RequestContext) (log : list rag_call) : Prop :=
  exists e ok, log = [CallAudit e ok] /\ audited_as context AuditDENIED (Some RAG_QUERY_FORBIDDEN) e.

(** An error event and a failure event, or as much of them as the consumer took. *)
Definition refusal_events (context : RequestContext) (events : list RagStreamEvent) : Prop :=
  events = [] \/
  exists e tail, events = e :: tail /\ is_error context e /\
    (tail = [] \/ exists f, tail = [f] /\ is_final context [] StreamError (all_counts [] [] 1 1) f).

Lemma now_ends (Q : result exc float -> world S -> Prop) s :
  (forall t s1, Q (Ok t) (new_world s1)) -> ends (now P) Q (new_world s).
Proof. intros HQ. unfold ends, now. destruct (perf_counter P _) as [t s1]. apply HQ. Qed.

Lemma query_refused context command memory capture s :
  has_rag_query_permission (rc_auth context) = false -> context_wf context ->
  ends (query P svc context command memory capture) (fun _ w => denial context (w_log w)) (new_world s).
Proof.
  intros Hperm Hwf. unfold query. apply ends_bind, now_ends. intros started s1. rewrite Hperm.
  cbn [negb]. apply ends_bind. destruct (elapsed_spec P started (new_world s1)) as (d & s2 & Hd).
  unfold ends at 1. rewrite Hd. cbn [fst snd]. apply ends_bind.
  destruct (denied_spec (audit_record P) context command d (_query_forbidden_error context)
    (with_state (new_world s1) s2 [])) as (e & r & s3 & ok & Hr & Ha & _); [done|].
  unfold ends. rewrite Hr. destruct r as [[]|x]; cbn; by exists e, ok.
Qed.

Lemma stream_refused context command memory s :
  has_rag_query_permission (rc_auth context) = false -> context_wf context ->
  ends (stream_query P svc closes context command memory)
    (fun _ w => denial context (w_log w) /\ refusal_events context (w_events w)) (new_world s).
Proof.
  intros Hperm Hwf. unfold stream_query. apply ends_bind, now_ends. intros started s1.
  apply ends_bind. unfold ends at 1. cbn [set_locals modify fst snd]. rewrite Hperm. cbn [negb].
  unfold stream_denied. apply ends_bind. cbn zeta.
  match goal with |- ends _ _ ?w => destruct (elapsed_spec P started w) as (d & s2 & Hd) end.
  unfold ends at 1. rewrite Hd. cbn [fst snd]. apply ends_bind.
  match goal with |- ends _ _ ?w =>
    destruct (denied_spec (stream_audit_record P) context command d (_query_forbidden_error context) w)
      as (e & r & s3 & ok & Hr & Ha & _); [done|] end.
  unfold ends at 1. rewrite Hr. cbn [fst snd].
  destruct r as [[]|x]; [|split; [by exists e, ok|by left]].
  destruct (forbidden_event context Hwf) as (ev & Hev & Hie). apply ends_bind, ends_lift. rewrite Hev.
  apply ends_assoc, ends_bind. unfold ends at 1.
  match goal with |- context [mthen (bump count_error) _ ?w] =>
    destruct (count_yield_spec closes count_error (Ok ev) ev w eq_refl) as (r & -> & Hrr) end.
  cbn [fst snd]. destruct r as [[]|x]; [|split; [by exists e, ok|right; exists ev, []; split_and!; eauto]].
  apply ends_bind. unfold ends at 1. cbn [bump set_locals modify fst snd].
  apply ends_bind, ends_reads. unfold ends.
  match goal with |- context [_stream_error_final_event _ _ _ ?l ?er ?c _ _] =>
    destruct (error_final_ok svc context Hwf command l er c None None []) as (f & Hfe & Hfin) end.
  match goal with |- context [yield_event closes _ ?w] =>
    destruct (yield_spec closes _ f w Hfe) as (r & -> & _) end.
  cbn [fst snd]. split; [by exists e, ok|]. right. exists ev, [f]. split_and!; eauto.
Qed.

(** A caller without the query permission reaches neither retrieval nor the
    store nor the model, streamed or not: the only call made on a port is one audit
    record of the denial, and a stream has nothing but an error event and a failure
    event, with no citation. *)
Theorem refused_reaches_nothing context command memory capture s :
  has_rag_query_permission (rc_auth context) = false -> context_wf context ->
  denial context (w_log (query P svc context command memory capture (new_world s)).2) /\
  denial context (w_log (stream_query P svc closes context command memory (new_world s)).2) /\
  refusal_events context (w_events (stream_query P svc closes context command memory (new_world s)).2).
Proof. intros Hperm Hwf. split; [by apply query_refused|by apply stream_refused]. Qed.
End Refused.

(** * The provider's stream is closed *)

Definition is_provider_call (c : rag_call) : bool :=
  match c with CallStream _ | CallClose => true | _ => false end.
(** The calls that open and close the provider's stream. *)
Definition stream_calls (log : list rag_call) : list rag_call := List.filter is_provider_call log.
#[local] Arguments stream_calls : simpl never.

Lemma stream_calls_app l k : stream_calls (l ++ k) = stream_calls l ++ stream_calls k.
Proof. apply List.filter_app. Qed.

Section Closing.
Context `{PyRepr, UnicodeDB, NetlocCheck, UnicodeDigits}.
Context {S : Type} (P : ports S) (svc : RagQueryApplicationService).
Context (closes : list RagStreamEvent -> bool).

(** The provider's stream is as it was. *)
Definition untouched (w w' : world S) : Prop := stream_calls (w_log w') = stream_calls (w_log w).

#[export] Instance untouched_preorder : PreOrder untouched.
Proof. split; [by intros w|]. intros w1 w2 w3 Ha Hb. unfold untouched in *. congruence. Qed.

Lemma untouched_call {A} (m : eff exc S A) entry :
  (forall r, stream_calls (entry r) = []) -> keeps untouched (call m entry).
Proof.
  intros He w. unfold call. destruct (m (w_state w)) as [r s]. unfold untouched. cbn.
  by rewrite stream_calls_app, He, app_nil_r.
Qed.
Lemma untouched_now : keeps untouched (now P).
Proof. intros w. unfold now. destruct (perf_counter P _). unfold untouched. cbn. by rewrite app_nil_r. Qed.
Lemma untouched_elapsed t : keeps untouched (elapsed P t).
Proof. apply keeps_bind; [apply _|apply untouched_now|]. intros. apply keeps_ret, _. Qed.
Lemma untouched_locals f : keeps untouched (set_locals (S := S) f).
Proof. by intros w. Qed.
Lemma untouched_yield e : keeps untouched (yield_event (S := S) closes e).
Proof.
  apply keeps_bind; [apply _|apply keeps_lift, _|]. intros ev.
  apply keeps_bind; [apply _|by intros w|]. intros _.
  apply keeps_bind; [apply _|apply keeps_reads, _|]. intros []; [apply keeps_raise, _|apply keeps_ret, _].
Qed.
Lemma untouched_record port event : keeps untouched (suppress (record_with (S := S) port event)).
Proof.
  apply keeps_try; [apply _| |].
  - apply keeps_bind; [apply _|apply keeps_lift, _|]. intros. by apply untouched_call.
  - intros e. destruct (is_exception e); [apply keeps_ret, _|apply keeps_raise, _].
Qed.
Lemma untouched_hydrate cs auth request_id trace_id :
  keeps untouched (hydrate (read_chunk P) cs auth request_id trace_id).
Proof.
  induction cs as [|c cs IH]; cbn [hydrate]; [apply keeps_ret, _|]. unfold hydrate_one, read_chunk.
  apply keeps_bind; [apply _|apply keeps_bind; [apply _|by apply untouched_call|]|].
  - intros [chunk|]; [|apply keeps_raise, _]. apply keeps_bind; [apply _|apply keeps_lift, _|].
    intros. apply keeps_lift, _.
  - intros h. apply keeps_bind; [apply _|apply IH|]. intros. apply keeps_ret, _.
Qed.
End Closing.

#[export] Hint Resolve untouched_now untouched_elapsed untouched_locals untouched_yield
  untouched_record untouched_hydrate : keeps.
#[export] Hint Extern 4 (keeps untouched (call _ _)) => by apply untouched_call : keeps.

Section Closed.
Context `{PyRepr, UnicodeDB, NetlocCheck, UnicodeDigits}.
Context {S : Type} (P : ports S) (svc : RagQueryApplicationService).
Context (closes : list RagStreamEvent -> bool).

Lemma untouched_prepare context command memory :
  keeps untouched (_prepare_query_context P svc context command memory).
Proof. unfold _prepare_query_context. keeps_tac. Qed.
Lemma untouched_finish context response : keeps untouched (finish_stream P closes context response).
Proof. unfold finish_stream, counts, complete, _record_stream_audit. keeps_tac. Qed.
Lemma untouched_stream_failure context command latency error :
  keeps untouched (_record_stream_failure P context command latency error).
Proof. unfold _record_stream_failure. keeps_tac. Qed.
Lemma untouched_report context command started error stage :
  keeps untouched (report_error P svc closes context command started error stage).
Proof. unfold report_error, bump, complete, _record_stream_failure. keeps_tac. Qed.
Lemma untouched_handler context command started x :
  keeps untouched (stream_handler P svc closes context command started x).
Proof.
  destruct x; cbn [stream_handler]; try apply untouched_report; unfold bump, complete, _record_stream_failure;
    keeps_tac.
Qed.
Lemma untouched_cleanup context command started :
  keeps untouched (stream_cleanup P context command started).
Proof. unfold stream_cleanup, bump, _record_stream_failure. keeps_tac. Qed.
Lemma untouched_denied context command started :
  keeps untouched (stream_denied P svc closes context command started).
Proof. unfold stream_denied, bump, counts, _record_denied. keeps_tac. Qed.
Lemma untouched_citations context l : keeps untouched (yield_citations (S := S) closes context l).
Proof. induction l; cbn [yield_citations]; unfold bump; keeps_tac. Qed.
Lemma untouched_tokens context request seen final chunks :
  keeps untouched (yield_tokens (S := S) closes context request seen final chunks).
Proof.
  revert seen final. induction chunks as [|[c|e] chunks IH]; intros seen final;
    cbn [yield_tokens]; unfold bump; keeps_tac.
Qed.

(** At most one stream of the provider was opened; if so it was closed, after it. *)
Definition opened_and_closed (w : world S) : Prop :=
  stream_calls (w_log w) = [] \/ exists request, stream_calls (w_log w) = [CallStream request; CallClose].

Lemma untouched_closed w w' : untouched w w' -> opened_and_closed w -> opened_and_closed w'.
Proof. unfold untouched, opened_and_closed. by intros ->. Qed.

Lemma tokens_closed context request w :
  stream_calls (w_log w) = [] ->
  ends (stream_tokens P closes context request) (fun _ w' => opened_and_closed w') w.
Proof.
  intros Hw. unfold stream_tokens. apply ends_bind. unfold ends at 1, call.
  destruct (provider_stream P request (w_state w)) as [chunks s]. cbn [fst snd]. apply ends_finally.
  set (w1 := with_state w s [CallStream request]).
  pose proof (untouched_tokens context request false None chunks w1) as Hu. unfold untouched in Hu.
  unfold ends at 1. destruct (yield_tokens closes context request false None chunks w1) as [r w2].
  cbn [fst snd] in *. unfold ends. destruct (provider_aclose P (w_state w2)) as [r' s'].
  assert (opened_and_closed (with_state w2 s' [CallClose])) as Hc.
  { right. exists request. cbn [w_log with_state]. rewrite stream_calls_app, Hu. unfold w1.
    cbn [w_log with_state]. by rewrite stream_calls_app, Hw. }
  by destruct r' as [[]|x].
Qed.

Lemma untouched_then {A B} (m : eff exc (world S) A) (f : A -> eff exc (world S) B) w Q :
  keeps untouched m -> stream_calls (w_log w) = [] ->
  (forall x w', stream_calls (w_log w') = [] -> Q (Err x) w') ->
  (forall a w', stream_calls (w_log w') = [] -> ends (f a) Q w') -> ends (mthen m f) Q w.
Proof.
  intros Hm Hw He Ho. apply ends_bind. specialize (Hm w). unfold ends, untouched in *.
  destruct (m w) as [[a|x] w1]; cbn in *; [apply Ho|apply He]; congruence.
Qed.

Lemma body_closed context command memory started w :
  stream_calls (w_log w) = [] ->
  ends (stream_body P svc closes context command memory started) (fun _ w' => opened_and_closed w') w.
Proof.
  intros Hw. unfold stream_body.
  apply untouched_then; [apply untouched_prepare|done|by left|]. clear w Hw. intros p w Hw.
  apply untouched_then; [apply untouched_locals|done|by left|]. clear w Hw. intros _ w Hw.
  destruct (pq_prompt p) as [prompt|].
  2:{ eapply ends_mono; [apply (ends_keeps untouched _ (fun _ _ => True)); [|done]|].
      { unfold bump, counts. keeps_tac. apply untouched_finish. }
      intros r w' [_ Hu]. eapply untouched_closed; [exact Hu|by left]. }
  do 2 (apply untouched_then; [apply keeps_lift, _|done|by left|]; clear w Hw; intros ? w Hw).
  apply untouched_then; [apply untouched_citations|done|by left|]. clear w Hw. intros _ w Hw.
  apply untouched_then; [apply untouched_locals|done|by left|]. clear w Hw. intros _ w Hw.
  apply untouched_then; [apply keeps_lift, _|done|by left|]. clear w Hw. intros request w Hw.
  apply ends_bind. eapply ends_mono; [by apply tokens_closed|]. intros [final|x] w' Hc; [|done].
  eapply ends_mono; [apply (ends_keeps untouched _ (fun _ _ => True)); [|done]|].
  { unfold bump, counts. keeps_tac. apply untouched_finish. }
  intros r w2 [_ Hu]. by eapply untouched_closed.
Qed.

(** C10: a stream opens at most one provider stream and always closes it, exactly
    once and after its last chunk, also when the consumer walks away, a chunk is
    refused or an exception ends the request. *)
Theorem provider_stream_closed context command memory s :
  opened_and_closed (stream_query P svc closes context command memory (new_world s)).2.
Proof.
  change (ends (stream_query P svc closes context command memory)
            (fun _ w' => opened_and_closed w') (new_world s)).
  unfold stream_query. apply untouched_then; [apply untouched_now|done|by left|]. intros started w Hw.
  apply untouched_then; [apply untouched_locals|done|by left|]. clear w Hw. intros _ w Hw.
  destruct (negb _).
  - pose proof (untouched_denied context command started w) as Hu. unfold ends.
    eapply untouched_closed; [exact Hu|by left].
  - apply ends_finally. eapply (ends_mono _ (fun _ w' => opened_and_closed w')).
    + apply ends_try. eapply ends_mono; [by apply body_closed|]. intros [[]|x] w1 Hc; [done|].
      pose proof (untouched_handler context command started x w1) as Hu. unfold ends.
      by eapply untouched_closed.
    + intros r w1 Hc. pose proof (untouched_cleanup context command started w1) as Hu. unfold ends.
      destruct (stream_cleanup P context command started w1) as [[[]|x] w2]; cbn in *;
        by eapply untouched_closed.
Qed.
End Closed.

(** * Concrete streams *)

Module StreamExamples.
Import Examples RedactExamples PackExamples SourceExamples HydrateExamples RagExamples.

Definition ports1 := RagExamples.ports1 [candidate1].

Lemma ports1_valid : valid_chunks ports1.
Proof. intros request s. repeat constructor. Defined.

Lemma ports1_audit : audit_runs ports1.
Proof. intros event s x. discriminate. Defined.

(** A caller who may read documents but not query them. *)
Definition bob : RequestContext :=
  {| rc_request_id := u "r1"; rc_trace_id := u "tr1"; rc_session_id := None;
     rc_auth_method := None;
     rc_auth :=
       {| auth_user_id := u "bob"; auth_tenant_id := u "t1"; auth_roles := [];
          auth_department := None; auth_permissions := [u "document:read"];
          auth_identity_provider := None; auth_version := None; auth_jti := None;
          auth_session_id := None; auth_session_expires_at := None;
          auth_token_expires_at := None |} |}.

Lemma bob_wf : context_wf bob.
Proof.
  split; [split; [reflexivity|discriminate]..|].
  split; try (split; [reflexivity|discriminate]); try (repeat constructor; discriminate); try reflexivity.
Defined.

Definition types (w : world unit) : list pystr := event_type <$> w_events w.

(** The stream of an answer, read to its end, and closed after its first token. *)
Example answer_stream :
  types (stream_query ports1 service1 (fun _ => false) context1 command1 None (new_world tt)).2
  = u <$> ["citation"; "token"; "token"; "final"]%string /\
  types (stream_query ports1 service1 (fun l => (length l =? 2)%nat) context1 command1 None
           (new_world tt)).2
  = u <$> ["citation"; "token"]%string.
Proof. vm_compute. split; reflexivity. Qed.

(** A consumer that closes the stream at its error event, when the context could not
    be prepared, leaves no audit record of the failure. *)
Example closed_at_error_unaudited :
  let w := (stream_query (RagExamples.ports1 [missing]) service1 (fun _ => true) context1 command1
              None (new_world tt)).2 in
  types w = [u "error"] /\ audits (w_log w) = [].
Proof. vm_compute. split; reflexivity. Qed.
End StreamExamples.


Lemma refused_reaches_nothing_witness :
  length (w_log (query (H := Examples.repr0) (H0 := RedactExamples.ascii_only)
    (H1 := SourceExamples.any_netloc) (H2 := PackExamples.ascii_digits) StreamExamples.ports1
    RagExamples.service1 StreamExamples.bob RagExamples.command1 None false (new_world tt)).2) = 1.
Proof.
  destruct (refused_reaches_nothing (H := Examples.repr0) (H0 := RedactExamples.ascii_only)
    (H1 := SourceExamples.any_netloc) (H2 := PackExamples.ascii_digits) StreamExamples.ports1
    RagExamples.service1 (fun _ => false) StreamExamples.bob RagExamples.command1 None false tt
    eq_refl StreamExamples.bob_wf) as [(e & ok & Hlog & _) _].
  rewrite Hlog. reflexivity.
Defined.
