(* ===== verification/SourceResolver.v ===== *)
(** Source resolution.

    Models [packages/rag/source_resolver.py]: a caller who holds a citation asks for
    the text behind it.  Document, version and chunk are read again and checked, and
    every answer and refusal is audited.  The repositories, the audit port and the
    clock are parameters; the log records the calls made on them. *)

From Stdlib Require Import ZArith String.
From S2P Require Import Prelude Effects Float64 PyVal Access Redact SourceMetadata Rrf.
From S2P Require Import ContextPacker AgentDto RagDto Hydration PromptBuilder Generation.
From S2P Require Import RagStreaming RagQuery RagGuarantee.
From stdpp Require Import base list numbers sets.

(** * Commands and responses *)

Definition SOURCE_ACCESS_DENIED : pystr := u "SOURCE_ACCESS_DENIED".
Definition SOURCE_RESOLVE_FAILED : pystr := u "SOURCE_RESOLVE_FAILED".
Definition VISIBLE_VERSION_STATUSES : list pystr := [u "retrieval_ready"].

Record SourceResolveCommand : Type := {
  sc_document_id : pystr;
  sc_version_id : pystr;
  sc_chunk_id : pystr;
  sc_page_start : option Z;
  sc_page_end : option Z;
  sc_request_id : option pystr;
  sc_citation_ref : option pystr
}.

Definition pages_ok (a b : option Z) : bool :=
  match a, b with
  | None, None => true
  | Some x, Some y => (1 <=? x)%Z && (1 <=? y)%Z && (x <=? y)%Z
  | _, _ => false
  end.

Definition make_resolve_command (c : SourceResolveCommand) : result exc SourceResolveCommand :=
  d ← text (sc_document_id c);
  v ← text (sc_version_id c);
  k ← text (sc_chunk_id c);
  _ ← opt_check (pages_ok (sc_page_start c) (sc_page_end c));
  mret {| sc_document_id := d; sc_version_id := v; sc_chunk_id := k;
          sc_page_start := sc_page_start c; sc_page_end := sc_page_end c;
          sc_request_id := optional_text (sc_request_id c);
          sc_citation_ref := optional_text (sc_citation_ref c) |}.

Record SourceResolveResponse : Type := {
  sr_request_id : pystr;
  sr_trace_id : pystr;
  sr_source : SafeSourceMetadata;
  sr_text_excerpt : pystr;
  sr_excerpt_char_count : Z;
  sr_token_count : Z;
  sr_retrieval_method : option pystr;
  sr_score : option float;
  sr_metadata : pydict
}.

(** * Denials *)

Section Denials.
Context `{PyRepr}.

Definition _document_denial_reason (document : option DocumentRecord) : option pystr :=
  match document with
  | None => Some (u "document_unavailable")
  | Some d =>
      if negb (bool_decide (dr_deleted_at d = None)) || bool_decide (dr_status d = u "deleted")
      then Some (u "document_unavailable") else None
  end.

Definition _version_denial_reason (command : SourceResolveCommand)
    (version : option DocumentVersionRecord) : option pystr :=
  match version with
  | None => Some (u "version_unavailable")
  | Some v =>
      if negb (bool_decide (vr_document_id v = sc_document_id command)) then Some (u "version_unavailable")
      else if negb (bool_decide (vr_deleted_at v = None)) || bool_decide (vr_status v = u "deleted")
      then Some (u "version_unavailable")
      else if negb (bool_decide (vr_status v ∈ VISIBLE_VERSION_STATUSES))
      then Some (u "version_unavailable")
      else None
  end.

(** [if not acl_allows_auth(acl, auth): return "acl_denied"]. *)
Definition acl_denies (acl : pydict) (auth : AuthContext) : result exc bool :=
  b ← validated (acl_allows_auth acl auth); mret (negb b).

Definition _chunk_denial_reason (context : RequestContext) (command : SourceResolveCommand)
    (chunk : option ChunkRecord) (document : DocumentRecord) (version : DocumentVersionRecord)
  : result exc (option pystr) :=
  match chunk with
  | None => Ok (Some (u "chunk_unavailable"))
  | Some c =>
      let auth := rc_auth context in
      if negb (bool_decide (ch_tenant_id c = auth_tenant_id auth)
               && bool_decide (ch_document_id c = sc_document_id command)
               && bool_decide (ch_version_id c = sc_version_id command)
               && bool_decide (ch_chunk_id c = sc_chunk_id command))
      then Ok (Some (u "identity_mismatch"))
      else if negb (bool_decide (ch_status c = u "active") && bool_decide (ch_deleted_at c = None))
      then Ok (Some (u "chunk_unavailable"))
      else if match sc_page_start command with
              | Some p => negb (bool_decide (ch_page_start c = Some p)
                                && bool_decide (ch_page_end c = sc_page_end command))
              | None => false
              end
      then Ok (Some (u "identity_mismatch"))
      else
        d ← acl_denies (dr_acl document) auth;
        if (d : bool) then Ok (Some (u "acl_denied")) else
        v ← acl_denies (vr_acl version) auth;
        if (v : bool) then Ok (Some (u "acl_denied")) else
        k ← acl_denies (ch_acl c) auth;
        if (k : bool) then Ok (Some (u "acl_denied")) else Ok None
  end.
End Denials.

(** * Metadata of a chunk that may be shown *)

Section Metadata.
Context `{PyRepr, UnicodeDigits}.

Definition _optional_str (v : pyval) : option pystr :=
  match v with
  | VNone => None
  | _ => match strip (py_str v) with [] => None | n => Some n end
  end.

(** [float(value)] of a number; an integer beyond the floats overflows. *)
Definition _optional_float (v : pyval) : result exc (option float) :=
  match v with
  | VInt z => if isfinite (fofZ z) then Ok (Some (fofZ z)) else Err (EException (u "OverflowError"))
  | VFloat x => Ok (Some x)
  | _ => Ok None
  end.

Definition FORBIDDEN_FRAGMENTS : list pystr :=
  u <$> ["/"; "\"; "://"; "secret"; "token"; "password"; "bearer"; "ignore"; "prompt"]%string.

Definition _safe_metadata_identifier (v : pyval) : option pystr :=
  let normalized := strip (py_str v) in
  if bool_decide (normalized = []) || (128 <? length normalized)%nat then None
  else if existsb is_space normalized then None
  else if existsb (fun f => contains f (lower normalized)) FORBIDDEN_FRAGMENTS then None
  else Some normalized.

Definition str_isdecimal (s : pystr) : bool :=
  match s with [] => false | _ => forallb (fun c => match char_decimal c with Some _ => true | None => false end) s end.

Definition _safe_metadata_value (key : pystr) (v : pyval) : result exc (option pyval) :=
  if bool_decide (key ∈ [u "chunk_index"; u "sequence"])
  then match v with
       | VBool _ => Ok None
       | VInt z => Ok (if (0 <=? z)%Z then Some v else None)
       | _ =>
           let normalized := strip (py_str v) in
           if str_isdecimal normalized
           then match int_of_digits normalized with
                | Ok z => Ok (Some (VInt z))
                | Err _ => Err (EException (u "ValueError"))
                end
           else Ok None
       end
  else if bool_decide (key = u "child_chunk_ids")
  then match v with
       | VList l | VTuple l =>
           let ids : list pystr := omap _safe_metadata_identifier (take 20 l) in
           Ok (match ids with [] => None | _ => Some (VList (VStr <$> ids)) end)
       | _ => Ok None
       end
  else if bool_decide (key ∈ [u "parent_chunk_id"; u "neighbor_prev_chunk_id"; u "neighbor_next_chunk_id"])
  then Ok ((VStr <$> _safe_metadata_identifier v) : option pyval)
  else if bool_decide (key = u "retrieval_method") then Ok ((VStr <$> _optional_str v) : option pyval)
  else if bool_decide (key = u "score") then x ← _optional_float v; mret ((VFloat <$> x) : option pyval)
  else Ok None.

Definition SOURCE_METADATA_KEYS : list pystr := u <$>
  ["chunk_index"; "sequence"; "parent_chunk_id"; "child_chunk_ids"; "neighbor_prev_chunk_id";
   "neighbor_next_chunk_id"; "retrieval_method"; "score"]%string.

Fixpoint safe_metadata_from (safe metadata : pydict) : result exc pydict :=
  match metadata with
  | [] => Ok safe
  | (key, v) :: rest =>
      if negb (bool_decide (key ∈ SOURCE_METADATA_KEYS)) then safe_metadata_from safe rest
      else
        s ← _safe_metadata_value key v;
        safe_metadata_from (match s with Some x => dict_set key x safe | None => safe end) rest
  end.
Definition _safe_metadata : pydict -> result exc pydict := safe_metadata_from [].
End Metadata.

(** * The response *)

Section Response.
Context `{PyRepr, UnicodeDigits, NetlocCheck}.

(** [citation.get(key) or metadata.pop(key, None)]: the entry is popped only when
    the citation's own value is missing or false. *)
Definition get_or_pop (key : pystr) (citation metadata : pydict) : pyval * pydict :=
  match dict_get key citation with
  | Some v => if truthy v then (v, metadata)
              else (default VNone (dict_get key metadata), dict_pop key metadata)
  | None => (default VNone (dict_get key metadata), dict_pop key metadata)
  end.

Definition _response_from_records (context : RequestContext) (document : DocumentRecord)
    (chunk : ChunkRecord) (citation_metadata : option pydict) (max_excerpt_chars : Z)
  : result exc SourceResolveResponse :=
  let excerpt := py_take max_excerpt_chars (ch_content chunk) in
  metadata ← _safe_metadata (ch_metadata chunk);
  let citation := default [] citation_metadata in
  source ← validated (build_safe_source_metadata (dr_title document)
    (str_or (ch_source_uri chunk) (dr_source_uri document)) (Some (ch_source_type chunk))
    (ch_document_id chunk) (ch_version_id chunk) (ch_chunk_id chunk) (ch_page_start chunk)
    (ch_page_end chunk) (ch_title_path chunk) None);
  let '(method, metadata1) := get_or_pop (u "retrieval_method") citation metadata in
  let '(score, metadata2) := get_or_pop (u "score") citation metadata1 in
  s ← _optional_float score;
  mret {| sr_request_id := rc_request_id context; sr_trace_id := rc_trace_id context;
          sr_source := source; sr_text_excerpt := excerpt;
          sr_excerpt_char_count := Z.of_nat (length excerpt);
          sr_token_count := ch_token_count chunk; sr_retrieval_method := _optional_str method;
          sr_score := s; sr_metadata := metadata2 |}.
End Response.

(** * The service *)

Inductive source_call : Type :=
| CallDocument (tenant document : pystr) (reply : option DocumentRecord)
| CallVersion (tenant version : pystr) (reply : option DocumentVersionRecord)
| CallChunk (tenant document version chunk : pystr) (reply : option ChunkRecord)
| CallCitation (tenant user request : pystr)
| CallSourceAudit (event : AuditEvent) (recorded : bool).

Record source_ports (S : Type) : Type := {
  get_document : pystr -> pystr -> eff exc S (option DocumentRecord);
  get_version : pystr -> pystr -> eff exc S (option DocumentVersionRecord);
  get_source_chunk : pystr -> pystr -> pystr -> pystr -> eff exc S (option ChunkRecord);
  (** the optional repository of citation metadata: tenant, user, request, command *)
  get_source_citation_metadata :
    option (pystr -> pystr -> pystr -> SourceResolveCommand -> eff exc S (option pydict));
  source_audit : AuditEvent -> eff exc S unit;
  source_clock : S -> float * S
}.
Arguments get_document {S}.
Arguments get_version {S}.
Arguments get_source_chunk {S}.
Arguments get_source_citation_metadata {S}.
Arguments source_audit {S}.
Arguments source_clock {S}.

Section Resolve.
Context `{PyRepr, UnicodeDB, UnicodeDigits, NetlocCheck}.
Context {S : Type} (P : source_ports S) (max_excerpt_chars : Z).
Open Scope eff_scope.

(** The ports' state, and the local variable [denial_reason]. *)
Abbreviation M := (eff exc (logged (S * option pystr) source_call)).

Definition port {A} (m : eff exc S A) : eff exc (S * option pystr) A := fun w =>
  let '(r, s) := m w.1 in (r, (s, w.2)).
Definition reply {A} (r : result exc (option A)) : option A :=
  match r with Ok x => x | Err _ => None end.

Definition set_reason (reason : option pystr) : M unit :=
  modify (fun w => {| lg_state := ((lg_state w).1, reason); lg_log := lg_log w |}).
Definition get_reason : M (option pystr) := reads (fun w => (lg_state w).2).

Definition SourceResolveError := domain_error CSourceResolve.
Definition source_details (context : RequestContext) (code : pystr) : pydict :=
  [(u "request_id", VStr (rc_request_id context)); (u "trace_id", VStr (rc_trace_id context));
   (u "error_code", VStr code)].
Definition _safe_denial (context : RequestContext) : DomainError :=
  SourceResolveError SOURCE_ACCESS_DENIED (u "Source reference cannot be resolved.")
    (source_details context SOURCE_ACCESS_DENIED) 404.
Definition resolve_failed (context : RequestContext) : DomainError :=
  SourceResolveError SOURCE_RESOLVE_FAILED (u "Source resolve failed.")
    (source_details context SOURCE_RESOLVE_FAILED) 500.

Definition source_audit_event (context : RequestContext) (command : SourceResolveCommand)
    (response : option SourceResolveResponse) (latency : float) (status : AuditStatus)
    (authorized : bool) (denial_reason error_code : option pystr) : result exc AuditEvent :=
  let metadata :=
    [(u "request_id", VStr (rc_request_id context)); (u "trace_id", VStr (rc_trace_id context));
     (u "tenant_id", VStr (auth_tenant_id (rc_auth context)));
     (u "user_id", VStr (auth_user_id (rc_auth context)));
     (u "document_id", VStr (sc_document_id command)); (u "version_id", VStr (sc_version_id command));
     (u "chunk_id", VStr (sc_chunk_id command)); (u "citation_ref", opt_str (sc_citation_ref command));
     (u "authorized", VBool authorized); (u "denial_reason", opt_str denial_reason);
     (u "source_type", opt_str ((fun r => sm_source_type (sr_source r)) <$> response));
     (u "excerpt_char_count",
      VInt (match response with Some r => sr_excerpt_char_count r | None => 0 end));
     (u "error_code", opt_str error_code)] in
  resource ← validated (make_audit_resource (u "source_reference")
    (default (sc_chunk_id command) (str_or (sc_citation_ref command) None)) metadata);
  validated (make_audit_event (rc_request_id context) (rc_trace_id context)
    (auth_tenant_id (rc_auth context)) (auth_user_id (rc_auth context)) (u "rag.source.resolve")
    resource status latency error_code metadata).

(** [max((time.perf_counter() - started) * 1000, 0.0)]. *)
Definition source_latency (now started : float) : float :=
  fmax (fmul (fsub now started) (fofZ 1000)) fzero.

Definition _record_audit (context : RequestContext) (command : SourceResolveCommand)
    (response : option SourceResolveResponse) (started : float) (status : AuditStatus)
    (authorized : bool) (denial_reason error_code : option pystr) : M unit :=
  now <- lread (fun w => let '(t, s) := source_clock P w.1 in (t, (s, w.2)));;
  event <- mlift (source_audit_event context command response (source_latency now started) status
                    authorized denial_reason error_code);;
  lcall (port (source_audit P event)) (fun r => [CallSourceAudit event (is_ok r)]).

Definition _source_citation_metadata (context : RequestContext) (command : SourceResolveCommand)
  : M (option pydict) :=
  match get_source_citation_metadata P with
  | None => mreturn None
  | Some repository =>
      let request := default (rc_request_id context) (str_or (sc_request_id command) None) in
      let tenant := auth_tenant_id (rc_auth context) in
      let user := auth_user_id (rc_auth context) in
      lcall (port (repository tenant user request command)) (fun _ => [CallCitation tenant user request])
  end.

(** [denial_reason = ...; if denial_reason is not None: raise _safe_denial(...)]. *)
Definition deny_if (context : RequestContext) (reason : option pystr) : M unit :=
  _ <- set_reason reason;;
  match reason with
  | Some _ => mraise (EDomain (_safe_denial context))
  | None => mreturn tt
  end.

Definition resolve_body (context : RequestContext) (command : SourceResolveCommand) (started : float)
  : M SourceResolveResponse :=
  let tenant := auth_tenant_id (rc_auth context) in
  document <- lcall (port (get_document P tenant (sc_document_id command)))
                (fun r => [CallDocument tenant (sc_document_id command) (reply r)]);;
  _ <- deny_if context (_document_denial_reason document);;
  version <- lcall (port (get_version P tenant (sc_version_id command)))
               (fun r => [CallVersion tenant (sc_version_id command) (reply r)]);;
  _ <- deny_if context (_version_denial_reason command version);;
  chunk <- lcall (port (get_source_chunk P tenant (sc_document_id command) (sc_version_id command)
                          (sc_chunk_id command)))
             (fun r => [CallChunk tenant (sc_document_id command) (sc_version_id command)
                          (sc_chunk_id command) (reply r)]);;
  match document, version with
  | Some d, Some v =>
      reason <- mlift (_chunk_denial_reason context command chunk d v);;
      _ <- deny_if context reason;;
      match chunk with
      | Some c =>
          citation_metadata <- _source_citation_metadata context command;;
          response <- mlift (_response_from_records context d c citation_metadata max_excerpt_chars);;
          _ <- _record_audit context command (Some response) started AuditSUCCESS true None None;;
          mreturn response
      | None => mraise AssertionError
      end
  | _, _ => mraise AssertionError
  end.

(** The [except] clauses. *)
Definition resolve_handler (context : RequestContext) (command : SourceResolveCommand)
    (started : float) (e : exc) : M SourceResolveResponse :=
  let wrapped :=
    _ <- _record_audit context command None started AuditFAILURE false (Some (u "resolve_failed"))
           (Some SOURCE_RESOLVE_FAILED);;
    mraise (EDomain (resolve_failed context)) in
  match e with
  | EDomain error =>
      if bool_decide (de_class error = CSourceResolve)
      then
        reason <- get_reason;;
        _ <- _record_audit context command None started
               (if bool_decide (de_code error = SOURCE_ACCESS_DENIED) then AuditDENIED else AuditFAILURE)
               false reason (Some (de_code error));;
        mraise (EDomain error)
      else wrapped
  | EException _ => wrapped
  | _ => mraise e
  end.

Definition resolve (context : RequestContext) (command : SourceResolveCommand)
  : M SourceResolveResponse :=
  started <- lread (fun w => let '(t, s) := source_clock P w.1 in (t, (s, w.2)));;
  _ <- set_reason (Some (u "unknown"));;
  mcatch (resolve_body context command started) (resolve_handler context command started).
End Resolve.

(** * Properties *)

Section ResolveProps.
Context `{PyRepr, UnicodeDB, UnicodeDigits, NetlocCheck}.

(** ** The checks *)

Lemma document_allowed o : _document_denial_reason o = None ->
  exists d, o = Some d /\ dr_deleted_at d = None /\ dr_status d <> u "deleted".
Proof.
  destruct o as [d|]; [|done]. unfold _document_denial_reason.
  case_bool_decide; [|done]. case_bool_decide; [done|]. intros _. by exists d.
Qed.

Lemma version_allowed command o : _version_denial_reason command o = None ->
  exists v, o = Some v /\ vr_document_id v = sc_document_id command /\ vr_deleted_at v = None /\
    vr_status v = u "retrieval_ready".
Proof.
  destruct o as [v|]; [|done]. unfold _version_denial_reason.
  case_bool_decide; [|done]. cbn [negb]. case_bool_decide; [|done]. case_bool_decide; [done|].
  cbn [negb orb]. case_bool_decide as Hin; [|done]. intros _. exists v. split_and!; try done.
  unfold VISIBLE_VERSION_STATUSES in Hin. by apply list_elem_of_singleton in Hin.
Qed.

(** What a chunk must be for its text to be shown. *)
Record readable (context : RequestContext) (command : SourceResolveCommand) (d : DocumentRecord)
    (v : DocumentVersionRecord) (c : ChunkRecord) : Prop := {
  rd_tenant : ch_tenant_id c = auth_tenant_id (rc_auth context);
  rd_identity : ch_document_id c = sc_document_id command /\ ch_version_id c = sc_version_id command /\
    ch_chunk_id c = sc_chunk_id command;
  rd_document : dr_deleted_at d = None /\ dr_status d <> u "deleted";
  rd_version : vr_document_id v = sc_document_id command /\ vr_deleted_at v = None /\
    vr_status v = u "retrieval_ready";
  rd_active : ch_status c = u "active" /\ ch_deleted_at c = None;
  rd_acls : acl_allows_auth (dr_acl d) (rc_auth context) = Ok true /\
    acl_allows_auth (vr_acl v) (rc_auth context) = Ok true /\
    acl_allows_auth (ch_acl c) (rc_auth context) = Ok true;
  rd_pages : forall p, sc_page_start command = Some p ->
    ch_page_start c = Some p /\ ch_page_end c = sc_page_end command
}.

Lemma acl_denies_false acl auth : acl_denies acl auth = Ok false -> acl_allows_auth acl auth = Ok true.
Proof. unfold acl_denies. destruct (acl_allows_auth acl auth) as [[]|]; done. Qed.

Lemma chunk_allowed context command o d v :
  _chunk_denial_reason context command o d v = Ok None ->
  dr_deleted_at d = None /\ dr_status d <> u "deleted" ->
  vr_document_id v = sc_document_id command /\ vr_deleted_at v = None /\ vr_status v = u "retrieval_ready" ->
  exists c, o = Some c /\ readable context command d v c.
Proof.
  destruct o as [c|]; [|done]. unfold _chunk_denial_reason. cbn zeta. intros E Hd Hv.
  destruct (bool_decide (ch_tenant_id c = _) && _ && _ && _) eqn:Hid; [|done]. cbn [negb] in E.
  destruct (bool_decide (ch_status c = _) && _) eqn:Hact; [|done]. cbn [negb] in E.
  destruct (match sc_page_start command with Some _ => _ | None => false end) eqn:Hp; [done|].
  unfold mbind, result_bind in E.
  destruct (acl_denies (dr_acl d) (rc_auth context)) as [[]|] eqn:E1; try done.
  destruct (acl_denies (vr_acl v) (rc_auth context)) as [[]|] eqn:E2; try done.
  destruct (acl_denies (ch_acl c) (rc_auth context)) as [[]|] eqn:E3; try done.
  rewrite !andb_true_iff, !bool_decide_eq_true in Hid. destruct Hid as [[[Ht Hdoc] Hver] Hk].
  rewrite andb_true_iff, !bool_decide_eq_true in Hact.
  exists c. split; [done|]. split; try done; [by split_and!; apply acl_denies_false|].
  intros p Hs. rewrite Hs in Hp. apply negb_false_iff in Hp.
  by rewrite andb_true_iff, !bool_decide_eq_true in Hp.
Qed.

(** ** The response *)

Lemma safe_metadata_keys metadata safe out :
  safe_metadata_from safe metadata = Ok out ->
  Forall (fun kv => kv.1 ∈ SOURCE_METADATA_KEYS) safe ->
  Forall (fun kv => kv.1 ∈ SOURCE_METADATA_KEYS) out.
Proof.
  revert safe. induction metadata as [|[k v] rest IH]; intros safe; cbn [safe_metadata_from].
  { by intros [= <-]. }
  case_bool_decide as Hk; cbn [negb]; [|by apply IH].
  unfold mbind, result_bind. destruct (_safe_metadata_value k v) as [o|]; [|done].
  intros E Hs. eapply IH; [exact E|]. destruct o; [|done]. by apply dict_set_Forall.
Qed.

Lemma get_or_pop_Forall (Q : pystr * pyval -> Prop) k c (d : pydict) :
  Forall Q d -> Forall Q (get_or_pop k c d).2.
Proof.
  intros Hd. unfold get_or_pop. destruct (dict_get k c) as [v|]; [destruct (truthy v)|];
    [done|by apply dict_pop_Forall..].
Qed.

Lemma response_inv context d c cm n r :
  _response_from_records context d c cm n = Ok r ->
  sr_request_id r = rc_request_id context /\ sr_text_excerpt r = py_take n (ch_content c) /\
  sr_excerpt_char_count r = Z.of_nat (length (sr_text_excerpt r)) /\
  Forall (fun kv => kv.1 ∈ SOURCE_METADATA_KEYS) (sr_metadata r).
Proof.
  unfold _response_from_records. cbn zeta. unfold mbind at 1, result_bind at 1.
  destruct (_safe_metadata (ch_metadata c)) as [md|] eqn:Hmd; [|done].
  unfold mbind at 1, result_bind at 1. destruct (validated _) as [src|]; [|done].
  apply safe_metadata_keys in Hmd; [|constructor].
  destruct (get_or_pop (u "retrieval_method") _ md) as [m1 md1] eqn:E1.
  destruct (get_or_pop (u "score") _ md1) as [sc md2] eqn:E2.
  unfold mbind, result_bind. destruct (_optional_float sc); [|done]. intros [= <-].
  split_and!; try done. cbn.
  assert (md2 = (get_or_pop (u "score") (default [] cm) md1).2) as -> by (by rewrite E2).
  apply get_or_pop_Forall.
  assert (md1 = (get_or_pop (u "retrieval_method") (default [] cm) md).2) as -> by (by rewrite E1).
  by apply get_or_pop_Forall.
Qed.

(** ** The service *)

Context {S : Type} (P : source_ports S) (max_excerpt_chars : Z).
Abbreviation start s := {| lg_state := (s, None); lg_log := [] |}.

Lemma source_latency_ok now started : flt (source_latency now started) fzero = false.
Proof. unfold source_latency. apply RagStreaming.fmax_zero. Qed.

Lemma event_audited context command response latency status authorized reason code e :
  source_audit_event context command response latency status authorized reason code = Ok e ->
  context_wf context -> audited_as context status code e.
Proof.
  unfold source_audit_event. intros E [[Hr Hr'] [Ht Ht'] [[Hu Hu'] [Hn Hn'] _ _ _ _]].
  cbn zeta in E. unfold mbind at 1, result_bind at 1 in E.
  destruct (validated (make_audit_resource _ _ _)) as [res|]; [|done].
  unfold make_audit_event in E.
  rewrite (nonblank_fix _ Hr Hr'), (nonblank_fix _ Ht Ht'), (nonblank_fix _ Hu Hu'),
    (nonblank_fix _ Hn Hn') in E.
  assert (nonblank_text (u "rag.source.resolve") = Ok (u "rag.source.resolve")) as Ha
    by (vm_compute; reflexivity). rewrite Ha in E.
  cbn [mbind result_bind] in E. destruct (flt latency fzero); [done|]. injection E as <-. by split_and!.
Qed.

Lemma resolve_record_inv context command response started status authorized reason code w w' :
  _record_audit P context command response started status authorized reason code w = (Ok tt, w') ->
  context_wf context ->
  exists e, lg_log w' = lg_log w ++ [CallSourceAudit e true] /\ audited_as context status code e.
Proof.
  intros E Hwf. unfold _record_audit in E.
  apply mthen_inv in E as [(x & _ & [=])|(t & w1 & Ht & E)].
  apply mthen_inv in E as [(x & _ & [=])|(e & w2 & He & E)].
  unfold mlift in He. injection He as He <-. apply event_audited in He; [|done].
  unfold lread in Ht. destruct (source_clock P _) as [t' s]. injection Ht as _ <-.
  unfold lcall in E. destruct (port _ _) as [r s2]. injection E as -> <-. exists e.
  split; [|done]. cbn. by rewrite app_nil_r.
Qed.

Lemma deny_inv context reason (w w' : logged (S * option pystr) source_call) :
  deny_if context reason w = (Ok tt, w') -> reason = None /\ lg_log w' = lg_log w.
Proof. unfold deny_if, set_reason, mthen, modify. destruct reason; [done|]. by intros [= <-]. Qed.

Lemma lcall_inv {A} (m : eff exc (S * option pystr) A) entry a
    (w w' : logged (S * option pystr) source_call) :
  lcall m entry w = (Ok a, w') -> lg_log w' = lg_log w ++ entry (Ok a).
Proof. unfold lcall. destruct (m (lg_state w)) as [r s]. by intros [= -> <-]. Qed.

Lemma citation_extends context command : keeps log_extends (_source_citation_metadata P context command).
Proof.
  unfold _source_citation_metadata. destruct (get_source_citation_metadata P);
    [apply lcall_extends|apply keeps_ret, _].
Qed.

Lemma body_inv context command started w r w' :
  resolve_body P max_excerpt_chars context command started w = (Ok r, w') -> context_wf context ->
  exists d v c log e,
    lg_log w' = log ++ [CallSourceAudit e true] /\ audited_as context AuditSUCCESS None e /\
    CallDocument (auth_tenant_id (rc_auth context)) (sc_document_id command) (Some d) ∈ log /\
    CallVersion (auth_tenant_id (rc_auth context)) (sc_version_id command) (Some v) ∈ log /\
    CallChunk (auth_tenant_id (rc_auth context)) (sc_document_id command) (sc_version_id command)
      (sc_chunk_id command) (Some c) ∈ log /\
    readable context command d v c /\
    sr_text_excerpt r = py_take max_excerpt_chars (ch_content c) /\
    sr_excerpt_char_count r = Z.of_nat (length (sr_text_excerpt r)) /\
    Forall (fun kv => kv.1 ∈ SOURCE_METADATA_KEYS) (sr_metadata r).
Proof.
  intros E Hwf. unfold resolve_body in E. cbn zeta in E.
  apply mthen_inv in E as [(x & _ & [=])|(od & w1 & G1 & E)]. apply lcall_inv in G1.
  apply mthen_inv in E as [(x & _ & [=])|([] & w2 & G2 & E)].
  apply deny_inv in G2 as [(d & -> & Hd)%document_allowed G2].
  apply mthen_inv in E as [(x & _ & [=])|(ov & w3 & G3 & E)]. apply lcall_inv in G3.
  apply mthen_inv in E as [(x & _ & [=])|([] & w4 & G4 & E)].
  apply deny_inv in G4 as [(v & -> & Hv)%version_allowed G4].
  apply mthen_inv in E as [(x & _ & [=])|(oc & w5 & G5 & E)]. apply lcall_inv in G5.
  apply mthen_inv in E as [(x & _ & [=])|(reason & w6 & G6 & E)]. unfold mlift in G6. injection G6 as G6 <-.
  apply mthen_inv in E as [(x & _ & [=])|([] & w7 & G7 & E)]. apply deny_inv in G7 as [-> G7].
  apply chunk_allowed in G6 as (c & -> & Hread); [|done|done].
  apply mthen_inv in E as [(x & _ & [=])|(cm & w8 & G8 & E)].
  pose proof (citation_extends context command w7) as Hx. rewrite G8 in Hx. unfold log_extends in Hx. cbn in Hx.
  apply mthen_inv in E as [(x & _ & [=])|(resp & w9 & G9 & E)]. unfold mlift in G9. injection G9 as G9 <-.
  apply response_inv in G9 as (_ & Hex & Hcount & Hmd).
  apply mthen_inv in E as [(x & _ & [=])|([] & w10 & G10 & E)]. injection E as <- <-.
  apply resolve_record_inv in G10 as (e & Hlog & Ha); [|done].
  destruct Hx as [k Hk]. cbn [reply] in *. exists d, v, c, (lg_log w8), e.
  split_and!; try done; rewrite Hk, G7, G5, G4, G3, G2, G1; set_solver.
Qed.


(** ** Refusals *)

(** The repositories raise errors of their own, not this service's. *)
Definition foreign {A} (m : eff exc S A) : Prop :=
  forall s e, (m s).1 = Err (EDomain e) -> de_class e <> CSourceResolve.
Record foreign_ports : Prop := {
  fp_document : forall t d, foreign (get_document P t d);
  fp_version : forall t v, foreign (get_version P t v);
  fp_chunk : forall t d v c, foreign (get_source_chunk P t d v c);
  fp_citation : forall f t us r c, get_source_citation_metadata P = Some f -> foreign (f t us r c);
  fp_audit : forall e s, is_ok (source_audit P e s).1 = true
}.

Definition is_denial (context : RequestContext) (x : exc) : Prop :=
  match x with
  | EDomain e => de_class e = CSourceResolve -> e = _safe_denial context
  | _ => True
  end.

Lemma denial_pure {A B} context (r : result A B) x : validated r = Err x -> is_denial context x.
Proof. destruct r; [done|]. by intros [= <-]. Qed.

Lemma chunk_reason_pure context command o d v x :
  _chunk_denial_reason context command o d v = Err x -> is_denial context x.
Proof.
  assert (forall acl auth y, acl_denies acl auth = Err y -> is_denial context y) as Ha.
  { intros acl auth y. unfold acl_denies, mbind, result_bind.
    destruct (validated _) eqn:E; [done|]. intros [= <-]. by eapply denial_pure. }
  unfold _chunk_denial_reason, mbind, result_bind. destruct o as [c|]; [|done]. cbn zeta.
  destruct (negb _); [done|]. destruct (negb _); [done|].
  destruct (match sc_page_start _ with Some _ => _ | None => _ end); [done|].
  destruct (acl_denies (dr_acl d) _) as [[]|] eqn:E1; [done| |intros [= <-]; by eapply Ha].
  destruct (acl_denies (vr_acl v) _) as [[]|] eqn:E2; [done| |intros [= <-]; by eapply Ha].
  destruct (acl_denies (ch_acl c) _) as [[]|] eqn:E3; [done|done|intros [= <-]; by eapply Ha].
Qed.

Lemma response_pure context d c cm n x : _response_from_records context d c cm n = Err x -> is_denial context x.
Proof.
  assert (forall v y, _optional_float v = Err y -> is_denial context y) as Hf.
  { intros [] y; cbn; try done. destruct (isfinite _); [done|]. by intros [= <-]. }
  assert (forall k v y, _safe_metadata_value k v = Err y -> is_denial context y) as Hv.
  { intros k v y. unfold _safe_metadata_value. repeat case_bool_decide; try (by destruct v); try done.
    - destruct v; cbn zeta; try done; destruct (str_isdecimal _); try done;
        destruct (int_of_digits _); try done; by intros [= <-].
    - unfold mbind, result_bind. destruct (_optional_float v) eqn:E; [done|]. intros [= <-]. by eapply Hf. }
  assert (forall l safe y, safe_metadata_from safe l = Err y -> is_denial context y) as Hm.
  { induction l as [|[k v] l IH]; intros safe y; cbn [safe_metadata_from]; [done|].
    destruct (negb _); [apply IH|]. unfold mbind, result_bind.
    destruct (_safe_metadata_value k v) eqn:E; [apply IH|]. intros [= <-]. by eapply Hv. }
  unfold _response_from_records. cbn zeta. unfold mbind, result_bind, _safe_metadata.
  destruct (safe_metadata_from [] _) eqn:E1; [|intros [= <-]; by eapply Hm].
  destruct (validated _) eqn:E2; [|intros [= <-]; by eapply denial_pure].
  destruct (get_or_pop _ _ _), (get_or_pop _ _ _). destruct (_optional_float _) eqn:E3; [done|].
  intros [= <-]. by eapply Hf.
Qed.

Lemma record_pure context command response started status authorized reason code :
  foreign_ports ->
  raises_only (is_denial context) (_record_audit P context command response started status authorized reason code).
Proof.
  intros HP. unfold _record_audit. apply raises_bind; [apply raises_lread|]. intros t.
  apply raises_bind.
  - apply raises_lift. intros x. unfold source_audit_event. cbn zeta. unfold mbind, result_bind.
    destruct (validated (make_audit_resource _ _ _)) eqn:E; [apply denial_pure|].
    intros [= <-]. by eapply denial_pure.
  - intros e. apply raises_lcall. intros s x. unfold port. pose proof (fp_audit HP e s.1) as Hok.
    destruct (source_audit P e s.1) as [[]]; [done|]. by cbn in Hok.
Qed.

(** The only error of its own that the [try] block raises is the denial. *)
Lemma body_denies context command started :
  foreign_ports -> raises_only (is_denial context) (resolve_body P max_excerpt_chars context command started).
Proof.
  intros HP.
  assert (forall A (m : eff exc S A) entry, foreign m ->
    raises_only (is_denial context) (lcall (C := source_call) (port m) entry)) as Hcall.
  { intros A m entry Hf. apply raises_lcall. intros s x. unfold port. specialize (Hf s.1).
    destruct (m s.1) as [r s']. cbn in *. intros ->. destruct x; cbn; try done.
    intros Hc. by specialize (Hf _ eq_refl). }
  assert (forall reason, raises_only (is_denial context) (deny_if (S := S) context reason)) as Hdeny.
  { intros reason. apply raises_bind; [apply raises_modify|]. intros _.
    destruct reason; [by apply raises_raise|apply raises_ret]. }
  unfold resolve_body. cbn zeta. apply raises_bind; [apply Hcall, HP|]. intros od.
  apply raises_bind; [apply Hdeny|]. intros _. apply raises_bind; [apply Hcall, HP|]. intros ov.
  apply raises_bind; [apply Hdeny|]. intros _. apply raises_bind; [apply Hcall, HP|]. intros oc.
  destruct od as [d|]; [|by apply raises_raise]. destruct ov as [v|]; [|by apply raises_raise].
  apply raises_bind; [apply raises_lift; intros x; apply chunk_reason_pure|]. intros reason.
  apply raises_bind; [apply Hdeny|]. intros _. destruct oc as [c|]; [|by apply raises_raise].
  apply raises_bind.
  { unfold _source_citation_metadata. destruct (get_source_citation_metadata P) as [f|] eqn:Hf;
      [apply Hcall; by eapply fp_citation|apply raises_ret]. }
  intros cm. apply raises_bind; [apply raises_lift; intros x; apply response_pure|]. intros resp.
  apply raises_bind; [by apply record_pure|]. intros _. apply raises_ret.
Qed.

(** What the validators of a command establish. *)
Record command_wf (command : SourceResolveCommand) : Prop := {
  cm_chunk : strip (sc_chunk_id command) = sc_chunk_id command /\ sc_chunk_id command <> [];
  cm_ref : forall r, sc_citation_ref command = Some r -> strip r = r /\ r <> []
}.

Lemma make_resolve_command_wf c command : make_resolve_command c = Ok command -> command_wf command.
Proof.
  unfold make_resolve_command. intros E. ok_inv E.
  assert (forall t n, text t = Ok n -> strip n = n /\ n <> []) as Ht.
  { intros t n. unfold text, validated, _required_text. destruct (strip t) eqn:Hs; [done|].
    intros [= <-]. split; [|done]. rewrite <- Hs. apply strip_idem. }
  split; cbn; [by eapply Ht|]. intros r. unfold optional_text.
  destruct (sc_citation_ref c) as [x|]; [|done]. destruct (strip x) eqn:Hs; [done|].
  intros [= <-]. split; [|done]. rewrite <- Hs. apply strip_idem.
Qed.

Lemma event_exists context command response now started status authorized reason code :
  context_wf context -> command_wf command ->
  exists e, source_audit_event context command response (source_latency now started) status authorized
    reason code = Ok e /\ audited_as context status code e.
Proof.
  intros Hwf [Hc Href].
  assert (let i := default (sc_chunk_id command) (str_or (sc_citation_ref command) None) in
    strip i = i /\ i <> []) as [Hi Hne].
  { destruct (sc_citation_ref command) as [[|x r]|]; try done. by apply Href. }
  assert (exists e, source_audit_event context command response (source_latency now started) status
    authorized reason code = Ok e) as [e He].
  2:{ exists e. split; [done|]. by eapply event_audited. }
  unfold source_audit_event, make_audit_resource, make_audit_event. cbn zeta in *.
  rewrite (nonblank_fix _ Hi Hne). destruct Hwf as [[Hr Hr'] [Ht Ht'] [[Hu Hu'] [Hn Hn'] _ _ _ _]].
  assert (nonblank_text (u "source_reference") = Ok (u "source_reference")) as -> by (vm_compute; reflexivity).
  assert (nonblank_text (u "rag.source.resolve") = Ok (u "rag.source.resolve")) as -> by (vm_compute; reflexivity).
  rewrite (nonblank_fix _ Hr Hr'), (nonblank_fix _ Ht Ht'), (nonblank_fix _ Hu Hu'), (nonblank_fix _ Hn Hn').
  rewrite source_latency_ok. eexists. reflexivity.
Qed.

(** A refusal is audited, then raised. *)
Lemma refusal_recorded context command started status reason code error w x w' :
  foreign_ports -> context_wf context -> command_wf command ->
  mthen (_record_audit P context command None started status false reason (Some code))
    (fun _ => mraise (A := SourceResolveResponse) (EDomain error)) w = (Err x, w') ->
  x = EDomain error /\ exists e, lg_log w' = lg_log w ++ [CallSourceAudit e true] /\
    audited_as context status (Some code) e.
Proof.
  intros HP Hwf Hcmd. unfold mthen at 1, _record_audit, mthen at 1, lread.
  destruct (source_clock P (lg_state w).1) as [t s]. unfold mthen, mlift.
  destruct (event_exists context command None t started status false reason (Some code) Hwf Hcmd)
    as (e & -> & Ha).
  unfold lcall, port. cbn [lg_state with_log fst snd]. pose proof (fp_audit HP e s) as Hok.
  destruct (source_audit P e s) as [[[]|] s2]; [|done]. intros [= <- <-]. split; [done|].
  exists e. split; [|done]. cbn. by rewrite app_nil_r.
Qed.

(** A refused caller learns nothing but the refusal: whether the document, the
    version or the chunk is missing, deleted, of another tenant, of other pages or
    closed to the caller, the error is the same; any other failure of the
    repositories is the same internal error.  Either is audited, as the last call,
    under its code. *)
Theorem resolve_refusals_uniform context command s x w' :
  resolve P max_excerpt_chars context command (start s) = (Err x, w') ->
  foreign_ports -> context_wf context -> command_wf command -> is_exception x = true ->
  exists log e, lg_log w' = log ++ [CallSourceAudit e true] /\
    (x = EDomain (_safe_denial context) /\ audited_as context AuditDENIED (Some SOURCE_ACCESS_DENIED) e \/
     x = EDomain (resolve_failed context) /\ audited_as context AuditFAILURE (Some SOURCE_RESOLVE_FAILED) e).
Proof.
  intros E HP Hwf Hcmd Hx. unfold resolve in E.
  apply mthen_inv in E as [(y & Hl & [= ->])|(started & w1 & _ & E)].
  { unfold lread in Hl. by destruct (source_clock P _). }
  apply mthen_inv in E as [(y & Hl & [= ->])|([] & w2 & _ & E)]; [done|]. unfold mcatch in E.
  destruct (resolve_body P max_excerpt_chars context command started w2) as [[r'|y] w3] eqn:Hb; [done|].
  pose proof (body_denies context command started HP w2 y) as Hd. rewrite Hb in Hd.
  specialize (Hd eq_refl). destruct y as [error|ty| |]; cbn [resolve_handler] in E.
  - case_bool_decide as Hc.
    + cbn in Hd. specialize (Hd Hc). subst error.
      apply mthen_inv in E as [(y & Hl & [= ->])|(reason & w4 & _ & E)]; [done|].
      apply refusal_recorded in E as (-> & e & -> & Ha); try done. eexists _, e. split; [done|]. by left.
    + apply refusal_recorded in E as (-> & e & -> & Ha); try done. eexists _, e. split; [done|]. by right.
  - apply refusal_recorded in E as (-> & e & -> & Ha); try done. eexists _, e. split; [done|]. by right.
  - by injection E as <- _.
  - by injection E as <- _.
Qed.
End ResolveProps.

(** * Examples *)

Module ResolveExamples.
Import Examples RedactExamples PackExamples SourceExamples HydrateExamples RagExamples.

Definition document1 : DocumentRecord :=
  {| dr_id := u "d1"; dr_tenant_id := u "t1"; dr_created_by := u "u0"; dr_status := u "active";
     dr_source_type := u "md"; dr_source_uri := None; dr_title := Some (u "Guide");
     dr_acl := _default_acl; dr_checksum := u "x"; dr_metadata := []; dr_deleted_at := None |}.
Definition version1 : DocumentVersionRecord :=
  {| vr_id := u "v1"; vr_document_id := u "d1"; vr_tenant_id := u "t1"; vr_created_by := u "u0";
     vr_status := u "retrieval_ready"; vr_source_type := u "md"; vr_object_key := u "k";
     vr_filename := u "guide.md"; vr_byte_size := 10; vr_acl := _default_acl;
     vr_checksum := u "x"; vr_deleted_at := None |}.

Definition ports1 (version : DocumentVersionRecord) : source_ports unit :=
  {| get_document := fun t d s => (Ok (if bool_decide (d = u "d1") then Some document1 else None), s);
     get_version := fun t v s => (Ok (Some version), s);
     get_source_chunk := store1;
     get_source_citation_metadata := None;
     source_audit := fun _ s => (Ok tt, s);
     source_clock := fun s => (fone, s) |}.

Definition ask (d : string) : SourceResolveCommand :=
  {| sc_document_id := u d; sc_version_id := u "v1"; sc_chunk_id := u "c1"; sc_page_start := None;
     sc_page_end := None; sc_request_id := None; sc_citation_ref := None |}.

Lemma ask_wf d : command_wf (ask d).
Proof. split; cbn; [split; [reflexivity|discriminate]|discriminate]. Defined.

Lemma ports1_foreign v : foreign_ports (ports1 v).
Proof. split; try (intros; intros s e Hs; discriminate Hs); [discriminate|reflexivity]. Defined.

Definition start : logged (unit * option pystr) source_call :=
  {| lg_state := (tt, None); lg_log := [] |}.
End ResolveExamples.


Lemma resolve_refusals_uniform_witness :
  exists x w', resolve (H := Examples.repr0) (H0 := RedactExamples.ascii_only)
      (H1 := PackExamples.ascii_digits) (H2 := SourceExamples.any_netloc)
      (ResolveExamples.ports1 ResolveExamples.version1) 10 RagExamples.context1
      (ResolveExamples.ask "d2") ResolveExamples.start = (Err x, w') /\
    exists log e, lg_log w' = log ++ [CallSourceAudit e true].
Proof.
  destruct (resolve _ 10 RagExamples.context1 (ResolveExamples.ask "d2") ResolveExamples.start)
    as [[r|x] w'] eqn:E; [apply (f_equal (fun x => is_ok x.1)) in E; vm_compute in E; discriminate E|].
  exists x, w'. split; [reflexivity|].
  assert (is_exception x = true) as Hx.
  { apply (f_equal (fun x => match x.1 with Err e => is_exception e | _ => false end)) in E.
    vm_compute in E. symmetry. exact E. }
  destruct (resolve_refusals_uniform (H := Examples.repr0) (H0 := RedactExamples.ascii_only)
    (H1 := PackExamples.ascii_digits) (H2 := SourceExamples.any_netloc) _ _ _ _ _ _ _ E
    (ResolveExamples.ports1_foreign _) RagExamples.context1_wf (ResolveExamples.ask_wf _) Hx)
    as (log & e & Hlog & _).
  exists log, e. exact Hlog.
Defined.
