(* ===== verification/ChatMemory.v ===== *)
(** Chat memory.

    Models [packages/memory/dto.py], [memory/exceptions.py], [memory/service.py] and
    the tables of [memory/storage/repositories.py] and [memory/storage/models.py]:
    sessions, their messages, and the packing of a session's history into a token
    budget.  A request owns one database transaction: its statements change the
    working copy of the tables, [commit] publishes it, [rollback] discards it.  The
    database may refuse any statement, which is the oracle [db_fault]; identifiers
    and times are parameters. *)

From Stdlib Require Import ZArith String Sorting.Sorted Permutation.
From S2P Require Import Prelude Effects Float64 PyVal Access Redact SourceMetadata Rrf.
From S2P Require Import ContextPacker AgentDto RagDto CitationExtractor RagStreaming.
From stdpp Require Import base list numbers sorting sets.

(** * Data *)

Inductive ChatSessionStatus : Type := SessionActive | SessionClosed | SessionDeleted.
Inductive ChatMessageStatus : Type := MessageActive | MessageDeleted.
Inductive ChatMessageRole : Type := RoleOfUser | RoleOfAssistant | RoleOfSummary.
#[export] Instance session_status_eq_dec : EqDecision ChatSessionStatus.
Proof. solve_decision. Defined.
#[export] Instance message_status_eq_dec : EqDecision ChatMessageStatus.
Proof. solve_decision. Defined.
#[export] Instance message_role_eq_dec : EqDecision ChatMessageRole.
Proof. solve_decision. Defined.

Definition role_text (r : ChatMessageRole) : pystr :=
  match r with RoleOfUser => u "user" | RoleOfAssistant => u "assistant" | RoleOfSummary => u "system_summary" end.

Definition MAX_MESSAGE_CONTENT_CHARS : Z := 4000.
Definition MAX_MESSAGE_SUMMARY_CHARS : Z := 512.
Definition MAX_SESSION_TITLE_CHARS : Z := 120.

Record ChatMemoryConfig : Type := {
  mm_max_messages : Z;
  mm_max_history_tokens : Z;
  mm_max_message_chars : Z;
  mm_max_summary_chars : Z;
  mm_allowed_roles : list ChatMessageRole
}.
Definition default_memory_config : ChatMemoryConfig :=
  {| mm_max_messages := 10; mm_max_history_tokens := 1000;
     mm_max_message_chars := MAX_MESSAGE_CONTENT_CHARS;
     mm_max_summary_chars := MAX_MESSAGE_SUMMARY_CHARS;
     mm_allowed_roles := [RoleOfUser; RoleOfAssistant; RoleOfSummary] |}.
(** The validators of the configuration. *)
Definition valid_memory_config (c : ChatMemoryConfig) : bool :=
  ((0 <? mm_max_messages c) && (0 <? mm_max_history_tokens c) && (0 <? mm_max_message_chars c)
   && (0 <? mm_max_summary_chars c))%Z
  && match mm_allowed_roles c with [] => false | _ => true end.

Record ChatSessionCreate : Type := {
  nc_request_id : pystr;
  nc_trace_id : pystr;
  nc_tenant_id : pystr;
  nc_user_id : pystr;
  nc_created_by : pystr;
  nc_title : option pystr;
  nc_metadata : pydict
}.

Definition at_most {A} (n : Z) (s : list A) : bool := (Z.of_nat (length s) <=? n)%Z.

Definition make_session_create (c : ChatSessionCreate) : result exc ChatSessionCreate :=
  r ← text (nc_request_id c);
  t ← text (nc_trace_id c);
  n ← text (nc_tenant_id c);
  us ← text (nc_user_id c);
  b ← text (nc_created_by c);
  let title := optional_text (nc_title c) in
  _ ← opt_check (match title with Some x => at_most MAX_SESSION_TITLE_CHARS x | None => true end);
  mret {| nc_request_id := r; nc_trace_id := t; nc_tenant_id := n; nc_user_id := us;
          nc_created_by := b; nc_title := title; nc_metadata := nc_metadata c |}.

(** Rows of [chat_sessions]; times are microseconds. *)
Record ChatSessionRecord : Type := {
  cs_id : pystr;
  cs_tenant_id : pystr;
  cs_user_id : pystr;
  cs_create : ChatSessionCreate;
  cs_status : ChatSessionStatus;
  cs_last_message_at : option Z;
  cs_message_count : Z;
  cs_created_at : Z
}.

Record ChatMessageCreate : Type := {
  me_request_id : pystr;
  me_trace_id : pystr;
  me_tenant_id : pystr;
  me_user_id : pystr;
  me_session_id : pystr;
  me_role : ChatMessageRole;
  me_content : pystr;
  me_content_summary : pystr;
  me_token_count : Z;
  me_metadata : pydict
}.

Definition bounded_text (limit : Z) (s : pystr) : result exc pystr :=
  n ← text s; _ ← opt_check (at_most limit n); mret n.

Definition make_message_create (m : ChatMessageCreate) : result exc ChatMessageCreate :=
  r ← text (me_request_id m);
  t ← text (me_trace_id m);
  n ← text (me_tenant_id m);
  us ← text (me_user_id m);
  s ← text (me_session_id m);
  c ← bounded_text MAX_MESSAGE_CONTENT_CHARS (me_content m);
  sm ← bounded_text MAX_MESSAGE_SUMMARY_CHARS (me_content_summary m);
  _ ← opt_check (0 <=? me_token_count m)%Z;
  mret {| me_request_id := r; me_trace_id := t; me_tenant_id := n; me_user_id := us;
          me_session_id := s; me_role := me_role m; me_content := c; me_content_summary := sm;
          me_token_count := me_token_count m; me_metadata := me_metadata m |}.

(** Rows of [chat_messages]. *)
Record ChatMessageRecord : Type := {
  mr_id : pystr;
  mr_create : ChatMessageCreate;
  mr_status : ChatMessageStatus;
  mr_sequence_no : Z;
  mr_created_at : Z
}.
Definition mr_tenant (m : ChatMessageRecord) : pystr := me_tenant_id (mr_create m).
Definition mr_user (m : ChatMessageRecord) : pystr := me_user_id (mr_create m).
Definition mr_session (m : ChatMessageRecord) : pystr := me_session_id (mr_create m).

Record ChatHistoryMessage : Type := {
  hi_role : ChatMessageRole;
  hi_text : pystr;
  hi_tokens : Z;
  hi_sequence_no : Z
}.
Definition make_chat_history_message (m : ChatHistoryMessage) : result exc ChatHistoryMessage :=
  c ← text (hi_text m);
  _ ← opt_check ((0 <=? hi_tokens m) && (0 <? hi_sequence_no m))%Z;
  mret {| hi_role := hi_role m; hi_text := c; hi_tokens := hi_tokens m;
          hi_sequence_no := hi_sequence_no m |}.

(** [safe_counts] repeats the four counts and is left out. *)
Record PackedChatHistory : Type := {
  ph_session_id : pystr;
  ph_messages : list ChatHistoryMessage;
  ph_message_count : Z;
  ph_used_count : Z;
  ph_dropped_count : Z;
  ph_token_count : Z
}.
Definition make_packed_history (h : PackedChatHistory) : result exc PackedChatHistory :=
  s ← text (ph_session_id h);
  _ ← opt_check ((0 <=? ph_message_count h) && (0 <=? ph_used_count h)
                 && (0 <=? ph_dropped_count h) && (0 <=? ph_token_count h))%Z;
  mret {| ph_session_id := s; ph_messages := ph_messages h; ph_message_count := ph_message_count h;
          ph_used_count := ph_used_count h; ph_dropped_count := ph_dropped_count h;
          ph_token_count := ph_token_count h |}.

(** * Errors *)

Section MemoryErrors.
Context `{UnicodeDB}.

Definition CHAT_SESSION_NOT_FOUND : pystr := u "CHAT_SESSION_NOT_FOUND".
Definition CHAT_MEMORY_STORAGE_FAILED : pystr := u "CHAT_MEMORY_STORAGE_FAILED".

Definition ChatMemoryError := domain_error COther.

(** [_safe_details]: the entries that are not [None]. *)
Definition _safe_details (values : list (string * option pystr)) : pydict :=
  omap (fun kv : string * option pystr => (fun v => (u kv.1, VStr v)) <$> kv.2) values.

Definition chat_session_not_found (context : RequestContext) (session_id : pystr) : DomainError :=
  ChatMemoryError CHAT_SESSION_NOT_FOUND (u "Chat session was not found.")
    (_safe_details [("request_id", Some (rc_request_id context)); ("trace_id", Some (rc_trace_id context));
                    ("tenant_id", Some (auth_tenant_id (rc_auth context)));
                    ("user_id", Some (auth_user_id (rc_auth context)));
                    ("session_id", Some session_id); ("reason", Some (u "session_unavailable"))]%string) 404.

Definition chat_memory_storage_failed (request_id trace_id tenant_id user_id session_id : option pystr)
    (reason : string) : DomainError :=
  ChatMemoryError CHAT_MEMORY_STORAGE_FAILED (u "Chat memory storage operation failed.")
    (_safe_details [("request_id", request_id); ("trace_id", trace_id); ("tenant_id", tenant_id);
                    ("user_id", user_id); ("session_id", session_id); ("reason", Some (u reason))]%string) 500.
End MemoryErrors.

(** * Text *)

Section Text.
Context `{UnicodeDB}.

(** [pattern.sub(replacement, s)] for a pattern that matches no empty text. *)
Fixpoint sub_from (r : re) (replacement s : pystr) (fuel i : nat) : pystr :=
  match fuel with
  | O => drop i s
  | S fuel' =>
      match re_match r s i with
      | Some e => replacement ++ sub_from r replacement s fuel' (Nat.max e (S i))
      | None => match s !! i with
                | Some c => c :: sub_from r replacement s fuel' (S i)
                | None => []
                end
      end
  end.
Definition re_sub (r : re) (replacement s : pystr) : pystr :=
  sub_from r replacement s (length s) 0.

Definition _SECRET_PATTERNS : list re :=
  let id := RChr (fun c => is_alnum c || ROneOf (u "_-") c) in
  let sp := RChr is_space in
  let path_rest := RPlus (RChr non_space) in
  [ RCat RBound (RCat (RStr (u "sk-")) (Nat.iter 6 (RCat id) (RCat (RStar id) RBound)));
    RCat RBound (RCat
      (RAnyOf [RCat (RStrI (u "api")) (RCat (ROpt (RChr (ROneOf (u "_-")))) (RStrI (u "key")));
               RCat (RStrI (u "access")) (RCat (ROpt (RChr (ROneOf (u "_-")))) (RStrI (u "token")));
               RStrI (u "password"); RStrI (u "secret")])
      (RCat (RStar sp) (RCat (RChr (ROneOf (u ":="))) (RCat (RStar sp) (RPlus (RChr non_space))))));
    RCat (RChr is_alpha) (RCat (RStr (u ":")) (RCat (RChr (ROneOf (u "\/"))) path_rest));
    RCat (RStr (u "/")) (RCat
      (RAnyOf [RStr (u "home"); RStr (u "Users"); RStr (u "etc"); RStr (u "var")])
      (RCat (RStr (u "/")) path_rest));
    RCat RBound (RCat
      (RAnyOf [RStrI (u "select"); RStrI (u "insert"); RStrI (u "update"); RStrI (u "delete")])
      (RCat (RPlus sp) (RCat (RPlus (RChr (fun c => negb (c =? 10)%N))) (RCat (RPlus sp)
        (RCat (RAnyOf [RStrI (u "from"); RStrI (u "into"); RStrI (u "set")]) (RPlus sp))))))].

Definition _redact_sensitive_text (value : pystr) : pystr :=
  foldl (fun s p => re_sub p (u "[REDACTED]") s) value _SECRET_PATTERNS.

(** [s[: max_chars - 3].rstrip() + "..."]: a bound below three cuts from the end. *)
Definition ellipsis (max_chars : Z) (s : pystr) : pystr := rstrip (py_take (max_chars - 3) s) ++ u "...".

Definition _bounded_content (content : pystr) (max_chars : Z) : pystr :=
  let normalized := strip content in
  if at_most max_chars normalized then normalized else ellipsis max_chars normalized.

Definition _deterministic_summary (content : pystr) (max_chars : Z) (fallback : pystr) : pystr :=
  match split_words content [] with
  | [] => fallback
  | words =>
      let body := match words with
                  | [w] => take (Nat.max 1 (Nat.min (length w) 32)) w
                  | _ => PyVal.join (u " ") (take 12 words)
                  end in
      let summary := u "summary:" ++ body in
      let summary := if bool_decide (summary = content)
                     then u "summary:" ++ str_of_Z (Z.of_nat (length content)) ++ u " chars"
                     else summary in
      if at_most max_chars summary then summary else ellipsis max_chars summary
  end.

Definition _safe_summary (content : pystr) (max_chars : Z) (fallback : pystr) (force_summary : bool)
  : pystr :=
  let redacted := _redact_sensitive_text (PyVal.join (u " ") (split_words content [])) in
  match redacted with
  | [] => fallback
  | _ =>
      if force_summary then _deterministic_summary redacted max_chars fallback
      else if at_most max_chars redacted then redacted
      else ellipsis max_chars redacted
  end.

Definition _safe_history_content (content : pystr) (max_chars : Z) : pystr :=
  _safe_summary content max_chars (u "redacted_message") false.

Definition _estimate_tokens (content : pystr) : Z :=
  match strip content with
  | [] => 0
  | s => Z.max 1 ((Z.of_nat (length s) + 3) / 4)
  end.
End Text.

(** * Citations stored with a message *)

Section Citations.
Context `{PyRepr, NetlocCheck}.

Definition str_field (k : string) (item : pydict) : option pystr :=
  match dict_get (u k) item with Some (VStr s) => Some s | _ => None end.
Definition int_field (k : string) (item : pydict) : option Z :=
  match dict_get (u k) item with Some (VInt z) => Some z | _ => None end.
Definition list_field (k : string) (item : pydict) : option (list pyval) :=
  match dict_get (u k) item with Some (VList l) | Some (VTuple l) => Some l | _ => None end.
Definition opt_entry (k : string) (v : option pyval) : pydict :=
  match v with Some x => [(u k, x)] | None => [] end.

Definition strings (l : list pyval) : list pystr :=
  omap (fun v => match v with VStr s => Some s | _ => None end) l.

Definition _safe_citation_display_fields (item : pydict) (document version chunk : pystr)
  : result exc pydict :=
  let display := str_field "source_display_name" item in
  let source_type := str_field "source_type" item in
  let raw_title := list_field "title_path" item in
  let title := match raw_title with Some l => strings (take 16 l) | None => [] end in
  safe ← validated (build_safe_source_metadata display None source_type document version chunk
    (int_field "page_start" item) (int_field "page_end" item) title None);
  mret (opt_entry "source_display_name" ((fun _ => VStr (sm_source_display_name safe)) <$> display)
        ++ opt_entry "source_type" ((fun _ => VStr (sm_source_type safe)) <$> source_type)
        ++ opt_entry "title_path" ((fun _ => VList (VStr <$> sm_title_path safe)) <$> raw_title)
        ++ match sm_page_start safe, sm_page_end safe with
           | Some a, Some b => [(u "page_start", VInt a); (u "page_end", VInt b)]
           | _, _ => []
           end).

(** The identity and score of one stored citation. *)
Definition summary_fields (item : pydict) : result exc pydict :=
  let stripped (k : string) :=
    opt_entry k (match str_field k item with
                 | Some s => match strip s with [] => None | n => Some (VStr n) end
                 | None => None
                 end) in
  score ← match dict_get (u "score") item with
          | Some (VInt z) => if isfinite (fofZ z) then Ok [(u "score", VFloat (fofZ z))]
                             else Err (EException (u "OverflowError"))
          | Some (VFloat x) => Ok [(u "score", VFloat x)]
          | _ => Ok []
          end;
  mret (stripped "document_id"%string ++ stripped "version_id"%string ++ stripped "chunk_id"%string
        ++ stripped "retrieval_method"%string ++ score).

Fixpoint citation_summaries_of (items : list pyval) : result exc (list pyval) :=
  match items with
  | [] => Ok []
  | VDict item :: rest =>
      summary ← summary_fields item;
      match str_field "document_id" summary, str_field "version_id" summary,
            str_field "chunk_id" summary with
      | Some d, Some v, Some c =>
          display ← _safe_citation_display_fields item d v c;
          others ← citation_summaries_of rest;
          mret (VDict (dict_update summary display) :: others)
      | _, _, _ => citation_summaries_of rest
      end
  | _ :: rest => citation_summaries_of rest
  end.

Definition _safe_citation_summaries (value : pyval) : result exc (list pyval) :=
  match value with
  | VList l | VTuple l => s ← citation_summaries_of l; mret (take 50 s)
  | _ => Ok []
  end.

Definition CITATION_METADATA_KEYS : list pystr :=
  u <$> ["citation_count"; "citations"; "unsupported_count"; "no_answer"; "forged_reference_count"]%string.

Fixpoint _safe_citation_metadata (metadata : pydict) : result exc pydict :=
  match metadata with
  | [] => Ok []
  | (k, v) :: rest =>
      if negb (bool_decide (k ∈ CITATION_METADATA_KEYS)) then _safe_citation_metadata rest
      else
        x ← (if bool_decide (k = u "citations")
             then l ← _safe_citation_summaries v; mret (VList l) else Ok v);
        others ← _safe_citation_metadata rest;
        mret ((k, x) :: others)
  end.
End Citations.

(** * The repository *)

Record chat_db : Type := { db_sessions : list ChatSessionRecord; db_messages : list ChatMessageRecord }.
Definition empty_db : chat_db := {| db_sessions := []; db_messages := [] |}.

(** What the world decides: whether the database refuses the next statement, new
    identifiers and the time. *)
Record memory_ports (S : Type) : Type := {
  db_fault : S -> bool * S;
  generate_uuid : S -> pystr * S;
  utc_now : S -> Z * S
}.
Arguments db_fault {S}.
Arguments generate_uuid {S}.
Arguments utc_now {S}.

(** A request's transaction: the published tables and its working copy. *)
Record memory_world (S : Type) : Type := {
  mw_ports : S;
  mw_committed : chat_db;
  mw_db : chat_db
}.
Arguments mw_ports {S}.
Arguments mw_committed {S}.
Arguments mw_db {S}.

Section Repository.
Context `{UnicodeDB} {S : Type} (P : memory_ports S).
Open Scope eff_scope.
Abbreviation M := (eff exc (memory_world S)).

Definition ask {A} (f : S -> A * S) : M A := fun w =>
  let '(a, s) := f (mw_ports w) in
  (Ok a, {| mw_ports := s; mw_committed := mw_committed w; mw_db := mw_db w |}).

Definition set_db (d : chat_db) : M unit :=
  modify (fun w => {| mw_ports := mw_ports w; mw_committed := mw_committed w; mw_db := d |}).
Definition the_db : M chat_db := reads mw_db.

Definition rollback : M unit :=
  modify (fun w => {| mw_ports := mw_ports w; mw_committed := mw_committed w;
                      mw_db := mw_committed w |}).

(** [except SQLAlchemyError: rollback; raise chat_memory_storage_failed(...)]. *)
Definition statement (refused : bool) (error : DomainError) : M unit :=
  fault <- ask (db_fault P);;
  if fault || refused then _ <- rollback;; mraise (EDomain error) else mreturn tt.

Definition owns (tenant user session : pystr) (s : ChatSessionRecord) : bool :=
  bool_decide (cs_tenant_id s = tenant) && bool_decide (cs_user_id s = user)
  && bool_decide (cs_id s = session).
Definition active_for (tenant user session : pystr) (s : ChatSessionRecord) : bool :=
  owns tenant user session s && bool_decide (cs_status s = SessionActive).

Definition create_session (record : ChatSessionCreate) : M ChatSessionRecord :=
  now <- ask (utc_now P);;
  id <- ask (generate_uuid P);;
  d <- the_db;;
  let row := {| cs_id := id; cs_tenant_id := nc_tenant_id record; cs_user_id := nc_user_id record;
                cs_create := record; cs_status := SessionActive; cs_last_message_at := None;
                cs_message_count := 0; cs_created_at := now |} in
  _ <- statement (bool_decide (id ∈ cs_id <$> db_sessions d))
         (chat_memory_storage_failed (Some (nc_request_id record)) (Some (nc_trace_id record))
            (Some (nc_tenant_id record)) (Some (nc_user_id record)) None "session_write_failed");;
  _ <- set_db {| db_sessions := db_sessions d ++ [row]; db_messages := db_messages d |};;
  mreturn row.

Definition get_active_session (tenant user session : pystr) : M (option ChatSessionRecord) :=
  _ <- statement false (chat_memory_storage_failed None None (Some tenant) (Some user) (Some session)
                          "session_read_failed");;
  d <- the_db;;
  mreturn (List.find (active_for tenant user session) (db_sessions d)).

Definition _get_active_session_model (tenant user session : pystr) : M ChatSessionRecord :=
  o <- get_active_session tenant user session;;
  match o with
  | Some s => mreturn s
  | None => mraise (EDomain (chat_memory_storage_failed None None (Some tenant) (Some user)
                               (Some session) "session_unavailable_for_write"))
  end.

Definition in_session (tenant session : pystr) (m : ChatMessageRecord) : bool :=
  bool_decide (mr_tenant m = tenant) && bool_decide (mr_session m = session).

Definition max_sequence (d : chat_db) (tenant session : pystr) : Z :=
  foldr Z.max 0%Z (mr_sequence_no <$> List.filter (in_session tenant session) (db_messages d)).

Definition _next_sequence_no (tenant session : pystr) : M Z :=
  _ <- statement false (chat_memory_storage_failed None None (Some tenant) None (Some session)
                          "sequence_read_failed");;
  d <- the_db;;
  mreturn (max_sequence d tenant session + 1)%Z.

(** [session.message_count += 1; session.last_message_at = now]. *)
Definition touch (now : Z) (s : ChatSessionRecord) : ChatSessionRecord :=
  {| cs_id := cs_id s; cs_tenant_id := cs_tenant_id s; cs_user_id := cs_user_id s;
     cs_create := cs_create s; cs_status := cs_status s; cs_last_message_at := Some now;
     cs_message_count := cs_message_count s + 1; cs_created_at := cs_created_at s |}.

Definition update_session (id : pystr) (f : ChatSessionRecord -> ChatSessionRecord)
    (l : list ChatSessionRecord) : list ChatSessionRecord :=
  (fun s => if bool_decide (cs_id s = id) then f s else s) <$> l.

Definition append_message (record : ChatMessageCreate) : M ChatMessageRecord :=
  session <- _get_active_session_model (me_tenant_id record) (me_user_id record) (me_session_id record);;
  sequence_no <- _next_sequence_no (me_tenant_id record) (me_session_id record);;
  now <- ask (utc_now P);;
  id <- ask (generate_uuid P);;
  d <- the_db;;
  let row := {| mr_id := id; mr_create := record; mr_status := MessageActive;
                mr_sequence_no := sequence_no; mr_created_at := now |} in
  _ <- statement (bool_decide (id ∈ mr_id <$> db_messages d))
         (chat_memory_storage_failed (Some (me_request_id record)) (Some (me_trace_id record))
            (Some (me_tenant_id record)) (Some (me_user_id record)) (Some (me_session_id record))
            "message_write_failed");;
  _ <- set_db {| db_sessions := update_session (cs_id session) (touch now) (db_sessions d);
                 db_messages := db_messages d ++ [row] |};;
  mreturn row.

(** Newest first. *)
Definition newer (a b : ChatMessageRecord) : bool :=
  (mr_sequence_no b <? mr_sequence_no a)%Z
  || (mr_sequence_no a =? mr_sequence_no b)%Z && (mr_created_at b <? mr_created_at a)%Z.

Definition visible (tenant user session : pystr) (m : ChatMessageRecord) : bool :=
  in_session tenant session m && bool_decide (mr_user m = user) && bool_decide (mr_status m = MessageActive).

Definition list_recent_messages (tenant user session : pystr) (limit : Z) : M (list ChatMessageRecord) :=
  let bounded_limit := Z.min (Z.max limit 1) 100 in
  o <- get_active_session tenant user session;;
  match o with
  | None => mreturn []
  | Some _ =>
      _ <- statement false (chat_memory_storage_failed None None (Some tenant) (Some user)
                              (Some session) "message_read_failed");;
      d <- the_db;;
      mreturn (reverse (take (Z.to_nat bounded_limit)
                 (py_sort newer (List.filter (visible tenant user session) (db_messages d)))))
  end.

Definition with_status (status : ChatSessionStatus) (s : ChatSessionRecord) : ChatSessionRecord :=
  {| cs_id := cs_id s; cs_tenant_id := cs_tenant_id s; cs_user_id := cs_user_id s;
     cs_create := cs_create s; cs_status := status; cs_last_message_at := cs_last_message_at s;
     cs_message_count := cs_message_count s; cs_created_at := cs_created_at s |}.

Definition update_session_status (tenant user session : pystr) (status : ChatSessionStatus)
  : M (option ChatSessionRecord) :=
  let error := chat_memory_storage_failed None None (Some tenant) (Some user) (Some session)
                 "session_update_failed" in
  _ <- statement false error;;
  d <- the_db;;
  match List.find (owns tenant user session) (db_sessions d) with
  | None => mreturn None
  | Some s =>
      _ <- statement false error;;
      _ <- set_db {| db_sessions := update_session (cs_id s) (with_status status) (db_sessions d);
                     db_messages := db_messages d |};;
      mreturn (Some (with_status status s))
  end.

Definition commit : M unit :=
  _ <- statement false (chat_memory_storage_failed None None None None None "commit_failed");;
  modify (fun w => {| mw_ports := mw_ports w; mw_committed := mw_db w; mw_db := mw_db w |}).
End Repository.

(** * [ChatMemoryService] *)

Section MemoryService.
Context `{PyRepr, UnicodeDB, NetlocCheck} {S : Type} (P : memory_ports S) (config : ChatMemoryConfig).
Open Scope eff_scope.
Abbreviation M := (eff exc (memory_world S)).

Definition summarize_user_content (content : pystr) : pystr :=
  _safe_summary content (mm_max_summary_chars config) (u "user_message") true.
Definition summarize_assistant_content (content : pystr) : pystr :=
  _safe_summary content (mm_max_summary_chars config) (u "assistant_message") false.
Definition _session_title (query : pystr) : pystr := _safe_summary query 120 (u "chat_session") false.

Definition num {A} (l : list A) : Z := Z.of_nat (length l).

Definition get_or_create_session (context : RequestContext) (session_id : option pystr)
    (query : pystr) : M ChatSessionRecord :=
  let tenant := auth_tenant_id (rc_auth context) in
  let user := auth_user_id (rc_auth context) in
  match optional_text session_id with
  | Some id =>
      o <- get_active_session P tenant user id;;
      match o with
      | Some s => mreturn s
      | None => mraise (EDomain (chat_session_not_found context id))
      end
  | None =>
      create <- mlift (make_session_create
        {| nc_request_id := rc_request_id context; nc_trace_id := rc_trace_id context;
           nc_tenant_id := tenant; nc_user_id := user; nc_created_by := user;
           nc_title := Some (_session_title query);
           nc_metadata := [(u "query_char_count", VInt (num query));
                           (u "title_strategy", VStr (u "deterministic_safe_summary"))] |});;
      create_session P create
  end.

Definition new_message (context : RequestContext) (session_id : pystr) (role : ChatMessageRole)
    (content summary : pystr) (tokens : Z) (metadata : pydict) : result exc ChatMessageCreate :=
  make_message_create
    {| me_request_id := rc_request_id context; me_trace_id := rc_trace_id context;
       me_tenant_id := auth_tenant_id (rc_auth context); me_user_id := auth_user_id (rc_auth context);
       me_session_id := session_id; me_role := role; me_content := content;
       me_content_summary := summary; me_token_count := tokens; me_metadata := metadata |}.

Definition append_user_message (context : RequestContext) (session_id content : pystr)
  : M ChatMessageRecord :=
  m <- mlift (new_message context session_id RoleOfUser
         (_bounded_content content (mm_max_message_chars config)) (summarize_user_content content)
         (_estimate_tokens content)
         [(u "content_char_count", VInt (num content)); (u "summary_strategy", VStr (u "deterministic"))]);;
  append_message P m.

Definition append_assistant_message (context : RequestContext) (session_id content : pystr)
    (citations_metadata : pydict) (no_answer : bool) (error_code : option pystr) : M ChatMessageRecord :=
  safe <- mlift (match citations_metadata with [] => Ok [] | _ => _safe_citation_metadata citations_metadata end);;
  let metadata :=
    dict_update [(u "content_char_count", VInt (num content));
                 (u "summary_strategy", VStr (u "deterministic")); (u "no_answer", VBool no_answer)] safe in
  let metadata := match error_code with
                  | Some c => dict_set (u "error_code") (VStr c) metadata
                  | None => metadata
                  end in
  let stored := match strip content with [] => u "assistant_no_content" | n => n end in
  m <- mlift (new_message context session_id RoleOfAssistant
         (_bounded_content stored (mm_max_message_chars config)) (summarize_assistant_content stored)
         (_estimate_tokens stored) metadata);;
  append_message P m.

(** ** Packing the history *)

Record packing : Type := { pk_messages : list ChatHistoryMessage; pk_tokens : Z; pk_dropped : Z }.

(** The loop over the recent messages, the newest first; the messages kept are
    collected oldest first. *)
Fixpoint pack_messages (messages : list ChatMessageRecord) (acc : packing) : result exc packing :=
  match messages with
  | [] => Ok acc
  | m :: rest =>
      let content :=
        _safe_history_content
          (match me_content_summary (mr_create m) with [] => me_content (mr_create m) | s => s end)
          (mm_max_message_chars config) in
      let tokens := _estimate_tokens content in
      if (mm_max_history_tokens config <? pk_tokens acc + tokens)%Z
      then pack_messages rest {| pk_messages := pk_messages acc; pk_tokens := pk_tokens acc;
                                 pk_dropped := pk_dropped acc + 1 |}
      else
        h ← make_chat_history_message
              {| hi_role := me_role (mr_create m); hi_text := content; hi_tokens := tokens;
                 hi_sequence_no := mr_sequence_no m |};
        pack_messages rest {| pk_messages := h :: pk_messages acc;
                              pk_tokens := pk_tokens acc + tokens; pk_dropped := pk_dropped acc |}
  end.

Definition older (a b : ChatMessageRecord) : bool := (mr_sequence_no a <? mr_sequence_no b)%Z.
Definition packable (m : ChatMessageRecord) : bool :=
  bool_decide (mr_status m = MessageActive) && bool_decide (me_role (mr_create m) ∈ mm_allowed_roles config).

Definition pack_history (session_id : pystr) (messages : list ChatMessageRecord)
    (total_message_count : option Z) : result exc PackedChatHistory :=
  let ordered := py_sort older messages in
  let active_allowed := List.filter packable ordered in
  let recent := drop (length active_allowed - Z.to_nat (mm_max_messages config)) active_allowed in
  let total := match total_message_count with Some 0%Z | None => num ordered | Some n => n end in
  let source_count := Z.max total (num ordered) in
  packed ← pack_messages (reverse recent)
             {| pk_messages := []; pk_tokens := 0; pk_dropped := source_count - num recent |};
  make_packed_history
    {| ph_session_id := session_id; ph_messages := pk_messages packed;
       ph_message_count := source_count; ph_used_count := num (pk_messages packed);
       ph_dropped_count := pk_dropped packed; ph_token_count := pk_tokens packed |}.

(** [if session is None: raise chat_session_not_found(...)]. *)
Definition require_session (context : RequestContext) (session_id : pystr) : M ChatSessionRecord :=
  o <- get_active_session P (auth_tenant_id (rc_auth context)) (auth_user_id (rc_auth context)) session_id;;
  match o with
  | Some s => mreturn s
  | None => mraise (EDomain (chat_session_not_found context session_id))
  end.

Definition load_packed_history (context : RequestContext) (session_id : pystr) : M PackedChatHistory :=
  session <- require_session context session_id;;
  messages <- list_recent_messages P (auth_tenant_id (rc_auth context))
                (auth_user_id (rc_auth context)) session_id (mm_max_messages config);;
  mlift (pack_history session_id messages (Some (cs_message_count session))).

Definition list_session_messages (context : RequestContext) (session_id : pystr) (limit : Z)
  : M (list ChatMessageRecord) :=
  _ <- require_session context session_id;;
  list_recent_messages P (auth_tenant_id (rc_auth context)) (auth_user_id (rc_auth context)) session_id
    limit.
End MemoryService.

(** * Packing the history *)

Section TextProps.
Context `{UnicodeDB}.

(** Replacing text by a mark leaves something to read. *)
Lemma sub_from_ink r mark s fuel i :
  has_ink mark -> has_ink (drop i s) -> length s <= i + fuel -> has_ink (sub_from r mark s fuel i).
Proof.
  intros Hm. revert i. induction fuel as [|fuel IH]; intros i Hi Hf; cbn [sub_from]; [done|].
  destruct (re_match r s i) as [e|]; [by apply has_ink_app; left|].
  destruct (s !! i) as [c|] eqn:Hc.
  - destruct (is_space c) eqn:Hs; [|exists c; split; [by left|done]].
    apply (has_ink_app [c]). right. apply IH; [|lia].
    rewrite (drop_S s c i Hc) in Hi. destruct Hi as (x & Hx & Hxs).
    apply elem_of_cons in Hx as [->|Hx]; [congruence|]. by exists x.
  - apply lookup_ge_None in Hc. rewrite drop_ge in Hi by done. destruct Hi as (x & Hx & _).
    by apply elem_of_nil in Hx.
Qed.

Lemma redact_ink s : has_ink s -> has_ink (_redact_sensitive_text s).
Proof.
  unfold _redact_sensitive_text. revert s. induction _SECRET_PATTERNS as [|p ps IH]; intros s Hs; [done|].
  cbn [foldl]. apply IH. unfold re_sub. apply sub_from_ink; [|by rewrite drop_0|lia].
  exists 91%N. split; [|reflexivity]. apply (bool_decide_unpack _). vm_compute. exact I.
Qed.

Lemma ellipsis_ink n s : has_ink (ellipsis n s).
Proof. apply has_ink_app. right. exists 46%N. split; [|reflexivity]. apply (bool_decide_unpack _). vm_compute. exact I. Qed.

Lemma history_content_ink s n : has_ink (_safe_history_content s n).
Proof.
  assert (has_ink (u "redacted_message")) as Hfb.
  { exists 114%N. split; [|reflexivity]. apply (bool_decide_unpack _). vm_compute. exact I. }
  unfold _safe_history_content, _safe_summary. cbn zeta.
  destruct (split_words s []) as [|w ws] eqn:Hw.
  { cbn [PyVal.join]. rewrite (eq_refl : _redact_sensitive_text [] = []). exact Hfb. }
  assert (has_ink (PyVal.join (u " ") (w :: ws))) as Hj.
  { pose proof (split_words_ok s []) as Hok. rewrite Hw in Hok. specialize (Hok (Forall_nil_2 _)).
    apply list.Forall_cons in Hok as [[Hne Hns] _]. destruct w as [|c w]; [done|].
    exists c. apply list.Forall_cons in Hns as [Hc _]. split; [|done]. destruct ws; cbn; by left. }
  apply redact_ink in Hj. destruct (_redact_sensitive_text _) as [|c t] eqn:Hr.
  { destruct Hj as (x & Hx & _). by apply elem_of_nil in Hx. }
  destruct (at_most n (c :: t)); [done|apply ellipsis_ink].
Qed.

Lemma estimate_nonneg s : (0 <= _estimate_tokens s)%Z.
Proof. unfold _estimate_tokens. destruct (strip s); [done|]. lia. Qed.
End TextProps.

Section PackProps.
Context `{UnicodeDB} (config : ChatMemoryConfig).

(** The text of a message as the history shows it. *)
Definition shown (m : ChatMessageRecord) : pystr :=
  _safe_history_content
    (match me_content_summary (mr_create m) with [] => me_content (mr_create m) | s => s end)
    (mm_max_message_chars config).
Definition shown_as (m : ChatMessageRecord) : ChatHistoryMessage :=
  {| hi_role := me_role (mr_create m); hi_text := strip (shown m);
     hi_tokens := _estimate_tokens (shown m); hi_sequence_no := mr_sequence_no m |}.

Lemma pack_messages_spec l acc :
  Forall (fun m => 0 < mr_sequence_no m)%Z l -> (pk_tokens acc <= mm_max_history_tokens config)%Z ->
  exists ks out, pack_messages config l acc = Ok out /\ ks `sublist_of` l /\
    pk_messages out = reverse (shown_as <$> ks) ++ pk_messages acc /\
    pk_tokens out = (pk_tokens acc + zsum (fun m => _estimate_tokens (shown m)) ks)%Z /\
    (pk_tokens out <= mm_max_history_tokens config)%Z /\
    pk_dropped out = (pk_dropped acc + num l - num ks)%Z.
Proof.
  intros Hl. revert acc. induction Hl as [|m l Hm Hl IH]; intros acc Hacc; cbn [pack_messages].
  { exists [], acc. cbn. split_and!; try done; try lia. }
  cbn zeta. fold (shown m). destruct (Z.ltb_spec (mm_max_history_tokens config)
    (pk_tokens acc + _estimate_tokens (shown m))) as [Hlt|Hle].
  - destruct (IH {| pk_messages := pk_messages acc; pk_tokens := pk_tokens acc;
                    pk_dropped := pk_dropped acc + 1 |}) as (ks & out & Hp & Hs & Hms & Ht & Hb & Hd); [done|].
    exists ks, out. cbn in *. split_and!; try done; [by constructor|]. unfold num in *. cbn. lia.
  - unfold make_chat_history_message, text, validated, _required_text. cbn [hi_text hi_tokens hi_sequence_no hi_role].
    pose proof (history_content_ink
      (match me_content_summary (mr_create m) with [] => me_content (mr_create m) | s => s end)
      (mm_max_message_chars config)) as Hink. fold (shown m) in Hink. apply has_ink_strip in Hink.
    destruct (strip (shown m)) as [|c t] eqn:Hst; [done|]. cbn [mbind result_bind].
    pose proof (estimate_nonneg (shown m)) as He. apply Z.leb_le in He as Heb. apply Z.ltb_lt in Hm as Hmb.
    rewrite Heb, Hmb. cbn [andb opt_check mbind result_bind].
    destruct (IH {| pk_messages := shown_as m :: pk_messages acc;
                    pk_tokens := pk_tokens acc + _estimate_tokens (shown m);
                    pk_dropped := pk_dropped acc |}) as (ks & out & Hp & Hs & Hms & Ht & Hb & Hd); [done|].
    exists (m :: ks), out. unfold shown_as in Hp at 1. rewrite Hst in Hp. split_and!; [exact Hp|by constructor|..].
    + rewrite Hms, fmap_cons, reverse_cons, <- app_assoc. done.
    + rewrite Ht. cbn. lia.
    + done.
    + rewrite Hd. unfold num. cbn. lia.
Qed.

Lemma StronglySorted_sublist {A} (R : A -> A -> Prop) (k l : list A) :
  k `sublist_of` l -> StronglySorted R l -> StronglySorted R k.
Proof.
  induction 1 as [|x k l Hs IH|x k l Hs IH]; intros Hl; [done|..];
    apply StronglySorted_inv in Hl as [Hl Hx]; [|by apply IH].
  constructor; [by apply IH|]. rewrite list.Forall_forall in Hx |- *. intros y Hy. apply Hx.
  exact (sublist_subseteq _ _ Hs y Hy).
Qed.

Lemma sublist_reverse {A} (k l : list A) : k `sublist_of` l -> reverse k `sublist_of` reverse l.
Proof.
  induction 1 as [|x k l Hs IH|x k l Hs IH]; [done|..]; rewrite ?reverse_cons.
  - by apply sublist_app.
  - etrans; [exact IH|]. by apply sublist_inserts_r.
Qed.

Lemma StronglySorted_impl' {A} (R T : A -> A -> Prop) (l : list A) :
  (forall a b, R a b -> T a b) -> StronglySorted R l -> StronglySorted T l.
Proof. intros HRT. induction 1 as [|x l Hs IH Hx]; constructor; [done|]. eapply Forall_impl; [exact Hx|]. auto. Qed.

Lemma older_order : weak_order older (fun _ => True).
Proof. split; unfold sort_le, older; intros *; rewrite ?Z.ltb_lt, ?Z.ltb_ge; lia. Qed.

Lemma filter_sublist {A} (p : A -> bool) (l : list A) : List.filter p l `sublist_of` l.
Proof. induction l as [|x l IH]; [done|]. cbn. destruct (p x); by constructor. Qed.

(** The window of messages the packer walks: the last [max_messages] packable ones,
    oldest first. *)
Definition recent_window (messages : list ChatMessageRecord) : list ChatMessageRecord :=
  let allowed := List.filter (packable config) (py_sort older messages) in
  drop (length allowed - Z.to_nat (mm_max_messages config)) allowed.

Lemma recent_window_sublist messages : recent_window messages `sublist_of` py_sort older messages.
Proof. etrans; [apply sublist_drop|apply filter_sublist]. Qed.

Lemma recent_window_elem messages m :
  m ∈ recent_window messages -> m ∈ messages /\ packable config m = true.
Proof.
  intros Hm. split.
  - apply (sublist_subseteq _ _ (recent_window_sublist messages)) in Hm. by apply py_sort_elem_of in Hm.
  - unfold recent_window in Hm. apply (sublist_subseteq _ _ (sublist_drop _ _)) in Hm.
    apply list_elem_of_In, filter_In in Hm. by destruct Hm.
Qed.

Lemma recent_window_sorted messages ks : ks `sublist_of` recent_window messages ->
  StronglySorted (fun a b => mr_sequence_no a <= mr_sequence_no b)%Z ks.
Proof.
  intros Hk. eapply StronglySorted_sublist; [exact Hk|].
  eapply StronglySorted_sublist; [apply recent_window_sublist|].
  eapply StronglySorted_impl'; [|apply (py_sort_sorted older _ older_order)].
  - intros a b. unfold sort_le, older. rewrite Z.ltb_ge. done.
  - by apply list.Forall_forall.
Qed.

Lemma recent_window_length messages : (0 < mm_max_messages config)%Z ->
  (num (recent_window messages) <= mm_max_messages config)%Z /\
  (num (recent_window messages) <= num messages)%Z.
Proof.
  intros Hm. pose proof (sublist_length _ _ (recent_window_sublist messages)) as Hl.
  rewrite py_sort_length in Hl. unfold num in *. split; [|lia].
  unfold recent_window. rewrite length_drop. lia.
Qed.

(** A history whose session is named and whose counts are not negative is built. *)
Lemma make_packed_history_ok h : strip (ph_session_id h) <> [] ->
  (0 <= ph_message_count h)%Z -> (0 <= ph_used_count h)%Z -> (0 <= ph_dropped_count h)%Z ->
  (0 <= ph_token_count h)%Z ->
  make_packed_history h = Ok {| ph_session_id := strip (ph_session_id h); ph_messages := ph_messages h;
    ph_message_count := ph_message_count h; ph_used_count := ph_used_count h;
    ph_dropped_count := ph_dropped_count h; ph_token_count := ph_token_count h |}.
Proof.
  intros Hs H1 H2 H3 H4. unfold make_packed_history, text, validated, _required_text.
  apply Z.leb_le in H1 as ->, H2 as ->, H3 as ->, H4 as ->.
  by destruct (strip (ph_session_id h)).
Qed.

Lemma shown_tokens ks :
  zsum hi_tokens (shown_as <$> ks) = zsum (fun m => _estimate_tokens (shown m)) ks.
Proof. induction ks as [|m l IH]; cbn; [done|]. lia. Qed.

(** C28: packing a session's history never fails on stored messages and keeps to its
    budgets: at most [max_messages] messages, at most [max_history_tokens] tokens,
    whose sum is reported; the messages kept are active, of an allowed role and in
    the order of the conversation, each shown by its redacted summary; and every
    message of the session is counted as used or as dropped. *)
Theorem history_within_budget session_id messages total :
  valid_memory_config config = true -> strip session_id <> [] ->
  Forall (fun m => 0 < mr_sequence_no m)%Z messages ->
  exists h ks, pack_history config session_id messages total = Ok h /\
    ks ⊆ messages /\ Forall (fun m => packable config m = true) ks /\
    StronglySorted (fun a b => mr_sequence_no a <= mr_sequence_no b)%Z ks /\
    ph_messages h = shown_as <$> ks /\
    (ph_used_count h <= mm_max_messages config)%Z /\ ph_used_count h = num (ph_messages h) /\
    ph_token_count h = zsum hi_tokens (ph_messages h) /\
    (ph_token_count h <= mm_max_history_tokens config)%Z /\
    (ph_used_count h + ph_dropped_count h = ph_message_count h)%Z /\
    (num messages <= ph_message_count h)%Z.
Proof.
  intros Hcfg Hsid Hpos. unfold valid_memory_config in Hcfg.
  apply andb_true_iff in Hcfg as [Hcfg _]. rewrite !andb_true_iff, !Z.ltb_lt in Hcfg.
  destruct Hcfg as [[[Hmm Hmt] _] _]. unfold pack_history. cbn zeta.
  fold (recent_window messages). set (source := Z.max _ _).
  assert (num messages <= source)%Z as Hsrc by (unfold source, num; rewrite py_sort_length; lia).
  destruct (recent_window_length messages Hmm) as [Hr1 Hr2].
  destruct (pack_messages_spec (reverse (recent_window messages))
    {| pk_messages := []; pk_tokens := 0; pk_dropped := source - num (recent_window messages) |})
    as (ks & out & Hp & Hks & Hms & Ht & Hb & Hd); [|cbn; lia|].
  { rewrite list.Forall_forall in Hpos |- *. intros m Hm. apply Hpos.
    rewrite elem_of_reverse in Hm. by apply recent_window_elem in Hm as [? _]. }
  rewrite Hp. cbn [mbind result_bind]. cbn in Hms, Ht, Hd. rewrite app_nil_r in Hms.
  apply sublist_length in Hks as Hlen. rewrite length_reverse in Hlen.
  apply sublist_reverse in Hks. rewrite reverse_involutive in Hks.
  assert (num (pk_messages out) = num ks) as Hnum
    by (unfold num; rewrite Hms, length_reverse, length_fmap; done).
  assert (num (reverse (recent_window messages)) = num (recent_window messages)) as Hrev
    by (unfold num; by rewrite length_reverse).
  assert (0 <= zsum (fun m => _estimate_tokens (shown m)) ks)%Z as Hz
    by (apply zsum_nonneg, list.Forall_forall; intros; apply estimate_nonneg).
  assert (0 <= num ks <= num (recent_window messages))%Z as Hn by (unfold num; lia).
  rewrite make_packed_history_ok by (cbn; done || lia || (unfold num; lia)).
  eexists _, (reverse ks). split; [reflexivity|]. cbn. rewrite Hms, <- fmap_reverse, shown_tokens.
  split_and!; try done; try (rewrite ?fmap_reverse, <- ?Hms; lia).
  - intros m Hm. by apply (sublist_subseteq _ _ Hks), recent_window_elem in Hm as [? _].
  - apply list.Forall_forall. intros m Hm. by apply (sublist_subseteq _ _ Hks), recent_window_elem in Hm as [_ ?].
  - by eapply recent_window_sorted.
  - rewrite Ht. by rewrite (zsum_perm _ ks (reverse ks)) by (by rewrite reverse_Permutation).
Qed.
End PackProps.

(** * The tables *)

Definition session_messages (d : chat_db) (id : pystr) : list ChatMessageRecord :=
  List.filter (fun m => bool_decide (mr_session m = id)) (db_messages d).

(** Identifiers are unique, a message belongs to a session of its own owner, and the
    messages of a session are numbered from one without gaps, as many as its row
    says. *)
Record db_wf (d : chat_db) : Prop := {
  dw_ids : NoDup (cs_id <$> db_sessions d);
  dw_message_ids : NoDup (mr_id <$> db_messages d);
  dw_owned : Forall (fun m => Exists (fun s => cs_id s = mr_session m /\ cs_tenant_id s = mr_tenant m /\
                                               cs_user_id s = mr_user m) (db_sessions d)) (db_messages d);
  dw_numbered : Forall (fun s => mr_sequence_no <$> session_messages d (cs_id s)
                                 = seqZ 1 (cs_message_count s) /\
                                 cs_message_count s = num (session_messages d (cs_id s)))
                  (db_sessions d)
}.

(** The rows of one owner. *)
Definition owner_sessions (tenant user : pystr) (d : chat_db) : list ChatSessionRecord :=
  List.filter (fun s => bool_decide (cs_tenant_id s = tenant) && bool_decide (cs_user_id s = user))
    (db_sessions d).
Definition owner_messages (tenant user : pystr) (d : chat_db) : list ChatMessageRecord :=
  List.filter (fun m => bool_decide (mr_tenant m = tenant) && bool_decide (mr_user m = user))
    (db_messages d).
Definition owner_view (tenant user : pystr) (d : chat_db) :=
  (owner_sessions tenant user d, owner_messages tenant user d).

Section Tables.
Context `{UnicodeDB}.

Lemma empty_wf : db_wf empty_db.
Proof. split; cbn; constructor. Qed.

Lemma session_unique d s s' :
  db_wf d -> s ∈ db_sessions d -> s' ∈ db_sessions d -> cs_id s = cs_id s' -> s = s'.
Proof. intros [Hid _ _ _]. by apply NoDup_fmap_elem. Qed.

Lemma message_owner d s m :
  db_wf d -> s ∈ db_sessions d -> m ∈ db_messages d -> mr_session m = cs_id s ->
  mr_tenant m = cs_tenant_id s /\ mr_user m = cs_user_id s.
Proof.
  intros Hwf Hs Hm Hid. pose proof (dw_owned d Hwf) as Ho. rewrite list.Forall_forall in Ho.
  specialize (Ho m Hm). apply list.Exists_exists in Ho as (s' & Hs' & Hi & Ht & Hu).
  assert (s = s') as <- by (eapply session_unique; eauto; congruence). done.
Qed.

Lemma find_active d t us id s :
  List.find (active_for t us id) (db_sessions d) = Some s ->
  s ∈ db_sessions d /\ cs_tenant_id s = t /\ cs_user_id s = us /\ cs_id s = id /\ cs_status s = SessionActive.
Proof.
  intros Hf. apply find_some in Hf as [Hin Hb]. unfold active_for, owns in Hb.
  rewrite !andb_true_iff, !bool_decide_eq_true in Hb. destruct Hb as [[[Ht Hu] Hi] Ha].
  apply list_elem_of_In in Hin. done.
Qed.

Lemma filter_ext_elem {A} (f g : A -> bool) l :
  (forall x, x ∈ l -> f x = g x) -> List.filter f l = List.filter g l.
Proof.
  induction l as [|x l IH]; intros Hfg; [done|]. cbn. rewrite (Hfg x) by by left.
  rewrite IH; [done|]. intros y Hy. apply Hfg. by right.
Qed.

Lemma max_sequence_spec d s :
  db_wf d -> s ∈ db_sessions d -> max_sequence d (cs_tenant_id s) (cs_id s) = cs_message_count s.
Proof.
  intros Hwf Hs. unfold max_sequence.
  rewrite (filter_ext_elem _ (fun m => bool_decide (mr_session m = cs_id s))).
  2:{ intros m Hm. unfold in_session. case_bool_decide as Ht; case_bool_decide as Hi; try done.
      exfalso. apply Ht. by eapply message_owner. }
  pose proof (dw_numbered d Hwf) as Hn. rewrite list.Forall_forall in Hn.
  destruct (Hn s Hs) as [Hseq Hc]. unfold session_messages in Hseq. rewrite Hseq.
  assert (exists n, cs_message_count s = Z.of_nat n) as [n ->] by (exists (length (session_messages d (cs_id s))); done).
  clear. induction n as [|n IH]; [done|]. rewrite seqZ_S, foldr_app. cbn.
  assert (forall l a, foldr Z.max a l = Z.max a (foldr Z.max 0%Z l) \/ (a < 0)%Z) as Hm.
  { intros l a. destruct (Z.ltb_spec a 0); [by right|]. left. induction l as [|x l IHl]; cbn; lia. }
  destruct (Hm (seqZ 1 (Z.of_nat n)) (Z.max (1 + Z.of_nat n) 0)) as [->|]; lia.
Qed.

(** Adding a session. *)
Lemma create_wf d row :
  db_wf d -> cs_id row ∉ cs_id <$> db_sessions d -> cs_message_count row = 0%Z ->
  db_wf {| db_sessions := db_sessions d ++ [row]; db_messages := db_messages d |}.
Proof.
  intros [Hi Hm Ho Hn] Hnew Hc. split; cbn.
  - rewrite fmap_app. apply NoDup_app. split_and!; [done| |apply NoDup_singleton].
    intros x Hx ->%list_elem_of_singleton. done.
  - done.
  - eapply Forall_impl; [exact Ho|]. intros m He. cbn. apply Exists_app. by left.
  - assert (session_messages d (cs_id row) = []) as Hnil.
    { unfold session_messages.
      destruct (List.filter _ (db_messages d)) as [|m l] eqn:E; [done|]. exfalso.
      assert (In m (List.filter (fun m => bool_decide (mr_session m = cs_id row)) (db_messages d))) as Hin
        by (rewrite E; by left).
      apply filter_In in Hin as [Hin Hb]. apply bool_decide_eq_true in Hb.
      rewrite list.Forall_forall in Ho. apply list_elem_of_In in Hin. specialize (Ho m Hin).
      apply list.Exists_exists in Ho as (s & Hs & Heq & _). apply Hnew. rewrite <- Hb, <- Heq.
      apply list_elem_of_fmap. by exists s. }
    apply Forall_app. split; [exact Hn|]. constructor; [|constructor]. unfold session_messages in *. cbn.
    rewrite Hc, Hnil. done.
Qed.

Definition touched (now : Z) (id : pystr) (row : ChatMessageRecord) (d : chat_db) : chat_db :=
  {| db_sessions := update_session id (touch now) (db_sessions d); db_messages := db_messages d ++ [row] |}.

Lemma update_ids id f l : (forall s, cs_id (f s) = cs_id s) -> cs_id <$> update_session id f l = cs_id <$> l.
Proof.
  intros Hf. unfold update_session. rewrite <- list_fmap_compose. apply list_fmap_ext. intros i s _. cbn.
  case_bool_decide; [apply Hf|done].
Qed.

Lemma update_elem id f l s : s ∈ update_session id f l <->
  exists s0, s0 ∈ l /\ s = if bool_decide (cs_id s0 = id) then f s0 else s0.
Proof. unfold update_session. rewrite list_elem_of_fmap. naive_solver. Qed.

(** Appending a message to a session of its owner. *)
Lemma append_wf d s row now :
  db_wf d -> s ∈ db_sessions d -> mr_session row = cs_id s -> mr_tenant row = cs_tenant_id s ->
  mr_user row = cs_user_id s -> mr_sequence_no row = (cs_message_count s + 1)%Z ->
  mr_id row ∉ mr_id <$> db_messages d -> db_wf (touched now (cs_id s) row d).
Proof.
  intros Hwf Hs Hid Ht Hu Hseq Hnew. pose proof Hwf as [Hi Hm Ho Hn]. split; cbn.
  - by rewrite update_ids.
  - rewrite fmap_app. apply NoDup_app. split_and!; [done| |apply NoDup_singleton].
    intros x Hx ->%list_elem_of_singleton. done.
  - assert (forall m, Exists (fun s0 => cs_id s0 = mr_session m /\ cs_tenant_id s0 = mr_tenant m /\
        cs_user_id s0 = mr_user m) (db_sessions d) ->
      Exists (fun s0 => cs_id s0 = mr_session m /\ cs_tenant_id s0 = mr_tenant m /\
        cs_user_id s0 = mr_user m) (update_session (cs_id s) (touch now) (db_sessions d))) as Hup.
    { intros m. rewrite !list.Exists_exists. intros (s0 & Hs0 & Heq).
      exists (if bool_decide (cs_id s0 = cs_id s) then touch now s0 else s0).
      split; [apply update_elem; eauto|]. by case_bool_decide. }
    apply Forall_app. split; [eapply Forall_impl; [exact Ho|]; auto|].
    constructor; [|constructor]. apply Hup, list.Exists_exists. exists s. by rewrite Hid, Ht, Hu.
  - apply list.Forall_forall. intros x Hx. apply update_elem in Hx as (s0 & Hs0 & ->).
    rewrite list.Forall_forall in Hn. destruct (Hn s0 Hs0) as [Hnum Hcount].
    unfold session_messages, touched in *. cbn. rewrite List.filter_app. cbn.
    assert (cs_id (if bool_decide (cs_id s0 = cs_id s) then touch now s0 else s0) = cs_id s0) as ->
      by (by case_bool_decide). rewrite Hid.
    destruct (decide (cs_id s0 = cs_id s)) as [Heq|Hne].
    + assert (s0 = s) as -> by (by eapply session_unique). rewrite !bool_decide_true by done.
      rewrite fmap_app, Hnum. cbn. rewrite Hseq. unfold num in *. rewrite length_app. cbn.
      rewrite Hcount. split; [|lia].
      replace (Z.of_nat (length (List.filter (fun m => bool_decide (mr_session m = cs_id s)) (db_messages d))) + 1)%Z
        with (Z.of_nat (Datatypes.S (length (List.filter (fun m => bool_decide (mr_session m = cs_id s)) (db_messages d))))) by lia.
      rewrite seqZ_S. do 2 f_equal. lia.
    + rewrite (bool_decide_false (cs_id s0 = cs_id s)) by done.
      rewrite (bool_decide_false (cs_id s = cs_id s0)) by congruence. by rewrite app_nil_r.
Qed.

Lemma status_wf d id status :
  db_wf d -> db_wf {| db_sessions := update_session id (with_status status) (db_sessions d);
                      db_messages := db_messages d |}.
Proof.
  intros [Hi Hm Ho Hn]. split; cbn; [by rewrite update_ids|done|..].
  - eapply Forall_impl; [exact Ho|]. intros m. cbn. rewrite !list.Exists_exists. intros (s0 & Hs0 & Heq).
    exists (if bool_decide (cs_id s0 = id) then with_status status s0 else s0).
    split; [apply update_elem; eauto|]. by case_bool_decide.
  - apply list.Forall_forall. intros x Hx. apply update_elem in Hx as (s0 & Hs0 & ->).
    rewrite list.Forall_forall in Hn. specialize (Hn s0 Hs0). unfold session_messages in *. cbn.
    by case_bool_decide.
Qed.
End Tables.

(** * Transactions *)

Section Transactions.
Context `{UnicodeDB} {S : Type} (P : memory_ports S).

Definition world_ok (w : memory_world S) : Prop := db_wf (mw_db w) /\ db_wf (mw_committed w).

(** The transaction has not touched the rows of this owner. *)
Definition clean (tenant user : pystr) (w : memory_world S) : Prop :=
  owner_view tenant user (mw_db w) = owner_view tenant user (mw_committed w).

(** What a step of [tenant]'s [user] keeps: the tables stay well formed, and of every
    other owner nothing is changed, in the working copy or for good. *)
Definition private (tenant user : pystr) (w w' : memory_world S) : Prop :=
  world_ok w ->
  world_ok w' /\
  forall t us, (t, us) <> (tenant, user) -> clean t us w ->
    clean t us w' /\ owner_view t us (mw_committed w') = owner_view t us (mw_committed w).

#[export] Instance private_preorder tenant user : PreOrder (private tenant user).
Proof.
  split; [by intros w|]. intros w1 w2 w3 H12 H23 Hok. destruct (H12 Hok) as [Hok2 Hp2].
  destruct (H23 Hok2) as [Hok3 Hp3]. split; [done|]. intros t us Hne Hc.
  destruct (Hp2 t us Hne Hc) as [Hc2 He2]. destruct (Hp3 t us Hne Hc2) as [Hc3 He3].
  split; [done|congruence].
Qed.

(** Steps that leave both copies, or go back to the published one. *)
Lemma private_same tenant user w w' :
  mw_committed w' = mw_committed w -> mw_db w' = mw_db w \/ mw_db w' = mw_committed w ->
  private tenant user w w'.
Proof.
  intros Hc Hd [Hok Hokc]. unfold world_ok, clean. rewrite Hc.
  destruct Hd as [->| ->]; (split; [done|]); intros t us _ Hcl; auto.
Qed.

Lemma ends_statement refused e (Q : result exc unit -> memory_world S -> Prop) w :
  (forall w1, mw_committed w1 = mw_committed w -> mw_db w1 = mw_db w -> refused = false -> Q (Ok tt) w1) ->
  (forall w1, mw_committed w1 = mw_committed w -> mw_db w1 = mw_committed w -> Q (Err (EDomain e)) w1) ->
  ends (statement P refused e) Q w.
Proof.
  intros Hok Herr. unfold ends, statement, ask, mthen. destruct (db_fault P (mw_ports w)) as [f s].
  destruct (f || refused) eqn:E; cbn.
  - by apply Herr.
  - apply orb_false_iff in E as [_ ->]. by apply Hok.
Qed.

Lemma ends_ask {A} (f : S -> A * S) (Q : result exc A -> memory_world S -> Prop) w :
  (forall a w1, mw_committed w1 = mw_committed w -> mw_db w1 = mw_db w -> Q (Ok a) w1) -> ends (ask f) Q w.
Proof. intros HQ. unfold ends, ask. destruct (f (mw_ports w)) as [a s]. by apply HQ. Qed.

(** A write of the working copy that keeps it well formed and others' rows. *)
Lemma private_write tenant user w w1 d :
  mw_committed w1 = mw_committed w -> mw_db w1 = mw_db w ->
  (db_wf (mw_db w) -> db_wf d) ->
  (db_wf (mw_db w) -> forall t us, (t, us) <> (tenant, user) -> owner_view t us d = owner_view t us (mw_db w)) ->
  private tenant user w {| mw_ports := mw_ports w1; mw_committed := mw_committed w1; mw_db := d |}.
Proof.
  intros Hc Hd Hwf Hv [Hok Hokc]. unfold world_ok, clean. cbn. rewrite Hc. split; [auto|].
  intros t us Hne Hcl. split; [|done]. rewrite Hv by done. done.
Qed.

Lemma filter_update (p : ChatSessionRecord -> bool) id f (l : list ChatSessionRecord) :
  (forall s, s ∈ l -> cs_id s = id -> p s = false /\ p (f s) = false) ->
  List.filter p (update_session id f l) = List.filter p l.
Proof.
  induction l as [|s l IH]; intros Hp; [done|]. cbn [update_session fmap list_fmap List.filter].
  fold (update_session id f l). rewrite IH by (intros; apply Hp; [by right|done]).
  case_bool_decide as Hi; [|done]. destruct (Hp s ltac:(by left) Hi) as [-> ->]. done.
Qed.

Lemma view_update tenant user d s f rows t us :
  db_wf d -> s ∈ db_sessions d -> cs_tenant_id s = tenant -> cs_user_id s = user ->
  (forall x, cs_tenant_id (f x) = cs_tenant_id x /\ cs_user_id (f x) = cs_user_id x) ->
  Forall (fun m => mr_tenant m = tenant /\ mr_user m = user) rows -> (t, us) <> (tenant, user) ->
  owner_view t us {| db_sessions := update_session (cs_id s) f (db_sessions d);
                     db_messages := db_messages d ++ rows |} = owner_view t us d.
Proof.
  intros Hwf Hs Ht Hu Hf Hrows Hne. unfold owner_view, owner_sessions, owner_messages. cbn. f_equal.
  - apply filter_update. intros x Hx Hid.
    assert (x = s) as -> by (by eapply session_unique). destruct (Hf s) as [-> ->]. rewrite Ht, Hu.
    assert (bool_decide (tenant = t) && bool_decide (user = us) = false) as ->; [|done].
    repeat case_bool_decide; try done. congruence.
  - rewrite List.filter_app. replace (List.filter _ rows) with (@nil ChatMessageRecord); [by rewrite app_nil_r|].
    induction Hrows as [|m rows [Hm Hmu] _ IH]; [done|]. cbn. rewrite Hm, Hmu, <- IH.
    repeat case_bool_decide; try done. congruence.
Qed.

Lemma create_private record :
  keeps (private (nc_tenant_id record) (nc_user_id record)) (create_session P record).
Proof.
  intros w. change (ends (create_session P record)
    (fun _ w' => private (nc_tenant_id record) (nc_user_id record) w w') w). unfold create_session.
  apply ends_bind, ends_ask. intros now w1 Hc1 Hd1. apply ends_bind, ends_ask. intros id w2 Hc2 Hd2.
  apply ends_bind, ends_reads, ends_bind, ends_statement.
  - intros w3 Hc3 Hd3 Hnew. apply bool_decide_eq_false in Hnew. apply ends_bind, ends_modify, ends_ret.
    rewrite Hd2, Hd1 in *. apply private_write; [congruence|congruence|..].
    + intros Hwf. by apply create_wf.
    + intros Hwf t us Hne. unfold owner_view, owner_sessions, owner_messages. cbn. f_equal.
      rewrite List.filter_app. cbn. repeat case_bool_decide; cbn; rewrite ?app_nil_r; try done. congruence.
  - intros w3 Hc3 Hd3. apply private_same; [congruence|]. right. congruence.
Qed.

Lemma ends_active t us id (Q : result exc (option ChatSessionRecord) -> memory_world S -> Prop) w :
  (forall w1, mw_committed w1 = mw_committed w -> mw_db w1 = mw_db w ->
     Q (Ok (List.find (active_for t us id) (db_sessions (mw_db w)))) w1) ->
  (forall e w1, mw_committed w1 = mw_committed w -> mw_db w1 = mw_committed w -> Q (Err (EDomain e)) w1) ->
  ends (get_active_session P t us id) Q w.
Proof.
  intros Hok Herr. unfold get_active_session. apply ends_bind, ends_statement.
  - intros w1 Hc Hd _. apply ends_bind, ends_reads, ends_ret. rewrite Hd. by apply Hok.
  - intros w1 Hc Hd. by apply Herr.
Qed.

Lemma append_private record :
  keeps (private (me_tenant_id record) (me_user_id record)) (append_message P record).
Proof.
  intros w. change (ends (append_message P record)
    (fun _ w' => private (me_tenant_id record) (me_user_id record) w w') w).
  unfold append_message, _get_active_session_model, _next_sequence_no.
  apply ends_bind, ends_bind, ends_active.
  2:{ intros e w1 Hc Hd. apply private_same; [done|by right]. }
  intros w1 Hc1 Hd1. destruct (List.find _ _) as [s|] eqn:Hf.
  2:{ apply ends_raise. apply private_same; [done|by left]. }
  apply find_active in Hf as (Hs & Ht & Hu & Hid & _). apply ends_ret.
  apply ends_bind, ends_bind, ends_statement.
  2:{ intros w2 Hc2 Hd2. apply private_same; [congruence|right; congruence]. }
  intros w2 Hc2 Hd2 _. apply ends_bind, ends_reads, ends_ret, ends_bind, ends_ask.
  intros now w3 Hc3 Hd3. apply ends_bind, ends_ask. intros id w4 Hc4 Hd4.
  apply ends_bind, ends_reads, ends_bind, ends_statement.
  2:{ intros w5 Hc5 Hd5. apply private_same; [congruence|right; congruence]. }
  intros w5 Hc5 Hd5 Hnew. apply bool_decide_eq_false in Hnew. apply ends_bind, ends_modify, ends_ret.
  rewrite Hd4, Hd3, Hd2, Hd1 in *. apply private_write; [congruence|congruence|..].
  - intros Hwf. apply append_wf; try done. cbn.
    by rewrite <- (max_sequence_spec (mw_db w) s Hwf Hs), Ht, Hid.
  - intros Hwf t us Hne. eapply view_update; try done. by constructor.
Qed.

Lemma status_private t us id status : keeps (private t us) (update_session_status P t us id status).
Proof.
  intros w. change (ends (update_session_status P t us id status) (fun _ w' => private t us w w') w).
  unfold update_session_status. apply ends_bind, ends_statement.
  2:{ intros w2 Hc2 Hd2. apply private_same; [congruence|right; congruence]. }
  intros w1 Hc1 Hd1 _. apply ends_bind, ends_reads. destruct (List.find _ _) as [s|] eqn:Hf.
  2:{ apply ends_ret, private_same; [done|by left]. }
  apply find_some in Hf as [Hin Hb]. unfold owns in Hb.
  rewrite !andb_true_iff, !bool_decide_eq_true in Hb. destruct Hb as [[Ht Hu] Hi].
  apply list_elem_of_In in Hin. rewrite Hd1 in *. apply ends_bind, ends_statement.
  2:{ intros w2 Hc2 Hd2. apply private_same; [congruence|right; congruence]. }
  intros w2 Hc2 Hd2 _. apply ends_bind, ends_modify, ends_ret. apply private_write; [congruence|congruence|..].
  - intros Hwf. by apply status_wf.
  - intros Hwf t' us' Hne. rewrite <- (app_nil_r (db_messages (mw_db w))).
    eapply view_update; try done.
Qed.

Lemma list_private t us t' us' id limit : keeps (private t us) (list_recent_messages P t' us' id limit).
Proof.
  intros w. change (ends (list_recent_messages P t' us' id limit) (fun _ w' => private t us w w') w).
  unfold list_recent_messages. cbn zeta. apply ends_bind, ends_active.
  2:{ intros e w1 Hc Hd. apply private_same; [done|by right]. }
  intros w1 Hc1 Hd1. destruct (List.find _ _); [|apply ends_ret, private_same; [done|by left]].
  apply ends_bind, ends_statement.
  - intros w2 Hc2 Hd2 _. apply ends_bind, ends_reads, ends_ret, private_same; [congruence|left; congruence].
  - intros w2 Hc2 Hd2. apply private_same; [congruence|right; congruence].
Qed.

Lemma active_private t us t' us' id : keeps (private t us) (get_active_session P t' us' id).
Proof.
  intros w. change (ends (get_active_session P t' us' id) (fun _ w' => private t us w w') w).
  apply ends_active; intros; apply private_same; auto.
Qed.

Lemma rollback_private t us : keeps (private t us) (rollback (S := S)).
Proof. intros w. apply private_same; cbn; auto. Qed.

Lemma commit_private t us : keeps (private t us) (commit P).
Proof.
  intros w. change (ends (commit P) (fun _ w' => private t us w w') w). unfold commit.
  apply ends_bind, ends_statement.
  - intros w1 Hc1 Hd1 _. apply ends_modify. intros [Hok Hokc]. unfold world_ok, clean. cbn. rewrite Hd1.
    split; [done|]. intros t' us' Hne Hcl. split; [done|]. by unfold clean in Hcl.
  - intros w1 Hc1 Hd1. apply private_same; auto.
Qed.
End Transactions.

(** * Requests *)

(** What the handlers of one request do with the memory, in any order. *)
Inductive chat_op : Type :=
  | OpOpen (context : RequestContext) (session_id : option pystr) (query : pystr)
  | OpUser (context : RequestContext) (session_id content : pystr)
  | OpAssistant (context : RequestContext) (session_id content : pystr) (citations : pydict)
      (no_answer : bool) (error_code : option pystr)
  | OpHistory (context : RequestContext) (session_id : pystr)
  | OpMessages (context : RequestContext) (session_id : pystr) (limit : Z)
  | OpStatus (context : RequestContext) (session_id : pystr) (status : ChatSessionStatus)
  | OpCommit (context : RequestContext)
  | OpRollback (context : RequestContext).

Definition op_context (o : chat_op) : RequestContext :=
  match o with
  | OpOpen c _ _ | OpUser c _ _ | OpAssistant c _ _ _ _ _ | OpHistory c _ | OpMessages c _ _
  | OpStatus c _ _ | OpCommit c | OpRollback c => c
  end.
(** A caller: tenant and user. *)
Definition caller (c : RequestContext) : pystr * pystr :=
  (auth_tenant_id (rc_auth c), auth_user_id (rc_auth c)).
(** The validators of [AuthContext] leave trimmed identifiers. *)
Definition trimmed_caller `{UnicodeDB} (c : RequestContext) : Prop :=
  strip (caller c).1 = (caller c).1 /\ strip (caller c).2 = (caller c).2.

Section Requests.
Context `{PyRepr, UnicodeDB, NetlocCheck} {S : Type} (P : memory_ports S) (config : ChatMemoryConfig).
Abbreviation M := (eff exc (memory_world S)).
Open Scope eff_scope.

Definition run_op (o : chat_op) (w : memory_world S) : memory_world S :=
  match o with
  | OpOpen c sid q => (get_or_create_session P c sid q w).2
  | OpUser c sid content => (append_user_message P config c sid content w).2
  | OpAssistant c sid content cites na code =>
      (append_assistant_message P config c sid content cites na code w).2
  | OpHistory c sid => (load_packed_history P config c sid w).2
  | OpMessages c sid limit => (list_session_messages P c sid limit w).2
  | OpStatus c sid status =>
      (update_session_status P (auth_tenant_id (rc_auth c)) (auth_user_id (rc_auth c)) sid status w).2
  | OpCommit _ => (commit P w).2
  | OpRollback _ => (rollback w).2
  end.

Definition private_to (c : RequestContext) := private (S := S) (caller c).1 (caller c).2.
#[export] Instance private_to_preorder c : PreOrder (private_to c).
Proof. apply private_preorder. Qed.

Lemma text_strips s n : text s = Ok n -> n = strip s.
Proof.
  unfold text, validated, _required_text. destruct (strip s); cbn; intros He; simplify_eq; done.
Qed.

Lemma session_create_owner c r :
  make_session_create c = Ok r -> nc_tenant_id r = strip (nc_tenant_id c) /\ nc_user_id r = strip (nc_user_id c).
Proof.
  unfold make_session_create. intros Hm. res_inv; cbn; split; eauto using text_strips.
Qed.

Lemma message_create_owner m r :
  make_message_create m = Ok r ->
  me_tenant_id r = strip (me_tenant_id m) /\ me_user_id r = strip (me_user_id m) /\
  me_session_id r = strip (me_session_id m).
Proof.
  unfold make_message_create. intros Hm. res_inv; cbn; split_and!; eauto using text_strips.
Qed.

Lemma new_message_owner c sid role content summary tokens md r :
  trimmed_caller c -> new_message c sid role content summary tokens md = Ok r ->
  me_tenant_id r = (caller c).1 /\ me_user_id r = (caller c).2 /\ me_session_id r = strip sid.
Proof. intros [Ht Hu] Hm. apply message_create_owner in Hm as (-> & -> & ->). cbn [caller fst snd me_tenant_id me_user_id me_session_id] in *. by rewrite Ht, Hu. Qed.

Lemma keeps_mlift_bind {A B} (R : memory_world S -> memory_world S -> Prop) `{!PreOrder R} (r : result exc A) (f : A -> M B) :
  (forall a, r = Ok a -> keeps R (f a)) -> keeps R (mthen (mlift r) f).
Proof.
  intros Hf w. unfold mthen, mlift. destruct r as [a|e]; cbn; [by apply Hf|reflexivity].
Qed.

Lemma open_private c sid q : trimmed_caller c -> keeps (private_to c) (get_or_create_session P c sid q).
Proof.
  intros [Ht Hu]. unfold get_or_create_session. destruct (optional_text sid) as [id|].
  - apply keeps_bind; [apply _|apply active_private|]. intros [s|]; [apply keeps_ret, _|apply keeps_raise, _].
  - apply keeps_mlift_bind; [apply _|]. intros r Hr. apply session_create_owner in Hr as [Hrt Hru].
    cbn [nc_tenant_id nc_user_id] in Hrt, Hru. cbn [caller fst snd] in Ht, Hu. rewrite Ht in Hrt. rewrite Hu in Hru.
    unfold private_to. cbn [caller fst snd]. rewrite <- Hrt, <- Hru. apply create_private.
Qed.

Lemma message_private c sid role content summary tokens md :
  trimmed_caller c ->
  keeps (private_to c) (m <- mlift (new_message c sid role content summary tokens md);; append_message P m).
Proof.
  intros Hc. apply keeps_mlift_bind; [apply _|]. intros m (Ht & Hu & _)%new_message_owner; [|done].
  unfold private_to. rewrite <- Ht, <- Hu. apply append_private.
Qed.

Lemma require_private c c' sid : keeps (private_to c) (require_session P c' sid).
Proof.
  unfold require_session. apply keeps_bind; [apply _|apply active_private|].
  intros [s|]; [apply keeps_ret, _|apply keeps_raise, _].
Qed.

(** Every request keeps the tables well formed and touches its caller's rows only. *)
Lemma op_private o : trimmed_caller (op_context o) -> forall w, private_to (op_context o) w (run_op o w).
Proof.
  destruct o as [c sid q|c sid content|c sid content cites na code|c sid|c sid limit|c sid status|c|c];
    cbn [op_context run_op]; intros Hc.
  - by apply open_private.
  - by apply message_private.
  - apply keeps_mlift_bind; [apply _|]. intros safe _. by apply message_private.
  - apply keeps_bind; [apply _|apply require_private|]. intros s. apply keeps_bind; [apply _|apply list_private|].
    intros l. apply keeps_lift, _.
  - apply keeps_bind; [apply _|apply require_private|]. intros s. apply list_private.
  - apply status_private.
  - apply commit_private.
  - apply rollback_private.
Qed.

Definition run_ops (os : list chat_op) (w : memory_world S) : memory_world S :=
  foldl (fun w o => run_op o w) w os.

Definition start (s : S) (d : chat_db) : memory_world S :=
  {| mw_ports := s; mw_committed := d; mw_db := d |}.

Lemma run_ops_ok os w : Forall (fun o => trimmed_caller (op_context o)) os -> world_ok w -> world_ok (run_ops os w).
Proof.
  intros Hos. revert w. induction Hos as [|o os Ho Hos IH]; intros w Hok; [done|]. cbn. apply IH.
  by apply op_private.
Qed.

(** Whatever requests do with the memory, and whichever statements the database
    refuses, the published tables and the working copy stay well formed: session and
    message identifiers are unique, every message belongs to a session of its own
    tenant and user, and the messages of a session are numbered from one without
    gaps, in the order they were written, as many as the session's
    [message_count]. *)
Theorem chat_tables_well_formed os s d :
  Forall (fun o => trimmed_caller (op_context o)) os -> db_wf d ->
  db_wf (mw_db (run_ops os (start s d))) /\ db_wf (mw_committed (run_ops os (start s d))).
Proof. intros Hos Hd. by apply run_ops_ok. Qed.

(** Isolation of chat memory: requests of one caller never change what another
    tenant or user has stored, neither in the running transaction nor in the
    published tables. *)
Theorem chat_memory_isolated os s d tenant user :
  Forall (fun o => trimmed_caller (op_context o) /\ caller (op_context o) <> (tenant, user)) os -> db_wf d ->
  owner_view tenant user (mw_db (run_ops os (start s d))) = owner_view tenant user d /\
  owner_view tenant user (mw_committed (run_ops os (start s d))) = owner_view tenant user d.
Proof.
  intros Hos Hd. assert (world_ok (start s d)) as Hok by done.
  assert (clean tenant user (start s d)) as Hcl by done.
  assert (owner_view tenant user (mw_committed (start s d)) = owner_view tenant user d) as Hv by done.
  revert Hok Hcl Hv. generalize (start s d). clear Hd.
  induction Hos as [|o os [Ho Hne] Hos IH]; intros w Hok Hcl Hv; cbn.
  - split; [|done]. by unfold clean in Hcl; rewrite Hcl.
  - destruct (op_private o Ho w Hok) as [Hok' Hp]. destruct (Hp tenant user) as [Hc' He]; [|done|].
    + by destruct (caller (op_context o)).
    + apply IH; [done|done|congruence].
Qed.
End Requests.

(** * Reading back *)

Section ReadBack.
Context `{PyRepr, UnicodeDB, NetlocCheck} {S : Type} (P : memory_ports S) (config : ChatMemoryConfig).

Lemma sort_insert_last {A} (lt : A -> A -> bool) x l :
  Forall (fun y => lt y x = true) l -> sort_insert lt x l = l ++ [x].
Proof. induction 1 as [|y l Hy Hl IH]; cbn; [done|]. by rewrite Hy, IH. Qed.

(** A list sorted the other way is reversed. *)
Lemma py_sort_reverse {A} (lt : A -> A -> bool) l :
  StronglySorted (fun a b => lt b a = true) l -> py_sort lt l = reverse l.
Proof.
  induction 1 as [|x l Hs IH Hx]; cbn [py_sort]; [done|]. rewrite IH, reverse_cons. apply sort_insert_last.
  by rewrite reverse_Permutation.
Qed.

Lemma seqZ_sorted n : StronglySorted Z.lt (seqZ 1 (Z.of_nat n)).
Proof.
  induction n as [|n IH]; [constructor|]. rewrite seqZ_S. apply StronglySorted_app. split_and!; [|done|by repeat constructor].
  intros x y Hx Hy%list_elem_of_singleton. apply elem_of_seqZ in Hx. lia.
Qed.

Lemma StronglySorted_key {A B} (f : A -> B) (R : B -> B -> Prop) l :
  StronglySorted R (f <$> l) -> StronglySorted (fun a b => R (f a) (f b)) l.
Proof.
  induction l as [|x l IH]; [constructor|]. cbn. intros [Hs Hx]%StronglySorted_inv.
  constructor; [by apply IH|]. by rewrite list.Forall_fmap in Hx.
Qed.

Lemma filter_filter_sub {A} (p q : A -> bool) l :
  (forall x, x ∈ l -> p x = true -> q x = true) -> List.filter p l `sublist_of` List.filter q l.
Proof.
  induction l as [|x l IH]; intros Hpq; cbn; [done|]. specialize (Hpq x ltac:(by left)) as Hx.
  assert (List.filter p l `sublist_of` List.filter q l) by (apply IH; intros; apply Hpq; [by right|done]).
  destruct (p x) eqn:Ep.
  - rewrite Hx by done. by constructor.
  - destruct (q x); [by constructor|done].
Qed.

(** The messages of a session that its owner sees, in the order they were written. *)
Definition conversation (d : chat_db) (tenant user session : pystr) : list ChatMessageRecord :=
  List.filter (visible tenant user session) (db_messages d).

Lemma conversation_sorted d t us id s :
  db_wf d -> List.find (active_for t us id) (db_sessions d) = Some s ->
  StronglySorted (fun a b => mr_sequence_no a < mr_sequence_no b)%Z (conversation d t us id) /\
  Forall (fun m => 0 < mr_sequence_no m)%Z (conversation d t us id).
Proof.
  intros Hwf (Hs & Ht & Hu & Hid & _)%find_active.
  assert (conversation d t us id `sublist_of` session_messages d id) as Hsub.
  { apply filter_filter_sub. intros m _. unfold visible, in_session.
    rewrite !andb_true_iff, !bool_decide_eq_true. tauto. }
  pose proof (dw_numbered d Hwf) as Hn. rewrite list.Forall_forall in Hn. destruct (Hn s Hs) as [Hseq Hc].
  rewrite Hid in Hseq, Hc. split.
  - eapply StronglySorted_sublist; [exact Hsub|]. apply StronglySorted_key. rewrite Hseq, Hc. apply seqZ_sorted.
  - apply list.Forall_forall. intros m Hm. apply (sublist_subseteq _ _ Hsub) in Hm.
    assert (mr_sequence_no m ∈ seqZ 1 (cs_message_count s)) as He
      by (rewrite <- Hseq; apply list_elem_of_fmap; eauto).
    apply elem_of_seqZ in He. lia.
Qed.

(** The newest messages, as a suffix of the conversation. *)
Definition latest {A} (n : Z) (l : list A) : list A := drop (length l - Z.to_nat n) l.

Lemma reverse_take_reverse {A} n (l : list A) : reverse (take n (reverse l)) = drop (length l - n) l.
Proof. by rewrite take_reverse, reverse_involutive. Qed.

(** Reading a session back gives its owner the newest messages of that session, at
    most [limit] of them (kept between 1 and 100), oldest first and exactly as they
    were written; a session that is missing, closed or someone else's reads as
    empty. *)
Theorem messages_read_back t us id limit w l :
  db_wf (mw_db w) -> (list_recent_messages P t us id limit w).1 = Ok l ->
  l = match List.find (active_for t us id) (db_sessions (mw_db w)) with
      | Some _ => latest (Z.min (Z.max limit 1) 100) (conversation (mw_db w) t us id)
      | None => []
      end.
Proof.
  intros Hwf. change (ends (list_recent_messages P t us id limit)
    (fun r _ => r = Ok l -> l = match List.find (active_for t us id) (db_sessions (mw_db w)) with
      | Some _ => latest (Z.min (Z.max limit 1) 100) (conversation (mw_db w) t us id)
      | None => []
      end) w).
  unfold list_recent_messages. cbn zeta. apply ends_bind, ends_active; [|done].
  intros w1 Hc1 Hd1. destruct (List.find _ _) as [s|] eqn:Hf.
  2:{ apply ends_ret. by intros [= <-]. }
  apply ends_bind, ends_statement; [|done].
  intros w2 Hc2 Hd2 _. apply ends_bind, ends_reads, ends_ret. intros [= <-].
  rewrite Hd2, Hd1. fold (conversation (mw_db w) t us id).
  destruct (conversation_sorted _ _ _ _ _ Hwf Hf) as [Hsort _].
  rewrite py_sort_reverse, reverse_take_reverse; [done|].
  eapply StronglySorted_impl'; [|exact Hsort]. intros a b Hab. unfold newer.
  apply orb_true_iff. left. by apply Z.ltb_lt.
Qed.
End ReadBack.

(** * An instance *)

Module MemoryExamples.
#[export] Existing Instances Examples.repr0 RedactExamples.ascii_only SourceExamples.any_netloc.

(** Identifiers and times count up; no statement is refused. *)
Definition ports1 : memory_ports Z :=
  {| db_fault := fun n => (false, n);
     generate_uuid := fun n => (str_of_Z n, n + 1)%Z;
     utc_now := fun n => (n, n + 1)%Z |}.

Definition context_of (tenant user : string) : RequestContext :=
  {| rc_request_id := u "r1"; rc_trace_id := u "t1"; rc_session_id := None; rc_auth_method := None;
     rc_auth := {| auth_user_id := u user; auth_tenant_id := u tenant; auth_roles := [];
                   auth_department := None; auth_permissions := []; auth_identity_provider := None;
                   auth_version := None; auth_jti := None; auth_session_id := None;
                   auth_session_expires_at := None; auth_token_expires_at := None |} |}.

Definition turn (c : RequestContext) (session question answer : string) : list chat_op :=
  [OpUser c (u session) (u question); OpAssistant c (u session) (u answer) [] false None; OpCommit c].

Definition alice1 := context_of "acme" "alice".
Definition bob1 := context_of "acme" "bob".

(** Alice opens a session (it gets the number 1) and asks twice; her second answer is
    not committed; Bob, who knows the number, cannot write to it. *)
Definition day : list chat_op :=
  [OpOpen alice1 None (u "What is our refund policy?"); OpCommit alice1]
  ++ turn alice1 "1" "What is our refund policy?" "Thirty days."
  ++ [OpUser bob1 (u "1") (u "hello"); OpRollback bob1]
  ++ turn alice1 "1" "and abroad?" "The same."
  ++ [OpUser alice1 (u "1") (u "password: hunter2"); OpRollback alice1].

Definition after := run_ops ports1 default_memory_config day (start 0%Z empty_db).

Example day_numbers :
  ((fun m => (mr_sequence_no m, me_role (mr_create m))) <$> db_messages (mw_committed after))
  = [(1%Z, RoleOfUser); (2%Z, RoleOfAssistant); (3%Z, RoleOfUser); (4%Z, RoleOfAssistant)].
Proof. vm_compute. reflexivity. Qed.

Example redacted_in_summary :
  summarize_user_content default_memory_config (u "my api_key = abc, please")
  = u "summary:my [REDACTED] please".
Proof. vm_compute. reflexivity. Qed.

(** A bound below three cuts from the end instead: the result is longer than the
    bound. *)
Example tiny_bound : _bounded_content (u "abcdef") 2 = u "abcde...".
Proof. vm_compute. reflexivity. Qed.

Lemma after_wf : world_ok after.
Proof.
  unfold after. apply run_ops_ok.
  - repeat constructor.
  - split; apply empty_wf.
Qed.

Definition bob_ops : list chat_op := turn bob1 "1" "hello" "hi".
End MemoryExamples.

Lemma history_within_budget_witness :
  valid_memory_config default_memory_config = true /\
  exists h ks, pack_history (H0 := RedactExamples.ascii_only) default_memory_config (u "1")
      (db_messages (mw_committed MemoryExamples.after)) (Some 4%Z) = Ok h /\
    ks ⊆ db_messages (mw_committed MemoryExamples.after) /\ ph_used_count h = 4%Z /\
    (ph_token_count h <= 1000)%Z.
Proof.
  split; [reflexivity|].
  destruct (pack_history (H0 := RedactExamples.ascii_only) default_memory_config (u "1")
      (db_messages (mw_committed MemoryExamples.after)) (Some 4%Z)) as [h|e] eqn:E; [|vm_compute in E; discriminate].
  assert (Forall (fun m => 0 < mr_sequence_no m)%Z (db_messages (mw_committed MemoryExamples.after))) as Hpos.
  { vm_compute. repeat constructor. }
  destruct (history_within_budget (H := RedactExamples.ascii_only) default_memory_config (u "1")
      (db_messages (mw_committed MemoryExamples.after)) (Some 4%Z)) as (h' & ks & Hp & Hs & _ & _ & _ & _ & _ & _ & Hb & _).
  - reflexivity.
  - vm_compute. discriminate.
  - exact Hpos.
  - rewrite E in Hp. injection Hp as <-. exists h, ks. split; [done|]. split; [exact Hs|]. split; [|exact Hb].
    vm_compute in E. injection E as <-. reflexivity.
Defined.

Lemma chat_tables_well_formed_witness :
  db_wf (mw_committed MemoryExamples.after) /\ length (db_messages (mw_committed MemoryExamples.after)) = 4.
Proof.
  split; [|vm_compute; reflexivity].
  apply (chat_tables_well_formed (H0 := RedactExamples.ascii_only)
           (H1 := SourceExamples.any_netloc) MemoryExamples.ports1 default_memory_config MemoryExamples.day 0%Z
           empty_db).
  - repeat constructor.
  - apply empty_wf.
Defined.

Lemma chat_memory_isolated_witness :
  owner_view (u "acme") (u "alice")
    (mw_committed (run_ops (H0 := RedactExamples.ascii_only)
       (H1 := SourceExamples.any_netloc) MemoryExamples.ports1 default_memory_config MemoryExamples.bob_ops
       (start 9%Z (mw_committed MemoryExamples.after))))
  = owner_view (u "acme") (u "alice") (mw_committed MemoryExamples.after).
Proof.
  refine (proj2 (chat_memory_isolated (H0 := RedactExamples.ascii_only)
           (H1 := SourceExamples.any_netloc) MemoryExamples.ports1 default_memory_config MemoryExamples.bob_ops 9%Z
           (mw_committed MemoryExamples.after) (u "acme") (u "alice") _ _)).
  - repeat constructor; vm_compute; discriminate.
  - exact (proj2 MemoryExamples.after_wf).
Defined.

Lemma messages_read_back_witness :
  exists l, (list_recent_messages (H := RedactExamples.ascii_only) MemoryExamples.ports1 (u "acme") (u "alice") (u "1") 3 MemoryExamples.after).1
            = Ok l /\ (mr_sequence_no <$> l) = [2; 3; 4]%Z /\
    l = latest 3 (conversation (mw_db MemoryExamples.after) (u "acme") (u "alice") (u "1")).
Proof.
  destruct (list_recent_messages (H := RedactExamples.ascii_only) MemoryExamples.ports1 (u "acme") (u "alice") (u "1") 3 MemoryExamples.after).1
    as [l|e] eqn:E; [|vm_compute in E; discriminate].
  exists l. split; [done|].
  assert (db_wf (mw_db MemoryExamples.after)) as Hwf.
  { exact (proj1 MemoryExamples.after_wf). }
  pose proof (messages_read_back (H0 := RedactExamples.ascii_only) MemoryExamples.ports1 (u "acme") (u "alice") (u "1") 3 MemoryExamples.after l Hwf E)
    as Hl. split; [vm_compute in E; injection E as <-; reflexivity|]. exact Hl.
Defined.
