(* ===== verification/Chat.v ===== *)
(** Chat.

    Models [packages/rag/chat.py], with [ChatRequestBody], [ChatResponse] and the
    history DTOs of [rag/dto.py]: a conversation turn over the chat memory, as one
    answer or as a stream of events.  The RAG query service, the audit log and the
    clock are parameters, and a query stream is the finite run of events and
    exceptions it delivers when it is consumed to the end.  The world of a turn is
    the transaction of the chat memory, a log of the calls made, the events sent and
    the local variables of the coroutine.  A rollback of the database session is
    taken to succeed. *)

From Stdlib Require Import ZArith String.
From S2P Require Import Prelude Effects Float64 PyVal Access Redact SourceMetadata Rrf ContextPacker.
From S2P Require Import AgentDto RagDto CitationExtractor Hydration PromptBuilder Generation.
From S2P Require Import RagStreaming RagQuery ChatMemory.
From stdpp Require Import base list numbers sets.

(** * Data *)

Section ChatDto.
Context `{UnicodeDB, NetlocCheck}.

(** A [QueryCommand] with the session it belongs to. *)
Record ChatRequestBody : Type := { cb_command : QueryCommand; cb_session_id : option pystr }.
Definition make_chat_request (query : pystr) (top_k : Z) (metadata : metadata_input)
    (threshold : option float) (answer_style : option pystr) (max_output_tokens : option Z)
    (session_id : option pystr) : result exc ChatRequestBody :=
  c ← make_query_command query top_k metadata threshold answer_style max_output_tokens;
  mret {| cb_command := c; cb_session_id := optional_text session_id |}.
(** [QueryCommand] of the dumped fields, which are validated again. *)
Definition to_command (b : ChatRequestBody) : result exc QueryCommand :=
  let c := cb_command b in
  make_query_command (qc_query c) (qc_top_k c) (MdMapping (qc_metadata_filter c))
    (qc_score_threshold c) (qc_answer_style c) (qc_max_output_tokens c).

Record ChatResponse : Type := { cr_response : QueryResponse; cr_session_id : pystr }.

Definition make_chat_response (request_id trace_id tenant_id user_id answer : pystr)
    (citations : list Citation) (no_answer : bool) (claims : list UnsupportedClaim)
    (metadata : pydict) (session_id : pystr) : result exc ChatResponse :=
  r ← make_query_response request_id trace_id tenant_id user_id answer citations no_answer claims metadata;
  s ← text session_id;
  mret {| cr_response := r; cr_session_id := s |}.

Definition make_unsupported_claim (c : UnsupportedClaim) : result exc UnsupportedClaim :=
  r ← text (uc_reason c);
  s ← text (uc_summary c);
  v ← text (uc_severity c);
  mret {| uc_reason := r; uc_summary := s; uc_severity := v |}.

(** [model_dump] computes the citation identifiers; the dumped citations and claims
    are validated again. *)
Definition _chat_response (response : QueryResponse) (session_id : pystr) : result exc ChatResponse :=
  _ ← map_result citation_id_of (qr_citations response);
  citations ← map_result make_citation (qr_citations response);
  claims ← map_result make_unsupported_claim (qr_unsupported_claims response);
  make_chat_response (qr_request_id response) (qr_trace_id response) (qr_tenant_id response)
    (qr_user_id response) (qr_answer response) citations (qr_no_answer response) claims
    (entries (qr_metadata response)) session_id.

Definition _with_session_metadata (metadata : pydict) (session_id : pystr) : pydict :=
  dict_set (u "session_id") (VStr session_id) metadata.

(** The payload of a final event. *)
Record FinalEventPayload : Type := {
  fp_request_id : pystr;
  fp_trace_id : pystr;
  fp_status : StreamStatus;
  fp_session_id : option pystr;
  fp_tenant_id : pystr;
  fp_user_id : pystr;
  fp_answer : pystr;
  fp_citations : list Citation;
  fp_no_answer : bool;
  fp_unsupported_claims : list UnsupportedClaim;
  fp_metadata : pydict
}.
Definition final_payload (e : RagStreamEvent) : option FinalEventPayload :=
  match e with
  | FinalEvent r t st s n us a cs na cl md =>
      Some {| fp_request_id := r; fp_trace_id := t; fp_status := st; fp_session_id := s;
              fp_tenant_id := n; fp_user_id := us; fp_answer := a; fp_citations := cs;
              fp_no_answer := na; fp_unsupported_claims := cl; fp_metadata := md |}
  | _ => None
  end.

Definition _chat_response_from_final (payload : FinalEventPayload) (session_id : pystr)
  : result exc ChatResponse :=
  make_chat_response (fp_request_id payload) (fp_trace_id payload) (fp_tenant_id payload)
    (fp_user_id payload) (fp_answer payload) (fp_citations payload) (fp_no_answer payload)
    (fp_unsupported_claims payload) (_with_session_metadata (fp_metadata payload) session_id) session_id.

Definition to_prompt_message (m : ChatHistoryMessage) : PromptHistoryMessage :=
  {| hm_role := role_text (hi_role m); hm_content := hi_text m; hm_token_count := hi_tokens m;
     hm_sequence_no := hi_sequence_no m |}.
Definition _prompt_memory_context (history : PackedChatHistory) : result exc PromptMemoryContext :=
  messages ← map_result (fun m => make_history_message (to_prompt_message m)) (ph_messages history);
  make_memory_context
    {| mc_session_id := ph_session_id history; mc_messages := messages;
       mc_message_count := ph_message_count history; mc_used_count := ph_used_count history;
       mc_dropped_count := ph_dropped_count history; mc_token_count := ph_token_count history |}.

(** * Citations kept with a message *)

Definition text_entry (k : string) (s : pystr) : pydict :=
  match strip s with [] => [] | _ => [(u k, VStr s)] end.
Definition stripped_items (l : list pystr) : list pystr :=
  omap (fun s => match strip s with [] => None | n => Some n end) l.

Definition citation_summary (c : Citation) : option pydict :=
  if blank (ci_document_id c) || blank (ci_version_id c) || blank (ci_chunk_id c) then None
  else Some
    ([(u "document_id", VStr (ci_document_id c)); (u "version_id", VStr (ci_version_id c));
      (u "chunk_id", VStr (ci_chunk_id c))]
     ++ text_entry "retrieval_method" (ci_retrieval_method c)
     ++ text_entry "source_display_name" (ci_source_display_name c)
     ++ text_entry "source_type" (ci_source_type c)
     ++ match stripped_items (ci_title_path c) with
        | [] => [] | items => [(u "title_path", VTuple (VStr <$> items))]
        end
     ++ opt_entry "page_start" (VInt <$> ci_page_start c)
     ++ opt_entry "page_end" (VInt <$> ci_page_end c)
     ++ [(u "score", VFloat (ci_score c))]).
Definition _citation_summaries (citations : list Citation) : list pydict := omap citation_summary citations.

Definition citations_metadata (citations : list Citation) (claims : list UnsupportedClaim) : pydict :=
  [(u "citation_count", VInt (num citations));
   (u "citations", VList (VDict <$> _citation_summaries citations));
   (u "unsupported_count", VInt (num claims))].
End ChatDto.

Section StoredCitations.
Context `{PyRepr, UnicodeDB, NetlocCheck}.

Definition _safe_metadata_text (value : option pyval) : option pystr :=
  match value with
  | Some (VStr s) => match strip s with [] => None | n => Some n end
  | _ => None
  end.
Definition _safe_title_path (value : option pyval) (fallback : pystr) : list pystr :=
  let default_path := [match fallback with [] => u "source" | f => f end] in
  match value with
  | Some (VTuple l) | Some (VList l) =>
      match stripped_items (strings l) with [] => default_path | items => items end
  | _ => default_path
  end.
Definition _safe_optional_int (value : option pyval) : option Z :=
  match value with Some (VInt z) => Some z | _ => None end.
Definition clamp_score (x : float) : float := fmax fzero (fmin x fone).
Definition _safe_score (value : option pyval) : result exc float :=
  match value with
  | Some (VInt z) => if isfinite (fofZ z) then Ok (clamp_score (fofZ z)) else Err (EException (u "OverflowError"))
  | Some (VFloat x) => Ok (clamp_score x)
  | _ => Ok fzero
  end.

(** [str(item.get(k, ""))]. *)
Definition str_item (k : string) (item : pydict) : pystr :=
  strip (match dict_get (u k) item with Some v => py_str v | None => [] end).

Definition stored_citation (item : pydict) : result exc Citation :=
  score ← _safe_score (dict_get (u "score") item);
  make_citation
    {| ci_document_id := str_item "document_id" item; ci_version_id := str_item "version_id" item;
       ci_chunk_id := str_item "chunk_id" item;
       ci_source_display_name :=
         default (str_item "document_id" item) (_safe_metadata_text (dict_get (u "source_display_name") item));
       ci_source_ref := None;
       ci_source_type := default (u "unknown") (_safe_metadata_text (dict_get (u "source_type") item));
       ci_page_start := _safe_optional_int (dict_get (u "page_start") item);
       ci_page_end := _safe_optional_int (dict_get (u "page_end") item);
       ci_title_path := _safe_title_path (dict_get (u "title_path") item) (str_item "document_id" item);
       ci_retrieval_method :=
         default (u "unknown") (_safe_metadata_text (dict_get (u "retrieval_method") item));
       ci_score := score |}.

(** [except ValueError: continue]: a [ValidationError] is one, an [OverflowError] is not. *)
Definition is_value_error (e : exc) : bool :=
  match e with EException t => bool_decide (t = u "ValidationError") | _ => false end.
Fixpoint citations_of_items (items : list pyval) : result exc (list Citation) :=
  match items with
  | [] => Ok []
  | VDict item :: rest =>
      match stored_citation item with
      | Ok c => others ← citations_of_items rest; mret (c :: others)
      | Err e => if is_value_error e then citations_of_items rest else Err e
      end
  | _ :: rest => citations_of_items rest
  end.
Definition _citations_from_message_metadata (metadata : pydict) : result exc (list Citation) :=
  match dict_get (u "citations") metadata with
  | Some (VList l) | Some (VTuple l) => citations_of_items l
  | _ => Ok []
  end.

Definition _metadata_error_code (metadata : pydict) : option pystr :=
  match dict_get (u "error_code") metadata with
  | None | Some VNone => None
  | Some v => Some (py_str v)
  end.

(** [created_at] is kept as the time, not as its ISO text. *)
Record ChatHistoryMessageResponse : Type := {
  hr_role : ChatMessageRole;
  hr_content : pystr;
  hr_sequence_no : Z;
  hr_request_id : pystr;
  hr_trace_id : pystr;
  hr_created_at : Z;
  hr_citations : list Citation;
  hr_no_answer : bool;
  hr_error_code : option pystr
}.
Record ChatHistoryResponse : Type := {
  hp_session_id : pystr;
  hp_messages : list ChatHistoryMessageResponse
}.

Definition history_message (m : ChatMessageRecord) : result exc ChatHistoryMessageResponse :=
  let c := mr_create m in
  citations ← _citations_from_message_metadata (me_metadata c);
  content ← text (me_content c);
  r ← text (me_request_id c);
  t ← text (me_trace_id c);
  _ ← opt_check (0 <? mr_sequence_no m)%Z;
  mret {| hr_role := me_role c; hr_content := content; hr_sequence_no := mr_sequence_no m;
          hr_request_id := r; hr_trace_id := t; hr_created_at := mr_created_at m;
          hr_citations := citations;
          hr_no_answer := match dict_get (u "no_answer") (me_metadata c) with Some (VBool true) => true | _ => false end;
          hr_error_code := if bool_decide (me_role c = RoleOfAssistant)
                           then _metadata_error_code (me_metadata c) else None |}.
Definition shown_role (m : ChatMessageRecord) : bool :=
  bool_decide (me_role (mr_create m) ∈ [RoleOfUser; RoleOfAssistant]).
Definition history_response (session_id : pystr) (messages : list ChatMessageRecord)
  : result exc ChatHistoryResponse :=
  ms ← map_result history_message (List.filter shown_role messages);
  s ← text session_id;
  mret {| hp_session_id := s; hp_messages := ms |}.

Definition _assistant_storage_content (payload : FinalEventPayload) (error_code : option pystr) : pystr :=
  match error_code, fp_status payload with
  | None, StreamSuccess => fp_answer payload
  | code, _ => u "stream_error:" ++ match code with None | Some [] => u "unknown" | Some c => c end
  end.
End StoredCitations.

(** * The service *)

(** [event_counts]: a count per event type. *)
Definition chat_counts := list (pystr * Z).
Definition _empty_event_counts : chat_counts :=
  (fun k : string => (u k, 0%Z)) <$> ["token"; "citation"; "error"; "final"; "tool_call"; "tool_result"]%string.
Definition count_event (k : pystr) (c : chat_counts) : chat_counts :=
  (fun kn => if bool_decide (kn.1 = k) then (kn.1, kn.2 + 1)%Z else kn) <$> c.
Definition counts_dict (c : chat_counts) : pyval := VDict ((fun kn => (kn.1, VInt kn.2)) <$> c).

Section Values.
Context `{PyRepr, UnicodeDB}.

Definition mapping_entry (k : string) (d : pydict) : pydict :=
  match dict_get (u k) d with Some (VDict m) => m | _ => [] end.

Definition _chat_audit_metadata (response : ChatResponse) (error_code : option pystr) : pydict :=
  let r := cr_response response in
  let md := entries (qr_metadata r) in
  let memory := mapping_entry "memory" md in
  let retrieval := mapping_entry "retrieval" md in
  let generation := mapping_entry "generation" md in
  let context := mapping_entry "context" md in
  let event_counts := if truthy (get "event_counts" md) then get "event_counts" md
                      else get "event_counts" (mapping_entry "stream" md) in
  let count (k : string) := default (VInt 0) (dict_get (u k) memory) in
  [(u "request_id", VStr (qr_request_id r)); (u "trace_id", VStr (qr_trace_id r));
   (u "tenant_id", VStr (qr_tenant_id r)); (u "user_id", VStr (qr_user_id r));
   (u "session_id", VStr (cr_session_id response)); (u "latency_ms", get "latency_ms" md);
   (u "top_k", get "top_k" retrieval); (u "result_count", get "result_count" retrieval);
   (u "memory_message_count", count "message_count"%string);
   (u "memory_used_count", count "used_count"%string);
   (u "memory_dropped_count", count "dropped_count"%string);
   (u "context_item_count", get "item_count" context);
   (u "context_source_count", get "citation_source_count" context);
   (u "provider", get "provider" generation); (u "model", get "model" generation);
   (u "version", get "version" generation); (u "token_usage", get "token_usage" generation);
   (u "event_counts", event_counts); (u "citation_count", VInt (num (qr_citations r)));
   (u "unsupported_count", VInt (num (qr_unsupported_claims r))); (u "tool_calls", VInt 0);
   (u "error_code", opt_str error_code)].

Definition chat_audit_event (context : RequestContext) (response : ChatResponse) (action : string)
    (status : AuditStatus) (latency_ms : float) (error_code : option pystr) : result exc AuditEvent :=
  resource ← validated (make_audit_resource (u "chat_session") (cr_session_id response)
    [(u "request_id", VStr (rc_request_id context)); (u "trace_id", VStr (rc_trace_id context));
     (u "session_id", VStr (cr_session_id response))]);
  validated (make_audit_event (rc_request_id context) (rc_trace_id context)
    (auth_tenant_id (rc_auth context)) (auth_user_id (rc_auth context)) (u action) resource status
    latency_ms error_code (_chat_audit_metadata response error_code)).

Definition _ensure_chat_permission (context : RequestContext) : result exc unit :=
  if has_rag_query_permission (rc_auth context) then Ok tt
  else Err (EDomain (_query_forbidden_error context)).

Definition _chat_failed_error (context : RequestContext) (stage : string) : DomainError :=
  staged_error context RAG_QUERY_FAILED (u "Chat RAG query failed.") stage 500.
Definition chat_cancelled (context : RequestContext) : DomainError :=
  staged_error context RAG_QUERY_CLIENT_DISCONNECTED (u "Chat query was cancelled by the client.")
    "client_disconnect" 499.
Definition chat_stream_cancelled (context : RequestContext) : DomainError :=
  staged_error context RAG_QUERY_CLIENT_DISCONNECTED
    (u "Chat query stream was cancelled by the client.") "client_disconnect" 499.

Definition same_caller (tenant user : pystr) (context : RequestContext) : bool :=
  bool_decide (tenant = auth_tenant_id (rc_auth context))
  && bool_decide (user = auth_user_id (rc_auth context)).
Definition _validate_response_identity (response : QueryResponse) (context : RequestContext)
  : result exc unit :=
  if same_caller (qr_tenant_id response) (qr_user_id response) context then Ok tt
  else Err (EDomain (_chat_failed_error context "identity_mismatch")).
Definition _validate_final_identity (payload : FinalEventPayload) (context : RequestContext)
  : result exc unit :=
  if same_caller (fp_tenant_id payload) (fp_user_id payload) context then Ok tt
  else Err (EDomain (_chat_failed_error context "stream_identity_mismatch")).

(** [a or b] of optional texts. *)
Definition or_text (a b : option pystr) : option pystr :=
  match a with Some (_ :: _) => a | _ => b end.

Definition _failure_chat_response (context : RequestContext) (command : QueryCommand)
    (session_id : option pystr) (latency_ms : float) (error : DomainError)
    (event_counts : option chat_counts) : result exc ChatResponse :=
  let safe_session_id :=
    match strip (default (u "unknown")
                   (or_text (or_text session_id (rc_session_id context)) (Some (u "unknown")))) with
    | [] => u "unknown" | s => s
    end in
  let metadata :=
    [(u "latency_ms", VFloat latency_ms); (u "error_code", VStr (de_code error));
     (u "retrieval", VDict [(u "top_k", VInt (qc_top_k command)); (u "result_count", VInt 0)]);
     (u "context", VDict [(u "item_count", VInt 0); (u "citation_source_count", VInt 0)]);
     (u "generation", VDict [(u "provider", VNone); (u "model", VNone); (u "version", VNone);
                             (u "token_usage", VNone)]);
     (u "memory", VDict [(u "message_count", VInt 0); (u "used_count", VInt 0);
                         (u "dropped_count", VInt 0)])]
    ++ match event_counts with Some c => [(u "event_counts", counts_dict c)] | None => [] end in
  make_chat_response (rc_request_id context) (rc_trace_id context) (auth_tenant_id (rc_auth context))
    (auth_user_id (rc_auth context)) DEFAULT_NO_ANSWER_TEXT [] true [] metadata safe_session_id.

Definition _error_final_event (context : RequestContext) (session_id : option pystr)
    (error : DomainError) (event_counts : chat_counts) : result exc RagStreamEvent :=
  final_event (rc_request_id context) (rc_trace_id context) (auth_tenant_id (rc_auth context))
    (auth_user_id (rc_auth context)) DEFAULT_NO_ANSWER_TEXT [] true []
    (plain [(u "session_id", opt_str session_id); (u "error_code", VStr (de_code error));
            (u "event_counts", counts_dict event_counts)]) StreamError session_id.
End Values.

(** [context.model_copy(update={"session_id": ...})]. *)
Definition with_session (context : RequestContext) (session_id : pystr) : RequestContext :=
  {| rc_request_id := rc_request_id context; rc_trace_id := rc_trace_id context;
     rc_session_id := Some session_id; rc_auth_method := rc_auth_method context;
     rc_auth := rc_auth context |}.

(** The calls of a turn on the ports, in order. *)
Inductive chat_call : Type :=
| AskRag (context : RequestContext) (command : QueryCommand) (memory : PromptMemoryContext)
| CloseRag
| RecordAudit (event : AuditEvent) (recorded : bool).

(** The local variables of [chat] and [stream_chat] that their handlers read. *)
Record chat_locals : Type := {
  lc_context : RequestContext;
  lc_counts : chat_counts;
  lc_seen_final : bool
}.

Record chat_world (S : Type) : Type := {
  cw_memory : memory_world S;
  cw_log : list chat_call;
  cw_events : list RagStreamEvent;
  cw_locals : chat_locals
}.
Arguments cw_memory {S}.
Arguments cw_log {S}.
Arguments cw_events {S}.
Arguments cw_locals {S}.

Record chat_ports (S : Type) : Type := {
  memory_port : memory_ports S;
  rag_query : RequestContext -> QueryCommand -> PromptMemoryContext -> eff exc S QueryResponse;
  rag_stream : RequestContext -> QueryCommand -> PromptMemoryContext -> S ->
    list (result exc RagStreamEvent) * S;
  rag_aclose : eff exc S unit;
  chat_audit : AuditEvent -> eff exc S unit;
  chat_clock : S -> float * S
}.
Arguments memory_port {S}.
Arguments rag_query {S}.
Arguments rag_stream {S}.
Arguments rag_aclose {S}.
Arguments chat_audit {S}.
Arguments chat_clock {S}.

Section Chat.
Context `{PyRepr, UnicodeDB, NetlocCheck}.
Context {S : Type} (P : chat_ports S) (config : ChatMemoryConfig).
(** The consumer of a stream: having received these events, it closes the generator. *)
Context (closes : list RagStreamEvent -> bool).
Open Scope eff_scope.
Abbreviation M := (eff exc (chat_world S)).

Definition with_memory (w : chat_world S) (m : memory_world S) : chat_world S :=
  {| cw_memory := m; cw_log := cw_log w; cw_events := cw_events w; cw_locals := cw_locals w |}.

(** An operation of the memory service. *)
Definition mem {A} (m : eff exc (memory_world S) A) : M A := fun w =>
  let '(r, mw) := m (cw_memory w) in (r, with_memory w mw).

Definition note (c : chat_call) : M unit :=
  modify (fun w => {| cw_memory := cw_memory w; cw_log := cw_log w ++ [c]; cw_events := cw_events w;
                      cw_locals := cw_locals w |}).

(** A call on one of the other ports. *)
Definition port {A} (m : eff exc S A) : M A :=
  mem (fun w => let '(r, s) := m (mw_ports w) in
                (r, {| mw_ports := s; mw_committed := mw_committed w; mw_db := mw_db w |})).

Definition clock : M float := mem (ask (chat_clock P)).
Definition chat_elapsed (started : float) : M float :=
  t <- clock;; mreturn (_elapsed_ms (fsub t started)).

Definition set_locals (f : chat_locals -> chat_locals) : M unit :=
  modify (fun w => {| cw_memory := cw_memory w; cw_log := cw_log w; cw_events := cw_events w;
                      cw_locals := f (cw_locals w) |}).
Definition set_context (context : RequestContext) : M unit :=
  set_locals (fun l => {| lc_context := context; lc_counts := lc_counts l; lc_seen_final := lc_seen_final l |}).
Definition bump_event (k : pystr) : M unit :=
  set_locals (fun l => {| lc_context := lc_context l; lc_counts := count_event k (lc_counts l);
                          lc_seen_final := lc_seen_final l |}).
Definition saw_final : M unit :=
  set_locals (fun l => {| lc_context := lc_context l; lc_counts := lc_counts l; lc_seen_final := true |}).

Definition suppressed (m : M unit) : M unit :=
  mcatch m (fun e => if is_exception e then mreturn tt else mraise e).

Definition _record_chat_audit (context : RequestContext) (response : ChatResponse) (action : string)
    (status : AuditStatus) (latency_ms : float) (error_code : option pystr) : M unit :=
  suppressed
    (event <- mlift (chat_audit_event context response action status latency_ms error_code);;
     mcatch (_ <- port (chat_audit P event);; note (RecordAudit event true))
            (fun e => _ <- note (RecordAudit event false);; mraise e)).

Definition _record_chat_failure_audit (context : RequestContext) (command : QueryCommand)
    (action : string) (latency_ms : float) (error : DomainError) (session_id : option pystr)
    (event_counts : option chat_counts) : M unit :=
  response <- mlift (_failure_chat_response context command session_id latency_ms error event_counts);;
  _record_chat_audit context response action
    (if bool_decide (de_code error = RAG_QUERY_FORBIDDEN) then AuditDENIED else AuditFAILURE)
    latency_ms (Some (de_code error)).

(** What [chat] and [stream_chat] do before the question is asked: the permission,
    the session, the history and the caller's message, which is committed. *)
Definition open_turn (context : RequestContext) (command : QueryCommand) (effective : option pystr)
  : M (ChatSessionRecord * PromptMemoryContext) :=
  _ <- mlift (_ensure_chat_permission context);;
  session <- mem (get_or_create_session (memory_port P) context effective (qc_query command));;
  let chat_context := with_session context (cs_id session) in
  _ <- set_context chat_context;;
  history <- mem (load_packed_history (memory_port P) config chat_context (cs_id session));;
  memory_context <- mlift (_prompt_memory_context history);;
  _ <- mem (append_user_message (memory_port P) config chat_context (cs_id session) (qc_query command));;
  _ <- mem (commit (memory_port P));;
  mreturn (session, memory_context).

Definition chat_body (context : RequestContext) (command : QueryCommand) (effective : option pystr)
    (started : float) : M ChatResponse :=
  opened <- open_turn context command effective;;
  let session := opened.1 in
  let chat_context := with_session context (cs_id session) in
  _ <- note (AskRag chat_context command opened.2);;
  response <- port (rag_query P chat_context command opened.2);;
  _ <- mlift (_validate_response_identity response chat_context);;
  _ <- mem (append_assistant_message (memory_port P) config chat_context (cs_id session)
              (qr_answer response) (citations_metadata (qr_citations response) (qr_unsupported_claims response))
              (qr_no_answer response) None);;
  chat_response <- mlift (_chat_response response (cs_id session));;
  _ <- mem (commit (memory_port P));;
  latency <- chat_elapsed started;;
  _ <- _record_chat_audit chat_context chat_response "rag.chat" AuditSUCCESS latency None;;
  mreturn chat_response.

(** The audit record of a turn that failed. *)
Definition report (command : QueryCommand) (effective : option pystr) (started : float) (action : string)
    (error : RequestContext -> DomainError) (streamed : bool) : M DomainError :=
  l <- reads cw_locals;;
  let chat_context := lc_context l in
  latency <- chat_elapsed started;;
  _ <- _record_chat_failure_audit chat_context command action latency (error chat_context)
         (or_text (rc_session_id chat_context) effective)
         (if streamed then Some (lc_counts l) else None);;
  mreturn (error chat_context).

Definition chat_handler (command : QueryCommand) (effective : option pystr) (started : float) (e : exc)
  : M ChatResponse :=
  match e with
  | ECancelled =>
      _ <- report command effective started "rag.chat" chat_cancelled false;;
      mraise ECancelled
  | EDomain error =>
      _ <- mem rollback;;
      _ <- report command effective started "rag.chat" (fun _ => error) false;;
      mraise (EDomain error)
  | EException _ =>
      _ <- mem rollback;;
      wrapped <- report command effective started "rag.chat" (fun c => _chat_failed_error c "chat") false;;
      mraise (EDomain wrapped)
  | EGeneratorExit => mraise EGeneratorExit
  end.

Definition fresh_locals (context : RequestContext) : chat_locals :=
  {| lc_context := context; lc_counts := _empty_event_counts; lc_seen_final := false |}.

Definition chat (context : RequestContext) (command : QueryCommand) (session_id : option pystr)
  : M ChatResponse :=
  started <- clock;;
  _ <- set_locals (fun _ => fresh_locals context);;
  let effective := or_text session_id (rc_session_id context) in
  mcatch (chat_body context command effective started) (chat_handler command effective started).

(** ** Streams *)

Definition yield_event (event : result exc RagStreamEvent) : M unit :=
  e <- mlift event;;
  _ <- modify (fun w => {| cw_memory := cw_memory w; cw_log := cw_log w; cw_events := cw_events w ++ [e];
                           cw_locals := cw_locals w |});;
  stop <- reads (fun w => closes (cw_events w));;
  if stop then mraise EGeneratorExit else mreturn tt.

Definition final_error_code (payload : FinalEventPayload) : option pystr :=
  match _metadata_error_code (fp_metadata payload), fp_status payload with
  | None, StreamError => Some RAG_QUERY_FAILED
  | code, _ => code
  end.

(** The answer is stored and committed before its event is sent, with the session
    and the number of events in the event's metadata. *)
Definition finish_turn (context : RequestContext) (session : pystr) (started : float)
    (payload : FinalEventPayload) : M unit :=
  _ <- saw_final;;
  _ <- mlift (_validate_final_identity payload context);;
  let error_code := final_error_code payload in
  _ <- mem (append_assistant_message (memory_port P) config context session
              (_assistant_storage_content payload error_code)
              (citations_metadata (fp_citations payload) (fp_unsupported_claims payload))
              (fp_no_answer payload) error_code);;
  _ <- mem (commit (memory_port P));;
  counts <- reads (fun w => lc_counts (cw_locals w));;
  let metadata := dict_set (u "event_counts") (counts_dict counts)
                    (_with_session_metadata (fp_metadata payload) session) in
  enriched <- mlift (final_event (fp_request_id payload) (fp_trace_id payload) (fp_tenant_id payload)
    (fp_user_id payload) (fp_answer payload) (fp_citations payload) (fp_no_answer payload)
    (fp_unsupported_claims payload) (plain metadata) (fp_status payload) (Some session));;
  response <- mlift (match final_payload enriched with
                     | Some p => _chat_response_from_final p session
                     | None => Err AssertionError
                     end);;
  latency <- chat_elapsed started;;
  _ <- _record_chat_audit context response "rag.chat.stream"
         (match fp_status payload with StreamSuccess => AuditSUCCESS | StreamError => AuditFAILURE end)
         latency error_code;;
  yield_event (Ok enriched).

Fixpoint forward_events (context : RequestContext) (session : pystr) (started : float)
    (events : list (result exc RagStreamEvent)) : M unit :=
  match events with
  | [] => mreturn tt
  | Err e :: _ => mraise e
  | Ok event :: rest =>
      _ <- bump_event (event_type event);;
      _ <- match final_payload event with
           | None => yield_event (Ok event)
           | Some payload => finish_turn context session started payload
           end;;
      forward_events context session started rest
  end.

(** The error event and the last event of a stream that failed. *)
Definition yield_failure (effective : option pystr) (error : DomainError) : M unit :=
  context <- reads (fun w => lc_context (cw_locals w));;
  _ <- bump_event (u "error");;
  _ <- yield_event (safe_error_event (rc_request_id context) (rc_trace_id context) (de_code error)
                      (de_message error) (de_details error) true);;
  _ <- bump_event (u "final");;
  counts <- reads (fun w => lc_counts (cw_locals w));;
  yield_event (_error_final_event context (or_text (rc_session_id context) effective) error counts).

Definition stream_body (context : RequestContext) (command : QueryCommand) (effective : option pystr)
    (started : float) : M unit :=
  opened <- open_turn context command effective;;
  let session := opened.1 in
  let chat_context := with_session context (cs_id session) in
  _ <- note (AskRag chat_context command opened.2);;
  events <- port (fun s => let '(l, s') := rag_stream P chat_context command opened.2 s in (Ok l, s'));;
  _ <- try_finally (forward_events chat_context (cs_id session) started events)
         (_ <- note CloseRag;; suppressed (port (rag_aclose P)));;
  seen_final <- reads (fun w => lc_seen_final (cw_locals w));;
  if seen_final then mreturn tt
  else
    error <- report command effective started "rag.chat.stream"
               (fun c => _chat_failed_error c "stream_missing_final") true;;
    yield_failure effective error.

Definition stream_handler (command : QueryCommand) (effective : option pystr) (started : float) (e : exc)
  : M unit :=
  match e with
  | ECancelled =>
      _ <- report command effective started "rag.chat.stream" chat_stream_cancelled true;;
      mraise ECancelled
  | EDomain error =>
      _ <- mem rollback;;
      error <- report command effective started "rag.chat.stream" (fun _ => error) true;;
      yield_failure effective error
  | EException _ =>
      _ <- mem rollback;;
      wrapped <- report command effective started "rag.chat.stream"
                   (fun c => _chat_failed_error c "chat_stream") true;;
      yield_failure effective wrapped
  | EGeneratorExit => mraise EGeneratorExit
  end.

Definition stream_chat (context : RequestContext) (command : QueryCommand) (session_id : option pystr)
  : M unit :=
  started <- clock;;
  _ <- set_locals (fun _ => fresh_locals context);;
  let effective := or_text session_id (rc_session_id context) in
  mcatch (stream_body context command effective started) (stream_handler command effective started).

(** ** History *)

Definition history (context : RequestContext) (session_id : pystr) (limit : Z) : M ChatHistoryResponse :=
  _ <- mlift (_ensure_chat_permission context);;
  messages <- mem (list_session_messages (memory_port P) context session_id limit);;
  mlift (history_response session_id messages).
End Chat.
