(* ===== verification/ChatGuarantee.v ===== *)
(** What a chat turn guarantees.

    The theorems about [Chat]: a turn that succeeds publishes the question and the
    answer together at the end of its conversation, a turn that fails publishes at
    most the question and leaves no open changes, every failure is audited, a caller
    without the permission reaches nothing, and no turn touches another owner's
    rows. *)

From Stdlib Require Import ZArith String Sorting.Sorted Permutation.
From S2P Require Import Prelude Effects Float64 PyVal Access Redact SourceMetadata Rrf ContextPacker.
From S2P Require Import AgentDto RagDto CitationExtractor Hydration PromptBuilder Generation.
From S2P Require Import RagStreaming RagQuery RagGuarantee ChatMemory Chat.
From stdpp Require Import base list numbers sets.

(** * Errors of validators *)

(** The code of the data layer raises exceptions only, no cancellation. *)
Definition raises_exc {A} (r : result exc A) : Prop := forall e, r = Err e -> is_exception e = true.

Lemma rex_ok {A} (a : A) : raises_exc (Ok a).
Proof. by intros e. Qed.
Lemma rex_ret {A} (a : A) : raises_exc (mret a).
Proof. by intros e. Qed.
Lemma rex_err {A} e : is_exception e = true -> raises_exc (A := A) (Err e).
Proof. by intros He e' [= <-]. Qed.
Lemma rex_bind {A B} (r : result exc A) (f : A -> result exc B) :
  raises_exc r -> (forall a, raises_exc (f a)) -> raises_exc (r ≫= f).
Proof. intros Hr Hf. destruct r as [a|e]; cbn; [apply Hf|]. intros e' [= <-]. by apply Hr. Qed.
Lemma rex_validated {E A} (r : result E A) : raises_exc (validated r).
Proof. by destruct r; intros x [= <-]. Qed.
Lemma rex_text s : raises_exc (text s).
Proof. apply rex_validated. Qed.
Lemma rex_check b : raises_exc (opt_check b).
Proof. destruct b; intros e [= <-]. done. Qed.
Lemma rex_map {A B} (f : A -> result exc B) l : (forall a, raises_exc (f a)) -> raises_exc (map_result f l).
Proof.
  intros Hf. induction l as [|x l IH]; cbn; [apply rex_ok|].
  apply rex_bind; [apply Hf|]. intros b. apply rex_bind; [exact IH|]. intros bs. apply rex_ret.
Qed.

Ltac rex := repeat first
  [ progress intros | apply rex_bind | apply rex_map | apply rex_text | apply rex_check | apply rex_ret
  | apply rex_ok | apply rex_validated | by apply rex_err | progress case_match ].

Section Validators.
Context `{PyRepr, UnicodeDB, NetlocCheck}.

Lemma rex_session_create c : raises_exc (make_session_create c).
Proof. unfold make_session_create. rex. Qed.
Lemma rex_new_message c sid role content summary tokens md :
  raises_exc (new_message c sid role content summary tokens md).
Proof. unfold new_message, make_message_create, bounded_text. rex. Qed.

Lemma rex_summary_fields item : raises_exc (summary_fields item).
Proof. unfold summary_fields. rex. Qed.

Lemma rex_summaries items : raises_exc (citation_summaries_of items).
Proof.
  induction items as [|v items IH]; cbn [citation_summaries_of]; [apply rex_ok|].
  destruct v; try exact IH. apply rex_bind; [apply rex_summary_fields|]. intros summary.
  repeat case_match; try exact IH. apply rex_bind; [unfold _safe_citation_display_fields; rex|].
  intros display. apply rex_bind; [exact IH|]. intros. apply rex_ret.
Qed.

Lemma rex_citation_metadata md : raises_exc (_safe_citation_metadata md).
Proof.
  induction md as [|[k v] md IH]; cbn [_safe_citation_metadata]; [apply rex_ok|].
  destruct (negb _); [exact IH|]. apply rex_bind.
  - case_match; [|apply rex_ok]. apply rex_bind; [|intros; apply rex_ret].
    unfold _safe_citation_summaries. destruct v; try apply rex_ok;
      (apply rex_bind; [apply rex_summaries|intros; apply rex_ret]).
  - intros x. apply rex_bind; [exact IH|]. intros. apply rex_ret.
Qed.

Lemma rex_pack config messages acc : raises_exc (pack_messages config messages acc).
Proof.
  revert acc. induction messages as [|m l IH]; intros acc; cbn [pack_messages]; [apply rex_ok|].
  case_match; [apply IH|]. apply rex_bind; [unfold make_chat_history_message; rex|]. intros. apply IH.
Qed.
Lemma rex_pack_history config sid messages total : raises_exc (pack_history config sid messages total).
Proof.
  unfold pack_history. apply rex_bind; [apply rex_pack|]. intros. unfold make_packed_history. rex.
Qed.
Lemma rex_memory_context h : raises_exc (_prompt_memory_context h).
Proof. unfold _prompt_memory_context, make_history_message, make_memory_context. rex. Qed.
End Validators.

(** * The memory operations of a turn *)

Section MemorySteps.
Context `{PyRepr, UnicodeDB, NetlocCheck} {S : Type} (P : memory_ports S) (config : ChatMemoryConfig).

(** A memory operation raises domain or other errors, never a cancellation, and
    publishes nothing. *)
Definition unpublished {A} (Q : A -> memory_world S -> Prop) (w : memory_world S)
    (r : result exc A) (w' : memory_world S) : Prop :=
  mw_committed w' = mw_committed w /\
  match r with Ok a => Q a w' | Err e => is_exception e = true end.

Lemma chat_open_steps context sid q w :
  ends (get_or_create_session P context sid q)
    (unpublished (fun _ w' => db_messages (mw_db w') = db_messages (mw_db w)) w) w.
Proof.
  unfold get_or_create_session. destruct (optional_text sid) as [id|].
  - apply ends_bind, ends_active; [|by intros e w1 Hc Hd].
    intros w1 Hc Hd. destruct (List.find _ _); [apply ends_ret|apply ends_raise]; split; auto; congruence.
  - apply ends_bind, ends_lift. destruct (make_session_create _) as [r|e] eqn:Hr.
    2:{ split; [done|]. by eapply rex_session_create. }
    unfold create_session. apply ends_bind, ends_ask. intros now w1 Hc1 Hd1.
    apply ends_bind, ends_ask. intros id w2 Hc2 Hd2. apply ends_bind, ends_reads, ends_bind, ends_statement.
    + intros w3 Hc3 Hd3 _. apply ends_bind, ends_modify, ends_ret. split; [cbn; congruence|]. cbn. by rewrite Hd2, Hd1.
    + intros w3 Hc3 Hd3. split; [congruence|done].
Qed.

Lemma history_steps context sid w :
  ends (load_packed_history P config context sid)
    (unpublished (fun _ w' => mw_db w' = mw_db w) w) w.
Proof.
  unfold load_packed_history, require_session. apply ends_bind, ends_bind, ends_active; [|by intros e w1 Hc Hd].
  intros w1 Hc1 Hd1. destruct (List.find _ _) as [s|]; [apply ends_ret|by apply ends_raise].
  apply ends_bind. unfold list_recent_messages. cbn zeta. apply ends_bind, ends_active.
  2:{ intros e w2 Hc2 Hd2. split; [congruence|done]. }
  intros w2 Hc2 Hd2. destruct (List.find _ _) as [s'|].
  - apply ends_bind, ends_statement; [|intros w3 Hc3 Hd3; split; [congruence|done]].
    intros w3 Hc3 Hd3 _. apply ends_bind, ends_reads, ends_ret, ends_lift. split; [congruence|].
    destruct (pack_history _ _ _ _) as [h|e] eqn:E; [congruence|by eapply rex_pack_history].
  - apply ends_ret, ends_lift. split; [congruence|].
    destruct (pack_history _ _ _ _) as [h|e] eqn:E; [congruence|by eapply rex_pack_history].
Qed.

(** A message written: it is the last of the working copy, and the next of its
    session. *)
Definition written (record : ChatMessageCreate) (w : memory_world S) (m : ChatMessageRecord)
    (w' : memory_world S) : Prop :=
  db_messages (mw_db w') = db_messages (mw_db w) ++ [m] /\ mr_create m = record /\ mr_status m = MessageActive /\
  (db_wf (mw_db w) -> mr_sequence_no m = (num (session_messages (mw_db w) (me_session_id record)) + 1)%Z).

Lemma append_steps record w : ends (append_message P record) (unpublished (written record w) w) w.
Proof.
  unfold append_message, _get_active_session_model, _next_sequence_no.
  apply ends_bind, ends_bind, ends_active; [|by intros e w1 Hc Hd].
  intros w1 Hc1 Hd1. destruct (List.find _ _) as [s|] eqn:Hf; [|by apply ends_raise].
  apply find_active in Hf as (Hs & Ht & Hu & Hid & _). apply ends_ret.
  apply ends_bind, ends_bind, ends_statement; [|intros w2 Hc2 Hd2; split; [congruence|done]].
  intros w2 Hc2 Hd2 _. apply ends_bind, ends_reads, ends_ret, ends_bind, ends_ask.
  intros now w3 Hc3 Hd3. apply ends_bind, ends_ask. intros id w4 Hc4 Hd4.
  apply ends_bind, ends_reads, ends_bind, ends_statement; [|intros w5 Hc5 Hd5; split; [congruence|done]].
  intros w5 Hc5 Hd5 Hnew. apply ends_bind, ends_modify, ends_ret. split; [cbn; congruence|].
  rewrite Hd4, Hd3, Hd2, Hd1. split_and!; cbn; try done. intros Hwf. f_equal.
  rewrite <- Ht, <- Hid, max_sequence_spec by done.
  pose proof (dw_numbered _ Hwf) as Hn. rewrite list.Forall_forall in Hn. by destruct (Hn s Hs) as [_ ->].
Qed.

Lemma text_named s n : text s = Ok n -> n <> [].
Proof. unfold text, validated, _required_text. destruct (strip s); intros E; by simplify_eq. Qed.

(** The message of a turn. *)
Definition turn_message (context : RequestContext) (sid : pystr) (role : ChatMessageRole) (content : pystr)
    (record : ChatMessageCreate) : Prop :=
  me_role record = role /\ me_content record = strip content /\
  (me_tenant_id record, me_user_id record) = caller context /\ me_session_id record = strip sid /\
  me_session_id record <> [].

Lemma new_message_turn context sid role content summary tokens md r :
  trimmed_caller context -> new_message context sid role content summary tokens md = Ok r ->
  turn_message context sid role content r.
Proof.
  intros Hc Hm. pose proof (new_message_owner _ _ _ _ _ _ _ _ Hc Hm) as (Ht & Hu & Hs).
  assert (me_role r = role /\ me_content r = strip content /\ me_session_id r <> []) as (Hr & Hcontent & Hne).
  { unfold new_message, make_message_create, bounded_text in Hm. clear - Hm. res_inv; cbn; split_and!; eauto using text_strips, text_named. }
  unfold turn_message. rewrite Ht, Hu. by split_and!.
Qed.

Definition user_content (q : pystr) : pystr := _bounded_content q (mm_max_message_chars config).
Definition assistant_content (a : pystr) : pystr :=
  _bounded_content (match strip a with [] => u "assistant_no_content" | n => n end) (mm_max_message_chars config).

Lemma message_steps context sid role content summary tokens md w :
  trimmed_caller context ->
  ends (mthen (mlift (new_message context sid role content summary tokens md)) (append_message P))
    (unpublished (fun m w' => exists record, turn_message context sid role content record /\
       written record w m w') w) w.
Proof.
  intros Hc. apply ends_bind, ends_lift. destruct (new_message _ _ _ _ _ _ _) as [r|e] eqn:E.
  - eapply ends_mono; [apply append_steps|]. intros [m|e] w' [Hp Hw]; (split; [done|]); [|done].
    exists r. split; [|done]. by eapply new_message_turn.
  - split; [done|]. by eapply rex_new_message.
Qed.

Lemma user_steps context sid q w : trimmed_caller context ->
  ends (append_user_message P config context sid q)
    (unpublished (fun m w' => exists record, turn_message context sid RoleOfUser (user_content q) record /\
       written record w m w') w) w.
Proof. intros Hc. by apply message_steps. Qed.

Lemma assistant_steps context sid a md na code w : trimmed_caller context ->
  ends (append_assistant_message P config context sid a md na code)
    (unpublished (fun m w' => exists record, turn_message context sid RoleOfAssistant (assistant_content a) record /\
       written record w m w') w) w.
Proof.
  intros Hc. unfold append_assistant_message. apply ends_bind, ends_lift.
  destruct (match md with [] => Ok [] | _ => _safe_citation_metadata md end) as [safe|e] eqn:E.
  - cbn zeta. by apply message_steps.
  - split; [done|]. destruct md; [done|]. by eapply rex_citation_metadata.
Qed.

Lemma commit_steps w :
  ends (commit P) (fun r w' => match r with
    | Ok _ => mw_committed w' = mw_db w /\ mw_db w' = mw_db w
    | Err e => mw_committed w' = mw_committed w /\ is_exception e = true
    end) w.
Proof.
  unfold commit. apply ends_bind, ends_statement.
  - intros w1 Hc1 Hd1 _. by apply ends_modify.
  - done.
Qed.
End MemorySteps.

(** * The steps of a turn *)

Section TurnSteps.
Context `{PyRepr, UnicodeDB, NetlocCheck}.
Context {S : Type} (P : chat_ports S) (config : ChatMemoryConfig).
Abbreviation world := (chat_world S).

Lemma ends_mem {A} (m : eff exc (memory_world S) A) (Q : result exc A -> world -> Prop) (w : world) :
  ends m (fun r mw => Q r (with_memory w mw)) (cw_memory w) -> ends (mem m) Q w.
Proof. unfold ends, mem. by destruct (m (cw_memory w)) as [r mw]. Qed.

Lemma ends_port {A} (m : eff exc S A) (Q : result exc A -> world -> Prop) (w : world) :
  (forall r s, m (mw_ports (cw_memory w)) = (r, s) ->
     Q r (with_memory w {| mw_ports := s; mw_committed := mw_committed (cw_memory w);
                           mw_db := mw_db (cw_memory w) |})) ->
  ends (port m) Q w.
Proof.
  intros HQ. apply ends_mem. unfold ends. destruct (m (mw_ports (cw_memory w))) as [r s]. by apply HQ.
Qed.

Lemma ends_elapsed started (Q : result exc float -> world -> Prop) w :
  (forall d w', cw_log w' = cw_log w -> cw_events w' = cw_events w -> cw_locals w' = cw_locals w ->
     mw_committed (cw_memory w') = mw_committed (cw_memory w) -> mw_db (cw_memory w') = mw_db (cw_memory w) ->
     Q (Ok (_elapsed_ms d)) w') -> ends (chat_elapsed P started) Q w.
Proof.
  intros HQ. unfold chat_elapsed, clock. apply ends_bind, ends_mem, ends_ask. intros t mw Hc Hd.
  by apply ends_ret, HQ.
Qed.

Definition db (w : world) : chat_db := mw_db (cw_memory w).
Definition published (w : world) : chat_db := mw_committed (cw_memory w).

(** A row of the turn: its role, its text, its owner and its place in the session. *)
Record turn_row (owner : pystr * pystr) (sid : pystr) (role : ChatMessageRole) (content : pystr)
    (n : Z) (m : ChatMessageRecord) : Prop := {
  tr_role : me_role (mr_create m) = role;
  tr_content : me_content (mr_create m) = strip content;
  tr_owner : (mr_tenant m, mr_user m) = owner;
  tr_session : mr_session m = strip sid;
  tr_named : strip sid <> [];
  tr_status : mr_status m = MessageActive;
  tr_sequence : mr_sequence_no m = n
}.

(** The number of messages of a session. *)
Definition session_size (d : chat_db) (sid : pystr) : Z := num (session_messages d sid).

Lemma written_row context sid role content record (w w' : memory_world S) m :
  turn_message context sid role content record -> written record w m w' -> db_wf (mw_db w) ->
  turn_row (caller context) sid role content (session_size (mw_db w) (strip sid) + 1)%Z m.
Proof.
  intros (Hr & Hc & Ho & Hs & Hne) (_ & Hm & Hst & Hn) Hwf. split; unfold mr_tenant, mr_user, mr_session; rewrite ?Hm; try done.
  - by rewrite <- Hs.
  - rewrite Hn, Hs; done.
Qed.

(** What is there once the question is published. *)
Record opened (context : RequestContext) (command : QueryCommand) (w : world) (session : ChatSessionRecord)
    (w' : world) : Prop := {
  od_permitted : has_rag_query_permission (rc_auth context) = true;
  od_context : lc_context (cw_locals w') = with_session context (cs_id session);
  od_question : exists question, db_messages (db w') = db_messages (db w) ++ [question] /\
    turn_row (caller context) (cs_id session) RoleOfUser (user_content config (qc_query command))
      (session_size (db w) (strip (cs_id session)) + 1)%Z question;
  od_published : published w' = db w';
  od_wf : db_wf (db w')
}.

(** What opening a turn leaves alone. *)
Record framed (w w' : world) : Prop := {
  fr_log : cw_log w' = cw_log w;
  fr_events : cw_events w' = cw_events w;
  fr_counts : lc_counts (cw_locals w') = lc_counts (cw_locals w);
  fr_seen : lc_seen_final (cw_locals w') = lc_seen_final (cw_locals w)
}.

(** A turn that did not get there: nothing is published. *)
Record not_opened (context : RequestContext) (w w' : world) : Prop := {
  no_context : lc_context (cw_locals w') = context \/
    exists id, lc_context (cw_locals w') = with_session context id;
  no_published : published w' = published w
}.

Lemma open_turn_steps context command effective w :
  trimmed_caller context -> world_ok (cw_memory w) -> lc_context (cw_locals w) = context ->
  ends (open_turn P config context command effective)
    (fun r w' => framed w w' /\
                 match r with
                 | Ok o => opened context command w o.1 w'
                 | Err e => not_opened context w w' /\ is_exception e = true /\
                     (has_rag_query_permission (rc_auth context) = false ->
                        e = EDomain (_query_forbidden_error context) /\ w' = w)
                 end) w.
Proof.
  intros Hc Hok Hctx. unfold open_turn. apply ends_bind, ends_lift. unfold _ensure_chat_permission.
  destruct (has_rag_query_permission (rc_auth context)) eqn:Hperm.
  2:{ split; [done|]. split; [|done]. split; auto. }
  apply ends_bind, ends_mem. eapply ends_mono.
  { apply (ends_keeps (private_to context)); [by apply open_private|apply chat_open_steps]. }
  intros [session|e] m1 [[Hp1 Hd1] Hpriv1]; cbn [fst snd].
  2:{ split; [done|]. split; [|done]. split; cbn; auto. }
  destruct (Hpriv1 Hok) as [[Hok1 _] _]. apply ends_bind, ends_modify, ends_bind, ends_mem.
  eapply ends_mono; [apply history_steps|]. intros [h|e] m2 [Hp2 Hd2].
  2:{ split; [done|]. split; [|done]. split; cbn; eauto. unfold published. cbn. rewrite Hp2. cbn. congruence. }
  cbn in Hp2, Hd2. apply ends_bind, ends_lift. destruct (_prompt_memory_context h) as [mc|e] eqn:Hmc.
  2:{ split; [done|]. split; [|split; [by eapply rex_memory_context|done]].
      split; cbn; eauto. unfold published. cbn. congruence. }
  apply ends_bind, ends_mem. eapply ends_mono.
  { apply (ends_keeps (private_to (with_session context (cs_id session))));
      [by apply message_private|by apply user_steps]. }
  intros [q|e] m3 [[Hp3 Hw3] Hpriv3].
  2:{ split; [done|]. split; [|done]. split; cbn; eauto. unfold published. cbn. rewrite Hp3. cbn. congruence. }
  destruct Hw3 as (record & Hturn & Hwritten). cbn in Hp3.
  assert (db_wf (mw_db m2)) as Hwf2 by (by rewrite Hd2).
  assert (db_wf (mw_db m3)) as Hwf3.
  { apply Hpriv3. split; [done|]. cbn. rewrite Hp2, Hp1. by destruct Hok. }
  apply ends_bind, ends_mem. eapply ends_mono; [apply commit_steps|].
  intros [[]|e] m4 Hcm.
  2:{ destruct Hcm as [Hp4 He]. split; [done|]. split; [|done]. split; cbn; eauto. unfold published. cbn. rewrite Hp4. cbn. congruence. }
  destruct Hcm as [Hp4 Hd4]. cbn in Hp4, Hd4. apply ends_ret. split; [done|]. split; cbn; try done.
  - exists q. unfold db. cbn. rewrite Hd4. pose proof (written_row _ _ _ _ _ _ _ _ Hturn Hwritten Hwf2) as Hrow.
    cbn [cw_memory] in Hrow. destruct Hwritten as (Hms & _). split; [cbn in Hms; congruence|].
    unfold session_size, session_messages in *. cbn in Hrow. rewrite Hd2, Hd1 in Hrow. exact Hrow.
  - unfold published, db. cbn. congruence.
  - unfold db. cbn. by rewrite Hd4.
Qed.

(** ** Audit records *)

(** A step that only talks to the ports. *)
Record quiet (w w' : world) : Prop := {
  qt_log : cw_log w `prefix_of` cw_log w';
  qt_events : cw_events w' = cw_events w;
  qt_locals : cw_locals w' = cw_locals w;
  qt_published : published w' = published w;
  qt_db : db w' = db w
}.

Definition audited (context : RequestContext) (status : AuditStatus) (code : option pystr) (w w' : world) : Prop :=
  exists event recorded, cw_log w' = cw_log w ++ [RecordAudit event recorded] /\
    audited_as context status code event.

Lemma text_fix s : strip s = s -> s <> [] -> text s = Ok s.
Proof. unfold text, validated, _required_text. intros ->. by destruct s. Qed.

Lemma text_nonblank s n : text s = Ok n -> strip n = n /\ n <> [].
Proof.
  unfold text, validated, _required_text. destruct (strip s) as [|c t] eqn:Hs; [done|].
  intros [= <-]. split; [|done]. rewrite <- Hs. apply strip_idem.
Qed.

Lemma chat_audit_event_ok context response action status d code :
  context_wf context -> nonblank_text (u action) = Ok (u action) ->
  strip (cr_session_id response) = cr_session_id response -> cr_session_id response <> [] ->
  exists e, chat_audit_event context response action status (_elapsed_ms d) code = Ok e /\
    audited_as context status code e.
Proof.
  intros [[Hr Hr'] [Ht Ht'] [[Hu Hu'] [Hn Hn'] _ _ _ _]] Ha Hs Hs'.
  unfold chat_audit_event, make_audit_resource, make_audit_event.
  assert (nonblank_text (u "chat_session") = Ok (u "chat_session")) as -> by (vm_compute; reflexivity).
  rewrite (nonblank_fix _ Hs Hs'). cbn [mbind result_bind mret result_ret validated].
  rewrite (nonblank_fix _ Hr Hr'), (nonblank_fix _ Ht Ht'), (nonblank_fix _ Hn Hn'),
    (nonblank_fix _ Hu Hu'), Ha, elapsed_not_negative.
  cbn [mbind result_bind mret result_ret raise_if validated]. eexists. split; [reflexivity|]. by split_and!.
Qed.

Lemma ends_suppressed (m : eff exc world unit) (Q : result exc unit -> world -> Prop) w :
  ends m (fun r w' => match r with
                      | Ok _ => Q (Ok tt) w'
                      | Err e => if is_exception e then Q (Ok tt) w' else Q (Err e) w'
                      end) w -> ends (suppressed m) Q w.
Proof.
  intros Hm. unfold suppressed. apply ends_try. eapply ends_mono; [exact Hm|].
  intros [[]|e] w' HQ; [done|]. destruct (is_exception e); [by apply ends_ret|by apply ends_raise].
Qed.

Lemma audit_steps context response action status d code w :
  ends (_record_chat_audit P context response action status (_elapsed_ms d) code)
    (fun r w' => quiet w w' /\ (forall e, r = Err e -> is_exception e = false) /\
       (context_wf context -> nonblank_text (u action) = Ok (u action) ->
        strip (cr_session_id response) = cr_session_id response -> cr_session_id response <> [] ->
        audited context status code w w')) w.
Proof.
  unfold _record_chat_audit. apply ends_suppressed, ends_bind, ends_lift.
  destruct (chat_audit_event context response action status (_elapsed_ms d) code) as [event|e] eqn:E.
  - assert (context_wf context -> nonblank_text (u action) = Ok (u action) ->
        strip (cr_session_id response) = cr_session_id response -> cr_session_id response <> [] ->
        audited_as context status code event) as Has.
    { intros Hwf Ha Hs Hs'. destruct (chat_audit_event_ok context response action status d code Hwf Ha Hs Hs')
        as (e & He & Hau). rewrite E in He. by injection He as <-. }
    apply ends_try, ends_bind, ends_port. intros r s Hr. destruct r as [[]|x].
    + apply ends_modify. split; [split; cbn; try done; by eexists|]. split; [done|]. intros. eexists _, _. split; [reflexivity|]. by apply Has.
    + apply ends_bind, ends_modify, ends_raise. destruct (is_exception x) eqn:Hx; (split; [split; cbn; try done; by eexists|]).
      * split; [done|]. intros. eexists _, _. split; [reflexivity|]. by apply Has.
      * split; [by intros e' [= <-]|]. intros. eexists _, _. split; [reflexivity|]. by apply Has.
  - assert (is_exception e = true) as ->.
    { unfold chat_audit_event in E. apply (rex_bind _ _ (rex_validated _) (fun _ => rex_validated _) e E). }
    split; [split; cbn; try done; by eexists|]. split; [done|]. intros Hwf Ha Hs Hs'.
    destruct (chat_audit_event_ok context response action status d code Hwf Ha Hs Hs') as (e' & He & _). congruence.
Qed.

Lemma failure_response_ok context command sid d error counts :
  context_wf context ->
  exists response, _failure_chat_response context command sid d error counts = Ok response /\
    strip (cr_session_id response) = cr_session_id response /\ cr_session_id response <> [].
Proof.
  intros [[Hr Hr'] [Ht Ht'] [[Hu Hu'] [Hn Hn'] _ _ _ _]].
  unfold _failure_chat_response, make_chat_response, make_query_response. cbn zeta.
  rewrite (text_fix _ Hr Hr'), (text_fix _ Ht Ht'), (text_fix _ Hn Hn'), (text_fix _ Hu Hu').
  cbn [mbind result_bind mret result_ret].
  match goal with |- context [match ?raw with [] => u "unknown" | _ => _ end] => destruct raw as [|c r] eqn:Er end.
  - assert (text (u "unknown") = Ok (u "unknown")) as Hs by (vm_compute; reflexivity).
    rewrite Hs. cbn [mbind result_bind mret result_ret]. eexists. split; [reflexivity|].
    cbn [cr_session_id]. by apply text_nonblank in Hs.
  - assert (strip (c :: r) = c :: r) as Hfix by (rewrite <- Er; apply strip_idem).
    rewrite (text_fix _ Hfix) by done. cbn [mbind result_bind mret result_ret]. eexists. split; [reflexivity|].
    by cbn [cr_session_id].
Qed.

Lemma rex_failure_response context command sid d error counts :
  raises_exc (_failure_chat_response context command sid d error counts).
Proof. unfold _failure_chat_response, make_chat_response, make_query_response. rex. Qed.

Definition failure_status (error : DomainError) : AuditStatus :=
  if bool_decide (de_code error = RAG_QUERY_FORBIDDEN) then AuditDENIED else AuditFAILURE.

(** Reporting a failure: the world of the turn stays as it is, and with a proper
    context exactly one audit record is attempted, which is not what fails. *)
Lemma report_steps command effective started action error streamed w :
  nonblank_text (u action) = Ok (u action) ->
  ends (report P command effective started action error streamed)
    (fun r w' => quiet w w' /\ (forall e, r = Ok e -> e = error (lc_context (cw_locals w))) /\
       (context_wf (lc_context (cw_locals w)) ->
        (forall e, r = Err e -> is_exception e = false) /\
        audited (lc_context (cw_locals w)) (failure_status (error (lc_context (cw_locals w))))
          (Some (de_code (error (lc_context (cw_locals w))))) w w')) w.
Proof.
  intros Ha. unfold report. apply ends_bind, ends_reads. cbn zeta. apply ends_bind, ends_elapsed.
  intros d w1 Hl He Hlo Hp Hd. apply ends_bind. unfold _record_chat_failure_audit. apply ends_bind, ends_lift.
  set (context := lc_context (cw_locals w)).
  set (resp := _failure_chat_response context command _ _ _ _).
  destruct resp as [response|e] eqn:E; unfold resp in E.
  - eapply ends_mono; [apply audit_steps|]. intros r w2 ([Hqlog Hqe Hql Hqp Hqd] & Hx & Hau).
    assert (quiet w w2) as Hq.
    { split; [by rewrite <- Hl|unfold published, db in *; congruence..]. }
    assert (context_wf context -> audited context (failure_status (error context)) (Some (de_code (error context))) w w2) as Haud.
    { intros Hwf. destruct (failure_response_ok context command (or_text (rc_session_id context) effective)
        (_elapsed_ms d) (error context) (if streamed then Some (lc_counts (cw_locals w)) else None) Hwf) as (resp' & He' & Hs & Hs').
      rewrite E in He'. injection He' as <-. destruct (Hau Hwf Ha Hs Hs') as (ev & b & Hlog & Has).
      exists ev, b. by rewrite <- Hl. }
    destruct r as [[]|x]; [apply ends_ret|].
    + split; [done|]. split; [by intros e [= <-]|]. intros Hwf. split; [done|]. by apply Haud.
    + split; [done|]. split; [done|]. intros Hwf. split; [intros e [= <-]; by apply Hx|by apply Haud].
  - split; [split; [by rewrite Hl|unfold published, db; congruence..]|]. split; [done|]. intros Hwf.
    destruct (failure_response_ok context command (or_text (rc_session_id context) effective)
        (_elapsed_ms d) (error context) (if streamed then Some (lc_counts (cw_locals w)) else None) Hwf) as (resp' & He' & _).
    congruence.
Qed.

(** ** One answer *)

(** The question is published at the end of the conversation, and nothing more. *)
Definition asked (context : RequestContext) (command : QueryCommand) (d : chat_db) (w' : world) : Prop :=
  exists sid question, lc_context (cw_locals w') = with_session context sid /\
    db_messages (published w') = db_messages d ++ [question] /\
    turn_row (caller context) sid RoleOfUser (user_content config (qc_query command))
      (session_size d (strip sid) + 1)%Z question.

(** The question and its answer are published, one after the other. *)
Definition answered (context : RequestContext) (command : QueryCommand) (sid answer : pystr) (d : chat_db)
    (w' : world) : Prop :=
  exists question reply,
    db_messages (published w') = db_messages d ++ [question; reply] /\ db w' = published w' /\
    turn_row (caller context) sid RoleOfUser (user_content config (qc_query command))
      (session_size d (strip sid) + 1)%Z question /\
    turn_row (caller context) sid RoleOfAssistant (assistant_content config answer)
      (session_size d (strip sid) + 2)%Z reply /\
    db_wf (published w').

Lemma size_snoc d d' sid m :
  db_messages d' = db_messages d ++ [m] -> mr_session m = sid ->
  session_size d' sid = (session_size d sid + 1)%Z.
Proof.
  intros Hd Hm. unfold session_size, session_messages, num. rewrite Hd, List.filter_app. cbn.
  rewrite bool_decide_true by done. rewrite length_app. cbn. lia.
Qed.

(** Storing the answer of an opened turn. *)
Lemma answer_steps context command (d : chat_db) w session w1 content md na code :
  trimmed_caller context -> opened context command w session w1 -> db w = d ->
  ends (mem (append_assistant_message (memory_port P) config (with_session context (cs_id session))
              (cs_id session) content md na code))
    (fun r w2 => cw_log w2 = cw_log w1 /\ cw_events w2 = cw_events w1 /\ cw_locals w2 = cw_locals w1 /\
       published w2 = published w1 /\
       match r with
       | Ok _ => forall w3, published w3 = db w2 -> db w3 = db w2 ->
                   answered context command (cs_id session) content d w3
       | Err e => is_exception e = true
       end) w1.
Proof.
  intros Hc Ho Hd. apply ends_mem. eapply ends_mono.
  { apply (ends_keeps (private_to (with_session context (cs_id session)))).
    - apply keeps_mlift_bind; [apply _|]. intros safe _. by apply message_private.
    - by apply assistant_steps. }
  intros r m2 [[Hp Hr] Hpriv]. split; [done|]. split; [done|]. split; [done|]. split; [exact Hp|].
  destruct r as [a|e]; [|done]. destruct Hr as (record & Hturn & Hwr). destruct Ho as [_ _ (q & Hq & Hrow) Hpub Hwf].
  intros w3 Hp3 Hd3. exists q, a.
  assert (turn_row (caller (with_session context (cs_id session))) (cs_id session) RoleOfAssistant
    (assistant_content config content) (session_size (db w1) (strip (cs_id session)) + 1)%Z a) as Ha
    by (eapply written_row; done).
  rewrite (size_snoc (db w) (db w1) _ q Hq (tr_session _ _ _ _ _ _ Hrow)), <- Z.add_assoc, Hd in Ha.
  destruct Hwr as (Hms & _). rewrite Hp3, Hd3. unfold db in *. cbn [cw_memory with_memory]. rewrite Hd in *. split_and!; try done.
  - rewrite Hms, Hq, <- app_assoc. done.
  - apply Hpriv. split; [done|]. unfold published in Hpub. by rewrite Hpub.
Qed.

Lemma opened_asked context command w session w1 w' :
  opened context command w session w1 -> lc_context (cw_locals w') = lc_context (cw_locals w1) -> published w' = published w1 ->
  asked context command (db w) w'.
Proof.
  intros [_ Hl (q & Hq & Hrow) Hp _] Hlo Hpu. exists (cs_id session), q.
  rewrite Hlo, Hl, Hpu, Hp. by split_and!.
Qed.

Lemma commit_ends (Q : result exc unit -> world -> Prop) w :
  (forall w', cw_log w' = cw_log w -> cw_events w' = cw_events w -> cw_locals w' = cw_locals w ->
     published w' = db w -> db w' = db w -> Q (Ok tt) w') ->
  (forall e w', cw_log w' = cw_log w -> cw_events w' = cw_events w -> cw_locals w' = cw_locals w ->
     published w' = published w -> is_exception e = true -> Q (Err e) w') ->
  ends (mem (commit (memory_port P))) Q w.
Proof.
  intros Hok Herr. apply ends_mem. eapply ends_mono; [apply commit_steps|].
  intros [[]|e] m [Hp Hd]; [by apply Hok|by apply Herr].
Qed.

(** [chat] without its handlers, on a fresh transaction. *)
Definition chat_post (context : RequestContext) (command : QueryCommand) (d : chat_db) (log : list chat_call)
    (r : result exc ChatResponse) (w' : world) : Prop :=
  (log `prefix_of` cw_log w') /\
  match r with
  | Ok response =>
      (qr_tenant_id (cr_response response), qr_user_id (cr_response response)) = caller context /\
      has_rag_query_permission (rc_auth context) = true /\
      exists sid, cr_session_id response = strip sid /\
        answered context command sid (qr_answer (cr_response response)) d w'
  | Err e =>
      (lc_context (cw_locals w') = context \/
       exists id, lc_context (cw_locals w') = with_session context id) /\
      (is_exception e = true ->
        (published w' = d \/ asked context command d w') /\
        (has_rag_query_permission (rc_auth context) = false ->
         e = EDomain (_query_forbidden_error context) /\ cw_log w' = log /\ published w' = d))
  end.

Lemma chat_response_inv response sid r :
  _chat_response response sid = Ok r ->
  cr_session_id r = strip sid /\ qr_answer (cr_response r) = qr_answer response /\
  qr_tenant_id (cr_response r) = strip (qr_tenant_id response) /\
  qr_user_id (cr_response r) = strip (qr_user_id response).
Proof.
  unfold _chat_response, make_chat_response, make_query_response. intros E. ok_inv E. ok_inv Hok2.
  cbn [cr_session_id cr_response qr_answer qr_tenant_id qr_user_id].
  split_and!; eauto using text_strips.
Qed.

Lemma rex_chat_response response sid : raises_exc (_chat_response response sid).
Proof.
  unfold _chat_response, make_chat_response, make_query_response, citation_id_of, citation_id,
    make_citation, make_unsupported_claim. rex.
Qed.

Lemma chat_body_steps context command effective started w :
  trimmed_caller context -> world_ok (cw_memory w) -> lc_context (cw_locals w) = context ->
  published w = db w ->
  ends (chat_body P config context command effective started)
    (chat_post context command (db w) (cw_log w)) w.
Proof.
  intros Hc Hok Hctx Hclean. unfold chat_body. apply ends_bind.
  eapply ends_mono; [by apply open_turn_steps|]. intros [[session mc]|e] w1 [[Hlog1 _ _ _] Ho].
  2:{ destruct Ho as ([Hcx Hp] & Hexc & Hperm). split; [by rewrite Hlog1|]. split; [done|]. intros _.
      split; [left; congruence|]. intros Hf. destruct (Hperm Hf) as [-> ->]. done. }
  cbn [fst snd] in *. assert (has_rag_query_permission (rc_auth context) = true) as Hperm by apply Ho.
  assert (forall w', cw_locals w' = cw_locals w1 -> published w' = published w1 ->
            cw_log w `prefix_of` cw_log w' -> forall e,
            chat_post context command (db w) (cw_log w) (Err e) w') as Hfail.
  { intros w' Hlo Hpu Hlog e. split; [done|]. split.
    - right. exists (cs_id session). rewrite Hlo. apply Ho.
    - intros _. split; [|congruence]. right. eapply opened_asked; [done|congruence|done]. }
  apply ends_bind, ends_modify, ends_bind, ends_port. intros r s _. destruct r as [response|e].
  2:{ apply Hfail; cbn; [done..|]. rewrite Hlog1. by eexists. }
  apply ends_bind, ends_lift. unfold _validate_response_identity.
  destruct (same_caller _ _ _) eqn:Hsame; [|apply Hfail; cbn; [done..|rewrite Hlog1; by eexists]].
  unfold same_caller in Hsame. cbn [with_session rc_auth] in Hsame.
  apply andb_true_iff in Hsame as [Ht%bool_decide_eq_true Hu%bool_decide_eq_true].
  match goal with |- ends _ _ ?w => set (w2 := w) end.
  assert (opened context command w session w2) as Ho2 by (destruct Ho; by split).
  assert (cw_log w `prefix_of` cw_log w2) as Hlog2 by (cbn; rewrite Hlog1; by eexists).
  apply ends_bind. eapply ends_mono; [by apply (answer_steps context command (db w) w)|].
  intros r w3 (Hl3 & _ & Hlo3 & Hp3 & Hr3). destruct r as [a|e]; [|apply Hfail; [done..|by rewrite Hl3]].
  apply ends_bind, ends_lift. destruct (_chat_response response (cs_id session)) as [cr|e] eqn:Hcr;
    [|apply Hfail; [done..|by rewrite Hl3]].
  apply chat_response_inv in Hcr as (Hsid & Hans & Hten & Hus).
  apply ends_bind, commit_ends.
  2:{ intros e w4 Hl4 _ Hlo4 Hp4 _. apply Hfail; [by rewrite Hlo4, Hlo3|by rewrite Hp4, Hp3|by rewrite Hl4, Hl3]. }
  intros w4 Hl4 _ Hlo4 Hp4 Hd4. apply ends_bind, ends_elapsed. intros lat w5 Hl5 _ Hlo5 Hp5 Hd5.
  apply ends_bind. eapply ends_mono; [apply audit_steps|]. intros r w6 ([Hpre _ Hlo6 Hp6 Hd6] & Hx & _).
  assert (cw_log w `prefix_of` cw_log w6) as Hlog6.
  { etrans; [exact Hlog2|]. by rewrite <- Hl3, <- Hl4, <- Hl5. }
  destruct r as [[]|x]; [apply ends_ret|].
  - split; [done|]. unfold trimmed_caller, caller in Hc. cbn [fst snd] in Hc. destruct Hc as [Hct Hcu].
    split; [rewrite Hten, Hus, Ht, Hu, Hct, Hcu; done|]. split; [done|].
    exists (cs_id session). split; [done|]. rewrite Hans. apply Hr3; unfold published, db in *; congruence.
  - split; [done|]. split; [right; exists (cs_id session); rewrite Hlo6, Hlo5, Hlo4, Hlo3; apply Ho|].
    intros Hex. by rewrite (Hx x eq_refl) in Hex.
Qed.
Lemma context_trimmed context : context_wf context -> trimmed_caller context.
Proof. intros [_ _ [[Hu _] [Ht _] _ _ _ _]]. by split. Qed.

Lemma with_session_wf context id : context_wf context -> context_wf (with_session context id).
Proof. intros [Hr Ht Ha]. by split. Qed.

Lemma audited_here context id status code w w' :
  audited (with_session context id) status code w w' -> audited context status code w w'.
Proof. by intros (e & b & Hl & Ha); exists e, b. Qed.

(** What the handlers leave after an error of the body. *)
Definition handled (context : RequestContext) (command : QueryCommand) (d : chat_db) (e : exc) (w w' : world) : Prop :=
  is_exception e = true ->
  exists error, e = EDomain error /\ db w' = published w' /\
    (published w' = d \/ asked context command d w') /\
    audited context (failure_status error) (Some (de_code error)) w w'.

Lemma rollback_ends (Q : result exc unit -> world -> Prop) w :
  (forall w', cw_log w' = cw_log w -> cw_events w' = cw_events w -> cw_locals w' = cw_locals w ->
     published w' = published w -> db w' = published w -> Q (Ok tt) w') -> ends (mem rollback) Q w.
Proof. intros HQ. apply ends_mem, ends_modify. by apply HQ. Qed.

(** A handler that rolls back, reports and raises. *)
Lemma handler_steps context command effective started (error : RequestContext -> DomainError) d w :
  context_wf context ->
  (lc_context (cw_locals w) = context \/ exists id, lc_context (cw_locals w) = with_session context id) ->
  published w = d \/ asked context command d w ->
  ends (mthen (mem rollback) (fun _ => report P command effective started "rag.chat" error false))
    (fun r w' => published w' = published w /\ db w' = published w' /\ (published w' = d \/ asked context command d w') /\
       audited context (failure_status (error (lc_context (cw_locals w))))
         (Some (de_code (error (lc_context (cw_locals w))))) w w' /\
       match r with
       | Ok e => e = error (lc_context (cw_locals w))
       | Err x => is_exception x = false
       end) w.
Proof.
  intros Hwf Hctx Hpub. apply ends_bind, rollback_ends. intros w1 Hl1 _ Hlo1 Hp1 Hd1.
  eapply ends_mono; [by apply report_steps|]. rewrite Hlo1. intros r w2 ([_ _ Hlo2 Hp2 Hd2] & Hok & Hau).
  assert (context_wf (lc_context (cw_locals w))) as Hwf' by (destruct Hctx as [->|[id ->]]; [done|by apply with_session_wf]).
  destruct (Hau Hwf') as [Herr (ev & b & Hlog & Has)].
  split; [congruence|]. split; [congruence|]. split.
  - destruct Hpub as [Hpub|(sid & q & Hc & Hm & Hrow)]; [left; congruence|right].
    exists sid, q. rewrite Hlo2, Hlo1, Hp2, Hp1. done.
  - split.
    + rewrite Hl1 in Hlog. exists ev, b. split; [done|]. by destruct Hctx as [Hcx|[id Hcx]]; rewrite Hcx in Has |- *.
    + destruct r as [e|x]; [by apply Hok|by apply Herr].
Qed.

Lemma chat_handler_steps context command effective started d e w :
  context_wf context ->
  (lc_context (cw_locals w) = context \/ exists id, lc_context (cw_locals w) = with_session context id) ->
  (is_exception e = true -> published w = d \/ asked context command d w) ->
  ends (chat_handler P command effective started e)
    (fun r w' => match r with
                 | Ok _ => False
                 | Err x => handled context command d x w w' /\
                            (is_exception x = true ->
                             is_exception e = true /\ published w' = published w /\
                             (forall error, e = EDomain error -> x = e))
                 end) w.
Proof.
  intros Hwf Hctx Hpre. destruct e as [error|ty| |]; cbn [chat_handler].
  - pose proof (Hpre eq_refl) as Hpub. apply ends_assoc, ends_bind.
    eapply ends_mono; [by apply (handler_steps context command effective started (fun _ => error) d)|].
    intros r w' (Hsame & Hdb & Hp & Hau & Hr). destruct r as [x|x].
    + apply ends_raise. split; [|by intros _; split_and!]. intros _. by exists error.
    + split; unfold handled; rewrite Hr; done.
  - pose proof (Hpre eq_refl) as Hpub. apply ends_assoc, ends_bind.
    eapply ends_mono; [by apply (handler_steps context command effective started (fun c => _chat_failed_error c "chat") d)|].
    intros r w' (Hsame & Hdb & Hp & Hau & Hr). destruct r as [x|x].
    + apply ends_raise. split; [|by intros _; split_and!]. intros _. subst x. eexists. by split_and!.
    + split; unfold handled; rewrite Hr; done.
  - apply ends_bind. eapply ends_mono; [by apply report_steps|]. intros r w' (_ & _ & Hau).
    destruct r as [x|x]; [by apply ends_raise|].
    destruct Hau as [Hx _]; [by destruct Hctx as [->|[id ->]]; [|apply with_session_wf]|].
    split; unfold handled; rewrite (Hx x eq_refl); done.
  - by apply ends_raise.
Qed.

(** A request on its own transaction over the tables [d]. *)
Definition request (s : S) (d : chat_db) (context : RequestContext) : world :=
  {| cw_memory := start s d; cw_log := []; cw_events := []; cw_locals := fresh_locals context |}.

Lemma chat_steps context command session_id s d :
  context_wf context -> db_wf d ->
  ends (chat P config context command session_id)
    (fun r w' => match r with
       | Ok response => chat_post context command d [] (Ok response) w'
       | Err x => is_exception x = true ->
           exists w1, handled context command d x w1 w' /\
             (has_rag_query_permission (rc_auth context) = false ->
              x = EDomain (_query_forbidden_error context) /\ cw_log w1 = [] /\ published w' = d)
       end) (request s d context).
Proof.
  intros Hwf Hd. unfold chat. apply ends_bind. unfold clock. apply ends_mem, ends_ask. intros started m1 Hc1 Hd1.
  apply ends_bind, ends_modify. cbn zeta. match goal with |- ends _ _ ?w => set (w1 := w) end.
  assert (db w1 = d /\ published w1 = d) as [Hdb Hpub]
    by (split; unfold w1, db, published; cbn; [by rewrite Hd1|by rewrite Hc1]).
  apply ends_try. eapply ends_mono.
  { apply chat_body_steps; [by apply context_trimmed| |done|congruence].
    split; unfold w1; cbn; [rewrite Hd1|rewrite Hc1]; done. }
  rewrite Hdb. intros [response|e] w2 Hpost; [done|]. destruct Hpost as (Hlog & Hctx & Hpost).
  eapply ends_mono; [apply (chat_handler_steps context command _ _ d); [done|done|]|].
  { intros He. by destruct (Hpost He). }
  intros [response|x] w3; [done|]. intros [Hh Hx] Hex. exists w2. split; [done|]. intros Hperm.
  destruct (Hx Hex) as (He & Hkept & Hsame). destruct (Hpost He) as [Hp Hf]. destruct (Hf Hperm) as (-> & Hl & Hpd).
  split; [by apply (Hsame _ eq_refl)|]. split; [done|].
  congruence.
Qed.

(** ** Other owners *)

Definition private_turn (context : RequestContext) (w w' : world) : Prop :=
  private_to context (cw_memory w) (cw_memory w').

#[export] Instance private_turn_preorder context : PreOrder (private_turn context).
Proof.
  split; [intros w; unfold private_turn; reflexivity|].
  intros w1 w2 w3 H12 H23. unfold private_turn in *. by etrans.
Qed.

Section Private.
Context (closes : list RagStreamEvent -> bool) (context : RequestContext) (Hc : trimmed_caller context).
Abbreviation own := (keeps (E := exc) (private_turn context)).

Lemma own_mem {A} (m : eff exc (memory_world S) A) : keeps (private_to context) m -> own (mem m).
Proof. intros Hm w. unfold mem, private_turn. specialize (Hm (cw_memory w)). by destruct (m (cw_memory w)). Qed.

Lemma own_quiet {A} (m : eff exc world A) :
  (forall w, db (m w).2 = db w /\ published (m w).2 = published w) -> own m.
Proof.
  intros Hm w. destruct (Hm w) as [Hd Hp]. apply private_same; [exact Hp|left; exact Hd].
Qed.
Lemma own_modify f : (forall w, cw_memory (f w) = cw_memory w) -> own (modify f).
Proof. intros Hf. apply own_quiet. intros w. unfold db, published. cbn. by rewrite Hf. Qed.
Lemma own_port {A} (m : eff exc S A) : own (port m).
Proof.
  apply own_quiet. intros w. unfold port, mem. by destruct (m (mw_ports (cw_memory w))).
Qed.
Lemma own_clock : own (clock P).
Proof. apply own_quiet. intros w. unfold clock, mem, ask. by destruct (chat_clock P (mw_ports (cw_memory w))). Qed.
Lemma own_elapsed started : own (chat_elapsed P started).
Proof. apply keeps_bind; [apply _|apply own_clock|]. intros. apply keeps_ret, _. Qed.

Lemma own_suppressed m : own m -> own (suppressed m).
Proof. intros Hm. apply keeps_try; [apply _|done|]. intros e. case_match; [apply keeps_ret, _|apply keeps_raise, _]. Qed.

(** Compositions of private steps: the leaves are the lemmas given. *)
Ltac own_leaf := first
  [ apply keeps_ret, _ | apply keeps_raise, _ | apply keeps_lift, _ | apply keeps_reads, _
  | apply own_modify; intros; reflexivity | apply own_port | apply own_clock | apply own_elapsed ].
Ltac own_with leaf := repeat (cbn zeta; lazymatch goal with
  | |- keeps _ (mthen _ _) => apply keeps_bind; [apply _| |]
  | |- keeps _ (mcatch _ _) => apply keeps_try; [apply _| |]
  | |- keeps _ (try_finally _ _) => apply keeps_finally; [apply _| |]
  | |- keeps _ (suppressed _) => apply own_suppressed
  | |- keeps _ _ => first [own_leaf | leaf]
  | |- forall _, _ => intros ?
  end).
Ltac own := own_with fail.

Lemma own_audit cx response action status latency code :
  own (_record_chat_audit P cx response action status latency code).
Proof. unfold _record_chat_audit. own. Qed.

Lemma own_report command effective started action error streamed :
  own (report P command effective started action error streamed).
Proof. unfold report, _record_chat_failure_audit. own_with ltac:(apply own_audit). Qed.

Lemma own_op {A} o (m : eff exc (memory_world S) A) :
  op_context o = context \/ (exists id, op_context o = with_session context id) ->
  (forall w, (m w).2 = run_op (memory_port P) config o w) -> own (mem m).
Proof.
  intros Ho Hm. apply own_mem. intros w. rewrite Hm.
  assert (trimmed_caller (op_context o) /\ private_to (S := S) (op_context o) = private_to context) as [Ht <-]
    by (destruct Ho as [->|[id ->]]; done).
  by apply op_private.
Qed.

Lemma own_open command effective : own (open_turn P config context command effective).
Proof.
  unfold open_turn. own_with ltac:(first
    [ by apply own_mem, open_private | apply own_mem, commit_private
    | eapply (own_op (OpHistory _ _)); [right; by eexists|done]
    | eapply (own_op (OpUser _ _ _)); [right; by eexists|done] ]).
Qed.

Lemma own_answer session content md na code :
  own (mem (append_assistant_message (memory_port P) config (with_session context session) session content md na code)).
Proof. eapply (own_op (OpAssistant _ _ _ _ _ _)); [right; by eexists|done]. Qed.

Ltac own_turn := own_with ltac:(first
  [ apply own_audit | apply own_report | apply own_open | apply own_answer | apply own_mem, commit_private
  | apply own_mem, rollback_private ]).

Lemma own_chat command session_id : own (chat P config context command session_id).
Proof.
  unfold chat, chat_body. own_turn. match goal with e : exc |- _ => destruct e end; cbn [chat_handler]; own_turn.
Qed.

Lemma own_yield event : own (Chat.yield_event closes event).
Proof. unfold Chat.yield_event. own. case_match; own. Qed.

Lemma own_finish session started payload :
  own (finish_turn P config closes (with_session context session) session started payload).
Proof. unfold finish_turn. own_turn. apply own_yield. Qed.

Lemma own_forward session started events :
  own (forward_events P config closes (with_session context session) session started events).
Proof.
  induction events as [|[event|e] events IH]; cbn [forward_events]; own; [|exact IH].
  destruct (final_payload event); [apply own_finish|apply own_yield].
Qed.

Lemma own_failure effective error : own (yield_failure closes effective error).
Proof. unfold yield_failure. own_with ltac:(apply own_yield). Qed.

Lemma own_stream command session_id : own (stream_chat P config closes context command session_id).
Proof.
  unfold stream_chat, Chat.stream_body. own_turn; [apply own_forward|..].
  - case_match; own_turn. apply own_failure.
  - match goal with e : exc |- _ => destruct e end; cbn [Chat.stream_handler]; own_turn; apply own_failure.
Qed.
End Private.
End TurnSteps.

(** * The guarantees *)

Section ChatTheorems.
Context `{PyRepr, UnicodeDB, NetlocCheck}.
Context {S : Type} (P : chat_ports S) (config : ChatMemoryConfig).

(** C13: a turn that returns an answer has published it: on a fresh transaction over the
    tables [d], the published tables afterwards are [d] with exactly two messages more,
    the caller's question and the answer returned, both active, owned by the caller, in
    the session named in the response and numbered next after the messages the session
    had; the tables are well formed, nothing is left uncommitted, and the response is
    the caller's own. *)
Theorem chat_turn_published context command session_id s d response w' :
  chat P config context command session_id (request s d context) = (Ok response, w') ->
  context_wf context -> db_wf d ->
  has_rag_query_permission (rc_auth context) = true /\
  (qr_tenant_id (cr_response response), qr_user_id (cr_response response)) = caller context /\
  exists sid, cr_session_id response = strip sid /\
    answered config context command sid (qr_answer (cr_response response)) d w'.
Proof.
  intros E Hwf Hd. destruct (ends_run _ _ _ _ _ (chat_steps P config context command session_id s d Hwf Hd) E)
    as (_ & Hid & Hperm & Hans). by split_and!.
Qed.


(** A caller without the query permission reaches nothing: no question is stored,
    the query service is not called, the tables stay as they were, and the refusal
    (403, RAG_QUERY_FORBIDDEN) is audited as denied. *)
Theorem chat_refused context command session_id s d r w' :
  chat P config context command session_id (request s d context) = (r, w') ->
  context_wf context -> db_wf d -> has_rag_query_permission (rc_auth context) = false ->
  (exists e, r = Err e /\ is_exception e = false) \/
  (r = Err (EDomain (_query_forbidden_error context)) /\ published w' = d /\ db w' = d /\
   exists event recorded, cw_log w' = [RecordAudit event recorded] /\
     audited_as context AuditDENIED (Some RAG_QUERY_FORBIDDEN) event).
Proof.
  intros E Hwf Hd Hperm.
  pose proof (ends_run _ _ _ _ _ (chat_steps P config context command session_id s d Hwf Hd) E) as Hr.
  destruct r as [response|e]; [destruct Hr as (_ & _ & Hp & _); congruence|].
  destruct (is_exception e) eqn:He; [right|left; by exists e].
  destruct (Hr eq_refl) as (w1 & Hh & Hf). destruct (Hf Hperm) as (-> & Hl & Hp).
  destruct (Hh eq_refl) as (error & [= <-] & Hdb & _ & (event & recorded & Hlog & Ha)).
  split; [done|]. split; [done|]. split; [congruence|]. exists event, recorded. rewrite Hl in Hlog. by split.
Qed.

(** C16: isolation of turns: whatever a turn of one caller does, as one answer or as a
    stream, and however it ends, the rows of every other tenant and user stay as they
    are, in the transaction and in the published tables, which stay well formed. *)
Theorem chat_turn_isolated closes context command session_id s d tenant user :
  context_wf context -> db_wf d -> caller context <> (tenant, user) ->
  let after (w' : chat_world S) :=
    db_wf (published w') /\ owner_view tenant user (db w') = owner_view tenant user d /\
    owner_view tenant user (published w') = owner_view tenant user d in
  after (chat P config context command session_id (request s d context)).2 /\
  after (stream_chat P config closes context command session_id (request s d context)).2.
Proof.
  intros Hwf Hd Hne after.
  assert (forall w', private_turn context (request s d context) w' -> after w') as Hafter.
  { intros w' Hpriv. destruct Hpriv as [[Hok Hokc] Hrest]; [by split|].
    destruct (Hrest tenant user) as [Hcl Hv]; [by destruct (caller context)|done|].
    split; [done|]. unfold clean in Hcl. unfold db, published. rewrite Hcl. done. }
  split; apply Hafter; [apply own_chat|apply own_stream]; by apply context_trimmed.
Qed.
End ChatTheorems.

(** * An instance *)

Module ChatExamples.
Import Examples RedactExamples PackExamples SourceExamples HydrateExamples RagExamples.

(** Identifiers count up; the query service answers from one retrieved chunk. *)
Definition chat1 : chat_ports Z :=
  {| memory_port := MemoryExamples.ports1;
     rag_query := fun cx cmd mc n =>
       (match (query (ports1 [candidate1]) service1 cx cmd (Some mc) false (new_world tt)).1 with
        | Ok x => Ok x.1 | Err e => Err e end, n);
     rag_stream := fun _ _ _ n => ([], n);
     rag_aclose := fun n => (Ok tt, n);
     chat_audit := fun _ n => (Ok tt, n);
     chat_clock := fun n => (fone, n) |}.

(** The same, with a query service that fails. *)
Definition chat_down : chat_ports Z :=
  {| memory_port := memory_port chat1;
     rag_query := fun cx _ _ n => (Err (EDomain (query_failed cx)), n);
     rag_stream := rag_stream chat1; rag_aclose := rag_aclose chat1; chat_audit := chat_audit chat1;
     chat_clock := chat_clock chat1 |}.

Definition turn1 := chat chat1 default_memory_config context1 command1 None (request 0%Z empty_db context1).
Definition turn_down := chat chat_down default_memory_config context1 command1 None (request 0%Z empty_db context1).

(** A caller who may read documents but not query them. *)
Definition visitor : RequestContext :=
  {| rc_request_id := u "r1"; rc_trace_id := u "tr1"; rc_session_id := None; rc_auth_method := None;
     rc_auth := {| auth_user_id := u "bob"; auth_tenant_id := u "t1"; auth_roles := [];
                   auth_department := None; auth_permissions := [u "document:read"];
                   auth_identity_provider := None; auth_version := None; auth_jti := None;
                   auth_session_id := None; auth_session_expires_at := None;
                   auth_token_expires_at := None |} |}.
Lemma visitor_wf : context_wf visitor.
Proof.
  split; [split; [reflexivity|discriminate]..|].
  split; try (split; [reflexivity|discriminate]); try (repeat constructor; discriminate); try reflexivity.
Defined.

Definition refused1 := chat chat1 default_memory_config visitor command1 None (request 0%Z empty_db visitor).

Definition stored (w : chat_world Z) : list (ChatMessageRole * Z) :=
  (fun m => (me_role (mr_create m), mr_sequence_no m)) <$> db_messages (published w).

Example turns :
  stored turn1.2 = [(RoleOfUser, 1%Z); (RoleOfAssistant, 2%Z)] /\ stored turn_down.2 = [(RoleOfUser, 1%Z)] /\
  stored refused1.2 = [].
Proof. vm_compute. split_and!; reflexivity. Qed.
End ChatExamples.

Lemma chat_turn_published_witness :
  exists response w', ChatExamples.turn1 = (Ok response, w') /\
    length (db_messages (published w')) = 2 /\
    exists sid, cr_session_id response = strip sid.
Proof.
  destruct (chat (H0 := RedactExamples.ascii_only) (H1 := SourceExamples.any_netloc) ChatExamples.chat1
    default_memory_config RagExamples.context1 RagExamples.command1 None
    (request 0%Z empty_db RagExamples.context1)) as [[response|e] w'] eqn:E.
  2:{ apply (f_equal (fun x => is_ok x.1)) in E. vm_compute in E. discriminate E. }
  exists response, w'. split; [done|]. 
  destruct (chat_turn_published (H0 := RedactExamples.ascii_only)
    (H1 := SourceExamples.any_netloc) ChatExamples.chat1 default_memory_config RagExamples.context1
    RagExamples.command1 None 0%Z empty_db response w' E RagExamples.context1_wf empty_wf)
    as (_ & _ & sid & Hsid & question & reply & Hms & _).
  split; [by rewrite Hms|by exists sid].
Defined.


Lemma chat_refused_witness :
  published (chat (H0 := RedactExamples.ascii_only) (H1 := SourceExamples.any_netloc) ChatExamples.chat1
    default_memory_config ChatExamples.visitor RagExamples.command1 None
    (request 0%Z empty_db ChatExamples.visitor)).2 = empty_db.
Proof.
  destruct (chat (H0 := RedactExamples.ascii_only) (H1 := SourceExamples.any_netloc) ChatExamples.chat1
    default_memory_config ChatExamples.visitor RagExamples.command1 None (request 0%Z empty_db ChatExamples.visitor)) as [r w'] eqn:E.
  destruct (chat_refused (H0 := RedactExamples.ascii_only)
    (H1 := SourceExamples.any_netloc) ChatExamples.chat1 default_memory_config ChatExamples.visitor
    RagExamples.command1 None 0%Z empty_db r w' E ChatExamples.visitor_wf empty_wf eq_refl) as [(e & He & Hx)|(_ & Hp & _)].
  - apply (f_equal (fun x => match x.1 with Err e => is_exception e | Ok _ => true end)) in E.
    rewrite He in E. cbn [fst] in E. rewrite Hx in E. vm_compute in E. discriminate E.
  - exact Hp.
Defined.

Lemma chat_turn_isolated_witness :
  owner_view (u "acme") (u "alice") (published (chat (H0 := RedactExamples.ascii_only)
    (H1 := SourceExamples.any_netloc) ChatExamples.chat1 default_memory_config RagExamples.context1
    RagExamples.command1 None (request 50%Z (mw_committed MemoryExamples.after) RagExamples.context1)).2)
  = owner_view (u "acme") (u "alice") (mw_committed MemoryExamples.after).
Proof.
  assert (caller RagExamples.context1 <> (u "acme", u "alice")) as Hne by (vm_compute; discriminate).
  exact (proj2 (proj2 (proj1 (chat_turn_isolated (H := Examples.repr0) (H0 := RedactExamples.ascii_only)
    (H1 := SourceExamples.any_netloc) ChatExamples.chat1 default_memory_config (fun _ => false)
    RagExamples.context1 RagExamples.command1 None 50%Z (mw_committed MemoryExamples.after) (u "acme") (u "alice")
    RagExamples.context1_wf (proj2 MemoryExamples.after_wf) Hne)))).
Defined.
