(* ===== verification/ChatStreamGuarantee.v ===== *)
(** Streams of chat turns.

    The streamed turn of [Chat] forwards the events of a query and sends one last
    event: the query's, once the answer is published, or its own error report.  The
    query service enters through the class [QueryStreams]; the streams of [RagQuery]
    are an instance. *)

From Stdlib Require Import ZArith String Sorting.Sorted Permutation.
From S2P Require Import Prelude Effects Float64 PyVal Access Redact SourceMetadata Rrf ContextPacker.
From S2P Require Import AgentDto RagDto CitationExtractor Hydration PromptBuilder Generation.
From S2P Require Import RagStreaming RagQuery RagGuarantee RagStreamGuarantee ChatMemory Chat ChatGuarantee.
From stdpp Require Import base list numbers sets.

(** * Streams *)

Definition nonfinal (e : RagStreamEvent) : Prop := final_payload e = None.

(** The runs of the query service: a final event, with proper identifiers, is the
    last event delivered; only the closing of the generator may follow it. *)
Fixpoint proper_run `{UnicodeDB} (run : list (result exc RagStreamEvent)) : Prop :=
  match run with
  | [] | Err _ :: _ => True
  | Ok e :: rest =>
      match final_payload e with
      | None => proper_run rest
      | Some p => (rest = [] \/ rest = [Err EGeneratorExit]) /\
                  (strip (fp_request_id p) = fp_request_id p /\ fp_request_id p <> []) /\
                  (strip (fp_trace_id p) = fp_trace_id p /\ fp_trace_id p <> [])
      end
  end.

Definition is_audit (c : chat_call) : bool := match c with RecordAudit _ _ => true | _ => false end.
Definition audit_count (log : list chat_call) : nat := length (List.filter is_audit log).

Lemma audit_count_app l k : audit_count (l ++ k) = audit_count l + audit_count k.
Proof. unfold audit_count. by rewrite List.filter_app, length_app. Qed.

(** The final event of the query, with the session added. *)
Definition enriched_from `{UnicodeDB} (p : FinalEventPayload) (sid : pystr) (e : RagStreamEvent) : Prop :=
  exists md, e = FinalEvent (fp_request_id p) (fp_trace_id p) (fp_status p) (Some (strip sid)) (fp_tenant_id p)
                  (fp_user_id p) (fp_answer p) (fp_citations p) (fp_no_answer p) (fp_unsupported_claims p) md.

Definition is_error_event (context : RequestContext) (e : RagStreamEvent) : Prop :=
  exists code message details, e = ErrorEvent (rc_request_id context) (rc_trace_id context) code message details true.
Definition is_failure_event (context : RequestContext) (e : RagStreamEvent) : Prop :=
  exists sid md, e = FinalEvent (rc_request_id context) (rc_trace_id context) StreamError sid
    (auth_tenant_id (rc_auth context)) (auth_user_id (rc_auth context)) DEFAULT_NO_ANSWER_TEXT [] true [] md.

Section StreamSteps.
Context `{PyRepr, UnicodeDB, NetlocCheck}.
Context {S : Type} (P : chat_ports S) (config : ChatMemoryConfig) (closes : list RagStreamEvent -> bool).
Abbreviation world := (chat_world S).

(** The audit log and the closing of a stream fail with exceptions only. *)
Definition ports_run : Prop :=
  (forall event s x, (chat_audit P event s).1 = Err x -> is_exception x = true) /\
  (forall s x, (rag_aclose P s).1 = Err x -> is_exception x = true).

Context (context : RequestContext) (command : QueryCommand) (d : chat_db).
Context (Hwf : context_wf context) (Hports : ports_run).

(** At most the question is published. *)
Definition unanswered (w' : world) : Prop := published w' = d \/ asked config context command d w'.

(** How a stream ends: its outcome, the events after the forwarded ones, and the
    number of audit attempts. *)
Inductive chat_end (w' : world) : result exc unit -> list RagStreamEvent -> nat -> Prop :=
| ce_answered r f sid payload :
    r = Ok tt \/ r = Err EGeneratorExit -> enriched_from payload sid f ->
    answered config context command sid (_assistant_storage_content payload (final_error_code payload)) d w' ->
    chat_end w' r [f] 1
| ce_failed r e f :
    r = Ok tt \/ r = Err EGeneratorExit -> is_error_event context e -> is_failure_event context f ->
    unanswered w' -> db w' = published w' -> chat_end w' r [e; f] 1
| ce_closed : unanswered w' -> chat_end w' (Err EGeneratorExit) [] 0
| ce_closed_at_error e : is_error_event context e -> unanswered w' -> chat_end w' (Err EGeneratorExit) [e] 1
| ce_cancelled : unanswered w' -> chat_end w' (Err ECancelled) [] 1
| ce_unreportable x : is_exception x = true -> unanswered w' -> db w' = published w' -> chat_end w' (Err x) [] 1.

Lemma ends_yield e (Q : result exc unit -> world -> Prop) w :
  (forall r, r = Ok tt \/ r = Err EGeneratorExit ->
     Q r {| cw_memory := cw_memory w; cw_log := cw_log w; cw_events := cw_events w ++ [e]; cw_locals := cw_locals w |}) ->
  ends (Chat.yield_event closes (Ok e)) Q w.
Proof.
  intros HQ. unfold Chat.yield_event. apply ends_bind, ends_lift, ends_bind, ends_modify, ends_bind, ends_reads.
  case_match; [apply ends_raise|apply ends_ret]; apply HQ; auto.
Qed.

Lemma audit_runs_steps cx response action status lat code w :
  ends (_record_chat_audit P cx response action status (_elapsed_ms lat) code)
    (fun r w' => quiet w w' /\ r = Ok tt /\
       (context_wf cx -> nonblank_text (u action) = Ok (u action) ->
        strip (cr_session_id response) = cr_session_id response -> cr_session_id response <> [] ->
        audit_count (cw_log w') = Datatypes.S (audit_count (cw_log w)))) w.
Proof.
  destruct Hports as [Haudit _].
  assert (ends (_record_chat_audit P cx response action status (_elapsed_ms lat) code) (fun r _ => r = Ok tt) w) as Hok.
  { unfold _record_chat_audit. apply ends_suppressed, ends_bind, ends_lift.
    destruct (chat_audit_event cx response action status (_elapsed_ms lat) code) as [event|e] eqn:E.
    - apply ends_try, ends_bind, ends_port. intros r s Hr. destruct r as [[]|x]; [by apply ends_modify|].
      apply ends_bind, ends_modify, ends_raise.
      rewrite (Haudit event (mw_ports (cw_memory w)) x) by (by rewrite Hr). done.
    - unfold chat_audit_event in E.
      by rewrite (rex_bind _ _ (rex_validated _) (fun _ => rex_validated _) e E). }
  pose proof (audit_steps P cx response action status lat code w) as Hsteps. unfold ends in *.
  destruct Hsteps as (Hq & _ & Hau). split; [done|]. split; [done|]. intros H1' H2 H3 H4.
  destruct (Hau H1' H2 H3 H4) as (ev & b & -> & _). rewrite audit_count_app. cbn. lia.
Qed.

Lemma report_runs_steps effective started action error streamed w :
  nonblank_text (u action) = Ok (u action) -> context_wf (lc_context (cw_locals w)) ->
  ends (report P command effective started action error streamed)
    (fun r w' => quiet w w' /\ r = Ok (error (lc_context (cw_locals w))) /\
       audit_count (cw_log w') = Datatypes.S (audit_count (cw_log w))) w.
Proof.
  intros Ha Hcx. pose proof (report_steps P command effective started action error streamed w Ha) as Hr.
  assert (ends (report P command effective started action error streamed) (fun r _ => is_ok r = true) w) as Hok.
  { unfold report. apply ends_bind, ends_reads. cbn zeta. apply ends_bind, ends_elapsed.
    intros lat w1 Hl1 He1 Hlo1 Hp1 Hd1. apply ends_bind. unfold _record_chat_failure_audit. apply ends_bind, ends_lift.
    destruct (failure_response_ok (lc_context (cw_locals w)) command
      (or_text (rc_session_id (lc_context (cw_locals w))) effective) (_elapsed_ms lat)
      (error (lc_context (cw_locals w))) (if streamed then Some (lc_counts (cw_locals w)) else None) Hcx) as (resp & -> & Hs & Hs').
    eapply ends_mono; [apply audit_runs_steps|]. intros r w2 (_ & -> & _). by apply ends_ret. }
  unfold ends in *. destruct Hr as (Hq & Hval & Hau). split; [done|].
  destruct (report P command effective started action error streamed w) as [[e|e] w'] eqn:E; [|done].
  cbn in *. split; [f_equal; by apply Hval|]. destruct (Hau Hcx) as [_ (ev & b & -> & _)].
  rewrite audit_count_app. cbn. lia.
Qed.

(** The context of the turn, before or after its session is known. *)
Definition turn_context (cx : RequestContext) : Prop := cx = context \/ exists id, cx = with_session context id.

Lemma turn_context_wf cx : turn_context cx -> context_wf cx.
Proof. intros [->|[id ->]]; [done|by apply with_session_wf]. Qed.

(** A step that leaves the tables, the calls and the context. *)
Record still (w w' : world) : Prop := {
  sl_log : cw_log w' = cw_log w;
  sl_context : lc_context (cw_locals w') = lc_context (cw_locals w);
  sl_published : published w' = published w;
  sl_db : db w' = db w
}.

Lemma unanswered_still w w' :
  published w' = published w -> lc_context (cw_locals w') = lc_context (cw_locals w) -> unanswered w -> unanswered w'.
Proof.
  intros Hp Hcx [Hd|(sid & q & Hc & Hm & Hrow)]; [left; congruence|right]. exists sid, q. by rewrite Hp, Hcx.
Qed.

Lemma final_event_fix r t n us a cs na cl md st sid :
  strip r = r /\ r <> [] -> strip t = t /\ t <> [] -> strip n = n /\ n <> [] -> strip us = us /\ us <> [] ->
  final_event r t n us a cs na cl (plain md) st sid
  = Ok (FinalEvent r t st (optional_text sid) n us a cs na cl (redact_mapping md)).
Proof.
  intros [Hr Hr'] [Ht Ht'] [Hn Hn'] [Hu Hu']. unfold final_event.
  by rewrite (text_fix _ Hr Hr'), (text_fix _ Ht Ht'), (text_fix _ Hn Hn'), (text_fix _ Hu Hu').
Qed.

Lemma yield_failure_steps effective error w :
  turn_context (lc_context (cw_locals w)) ->
  ends (yield_failure closes effective error)
    (fun r w' => still w w' /\
       ((exists x, r = Err x /\ is_exception x = true /\ cw_events w' = cw_events w /\
            blank (de_code error) || blank (de_message error) = true) \/
        (r = Err EGeneratorExit /\ exists e, is_error_event context e /\ cw_events w' = cw_events w ++ [e]) \/
        ((r = Ok tt \/ r = Err EGeneratorExit) /\
         exists e f, is_error_event context e /\ is_failure_event context f /\
           cw_events w' = cw_events w ++ [e; f]))) w.
Proof.
  intros Hcx. unfold yield_failure. apply ends_bind, ends_reads, ends_bind, ends_modify, ends_bind.
  set (cx := lc_context (cw_locals w)) in *.
  assert (rc_request_id cx = rc_request_id context /\ rc_trace_id cx = rc_trace_id context /\ rc_auth cx = rc_auth context)
    as (Hr & Ht & Ha) by (destruct Hcx as [->|[id ->]]; done).
  rewrite Hr, Ht. destruct Hwf as [[Hr1 Hr2] [Ht1 Ht2] [[Hu1 Hu2] [Hn1 Hn2] _ _ _ _]].
  destruct (safe_error_event (rc_request_id context) (rc_trace_id context) (de_code error) (de_message error)
    (de_details error) true) as [e|x] eqn:E.
  - assert (is_error_event context e) as He.
    { unfold safe_error_event in E. rewrite (text_fix _ Hr1 Hr2), (text_fix _ Ht1 Ht2) in E. cbn [mbind result_bind] in E.
      ok_inv E. by eexists _, _, _. }
    apply ends_yield. intros r Hexit. destruct r as [[]|x].
    2:{ destruct Hexit as [?|?]; [done|]. simplify_eq. split; [by split|]. right. left. split; [done|]. by exists e. }
    apply ends_bind, ends_modify, ends_bind, ends_reads. cbn [cw_locals lc_counts].
    unfold _error_final_event. rewrite Hr, Ht, Ha.
    rewrite (final_event_fix (rc_request_id context) (rc_trace_id context) (auth_tenant_id (rc_auth context))
      (auth_user_id (rc_auth context))) by done.
    apply ends_yield. intros r Hr'. split; [by split|]. right. right. split; [done|].
    eexists e, _. split; [done|]. split; [by eexists _, _|]. cbn [cw_events]. by rewrite <- app_assoc.
  - split; [by split|]. left. exists x. split; [done|].
    assert (raises_exc (safe_error_event (rc_request_id context) (rc_trace_id context) (de_code error) (de_message error)
      (de_details error) true)) as Hrex by (unfold safe_error_event; rex).
    split; [by apply Hrex|]. split; [done|].
    unfold safe_error_event in E. rewrite (text_fix _ Hr1 Hr2), (text_fix _ Ht1 Ht2) in E. cbn [mbind result_bind] in E.
    unfold text, validated, _required_text, blank in *.
    destruct (strip (de_code error)); [done|]. by destruct (strip (de_message error)).
Qed.

(** ** Forwarding *)

(** What forwarding a run leaves: the events sent, then, when the run had one, the
    final event, with the answer published. *)
Definition forwarded (sid : pystr) (run : list (result exc RagStreamEvent)) (w : world)
    (r : result exc unit) (w' : world) : Prop :=
  exists sent, (Ok <$> sent) `prefix_of` run /\ Forall nonfinal sent /\
    lc_context (cw_locals w') = lc_context (cw_locals w) /\
  ( (cw_events w' = cw_events w ++ sent /\ published w' = published w /\
     audit_count (cw_log w') = audit_count (cw_log w) /\
     (r = Ok tt -> db w' = db w /\ lc_seen_final (cw_locals w') = lc_seen_final (cw_locals w)))
  \/ (exists payload f, enriched_from payload sid f /\ (r = Ok tt \/ r = Err EGeneratorExit) /\
     cw_events w' = cw_events w ++ sent ++ [f] /\ lc_seen_final (cw_locals w') = true /\
     audit_count (cw_log w') = Datatypes.S (audit_count (cw_log w)) /\
     answered config context command sid (_assistant_storage_content payload (final_error_code payload)) d w')).

Lemma stream_finish_steps session w0 w started payload :
  opened config context command w0 session w -> db w0 = d ->
  strip (fp_request_id payload) = fp_request_id payload /\ fp_request_id payload <> [] ->
  strip (fp_trace_id payload) = fp_trace_id payload /\ fp_trace_id payload <> [] ->
  ends (finish_turn P config closes (with_session context (cs_id session)) (cs_id session) started payload)
    (fun r w' => lc_context (cw_locals w') = lc_context (cw_locals w) /\
       ((cw_events w' = cw_events w /\ published w' = published w /\ cw_log w' = cw_log w /\ r <> Ok tt) \/
        (exists f, enriched_from payload (cs_id session) f /\ (r = Ok tt \/ r = Err EGeneratorExit) /\
           cw_events w' = cw_events w ++ [f] /\ lc_seen_final (cw_locals w') = true /\
           audit_count (cw_log w') = Datatypes.S (audit_count (cw_log w)) /\
           answered config context command (cs_id session)
             (_assistant_storage_content payload (final_error_code payload)) d w'))) w.
Proof.
  intros Ho Hd Hrid Htid. unfold finish_turn. apply ends_bind, ends_modify, ends_bind, ends_lift.
  unfold _validate_final_identity. destruct (same_caller _ _ _) eqn:Hsame; [|split; [done|]; by left].
  unfold same_caller in Hsame. cbn [with_session rc_auth] in Hsame.
  apply andb_true_iff in Hsame as [Ht%bool_decide_eq_true Hu%bool_decide_eq_true]. cbn zeta.
  match goal with |- ends _ _ ?w => set (w1 := w) end.
  assert (opened config context command w0 session w1) as Ho1 by (destruct Ho; by split).
  apply ends_bind. eapply ends_mono; [by apply (answer_steps P config context command d w0); [apply context_trimmed|..]|].
  intros r w2 (Hl2 & He2 & Hlo2 & Hp2 & Hr2).
  destruct r as [a|e]; [|split; [by rewrite Hlo2|]; left; by rewrite He2, Hp2, Hl2].
  apply ends_bind, commit_ends.
  2:{ intros e w3 Hl3 He3 Hlo3 Hp3 _. split; [by rewrite Hlo3, Hlo2|]. left. by rewrite He3, He2, Hp3, Hp2, Hl3, Hl2. }
  intros w3 Hl3 He3 Hlo3 Hp3 Hd3. apply ends_bind, ends_reads. cbn zeta. apply ends_bind, ends_lift.
  pose proof Hwf as [_ _ [[Hu1 Hu2] [Hn1 Hn2] _ _ _ _]].
  rewrite final_event_fix by (rewrite ?Ht, ?Hu; done). apply ends_bind, ends_lift. cbn [final_payload].
  specialize (Hr2 w3 Hp3 Hd3).
  assert (strip (cs_id session) <> []) as Hsid.
  { destruct Hr2 as (q & a' & _ & _ & Hrow & _). apply Hrow. }
  unfold _chat_response_from_final, make_chat_response, make_query_response.
  cbn [fp_request_id fp_trace_id fp_tenant_id fp_user_id fp_answer fp_citations fp_no_answer fp_unsupported_claims fp_metadata].
  destruct Hrid as [Hi1 Hi2], Htid as [Hj1 Hj2].
  rewrite (text_fix _ Hi1 Hi2), (text_fix _ Hj1 Hj2), Ht, Hu, (text_fix _ Hn1 Hn2), (text_fix _ Hu1 Hu2).
  assert (text (cs_id session) = Ok (strip (cs_id session))) as ->
    by (unfold text, validated, _required_text; destruct (strip (cs_id session)); done).
  cbn [mbind result_bind mret result_ret]. apply ends_bind, ends_elapsed. intros lat w4 Hl4 He4 Hlo4 Hp4 Hd4.
  apply ends_bind. eapply ends_mono; [apply audit_runs_steps|]. intros r w5 ([_ He5 Hlo5 Hp5 Hd5] & -> & Hau).
  apply ends_yield. intros r Hr. cbn [cw_locals]. split; [rewrite Hlo5, Hlo4, Hlo3, Hlo2; done|]. right.
  eexists. split; [|split; [done|]].
  2:{ cbn [cw_events cw_log]. split; [by rewrite He5, He4, He3, He2|].
      split; [by rewrite Hlo5, Hlo4, Hlo3, Hlo2|]. split.
      - rewrite Hau, Hl4, Hl3, Hl2; [done|by apply with_session_wf|vm_compute; reflexivity| |done].
        cbn [cr_session_id]. apply strip_idem.
      - destruct Hr2 as (q & a' & Hms & Hdb & Hq & Ha' & Hwf'). exists q, a'. unfold published, db in *. cbn.
        rewrite Hp5, Hp4, Hd5, Hd4. by split_and!. }
  eexists. rewrite Ht, Hu. f_equal. unfold optional_text. destruct (strip (cs_id session)); done.
Qed.

Lemma forward_steps session w0 started run w :
  opened config context command w0 session w -> db w0 = d -> proper_run run ->
  ends (forward_events P config closes (with_session context (cs_id session)) (cs_id session) started run)
    (forwarded (cs_id session) run w) w.
Proof.
  intros Ho Hd. revert w Ho. induction run as [|[event|e] run IH]; intros w Ho Hrun; cbn [forward_events].
  - apply ends_ret. exists []. split; [done|]. split; [constructor|]. split; [done|]. left.
    rewrite app_nil_r. by split_and!.
  - apply ends_bind, ends_modify, ends_bind. match goal with |- ends _ _ ?w => set (w1 := w) end.
    assert (opened config context command w0 session w1) as Ho1 by (destruct Ho; by split).
    cbn [proper_run] in Hrun. destruct (final_payload event) as [payload|] eqn:Hf.
    + destruct Hrun as (Hlast & Hrid & Htid). eapply ends_mono; [by apply (stream_finish_steps session w0)|].
      intros r w2 [Hcx [(He & Hp & Hl & Hr)|(f & Hen & Hr & He & Hs & Hau & Hans)]].
      * destruct r as [[]|x]; [done|]. exists []. split; [apply prefix_nil|]. split; [constructor|]. split; [done|].
        left. rewrite app_nil_r. by rewrite He, Hp, Hl.
      * assert (forall r', r' = Ok tt \/ r' = Err EGeneratorExit ->
          forwarded (cs_id session) (Ok event :: run) w r' w2) as Hdone.
        { intros r' Hr'. exists []. split; [apply prefix_nil|]. split; [constructor|]. split; [done|]. right. exists payload, f.
          by split_and!. }
        destruct r as [[]|x]; [|by apply Hdone].
        destruct Hlast as [->| ->]; [apply ends_ret|apply ends_raise]; apply Hdone; auto.
    + apply ends_yield. intros r Hr. destruct r as [[]|x].
      * match goal with |- ends _ _ ?w => set (w2 := w) end.
        assert (opened config context command w0 session w2) as Ho2 by (destruct Ho; by split).
        eapply ends_mono; [apply (IH w2 Ho2 Hrun)|]. intros r w3 (sent & Hpre & Hall & Hcx & Hcase).
        exists (event :: sent). split; [by apply prefix_cons|]. split; [by constructor|]. split; [done|].
        destruct Hcase as [(He & Hp & Hau & Hok)|(payload & f & Hen & Hr3 & He & Hrest)].
        -- left. split; [rewrite He; cbn [cw_events w2]; by rewrite <- app_assoc|]. by split_and!.
        -- right. exists payload, f. split; [done|]. split; [done|].
           split; [rewrite He; cbn [cw_events w2]; by rewrite <- app_assoc|done].
      * destruct Hr as [?|?]; [done|]. simplify_eq. exists [event].
        split; [apply prefix_cons, prefix_nil|]. split; [by constructor|]. split; [done|]. left. by split_and!.
  - apply ends_raise. exists []. split; [apply prefix_nil|]. split; [constructor|]. split; [done|]. left.
    rewrite app_nil_r. by split_and!.
Qed.

(** ** The whole stream *)

(** The outcome of the body before the handlers: every event but the ending has been
    forwarded from a run of the query. *)
Definition sent_from (sent : list RagStreamEvent) : Prop :=
  Forall nonfinal sent /\
  exists id mc s, (Ok <$> sent) `prefix_of` (rag_stream P (with_session context id) command mc s).1.

Definition stream_outcome (w0 : world) (r : result exc unit) (w' : world) : Prop :=
  exists sent tail n, cw_events w' = cw_events w0 ++ sent ++ tail /\ sent_from sent /\
    audit_count (cw_log w') = audit_count (cw_log w0) + n /\ chat_end w' r tail n.

(** What the body may leave to the handlers. *)
Definition body_outcome (w0 : world) (r : result exc unit) (w' : world) : Prop :=
  turn_context (lc_context (cw_locals w')) /\
  match r with
  | Err (EDomain _ | EException _ | ECancelled) =>
      unanswered w' /\ exists sent, cw_events w' = cw_events w0 ++ sent /\ sent_from sent /\
        audit_count (cw_log w') = audit_count (cw_log w0)
  | r => stream_outcome w0 r w'
  end.

Lemma closing_steps w :
  ends (mthen (note CloseRag) (fun _ => suppressed (port (rag_aclose P))))
    (fun r w' => r = Ok tt /\ cw_events w' = cw_events w /\ cw_locals w' = cw_locals w /\
       published w' = published w /\ db w' = db w /\ audit_count (cw_log w') = audit_count (cw_log w)) w.
Proof.
  destruct Hports as [_ Hclose]. apply ends_bind, ends_modify, ends_suppressed, ends_port. intros r s Hr.
  assert (audit_count (cw_log w ++ [CloseRag]) = audit_count (cw_log w)) as Hau
    by (rewrite audit_count_app; cbn; lia).
  destruct r as [[]|x]; [by split_and!|]. rewrite (Hclose _ x) by (by rewrite Hr). by split_and!.
Qed.

Lemma stream_body_steps effective started w :
  lc_context (cw_locals w) = context -> lc_seen_final (cw_locals w) = false -> world_ok (cw_memory w) ->
  db w = d -> published w = d ->
  (has_rag_query_permission (rc_auth context) = true ->
   forall id mc s, proper_run (rag_stream P (with_session context id) command mc s).1) ->
  ends (Chat.stream_body P config closes context command effective started) (body_outcome w) w.
Proof.
  intros Hcx Hseen Hok Hd Hp Hruns. unfold Chat.stream_body. apply ends_bind.
  assert (sent_from []) as Hnil.
  { split; [constructor|]. exists [].
    eexists {| mc_session_id := []; mc_messages := []; mc_message_count := 0; mc_used_count := 0;
               mc_dropped_count := 0; mc_token_count := 0 |}, (mw_ports (cw_memory w)). apply prefix_nil. }
  eapply ends_mono; [apply open_turn_steps; [by apply context_trimmed|done|done]|].
  intros [[session mc]|e] w1 [[Hl1 He1 Hcn1 Hse1] Ho]; cbn [fst snd] in Ho.
  2:{ destruct Ho as ([Hc1 Hp1] & Hexc & _). split; [done|].
      assert (unanswered w1) as Hun by (left; congruence).
      destruct e; try discriminate Hexc; (split; [done|]; exists []; rewrite app_nil_r; by rewrite Hl1). }
  cbn zeta. apply ends_bind, ends_modify, ends_bind, ends_port. intros r s2 Hr.
  cbn [fst snd cw_memory] in Hr.
  destruct (rag_stream P (with_session context (cs_id session)) command mc (mw_ports (cw_memory w1))) as [run s'] eqn:Erun.
  injection Hr as <- <-. match goal with |- ends _ _ ?w => set (w2 := w) end.
  assert (opened config context command w session w2) as Ho2 by (destruct Ho; by split).
  assert (proper_run run) as Hrun by (specialize (Hruns (od_permitted _ _ _ _ _ _ Ho) (cs_id session) mc (mw_ports (cw_memory w1)));
    by rewrite Erun in Hruns).
  assert (forall sent, (Ok <$> sent) `prefix_of` run -> Forall nonfinal sent -> sent_from sent) as Hsent.
  { intros sent Hpre Hall. split; [done|]. exists (cs_id session), mc, (mw_ports (cw_memory w1)).
    by rewrite Erun. }
  assert (audit_count (cw_log w2) = audit_count (cw_log w)) as Hau2.
  { unfold w2. cbn [cw_log with_memory]. rewrite audit_count_app, Hl1. cbn. lia. }
  apply ends_bind, ends_finally. eapply ends_mono; [by apply (forward_steps session w)|].
  intros r w3 (sent & Hpre & Hall & Hcx3 & Hcase). eapply ends_mono; [apply closing_steps|].
  intros r' w4 (-> & He4 & Hlo4 & Hp4 & Hd4 & Hau4).
  assert (turn_context (lc_context (cw_locals w4))) as Htc.
  { rewrite Hlo4, Hcx3. right. exists (cs_id session). apply Ho. }
  assert (sent_from sent) as Hsf by (by apply Hsent).
  destruct Hcase as [(He3 & Hp3 & Hau3 & Hok3)|(payload & f & Hen & Hr3 & He3 & Hse3 & Hau3 & Hans)].
  - assert (unanswered w4) as Hun.
    { right. rewrite <- Hd. eapply opened_asked; [exact Ho2|by rewrite Hlo4|congruence]. }
    assert (cw_events w4 = cw_events w ++ sent) as He by (rewrite He4, He3; cbn; by rewrite He1).
    assert (audit_count (cw_log w4) = audit_count (cw_log w)) as Hau by congruence.
    destruct r as [[]|x].
    2:{ split; [done|]. destruct x; try (split; [done|]; by exists sent).
        exists sent, [], 0. rewrite app_nil_r. split_and!; [done|done|lia|by constructor]. }
    destruct (Hok3 eq_refl) as [Hd3 Hse3]. apply ends_bind, ends_reads.
    assert (lc_seen_final (cw_locals w4) = false) as -> by (rewrite Hlo4, Hse3; cbn; congruence).
    assert (db w4 = published w4) as Hclean.
    { rewrite Hd4, Hp4, Hd3, Hp3. symmetry. apply Ho2. }
    apply ends_bind. eapply ends_mono; [apply report_runs_steps; [vm_compute; reflexivity|by apply turn_context_wf]|].
    intros r w5 ([_ He5 Hlo5 Hp5 Hd5] & -> & Hau5).
    eapply ends_mono; [apply yield_failure_steps; by rewrite Hlo5|].
    intros r w6 ([Hl6 Hcx6 Hp6 Hd6] & Hend). split; [by rewrite Hcx6, Hlo5|].
    assert (unanswered w6) as Hun6
      by (apply (unanswered_still w4); [congruence|by rewrite Hcx6, Hlo5|done]).
    assert (audit_count (cw_log w6) = audit_count (cw_log w) + 1) as Hau6 by (rewrite Hl6, Hau5; lia).
    assert (db w6 = published w6) as Hcl6 by congruence.
    destruct Hend as [(x & -> & _ & _ & Hb)|[(-> & e & Hie & He6)|(Hr6 & e & f & Hie & Hif & He6)]].
    + by vm_compute in Hb.
    + exists sent, [e], 1. split_and!; [by rewrite He6, He5, He, <- app_assoc|done|done|by constructor].
    + assert (stream_outcome w r w6) as Hso.
      { exists sent, [e; f], 1. split_and!; [by rewrite He6, He5, He, <- app_assoc|done|done|by constructor]. }
      by destruct Hr6 as [->| ->].
  - assert (stream_outcome w r w4) as Hso.
    { exists sent, [f], 1. split_and!; [rewrite He4, He3; cbn; by rewrite He1|done|lia|].
      econstructor; [done|done|]. destruct Hans as (q & a & Hms & Hdb & Hq & Ha & Hw). exists q, a.
      rewrite Hp4, Hd4. by split_and!. }
    destruct Hr3 as [->| ->]; [|by split].
    apply ends_bind, ends_reads. rewrite Hlo4, Hse3. apply ends_ret. by split.
Qed.

(** Reporting an error of the body. *)
Lemma failing_steps effective started error w0 w :
  turn_context (lc_context (cw_locals w)) -> unanswered w ->
  (exists sent, cw_events w = cw_events w0 ++ sent /\ sent_from sent /\
     audit_count (cw_log w) = audit_count (cw_log w0)) ->
  ends (mthen (mem rollback) (fun _ => mthen (report P command effective started "rag.chat.stream" error true)
          (yield_failure closes effective))) (stream_outcome w0) w.
Proof.
  intros Hcx Hun (sent & He & Hsf & Hau). apply ends_bind, rollback_ends. intros w1 Hl1 He1 Hlo1 Hp1 Hd1.
  apply ends_bind. eapply ends_mono.
  { apply report_runs_steps; [vm_compute; reflexivity|]. rewrite Hlo1. by apply turn_context_wf. }
  intros r w2 ([_ He2 Hlo2 Hp2 Hd2] & -> & Hau2).
  eapply ends_mono; [apply yield_failure_steps; by rewrite Hlo2, Hlo1|].
  intros r w3 ([Hl3 Hcx3 Hp3 Hd3] & Hend).
  assert (unanswered w3) as Hun3 by (apply (unanswered_still w); [congruence|by rewrite Hcx3, Hlo2, Hlo1|done]).
  assert (audit_count (cw_log w3) = audit_count (cw_log w0) + 1) as Hau3
    by (rewrite Hl3, Hau2, Hl1, Hau; lia).
  assert (db w3 = published w3) as Hcl by congruence.
  assert (forall tail, cw_events w3 = cw_events w2 ++ tail -> cw_events w3 = cw_events w0 ++ sent ++ tail) as Hev
    by (intros tail ->; by rewrite He2, He1, He, <- app_assoc).
  destruct Hend as [(x & -> & Hx & He3 & _)|[(-> & e & Hie & He3)|(Hr3 & e & f & Hie & Hif & He3)]].
  - exists sent, [], 1. split_and!; [apply Hev; by rewrite app_nil_r|done|done|by constructor].
  - exists sent, [e], 1. split_and!; [by apply Hev|done|done|by constructor].
  - exists sent, [e; f], 1. split_and!; [by apply Hev|done|done|by constructor].
Qed.

Lemma stream_handler_steps effective started e w0 w :
  body_outcome w0 (Err e) w ->
  ends (Chat.stream_handler P closes command effective started e) (stream_outcome w0) w.
Proof.
  intros [Hcx Hb]. destruct e as [error|ty| |]; cbn [Chat.stream_handler].
  - destruct Hb as [Hun Hs]. by apply failing_steps.
  - destruct Hb as [Hun Hs]. by apply failing_steps.
  - destruct Hb as [Hun (sent & He & Hsf & Hau)]. apply ends_bind. eapply ends_mono.
    { apply report_runs_steps; [vm_compute; reflexivity|by apply turn_context_wf]. }
    intros r w2 ([_ He2 Hlo2 Hp2 Hd2] & -> & Hau2). apply ends_raise. exists sent, [], 1.
    split_and!; [rewrite He2, app_nil_r; done|done|rewrite Hau2; lia|]. constructor.
    apply (unanswered_still w); [done|by rewrite Hlo2|done].
  - by apply ends_raise.
Qed.

Lemma stream_chat_steps session_id s :
  db_wf d ->
  (has_rag_query_permission (rc_auth context) = true ->
   forall id mc s, proper_run (rag_stream P (with_session context id) command mc s).1) ->
  ends (stream_chat P config closes context command session_id) (stream_outcome (request s d context))
    (request s d context).
Proof.
  intros Hd Hruns. unfold stream_chat. apply ends_bind. unfold clock. apply ends_mem, ends_ask.
  intros started m1 Hc1 Hd1. apply ends_bind, ends_modify. cbn zeta.
  match goal with |- ends _ _ ?w => set (w1 := w) end. apply ends_try. eapply ends_mono.
  { apply stream_body_steps; [done|done| | | |done].
    - split; unfold w1; cbn; [rewrite Hd1|rewrite Hc1]; done.
    - unfold w1, db. cbn. by rewrite Hd1.
    - unfold w1, published. cbn. by rewrite Hc1. }
  intros [[]|e] w2 Hb; [by destruct Hb|]. by apply (stream_handler_steps _ _ _ w1).
Qed.
End StreamSteps.

(** * The query service behind a chat *)

(** What a chat turn relies on: the query streams of a permitted caller are proper. *)
Class QueryStreams `{UnicodeDB} {S : Type} (P : chat_ports S) : Prop :=
  streams_proper : forall context command id mc s,
    context_wf context -> has_rag_query_permission (rc_auth context) = true ->
    proper_run (rag_stream P (with_session context id) command mc s).1.

Section FromRagQuery.
Context `{PyRepr, UnicodeDB, NetlocCheck, UnicodeDigits}.
Context {T : Type} (Q : ports T) (svc : RagQueryApplicationService).

(** A stream of [RagQuery], read to its end. *)
Definition query_run (context : RequestContext) (command : QueryCommand) (mc : PromptMemoryContext) (t : T)
  : list (result exc RagStreamEvent) * T :=
  let '(r, w) := stream_query Q svc (fun _ => false) context command (Some mc) (new_world t) in
  ((Ok <$> w_events w) ++ match r with Ok _ => [] | Err e => [Err e] end, w_state w).

Lemma proper_app events run :
  Forall nonfinal events -> proper_run run -> proper_run ((Ok <$> events) ++ run).
Proof. induction 1 as [|e events He Hall IH]; intros Hrun; cbn; [done|]. rewrite He. by apply IH. Qed.

Lemma query_run_proper context command mc t :
  valid_packing_config (qs_context_packing_config svc) = true -> valid_chunks Q -> audit_runs Q ->
  context_wf context -> has_rag_query_permission (rc_auth context) = true ->
  proper_run (query_run context command mc t).1.
Proof.
  intros Hcfg Hchunks Haudit Hwf Hperm. unfold query_run.
  pose proof (stream_query_ends Q svc (fun _ => false) context command (Some mc) t Hperm Hwf Hcfg Hchunks Haudit) as He.
  unfold ends in He. destruct (stream_query Q svc _ context command (Some mc) (new_world t)) as [r w]. cbn in *.
  destruct He as (cits & toks & tail & [-> Hc Ht _] & Hend).
  rewrite !fmap_app, <- !app_assoc. apply proper_app; [|apply proper_app].
  - eapply Forall_impl; [exact Hc|]. by intros [].
  - eapply Forall_impl; [exact Ht|]. by intros [].
  - destruct Hwf as [Hr Htr _]. assert (forall st log c f, is_final context log st c f ->
      exists p, final_payload f = Some p /\ fp_request_id p = rc_request_id context /\ fp_trace_id p = rc_trace_id context) as Hfin.
    { intros st log c f Hf. destruct f; try done. destruct Hf as (-> & -> & _). eexists. by split_and!. }
    inversion Hend as [r' f Hr' Hf Heq1 Heq2|r' e f Hr' He Hf Heq1 Heq2| |e He| |x Hx]; subst; try by cbn.
    + destruct (Hfin _ _ _ _ Hf) as (p & Hp & Hpr & Hpt). cbn. rewrite Hp, Hpr, Hpt.
      split; [|by split]. destruct Hr' as [->| ->]; auto.
    + destruct (Hfin _ _ _ _ Hf) as (p & Hp & Hpr & Hpt). destruct e; try done. cbn.
      rewrite Hp, Hpr, Hpt. split; [|by split]. destruct Hr' as [->| ->]; auto.
    + by destruct e.
Qed.
End FromRagQuery.

(** A chat service whose queries are those of [RagQuery], sharing its state. *)
Section ChatOverRag.
Context `{PyRepr, UnicodeDB, NetlocCheck, UnicodeDigits}.
Context {T : Type} (Q : ports T) (svc : RagQueryApplicationService) (memory : memory_ports T).

Definition chat_over_rag : chat_ports T :=
  {| memory_port := memory;
     rag_query := fun context command mc t =>
       let '(r, w) := query Q svc context command (Some mc) false (new_world t) in
       (x ← r; mret x.1, w_state w);
     rag_stream := query_run Q svc;
     rag_aclose := fun t => (Ok tt, t);
     chat_audit := audit_record Q;
     chat_clock := perf_counter Q |}.

#[export] Instance chat_over_rag_streams :
  TCEq (valid_packing_config (qs_context_packing_config svc)) true -> valid_chunks Q -> audit_runs Q ->
  QueryStreams chat_over_rag.
Proof.
  intros Hcfg%TCEq_eq Hchunks Haudit context command id mc s Hwf Hperm.
  apply query_run_proper; [done..|by apply with_session_wf|done].
Qed.
End ChatOverRag.

Section ChatStreamTheorems.
Context `{PyRepr, UnicodeDB, NetlocCheck} {S : Type} (P : chat_ports S) (config : ChatMemoryConfig).
Context `{!QueryStreams P} (closes : list RagStreamEvent -> bool).

End ChatStreamTheorems.

(** * An instance *)

Module ChatStreamExamples.
Import Examples RedactExamples PackExamples SourceExamples HydrateExamples RagExamples.

(** The memory's identifiers are all the same, so a second message is refused. *)
Definition memory1 : memory_ports unit :=
  {| db_fault := fun s => (false, s); generate_uuid := fun s => (u "id", s); utc_now := fun s => (0%Z, s) |}.

Definition chat1 : chat_ports unit := chat_over_rag StreamExamples.ports1 service1 memory1.

#[export] Instance chat1_streams : QueryStreams chat1.
Proof. apply chat_over_rag_streams; [constructor|apply StreamExamples.ports1_valid|apply StreamExamples.ports1_audit]. Qed.

Lemma chat1_runs : ports_run chat1.
Proof. split; [intros event s x|intros s x]; discriminate. Qed.

(** Over tables that hold nothing the answer cannot be stored, and the stream ends
    with an error report instead of the query's final event. *)
Example unstored_answer :
  (event_type <$> cw_events (stream_chat chat1 default_memory_config (fun _ => false) context1 command1 None
                               (request tt empty_db context1)).2)
  = u <$> ["citation"; "token"; "token"; "error"; "final"]%string.
Proof. vm_compute. reflexivity. Qed.
End ChatStreamExamples.

